(* ===== verification/_CoqProject ===== *)
-Q . S2P
Prelude.v
PyString.v
PyFloat.v
PyDecimal.v
DurableJobs.v
DurableLifecycle.v
DurableProps.v
RedisClient.v
RedisLogic.v
Capacity.v
CapacityProps.v
CapacityRedis.v
Adaptive.v
Worker.v
MaestroUnits.v
PlanCatalog.v
PlanProps.v
PricingReview.v
PyDateTime.v
TopUpQuote.v
PyText.v
PyJson.v
Authority.v
JsonLoads.v
RedisCodec.v
RedisStore.v
RedisModel.v
RedisSafety.v
RedisProps.v
RedisSolo.v
BillingPeriod.v
Uow.v
TopUpDb.v
LemonWebhook.v
SalesDb.v
MarketDb.v
CommerceAudit.v
DirectOrder.v
PaymentEvidence.v
PaymentReconciliation.v
Activation.v
QuotaUsage.v
Delinquency.v
TopUpOrder.v
TopUpGrant.v
TopUpSpec.v
LemonRuntime.v
LemonInbox.v
LemonProcess.v
LemonTopUp.v
LemonCheckout.v
MarketFrames.v
LemonSpec.v
OrderSpec.v
SalesChange.v
LemonTopUpSpec.v
MarketLedger.v
SalesLedger.v
ProviderLedger.v
TopUpLedger.v
QuotaProps.v
DelinquencyProps.v
ProviderProps.v
OrderHistory.v
SalesProps.v
CommercialEvents.v
TopUpService.v
TopUpServiceProps.v
SalesRequestProps.v
PricingProps.v
KernelCore.v
Governor.v
Maestro.v
MaestroProps.v
Identity.v
IdentityMfa.v
IdentityFrames.v
IdentityProps.v
Delivery.v
DeliveryProps.v
