(* ===== verification/Prelude.v ===== *)
(** * Verification of the Processual Maestro commercial and execution core

    The program is a FastAPI service that sells metered "Maestro units" and runs the
    work they pay for, around a kernel that conducts agents through workflows.  This
    library models the parts of it that decide: which agent runs which step of a workflow
    and what becomes of both, who may execute what and at which price, which unit of work
    is charged to which balance, what a missed payment does to an account, how a
    submitted job reaches a worker exactly as often as it should, and who holds a session.  Source paths are under
    [src/processual_api/], those of the kernel under [src/].

    ** Parts and files

    - Foundations.  [Prelude] (this file): Python exceptions as values ([res]), the
      state-and-exception monad [M], dictionaries, the tactics and hint databases.
      [PyString]: [str.strip], [str.lower] and the string helpers.  [PyDecimal]: the
      [decimal] arithmetic with its 28 digits, and its values in [Q].  [PyFloat]: the
      interface of Python's floats, an ordered type of clock readings and durations with
      the laws the theorems need, with two instances.  [PyDateTime]: [datetime] with its
      validity, the instant an aware value denotes, [replace], [timedelta] and the range
      errors.  [PyText]: digits, [Decimal] and UUIDs from text and back, [isoformat];
      the text of an amount reads back as the amount.
    - The Maestro kernel.  [KernelCore]: the class [Float] of the float operations with the
      laws of rounding ([FloatLaws]) and its instance of exact rationals; the contracts
      ([processual_kernel/contracts]), telemetry, coefficients and vitality
      ([continuity.py]), the bridge to the engine ([cgt_bridge.py]) and the types and
      validators of [cgtlib] it meets there.  [Governor] models [governor.py] and the
      records of [types.py]: the policy, and the verdicts on agents, handoffs and
      workflows.  [Maestro] models [kernel.py]: registration, observation, routing,
      handoffs, the life of a workflow, and its run as rounds of steps given to the
      runtime, whose replies say what others did to the kernel meanwhile.  [MaestroProps]:
      the invariant of a kernel, the machine on the steps of a workflow a run refines, the
      theorems on runs and observations, concrete runs.
    - Durable jobs.  [DurableJobs] models [execution/durable.py]
      ([InMemoryDurableJobStore]: submit, claim, heartbeat, release_unstarted_claim,
      succeed, fail, request_cancel, cancel_claimed, recover_expired_leases) and its step
      function [exec]; [DurableLifecycle] the well-formedness of a store and the job-level
      step relation every operation refines; [DurableProps] the theorems on runs.
    - The Redis job store.  [RedisClient] models clients of a Redis server: the commands
      the store sends with their laws (class [Redis]), a program as the tree of its
      commands and replies, optimistic transactions ([WATCH], [EXEC]) and a system of
      clients that interleave command by command and may crash; [RedisLogic] is a program
      logic for them, with the rules for guarded commits.  [JsonLoads] models [json.loads], the reader of what [PyJson] writes;
      [RedisCodec] the hash of a job and its reading, [RedisStore] every operation of
      [execution/redis_store.py] ([RedisDurableJobStore]).  [RedisModel] relates the keys
      of a server to the in-memory store of [DurableJobs] and its two indexes and lists the
      changes operations make; [RedisSafety] proves every program makes only these;
      [RedisSolo] compares an undisturbed operation with the in-memory one;
      [RedisProps] has the theorems and a concrete server with two runs.
    - Capacity.  [Capacity] models [execution/capacity.py]: the policy, the backend
      protocol as a class with laws, the in-memory backend as its instance, the controller
      proved against the class; [CapacityProps] its theorems.  [CapacityRedis] is the Redis
      backend of the same file, its three Lua scripts included, and a second instance.
    - Adaptive concurrency.  [Adaptive] models [execution/adaptive.py]: the controller, the
      sampler that feeds it, and the gate as the sections its lock protects, with the theorems.
    - The worker.  [Worker] models [execution/worker.py] ([DurableWorker.run_once]) over any
      store and capacity backend; what the event loop decides, what others do meanwhile and
      at which of its awaits the task is cancelled is a script.  Its theorems say what a run
      does to the job it took and to its reservation.
    - Plans and prices.  [MaestroUnits] and [PlanCatalog] model
      [billing/maestro_units.py], [plan_fulfillment_catalog.py],
      [plan_capability_matrix.py], [plan_entitlement_gate.py] and [usage_pricing.py];
      [PlanProps] relates the gates and the tables to each other.  [PricingReview] models
      [maestro_group1_pricing_review.py] and [maestro_group1_selected_pricing.py];
      [TopUpQuote] the catalog contracts, [commercial_quota_top_up_contracts.py] and
      [commercial_currency_settlement_contracts.py]; [PricingProps]
      their theorems, and those on the amounts of the provider.
    - Billing periods.  [BillingPeriod] models
      [admin_marketplace/subscription_billing_period.py] and has its theorem.
    - The marketplace core.  [Uow] models a unit of work over a database (session, commit
      with constraints, rollback), [MarketDb] the tables, their CHECK and UNIQUE
      constraints and the repositories.  On them: [QuotaUsage]
      ([subscription_runtime_access_policy.py] and [subscription_quota_usage.py], with
      their specification, and [subscription_quota_rollover.py]) and
      [Delinquency] ([subscription_rollover_delinquency.py] and
      [subscription_delinquency_policy.py], with their specification).  [MarketFrames] says what each kind of request
      leaves alone, [MarketLedger] collects the requests in one alphabet and
      has the invariant they keep and a concrete database; [QuotaProps]
      and [DelinquencyProps] the theorems.
    - Top-ups, on the same database.  [TopUpDb]: the tables of orders, payment evidence,
      grants and reversals, and of the provider's webhook inbox, decisions and bindings.  [TopUpOrder] models [subscription_top_up_eligibility.py] and
      [subscription_top_up_order.py], [TopUpGrant] [subscription_top_up_grant.py],
      [local_tunisia_top_up_payment.py] and [subscription_top_up_reversal.py];
      [TopUpSpec] states what each request does and proves that it does it;
      [TopUpLedger] has the invariant of their ledger and the theorems, [OrderHistory] what
      every request of the marketplace does to the orders, payments, grants and checkouts
      there are, with the theorem on checkouts.
    - The commercial top-up service, next to the marketplace.  [CommercialEvents] models
      [billing/commercial_state_machine.py], [commercial_event_contracts.py],
      [commercial_top_up_transition_authority.py], [commercial_top_up_event_ledger.py] (over
      the class [TopUpEventLedgerRepository]) and the records of
      [commercial_event_repository.py]; [TopUpService] the contracts of
      [commercial_top_up_order_grant_contracts.py], the tables, repositories and unit of
      work, and [commercial_top_up_application_service.py]; [TopUpServiceProps] the
      histories of both services together and the theorems.
    - The payment provider, on the same database.  [LemonWebhook] models
      [lemon_squeezy_webhooks.py] and [lemon_squeezy_evidence.py] over the class
      [WebhookPrimitives]; [LemonInbox] [lemon_squeezy_inbox.py], its lifecycle and the
      ingestion service; [LemonProcess] [lemon_squeezy_reconciliation_gate.py],
      [lemon_squeezy_context_loader.py] and [lemon_squeezy_reconciliation_processor.py];
      [LemonRuntime] [lemon_squeezy_subscription_reconciliation.py] and
      [lemon_squeezy_runtime_reconciliation.py], which the processor calls,
      and [lemon_squeezy_binding_service.py]; [LemonTopUp] the processors of paid and refunded
      top-ups and the dispatch of [lemon_squeezy_secure_webhook_router.py];
      [LemonCheckout] [lemon_squeezy_top_up_checkout.py], its recovery and
      [top_up_recovery_scan.py], where the two units of work around the call of the
      provider are separate steps.  [LemonSpec] and [LemonTopUpSpec] (with the section
      [CheckoutSpec]) state what each request does and prove that it does it;
      [ProviderLedger] has the history of the inbox; [ProviderProps] the theorems, with
      concrete webhooks.
    - The direct sales, on the same database.  [SalesDb]: offers, orders, contracts,
      payment evidence and verifications, reconciliation cases, destinations,
      eligibilities, activations, audit records and the outbox.  [PyJson]: JSON values,
      their canonical text, and the class [Sha256].  [Authority] models [authority.py];
      [CommerceAudit] [audit_contracts.py], the enqueueing of [notification_outbox.py],
      the queries of [persistence/repositories.py] and what the services share;
      [DirectOrder] [direct_order_service.py] and [contract_service.py];
      [PaymentEvidence] [payment_evidence_service.py]; [PaymentReconciliation]
      [payment_reconciliation_service.py]; [Activation] [activation_gate.py] and
      [subscription_activation_service.py].  [OrderSpec]
      states what each request does and proves that it does it; [SalesChange] reduces the
      requests to six changes, [SalesLedger] has the machine of the phases of an order and
      the invariant, [SalesProps] (with a concrete sale) and [SalesRequestProps] the
      theorems.
    - Identities ([auth/]).  [Identity]: the tables of [models.py] with their unique
      constraints, the class [IdentityPrimitives] of the cryptography, [passwords.py],
      [token_material.py], [normalization.py], and the sessions: [session_service.py] with
      [session_repository.py].  [IdentityMfa]: [totp.py], [mfa_service.py] with
      [mfa_repository.py], [mfa_crypto.py] and [delivery_crypto.py], [account_recovery_service.py]
      with [account_recovery_repository.py].  [IdentityFrames] proves what each of the thirteen
      requests leaves alone and moves forward, [IdentityProps] the theorems on their
      histories, with a concrete one.
    - The delivery of messages to identities, on the same database.  [Delivery] models
      [delivery_repository.py], [delivery_dispatcher.py], [delivery_operations_service.py]
      and the loop of [delivery_worker.py]; a run of the dispatcher takes a script of the
      clock, of the answers of the provider and of what others do meanwhile, in the
      alphabet of all requests and transactions.  [DeliveryProps] has the theorems.

    ** How state and operations correspond

    A Python object that is mutated in place becomes a value threaded through [M]: a
    mutation made before an exception is kept in the state the exception leaves (this is
    how a failed [fail] strands a job).  A database request is a function of the committed
    database: [with_uow] runs the body on a session and keeps only what was committed.
    The store's asyncio lock and the database's row locks and unique constraints make an
    operation one step; interleavings are lists of steps, and each theorem on runs
    quantifies over all of them.  A step of the Redis store is one command of one client.  The kernel runs on one event
    loop: others act only while a task is awaited, by a list of operations its reply
    carries, and one run of a workflow is under way at a time.  Clock readings, drawn
    identifiers (uuid4, tokens) and scripts of other workers are arguments of the step.

    ** What the theorems show

    - Workflows: a task runs only when its dependencies are completed and receives their
      outputs, with an active and capable agent; a run ends, gives each step to the runtime
      within its attempts, and leaves no work undone unless it is escalated; its state is
      the governor's verdict.  Kernels stay well formed after any history, critical agents
      are never archived, vitality moves by at most the time step, and what the engine is
      given passes its validators, whatever was measured.  Three defects: an intervention
      made while a task runs is lost, a task that raises strands its step, and an agent
      whose vitality sank too low can no longer be observed.
    - Usage: a verdict computed from the database decides whether a request is charged,
      replayed, refused without trace or refused with the grace expiry recorded, and the
      request does what the verdict says; once accepted it is charged once; the
      ledger and the balances agree after any sequence of requests; nothing within the
      balance of an active subscription is refused.
    - Rollover and delinquency: the one cycle that follows a source, contiguous and with the
      units of the plan along any history; the locking, restoring and
      expiring of rollover balances, the escalation of missed payments; and three defects:
      units that can be spent in two cycles, an escalation no request can ever commit, and
      a second delinquency that locks nothing.
    - Jobs: the store stays well formed along any interleaving, terminal jobs never change,
      a lost lease is fenced for ever, resubmission is idempotent, claim takes the least
      eligible job, the backoff is monotone and bounded, the sweep is complete; and two
      ways a job can be left behind.
    - Redis: whatever clients interleave and wherever they crash, the content of the server
      follows the lifecycle of the in-memory store; a request under a lease succeeds only by
      a command that finds the lease on the server, and not after it was lost; an operation
      alone behaves as in memory; a job read back is the job written; and one defect: the
      clean-up of a claim can drop a live queue entry, and no request that starts
      afterwards claims the job.
    - Capacity: the controller keeps any lawful backend within the policy and returns once
      its deadline has been read; both backends are lawful; and one defect: a reservation in
      Redis cannot be renewed past the expiry its admission set.
    - Adaptive concurrency: the limit stays within the policy and moves only by the windows
      observed; the gate admits below the limit and loses no wake-up.
    - Worker: a run consumes an attempt exactly when it starts the handler, and only gives
      its claim back when capacity is refused, wherever it is cancelled and whatever others do
      meanwhile; and one defect: after a failed heartbeat the reservation stays taken.
    - Plans: both entitlement gates decide alike, the production boundary holds, prices,
      quota costs and allowances agree across the four tables.
    - Prices: the selected prices against the computed floor (which three yearly prices
      break), exact top-up quotes, settlements in dinars to the millime and exactly the
      amounts a local order is accepted for.
    - Top-ups: the units of a cycle are the units granted less the units taken back, every
      grant was paid in full, is made once, and a refund is decided once and never takes
      back consumed units; a payment verified too late leaves no record.
    - The top-up service: a grant it records has its order, its payment in the terms of the
      order, its chain of events and its audit records, whatever else is requested; a
      recorded payment is recognised for ever; stored events read back.  Two defects: it can
      neither create an order nor record the payment of an order the marketplace made, and
      what it grants reaches no balance.
    - Webhooks: an entry is decided once and the way its decision says, a webhook accepted
      once is recognised for ever, a paid order is granted once; an order is offered to the
      provider once, and the price asked comes back as the price compared; and two
      defects: the reconciliation never reaches a subscription, and the replay of a refund
      left for review reports it as reversed.
    - Direct sales: an activated order has its completed contract, a verified payment that
      matched and one audit record for each change; every order moves along the machine of
      its phases and keeps what was sold; it is sold at the newest price, its key is
      recognised for ever, only its customer and an administrator with the authority
      change it, and a request that raises changes nothing; and three defects: a decision
      on a payment that does not match ends the sale though the order stays payable, an
      order a reconciliation takes out of ready is stranded, and four of the six actions
      of the reconciliation always fail.
    - Identities: after any history of the requests, an exchanged refresh token revokes its
      session when it comes back, a revoked session is answered nothing, a session has one
      live token, a token of full scope was preceded by the proof of a required second
      factor for its session, a code is accepted once, a recovered account has lost all it
      held; and the lockout bounds the passwords that can be tried.  Two defects: a label
      of a factor can be enrolled once for ever, and an administrator of the platform may
      disable the factor every login requires of it.
    - Deliveries: whatever dispatchers, operators and identities interleave, an entry of the
      outbox keeps its message and stays as it was delivered, a running lease is exclusive,
      a lost claim finalizes nothing, a run accounts for its batch, and the link of a
      recovery goes to the verified address with the token its request is verified with.
    - Periods: anchored monthly cycles never drift from the activation date.

    ** Bounds and fuel

    Integers are Python's, hence [Z].  The waiting loop of [acquire] has fuel: it returns for every fuel above the index of the
    first clock reading past the deadline; a run of the worker passes that fuel on.  The
    rounds of a workflow have fuel, and more than the attempts its pending steps have left
    is enough ([run_workflow_ends]).  The retry loops of the
    Redis store have the budgets of the code (8, and 12 for a claim); the JSON reader spends
    fuel on each value and element, and twice the length of the text plus two is enough
    ([json_round_trip] has it for every text written).  All other loops run over finite
    lists or maps.  Years are bounded as in
    Python (1 to 9999) and the arithmetic raises outside.

    ** Not modelled

    Text is ASCII where the code lowers or strips it.  Floats are any type with the laws
    of [PyFloat]; NaN is outside them.  The laws of the kernel's floats speak of finite
    numbers, and infinities and NaN are values among others.  The engine behind [cgtlib] is
    a private package, a parameter of the kernel, and so is the agent runtime; timestamps,
    random identifiers and the read-only snapshots of the kernel are left out.  Time zones are fixed offsets.  Audit columns and
    foreign keys of the tables are left out, and so is what the database does beyond
    transactions and the constraints listed.  SHA-256 is the class [Sha256], UUID version 5 the class [Uuid5]; HMAC, the reading of a
    webhook body as JSON and [datetime.fromisoformat] are the class [WebhookPrimitives],
    which extends it; the HTTP client of the provider is the answer a step is given.  Redis
    and its client library are the class [Redis]; keys of a wrong type and lost connections
    are outside it.  The optimised Redis store and the repair of its indexes, the worker
    pool and the service around it, the HTTP routers beyond the dispatch of the webhook endpoint, the
    runtime transitions and other services of the marketplace, the read models, the batches and reports around [cgtlib], the
    adaptive toolkit of the kernel (scores and reports the kernel does not call), its
    notifications, metrics and encryption, the text governor ([cgt_governor]) and the
    integrations are not modelled.  Of the identities, registration, the HTTP client of
    the delivery provider, the administration of authorities, cookies and rate limits are not; JWT
    encoding is the record of the claims; Argon2, the HMACs and AES-GCM with its keys are
    the class [IdentityPrimitives]. *)
From stdpp Require Export base option list numbers gmap strings sorting.
From Stdlib Require Export ssreflect ZArith Lia.

Declare Scope maestro_scope.
Delimit Scope maestro_scope with maestro.
#[global] Open Scope general_if_scope.
#[global] Open Scope Z_scope.

(** ** Python exceptions

    The class of an exception is a constructor; [except] clauses of the code
    select on it.  The message is the text the code passes. *)
Inductive exn_class :=
  | ValueError | TypeError | KeyError | OverflowError | RuntimeError | CancelledError
  | InvalidOperation
  | IntegrityError
  | IdempotencyConflictError | JobLeaseLostError | JobNotFoundError
  | DomainCapacitySaturatedError | DomainCapacityLeaseLostError
  | CommercialTransitionError | TopUpEventLedgerConflictError
  | TopUpApplicationServiceDisabledError | TopUpApplicationConflictError
  | TopUpApplicationNotFoundError
  | PlanEntitlementDeniedError
  | SubscriptionRuntimeAccessError | SubscriptionRolloverDelinquencyError
  | SubscriptionQuotaUsageError | SubscriptionQuotaRolloverError
  | AdminMarketplaceDuplicateReferenceError | AdminMarketplaceConflictError
  | LemonSqueezyWebhookError | LemonSqueezyEvidenceError | LemonSqueezyBindingConflictError
  | CalibrationValidationError | PricingReviewValidationError
  | SubscriptionTopUpEligibilityError | SubscriptionTopUpOrderError
  | SubscriptionTopUpGrantError | SubscriptionTopUpReversalError
  | LocalTunisiaTopUpPaymentError
  | LemonSqueezyTopUpCheckoutError | LemonSqueezyTopUpCheckoutRecoveryError
  | AdminMarketplaceAuthorityDeniedError | AdminMarketplaceStepUpRequiredError
  | AdminMarketplaceAuditSafetyError
  | DirectCommerceUnavailableError | DirectCommerceConflictError
  | ContractCompletionConflictError | CommercialOrderNotFoundError
  | PaymentEvidenceNotFoundError | PaymentEvidenceConflictError
  | PaymentVerificationConflictError | PaymentReconciliationConflictError
  | SubscriptionActivationNotReadyError | SubscriptionActivationConflictError
  | InvalidSessionCredentialsError | RefreshTokenReuseError
  | InvalidMfaCredentialError | MfaConflictError | MfaStepUpRequiredError | MfaAuthorityUnavailableError
  | AccountRecoveryDeniedError | DeliveryRedriveUnavailableError | MultipleResultsFound
  | AttributeError
  | IndexError
  | ValidationError | FeatureUnavailableError
  | HTTPException.

#[global] Instance exn_class_eq_dec : EqDecision exn_class.
Proof. solve_decision. Defined.

Record exn := Exn { exn_kind : exn_class; exn_text : string }.

#[global] Instance exn_eq_dec : EqDecision exn.
Proof. solve_decision. Defined.

(** ** Fallible computations *)
Inductive res (A : Type) :=
  | Ok (a : A)
  | Raise (e : exn).
Arguments Ok {A} a.
Arguments Raise {A} e.

#[global] Instance res_eq_dec `{EqDecision A} : EqDecision (res A).
Proof. solve_decision. Defined.

#[global] Instance res_ret : MRet res := fun A a => Ok a.
#[global] Instance res_bind : MBind res := fun A B f m =>
  match m with Ok a => f a | Raise e => Raise e end.

Definition raise {A} (k : exn_class) (msg : string) : res A := Raise (Exn k msg).

(** [if not b: raise k(msg)]. *)
Definition ensure (b : bool) (k : exn_class) (msg : string) : res unit :=
  if b then Ok tt else raise k msg.

(** [if b: raise k(msg)]. *)
Definition reject_if (b : bool) (k : exn_class) (msg : string) : res unit :=
  ensure (negb b) k msg.

Definition is_ok {A} (m : res A) : bool :=
  match m with Ok _ => true | Raise _ => false end.

Lemma res_bind_Ok {A B} (m : res A) (f : A -> res B) (b : B) :
  (m ≫= f) = Ok b <-> exists a, m = Ok a /\ f a = Ok b.
Proof. destruct m; cbv; naive_solver. Qed.

Lemma ensure_Ok b k msg u : ensure b k msg = Ok u <-> b = true.
Proof. destruct b, u; cbv; naive_solver. Qed.

Lemma reject_if_Ok b k msg u : reject_if b k msg = Ok u <-> b = false.
Proof. unfold reject_if. rewrite ensure_Ok. by destruct b. Qed.

Lemma is_ok_true {A} (m : res A) : is_ok m = true <-> exists a, m = Ok a.
Proof. destruct m; cbn; naive_solver. Qed.

(** ** Fallible computations on a mutable object store

    A Python function that mutates objects and may raise: the state reached
    when the exception is raised is kept, because the mutations already made
    are. *)
Definition M (S A : Type) : Type := S -> res A * S.

Section StateMonad.
Context {S : Type}.

#[global] Instance M_ret : MRet (M S) := fun A a s => (Ok a, s).
#[global] Instance M_bind : MBind (M S) := fun A B f m s =>
  match m s with
  | (Ok a, s') => f a s'
  | (Raise e, s') => (Raise e, s')
  end.

Definition get : M S S := fun s => (Ok s, s).
Definition put (s' : S) : M S unit := fun _ => (Ok tt, s').
Definition modify (f : S -> S) : M S unit := fun s => (Ok tt, f s).
Definition gets {A} (f : S -> A) : M S A := fun s => (Ok (f s), s).
Definition lift {A} (m : res A) : M S A := fun s => (m, s).
Definition throw {A} (k : exn_class) (msg : string) : M S A := lift (raise k msg).

Lemma M_bind_Ok {A B} (m : M S A) (f : A -> M S B) s b s' :
  (m ≫= f) s = (Ok b, s') <->
  exists a s1, m s = (Ok a, s1) /\ f a s1 = (Ok b, s').
Proof.
  unfold mbind, M_bind. destruct (m s) as [[a|e] s1]; naive_solver.
Qed.

Lemma M_bind_eq {A B} (m : M S A) (f : A -> M S B) s :
  (m ≫= f) s = match m s with
               | (Ok a, s') => f a s'
               | (Raise e, s') => (Raise e, s')
               end.
Proof. reflexivity. Qed.

Lemma lift_Ok {A} (m : res A) s a s' :
  lift m s = (Ok a, s') <-> m = Ok a /\ s = s'.
Proof. unfold lift. destruct m; naive_solver. Qed.
End StateMonad.

(** [for x in xs: ...] over a fallible, mutating body. *)
Fixpoint for_each {S A : Type} (f : A -> M S unit) (xs : list A) : M S unit :=
  match xs with
  | [] => mret tt
  | x :: xs' => f x ;; for_each f xs'
  end.

(** ** Counting the entries of a finite map *)
Section CountMap.
Context {K A : Type} `{Countable K}.
Implicit Types (m : gmap K A) (P : A -> Prop).

(** Number of entries whose value satisfies [P]. *)
Definition count_if P `{forall a, Decision (P a)} m : Z :=
  Z.of_nat (size (filter (fun kv => P kv.2) m)).

Lemma count_if_subseteq P `{forall a, Decision (P a)} m m' :
  m ⊆ m' -> count_if P m <= count_if P m'.
Proof.
  intros Hs. unfold count_if. apply inj_le, map_subseteq_size.
  by apply map_filter_subseteq_mono.
Qed.

Lemma count_if_insert P `{forall a, Decision (P a)} m k v :
  count_if P (<[k := v]> m) <= count_if P m + (if decide (P v) then 1 else 0).
Proof.
  unfold count_if. destruct (decide (P v)) as [Hv|Hv].
  - rewrite map_filter_insert_True; [done|]. rewrite map_size_insert.
    case_match; cbn; lia.
  - rewrite map_filter_insert_False; [done|].
    pose proof (count_if_subseteq P (delete k m) m (delete_subseteq m k)) as Hle.
    unfold count_if in Hle. lia.
Qed.

Lemma count_if_delete P `{forall a, Decision (P a)} m k :
  count_if P m = count_if P (delete k m) + match m !! k with Some v => if decide (P v) then 1 else 0 | None => 0 end.
Proof.
  unfold count_if. destruct (m !! k) as [v|] eqn:E; [|by rewrite delete_id; [|lia]].
  rewrite -{1}(insert_delete_id m k v E). destruct (decide (P v)) as [Hv|Hv].
  - rewrite map_filter_insert_True // map_size_insert map_lookup_filter lookup_delete_eq. cbn. lia.
  - rewrite map_filter_insert_False // (delete_id (delete k m)) ?lookup_delete_eq //. lia.
Qed.

Lemma count_if_insert_eq P `{forall a, Decision (P a)} m k v :
  count_if P (<[k := v]> m) = count_if P (delete k m) + (if decide (P v) then 1 else 0).
Proof. rewrite (count_if_delete P (<[k := v]> m) k) delete_insert_eq lookup_insert_eq. done. Qed.

(** Replacing a value by one on which [P] agrees does not add to the count. *)
Lemma count_if_replace P `{forall a, Decision (P a)} m k v v' :
  m !! k = Some v -> (P v' <-> P v) -> count_if P (<[k := v']> m) <= count_if P m.
Proof.
  intros Hk Hp. unfold count_if. destruct (decide (P v')) as [Hv|Hv].
  - rewrite map_filter_insert_True; [done|]. rewrite map_size_insert_Some; [|lia].
    exists v. apply map_lookup_filter_Some. split; [done|]. by apply Hp.
  - rewrite map_filter_insert_False; [done|].
    pose proof (count_if_subseteq P (delete k m) m (delete_subseteq m k)) as Hle.
    unfold count_if in Hle. lia.
Qed.

Lemma size_insert_le m k v : Z.of_nat (size (<[k := v]> m)) <= Z.of_nat (size m) + 1.
Proof. rewrite map_size_insert. case_match; cbn; lia. Qed.

Lemma size_subseteq_le m m' : m ⊆ m' -> Z.of_nat (size m) <= Z.of_nat (size m').
Proof. intros. by apply inj_le, map_subseteq_size. Qed.
End CountMap.

(** ** Python dict literals

    A dict that the code only reads: its entries in insertion order. *)
Section Dict.
Context {K V : Type} `{EqDecision K}.

(** [d.get(k)]. *)
Fixpoint dict_get (d : list (K * V)) (k : K) : option V :=
  match d with
  | [] => None
  | (k', v) :: d' => if bool_decide (k = k') then Some v else dict_get d' k
  end.

Definition dict_keys (d : list (K * V)) : list K := d.*1.
Definition dict_values (d : list (K * V)) : list V := d.*2.

(** [k in d]. *)
Definition dict_mem (d : list (K * V)) (k : K) : bool := bool_decide (k ∈ dict_keys d).

Lemma dict_get_Some_elem d k v : dict_get d k = Some v -> (k, v) ∈ d.
Proof.
  induction d as [|[k' v'] d IH]; cbn; [done|]. case_bool_decide as E.
  - intros [= ->]. rewrite E. left.
  - intros. right. auto.
Qed.

Lemma dict_get_None d k : dict_get d k = None <-> k ∉ dict_keys d.
Proof.
  induction d as [|[k' v'] d IH]; cbn.
  - split; [intros _; apply not_elem_of_nil|done].
  - rewrite not_elem_of_cons. case_bool_decide as E; [naive_solver|]. rewrite IH. naive_solver.
Qed.

(** A property of all entries holds of what [get] returns. *)
Lemma dict_get_forallb (P : K -> V -> bool) d k v :
  forallb (fun e => P e.1 e.2) d = true -> dict_get d k = Some v -> P k v = true.
Proof.
  intros Hf Hg%dict_get_Some_elem. rewrite forallb_forall in Hf.
  exact (Hf (k, v) (proj1 (list_elem_of_In _ _) Hg)).
Qed.

(** [d[k] = v]: the entry keeps its place, a new one comes last. *)
Fixpoint dict_set (d : list (K * V)) (k : K) (v : V) : list (K * V) :=
  match d with
  | [] => [(k, v)]
  | (k', v') :: d' => if bool_decide (k = k') then (k, v) :: d' else (k', v') :: dict_set d' k v
  end.

Lemma dict_get_set_eq d k v : dict_get (dict_set d k v) k = Some v.
Proof.
  induction d as [|[k' v'] d IH]; cbn; [by rewrite bool_decide_eq_true_2|].
  case_bool_decide as E; cbn; [by rewrite bool_decide_eq_true_2|by rewrite bool_decide_eq_false_2].
Qed.

Lemma dict_get_set_ne d k k' v : k' <> k -> dict_get (dict_set d k v) k' = dict_get d k'.
Proof.
  intros Hne. induction d as [|[k1 v1] d IH]; cbn; [by rewrite bool_decide_eq_false_2|].
  case_bool_decide as E; cbn; [subst k1; by rewrite bool_decide_eq_false_2|].
  case_bool_decide; [done|apply IH].
Qed.

Lemma dict_set_set d k v v' : dict_set (dict_set d k v) k v' = dict_set d k v'.
Proof.
  induction d as [|[k1 v1] d IH]; cbn; [by rewrite bool_decide_eq_true_2|].
  case_bool_decide as E; cbn; [by rewrite bool_decide_eq_true_2|by rewrite bool_decide_eq_false_2 // IH].
Qed.

Lemma dict_set_id d k v : dict_get d k = Some v -> dict_set d k v = d.
Proof.
  induction d as [|[k1 v1] d IH]; cbn; [done|]. case_bool_decide as E; [by intros [= ->]; subst|].
  intros Hd. by rewrite IH.
Qed.

Lemma dict_get_set d k k' v : dict_get (dict_set d k v) k' = if bool_decide (k' = k) then Some v else dict_get d k'.
Proof. case_bool_decide as E; [subst; apply dict_get_set_eq|by apply dict_get_set_ne]. Qed.

(** Replacing the entry of a key keeps the keys. *)
Lemma dict_keys_set d k v : is_Some (dict_get d k) -> dict_keys (dict_set d k v) = dict_keys d.
Proof.
  induction d as [|[k1 v1] d IH]; cbn; [by intros [? ?]|]. case_bool_decide as E; cbn; [by subst|].
  intros Hs. f_equal. by apply IH.
Qed.

(** The entries of a dict with distinct keys are what [get] returns. *)
Lemma dict_get_elem d k v : NoDup (dict_keys d) -> dict_get d k = Some v <-> (k, v) ∈ d.
Proof.
  intros Hnd. split; [apply dict_get_Some_elem|]. induction d as [|[k1 v1] d IH]; [by intros ?%not_elem_of_nil|].
  cbn in Hnd. apply NoDup_cons in Hnd as [Hk1 Hnd]. intros [[= -> ->]|Hin]%elem_of_cons; cbn.
  - by rewrite bool_decide_eq_true_2.
  - rewrite bool_decide_eq_false_2; [|by apply IH]. intros ->. apply Hk1. apply list_elem_of_fmap. by exists (k1, v).
Qed.

Lemma dict_keys_get d k : is_Some (dict_get d k) <-> k ∈ dict_keys d.
Proof.
  destruct (dict_get d k) as [v|] eqn:E.
  - split; [|by eexists]. intros _. apply dict_get_Some_elem in E. apply list_elem_of_fmap. by exists (k, v).
  - apply dict_get_None in E. split; [by intros [? ?]|done].
Qed.

Lemma dict_set_keys_NoDup d k v : NoDup (dict_keys d) -> NoDup (dict_keys (dict_set d k v)).
Proof.
  intros Hnd. destruct (dict_get d k) as [v0|] eqn:E; [rewrite dict_keys_set; [by rewrite E|done]|].
  apply dict_get_None in E. assert (dict_set d k v = d ++ [(k, v)]) as ->.
  { clear Hnd. induction d as [|[k1 v1] d IH]; [done|]. cbn in *. apply not_elem_of_cons in E as [Hne E].
    rewrite bool_decide_eq_false_2 // IH //. }
  unfold dict_keys. rewrite fmap_app. apply NoDup_app. split_and!; [done| |apply NoDup_singleton].
  cbn. by intros x Hx ->%list_elem_of_singleton.
Qed.
End Dict.

(** ** Automation *)

(** Splits hypotheses that say a computation of the model returned. *)
Ltac inv_ok :=
  repeat match goal with
  | H : Ok _ = Ok _ |- _ => injection H as H
  | H : mret _ = Ok _ |- _ => injection H as H
  | H : Raise _ = Ok _ |- _ => discriminate H
  | H : Ok _ = Raise _ |- _ => discriminate H
  | H : (_ ≫= _) = Ok _ |- _ =>
      apply res_bind_Ok in H; destruct H as (? & ? & H)
  | H : ensure _ _ _ = Ok _ |- _ => apply ensure_Ok in H
  | H : reject_if _ _ _ = Ok _ |- _ => apply reject_if_Ok in H
  | H : raise _ _ = Ok _ |- _ => discriminate H
  | H : lift _ _ = (Ok _, _) |- _ => apply lift_Ok in H; destruct H as [H ?]
  | H : exists _, _ |- _ => destruct H
  | H : _ /\ _ |- _ => destruct H
  end.

(** Turns the boolean tests of the code into the propositions they decide. *)
Ltac to_prop :=
  repeat match goal with
  | H : bool_decide _ = true |- _ => apply bool_decide_eq_true in H
  | H : bool_decide _ = false |- _ => apply bool_decide_eq_false in H
  | H : andb _ _ = true |- _ => apply andb_true_iff in H; destruct H
  | H : orb _ _ = false |- _ => apply orb_false_iff in H; destruct H
  | H : negb _ = true |- _ => apply negb_true_iff in H
  | H : negb _ = false |- _ => apply negb_false_iff in H
  | H : Z.leb _ _ = true |- _ => apply Z.leb_le in H
  | H : Z.leb _ _ = false |- _ => apply Z.leb_gt in H
  | H : Z.ltb _ _ = true |- _ => apply Z.ltb_lt in H
  | H : Z.ltb _ _ = false |- _ => apply Z.ltb_ge in H
  | H : Z.eqb _ _ = true |- _ => apply Z.eqb_eq in H
  | H : Z.eqb _ _ = false |- _ => apply Z.eqb_neq in H
  end.

(** Splits a boolean conjunction into its parts. *)
Ltac split_andb :=
  repeat match goal with |- andb _ _ = true => apply andb_true_iff; split end.

(** Runs the first computation of a bind in [H], keeping its result as [E]. *)
Ltac m_step H E :=
  rewrite M_bind_eq in H;
  let v := fresh "v" in let e := fresh "e" in let st := fresh "st" in
  match type of H with
  | context [match ?c with pair _ _ => _ end] => destruct c as [[v|e] st] eqn:E
  end.

Create HintDb maestro.
#[export] Hint Extern 1 (_ <= _) => lia : maestro.
#[export] Hint Extern 1 (_ < _) => lia : maestro.
