(* ===== verification/PyString.v ===== *)
(** * Python strings

    The [str] operations the code uses, on ASCII text: [strip], [rstrip(chars)],
    [lower], [upper], [startswith], [replace(" ", "_")] and the head of
    [split(sep, 1)]. *)
From S2P Require Import Prelude.
From Stdlib Require Import Ascii.

(** The ASCII characters [str.strip()] removes: tab to carriage return, the four
    separators and the space. *)
Definition is_space (c : ascii) : bool :=
  let n := Z.of_N (N_of_ascii c) in
  ((9 <=? n) && (n <=? 13)) || ((28 <=? n) && (n <=? 32)).

Definition ascii_lower (c : ascii) : ascii :=
  let n := N_of_ascii c in
  if ((65 <=? n) && (n <=? 90))%N then ascii_of_N (n + 32) else c.

Definition ascii_upper (c : ascii) : ascii :=
  let n := N_of_ascii c in
  if ((97 <=? n) && (n <=? 122))%N then ascii_of_N (n - 32) else c.

Fixpoint smap (f : ascii -> ascii) (s : string) : string :=
  match s with
  | EmptyString => EmptyString
  | String c s' => String (f c) (smap f s')
  end.

Fixpoint lstrip_by (p : ascii -> bool) (s : string) : string :=
  match s with
  | EmptyString => EmptyString
  | String c s' => if p c then lstrip_by p s' else s
  end.

Fixpoint rstrip_by (p : ascii -> bool) (s : string) : string :=
  match s with
  | EmptyString => EmptyString
  | String c s' =>
      match rstrip_by p s' with
      | EmptyString => if p c then EmptyString else String c EmptyString
      | r => String c r
      end
  end.

Definition strip (s : string) : string := rstrip_by is_space (lstrip_by is_space s).
Definition lower (s : string) : string := smap ascii_lower s.
Definition upper (s : string) : string := smap ascii_upper s.

(** [s.replace(" ", "_")]. *)
Definition space_to_underscore (c : ascii) : ascii :=
  if Ascii.eqb c " "%char then "_"%char else c.
Definition underscore_spaces (s : string) : string := smap space_to_underscore s.

(** [s.split(c, 1)[0]]. *)
Fixpoint before_char (c : ascii) (s : string) : string :=
  match s with
  | EmptyString => EmptyString
  | String d s' => if Ascii.eqb d c then EmptyString else String d (before_char c s')
  end.

(** [s.startswith(p)]. *)
Definition startswith (p s : string) : bool := String.prefix p s.

(** [not s.strip()]. *)
Definition blank (s : string) : bool := bool_decide (strip s = "").

(** [x or y] on an optional string: [None] and [""] are falsy. *)
Definition or_string (x : option string) (y : string) : string :=
  match x with
  | Some s => if bool_decide (s = "") then y else s
  | None => y
  end.

(** ** Lemmas *)

Lemma lstrip_head p s :
  match lstrip_by p s with EmptyString => True | String c _ => p c = false end.
Proof. induction s as [|c s IH]; cbn; [done|]. destruct (p c) eqn:E; [apply IH|done]. Qed.

Lemma lstrip_fix p s :
  lstrip_by p s = s <-> match s with EmptyString => True | String c _ => p c = false end.
Proof.
  split.
  - intros <-. apply lstrip_head.
  - destruct s; cbn; [done|]. by intros ->.
Qed.

Lemma rstrip_cons p c s :
  rstrip_by p (String c s) = "" \/ exists r, rstrip_by p (String c s) = String c r.
Proof. cbn. destruct (rstrip_by p s); [destruct (p c)|]; eauto. Qed.

Lemma rstrip_idemp p s : rstrip_by p (rstrip_by p s) = rstrip_by p s.
Proof.
  induction s as [|c s IH]; cbn; [done|].
  destruct (rstrip_by p s) as [|d r] eqn:E.
  - destruct (p c) eqn:Ec; cbn; [done|]. by rewrite Ec.
  - cbn in *. by rewrite IH.
Qed.

Lemma strip_idemp s : strip (strip s) = strip s.
Proof.
  unfold strip at 1 3. set (t := lstrip_by is_space s).
  assert (lstrip_by is_space (rstrip_by is_space t) = rstrip_by is_space t) as Hl.
  { apply lstrip_fix. pose proof (lstrip_head is_space s) as Hh. fold t in Hh.
    destruct t as [|c t']; [done|].
    destruct (rstrip_cons is_space c t') as [->|[r ->]]; done. }
  unfold strip. rewrite -/t Hl. apply rstrip_idemp.
Qed.

Lemma smap_idemp f s : (forall c, f (f c) = f c) -> smap f (smap f s) = smap f s.
Proof. intros Hf. induction s as [|c s IH]; cbn; [done|]. by rewrite Hf IH. Qed.

Lemma rstrip_smap p f s :
  (forall c, p (f c) = p c) -> rstrip_by p (smap f s) = smap f (rstrip_by p s).
Proof.
  intros Hf. induction s as [|c s IH]; cbn; [done|]. rewrite IH.
  destruct (rstrip_by p s) as [|d r]; cbn; [|done]. rewrite Hf. by destruct (p c).
Qed.

Lemma lstrip_smap p f s :
  (forall c, p (f c) = p c) -> lstrip_by p (smap f s) = smap f (lstrip_by p s).
Proof.
  intros Hf. induction s as [|c s IH]; cbn; [done|]. rewrite Hf. by destruct (p c).
Qed.

(** A boolean property of all characters is decided by evaluating it on each. *)
Lemma forall_ascii (P : ascii -> bool) :
  forallb (fun n => P (ascii_of_nat n)) (seq 0 256) = true -> forall c, P c = true.
Proof.
  intros H c. rewrite forallb_forall in H.
  rewrite -(ascii_nat_embedding c). apply H. apply in_seq.
  pose proof (nat_ascii_bounded c). lia.
Qed.

(** Proves [forall c : ascii, f c = g c] by evaluating both sides on the 256
    characters. *)
Lemma ascii_ext {A} `{EqDecision A} (f g : ascii -> A) :
  forallb (fun n => bool_decide (f (ascii_of_nat n) = g (ascii_of_nat n))) (seq 0 256) = true ->
  forall c, f c = g c.
Proof.
  intros H c. pose proof (forall_ascii (fun c => bool_decide (f c = g c)) H c) as Hc.
  by apply bool_decide_eq_true in Hc.
Qed.

Ltac by_all_ascii := apply ascii_ext; vm_compute; reflexivity.

Lemma is_space_lower : forall c, is_space (ascii_lower c) = is_space c.
Proof. by_all_ascii. Qed.
Lemma is_space_upper : forall c, is_space (ascii_upper c) = is_space c.
Proof. by_all_ascii. Qed.
Lemma lower_char_idemp : forall c, ascii_lower (ascii_lower c) = ascii_lower c.
Proof. by_all_ascii. Qed.
Lemma upper_char_idemp : forall c, ascii_upper (ascii_upper c) = ascii_upper c.
Proof. by_all_ascii. Qed.
Lemma underscore_lower :
  forall c, ascii_lower (space_to_underscore (ascii_lower c)) = space_to_underscore (ascii_lower c).
Proof. by_all_ascii. Qed.
Lemma underscore_idemp_char :
  forall c, space_to_underscore (space_to_underscore c) = space_to_underscore c.
Proof. by_all_ascii. Qed.
Lemma underscore_nonspace :
  forall c, is_space c || negb (is_space (space_to_underscore c)) = true.
Proof. by_all_ascii. Qed.

Lemma strip_smap f s :
  (forall c, is_space (f c) = is_space c) -> strip (smap f s) = smap f (strip s).
Proof. intros Hf. unfold strip. by rewrite lstrip_smap // rstrip_smap. Qed.

Lemma strip_lower s : strip (lower s) = lower (strip s).
Proof. apply strip_smap, is_space_lower. Qed.
Lemma strip_upper s : strip (upper s) = upper (strip s).
Proof. apply strip_smap, is_space_upper. Qed.
Lemma lower_idemp s : lower (lower s) = lower s.
Proof. apply smap_idemp, lower_char_idemp. Qed.
Lemma upper_idemp s : upper (upper s) = upper s.
Proof. apply smap_idemp, upper_char_idemp. Qed.

Lemma smap_smap f g s : smap f (smap g s) = smap (fun c => f (g c)) s.
Proof. induction s as [|c s IH]; cbn; by rewrite ?IH. Qed.

Lemma smap_ext f g s : (forall c, f c = g c) -> smap f s = smap g s.
Proof. intros H. induction s as [|c s IH]; cbn; by rewrite ?H ?IH. Qed.

(** A map that sends non-spaces to non-spaces keeps a stripped string stripped. *)
Lemma strip_fix_smap f s :
  (forall c, is_space c = false -> is_space (f c) = false) ->
  strip s = s -> strip (smap f s) = smap f s.
Proof.
  intros Hf Hs. assert (lstrip_by is_space s = s) as Hl.
  { destruct s as [|c s']; [done|]. unfold strip in Hs. apply lstrip_fix.
    pose proof (lstrip_head is_space (String c s')) as Hh.
    destruct (lstrip_by is_space (String c s')) as [|d t]; [done|].
    destruct (rstrip_cons is_space d t) as [E|[r E]]; rewrite E in Hs; congruence. }
  assert (rstrip_by is_space s = s) as Hr by (unfold strip in Hs; by rewrite Hl in Hs).
  unfold strip. replace (lstrip_by is_space (smap f s)) with (smap f s).
  2:{ symmetry. apply lstrip_fix. destruct s; [done|]. apply lstrip_fix in Hl. cbn. auto. }
  clear Hs Hl. induction s as [|c s IH]; cbn in *; [done|].
  destruct (rstrip_by is_space s) as [|d r] eqn:E.
  - destruct (is_space c) eqn:Ec; [done|]. injection Hr as <-. cbn. by rewrite Hf.
  - injection Hr as <-. by rewrite (IH eq_refl).
Qed.

(** [str.replace(" ", "_")] after [strip().lower()] is already normal. *)
Definition norm_code (s : string) : string := underscore_spaces (lower (strip s)).

Lemma norm_code_idemp s : norm_code (norm_code s) = norm_code s.
Proof.
  unfold norm_code, underscore_spaces. rewrite (strip_fix_smap _ (lower (strip s))).
  - intros c Hc. pose proof (underscore_nonspace c) as H. rewrite Hc in H.
    by apply negb_true_iff in H.
  - by rewrite strip_lower strip_idemp.
  - unfold lower. rewrite !smap_smap. apply smap_ext. intros c.
    by rewrite underscore_lower underscore_idemp_char.
Qed.

Lemma blank_strip s : blank (strip s) = blank s.
Proof. unfold blank. by rewrite strip_idemp. Qed.

Lemma not_blank_nonempty s : blank s = false -> s <> "".
Proof. unfold blank. intros H%bool_decide_eq_false ->. by apply H. Qed.

(** ** The order of strings, by code point *)

Lemma leb_cons c d s t :
  String.leb (String c s) (String d t) = true <->
  (N_of_ascii c < N_of_ascii d)%N \/ c = d /\ String.leb s t = true.
Proof.
  unfold String.leb. cbn. unfold Ascii.compare.
  destruct (N.compare_spec (N_of_ascii c) (N_of_ascii d)) as [E|E|E].
  - assert (c = d) as -> by (rewrite -(ascii_N_embedding c) -(ascii_N_embedding d); congruence).
    split; [naive_solver|]. intros [?|[_ ?]]; [lia|done].
  - split; [by left|done].
  - split; [done|]. intros [?|[-> _]]; lia.
Qed.

Lemma leb_trans a b c : String.leb a b = true -> String.leb b c = true -> String.leb a c = true.
Proof.
  revert b c. induction a as [|x a IH]; intros [|y b] [|z c]; try done.
  rewrite !leb_cons. intros [?|[-> ?]] [?|[-> ?]]; try (by left; lia). right. eauto.
Qed.

Lemma leb_antisym a b : String.leb a b = true -> String.leb b a = true -> a = b.
Proof.
  revert b. induction a as [|x a IH]; intros [|y b]; try done.
  rewrite !leb_cons. intros [?|[-> ?]] [?|[? ?]]; try lia; try (subst; lia). f_equal. auto.
Qed.

Lemma leb_refl a : String.leb a a = true.
Proof. induction a as [|x a IH]; [done|]. apply leb_cons. by right. Qed.

#[export] Hint Resolve leb_refl : maestro.
#[export] Hint Rewrite strip_idemp lower_idemp upper_idemp norm_code_idemp blank_strip
  strip_lower strip_upper : pystring.

Example strip_example : strip "  Academic Plan " = "Academic Plan".
Proof. reflexivity. Qed.
Example norm_code_example : norm_code "  Enterprise Pilot " = "enterprise_pilot".
Proof. reflexivity. Qed.
