(* ===== verification/PyFloat.v ===== *)
(** * Clock readings and durations

    The execution modules keep instants and durations as Python floats.  The
    development is parametric in them: [PyFloat] lists the float operations the
    code performs and [PyFloatLaws] the facts about IEEE 754 doubles that hold
    with rounding, for the values the code can produce (no NaN, no minus
    infinity).  [f_scale2 x n] is [x * (2 ** n)] for an integer [n >= 0]: the
    integer [2 ** n] is converted to a double first, which raises
    [OverflowError] ([None]) from [n = 1024] on. *)
From S2P Require Import Prelude.

Class PyFloat (F : Type) := {
  f_leb : F -> F -> bool;
  f_add : F -> F -> F;
  f_zero : F;
  f_scale2 : F -> Z -> option F
}.

Section Operations.
Context {F : Type} `{PyFloat F}.

Definition f_ltb (a b : F) : bool := negb (f_leb b a).
Definition f_eqb (a b : F) : bool := f_leb a b && f_leb b a.

(** [min(a, b)] returns [a] unless [b < a]. *)
Definition f_min (a b : F) : F := if f_ltb b a then b else a.

(** [==] on [float | None]. *)
Definition f_opt_eqb (a b : option F) : bool :=
  match a, b with
  | Some x, Some y => f_eqb x y
  | None, None => true
  | _, _ => false
  end.
End Operations.

Class PyFloatLaws (F : Type) `{PyFloat F} := {
  f_leb_refl : forall a, f_leb a a = true;
  f_leb_trans : forall a b c, f_leb a b = true -> f_leb b c = true -> f_leb a c = true;
  f_leb_total : forall a b, f_leb a b = true \/ f_leb b a = true;
  f_add_grow : forall a b, f_leb f_zero b = true -> f_leb a (f_add a b) = true;
  f_add_mono : forall a b c, f_leb a b = true -> f_leb (f_add a c) (f_add b c) = true;
  f_scale2_defined : forall a n, 0 <= n <= 1023 -> is_Some (f_scale2 a n);
  f_scale2_overflow : forall a n, 1024 <= n -> f_scale2 a n = None;
  f_scale2_mono : forall a m n x y,
    f_leb f_zero a = true -> 0 <= m <= n ->
    f_scale2 a m = Some x -> f_scale2 a n = Some y -> f_leb x y = true;
  f_scale2_grow : forall a n x,
    f_leb f_zero a = true -> 0 <= n -> f_scale2 a n = Some x -> f_leb a x = true
}.

(** Exact integers of a fixed resolution: the instance concrete runs use. *)
#[export] Instance Z_float : PyFloat Z := {
  f_leb := Z.leb;
  f_add := Z.add;
  f_zero := 0;
  f_scale2 := fun x n => if n <=? 1023 then Some (x * 2 ^ n) else None
}.

#[export] Instance Z_float_laws : PyFloatLaws Z.
Proof.
  split; cbn; intros.
  - lia.
  - lia.
  - lia.
  - lia.
  - lia.
  - destruct (Z.leb_spec n 1023); [by eexists|lia].
  - destruct (Z.leb_spec n 1023); [lia|done].
  - destruct (m <=? 1023), (n <=? 1023); simplify_eq. apply Z.leb_le.
    apply Z.mul_le_mono_nonneg_l; [lia|]. by apply Z.pow_le_mono_r; lia.
  - destruct (n <=? 1023); simplify_eq. apply Z.leb_le.
    assert (0 < 2 ^ n) by (apply Z.pow_pos_nonneg; lia). nia.
Qed.

Section Lemmas.
Context {F : Type} `{PyFloatLaws F}.

Lemma f_ltb_leb a b : f_ltb a b = true -> f_leb a b = true.
Proof.
  unfold f_ltb. intros E%negb_true_iff. destruct (f_leb_total a b); congruence.
Qed.

Lemma f_ltb_false a b : f_ltb a b = false <-> f_leb b a = true.
Proof. unfold f_ltb. by destruct (f_leb b a). Qed.

Lemma f_min_leb_l a b : f_leb (f_min a b) a = true.
Proof. unfold f_min. destruct (f_ltb b a) eqn:E; [by apply f_ltb_leb|apply f_leb_refl]. Qed.

Lemma f_min_leb_r a b : f_leb (f_min a b) b = true.
Proof. unfold f_min. destruct (f_ltb b a) eqn:E; [apply f_leb_refl|by apply f_ltb_false]. Qed.

Lemma f_min_glb a b c : f_leb c a = true -> f_leb c b = true -> f_leb c (f_min a b) = true.
Proof. unfold f_min. by destruct (f_ltb b a). Qed.

Lemma f_min_mono a a' b : f_leb a a' = true -> f_leb (f_min a b) (f_min a' b) = true.
Proof.
  intros Ha. apply f_min_glb; [|apply f_min_leb_r].
  eapply f_leb_trans; [apply f_min_leb_l|done].
Qed.

Lemma f_eqb_refl a : f_eqb a a = true.
Proof. unfold f_eqb. by rewrite !f_leb_refl. Qed.

Lemma f_opt_eqb_refl a : f_opt_eqb a a = true.
Proof. destruct a; cbn; [apply f_eqb_refl|done]. Qed.
End Lemmas.

#[export] Hint Resolve f_leb_refl f_min_leb_l f_min_leb_r f_add_grow f_eqb_refl : maestro.
