(* ===== verification/PyDecimal.v ===== *)
(** * Python decimals

    [decimal.Decimal] under the default context: precision 28, half-even rounding, and
    the InvalidOperation and DivisionByZero traps.  A finite decimal is
    [coef * 10^dexp]; exponents stay far inside the context's limits and are not
    checked, and zero has no sign. *)
From S2P Require Import Prelude.
From stdpp Require Import pretty.
From Stdlib Require Import QArith Qabs Lqa Qpower.
#[local] Open Scope Z_scope.

Record dec := Dec { coef : Z; dexp : Z }.

#[global] Instance dec_eq_dec : EqDecision dec.
Proof. solve_decision. Defined.

(** A [Decimal] argument of the code, which may be an infinity or a NaN. *)
Inductive Decimal := Finite (d : dec) | NonFinite.

Inductive rounding := ROUND_HALF_UP | ROUND_HALF_EVEN.

Definition PREC : Z := 28.

(** The number of digits of a coefficient. *)
Fixpoint digits_fuel (fuel : nat) (n : Z) : Z :=
  match fuel with
  | O => 1
  | S f => if n <? 10 then 1 else 1 + digits_fuel f (n / 10)
  end.
Definition ndigits (n : Z) : Z := digits_fuel (Z.to_nat (Z.log2 (Z.abs n))) (Z.abs n).

(** [a / p] rounded, for [0 <= a] and [0 < p]. *)
Definition round_div (m : rounding) (a p : Z) : Z :=
  let q := a / p in
  let r := a mod p in
  if match m with
     | ROUND_HALF_UP => p <=? 2 * r
     | ROUND_HALF_EVEN => (p <? 2 * r) || ((p =? 2 * r) && Z.odd q)
     end then q + 1 else q.

(** The coefficient [c] divided by [10^k], rounded away from its sign. *)
Definition shift_right (m : rounding) (c k : Z) : Z :=
  Z.sgn c * round_div m (Z.abs c) (10 ^ k).

(** [_fix]: a result rounded to the precision of the context. *)
Definition dec_fix (d : dec) : dec :=
  let k := ndigits (coef d) - PREC in
  if k <=? 0 then d
  else
    let c := shift_right ROUND_HALF_EVEN (coef d) k in
    if Z.abs c =? 10 ^ PREC then Dec (c / 10) (dexp d + k + 1) else Dec c (dexp d + k).

(** The coefficient at a smaller exponent. *)
Definition align (e : Z) (d : dec) : Z := coef d * 10 ^ (dexp d - e).

Definition dec_add (a b : dec) : dec :=
  let e := Z.min (dexp a) (dexp b) in dec_fix (Dec (align e a + align e b) e).
Definition dec_neg (a : dec) : dec := Dec (- coef a) (dexp a).
Definition dec_sub (a b : dec) : dec := dec_add a (dec_neg b).
Definition dec_mul (a b : dec) : dec := dec_fix (Dec (coef a * coef b) (dexp a + dexp b)).

(** Trailing zeros are removed while the exponent is below the ideal one. *)
Fixpoint strip_zeros (fuel : nat) (c e ideal : Z) : dec :=
  match fuel with
  | O => Dec c e
  | S f => if (e <? ideal) && (c mod 10 =? 0) then strip_zeros f (c / 10) (e + 1) ideal
           else Dec c e
  end.

Definition dec_div (a b : dec) : res dec :=
  if coef b =? 0 then raise InvalidOperation "division by zero"
  else if coef a =? 0 then mret (Dec 0 (dexp a - dexp b))
  else
    let s := Z.sgn (coef a) * Z.sgn (coef b) in
    let shift := ndigits (coef b) - ndigits (coef a) + PREC + 1 in
    let e := dexp a - dexp b - shift in
    let n := Z.abs (coef a) * 10 ^ Z.max shift 0 in
    let d := Z.abs (coef b) * 10 ^ Z.max (- shift) 0 in
    let q := n / d in
    let raw :=
      if n mod d =? 0 then strip_zeros (Z.to_nat (Z.max shift 0)) q e (dexp a - dexp b)
      else Dec (if q mod 5 =? 0 then q + 1 else q) e in
    mret (dec_fix (Dec (s * coef raw) (dexp raw))).

(** The exponent of the leading digit. *)
Definition adjusted (d : dec) : Z := dexp d + ndigits (coef d) - 1.

(** [d.quantize(Decimal("1e" q), rounding)]. *)
Definition quantize (m : rounding) (q : Z) (d : dec) : res dec :=
  if coef d =? 0 then mret (Dec 0 q)
  else if PREC <? adjusted d - q + 1 then
    raise InvalidOperation "quantize result has too many digits for current context"
  else
    let c := if q <=? dexp d then align q d else shift_right m (coef d) (q - dexp d) in
    if PREC <? ndigits c then
      raise InvalidOperation "quantize result has too many digits for current context"
    else mret (Dec c q).

(** Comparisons are exact. *)
Definition dec_compare (a b : dec) : comparison :=
  let e := Z.min (dexp a) (dexp b) in align e a ?= align e b.
Definition dec_eqb (a b : dec) : bool := match dec_compare a b with Eq => true | _ => false end.
Definition dec_ltb (a b : dec) : bool := match dec_compare a b with Lt => true | _ => false end.
Definition dec_leb (a b : dec) : bool := match dec_compare a b with Gt => false | _ => true end.

Definition dec_int (n : Z) : dec := Dec n 0.

(** [d == d.to_integral_value()]. *)
Definition is_integral (d : dec) : bool :=
  (0 <=? dexp d) || (coef d mod 10 ^ (- dexp d) =? 0).

(** [str(d)]. *)
Fixpoint zeros (n : nat) : string :=
  match n with O => "" | S n' => "0" +:+ zeros n' end.
Definition dec_str (d : dec) : string :=
  let digits := pretty (Z.abs (coef d)) in
  let len := Z.of_nat (String.length digits) in
  let left := dexp d + len in
  let place := if (dexp d <=? 0) && (-6 <? left) then left else 1 in
  let sign := if coef d <? 0 then "-" else "" in
  let body :=
    if place <=? 0 then "0." +:+ zeros (Z.to_nat (- place)) +:+ digits
    else if len <=? place then digits +:+ zeros (Z.to_nat (place - len))
    else String.substring 0 (Z.to_nat place) digits +:+ "." +:+
         String.substring (Z.to_nat place) (Z.to_nat (len - place)) digits in
  let tail :=
    if left =? place then ""
    else "E" +:+ (if left <? place then "-" else "+") +:+ pretty (Z.abs (left - place)) in
  sign +:+ body +:+ tail.

Example dec_str_price : dec_str (Dec 5900 (-2)) = "59.00".
Proof. reflexivity. Qed.
Example dec_str_small : dec_str (Dec (-5) (-9)) = "-5E-9".
Proof. reflexivity. Qed.
Example dec_div_third : dec_div (Dec 1 0) (Dec 3 0) = Ok (Dec 3333333333333333333333333333 (-28)).
Proof. reflexivity. Qed.
Example dec_div_hundred : dec_div (Dec 85 0) (Dec 100 0) = Ok (Dec 85 (-2)).
Proof. reflexivity. Qed.
Example quantize_tie :
  quantize ROUND_HALF_EVEN (-2) (Dec 125 (-3)) = Ok (Dec 12 (-2)) /\
  quantize ROUND_HALF_UP (-2) (Dec 125 (-3)) = Ok (Dec 13 (-2)) /\
  quantize ROUND_HALF_UP (-2) (Dec (-125) (-3)) = Ok (Dec (-13) (-2)).
Proof. split; [|split]; reflexivity. Qed.

(** ** Values *)

Definition dval (d : dec) : Q := (inject_Z (coef d) * (10 # 1) ^ dexp d)%Q.

Lemma ten_pos e : (0 < (10 # 1) ^ e)%Q.
Proof. apply Qpower_0_lt. reflexivity. Qed.

Lemma ten_pow n : 0 <= n -> ((10 # 1) ^ n == inject_Z (10 ^ n))%Q.
Proof.
  intros Hn. rewrite -(Z2Nat.id n) //. induction (Z.to_nat n) as [|k IH]; [reflexivity|].
  rewrite Nat2Z.inj_succ -Z.add_1_r Z.pow_add_r; [lia|lia|].
  rewrite Qpower_plus; [done|]. rewrite IH inject_Z_mult. reflexivity.
Qed.

Lemma dval_align e d : e <= dexp d -> (dval d == inject_Z (align e d) * (10 # 1) ^ e)%Q.
Proof.
  intros He. unfold dval, align. rewrite inject_Z_mult -ten_pow; [lia|].
  rewrite -Qmult_assoc -Qpower_plus; [done|]. by replace (dexp d - e + e) with (dexp d) by lia.
Qed.

Lemma Qcompare_scale a b e :
  (inject_Z a * (10 # 1) ^ e ?= inject_Z b * (10 # 1) ^ e)%Q = (a ?= b).
Proof.
  pose proof (ten_pos e) as Hp. destruct (Z.compare_spec a b) as [->|H|H].
  - apply Qeq_alt. reflexivity.
  - apply Qlt_alt. apply Qmult_lt_compat_r; [done|]. by rewrite -Zlt_Qlt.
  - apply Qgt_alt. apply Qmult_lt_compat_r; [done|]. by rewrite -Zlt_Qlt.
Qed.

Lemma dec_compare_val a b : dec_compare a b = (dval a ?= dval b)%Q.
Proof.
  unfold dec_compare. set (e := Z.min _ _).
  rewrite (dval_align e a); [lia|]. rewrite (dval_align e b); [lia|]. by rewrite Qcompare_scale.
Qed.

Lemma dec_eqb_val a b : dec_eqb a b = true <-> (dval a == dval b)%Q.
Proof.
  unfold dec_eqb. rewrite dec_compare_val Qeq_alt. by destruct (_ ?= _)%Q.
Qed.
Lemma dec_ltb_val a b : dec_ltb a b = true <-> (dval a < dval b)%Q.
Proof.
  unfold dec_ltb. rewrite dec_compare_val Qlt_alt. by destruct (_ ?= _)%Q.
Qed.
Lemma dec_leb_val a b : dec_leb a b = true <-> (dval a <= dval b)%Q.
Proof.
  unfold dec_leb. rewrite dec_compare_val Qle_alt. by destruct (_ ?= _)%Q.
Qed.

(** ** Digits and rounding *)

Lemma digits_fuel_spec f n :
  0 <= n -> Z.log2 n <= Z.of_nat f ->
  1 <= digits_fuel f n /\ n < 10 ^ digits_fuel f n /\
  (digits_fuel f n = 1 \/ 10 ^ (digits_fuel f n - 1) <= n).
Proof.
  revert n. induction f as [|f IH]; intros n Hn Hl; cbn [digits_fuel].
  - assert (n < 2) as Hlt2.
    { apply Z.nle_gt. intros H2%Z.log2_le_mono. change (Z.log2 2) with 1 in H2. lia. }
    split; [lia|]. split; [lia|by left].
  - destruct (Z.ltb_spec n 10) as [H|H]; [split; [lia|]; split; [lia|by left]|].
    destruct (IH (n / 10)) as (H1 & H2 & H3); [apply Z.div_pos; lia| |].
    { assert (2 * (n / 10) <= n) by (Z.to_euclidean_division_equations; lia).
      assert (0 < n / 10) by (Z.to_euclidean_division_equations; lia).
      pose proof (Z.log2_le_mono _ _ ltac:(eassumption)) as Hm.
      rewrite Z.log2_double in Hm; lia. }
    set (k := digits_fuel f (n / 10)) in *. split; [lia|].
    rewrite (Z.add_comm 1 k) Z.add_simpl_r Z.pow_add_r; [lia|lia|]. split.
    + Z.to_euclidean_division_equations; lia.
    + right. destruct H3 as [->|H3]; [lia|].
      replace (10 ^ k) with (10 ^ (k - 1) * 10) by (rewrite -{2}(Z.sub_add 1 k) Z.pow_add_r; lia).
      Z.to_euclidean_division_equations; lia.
Qed.

Lemma ndigits_spec c :
  1 <= ndigits c /\ Z.abs c < 10 ^ ndigits c /\ (ndigits c = 1 \/ 10 ^ (ndigits c - 1) <= Z.abs c).
Proof. apply digits_fuel_spec; [lia|]. rewrite Z2Nat.id //. apply Z.log2_nonneg. Qed.

Lemma ndigits_le c k : 1 <= k -> Z.abs c < 10 ^ k -> ndigits c <= k.
Proof.
  intros Hk Hc. destruct (ndigits_spec c) as (H1 & _ & [->|H3]); [lia|].
  destruct (Z.le_gt_cases (ndigits c) k) as [|Hgt]; [done|].
  pose proof (Z.pow_le_mono_r 10 k (ndigits c - 1)). lia.
Qed.

Lemma dec_fix_exact d : Z.abs (coef d) < 10 ^ PREC -> dec_fix d = d.
Proof.
  intros H. unfold dec_fix. pose proof (ndigits_le (coef d) PREC ltac:(done) H).
  by rewrite (proj2 (Z.leb_le _ _)); [lia|].
Qed.

Lemma round_div_near m a p : 0 <= a -> 0 < p -> 2 * Z.abs (round_div m a p * p - a) <= p.
Proof.
  intros Ha Hp. unfold round_div. pose proof (Z.div_mod a p ltac:(lia)) as Hd.
  pose proof (Z.mod_pos_bound a p Hp) as Hb.
  destruct m; repeat case_match; to_prop; nia.
Qed.

Lemma shift_right_near m c k : 0 <= k -> 2 * Z.abs (shift_right m c k * 10 ^ k - c) <= 10 ^ k.
Proof.
  intros Hk. unfold shift_right. pose proof (Z.pow_pos_nonneg 10 k ltac:(lia) Hk) as Hp.
  pose proof (round_div_near m (Z.abs c) (10 ^ k) ltac:(lia) Hp) as H.
  destruct (Z.lt_trichotomy c 0) as [Hc|[->|Hc]].
  - rewrite (Z.sgn_neg c) //. rewrite (Z.abs_neq c ltac:(lia)) in H |- *. lia.
  - cbn. lia.
  - rewrite (Z.sgn_pos c) //. rewrite (Z.abs_eq c ltac:(lia)) in H |- *. lia.
Qed.

(** The result of [quantize] has the exponent asked for and lies within half a unit
    of it. *)
Lemma quantize_spec m q d d' :
  quantize m q d = Ok d' ->
  dexp d' = q /\
  (q <= dexp d -> coef d' = coef d * 10 ^ (dexp d - q)) /\
  (dexp d < q -> 2 * Z.abs (coef d' * 10 ^ (q - dexp d) - coef d) <= 10 ^ (q - dexp d)).
Proof.
  unfold quantize. destruct (Z.eqb_spec (coef d) 0) as [H0|H0].
  - intros [= <-]. cbn. rewrite H0. split_and!; [done|lia|]. intros. rewrite Z.mul_0_l. cbn. lia.
  - case_match; [done|]. case_match; [done|]. intros [= <-]. cbn. split; [done|].
    destruct (Z.leb_spec q (dexp d)) as [Hq|Hq]; split; intros; try lia; [done|].
    apply shift_right_near. lia.
Qed.

Lemma quantize_exact m q d d' : q <= dexp d -> quantize m q d = Ok d' -> (dval d' == dval d)%Q.
Proof.
  intros Hq (He & Hc & _)%quantize_spec. rewrite (dval_align q d) //. unfold dval.
  by rewrite He Hc.
Qed.

Lemma quantize_near m q d d' :
  quantize m q d = Ok d' -> (Qabs (dval d' - dval d) * 2 <= (10 # 1) ^ q)%Q.
Proof.
  intros H. pose proof (quantize_spec _ _ _ _ H) as (He & Hc & Hn).
  pose proof (ten_pos q) as Hp. destruct (Z.le_gt_cases q (dexp d)) as [Hq|Hq].
  - rewrite (quantize_exact m q d d') //. assert (E : (dval d - dval d == 0)%Q) by ring.
    rewrite E. apply Qle_trans with 0%Q; [discriminate|by apply Qlt_le_weak].
  - specialize (Hn Hq). set (k := q - dexp d) in *. set (e := dexp d) in *.
    assert (Hd' : (dval d' == inject_Z (coef d' * 10 ^ k) * (10 # 1) ^ e)%Q).
    { rewrite (dval_align e d'); [lia|]. unfold align. by rewrite He. }
    assert (Hd : (dval d == inject_Z (coef d) * (10 # 1) ^ e)%Q) by reflexivity.
    assert (Hq' : ((10 # 1) ^ q == inject_Z (10 ^ k) * (10 # 1) ^ e)%Q).
    { rewrite -ten_pow; [lia|]. rewrite -Qpower_plus; [done|]. by replace (k + e) with q by lia. }
    rewrite Hd' Hd Hq'. pose proof (ten_pos e) as Hpe.
    assert (E : (inject_Z (coef d' * 10 ^ k) * (10 # 1) ^ e - inject_Z (coef d) * (10 # 1) ^ e
              == inject_Z (coef d' * 10 ^ k - coef d) * (10 # 1) ^ e)%Q)
      by (unfold Zminus; rewrite inject_Z_plus inject_Z_opp; ring).
    rewrite E Qabs_Qmult (Qabs_pos ((10 # 1) ^ e)); [by apply Qlt_le_weak|].
    assert (Ha : (Qabs (inject_Z (coef d' * 10 ^ k - coef d)) * inject_Z 2 <= inject_Z (10 ^ k))%Q).
    { change (Qabs (inject_Z (coef d' * 10 ^ k - coef d)))
        with (inject_Z (Z.abs (coef d' * 10 ^ k - coef d))).
      rewrite -inject_Z_mult -Zle_Qle. lia. }
    rewrite -Qmult_assoc (Qmult_comm ((10 # 1) ^ e)) Qmult_assoc.
    apply Qmult_le_compat_r; [exact Ha|by apply Qlt_le_weak].
Qed.

Lemma quantize_fits m q d d' : quantize m q d = Ok d' -> Z.abs (coef d') < 10 ^ PREC.
Proof.
  unfold quantize. destruct (_ =? 0); [by intros [= <-]|]. case_match; [done|].
  destruct (Z.ltb_spec PREC (ndigits (if q <=? dexp d then align q d else shift_right m (coef d) (q - dexp d))));
    [done|]. intros [= <-]. cbn [coef]. eapply Z.lt_le_trans; [apply ndigits_spec|].
  by apply Z.pow_le_mono_r.
Qed.

(** Rounding half up, for what is not negative. *)
Lemma round_half_up_iff a p c :
  0 <= a -> 0 < p -> round_div ROUND_HALF_UP a p = c <-> 2 * c * p - p <= 2 * a < 2 * c * p + p.
Proof.
  intros Ha Hp. unfold round_div. pose proof (Z.div_mod a p ltac:(lia)) as Hd.
  pose proof (Z.mod_pos_bound a p Hp) as Hb. set (q := a / p) in *. set (r := a mod p) in *.
  clearbody q r. subst a. destruct (Z.leb_spec p (2 * r)); split; intros H'; subst; nia.
Qed.

(** [quantize] rounds a positive decimal to the multiple [c] of its unit that is nearest. *)
Lemma quantize_half_up q d c :
  0 < coef d -> c < 10 ^ PREC ->
  let e := Z.min (dexp d) q in let u := 10 ^ (q - e) in
  quantize ROUND_HALF_UP q d = Ok (Dec c q) <-> 2 * c * u - u <= 2 * align e d < 2 * c * u + u.
Proof.
  intros Hd Hc e u. unfold quantize. rewrite (proj2 (Z.eqb_neq _ _)); [lia|].
  destruct (ndigits_spec (coef d)) as (Hn1 & _ & Hn).
  set (c' := if q <=? dexp d then align q d else shift_right ROUND_HALF_UP (coef d) (q - dexp d)).
  assert (c' = c <-> 2 * c * u - u <= 2 * align e d < 2 * c * u + u) as Hiff.
  { subst c' u e. destruct (Z.leb_spec q (dexp d)).
    - rewrite Z.min_r // Z.sub_diag. change (10 ^ 0) with 1. lia.
    - rewrite Z.min_l; [lia|]. unfold align. rewrite Z.sub_diag Z.pow_0_r Z.mul_1_r.
      unfold shift_right. rewrite Z.sgn_pos // Z.mul_1_l Z.abs_eq; [lia|].
      apply round_half_up_iff; [lia|]. apply Z.pow_pos_nonneg; lia. }
  assert (0 < u) as Hu by (apply Z.pow_pos_nonneg; lia).
  assert (10 ^ (ndigits (coef d) - 1) <= coef d) as Hlow by (destruct Hn as [->|]; cbn; lia).
  clearbody c'. split.
  - case_match; [done|]. case_match; [done|]. intros [= ->]. by apply Hiff.
  - intros Hr. apply Hiff in Hr as Hcc. subst c'.
    assert (0 < align e d) as Ha by (apply Z.mul_pos_pos; [done|apply Z.pow_pos_nonneg; lia]).
    assert (0 <= c) as Hc0 by nia.
    assert (align e d < 10 ^ PREC * u) as Hup by nia.
    assert (10 ^ (ndigits (coef d) - 1 + (dexp d - e)) < 10 ^ (PREC + (q - e))) as Hpow.
    { rewrite (Z.pow_add_r 10 (_ - 1)); [lia|lia|]. rewrite (Z.pow_add_r 10 PREC); [done|lia|]. fold u.
      apply Z.le_lt_trans with (align e d); [|done]. apply Z.mul_le_mono_nonneg_r; [|done].
      apply Z.pow_nonneg; lia. }
    apply Z.pow_lt_mono_r_iff in Hpow; [|lia|unfold PREC; lia].
    unfold adjusted. rewrite (proj2 (Z.ltb_ge _ _)); [lia|].
    rewrite (proj2 (Z.ltb_ge _ _)); [apply ndigits_le; [done|lia]|done].
Qed.

Lemma dec_mul_exact a b :
  Z.abs (coef a * coef b) < 10 ^ PREC -> dec_mul a b = Dec (coef a * coef b) (dexp a + dexp b).
Proof. intros H. by apply dec_fix_exact. Qed.

Lemma dec_mul_val a b :
  Z.abs (coef a * coef b) < 10 ^ PREC -> (dval (dec_mul a b) == dval a * dval b)%Q.
Proof.
  intros H. rewrite dec_mul_exact //. unfold dval. cbn. rewrite inject_Z_mult Qpower_plus; [done|]. ring.
Qed.
