(* ===== verification/DurableJobs.v ===== *)
(** * The durable job store

    Models [processual_api/execution/durable.py]: the retry policy, the job
    record, and every operation of [InMemoryDurableJobStore], the reference
    implementation of the lease semantics.  Each operation runs under one lock,
    so it is one atomic step; [now] is the clock reading it takes, [new_id] and
    [token] are the [uuid4().hex] values it draws. *)
From S2P Require Import Prelude PyString PyFloat.

Inductive JobStatus := QUEUED | RUNNING | RETRY_WAIT | SUCCEEDED | FAILED | CANCELLED.
#[export] Instance JobStatus_eq_dec : EqDecision JobStatus.
Proof. solve_decision. Defined.

Inductive ExecutionPriority := EMERGENCY | INTERACTIVE | NORMAL | BATCH.
#[export] Instance ExecutionPriority_eq_dec : EqDecision ExecutionPriority.
Proof. solve_decision. Defined.

Definition priority_int (p : ExecutionPriority) : Z :=
  match p with EMERGENCY => 0 | INTERACTIVE => 10 | NORMAL => 20 | BATCH => 30 end.

Definition terminal (s : JobStatus) : bool :=
  match s with SUCCEEDED | FAILED | CANCELLED => true | _ => false end.

Definition claimable (s : JobStatus) : bool :=
  match s with QUEUED | RETRY_WAIT => true | _ => false end.

Section Durable.
  (** [F]: clock readings; [V]: the payload and result values, whose [==] is
      decidable. *)
  Context {F V : Type} `{PyFloat F} `{EqDecision V}.

Record RetryPolicy := {
  max_attempts : Z;
  initial_backoff_seconds : F;
  max_backoff_seconds : F
}.

Definition RetryPolicy_post_init (p : RetryPolicy) : res unit :=
  _ ← reject_if (max_attempts p <? 1) ValueError "max_attempts must be at least 1";
  _ ← reject_if (f_ltb (initial_backoff_seconds p) f_zero) ValueError
        "initial_backoff_seconds cannot be negative";
  reject_if (f_ltb (max_backoff_seconds p) (initial_backoff_seconds p)) ValueError
    "max_backoff_seconds cannot be smaller than initial_backoff_seconds".

Definition delay_after_attempt (p : RetryPolicy) (attempt : Z) : res F :=
  _ ← reject_if (attempt <? 1) ValueError "attempt must be at least 1";
  match f_scale2 (initial_backoff_seconds p) (attempt - 1) with
  | Some delay => mret (f_min delay (max_backoff_seconds p))
  | None => raise OverflowError "int too large to convert to float"
  end.

Record JobSpec := {
  idempotency_key : string;
  domain : string;
  payload : V;
  priority : ExecutionPriority;
  retry : RetryPolicy;
  deadline_at : option F
}.

Definition JobSpec_post_init (s : JobSpec) : res unit :=
  _ ← reject_if (blank (idempotency_key s)) ValueError "idempotency_key cannot be empty";
  reject_if (blank (domain s)) ValueError "domain cannot be empty".

Record ExecutionJob := {
  job_id : string;
  spec : JobSpec;
  status : JobStatus;
  created_at : F;
  updated_at : F;
  available_at : F;
  attempt : Z;
  worker_id : option string;
  lease_token : option string;
  lease_expires_at : option F;
  cancel_requested : bool;
  last_error : option string;
  result : option V
}.

(** Field assignments on a job object. *)
Definition set_status (v : JobStatus) (j : ExecutionJob) : ExecutionJob :=
  Build_ExecutionJob (job_id j) (spec j) v (created_at j) (updated_at j) (available_at j)
    (attempt j) (worker_id j) (lease_token j) (lease_expires_at j) (cancel_requested j)
    (last_error j) (result j).
Definition set_updated_at (v : F) (j : ExecutionJob) : ExecutionJob :=
  Build_ExecutionJob (job_id j) (spec j) (status j) (created_at j) v (available_at j)
    (attempt j) (worker_id j) (lease_token j) (lease_expires_at j) (cancel_requested j)
    (last_error j) (result j).
Definition set_available_at (v : F) (j : ExecutionJob) : ExecutionJob :=
  Build_ExecutionJob (job_id j) (spec j) (status j) (created_at j) (updated_at j) v
    (attempt j) (worker_id j) (lease_token j) (lease_expires_at j) (cancel_requested j)
    (last_error j) (result j).
Definition set_attempt (v : Z) (j : ExecutionJob) : ExecutionJob :=
  Build_ExecutionJob (job_id j) (spec j) (status j) (created_at j) (updated_at j)
    (available_at j) v (worker_id j) (lease_token j) (lease_expires_at j)
    (cancel_requested j) (last_error j) (result j).
Definition set_lease (w t : option string) (e : option F) (j : ExecutionJob) : ExecutionJob :=
  Build_ExecutionJob (job_id j) (spec j) (status j) (created_at j) (updated_at j)
    (available_at j) (attempt j) w t e (cancel_requested j) (last_error j) (result j).
Definition set_cancel_requested (v : bool) (j : ExecutionJob) : ExecutionJob :=
  Build_ExecutionJob (job_id j) (spec j) (status j) (created_at j) (updated_at j)
    (available_at j) (attempt j) (worker_id j) (lease_token j) (lease_expires_at j) v
    (last_error j) (result j).
Definition set_last_error (v : option string) (j : ExecutionJob) : ExecutionJob :=
  Build_ExecutionJob (job_id j) (spec j) (status j) (created_at j) (updated_at j)
    (available_at j) (attempt j) (worker_id j) (lease_token j) (lease_expires_at j)
    (cancel_requested j) v (result j).
Definition set_result (v : option V) (j : ExecutionJob) : ExecutionJob :=
  Build_ExecutionJob (job_id j) (spec j) (status j) (created_at j) (updated_at j)
    (available_at j) (attempt j) (worker_id j) (lease_token j) (lease_expires_at j)
    (cancel_requested j) (last_error j) v.

Definition clear_lease (j : ExecutionJob) : ExecutionJob := set_lease None None None j.

(** The store: [_jobs] and [_idempotency].  No operation depends on the
    insertion order of [_jobs]: [claim] sorts by a total key and the sweeps treat
    each job on its own. *)
Record Store := {
  jobs : gmap string ExecutionJob;
  idempotency : gmap string string
}.

Definition empty_store : Store := {| jobs := ∅; idempotency := ∅ |}.

(** The job object held under key [id], after assignments to its fields. *)
Definition put_job (id : string) (j : ExecutionJob) (s : Store) : Store :=
  {| jobs := <[id := j]> (jobs s); idempotency := idempotency s |}.
Definition save (id : string) (j : ExecutionJob) : M Store unit := modify (put_job id j).

Definition get_job (id : string) : M Store ExecutionJob := fun s =>
  match jobs s !! id with
  | Some j => (Ok j, s)
  | None => (raise JobNotFoundError id, s)
  end.

(** [==] on the frozen dataclass [JobSpec]. *)
Definition same_submission (a b : JobSpec) : bool :=
  bool_decide (idempotency_key a = idempotency_key b) &&
  bool_decide (domain a = domain b) &&
  bool_decide (payload a = payload b) &&
  bool_decide (priority a = priority b) &&
  (max_attempts (retry a) =? max_attempts (retry b)) &&
  f_eqb (initial_backoff_seconds (retry a)) (initial_backoff_seconds (retry b)) &&
  f_eqb (max_backoff_seconds (retry a)) (max_backoff_seconds (retry b)) &&
  f_opt_eqb (deadline_at a) (deadline_at b).

Definition lease_active (j : ExecutionJob) (w t : string) (now : F) : bool :=
  bool_decide (status j = RUNNING) &&
  bool_decide (worker_id j = Some w) &&
  bool_decide (lease_token j = Some t) &&
  match lease_expires_at j with Some e => negb (f_leb e now) | None => false end.

Definition assert_lease (j : ExecutionJob) (w t : string) (now : F) : res unit :=
  ensure (lease_active j w t now) JobLeaseLostError
    ("job lease is not active: " +:+ job_id j).

Definition deadline_expired (j : ExecutionJob) (now : F) : bool :=
  match deadline_at (spec j) with Some d => f_leb d now | None => false end.

Definition expire_deadline (now : F) (j : ExecutionJob) : ExecutionJob :=
  if terminal (status j) then j
  else if negb (deadline_expired j now) then j
  else clear_lease (set_updated_at now (set_last_error (Some "deadline_exceeded")
         (set_status FAILED j))).

(** ** The operations *)

Definition submit (now : F) (new_id : string) (sp : JobSpec) : M Store (ExecutionJob * bool) :=
  fun s =>
    match idempotency s !! idempotency_key sp with
    | Some existing_id =>
        match jobs s !! existing_id with
        | None => (raise KeyError existing_id, s)
        | Some existing =>
            if same_submission (spec existing) sp then (Ok (existing, false), s)
            else (raise IdempotencyConflictError
                    ("idempotency key already belongs to another job: "
                     +:+ idempotency_key sp), s)
        end
    | None =>
        let job := Build_ExecutionJob new_id sp QUEUED now now now 0 None None None
                     false None None in
        (Ok (job, true),
         {| jobs := <[new_id := job]> (jobs s);
            idempotency := <[idempotency_key sp := new_id]> (idempotency s) |})
    end.

Definition get_op (id : string) : M Store ExecutionJob := get_job id.

(** The sort key [(int(priority), available_at, created_at, job_id)], compared
    lexicographically. *)
Definition job_before (a b : ExecutionJob) : bool :=
  let pa := priority_int (priority (spec a)) in
  let pb := priority_int (priority (spec b)) in
  if negb (pa =? pb) then pa <? pb
  else if negb (f_eqb (available_at a) (available_at b))
       then f_ltb (available_at a) (available_at b)
  else if negb (f_eqb (created_at a) (created_at b))
       then f_ltb (created_at a) (created_at b)
  else String.leb (job_id a) (job_id b).

Definition job_le (a b : ExecutionJob) : Prop := job_before a b = true.
#[global] Instance job_le_dec : RelDecision job_le.
Proof. intros a b. unfold job_le. apply _. Defined.

Definition eligible (now : F) (domains : option (list string)) (j : ExecutionJob) : bool :=
  claimable (status j) && f_leb (available_at j) now && negb (cancel_requested j) &&
  match domains with
  | None => true
  | Some ds => bool_decide (domain (spec j) ∈ ds)
  end.

Definition candidates (now : F) (domains : option (list string)) (s : Store)
    : list ExecutionJob :=
  merge_sort job_le
    (List.filter (eligible now domains) (snd <$> map_to_list (jobs s))).

Definition expire_deadlines (now : F) (s : Store) : Store :=
  {| jobs := expire_deadline now <$> jobs s; idempotency := idempotency s |}.

Definition claim (now : F) (token w : string) (lease_seconds : F)
    (domains : option (list string)) : M Store (option ExecutionJob) :=
  _ ← lift (reject_if (blank w) ValueError "worker_id cannot be empty");
  _ ← lift (reject_if (f_leb lease_seconds f_zero) ValueError "lease_seconds must be positive");
  _ ← modify (expire_deadlines now);
  cs ← gets (candidates now domains);
  match cs with
  | [] => mret None
  | j :: _ =>
      let j' := set_updated_at now
                  (set_lease (Some w) (Some token) (Some (f_add now lease_seconds))
                    (set_attempt (attempt j + 1) (set_status RUNNING j))) in
      _ ← save (job_id j) j';
      mret (Some j')
  end.

Definition heartbeat (now : F) (id w t : string) (lease_seconds : F) : M Store ExecutionJob :=
  _ ← lift (reject_if (f_leb lease_seconds f_zero) ValueError "lease_seconds must be positive");
  j ← get_job id;
  _ ← lift (assert_lease j w t now);
  if deadline_expired j now then
    _ ← save id (expire_deadline now j);
    throw JobLeaseLostError ("job deadline expired: " +:+ id)
  else
    let j' := set_updated_at now
                (set_lease (worker_id j) (lease_token j) (Some (f_add now lease_seconds)) j) in
    _ ← save id j';
    mret j'.

Definition release_unstarted_claim (now : F) (id w t : string) (delay_seconds : F)
    : M Store ExecutionJob :=
  _ ← lift (reject_if (f_ltb delay_seconds f_zero) ValueError "delay_seconds cannot be negative");
  j ← get_job id;
  _ ← lift (assert_lease j w t now);
  let j' := clear_lease (set_updated_at now (set_available_at (f_add now delay_seconds)
              (set_attempt (Z.max (attempt j - 1) 0) (set_status QUEUED j)))) in
  _ ← save id j';
  mret j'.

Definition succeed (now : F) (id w t : string) (r : option V) : M Store ExecutionJob :=
  j ← get_job id;
  _ ← lift (assert_lease j w t now);
  let j' :=
    if cancel_requested j then clear_lease (set_updated_at now (set_status CANCELLED j))
    else if deadline_expired j now then expire_deadline now j
    else clear_lease (set_updated_at now (set_last_error None (set_result r
           (set_status SUCCEEDED j)))) in
  _ ← save id j';
  mret j'.

Definition fail (now : F) (id w t error : string) : M Store ExecutionJob :=
  j0 ← get_job id;
  _ ← lift (assert_lease j0 w t now);
  let j := clear_lease (set_updated_at now (set_last_error (Some error) j0)) in
  _ ← save id j;
  if cancel_requested j then
    let j' := set_status CANCELLED j in _ ← save id j'; mret j'
  else if deadline_expired j now then
    let j' := set_last_error (Some "deadline_exceeded") (set_status FAILED j) in
    _ ← save id j'; mret j'
  else if max_attempts (retry (spec j)) <=? attempt j then
    let j' := set_status FAILED j in _ ← save id j'; mret j'
  else
    delay ← lift (delay_after_attempt (retry (spec j)) (attempt j));
    let retry_at := f_add now delay in
    if match deadline_at (spec j) with Some d => f_leb d retry_at | None => false end then
      let j' := set_last_error (Some "deadline_exceeded") (set_status FAILED j) in
      _ ← save id j'; mret j'
    else
      let j' := set_available_at retry_at (set_status RETRY_WAIT j) in
      _ ← save id j'; mret j'.

Definition request_cancel (now : F) (id : string) : M Store ExecutionJob :=
  j ← get_job id;
  if terminal (status j) then mret j
  else
    let j1 := set_updated_at now (set_cancel_requested true j) in
    let j2 := if claimable (status j1) then set_status CANCELLED j1 else j1 in
    _ ← save id j2;
    mret j2.

Definition cancel_claimed (now : F) (id w t : string) : M Store ExecutionJob :=
  j ← get_job id;
  _ ← lift (assert_lease j w t now);
  let j' := clear_lease (set_updated_at now (set_cancel_requested true
              (set_status CANCELLED j))) in
  _ ← save id j';
  mret j'.

(** The two [continue] tests of the recovery sweep, negated. *)
Definition lease_lapsed (now : F) (j : ExecutionJob) : bool :=
  bool_decide (status j = RUNNING) &&
  match lease_expires_at j with Some e => f_leb e now | None => false end.

Definition recover_job (now : F) (j : ExecutionJob) : ExecutionJob :=
  if negb (lease_lapsed now j) then j
  else
    let j1 := set_last_error (Some "worker_lease_expired")
                (set_updated_at now (clear_lease j)) in
    if cancel_requested j1 then set_status CANCELLED j1
    else if deadline_expired j1 now then
      set_last_error (Some "deadline_exceeded") (set_status FAILED j1)
    else if max_attempts (retry (spec j1)) <=? attempt j1 then set_status FAILED j1
    else set_available_at now (set_status QUEUED j1).

Definition recover_expired_leases (now : F) : M Store Z := fun s =>
  (Ok (Z.of_nat (size (filter (fun kv => lease_lapsed now kv.2 = true) (jobs s)))),
   {| jobs := recover_job now <$> jobs s; idempotency := idempotency s |}).


(** ** Steps of the store *)

Inductive op :=
  | OpSubmit (new_id : string) (sp : JobSpec)
  | OpGet (id : string)
  | OpClaim (token w : string) (lease_seconds : F) (domains : option (list string))
  | OpHeartbeat (id w t : string) (lease_seconds : F)
  | OpRelease (id w t : string) (delay_seconds : F)
  | OpSucceed (id w t : string) (r : option V)
  | OpFail (id w t error : string)
  | OpRequestCancel (id : string)
  | OpCancelClaimed (id w t : string)
  | OpRecover.

(** The store after one operation at clock reading [now], whether it returned or
    raised. *)
Definition exec (now : F) (o : op) (s : Store) : Store :=
  match o with
  | OpSubmit new_id sp => snd (submit now new_id sp s)
  | OpGet id => snd (get_op id s)
  | OpClaim t w l ds => snd (claim now t w l ds s)
  | OpHeartbeat id w t l => snd (heartbeat now id w t l s)
  | OpRelease id w t d => snd (release_unstarted_claim now id w t d s)
  | OpSucceed id w t r => snd (succeed now id w t r s)
  | OpFail id w t e => snd (fail now id w t e s)
  | OpRequestCancel id => snd (request_cancel now id s)
  | OpCancelClaimed id w t => snd (cancel_claimed now id w t s)
  | OpRecover => snd (recover_expired_leases now s)
  end.

End Durable.
Arguments RetryPolicy F : clear implicits.
Arguments JobSpec F V : clear implicits.
Arguments ExecutionJob F V : clear implicits.
Arguments Store F V : clear implicits.
Arguments op F V : clear implicits.

(** Runs the body of an operation: opens the store monad and cases on its tests. *)
Ltac run_op :=
  cbv [get_job get_op assert_lease reject_if ensure raise lift throw save modify gets
       mbind M_bind mret M_ret] in *;
  repeat (case_match; simplify_eq/=).
