(* ===== verification/DurableLifecycle.v ===== *)
(** * The lifecycle of a durable job

    The abstract specification of the store of [DurableJobs]: a job moves by
    [job_step], a store by [store_step].  [exec_refines] shows that every
    operation of the store, raising or returning, is such a step; the invariant,
    the permanence of final statuses and the fencing of lost leases follow from
    the specification alone. *)
From S2P Require Import Prelude PyString PyFloat DurableJobs.

Section Lifecycle.
  Context {F V : Type} `{PyFloatLaws F} `{EqDecision V}.
  Implicit Types (j : ExecutionJob F V) (s : Store F V).

(** At least one attempt, and few enough that [2 ** (attempt - 1)] stays a double
    for every attempt that is followed by another. *)
Definition policy_ok (p : RetryPolicy F) : Prop := 1 <= max_attempts p <= 1025.

(** What no operation changes. *)
Definition same_core j j' : Prop :=
  job_id j' = job_id j /\ spec j' = spec j /\ created_at j' = created_at j.

Definition unleased j : Prop :=
  worker_id j = None /\ lease_token j = None /\ lease_expires_at j = None.

(** One job, one operation; [drawn] is the token a claim draws. *)
Inductive job_step (drawn : option string) : ExecutionJob F V -> ExecutionJob F V -> Prop :=
  | js_stay j : job_step drawn j j
  | js_claim j j' w t e :
      drawn = Some t -> same_core j j' ->
      claimable (status j) = true -> cancel_requested j = false ->
      status j' = RUNNING -> attempt j' = attempt j + 1 ->
      worker_id j' = Some w -> lease_token j' = Some t -> lease_expires_at j' = Some e ->
      job_step drawn j j'
  | js_renew j j' e :
      same_core j j' -> status j = RUNNING -> status j' = RUNNING ->
      attempt j' = attempt j -> worker_id j' = worker_id j ->
      lease_token j' = lease_token j -> lease_expires_at j' = Some e ->
      job_step drawn j j'
  | js_mark_cancel j j' :
      same_core j j' -> status j = RUNNING -> status j' = RUNNING ->
      attempt j' = attempt j -> worker_id j' = worker_id j ->
      lease_token j' = lease_token j -> lease_expires_at j' = lease_expires_at j ->
      cancel_requested j' = true ->
      job_step drawn j j'
  | js_release j j' :
      same_core j j' -> status j = RUNNING -> status j' = QUEUED ->
      attempt j' = Z.max (attempt j - 1) 0 -> unleased j' ->
      job_step drawn j j'
  | js_requeue j j' :
      same_core j j' -> status j = RUNNING -> claimable (status j') = true ->
      attempt j' = attempt j -> attempt j < max_attempts (retry (spec j)) ->
      unleased j' -> job_step drawn j j'
  | js_finish j j' :
      same_core j j' -> terminal (status j) = false -> terminal (status j') = true ->
      attempt j' = attempt j ->
      (unleased j' \/ claimable (status j) = true /\ worker_id j' = worker_id j /\
         lease_token j' = lease_token j /\ lease_expires_at j' = lease_expires_at j) ->
      job_step drawn j j'.

(** The job [submit] creates. *)
Definition fresh_job (id : string) (sp : JobSpec F V) j : Prop :=
  job_id j = id /\ spec j = sp /\ status j = QUEUED /\ attempt j = 0 /\ unleased j /\
  cancel_requested j = false.

Inductive store_step (drawn : option string) (s s' : Store F V) : Prop :=
  | ss_jobs :
      idempotency s' = idempotency s ->
      (forall id, jobs s !! id = None -> jobs s' !! id = None) ->
      (forall id j, jobs s !! id = Some j ->
         exists j', jobs s' !! id = Some j' /\ job_step drawn j j') ->
      store_step drawn s s'
  | ss_submit id sp j :
      jobs s !! id = None -> idempotency s !! idempotency_key sp = None ->
      fresh_job id sp j -> policy_ok (retry sp) ->
      jobs s' = <[id := j]> (jobs s) ->
      idempotency s' = <[idempotency_key sp := id]> (idempotency s) ->
      store_step drawn s s'.

(** ** Invariants *)

Definition job_wf (id : string) j : Prop :=
  job_id j = id /\ policy_ok (retry (spec j)) /\
  match status j with
  | RUNNING =>
      is_Some (worker_id j) /\ is_Some (lease_token j) /\ is_Some (lease_expires_at j) /\
      1 <= attempt j <= max_attempts (retry (spec j))
  | QUEUED | RETRY_WAIT => unleased j /\ 0 <= attempt j < max_attempts (retry (spec j))
  | SUCCEEDED | FAILED | CANCELLED =>
      unleased j /\ 0 <= attempt j <= max_attempts (retry (spec j))
  end.

(** Every job is well formed, and [_idempotency] maps each submission key to the
    one job submitted under it. *)
Record store_wf s : Prop := {
  wf_jobs : forall id j, jobs s !! id = Some j -> job_wf id j;
  wf_index : forall id j, jobs s !! id = Some j ->
    idempotency s !! idempotency_key (spec j) = Some id;
  wf_index_inv : forall k id, idempotency s !! k = Some id ->
    exists j, jobs s !! id = Some j /\ idempotency_key (spec j) = k
}.

(** What the caller of the store guarantees: [uuid4] draws a new identifier, and
    the spec passed [__post_init__] with a retry budget whose backoff stays
    representable. *)
Definition admissible (o : op F V) s : Prop :=
  match o with
  | OpSubmit id sp => jobs s !! id = None /\ policy_ok (retry sp)
  | _ => True
  end.

Definition drawn_by (o : op F V) : option string :=
  match o with OpClaim t _ _ _ => Some t | _ => None end.

Lemma empty_store_wf : store_wf empty_store.
Proof. split; cbn; intros *; by rewrite lookup_empty. Qed.

Lemma job_step_core drawn j j' : job_step drawn j j' -> same_core j j'.
Proof. by destruct 1. Qed.

Lemma job_step_spec drawn j j' : job_step drawn j j' -> spec j' = spec j.
Proof. by intros (_ & ? & _)%job_step_core. Qed.

Lemma job_step_wf drawn id j j' : job_wf id j -> job_step drawn j j' -> job_wf id j'.
Proof.
  intros (Hid & Hp & Hs) Hstep. unfold job_wf, policy_ok in *.
  destruct Hstep;
    repeat match goal with Hc : same_core _ _ |- _ => destruct Hc as (Ei & Es & _) end;
    rewrite ?Ei ?Es; split_and!; try done; try lia.
  - destruct (status j) eqn:E; try done; destruct Hs as [_ Hs];
      rewrite H5 H6 H7 H8 H9; split_and!; try (by eexists); lia.
  - rewrite H2 in Hs. destruct Hs as (? & ? & ? & ?). rewrite H3 H4 H5 H6 H7.
    split_and!; try done; try (by eexists); lia.
  - rewrite H2 in Hs. destruct Hs as (? & ? & ? & ?). rewrite H3 H4 H5 H6 H7.
    split_and!; done || lia.
  - rewrite H2 in Hs. destruct Hs as (? & ? & ? & ?). rewrite H3. split; [done|lia].
  - rewrite H2 in Hs. destruct Hs as (? & ? & ? & ?).
    destruct (status j') eqn:E; try done; split; try done; lia.
  - assert (unleased j' /\ 0 <= attempt j' <= max_attempts (retry (spec j))) as Hgoal.
    { destruct H5 as [Hu|(Hc & Ew & Et & Ee)].
      - split; [done|]. rewrite H4. destruct (status j) eqn:E; try done; lia.
      - rewrite H4. destruct (status j) eqn:E; try done;
          destruct Hs as ((? & ? & ?) & ?); unfold unleased; rewrite Ew Et Ee; split_and!;
          done || lia. }
    destruct (status j') eqn:E; done.
Qed.

Lemma store_step_wf drawn s s' : store_wf s -> store_step drawn s s' -> store_wf s'.
Proof.
  intros [Hj Hi Hinv] [Eidem Hnone Hsome | id sp j Hid Hkey Hf Hp Ej Ei].
  - assert (forall id j', jobs s' !! id = Some j' ->
      exists j, jobs s !! id = Some j /\ job_step drawn j j') as Hback.
    { intros id j' Hj'. destruct (jobs s !! id) as [j|] eqn:E.
      - destruct (Hsome id j E) as (j'' & ? & ?). simplify_eq. eauto.
      - rewrite (Hnone id E) in Hj'. done. }
    split.
    + intros id j' (j & Ej & Hs)%Hback. eapply job_step_wf; eauto.
    + intros id j' (j & Ej & Hs)%Hback. rewrite Eidem. rewrite (job_step_spec _ _ _ Hs). eauto.
    + intros k id. rewrite Eidem. intros (j & Ej & Hk)%Hinv.
      destruct (Hsome id j Ej) as (j' & Ej' & Hs). exists j'. split; [done|].
      by rewrite (job_step_spec _ _ _ Hs).
  - destruct Hf as (Eid & Esp & Est & Eat & Hu & Ec).
    split; rewrite ?Ej ?Ei.
    + intros id' j'. rewrite lookup_insert. case_decide; [intros; simplify_eq|apply Hj].
      unfold job_wf. rewrite Est Eat. unfold policy_ok in *. split_and!; done || lia.
    + intros id' j'. rewrite lookup_insert. case_decide; [intros; simplify_eq|].
      * apply lookup_insert_eq.
      * intros Hj'. rewrite lookup_insert_ne; [|by apply Hi].
        intros Hk. rewrite Hk in Hkey. rewrite (Hi id' j' Hj') in Hkey. done.
    + intros k id'. rewrite lookup_insert. case_decide; [intros; simplify_eq|].
      * exists j. by rewrite lookup_insert_eq.
      * intros (j' & Ej' & Hk')%Hinv. exists j'. split; [|done]. rewrite lookup_insert_ne; [intros ->; congruence|done].
Qed.

(** ** The operations refine the lifecycle *)

Lemma store_step_refl drawn s : store_step drawn s s.
Proof. apply ss_jobs; eauto using js_stay. Qed.

Lemma put_job_step drawn s id j j' :
  jobs s !! id = Some j -> job_step drawn j j' -> store_step drawn s (put_job id j' s).
Proof.
  intros Ej Hs. apply ss_jobs; cbn; [done| |].
  - intros id' Hid'. rewrite lookup_insert_ne; [congruence|done].
  - intros id' j0 Ej0. destruct (decide (id = id')) as [<-|Hne].
    + exists j'. rewrite lookup_insert_eq. by simplify_eq.
    + exists j0. rewrite lookup_insert_ne; eauto using js_stay.
Qed.

Lemma put_job_twice id j j' s : put_job id j' (put_job id j s) = put_job id j' s.
Proof. unfold put_job. cbn. by rewrite insert_insert_eq. Qed.

Lemma map_jobs_step drawn s (f : ExecutionJob F V -> ExecutionJob F V) :
  (forall id j, jobs s !! id = Some j -> job_step drawn j (f j)) ->
  store_step drawn s {| jobs := f <$> jobs s; idempotency := idempotency s |}.
Proof.
  intros Hf. apply ss_jobs; cbn; [done| |].
  - intros id Hid. by rewrite lookup_fmap Hid.
  - intros id j Ej. exists (f j). rewrite lookup_fmap Ej. eauto.
Qed.

(** A lease that [assert_lease] accepts is the lease of a running job. *)
Lemma lease_active_running j w t now :
  lease_active j w t now = true ->
  status j = RUNNING /\ worker_id j = Some w /\ lease_token j = Some t /\
  exists e, lease_expires_at j = Some e /\ f_leb e now = false.
Proof.
  unfold lease_active. intros Ha. to_prop.
  destruct (lease_expires_at j) eqn:E; to_prop; naive_solver.
Qed.

Ltac lease_facts :=
  match goal with
  | Ha : lease_active _ _ _ _ = true |- _ =>
      apply lease_active_running in Ha as (Hrun & Hw & Ht & ex & Hex & Hlt)
  end.

(** Closes a step of the one job an operation saved. *)
Ltac saved_step := eapply put_job_step; [eassumption|].

Lemma expire_deadline_step d now j : job_step d j (expire_deadline now j).
Proof.
  unfold expire_deadline. destruct (terminal (status j)) eqn:Et; [apply js_stay|].
  destruct (deadline_expired j now); cbn; [|apply js_stay].
  eapply js_finish; cbn; auto; try done. by left.
Qed.

Lemma heartbeat_step d now id w t l s :
  store_step d s (snd (heartbeat now id w t l s)).
Proof.
  unfold heartbeat. run_op; try apply store_step_refl; saved_step.
  - apply expire_deadline_step.
  - lease_facts. by eapply js_renew.
Qed.

Lemma release_step d now id w t delay s :
  store_step d s (snd (release_unstarted_claim now id w t delay s)).
Proof.
  unfold release_unstarted_claim. run_op; try apply store_step_refl; saved_step.
  lease_facts. by eapply js_release.
Qed.

Lemma finish_unleased d j j' :
  same_core j j' -> status j = RUNNING -> terminal (status j') = true ->
  attempt j' = attempt j -> unleased j' -> job_step d j j'.
Proof. intros Hc Hr Ht Ha Hu. eapply js_finish; eauto. by rewrite Hr. Qed.

Lemma succeed_step d now id w t r s :
  store_step d s (snd (succeed now id w t r s)).
Proof.
  unfold succeed. run_op; try apply store_step_refl; saved_step; try lease_facts.
  - by apply finish_unleased.
  - apply expire_deadline_step.
  - by apply finish_unleased.
Qed.

Lemma cancel_claimed_step d now id w t s :
  store_step d s (snd (cancel_claimed now id w t s)).
Proof.
  unfold cancel_claimed. run_op; try apply store_step_refl; saved_step.
  lease_facts. by apply finish_unleased.
Qed.

Lemma request_cancel_step d now id s :
  store_step d s (snd (request_cancel now id s)).
Proof.
  unfold request_cancel. run_op; try apply store_step_refl; saved_step.
  - eapply js_finish; cbn; auto; done.
  - destruct (status e) eqn:E; try done. by eapply js_mark_cancel.
Qed.

(** Below the attempt limit the backoff is representable. *)
Lemma delay_defined (p : RetryPolicy F) n :
  policy_ok p -> 1 <= n < max_attempts p -> exists d, delay_after_attempt p n = Ok d.
Proof.
  unfold policy_ok, delay_after_attempt. intros Hp Hn.
  destruct (f_scale2_defined (initial_backoff_seconds p) (n - 1)) as [x Hx]; [lia|].
  exists (f_min x (max_backoff_seconds p)).
  replace (n <? 1) with false by (symmetry; apply Z.ltb_ge; lia). cbn. by rewrite Hx.
Qed.

Lemma fail_step d now id w t error s :
  store_wf s -> store_step d s (snd (fail now id w t error s)).
Proof.
  intros Hwf. unfold fail.
  run_op; try apply store_step_refl; try lease_facts; rewrite ?put_job_twice;
    try (saved_step; by apply finish_unleased).
  1-2: saved_step; to_prop; by eapply js_requeue.
  (* the backoff cannot overflow *)
  destruct (wf_jobs _ Hwf id e) as (_ & Hp & Hs); [done|]. rewrite Hrun in Hs. to_prop.
  destruct (delay_defined (retry (spec e)) (attempt e)); [done|lia|congruence].
Qed.

Lemma recover_job_step d now id j : job_wf id j -> job_step d j (recover_job now j).
Proof.
  intros (Hid & Hp & Hs). unfold recover_job, lease_lapsed.
  destruct (bool_decide (status j = RUNNING)) eqn:Er; cbn; [|apply js_stay].
  to_prop. destruct (lease_expires_at j) as [e|] eqn:Ee; cbn; [|apply js_stay].
  destruct (f_leb e now); cbn; [|apply js_stay].
  repeat case_match; try by apply finish_unleased.
  to_prop. by eapply js_requeue; cbn.
Qed.

Lemma recover_step d now s :
  store_wf s -> store_step d s (snd (recover_expired_leases now s)).
Proof.
  intros Hwf. apply map_jobs_step. intros id j Ej.
  eapply recover_job_step, (wf_jobs _ Hwf _ _ Ej).
Qed.

Lemma submit_step d now id sp s :
  jobs s !! id = None -> policy_ok (retry sp) -> store_step d s (snd (submit now id sp s)).
Proof.
  intros Hid Hp. unfold submit.
  destruct (idempotency s !! idempotency_key sp) as [id0|] eqn:Ek.
  - run_op; apply store_step_refl.
  - eapply ss_submit; cbn; eauto. done.
Qed.

(** A candidate of [claim] is an eligible job of the swept store. *)
Lemma candidates_elem now ds s j :
  j ∈ candidates now ds s <->
  eligible now ds j = true /\ exists id, jobs s !! id = Some j.
Proof.
  unfold candidates. rewrite merge_sort_Permutation list_elem_of_In filter_In.
  rewrite -list_elem_of_In list_elem_of_fmap. split.
  - intros [([id j'] & -> & Hm) He]. split; [done|]. exists id. by apply elem_of_map_to_list.
  - intros [He [id Hid]]. split; [|done]. exists (id, j). split; [done|].
    by apply elem_of_map_to_list.
Qed.

Lemma expired_lookup now s id j :
  jobs (expire_deadlines now s) !! id = Some j <->
  exists j0, jobs s !! id = Some j0 /\ j = expire_deadline now j0.
Proof. cbn. rewrite lookup_fmap fmap_Some. naive_solver. Qed.

(** A job the sweep leaves claimable was not touched by it. *)
Lemma expire_claimable now j :
  claimable (status (expire_deadline now j)) = true ->
  expire_deadline now j = j /\ deadline_expired j now = false.
Proof.
  unfold expire_deadline. destruct (status j) eqn:E; cbn; rewrite ?E; try done;
    by destruct (deadline_expired j now); cbn; rewrite ?E.
Qed.

Lemma eligible_claimable now ds j :
  eligible now ds j = true -> claimable (status j) = true /\ cancel_requested j = false.
Proof. unfold eligible. intros He. to_prop. done. Qed.

(** The job [claim] picks is an eligible job the sweep left alone. *)
Lemma candidates_head now ds s j l :
  candidates now ds (expire_deadlines now s) = j :: l ->
  exists id j0, jobs s !! id = Some j0 /\ j = j0 /\
    claimable (status j0) = true /\ cancel_requested j0 = false /\
    deadline_expired j0 now = false /\ eligible now ds j0 = true.
Proof.
  intros E. assert (j ∈ candidates now ds (expire_deadlines now s)) as Hin
    by (rewrite E; by left).
  apply candidates_elem in Hin as (He & id & (j0 & Hj0 & Heq)%expired_lookup).
  destruct (eligible_claimable _ _ _ He) as [Hc Hnc].
  rewrite Heq in Hc. apply expire_claimable in Hc as Hx. destruct Hx as [Hsame Hd].
  rewrite Hsame in Heq Hc. subst j0. eauto 10.
Qed.

Lemma claim_step now t w l ds s :
  store_wf s -> store_step (Some t) s (snd (claim now t w l ds s)).
Proof.
  intros Hwf. unfold claim. run_op; try apply store_step_refl.
  - apply map_jobs_step. intros id j _. apply expire_deadline_step.
  - match goal with
    | E : candidates _ _ _ = _ |- _ =>
        apply candidates_head in E as (id & j0 & Hj0 & -> & Hc & Hnc & _ & He)
    end.
    assert (job_id j0 = id) as Hid by (by destruct (wf_jobs _ Hwf _ _ Hj0)).
    apply ss_jobs; cbn; [done| |].
    + intros id' Hn. rewrite lookup_insert_ne; [congruence|].
      by rewrite lookup_fmap Hn.
    + intros id' j Ej. destruct (decide (job_id j0 = id')) as [<-|Hne].
      * eexists. rewrite lookup_insert_eq. split; [done|]. simplify_eq.
        eapply js_claim; cbn; auto; done.
      * exists (expire_deadline now j). rewrite lookup_insert_ne // lookup_fmap Ej.
        split; [done|]. apply expire_deadline_step.
Qed.

(** Every operation is a step of the specification. *)
Lemma exec_step now o s :
  store_wf s -> admissible o s -> store_step (drawn_by o) s (exec now o s).
Proof.
  intros Hwf Ha. destruct o; cbn in *.
  - destruct Ha. by apply submit_step.
  - unfold get_op, get_job. case_match; apply store_step_refl.
  - by apply claim_step.
  - apply heartbeat_step.
  - apply release_step.
  - apply succeed_step.
  - by apply fail_step.
  - apply request_cancel_step.
  - apply cancel_claimed_step.
  - by apply recover_step.
Qed.

End Lifecycle.
