(* ===== verification/DurableProps.v ===== *)
(** * Properties of the durable job store

    Over every run of the store, a sequence of operations at the clock readings
    they took: well-formedness, permanence of final statuses, exactly-once
    submission, the choice [claim] makes, fencing of lost leases, the retry
    backoff, the recovery sweep, and two ways a job can be left behind. *)
From S2P Require Import Prelude PyString PyFloat DurableJobs DurableLifecycle.

Section Runs.
  Context {F V : Type} `{PyFloatLaws F} `{EqDecision V}.
  Implicit Types (j k : ExecutionJob F V) (s : Store F V) (tr : list (F * op F V)).

(** A run: the operations in the order the lock admitted them. *)
Fixpoint run tr s : Store F V :=
  match tr with
  | [] => s
  | (now, o) :: tr' => run tr' (exec now o s)
  end.

Fixpoint admissible_run tr s : Prop :=
  match tr with
  | [] => True
  | (now, o) :: tr' => admissible o s /\ admissible_run tr' (exec now o s)
  end.

(** No claim of the run draws the token [t]. *)
Definition never_draws (t : string) tr : Prop :=
  Forall (fun no => drawn_by (snd no) <> Some t) tr.

Lemma exec_wf now o s : store_wf s -> admissible o s -> store_wf (exec now o s).
Proof. intros Hwf Ha. exact (store_step_wf _ _ _ Hwf (exec_step now o s Hwf Ha)). Qed.

Lemma run_wf tr s : store_wf s -> admissible_run tr s -> store_wf (run tr s).
Proof.
  revert s. induction tr as [|[now o] tr IH]; intros s Hwf; cbn; [done|].
  intros [Ha Hr]. apply IH; [|done]; by apply exec_wf.
Qed.

(** A property of one job that every step keeps holds after every run. *)
Lemma run_job_invariant (P : ExecutionJob F V -> Prop) (Q : op F V -> Prop) tr s id j :
  (forall o j j', Q o -> P j -> job_step (drawn_by o) j j' -> P j') ->
  Forall (fun no => Q (snd no)) tr ->
  store_wf s -> admissible_run tr s -> jobs s !! id = Some j -> P j ->
  exists j', jobs (run tr s) !! id = Some j' /\ P j'.
Proof.
  intros HP. revert s j.
  induction tr as [|[now o] tr IH]; intros s j HQ Hwf Hr Hj Hp; cbn in *; [eauto|].
  apply Forall_cons in HQ as [Hq HQ]. destruct Hr as [Ha Hr].
  pose proof (exec_step now o s Hwf Ha) as Hstep.
  assert (exists j', jobs (exec now o s) !! id = Some j' /\ P j') as (j' & Hj' & Hp').
  { destruct Hstep as [_ _ Hsome | id0 sp j0 Hid0 _ _ _ Ej _].
    - destruct (Hsome id j Hj) as (j' & Hj' & Hs). eauto.
    - exists j. rewrite Ej lookup_insert_ne; [congruence|done]. }
  eapply IH; eauto. by apply exec_wf.
Qed.

(** C3. In every store reachable from the empty one by operations of the store, where each
    submission draws a fresh identifier and allows between 1 and 1025 attempts
    ([admissible_run]), each job is well formed: a job holds a complete lease
    exactly while it is [RUNNING], its attempt count stays within its retry budget
    (strictly below it while it waits), and the idempotency index points each submission
    key to the one job submitted under it. *)
Theorem reachable_store_wf tr :
  admissible_run tr empty_store -> store_wf (run tr empty_store).
Proof. apply run_wf, empty_store_wf. Qed.

Lemma terminal_step drawn j j' :
  terminal (status j) = true -> job_step drawn j j' -> j' = j.
Proof.
  intros Ht Hs. destruct Hs; [done|..]; exfalso; destruct (status j); cbn in *; congruence.
Qed.

(** Final statuses are final: once a job is [SUCCEEDED], [FAILED] or
    [CANCELLED], no run of operations changes any field of it. *)
Theorem terminal_absorbing tr s id j :
  store_wf s -> admissible_run tr s ->
  jobs s !! id = Some j -> terminal (status j) = true ->
  jobs (run tr s) !! id = Some j.
Proof.
  intros Hwf Hr Hj Ht.
  destruct (run_job_invariant (fun j' => j' = j) (fun _ => True) tr s id j) as (j' & ? & ->);
    try done.
  - intros o j1 j2 _ -> Hs. exact (terminal_step _ _ _ Ht Hs).
  - by apply Forall_true.
Qed.

(** ** Fencing *)

(** The five requests a worker makes under a lease. *)
Inductive lease_request :=
  | Heartbeat (lease_seconds : F)
  | Release (delay_seconds : F)
  | Succeed (r : option V)
  | Fail_ (error : string)
  | CancelClaimed.

Definition lease_call (now : F) (id w t : string) (q : lease_request)
    : M (Store F V) (ExecutionJob F V) :=
  match q with
  | Heartbeat l => heartbeat now id w t l
  | Release d => release_unstarted_claim now id w t d
  | Succeed r => succeed now id w t r
  | Fail_ e => fail now id w t e
  | CancelClaimed => cancel_claimed now id w t
  end.

(** The duration the request carries is accepted. *)
Definition request_valid (q : lease_request) : bool :=
  match q with
  | Heartbeat l => negb (f_leb l f_zero)
  | Release d => negb (f_ltb d f_zero)
  | _ => true
  end.

Lemma lease_call_rejected now id w t q s j :
  jobs s !! id = Some j -> lease_active j w t now = false -> request_valid q = true ->
  lease_call now id w t q s =
    (raise JobLeaseLostError ("job lease is not active: " +:+ job_id j), s).
Proof.
  intros Hj Hl Hq.
  destruct q; cbn in *;
    cbv [heartbeat release_unstarted_claim succeed fail cancel_claimed get_job assert_lease
         reject_if ensure lift mbind M_bind] in *;
    rewrite ?Hq Hj Hl; done.
Qed.

Lemma token_step drawn j j' t :
  drawn <> Some t -> lease_token j <> Some t -> job_step drawn j j' -> lease_token j' <> Some t.
Proof.
  intros Hd Ht Hs.
  destruct Hs as [ | | | | ? ? ? ? ? ? (_ & -> & _) | ? ? ? ? ? ? ? (_ & -> & _)
                 | ? ? ? ? ? ? [(_ & -> & _)|(_ & _ & -> & _)]]; congruence.
Qed.

(** C5. Fencing: a worker whose token is no longer the token of the job can never
    act on the job again.  After any run in which no claim draws that token, every
    request under it is answered with [JobLeaseLostError] and leaves the store as
    it is. *)
Theorem lost_lease_is_fenced tr s id j w t now q :
  store_wf s -> admissible_run tr s -> never_draws t tr ->
  jobs s !! id = Some j -> lease_token j <> Some t -> request_valid q = true ->
  exists msg, lease_call now id w t q (run tr s) =
                (raise JobLeaseLostError msg, run tr s).
Proof.
  intros Hwf Hr Hd Hj Ht Hq.
  destruct (run_job_invariant (fun j' => lease_token j' <> Some t)
              (fun o => drawn_by o <> Some t) tr s id j) as (j' & Hj' & Ht'); try done.
  { intros o j1 j2. apply token_step. }
  eexists. apply lease_call_rejected with (j := j'); try done.
  destruct (lease_active j' w t now) eqn:E; [|done].
  apply lease_active_running in E as (_ & _ & Et & _). congruence.
Qed.

(** ** Submission *)

(** Two specifications differ: in a field, or in the value of a number. *)
Definition other_submission (a b : JobSpec F V) : Prop :=
  domain a <> domain b \/ payload a <> payload b \/ priority a <> priority b \/
  max_attempts (retry a) <> max_attempts (retry b) \/
  f_eqb (initial_backoff_seconds (retry a)) (initial_backoff_seconds (retry b)) = false \/
  f_eqb (max_backoff_seconds (retry a)) (max_backoff_seconds (retry b)) = false \/
  f_opt_eqb (deadline_at a) (deadline_at b) = false.

Lemma other_submission_differs a b : other_submission a b -> same_submission a b = false.
Proof.
  unfold same_submission. intros Ho. apply not_true_is_false. intros E. to_prop.
  unfold other_submission in Ho. naive_solver congruence.
Qed.

(** C10. Submission is exactly-once: after a submission creates a job, at any later time and
    after any run of operations, submitting the same specification again returns the
    same job with [created = False] and changes nothing, and submitting another
    specification under the same key raises the conflict and changes nothing. *)
Theorem resubmission_is_idempotent tr s now now' id id' (sp : JobSpec F V) j s' :
  store_wf s -> jobs s !! id = None -> policy_ok (retry sp) ->
  submit now id sp s = (Ok (j, true), s') -> admissible_run tr s' ->
  (exists j', jobs (run tr s') !! id = Some j' /\ spec j' = sp /\
    submit now' id' sp (run tr s') = (Ok (j', false), run tr s')) /\
  (forall sp', idempotency_key sp' = idempotency_key sp -> other_submission sp sp' ->
    exists msg, submit now' id' sp' (run tr s') = (raise IdempotencyConflictError msg, run tr s')).
Proof.
  intros Hwf Hid Hp Hsub Hr.
  assert (store_wf s') as Hwf'.
  { replace s' with (exec now (OpSubmit id sp) s) by (cbn; by rewrite Hsub).
    by apply exec_wf. }
  assert (jobs s' !! id = Some j /\ spec j = sp) as [Hj Hsp].
  { unfold submit in Hsub. run_op. by rewrite lookup_insert_eq. }
  destruct (run_job_invariant (fun j' => spec j' = sp) (fun _ => True) tr s' id j)
    as (j' & Hj' & Hsp'); try done.
  { intros o j1 j2 _ Hs1 Hs. by rewrite (job_step_spec _ _ _ Hs). }
  { by apply Forall_true. }
  pose proof (wf_index _ (run_wf _ _ Hwf' Hr) id j' Hj') as Hk. rewrite Hsp' in Hk. split.
  - exists j'. split_and!; [done..|]. unfold submit. rewrite Hk Hj'. unfold same_submission.
    rewrite Hsp' !bool_decide_eq_true_2 // Z.eqb_refl !f_eqb_refl f_opt_eqb_refl. done.
  - intros sp' Hkey Hother. unfold submit. rewrite Hkey Hk Hj' Hsp'.
    rewrite (other_submission_differs _ _ Hother). eexists. reflexivity.
Qed.

(** ** Claiming *)

Lemma f_eqb_ltb_cases (a b : F) :
  (f_eqb a b = true /\ f_leb a b = true /\ f_leb b a = true) \/
  (f_eqb a b = false /\ f_ltb a b = true) \/ (f_eqb a b = false /\ f_ltb b a = true).
Proof.
  unfold f_eqb, f_ltb. destruct (f_leb_total a b) as [E|E]; rewrite E;
    [destruct (f_leb b a)|destruct (f_leb a b)]; cbn; auto.
Qed.

(** Comparing by one float component, then by the rest. *)
Definition lex (a b : F) (rest : bool) : bool :=
  if negb (f_eqb a b) then f_ltb a b else rest.

Lemma lex_total a b p q : p = true \/ q = true -> lex a b p = true \/ lex b a q = true.
Proof.
  unfold lex. destruct (f_eqb_ltb_cases a b) as [(E & ? & ?)|[(E & L)|(E & L)]];
    assert (f_eqb b a = f_eqb a b) as -> by (unfold f_eqb; apply andb_comm);
    rewrite E; cbn; auto.
Qed.

Lemma lex_trans a b c p q r :
  (p = true -> q = true -> r = true) ->
  lex a b p = true -> lex b c q = true -> lex a c r = true.
Proof.
  unfold lex, f_eqb, f_ltb. intros Hr.
  pose proof (f_leb_trans a b c). pose proof (f_leb_trans c b a).
  pose proof (f_leb_trans b c a). pose proof (f_leb_trans c a b).
  pose proof (f_leb_trans b a c). pose proof (f_leb_trans a c b).
  destruct (f_leb_total a b), (f_leb_total b c), (f_leb_total a c);
    destruct (f_leb a b) eqn:?, (f_leb b a) eqn:?, (f_leb b c) eqn:?,
      (f_leb c b) eqn:?, (f_leb a c) eqn:?, (f_leb c a) eqn:?; cbn; naive_solver.
Qed.

Lemma lex_same a b p q : lex a b p = true -> lex b a q = true -> p = true /\ q = true.
Proof.
  unfold lex, f_eqb, f_ltb. destruct (f_leb_total a b) as [E|E]; rewrite E;
    [destruct (f_leb b a)|destruct (f_leb a b)]; cbn; naive_solver.
Qed.

Definition job_rest (j k : ExecutionJob F V) : bool :=
  lex (available_at j) (available_at k)
    (lex (created_at j) (created_at k) (String.leb (job_id j) (job_id k))).

Lemma job_before_eq j k :
  job_before j k =
    let p := priority_int (priority (spec j)) in
    let q := priority_int (priority (spec k)) in
    if p =? q then job_rest j k else p <? q.
Proof. unfold job_before, job_rest, lex. cbn. by destruct (_ =? _). Qed.

#[global] Instance job_le_total : Total (job_le (F:=F) (V:=V)).
Proof.
  intros j k. unfold job_le. rewrite !job_before_eq. cbn. rewrite (Z.eqb_sym (priority_int (priority (spec k)))).
  destruct (Z.eqb_spec (priority_int (priority (spec j))) (priority_int (priority (spec k)))).
  - apply lex_total, lex_total, String.leb_total.
  - rewrite !Z.ltb_lt. lia.
Qed.

#[global] Instance job_le_trans : Transitive (job_le (F:=F) (V:=V)).
Proof.
  intros j k i. unfold job_le. rewrite !job_before_eq. cbn.
  set (a := priority_int (priority (spec j))). set (b := priority_int (priority (spec k))).
  set (c := priority_int (priority (spec i))).
  destruct (Z.eqb_spec a b), (Z.eqb_spec b c), (Z.eqb_spec a c); rewrite ?Z.ltb_lt; try lia.
  apply lex_trans, lex_trans. apply leb_trans.
Qed.

(** The first candidate is the least eligible job. *)
Lemma candidates_least now ds s j l k id :
  candidates now ds s = j :: l -> jobs s !! id = Some k -> eligible now ds k = true ->
  job_before j k = true.
Proof.
  intros E Hk He.
  assert (k ∈ j :: l) as Hin by (rewrite -E; apply candidates_elem; eauto).
  assert (StronglySorted job_le (j :: l)) as Hs.
  { rewrite -E. unfold candidates. apply (StronglySorted_merge_sort _). }
  apply StronglySorted_inv in Hs as [_ Hall].
  apply list_elem_of_In in Hin as [->|Hin].
  - by destruct (job_le_total k k).
  - rewrite Forall_forall in Hall. by apply Hall, list_elem_of_In.
Qed.

(** [claim] first fails every unfinished job whose deadline has passed; it then
    returns [None] exactly when no job is eligible, and otherwise the least eligible
    job by (priority, available_at, created_at, job_id), now [RUNNING] under the
    worker's fresh lease with one more attempt; every other job is left as the
    sweep left it, and no unfinished job is past its deadline. *)
Theorem claim_takes_the_least_eligible now t w l ds s :
  store_wf s -> blank w = false -> f_leb l f_zero = false ->
  let swept := expire_deadlines now s in
  match claim now t w l ds s with
  | (Ok None, s') =>
      s' = swept /\ forall id j, jobs swept !! id = Some j -> eligible now ds j = false
  | (Ok (Some j'), s') =>
      exists j, jobs s !! job_id j = Some j /\ eligible now ds j = true /\
        (forall id k, jobs swept !! id = Some k -> eligible now ds k = true ->
           job_before j k = true) /\
        same_core j j' /\ status j' = RUNNING /\ attempt j' = attempt j + 1 /\
        worker_id j' = Some w /\ lease_token j' = Some t /\
        lease_expires_at j' = Some (f_add now l) /\
        s' = put_job (job_id j) j' swept
  | (Raise _, _) => False
  end /\
  forall id j, jobs (snd (claim now t w l ds s)) !! id = Some j ->
    terminal (status j) = true \/ deadline_expired j now = false.
Proof.
  intros Hwf Hw Hl swept. subst swept.
  assert (forall id j, jobs (expire_deadlines now s) !! id = Some j ->
    terminal (status j) = true \/ deadline_expired j now = false) as Hswept.
  { intros id j (j0 & _ & ->)%expired_lookup. unfold expire_deadline.
    destruct (terminal (status j0)) eqn:Et; [by left|].
    destruct (deadline_expired j0 now) eqn:Ed; cbn; auto. }
  unfold claim. cbv [lift reject_if ensure mbind M_bind modify gets mret M_ret save].
  rewrite Hw Hl. cbn -[candidates expire_deadlines].
  destruct (candidates now ds (expire_deadlines now s)) as [|j rest] eqn:E.
  - split; [|exact Hswept]. split; [done|]. intros id j Hj.
    destruct (eligible now ds j) eqn:He; [|done].
    assert (j ∈ candidates now ds (expire_deadlines now s)) as Hin
      by (apply candidates_elem; eauto).
    rewrite E in Hin. by apply not_elem_of_nil in Hin.
  - pose proof (fun k id => candidates_least now ds _ j rest k id E) as Hleast.
    apply candidates_head in E as (id & j0 & Hj0 & -> & Hc & Hnc & Hd & He).
    assert (job_id j0 = id) as Hid by (by destruct (wf_jobs _ Hwf _ _ Hj0)).
    split.
    + exists j0. rewrite Hid. split_and!; done || eauto.
    + intros id' k. cbn. rewrite lookup_insert. case_decide; [|apply Hswept].
      intros [= <-]. cbn. right.
      exact Hd.
Qed.

(** ** Retry backoff and recovery *)

(** For a policy that passed its checks, the backoff after attempt [n] is
    between the initial and the maximal backoff and never shrinks with [n], for
    every attempt up to 1024; from attempt 1025 on, computing it raises
    [OverflowError], and below attempt 1 [ValueError]. *)
Theorem backoff_bounds (p : RetryPolicy F) n m :
  RetryPolicy_post_init p = Ok tt -> 1 <= n <= m ->
  (m <= 1024 -> exists dn dm,
     delay_after_attempt p n = Ok dn /\ delay_after_attempt p m = Ok dm /\
     f_leb (initial_backoff_seconds p) dn = true /\ f_leb dn dm = true /\
     f_leb dm (max_backoff_seconds p) = true) /\
  (1025 <= m -> delay_after_attempt p m =
     raise OverflowError "int too large to convert to float") /\
  (forall i, i < 1 -> delay_after_attempt p i =
     raise ValueError "attempt must be at least 1").
Proof.
  unfold RetryPolicy_post_init. intros Hp Hn. inv_ok. to_prop.
  repeat match goal with Hx : f_ltb _ _ = false |- _ => apply f_ltb_false in Hx end.
  unfold delay_after_attempt. split_and!.
  - intros Hm.
    destruct (f_scale2_defined (initial_backoff_seconds p) (n - 1)) as [dx Hx]; [lia|].
    destruct (f_scale2_defined (initial_backoff_seconds p) (m - 1)) as [dy Hy]; [lia|].
    exists (f_min dx (max_backoff_seconds p)), (f_min dy (max_backoff_seconds p)).
    rewrite !(proj2 (Z.ltb_ge _ _)) ?Hx ?Hy; [lia..|]. split_and!; try done.
    + apply f_min_glb; [|done]. refine (f_scale2_grow _ (n - 1) _ _ _ Hx); [done|lia].
    + apply f_min_mono. refine (f_scale2_mono _ (n - 1) (m - 1) _ _ _ _ Hx Hy); [done|lia].
    + apply f_min_leb_r.
  - intros Hm. rewrite (proj2 (Z.ltb_ge _ _)) ?f_scale2_overflow; [lia..|done].
  - intros i Hi. by rewrite (proj2 (Z.ltb_lt _ _)).
Qed.

(** The recovery sweep is complete and idempotent: it returns the number of
    running jobs whose lease has lapsed; each of them loses its lease and is
    cancelled if a cancellation was requested, failed if its deadline has passed or
    its attempts are spent, and requeued as available now otherwise; every other
    job is untouched, and a second sweep at the same instant finds nothing. *)
Theorem recovery_sweep now s :
  exists n s', recover_expired_leases now s = (Ok n, s') /\
    n = Z.of_nat (size (filter (fun kv => lease_lapsed now kv.2 = true) (jobs s))) /\
    (forall id, jobs s' !! id = None <-> jobs s !! id = None) /\
    (forall id j, jobs s !! id = Some j -> exists j', jobs s' !! id = Some j' /\
       lease_lapsed now j' = false /\
       if lease_lapsed now j
       then same_core j j' /\ unleased j' /\ attempt j' = attempt j /\
            (if cancel_requested j then status j' = CANCELLED
             else if deadline_expired j now || (max_attempts (retry (spec j)) <=? attempt j)
             then status j' = FAILED
             else status j' = QUEUED /\ available_at j' = now)
       else j' = j) /\
    recover_expired_leases now s' = (Ok 0, s').
Proof.
  assert (forall j, lease_lapsed now (recover_job now j) = false) as Hnone.
  { intros j. unfold recover_job. destruct (lease_lapsed now j) eqn:E; cbn; [|done].
    unfold lease_lapsed. repeat case_match; simplify_eq/=; by rewrite ?andb_false_r. }
  eexists _, _. split; [reflexivity|]. cbn. split_and!; [done| | |].
  - intros id. rewrite lookup_fmap. by destruct (jobs s !! id).
  - intros id j Hj. exists (recover_job now j). rewrite lookup_fmap Hj. split_and!; [done..|].
    unfold recover_job. destruct (lease_lapsed now j); cbn; [|done].
    destruct (cancel_requested j); [done|].
    destruct (deadline_expired j now) eqn:Ed;
      unfold deadline_expired in *; cbn in *; rewrite Ed; [done|].
    by destruct (max_attempts (retry (spec j)) <=? attempt j).
  - unfold recover_expired_leases. cbn. f_equal.
    + rewrite map_empty_filter_2; [|done].
      intros id j. rewrite lookup_fmap. destruct (jobs s !! id); cbn; [|done].
      intros [= <-]. by rewrite Hnone.
    + f_equal. rewrite -map_fmap_compose. apply map_fmap_ext. intros id j _. cbn.
      unfold recover_job at 1. by rewrite Hnone.
Qed.

(** ** Jobs left behind *)

(** A job no operation but a cancellation request changes: waiting with a
    cancellation already requested, or running without a lease, and in both cases
    without a deadline. *)
Definition inert j : Prop :=
  deadline_at (spec j) = None /\
  (claimable (status j) = true /\ cancel_requested j = true \/
   status j = RUNNING /\ lease_expires_at j = None).

Definition keys_ok s : Prop := forall id j, jobs s !! id = Some j -> job_id j = id.

Lemma inert_no_lease j w t now : inert j -> lease_active j w t now = false.
Proof.
  intros [_ Hi]. destruct (lease_active j w t now) eqn:E; [|done].
  apply lease_active_running in E as (Hr & _ & _ & e & He & _).
  destruct Hi as [[Hc _]|[_ Hn]]; [by rewrite Hr in Hc|congruence].
Qed.

Lemma keys_put id j j' s :
  keys_ok s -> jobs s !! id = Some j -> job_id j' = job_id j -> keys_ok (put_job id j' s).
Proof.
  intros Hk Hj He id' k. cbn. rewrite lookup_insert. case_decide; [|apply Hk].
  intros [= <-]. by rewrite He (Hk _ _ Hj).
Qed.

Lemma keys_fmap (f : ExecutionJob F V -> ExecutionJob F V) s :
  (forall j, job_id (f j) = job_id j) -> keys_ok s ->
  keys_ok {| jobs := f <$> jobs s; idempotency := idempotency s |}.
Proof.
  intros Hf Hk id k. cbn. rewrite lookup_fmap. intros (j & Hj & ->)%fmap_Some.
  rewrite Hf. by apply Hk.
Qed.

Lemma expire_job_id now j : job_id (expire_deadline now j) = job_id j.
Proof. unfold expire_deadline. by repeat case_match. Qed.

Lemma recover_job_id now j : job_id (recover_job now j) = job_id j.
Proof. unfold recover_job. by repeat case_match. Qed.

Lemma exec_keys_ok now o s : admissible o s -> keys_ok s -> keys_ok (exec now o s).
Proof.
  intros Ha Hk. destruct o; cbn [exec];
    cbv [submit get_op claim heartbeat release_unstarted_claim succeed fail
         request_cancel cancel_claimed recover_expired_leases]; run_op;
    rewrite ?put_job_twice; try exact Hk;
    try (eapply keys_put; [exact Hk|eassumption|by rewrite ?expire_job_id]).
  - intros id k. cbn. rewrite lookup_insert. case_decide; [intros; by simplify_eq|apply Hk].
  - apply keys_fmap; [apply expire_job_id|done].
  - match goal with
    | E : candidates _ _ _ = _ |- _ =>
        apply candidates_head in E as (id & j0 & Hj0 & -> & _ & _ & Hd & _)
    end.
    eapply keys_put with (j := expire_deadline now j0).
    + apply keys_fmap; [apply expire_job_id|done].
    + cbn. rewrite lookup_fmap. rewrite (Hk _ _ Hj0) Hj0. done.
    + by rewrite expire_job_id.
  - apply keys_fmap; [apply recover_job_id|done].
Qed.

Lemma expire_inert now j : inert j -> expire_deadline now j = j.
Proof.
  intros [Hd _]. unfold expire_deadline, deadline_expired. rewrite Hd.
  by destruct (terminal (status j)).
Qed.

Lemma recover_inert now j : inert j -> recover_job now j = j.
Proof.
  intros [_ Hi]. unfold recover_job, lease_lapsed.
  destruct Hi as [[Hc _]|[-> ->]]; [|done]. by destruct (status j).
Qed.

Lemma exec_inert now o s id j :
  keys_ok s -> admissible o s -> jobs s !! id = Some j -> inert j ->
  o <> OpRequestCancel id -> jobs (exec now o s) !! id = Some j.
Proof.
  intros Hk Ha Hj Hi Hne.
  pose proof (fun w t now => inert_no_lease j w t now Hi) as Hnl.
  assert (forall id' j', jobs s !! id' = Some j' -> forall w t now,
    lease_active j' w t now = true -> id' <> id) as Hother.
  { intros id' j' Hj' w t now' Hl ->. specialize (Hnl w t now'). congruence. }
  destruct o as [nid sp|gid|tk w l ds|hid w t l|rid w t d|sid w t r|fid w t e|cid|kid w t|];
    cbn [exec];
    cbv [submit get_op claim heartbeat release_unstarted_claim succeed fail
         request_cancel cancel_claimed recover_expired_leases];
    run_op; rewrite ?put_job_twice; try done;
    try (match goal with
         | Hl : lease_active ?k _ _ _ = true, Hk0 : jobs _ !! _ = Some ?k |- _ =>
             cbn; rewrite !lookup_insert_ne;
               first [done | exact (Hother _ _ Hk0 _ _ _ Hl)]
         end).
  - destruct Ha as [Ha _]. cbn. rewrite lookup_insert_ne; [intros ->; congruence|done].
  - cbn. by rewrite lookup_fmap Hj /= expire_inert.
  - match goal with
    | E : candidates _ _ _ = _ |- _ =>
        apply candidates_head in E as (id0 & j0 & Hj0 & -> & Hc & Hnc & _ & _)
    end.
    cbn. rewrite (Hk _ _ Hj0) lookup_insert_ne; [|by rewrite lookup_fmap Hj /= expire_inert].
    intros ->. simplify_eq. destruct Hi as (_ & [[_ ?]|[Hr _]]); [congruence|].
    by rewrite Hr in Hc.
  - cbn. rewrite lookup_insert_ne; [intros ->; by apply Hne|done].
  - cbn. rewrite lookup_insert_ne; [intros ->; by apply Hne|done].
  - cbn. by rewrite lookup_fmap Hj /= recover_inert.
Qed.

Lemma run_inert tr s id j :
  keys_ok s -> admissible_run tr s -> jobs s !! id = Some j -> inert j ->
  Forall (fun no => snd no <> OpRequestCancel id) tr ->
  jobs (run tr s) !! id = Some j.
Proof.
  revert s. induction tr as [|[now o] tr IH]; intros s Hk Ha Hj Hi Hc; cbn in *; [done|].
  destruct Ha as [Ha Hr]. apply Forall_cons in Hc as [Hc Hcs].
  apply IH; try done; [by apply exec_keys_ok|by apply exec_inert].
Qed.

(** [release_unstarted_claim] ignores a pending cancellation: releasing a
    running job whose cancellation was requested puts it back in the queue with
    the flag still set, and unless a deadline was set no later operation except
    another cancellation request ever claims, cancels or finishes it. *)
Theorem release_strands_cancelled_job tr s now id j w t d :
  keys_ok s -> jobs s !! id = Some j -> lease_active j w t now = true ->
  cancel_requested j = true -> deadline_at (spec j) = None -> f_ltb d f_zero = false ->
  exists j' s', release_unstarted_claim now id w t d s = (Ok j', s') /\
    status j' = QUEUED /\ cancel_requested j' = true /\
    (admissible_run tr s' -> Forall (fun no => snd no <> OpRequestCancel id) tr ->
     jobs (run tr s') !! id = Some j').
Proof.
  intros Hk Hj Hl Hc Hd Hdel.
  eexists _, _. split.
  { cbv [release_unstarted_claim get_job assert_lease reject_if ensure lift save modify
         mbind M_bind mret M_ret]. rewrite Hdel Hj Hl. reflexivity. }
  split_and!; [done|done|]. intros Ha Hcs. apply run_inert; try done.
  - by apply keys_put with (j := j).
  - cbn. by rewrite lookup_insert_eq.
  - split; [done|]. left. done.
Qed.

(** [fail] gives up its lease before it computes the backoff: with a retry
    budget above 1025, failing attempt 1025 raises [OverflowError] after the lease
    was cleared, and the job stays [RUNNING] with no lease: no recovery sweep, no
    claim and no worker request ever changes it again. *)
Theorem fail_overflow_strands_job tr s now id j w t e :
  keys_ok s -> jobs s !! id = Some j -> lease_active j w t now = true ->
  cancel_requested j = false -> deadline_at (spec j) = None ->
  1025 <= attempt j < max_attempts (retry (spec j)) ->
  exists j' s', fail now id w t e s =
      (raise OverflowError "int too large to convert to float", s') /\
    status j' = RUNNING /\ unleased j' /\
    (admissible_run tr s' -> Forall (fun no => snd no <> OpRequestCancel id) tr ->
     jobs (run tr s') !! id = Some j').
Proof.
  intros Hk Hj Hl Hc Hd Hatt. pose proof (lease_active_running _ _ _ _ Hl) as (Hr & _).
  exists (clear_lease (set_updated_at now (set_last_error (Some e) j))).
  eexists. split.
  { cbv [fail get_job assert_lease reject_if ensure lift save modify
         mbind M_bind mret M_ret delay_after_attempt raise].
    rewrite Hj Hl. cbn. rewrite Hc. unfold deadline_expired. cbn. rewrite Hd.
    rewrite (proj2 (Z.leb_gt _ _)); [lia|]. rewrite (proj2 (Z.ltb_ge _ _)); [lia|].
    rewrite f_scale2_overflow; [lia|]. reflexivity. }
  split_and!; [done|done|]. intros Ha Hcs. apply run_inert; try done.
  - by apply keys_put with (j := j).
  - cbn. by rewrite lookup_insert_eq.
  - split; [done|]. right. done.
Qed.

End Runs.

(** ** Concrete runs

    Clock readings are integers, payloads integers. *)
Section Witnesses.

Definition w_policy : RetryPolicy Z :=
  {| max_attempts := 3; initial_backoff_seconds := 1; max_backoff_seconds := 30 |}.

Definition w_spec : JobSpec Z Z :=
  {| idempotency_key := "order-7"; domain := "reports"; payload := 7; priority := NORMAL;
     retry := w_policy; deadline_at := None |}.

(** Submitted, claimed, failed once, claimed again after the backoff, finished. *)
Definition w_trace : list (Z * op Z Z) :=
  [ (0, OpSubmit "j1" w_spec);
    (1, OpClaim "t1" "alice" 10 None);
    (2, OpFail "j1" "alice" "t1" "boom");
    (3, OpClaim "t2" "bob" 10 (Some ["reports"]));
    (4, OpSucceed "j1" "bob" "t2" (Some 42)) ].

Definition w_done : Store Z Z := run w_trace empty_store.

Definition w_job (tr : list (Z * op Z Z)) (id : string) : ExecutionJob Z Z :=
  match jobs (run tr empty_store) !! id with
  | Some j => j
  | None => {| job_id := id; spec := w_spec; status := FAILED; created_at := 0;
               updated_at := 0; available_at := 0; attempt := 0; worker_id := None;
               lease_token := None; lease_expires_at := None; cancel_requested := false;
               last_error := None; result := None |}
  end.

Example w_done_status :
  status (w_job w_trace "j1") = SUCCEEDED /\ result (w_job w_trace "j1") = Some 42 /\
  attempt (w_job w_trace "j1") = 2.
Proof. vm_compute. done. Qed.

Ltac admissible_tac :=
  repeat match goal with
  | |- _ /\ _ => split
  | |- True => exact I
  | |- jobs _ !! _ = None => vm_compute; reflexivity
  | |- policy_ok _ => unfold policy_ok; cbn; lia
  | |- admissible_run _ _ => cbn [admissible_run admissible]
  | |- admissible _ _ => cbn [admissible]
  end.

Lemma w_admissible : admissible_run w_trace empty_store.
Proof. unfold w_trace. admissible_tac. Qed.

Lemma reachable_store_wf_witness :
  admissible_run w_trace empty_store /\ store_wf (run w_trace empty_store).
Proof. split; [apply w_admissible|]. exact (reachable_store_wf w_trace w_admissible). Defined.

(** Operations after the job has finished. *)
Definition w_late : list (Z * op Z Z) :=
  [ (5, OpRequestCancel "j1"); (6, OpRecover); (7, OpClaim "t3" "carol" 10 None) ].

Lemma terminal_absorbing_witness :
  jobs (run w_late w_done) !! "j1" = Some (w_job w_trace "j1").
Proof.
  apply (terminal_absorbing w_late w_done).
  - apply run_wf; [apply empty_store_wf|apply w_admissible].
  - unfold w_late. admissible_tac.
  - vm_compute. reflexivity.
  - vm_compute. reflexivity.
Defined.

(** After the first failure the token [t1] is lost: a late success is refused. *)
Lemma lost_lease_is_fenced_witness :
  exists msg,
    lease_call 9 "j1" "alice" "t1" (Succeed (Some 1)) (run w_late w_done) =
      (raise JobLeaseLostError msg, run w_late w_done).
Proof.
  apply (lost_lease_is_fenced w_late w_done "j1" (w_job w_trace "j1")).
  - apply run_wf; [apply empty_store_wf|apply w_admissible].
  - unfold w_late. admissible_tac.
  - unfold never_draws, w_late. repeat constructor; discriminate.
  - vm_compute. reflexivity.
  - vm_compute. discriminate.
  - reflexivity.
Defined.

Definition w_submitted : ExecutionJob Z Z := w_job [(0, OpSubmit "j1" w_spec)] "j1".
Definition w_tail : list (Z * op Z Z) := List.tl w_trace.

Definition w_urgent : JobSpec Z Z :=
  {| idempotency_key := idempotency_key w_spec; domain := domain w_spec; payload := payload w_spec;
     priority := EMERGENCY; retry := retry w_spec; deadline_at := deadline_at w_spec |}.

Lemma resubmission_is_idempotent_witness :
  (exists j', jobs (run w_tail (exec 0 (OpSubmit "j1" w_spec) empty_store)) !! "j1" = Some j' /\
    spec j' = w_spec /\
    submit 99 "fresh" w_spec (run w_tail (exec 0 (OpSubmit "j1" w_spec) empty_store)) =
      (Ok (j', false), run w_tail (exec 0 (OpSubmit "j1" w_spec) empty_store))) /\
  (exists msg, submit 99 "fresh" w_urgent (run w_tail (exec 0 (OpSubmit "j1" w_spec) empty_store)) =
      (raise IdempotencyConflictError msg, run w_tail (exec 0 (OpSubmit "j1" w_spec) empty_store))).
Proof.
  destruct (resubmission_is_idempotent w_tail empty_store 0 99 "j1" "fresh" w_spec w_submitted
    (exec 0 (OpSubmit "j1" w_spec) empty_store)) as [H1 H2].
  - apply empty_store_wf.
  - reflexivity.
  - unfold policy_ok; cbn; lia.
  - vm_compute. reflexivity.
  - unfold w_tail, w_trace. cbn [List.tl]. admissible_tac.
  - split; [exact H1|]. apply H2; [reflexivity|]. right; right; left. discriminate.
Defined.

Definition w_two : Store Z Z :=
  run [ (0, OpSubmit "j1" w_spec);
        (1, OpSubmit "j2" {| idempotency_key := "urgent"; domain := "reports"; payload := 8;
                             priority := EMERGENCY; retry := w_policy;
                             deadline_at := Some 50 |}) ] empty_store.

Example w_claim_order :
  fst (claim 2 "t" "alice" 10 None w_two) =
    Ok (Some (w_job [ (1, OpSubmit "j2" {| idempotency_key := "urgent"; domain := "reports";
                payload := 8; priority := EMERGENCY; retry := w_policy;
                deadline_at := Some 50 |});
              (2, OpClaim "t" "alice" 10 None) ] "j2")).
Proof. vm_compute. reflexivity. Qed.

Lemma claim_takes_the_least_eligible_witness :
  match claim 2 "t" "alice" 10 None w_two with
  | (Ok (Some j'), _) => job_id j' = "j2"
  | _ => False
  end /\
  forall id j, jobs (snd (claim 2 "t" "alice" 10 None w_two)) !! id = Some j ->
    terminal (status j) = true \/ deadline_expired j 2 = false.
Proof.
  split; [vm_compute; reflexivity|].
  apply (claim_takes_the_least_eligible 2 "t" "alice" 10 None w_two).
  - apply run_wf; [apply empty_store_wf|]. admissible_tac.
  - reflexivity.
  - reflexivity.
Defined.

Lemma backoff_bounds_witness :
  exists dn dm,
    delay_after_attempt w_policy 2 = Ok dn /\ delay_after_attempt w_policy 9 = Ok dm /\
    (1 <=? dn) = true /\ (dn <=? dm) = true /\ (dm <=? 30) = true.
Proof. refine (proj1 (backoff_bounds w_policy 2 9 _ _) _); [reflexivity|lia|lia]. Defined.

(** Claimed, then cancelled by the client while the worker waits for capacity. *)
Definition w_cancelled_claim : Store Z Z :=
  run [ (0, OpSubmit "j1" w_spec); (1, OpClaim "t1" "alice" 10 None);
        (2, OpRequestCancel "j1") ] empty_store.

Lemma w_keys tr : admissible_run tr empty_store -> keys_ok (run tr (@empty_store Z Z)).
Proof.
  intros Ha id j Hj.
  by destruct (wf_jobs _ (run_wf tr _ empty_store_wf Ha) id j Hj).
Qed.

Lemma release_strands_cancelled_job_witness :
  exists j' s', release_unstarted_claim 3 "j1" "alice" "t1" 5 w_cancelled_claim = (Ok j', s') /\
    status j' = QUEUED /\ cancel_requested j' = true /\
    (admissible_run [(20, OpClaim "t9" "bob" 10 None)] s' ->
     Forall (fun no => snd no <> @OpRequestCancel Z Z "j1") [(20, OpClaim "t9" "bob" 10 None)] ->
     jobs (run [(20, OpClaim "t9" "bob" 10 None)] s') !! "j1" = Some j').
Proof.
  eapply (release_strands_cancelled_job _ w_cancelled_claim 3 "j1" _ "alice" "t1" 5).
  - apply w_keys. admissible_tac.
  - vm_compute. reflexivity.
  - vm_compute. reflexivity.
  - vm_compute. reflexivity.
  - vm_compute. reflexivity.
  - vm_compute. reflexivity.
Defined.

(** A job on attempt 1025 of a budget of 2000. *)
Definition w_many : ExecutionJob Z Z :=
  {| job_id := "j1";
     spec := {| idempotency_key := "k"; domain := "d"; payload := 0; priority := BATCH;
                retry := {| max_attempts := 2000; initial_backoff_seconds := 1;
                            max_backoff_seconds := 30 |};
                deadline_at := None |};
     status := RUNNING; created_at := 0; updated_at := 0; available_at := 0; attempt := 1025;
     worker_id := Some "alice"; lease_token := Some "t"; lease_expires_at := Some 100;
     cancel_requested := false; last_error := None; result := None |}.

Definition w_many_store : Store Z Z :=
  {| jobs := {[ "j1" := w_many ]}; idempotency := {[ "k" := "j1" ]} |}.

Lemma fail_overflow_strands_job_witness :
  exists j' s', fail 50 "j1" "alice" "t" "boom" w_many_store =
      (raise OverflowError "int too large to convert to float", s') /\
    status j' = RUNNING /\ unleased j' /\
    (admissible_run [(200, OpRecover)] s' ->
     Forall (fun no => snd no <> @OpRequestCancel Z Z "j1") [(200, @OpRecover Z Z)] ->
     jobs (run [(200, OpRecover)] s') !! "j1" = Some j').
Proof.
  apply (fail_overflow_strands_job _ w_many_store 50 "j1" w_many).
  - intros id j. unfold w_many_store. cbn. rewrite lookup_singleton_Some. by intros [<- <-].
  - vm_compute. reflexivity.
  - vm_compute. reflexivity.
  - reflexivity.
  - reflexivity.
  - cbn. lia.
Defined.

End Witnesses.
