(* ===== verification/RedisClient.v ===== *)
(** * Redis and its concurrent clients

    The server is a parameter: the class [Redis] lists the commands the durable store
    sends and [RedisLaws] what their documentation says of them.  A client is a program
    that sends one command at a time; [step] interleaves the commands of any number of
    clients in any order, and a client may die between two commands.  [WATCH] and [EXEC]
    are the optimistic transactions of Redis: the writes of an [EXEC] are made at once, and
    only if no watched key was modified since the [WATCH]. *)
From stdpp Require Import functions.
From S2P Require Import Prelude PyString PyFloat.

(** ** The server *)

Inductive rvalue (F : Type) :=
  | RString (s : string)
  | RHash (h : gmap string string)
  | RZset (z : gmap string F).
Arguments RString {F} s.
Arguments RHash {F} h.
Arguments RZset {F} z.

Inductive rwrite (F : Type) :=
  | HSET (key : string) (fields : gmap string string)
  | SET (key value : string)
  | ZADD (key member : string) (score : F)
  | ZREM (key member : string).
Arguments HSET {F} key fields.
Arguments SET {F} key value.
Arguments ZADD {F} key member score.
Arguments ZREM {F} key member.

Definition written {F} (w : rwrite F) : string :=
  match w with HSET k _ | SET k _ | ZADD k _ _ | ZREM k _ => k end.

(** A hash or a sorted set under a key; a missing key is an empty one, and a key of another
    type is an error. *)
Definition as_hash {F} (v : option (rvalue F)) : option (gmap string string) :=
  match v with None => Some ∅ | Some (RHash h) => Some h | _ => None end.
Definition as_zset {F} (v : option (rvalue F)) : option (gmap string F) :=
  match v with None => Some ∅ | Some (RZset z) => Some z | _ => None end.

(** [r_get]: what a key holds.  [r_touches]: whether a write counts as a modification of
    its key for those who watch it.  [r_range s k m]: ZRANGEBYSCORE from -inf to [m]. *)
Class Redis (F : Type) := {
  rstate : Type;
  r_get : rstate -> string -> option (rvalue F);
  r_write : rwrite F -> rstate -> rstate;
  r_touches : rstate -> rwrite F -> bool;
  r_range : rstate -> string -> F -> list string
}.

Class RedisLaws (F : Type) `{PyFloat F} `{Redis F} := {
  write_frame s w k : k <> written w -> r_get (r_write w s) k = r_get s k;
  write_untouched s w : r_touches s w = false -> r_get (r_write w s) (written w) = r_get s (written w);
  hset_law s k m h : as_hash (r_get s k) = Some h -> m <> ∅ ->
    r_get (r_write (HSET k m) s) k = Some (RHash (m ∪ h));
  set_law s k v : r_get (r_write (SET k v) s) k = Some (RString v);
  zadd_law s k m x z : as_zset (r_get s k) = Some z ->
    r_get (r_write (ZADD k m x) s) k = Some (RZset (<[m := x]> z));
  zrem_law s k m z : as_zset (r_get s k) = Some z ->
    as_zset (r_get (r_write (ZREM k m) s) k) = Some (delete m z);
  range_law s k x z : as_zset (r_get s k) = Some z ->
    r_range s k x ≡ₚ (map_to_list (filter (fun kv => f_leb kv.2 x = true) z)).*1
}.

(** [uuid4().hex]: the [n]-th value a client draws.  It never repeats and is not empty. *)
Class Uuid := uuid : nat -> nat -> string.
Class UuidLaws `{Uuid} := {
  uuid_inj i j m n : uuid i m = uuid j n -> i = j /\ m = n;
  uuid_nonempty i m : uuid i m <> ""
}.

(** ** Programs *)

(** A command and the type of its reply.  [EXEC] replies [false] where redis-py raises
    WatchError. *)
Inductive cmd (F : Type) : Type -> Type :=
  | TIME : cmd F F
  | UUID4 : cmd F string
  | GET (key : string) : cmd F (option string)
  | HGETALL (key : string) : cmd F (gmap string string)
  | ZRANGEBYSCORE (key : string) (max : F) : cmd F (list string)
  | ZREM_NOW (key member : string) : cmd F unit
  | WATCH (keys : list string) : cmd F unit
  | EXEC (ws : list (rwrite F)) : cmd F bool.
Arguments TIME {F}.
Arguments UUID4 {F}.
Arguments GET {F} key.
Arguments HGETALL {F} key.
Arguments ZRANGEBYSCORE {F} key max.
Arguments ZREM_NOW {F} key member.
Arguments WATCH {F} keys.
Arguments EXEC {F} ws.

Inductive prog (F A : Type) : Type :=
  | Done (r : res A)
  | Do {X : Type} (c : cmd F X) (k : X -> prog F A).
Arguments Done {F A} r.
Arguments Do {F A X} c k.

Section Prog.
  Context {F : Type}.

Fixpoint prog_bind {A B} (f : A -> prog F B) (p : prog F A) : prog F B :=
  match p with
  | Done (Ok a) => f a
  | Done (Raise e) => Done (Raise e)
  | Do c k => Do c (fun x => prog_bind f (k x))
  end.

#[global] Instance prog_mret : MRet (prog F) := fun A a => Done (Ok a).
#[global] Instance prog_mbind : MBind (prog F) := @prog_bind.

Definition send {X} (c : cmd F X) : prog F X := Do c (fun x => Done (Ok x)).
Definition liftp {A} (r : res A) : prog F A := Done r.
Definition throwp {A} (k : exn_class) (msg : string) : prog F A := Done (raise k msg).

(** [try: p except k: handler], for one exception class. *)
Fixpoint catch {A} (kind : exn_class) (handler : prog F A) (p : prog F A) : prog F A :=
  match p with
  | Done (Raise e) => if bool_decide (exn_kind e = kind) then handler else p
  | Done (Ok a) => p
  | Do c k => Do c (fun x => catch kind handler (k x))
  end.

(** [for _ in range(n): body], where the body returns ([Some]) or continues ([None]),
    then [after]. *)
Fixpoint attempts {A} (n : nat) (body : prog F (option A)) (after : prog F A) : prog F A :=
  match n with
  | O => after
  | S n' => r ← body;
            match r with Some a => mret a | None => attempts n' body after end
  end.

(** [for x in xs: body] with an accumulated value. *)
Fixpoint each {X A} (body : A -> X -> prog F A) (acc : A) (xs : list X) : prog F A :=
  match xs with
  | [] => mret acc
  | x :: xs' => a ← body acc x; each body a xs'
  end.
End Prog.

(** ** Interleaved execution *)

Section Execution.
  Context {F : Type} `{PyFloat F} `{Redis F} `{Uuid}.

Definition string_at (s : rstate) (k : string) : option string :=
  match r_get s k with Some (RString v) => Some v | _ => None end.
Definition hash_at (s : rstate) (k : string) : gmap string string := default ∅ (as_hash (r_get s k)).
Definition zset_at (s : rstate) (k : string) : gmap string F := default ∅ (as_zset (r_get s k)).

(** What a client holds on its connection: the watched keys, whether one of them was
    modified, and how many identifiers it has drawn. *)
Record session := { watched : list string; dirty : bool; draws : nat }.
Definition new_session : session := {| watched := []; dirty := false; draws := 0 |}.

Definition reply {X} (i : nat) (now : F) (c : cmd F X) (s : rstate) (se : session) : X :=
  match c in cmd _ X return X with
  | TIME => now
  | UUID4 => uuid i (draws se)
  | GET k => string_at s k
  | HGETALL k => hash_at s k
  | ZRANGEBYSCORE k m => r_range s k m
  | ZREM_NOW _ _ => tt
  | WATCH _ => tt
  | EXEC _ => negb (dirty se)
  end.

Definition writes_of {X} (c : cmd F X) (se : session) : list (rwrite F) :=
  match c with
  | ZREM_NOW k m => [ZREM k m]
  | EXEC ws => if dirty se then [] else ws
  | _ => []
  end.

Definition session_after {X} (c : cmd F X) (se : session) : session :=
  match c with
  | UUID4 => {| watched := watched se; dirty := dirty se; draws := S (draws se) |}
  | WATCH ks => {| watched := ks; dirty := false; draws := draws se |}
  | EXEC _ => {| watched := []; dirty := false; draws := draws se |}
  | _ => se
  end.

Fixpoint apply_writes (ws : list (rwrite F)) (s : rstate) : rstate :=
  match ws with [] => s | w :: ws' => apply_writes ws' (r_write w s) end.
Fixpoint touched (ws : list (rwrite F)) (s : rstate) : list string :=
  match ws with
  | [] => []
  | w :: ws' => (if r_touches s w then [written w] else []) ++ touched ws' (r_write w s)
  end.
Definition notice (ks : list string) (se : session) : session :=
  {| watched := watched se; dirty := dirty se || existsb (fun k => bool_decide (k ∈ watched se)) ks;
     draws := draws se |}.

(** The server and the clients: the operation each has started, what is left of its
    program, and its connection.  A client whose program is [Done] is idle. *)
Record system (Op A : Type) := {
  server : rstate;
  started : nat -> option Op;
  programs : nat -> prog F A;
  sessions : nat -> session
}.
Arguments server {Op A} _.
Arguments started {Op A} _ _.
Arguments programs {Op A} _ _.
Arguments sessions {Op A} _ _.

Inductive event (Op : Type) :=
  | Start (i : nat) (o : Op)
  | Next (i : nat) (now : F)
  | Crash (i : nat).
Arguments Start {Op} i o.
Arguments Next {Op} i now.
Arguments Crash {Op} i.

Context {Op A : Type} (program : Op -> prog F A).

Definition step (e : event Op) (σ : system Op A) : system Op A :=
  match e with
  | Start i o =>
      match programs σ i with
      | Done _ => {| server := server σ; started := <[i := Some o]> (started σ);
                     programs := <[i := program o]> (programs σ); sessions := sessions σ |}
      | Do _ _ => σ
      end
  | Crash i =>
      {| server := server σ; started := <[i := None]> (started σ); sessions := sessions σ;
         programs := <[i := Done (raise CancelledError "")]> (programs σ) |}
  | Next i now =>
      match programs σ i with
      | Done _ => σ
      | Do c k =>
          let ws := writes_of c (sessions σ i) in
          let ks := touched ws (server σ) in
          let ss := <[i := session_after c (sessions σ i)]> (sessions σ) in
          {| server := apply_writes ws (server σ);
             started := started σ;
             programs := <[i := k (reply i now c (server σ) (sessions σ i))]> (programs σ);
             sessions := fun j => notice ks (ss j) |}
      end
  end.

Definition run (es : list (event Op)) (σ : system Op A) : system Op A := fold_left (fun σ e => step e σ) es σ.

(** Idle clients, of which the [i]-th has drawn [n i] identifiers. *)
Definition idle (s : rstate) (n : nat -> nat) : system Op A :=
  {| server := s; started := fun _ => None; programs := fun _ => Done (raise CancelledError "");
     sessions := fun i => {| watched := []; dirty := false; draws := n i |} |}.

(** A program executed without interference, all its clock readings being [now]. *)
Fixpoint solo {B} (i : nat) (now : F) (p : prog F B) (s : rstate) (se : session)
    : res B * rstate * session :=
  match p with
  | Done r => (r, s, se)
  | Do c k => solo i now (k (reply i now c s se)) (apply_writes (writes_of c se) s) (session_after c se)
  end.
End Execution.
Arguments server {F _ Op A} _.
Arguments started {F _ Op A} _ _.
Arguments programs {F _ Op A} _ _.
Arguments sessions {F _ Op A} _ _.
Arguments system F {_} Op A.
Arguments event F Op : clear implicits.
Arguments Start {F Op} i o.
Arguments Next {F Op} i now.
Arguments Crash {F Op} i.
