(* ===== verification/RedisLogic.v ===== *)
(** * Reasoning about concurrent clients

    A program is [safe] when each of its writes is a [Move] of the server, given what the
    program knows when it makes it: the replies for watched keys, which still hold when an
    [EXEC] succeeds, and the identifiers it has drawn, which nobody else has used.  A system
    of clients that run safe programs changes its server by moves only, however their
    commands are interleaved ([run_moves]). *)
From stdpp Require Import functions.
From S2P Require Import Prelude PyString PyFloat RedisClient.

Section Logic.
  Context {F : Type} `{RedisLaws F} `{UuidLaws}.
  (** What the server always satisfies; that an identifier names nothing yet; and the
      changes of the server, with the fresh identifiers they may use. *)
  Context (Inv : rstate -> Prop) (Fresh : string -> rstate -> Prop).
  Context (Move : list string -> rstate -> rstate -> Prop).

Inductive fact := FHash (h : gmap string string) | FString (o : option string).
Definition fact_holds (s : rstate) (kf : string * fact) : Prop :=
  match kf.2 with FHash h => hash_at s kf.1 = h | FString o => string_at s kf.1 = o end.

Record view := {
  v_watched : list string;
  v_facts : list (string * fact);
  v_drawn : list string
}.
Definition no_view : view := {| v_watched := []; v_facts := []; v_drawn := [] |}.

Definition note (v : view) (k : string) (f : fact) : view :=
  if bool_decide (k ∈ v_watched v)
  then {| v_watched := v_watched v; v_facts := (k, f) :: v_facts v; v_drawn := v_drawn v |} else v.

Definition required {X} (v : view) (c : cmd F X) : Prop :=
  match c with
  | ZREM_NOW k m => forall s, Inv s -> Move [] s (r_write (ZREM k m) s)
  | EXEC ws => forall s, Inv s -> Forall (fact_holds s) (v_facts v) ->
      Forall (fun x => Fresh x s) (v_drawn v) -> Move (v_drawn v) s (apply_writes ws s)
  | _ => True
  end.

Definition answered {X} (c : cmd F X) : X -> Prop :=
  match c in cmd _ X return X -> Prop with
  | UUID4 => fun x => x <> ""
  | GET k => fun o => exists s, Inv s /\ o = string_at s k
  | HGETALL k => fun h => exists s, Inv s /\ h = hash_at s k
  | ZRANGEBYSCORE k m => fun l => exists s, Inv s /\ l = r_range s k m
  | _ => fun _ => True
  end.

Definition learn {X} (v : view) (c : cmd F X) : X -> view :=
  match c in cmd _ X return X -> view with
  | UUID4 => fun x => {| v_watched := v_watched v; v_facts := v_facts v; v_drawn := x :: v_drawn v |}
  | GET k => fun o => note v k (FString o)
  | HGETALL k => fun h => note v k (FHash h)
  | WATCH ks => fun _ => {| v_watched := ks; v_facts := []; v_drawn := v_drawn v |}
  | EXEC _ => fun _ => no_view
  | _ => fun _ => v
  end.

(** [safe Q v p]: run from the view [v], every write of [p] is a move, and [p] ends with a
    result and a view in [Q]. *)
Fixpoint safe {A} (Q : res A -> view -> Prop) (v : view) (p : prog F A) : Prop :=
  match p with
  | Done r => Q r v
  | Do c k => required v c /\ forall x, answered c x -> safe Q (learn v c x) (k x)
  end.

(** ** Rules *)

Lemma safe_mono {A} (Q Q' : res A -> view -> Prop) v p :
  (forall r v, Q r v -> Q' r v) -> safe Q v p -> safe Q' v p.
Proof. intros HQ. revert v. induction p as [r|X c k IH]; intros v; cbn; naive_solver. Qed.

Definition on_ok {A} (P : A -> view -> Prop) (E : exn -> view -> Prop) (r : res A) (v : view) : Prop :=
  match r with Ok a => P a v | Raise e => E e v end.

Lemma safe_bind {A B} (f : A -> prog F B) (Q : res B -> view -> Prop) v p :
  safe (on_ok (fun a v => safe Q v (f a)) (fun e => Q (Raise e))) v p -> safe Q v (p ≫= f).
Proof.
  revert v. induction p as [[a|e]|X c k IH]; intros v; cbn; [done..|]. intros [Hc Hk]. split; [done|].
  intros x Hx. by apply IH, Hk.
Qed.

Lemma safe_send {X} (c : cmd F X) (Q : res X -> view -> Prop) v :
  required v c -> (forall x, answered c x -> Q (Ok x) (learn v c x)) -> safe Q v (send c).
Proof. done. Qed.

Lemma safe_catch {A} kind (handler p : prog F A) (Q : res A -> view -> Prop) v :
  safe (on_ok (fun a => Q (Ok a))
          (fun e v => if bool_decide (exn_kind e = kind) then safe Q v handler else Q (Raise e) v)) v p ->
  safe Q v (catch kind handler p).
Proof.
  revert v. induction p as [[a|e]|X c k IH]; intros v; cbn; [done|by case_bool_decide|].
  intros [Hc Hk]. split; [done|]. intros x Hx. by apply IH, Hk.
Qed.

Lemma safe_attempts {A} n body (after : prog F A) (Q : res A -> view -> Prop) :
  (forall v, safe (on_ok (fun o v => match o with Some a => Q (Ok a) v | None => True end)
                    (fun e => Q (Raise e))) v body) ->
  (forall v, safe Q v after) -> forall v, safe Q v (attempts n body after).
Proof.
  intros Hb Ha. induction n as [|n IH]; intros v; cbn [attempts]; [done|]. apply safe_bind.
  eapply safe_mono; [|apply Hb]. intros [[a|]|e] v'; cbn; auto.
Qed.

Lemma safe_each {X A} (body : A -> X -> prog F A) (P : A -> Prop) (Q : res A -> view -> Prop) xs :
  (forall v a x, x ∈ xs -> P a -> safe (on_ok (fun a _ => P a) (fun e => Q (Raise e))) v (body a x)) ->
  (forall v a, P a -> Q (Ok a) v) ->
  forall v acc, P acc -> safe Q v (each body acc xs).
Proof.
  intros Hb HQ. induction xs as [|x xs IH]; intros v acc Hacc; cbn [each]; [by apply HQ|].
  apply safe_bind. eapply safe_mono; [|apply Hb; [by left|done]].
  intros [a|e] v'; cbn; [|done]. apply IH. intros w b y Hy. apply Hb. by right.
Qed.

(** ** The system *)

  Hypothesis move_inv : forall D s s', Inv s -> Move D s s' -> Inv s'.
  Hypothesis move_fresh : forall D s s' x,
    Inv s -> Move D s s' -> Fresh x s -> x ∉ D -> Fresh x s'.

Context {Op A : Type} (program : Op -> prog F A).
  (** The operations the callers start, and what their results satisfy. *)
  Context (good : Op -> Prop) (Post : Op -> res A -> Prop).
  Hypothesis program_safe : forall o v, good o -> safe (fun r _ => Post o r) v (program o).

Definition good_event (e : event F Op) : Prop :=
  match e with Start _ o => good o | _ => True end.

Definition knows (s : rstate) (i : nat) (se : session) (v : view) : Prop :=
  v_watched v = watched se /\
  Forall (fun kf => kf.1 ∈ watched se) (v_facts v) /\
  (dirty se = false -> Forall (fact_holds s) (v_facts v)) /\
  Forall (fun x => Fresh x s /\ exists m, (m < draws se)%nat /\ x = uuid i m) (v_drawn v).

Definition result_ok (o : option Op) (r : res A) : Prop :=
  match o with Some o => Post o r | None => True end.

Record system_ok (σ : system F Op A) : Prop := {
  ok_inv : Inv (server σ);
  ok_uuid : forall i m, (draws (sessions σ i) <= m)%nat -> Fresh (uuid i m) (server σ);
  ok_client : forall i, exists v,
    safe (fun r _ => result_ok (started σ i) r) v (programs σ i) /\ knows (server σ) i (sessions σ i) v
}.

Lemma write_other s w k : k ∉ (if r_touches s w then [written w] else []) ->
  r_get (r_write w s) k = r_get s k.
Proof.
  intros Hk. destruct (decide (k = written w)) as [->|Hne]; [|by apply write_frame].
  destruct (r_touches s w) eqn:E; [|by apply write_untouched]. destruct Hk. by left.
Qed.

Lemma writes_other ws s k : k ∉ touched ws s -> r_get (apply_writes ws s) k = r_get s k.
Proof.
  revert s. induction ws as [|w ws IH]; intros s; cbn; [done|].
  rewrite not_elem_of_app. intros [Hh Ht]. by rewrite IH // write_other.
Qed.

Lemma fact_stable ws s kf :
  kf.1 ∉ touched ws s -> fact_holds s kf -> fact_holds (apply_writes ws s) kf.
Proof.
  intros Hk. unfold fact_holds, hash_at, string_at. by rewrite writes_other.
Qed.

(** What another client's move leaves of the knowledge of a client. *)
Lemma knows_notice s D ws i se v :
  Inv s -> Move D s (apply_writes ws s) -> (forall m, uuid i m ∉ D) -> knows s i se v ->
  knows (apply_writes ws s) i (notice (touched ws s) se) v.
Proof.
  intros Hi Hm HD (Hw & Hin & Hf & Hd). split_and!; [done|done| |].
  - cbn. intros [Hc Hx]%orb_false_iff. specialize (Hf Hc).
    eapply Forall_impl; [exact (proj2 (Forall_and _ _) (conj Hin Hf))|].
    intros kf [Hk Hh]. apply fact_stable; [|done]. intros Ht.
    apply not_true_iff_false in Hx. apply Hx, existsb_exists. exists kf.1.
    split; [by apply list_elem_of_In|]. by apply bool_decide_eq_true.
  - eapply Forall_impl; [exact Hd|]. intros x [Hx (m & Hlt & ->)]. split; [|by exists m].
    by apply (move_fresh D s _ _ Hi Hm).
Qed.

Lemma notice_nil se : notice [] se = se.
Proof. destruct se. unfold notice. cbn. by rewrite orb_false_r. Qed.

(** A command that writes nothing. *)
Lemma learn_reply {X} s i now (c : cmd F X) se v :
  Inv s -> (forall m, (draws se <= m)%nat -> Fresh (uuid i m) s) ->
  knows s i se v -> writes_of c se = [] ->
  answered c (reply i now c s se) /\
  knows s i (session_after c se) (learn v c (reply i now c s se)).
Proof.
  intros Hi Hu Hk Hw. pose proof Hk as (Ew & Hin & Hf & Hd).
  assert (forall k f, fact_holds s (k, f) -> knows s i se (note v k f)) as Hnote.
  { intros k f Hkf. unfold note. case_bool_decide as E; [|done]. rewrite Ew in E.
    split_and!; cbn; [done|by constructor| |done]. intros Hdirty. constructor; [done|by apply Hf]. }
  destruct c; cbn in *; try (by split; [|done]).
  - split; [apply uuid_nonempty|]. split_and!; cbn; [done..|]. constructor.
    + split; [by apply Hu|]. exists (draws se). split; [lia|done].
    + eapply Forall_impl; [exact Hd|]. intros x (Hx & m & Hm & ->). split; [done|]. exists m. split; [lia|done].
  - split; [by exists s|by apply Hnote].
  - split; [by exists s|by apply Hnote].
  - split; [by exists s|done].
Qed.

(** The identifiers are drawn by client [i]. *)
Definition drawn_by (i n : nat) (D : list string) : Prop :=
  Forall (fun x => exists m, (m < n)%nat /\ x = uuid i m) D.

Lemma knows_drawn s i se v : knows s i se v -> drawn_by i (draws se) (v_drawn v).
Proof. intros (_ & _ & _ & Hd). eapply Forall_impl; [exact Hd|]. by intros x [_ Hx]. Qed.

Lemma drawn_other i j n m D : drawn_by i n D -> j <> i \/ (n <= m)%nat -> uuid j m ∉ D.
Proof.
  unfold drawn_by. rewrite Forall_forall. intros HD Hj Hin.
  destruct (HD _ Hin) as (m' & Hlt & [<- <-]%uuid_inj). destruct Hj; [done|lia].
Qed.

(** A command that writes makes a move. *)
Lemma command_moves {X} s i (c : cmd F X) se v :
  Inv s -> knows s i se v -> required v c -> writes_of c se <> [] ->
  exists D, Move D s (apply_writes (writes_of c se) s) /\ drawn_by i (draws se) D /\
    draws (session_after c se) = draws se /\
    forall x, Inv (apply_writes (writes_of c se) s) ->
      knows (apply_writes (writes_of c se) s) i
        (notice (touched (writes_of c se) s) (session_after c se)) (learn v c x).
Proof.
  intros Hi Hk Hr Hw. pose proof (knows_drawn _ _ _ _ Hk) as Hdr. destruct c; cbn in Hw; try done.
  - exists []. split_and!; [by apply Hr|constructor|done|]. intros x _.
    apply (knows_notice s [] [ZREM key member]); [done|by apply Hr|intros m; apply not_elem_of_nil|done].
  - cbn in Hr |- *. destruct (dirty se) eqn:Ed; [done|]. destruct Hk as (_ & _ & Hf & Hd).
    exists (v_drawn v). split_and!; [|done|done|].
    + apply Hr; [done|by apply Hf|]. eapply Forall_impl; [exact Hd|]. by intros x [Hx _].
    + intros x _. split_and!; cbn; [done|constructor|constructor|constructor].
Qed.

Lemma next_ok i now σ :
  system_ok σ -> system_ok (step program (Next i now) σ) /\
  (server (step program (Next i now) σ) = server σ \/
   exists D, Move D (server σ) (server (step program (Next i now) σ)) /\
     drawn_by i (draws (sessions σ i)) D).
Proof.
  intros Hok. pose proof Hok as [Hi Hu Hc]. cbn [step]. destruct (programs σ i) as [r|X c k] eqn:Ep; [by auto|].
  destruct (Hc i) as (v & Hs & Hk). rewrite Ep in Hs. destruct Hs as [Hreq Hsafe].
  destruct (decide (writes_of c (sessions σ i) = [])) as [Ew|Ew].
  - destruct (learn_reply (server σ) i now c (sessions σ i) v) as [Ha Hl]; [done|by apply Hu|done|done|].
    rewrite Ew. cbn. split; [|by left]. split; cbn; [done| |].
    + intros j m. unfold insert, fn_insert. case_decide as E; [subst j|by apply Hu].
      intros Hm. apply Hu. destruct c; cbn in Hm |- *; lia.
    + intros j. rewrite notice_nil. unfold insert, fn_insert. case_decide as E; [subst j|by apply Hc].
      eexists. split; [by apply Hsafe|done].
  - destruct (command_moves (server σ) i c (sessions σ i) v) as (D & Hm & HD & Edr & Hkn); [done..|].
    pose proof (move_inv _ _ _ Hi Hm) as Hi'. split; [|right; by exists D]. split; cbn; [done| |].
    + intros j m Hle. apply (move_fresh D (server σ)); [done..| |].
      * apply Hu. unfold insert, fn_insert in Hle. case_decide as E; [subst j|done]. by rewrite -Edr.
      * apply (drawn_other i j (draws (sessions σ i)) m D HD). unfold insert, fn_insert in Hle.
        case_decide as E; [|left; congruence]. right. subst j. by rewrite -Edr.
    + intros j. unfold insert, fn_insert. case_decide as E.
      * subst j. eexists. split; [|by apply Hkn]. apply Hsafe. destruct c; cbn in Ew |- *; done.
      * destruct (Hc j) as (w & Hsw & Hkw). exists w. split; [done|].
        apply (knows_notice (server σ) D); [done..| |done]. intros m.
        apply (drawn_other i j (draws (sessions σ i)) m D HD). left. congruence.
Qed.

Lemma step_ok e σ :
  good_event e -> system_ok σ -> system_ok (step program e σ) /\
  (server (step program e σ) = server σ \/
   exists i D, Move D (server σ) (server (step program e σ)) /\
     drawn_by i (draws (sessions σ i)) D).
Proof.
  intros Hg Hok. pose proof Hok as [Hi Hu Hc]. destruct e as [i o|i now|i].
  - cbn. destruct (programs σ i) eqn:Ep; [|by auto]. split; [|by left]. split; cbn; [done..|].
    intros j. destruct (Hc j) as (v & Hs & Hk). exists v. split; [|done].
    unfold insert, fn_insert. case_decide; [by apply program_safe|done].
  - destruct (next_ok i now σ Hok) as [Hok' [He|(D & Hm & HD)]]; split; auto. right. by exists i, D.
  - split; [|by left]. split; cbn; [done..|]. intros j. destruct (Hc j) as (v & Hs & Hk). exists v.
    split; [|done]. unfold insert, fn_insert. by case_decide.
Qed.

(** Along any schedule the server changes by moves only. *)
Lemma run_moves es σ :
  Forall good_event es -> system_ok σ -> system_ok (run program es σ) /\
  rtc (fun s s' => exists i n D, Move D s s' /\ drawn_by i n D) (server σ) (server (run program es σ)).
Proof.
  revert σ. induction es as [|e es IH]; intros σ Hg Hok; [by split; [|apply rtc_refl]|].
  apply Forall_cons in Hg as [He Hg].
  destruct (step_ok e σ He Hok) as [Hok' Hs]. destruct (IH _ Hg Hok') as [Hr Hrtc]. split; [done|].
  change (run program (e :: es) σ) with (run program es (step program e σ)).
  destruct Hs as [E|(i & D & Hm & HD)]; [by rewrite -E|]. eapply rtc_l; [|exact Hrtc]. eauto.
Qed.

Lemma idle_ok s n :
  Inv s -> (forall i m, (n i <= m)%nat -> Fresh (uuid i m) s) -> system_ok (idle s n).
Proof.
  intros Hi Hu. split; cbn; [done..|]. intros i. exists no_view. split; [done|].
  split_and!; cbn; constructor.
Qed.

(** What a finished operation returned. *)
Lemma finished σ i o r :
  system_ok σ -> started σ i = Some o -> programs σ i = Done r -> Post o r.
Proof. intros [_ _ Hc] Ho Hr. destruct (Hc i) as (v & Hs & _). by rewrite Ho Hr in Hs. Qed.

(** ** Guarded commits

    A program is [fenced] by [G] when it succeeds only in the step of an [EXEC] whose
    knowledge implies [G].  That [EXEC] is carried out only when the watched keys still
    hold what the program read, so [G] holds of the server at that very moment. *)
Definition fence_step {X} (G : rstate -> Prop) (v : view) (c : cmd F X)
    : (X -> view -> Prop) -> (X -> Prop) -> Prop :=
  match c in cmd _ X return (X -> view -> Prop) -> (X -> Prop) -> Prop with
  | EXEC ws => fun rest ends =>
      (forall s, Forall (fact_holds s) (v_facts v) -> G s) /\ ends true /\ rest false no_view
  | ZREM_NOW _ _ => fun _ _ => False
  | TIME => fun rest _ => forall x, rest x (learn v TIME x)
  | UUID4 => fun rest _ => forall x, rest x (learn v UUID4 x)
  | GET k => fun rest _ => forall x, rest x (learn v (GET k) x)
  | HGETALL k => fun rest _ => forall x, rest x (learn v (HGETALL k) x)
  | ZRANGEBYSCORE k m => fun rest _ => forall x, rest x (learn v (ZRANGEBYSCORE k m) x)
  | WATCH ks => fun rest _ => forall x, rest x (learn v (WATCH ks) x)
  end.

Definition ended {B} (p : prog F B) : Prop := exists r, p = Done r.

Fixpoint fenced {B} (G : rstate -> Prop) (v : view) (p : prog F B) : Prop :=
  match p with
  | Done r => is_ok r = false
  | Do c k => fence_step G v c (fun x v' => fenced G v' (k x)) (fun x => ended (k x))
  end.

(** What follows a fenced program at once keeps it fenced. *)
Lemma fenced_bind {B C} (f : B -> prog F C) G v p :
  (forall b, ended (f b)) -> fenced G v p -> fenced G v (p ≫= f).
Proof.
  intros Hf. revert v. induction p as [[b|e]|X c k IH]; intros v; [done..|]. cbn.
  destruct c; cbn; try (intros Hk x; by apply IH); [done|].
  intros (HG & [[b|e] ->] & Hr); (split; [done|split; [|by apply IH]]); [apply Hf|by eexists].
Qed.

(** The reply to a command of a fenced program: it goes on fenced, or it has committed,
    and then the guard holds. *)
Lemma fence_reply {X} G s i now (c : cmd F X) se v rest ends :
  Inv s -> (forall m, (draws se <= m)%nat -> Fresh (uuid i m) s) -> knows s i se v ->
  fence_step G v c rest ends ->
  (exists v', rest (reply i now c s se) v' /\ writes_of c se = [] /\ knows s i (session_after c se) v') \/
  ends (reply i now c s se) /\ G s.
Proof.
  intros Hi Hu Hk Hf.
  assert (writes_of c se = [] -> knows s i (session_after c se) (learn v c (reply i now c s se))) as Hl.
  { intros Hw. by apply learn_reply. }
  destruct c; cbn [fence_step] in Hf; try (left; eexists; split_and!; [apply Hf|done|by apply Hl]); [done|].
  destruct Hf as (HG & He & Hr). cbn in Hl |- *. destruct (dirty se) eqn:Ed; [left|right].
  - exists no_view. split_and!; [done|done|by apply Hl].
  - split; [done|]. apply HG. by apply Hk.
Qed.

Lemma knows_noticed s i se v ks : knows s i se v -> knows s i (notice ks se) v.
Proof.
  intros (Hw & Hin & Hf & Hd). split_and!; [done|done| |done]. cbn. by intros [Hc _]%orb_false_iff; apply Hf.
Qed.

  (** The operations with a guard. *)
  Context (tracked : Op -> Prop) (G : Op -> rstate -> Prop).
  Hypothesis program_fenced : forall o v, tracked o -> fenced (G o) v (program o).

Definition fence_ok (σ : system F Op A) : Prop := forall i o,
  started σ i = Some o -> tracked o ->
  ended (programs σ i) \/
  exists v, fenced (G o) v (programs σ i) /\ knows (server σ) i (sessions σ i) v.

Lemma next_fence_ok i now σ : system_ok σ -> fence_ok σ -> fence_ok (step program (Next i now) σ).
Proof.
  intros Hok Hf. pose proof (next_ok i now σ Hok) as [_ Hm]. pose proof Hok as [Hi Hu _].
  cbn [step] in Hm |- *. destruct (programs σ i) as [r|X c k] eqn:Ep; [done|]. cbn in Hm.
  intros j o. cbn. intros Ho Ht. destruct (Hf j o Ho Ht) as [He|(v & Hv & Hk)].
  { left. unfold insert, fn_insert. case_decide as E; [subst j|done].
    destruct He as [r He]. congruence. }
  unfold insert, fn_insert. case_decide as E.
  - subst j. rewrite Ep in Hv. cbn [fenced] in Hv.
    destruct (fence_reply (G o) (server σ) i now c (sessions σ i) v _ _ Hi (fun m => Hu i m) Hk Hv)
      as [(v' & Hv' & Hw & Hk')|[He _]]; [right|by left].
    exists v'. rewrite Hw. cbn. by rewrite notice_nil.
  - right. exists v. split; [done|]. destruct Hm as [Es|(D & Hm & HD)].
    + rewrite Es. by apply knows_noticed.
    + apply (knows_notice (server σ) D); [done..| |done]. intros m.
      apply (drawn_other i j (draws (sessions σ i)) m D HD). left. congruence.
Qed.

Lemma step_fence_ok e σ : system_ok σ -> fence_ok σ -> fence_ok (step program e σ).
Proof.
  intros Hok Hf. destruct e as [i o|i now|i]; [|by apply next_fence_ok|].
  - cbn [step]. destruct (programs σ i) eqn:Ep; [|done]. intros j o'. cbn. unfold insert, fn_insert.
    case_decide as E; [|by apply Hf]. intros [= <-] Ht. right.
    exists {| v_watched := watched (sessions σ j); v_facts := []; v_drawn := [] |}.
    split; [by apply program_fenced|]. split_and!; cbn; constructor.
  - intros j o'. cbn. unfold insert, fn_insert. case_decide as E; [done|]. by apply Hf.
Qed.

Lemma run_fence_ok es σ :
  Forall good_event es -> system_ok σ -> fence_ok σ ->
  system_ok (run program es σ) /\ fence_ok (run program es σ).
Proof.
  revert σ. induction es as [|e es IH]; intros σ Hg Hok Hf; [by split|].
  apply Forall_cons in Hg as [He Hg]. apply (IH (step program e σ)); [done|by apply step_ok|by apply step_fence_ok].
Qed.

(** A tracked operation succeeds only in a step that finds its guard on the server. *)
Lemma success_guarded i now σ o r :
  system_ok σ -> fence_ok σ -> started σ i = Some o -> tracked o -> ~ ended (programs σ i) ->
  programs (step program (Next i now) σ) i = Done r -> is_ok r = true -> G o (server σ).
Proof.
  intros [Hi Hu _] Hf Ho Ht Hne. destruct (Hf i o Ho Ht) as [He|(v & Hv & Hk)]; [done|]. cbn [step].
  destruct (programs σ i) as [r'|X c k] eqn:Ep; [by destruct Hne; exists r'|]. cbn [fenced] in Hv.
  destruct (fence_reply (G o) (server σ) i now c (sessions σ i) v _ _ Hi (fun m => Hu i m) Hk Hv)
    as [(v' & Hv' & _)|[_ HG]]; [|by intros _ _]. cbn. rewrite fn_lookup_insert. intros Hr Hok.
  rewrite Hr in Hv'. cbn in Hv'. congruence.
Qed.

(** Along a run, a tracked operation that succeeded did so in such a step. *)
Lemma run_guarded es σ0 i o r :
  Forall good_event es -> system_ok σ0 -> (forall j, started σ0 j = None) ->
  let σ := run program es σ0 in
  started σ i = Some o -> tracked o -> programs σ i = Done r -> is_ok r = true ->
  exists es1 now es2, es = es1 ++ Next i now :: es2 /\ started (run program es1 σ0) i = Some o /\
    ~ ended (programs (run program es1 σ0) i) /\ G o (server (run program es1 σ0)).
Proof.
  intros Hg Hok0 Hn. assert (fence_ok σ0) as Hf0 by (intros j o' Ho; by rewrite Hn in Ho).
  induction es as [|e es IH] using rev_ind; intros σ Ho Ht Hp Hr; [by rewrite /σ /= Hn in Ho|].
  apply Forall_app in Hg as [Hg He]. destruct (run_fence_ok es σ0 Hg Hok0 Hf0) as [Hok Hf].
  subst σ. unfold run in Ho, Hp. rewrite fold_left_app in Ho, Hp. cbn [fold_left] in Ho, Hp.
  fold (run program es σ0) in Ho, Hp.
  assert (started (run program es σ0) i = Some o -> programs (run program es σ0) i = Done r ->
    exists es1 now es2, es ++ [e] = es1 ++ Next i now :: es2 /\ started (run program es1 σ0) i = Some o /\
      ~ ended (programs (run program es1 σ0) i) /\ G o (server (run program es1 σ0))) as Hrec.
  { intros Ho' Hp'. destruct (IH Hg Ho' Ht Hp' Hr) as (es1 & now & es2 & -> & ? & ? & ?).
    exists es1, now, (es2 ++ [e]). by rewrite -app_assoc. }
  destruct e as [k o'|k now|k]; cbn [step] in Ho, Hp.
  - destruct (programs (run program es σ0) k) eqn:Ek; [|by apply Hrec]. cbn in Ho, Hp.
    unfold insert, fn_insert in Ho, Hp. case_decide as E; [|by apply Hrec]. injection Ho as ->.
    pose proof (program_fenced o no_view Ht) as Hv. rewrite Hp in Hv. cbn in Hv. congruence.
  - destruct (decide (k = i)) as [->|Hne].
    + destruct (programs (run program es σ0) i) as [r'|X c f] eqn:Ek; [rewrite Ek in Hp; exact (Hrec Ho Hp)|].
      cbn in Ho. exists es, now, []. split_and!; [done|done|rewrite Ek; by intros [? ?]|].
      eapply (success_guarded i now _ o r); [done..| | |done]; [by rewrite Ek; intros [? ?]|].
      cbn [step]. by rewrite Ek.
    + destruct (programs (run program es σ0) k) eqn:Ek; [by apply Hrec|]. cbn in Ho, Hp.
      rewrite fn_lookup_insert_ne // in Hp. by apply Hrec.
  - cbn in Ho, Hp. unfold insert, fn_insert in Ho, Hp. case_decide; [done|]. by apply Hrec.
Qed.
End Logic.
