(* ===== verification/Capacity.v ===== *)
(** * Domain capacity

    Models [processual_api/execution/capacity.py]: the policy, the backend
    protocol as a typeclass with the laws a backend promises, the in-memory backend
    with its proof of the laws, and the controller, whose acquire loop is proved
    against the interface.  [now] is the monotonic clock reading a call takes. *)
From S2P Require Import Prelude PyString PyFloat DurableJobs.

Record DomainCapacityPolicy := {
  global_limit : Z;
  domain_limits : gmap string Z;
  emergency_reserve : Z
}.

Definition DomainCapacityPolicy_post_init (p : DomainCapacityPolicy) : res unit :=
  _ ← reject_if (global_limit p <? 1) ValueError "global_limit must be at least 1";
  _ ← reject_if ((emergency_reserve p <? 0) || (global_limit p <=? emergency_reserve p))
        ValueError "emergency_reserve must be between 0 and global_limit - 1";
  _ ← reject_if (bool_decide (domain_limits p = ∅)) ValueError
        "at least one domain limit is required";
  _ ← ensure (bool_decide (map_Forall (fun d _ => blank d = false) (domain_limits p)))
        ValueError "domain names cannot be empty";
  ensure (bool_decide (map_Forall (fun _ l => 1 <= l) (domain_limits p)))
    ValueError "domain limits must be at least 1".

Definition limit_for (p : DomainCapacityPolicy) (d : string) : res Z :=
  match domain_limits p !! d with
  | Some l => Ok l
  | None => raise ValueError ("unconfigured execution domain: " +:+ d)
  end.

Record DomainCapacityReservation := {
  lease_id : string;
  res_domain : string;
  res_priority : ExecutionPriority
}.

Record DomainCapacityDecision := {
  admitted : bool;
  global_used : Z;
  domain_used : Z;
  reason : string
}.

(** ** The backend protocol *)

Class CapacityBackend (F B : Type) := {
  be_reserve : F -> DomainCapacityReservation -> Z -> Z -> Z -> F -> B ->
               DomainCapacityDecision * B;
  be_renew : F -> DomainCapacityReservation -> F -> B -> bool * B;
  be_release : DomainCapacityReservation -> B -> B;
  (* what the laws observe *)
  be_holds : B -> string -> bool;
  be_used : B -> Z;
  be_used_in : B -> string -> Z;
  be_ordinary : B -> Z
}.

(** The limits of a policy, as a backend state respects them: all leases, the
    leases of each configured domain, and the leases of ordinary priority, which
    must leave the emergency reserve free. *)
Definition within {F B} `{CapacityBackend F B} (p : DomainCapacityPolicy) (b : B) : Prop :=
  be_used b <= global_limit p /\
  (forall d l, domain_limits p !! d = Some l -> be_used_in b d <= l) /\
  be_ordinary b <= global_limit p - emergency_reserve p.

Class CapacityBackendLaws (F B : Type) `{PyFloat F} `{CapacityBackend F B} := {
  law_reserve_within : forall p b now r l ls,
    within p b -> domain_limits p !! res_domain r = Some l ->
    within p (snd (be_reserve now r (global_limit p) l (emergency_reserve p) ls b));
  law_reserve_admit : forall b now r g l e ls d b',
    be_reserve now r g l e ls b = (d, b') -> admitted d = true ->
    be_holds b' (lease_id r) = true;
  law_reserve_refuse : forall b now r g l e ls d b',
    be_reserve now r g l e ls b = (d, b') -> admitted d = false ->
    reason d = "global" /\ g <= be_used b' \/
    reason d = "domain" /\ l <= be_used_in b' (res_domain r) \/
    reason d = "emergency_reserve" /\ res_priority r <> EMERGENCY /\ g - e <= be_used b';
  law_renew_within : forall p b now r ls, within p b -> within p (snd (be_renew now r ls b));
  law_renew_true : forall b now r ls b',
    be_renew now r ls b = (true, b') -> be_holds b' (lease_id r) = true;
  law_release_within : forall p b r, within p b -> within p (be_release r b);
  law_release_gone : forall b r, be_holds (be_release r b) (lease_id r) = false
}.

(** ** The in-memory backend *)

(** [_leases]: expiry, domain and priority of each live lease. *)
Notation Leases F := (gmap string (F * string * ExecutionPriority)).

Section InMemory.
  Context {F : Type} `{PyFloat F}.

Definition lease_expiry (v : F * string * ExecutionPriority) : F := fst (fst v).
Definition lease_domain (v : F * string * ExecutionPriority) : string := snd (fst v).
Definition lease_priority (v : F * string * ExecutionPriority) : ExecutionPriority := snd v.

Definition cleanup (now : F) (m : Leases F) : Leases F :=
  filter (fun kv => f_leb (lease_expiry kv.2) now = false) m.

Definition count_domain (d : string) (m : Leases F) : Z :=
  count_if (fun v => lease_domain v = d) m.

Definition count_ordinary (m : Leases F) : Z :=
  count_if (fun v => lease_priority v <> EMERGENCY) m.

Definition reserve (now : F) (r : DomainCapacityReservation)
    (g l e : Z) (lease_seconds : F) (m0 : Leases F) : DomainCapacityDecision * Leases F :=
  let m := cleanup now m0 in
  let gu := Z.of_nat (size m) in
  let du := count_domain (res_domain r) m in
  if g <=? gu then (Build_DomainCapacityDecision false gu du "global", m)
  else if l <=? du then (Build_DomainCapacityDecision false gu du "domain", m)
  else if negb (bool_decide (res_priority r = EMERGENCY)) && (g - e <=? gu)
       then (Build_DomainCapacityDecision false gu du "emergency_reserve", m)
  else (Build_DomainCapacityDecision true (gu + 1) (du + 1) "",
        <[lease_id r := (f_add now lease_seconds, res_domain r, res_priority r)]> m).

Definition renew (now : F) (r : DomainCapacityReservation) (lease_seconds : F)
    (m0 : Leases F) : bool * Leases F :=
  let m := cleanup now m0 in
  match m !! lease_id r with
  | None => (false, m)
  | Some v =>
      if bool_decide (lease_domain v = res_domain r)
      then (true, <[lease_id r := (f_add now lease_seconds, lease_domain v, lease_priority v)]> m)
      else (false, m)
  end.

Definition release (r : DomainCapacityReservation) (m : Leases F) : Leases F :=
  delete (lease_id r) m.

#[export] Instance in_memory_backend : CapacityBackend F (Leases F) := {
  be_reserve := reserve;
  be_renew := renew;
  be_release := release;
  be_holds := fun m k => bool_decide (is_Some (m !! k));
  be_used := fun m => Z.of_nat (size m);
  be_used_in := fun m d => count_domain d m;
  be_ordinary := count_ordinary
}.
End InMemory.

(** ** The controller *)

Section Controller.
  Context {F B : Type} `{PyFloat F} `{CapacityBackend F B}.

Record DomainCapacityController := {
  policy : DomainCapacityPolicy;
  lease_seconds : F;
  wait_seconds : F;
  retry_seconds : F
}.

Definition DomainCapacityController_init (c : DomainCapacityController) : res unit :=
  _ ← reject_if (f_leb (lease_seconds c) f_zero) ValueError "lease_seconds must be positive";
  _ ← reject_if (f_ltb (wait_seconds c) f_zero) ValueError "wait_seconds cannot be negative";
  reject_if (f_leb (retry_seconds c) f_zero) ValueError "retry_seconds must be positive".

(** What the process observes while it waits: [env i] is what the other workers do
    to the backend before its [i]-th attempt, [reserve_at i] the clock reading of
    that attempt and [check_at i] the reading after it. *)
Record Waiting := {
  env : nat -> B -> B;
  reserve_at : nat -> F;
  check_at : nat -> F
}.

(** The [while True] loop from attempt [i] on, [fuel] iterations at most. *)
Fixpoint acquire_loop (fuel i : nat) (c : DomainCapacityController) (w : Waiting)
    (domain_limit : Z) (r : DomainCapacityReservation) (deadline : F) (b : B)
    : option (res DomainCapacityReservation * B) :=
  match fuel with
  | O => None
  | S fuel' =>
      let (d, b') := be_reserve (reserve_at w i) r (global_limit (policy c)) domain_limit
                       (emergency_reserve (policy c)) (lease_seconds c) (env w i b) in
      if admitted d then Some (Ok r, b')
      else
        let last_reason := if bool_decide (reason d = "") then "capacity" else reason d in
        if f_leb deadline (check_at w i)
        then Some (raise DomainCapacitySaturatedError
                     ("durable execution capacity saturated: " +:+ last_reason), b')
        else acquire_loop fuel' (S i) c w domain_limit r deadline b'
  end.

(** [acquire]: [start] is the clock reading the deadline is computed from, [new_id]
    the lease identifier drawn by [uuid4]. *)
Definition acquire (fuel : nat) (c : DomainCapacityController) (w : Waiting) (start : F)
    (new_id d : string) (prio : ExecutionPriority) (b : B)
    : option (res DomainCapacityReservation * B) :=
  match limit_for (policy c) d with
  | Raise e => Some (Raise e, b)
  | Ok l =>
      acquire_loop fuel 0 c w l
        {| lease_id := new_id; res_domain := d; res_priority := prio |}
        (f_add start (wait_seconds c)) b
  end.

Definition controller_renew (c : DomainCapacityController) (now : F)
    (r : DomainCapacityReservation) (b : B) : res unit * B :=
  let (renewed, b') := be_renew now r (lease_seconds c) b in
  (ensure renewed DomainCapacityLeaseLostError "durable execution capacity lease lost", b').

Definition controller_release (r : DomainCapacityReservation) (b : B) : B := be_release r b.

End Controller.
Arguments DomainCapacityController F : clear implicits.
Arguments Waiting F B : clear implicits.
