(* ===== verification/CapacityProps.v ===== *)
(** * Properties of domain capacity

    The in-memory backend keeps the promises of the backend protocol; the
    controller, proved against the protocol, respects the limits of its policy
    and its acquire loop terminates once the deadline has passed. *)
From S2P Require Import Prelude PyString PyFloat DurableJobs Capacity.

Section InMemoryLaws.
  Context {F : Type} `{PyFloatLaws F}.
  Implicit Types (m : Leases F).

Lemma cleanup_subseteq now m : cleanup now m ⊆ m.
Proof. apply map_filter_subseteq. Qed.

Lemma within_subseteq p m m' : m ⊆ m' -> within p m' -> within p m.
Proof.
  intros Hs (Hu & Hd & Ho). unfold within in *. cbn in *. unfold count_domain, count_ordinary in *.
  pose proof (size_subseteq_le _ _ Hs).
  pose proof (count_if_subseteq (fun v => lease_priority v <> EMERGENCY) _ _ Hs).
  split_and!; [lia| |lia]. intros d l Hl. specialize (Hd d l Hl).
  pose proof (count_if_subseteq (fun v => lease_domain v = d) _ _ Hs). lia.
Qed.

Lemma within_cleanup p now m : within p m -> within p (cleanup now m).
Proof. apply within_subseteq, cleanup_subseteq. Qed.

Lemma count_ordinary_size m : count_ordinary m <= Z.of_nat (size m).
Proof. unfold count_ordinary, count_if. apply inj_le, map_size_filter. Qed.

Lemma reserve_within p m now r l ls :
  within p m -> domain_limits p !! res_domain r = Some l ->
  within p (snd (reserve now r (global_limit p) l (emergency_reserve p) ls m)).
Proof.
  intros Hw%(within_cleanup p now) Hl. unfold reserve.
  set (m' := cleanup now m) in *.
  destruct (Z.leb_spec (global_limit p) (Z.of_nat (size m'))) as [|Hg]; [done|].
  destruct (Z.leb_spec l (count_domain (res_domain r) m')) as [|Hd]; [done|].
  destruct (_ && _) eqn:He; [done|]. cbn [snd].
  set (v := (f_add now ls, res_domain r, res_priority r)).
  destruct Hw as (Hu & Hds & Ho). unfold within in *. cbn in *.
  split_and!.
  - pose proof (size_insert_le m' (lease_id r) v). lia.
  - intros d l' Hl'. unfold count_domain in *.
    pose proof (count_if_insert (fun v => lease_domain v = d) m' (lease_id r) v) as Hi.
    cbv beta in Hi. specialize (Hds d l' Hl').
    destruct (decide (lease_domain v = d)) as [<-|]; [|lia].
    unfold v, lease_domain in *. cbn in *. rewrite Hl in Hl'. injection Hl' as <-. lia.
  - unfold count_ordinary in *.
    pose proof (count_if_insert (fun v => lease_priority v <> EMERGENCY) m' (lease_id r) v) as Hi.
    cbv beta in Hi. destruct (decide (lease_priority v <> EMERGENCY)) as [Hp|]; [|lia].
    pose proof (count_ordinary_size m') as Hs. unfold count_ordinary in Hs.
    unfold v, lease_priority in Hp. cbn in Hp.
    rewrite (bool_decide_eq_false_2 _ Hp) in He. cbn in He. apply Z.leb_gt in He. lia.
Qed.

Lemma renew_within p m now r ls : within p m -> within p (snd (renew now r ls m)).
Proof.
  intros Hw%(within_cleanup p now). unfold renew. set (m' := cleanup now m) in *.
  destruct (m' !! lease_id r) as [v|] eqn:E; [|done].
  destruct (bool_decide _); [|done]. cbn [snd].
  destruct Hw as (Hu & Hds & Ho). unfold within in *. cbn in *.
  split_and!.
  - rewrite map_size_insert_Some; [by rewrite E|lia].
  - intros d l Hl. etransitivity; [|exact (Hds d l Hl)]. unfold count_domain.
    by apply (count_if_replace _ _ _ v).
  - etransitivity; [|exact Ho]. unfold count_ordinary. by apply (count_if_replace _ _ _ v).
Qed.

#[export] Instance in_memory_laws : CapacityBackendLaws F (Leases F).
Proof.
  split.
  - intros. by apply reserve_within.
  - intros m now r g l e ls d m'. cbn. unfold reserve.
    repeat case_match; intros [= <- <-] Ha; try done.
    cbn. rewrite lookup_insert_eq. done.
  - intros m now r g l e ls d m'. cbn. unfold reserve.
    destruct (Z.leb_spec g (Z.of_nat (size (cleanup now m)))).
    { intros [= <- <-] _. left. cbn. done. }
    destruct (Z.leb_spec l (count_domain (res_domain r) (cleanup now m))).
    { intros [= <- <-] _. right; left. cbn. done. }
    destruct (_ && _) eqn:He; intros [= <- <-] Ha; [|done].
    apply andb_true_iff in He as [Hp Hle]. to_prop. right; right. cbn. done.
  - intros. by apply renew_within.
  - intros m now r ls m'. cbn. unfold renew. repeat case_match; intros [= <-].
    by rewrite lookup_insert_eq.
  - intros p m r. apply within_subseteq, delete_subseteq.
  - intros m r. cbn. unfold release. by rewrite lookup_delete_eq.
Qed.

End InMemoryLaws.

Section ControllerProps.
  Context {F B : Type} `{CapacityBackendLaws F B}.
  Implicit Types (c : DomainCapacityController F) (b : B).

(** One call of some worker's controller on the shared backend; a reservation is
    attempted for a configured domain only. *)
Inductive cap_event :=
  | EvReserve (now : F) (r : DomainCapacityReservation)
  | EvRenew (now : F) (r : DomainCapacityReservation)
  | EvRelease (r : DomainCapacityReservation).

Definition cap_exec c (ev : cap_event) b : B :=
  match ev with
  | EvReserve now r =>
      match limit_for (policy c) (res_domain r) with
      | Ok l => snd (be_reserve now r (global_limit (policy c)) l
                       (emergency_reserve (policy c)) (lease_seconds c) b)
      | Raise _ => b
      end
  | EvRenew now r => snd (controller_renew c now r b)
  | EvRelease r => controller_release r b
  end.

Fixpoint cap_run c (evs : list cap_event) b : B :=
  match evs with
  | [] => b
  | ev :: evs' => cap_run c evs' (cap_exec c ev b)
  end.

Lemma limit_for_Ok p d l : limit_for p d = Ok l <-> domain_limits p !! d = Some l.
Proof. unfold limit_for. destruct (domain_limits p !! d); naive_solver. Qed.

Lemma cap_exec_within c ev b : within (policy c) b -> within (policy c) (cap_exec c ev b).
Proof.
  intros Hw. destruct ev as [now r|now r|r]; cbn.
  - destruct (limit_for _ _) as [l|] eqn:E; [|done].
    apply law_reserve_within; [done|]. by apply limit_for_Ok.
  - unfold controller_renew. pose proof (law_renew_within (policy c) b now r (lease_seconds c) Hw).
    by destruct (be_renew now r (lease_seconds c) b).
  - by apply law_release_within.
Qed.

Lemma cap_run_within c evs b : within (policy c) b -> within (policy c) (cap_run c evs b).
Proof. revert b. induction evs as [|ev evs IH]; cbn; auto using cap_exec_within. Qed.

Lemma acquire_loop_sound fuel i c w l r deadline b x b' :
  (forall k b0, within (policy c) b0 -> within (policy c) (env w k b0)) ->
  domain_limits (policy c) !! res_domain r = Some l ->
  within (policy c) b ->
  acquire_loop fuel i c w l r deadline b = Some (x, b') ->
  within (policy c) b' /\
  match x with
  | Ok r' => r' = r /\ be_holds b' (lease_id r) = true
  | Raise e => exn_kind e = DomainCapacitySaturatedError /\
      (global_limit (policy c) <= be_used b' \/ l <= be_used_in b' (res_domain r) \/
       res_priority r <> EMERGENCY /\
         global_limit (policy c) - emergency_reserve (policy c) <= be_used b')
  end.
Proof.
  intros Henv Hl. revert i b. induction fuel as [|fuel IH]; intros i b Hw; cbn; [done|].
  pose proof (law_reserve_within (policy c) (env w i b) (reserve_at w i) r l
                (lease_seconds c) (Henv i b Hw) Hl) as Hw'.
  destruct (be_reserve _ _ _ _ _ _ _) as [d b1] eqn:Er. cbn in Hw'.
  destruct (admitted d) eqn:Ead.
  - intros [= <- <-]. split_and!; try done.
    exact (law_reserve_admit _ _ _ _ _ _ _ _ _ Er Ead).
  - destruct (f_leb deadline (check_at w i)).
    + intros [= <- <-]. split; [done|]. split; [done|].
      destruct (law_reserve_refuse _ _ _ _ _ _ _ _ _ Er Ead) as [[_ Hr]|[[_ Hr]|[_ Hr]]];
        [by left|by right; left|by right; right].
    + by apply IH.
Qed.

(** C9. The controller never lets the backend exceed its policy: whatever the other
    workers do through controllers of the same policy between its attempts,
    [acquire], when it returns, leaves the number of live leases, the leases of every
    configured domain and the leases of ordinary priority within their limits (the
    emergency reserve stays free of ordinary work); it returns a reservation only if
    the backend holds it, and otherwise raises [DomainCapacitySaturatedError] only
    when one of the three limits was reached, or [ValueError] for a domain without a
    limit. *)
Theorem acquire_respects_policy fuel c (evs : nat -> list cap_event) ra ca start id d prio b x b' :
  within (policy c) b ->
  acquire fuel c {| env := fun i => cap_run c (evs i); reserve_at := ra; check_at := ca |}
    start id d prio b = Some (x, b') ->
  within (policy c) b' /\
  match x with
  | Ok r => r = {| lease_id := id; res_domain := d; res_priority := prio |} /\
            be_holds b' id = true
  | Raise e =>
      (exn_kind e = ValueError /\ domain_limits (policy c) !! d = None /\ b' = b) \/
      (exn_kind e = DomainCapacitySaturatedError /\
       exists l, domain_limits (policy c) !! d = Some l /\
       (global_limit (policy c) <= be_used b' \/ l <= be_used_in b' d \/
        prio <> EMERGENCY /\
          global_limit (policy c) - emergency_reserve (policy c) <= be_used b'))
  end.
Proof.
  intros Hw. unfold acquire. destruct (limit_for (policy c) d) as [l|e] eqn:El.
  - apply limit_for_Ok in El. intros Hacq.
    apply acquire_loop_sound in Hacq as [Hw' Hx];
      [|intros; by apply cap_run_within|done|done].
    split; [done|]. destruct x as [r|e]; [done|]. right. naive_solver.
  - intros [= <- <-]. split; [done|]. left. unfold limit_for in El.
    destruct (domain_limits (policy c) !! d) eqn:E; [done|]. unfold raise in El. injection El as <-. done.
Qed.

Lemma acquire_loop_terminates n i c w l r deadline b :
  f_leb deadline (check_at w (i + n)) = true ->
  exists y, forall fuel, (S n <= fuel)%nat ->
    acquire_loop fuel i c w l r deadline b = Some y.
Proof.
  revert i b. induction n as [|n IH]; intros i b Hd.
  - rewrite Nat.add_0_r in Hd.
    destruct (be_reserve (reserve_at w i) r (global_limit (policy c)) l
                (emergency_reserve (policy c)) (lease_seconds c) (env w i b)) as [d b'] eqn:E.
    destruct (admitted d) eqn:Ea; eexists; intros [|fuel] Hf; try lia; cbn; rewrite E Ea ?Hd;
      reflexivity.
  - destruct (be_reserve (reserve_at w i) r (global_limit (policy c)) l
                (emergency_reserve (policy c)) (lease_seconds c) (env w i b)) as [d b'] eqn:E.
    destruct (admitted d) eqn:Ea.
    + eexists; intros [|fuel] Hf; [lia|]; cbn; rewrite E Ea; reflexivity.
    + destruct (f_leb deadline (check_at w i)) eqn:Ec.
      * eexists; intros [|fuel] Hf; [lia|]; cbn; rewrite E Ea Ec; reflexivity.
      * destruct (IH (S i) b') as [y Hy].
        { by replace (S i + n)%nat with (i + S n)%nat by lia. }
        exists y. intros [|fuel] Hf; [lia|]. cbn. rewrite E Ea Ec. apply Hy. lia.
Qed.

(** C36. [acquire] terminates: as soon as some clock reading taken after attempt [n]
    has reached the deadline, at most [n + 1] attempts are made, whatever the other
    workers do, and the outcome does not depend on how much fuel is given. *)
Theorem acquire_terminates n c w start id d prio b :
  f_leb (f_add start (wait_seconds c)) (check_at w n) = true ->
  exists y, forall fuel, (S n <= fuel)%nat -> acquire fuel c w start id d prio b = Some y.
Proof.
  intros Hd. unfold acquire. destruct (limit_for (policy c) d) as [l|e].
  - by apply acquire_loop_terminates.
  - eauto.
Qed.

End ControllerProps.

(** ** Concrete runs *)
Section Witnesses.

Definition w_cap_policy : DomainCapacityPolicy :=
  {| global_limit := 2; domain_limits := {[ "reports" := 2; "cgt" := 1 ]};
     emergency_reserve := 1 |}.

Definition w_controller : DomainCapacityController Z :=
  {| policy := w_cap_policy; lease_seconds := 30; wait_seconds := 5; retry_seconds := 1 |}.

(** Another worker takes an ordinary lease before the first attempt. *)
Definition w_evs (i : nat) : list (@cap_event Z) :=
  match i with
  | O => [EvReserve 0 {| lease_id := "a"; res_domain := "reports"; res_priority := NORMAL |}]
  | _ => []
  end.

Definition w_waiting : Waiting Z (Leases Z) :=
  {| env := fun i => cap_run w_controller (w_evs i);
     reserve_at := fun i => Z.of_nat i * 3; check_at := fun i => Z.of_nat i * 3 + 1 |}.

Example w_policy_ok : DomainCapacityPolicy_post_init w_cap_policy = Ok tt.
Proof. vm_compute. reflexivity. Qed.

(** An ordinary request is refused the reserved slot until the deadline, an
    emergency request gets it. *)
Example w_saturated :
  fst <$> acquire 10 w_controller w_waiting 0 "b" "reports" NORMAL ∅ =
    Some (raise DomainCapacitySaturatedError
            "durable execution capacity saturated: emergency_reserve").
Proof. vm_compute. reflexivity. Qed.
Example w_emergency :
  fst <$> acquire 10 w_controller w_waiting 0 "b" "reports" EMERGENCY ∅ =
    Some (Ok {| lease_id := "b"; res_domain := "reports"; res_priority := EMERGENCY |}).
Proof. vm_compute. reflexivity. Qed.

Lemma w_empty_within : within w_cap_policy (∅ : Leases Z).
Proof.
  unfold within. split_and!; try (vm_compute; congruence).
  intros d l. cbn -[w_cap_policy]. unfold count_domain, count_if. rewrite map_filter_empty map_size_empty.
  unfold w_cap_policy. cbn. rewrite lookup_insert_Some lookup_singleton_Some. naive_solver lia.
Qed.

Lemma acquire_respects_policy_witness :
  exists x b', acquire 10 w_controller w_waiting 0 "b" "reports" EMERGENCY ∅ = Some (x, b') /\
    within w_cap_policy b'.
Proof.
  destruct (acquire 10 w_controller w_waiting 0 "b" "reports" EMERGENCY ∅) as [[x b']|] eqn:E.
  - exists x, b'. split; [done|].
    exact (proj1 (acquire_respects_policy 10 w_controller w_evs _ _ 0 "b" "reports" EMERGENCY ∅
                    x b' w_empty_within E)).
  - exfalso. vm_compute in E. discriminate.
Defined.

Lemma acquire_terminates_witness :
  exists y, forall fuel, (3 <= fuel)%nat ->
    acquire fuel w_controller w_waiting 0 "b" "reports" NORMAL ∅ = Some y.
Proof. apply (acquire_terminates 2 w_controller w_waiting 0). reflexivity. Defined.

End Witnesses.
