(* ===== verification/CapacityRedis.v ===== *)
(** * The Redis backend of the capacity

    Models [RedisDomainCapacityBackend] of [execution/capacity.py] with its three scripts,
    which Redis runs atomically.  The server is a parameter: [ScriptServer] observes its
    sorted sets and their expiry, [ScriptServerLaws] states what the commands of the scripts
    do.  The backend keeps the laws of [CapacityBackend], so the theorems of the controller
    hold on it. *)
From S2P Require Import Prelude PyString PyFloat DurableJobs Capacity CapacityProps.

(** ** Sorted sets that expire *)

(** Members with their scores, and the moment the key expires, in milliseconds. *)
Definition zkey : Type := gmap string Z * option Z.

(** What is left of a key at a moment. *)
Definition live (now : Z) (z : zkey) : zkey :=
  match z.2 with Some t => if t <=? now then (∅, None) else z | None => z end.

(** A key without members is gone, and its expiry with it. *)
Definition settle (z : zkey) : zkey := if bool_decide (z.1 = ∅) then (∅, None) else z.

Inductive zcmd :=
  | ZAdd (now : Z) (key : string) (score : Z) (member : string)
  | ZRem (key member : string)
  | ZRemUpTo (now : Z) (key : string) (max : Z)
  | Expire (now : Z) (key : string) (seconds : Z).

Definition zcmd_key (c : zcmd) : string :=
  match c with ZAdd _ k _ _ | ZRem k _ | ZRemUpTo _ k _ | Expire _ k _ => k end.

Definition zeffect (c : zcmd) (z : zkey) : zkey :=
  match c with
  | ZAdd now _ score m => (<[m := score]> (live now z).1, (live now z).2)
  | ZRem _ m => settle (delete m z.1, z.2)
  | ZRemUpTo now _ max => settle (filter (fun kv => max < kv.2) (live now z).1, (live now z).2)
  | Expire now _ seconds => settle ((live now z).1, Some (now + 1000 * seconds))
  end.

Class ScriptServer := {
  sr_state : Type;
  sr_key : sr_state -> string -> zkey;
  sr_do : zcmd -> sr_state -> sr_state
}.
Class ScriptServerLaws `{ScriptServer} := {
  sr_do_key c s : sr_key (sr_do c s) (zcmd_key c) = zeffect c (sr_key s (zcmd_key c));
  sr_do_frame c s k : k <> zcmd_key c -> sr_key (sr_do c s) k = sr_key s k
}.

(** [int(t * 1000)] for a time in seconds. *)
Class Millis (F : Type) := millis : F -> Z.

Section Scripts.
  Context `{ScriptServer}.

Definition zcard (now : Z) (k : string) (s : sr_state) : Z := Z.of_nat (size (live now (sr_key s k)).1).
Definition zscore (now : Z) (k m : string) (s : sr_state) : option Z := (live now (sr_key s k)).1 !! m.

(** [_REDIS_RESERVE_SCRIPT]: the four integers of its reply, and the server after it. *)
Definition reserve_script (now lease_ms : Z) (id : string) (g l e : Z) (is_emergency : bool)
    (k1 k2 : string) (s : sr_state) : (Z * Z * Z * Z) * sr_state :=
  let expiry := now + lease_ms in
  let s1 := sr_do (ZRemUpTo now k2 now) (sr_do (ZRemUpTo now k1 now) s) in
  let gu := zcard now k1 s1 in
  let du := zcard now k2 s1 in
  if g <=? gu then ((0, gu, du, 1), s1)
  else if l <=? du then ((0, gu, du, 2), s1)
  else if negb is_emergency && (g - e <=? gu) then ((0, gu, du, 3), s1)
  else
    let s2 := sr_do (ZAdd now k2 expiry id) (sr_do (ZAdd now k1 expiry id) s1) in
    let ttl := Z.max (- (- lease_ms / 1000) * 2) 10 in
    ((1, gu + 1, du + 1, 0), sr_do (Expire now k2 ttl) (sr_do (Expire now k1 ttl) s2)).

Definition unexpired (now : Z) (score : option Z) : bool :=
  match score with Some t => negb (t <=? now) | None => false end.

(** [_REDIS_RENEW_SCRIPT]. *)
Definition renew_script (now lease_ms : Z) (id k1 k2 : string) (s : sr_state) : Z * sr_state :=
  let expiry := now + lease_ms in
  if negb (unexpired now (zscore now k1 id s)) || negb (unexpired now (zscore now k2 id s)) then
    (0, sr_do (ZRem k2 id) (sr_do (ZRem k1 id) s))
  else (1, sr_do (ZAdd now k2 expiry id) (sr_do (ZAdd now k1 expiry id) s)).

(** [_REDIS_RELEASE_SCRIPT]. *)
Definition release_script (id k1 k2 : string) (s : sr_state) : sr_state :=
  sr_do (ZRem k2 id) (sr_do (ZRem k1 id) s).

(** ** The backend *)

(** The server, and the priority each lease was asked for, which Redis does not store: the
    laws observe it. *)
Record RedisCapacity := {
  rc_server : sr_state;
  rc_priority : gmap string ExecutionPriority
}.

Context {F : Type} `{Millis F} (prefix : string).

Definition global_key : string := prefix +:+ ":global".
Definition domain_key (d : string) : string := prefix +:+ ":domain:" +:+ d.

Definition reason_of (code : Z) : string :=
  if code =? 1 then "global" else if code =? 2 then "domain"
  else if code =? 3 then "emergency_reserve" else "".

Definition capacity_reserve (now : F) (r : DomainCapacityReservation) (g l e : Z) (lease_seconds : F)
    (b : RedisCapacity) : DomainCapacityDecision * RedisCapacity :=
  let '(ok, gu, du, code, s) :=
    reserve_script (millis now) (Z.max (millis lease_seconds) 1) (lease_id r) g l e
      (bool_decide (res_priority r = EMERGENCY)) global_key (domain_key (res_domain r)) (rc_server b) in
  ({| admitted := ok =? 1; global_used := gu; domain_used := du; reason := reason_of code |},
   {| rc_server := s;
      rc_priority := if ok =? 1 then <[lease_id r := res_priority r]> (rc_priority b) else rc_priority b |}).

Definition capacity_renew (now : F) (r : DomainCapacityReservation) (lease_seconds : F) (b : RedisCapacity)
    : bool * RedisCapacity :=
  let (ok, s) := renew_script (millis now) (Z.max (millis lease_seconds) 1) (lease_id r) global_key
                   (domain_key (res_domain r)) (rc_server b) in
  (ok =? 1, {| rc_server := s; rc_priority := rc_priority b |}).

Definition capacity_release (r : DomainCapacityReservation) (b : RedisCapacity) : RedisCapacity :=
  {| rc_server := release_script (lease_id r) global_key (domain_key (res_domain r)) (rc_server b);
     rc_priority := rc_priority b |}.

Definition leases_of (b : RedisCapacity) (k : string) : gmap string Z := (sr_key (rc_server b) k).1.

(** Asked for as an emergency. *)
Definition for_emergency (b : RedisCapacity) (id : string) : bool :=
  bool_decide (rc_priority b !! id = Some EMERGENCY).

Definition redis_backend : CapacityBackend F RedisCapacity := {|
  be_reserve := capacity_reserve;
  be_renew := capacity_renew;
  be_release := capacity_release;
  be_holds := fun b id => bool_decide (is_Some (leases_of b global_key !! id));
  be_used := fun b => Z.of_nat (size (leases_of b global_key));
  be_used_in := fun b d => Z.of_nat (size (leases_of b (domain_key d)));
  be_ordinary := fun b => Z.of_nat (size (filter (fun kv => for_emergency b kv.1 = false) (leases_of b global_key)))
|}.
End Scripts.

Section Laws.
  Context `{ScriptServerLaws} {F : Type} `{PyFloat F} `{!Millis F} (prefix : string).
  Implicit Types (s : sr_state) (b : RedisCapacity) (z : zkey).
#[local] Notation global_key := (global_key prefix).
#[local] Notation domain_key := (domain_key prefix).

Lemma prefix_cancel (x y : string) : prefix +:+ x = prefix +:+ y -> x = y.
Proof. induction prefix as [|c p IH]; cbn; [done|]. intros [= E]. auto. Qed.
Lemma global_not_domain d : global_key <> domain_key d.
Proof. by intros E%prefix_cancel. Qed.
Lemma domain_key_inj d d' : domain_key d = domain_key d' -> d = d'.
Proof. intros E%prefix_cancel. by injection E. Qed.

#[local] Instance backend : CapacityBackend F RedisCapacity := redis_backend prefix.

(** ** What cleaning a key leaves *)

Definition clean (now : Z) z : zkey := zeffect (ZRemUpTo now "" now) z.

Lemma settle_members z : (settle z).1 = z.1.
Proof. unfold settle. by case_bool_decide as E; cbn. Qed.

Lemma live_members now z : (live now z).1 ⊆ z.1.
Proof. unfold live. repeat case_match; try done. apply map_empty_subseteq. Qed.

Lemma clean_members now z : (clean now z).1 ⊆ z.1.
Proof.
  unfold clean. cbn [zeffect]. rewrite settle_members. cbn [fst].
  etrans; [apply map_filter_subseteq|apply live_members].
Qed.

Lemma live_settle now z : live now (settle z) = settle (live now z).
Proof.
  unfold settle, live. destruct z as [m [t|]]; cbn; repeat case_bool_decide; cbn; try done;
    destruct (t <=? now); cbn; by rewrite ?bool_decide_eq_true_2 ?bool_decide_eq_false_2.
Qed.

Lemma live_again now z m : live now (m, (live now z).2) = (m, (live now z).2).
Proof. unfold live. destruct z as [m' [t|]]; cbn; [|done]. destruct (t <=? now) eqn:E; cbn; [done|]. by rewrite E. Qed.

Lemma live_clean now z : live now (clean now z) = clean now z.
Proof. unfold clean. cbn [zeffect]. by rewrite live_settle live_again. Qed.

Lemma key_do c s k : sr_key (sr_do c s) k = if decide (k = zcmd_key c) then zeffect c (sr_key s k) else sr_key s k.
Proof. case_decide as E; [subst; apply sr_do_key|by apply sr_do_frame]. Qed.

(** ** The scripts *)

Definition ttl_of (lease_ms : Z) : Z := Z.max (- (- lease_ms / 1000) * 2) 10.

(** What an admission leaves of a key. *)
Definition admitted_key (now lease_ms : Z) (id : string) z : zkey :=
  (<[id := now + lease_ms]> (clean now z).1, Some (now + 1000 * ttl_of lease_ms)).

Inductive reserve_outcome (now lease_ms : Z) (id : string) (g l e : Z) (em : bool) (k1 k2 : string) s :
    (Z * Z * Z * Z) * sr_state -> Prop :=
  | ro_refused code gu du s' :
      (forall k, sr_key s' k = if decide (k = k1 \/ k = k2) then clean now (sr_key s k) else sr_key s k) ->
      gu = Z.of_nat (size (sr_key s' k1).1) -> du = Z.of_nat (size (sr_key s' k2).1) ->
      (code = 1 /\ g <= gu \/ code = 2 /\ l <= du \/ code = 3 /\ em = false /\ g - e <= gu) ->
      reserve_outcome now lease_ms id g l e em k1 k2 s (0, gu, du, code, s')
  | ro_admitted gu du s' :
      (forall k, sr_key s' k =
         if decide (k = k1 \/ k = k2) then admitted_key now lease_ms id (sr_key s k) else sr_key s k) ->
      gu = Z.of_nat (size (clean now (sr_key s k1)).1) -> du = Z.of_nat (size (clean now (sr_key s k2)).1) ->
      gu < g -> du < l -> (em = true \/ gu < g - e) ->
      reserve_outcome now lease_ms id g l e em k1 k2 s (1, gu + 1, du + 1, 0, s').

Lemma cleaned_keys now k1 k2 s k : k1 <> k2 ->
  sr_key (sr_do (ZRemUpTo now k2 now) (sr_do (ZRemUpTo now k1 now) s)) k =
    if decide (k = k1 \/ k = k2) then clean now (sr_key s k) else sr_key s k.
Proof. intros Hk. rewrite !key_do. cbn [zcmd_key]. repeat case_decide; naive_solver. Qed.

Lemma admit_key now lease_ms id z :
  zeffect (Expire now "" (ttl_of lease_ms)) (zeffect (ZAdd now "" (now + lease_ms) id) (clean now z)) =
    admitted_key now lease_ms id z.
Proof.
  cbn [zeffect]. rewrite live_clean. unfold admitted_key, settle.
  pose proof (live_again now (clean now z) (<[id:=now + lease_ms]> (clean now z).1)) as E.
  rewrite live_clean in E. rewrite E. cbn [fst]. rewrite bool_decide_eq_false_2; [|done]. apply insert_non_empty.
Qed.

Lemma reserve_script_outcome now lease_ms id g l e em k1 k2 s :
  k1 <> k2 -> reserve_outcome now lease_ms id g l e em k1 k2 s (reserve_script now lease_ms id g l e em k1 k2 s).
Proof.
  intros Hk. unfold reserve_script, zcard. set (s1 := sr_do (ZRemUpTo now k2 now) _).
  assert (forall k, sr_key s1 k = if decide (k = k1 \/ k = k2) then clean now (sr_key s k) else sr_key s k) as Hs1
    by (intros k; by apply cleaned_keys).
  assert (live now (sr_key s1 k1) = sr_key s1 k1 /\ live now (sr_key s1 k2) = sr_key s1 k2) as [-> ->].
  { rewrite !Hs1 !decide_True; auto. by rewrite !live_clean. }
  clearbody s1. destruct (Z.leb_spec g (Z.of_nat (size (sr_key s1 k1).1))); [by apply ro_refused; auto|].
  destruct (Z.leb_spec l (Z.of_nat (size (sr_key s1 k2).1))); [by apply ro_refused; auto|].
  destruct (negb em && _) eqn:He.
  { apply andb_true_iff in He as [?%negb_true_iff ?%Z.leb_le]. apply ro_refused; auto 6. }
  apply ro_admitted.
  - intros k. fold (ttl_of lease_ms). rewrite !key_do. cbn [zcmd_key]. rewrite Hs1.
    pose proof (admit_key now lease_ms id (sr_key s k)) as Ea. cbn [zeffect] in Ea |- *.
    cbn [zeffect]. repeat case_decide; first [exact Ea|naive_solver].
  - rewrite Hs1 decide_True; auto.
  - rewrite Hs1 decide_True; auto.
  - done.
  - done.
  - apply andb_false_iff in He as [?%negb_false_iff|?%Z.leb_gt]; auto.
Qed.

Lemma renew_script_outcome now lease_ms id k1 k2 s :
  k1 <> k2 ->
  let (ok, s') := renew_script now lease_ms id k1 k2 s in
  if ok =? 1 then
    is_Some ((live now (sr_key s k1)).1 !! id) /\ is_Some ((live now (sr_key s k2)).1 !! id) /\
    forall k, sr_key s' k = if decide (k = k1 \/ k = k2) then zeffect (ZAdd now "" (now + lease_ms) id) (sr_key s k)
                            else sr_key s k
  else forall k, sr_key s' k = if decide (k = k1 \/ k = k2) then zeffect (ZRem "" id) (sr_key s k) else sr_key s k.
Proof.
  intros Hk. unfold renew_script. destruct (negb _ || negb _) eqn:Eu.
  - cbn. intros k. rewrite !key_do. cbn [zcmd_key zeffect]. repeat case_decide; naive_solver.
  - apply orb_false_iff in Eu as [E1%negb_false_iff E2%negb_false_iff]. cbn.
    unfold zscore, unexpired in *. split_and!.
    + by destruct (_ !! id).
    + by destruct ((live now (sr_key s k2)).1 !! id).
    + intros k. rewrite !key_do. cbn [zcmd_key zeffect]. repeat case_decide; naive_solver.
Qed.

Lemma release_script_keys id k1 k2 s k :
  k1 <> k2 ->
  sr_key (release_script id k1 k2 s) k = if decide (k = k1 \/ k = k2) then zeffect (ZRem "" id) (sr_key s k) else sr_key s k.
Proof. intros Hk. unfold release_script. rewrite !key_do. cbn [zcmd_key zeffect]. repeat case_decide; naive_solver. Qed.

(** ** The laws *)

(** A change after which no key has more leases stays within the limits, when the leases
    of the global key are among those before. *)
Lemma within_smaller p b b' :
  (forall d, (size (leases_of b' (domain_key d)) <= size (leases_of b (domain_key d)))%nat) ->
  dom (leases_of b' global_key) ⊆ dom (leases_of b global_key) ->
  rc_priority b' = rc_priority b -> within (F:=F) p b -> within (F:=F) p b'.
Proof.
  intros Hd Hg Hp (Hu & Hds & Ho). unfold within. cbn in *. split_and!.
  - pose proof (subseteq_size _ _ Hg) as Hs. rewrite !size_dom in Hs. lia.
  - intros d l Hl. specialize (Hds d l Hl). specialize (Hd d). lia.
  - etrans; [|exact Ho]. apply inj_le. rewrite -!(size_dom (D:=gset string)). apply subseteq_size.
    intros id (x & Hx)%elem_of_dom. apply map_lookup_filter_Some in Hx as [Hx Hn].
    assert (id ∈ dom (leases_of b global_key)) as (y & Hy)%elem_of_dom by (apply Hg, elem_of_dom; eauto).
    apply elem_of_dom. exists y. apply map_lookup_filter_Some. split; [done|].
    unfold for_emergency in *. by rewrite -Hp.
Qed.

(** A change that only removes leases stays within the limits. *)
Lemma within_fewer p b b' :
  (forall k, leases_of b' k ⊆ leases_of b k) -> rc_priority b' = rc_priority b -> within (F:=F) p b -> within (F:=F) p b'.
Proof.
  intros Hs Hp (Hu & Hd & Ho). unfold within. cbn in *. split_and!.
  - pose proof (map_subseteq_size _ _ (Hs global_key)). lia.
  - intros d l Hl. specialize (Hd d l Hl). pose proof (map_subseteq_size _ _ (Hs (domain_key d))). lia.
  - unfold for_emergency in *. rewrite Hp.
    pose proof (map_subseteq_size _ _ (map_filter_subseteq_mono
      (fun kv : string * Z => bool_decide (rc_priority b !! kv.1 = Some EMERGENCY) = false) _ _ (Hs global_key))). lia.
Qed.

Lemma rem_members id z : (zeffect (ZRem "" id) z).1 = delete id z.1.
Proof. cbn. by rewrite settle_members. Qed.

Lemma admit_within p now r l ls b :
  within (F:=F) p b -> domain_limits p !! res_domain r = Some l ->
  within (F:=F) p (capacity_reserve prefix now r (global_limit p) l (emergency_reserve p) ls b).2.
Proof.
  intros Hw Hl. unfold capacity_reserve. set (now' := millis now). set (L := Z.max _ 1).
  set (em := bool_decide (res_priority r = EMERGENCY)).
  pose proof (reserve_script_outcome now' L (lease_id r) (global_limit p) l (emergency_reserve p) em
    global_key (domain_key (res_domain r)) (rc_server b) (global_not_domain _)) as Ho.
  destruct Ho as [code gu du s' Hk _ _ _|gu du s' Hk -> -> Hg Hd He]; cbn [snd].
  - apply (within_fewer p b); [|done|done]. intros k. unfold leases_of. cbn [rc_server]. rewrite Hk.
    case_decide; [apply clean_members|done].
  - destruct Hw as (Hu & Hds & Hor). unfold within. cbn. unfold leases_of. cbn [rc_server].
    rewrite !Hk. rewrite (decide_True (P:=global_key = global_key \/ _)); [by left|]. cbn [admitted_key fst].
    split_and!.
    + pose proof (size_insert_le (clean now' (sr_key (rc_server b) global_key)).1 (lease_id r) (now' + L)). lia.
    + intros d l' Hl'. rewrite Hk. specialize (Hds d l' Hl'). cbn in Hds. unfold leases_of in Hds.
      case_decide as Ed; [|done]. destruct Ed as [Ed|Ed]; [by destruct (global_not_domain d)|].
      apply domain_key_inj in Ed as ->. cbn [admitted_key fst]. assert (l' = l) as -> by congruence.
      pose proof (size_insert_le (clean now' (sr_key (rc_server b) (domain_key (res_domain r)))).1 (lease_id r) (now' + L)). lia.
    + set (b' := {| rc_server := s'; rc_priority := _ |}). destruct He as [Hem|Hem].
      * etrans; [|exact Hor]. apply inj_le, map_subseteq_size, map_subseteq_spec. intros id x.
        unfold leases_of. rewrite !map_lookup_filter_Some. cbn [fst]. intros [Hx Hn].
        unfold for_emergency in Hn |- *. cbn in Hn. destruct (decide (id = lease_id r)) as [->|Hid].
        { subst em. apply bool_decide_eq_true in Hem. rewrite Hem lookup_insert_eq bool_decide_eq_true_2 in Hn; done. }
        rewrite lookup_insert_ne in Hx; [congruence|]. rewrite lookup_insert_ne in Hn; [congruence|]. split; [|done].
        exact (lookup_weaken _ _ _ _ Hx (clean_members _ _)).
      * pose proof (map_size_filter (fun kv : string * Z => for_emergency b' kv.1 = false)
          (<[lease_id r:=now' + L]> (clean now' (sr_key (rc_server b) global_key)).1)) as Hf.
        pose proof (size_insert_le (clean now' (sr_key (rc_server b) global_key)).1 (lease_id r) (now' + L)).
        unfold leases_of. lia.
Qed.

Lemma renew_within_limits p now r ls b :
  within (F:=F) p b -> within (F:=F) p (capacity_renew prefix now r ls b).2.
Proof.
  intros Hw. unfold capacity_renew.
  pose proof (renew_script_outcome (millis now) (Z.max (millis ls) 1) (lease_id r) global_key
    (domain_key (res_domain r)) (rc_server b) (global_not_domain _)) as Ho.
  destruct (renew_script _ _ _ _ _ _) as [ok s']. cbn [snd]. destruct (ok =? 1).
  - destruct Ho as ([x1 Hx1] & [x2 Hx2] & Hk).
    assert (forall z x, (live (millis now) z).1 !! lease_id r = Some x ->
      dom (zeffect (ZAdd (millis now) "" (millis now + Z.max (millis ls) 1) (lease_id r)) z).1 ⊆ dom z.1) as Hdom.
    { intros z x Hx. cbn [zeffect fst]. rewrite dom_insert_lookup_L; [by rewrite Hx; eexists|]. apply subseteq_dom, live_members. }
    apply (within_smaller p b); [..|done|done].
    + intros d. unfold leases_of. cbn [rc_server]. rewrite Hk. case_decide as Ed; [|done].
      destruct Ed as [Ed|Ed]; [by destruct (global_not_domain d)|]. apply domain_key_inj in Ed as ->.
      rewrite -!(size_dom (D:=gset string)). apply subseteq_size. eapply Hdom; exact Hx2.
    + unfold leases_of. cbn [rc_server]. rewrite Hk decide_True; [by left|]. eapply Hdom; exact Hx1.
  - apply (within_fewer p b); [|done|done]. intros k. unfold leases_of. cbn [rc_server]. rewrite Ho.
    case_decide; [|done]. rewrite rem_members. apply delete_subseteq.
Qed.

Lemma releases r b k : leases_of (capacity_release prefix r b) k =
  if decide (k = global_key \/ k = domain_key (res_domain r)) then delete (lease_id r) (leases_of b k) else leases_of b k.
Proof.
  unfold leases_of, capacity_release. cbn [rc_server]. rewrite release_script_keys; [apply global_not_domain|].
  case_decide; [apply rem_members|done].
Qed.

#[export] Instance redis_capacity_laws : CapacityBackendLaws F RedisCapacity.
Proof.
  split.
  - intros p b now r l ls Hw Hl. by apply admit_within.
  - intros b now r g l e ls d b'. cbn. unfold capacity_reserve.
    destruct (reserve_script_outcome (millis now) (Z.max (millis ls) 1) (lease_id r) g l e
      (bool_decide (res_priority r = EMERGENCY)) global_key (domain_key (res_domain r)) (rc_server b) (global_not_domain _))
      as [code gu du s' Hk _ _ _|gu du s' Hk _ _ _ _ _]; intros [= <- <-] Ha; [done|].
    apply bool_decide_eq_true_2. unfold leases_of. cbn [rc_server]. rewrite Hk decide_True; [by left|].
    cbn. rewrite lookup_insert_eq. by eexists.
  - intros b now r g l e ls d b'. cbn. unfold capacity_reserve.
    destruct (reserve_script_outcome (millis now) (Z.max (millis ls) 1) (lease_id r) g l e
      (bool_decide (res_priority r = EMERGENCY)) global_key (domain_key (res_domain r)) (rc_server b) (global_not_domain _))
      as [code gu du s' Hk -> -> Hc|gu du s' Hk _ _ _ _ _]; intros [= <- <-] Ha; [|done].
    unfold leases_of. cbn [rc_server reason].
    destruct Hc as [[-> Hc]|[[-> Hc]|(-> & Hc & Hc2)]]; [by left|by right; left|right; right].
    to_prop. done.
  - intros p b now r ls Hw. by apply renew_within_limits.
  - intros b now r ls b'. cbn. unfold capacity_renew.
    pose proof (renew_script_outcome (millis now) (Z.max (millis ls) 1) (lease_id r) global_key
      (domain_key (res_domain r)) (rc_server b) (global_not_domain _)) as Ho.
    destruct (renew_script _ _ _ _ _ _) as [ok s']. intros [= E <-]. rewrite E in Ho. destruct Ho as (_ & _ & Hk).
    apply bool_decide_eq_true_2. unfold leases_of. cbn [rc_server]. rewrite Hk decide_True; [by left|].
    cbn. rewrite lookup_insert_eq. by eexists.
  - intros p b r Hw. apply (within_fewer p b); [|done|done]. intros k.
    change (be_release r b) with (capacity_release prefix r b). rewrite releases. case_decide; [apply delete_subseteq|done].
  - intros b r. cbn. rewrite releases decide_True; [by left|]. apply bool_decide_eq_false_2.
    rewrite lookup_delete_eq. by intros [? ?].
Qed.

(** ** The keys expire under their leases *)

(** The key is empty, or expires at [T]. *)
Definition doomed (T : Z) z : Prop := z.1 = ∅ \/ z.2 = Some T.

Lemma doomed_rem T id z : doomed T z -> doomed T (zeffect (ZRem "" id) z).
Proof.
  intros [E|E]; cbn [zeffect]; unfold settle; cbn [fst]; case_bool_decide as Ed; [by left|left|by left|by right].
  cbn. by rewrite E delete_empty.
Qed.

Lemma doomed_add T now score id z :
  is_Some ((live now z).1 !! id) -> doomed T z -> doomed T (zeffect (ZAdd now "" score id) z).
Proof.
  intros [x Hx] Hd. right. cbn. destruct Hd as [E|E].
  - unfold live in Hx. repeat case_match; cbn in Hx; rewrite ?E lookup_empty in Hx; done.
  - unfold live in *. rewrite E in Hx |- *. destruct (T <=? now); [by rewrite lookup_empty in Hx|done].
Qed.

Lemma doomed_dead T now z : doomed T z -> T <= now -> (live now z).1 = ∅.
Proof.
  intros [E|E] HT; unfold live; [by repeat case_match|]. rewrite E. by destruct (Z.leb_spec T now); [|lia].
Qed.

(** A call of some controller that is no request for the domain [d]. *)
Definition no_request (d : string) (ev : cap_event (F:=F)) : Prop :=
  match ev with EvReserve _ r => res_domain r <> d | _ => True end.

Lemma doomed_step c ev b T d :
  no_request d ev -> doomed T (sr_key (rc_server b) (domain_key d)) ->
  doomed T (sr_key (rc_server (cap_exec c ev b)) (domain_key d)).
Proof.
  intros Hn Hd. destruct ev as [now r|now r|r]; cbn [cap_exec].
  - destruct (limit_for _ _) as [l|]; [|done].
    change (be_reserve now r ?g l ?e ?ls b) with (capacity_reserve prefix now r g l e ls b). unfold capacity_reserve.
    assert (domain_key d <> global_key /\ domain_key d <> domain_key (res_domain r)) as [N1 N2].
    { split; [apply not_eq_sym, global_not_domain|]. intros E%domain_key_inj. by subst. }
    destruct (reserve_script_outcome (millis now) (Z.max (millis (lease_seconds c)) 1) (lease_id r) (global_limit (policy c))
      l (emergency_reserve (policy c)) (bool_decide (res_priority r = EMERGENCY)) global_key (domain_key (res_domain r))
      (rc_server b) (global_not_domain _)) as [code gu du s' Hk _ _ _|gu du s' Hk _ _ _ _ _];
      cbn [snd rc_server]; rewrite Hk decide_False; naive_solver.
  - unfold controller_renew. change (be_renew now r ?ls b) with (capacity_renew prefix now r ls b). unfold capacity_renew.
    pose proof (renew_script_outcome (millis now) (Z.max (millis (lease_seconds c)) 1) (lease_id r) global_key
      (domain_key (res_domain r)) (rc_server b) (global_not_domain _)) as Ho.
    destruct (renew_script _ _ _ _ _ _) as [ok s']. cbn [snd rc_server]. destruct (ok =? 1).
    + destruct Ho as (_ & Hx & Hk). rewrite Hk. case_decide as Ed; [|done].
      destruct Ed as [Ed|Ed]; [by destruct (global_not_domain d)|]. apply domain_key_inj in Ed as ->. by apply doomed_add.
    + rewrite Ho. case_decide; [by apply doomed_rem|done].
  - change (controller_release r b) with (capacity_release prefix r b). unfold capacity_release. cbn [rc_server].
    rewrite release_script_keys; [apply global_not_domain|]. case_decide; [by apply doomed_rem|done].
Qed.

Lemma doomed_run c evs b T d :
  Forall (no_request d) evs -> doomed T (sr_key (rc_server b) (domain_key d)) ->
  doomed T (sr_key (rc_server (cap_run c evs b)) (domain_key d)).
Proof.
  intros Hf. revert b. induction Hf as [|ev evs Hn Hf IH]; intros b Hd; [done|]. cbn. apply IH. by apply doomed_step.
Qed.

(** C37. A reservation cannot be renewed past the expiry of its keys.  The admission
    sets it; renewals move the scores of the lease but not the expiry.  Unless another request
    for the domain comes, every renewal from then on finds no lease, however regularly the
    lease was renewed before. *)
Theorem redis_renewal_ends_at_the_expiry c evs (now now' : F) r r' l b :
  let L := Z.max (millis (lease_seconds c)) 1 in
  let (dec, b1) := capacity_reserve prefix now r (global_limit (policy c)) l (emergency_reserve (policy c)) (lease_seconds c) b in
  admitted dec = true -> Forall (no_request (res_domain r)) evs -> res_domain r' = res_domain r ->
  millis now + 1000 * Z.max (- (- L / 1000) * 2) 10 <= millis now' ->
  (controller_renew c now' r' (cap_run c evs b1)).1 =
    raise DomainCapacityLeaseLostError "durable execution capacity lease lost".
Proof.
  cbv zeta. set (L := Z.max (millis (lease_seconds c)) 1). fold (ttl_of L).
  destruct (capacity_reserve _ _ _ _ _ _ _ b) as [dec b1] eqn:Er. intros Ha Hf Hd Ht.
  assert (doomed (millis now + 1000 * ttl_of L) (sr_key (rc_server b1) (domain_key (res_domain r)))) as Hdoom.
  { unfold capacity_reserve in Er. fold L in Er.
    destruct (reserve_script_outcome (millis now) L (lease_id r) (global_limit (policy c)) l (emergency_reserve (policy c))
      (bool_decide (res_priority r = EMERGENCY)) global_key (domain_key (res_domain r)) (rc_server b) (global_not_domain _))
      as [code gu du s' Hk _ _ _|gu du s' Hk _ _ _ _ _]; injection Er as <- <-; [done|].
    cbn [rc_server]. rewrite Hk decide_True; [by right|]. by right. }
  apply (doomed_run c evs _ _ _ Hf) in Hdoom. pose proof (doomed_dead _ _ _ Hdoom Ht) as Hdead.
  unfold controller_renew. change (be_renew now' r' ?ls ?b') with (capacity_renew prefix now' r' ls b'). unfold capacity_renew, renew_script, zscore.
  rewrite Hd Hdead lookup_empty. cbn [unexpired negb]. by rewrite orb_true_r.
Qed.
End Laws.

(** ** A concrete server *)

Definition map_server_do (c : zcmd) (s : gmap string zkey) : gmap string zkey :=
  <[zcmd_key c := zeffect c (default (∅, None) (s !! zcmd_key c))]> s.
#[export] Instance map_server : ScriptServer :=
  {| sr_state := gmap string zkey; sr_key s k := default (∅, None) (s !! k); sr_do := map_server_do |}.
#[export] Instance map_server_laws : ScriptServerLaws.
Proof.
  split; cbn; unfold map_server_do.
  - intros c s. by rewrite lookup_insert_eq.
  - intros c s k Hk. rewrite lookup_insert_ne; [intros E; by apply Hk|done].
Qed.
#[export] Instance Z_millis : Millis Z := fun t => t * 1000.

Definition ex_reservation : DomainCapacityReservation :=
  {| lease_id := "a"; res_domain := "reports"; res_priority := NORMAL |}.
Definition ex_empty : RedisCapacity := {| rc_server := (∅ : gmap string zkey); rc_priority := ∅ |}.
(** The job takes long; its worker renews the lease of 30 seconds every 5 seconds. *)
Definition ex_renewals : list (cap_event (F:=Z)) := (fun n => EvRenew (5 * Z.of_nat n) ex_reservation) <$> seq 1 11.

#[local] Instance ex_backend : CapacityBackend Z RedisCapacity := redis_backend "m".
(** After 55 seconds the lease is held until 85; at 60 it is gone.  In memory it is not. *)
Example ex_renewed_until_55 :
  let b := cap_run w_controller (EvReserve 0 ex_reservation :: ex_renewals) ex_empty in
  (leases_of b "m:global" !! "a" = Some 85000) /\
  (controller_renew w_controller 60 ex_reservation b).1 =
    raise DomainCapacityLeaseLostError "durable execution capacity lease lost" /\
  (controller_renew w_controller 60 ex_reservation
     (cap_run w_controller (EvReserve 0 ex_reservation :: ex_renewals) (∅ : Leases Z))).1 = Ok tt.
Proof. vm_compute. done. Qed.

Lemma redis_renewal_ends_at_the_expiry_witness :
  let (dec, b1) := capacity_reserve "m" 0 ex_reservation 2 2 1 30 ex_empty in
  admitted dec = true /\
  (controller_renew w_controller 60 ex_reservation
     (cap_run w_controller ex_renewals b1)).1 =
    raise DomainCapacityLeaseLostError "durable execution capacity lease lost".
Proof.
  pose proof (redis_renewal_ends_at_the_expiry "m" w_controller ex_renewals 0 60 ex_reservation ex_reservation 2 ex_empty) as Ht.
  cbv zeta in Ht. change (global_limit (policy w_controller)) with 2 in Ht. change (emergency_reserve (policy w_controller)) with 1 in Ht.
  change (lease_seconds w_controller) with 30 in Ht.
  assert (admitted (capacity_reserve "m" 0 ex_reservation 2 2 1 30 ex_empty).1 = true) as Ha by (vm_compute; reflexivity).
  destruct (capacity_reserve "m" 0 ex_reservation 2 2 1 30 ex_empty) as [dec b1]. cbn [fst] in Ha.
  split; [done|]. apply Ht; [done| |done|by vm_compute].
  unfold ex_renewals. apply Forall_fmap, Forall_true. done.
Defined.
