(* ===== verification/Adaptive.v ===== *)
(** * Adaptive concurrency

    Models [execution/adaptive.py]: the controller that turns samples into a limit, the
    sampler that gathers attempts into samples, and the gate that admits worker iterations
    below the limit, one step per section its lock protects.  The second part has the
    theorems: how the limit moves, and that the gate loses no wake-up. *)
From S2P Require Import Prelude PyString PyFloat DurableJobs.
(** Float arithmetic of the module: products, differences, [int / int], the conversion of an
    [int], [math.floor], [math.ceil], [math.isfinite] and the literals 1 and 0.95. *)
Class PyFloatArith (F : Type) `{PyFloat F} := {
  f_mul : F -> F -> F;
  f_sub : F -> F -> F;
  f_ratio : Z -> Z -> F;
  f_of_int : Z -> F;
  f_floor : F -> Z;
  f_ceil : F -> Z;
  f_isfinite : F -> bool;
  f_one : F;
  f_095 : F
}.

(** What the module relies on: a number of at least one does not grow when multiplied by a
    ratio below one, and 95% of a count, rounded up, is one of its positions. *)
Class PyFloatArithLaws (F : Type) `{PyFloatArith F} := {
  f_floor_shrink n r :
    0 <= n -> f_ltb f_zero r = true -> f_ltb r f_one = true -> f_floor (f_mul (f_of_int n) r) <= n;
  f_095_position n : 1 <= n -> 1 <= f_ceil (f_mul f_095 (f_of_int n)) <= n
}.

Section Adaptive.
  Context {F : Type} `{PyFloatArith F}.

(** ** The controller *)

Record AdaptiveConcurrencyPolicy := {
  minimum : Z;
  maximum : Z;
  additive_step : Z;
  decrease_ratio : F;
  latency_target_ms : F;
  error_rate_threshold : F;
  recovery_windows : Z;
  pressure_windows : Z;
  healthy_latency_ratio : F;
  ewma_alpha : F
}.

Definition AdaptiveConcurrencyPolicy_post_init (p : AdaptiveConcurrencyPolicy) : res unit :=
  _ ← reject_if (minimum p <? 1) ValueError "minimum must be at least 1";
  _ ← reject_if (maximum p <? minimum p) ValueError "maximum must be greater than or equal to minimum";
  _ ← reject_if (additive_step p <? 1) ValueError "additive_step must be at least 1";
  _ ← ensure (f_ltb f_zero (decrease_ratio p) && f_ltb (decrease_ratio p) f_one)
        ValueError "decrease_ratio must be between 0 and 1";
  _ ← reject_if (f_leb (latency_target_ms p) f_zero) ValueError "latency_target_ms must be positive";
  _ ← ensure (f_leb f_zero (error_rate_threshold p) && f_leb (error_rate_threshold p) f_one)
        ValueError "error_rate_threshold must be between 0 and 1";
  _ ← reject_if ((recovery_windows p <? 1) || (pressure_windows p <? 1)) ValueError "window counts must be at least 1";
  _ ← ensure (f_ltb f_zero (healthy_latency_ratio p) && f_leb (healthy_latency_ratio p) f_one)
        ValueError "healthy_latency_ratio must be between 0 and 1";
  ensure (f_ltb f_zero (ewma_alpha p) && f_leb (ewma_alpha p) f_one) ValueError "ewma_alpha must be between 0 and 1".

Record AdaptiveConcurrencySample := {
  requests : Z;
  latency_p95_ms : F;
  errors : Z;
  timeouts : Z;
  rate_limited : Z
}.

Record AdaptiveConcurrencyController := {
  ac_policy : AdaptiveConcurrencyPolicy;
  current_limit : Z;
  latency_ewma_ms : option F;
  healthy_streak : Z;
  pressure_streak : Z
}.

Definition AdaptiveConcurrencyController_init (p : AdaptiveConcurrencyPolicy) (initial_limit : option Z)
    : res AdaptiveConcurrencyController :=
  let chosen := default (minimum p) initial_limit in
  _ ← ensure ((minimum p <=? chosen) && (chosen <=? maximum p)) ValueError "initial_limit must be within policy bounds";
  mret {| ac_policy := p; current_limit := chosen; latency_ewma_ms := None; healthy_streak := 0; pressure_streak := 0 |}.

Definition valid_sample (s : AdaptiveConcurrencySample) : bool :=
  negb ((requests s <=? 0) || (requests s <? 0) || (errors s <? 0) || (timeouts s <? 0) || (rate_limited s <? 0)) &&
  negb (requests s <? errors s) && negb ((requests s <? timeouts s) || (requests s <? rate_limited s)) &&
  f_isfinite (latency_p95_ms s) && f_leb f_zero (latency_p95_ms s).

(** [_update_latency]. *)
Definition updated_latency (c : AdaptiveConcurrencyController) (latency : F) : F :=
  match latency_ewma_ms c with
  | None => latency
  | Some e => f_add (f_mul (ewma_alpha (ac_policy c)) latency) (f_mul (f_sub f_one (ewma_alpha (ac_policy c))) e)
  end.

Definition increased (c : AdaptiveConcurrencyController) : Z :=
  Z.min (current_limit c + additive_step (ac_policy c)) (maximum (ac_policy c)).
Definition decreased (c : AdaptiveConcurrencyController) : Z :=
  Z.max (f_floor (f_mul (f_of_int (current_limit c)) (decrease_ratio (ac_policy c)))) (minimum (ac_policy c)).

Definition with_limit (c : AdaptiveConcurrencyController) (limit : Z) (e : option F) (healthy pressure : Z) :=
  {| ac_policy := ac_policy c; current_limit := limit; latency_ewma_ms := e;
     healthy_streak := healthy; pressure_streak := pressure |}.

(** [observe]: the new limit is the [current_limit] of the result. *)
Definition observe (c : AdaptiveConcurrencyController) (s : AdaptiveConcurrencySample)
    : AdaptiveConcurrencyController :=
  let p := ac_policy c in
  if negb (valid_sample s) then with_limit c (current_limit c) (latency_ewma_ms c) 0 0
  else
    let e := updated_latency c (latency_p95_ms s) in
    let hard_pressure := (0 <? timeouts s) || (0 <? rate_limited s) in
    let error_rate := f_ratio (errors s) (requests s) in
    let soft_pressure := f_leb (error_rate_threshold p) error_rate || f_ltb (latency_target_ms p) e in
    if hard_pressure then with_limit c (decreased c) (Some e) 0 0
    else if soft_pressure then
      if pressure_windows p <=? pressure_streak c + 1 then with_limit c (decreased c) (Some e) 0 0
      else with_limit c (current_limit c) (Some e) 0 (pressure_streak c + 1)
    else if f_leb e (f_mul (latency_target_ms p) (healthy_latency_ratio p)) then
      if recovery_windows p <=? healthy_streak c + 1 then with_limit c (increased c) (Some e) 0 0
      else with_limit c (current_limit c) (Some e) (healthy_streak c + 1) 0
    else with_limit c (current_limit c) (Some e) 0 0.

(** ** The sampler *)

Inductive AdaptiveFailureKind := FkERROR | FkTIMEOUT | FkRATE_LIMITED.

Context {V : Type}.

Definition classify_adaptive_failure (job : ExecutionJob F V) : AdaptiveFailureKind :=
  if bool_decide (last_error job = Some "TimeoutError") then FkTIMEOUT else FkERROR.

Record AdaptiveTelemetrySampler := {
  window_size : Z;
  failure_classifier : ExecutionJob F V -> AdaptiveFailureKind;
  latencies_ms : list F;
  as_errors : Z;
  as_timeouts : Z;
  as_rate_limited : Z
}.

Definition AdaptiveTelemetrySampler_init (window_size : Z)
    (classifier : option (ExecutionJob F V -> AdaptiveFailureKind)) : res AdaptiveTelemetrySampler :=
  _ ← reject_if (window_size <? 1) ValueError "window_size must be at least 1";
  mret {| window_size := window_size; failure_classifier := default classify_adaptive_failure classifier;
          latencies_ms := []; as_errors := 0; as_timeouts := 0; as_rate_limited := 0 |}.

Definition latency_le (a b : F) : Prop := f_leb a b = true.
#[global] Instance latency_le_dec : RelDecision latency_le.
Proof. intros a b. unfold latency_le. apply _. Defined.

Definition counted (job : ExecutionJob F V) : bool :=
  bool_decide (status job ∈ [SUCCEEDED; RETRY_WAIT; FAILED]).

(** The attempt is added to the window. *)
Definition sampled (a : AdaptiveTelemetrySampler) (job : ExecutionJob F V) (latency_ms : F) : AdaptiveTelemetrySampler :=
  let kind := if bool_decide (status job = SUCCEEDED) then None else Some (failure_classifier a job) in
  {| window_size := window_size a; failure_classifier := failure_classifier a;
     latencies_ms := latencies_ms a ++ [latency_ms];
     as_errors := as_errors a + match kind with Some FkERROR => 1 | _ => 0 end;
     as_timeouts := as_timeouts a + match kind with Some FkTIMEOUT => 1 | _ => 0 end;
     as_rate_limited := as_rate_limited a + match kind with Some FkRATE_LIMITED => 1 | _ => 0 end |}.

Definition p95_index (n : Z) : Z := Z.max (f_ceil (f_mul f_095 (f_of_int n)) - 1) 0.

(** [record_attempt]: the indexing [ordered[p95_index]] raises [IndexError] out of range, here [None]
    for the latency. *)
Definition window_sample (a : AdaptiveTelemetrySampler) : option AdaptiveConcurrencySample :=
  let ordered := merge_sort latency_le (latencies_ms a) in
  latency ← ordered !! Z.to_nat (p95_index (Z.of_nat (length ordered)));
  mret {| requests := Z.of_nat (length ordered); latency_p95_ms := latency; errors := as_errors a;
          timeouts := as_timeouts a; rate_limited := as_rate_limited a |}.

Definition emptied (a : AdaptiveTelemetrySampler) : AdaptiveTelemetrySampler :=
  {| window_size := window_size a; failure_classifier := failure_classifier a; latencies_ms := [];
     as_errors := 0; as_timeouts := 0; as_rate_limited := 0 |}.

Definition record_attempt (job : ExecutionJob F V) (latency_ms : F) : M AdaptiveTelemetrySampler (option AdaptiveConcurrencySample) :=
  fun a =>
    if negb (f_isfinite latency_ms) || f_ltb latency_ms f_zero then (Ok None, a)
    else if negb (counted job) then (Ok None, a)
    else
      let a1 := sampled a job latency_ms in
      if Z.of_nat (length (latencies_ms a1)) <? window_size a1 then (Ok None, a1)
      else match window_sample a1 with
           | Some sample => (Ok (Some sample), emptied a1)
           | None => (raise IndexError "list index out of range", a1)
           end.

(** ** The gate *)

(** A task that called [acquire]: asleep in [wait_for], woken and about to check again,
    or admitted.  A task that did not call it, or has left, is in none of these. *)
Inductive gate_phase := GAsleep | GWoken | GInside.
#[global] Instance gate_phase_eq_dec : EqDecision gate_phase.
Proof. solve_decision. Defined.

Record AdaptiveConcurrencyGate := {
  g_controller : AdaptiveConcurrencyController;
  g_active : Z;
  g_tasks : gmap nat gate_phase
}.

Definition AdaptiveConcurrencyGate_init (c : AdaptiveConcurrencyController) : AdaptiveConcurrencyGate :=
  {| g_controller := c; g_active := 0; g_tasks := ∅ |}.

(** [notify_all]. *)
Definition wake (ph : gate_phase) : gate_phase := match ph with GAsleep => GWoken | _ => ph end.
Definition notify_all (tasks : gmap nat gate_phase) : gmap nat gate_phase := wake <$> tasks.

(** One evaluation of the predicate of [wait_for] by task [i]. *)
Definition gate_check (i : nat) (g : AdaptiveConcurrencyGate) : AdaptiveConcurrencyGate :=
  if g_active g <? current_limit (g_controller g)
  then {| g_controller := g_controller g; g_active := g_active g + 1; g_tasks := <[i := GInside]> (g_tasks g) |}
  else {| g_controller := g_controller g; g_active := g_active g; g_tasks := <[i := GAsleep]> (g_tasks g) |}.

(** [release], by task [i]. *)
Definition gate_release (i : nat) : M AdaptiveConcurrencyGate unit := fun g =>
  if g_active g <=? 0 then (raise RuntimeError "adaptive concurrency gate released without acquire", g)
  else (Ok tt, {| g_controller := g_controller g; g_active := g_active g - 1;
                  g_tasks := notify_all (delete i (g_tasks g)) |}).

Definition gate_observe (sample : AdaptiveConcurrencySample) : M AdaptiveConcurrencyGate Z := fun g =>
  let c := observe (g_controller g) sample in
  (Ok (current_limit c),
   {| g_controller := c; g_active := g_active g;
      g_tasks := if current_limit c =? current_limit (g_controller g) then g_tasks g else notify_all (g_tasks g) |}).

(** The sections the lock protects, in any order; a task leaves once it is inside, and a
    task that waits may be cancelled. *)
Inductive gate_event :=
  | GAcquire (i : nat)
  | GRecheck (i : nat)
  | GRelease (i : nat)
  | GObserve (sample : AdaptiveConcurrencySample)
  | GCancel (i : nat).

Definition gate_step (ev : gate_event) (g : AdaptiveConcurrencyGate) : AdaptiveConcurrencyGate :=
  match ev with
  | GAcquire i => match g_tasks g !! i with None => gate_check i g | _ => g end
  | GRecheck i => match g_tasks g !! i with Some GWoken => gate_check i g | _ => g end
  | GRelease i => match g_tasks g !! i with Some GInside => snd (gate_release i g) | _ => g end
  | GObserve sample => snd (gate_observe sample g)
  | GCancel i =>
      match g_tasks g !! i with
      | Some GAsleep | Some GWoken =>
          {| g_controller := g_controller g; g_active := g_active g; g_tasks := delete i (g_tasks g) |}
      | _ => g
      end
  end.

Definition gate_run (evs : list gate_event) (g : AdaptiveConcurrencyGate) : AdaptiveConcurrencyGate :=
  fold_left (fun g ev => gate_step ev g) evs g.
End Adaptive.
Arguments AdaptiveConcurrencyGate F : clear implicits.
Arguments gate_event F : clear implicits.
Arguments AdaptiveConcurrencyPolicy F : clear implicits.
Arguments AdaptiveConcurrencySample F : clear implicits.
Arguments AdaptiveConcurrencyController F : clear implicits.
Arguments AdaptiveTelemetrySampler F V : clear implicits.

(** * Properties of the adaptive concurrency

    The limit stays within the policy and moves only after the windows of the policy; the
    samples of the sampler are valid; the gate loses no wake-up. *)
Section Props.
  Context {F : Type} `{PyFloatLaws F} `{!PyFloatArith F} `{!PyFloatArithLaws F}.
  Implicit Types (c : AdaptiveConcurrencyController F) (s : AdaptiveConcurrencySample F) (g : AdaptiveConcurrencyGate F).

(** ** The controller *)

(** A policy that passed its checks. *)
Lemma policy_checked (p : AdaptiveConcurrencyPolicy F) :
  AdaptiveConcurrencyPolicy_post_init p = Ok tt ->
  1 <= minimum p /\ minimum p <= maximum p /\ 1 <= additive_step p /\
  f_ltb f_zero (decrease_ratio p) = true /\ f_ltb (decrease_ratio p) f_one = true /\
  1 <= recovery_windows p /\ 1 <= pressure_windows p.
Proof.
  unfold AdaptiveConcurrencyPolicy_post_init. intros Hp. inv_ok. to_prop.
  split_and!; try done; lia.
Qed.

Record in_bounds c : Prop := {
  ib_policy : AdaptiveConcurrencyPolicy_post_init (ac_policy c) = Ok tt;
  ib_limit : minimum (ac_policy c) <= current_limit c <= maximum (ac_policy c);
  ib_healthy : 0 <= healthy_streak c < recovery_windows (ac_policy c);
  ib_pressure : 0 <= pressure_streak c < pressure_windows (ac_policy c)
}.

Lemma init_in_bounds p initial c :
  AdaptiveConcurrencyPolicy_post_init p = Ok tt -> AdaptiveConcurrencyController_init p initial = Ok c -> in_bounds c.
Proof.
  intros Hp Hi. pose proof (policy_checked p Hp) as Hc. unfold AdaptiveConcurrencyController_init in Hi. inv_ok. to_prop.
  subst c. split; cbn; try done; lia.
Qed.

Lemma observe_policy c s : ac_policy (observe c s) = ac_policy c.
Proof. unfold observe. cbv zeta. by repeat case_match. Qed.

Lemma decreased_bounds c : in_bounds c -> minimum (ac_policy c) <= decreased c <= current_limit c.
Proof.
  intros [Hp Hl _ _]. pose proof (policy_checked _ Hp) as (H1' & _ & _ & Hr0 & Hr1 & _). unfold decreased.
  pose proof (f_floor_shrink (current_limit c) (decrease_ratio (ac_policy c)) ltac:(lia) Hr0 Hr1). lia.
Qed.
Lemma increased_bounds c : in_bounds c ->
  current_limit c <= increased c <= maximum (ac_policy c) /\ increased c <= current_limit c + additive_step (ac_policy c).
Proof.
  intros [Hp Hl _ _]. pose proof (policy_checked _ Hp) as (_ & _ & Hs & _). unfold increased. lia.
Qed.

Lemma observe_in_bounds c s : in_bounds c -> in_bounds (observe c s).
Proof.
  intros Hb. pose proof (decreased_bounds c Hb). pose proof (increased_bounds c Hb).
  destruct Hb as [Hp Hl Hh Hpr]. pose proof (policy_checked _ Hp).
  split; rewrite ?observe_policy; [done|..]; unfold observe; cbv zeta;
    repeat (case_match; cbn; to_prop; try lia).
Qed.

(** What the controller takes a sample for. *)
Inductive verdict := Invalid | Hard | Soft | Healthy | Neutral.

Definition verdict_on c s : verdict :=
  let e := updated_latency c (latency_p95_ms s) in
  if negb (valid_sample s) then Invalid
  else if (0 <? timeouts s) || (0 <? rate_limited s) then Hard
  else if f_leb (error_rate_threshold (ac_policy c)) (f_ratio (errors s) (requests s)) ||
          f_ltb (latency_target_ms (ac_policy c)) e then Soft
  else if f_leb e (f_mul (latency_target_ms (ac_policy c)) (healthy_latency_ratio (ac_policy c))) then Healthy
  else Neutral.

Definition observe_all c (ss : list (AdaptiveConcurrencySample F)) : AdaptiveConcurrencyController F :=
  fold_left observe ss c.

Fixpoint verdicts c (ss : list (AdaptiveConcurrencySample F)) : list verdict :=
  match ss with [] => [] | s :: ss' => verdict_on c s :: verdicts (observe c s) ss' end.

Lemma observe_all_app c ss s : observe_all c (ss ++ [s]) = observe (observe_all c ss) s.
Proof. unfold observe_all. by rewrite fold_left_app. Qed.
Lemma verdicts_app c ss s : verdicts c (ss ++ [s]) = verdicts c ss ++ [verdict_on (observe_all c ss) s].
Proof. revert c. induction ss as [|x ss IH]; intros c; [done|]. cbn. by rewrite IH. Qed.

Lemma observe_all_bounds c ss : in_bounds c -> in_bounds (observe_all c ss).
Proof. revert c. induction ss as [|s ss IH]; intros c Hc; [done|]. by apply IH, observe_in_bounds. Qed.
Lemma observe_all_policy c ss : ac_policy (observe_all c ss) = ac_policy c.
Proof. revert c. induction ss as [|s ss IH]; intros c; [done|]. cbn. by rewrite IH observe_policy. Qed.

(** The limit and the streaks after a sample, by its verdict. *)
Lemma observe_by_verdict c s :
  let c' := observe c s in
  match verdict_on c s with
  | Invalid | Neutral => current_limit c' = current_limit c /\ healthy_streak c' = 0 /\ pressure_streak c' = 0
  | Hard => current_limit c' = decreased c /\ healthy_streak c' = 0 /\ pressure_streak c' = 0
  | Soft => healthy_streak c' = 0 /\
      (pressure_windows (ac_policy c) <= pressure_streak c + 1 /\ current_limit c' = decreased c /\ pressure_streak c' = 0 \/
       current_limit c' = current_limit c /\ pressure_streak c' = pressure_streak c + 1)
  | Healthy => pressure_streak c' = 0 /\
      (recovery_windows (ac_policy c) <= healthy_streak c + 1 /\ current_limit c' = increased c /\ healthy_streak c' = 0 \/
       current_limit c' = current_limit c /\ healthy_streak c' = healthy_streak c + 1)
  end.
Proof.
  cbv zeta. unfold verdict_on, observe. cbv zeta.
  destruct (negb (valid_sample s)); [done|]. destruct (_ || _); [done|]. destruct (_ || _).
  - destruct (Z.leb_spec (pressure_windows (ac_policy c)) (pressure_streak c + 1)); cbn; auto.
  - destruct (f_leb _ _); [|done].
    destruct (Z.leb_spec (recovery_windows (ac_policy c)) (healthy_streak c + 1)); cbn; auto.
Qed.

(** The samples before a streak, and those of the streak. *)
Definition ends_with (v : verdict) (n : Z) (vs : list verdict) : Prop :=
  exists pre, vs = pre ++ replicate (Z.to_nat n) v.

Lemma ends_with_none v vs : ends_with v 0 vs.
Proof. exists vs. by rewrite app_nil_r. Qed.
Lemma ends_with_more v n vs : 0 <= n -> ends_with v n vs -> ends_with v (n + 1) (vs ++ [v]).
Proof.
  intros Hn [pre ->]. exists pre. replace (Z.to_nat (n + 1)) with (Z.to_nat n + 1)%nat by lia.
  by rewrite replicate_add -app_assoc.
Qed.
Lemma ends_with_less v n m vs : 0 <= m <= n -> ends_with v n vs -> ends_with v m vs.
Proof.
  intros Hm [pre ->]. exists (pre ++ replicate (Z.to_nat (n - m)) v).
  rewrite -app_assoc -replicate_add. do 2 f_equal. lia.
Qed.

Lemma streaks_are_counted c ss :
  in_bounds c -> healthy_streak c = 0 -> pressure_streak c = 0 ->
  ends_with Healthy (healthy_streak (observe_all c ss)) (verdicts c ss) /\
  ends_with Soft (pressure_streak (observe_all c ss)) (verdicts c ss).
Proof.
  intros Hb Hh Hp. induction ss as [|s ss [IH1 IH2]] using rev_ind.
  - cbn. rewrite Hh Hp. split; apply ends_with_none.
  - rewrite observe_all_app verdicts_app. pose proof (observe_all_bounds c ss Hb) as Hb1.
    pose proof (ib_healthy _ Hb1). pose proof (ib_pressure _ Hb1).
    pose proof (observe_by_verdict (observe_all c ss) s) as Ho. cbv zeta in Ho.
    destruct (verdict_on (observe_all c ss) s); destruct_and?; destruct_or?; destruct_and?;
      repeat match goal with E : _ = _ |- _ => rewrite E; clear E end;
      split; first [apply ends_with_none|apply ends_with_more; [lia|done]].
Qed.

(** C38. The limit stays within the policy and moves by its windows: it grows by at most the
    additive step, and only when the last [recovery_windows] samples were all healthy; it
    shrinks only on hard pressure or when the last [pressure_windows] samples all showed
    soft pressure. *)
Theorem adaptive_limit_moves_by_the_windows p initial c ss s :
  AdaptiveConcurrencyPolicy_post_init p = Ok tt -> AdaptiveConcurrencyController_init p initial = Ok c ->
  let before := current_limit (observe_all c ss) in
  let after := current_limit (observe_all c (ss ++ [s])) in
  let vs := verdicts c (ss ++ [s]) in
  minimum p <= after <= maximum p /\
  (before < after -> after <= before + additive_step p /\ ends_with Healthy (recovery_windows p) vs) /\
  (after < before -> ends_with Hard 1 vs \/ ends_with Soft (pressure_windows p) vs).
Proof.
  intros Hp Hi. pose proof (init_in_bounds p initial c Hp Hi) as Hb. pose proof (policy_checked p Hp) as Hc.
  assert (ac_policy c = p /\ healthy_streak c = 0 /\ pressure_streak c = 0) as (Ep & Eh & Es).
  { unfold AdaptiveConcurrencyController_init in Hi. inv_ok. by subst c. }
  cbv zeta. destruct (streaks_are_counted c ss Hb Eh Es) as [S1 S2].
  pose proof (observe_all_bounds c (ss ++ [s]) Hb) as Hb'. pose proof (ib_limit _ Hb') as Hl.
  rewrite observe_all_policy Ep in Hl. split; [done|].
  rewrite observe_all_app verdicts_app in Hl |- *. pose proof (observe_all_bounds c ss Hb) as Hb1.
  pose proof (observe_all_policy c ss) as Epp. set (c1 := observe_all c ss) in *.
  pose proof (decreased_bounds c1 Hb1) as Hd. pose proof (increased_bounds c1 Hb1) as Hu.
  pose proof (ib_healthy _ Hb1) as Hh. pose proof (ib_pressure _ Hb1) as Hps. rewrite Epp Ep in Hd Hu Hh Hps.
  pose proof (observe_by_verdict c1 s) as Ho. cbv zeta in Ho. rewrite Epp Ep in Ho.
  destruct (verdict_on c1 s); destruct_and?; destruct_or?; destruct_and?; split; try lia; intros _.
  - left. apply (ends_with_more Hard 0); [lia|apply ends_with_none].
  - right. apply (ends_with_less _ (pressure_streak c1 + 1)); [lia|]. by apply ends_with_more; [lia|].
  - split; [lia|]. apply (ends_with_less _ (healthy_streak c1 + 1)); [lia|]. by apply ends_with_more; [lia|].
Qed.

(** ** The sampler *)

Context {V : Type}.
Implicit Types (a : AdaptiveTelemetrySampler F V).

Record sampler_ok a : Prop := {
  so_window : Z.of_nat (length (latencies_ms a)) < window_size a;
  so_latencies : Forall (fun x => f_isfinite x = true /\ f_leb f_zero x = true) (latencies_ms a);
  so_counts : 0 <= as_errors a /\ 0 <= as_timeouts a /\ 0 <= as_rate_limited a /\
    as_errors a + as_timeouts a + as_rate_limited a <= Z.of_nat (length (latencies_ms a))
}.

Definition record_all (attempts : list (ExecutionJob F V * F)) a : AdaptiveTelemetrySampler F V :=
  fold_left (fun a jl => snd (record_attempt jl.1 jl.2 a)) attempts a.

Lemma window_sample_valid a :
  Forall (fun x => f_isfinite x = true /\ f_leb f_zero x = true) (latencies_ms a) ->
  1 <= Z.of_nat (length (latencies_ms a)) ->
  0 <= as_errors a /\ 0 <= as_timeouts a /\ 0 <= as_rate_limited a /\
    as_errors a + as_timeouts a + as_rate_limited a <= Z.of_nat (length (latencies_ms a)) ->
  exists s, window_sample a = Some s /\ valid_sample s = true /\ requests s = Z.of_nat (length (latencies_ms a)) /\
    latency_p95_ms s ∈ latencies_ms a /\ errors s + timeouts s + rate_limited s <= requests s.
Proof.
  intros Hl Hn Hc. unfold window_sample. set (ordered := merge_sort latency_le (latencies_ms a)).
  assert (length ordered = length (latencies_ms a)) as Elen by (by unfold ordered; rewrite merge_sort_Permutation).
  pose proof (f_095_position (Z.of_nat (length ordered)) ltac:(lia)) as Hpos.
  destruct (lookup_lt_is_Some_2 ordered (Z.to_nat (p95_index (Z.of_nat (length ordered))))) as [x Hx].
  { unfold p95_index. lia. }
  rewrite Hx. eexists. split; [done|]. cbn. apply list_elem_of_lookup_2 in Hx.
  unfold ordered in Hx. rewrite merge_sort_Permutation in Hx. rewrite Forall_forall in Hl. destruct (Hl x Hx) as [Hf Hz].
  rewrite Elen. split_and!; [|done|done|lia].
  unfold valid_sample. cbn. rewrite Hf Hz !andb_true_r.
  repeat (apply andb_true_iff; split); apply negb_true_iff, orb_false_iff || idtac; repeat split;
    rewrite ?orb_false_iff ?negb_true_iff ?Z.ltb_ge ?Z.leb_gt; lia.
Qed.

Lemma sampled_counts a job latency :
  let a1 := sampled a job latency in
  latencies_ms a1 = latencies_ms a ++ [latency] /\ window_size a1 = window_size a /\
  (0 <= as_errors a /\ 0 <= as_timeouts a /\ 0 <= as_rate_limited a /\
    as_errors a + as_timeouts a + as_rate_limited a <= Z.of_nat (length (latencies_ms a)) ->
   0 <= as_errors a1 /\ 0 <= as_timeouts a1 /\ 0 <= as_rate_limited a1 /\
    as_errors a1 + as_timeouts a1 + as_rate_limited a1 <= Z.of_nat (length (latencies_ms a1))).
Proof. cbn. rewrite length_app. cbn. split_and!; try done. repeat case_match; lia. Qed.

Lemma record_outcome a job latency :
  1 <= window_size a -> sampler_ok a ->
  sampler_ok (snd (record_attempt job latency a)) /\ window_size (snd (record_attempt job latency a)) = window_size a /\
  match fst (record_attempt job latency a) with
  | Ok None => True
  | Ok (Some s) => valid_sample s = true /\ requests s = window_size a /\ errors s + timeouts s + rate_limited s <= requests s
  | Raise _ => False
  end.
Proof.
  intros Hw [Hwin Hl Hc]. unfold record_attempt.
  destruct (negb (f_isfinite latency) || f_ltb latency f_zero) eqn:Ef; [done|].
  apply orb_false_iff in Ef as [Ef%negb_false_iff Ez%f_ltb_false].
  destruct (negb (counted job)); [done|].
  pose proof (sampled_counts a job latency) as (El & Ew & Hc'). specialize (Hc' Hc). cbv zeta.
  set (a1 := sampled a job latency) in *. rewrite Ew.
  assert (Forall (fun x => f_isfinite x = true /\ f_leb f_zero x = true) (latencies_ms a1)) as Hl1
    by (rewrite El; apply Forall_app_2; [done|by apply Forall_singleton]).
  destruct (Z.ltb_spec (Z.of_nat (length (latencies_ms a1))) (window_size a)) as [Hlt|Hge].
  - cbn. split_and!; [|done|done]. split; [by rewrite Ew|done|done].
  - destruct (window_sample_valid a1 Hl1 ltac:(lia) Hc') as (s & -> & Hv & Hr & _ & Hs). cbn.
    split_and!; [|done|done| |done].
    + split; cbn; [lia|by apply Forall_nil|lia].
    + rewrite Hr. rewrite El length_app in Hge |- *. cbn in *. lia.
Qed.

(** Every window the sampler closes is a sample the controller takes: [record_attempt] does
    not raise, and a sample counts exactly [window_size] attempts, of which no more failed
    than were made. *)
Theorem adaptive_samples_are_valid w classifier a attempts job latency :
  AdaptiveTelemetrySampler_init w classifier = Ok a ->
  match fst (record_attempt job latency (record_all attempts a)) with
  | Ok None => True
  | Ok (Some s) => valid_sample s = true /\ requests s = w /\ errors s + timeouts s + rate_limited s <= requests s
  | Raise _ => False
  end.
Proof.
  intros Hi. unfold AdaptiveTelemetrySampler_init in Hi. inv_ok. to_prop.
  assert (sampler_ok a /\ window_size a = w) as [Hok Ew].
  { subst a. split; [|done]. split; cbn; [lia|by apply Forall_nil|lia]. }
  clear Hi. assert (sampler_ok (record_all attempts a) /\ window_size (record_all attempts a) = w) as [Hok' Ew'].
  { revert a Hok Ew. induction attempts as [|[j l] rest IH]; intros a Hok Ew; [done|]. cbn.
    destruct (record_outcome a j l ltac:(lia) Hok) as (Hok' & Ew' & _). apply IH; [done|congruence]. }
  rewrite -Ew'. apply record_outcome; [lia|done].
Qed.

(** ** The gate *)

Definition inside_count (tasks : gmap nat gate_phase) : Z := count_if (fun ph => ph = GInside) tasks.

Record gate_ok g : Prop := {
  go_controller : in_bounds (g_controller g);
  go_active : g_active g = inside_count (g_tasks g);
  go_asleep : forall i, g_tasks g !! i = Some GAsleep -> current_limit (g_controller g) <= g_active g;
  go_bound : g_active g <= maximum (ac_policy (g_controller g))
}.

Lemma notify_count tasks : inside_count (notify_all tasks) = inside_count tasks.
Proof.
  unfold inside_count, count_if, notify_all. f_equal.
  transitivity (size (wake <$> filter (fun kv : nat * gate_phase => kv.2 = GInside) tasks)); [|apply map_size_fmap].
  f_equal. apply map_eq. intros i. rewrite lookup_fmap !map_lookup_filter lookup_fmap.
  destruct (tasks !! i) as [[]|]; done.
Qed.

Lemma notify_none_asleep tasks i : notify_all tasks !! i <> Some GAsleep.
Proof. unfold notify_all. rewrite lookup_fmap. by destruct (tasks !! i) as [[]|]. Qed.

Lemma inside_nonneg tasks : 0 <= inside_count tasks.
Proof. unfold inside_count, count_if. lia. Qed.

(** A task that is not inside checks the predicate. *)
Lemma gate_check_ok i g : gate_ok g -> g_tasks g !! i <> Some GInside -> gate_ok (gate_check i g).
Proof.
  intros [Hc Ha Hs Hb] Hi. pose proof (ib_limit _ Hc).
  assert (inside_count (delete i (g_tasks g)) = g_active g) as Hd.
  { rewrite Ha. unfold inside_count. rewrite (count_if_delete _ (g_tasks g) i).
    destruct (g_tasks g !! i) as [ph|]; [|lia]. case_decide; [by subst ph|lia]. }
  unfold gate_check. destruct (Z.ltb_spec (g_active g) (current_limit (g_controller g))); split; cbn; try done; try lia.
  - unfold inside_count. rewrite count_if_insert_eq. unfold inside_count in Hd. rewrite Hd. done.
  - intros k Hk. rewrite lookup_insert in Hk. case_decide; [done|]. pose proof (Hs k Hk). lia.
  - unfold inside_count. rewrite count_if_insert_eq. unfold inside_count in Hd. rewrite Hd. case_decide; [done|lia].
Qed.

Lemma gate_step_policy ev g : ac_policy (g_controller (gate_step ev g)) = ac_policy (g_controller g).
Proof.
  assert (forall i, ac_policy (g_controller (gate_check i g)) = ac_policy (g_controller g)) as Hc
    by (intros i; unfold gate_check; by destruct (_ <? _)).
  destruct ev as [i|i|i|s|i]; cbn; [..|apply observe_policy|];
    destruct (g_tasks g !! i) as [[]|]; try done; try apply Hc. unfold gate_release. by destruct (_ <=? _).
Qed.

Lemma gate_step_ok ev g : gate_ok g -> gate_ok (gate_step ev g).
Proof.
  intros Hg. destruct ev as [i|i|i|s|i]; cbn.
  - destruct (g_tasks g !! i) eqn:Ei; [done|]. apply gate_check_ok; [done|congruence].
  - destruct (g_tasks g !! i) as [[]|] eqn:Ei; try done. apply gate_check_ok; [done|congruence].
  - destruct (g_tasks g !! i) as [[]|] eqn:Ei; try done. destruct Hg as [Hc Ha Hs Hb].
    unfold gate_release. pose proof (count_if_delete (fun ph => ph = GInside) (g_tasks g) i) as Hd. rewrite Ei in Hd. cbn beta match in Hd. case_decide; [|done].
    unfold inside_count in Ha. destruct (Z.leb_spec (g_active g) 0); [by split|].
    split; cbn; try done; [|by intros k Hk%notify_none_asleep|lia].
    rewrite notify_count. unfold inside_count. lia.
  - destruct Hg as [Hc Ha Hs Hb]. split; cbn.
    + by apply observe_in_bounds.
    + case_match; [done|]. by rewrite notify_count.
    + intros i Hi. destruct (Z.eqb_spec (current_limit (observe (g_controller g) s)) (current_limit (g_controller g))) as [->|];
        [by apply (Hs i)|by apply notify_none_asleep in Hi].
    + by rewrite observe_policy.
  - destruct (g_tasks g !! i) as [ph|] eqn:Ei; [|done]. destruct Hg as [Hc Ha Hs Hb].
    pose proof (count_if_delete (fun ph => ph = GInside) (g_tasks g) i) as Hd. rewrite Ei in Hd. cbn beta match in Hd. unfold inside_count in Ha.
    case_decide as Eph; [subst ph; by split|]. rewrite Z.add_0_r in Hd.
    destruct ph; try done; (split; cbn; [done|by rewrite /inside_count -Hd| |done]);
      intros k [_ Hk]%lookup_delete_Some; by apply (Hs k).
Qed.

Lemma gate_run_ok evs g :
  gate_ok g -> gate_ok (gate_run evs g) /\ ac_policy (g_controller (gate_run evs g)) = ac_policy (g_controller g).
Proof.
  revert g. induction evs as [|ev evs IH]; intros g Hg; [done|].
  destruct (IH (gate_step ev g) (gate_step_ok ev g Hg)) as [Hok E]. split; [done|]. exact (eq_trans E (gate_step_policy ev g)).
Qed.

(** C39. The gate admits below the limit and loses no wake-up.  After any
    sequence of acquisitions, checks, releases, samples and cancellations, the active count is
    the number of tasks inside and at most the maximum of the policy, a task inside can always
    release, and no task is asleep while a place is free. *)
Theorem gate_loses_no_wake_up p initial c evs i :
  AdaptiveConcurrencyPolicy_post_init p = Ok tt -> AdaptiveConcurrencyController_init p initial = Ok c ->
  let g := gate_run evs (AdaptiveConcurrencyGate_init c) in
  g_active g = inside_count (g_tasks g) /\ 0 <= g_active g <= maximum p /\
  (g_tasks g !! i = Some GInside -> is_ok (fst (gate_release i g)) = true) /\
  (g_active g < current_limit (g_controller g) -> g_tasks g !! i <> Some GAsleep).
Proof.
  intros Hp Hi. assert (ac_policy c = p) as Ep.
  { unfold AdaptiveConcurrencyController_init in Hi. inv_ok. by subst c. }
  assert (gate_ok (AdaptiveConcurrencyGate_init c)) as H0'.
  { pose proof (policy_checked p Hp). split; cbn; [exact (init_in_bounds p initial c Hp Hi)|done|by intros ?|rewrite Ep; lia]. }
  destruct (gate_run_ok evs _ H0') as [Hg Epg]. cbn in Epg. rewrite Ep in Epg.
  cbv zeta. destruct Hg as [Hc Ha Hs Hb]. rewrite Epg in Hb. pose proof (inside_nonneg (g_tasks (gate_run evs (AdaptiveConcurrencyGate_init c)))).
  split_and!; [done|lia|done| |].
  - intros Hin. unfold gate_release. pose proof (count_if_delete (fun ph => ph = GInside) (g_tasks (gate_run evs (AdaptiveConcurrencyGate_init c))) i) as Hd.
    rewrite Hin in Hd. cbn beta match in Hd. case_decide; [|done]. pose proof (inside_nonneg (delete i (g_tasks (gate_run evs (AdaptiveConcurrencyGate_init c))))) as Hn.
    unfold inside_count in *. destruct (Z.leb_spec (g_active (gate_run evs (AdaptiveConcurrencyGate_init c))) 0); [lia|done].
  - intros Hlt Hi'. pose proof (Hs i Hi'). lia.
Qed.
End Props.

(** ** Concrete runs *)

(** Thousandths: 1000 is 1. *)
#[local] Instance milli_arith : PyFloatArith Z := {
  f_mul a b := a * b / 1000; f_sub := Z.sub; f_ratio a b := 1000 * a / b; f_of_int n := 1000 * n;
  f_floor a := a / 1000; f_ceil a := - (- a / 1000); f_isfinite _ := true; f_one := 1000; f_095 := 950
}.
#[local] Instance milli_arith_laws : PyFloatArithLaws Z.
Proof.
  split; cbn; intros.
  - unfold f_ltb in *. cbn in *. to_prop. rewrite (_ : 1000 * n * r = n * r * 1000); [lia|].
    rewrite Z.div_mul; [lia|]. apply Z.div_le_upper_bound; nia.
  - rewrite (_ : 950 * (1000 * n) = 950 * n * 1000); [lia|]. rewrite Z.div_mul; [lia|].
    split.
    + apply Z.opp_le_mono. rewrite Z.opp_involutive. apply Z.lt_succ_r, Z.div_lt_upper_bound; lia.
    + apply Z.opp_le_mono. rewrite Z.opp_involutive. apply Z.div_le_lower_bound; lia.
Qed.

Definition w_policy : AdaptiveConcurrencyPolicy Z :=
  {| minimum := 1; maximum := 8; additive_step := 1; decrease_ratio := 500; latency_target_ms := 250000;
     error_rate_threshold := 50; recovery_windows := 3; pressure_windows := 2; healthy_latency_ratio := 900;
     ewma_alpha := 250 |}.
Definition w_sample (latency timeouts : Z) : AdaptiveConcurrencySample Z :=
  {| requests := 16; latency_p95_ms := latency; errors := 0; timeouts := timeouts; rate_limited := 0 |}.
Definition w_controller0 : AdaptiveConcurrencyController Z :=
  {| ac_policy := w_policy; current_limit := 4; latency_ewma_ms := None; healthy_streak := 0; pressure_streak := 0 |}.

Example three_healthy_windows :
  (current_limit (observe_all w_controller0 [w_sample 100000 0; w_sample 100000 0]),
   current_limit (observe_all w_controller0 [w_sample 100000 0; w_sample 100000 0; w_sample 100000 0]),
   current_limit (observe_all w_controller0 [w_sample 100000 1])) = (4, 5, 2).
Proof. vm_compute. reflexivity. Qed.

Lemma adaptive_limit_moves_by_the_windows_witness :
  let ss := [w_sample 100000 0; w_sample 100000 0] in
  let s := w_sample 100000 0 in
  1 <= current_limit (observe_all w_controller0 (ss ++ [s])) <= 8 /\
  ends_with Healthy 3 (verdicts w_controller0 (ss ++ [s])).
Proof.
  cbv zeta. destruct (adaptive_limit_moves_by_the_windows w_policy (Some 4) w_controller0
    [w_sample 100000 0; w_sample 100000 0] (w_sample 100000 0)) as (Hb & Hu & _); [reflexivity|reflexivity|].
  split; [exact Hb|]. apply Hu. vm_compute. reflexivity.
Defined.

(** The fifth worker sleeps until one of the four leaves. *)
Definition w_gate_events : list (gate_event Z) :=
  [GAcquire 0; GAcquire 1; GAcquire 2; GAcquire 3; GAcquire 4; GRelease 2].
Lemma gate_loses_no_wake_up_witness :
  let g := gate_run w_gate_events (AdaptiveConcurrencyGate_init w_controller0) in
  g_active g = 3 /\ g_tasks g !! 4%nat <> Some GAsleep.
Proof.
  destruct (gate_loses_no_wake_up w_policy (Some 4) w_controller0 w_gate_events 4) as (_ & _ & _ & Hw); [reflexivity|reflexivity|].
  split; [vm_compute; reflexivity|]. apply Hw. vm_compute. reflexivity.
Defined.

Definition w_attempt (st : JobStatus) : ExecutionJob Z Z :=
  {| job_id := "a"; spec := {| idempotency_key := "k"; domain := "d"; payload := 0; priority := NORMAL;
       retry := {| max_attempts := 3; initial_backoff_seconds := 1; max_backoff_seconds := 2 |}; deadline_at := None |};
     status := st; created_at := 0; updated_at := 0; available_at := 0; attempt := 1; worker_id := None;
     lease_token := None; lease_expires_at := None; cancel_requested := false; last_error := Some "TimeoutError"; result := None |}.
Lemma adaptive_samples_are_valid_witness :
  match AdaptiveTelemetrySampler_init (V:=Z) 2 None with
  | Ok a => match fst (record_attempt (w_attempt FAILED) 30 (record_all [(w_attempt SUCCEEDED, 10)] a)) with
            | Ok (Some s) => valid_sample s = true /\ requests s = 2 /\ timeouts s = 1
            | _ => False
            end
  | Raise _ => False
  end.
Proof.
  destruct (AdaptiveTelemetrySampler_init (V:=Z) 2 None) as [a|] eqn:E; [|discriminate].
  pose proof (adaptive_samples_are_valid 2 None a [(w_attempt SUCCEEDED, 10)] (w_attempt FAILED) 30 E) as Hv.
  injection E as <-. vm_compute in Hv |- *. split; [reflexivity|]. split; reflexivity.
Defined.
