(* ===== verification/Worker.v ===== *)
(** * The durable worker

    Models [execution/worker.py]: one [run_once] of a worker over the job store and the
    capacity of its domain.  What the event loop decides is a [script]: the requests of other
    workers, the turns of the two heartbeat tasks, how the handler ends, and at which
    of its awaits the task of [run_once] is cancelled.  The second part has the theorems on
    a run: attempts, and the reservation. *)
From S2P Require Import Prelude PyString PyFloat DurableJobs DurableLifecycle DurableProps Capacity CapacityProps.
(** [type(exc).__name__] of the exceptions the heartbeats and the store raise. *)
Definition class_name (k : exn_class) : string :=
  match k with
  | ValueError => "ValueError"
  | TypeError => "TypeError"
  | KeyError => "KeyError"
  | OverflowError => "OverflowError"
  | RuntimeError => "RuntimeError"
  | CancelledError => "CancelledError"
  | IdempotencyConflictError => "IdempotencyConflictError"
  | JobLeaseLostError => "JobLeaseLostError"
  | JobNotFoundError => "JobNotFoundError"
  | DomainCapacitySaturatedError => "DomainCapacitySaturatedError"
  | DomainCapacityLeaseLostError => "DomainCapacityLeaseLostError"
  | _ => "Exception"
  end.

Section Worker.
  Context {F V B : Type} `{PyFloat F} `{EqDecision V} `{CapacityBackend F B}.
  Implicit Types (job : ExecutionJob F V).

(** [_handlers] by its keys; the handlers themselves are in the script. *)
Record DurableWorker := {
  wk_id : string;
  wk_handlers : list string;
  wk_lease_seconds : F;
  wk_interval : F;
  wk_capacity : option (DomainCapacityController F);
  wk_capacity_interval : F;
  wk_requeue_delay : F;
  wk_unfiltered : bool
}.

(** The checks of [__init__]; [default_interval] is the interval it computes from the lease
    when none is given. *)
Definition DurableWorker_init (default_interval : F -> F) (worker_id : string) (handlers : list string)
    (lease_seconds : F) (interval : option F) (capacity : option (DomainCapacityController F))
    (capacity_interval requeue_delay : F) (unfiltered : bool) : res DurableWorker :=
  _ ← reject_if (blank worker_id) ValueError "worker_id cannot be empty";
  _ ← reject_if (bool_decide (handlers = [])) ValueError "at least one domain handler is required";
  _ ← reject_if (f_leb lease_seconds f_zero) ValueError "lease_seconds must be positive";
  _ ← reject_if (f_leb capacity_interval f_zero) ValueError "capacity heartbeat interval must be positive";
  _ ← reject_if (f_ltb requeue_delay f_zero) ValueError "capacity requeue delay cannot be negative";
  let interval := default (default_interval lease_seconds) interval in
  _ ← reject_if (f_leb interval f_zero || f_leb lease_seconds interval) ValueError
        "heartbeat interval must be positive and smaller than lease_seconds";
  mret {| wk_id := worker_id; wk_handlers := handlers; wk_lease_seconds := lease_seconds; wk_interval := interval;
          wk_capacity := capacity; wk_capacity_interval := capacity_interval; wk_requeue_delay := requeue_delay;
          wk_unfiltered := unfiltered |}.

(** ** What the workers share *)

Record world := { w_store : Store F V; w_cap : B }.

Definition on_store {A} (m : M (Store F V) A) : M world A := fun w =>
  let (r, s) := m (w_store w) in (r, {| w_store := s; w_cap := w_cap w |}).
(** A cancellation of the task that waits for a request: there is none, it arrives before the
    request is carried out, or after that and before its reply. *)
Inductive delivery := Proceeds | CutBefore | CutAfter.

Definition awaited {A} (d : delivery) (m : M world A) : M world A := fun w =>
  match d with
  | Proceeds => m w
  | CutBefore => (raise CancelledError "", w)
  | CutAfter => (raise CancelledError "", snd (m w))
  end.

Definition on_cap {A} (m : B -> res A * B) : M world A := fun w =>
  let (r, b) := m (w_cap w) in (r, {| w_store := w_store w; w_cap := b |}).

(** ** The script *)

(** A turn of the event loop while the handler runs: a heartbeat of one of the two tasks, or
    what others do to the store or to the capacity. *)
Inductive turn :=
  | Beat (now : F)
  | CapacityBeat (now : F)
  | StoreOps (f : Store F V -> Store F V)
  | CapacityOps (f : B -> B).

Inductive handler_end :=
  | HReturned (v : option V)
  | HRaised (name : string) (e : exn)
  | HCancelled.

(** The handler ends by itself, or the task of [run_once] is cancelled while it waits for
    it and the handler, cancelled in turn, ends in some way.  A second cancellation while
    that one waits for the handler is suppressed. *)
Inductive ending :=
  | Finished (h : handler_end)
  | Interrupted (h : handler_end).

(** The instants, the choices of the event loop and the cancellations of one run.  The wait
    for capacity is cancelled in a round, before or after its reservation is carried
    out; a cancellation as a heartbeat task ends in [finally] hides what it raised. *)
Record script := {
  sc_claim_now : F;
  sc_token : string;
  sc_meanwhile : Store F V -> Store F V;
  sc_fuel : nat;
  sc_waiting : Waiting F B;
  sc_start : F;
  sc_lease_id : string;
  sc_during : list turn;
  sc_ending : ending;
  sc_before : list turn;
  sc_record_now : F;
  sc_after : list turn;
  sc_cut_claim : delivery;
  sc_cut_acquire : option (nat * bool);
  sc_cut_unstarted : delivery;
  sc_cut_succeed : delivery;
  sc_cut_fail : delivery;
  sc_hide_heartbeat : bool;
  sc_hide_capacity : bool;
  sc_cut_release : delivery
}.

(** ** The heartbeat tasks *)

(** How the tasks ended, if they did. *)
Record lease_tasks := { hb_error : option exn; cap_error : option exn }.
Definition tasks_alive : lease_tasks := {| hb_error := None; cap_error := None |}.

(** [for lease_task in (heartbeat_task, capacity_task)]: the first that failed. *)
Definition first_error (t : lease_tasks) : option exn :=
  match hb_error t with Some e => Some e | None => cap_error t end.

Section RunOnce.
  Context (wk : DurableWorker) (sc : script).

Definition take_turn (job : ExecutionJob F V) (token : string)
    (lease : option (DomainCapacityController F * DomainCapacityReservation))
    (ev : turn) (t : lease_tasks) : M world lease_tasks :=
  match ev with
  | Beat now => fun w =>
      match hb_error t with
      | Some _ => (Ok t, w)
      | None =>
          match on_store (heartbeat now (job_id job) (wk_id wk) token (wk_lease_seconds wk)) w with
          | (Ok _, w') => (Ok t, w')
          | (Raise e, w') => (Ok {| hb_error := Some e; cap_error := cap_error t |}, w')
          end
      end
  | CapacityBeat now => fun w =>
      match lease, cap_error t with
      | Some (c, r), None =>
          match on_cap (controller_renew c now r) w with
          | (Ok _, w') => (Ok t, w')
          | (Raise e, w') => (Ok {| hb_error := hb_error t; cap_error := Some e |}, w')
          end
      | _, _ => (Ok t, w)
      end
  | StoreOps f => fun w => (Ok t, {| w_store := f (w_store w); w_cap := w_cap w |})
  | CapacityOps f => fun w => (Ok t, {| w_store := w_store w; w_cap := f (w_cap w) |})
  end.

Fixpoint take_turns (job : ExecutionJob F V) (token : string)
    (lease : option (DomainCapacityController F * DomainCapacityReservation))
    (evs : list turn) (t : lease_tasks) : M world lease_tasks :=
  match evs with
  | [] => mret t
  | ev :: evs' => t' ← take_turn job token lease ev t; take_turns job token lease evs' t'
  end.

(** [except (JobLeaseLostError, DomainCapacityLeaseLostError): raise], [except Exception]. *)
Definition lease_lost (e : exn) : bool :=
  bool_decide (exn_kind e = JobLeaseLostError) || bool_decide (exn_kind e = DomainCapacityLeaseLostError).

Definition record_failure (job : ExecutionJob F V) (token name : string) (e : exn) : M world (option (ExecutionJob F V)) :=
  if bool_decide (exn_kind e = CancelledError) || lease_lost e then fun w => (Raise e, w)
  else j ← awaited (sc_cut_fail sc) (on_store (fail (sc_record_now sc) (job_id job) (wk_id wk) token name)); mret (Some j).

(** From the completion of a task to the end of the [except] clauses. *)
Definition settle_handler (job : ExecutionJob F V) (token : string)
    (lease : option (DomainCapacityController F * DomainCapacityReservation)) (t : lease_tasks)
    : world -> (res (option (ExecutionJob F V)) * lease_tasks) * world := fun w =>
  let without_turns (m : M world (option (ExecutionJob F V))) := let (r, w') := m w in ((r, t), w') in
  match sc_ending sc with
  | Interrupted (HRaised _ e) => ((Raise e, t), w)
  | Interrupted _ => ((raise CancelledError "", t), w)
  | Finished h =>
      match first_error t, h with
      | Some _, HRaised name e => without_turns (record_failure job token name e)
      | Some e, _ => without_turns (record_failure job token (class_name (exn_kind e)) e)
      | None, HCancelled => ((raise CancelledError "", t), w)
      | None, HRaised name e => without_turns (record_failure job token name e)
      | None, HReturned v =>
          match take_turns job token lease (sc_before sc) t w with
          | (Ok t', w1) =>
              match awaited (sc_cut_succeed sc) (on_store (succeed (sc_record_now sc) (job_id job) (wk_id wk) token v)) w1 with
              | (Ok j, w2) => ((Ok (Some j), t'), w2)
              | (Raise e, w2) =>
                  let (r, w3) := record_failure job token (class_name (exn_kind e)) e w2 in ((r, t'), w3)
              end
          | (Raise e, w1) => ((Raise e, t), w1)
          end
      end
  end.

(** What awaiting a heartbeat task in [finally] raises: what it had raised before, or raises
    as it ends, unless a cancellation hides that. *)
Definition surfaced (hidden : bool) (before after : option exn) : option exn :=
  match before with
  | Some e => Some e
  | None => if hidden then None else after
  end.

(** [finally], where the tasks had ended as in [t] before and as in [t'] after it cancelled
    them: what a task raises replaces the outcome. *)
Definition release_leases (lease : option (DomainCapacityController F * DomainCapacityReservation))
    (outcome : res (option (ExecutionJob F V))) (t t' : lease_tasks) : M world (option (ExecutionJob F V)) := fun w =>
  match surfaced (sc_hide_heartbeat sc) (hb_error t) (hb_error t') with
  | Some e => (Raise e, w)
  | None =>
      match surfaced (sc_hide_capacity sc) (cap_error t) (cap_error t') with
      | Some e => (Raise e, w)
      | None =>
          match lease with
          | Some (_, r) =>
              match awaited (sc_cut_release sc) (on_cap (fun b => (Ok tt, controller_release r b))) w with
              | (Ok _, w') => (outcome, w')
              | (Raise e, w') => (Raise e, w')
              end
          | None => (outcome, w)
          end
      end
  end.

(** From the start of the handler. *)
Definition execute (job : ExecutionJob F V) (token : string)
    (lease : option (DomainCapacityController F * DomainCapacityReservation)) : M world (option (ExecutionJob F V)) := fun w =>
  match take_turns job token lease (sc_during sc) tasks_alive w with
  | (Ok t, w1) =>
      let '((outcome, t2), w2) := settle_handler job token lease t w1 in
      match take_turns job token lease (sc_after sc) t2 w2 with
      | (Ok t3, w3) => release_leases lease outcome t2 t3 w3
      | (Raise e, w3) => (Raise e, w3)
      end
  | (Raise e, w1) => (Raise e, w1)
  end.

(** [_release_unstarted]. *)
Definition release_unstarted (job : ExecutionJob F V) (token : string) : M world (option (ExecutionJob F V)) :=
  j ← awaited (sc_cut_unstarted sc)
        (on_store (release_unstarted_claim (sc_record_now sc) (job_id job) (wk_id wk) token (wk_requeue_delay wk)));
  mret (Some j).

(** The capacity when the wait for it is cancelled in round [i + rounds]; [None] when the wait
    ends before. *)
Fixpoint acquire_cut (rounds i : nat) (carried : bool) (c : DomainCapacityController F) (limit : Z)
    (r : DomainCapacityReservation) (deadline : F) (b : B) : option B :=
  let b1 := env (sc_waiting sc) i b in
  let (d, b2) := be_reserve (reserve_at (sc_waiting sc) i) r (global_limit (policy c)) limit
                   (emergency_reserve (policy c)) (lease_seconds c) b1 in
  match rounds with
  | O => Some (if carried then b2 else b1)
  | S n =>
      if admitted d || f_leb deadline (check_at (sc_waiting sc) i) then None
      else acquire_cut n (S i) carried c limit r deadline b2
  end.

(** [await self._capacity.acquire(domain, priority)]. *)
Definition acquire_awaited (c : DomainCapacityController F) (job : ExecutionJob F V) (b : B)
    : option (res DomainCapacityReservation * B) :=
  let d := domain (spec job) in
  let waited := acquire (sc_fuel sc) c (sc_waiting sc) (sc_start sc) (sc_lease_id sc) d (priority (spec job)) b in
  match sc_cut_acquire sc, limit_for (policy c) d with
  | Some (rounds, carried), Ok l =>
      match acquire_cut rounds 0 carried c l
              {| lease_id := sc_lease_id sc; res_domain := d; res_priority := priority (spec job) |}
              (f_add (sc_start sc) (wait_seconds c)) b with
      | Some b' => Some (raise CancelledError "", b')
      | None => waited
      end
  | _, _ => waited
  end.

(** [run_once]; [None] when the fuel for the wait for capacity does not suffice. *)
Definition run_once (w : world) : option (res (option (ExecutionJob F V)) * world) :=
  let claim_domains := if wk_unfiltered wk then None else Some (wk_handlers wk) in
  match awaited (sc_cut_claim sc)
          (on_store (claim (sc_claim_now sc) (sc_token sc) (wk_id wk) (wk_lease_seconds wk) claim_domains)) w with
  | (Raise e, w1) => Some (Raise e, w1)
  | (Ok None, w1) => Some (Ok None, w1)
  | (Ok (Some job), w1) =>
      if negb (bool_decide (domain (spec job) ∈ wk_handlers wk)) then
        Some (raise RuntimeError ("unfiltered durable worker claimed unsupported domain: " +:+ domain (spec job)), w1)
      else
        match lease_token job with
        | None => Some (raise JobLeaseLostError ("claimed job has no lease token: " +:+ job_id job), w1)
        | Some token =>
            match wk_capacity wk with
            | None => Some (execute job token None w1)
            | Some c =>
                match acquire_awaited c job (w_cap w1) with
                | None => None
                | Some (acquired, b) =>
                    let w2 := {| w_store := sc_meanwhile sc (w_store w1); w_cap := b |} in
                    match acquired with
                    | Ok r => Some (execute job token (Some (c, r)) w2)
                    | Raise e =>
                        if bool_decide (exn_kind e = DomainCapacitySaturatedError)
                        then Some (release_unstarted job token w2)
                        else Some (Raise e, w2)
                    end
                end
            end
        end
  end.
End RunOnce.
End Worker.
Arguments DurableWorker F : clear implicits.
Arguments world F V B : clear implicits.
Arguments script F V B : clear implicits.
Arguments turn F V B : clear implicits.

(** * Properties of the worker

    What one [run_once] does to the store and to the capacity, whatever others do meanwhile:
    it is a lawful client of both, an attempt is consumed exactly when the handler starts, and
    the reservation is given back unless a heartbeat failed. *)
Section Props.
  Context {F V B : Type} `{PyFloatLaws F} `{!EqDecision V} `{!CapacityBackend F B} `{!CapacityBackendLaws F B}.
  Implicit Types (s : Store F V) (w : world F V B) (job : ExecutionJob F V) (ev : turn F V B).

(** ** Relying on the others *)

(** Operations that draw no token [t] lead from one store to the other. *)
Definition reaches (t : string) s s' : Prop :=
  exists tr, admissible_run tr s /\ never_draws t tr /\ s' = run tr s.
Definition lawful (t : string) (f : Store F V -> Store F V) : Prop := forall s, store_wf s -> reaches t s (f s).
Definition lawful_turn (t : string) ev : Prop := match ev with StoreOps f => lawful t f | _ => True end.

Record lawful_script (t : string) (sc : script F V B) : Prop := {
  ls_meanwhile : lawful t (sc_meanwhile sc);
  ls_during : Forall (lawful_turn t) (sc_during sc);
  ls_before : Forall (lawful_turn t) (sc_before sc);
  ls_after : Forall (lawful_turn t) (sc_after sc)
}.
Lemma admissible_run_app tr1 tr2 s :
  admissible_run tr1 s -> admissible_run tr2 (run tr1 s) -> admissible_run (tr1 ++ tr2) s.
Proof.
  revert s. induction tr1 as [|[now o] tr1 IH]; intros s; [done|]. cbn. intros [Ha Hr] H2'. split; [done|]. by apply IH.
Qed.
Lemma run_app tr1 tr2 s : run (tr1 ++ tr2) s = run tr2 (run tr1 s).
Proof. revert s. induction tr1 as [|[now o] tr1 IH]; intros s; [done|]. apply IH. Qed.

Lemma reaches_refl t s : reaches t s s.
Proof. exists []. split_and!; [done|by apply Forall_nil|done]. Qed.
Lemma reaches_trans t s1 s2 s3 : reaches t s1 s2 -> reaches t s2 s3 -> reaches t s1 s3.
Proof.
  intros (tr1 & A1 & N1 & ->) (tr2 & A2 & N2 & ->). exists (tr1 ++ tr2).
  split_and!; [by apply admissible_run_app|by apply Forall_app|by rewrite run_app].
Qed.
Lemma reaches_op t now o s :
  match o with OpSubmit _ _ => False | _ => True end -> drawn_by o <> Some t -> reaches t s (exec now o s).
Proof.
  intros Ho Hd. exists [(now, o)]. split_and!; [|by apply Forall_singleton|done].
  cbn. split; [by destruct o|done].
Qed.
Lemma reaches_wf t s s' : store_wf s -> reaches t s s' -> store_wf s'.
Proof. intros Hwf (tr & Ha & _ & ->). by apply run_wf. Qed.

(** What holds of a job under a token goes on holding, as long as nobody draws it. *)
Lemma reaches_job t s s' id j (P : ExecutionJob F V -> Prop) :
  (forall d j j', d <> Some t -> P j -> job_step d j j' -> P j') ->
  store_wf s -> reaches t s s' -> jobs s !! id = Some j -> P j ->
  exists j', jobs s' !! id = Some j' /\ P j'.
Proof.
  intros HP Hwf (tr & Ha & Hn & ->) Hj Hp.
  exact (run_job_invariant P (fun o => drawn_by o <> Some t) tr s id j (fun o j1 j2 Hq => HP (drawn_by o) j1 j2 Hq) Hn Hwf Ha Hj Hp).
Qed.

(** ** What the worker does *)

Section RunOnce.
  Context (wk : DurableWorker F) (sc : script F V B) (t : string).
  Context (job : ExecutionJob F V) (token : string)
    (lease : option (DomainCapacityController F * DomainCapacityReservation)).

Lemma on_store_effect {A} (m : M (Store F V) A) w r w' :
  on_store m w = (r, w') -> w_store w' = snd (m (w_store w)) /\ r = fst (m (w_store w)) /\ w_cap w' = w_cap w.
Proof. unfold on_store. destruct (m (w_store w)). by intros [= <- <-]. Qed.

Lemma take_turn_Ok ev tk w : exists tk' w', take_turn wk job token lease ev tk w = (Ok tk', w').
Proof. destruct ev; cbn; repeat case_match; eauto. Qed.

Lemma take_turns_Ok evs tk w : exists tk' w', take_turns wk job token lease evs tk w = (Ok tk', w').
Proof.
  revert tk w. induction evs as [|ev evs IH]; intros tk w; cbn; [eauto|].
  destruct (take_turn_Ok ev tk w) as (tk1 & w1 & E). unfold mbind, M_bind. rewrite E. apply IH.
Qed.

Lemma take_turn_reaches ev tk w r w' :
  lawful_turn t ev -> store_wf (w_store w) -> take_turn wk job token lease ev tk w = (r, w') ->
  reaches t (w_store w) (w_store w').
Proof.
  intros Hl Hwf E. destruct ev as [now|now|f|f]; cbn in E.
  - destruct (hb_error tk); [injection E as <- <-; apply reaches_refl|].
    destruct (on_store _ w) as [x w1] eqn:Es. apply on_store_effect in Es as (Es & _ & _).
    assert (w' = w1) as -> by (destruct x; by injection E). rewrite Es.
    by apply (reaches_op t now (OpHeartbeat (job_id job) (wk_id wk) token (wk_lease_seconds wk))).
  - assert (w_store w' = w_store w) as ->; [|apply reaches_refl].
    unfold on_cap in E. repeat case_match; simplify_eq/=; done.
  - injection E as <- <-. by apply Hl.
  - injection E as <- <-. apply reaches_refl.
Qed.

Lemma take_turns_reaches evs tk w r w' :
  Forall (lawful_turn t) evs -> store_wf (w_store w) -> take_turns wk job token lease evs tk w = (r, w') ->
  reaches t (w_store w) (w_store w').
Proof.
  intros Hl. revert tk w. induction Hl as [|ev evs Hev Hl IH]; intros tk w Hwf E; cbn in E.
  - injection E as <- <-. apply reaches_refl.
  - unfold mbind, M_bind in E. destruct (take_turn_Ok ev tk w) as (tk1 & w1 & E1). rewrite E1 in E.
    pose proof (take_turn_reaches ev tk w _ _ Hev Hwf E1) as Hr.
    eapply reaches_trans; [exact Hr|]. eapply IH; [exact (reaches_wf _ _ _ Hwf Hr)|exact E].
Qed.

(** A request that is awaited: it returns what it returns, or the task is cancelled. *)
Lemma awaited_effect {A} d (m : M (Store F V) A) w r w' :
  awaited d (on_store m) w = (r, w') ->
  w_cap w' = w_cap w /\
  (r = fst (m (w_store w)) /\ w_store w' = snd (m (w_store w)) \/
   r = raise CancelledError "" /\ (w_store w' = w_store w \/ w_store w' = snd (m (w_store w)))).
Proof.
  unfold awaited, on_store. destruct (m (w_store w)) as [x s]; destruct d; intros [= <- <-]; cbn; auto.
Qed.

Lemma record_failure_cap name e w x w' : record_failure wk sc job token name e w = (x, w') -> w_cap w' = w_cap w.
Proof.
  unfold record_failure, mbind, M_bind. case_match; [by intros [= <- <-]|].
  destruct (awaited _ _ w) as [z w1] eqn:Es. apply awaited_effect in Es as (Ec & _).
  by destruct z; intros [= <- <-].
Qed.
End RunOnce.

(** ** Attempts *)

(** While the job is held under [t], this is its attempt [a]. *)
Definition attempt_under (t : string) (a : Z) job : Prop := lease_token job = Some t -> attempt job = a.

Lemma attempt_under_stable t a d j j' :
  d <> Some t -> attempt_under t a j -> job_step d j j' -> attempt_under t a j'.
Proof.
  unfold attempt_under. intros Hd Hp Hs Ht. destruct Hs; unfold unleased in *; [by apply Hp|..];
    first [exfalso; intuition congruence|etrans; [eassumption|]; apply Hp; intuition congruence].
Qed.

(** What a request under a lease returns, when it returns. *)
Definition ends_attempt (t : string) s (id : string) (j : ExecutionJob F V) : Prop :=
  exists j0, jobs s !! id = Some j0 /\ lease_token j0 = Some t /\ attempt j = attempt j0 /\ job_id j = job_id j0 /\
    unleased j /\ status j <> QUEUED.

Lemma lease_token_of (j : ExecutionJob F V) wid t now : lease_active j wid t now = true -> lease_token j = Some t /\ status j = RUNNING.
Proof. by intros (? & _ & ? & _)%lease_active_running. Qed.

Lemma succeed_reply now id wid t v s (j : ExecutionJob F V) s' : succeed now id wid t v s = (Ok j, s') -> ends_attempt t s id j.
Proof.
  unfold succeed. intros E. run_op; match goal with Hl : lease_active _ _ _ _ = true |- _ => apply lease_token_of in Hl as [Ht Hr] end;
    (eexists; split_and!; [first [eassumption|reflexivity]|exact Ht|..]); try done;
    unfold expire_deadline, deadline_expired in *; rewrite Hr; cbn; repeat (case_match; cbn); try done; to_prop; congruence.
Qed.

Lemma fail_reply now id wid t e s (j : ExecutionJob F V) s' : fail now id wid t e s = (Ok j, s') -> ends_attempt t s id j.
Proof.
  unfold fail. intros E. run_op; match goal with Hl : lease_active _ _ _ _ = true |- _ => apply lease_token_of in Hl as [Ht Hr] end;
    (eexists; split_and!; [first [eassumption|reflexivity]|exact Ht|..]); done.
Qed.

Lemma release_reply now id wid t d s (j : ExecutionJob F V) s' : release_unstarted_claim now id wid t d s = (Ok j, s') ->
  exists j0, jobs s !! id = Some j0 /\ lease_token j0 = Some t /\ attempt j = Z.max (attempt j0 - 1) 0 /\ job_id j = job_id j0 /\
    unleased j /\ status j = QUEUED.
Proof.
  unfold release_unstarted_claim. intros E. run_op;
    match goal with Hl : lease_active _ _ _ _ = true |- _ => apply lease_token_of in Hl as [Ht Hr] end;
    (eexists; split_and!; [first [eassumption|reflexivity]|exact Ht|..]); done.
Qed.

Lemma claim_reply now t wid l ds s (j : ExecutionJob F V) s' : store_wf s -> claim now t wid l ds s = (Ok (Some j), s') ->
  exists j0, jobs s !! job_id j = Some j0 /\ attempt j = attempt j0 + 1 /\ 0 <= attempt j0 /\ lease_token j = Some t /\
    jobs s' !! job_id j = Some j.
Proof.
  intros Hwf E. unfold claim in E. cbv [lift reject_if ensure mbind M_bind modify gets mret M_ret save raise] in E.
  destruct (blank wid); [done|]. destruct (f_leb l f_zero); [done|]. cbn -[candidates expire_deadlines] in E.
  destruct (candidates now ds (expire_deadlines now s)) as [|j1 rest] eqn:Ec; [done|]. injection E as <- <-.
  apply candidates_head in Ec as (id & j0 & Hj0 & -> & Hcl & _).
  destruct (wf_jobs _ Hwf id j0 Hj0) as (<- & _ & Hs). exists j0. cbn. rewrite lookup_insert_eq.
  split_and!; try done. by destruct (status j0); try done; destruct Hs as [_ Hs]; lia.
Qed.

Section Attempts.
  Context (wk : DurableWorker F) (sc : script F V B).
  Context (job : ExecutionJob F V) (token : string)
    (lease : option (DomainCapacityController F * DomainCapacityReservation)).

(** A job returned by [execute] is the reply of the store to [succeed] or [fail]. *)
Lemma execute_reply w j w' :
  lawful_script token sc -> store_wf (w_store w) -> execute wk sc job token lease w = (Ok (Some j), w') ->
  exists s1, reaches token (w_store w) s1 /\ ends_attempt token s1 (job_id job) j.
Proof.
  intros Hl Hwf. unfold execute.
  destruct (take_turns_Ok wk job token lease (sc_during sc) tasks_alive w) as (tk1 & w1 & E1). rewrite E1.
  pose proof (take_turns_reaches wk token job token lease _ _ _ _ _ (ls_during _ _ Hl) Hwf E1) as Hr1.
  destruct (settle_handler wk sc job token lease tk1 w1) as [[outcome tk2] w2] eqn:E2.
  destruct (take_turns_Ok wk job token lease (sc_after sc) tk2 w2) as (tk3 & w3 & E3). rewrite E3. intros E4.
  assert (outcome = Ok (Some j)) as ->.
  { unfold release_leases in E4. repeat case_match; simplify_eq/=; done. }
  assert (forall name e wa x wb, record_failure wk sc job token name e wa = (Ok (Some x), wb) ->
    ends_attempt token (w_store wa) (job_id job) x) as Hfail.
  { intros name e wa x wb. unfold record_failure, mbind, M_bind. case_match; [done|].
    destruct (awaited _ _ wa) as [z wc] eqn:Es. apply awaited_effect in Es as (_ & [[Er _]|[-> _]]); [|done].
    destruct z as [z|]; [|done]. intros [= <- <-].
    destruct (fail (sc_record_now sc) (job_id job) (wk_id wk) token name (w_store wa)) as [y s'] eqn:Ef. cbn in Er. subst y.
    eapply fail_reply; exact Ef. }
  assert (forall name e wa tka tkb x wb, (let (r, w') := record_failure wk sc job token name e wa in ((r, tka : lease_tasks), w')) =
      ((Ok (Some x), tkb), wb) -> ends_attempt token (w_store wa) (job_id job) x) as Hfail'.
  { intros name e wa tka tkb x wb. destruct (record_failure _ _ _ _ _ _ wa) as [z wc] eqn:Ez. intros [= -> <- <-].
    eapply Hfail; exact Ez. }
  unfold settle_handler in E2. destruct (sc_ending sc) as [h|h]; [|by destruct h].
  destruct (first_error tk1), h; try (by exists (w_store w1); split; [done|eapply Hfail'; exact E2]); [|done].
  destruct (take_turns_Ok wk job token lease (sc_before sc) tk1 w1) as (tkb & wb & Eb). rewrite Eb in E2.
  pose proof (take_turns_reaches wk token job token lease _ _ _ _ _ (ls_before _ _ Hl) (reaches_wf _ _ _ Hwf Hr1) Eb) as Hrb.
  pose proof (reaches_trans _ _ _ _ Hr1 Hrb) as Hr1b.
  destruct (awaited _ _ wb) as [y wc] eqn:Es. apply awaited_effect in Es as (_ & [[Er Es]|[-> _]]).
  2:{ by vm_compute in E2. }
  destruct (succeed (sc_record_now sc) (job_id job) (wk_id wk) token v (w_store wb)) as [x s'] eqn:Ex. cbn in Er, Es. subst y.
  destruct x as [x|e].
  - injection E2 as -> <- <-. exists (w_store wb). split; [done|]. eapply succeed_reply; exact Ex.
  - exists (w_store wc). split; [|eapply Hfail'; exact E2]. eapply reaches_trans; [exact Hr1b|].
    replace (w_store wc) with (exec (sc_record_now sc) (OpSucceed (job_id job) (wk_id wk) token v) (w_store wb)) by (cbn; by rewrite Ex).
    by apply reaches_op.
Qed.
End Attempts.

(** The handler of [job] runs in the world [w]: the reply has one attempt more than [j0]. *)
Definition started wk (sc : script F V B) (job j0 j : ExecutionJob F V) lease w w' : Prop :=
  execute wk sc job (sc_token sc) lease w = (Ok (Some j), w') /\ status j <> QUEUED /\ attempt j = attempt j0 + 1.

(** [job] is given back to the store [s] without a start: queued, with the attempts of [j0]. *)
Definition given_back wk (sc : script F V B) (job j0 j : ExecutionJob F V) s b w' : Prop :=
  release_unstarted_claim (sc_record_now sc) (job_id job) (wk_id wk) (sc_token sc) (wk_requeue_delay wk) s
    = (Ok j, w_store w') /\ w_cap w' = b /\ status j = QUEUED /\ attempt j = attempt j0.

Definition claim_domains (wk : DurableWorker F) : option (list string) :=
  if wk_unfiltered wk then None else Some (wk_handlers wk).

(** C19. An attempt is consumed exactly when the handler starts.  When [run_once] returns a
    job, it is the one it claimed, no longer leased.  If the capacity was refused, the claim
    was given back, and nothing else was done: the job is queued again with the attempts it
    had before.  If capacity was granted, or none is asked for, the handler ran, and the
    job has one attempt more and another status.  Whatever the other workers did in
    between. *)
Theorem worker_consumes_attempts_by_starting wk sc w j w' :
  store_wf (w_store w) -> lawful_script (sc_token sc) sc -> run_once wk sc w = Some (Ok (Some j), w') ->
  exists job s1 j0,
    claim (sc_claim_now sc) (sc_token sc) (wk_id wk) (wk_lease_seconds wk) (claim_domains wk) (w_store w)
      = (Ok (Some job), s1) /\
    job_id j = job_id job /\ jobs (w_store w) !! job_id job = Some j0 /\ unleased j /\
    match wk_capacity wk with
    | None => started wk sc job j0 j None {| w_store := s1; w_cap := w_cap w |} w'
    | Some c =>
        exists acquired b, acquire_awaited sc c job (w_cap w) = Some (acquired, b) /\
        match acquired with
        | Ok r => started wk sc job j0 j (Some (c, r)) {| w_store := sc_meanwhile sc s1; w_cap := b |} w'
        | Raise e => exn_kind e = DomainCapacitySaturatedError /\ given_back wk sc job j0 j (sc_meanwhile sc s1) b w'
        end
    end.
Proof.
  intros Hwf Hl. unfold run_once. fold (claim_domains wk). destruct (awaited _ _ w) as [x w1] eqn:E1.
  apply awaited_effect in E1 as (Ec & [[Ex E1]|[-> _]]); [|done]. destruct x as [[job|]|e]; [|done|done].
  pose proof E1 as E1'. destruct (claim _ _ _ _ _ (w_store w)) as [y s1] eqn:Ecl in E1, Ex. cbn in E1, Ex. subst y.
  pose proof Ecl as Ecl'. apply claim_reply in Ecl as (j0 & Hj0 & Hat & H0' & Htok & Hj1); [|done]. rewrite -E1 in Hj1.
  assert (store_wf (w_store w1)) as Hwf1.
  { rewrite E1'. by apply (exec_wf (sc_claim_now sc) (OpClaim (sc_token sc) (wk_id wk) (wk_lease_seconds wk)
      (claim_domains wk))). }
  destruct w1 as [s1' b1]. cbn in Ec, E1, Hwf1, Hj1. subst s1' b1.
  assert (forall s, reaches (sc_token sc) s1 s -> forall j', jobs s !! job_id job = Some j' ->
    lease_token j' = Some (sc_token sc) -> attempt j' = attempt job) as Hheld.
  { intros s Hr j' Hj' Ht.
    destruct (reaches_job (sc_token sc) _ s (job_id job) job (attempt_under (sc_token sc) (attempt job))
      (fun d j1 j2 => attempt_under_stable _ _ d j1 j2) Hwf1 Hr Hj1) as (j2 & Hj2 & Ha); [by intros _|].
    rewrite Hj' in Hj2. injection Hj2 as <-. by apply Ha. }
  assert (forall lease s b, reaches (sc_token sc) s1 s ->
    execute wk sc job (sc_token sc) lease {| w_store := s; w_cap := b |} = (Ok (Some j), w') ->
    job_id j = job_id job /\ unleased j /\ started wk sc job j0 j lease {| w_store := s; w_cap := b |} w') as Hstart.
  { intros lease s b Hr E. pose proof (reaches_wf _ _ _ Hwf1 Hr) as Hwf2.
    destruct (execute_reply wk sc job _ _ {| w_store := s; w_cap := b |} j w' Hl Hwf2 E) as (s2 & Hr2 & (j' & Hj' & Ht & Ha & Eid & Hu & Hs)).
    pose proof (reaches_trans _ _ _ _ Hr Hr2) as Hr12.
    pose proof (Hheld s2 Hr12 j' Hj' Ht) as Ha'. destruct (wf_jobs _ (reaches_wf _ _ _ Hwf1 Hr12) _ _ Hj') as [Ej _].
    split_and!; [congruence|done|]. split_and!; [done|done|congruence]. }
  intros E. exists job, s1, j0. split; [done|]. revert E.
  destruct (negb _); [done|]. rewrite Htok. destruct (wk_capacity wk) as [c|].
  - cbn [w_cap]. destruct (acquire_awaited sc c job (w_cap w)) as [[acquired b]|] eqn:Ea; [|done].
    pose proof (ls_meanwhile _ _ Hl s1 Hwf1) as Hr2. cbn [w_store].
    destruct acquired as [rv|e]; [|case_bool_decide as Ek; [|done]].
    + intros [= E]. apply Hstart in E as (? & ? & ?); [|done]. split_and!; try done. by exists (Ok rv), b.
    + intros [= E]. unfold release_unstarted, mbind, M_bind in E.
      destruct (awaited _ _ _) as [x w3] eqn:E3. apply awaited_effect in E3 as (Ecap & [[Ex E3]|[-> _]]); [|done].
      destruct x as [x|]; [|done]. injection E as -> <-. cbn in Ecap, Ex, E3.
      destruct (release_unstarted_claim _ _ _ _ _ _) as [y s2] eqn:Er. cbn in Ex, E3. subst y.
      pose proof Er as Er'. apply release_reply in Er as (j' & Hj' & Ht & Ha & Eid & Hu & Hs).
      pose proof (Hheld _ Hr2 j' Hj' Ht) as Ha'. destruct (wf_jobs _ (reaches_wf _ _ _ Hwf1 Hr2) _ _ Hj') as [Ej _].
      split_and!; [congruence|done|done|]. exists (Raise e), b. split_and!; [done|done|].
      rewrite -E3 in Er'. split_and!; [done|done|done|lia].
  - intros [= E]. apply Hstart in E as (? & ? & ?); [done|apply reaches_refl].
Qed.

(** ** The reservation *)

Section Reservation.
  Context (wk : DurableWorker F) (sc : script F V B) (job : ExecutionJob F V) (token : string).
  Context (c : DomainCapacityController F) (r : DomainCapacityReservation).

(** C40. A failed heartbeat keeps the reservation.  When the heartbeat of the job has failed,
    because its lease was lost or its deadline has passed, [run_once] raises that failure and
    the capacity is left as it was: the reservation stays until its own lease lapses. *)
Theorem failed_heartbeat_keeps_the_reservation w tk w1 e :
  take_turns wk job token (Some (c, r)) (sc_during sc) tasks_alive w = (Ok tk, w1) -> hb_error tk = Some e ->
  sc_after sc = [] ->
  exists w', execute wk sc job token (Some (c, r)) w = (Raise e, w') /\ w_cap w' = w_cap w1.
Proof.
  intros E1 He Ha. unfold execute. rewrite E1 Ha. cbn [take_turns].
  assert (first_error tk = Some e) as Ef by (unfold first_error; by rewrite He).
  assert (exists x w2, settle_handler wk sc job token (Some (c, r)) tk w1 = (x, tk, w2) /\ w_cap w2 = w_cap w1) as (x & w2 & -> & Ec).
  { assert (forall name e', exists x w2, (let (r, w') := record_failure wk sc job token name e' w1 in ((r, tk), w')) = ((x, tk), w2) /\
      w_cap w2 = w_cap w1) as Hf.
    { intros name e'. destruct (record_failure wk sc job token name e' w1) as [x w2] eqn:Er. exists x, w2. split; [done|].
      eapply record_failure_cap; exact Er. }
    unfold settle_handler. rewrite Ef. destruct (sc_ending sc) as [h|h]; destruct h; eauto. }
  exists w2. split; [|done]. unfold release_leases. cbn. by rewrite He.
Qed.
End Reservation.
End Props.

(** ** Concrete workers *)

Definition ex_worker : DurableWorker Z :=
  {| wk_id := "alice"; wk_handlers := ["reports"]; wk_lease_seconds := 10; wk_interval := 4; wk_capacity := Some w_controller;
     wk_capacity_interval := 5; wk_requeue_delay := 1; wk_unfiltered := false |}.
Definition ex_world : world Z Z (Leases Z) :=
  {| w_store := run [(0, OpSubmit "j1" w_spec)] empty_store; w_cap := ∅ |}.
(** The lease of the job is renewed at 5, the one of the capacity at 6. *)
Definition ex_script (during : list (turn Z Z (Leases Z))) (now : Z) : script Z Z (Leases Z) :=
  {| sc_claim_now := 1; sc_token := "t1"; sc_meanwhile := id; sc_fuel := 5;
     sc_waiting := {| env := fun _ => id; reserve_at := fun i => 2 + Z.of_nat i; check_at := fun i => 3 + Z.of_nat i |};
     sc_start := 2; sc_lease_id := "lease"; sc_during := during; sc_ending := Finished (HReturned (Some 42));
     sc_before := []; sc_record_now := now; sc_after := [];
     sc_cut_claim := Proceeds; sc_cut_acquire := None; sc_cut_unstarted := Proceeds; sc_cut_succeed := Proceeds;
     sc_cut_fail := Proceeds; sc_hide_heartbeat := false; sc_hide_capacity := false; sc_cut_release := Proceeds |}.
Definition ex_quiet : script Z Z (Leases Z) := ex_script [Beat 5; CapacityBeat 6] 14.
(** The heartbeats come too late, after the lease of 10 seconds. *)
Definition ex_late : script Z Z (Leases Z) := ex_script [Beat 20] 21.

Definition ex_outcome (sc : script Z Z (Leases Z)) : option (res (option (JobStatus * Z)) * bool) :=
  match run_once ex_worker sc ex_world with
  | Some (r, w) => Some (match r with Ok j => Ok ((fun j : ExecutionJob Z Z => (status j, attempt j)) <$> j) | Raise e => Raise e end,
                         bool_decide (is_Some (w_cap w !! "lease")))
  | None => None
  end.

Example ex_runs : ex_outcome ex_quiet = Some (Ok (Some (SUCCEEDED, 1)), false) /\
  ex_outcome ex_late = Some (raise JobLeaseLostError "job lease is not active: j1", true).
Proof. vm_compute. done. Qed.

Lemma ex_lawful t during now : Forall (lawful_turn t) during -> lawful_script t (ex_script during now).
Proof. intros Hd. split; cbn; [intros s _; apply reaches_refl|done|by apply Forall_nil|by apply Forall_nil]. Qed.
Lemma ex_world_wf : store_wf (w_store ex_world).
Proof. apply run_wf; [apply empty_store_wf|]. repeat split; cbn; lia. Qed.

Lemma worker_consumes_attempts_by_starting_witness :
  match run_once ex_worker ex_quiet ex_world with
  | Some (Ok (Some j), w') => exists job s1 j0,
      claim 1 "t1" "alice" 10 (claim_domains ex_worker) (w_store ex_world) = (Ok (Some job), s1) /\
      job_id j = job_id job /\ jobs (w_store ex_world) !! job_id job = Some j0 /\ unleased j /\
      exists acquired b, acquire_awaited ex_quiet w_controller job (w_cap ex_world) = Some (acquired, b) /\
      match acquired with
      | Ok r => started ex_worker ex_quiet job j0 j (Some (w_controller, r)) {| w_store := s1; w_cap := b |} w'
      | Raise e => exn_kind e = DomainCapacitySaturatedError /\ given_back ex_worker ex_quiet job j0 j s1 b w'
      end
  | _ => False
  end.
Proof.
  assert (match run_once ex_worker ex_quiet ex_world with Some (Ok (Some j), _) => True | _ => False end) as Hr by (vm_compute; exact I).
  destruct (run_once ex_worker ex_quiet ex_world) as [[[[j|]|] w']|] eqn:E; [|destruct Hr|destruct Hr|destruct Hr].
  apply (worker_consumes_attempts_by_starting ex_worker ex_quiet ex_world j w' ex_world_wf); [|exact E].
  apply ex_lawful. repeat constructor.
Defined.

Definition ex_reservation : DomainCapacityReservation := {| lease_id := "lease"; res_domain := "reports"; res_priority := NORMAL |}.
Definition ex_claimed : ExecutionJob Z Z := w_job [(0, OpSubmit "j1" w_spec); (1, OpClaim "t1" "alice" 10 None)] "j1".
Definition ex_running : world Z Z (Leases Z) :=
  {| w_store := run [(0, OpSubmit "j1" w_spec); (1, OpClaim "t1" "alice" 10 None)] empty_store;
     w_cap := {[ "lease" := (32, "reports", NORMAL) ]} |}.

Lemma failed_heartbeat_keeps_the_reservation_witness :
  exists w', execute ex_worker ex_late ex_claimed "t1" (Some (w_controller, ex_reservation)) ex_running =
    (raise JobLeaseLostError "job lease is not active: j1", w') /\ w_cap w' = w_cap ex_running.
Proof.
  apply (failed_heartbeat_keeps_the_reservation ex_worker ex_late ex_claimed "t1" w_controller ex_reservation ex_running
    {| hb_error := Some (Exn JobLeaseLostError "job lease is not active: j1"); cap_error := None |} ex_running).
  - vm_compute. reflexivity.
  - reflexivity.
  - reflexivity.
Defined.
