(* ===== verification/MaestroUnits.v ===== *)
(** * Maestro units

    Models [processual_api/billing/maestro_units.py]: the unit rule of each
    endpoint, the normalisation of endpoints and metric names, and the number of
    units an endpoint is charged. *)
From S2P Require Import Prelude PyString.
From Stdlib Require Import Ascii.

Definition MAESTRO_UNIT_METRIC : string := "maestro_units".
Definition LEGACY_CREDIT_METRIC : string := "credits".
Definition LEGACY_CREDIT_ALIAS_RATIO : Z := 1.

Record MaestroUnitRule := {
  rule_path : string;
  rule_endpoint_class : string;
  rule_units : Z;
  rule_capability_code : option string;
  rule_free : bool;
  rule_variable : bool
}.

Definition MaestroUnitRule_post_init (r : MaestroUnitRule) : res unit :=
  _ ← ensure (startswith "/" (rule_path r)) ValueError
        "Maestro unit rule path must be absolute";
  _ ← reject_if (rule_units r <? 0) ValueError "Maestro units must not be negative";
  _ ← reject_if (rule_free r && negb (rule_units r =? 0)) ValueError
        "free Maestro unit rules must cost zero units";
  reject_if (rule_variable r && (rule_units r <=? 0)) ValueError
    "variable Maestro unit rules require a positive base unit cost".

Definition free_rule (p : string) : string * MaestroUnitRule :=
  (p, Build_MaestroUnitRule p "free_operational_check" 0 None true false).

Definition metered_rule (p cls : string) (units : Z) (cap : string) (variable : bool)
  : string * MaestroUnitRule :=
  (p, Build_MaestroUnitRule p cls units (Some cap) false variable).

Definition FREE_RULES : list (string * MaestroUnitRule) :=
  [ free_rule "/health/live";
    free_rule "/health/ready";
    free_rule "/adapters/status";
    free_rule "/cgt/govern/status";
    free_rule "/settings/subscription" ].

Definition METERED_RULES : list (string * MaestroUnitRule) :=
  [ metered_rule "/cgt/analyze" "analysis_evaluation" 1 "maestro_execution" false;
    metered_rule "/cgt/govern" "governance_evaluation" 1 "maestro_execution" false;
    metered_rule "/cgt/govern/batch" "batch_governance_evaluation" 1 "maestro_execution" true;
    metered_rule "/cgt/govern/compare" "governance_evaluation" 2 "enterprise_governance" false;
    metered_rule "/cgt/govern/report" "governance_evaluation" 3 "enterprise_governance" false;
    metered_rule "/cgt/govern/auto-repair" "governance_evaluation" 5
      "enterprise_governance" false;
    metered_rule "/reports/fate" "report_generation" 2 "maestro_execution" false;
    metered_rule "/reports/generate-llm" "report_generation" 5 "maestro_execution" false ].

(** [{**_FREE_RULES, **_METERED_RULES}]; the two have no key in common. *)
Definition MAESTRO_UNIT_RULES : list (string * MaestroUnitRule) := FREE_RULES ++ METERED_RULES.

Definition normalize_maestro_metric_code (metric_code : option string) : string :=
  let normalized := lower (strip (or_string metric_code "")) in
  if bool_decide (normalized ∈ [MAESTRO_UNIT_METRIC; LEGACY_CREDIT_METRIC])
  then MAESTRO_UNIT_METRIC else normalized.

Definition is_slash (c : ascii) : bool := Ascii.eqb c "/"%char.

Definition normalize_maestro_endpoint (endpoint : string) : string :=
  let path := or_string (Some (strip (before_char "?"%char (or_string (Some endpoint) "/")))) "/" in
  if (1 <? String.length path)%nat then rstrip_by is_slash path else path.

Definition maestro_unit_rule (endpoint : string) : option MaestroUnitRule :=
  dict_get MAESTRO_UNIT_RULES (normalize_maestro_endpoint endpoint).

(** [int(item_count or 1)]. *)
Definition item_count_or_1 (n : option Z) : Z :=
  match n with
  | Some k => if k =? 0 then 1 else k
  | None => 1
  end.

Definition maestro_units_for_endpoint (endpoint : string) (item_count : option Z) : Z :=
  match maestro_unit_rule endpoint with
  | None => 1
  | Some rule =>
      if rule_variable rule
      then Z.max (item_count_or_1 item_count) 1 * rule_units rule
      else rule_units rule
  end.

Definition maestro_endpoint_class (endpoint : string) : string :=
  let path := normalize_maestro_endpoint endpoint in
  match maestro_unit_rule path with
  | Some rule => rule_endpoint_class rule
  | None =>
      if startswith "/reports/" path then "report_generation"
      else if startswith "/cgt/govern" path then "governance_evaluation"
      else if startswith "/cgt/analyze" path then "analysis_evaluation"
      else "metered_api_request"
  end.

Definition maestro_capability_for_endpoint (endpoint : string) : option string :=
  rule ← maestro_unit_rule endpoint; rule_capability_code rule.

Definition is_maestro_metered_endpoint (endpoint : string) : bool :=
  match maestro_unit_rule endpoint with
  | Some rule => negb (rule_free rule) && (0 <? rule_units rule)
  | None => false
  end.

Definition credits_from_maestro_units (units : Z) : res Z :=
  _ ← reject_if (units <? 0) ValueError "Maestro units must not be negative";
  mret (units * LEGACY_CREDIT_ALIAS_RATIO).

#[global] Arguments MAESTRO_UNIT_RULES : simpl never.

(** ** Lemmas *)

(** The import of the module succeeds: every rule passes its own validation and is
    stored under its own path. *)
Definition rule_ok (p : string) (r : MaestroUnitRule) : bool :=
  is_ok (MaestroUnitRule_post_init r) && bool_decide (rule_path r = p) &&
  (if rule_free r then rule_units r =? 0 else 1 <=? rule_units r).

Lemma maestro_rules_ok : forallb (fun e => rule_ok e.1 e.2) MAESTRO_UNIT_RULES = true.
Proof. vm_compute. reflexivity. Qed.

Lemma maestro_rule_spec e r :
  maestro_unit_rule e = Some r ->
  rule_path r = normalize_maestro_endpoint e /\
  (if rule_free r then rule_units r = 0 else 1 <= rule_units r).
Proof.
  intros H. pose proof (dict_get_forallb _ _ _ _ maestro_rules_ok H) as Hok.
  unfold rule_ok in Hok. to_prop. split; [done|]. destruct (rule_free r); to_prop; done.
Qed.

(** Characters of a string. *)
Fixpoint has_char (c : ascii) (s : string) : bool :=
  match s with
  | EmptyString => false
  | String d s' => Ascii.eqb d c || has_char c s'
  end.

Lemma before_char_absent c s : has_char c s = false -> before_char c s = s.
Proof.
  induction s as [|d s IH]; cbn; [done|]. destruct (Ascii.eqb d c); [done|].
  intros H. by rewrite (IH H).
Qed.

(** Stripping only removes stripped characters. *)
Lemma has_char_lstrip p c s : p c = false -> has_char c (lstrip_by p s) = has_char c s.
Proof.
  intros Hp. induction s as [|d s IH]; [done|]. cbn [lstrip_by].
  destruct (p d) eqn:E; [|done]. rewrite IH. cbn.
  destruct (Ascii.eqb_spec d c) as [->|]; [congruence|done].
Qed.

Lemma has_char_rstrip p c s : p c = false -> has_char c (rstrip_by p s) = has_char c s.
Proof.
  intros Hp. induction s as [|d s IH]; [done|]. cbn. rewrite -IH.
  destruct (rstrip_by p s) as [|e r]; [|done]. destruct (p d) eqn:E; [|done]. cbn.
  destruct (Ascii.eqb_spec d c) as [->|]; [congruence|done].
Qed.

Lemma has_char_strip c s : is_space c = false -> has_char c (strip s) = has_char c s.
Proof. intros H. unfold strip. by rewrite has_char_rstrip // has_char_lstrip. Qed.

(** The number of units is never negative, and a free endpoint costs nothing. *)
Lemma maestro_units_nonneg e n : 0 <= maestro_units_for_endpoint e n.
Proof.
  unfold maestro_units_for_endpoint. destruct (maestro_unit_rule e) as [r|] eqn:E; [|lia].
  apply maestro_rule_spec in E as [_ E]. destruct (rule_free r), (rule_variable r); nia.
Qed.
