(* ===== verification/PlanCatalog.v ===== *)
(** * Plans, capabilities and entitlement decisions

    Models [processual_api/billing/plan_fulfillment_catalog.py],
    [plan_capability_matrix.py], [plan_entitlement_gate.py] and
    [usage_pricing.py]. *)
From S2P Require Import Prelude PyString MaestroUnits.

(** ** The fulfilment catalog *)

Definition PLAN_FULFILLMENT_CATALOG_VERSION : string := "2026-08-plan-fulfillment-v2".
Definition QUOTA_METRIC_CODE : string := MAESTRO_UNIT_METRIC.

Record PlanFulfillmentSpec := {
  spec_plan_code : string;
  spec_monthly_unit_allowance : Z;
  entitlement_codes : list string;
  seat_based_consumption : bool
}.

Definition PlanFulfillmentSpec_post_init (s : PlanFulfillmentSpec) : res unit :=
  _ ← reject_if (blank (spec_plan_code s)) ValueError "plan_code must not be blank";
  _ ← reject_if (spec_monthly_unit_allowance s <=? 0) ValueError
        "monthly_unit_allowance must be positive";
  _ ← reject_if (bool_decide (entitlement_codes s = [])) ValueError
        "entitlement_codes must not be empty";
  reject_if (seat_based_consumption s) ValueError
    "Maestro consumption must be quota based, not seat based".

Definition plan_spec (code : string) (allowance : Z) (codes : list string)
  : string * PlanFulfillmentSpec :=
  (code, Build_PlanFulfillmentSpec code allowance codes false).

Definition PLAN_FULFILLMENT_SPECS : list (string * PlanFulfillmentSpec) :=
  [ plan_spec "academic" 5000
      ["maestro_execution"; "byok_provider_connection"; "standard_support"; "academic_use"];
    plan_spec "starter" 10000
      ["maestro_execution"; "byok_provider_connection"; "standard_support"];
    plan_spec "enterprise_integration_starter" 50000
      ["maestro_execution"; "byok_provider_connection"; "business_support";
       "advanced_integration"; "enterprise_governance"];
    plan_spec "business" 100000
      ["maestro_execution"; "byok_provider_connection"; "business_support"];
    plan_spec "enterprise_pilot" 500000
      ["maestro_execution"; "byok_provider_connection"; "business_support";
       "enterprise_governance"];
    plan_spec "enterprise_core" 1500000
      ["maestro_execution"; "byok_provider_connection"; "business_support";
       "enterprise_governance"];
    plan_spec "enterprise_scale" 3000000
      ["maestro_execution"; "byok_provider_connection"; "business_support";
       "enterprise_governance"; "advanced_integration"];
    plan_spec "enterprise_strategic" 5000000
      ["maestro_execution"; "byok_provider_connection"; "business_support";
       "enterprise_governance"; "advanced_integration"] ].

Definition PLAN_CODE_ALIASES : list (string * string) :=
  [ ("pilot_starter", "starter");
    ("enterprise", "enterprise_pilot");
    ("enterprise_integration", "enterprise_pilot") ].

Definition normalize_plan_code (value : option string) : string :=
  let normalized := norm_code (or_string value "") in
  default normalized (dict_get PLAN_CODE_ALIASES normalized).

Definition get_plan_fulfillment_spec (plan_code : option string) : res PlanFulfillmentSpec :=
  let normalized := normalize_plan_code plan_code in
  match dict_get PLAN_FULFILLMENT_SPECS normalized with
  | Some s => mret s
  | None => raise KeyError
              ("unknown authoritative plan: " +:+ or_string (Some normalized) "(blank)")
  end.

(** [except KeyError: return 0]: the lookup raises no other class. *)
Definition monthly_unit_allowance (plan_code : option string) : Z :=
  match get_plan_fulfillment_spec plan_code with
  | Ok s => spec_monthly_unit_allowance s
  | Raise _ => 0
  end.

(** ** The capability matrix *)

Inductive CapabilityStatus := READY | SANDBOX_ONLY | INTERNAL_ONLY | NOT_EXPOSED.
#[export] Instance CapabilityStatus_eq_dec : EqDecision CapabilityStatus.
Proof. solve_decision. Defined.

Record ToolCapability := {
  capability_code : string;
  tool_entitlement_code : string;
  tool_status : CapabilityStatus;
  execution_surface : string;
  customer_executable : bool;
  production_allowed : bool;
  notes : string
}.

Record ExecutionCapabilityPolicy := {
  policy_method : string;
  policy_path : string;
  policy_capability_code : string;
  quota_metric : string;
  quota_cost : Z;
  production_required : bool
}.

Definition tool (code : string) (st : CapabilityStatus) (surface : string)
    (executable production : bool) (note : string) : string * ToolCapability :=
  (code, Build_ToolCapability code code st surface executable production note).

Definition TOOL_CAPABILITIES : list (string * ToolCapability) :=
  [ tool "maestro_execution" READY "/workflows and metered core execution surfaces" true true
      "Interactive governed execution uses the canonical Maestro Unit meter.";
    tool "durable_execution_internal" INTERNAL_ONLY "/internal/execution" false false
      "Durable execution is an internal control surface and not a customer plan entitlement.";
    tool "byok_provider_connection" READY "/settings/provider-connection/test" true true
      "Customer-owned provider credentials can be validated through the provider runtime.";
    tool "standard_support" NOT_EXPOSED "support_policy" false false
      "Support level is a service entitlement, not an executable API tool.";
    tool "business_support" NOT_EXPOSED "support_policy" false false
      "Support level is a service entitlement, not an executable API tool.";
    tool "enterprise_governance" READY
      "advanced governance comparison, reporting, and repair surfaces" true true
      "Advanced governance operations require an explicit enterprise-governance entitlement.";
    tool "advanced_integration" SANDBOX_ONLY "/settings/enterprise-integration" true false
      "Customer-specific qualification is available while production connectors remain disabled.";
    tool "academic_use" NOT_EXPOSED "usage_policy" false false
      "Academic-use classification is contractual metadata and has no distinct runtime tool gate yet." ].

Definition execution_policy (method path cap : string) (cost : Z)
  : (string * string) * ExecutionCapabilityPolicy :=
  ((method, path), Build_ExecutionCapabilityPolicy method path cap MAESTRO_UNIT_METRIC cost false).

Definition EXECUTION_CAPABILITY_POLICIES
  : list ((string * string) * ExecutionCapabilityPolicy) :=
  [ execution_policy "POST" "/cgt/govern" "maestro_execution" 1;
    execution_policy "POST" "/cgt/govern/compare" "enterprise_governance" 2;
    execution_policy "POST" "/cgt/govern/report" "enterprise_governance" 3;
    execution_policy "POST" "/cgt/govern/auto-repair" "enterprise_governance" 5 ].

Definition normalize_path (path : string) : string :=
  let normalized := or_string (Some (strip (or_string (Some path) ""))) "/" in
  if bool_decide (normalized = "/") then normalized else rstrip_by is_slash normalized.

Definition execution_policy_for_request (method path : string)
  : option ExecutionCapabilityPolicy :=
  dict_get EXECUTION_CAPABILITY_POLICIES
    (upper (or_string (Some method) ""), normalize_path path).

Definition required_execution_capability (method path : string) : option string :=
  policy_capability_code <$> execution_policy_for_request method path.

Definition execution_quota_cost (method path : string) : option (string * Z) :=
  (fun p => (quota_metric p, quota_cost p)) <$> execution_policy_for_request method path.

(** The loop over the entitlement codes. *)
Fixpoint capabilities_for_codes (codes : list string) : res (list ToolCapability) :=
  match codes with
  | [] => mret []
  | code :: codes' =>
      match dict_get TOOL_CAPABILITIES code with
      | None => raise KeyError ("missing tool capability mapping for entitlement: " +:+ code)
      | Some c => rest ← capabilities_for_codes codes'; mret (c :: rest)
      end
  end.

Definition capabilities_for_plan (plan_code : option string) : res (list ToolCapability) :=
  spec ← get_plan_fulfillment_spec plan_code;
  capabilities_for_codes (entitlement_codes spec).

Definition executable_status (st : CapabilityStatus) : bool :=
  match st with READY | SANDBOX_ONLY => true | _ => false end.

(** The loop of [plan_can_execute]. *)
Fixpoint first_executable (code : string) (require_production : bool)
    (caps : list ToolCapability) : bool :=
  match caps with
  | [] => false
  | c :: caps' =>
      if negb (bool_decide (capability_code c = code))
      then first_executable code require_production caps'
      else if negb (customer_executable c) then false
      else if require_production && negb (production_allowed c) then false
      else executable_status (tool_status c)
  end.

Definition norm_capability (capability : string) : string :=
  lower (strip (or_string (Some capability) "")).

Definition plan_can_execute (plan_code : option string) (capability : string)
    (require_production : bool) : bool :=
  let normalized_capability := norm_capability capability in
  if bool_decide (normalized_capability = "") then false
  else
    match capabilities_for_plan plan_code with
    | Raise _ => false
    | Ok caps => first_executable normalized_capability require_production caps
    end.

(** [raise ValueError] unless every code of a set is mapped; the message lists the
    missing codes in order. *)
Definition missing_entitlements : list string :=
  filter (fun c => dict_mem TOOL_CAPABILITIES c = false)
    (flat_map entitlement_codes (dict_values PLAN_FULFILLMENT_SPECS)).

Definition policy_checks (p : ExecutionCapabilityPolicy) : res unit :=
  _ ← ensure (dict_mem TOOL_CAPABILITIES (policy_capability_code p)) ValueError
        ("execution policy references unknown capability: " +:+ policy_capability_code p);
  _ ← ensure (bool_decide (quota_metric p = MAESTRO_UNIT_METRIC)) ValueError
        "execution quota metric must remain canonical Maestro Units";
  reject_if (quota_cost p <=? 0) ValueError "execution quota cost must be positive".

(** [for x in xs: check(x)]. *)
Fixpoint check_all {A} (check : A -> res unit) (xs : list A) : res unit :=
  match xs with
  | [] => mret tt
  | x :: xs' => _ ← check x; check_all check xs'
  end.

(** [d[k]]. *)
Definition tool_at (k : string) : res ToolCapability :=
  match dict_get TOOL_CAPABILITIES k with Some c => mret c | None => raise KeyError k end.

Definition validate_plan_capability_matrix : res unit :=
  _ ← ensure (bool_decide (missing_entitlements = [])) ValueError
        "plan capability matrix is missing entitlement mappings";
  _ ← check_all (fun code => _ ← capabilities_for_plan (Some code); mret tt)
        (dict_keys PLAN_FULFILLMENT_SPECS);
  _ ← check_all policy_checks (dict_values EXECUTION_CAPABILITY_POLICIES);
  advanced ← tool_at "advanced_integration";
  _ ← reject_if (production_allowed advanced
                 || negb (bool_decide (tool_status advanced = SANDBOX_ONLY))) ValueError
        "advanced integration must remain sandbox-only";
  durable ← tool_at "durable_execution_internal";
  _ ← reject_if (negb (bool_decide (tool_status durable = INTERNAL_ONLY))
                 || customer_executable durable || production_allowed durable) ValueError
        "durable execution must remain internal-only";
  reject_if (existsb (fun s => bool_decide ("durable_execution_internal" ∈ entitlement_codes s))
               (dict_values PLAN_FULFILLMENT_SPECS)) ValueError
    "durable execution must not become a customer plan entitlement".

Record PlanCapabilityPayload := {
  payload_plan_code : string;
  payload_quota_metric : string;
  payload_capabilities : list ToolCapability;
  payload_execution_policies : list ExecutionCapabilityPolicy;
  payload_production_advanced_integration : bool
}.

Definition plan_capability_payload (plan_code : option string) : res PlanCapabilityPayload :=
  let canonical := normalize_plan_code plan_code in
  capabilities ← capabilities_for_plan (Some canonical);
  mret {| payload_plan_code := canonical;
          payload_quota_metric := MAESTRO_UNIT_METRIC;
          payload_capabilities := capabilities;
          payload_execution_policies := dict_values EXECUTION_CAPABILITY_POLICIES;
          payload_production_advanced_integration :=
            plan_can_execute (Some canonical) "advanced_integration" true |}.

(** ** The entitlement gate *)

Inductive PlanEntitlementDecisionCode :=
  | ALLOWED | UNKNOWN_PLAN | CAPABILITY_NOT_ENTITLED
  | CAPABILITY_NOT_CUSTOMER_EXECUTABLE | CAPABILITY_NOT_PRODUCTION_ALLOWED.
#[export] Instance PlanEntitlementDecisionCode_eq_dec : EqDecision PlanEntitlementDecisionCode.
Proof. solve_decision. Defined.

Definition decision_code_value (c : PlanEntitlementDecisionCode) : string :=
  match c with
  | ALLOWED => "allowed"
  | UNKNOWN_PLAN => "unknown_plan"
  | CAPABILITY_NOT_ENTITLED => "capability_not_entitled"
  | CAPABILITY_NOT_CUSTOMER_EXECUTABLE => "capability_not_customer_executable"
  | CAPABILITY_NOT_PRODUCTION_ALLOWED => "capability_not_production_allowed"
  end.

Record PlanEntitlementDecision := {
  allowed : bool;
  decision_plan_code : string;
  decision_capability_code : string;
  decision_code : PlanEntitlementDecisionCode;
  production_requested : bool
}.

Definition evaluate_plan_entitlement (plan_code : option string) (capability : string)
    (require_production : bool) : PlanEntitlementDecision :=
  let canonical := normalize_plan_code plan_code in
  let capability_id := norm_capability capability in
  let decide ok code := {| allowed := ok; decision_plan_code := canonical;
                           decision_capability_code := capability_id;
                           decision_code := code;
                           production_requested := require_production |} in
  match capabilities_for_plan (Some canonical) with
  | Raise _ => decide false UNKNOWN_PLAN
  | Ok capabilities =>
      match find (fun c => bool_decide (capability_code c = capability_id)) capabilities with
      | None => decide false CAPABILITY_NOT_ENTITLED
      | Some matching =>
          if negb (customer_executable matching)
          then decide false CAPABILITY_NOT_CUSTOMER_EXECUTABLE
          else if require_production && negb (production_allowed matching)
          then decide false CAPABILITY_NOT_PRODUCTION_ALLOWED
          else if negb (executable_status (tool_status matching))
          then decide false CAPABILITY_NOT_CUSTOMER_EXECUTABLE
          else decide true ALLOWED
      end
  end.

Definition require_plan_entitlement (plan_code : option string) (capability : string)
    (require_production : bool) : res PlanEntitlementDecision :=
  let decision := evaluate_plan_entitlement plan_code capability require_production in
  _ ← ensure (allowed decision) PlanEntitlementDeniedError
        (decision_code_value (decision_code decision));
  mret decision.

(** The tables are not unfolded by [cbn]. *)
#[global] Arguments TOOL_CAPABILITIES : simpl never.
#[global] Arguments PLAN_FULFILLMENT_SPECS : simpl never.
#[global] Arguments PLAN_CODE_ALIASES : simpl never.
#[global] Arguments EXECUTION_CAPABILITY_POLICIES : simpl never.

(** * Usage pricing

    Models [processual_api/billing/usage_pricing.py]: the allowance table, the plans
    that may use or qualify for advanced integration, and the pricing decision of an
    endpoint. *)
Definition PRICING_VERSION : string := "2026-08-maestro-units-v1".
Definition BILLING_POLICY : string := "byok".
Definition BILLING_SCOPE : string := MAESTRO_UNIT_METRIC.
Definition PROVIDER_COST_INCLUDED : bool := false.

Definition DEVELOPER_UNIT_ALLOWANCE : Z := 2000.

(** [PLAN_FULFILLMENT_SPECS[code].monthly_unit_allowance], evaluated on import for
    the plans below, which the catalog has. *)
Definition spec_allowance (code : string) : Z :=
  match dict_get PLAN_FULFILLMENT_SPECS code with
  | Some s => spec_monthly_unit_allowance s
  | None => 0
  end.

Definition STARTER_UNIT_ALLOWANCE : Z := spec_allowance "starter".
Definition BUSINESS_UNIT_ALLOWANCE : Z := spec_allowance "business".
Definition ENTERPRISE_INTEGRATION_STARTER_UNIT_ALLOWANCE : Z :=
  spec_allowance "enterprise_integration_starter".
Definition ENTERPRISE_INTEGRATION_UNIT_ALLOWANCE : Z := spec_allowance "enterprise_pilot".

Definition PLAN_MONTHLY_UNIT_ALLOWANCES : list (string * Z) :=
  [("developer", DEVELOPER_UNIT_ALLOWANCE); ("internal", DEVELOPER_UNIT_ALLOWANCE)] ++
  map (fun e => (e.1, spec_monthly_unit_allowance e.2)) PLAN_FULFILLMENT_SPECS ++
  [("pilot_starter", STARTER_UNIT_ALLOWANCE);
   ("enterprise", ENTERPRISE_INTEGRATION_UNIT_ALLOWANCE);
   ("enterprise_integration", ENTERPRISE_INTEGRATION_UNIT_ALLOWANCE)].

Definition ENTERPRISE_INTEGRATION_PLANS : list string :=
  filter (fun code => plan_can_execute (Some code) "advanced_integration" false = true)
    (dict_keys PLAN_FULFILLMENT_SPECS).

Definition ENTERPRISE_INTEGRATION_QUALIFICATION_PLANS : list string :=
  filter (fun code => plan_can_execute (Some code) "advanced_integration" false
                      || plan_can_execute (Some code) "enterprise_governance" false = true)
    (dict_keys PLAN_FULFILLMENT_SPECS).

Definition LEGACY_ENTERPRISE_INTEGRATION_PLANS : list string := ["enterprise_private"].

Definition FREE_OPERATIONAL_ENDPOINTS : list string :=
  dict_keys (filter (fun e => rule_free e.2 = true) MAESTRO_UNIT_RULES).

Definition FIXED_ENDPOINT_UNIT_COSTS : list (string * Z) :=
  map (fun e => (e.1, rule_units e.2))
    (filter (fun e => negb (rule_free e.2) && negb (rule_variable e.2) = true)
       MAESTRO_UNIT_RULES).

Record PricingDecision := {
  pd_endpoint : string;
  pd_endpoint_class : string;
  units_charged : Z;
  pricing_version : string;
  billing_policy : string;
  billing_scope : string;
  provider_cost_included : bool
}.

Definition normalize_endpoint (endpoint : string) : string := normalize_maestro_endpoint endpoint.

Definition normalize_plan_id (plan_id : option string) : string :=
  norm_code (or_string plan_id "").

Definition canonical_plan_id (plan_id : option string) : string := normalize_plan_code plan_id.

(** [usage_pricing.monthly_unit_allowance]. *)
Definition priced_unit_allowance (plan_id : option string) : Z :=
  match dict_get PLAN_MONTHLY_UNIT_ALLOWANCES (normalize_plan_id plan_id) with
  | Some n => n
  | None => default 0 (dict_get PLAN_MONTHLY_UNIT_ALLOWANCES (canonical_plan_id plan_id))
  end.

Definition legacy_plan (plan_id : option string) : bool :=
  bool_decide (normalize_plan_id plan_id ∈ LEGACY_ENTERPRISE_INTEGRATION_PLANS).

Definition allows_enterprise_integration (plan_id : option string) : bool :=
  if legacy_plan plan_id then true
  else plan_can_execute plan_id "advanced_integration" false.

Definition allows_enterprise_integration_qualification (plan_id : option string) : bool :=
  if legacy_plan plan_id then true
  else bool_decide (canonical_plan_id plan_id ∈ ENTERPRISE_INTEGRATION_QUALIFICATION_PLANS).

Record EnterpriseIntegrationCapability := {
  eic_enabled : bool;
  eic_status : string;
  eic_plan_id : string;
  eic_normalized_plan_id : string;
  eic_canonical_plan_id : string;
  eic_legacy_compatibility : bool;
  eic_eligible_plans : list string;
  eic_advanced_integration_enabled : bool;
  eic_production_allowed : bool
}.

Definition str_le (a b : string) : Prop := String.leb a b = true.
#[global] Instance str_le_dec : RelDecision str_le.
Proof. intros a b. unfold str_le. apply _. Defined.

Definition enterprise_integration_capability (plan_id : option string)
  : EnterpriseIntegrationCapability :=
  let normalized := normalize_plan_id plan_id in
  let canonical := canonical_plan_id plan_id in
  let qualification := allows_enterprise_integration_qualification plan_id in
  {| eic_enabled := qualification;
     eic_status := if qualification then "available" else "locked";
     eic_plan_id := or_string (Some normalized) "unknown";
     eic_normalized_plan_id := or_string (Some normalized) "unknown";
     eic_canonical_plan_id :=
       or_string (Some (or_string (Some canonical) normalized)) "unknown";
     eic_legacy_compatibility := legacy_plan plan_id;
     eic_eligible_plans := merge_sort str_le ENTERPRISE_INTEGRATION_QUALIFICATION_PLANS;
     eic_advanced_integration_enabled := allows_enterprise_integration plan_id;
     eic_production_allowed := false |}.

Definition endpoint_class (endpoint : string) : string := maestro_endpoint_class endpoint.

Definition units_for_endpoint (endpoint : string) (item_count : option Z) : Z :=
  maestro_units_for_endpoint endpoint item_count.

Definition pricing_decision (endpoint : string) (item_count : option Z) : PricingDecision :=
  let path := normalize_endpoint endpoint in
  {| pd_endpoint := path;
     pd_endpoint_class := endpoint_class path;
     units_charged := units_for_endpoint path item_count;
     pricing_version := PRICING_VERSION;
     billing_policy := BILLING_POLICY;
     billing_scope := BILLING_SCOPE;
     provider_cost_included := PROVIDER_COST_INCLUDED |}.
