(* ===== verification/PlanProps.v ===== *)
(** * Properties of plans, entitlements and prices *)
From S2P Require Import Prelude PyString MaestroUnits PlanCatalog.
From Stdlib Require Import Ascii.

(** ** Normal forms *)

Lemma or_string_empty s : or_string (Some s) "" = s.
Proof. cbn. by case_bool_decide. Qed.

Lemma normalize_plan_code_idemp p :
  normalize_plan_code (Some (normalize_plan_code p)) = normalize_plan_code p.
Proof.
  unfold normalize_plan_code. rewrite or_string_empty. set (n := norm_code (or_string p "")).
  destruct (dict_get PLAN_CODE_ALIASES n) as [v|] eqn:E; cbn [default].
  - assert (normalize_plan_code (Some v) = v) as Hv.
    { pose proof (dict_get_forallb
                    (fun _ v => bool_decide (normalize_plan_code (Some v) = v))
                    PLAN_CODE_ALIASES n v eq_refl E) as Hf.
      by apply bool_decide_eq_true in Hf. }
    unfold normalize_plan_code in Hv. by rewrite or_string_empty in Hv.
  - unfold n at 1 2. rewrite norm_code_idemp -/n. by rewrite E.
Qed.

Lemma norm_capability_idemp c : norm_capability (norm_capability c) = norm_capability c.
Proof.
  unfold norm_capability. rewrite !or_string_empty. by rewrite strip_lower lower_idemp strip_idemp.
Qed.

Lemma length_rstrip p s : (String.length (rstrip_by p s) <= String.length s)%nat.
Proof.
  induction s as [|c s IH]; cbn; [done|]. destruct (rstrip_by p s); [destruct (p c)|]; cbn in *; lia.
Qed.

(** A path whose normal form is that of a policy has the same normal form as an
    endpoint of the unit table. *)
Lemma normalize_path_endpoint p q :
  normalize_path p = q -> has_char "?"%char q = false -> (1 < String.length q)%nat ->
  normalize_maestro_endpoint p = q.
Proof.
  unfold normalize_path, normalize_maestro_endpoint. rewrite or_string_empty.
  set (t := strip p). intros Hq Hc Hl. cbn [or_string] in Hq.
  destruct (decide (t = "")) as [Ht|Ht].
  { rewrite Ht in Hq. vm_compute in Hq. subst q. cbn in Hl. lia. }
  rewrite (bool_decide_eq_false_2 _ Ht) in Hq.
  destruct (decide (t = "/")) as [Ht'|Ht'].
  { rewrite Ht' in Hq. vm_compute in Hq. subst q. cbn in Hl. lia. }
  rewrite (bool_decide_eq_false_2 _ Ht') in Hq.
  assert (has_char "?"%char p = false) as Hp.
  { rewrite -(has_char_strip "?"%char p) // -/t -(has_char_rstrip is_slash) // Hq. done. }
  assert (p <> "") as Hne by (intros ->; by apply Ht).
  cbn [or_string]. rewrite (bool_decide_eq_false_2 _ Hne) (before_char_absent _ _ Hp) -/t
    (bool_decide_eq_false_2 _ Ht).
  pose proof (length_rstrip is_slash t) as Hlt. rewrite Hq in Hlt.
  cbv zeta. by rewrite (proj2 (Nat.ltb_lt 1 (String.length t))); [lia|].
Qed.

(** ** Capabilities of a plan *)

Lemma capabilities_for_codes_tools codes caps c :
  capabilities_for_codes codes = Ok caps -> c ∈ caps ->
  dict_get TOOL_CAPABILITIES (capability_code c) = Some c.
Proof.
  revert caps. induction codes as [|code codes IH]; intros caps; cbn.
  - intros [= <-] []%not_elem_of_nil.
  - destruct (dict_get TOOL_CAPABILITIES code) as [t|] eqn:E; [|discriminate].
    destruct (capabilities_for_codes codes) as [rest|] eqn:Er; [|discriminate].
    intros [= <-] [->|Hc]%elem_of_cons; [|exact (IH rest eq_refl Hc)].
    pose proof (dict_get_forallb (fun k t => bool_decide (capability_code t = k))
                  TOOL_CAPABILITIES code t eq_refl E) as Hf.
    apply bool_decide_eq_true in Hf. by rewrite Hf.
Qed.

Lemma capabilities_for_plan_tools p caps c :
  capabilities_for_plan p = Ok caps -> c ∈ caps ->
  dict_get TOOL_CAPABILITIES (capability_code c) = Some c.
Proof. 
  unfold capabilities_for_plan. intros (spec & _ & H)%res_bind_Ok Hc.
  exact (capabilities_for_codes_tools _ _ _ H Hc).
Qed.

(** What holds of every tool holds of the capabilities of a plan. *)
Lemma capabilities_forallb (P : ToolCapability -> bool) p caps c :
  forallb (fun e => P e.2) TOOL_CAPABILITIES = true ->
  capabilities_for_plan p = Ok caps -> c ∈ caps -> P c = true.
Proof.
  intros Hf Hp Hc. eapply (dict_get_forallb (fun _ t => P t)); [exact Hf|].
  exact (capabilities_for_plan_tools _ _ _ Hp Hc).
Qed.

Lemma first_executable_find code r caps :
  first_executable code r caps =
  match find (fun c => bool_decide (capability_code c = code)) caps with
  | None => false
  | Some c => customer_executable c && negb (r && negb (production_allowed c)) &&
              executable_status (tool_status c)
  end.
Proof.
  induction caps as [|c caps IH]; cbn; [done|]. case_bool_decide; cbn; [|done].
  by destruct (customer_executable c), (r && _).
Qed.

Lemma plan_can_execute_true p c r :
  plan_can_execute p c r = true ->
  exists t, dict_get TOOL_CAPABILITIES (norm_capability c) = Some t /\
    customer_executable t = true /\ (r = true -> production_allowed t = true).
Proof.
  unfold plan_can_execute. case_bool_decide; [done|].
  destruct (capabilities_for_plan p) as [caps|] eqn:E; [|done].
  rewrite first_executable_find. destruct (find _ caps) as [t|] eqn:Ef; [|done].
  apply find_some in Ef as [Hin Ht%bool_decide_eq_true].
  intros Hx. to_prop. exists t. rewrite -Ht.
  split; [eapply capabilities_for_plan_tools; [exact E|by apply list_elem_of_In]|].
  split; [done|]. intros ->. cbn in *. by destruct (production_allowed t).
Qed.

(** C11. The two entitlement gates agree: for every plan, capability and mode, however
    they are spelled, [plan_can_execute] is the [allowed] field of the decision of
    [evaluate_plan_entitlement], the decision code is [ALLOWED] exactly then, and
    [require_plan_entitlement] raises exactly otherwise, with the decision code as
    its message. *)
Theorem entitlement_gates_agree p c r :
  plan_can_execute p c r = allowed (evaluate_plan_entitlement p c r) /\
  (allowed (evaluate_plan_entitlement p c r) = true <->
   decision_code (evaluate_plan_entitlement p c r) = ALLOWED) /\
  require_plan_entitlement p c r =
    if plan_can_execute p c r then Ok (evaluate_plan_entitlement p c r)
    else raise PlanEntitlementDeniedError
           (decision_code_value (decision_code (evaluate_plan_entitlement p c r))).
Proof.
  assert (plan_can_execute p c r = allowed (evaluate_plan_entitlement p c r)) as Ha.
  { unfold plan_can_execute, evaluate_plan_entitlement, capabilities_for_plan,
      get_plan_fulfillment_spec. rewrite normalize_plan_code_idemp.
    fold (get_plan_fulfillment_spec p). fold (capabilities_for_plan p).
    destruct (capabilities_for_plan p) as [caps|] eqn:E; [|by case_bool_decide].
    case_bool_decide as Hc.
    - destruct (find _ caps) as [t|] eqn:Ef; [|done].
      apply find_some in Ef as [Hin%list_elem_of_In Ht%bool_decide_eq_true].
      exfalso. pose proof (capabilities_forallb
        (fun t => negb (bool_decide (capability_code t = ""))) p caps t eq_refl E Hin) as Hn.
      cbv beta in Hn. to_prop. congruence.
    - rewrite first_executable_find. destruct (find _ caps) as [t|]; [|done].
      by destruct (customer_executable t), (r && negb (production_allowed t)),
        (executable_status (tool_status t)). }
  split; [done|]. split.
  - unfold evaluate_plan_entitlement. repeat case_match; cbn; split; intros; (reflexivity || discriminate).
  - unfold require_plan_entitlement. rewrite Ha. by destruct (allowed _).
Qed.

(** The capabilities a customer can execute, in production or at all. *)
Definition executable_capabilities (production : bool) : list string :=
  if production then ["maestro_execution"; "byok_provider_connection"; "enterprise_governance"]
  else ["maestro_execution"; "byok_provider_connection"; "enterprise_governance";
        "advanced_integration"].

Lemma plan_can_execute_listed p c r :
  plan_can_execute p c r = true -> norm_capability c ∈ executable_capabilities r.
Proof.
  intros (t & Ht & Hx & Hr)%plan_can_execute_true.
  apply (dict_get_forallb (fun k t => implb
    (customer_executable t && implb r (production_allowed t))
    (bool_decide (k ∈ executable_capabilities r)))) in Ht; [|by destruct r; vm_compute].
  cbv beta in Ht. rewrite Hx in Ht.
  destruct r; [rewrite (Hr eq_refl) in Ht|]; by apply bool_decide_eq_true in Ht.
Qed.

(** The production boundary of the matrix: the import-time validation succeeds,
    whatever the plan only [maestro_execution], [byok_provider_connection] and
    [enterprise_governance] can be executed in production, advanced integration never
    can, and durable execution is not executable by any customer in any mode. *)
Theorem production_boundary p c r :
  validate_plan_capability_matrix = Ok tt /\
  (plan_can_execute p c true = true ->
   norm_capability c ∈ executable_capabilities true) /\
  plan_can_execute p "advanced_integration" true = false /\
  plan_can_execute p "durable_execution_internal" r = false.
Proof.
  split; [vm_compute; reflexivity|].
  split; [apply plan_can_execute_listed|]. split; apply not_true_is_false.
  - intros H%plan_can_execute_listed%(bool_decide_eq_true_2 _). vm_compute in H. discriminate.
  - intros H%plan_can_execute_listed%(bool_decide_eq_true_2 _).
    destruct r; vm_compute in H; discriminate.
Qed.

(** A policy against the unit rule of its path. *)
Definition policy_matches_rule (k : string * string) (pol : ExecutionCapabilityPolicy) : bool :=
  negb (has_char "?"%char k.2) && (1 <? String.length k.2)%nat &&
  bool_decide (quota_metric pol = MAESTRO_UNIT_METRIC) && (0 <? quota_cost pol) &&
  match dict_get MAESTRO_UNIT_RULES k.2 with
  | Some r => negb (rule_variable r) && negb (rule_free r) && (rule_units r =? quota_cost pol)
              && bool_decide (rule_capability_code r = Some (policy_capability_code pol))
  | None => false
  end.

Lemma policies_match_rules :
  forallb (fun e => policy_matches_rule e.1 e.2) EXECUTION_CAPABILITY_POLICIES = true.
Proof. vm_compute. reflexivity. Qed.

(** The execution policies and the unit table charge the same: whenever a request
    has an execution policy, its quota cost is, for every item count, the number of
    units of the endpoint, its metric is the Maestro unit, its capability the one the
    unit table names, and the endpoint is metered. *)
Theorem execution_cost_is_unit_price m p n metric cost :
  execution_quota_cost m p = Some (metric, cost) ->
  maestro_units_for_endpoint p n = cost /\ metric = MAESTRO_UNIT_METRIC /\
  required_execution_capability m p = maestro_capability_for_endpoint p /\
  is_maestro_metered_endpoint p = true /\ 0 < cost.
Proof.
  unfold execution_quota_cost, required_execution_capability.
  intros (pol & Hpol & [= -> ->])%fmap_Some. rewrite Hpol. cbn.
  unfold execution_policy_for_request in Hpol.
  pose proof (dict_get_forallb _ _ _ _ policies_match_rules Hpol) as Hk.
  unfold policy_matches_rule in Hk. cbn [snd] in Hk.
  destruct (dict_get MAESTRO_UNIT_RULES (normalize_path p)) as [r|] eqn:Er;
    [|by rewrite andb_false_r in Hk]. to_prop.
  match goal with H : (_ <? _)%nat = true |- _ => apply Nat.ltb_lt in H end.
  assert (maestro_unit_rule p = Some r) as Hr.
  { unfold maestro_unit_rule. rewrite (normalize_path_endpoint p (normalize_path p)); done. }
  unfold maestro_units_for_endpoint, maestro_capability_for_endpoint, is_maestro_metered_endpoint.
  rewrite Hr. cbn.
  destruct (rule_variable r); [done|]. destruct (rule_free r); [done|].
  split_and!; try done. cbn. apply Z.ltb_lt. lia.
Qed.

Lemma elem_of_incl (l k : list string) n :
  forallb (fun x => bool_decide (x ∈ k)) l = true -> n ∈ l -> n ∈ k.
Proof.
  rewrite forallb_forall. intros H Hn%list_elem_of_In. apply H in Hn.
  by apply bool_decide_eq_true in Hn.
Qed.

(** The two allowance tables agree: apart from the developer and internal plans,
    the priced monthly allowance of a plan, however it is spelled and aliased, is that
    of the fulfilment catalog, zero for an unknown plan. *)
Theorem allowance_tables_agree p :
  priced_unit_allowance p =
    if bool_decide (normalize_plan_id p ∈ ["developer"; "internal"])
    then DEVELOPER_UNIT_ALLOWANCE else monthly_unit_allowance p.
Proof.
  unfold priced_unit_allowance, monthly_unit_allowance, canonical_plan_id,
    get_plan_fulfillment_spec, normalize_plan_id, normalize_plan_code.
  generalize (norm_code (or_string p "")). intros n.
  destruct (decide (n ∈ dict_keys PLAN_MONTHLY_UNIT_ALLOWANCES)) as [Hin|Hout].
  - revert n Hin. apply Forall_forall. repeat constructor; vm_compute; reflexivity.
  - assert (dict_get PLAN_CODE_ALIASES n = None) as ->.
    { apply dict_get_None. intros Hin. apply Hout. eapply elem_of_incl; [|exact Hin]. vm_compute. reflexivity. }
    assert (dict_get PLAN_FULFILLMENT_SPECS n = None) as Hs.
    { apply dict_get_None. intros Hin. apply Hout. eapply elem_of_incl; [|exact Hin]. vm_compute. reflexivity. }
    cbn [default]. rewrite Hs. apply dict_get_None in Hout as Hg. rewrite Hg.
    rewrite bool_decide_eq_false_2; [|done]. intros Hin.
    apply Hout. eapply elem_of_incl; [|exact Hin]. vm_compute. reflexivity.
Qed.

Lemma execution_cost_is_unit_price_witness :
  execution_quota_cost "post" " /cgt/govern/report/ " = Some ("maestro_units", 3) /\
  maestro_units_for_endpoint " /cgt/govern/report/ " (Some 7) = 3.
Proof.
  assert (execution_quota_cost "post" " /cgt/govern/report/ " = Some ("maestro_units", 3)) as H
    by (vm_compute; reflexivity).
  split; [exact H|].
  exact (proj1 (execution_cost_is_unit_price "post" " /cgt/govern/report/ " (Some 7) _ _ H)).
Defined.

(** The endpoint normal form is not idempotent: a decision priced from the normalised
    path can differ from the price of the path itself. *)
Example pricing_renormalises :
  units_charged (pricing_decision "/cgt/govern/compare /" None) = 2 /\
  units_for_endpoint "/cgt/govern/compare /" None = 1.
Proof. split; vm_compute; reflexivity. Qed.
