(* ===== verification/PricingReview.v ===== *)
(** * The pricing review and the selected prices

    Models [billing/maestro_group1_pricing_review.py] (Maestro units of a workload, unit
    cost scenarios, the price of a plan) and
    [billing/maestro_group1_selected_pricing.py] (the prices put forward, checked against
    the review).  A field the code requires to be a finite [Decimal] is a [dec]. *)
From S2P Require Import Prelude PyString PyDecimal PlanCatalog.

Definition review_error {A} (msg : string) : res A := raise PricingReviewValidationError msg.
Definition review_require (b : bool) (msg : string) : res unit :=
  ensure b PricingReviewValidationError msg.

Definition ZERO : dec := dec_int 0.
Definition ONE : dec := dec_int 1.
Definition HUNDRED : dec := dec_int 100.

Definition require_non_negative_decimal (name : string) (v : dec) : res unit :=
  review_require (negb (dec_ltb v ZERO)) (name +:+ " must not be negative").
Definition require_percentage (name : string) (v : dec) : res unit :=
  _ ← require_non_negative_decimal name v;
  review_require (negb (dec_ltb HUNDRED v)) (name +:+ " must not exceed 100").

Definition money (v : dec) : res dec := quantize ROUND_HALF_UP (-2) v.
Definition rate (v : dec) : res dec := quantize ROUND_HALF_UP (-6) v.
Definition units_precision (v : dec) : res dec := quantize ROUND_HALF_UP (-4) v.

(** ** Maestro units of a workload *)

Inductive MaestroResourceBand := BandNormal | BandHeavy | BandExtreme | BandCustom.

Record CalibrationQuantities := {
  base_executions : dec;
  integration_actions : dec;
  equivalent_pages : dec;
  records_processed : dec;
  verification_items : dec;
  standard_supervision_gates : dec;
  extended_supervision_gates : dec;
  excess_storage_gb_month : dec
}.

Definition CalibrationQuantities_post_init (q : CalibrationQuantities) : res unit :=
  let check (name : string) (v : dec) : res unit :=
    ensure (negb (dec_ltb v ZERO)) CalibrationValidationError (name +:+ " must not be negative") in
  _ ← check "base_executions" (base_executions q);
  _ ← check "integration_actions" (integration_actions q);
  _ ← check "equivalent_pages" (equivalent_pages q);
  _ ← check "records_processed" (records_processed q);
  _ ← check "verification_items" (verification_items q);
  _ ← check "standard_supervision_gates" (standard_supervision_gates q);
  _ ← check "extended_supervision_gates" (extended_supervision_gates q);
  check "excess_storage_gb_month" (excess_storage_gb_month q).

(** The field an entry of the table names, with its weight. *)
Definition MAESTRO_UNIT_WEIGHTS : list ((CalibrationQuantities -> dec) * dec) :=
  [ (base_executions, Dec 100 (-2));
    (integration_actions, Dec 25 (-2));
    (equivalent_pages, Dec 4 (-2));
    (records_processed, Dec 1 (-3));
    (verification_items, Dec 4 (-2));
    (standard_supervision_gates, Dec 200 (-2));
    (extended_supervision_gates, Dec 500 (-2));
    (excess_storage_gb_month, Dec 100 (-2)) ].

Definition RESOURCE_BAND_MULTIPLIERS (b : MaestroResourceBand) : option dec :=
  match b with
  | BandNormal => Some (Dec 100 (-2))
  | BandHeavy => Some (Dec 125 (-2))
  | BandExtreme => Some (Dec 150 (-2))
  | BandCustom => None
  end.

Record MaestroUnitResult := {
  raw_units : dec;
  settled_units : option dec;
  resource_band : MaestroResourceBand;
  manual_review_required : bool
}.

Definition MaestroUnitResult_post_init (r : MaestroUnitResult) : res MaestroUnitResult :=
  _ ← require_non_negative_decimal "raw_units" (raw_units r);
  _ ← match settled_units r with
      | Some v => require_non_negative_decimal "settled_units" v
      | None => mret tt
      end;
  _ ← match resource_band r with
      | BandCustom =>
          _ ← review_require (match settled_units r with None => true | Some _ => false end)
                "custom workloads must not auto-settle";
          review_require (manual_review_required r) "custom workloads must require manual review"
      | _ => mret tt
      end;
  mret r.

Definition weighted_units (q : CalibrationQuantities) : dec :=
  fold_left (fun acc w => dec_add acc (dec_mul (fst w q) (snd w))) MAESTRO_UNIT_WEIGHTS ZERO.

Definition calculate_maestro_units (q : CalibrationQuantities) (band : MaestroResourceBand)
  : res MaestroUnitResult :=
  raw ← units_precision (weighted_units q);
  match RESOURCE_BAND_MULTIPLIERS band with
  | None => MaestroUnitResult_post_init (Build_MaestroUnitResult raw None band true)
  | Some multiplier =>
      settled ← units_precision (dec_mul raw multiplier);
      MaestroUnitResult_post_init (Build_MaestroUnitResult raw (Some settled) band false)
  end.

(** ** Unit cost scenarios *)

Inductive PricingScenarioName := Conservative | Recommended | Resilient.
#[global] Instance PricingScenarioName_eq_dec : EqDecision PricingScenarioName.
Proof. solve_decision. Defined.

Record UnitCostScenario := {
  scenario_name : PricingScenarioName;
  infrastructure_cost_per_unit : dec;
  operations_cost_per_unit : dec;
  support_cost_per_unit : dec;
  fixed_cost_allocation_per_unit : dec;
  retry_failure_overhead_percent : dec;
  risk_reserve_percent : dec;
  processor_percent : dec;
  tax_reserve_percent : dec;
  target_net_margin_percent : dec;
  uniqueness_premium_percent : dec;
  processor_fixed_fee : dec
}.

Section Scenario.
Context (s : UnitCostScenario).

(** The share of a price that is not retained, in percent. *)
Definition deduction_total : dec :=
  dec_add (dec_add (processor_percent s) (tax_reserve_percent s)) (target_net_margin_percent s).

Definition UnitCostScenario_post_init : res unit :=
  _ ← require_non_negative_decimal "infrastructure_cost_per_unit" (infrastructure_cost_per_unit s);
  _ ← require_non_negative_decimal "operations_cost_per_unit" (operations_cost_per_unit s);
  _ ← require_non_negative_decimal "support_cost_per_unit" (support_cost_per_unit s);
  _ ← require_non_negative_decimal "fixed_cost_allocation_per_unit"
        (fixed_cost_allocation_per_unit s);
  _ ← require_non_negative_decimal "processor_fixed_fee" (processor_fixed_fee s);
  _ ← require_percentage "retry_failure_overhead_percent" (retry_failure_overhead_percent s);
  _ ← require_percentage "risk_reserve_percent" (risk_reserve_percent s);
  _ ← require_percentage "processor_percent" (processor_percent s);
  _ ← require_percentage "tax_reserve_percent" (tax_reserve_percent s);
  _ ← require_percentage "target_net_margin_percent" (target_net_margin_percent s);
  _ ← require_percentage "uniqueness_premium_percent" (uniqueness_premium_percent s);
  review_require (negb (dec_leb HUNDRED deduction_total))
    "processor, tax reserve, and margin must total less than 100%".

(** [ONE + percent / HUNDRED]. *)
Definition mark_up (percent : dec) : res dec :=
  share ← dec_div percent HUNDRED; mret (dec_add ONE share).

Definition direct_cost_per_unit : dec :=
  dec_add (dec_add (dec_add (infrastructure_cost_per_unit s) (operations_cost_per_unit s))
             (support_cost_per_unit s)) (fixed_cost_allocation_per_unit s).

Definition operationally_adjusted_cost_per_unit : res dec :=
  multiplier ← mark_up (retry_failure_overhead_percent s);
  rate (dec_mul direct_cost_per_unit multiplier).

Definition risk_adjusted_cost_per_unit : res dec :=
  multiplier ← mark_up (risk_reserve_percent s);
  cost ← operationally_adjusted_cost_per_unit;
  rate (dec_mul cost multiplier).

Definition retained_share : res dec :=
  share ← dec_div deduction_total HUNDRED; mret (dec_sub ONE share).

Definition minimum_sale_price_per_unit : res dec :=
  retained ← retained_share;
  cost ← risk_adjusted_cost_per_unit;
  price ← dec_div cost retained;
  rate price.

Definition uniqueness_adjusted_price_per_unit : res dec :=
  multiplier ← mark_up (uniqueness_premium_percent s);
  price ← minimum_sale_price_per_unit;
  rate (dec_mul price multiplier).
End Scenario.

Definition scenario (name : PricingScenarioName)
    (infra ops support fixed retry risk tax margin premium processor : dec) : UnitCostScenario :=
  {| scenario_name := name; infrastructure_cost_per_unit := infra; operations_cost_per_unit := ops;
     support_cost_per_unit := support; fixed_cost_allocation_per_unit := fixed;
     retry_failure_overhead_percent := retry; risk_reserve_percent := risk;
     processor_percent := processor; tax_reserve_percent := tax;
     target_net_margin_percent := margin; uniqueness_premium_percent := premium;
     processor_fixed_fee := Dec 50 (-2) |}.

Definition REVIEW_SCENARIOS : list UnitCostScenario :=
  [ scenario Conservative (Dec 45 (-5)) (Dec 35 (-5)) (Dec 25 (-5)) (Dec 20 (-5))
      (Dec 5 0) (Dec 6 0) (Dec 8 0) (Dec 30 0) (Dec 0 0) (Dec 5 0);
    scenario Recommended (Dec 55 (-5)) (Dec 45 (-5)) (Dec 35 (-5)) (Dec 30 (-5))
      (Dec 8 0) (Dec 8 0) (Dec 10 0) (Dec 40 0) (Dec 10 0) (Dec 5 0);
    scenario Resilient (Dec 70 (-5)) (Dec 60 (-5)) (Dec 50 (-5)) (Dec 40 (-5))
      (Dec 12 0) (Dec 12 0) (Dec 12 0) (Dec 50 0) (Dec 10 0) (Dec 6 0) ].

(** ** The price of a plan *)

Inductive CommercialValueBand :=
  VbStandard | VbAdvanced | VbAcademicResearch | VbEnterpriseGoverned | VbCustom.

Definition COMMERCIAL_VALUE_MULTIPLIERS (b : CommercialValueBand) : option dec :=
  match b with
  | VbStandard => Some (Dec 100 (-2))
  | VbAdvanced => Some (Dec 108 (-2))
  | VbAcademicResearch => Some (Dec 112 (-2))
  | VbEnterpriseGoverned => Some (Dec 118 (-2))
  | VbCustom => None
  end.

Definition PLAN_REVIEW_CONFIG : list (string * (Z * CommercialValueBand)) :=
  [ ("academic", (5000, VbAcademicResearch));
    ("starter", (STARTER_UNIT_ALLOWANCE, VbStandard));
    ("enterprise_integration_starter",
      (ENTERPRISE_INTEGRATION_STARTER_UNIT_ALLOWANCE, VbAdvanced));
    ("business", (BUSINESS_UNIT_ALLOWANCE, VbAdvanced));
    ("enterprise_pilot", (500000, VbEnterpriseGoverned));
    ("enterprise_core", (1500000, VbEnterpriseGoverned));
    ("enterprise_scale", (3000000, VbEnterpriseGoverned));
    ("enterprise_strategic", (5000000, VbEnterpriseGoverned)) ].

Record PlanPricingReview := {
  pr_plan_id : string;
  pr_monthly_unit_allowance : Z;
  pr_scenario_name : PricingScenarioName;
  pr_value_band : CommercialValueBand;
  estimated_monthly_cost : dec;
  minimum_monthly_price : dec;
  recommended_monthly_price : dec;
  recommended_yearly_price : dec;
  overage_price_per_1000_units : dec;
  pr_yearly_discount_percent : dec;
  pr_price_status : string;
  pr_approved_for_checkout : bool
}.

Definition PRICING_STATUS : string := "draft_review".

Definition PlanPricingReview_post_init (p : PlanPricingReview) : res PlanPricingReview :=
  _ ← review_require (negb (blank (pr_plan_id p))) "plan_id must not be blank";
  _ ← review_require (0 <? pr_monthly_unit_allowance p)
        "monthly_unit_allowance must be a positive int";
  _ ← require_non_negative_decimal "estimated_monthly_cost" (estimated_monthly_cost p);
  _ ← require_non_negative_decimal "minimum_monthly_price" (minimum_monthly_price p);
  _ ← require_non_negative_decimal "recommended_monthly_price" (recommended_monthly_price p);
  _ ← require_non_negative_decimal "recommended_yearly_price" (recommended_yearly_price p);
  _ ← require_non_negative_decimal "overage_price_per_1000_units" (overage_price_per_1000_units p);
  _ ← require_non_negative_decimal "yearly_discount_percent" (pr_yearly_discount_percent p);
  _ ← review_require (bool_decide (pr_price_status p = PRICING_STATUS))
        "price_status must remain draft_review";
  _ ← review_require (negb (pr_approved_for_checkout p))
        "checkout must remain disabled during pricing review";
  mret p.

Definition calculate_plan_pricing (plan_id : string) (monthly_unit_allowance : Z)
    (s : UnitCostScenario) (band : CommercialValueBand) (yearly_discount_percent : dec)
  : res PlanPricingReview :=
  _ ← require_percentage "yearly_discount_percent" yearly_discount_percent;
  _ ← review_require (negb (dec_leb HUNDRED yearly_discount_percent))
        "yearly_discount_percent must be less than 100%";
  _ ← review_require (0 <? monthly_unit_allowance) "monthly_unit_allowance must be a positive int";
  match COMMERCIAL_VALUE_MULTIPLIERS band with
  | None => review_error "custom value bands require manual pricing review"
  | Some value_multiplier =>
      let units := dec_int monthly_unit_allowance in
      cost_rate ← risk_adjusted_cost_per_unit s;
      cost ← money (dec_mul cost_rate units);
      minimum_rate ← minimum_sale_price_per_unit s;
      minimum ← money (dec_add (dec_mul minimum_rate units) (processor_fixed_fee s));
      unique_rate ← uniqueness_adjusted_price_per_unit s;
      unit_price ← rate (dec_mul unique_rate value_multiplier);
      monthly ← money (dec_add (dec_mul unit_price units) (processor_fixed_fee s));
      discount ← dec_div yearly_discount_percent HUNDRED;
      yearly ← money (dec_mul monthly (dec_mul (dec_int 12) (dec_sub ONE discount)));
      overage ← money (dec_mul (dec_mul unit_price (dec_int 1000)) (Dec 115 (-2)));
      PlanPricingReview_post_init
        {| pr_plan_id := plan_id; pr_monthly_unit_allowance := monthly_unit_allowance;
           pr_scenario_name := scenario_name s; pr_value_band := band;
           estimated_monthly_cost := cost; minimum_monthly_price := minimum;
           recommended_monthly_price := monthly; recommended_yearly_price := yearly;
           overage_price_per_1000_units := overage;
           pr_yearly_discount_percent := yearly_discount_percent;
           pr_price_status := PRICING_STATUS; pr_approved_for_checkout := false |}
  end.

(** ** The selected prices *)

Definition SELECTED_MONTHLY_PRICES : list (string * dec) :=
  [ ("academic", Dec 29 0); ("starter", Dec 49 0);
    ("enterprise_integration_starter", Dec 259 0); ("business", Dec 519 0);
    ("enterprise_pilot", Dec 2790 0); ("enterprise_core", Dec 7890 0);
    ("enterprise_scale", Dec 14990 0); ("enterprise_strategic", Dec 23900 0) ].

Definition ENTERPRISE_VOLUME_ADJUSTMENTS_PERCENT : list (string * dec) :=
  [ ("enterprise_pilot", Dec 0 0); ("enterprise_core", Dec 6 0);
    ("enterprise_scale", Dec 10 0); ("enterprise_strategic", Dec 14 0) ].

Definition SELECTED_OVERAGE_PRICES_PER_1000_UNITS : list (string * dec) :=
  [ ("academic", Dec 650 (-2)); ("starter", Dec 590 (-2));
    ("enterprise_integration_starter", Dec 600 (-2)); ("business", Dec 600 (-2));
    ("enterprise_pilot", Dec 650 (-2)); ("enterprise_core", Dec 620 (-2));
    ("enterprise_scale", Dec 595 (-2)); ("enterprise_strategic", Dec 575 (-2)) ].

Definition DEFAULT_YEARLY_DISCOUNT_PERCENT : dec := dec_int 15.

Record SelectedPlanProposal := {
  sp_plan_id : string;
  sp_monthly_unit_allowance : Z;
  sp_value_band : CommercialValueBand;
  calculated_monthly_cost : dec;
  calculated_minimum_monthly_price : dec;
  calculated_recommended_monthly_price : dec;
  enterprise_volume_adjustment_percent : dec;
  selected_monthly_price : dec;
  selected_yearly_price : dec;
  selected_overage_price_per_1000_units : dec;
  sp_pricing_status : string;
  sp_approved_for_pricing : bool;
  sp_approved_for_checkout : bool
}.

Definition SelectedPlanProposal_post_init (p : SelectedPlanProposal) : res SelectedPlanProposal :=
  _ ← review_require (negb (bool_decide (sp_plan_id p = ""))) "plan_id must not be blank";
  _ ← review_require (0 <? sp_monthly_unit_allowance p) "monthly_unit_allowance must be positive";
  _ ← require_non_negative_decimal "calculated_monthly_cost" (calculated_monthly_cost p);
  _ ← require_non_negative_decimal "calculated_minimum_monthly_price"
        (calculated_minimum_monthly_price p);
  _ ← require_non_negative_decimal "calculated_recommended_monthly_price"
        (calculated_recommended_monthly_price p);
  _ ← require_non_negative_decimal "enterprise_volume_adjustment_percent"
        (enterprise_volume_adjustment_percent p);
  _ ← require_non_negative_decimal "selected_monthly_price" (selected_monthly_price p);
  _ ← require_non_negative_decimal "selected_yearly_price" (selected_yearly_price p);
  _ ← require_non_negative_decimal "selected_overage_price_per_1000_units"
        (selected_overage_price_per_1000_units p);
  _ ← review_require (negb (dec_ltb HUNDRED (enterprise_volume_adjustment_percent p)))
        "enterprise volume adjustment must not exceed 100%";
  _ ← review_require (negb (dec_ltb (selected_monthly_price p) (calculated_minimum_monthly_price p)))
        "selected monthly price must not fall below calculated minimum";
  _ ← review_require (bool_decide (sp_pricing_status p = "draft_review"))
        "selected proposal must remain draft_review";
  _ ← review_require (negb (sp_approved_for_pricing p || sp_approved_for_checkout p))
        "selected proposal must not activate commercial approval";
  mret p.

(** [next(...)] over the scenarios. *)
Definition recommended_scenario : option UnitCostScenario :=
  find (fun s => bool_decide (scenario_name s = Recommended)) REVIEW_SCENARIOS.

Definition calculate_selected_plan_proposal (plan_id : string) : res SelectedPlanProposal :=
  match dict_get PLAN_REVIEW_CONFIG plan_id, dict_get SELECTED_MONTHLY_PRICES plan_id,
        dict_get SELECTED_OVERAGE_PRICES_PER_1000_UNITS plan_id with
  | None, _, _ => review_error ("unknown selected proposal plan: " +:+ plan_id)
  | _, None, _ => review_error ("selected monthly price missing for plan: " +:+ plan_id)
  | _, _, None => review_error ("selected overage price missing for plan: " +:+ plan_id)
  | Some (allowance, band), Some monthly, Some overage =>
      match recommended_scenario with
      | None => raise RuntimeError "StopIteration"
      | Some s =>
          calculated ← calculate_plan_pricing plan_id allowance s band
                         DEFAULT_YEARLY_DISCOUNT_PERCENT;
          discount ← dec_div DEFAULT_YEARLY_DISCOUNT_PERCENT HUNDRED;
          yearly ← money (dec_mul (dec_mul monthly (dec_int 12)) (dec_sub ONE discount));
          SelectedPlanProposal_post_init
            {| sp_plan_id := plan_id; sp_monthly_unit_allowance := allowance;
               sp_value_band := band;
               calculated_monthly_cost := estimated_monthly_cost calculated;
               calculated_minimum_monthly_price := minimum_monthly_price calculated;
               calculated_recommended_monthly_price := recommended_monthly_price calculated;
               enterprise_volume_adjustment_percent :=
                 default ZERO (dict_get ENTERPRISE_VOLUME_ADJUSTMENTS_PERCENT plan_id);
               selected_monthly_price := monthly; selected_yearly_price := yearly;
               selected_overage_price_per_1000_units := overage;
               sp_pricing_status := "draft_review";
               sp_approved_for_pricing := false; sp_approved_for_checkout := false |}
      end
  end.

(** [[f(x) for x in xs]] over a fallible [f]. *)
Fixpoint traverse {A B} (f : A -> res B) (xs : list A) : res (list B) :=
  match xs with
  | [] => mret []
  | x :: xs' => y ← f x; ys ← traverse f xs'; mret (y :: ys)
  end.

(** The ["plans"] of the proposal. *)
Definition build_selected_pricing_proposal : res (list SelectedPlanProposal) :=
  traverse calculate_selected_plan_proposal (map fst SELECTED_MONTHLY_PRICES).
