(* ===== verification/PyDateTime.v ===== *)
(** * Python datetimes

    What the code uses of [datetime] and [calendar]: aware and naive datetimes with a
    fixed UTC offset, comparison, [replace] on the date, [+ timedelta(days=n)],
    [calendar.monthrange] and [strftime("%Y-%m")]. *)
From S2P Require Import Prelude.
From stdpp Require Import pretty.
#[local] Open Scope Z_scope.

(** [dt_offset] is [None] for a naive datetime, else the UTC offset in microseconds. *)
Record datetime := {
  dt_year : Z; dt_month : Z; dt_day : Z;
  dt_hour : Z; dt_minute : Z; dt_second : Z; dt_micro : Z;
  dt_offset : option Z
}.
#[global] Instance datetime_eq_dec : EqDecision datetime.
Proof. solve_decision. Defined.

Definition is_leap (y : Z) : bool :=
  (y mod 4 =? 0) && (negb (y mod 100 =? 0) || (y mod 400 =? 0)).

(** [calendar.monthrange(y, m)[1]]. *)
Definition days_in_month (y m : Z) : Z :=
  if m =? 2 then (if is_leap y then 29 else 28)
  else if (m =? 4) || (m =? 6) || (m =? 9) || (m =? 11) then 30 else 31.

Definition days_before_year (y : Z) : Z :=
  let p := y - 1 in p * 365 + p / 4 - p / 100 + p / 400.

Definition days_before_month (y m : Z) : Z :=
  (if m =? 1 then 0 else if m =? 2 then 31 else if m =? 3 then 59 else if m =? 4 then 90
   else if m =? 5 then 120 else if m =? 6 then 151 else if m =? 7 then 181
   else if m =? 8 then 212 else if m =? 9 then 243 else if m =? 10 then 273
   else if m =? 11 then 304 else 334)
  + (if (2 <? m) && is_leap y then 1 else 0).

(** [date.toordinal()]. *)
Definition toordinal (y m d : Z) : Z := days_before_year y + days_before_month y m + d.

Definition day_micros : Z := 86400000000.

Definition time_of_day (t : datetime) : Z :=
  ((dt_hour t * 60 + dt_minute t) * 60 + dt_second t) * 1000000 + dt_micro t.

(** Microseconds of the wall clock. *)
Definition local_micros (t : datetime) : Z :=
  toordinal (dt_year t) (dt_month t) (dt_day t) * day_micros + time_of_day t.

(** The instant of an aware datetime, in microseconds. *)
Definition instant (t : datetime) : Z := local_micros t - default 0 (dt_offset t).

(** [t.tzinfo is None]. *)
Definition naive (t : datetime) : bool :=
  match dt_offset t with None => true | Some _ => false end.

(** [a == b]: a naive and an aware datetime are never equal. *)
Definition dt_eqb (a b : datetime) : bool := eqb (naive a) (naive b) && (instant a =? instant b).

(** Equality of optional datetimes. *)
Definition dt_opt_eqb (a b : option datetime) : bool :=
  match a, b with
  | None, None => true
  | Some a, Some b => dt_eqb a b
  | _, _ => false
  end.

(** [a < b] and [a <= b] raise [TypeError] on a naive and an aware operand. *)
Definition comparable (a b : datetime) : res unit :=
  ensure (eqb (naive a) (naive b)) TypeError
    "can't compare offset-naive and offset-aware datetimes".

Definition dt_lt (a b : datetime) : res bool :=
  _ ← comparable a b; mret (instant a <? instant b).

Definition dt_le (a b : datetime) : res bool :=
  _ ← comparable a b; mret (instant a <=? instant b).

(** [t.replace(year=y, month=m, day=d)]. *)
Definition set_date (y m d : Z) (t : datetime) : datetime :=
  {| dt_year := y; dt_month := m; dt_day := d; dt_hour := dt_hour t; dt_minute := dt_minute t;
     dt_second := dt_second t; dt_micro := dt_micro t; dt_offset := dt_offset t |}.

Definition replace_date (y m d : Z) (t : datetime) : res datetime :=
  _ ← ensure ((1 <=? y) && (y <=? 9999)) ValueError "year is out of range";
  _ ← ensure ((1 <=? m) && (m <=? 12)) ValueError "month must be in 1..12";
  _ ← ensure ((1 <=? d) && (d <=? days_in_month y m)) ValueError "day is out of range for month";
  mret (set_date y m d t).

(** [t.replace(..., hour=0, minute=0, second=0, microsecond=0)]. *)
Definition midnight (t : datetime) : datetime :=
  {| dt_year := dt_year t; dt_month := dt_month t; dt_day := dt_day t; dt_hour := 0;
     dt_minute := 0; dt_second := 0; dt_micro := 0; dt_offset := dt_offset t |}.

Definition next_day (t : datetime) : datetime :=
  if dt_day t <? days_in_month (dt_year t) (dt_month t)
  then set_date (dt_year t) (dt_month t) (dt_day t + 1) t
  else if dt_month t <? 12 then set_date (dt_year t) (dt_month t + 1) 1 t
  else set_date (dt_year t + 1) 1 1 t.

(** [t + timedelta(days=n)] for [n >= 0], one calendar day at a time. *)
Fixpoint add_days (n : nat) (t : datetime) : res datetime :=
  match n with
  | O => mret t
  | S n' =>
      let t' := next_day t in
      _ ← ensure (dt_year t' <=? 9999) OverflowError "date value out of range";
      add_days n' t'
  end.

(** [strftime("%Y-%m")] for a four-digit year. *)
Definition two_digits (n : Z) : string :=
  if n <? 10 then "0" +:+ pretty n else pretty n.
Definition year_month_key (t : datetime) : string :=
  pretty (dt_year t) +:+ "-" +:+ two_digits (dt_month t).

(** The fields of a datetime the constructor accepts. *)
Definition dt_valid (t : datetime) : Prop :=
  1 <= dt_year t <= 9999 /\ 1 <= dt_month t <= 12 /\
  1 <= dt_day t <= days_in_month (dt_year t) (dt_month t) /\
  0 <= dt_hour t <= 23 /\ 0 <= dt_minute t <= 59 /\ 0 <= dt_second t <= 59 /\
  0 <= dt_micro t <= 999999.

(** ** Lemmas *)

Lemma days_in_month_bounds y m : 28 <= days_in_month y m <= 31.
Proof. unfold days_in_month. repeat case_match; lia. Qed.

Lemma days_before_year_succ y :
  days_before_year (y + 1) = days_before_year y + 365 + (if is_leap y then 1 else 0).
Proof.
  unfold days_before_year, is_leap. replace (y + 1 - 1) with y by lia.
  assert (forall k, 0 < k -> y / k = (y - 1) / k + (if y mod k =? 0 then 1 else 0)) as Hk.
  { intros k Hk. destruct (Z.eqb_spec (y mod k) 0); Z.to_euclidean_division_equations; nia. }
  rewrite (Hk 4) // (Hk 100) // (Hk 400) //.
  assert (y mod 100 = 0 -> y mod 4 = 0) as H1.
  { intros. apply Z.rem_divide in H as [q ->] || (apply Z.mod_divide in H as [q ->]; [|lia]).
    apply Z.mod_divide; [lia|]. exists (q * 25). lia. }
  assert (y mod 400 = 0 -> y mod 100 = 0) as H2.
  { intros. apply Z.mod_divide in H as [q ->]; [|lia]. apply Z.mod_divide; [lia|].
    exists (q * 4). lia. }
  destruct (Z.eqb_spec (y mod 4) 0), (Z.eqb_spec (y mod 100) 0), (Z.eqb_spec (y mod 400) 0);
    cbn; (lia || (exfalso; tauto)).
Qed.

Lemma days_before_month_succ y m :
  1 <= m < 12 -> days_before_month y (m + 1) = days_before_month y m + days_in_month y m.
Proof.
  intros Hm. unfold days_before_month, days_in_month.
  assert (m = 1 \/ m = 2 \/ m = 3 \/ m = 4 \/ m = 5 \/ m = 6 \/ m = 7 \/ m = 8 \/ m = 9 \/
          m = 10 \/ m = 11) as Hc by lia.
  destruct (is_leap y); repeat destruct Hc as [->|Hc]; subst; reflexivity.
Qed.

(** The first day of the next month follows the last day of this one. *)
Definition succ_month (ym : Z * Z) : Z * Z :=
  if ym.2 <? 12 then (ym.1, ym.2 + 1) else (ym.1 + 1, 1).

Lemma toordinal_succ_month y m :
  1 <= m <= 12 ->
  toordinal (succ_month (y, m)).1 (succ_month (y, m)).2 0 = toordinal y m 0 + days_in_month y m.
Proof.
  intros Hm. unfold succ_month, toordinal. cbn [fst snd]. destruct (Z.ltb_spec m 12); cbn [fst snd].
  - rewrite days_before_month_succ; lia.
  - replace m with 12 by lia. rewrite days_before_year_succ.
    unfold days_before_month, days_in_month. cbn. destruct (is_leap y); lia.
Qed.

Lemma toordinal_day y m d : toordinal y m d = toordinal y m 0 + d.
Proof. unfold toordinal. lia. Qed.

Lemma next_day_instant t :
  dt_valid t -> instant (next_day t) = instant t + day_micros.
Proof.
  intros (Hy & Hm & Hd & _). unfold instant, local_micros, next_day, day_micros.
  pose proof (toordinal_succ_month (dt_year t) (dt_month t) Hm) as Hs.
  unfold succ_month in Hs. cbn [fst snd] in Hs.
  destruct (Z.ltb_spec (dt_day t) (days_in_month (dt_year t) (dt_month t))).
  - unfold set_date, time_of_day. cbn. rewrite !(toordinal_day _ _ (dt_day t))
      (toordinal_day _ _ (dt_day t + 1)). lia.
  - destruct (Z.ltb_spec (dt_month t) 12); unfold set_date, time_of_day; cbn in *;
      rewrite (toordinal_day _ _ 1) Hs (toordinal_day _ _ (dt_day t)); lia.
Qed.

Lemma next_day_valid t : dt_valid t -> dt_year (next_day t) <= 9999 -> dt_valid (next_day t).
Proof.
  intros (Hy & Hm & Hd & Ht). unfold next_day, dt_valid.
  destruct (Z.ltb_spec (dt_day t) (days_in_month (dt_year t) (dt_month t))); cbn.
  - intros _. pose proof (days_in_month_bounds (dt_year t) (dt_month t)). lia.
  - destruct (Z.ltb_spec (dt_month t) 12); cbn; intros Hy'.
    + pose proof (days_in_month_bounds (dt_year t) (dt_month t + 1)). lia.
    + pose proof (days_in_month_bounds (dt_year t + 1) 1). lia.
Qed.

Lemma next_day_offset t : dt_offset (next_day t) = dt_offset t.
Proof. unfold next_day. by repeat case_match. Qed.

(** Adding days moves the instant by that many days and keeps the offset. *)
Lemma add_days_spec n t t' :
  dt_valid t -> add_days n t = Ok t' ->
  instant t' = instant t + Z.of_nat n * day_micros /\ dt_offset t' = dt_offset t /\ dt_valid t'.
Proof.
  revert t. induction n as [|n IH]; intros t Hv; cbn [add_days].
  - intros [= <-]. split_and!; [lia|done|done].
  - intros (u & Hu & H)%res_bind_Ok. apply ensure_Ok, Z.leb_le in Hu.
    destruct (IH _ (next_day_valid t Hv Hu) H) as (-> & -> & Hv').
    rewrite (next_day_instant t Hv) next_day_offset. split_and!; [lia|done|done].
Qed.

Lemma dt_eqb_refl t : dt_eqb t t = true.
Proof. unfold dt_eqb. by rewrite eqb_reflx Z.eqb_refl. Qed.

Lemma dt_opt_eqb_refl t : dt_opt_eqb t t = true.
Proof. destruct t; cbn; [apply dt_eqb_refl|done]. Qed.

Lemma dt_lt_aware a b :
  naive a = false -> naive b = false -> dt_lt a b = Ok (instant a <? instant b).
Proof. unfold dt_lt, comparable. by intros -> ->. Qed.

Lemma dt_le_aware a b :
  naive a = false -> naive b = false -> dt_le a b = Ok (instant a <=? instant b).
Proof. unfold dt_le, comparable. by intros -> ->. Qed.

#[export] Hint Resolve dt_eqb_refl dt_opt_eqb_refl : maestro.

Example ordinal_example : toordinal 2026 8 1 = 739829.
Proof. reflexivity. Qed.
