(* ===== verification/TopUpQuote.v ===== *)
(** * The commercial catalog and the top-up quotes

    Models [billing/commercial_catalog_contracts.py] (the plans offered, bound to the
    selected prices) and [billing/commercial_quota_top_up_contracts.py] (the bundles a
    plan may buy, their price and the upgrade advice).  A price the catalog reads back
    with [Decimal(str(price))] is that price. *)
From Stdlib Require Import QArith Qfield.
From S2P Require Import Prelude PyString PyDecimal PricingReview PyDateTime.
#[local] Open Scope Z_scope.

Definition value_require (b : bool) (msg : string) : res unit := ensure b ValueError msg.

(** ** The catalog *)

Inductive PlanAudience := AudAcademic | AudIndividual | AudBusiness | AudEnterprise.
Inductive OfferVisibility := PublicCandidate | EnterpriseSales | ContractOnly.
Inductive EntitlementCode :=
  MAESTRO_EXECUTION | BYOK_PROVIDER_CONNECTION | STANDARD_SUPPORT | BUSINESS_SUPPORT
| ENTERPRISE_GOVERNANCE | ADVANCED_INTEGRATION | ACADEMIC_USE.

Record CatalogPlanContract := {
  cp_plan_code : string;
  audience : PlanAudience;
  visibility : OfferVisibility;
  included_maestro_units : Z;
  monthly_price_usd : dec;
  annual_price_usd : dec;
  overage_per_1000_usd : dec;
  entitlements : list EntitlementCode;
  seat_limit : option Z;
  published : bool;
  purchasable : bool;
  quota_enforced : bool
}.

Definition CatalogPlanContract_post_init (p : CatalogPlanContract) : res CatalogPlanContract :=
  _ ← value_require (negb (blank (cp_plan_code p))) "plan_code must not be blank";
  _ ← value_require (0 <? included_maestro_units p) "included_maestro_units must be positive";
  _ ← value_require (dec_ltb ZERO (monthly_price_usd p)) "monthly_price_usd must be positive";
  _ ← value_require (dec_ltb ZERO (annual_price_usd p)) "annual_price_usd must be positive";
  _ ← value_require (dec_ltb ZERO (overage_per_1000_usd p)) "overage_per_1000_usd must be positive";
  _ ← value_require (match entitlements p with [] => false | _ => true end)
        "entitlements must not be empty";
  _ ← value_require
        (match audience p, seat_limit p with AudEnterprise, Some _ => false | _, _ => true end)
        "enterprise plans must not be seat based";
  _ ← value_require (negb (published p || purchasable p || quota_enforced p))
        "Group 2 catalog contracts must remain non-activating";
  mret p.

Definition PLAN_POLICY
  : list (string * (PlanAudience * OfferVisibility * list EntitlementCode * option Z)) :=
  [ ("academic", (AudAcademic, PublicCandidate,
      [MAESTRO_EXECUTION; BYOK_PROVIDER_CONNECTION; STANDARD_SUPPORT; ACADEMIC_USE], Some 1));
    ("starter", (AudIndividual, PublicCandidate,
      [MAESTRO_EXECUTION; BYOK_PROVIDER_CONNECTION; STANDARD_SUPPORT], Some 1));
    ("enterprise_integration_starter", (AudEnterprise, EnterpriseSales,
      [MAESTRO_EXECUTION; BYOK_PROVIDER_CONNECTION; BUSINESS_SUPPORT; ADVANCED_INTEGRATION;
       ENTERPRISE_GOVERNANCE], None));
    ("business", (AudBusiness, PublicCandidate,
      [MAESTRO_EXECUTION; BYOK_PROVIDER_CONNECTION; BUSINESS_SUPPORT], None));
    ("enterprise_pilot", (AudEnterprise, EnterpriseSales,
      [MAESTRO_EXECUTION; BYOK_PROVIDER_CONNECTION; BUSINESS_SUPPORT; ENTERPRISE_GOVERNANCE], None));
    ("enterprise_core", (AudEnterprise, EnterpriseSales,
      [MAESTRO_EXECUTION; BYOK_PROVIDER_CONNECTION; BUSINESS_SUPPORT; ENTERPRISE_GOVERNANCE], None));
    ("enterprise_scale", (AudEnterprise, EnterpriseSales,
      [MAESTRO_EXECUTION; BYOK_PROVIDER_CONNECTION; BUSINESS_SUPPORT; ENTERPRISE_GOVERNANCE;
       ADVANCED_INTEGRATION], None));
    ("enterprise_strategic", (AudEnterprise, ContractOnly,
      [MAESTRO_EXECUTION; BYOK_PROVIDER_CONNECTION; BUSINESS_SUPPORT; ENTERPRISE_GOVERNANCE;
       ADVANCED_INTEGRATION], None)) ].

Definition CANONICAL_PLAN_ORDER : list string :=
  ["academic"; "starter"; "enterprise_integration_starter"; "business"; "enterprise_pilot";
   "enterprise_core"; "enterprise_scale"; "enterprise_strategic"].

(** [d[k]]. *)
Definition dict_item {V} (d : list (string * V)) (k : string) : res V :=
  match dict_get d k with Some v => mret v | None => raise KeyError k end.

Definition selected_contract_values (expected_plan_code : string) (plan : SelectedPlanProposal)
  : res (Z * dec * dec * dec) :=
  let plan_code := lower (strip (sp_plan_id plan)) in
  _ ← value_require (bool_decide (plan_code = expected_plan_code))
        "Selected-pricing plan order does not match canonical catalog order";
  mret (sp_monthly_unit_allowance plan, selected_monthly_price plan, selected_yearly_price plan,
        selected_overage_price_per_1000_units plan).

(** The contract of one plan of the proposal. *)
Definition catalog_contract (entry : string * SelectedPlanProposal) : res CatalogPlanContract :=
  let (code, plan) := entry in
  values ← selected_contract_values code plan;
  let '(units, monthly, annual, overage) := values in
  policy ← dict_item PLAN_POLICY code;
  let '(aud, vis, ents, seats) := policy in
  CatalogPlanContract_post_init
    {| cp_plan_code := code; audience := aud; visibility := vis; included_maestro_units := units;
       monthly_price_usd := monthly; annual_price_usd := annual; overage_per_1000_usd := overage;
       entitlements := ents; seat_limit := seats; published := false; purchasable := false;
       quota_enforced := false |}.

Definition build_catalog_plan_contracts : res (list CatalogPlanContract) :=
  plans ← build_selected_pricing_proposal;
  _ ← value_require (Nat.eqb (length plans) (length CANONICAL_PLAN_ORDER))
        "Selected-pricing plan count does not match canonical catalog order";
  traverse catalog_contract (zip CANONICAL_PLAN_ORDER plans).

(** ** Top-up policies *)

Inductive TopUpRolloverPolicy := EXPIRES_WITH_BILLING_CYCLE | CONTRACT_DEFINED.
Inductive TopUpPurchaseState :=
  READY_FOR_REVIEW | BELOW_MINIMUM | INVALID_MULTIPLE | ABOVE_MAXIMUM | UPGRADE_RECOMMENDED
| DISABLED.
#[global] Instance TopUpPurchaseState_eq_dec : EqDecision TopUpPurchaseState.
Proof. solve_decision. Defined.

(** [state.value]. *)
Definition purchase_state_value (s : TopUpPurchaseState) : string :=
  match s with
  | READY_FOR_REVIEW => "ready_for_review"
  | BELOW_MINIMUM => "below_minimum"
  | INVALID_MULTIPLE => "invalid_multiple"
  | ABOVE_MAXIMUM => "above_maximum"
  | UPGRADE_RECOMMENDED => "upgrade_recommended"
  | DISABLED => "disabled"
  end.

Record TopUpPolicy := {
  tp_plan_code : string;
  bundle_units : Z;
  minimum_bundle_count : Z;
  maximum_bundle_count : Z;
  price_per_bundle_usd : dec;
  rollover_policy : TopUpRolloverPolicy;
  tp_purchase_enabled : bool
}.

Definition TopUpPolicy_post_init (p : TopUpPolicy) : res TopUpPolicy :=
  _ ← value_require (negb (blank (tp_plan_code p))) "plan_code must not be blank";
  _ ← value_require (0 <? bundle_units p) "bundle_units must be positive";
  _ ← value_require (0 <? minimum_bundle_count p) "minimum_bundle_count must be positive";
  _ ← value_require (minimum_bundle_count p <=? maximum_bundle_count p)
        "maximum_bundle_count must not be below minimum";
  _ ← value_require (dec_ltb ZERO (price_per_bundle_usd p)) "price_per_bundle_usd must be positive";
  _ ← value_require (negb (tp_purchase_enabled p))
        "public Group 2 top-up exposure must remain disabled";
  mret p.

Definition TOP_UP_POLICY_INPUTS : list (string * (Z * Z * Z * TopUpRolloverPolicy)) :=
  [ ("academic", (5000, 1, 4, EXPIRES_WITH_BILLING_CYCLE));
    ("starter", (10000, 1, 8, EXPIRES_WITH_BILLING_CYCLE));
    ("enterprise_integration_starter", (25000, 1, 8, CONTRACT_DEFINED));
    ("business", (25000, 1, 16, EXPIRES_WITH_BILLING_CYCLE));
    ("enterprise_pilot", (100000, 1, 10, CONTRACT_DEFINED));
    ("enterprise_core", (250000, 1, 10, CONTRACT_DEFINED));
    ("enterprise_scale", (500000, 1, 8, CONTRACT_DEFINED));
    ("enterprise_strategic", (500000, 1, 10, CONTRACT_DEFINED)) ].

Definition catalog_by_code : res (list (string * CatalogPlanContract)) :=
  plans ← build_catalog_plan_contracts;
  mret (map (fun p => (cp_plan_code p, p)) plans).

(** The policy of one entry of the table. *)
Definition top_up_policy (catalog : list (string * CatalogPlanContract))
    (entry : string * (Z * Z * Z * TopUpRolloverPolicy)) : res TopUpPolicy :=
  let '(plan_code, (units, minimum, maximum, policy)) := entry in
  plan ← dict_item catalog plan_code;
  raw ← dec_div (dec_mul (overage_per_1000_usd plan) (dec_int units)) (dec_int 1000);
  price ← quantize ROUND_HALF_EVEN (-2) raw;
  TopUpPolicy_post_init
    {| tp_plan_code := plan_code; bundle_units := units; minimum_bundle_count := minimum;
       maximum_bundle_count := maximum; price_per_bundle_usd := price;
       rollover_policy := policy; tp_purchase_enabled := false |}.

Definition build_top_up_policies : res (list TopUpPolicy) :=
  catalog ← catalog_by_code;
  traverse (top_up_policy catalog) TOP_UP_POLICY_INPUTS.

(** [ordered[ordered.index(code) + 1]], or [None]. *)
Fixpoint next_in (ordered : list string) (code : string) : option string :=
  match ordered with
  | [] => None
  | c :: rest => if bool_decide (c = code) then head rest else next_in rest code
  end.

Definition next_plan_code (plan_code : string) : option string :=
  if bool_decide (plan_code = "enterprise_integration_starter") then Some "business"
  else next_in ["academic"; "starter"; "business"; "enterprise_pilot"; "enterprise_core";
                "enterprise_scale"; "enterprise_strategic"] plan_code.

(** ** Quotes *)

Record TopUpQuote := {
  tq_plan_code : string;
  requested_units : Z;
  tq_bundle_units : Z;
  bundle_count : Z;
  total_units : Z;
  total_price_usd : dec;
  tq_state : TopUpPurchaseState;
  upgrade_plan_code : option string;
  upgrade_monthly_difference_usd : option dec;
  tq_purchase_enabled : bool
}.

(** The bundles, units, price and state before the upgrade advice. *)
Definition quote_bundles (p : TopUpPolicy) (requested : Z)
  : res (TopUpPurchaseState * Z * Z * dec) :=
  let none (st : TopUpPurchaseState) := mret (st, 0, 0, Dec 0 (-2)) in
  if requested <? bundle_units p * minimum_bundle_count p then none BELOW_MINIMUM
  else if bundle_units p * maximum_bundle_count p <? requested then none ABOVE_MAXIMUM
  else if negb (requested mod bundle_units p =? 0) then none INVALID_MULTIPLE
  else
    let count := requested / bundle_units p in
    price ← quantize ROUND_HALF_EVEN (-2) (dec_mul (price_per_bundle_usd p) (dec_int count));
    mret (READY_FOR_REVIEW, count, count * bundle_units p, price).

(** The advice: the state and the monthly difference to the next plan. *)
Definition upgrade_advice (catalog : list (string * CatalogPlanContract)) (plan_code : string)
    (state : TopUpPurchaseState) (price : dec) : res (TopUpPurchaseState * option dec) :=
  match state, next_plan_code plan_code with
  | READY_FOR_REVIEW, Some upgrade =>
      current ← dict_item catalog plan_code;
      next ← dict_item catalog upgrade;
      difference ← quantize ROUND_HALF_EVEN (-2)
                     (dec_sub (monthly_price_usd next) (monthly_price_usd current));
      mret (if dec_ltb ZERO difference && dec_leb difference price
            then UPGRADE_RECOMMENDED else READY_FOR_REVIEW, Some difference)
  | _, _ => mret (state, None)
  end.

Definition quote_top_up_base (plan_code : string) (requested : Z) : res TopUpQuote :=
  policies ← build_top_up_policies;
  catalog ← catalog_by_code;
  match find (fun p => bool_decide (tp_plan_code p = plan_code)) policies with
  | None => raise ValueError ("Unknown top-up plan: " +:+ plan_code)
  | Some policy =>
      _ ← value_require (0 <? requested) "requested_units must be positive";
      bundles ← quote_bundles policy requested;
      let '(state, count, total, price) := bundles in
      advice ← upgrade_advice catalog plan_code state price;
      mret {| tq_plan_code := plan_code; requested_units := requested;
              tq_bundle_units := bundle_units policy; bundle_count := count; total_units := total;
              total_price_usd := price; tq_state := fst advice;
              upgrade_plan_code := next_plan_code plan_code;
              upgrade_monthly_difference_usd := snd advice; tq_purchase_enabled := false |}
  end.

(** [replace(quote, state=...)]. *)
Definition with_state (st : TopUpPurchaseState) (q : TopUpQuote) : TopUpQuote :=
  {| tq_plan_code := tq_plan_code q; requested_units := requested_units q;
     tq_bundle_units := tq_bundle_units q; bundle_count := bundle_count q;
     total_units := total_units q; total_price_usd := total_price_usd q; tq_state := st;
     upgrade_plan_code := upgrade_plan_code q;
     upgrade_monthly_difference_usd := upgrade_monthly_difference_usd q;
     tq_purchase_enabled := tq_purchase_enabled q |}.

Definition quote_top_up (plan_code : string) (requested : Z) : res TopUpQuote :=
  quote ← quote_top_up_base plan_code requested;
  if bool_decide (tq_state quote = READY_FOR_REVIEW) then mret (with_state DISABLED quote)
  else mret quote.

Definition quote_top_up_for_runtime (plan_code : string) (requested : Z) : res TopUpQuote :=
  quote_top_up_base plan_code requested.

(** ** The tables *)

Definition ok_or {A} (d : A) (r : res A) : A := match r with Ok a => a | Raise _ => d end.

(** The policies and the catalog the tables give. *)
Definition top_up_policies : list TopUpPolicy := Eval vm_compute in
  ok_or [] build_top_up_policies.
Definition top_up_catalog : list (string * CatalogPlanContract) := Eval vm_compute in
  ok_or [] catalog_by_code.

Lemma policies_built : build_top_up_policies = Ok top_up_policies.
Proof. vm_compute. reflexivity. Qed.
Lemma catalog_built : catalog_by_code = Ok top_up_catalog.
Proof. vm_compute. reflexivity. Qed.

(** What the tables guarantee of a policy: small whole bundles, priced in cents at the
    overage price of the plan, with an upgrade that can be compared. *)
Definition policy_ok (p : TopUpPolicy) : bool :=
  match dict_get TOP_UP_POLICY_INPUTS (tp_plan_code p) with
  | Some (units, minimum, maximum, _) =>
      (bundle_units p =? units) && (minimum_bundle_count p =? minimum) &&
      (maximum_bundle_count p =? maximum)
  | None => false
  end &&
  match dict_get SELECTED_OVERAGE_PRICES_PER_1000_UNITS (tp_plan_code p) with
  | Some o => (dexp o =? -2) && (coef (price_per_bundle_usd p) * 1000 =? coef o * bundle_units p)
  | None => false
  end &&
  (dexp (price_per_bundle_usd p) =? -2) && (0 <? coef (price_per_bundle_usd p)) &&
  (coef (price_per_bundle_usd p) <? 10 ^ 6) && (0 <? bundle_units p) &&
  (0 <? minimum_bundle_count p) && (maximum_bundle_count p <=? 16) &&
  is_ok (upgrade_advice top_up_catalog (tp_plan_code p) READY_FOR_REVIEW ZERO).

Lemma policies_ok : forallb policy_ok top_up_policies = true.
Proof. vm_compute. reflexivity. Qed.

Lemma policies_cover : map tp_plan_code top_up_policies = map fst TOP_UP_POLICY_INPUTS.
Proof. vm_compute. reflexivity. Qed.

#[global] Opaque top_up_policies top_up_catalog build_top_up_policies catalog_by_code.

(** The policy of a plan, found exactly when the table has an entry. *)
Definition policy_of (code : string) : option TopUpPolicy :=
  find (fun p => bool_decide (tp_plan_code p = code)) top_up_policies.

Lemma policy_of_Some code p : policy_of code = Some p -> tp_plan_code p = code /\ policy_ok p = true.
Proof.
  unfold policy_of. intros H. apply find_some in H as [Hin Hc]. apply bool_decide_eq_true in Hc. split; [exact Hc|].
  exact (proj1 (forallb_forall _ _) policies_ok p Hin).
Qed.

Lemma policy_of_None code : policy_of code = None <-> dict_get TOP_UP_POLICY_INPUTS code = None.
Proof.
  split.
  - intros Hf. apply dict_get_None. unfold dict_keys. rewrite -[_.*1]policies_cover.
    intros (p & -> & Hp)%list_elem_of_fmap. apply list_elem_of_In in Hp.
    pose proof (find_none _ _ Hf p Hp) as Hn. cbn in Hn. by rewrite bool_decide_eq_true_2 in Hn.
  - destruct (policy_of code) as [p|] eqn:E; [|done].
    apply policy_of_Some in E as [Hc Hok]. unfold policy_ok in Hok. rewrite Hc in Hok.
    destruct (dict_get TOP_UP_POLICY_INPUTS code); done.
Qed.

(** The bundles of a request under a policy of the tables. *)
Definition sells (p : TopUpPolicy) (n : Z) : bool :=
  (bundle_units p * minimum_bundle_count p <=? n) &&
  (n <=? bundle_units p * maximum_bundle_count p) && (n mod bundle_units p =? 0).

Definition bundle_price (p : TopUpPolicy) (count : Z) : dec :=
  Dec (coef (price_per_bundle_usd p) * count) (-2).

Lemma quantize_same_exp m q d : dexp d = q -> Z.abs (coef d) < 10 ^ PREC -> quantize m q d = Ok d.
Proof.
  destruct d as [c e]. cbn. intros -> H. unfold quantize, adjusted, align. cbn.
  destruct (Z.eqb_spec c 0) as [->|_]; [done|]. pose proof (ndigits_le c PREC ltac:(done) H).
  rewrite (proj2 (Z.ltb_ge PREC (q + ndigits c - 1 - q + 1))); [lia|].
  rewrite Z.leb_refl Z.sub_diag Z.mul_1_r (proj2 (Z.ltb_ge PREC (ndigits c))); [lia|done].
Qed.

Lemma quote_bundles_spec p n :
  policy_ok p = true -> 0 < n ->
  exists st count total price, quote_bundles p n = Ok (st, count, total, price) /\
    if sells p n
    then st = READY_FOR_REVIEW /\ 0 < count /\ n = count * bundle_units p /\ total = n /\
         price = bundle_price p count
    else (st = BELOW_MINIMUM \/ st = ABOVE_MAXIMUM \/ st = INVALID_MULTIPLE) /\ count = 0 /\
         total = 0 /\ price = Dec 0 (-2).
Proof.
  unfold policy_ok. intros Hok Hn. to_prop. unfold quote_bundles, sells.
  destruct (Z.ltb_spec n (bundle_units p * minimum_bundle_count p)) as [Hlo|Hlo].
  { rewrite (proj2 (Z.leb_gt _ _)) //. do 4 eexists. split; [done|]. cbn. split_and!; auto. }
  rewrite (proj2 (Z.leb_le (bundle_units p * minimum_bundle_count p) n)) //.
  destruct (Z.ltb_spec (bundle_units p * maximum_bundle_count p) n) as [Hhi|Hhi].
  { rewrite (proj2 (Z.leb_gt n _)) //. do 4 eexists. split; [done|]. cbn. split_and!; auto. }
  rewrite (proj2 (Z.leb_le n _)) //=.
  destruct (Z.eqb_spec (n mod bundle_units p) 0) as [Hmod|Hmod]; cbn.
  2:{ do 4 eexists. split; [done|]. cbn. split_and!; auto. }
  set (count := n / bundle_units p).
  assert (Hnc : n = count * bundle_units p) by (Z.to_euclidean_division_equations; lia).
  assert (Hc : 0 < count <= 16) by nia.
  assert (Hmul : dec_mul (price_per_bundle_usd p) (dec_int count) = bundle_price p count).
  { rewrite dec_mul_exact; cbn; [change (10 ^ PREC) with (10 ^ 28); nia|].
    unfold bundle_price. f_equal. lia. }
  rewrite Hmul quantize_same_exp //; [cbn; change (10 ^ PREC) with (10 ^ 28); nia|].
  do 4 eexists. split; [done|]. split_and!; try done; lia.
Qed.

(** The price of [count] bundles is the overage price of the units they hold. *)
Lemma bundle_price_exact p count o :
  policy_ok p = true ->
  dict_get SELECTED_OVERAGE_PRICES_PER_1000_UNITS (tp_plan_code p) = Some o ->
  (dval (bundle_price p count) == inject_Z (count * bundle_units p) * dval o / 1000)%Q.
Proof.
  unfold policy_ok. intros Hok Ho. rewrite Ho in Hok. to_prop. unfold dval, bundle_price. cbn [coef dexp].
  assert (Hc : coef (price_per_bundle_usd p) * 1000 = coef o * bundle_units p) by done.
  assert (He : dexp o = -2) by done. rewrite He.
  assert (E : (inject_Z (coef (price_per_bundle_usd p)) * 1000
               == inject_Z (coef o) * inject_Z (bundle_units p))%Q).
  { change 1000%Q with (inject_Z 1000). by rewrite -!inject_Z_mult Hc. }
  rewrite !inject_Z_mult. generalize ((10 # 1) ^ (-2))%Q. intros t.
  apply (Qmult_inj_r _ _ 1000); [done|]. unfold Qdiv.
  transitivity ((inject_Z (coef (price_per_bundle_usd p)) * 1000) * inject_Z count * t)%Q; [ring|].
  rewrite E. field.
Qed.

Lemma upgrade_advice_ok catalog code st price price' :
  is_ok (upgrade_advice catalog code READY_FOR_REVIEW price') = true ->
  exists st' d, upgrade_advice catalog code st price = Ok (st', d) /\
    (st' = st \/ st = READY_FOR_REVIEW /\ st' = UPGRADE_RECOMMENDED).
Proof.
  unfold upgrade_advice. destruct st; try (eexists _, _; split; [done|by left]).
  destruct (next_plan_code code) as [up|]; [|eexists _, _; split; [done|by left]].
  destruct (dict_item catalog code) as [c1|]; [|done].
  destruct (dict_item catalog up) as [c2|]; [|done]. cbn.
  destruct (quantize _ _ _) as [d|]; [|done]. cbn. intros _.
  eexists _, _. split; [done|]. destruct (_ && _); [by right|by left].
Qed.

(** What a quote says under the policy of its plan. *)
Definition quote_ok (p : TopUpPolicy) (n : Z) (q : TopUpQuote) : Prop :=
  tq_plan_code q = tp_plan_code p /\ requested_units q = n /\ tq_bundle_units q = bundle_units p /\
  tq_purchase_enabled q = false /\
  if sells p n
  then (tq_state q = READY_FOR_REVIEW \/ tq_state q = UPGRADE_RECOMMENDED) /\
       0 < bundle_count q /\ n = bundle_count q * bundle_units p /\ total_units q = n /\
       total_price_usd q = bundle_price p (bundle_count q)
  else (tq_state q = BELOW_MINIMUM \/ tq_state q = ABOVE_MAXIMUM \/ tq_state q = INVALID_MULTIPLE) /\
       bundle_count q = 0 /\ total_units q = 0 /\ total_price_usd q = Dec 0 (-2).

Lemma quote_top_up_base_spec code n :
  match policy_of code with
  | None => quote_top_up_base code n = raise ValueError ("Unknown top-up plan: " +:+ code)
  | Some p =>
      if 0 <? n then exists q, quote_top_up_base code n = Ok q /\ quote_ok p n q
      else quote_top_up_base code n = raise ValueError "requested_units must be positive"
  end.
Proof.
  unfold quote_top_up_base. rewrite policies_built catalog_built. cbn [mbind res_bind].
  change (find _ top_up_policies) with (policy_of code).
  destruct (policy_of code) as [p|] eqn:Hp; [|done].
  apply policy_of_Some in Hp as [Hcode Hok]. subst code.
  destruct (Z.ltb_spec 0 n) as [Hn|Hn]; [|done]. cbn [value_require ensure mbind res_bind].
  destruct (quote_bundles_spec p n Hok Hn) as (st & count & total & price & -> & Hs). cbn [mbind res_bind].
  assert (Hadv : is_ok (upgrade_advice top_up_catalog (tp_plan_code p) READY_FOR_REVIEW ZERO) = true)
    by (unfold policy_ok in Hok; by to_prop).
  destruct (upgrade_advice_ok _ _ st price _ Hadv) as (st' & d & -> & Hst').
  eexists. split; [done|]. unfold quote_ok. cbn. split_and!; try done.
  destruct (sells p n).
  - destruct Hs as (-> & Hc & Hnc & -> & ->). split_and!; try done. naive_solver.
  - destruct Hs as (Hst & -> & -> & ->). split_and!; try done.
    destruct Hst' as [->|[Hst' _]]; [done|]. by destruct Hst as [?|[?|?]]; subst.
Qed.

Lemma quote_top_up_preview code n :
  quote_top_up code n =
    (q ← quote_top_up_for_runtime code n;
     mret (if bool_decide (tq_state q = READY_FOR_REVIEW) then with_state DISABLED q else q)).
Proof.
  unfold quote_top_up, quote_top_up_for_runtime. destruct (quote_top_up_base code n) as [q|]; [|done].
  cbn. by case_bool_decide.
Qed.

(** The preview quotes the units and the price the runtime would charge. *)
Lemma quote_top_up_spec code n :
  match policy_of code with
  | None => quote_top_up code n = raise ValueError ("Unknown top-up plan: " +:+ code)
  | Some p =>
      if 0 <? n
      then exists q q', quote_top_up code n = Ok q /\ quote_top_up_for_runtime code n = Ok q' /\
             quote_ok p n q' /\ bundle_count q = bundle_count q' /\ total_units q = total_units q' /\
             total_price_usd q = total_price_usd q'
      else quote_top_up code n = raise ValueError "requested_units must be positive"
  end.
Proof.
  pose proof (quote_top_up_base_spec code n) as H. rewrite quote_top_up_preview.
  unfold quote_top_up_for_runtime. destruct (policy_of code) as [p|]; [|by rewrite H].
  destruct (0 <? n); [|by rewrite H]. destruct H as (q & -> & Hq). cbn.
  case_bool_decide; eexists _, q; split_and!; done.
Qed.

(** * Currency settlement

    Models [billing/commercial_currency_settlement_contracts.py]: the exchange-rate quote
    of one purchase, the TND amount of a USD price and the settlement of a channel. *)
Inductive TopUpCheckoutChannel := LOCAL_TUNISIA | LEMON_SQUEEZY.
#[global] Instance TopUpCheckoutChannel_eq_dec : EqDecision TopUpCheckoutChannel.
Proof. solve_decision. Defined.

(** [channel.value]. *)
Definition channel_value (c : TopUpCheckoutChannel) : string :=
  match c with LOCAL_TUNISIA => "local_tunisia" | LEMON_SQUEEZY => "lemon_squeezy" end.

Definition AUTHORITATIVE_PRICING_CURRENCY : string := "USD".
Definition LOCAL_TUNISIA_SETTLEMENT_CURRENCY : string := "TND".

(** The exponents of [USD_QUANTUM] and [TND_QUANTUM]. *)
Definition USD_QUANTUM : Z := -2.
Definition TND_QUANTUM : Z := -3.

Record ExchangeRateQuote := {
  base_currency : string;
  settlement_currency : string;
  eq_rate : dec;
  eq_source : string;
  eq_reference : string;
  observed_at : datetime;
  eq_expires_at : datetime
}.

Definition is_finite (d : Decimal) : bool := match d with Finite _ => true | NonFinite => false end.

(** The constructor: validation and normalisation of its arguments. *)
Definition ExchangeRateQuote_init (base settlement : string) (r : Decimal)
    (source reference : string) (observed expires : datetime) : res ExchangeRateQuote :=
  let normalized_base := upper (strip base) in
  let normalized_settlement := upper (strip settlement) in
  _ ← ensure (bool_decide (normalized_base = AUTHORITATIVE_PRICING_CURRENCY)) ValueError
        "exchange-rate base currency must be USD";
  _ ← ensure (bool_decide (normalized_settlement = LOCAL_TUNISIA_SETTLEMENT_CURRENCY)) ValueError
        "exchange-rate settlement currency must be TND";
  match r with
  | NonFinite => raise ValueError "exchange rate must be finite"
  | Finite rate =>
      _ ← ensure (dec_ltb (dec_int 0) rate) ValueError "exchange rate must be positive";
      _ ← reject_if (blank source) ValueError "exchange-rate source must not be blank";
      _ ← reject_if (blank reference) ValueError "exchange-rate reference must not be blank";
      _ ← reject_if (naive observed) ValueError "exchange-rate observed_at must be timezone-aware";
      _ ← reject_if (naive expires) ValueError "exchange-rate expires_at must be timezone-aware";
      late ← dt_le expires observed;
      _ ← reject_if late ValueError "exchange-rate expires_at must be after observed_at";
      mret {| base_currency := normalized_base; settlement_currency := normalized_settlement;
              eq_rate := rate; eq_source := strip source; eq_reference := strip reference;
              observed_at := observed; eq_expires_at := expires |}
  end.

Definition is_expired_at (q : ExchangeRateQuote) (t : datetime) : res bool :=
  _ ← reject_if (naive t) ValueError "quote comparison instant must be timezone-aware";
  dt_le (eq_expires_at q) t.

(** The argument is a [Decimal]; of anything else the code raises [TypeError]. *)
Definition require_positive_finite_decimal (v : Decimal) (field_name : string) : res unit :=
  match v with
  | NonFinite => raise ValueError (field_name +:+ " must be finite")
  | Finite d => ensure (dec_ltb (dec_int 0) d) ValueError (field_name +:+ " must be positive")
  end.

Definition calculate_tnd_settlement (amount_usd usd_tnd_rate : dec) : res dec :=
  _ ← require_positive_finite_decimal (Finite amount_usd) "amount_usd";
  _ ← require_positive_finite_decimal (Finite usd_tnd_rate) "usd_tnd_rate";
  quantize ROUND_HALF_UP TND_QUANTUM (dec_mul amount_usd usd_tnd_rate).

Definition validate_channel_settlement (channel : TopUpCheckoutChannel) (price : dec)
    (currency : string) (amount : dec) (quote : option ExchangeRateQuote) : res unit :=
  _ ← require_positive_finite_decimal (Finite price) "total_price_usd";
  _ ← require_positive_finite_decimal (Finite amount) "settlement_amount";
  let normalized_currency := upper (strip currency) in
  match channel with
  | LEMON_SQUEEZY =>
      _ ← ensure (bool_decide (normalized_currency = AUTHORITATIVE_PRICING_CURRENCY)) ValueError
            "Lemon Squeezy settlement currency must be USD";
      expected ← quantize ROUND_HALF_UP USD_QUANTUM price;
      actual ← quantize ROUND_HALF_UP USD_QUANTUM amount;
      _ ← ensure (dec_eqb actual expected) ValueError
            "Lemon Squeezy settlement amount must equal USD order price";
      match quote with
      | None => mret tt
      | Some _ => raise ValueError "Lemon Squeezy settlement must not include exchange-rate data"
      end
  | LOCAL_TUNISIA =>
      _ ← ensure (bool_decide (normalized_currency = LOCAL_TUNISIA_SETTLEMENT_CURRENCY)) ValueError
            "Tunisia-local settlement currency must be TND";
      match quote with
      | None => raise ValueError "Tunisia-local settlement requires an exchange-rate quote"
      | Some q =>
          expected ← calculate_tnd_settlement price (eq_rate q);
          actual ← quantize ROUND_HALF_UP TND_QUANTUM amount;
          ensure (dec_eqb actual expected) ValueError
            "Tunisia-local settlement amount does not match fixed quote"
      end
  end.
