(* ===== verification/PyText.v ===== *)
(** * Numbers, identifiers and amounts as text *)
From stdpp Require Import pretty.
From Stdlib Require Import Ascii.
From S2P Require Import Prelude PyString PyDecimal PyDateTime.
#[local] Open Scope Z_scope.

(** * Numbers and identifiers as text

    What the webhook code uses of Python's text to number conversions, on ASCII:
    [str.isdecimal], [int(text)], [Decimal(text)] and [format(d, "f")],
    [uuid.UUID(text)] with [str(uuid)], and [datetime.isoformat]. *)

Definition code (c : ascii) : Z := Z.of_N (N_of_ascii c).
Definition in_range (lo hi n : Z) : bool := (lo <=? n) && (n <=? hi).
Definition is_digit (c : ascii) : bool := in_range 48 57 (code c).
Definition is_alpha (c : ascii) : bool := in_range 65 90 (code c) || in_range 97 122 (code c).
Definition is_alnum (c : ascii) : bool := is_digit c || is_alpha c.

Fixpoint all_chars (p : ascii -> bool) (s : string) : bool :=
  match s with EmptyString => true | String c s' => p c && all_chars p s' end.
Fixpoint keep_chars (p : ascii -> bool) (s : string) : string :=
  match s with
  | EmptyString => EmptyString
  | String c s' => if p c then String c (keep_chars p s') else keep_chars p s'
  end.
(** The longest prefix of characters in [p], and the rest. *)
Fixpoint span_chars (p : ascii -> bool) (s : string) : string * string :=
  match s with
  | EmptyString => (EmptyString, EmptyString)
  | String c s' => if p c then let (a, b) := span_chars p s' in (String c a, b)
                   else (EmptyString, s)
  end.

Definition nonempty (s : string) : bool := match s with EmptyString => false | _ => true end.

(** [sep.join(fields)]. *)
Fixpoint join (sep : string) (fields : list string) : string :=
  match fields with
  | [] => ""
  | [f] => f
  | f :: rest => f +:+ sep +:+ join sep rest
  end.

(** ** Integers *)

(** The value of digits in a base, after [acc]. *)
Definition digit_value (c : ascii) : option Z :=
  let n := code c in
  if in_range 48 57 n then Some (n - 48)
  else if in_range 65 90 n then Some (n - 55)
  else if in_range 97 122 n then Some (n - 87) else None.
Fixpoint digits_value (base acc : Z) (s : string) : option Z :=
  match s with
  | EmptyString => Some acc
  | String c s' =>
      match digit_value c with
      | Some d => if d <? base then digits_value base (acc * base + d) s' else None
      | None => None
      end
  end.

Definition isdecimal (s : string) : bool := nonempty s && all_chars is_digit s.

(** [int(text)] of decimal digits; Python refuses more than 4300 of them. *)
Definition int_of_digits (s : string) : res Z :=
  if (4300 <? String.length s)%nat then raise ValueError "Exceeds the limit (4300 digits) for integer string conversion"
  else match digits_value 10 0 s with
       | Some n => mret n
       | None => raise ValueError "invalid literal for int() with base 10"
       end.

(** ** Decimals *)

Inductive decimal_text :=
  | DFinite (neg : bool) (c e : Z)
  | DInfinity (neg : bool)
  | DNaN (signaling : bool).

Definition take_sign (s : string) : bool * string :=
  match s with
  | String c s' => if Ascii.eqb c "-"%char then (true, s')
                   else if Ascii.eqb c "+"%char then (false, s') else (false, s)
  | EmptyString => (false, s)
  end.

(** The fraction: nothing, or a point and digits. *)
Definition take_fraction (s : string) : string * string :=
  match s with
  | String c s' => if Ascii.eqb c "."%char then span_chars is_digit s' else (EmptyString, s)
  | EmptyString => (EmptyString, s)
  end.

(** The exponent: nothing, or an E, a sign and digits, to the end of the text. *)
Definition take_exponent (s : string) : option Z :=
  match s with
  | EmptyString => Some 0
  | String c s' =>
      if Ascii.eqb c "e"%char || Ascii.eqb c "E"%char then
        let (neg, ds) := take_sign s' in
        if isdecimal ds then (fun n => if neg : bool then - n else n) <$> digits_value 10 0 ds
        else None
      else None
  end.

Definition special_text (neg : bool) (s : string) : option decimal_text :=
  let l := lower s in
  if bool_decide (l = "inf") || bool_decide (l = "infinity") then Some (DInfinity neg)
  else if String.prefix "nan" l && all_chars is_digit (String.substring 3 (String.length l) l)
  then Some (DNaN false)
  else if String.prefix "snan" l && all_chars is_digit (String.substring 4 (String.length l) l)
  then Some (DNaN true)
  else None.

(** [Decimal(text)]; [None] where it raises InvalidOperation. *)
Definition decimal_of_text (text : string) : option decimal_text :=
  let s := keep_chars (fun c => negb (Ascii.eqb c "_"%char)) (strip text) in
  let (neg, s1) := take_sign s in
  let (whole, s2) := span_chars is_digit s1 in
  let (frac, s3) := take_fraction s2 in
  if nonempty (whole +:+ frac) then
    match digits_value 10 0 (whole +:+ frac), take_exponent s3 with
    | Some c, Some x => Some (DFinite neg c (x - Z.of_nat (String.length frac)))
    | _, _ => None
    end
  else special_text neg s1.

(** [format(d, "f")] of the finite decimal [c * 10^e] with its sign. *)
Definition format_f (neg : bool) (c e : Z) : string :=
  let digits := pretty (Z.to_N c) in
  let len := Z.of_nat (String.length digits) in
  (if neg then "-" else "") +:+
  if 0 <=? e then (if c =? 0 then digits else digits +:+ zeros (Z.to_nat e))
  else if - e <? len then
    String.substring 0 (Z.to_nat (len + e)) digits +:+ "." +:+
    String.substring (Z.to_nat (len + e)) (Z.to_nat (- e)) digits
  else "0." +:+ zeros (Z.to_nat (- e - len)) +:+ digits.

Definition dec_of_finite (neg : bool) (c e : Z) : dec := Dec (if neg then - c else c) e.

Example decimal_price : decimal_of_text " 1_234.50 " = Some (DFinite false 123450 (-2)).
Proof. reflexivity. Qed.
Example decimal_exp : decimal_of_text "-.5E+3" = Some (DFinite true 5 2).
Proof. reflexivity. Qed.
Example decimal_bad :
  (decimal_of_text "", decimal_of_text ".", decimal_of_text "1e", decimal_of_text "1,5",
   decimal_of_text "None") = (None, None, None, None, None).
Proof. reflexivity. Qed.
Example decimal_special :
  (decimal_of_text "-Infinity", decimal_of_text "sNaN12") = (Some (DInfinity true), Some (DNaN true)).
Proof. reflexivity. Qed.
Example format_examples :
  (format_f false 123450 (-2), format_f false 5 (-4), format_f false 59 2, format_f true 0 (-1),
   format_f false 0 3) = ("1234.50", "0.0005", "5900", "-0.0", "0").
Proof. vm_compute. reflexivity. Qed.

(** ** UUIDs *)

(** [s.replace(sub, "")] for a non-empty [sub]; [skip] counts characters of a match still
    to be dropped. *)
Fixpoint remove_text (sub : string) (skip : nat) (s : string) : string :=
  match s with
  | EmptyString => EmptyString
  | String c s' =>
      match skip with
      | S k => remove_text sub k s'
      | O => if String.prefix sub s then remove_text sub (String.length sub - 1) s'
             else String c (remove_text sub 0 s')
      end
  end.

(** Digits with single underscores between them; [after_digit] tells whether an
    underscore may come next. *)
Fixpoint underscored (base acc : Z) (after_digit : bool) (s : string) : option Z :=
  match s with
  | EmptyString => if after_digit then Some acc else None
  | String c s' =>
      if Ascii.eqb c "_"%char then (if after_digit then underscored base acc false s' else None)
      else match digit_value c with
           | Some d => if d <? base then underscored base (acc * base + d) true s' else None
           | None => None
           end
  end.

(** [int(text, 16)]. *)
Definition int_base16 (text : string) : option Z :=
  let (neg, s) := take_sign (strip text) in
  let n := match s with
           | String "0"%char (String x s') =>
               if Ascii.eqb x "x"%char || Ascii.eqb x "X"%char then
                 match s' with
                 | String c s'' => if Ascii.eqb c "_"%char then underscored 16 0 false s''
                                   else underscored 16 0 false s'
                 | EmptyString => None
                 end
               else underscored 16 0 false s
           | _ => underscored 16 0 false s
           end in
  (fun v => if neg : bool then - v else v) <$> n.

Definition hex_digit (n : Z) : ascii := ascii_of_N (Z.to_N (if n <? 10 then 48 + n else 87 + n)).
Fixpoint hex_digits (k : nat) (n : Z) (acc : string) : string :=
  match k with O => acc | S k' => hex_digits k' (n / 16) (String (hex_digit (n mod 16)) acc) end.

(** [str(uuid.UUID(int=n))]. *)
Definition uuid_text (n : Z) : string :=
  let h := hex_digits 32 n "" in
  String.substring 0 8 h +:+ "-" +:+ String.substring 8 4 h +:+ "-" +:+ String.substring 12 4 h +:+
  "-" +:+ String.substring 16 4 h +:+ "-" +:+ String.substring 20 12 h.

(** [uuid.UUID(text)], as its text; [None] where it raises ValueError. *)
Definition uuid_of_text (text : string) : option string :=
  let brace (c : ascii) := Ascii.eqb c "{"%char || Ascii.eqb c "}"%char in
  let h1 := remove_text "uuid:" 0 (remove_text "urn:" 0 text) in
  let h := keep_chars (fun c => negb (Ascii.eqb c "-"%char)) (rstrip_by brace (lstrip_by brace h1)) in
  if Nat.eqb (String.length h) 32 then
    match int_base16 h with
    | Some n => if (0 <=? n) && (n <? 2 ^ 128) then Some (uuid_text n) else None
    | None => None
    end
  else None.

Example uuid_canonical :
  uuid_of_text "urn:uuid:{6BA7B810-9DAD-11D1-80B4-00C04FD430C8}" =
  Some "6ba7b810-9dad-11d1-80b4-00c04fd430c8".
Proof. vm_compute. reflexivity. Qed.
Example uuid_bad : uuid_of_text "order-1" = None.
Proof. reflexivity. Qed.

(** ** Instants as text *)

Fixpoint padded (k : nat) (n : Z) (acc : string) : string :=
  match k with
  | O => acc
  | S k' => padded k' (n / 10) (String (ascii_of_N (Z.to_N (48 + n mod 10))) acc)
  end.

(** [t.isoformat()] of an aware value. *)
Definition offset_text (o : Z) : string :=
  let a := Z.abs o in
  let us := a mod 1000000 in
  let sec := a / 1000000 in
  (if o <? 0 then "-" else "+") +:+ padded 2 (sec / 3600) "" +:+ ":" +:+
  padded 2 (sec / 60 mod 60) "" +:+
  if (sec mod 60 =? 0) && (us =? 0) then ""
  else ":" +:+ padded 2 (sec mod 60) "" +:+ if us =? 0 then "" else "." +:+ padded 6 us "".
Definition isoformat (t : datetime) : string :=
  padded 4 (dt_year t) "" +:+ "-" +:+ padded 2 (dt_month t) "" +:+ "-" +:+ padded 2 (dt_day t) "" +:+
  "T" +:+ padded 2 (dt_hour t) "" +:+ ":" +:+ padded 2 (dt_minute t) "" +:+ ":" +:+
  padded 2 (dt_second t) "" +:+
  (if dt_micro t =? 0 then "" else "." +:+ padded 6 (dt_micro t) "") +:+
  match dt_offset t with Some o => offset_text o | None => "" end.

Example isoformat_example :
  isoformat {| dt_year := 2026; dt_month := 2; dt_day := 3; dt_hour := 4; dt_minute := 5;
               dt_second := 6; dt_micro := 70; dt_offset := Some (-19800000000) |} =
  "2026-02-03T04:05:06.000070-05:30".
Proof. vm_compute. reflexivity. Qed.

(** * Amounts as text

    The text of an amount reads back as the same amount: the digits of a number, the
    decimal point, and [Decimal(format(d, "f"))]. *)
#[local] Arguments String.append !_ _ : simpl nomatch.

(** ** Texts of plain characters *)

Lemma all_chars_app p s t : all_chars p (s +:+ t) = all_chars p s && all_chars p t.
Proof. induction s as [|c s IH]; cbn; [done|]. by rewrite IH andb_assoc. Qed.

Lemma all_chars_impl (p q : ascii -> bool) s :
  (forall c, p c = true -> q c = true) -> all_chars p s = true -> all_chars q s = true.
Proof. intros H. induction s as [|c s IH]; cbn; [done|]. rewrite !andb_true_iff. naive_solver. Qed.

Lemma keep_all p s : all_chars p s = true -> keep_chars p s = s.
Proof. induction s as [|c s IH]; cbn; [done|]. intros [-> Hs]%andb_true_iff. by rewrite IH. Qed.

Lemma rstrip_none p s : all_chars (fun c => negb (p c)) s = true -> rstrip_by p s = s.
Proof.
  induction s as [|c s IH]; cbn; [done|]. intros [Hc Hs]%andb_true_iff. rewrite (IH Hs).
  destruct s; [by destruct (p c)|done].
Qed.

Lemma strip_none s : all_chars (fun c => negb (is_space c)) s = true -> strip s = s.
Proof.
  intros H. unfold strip. assert (lstrip_by is_space s = s) as ->.
  { apply lstrip_fix. destruct s as [|c s]; [done|]. cbn in H. by destruct (is_space c). }
  by apply rstrip_none.
Qed.

Lemma span_digits s t :
  all_chars is_digit s = true -> match t with String c _ => is_digit c = false | _ => True end ->
  span_chars is_digit (s +:+ t) = (s, t).
Proof.
  intros Hs Ht. induction s as [|c s IH]; cbn in *.
  - destruct t as [|c t]; cbn; [done|]. by rewrite Ht.
  - apply andb_true_iff in Hs as [-> Hs]. by rewrite IH.
Qed.

Lemma length_app_string s t : String.length (s +:+ t) = (String.length s + String.length t)%nat.
Proof. induction s as [|c s IH]; cbn; [done|]. by rewrite IH. Qed.

Lemma app_empty_string s : s +:+ "" = s.
Proof. induction s as [|c s IH]; cbn; [done|]. by rewrite IH. Qed.

Lemma substring_all s : String.substring 0 (String.length s) s = s.
Proof. induction s as [|c s IH]; cbn; [done|]. by rewrite IH. Qed.

(** A text cut in two. *)
Lemma cut_string s k m :
  (k + m = String.length s)%nat -> String.substring 0 k s +:+ String.substring k m s = s.
Proof.
  revert k. induction s as [|c s IH]; intros k Hk.
  - by destruct k, m.
  - destruct k as [|k].
    + cbn in Hk. subst m. exact (substring_all (String c s)).
    + injection Hk as Hk. cbn. by rewrite (IH k Hk).
Qed.

Lemma substring_length s k m :
  (k + m <= String.length s)%nat -> String.length (String.substring k m s) = m.
Proof.
  revert k m. induction s as [|c s IH]; intros k m; cbn; intros H.
  - by destruct k, m; try lia.
  - destruct k as [|k]; [destruct m as [|m]; cbn; [done|]; f_equal; apply IH; lia|].
    apply IH. lia.
Qed.

(** ** Digits *)

Lemma digits_value_app b acc s t :
  digits_value b acc (s +:+ t) = digits_value b acc s ≫= fun v => digits_value b v t.
Proof. revert acc. induction s as [|c s IH]; intros acc; cbn; [done|]. by repeat case_match. Qed.

Lemma digits_value_zeros acc n : digits_value 10 acc (zeros n) = Some (acc * 10 ^ Z.of_nat n).
Proof.
  revert acc. induction n as [|n IH]; intros acc; cbn [zeros].
  - cbn. f_equal. lia.
  - change (digits_value 10 (acc * 10 + 0) (zeros n) = Some (acc * 10 ^ Z.of_nat (S n))).
    rewrite IH Nat2Z.inj_succ Z.pow_succ_r; [lia|]. f_equal. lia.
Qed.

Lemma zeros_digits n : all_chars is_digit (zeros n) = true.
Proof. induction n as [|n IH]; [done|]. exact IH. Qed.
Lemma zeros_length n : String.length (zeros n) = n.
Proof. induction n as [|n IH]; [done|]. cbn. by f_equal. Qed.

Lemma pretty_char_value d : (d < 10)%N -> digit_value (pretty_N_char d) = Some (Z.of_N d).
Proof.
  intros H. assert (d ∈ [0;1;2;3;4;5;6;7;8;9]%N) as Hd by (rewrite !elem_of_cons; lia).
  clear H. revert d Hd. apply Forall_forall. by repeat constructor.
Qed.
Lemma pretty_char_digit d : is_digit (pretty_N_char d) = true.
Proof. unfold pretty_N_char. by repeat case_match. Qed.

Lemma pretty_go_value n s : digits_value 10 0 (pretty_N_go n s) = digits_value 10 (Z.of_N n) s.
Proof.
  revert s. induction (N.lt_wf_0 n) as [n _ IH]; intros s.
  destruct (decide (n = 0)%N) as [->|Hn]; [done|]. rewrite pretty_N_go_step; [lia|].
  rewrite IH; [apply N.div_lt; lia|]. cbn [digits_value].
  pose proof (N.mod_lt n 10 ltac:(done)) as Hm. rewrite pretty_char_value //.
  rewrite (proj2 (Z.ltb_lt _ _)); [lia|]. f_equal.
  rewrite {3}(N.div_mod n 10) //. lia.
Qed.

Lemma pretty_go_digits n s : all_chars is_digit (pretty_N_go n s) = all_chars is_digit s.
Proof.
  revert s. induction (N.lt_wf_0 n) as [n _ IH]; intros s.
  destruct (decide (n = 0)%N) as [->|Hn]; [done|]. rewrite pretty_N_go_step; [lia|].
  rewrite IH; [apply N.div_lt; lia|]. cbn [all_chars]. by rewrite pretty_char_digit.
Qed.

Lemma pretty_value (n : N) : digits_value 10 0 (pretty n) = Some (Z.of_N n).
Proof. unfold pretty, pretty_N. case_decide as H; [by subst|]. by rewrite pretty_go_value. Qed.
Lemma pretty_digits (n : N) : all_chars is_digit (pretty n) = true.
Proof. unfold pretty, pretty_N. case_decide; [done|]. by rewrite pretty_go_digits. Qed.
Lemma pretty_nonempty (n : N) : pretty n <> "".
Proof.
  intros E. pose proof (pretty_value n) as H. rewrite E in H. injection H as H.
  assert (n = 0%N) as -> by lia. discriminate E.
Qed.

(** ** Decimals *)

(** An unsigned amount as text: digits, then nothing or a point and digits. *)
Definition plain_amount (whole frac : string) : string :=
  whole +:+ (if nonempty frac then "." +:+ frac else "").

Definition amount_char (c : ascii) : bool :=
  is_digit c || Ascii.eqb c "."%char || Ascii.eqb c "-"%char.

Lemma amount_char_plain c :
  amount_char c = true -> negb (is_space c) = true /\ negb (Ascii.eqb c "_"%char) = true.
Proof. by destruct c as [[] [] [] [] [] [] [] []]; vm_compute. Qed.

Lemma is_digit_amount c : is_digit c = true -> amount_char c = true.
Proof. unfold amount_char. by intros ->. Qed.

Lemma is_digit_sign c : is_digit c = true -> Ascii.eqb c "-"%char = false /\ Ascii.eqb c "+"%char = false.
Proof. by destruct c as [[] [] [] [] [] [] [] []]; vm_compute. Qed.

Lemma plain_amount_chars whole frac :
  all_chars is_digit whole = true -> all_chars is_digit frac = true ->
  all_chars amount_char (plain_amount whole frac) = true.
Proof.
  intros Hw Hf. unfold plain_amount. rewrite all_chars_app.
  rewrite (all_chars_impl _ _ _ is_digit_amount Hw).
  destruct (nonempty frac); [|done]. exact (all_chars_impl _ _ _ is_digit_amount Hf).
Qed.

(** Such a text is read as its digits, with an exponent that counts the fraction. *)
Lemma decimal_of_plain neg whole frac c :
  whole <> "" -> all_chars is_digit whole = true -> all_chars is_digit frac = true ->
  digits_value 10 0 (whole +:+ frac) = Some c ->
  decimal_of_text ((if neg : bool then "-" else "") +:+ plain_amount whole frac) =
    Some (DFinite neg c (- Z.of_nat (String.length frac))).
Proof.
  intros Hn Hw Hf Hc. pose proof (plain_amount_chars whole frac Hw Hf) as Ha.
  set (s := plain_amount whole frac) in *. unfold decimal_of_text.
  assert (all_chars amount_char ((if neg then "-" else "") +:+ s) = true) as Hs by (by destruct neg).
  rewrite strip_none; [exact (all_chars_impl _ _ _ (fun c H => proj1 (amount_char_plain c H)) Hs)|].
  rewrite keep_all; [exact (all_chars_impl _ _ _ (fun c H => proj2 (amount_char_plain c H)) Hs)|].
  assert (take_sign ((if neg then "-" else "") +:+ s) = (neg, s)) as ->.
  { destruct neg; [done|]. unfold s, plain_amount. destruct whole as [|d w]; [done|]. cbn in Hw |- *.
    apply andb_true_iff in Hw as [[-> ->]%is_digit_sign _]. done. }
  unfold s, plain_amount. destruct frac as [|f fs]; cbn [nonempty].
  - rewrite span_digits //. cbn [take_fraction]. rewrite Hc app_empty_string.
    by destruct whole.
  - rewrite span_digits //. cbn [String.append take_fraction]. change (Ascii.eqb "." ".") with true. cbn iota.
    rewrite -(app_empty_string (String f fs)) span_digits // app_empty_string.
    assert (nonempty (whole +:+ String f fs) = true) as -> by (by destruct whole).
    by rewrite Hc.
Qed.

(** The text of a decimal reads back as the same number. *)
Lemma decimal_of_format neg c e :
  0 <= c ->
  decimal_of_text (format_f neg c e) =
    Some (DFinite neg (if 0 <=? e then c * 10 ^ e else c) (Z.min e 0)).
Proof.
  intros Hc. unfold format_f. set (ds := pretty (Z.to_N c)).
  pose proof (pretty_digits (Z.to_N c)) as Hd. pose proof (pretty_value (Z.to_N c)) as Hv.
  pose proof (pretty_nonempty (Z.to_N c)) as Hn. fold ds in Hd, Hv, Hn. rewrite Z2N.id // in Hv.
  destruct (Z.leb_spec 0 e) as [He|He].
  - rewrite (Z.min_r e 0 He). destruct (Z.eqb_spec c 0) as [E|E].
    + rewrite -{1}(app_empty_string ds) -(decimal_of_plain neg ds "" (c * 10 ^ e)) //.
      by rewrite app_empty_string Hv E.
    + rewrite -{1}(app_empty_string (ds +:+ _)).
      rewrite (decimal_of_plain neg (ds +:+ zeros (Z.to_nat e)) "" (c * 10 ^ e)) //.
      * by destruct ds.
      * by rewrite all_chars_app Hd zeros_digits.
      * rewrite app_empty_string digits_value_app Hv. cbn. by rewrite digits_value_zeros Z2Nat.id.
  - rewrite (Z.min_l e 0); [lia|]. set (len := Z.of_nat (String.length ds)).
    destruct (Z.ltb_spec (- e) len) as [Hl|Hl].
    + assert (Z.to_nat (len + e) + Z.to_nat (- e) = String.length ds)%nat as Hcut by lia.
      pose proof (cut_string ds _ _ Hcut) as Ecut.
      set (w := String.substring 0 (Z.to_nat (len + e)) ds) in *.
      set (f := String.substring (Z.to_nat (len + e)) (Z.to_nat (- e)) ds) in *.
      assert (String.length f = Z.to_nat (- e)) as Hf by (apply substring_length; lia).
      assert (String.length w = Z.to_nat (len + e)) as Hw by (apply substring_length; lia).
      rewrite -Ecut all_chars_app in Hd. apply andb_true_iff in Hd as [Hdw Hdf].
      assert (w +:+ "." +:+ f = plain_amount w f) as ->.
      { unfold plain_amount. destruct f; [|done]. cbn in Hf. lia. }
      rewrite (decimal_of_plain neg w f c) //; [intros E; rewrite E in Hw; cbn in Hw; lia|by rewrite Ecut|].
      rewrite Hf. do 2 f_equal. lia.
    + set (z := zeros (Z.to_nat (- e - len))).
      change ("0." +:+ z +:+ ds) with ("0" +:+ "." +:+ (z +:+ ds)).
      assert ("0" +:+ "." +:+ (z +:+ ds) = plain_amount "0" (z +:+ ds)) as ->.
      { unfold plain_amount. destruct z, ds; done. }
      rewrite (decimal_of_plain neg "0" (z +:+ ds) c) //.
      * by rewrite all_chars_app Hd /z zeros_digits.
      * change (digits_value 10 0 (z +:+ ds) = Some c).
        rewrite digits_value_app /z digits_value_zeros. exact Hv.
      * rewrite length_app_string /z zeros_length. do 2 f_equal. lia.
Qed.
