(* ===== verification/PyJson.v ===== *)
(** * JSON values and digests

    JSON values as [json.loads] builds them and the database stores them, the text
    [json.dumps(v, sort_keys=True, separators=(",", ":"))] gives for them, Python's [repr]
    and [str] of them, and the interface of SHA-256. *)
From stdpp Require Import pretty.
From Stdlib Require Import Ascii.
From S2P Require Import Prelude PyString PyText.
#[local] Open Scope Z_scope.

(** An object keeps its pairs in order; a float is the text [repr] gives for it. *)
Inductive json :=
  | JNull
  | JBool (b : bool)
  | JInt (n : Z)
  | JFloat (text : string)
  | JStr (s : string)
  | JArr (xs : list json)
  | JObj (pairs : list (string * json)).

(** [d.get(k)]. *)
Definition jget (d : list (string * json)) (k : string) : json := default JNull (dict_get d k).

(** [d[k]]. *)
Definition jindex (d : list (string * json)) (k : string) : res json :=
  match dict_get d k with Some v => mret v | None => raise KeyError k end.

(** [hashlib.sha256(text.encode()).hexdigest()]. *)
Class Sha256 := sha256_hex : string -> string.

(** ** [json.dumps] *)

Definition char_text (n : N) : string := String (ascii_of_N n) EmptyString.
Definition DQUOTE : string := char_text 34.
Definition BACKSLASH : string := char_text 92.

Definition json_char (c : ascii) : string :=
  let n := N_of_ascii c in
  if (n =? 34)%N then BACKSLASH +:+ DQUOTE
  else if (n =? 92)%N then BACKSLASH +:+ BACKSLASH
  else if (n =? 10)%N then BACKSLASH +:+ "n"
  else if (n =? 13)%N then BACKSLASH +:+ "r"
  else if (n =? 9)%N then BACKSLASH +:+ "t"
  else if (n =? 12)%N then BACKSLASH +:+ "f"
  else if (n =? 8)%N then BACKSLASH +:+ "b"
  else if in_range 32 126 (code c) then String c EmptyString
  else BACKSLASH +:+ "u" +:+ hex_digits 4 (code c) "".
Fixpoint json_chars (s : string) : string :=
  match s with EmptyString => EmptyString | String c s' => json_char c +:+ json_chars s' end.
Definition json_quote (s : string) : string := DQUOTE +:+ json_chars s +:+ DQUOTE.

(** The entries of an object by key; keys are unique, so the order is determined. *)
Definition key_le (a b : string * string) : Prop := Is_true (String.leb a.1 b.1).
#[global] Instance key_le_dec a b : Decision (key_le a b).
Proof. unfold key_le. apply _. Defined.

Fixpoint json_dumps (v : json) : string :=
  match v with
  | JNull => "null"
  | JBool b => if b then "true" else "false"
  | JInt n => pretty n
  | JFloat t => t
  | JStr s => json_quote s
  | JArr xs => "[" +:+ join "," (map json_dumps xs) +:+ "]"
  | JObj ps =>
      "{" +:+
      join "," (map (fun kt => json_quote kt.1 +:+ ":" +:+ kt.2)
                  (merge_sort key_le (map (fun kv => (kv.1, json_dumps kv.2)) ps)))
      +:+ "}"
  end.

(** ** [repr] and [str] *)

Fixpoint has_char (n : N) (s : string) : bool :=
  match s with EmptyString => false | String c s' => (N_of_ascii c =? n)%N || has_char n s' end.

Definition repr_char (quote : N) (c : ascii) : string :=
  let n := N_of_ascii c in
  if (n =? quote)%N || (n =? 92)%N then BACKSLASH +:+ String c EmptyString
  else if (n =? 10)%N then BACKSLASH +:+ "n"
  else if (n =? 13)%N then BACKSLASH +:+ "r"
  else if (n =? 9)%N then BACKSLASH +:+ "t"
  else if in_range 32 126 (code c) then String c EmptyString
  else BACKSLASH +:+ "x" +:+ hex_digits 2 (code c) "".
Fixpoint repr_chars (quote : N) (s : string) : string :=
  match s with EmptyString => EmptyString | String c s' => repr_char quote c +:+ repr_chars quote s' end.
(** Single quotes, unless the text has some and no double quote. *)
Definition repr_str (s : string) : string :=
  let quote := if has_char 39 s && negb (has_char 34 s) then 34%N else 39%N in
  char_text quote +:+ repr_chars quote s +:+ char_text quote.

Fixpoint py_repr (v : json) : string :=
  match v with
  | JNull => "None"
  | JBool b => if b then "True" else "False"
  | JInt n => pretty n
  | JFloat t => t
  | JStr s => repr_str s
  | JArr xs => "[" +:+ join ", " (map py_repr xs) +:+ "]"
  | JObj ps =>
      "{" +:+ join ", " (map (fun kv => repr_str kv.1 +:+ ": " +:+ py_repr kv.2) ps) +:+ "}"
  end.

Definition py_str (v : json) : string := match v with JStr s => s | _ => py_repr v end.

(** [str(d.get(k, ""))]. *)
Definition jget_text (d : list (string * json)) (k : string) : string :=
  match dict_get d k with Some v => py_str v | None => "" end.

(** A string or [None]. *)
Definition json_opt (x : option string) : json := match x with Some s => JStr s | None => JNull end.

Example dumps_sorted :
  json_dumps (JObj [("b", JStr "x"); ("a", JArr [JInt (-1); JNull; JBool true])]) =
  "{" +:+ DQUOTE +:+ "a" +:+ DQUOTE +:+ ":[-1,null,true]," +:+ DQUOTE +:+ "b" +:+ DQUOTE +:+ ":" +:+
  DQUOTE +:+ "x" +:+ DQUOTE +:+ "}".
Proof. vm_compute. reflexivity. Qed.
Example dumps_escapes :
  json_dumps (JStr (char_text 10 +:+ DQUOTE +:+ char_text 127)) =
  DQUOTE +:+ BACKSLASH +:+ "n" +:+ BACKSLASH +:+ DQUOTE +:+ BACKSLASH +:+ "u007f" +:+ DQUOTE.
Proof. vm_compute. reflexivity. Qed.
Example repr_quotes :
  (repr_str "it's", py_repr (JObj [("k", JArr [JNull; JStr "v"])])) =
  (DQUOTE +:+ "it's" +:+ DQUOTE, "{'k': [None, 'v']}").
Proof. vm_compute. reflexivity. Qed.
