(* ===== verification/Authority.v ===== *)
(** * The marketplace authority

    Models [admin_marketplace/authority.py]: who may take which administrative action on
    the marketplace.  An action outside the enumeration cannot be written here, so the
    branch that refuses one has no counterpart. *)
From S2P Require Import Prelude PyString PyText PyJson.
#[local] Open Scope Z_scope.

Definition PLATFORM_ADMIN_AUTHORITY : string := "platform_admin".
Definition PROHIBITED_MARKETPLACE_AUTHORITIES : list string :=
  [ "platform_supervisor"; "billing_admin"; "viewer_admin"; "owner_admin"; "admin"; "*"; "admin:*";
    "commercial:*"; "marketplace:*" ].

Inductive AdminMarketplaceAction :=
  | VIEW_CATALOG | VIEW_AUDIT | CREATE_OFFER | REVISE_OFFER | PUBLISH_OFFER | RETIRE_OFFER
  | VERIFY_PAYMENT | RECONCILE_PAYMENT | DECIDE_ORDER | ACTIVATE_SUBSCRIPTION
  | CHANGE_CHANNEL_ELIGIBILITY | CREATE_PAYMENT_DESTINATION | VALIDATE_PAYMENT_DESTINATION
  | ACTIVATE_PAYMENT_DESTINATION | DEACTIVATE_PAYMENT_DESTINATION | SET_DEFAULT_PAYMENT_DESTINATION.

#[global] Instance AdminMarketplaceAction_eq_dec : EqDecision AdminMarketplaceAction.
Proof. solve_decision. Defined.

Definition SENSITIVE_ACTIONS : list AdminMarketplaceAction :=
  [ CREATE_OFFER; REVISE_OFFER; PUBLISH_OFFER; RETIRE_OFFER; VERIFY_PAYMENT; RECONCILE_PAYMENT;
    DECIDE_ORDER; ACTIVATE_SUBSCRIPTION; CHANGE_CHANNEL_ELIGIBILITY; CREATE_PAYMENT_DESTINATION;
    VALIDATE_PAYMENT_DESTINATION; ACTIVATE_PAYMENT_DESTINATION; DEACTIVATE_PAYMENT_DESTINATION;
    SET_DEFAULT_PAYMENT_DESTINATION ].

Record AdminMarketplaceAuthorityContext := {
  au_user_id : string;
  au_session_id : string;
  au_platform_authorities : list string;
  au_active_platform_admin : bool;
  au_recent_mfa_step_up : bool
}.

(** The construction of a context: [__post_init__] normalises the authorities. *)
Definition authority_context (c : AdminMarketplaceAuthorityContext)
  : res AdminMarketplaceAuthorityContext :=
  _ ← reject_if (blank (au_user_id c) || blank (au_session_id c)) AdminMarketplaceAuthorityDeniedError
        "Identity user and session are required.";
  mret {| au_user_id := au_user_id c; au_session_id := au_session_id c;
          au_platform_authorities :=
            map (fun v => lower (strip v)) (List.filter (fun v => negb (blank v)) (au_platform_authorities c));
          au_active_platform_admin := au_active_platform_admin c;
          au_recent_mfa_step_up := au_recent_mfa_step_up c |}.

Record AdminMarketplaceAuthorityDecision := {
  ad_action : AdminMarketplaceAction;
  ad_allowed : bool;
  ad_reason_code : string;
  ad_step_up_required : bool
}.

Definition evaluate_admin_marketplace_authority (c : AdminMarketplaceAuthorityContext)
    (a : AdminMarketplaceAction) : AdminMarketplaceAuthorityDecision :=
  let authorities := au_platform_authorities c in
  let sensitive := bool_decide (a ∈ SENSITIVE_ACTIONS) in
  let decision allowed reason step_up :=
    {| ad_action := a; ad_allowed := allowed; ad_reason_code := reason;
       ad_step_up_required := step_up |} in
  if existsb (has_char 42) authorities then decision false "wildcard_authority_denied" sensitive
  else if existsb (fun v => bool_decide (v ∈ PROHIBITED_MARKETPLACE_AUTHORITIES)) authorities
  then decision false "non_super_administrator_denied" sensitive
  else if negb (bool_decide (PLATFORM_ADMIN_AUTHORITY ∈ authorities)) ||
          negb (au_active_platform_admin c)
  then decision false "active_platform_admin_required" sensitive
  else if sensitive && negb (au_recent_mfa_step_up c)
  then decision false "recent_mfa_step_up_required" true
  else decision true "super_administrator_authorized" sensitive.

Definition require_admin_marketplace_authority (c : AdminMarketplaceAuthorityContext)
    (a : AdminMarketplaceAction) : res AdminMarketplaceAuthorityDecision :=
  let decision := evaluate_admin_marketplace_authority c a in
  if ad_allowed decision then mret decision
  else if bool_decide (ad_reason_code decision = "recent_mfa_step_up_required")
  then raise AdminMarketplaceStepUpRequiredError "Recent MFA step-up is required."
  else raise AdminMarketplaceAuthorityDeniedError "Exclusive super-administrator authority is required.".

(** ** Lemmas *)

(** An administrator: the one authority and no other administrative one. *)
Definition super_administrator (c : AdminMarketplaceAuthorityContext) : Prop :=
  PLATFORM_ADMIN_AUTHORITY ∈ au_platform_authorities c /\ au_active_platform_admin c = true /\
  forall v, v ∈ au_platform_authorities c ->
    has_char 42 v = false /\ v ∉ PROHIBITED_MARKETPLACE_AUTHORITIES.

Lemma existsb_false {A} (p : A -> bool) (l : list A) :
  existsb p l = false <-> forall x, x ∈ l -> p x = false.
Proof.
  induction l as [|y l IH]; cbn.
  - split; [intros _ x H; by apply not_elem_of_nil in H|done].
  - rewrite orb_false_iff IH. split.
    + intros [Hy Hl] x [->|Hx]%elem_of_cons; auto.
    + intros H. split; [apply H; left|intros x Hx; apply H; by right].
Qed.

Lemma authority_allowed c a :
  is_ok (require_admin_marketplace_authority c a) = true <->
  super_administrator c /\ (a ∈ SENSITIVE_ACTIONS -> au_recent_mfa_step_up c = true).
Proof.
  unfold require_admin_marketplace_authority, evaluate_admin_marketplace_authority, super_administrator.
  destruct (existsb (has_char 42) _) eqn:E1; cbn.
  { split; [by case_bool_decide|]. intros [(_ & _ & H) _].
    assert (existsb (has_char 42) (au_platform_authorities c) = false) as E2; [|congruence].
    apply existsb_false. intros x Hx. by apply (H x). }
  destruct (existsb (fun v => _) _) eqn:E2; cbn.
  { split; [by case_bool_decide|]. intros [(_ & _ & H) _].
    assert (existsb (fun v => bool_decide (v ∈ PROHIBITED_MARKETPLACE_AUTHORITIES))
              (au_platform_authorities c) = false) as E3; [|congruence].
    apply existsb_false. intros x Hx. apply bool_decide_eq_false. by apply (H x). }
  rewrite existsb_false in E1. rewrite existsb_false in E2.
  assert (forall v, v ∈ au_platform_authorities c ->
            has_char 42 v = false /\ v ∉ PROHIBITED_MARKETPLACE_AUTHORITIES) as Hno.
  { intros v Hv. split; [auto|]. specialize (E2 v Hv). by apply bool_decide_eq_false in E2. }
  case_bool_decide as Ein; cbn; [|split; [by case_bool_decide|by intros [[? _] _]]].
  destruct (au_active_platform_admin c); cbn; [|split; [by case_bool_decide|by intros [(_ & ? & _) _]]].
  case_bool_decide as Es; cbn; [|by split; [intros _; split; [split_and!|]|]].
  destruct (au_recent_mfa_step_up c); cbn; [by split; [intros _; split; [split_and!|]|]|].
  split; [done|]. intros [_ H]. by specialize (H Es).
Qed.
