(* ===== verification/JsonLoads.v ===== *)
(** * Reading JSON

    [json.loads] on the texts the program stores, and the round trip with
    [json.dumps(v, sort_keys=True, separators=(",", ":"))]: the value read back is the value
    written, with the pairs of its objects in the order of their keys.  The numbers NaN and
    the infinities, and characters beyond 255, are outside the model. *)
From stdpp Require Import pretty.
From Stdlib Require Import Ascii.
From S2P Require Import Prelude PyString PyDecimal PyDateTime PyText PyJson.
#[local] Open Scope Z_scope.
#[local] Arguments String.append !_ _ : simpl nomatch.

(** ** The scanners *)

Definition json_space (c : ascii) : bool :=
  let n := code c in (n =? 32) || (n =? 9) || (n =? 10) || (n =? 13).
Definition skip_space (s : string) : string := lstrip_by json_space s.

(** The character after a backslash, other than [u]. *)
Definition unescape (c : ascii) : option ascii :=
  let n := code c in
  if (n =? 34) || (n =? 92) || (n =? 47) then Some c
  else if n =? 98 then Some (ascii_of_N 8)
  else if n =? 102 then Some (ascii_of_N 12)
  else if n =? 110 then Some (ascii_of_N 10)
  else if n =? 114 then Some (ascii_of_N 13)
  else if n =? 116 then Some (ascii_of_N 9)
  else None.

Definition unicode_escape (a b c d : ascii) : option ascii :=
  n ← digits_value 16 0 (String a (String b (String c (String d EmptyString))));
  if n <? 256 then Some (ascii_of_N (Z.to_N n)) else None.

Definition before (c : ascii) (r : option (string * string)) : option (string * string) :=
  '(t, rest) ← r; Some (String c t, rest).

(** The rest of a string after its opening quote, and what follows the closing one. *)
Fixpoint scan_chars (s : string) : option (string * string) :=
  match s with
  | EmptyString => None
  | String c s1 =>
      if code c =? 34 then Some (EmptyString, s1)
      else if code c =? 92 then
        match s1 with
        | EmptyString => None
        | String e s2 =>
            if code e =? 117 then
              match s2 with
              | String h1 (String h2 (String h3 (String h4 s3))) =>
                  match unicode_escape h1 h2 h3 h4 with
                  | Some d => before d (scan_chars s3)
                  | None => None
                  end
              | _ => None
              end
            else match unescape e with Some d => before d (scan_chars s2) | None => None end
        end
      else if code c <? 32 then None
      else before c (scan_chars s1)
  end.

(** The whole part of a number: a zero, or digits that do not begin with one. *)
Definition take_whole (s : string) : option (string * string) :=
  match s with
  | String c s' =>
      if code c =? 48 then Some (String c EmptyString, s')
      else if is_digit c then Some (span_chars is_digit s) else None
  | EmptyString => None
  end.

(** A point and at least one digit; nothing otherwise. *)
Definition take_point (s : string) : string * string :=
  match s with
  | String c s' =>
      if code c =? 46 then
        let (ds, rest) := span_chars is_digit s' in
        if nonempty ds then (String c ds, rest) else (EmptyString, s)
      else (EmptyString, s)
  | EmptyString => (EmptyString, s)
  end.

(** An [e], a sign and at least one digit; nothing otherwise. *)
Definition take_power (s : string) : string * string :=
  match s with
  | String c s' =>
      if (code c =? 101) || (code c =? 69) then
        let (sign, s2) :=
          match s' with
          | String d s2 => if (code d =? 43) || (code d =? 45) then (String d EmptyString, s2)
                           else (EmptyString, s')
          | EmptyString => (EmptyString, s')
          end in
        let (ds, rest) := span_chars is_digit s2 in
        if nonempty ds then (String c (sign +:+ ds), rest) else (EmptyString, s)
      else (EmptyString, s)
  | EmptyString => (EmptyString, s)
  end.

(** A number: its text, whether it is a float, and what follows. *)
Definition scan_number (s : string) : option (string * bool * string) :=
  let (sign, s1) :=
    match s with
    | String c s' => if code c =? 45 then (String c EmptyString, s') else (EmptyString, s)
    | EmptyString => (EmptyString, s)
    end in
  '(whole, s2) ← take_whole s1;
  let (frac, s3) := take_point s2 in
  let (power, s4) := take_power s3 in
  Some (sign +:+ whole +:+ frac +:+ power, nonempty (frac +:+ power), s4).

Definition int_text (t : string) : option Z :=
  let (neg, ds) := take_sign t in
  (fun n => if neg : bool then - n else n) <$> digits_value 10 0 ds.

Definition number_value (r : option (string * bool * string)) : option (json * string) :=
  '(t, is_float, rest) ← r;
  if is_float : bool then Some (JFloat t, rest) else (fun n => (JInt n, rest)) <$> int_text t.

(** The text after a given one. *)
Fixpoint after_text (p s : string) : option string :=
  match p, s with
  | EmptyString, _ => Some s
  | String c p', String d s' => if Ascii.eqb c d then after_text p' s' else None
  | _, EmptyString => None
  end.

(** [d[k] = v]: an object keeps the place of a key and its last value. *)
Fixpoint object_set (k : string) (v : json) (d : list (string * json)) : list (string * json) :=
  match d with
  | [] => [(k, v)]
  | (k', v') :: d' => if bool_decide (k = k') then (k, v) :: d' else (k', v') :: object_set k v d'
  end.
Definition object_of (pairs : list (string * json)) : json :=
  JObj (fold_left (fun d kv => object_set kv.1 kv.2 d) pairs []).

(** ** The parser

    [fuel] bounds the calls; twice the length of the text is enough, since a call for a
    value and a call for the elements of an array or object consume a character between
    them. *)
Fixpoint parse_value (fuel : nat) (s : string) : option (json * string) :=
  match fuel with
  | O => None
  | S f =>
      match s with
      | EmptyString => None
      | String c s1 =>
          if code c =? 34 then '(t, rest) ← scan_chars s1; Some (JStr t, rest)
          else if code c =? 123 then
            match after_text "}" (skip_space s1) with
            | Some rest => Some (JObj [], rest)
            | None => '(ps, rest) ← parse_members f (skip_space s1); Some (object_of ps, rest)
            end
          else if code c =? 91 then
            match after_text "]" (skip_space s1) with
            | Some rest => Some (JArr [], rest)
            | None => '(xs, rest) ← parse_elements f (skip_space s1); Some (JArr xs, rest)
            end
          else match after_text "null" s, after_text "true" s, after_text "false" s with
               | Some rest, _, _ => Some (JNull, rest)
               | _, Some rest, _ => Some (JBool true, rest)
               | _, _, Some rest => Some (JBool false, rest)
               | None, None, None => number_value (scan_number s)
               end
      end
  end
with parse_elements (fuel : nat) (s : string) : option (list json * string) :=
  match fuel with
  | O => None
  | S f =>
      '(v, rest) ← parse_value f s;
      match after_text "," (skip_space rest), after_text "]" (skip_space rest) with
      | Some rest', _ => '(vs, rest'') ← parse_elements f (skip_space rest'); Some (v :: vs, rest'')
      | None, Some rest' => Some ([v], rest')
      | None, None => None
      end
  end
with parse_members (fuel : nat) (s : string) : option (list (string * json) * string) :=
  match fuel with
  | O => None
  | S f =>
      s1 ← after_text DQUOTE s;
      '(k, s2) ← scan_chars s1;
      s3 ← after_text ":" (skip_space s2);
      '(v, rest) ← parse_value f (skip_space s3);
      match after_text "," (skip_space rest), after_text "}" (skip_space rest) with
      | Some rest', _ => '(ps, rest'') ← parse_members f (skip_space rest'); Some ((k, v) :: ps, rest'')
      | None, Some rest' => Some ([(k, v)], rest')
      | None, None => None
      end
  end.

(** [json.loads(text)]. *)
Definition json_loads (s : string) : res json :=
  match parse_value (2 * String.length s + 2) (skip_space s) with
  | Some (v, rest) => if bool_decide (skip_space rest = "") then mret v
                      else raise ValueError "Extra data"
  | None => raise ValueError "Expecting value"
  end.

Example loads_spaced :
  json_loads (" { " +:+ DQUOTE +:+ "a" +:+ DQUOTE +:+ " : [1, -2.50e3 ,true] } ") =
  Ok (JObj [("a", JArr [JInt 1; JFloat "-2.50e3"; JBool true])]).
Proof. vm_compute. reflexivity. Qed.
Example loads_refused :
  (json_loads "01", json_loads "[1,]", json_loads "", json_loads "nul") =
  (raise ValueError "Extra data", raise ValueError "Expecting value",
   raise ValueError "Expecting value", raise ValueError "Expecting value").
Proof. vm_compute. reflexivity. Qed.
Example loads_last_value :
  json_loads ("{" +:+ json_quote "k" +:+ ":1," +:+ json_quote "k" +:+ ":2}") = Ok (JObj [("k", JInt 2)]).
Proof. vm_compute. reflexivity. Qed.

(** ** Induction on values *)
Section JsonInd.
  Variable P : json -> Prop.
  Hypothesis P_null : P JNull.
  Hypothesis P_bool : forall b, P (JBool b).
  Hypothesis P_int : forall n, P (JInt n).
  Hypothesis P_float : forall t, P (JFloat t).
  Hypothesis P_str : forall s, P (JStr s).
  Hypothesis P_arr : forall xs, Forall P xs -> P (JArr xs).
  Hypothesis P_obj : forall ps, Forall (fun kv => P kv.2) ps -> P (JObj ps).

Fixpoint json_nested_ind (v : json) : P v :=
  match v with
  | JNull => P_null
  | JBool b => P_bool b
  | JInt n => P_int n
  | JFloat t => P_float t
  | JStr s => P_str s
  | JArr xs => P_arr xs ((fix all xs := match xs return Forall P xs with
      | [] => Forall_nil_2 _
      | x :: xs' => Forall_cons_2 _ x xs' (json_nested_ind x) (all xs') end) xs)
  | JObj ps => P_obj ps ((fix all (ps : list (string * json)) :=
      match ps return Forall (fun kv => P kv.2) ps with
      | [] => Forall_nil_2 _
      | kv :: ps' => Forall_cons_2 _ kv ps' (json_nested_ind kv.2) (all ps') end) ps)
  end.
End JsonInd.

(** ** What is written and what is read back *)

(** The text goes on with something that is not part of a number. *)
Definition number_end (rest : string) : Prop :=
  match rest with
  | EmptyString => True
  | String c _ => is_digit c = false /\ code c <> 46 /\ code c <> 101 /\ code c <> 69
  end.

(** The text of a float, as [repr] gives it. *)
Definition float_text (t : string) : Prop :=
  match t with String c _ => is_digit c = true \/ code c = 45 | EmptyString => False end /\
  forall rest, number_end rest -> scan_number (t +:+ rest) = Some (t, true, rest).

(** What [json.dumps] can write as JSON: floats are finite, and the keys of an object are
    unique. *)
Fixpoint json_wf (v : json) : Prop :=
  match v with
  | JFloat t => float_text t
  | JArr xs => (fix all xs := match xs with [] => True | x :: xs' => json_wf x /\ all xs' end) xs
  | JObj ps =>
      NoDup ps.*1 /\
      (fix all (ps : list (string * json)) :=
         match ps with [] => True | kv :: ps' => json_wf kv.2 /\ all ps' end) ps
  | _ => True
  end.

Definition pair_le (a b : string * json) : Prop := Is_true (String.leb a.1 b.1).
#[global] Instance pair_le_dec a b : Decision (pair_le a b).
Proof. unfold pair_le. apply _. Defined.

(** [json.dumps(v, separators=(",", ":"))]: the pairs of an object in their order. *)
Fixpoint json_text (v : json) : string :=
  match v with
  | JNull => "null"
  | JBool b => if b then "true" else "false"
  | JInt n => pretty n
  | JFloat t => t
  | JStr s => json_quote s
  | JArr xs => "[" +:+ join "," (map json_text xs) +:+ "]"
  | JObj ps =>
      "{" +:+ join "," (map (fun kv => json_quote kv.1 +:+ ":" +:+ json_text kv.2) ps) +:+ "}"
  end.

(** The value with the pairs of its objects by key. *)
Fixpoint json_sorted (v : json) : json :=
  match v with
  | JArr xs => JArr (map json_sorted xs)
  | JObj ps => JObj (merge_sort pair_le (map (fun kv => (kv.1, json_sorted kv.2)) ps))
  | _ => v
  end.

Lemma wf_arr xs : json_wf (JArr xs) <-> Forall json_wf xs.
Proof. cbn. induction xs as [|x xs IH]; [done|]. by rewrite Forall_cons IH. Qed.
Lemma wf_obj ps : json_wf (JObj ps) <-> NoDup ps.*1 /\ Forall (fun kv => json_wf kv.2) ps.
Proof.
  cbn. apply and_iff_compat_l. induction ps as [|p ps IH]; [done|]. by rewrite Forall_cons IH.
Qed.

(** ** Strings *)

(** The three forms a character is written in. *)
Definition written_char (c : ascii) : bool :=
  match json_char c with
  | String a EmptyString => bool_decide (a = c) && negb (code a =? 34) && negb (code a =? 92) && (32 <=? code a)
  | String b (String e EmptyString) =>
      (code b =? 92) && negb (code e =? 117) && bool_decide (unescape e = Some c)
  | String b (String u (String h1 (String h2 (String h3 (String h4 EmptyString))))) =>
      (code b =? 92) && (code u =? 117) && bool_decide (unicode_escape h1 h2 h3 h4 = Some c)
  | _ => false
  end.

Lemma json_char_written c : written_char c = true.
Proof. revert c. apply forall_ascii. vm_compute. reflexivity. Qed.

Lemma scan_json_char c t : scan_chars (json_char c +:+ t) = before c (scan_chars t).
Proof.
  pose proof (json_char_written c) as H. unfold written_char in H.
  destruct (json_char c) as [|a [|b [|h1 [|h2 [|h3 [|h4 [|]]]]]]]; try done;
    cbn -[unicode_escape unescape] in *; to_prop.
  - subst a. destruct (Z.eqb_spec (code c) 34), (Z.eqb_spec (code c) 92), (Z.ltb_spec (code c) 32);
      done || lia.
  - repeat match goal with E : code _ = _ |- _ => rewrite E end. cbn -[unescape].
    case_match; to_prop; [done|]. by match goal with E : unescape _ = _ |- _ => rewrite E end.
  - repeat match goal with E : code _ = _ |- _ => rewrite E end. cbn -[unicode_escape].
    by match goal with E : unicode_escape _ _ _ _ = _ |- _ => rewrite E end.
Qed.

Lemma append_cons c s t : String c s +:+ t = String c (s +:+ t).
Proof. done. Qed.
Lemma append_assoc_string s t u : (s +:+ t) +:+ u = s +:+ (t +:+ u).
Proof. induction s as [|c s IH]; cbn; [done|]. by rewrite IH. Qed.

Lemma scan_json_chars s rest : scan_chars (json_chars s +:+ DQUOTE +:+ rest) = Some (s, rest).
Proof.
  induction s as [|c s IH]; [done|]. cbn [json_chars].
  by rewrite append_assoc_string scan_json_char IH.
Qed.

Lemma parse_quoted f s rest :
  parse_value (S f) (json_quote s +:+ rest) = Some (JStr s, rest).
Proof.
  unfold json_quote. rewrite !append_assoc_string.
  change (DQUOTE +:+ ?t) with (String (ascii_of_N 34) t) at 1. cbn [parse_value].
  change (code (ascii_of_N 34) =? 34) with true. cbn iota. by rewrite scan_json_chars.
Qed.

(** ** Integers *)

Lemma span_number ds rest :
  all_chars is_digit ds = true -> number_end rest -> span_chars is_digit (ds +:+ rest) = (ds, rest).
Proof. intros Hd Hr. apply span_digits; [done|]. destruct rest; [done|]. apply Hr. Qed.

Lemma take_point_end rest : number_end rest -> take_point rest = ("", rest).
Proof. destruct rest as [|c r]; [done|]. intros (_ & Hc & _). cbn. by rewrite (proj2 (Z.eqb_neq _ _) Hc). Qed.
Lemma take_power_end rest : number_end rest -> take_power rest = ("", rest).
Proof.
  destruct rest as [|c r]; [done|]. intros (_ & _ & He & HE). cbn.
  by rewrite (proj2 (Z.eqb_neq _ _) He) (proj2 (Z.eqb_neq _ _) HE).
Qed.

(** Digits without a leading zero. *)
Definition whole_text (ds : string) : Prop :=
  all_chars is_digit ds = true /\
  match ds with EmptyString => False | String c s => code c = 48 -> s = "" end.

Lemma take_whole_digits ds rest :
  whole_text ds -> number_end rest -> take_whole (ds +:+ rest) = Some (ds, rest).
Proof.
  destruct ds as [|c s]; intros [Hd Hz] Hr; [done|]. cbn [take_whole String.append].
  cbn in Hd. apply andb_true_iff in Hd as [Hc Hs].
  destruct (Z.eqb_spec (code c) 48) as [E|E]; [by rewrite (Hz E)|]. rewrite Hc.
  change (String c (s +:+ rest)) with (String c s +:+ rest). rewrite span_number //. cbn. by rewrite Hc.
Qed.

Lemma pretty_go_head n s :
  (0 < n)%N -> exists c t, pretty_N_go n s = String c t /\ code c <> 48.
Proof.
  revert s. induction (N.lt_wf_0 n) as [n _ IH]; intros s Hn. rewrite pretty_N_go_step; [lia|].
  destruct (decide (n < 10)%N) as [Hl|Hl].
  - rewrite N.div_small // N.mod_small // pretty_N_go_0. do 2 eexists. split; [done|].
    assert (n ∈ [1;2;3;4;5;6;7;8;9]%N) as Hd by (rewrite !elem_of_cons; lia).
    clear -Hd. revert n Hd. apply Forall_forall. by repeat constructor.
  - apply IH; [apply N.div_lt; lia|]. apply N.div_str_pos. lia.
Qed.

Lemma pretty_whole (n : N) : whole_text (pretty n).
Proof.
  split; [apply pretty_digits|]. unfold pretty, pretty_N. case_decide as E; [done|].
  destruct (pretty_go_head n "") as (c & t & -> & Hc); [lia|]. done.
Qed.

Lemma pretty_Z (n : Z) :
  pretty n = (if n <? 0 then "-" else "") +:+ pretty (Z.to_N (Z.abs n)).
Proof. by destruct n. Qed.

Lemma scan_int n rest :
  number_end rest -> scan_number (pretty (n : Z) +:+ rest) = Some (pretty n, false, rest).
Proof.
  intros Hr. rewrite pretty_Z. set (ds := pretty (Z.to_N (Z.abs n))).
  pose proof (pretty_whole (Z.to_N (Z.abs n))) as Hw. fold ds in Hw. unfold scan_number.
  assert (match ds with String c s' => (code c =? 45) = false | _ => True end) as Hc.
  { destruct Hw as [Hd _]. destruct ds as [|c s]; [done|]. cbn in Hd.
    apply andb_true_iff in Hd as [Hd _]. unfold is_digit, in_range in Hd. to_prop. apply Z.eqb_neq. lia. }
  destruct (n <? 0).
  - cbn [String.append]. change (code "-" =? 45) with true. cbn iota.
    rewrite take_whole_digits //. cbn. by rewrite take_point_end // take_power_end //= app_empty_string.
  - cbn [String.append]. destruct ds as [|c s] eqn:E; [by destruct Hw|]. cbn [String.append]. rewrite Hc.
    change (String c (s +:+ rest)) with (String c s +:+ rest).
    rewrite take_whole_digits //. cbn. by rewrite take_point_end // take_power_end //= app_empty_string.
Qed.

Lemma int_text_pretty n : int_text (pretty (n : Z)) = Some n.
Proof.
  rewrite pretty_Z. unfold int_text. pose proof (pretty_whole (Z.to_N (Z.abs n))) as [Hd _].
  pose proof (pretty_value (Z.to_N (Z.abs n))) as Hv. pose proof (pretty_nonempty (Z.to_N (Z.abs n))) as Hn.
  destruct (Z.ltb_spec n 0) as [H|H].
  - cbn [String.append take_sign]. change (Ascii.eqb "-" "-") with true. cbn iota. rewrite Hv. cbn. f_equal. lia.
  - cbn [String.append]. destruct (pretty (Z.to_N (Z.abs n))) as [|c s] eqn:E; [done|]. cbn in Hd.
    apply andb_true_iff in Hd as [[Hm Hp]%is_digit_sign _]. cbn [take_sign]. rewrite Hm Hp Hv. cbn. f_equal. lia.
Qed.

(** ** The order of the pairs *)

Section SortMap.
  Context {A B : Type} (R : relation A) (S : relation B) 
    `{!forall x y, Decision (R x y), !forall x y, Decision (S x y)} (f : A -> B).
  Hypothesis f_rel : forall a a', S (f a) (f a') <-> R a a'.

Lemma list_merge_map l1 l2 : list_merge S (map f l1) (map f l2) = map f (list_merge R l1 l2).
Proof.
  revert l2. induction l1 as [|x l1 IH1]; intros l2; [by destruct l2|].
  induction l2 as [|y l2 IH2]; [done|]. cbn in *. destruct (decide (S (f x) (f y))) as [E|E], (decide (R x y)) as [E'|E'];
    rewrite f_rel in E; try done; cbn; f_equal; [apply (IH1 (y :: l2))|apply IH2].
Qed.

Lemma merge_to_stack_map st l :
  merge_list_to_stack S (map (fmap (map f)) st) (map f l) =
  map (fmap (map f)) (merge_list_to_stack R st l).
Proof.
  revert l. induction st as [|[l'|] st IH]; intros l; cbn; [done| |done].
  by rewrite list_merge_map IH.
Qed.

Lemma merge_stack_map st : merge_stack S (map (fmap (map f)) st) = map f (merge_stack R st).
Proof. induction st as [|[l|] st IH]; cbn; [done| |done]. by rewrite IH list_merge_map. Qed.

Lemma merge_sort_map l : merge_sort S (map f l) = map f (merge_sort R l).
Proof.
  unfold merge_sort. change (@nil (option (list B))) with (map (fmap (map f)) (@nil (option (list A)))).
  generalize (@nil (option (list A))). induction l as [|x l IH]; intros st; cbn.
  - apply merge_stack_map.
  - rewrite -IH. f_equal. apply (merge_to_stack_map st [x]).
Qed.
End SortMap.

(** ** The round trip *)

Lemma object_set_new k v d : k ∉ d.*1 -> object_set k v d = d ++ [(k, v)].
Proof.
  induction d as [|[k' v'] d IH]; cbn; [done|]. rewrite not_elem_of_cons. intros [Hk Hd].
  rewrite bool_decide_eq_false_2 // IH //.
Qed.

Lemma object_of_unique ps : NoDup ps.*1 -> object_of ps = JObj ps.
Proof.
  intros H. unfold object_of. f_equal.
  enough (forall d, NoDup (d ++ ps).*1 -> fold_left (fun d kv => object_set kv.1 kv.2 d) ps d = d ++ ps)
    as He by exact (He [] H).
  clear H. induction ps as [|[k v] ps IH]; intros d Hd; cbn; [by rewrite app_nil_r|].
  rewrite object_set_new; [|rewrite IH; by rewrite -assoc].
  rewrite fmap_app in Hd. apply NoDup_app in Hd as (_ & Hd & _). intros Hk.
  apply (Hd _ Hk). by left.
Qed.

(** How a value begins: not with a space or a closing bracket. *)
Definition value_head (s : string) : Prop :=
  match s with String c _ => json_space c = false /\ Ascii.eqb "]" c = false | EmptyString => False end.

Lemma digit_head c : is_digit c = true \/ code c = 45 -> json_space c = false /\ Ascii.eqb "]" c = false.
Proof.
  unfold json_space, is_digit, in_range. intros H.
  assert (45 <= code c <= 57) as Hc by (destruct H; to_prop; lia). split.
  - rewrite !orb_false_iff !Z.eqb_neq. lia.
  - destruct (Ascii.eqb_spec "]"%char c) as [<-|]; [|done].
    change (code "]") with 93 in Hc. lia.
Qed.

Lemma text_head v : json_wf v -> value_head (json_text v).
Proof.
  destruct v as [|[]|n|t|s|xs|ps]; intros Hw; cbn [json_text]; try done.
  - rewrite pretty_Z. pose proof (pretty_whole (Z.to_N (Z.abs n))) as [Hd Hn].
    destruct (n <? 0); [done|]. destruct (pretty (Z.to_N (Z.abs n))); [done|]. cbn in Hd |- *.
    apply andb_true_iff in Hd as [Hd _]. apply digit_head. by left.
  - destruct Hw as [Hw _]. destruct t; [done|]. by apply digit_head.
Qed.

Lemma head_skip s t : value_head s -> skip_space (s +:+ t) = s +:+ t.
Proof. destruct s as [|c s]; [done|]. intros [Hc _]. unfold skip_space. cbn. by rewrite Hc. Qed.

Definition member_text (kv : string * json) : string := json_quote kv.1 +:+ ":" +:+ json_text kv.2.

Lemma text_obj ps : json_text (JObj ps) = "{" +:+ join "," (map member_text ps) +:+ "}".
Proof. done. Qed.

(** A value is read back by the parser, whatever follows it. *)
Definition reads_back (v : json) : Prop :=
  forall f rest, json_wf v -> number_end rest -> (2 * String.length (json_text v) + 1 <= f)%nat ->
    parse_value f (json_text v +:+ rest) = Some (v, rest).

Lemma close_end c rest :
  c = ","%char \/ c = "]"%char \/ c = "}"%char -> number_end (String c rest).
Proof. intros [->|[->| ->]]; vm_compute; done. Qed.

Lemma join_cons sep x y xs : join sep (x :: y :: xs) = x +:+ sep +:+ join sep (y :: xs).
Proof. done. Qed.

Lemma parse_elements_back xs f rest :
  xs <> [] -> Forall reads_back xs -> Forall json_wf xs ->
  (2 * String.length (join "," (map json_text xs)) + 2 <= f)%nat ->
  parse_elements f (join "," (map json_text xs) +:+ "]" +:+ rest) = Some (xs, rest).
Proof.
  intros Hn Hr Hw. revert f. induction xs as [|x xs IH]; intros f Hf; [done|].
  apply Forall_cons in Hr as [Hx Hr]. apply Forall_cons in Hw as [Hwx Hw].
  destruct f as [|f]; [lia|].
  destruct xs as [|y xs].
  - cbn [map join] in Hf |- *. cbn [parse_elements]. rewrite Hx; [done|apply close_end; auto|lia|done].
  - change (map json_text (x :: y :: xs)) with (json_text x :: json_text y :: map json_text xs) in *.
    rewrite join_cons in Hf |- *. rewrite !length_app_string in Hf. rewrite !append_assoc_string.
    cbn [parse_elements]. rewrite Hx; [done|apply close_end; auto|cbn in Hf; lia|].
    cbn [mbind option_bind]. apply Forall_cons in Hw as [Hwy Hw'].
    change (after_text "," (skip_space ("," +:+ ?t))) with (Some t). cbn iota.
    assert (value_head (join "," (map json_text (y :: xs)))) as Hh.
    { pose proof (text_head y Hwy) as Hy. destruct xs; [done|]. cbn. by destruct (json_text y). }
    change (json_text y :: map json_text xs) with (map json_text (y :: xs)) in *.
    rewrite head_skip // IH //; [by apply Forall_cons_2|change (String.length ",") with 1%nat in Hf; lia].
Qed.

Lemma quoted_head s t : skip_space (json_quote s +:+ t) = json_quote s +:+ t.
Proof. by apply head_skip. Qed.

Lemma after_quote t : after_text DQUOTE (DQUOTE +:+ t) = Some t.
Proof. done. Qed.

Lemma parse_members_back ps f rest :
  ps <> [] -> Forall (fun kv => reads_back kv.2) ps -> Forall (fun kv => json_wf kv.2) ps ->
  (2 * String.length (join "," (map member_text ps)) + 2 <= f)%nat ->
  parse_members f (join "," (map member_text ps) +:+ "}" +:+ rest) =
    Some (ps, rest).
Proof.
  intros Hn Hr Hw. revert f. induction ps as [|[k v] ps IH]; intros f Hf; [done|].
  apply Forall_cons in Hr as [Hx Hr]. apply Forall_cons in Hw as [Hwx Hw]. cbn in Hx, Hwx.
  destruct ps as [|p ps].
  - cbn [map join] in Hf |- *. unfold member_text in Hf |- *. cbn [fst snd] in Hf |- *.
    rewrite !length_app_string in Hf. destruct f as [|f]; [lia|].
    rewrite !append_assoc_string. cbn [parse_members]. rewrite after_quote. cbn [mbind option_bind].
    rewrite scan_json_chars. cbn [mbind option_bind]. change (after_text ":" (skip_space (":" +:+ ?t))) with (Some t). cbn [mbind option_bind].
    rewrite (head_skip _ _ (text_head v Hwx)) Hx; [done|apply close_end; auto|cbn in Hf; lia|done].
  - change (map member_text ((k, v) :: p :: ps)) with (member_text (k, v) :: member_text p :: map member_text ps) in *.
    rewrite join_cons in Hf |- *. unfold member_text at 1 in Hf. unfold member_text at 1.
    cbn [fst snd] in Hf |- *. rewrite !length_app_string in Hf. destruct f as [|f]; [lia|].
    rewrite !append_assoc_string. cbn [parse_members]. rewrite after_quote. cbn [mbind option_bind].
    rewrite scan_json_chars. cbn [mbind option_bind]. change (after_text ":" (skip_space (":" +:+ ?t))) with (Some t). cbn [mbind option_bind].
    rewrite (head_skip _ _ (text_head v Hwx)) Hx; [done|apply close_end; auto|cbn in Hf; lia|].
    cbn [mbind option_bind]. change (after_text "," (skip_space ("," +:+ ?t))) with (Some t). cbn iota.
    assert (value_head (join "," (map member_text (p :: ps)))) as Hh by (by destruct ps).
    change (member_text p :: map member_text ps) with (map member_text (p :: ps)) in *.
    rewrite head_skip // IH //. change (String.length ",") with 1%nat in Hf. lia.
Qed.

Lemma parse_number f c s :
  is_digit c = true \/ code c = 45 ->
  parse_value (S f) (String c s) = number_value (scan_number (String c s)).
Proof.
  intros H. assert (is_digit c || (code c =? 45) = true) as Hc.
  { apply orb_true_iff. destruct H; [by left|right; by apply Z.eqb_eq]. }
  clear H. by destruct c as [[] [] [] [] [] [] [] []].
Qed.

Lemma text_reads_back v : reads_back v.
Proof.
  induction v as [|b|n|t|s|xs IH|ps IH] using json_nested_ind; intros f rest Hw Hr Hf;
    (destruct f as [|f]; [lia|]).
  - done.
  - by destruct b.
  - pose proof (scan_int n rest Hr) as Hs. pose proof (int_text_pretty n) as Hi.
    cbn [json_text]. destruct (pretty n) as [|c s] eqn:E.
    { rewrite pretty_Z in E. destruct (n <? 0); [done|]. by destruct (pretty_nonempty _ E). }
    rewrite append_cons in Hs |- *. rewrite parse_number; [|rewrite Hs; cbn; by rewrite Hi].
    rewrite pretty_Z in E. pose proof (pretty_whole (Z.to_N (Z.abs n))) as [Hd Hn].
    destruct (n <? 0); [by injection E as <- _; right|]. destruct (pretty (Z.to_N (Z.abs n))); [done|].
    cbn in E, Hd. apply andb_true_iff in Hd as [Hd _]. injection E as <- _. by left.
  - destruct Hw as [Hc Hw]. specialize (Hw rest Hr). destruct t as [|c t]; [done|].
    cbn [json_text]. rewrite append_cons in Hw |- *. rewrite parse_number //. by rewrite Hw.
  - apply parse_quoted.
  - apply wf_arr in Hw. cbn [json_text] in Hf |- *. destruct xs as [|x xs]; [done|].
    rewrite !length_app_string in Hf. rewrite !append_assoc_string.
    assert (value_head (join "," (map json_text (x :: xs)))) as Hh.
    { apply Forall_cons in Hw as [Hx _]. apply text_head in Hx. destruct xs; [done|]. cbn.
      by destruct (json_text x). }
    pose proof (parse_elements_back (x :: xs) f rest) as Hp.
    change (parse_value (S f) ("[" +:+ ?t)) with
      (match after_text "]" (skip_space t) with
       | Some rest => Some (JArr [], rest)
       | None => '(xs, rest) ← parse_elements f (skip_space t); Some (JArr xs, rest)
       end).
    rewrite head_skip // Hp //; [cbn in Hf |- *; lia|].
    destruct (join "," (map json_text (x :: xs))) as [|c s]; [done|]. destruct Hh as [_ Hc].
    cbn [after_text String.append]. by rewrite Hc.
  - apply wf_obj in Hw as [Hn Hw]. rewrite text_obj in Hf |- *.
    rewrite !length_app_string in Hf. rewrite !append_assoc_string.
    destruct ps as [|q qs]; [done|].
    change (parse_value (S f) ("{" +:+ ?t)) with
      (match after_text "}" (skip_space t) with
       | Some rest => Some (JObj [], rest)
       | None => '(ps, rest) ← parse_members f (skip_space t); Some (object_of ps, rest)
       end).
    assert (value_head (join "," (map member_text (q :: qs)))) as Hh by (by destruct qs).
    rewrite head_skip // parse_members_back //; [cbn in Hf |- *; lia|].
    assert (after_text "}" (join "," (map member_text (q :: qs)) +:+ "}" +:+ rest) = None) as ->
      by (by destruct qs).
    cbn [mbind option_bind]. by rewrite object_of_unique.
Qed.

(** What [json.dumps] writes, [json.loads] reads. *)
Theorem json_round_trip v : json_wf v -> json_loads (json_text v) = Ok v.
Proof.
  intros Hw. pose proof (text_head v Hw) as Hh. unfold json_loads.
  rewrite -{2}(app_empty_string (json_text v)) head_skip // text_reads_back //. lia.
Qed.

(** With sorted keys it writes the text of the value with sorted pairs. *)
Lemma dumps_text v : json_dumps v = json_text (json_sorted v).
Proof.
  induction v as [|b|n|t|s|xs IH|ps IH] using json_nested_ind; try done; cbn [json_dumps json_text json_sorted].
  - f_equal. f_equal. f_equal. rewrite map_map. by apply map_ext_Forall.
  - f_equal. f_equal. f_equal.
    assert (map (fun kv => (kv.1, json_dumps kv.2)) ps =
            map (fun kv => (kv.1, json_text kv.2)) (map (fun kv => (kv.1, json_sorted kv.2)) ps)) as ->.
    { rewrite map_map. apply map_ext_Forall. eapply Forall_impl; [exact IH|]. by intros [k v] E; cbn in *; rewrite E. }
    rewrite (merge_sort_map pair_le key_le (fun kv => (kv.1, json_text kv.2))) // map_map //.
Qed.

Lemma json_sorted_wf v : json_wf v -> json_wf (json_sorted v).
Proof.
  induction v as [|b|n|t|s|xs IH|ps IH] using json_nested_ind; try done; cbn [json_sorted].
  - rewrite !wf_arr. intros Hw. apply Forall_map. pose proof (proj2 (Forall_and _ _) (conj IH Hw)) as Ha; eapply Forall_impl; [exact Ha|].
    intros x [H1 H2]. auto.
  - rewrite !wf_obj. intros [Hn Hw]. rewrite merge_sort_Permutation. split.
    + change (NoDup (map fst (map (fun kv => (kv.1, json_sorted kv.2)) ps))). by rewrite map_map.
    + apply Forall_map. pose proof (proj2 (Forall_and _ _) (conj IH Hw)) as Ha; eapply Forall_impl; [exact Ha|]. intros x [H1 H2]. cbn. auto.
Qed.

Theorem json_sorted_round_trip v : json_wf v -> json_loads (json_dumps v) = Ok (json_sorted v).
Proof. intros Hw. rewrite dumps_text. by apply json_round_trip, json_sorted_wf. Qed.
