(* ===== verification/RedisCodec.v ===== *)
(** * Jobs as Redis hashes

    Models [_spec_json], [_job_from_hash] and [_job_mapping] of
    [execution/redis_store.py]: a job is a hash of texts, its specification a JSON text.
    Floats have their [repr] and payloads their JSON value ([FloatText], [JsonValue]); the
    JSON text itself is that of [PyJson] and [JsonLoads]. *)
From stdpp Require Import pretty.
From Stdlib Require Import Ascii.
From S2P Require Import Prelude PyString PyFloat PyDecimal PyDateTime PyText PyJson JsonLoads DurableJobs.
#[local] Open Scope Z_scope.

(** [repr(x)] and [float(text)]. *)
Class FloatText (F : Type) := {
  f_repr : F -> string;
  f_of_text : string -> res F
}.
Class FloatTextLaws (F : Type) `{FloatText F} := {
  repr_float_text x : float_text (f_repr x);
  repr_round_trip x : f_of_text (f_repr x) = Ok x
}.

(** The JSON value of a payload or a result, and the object a JSON value is read as; Python
    compares the two with [==], which does not see the order of the pairs. *)
Class JsonValue (V : Type) := {
  to_json : V -> json;
  of_json : json -> V
}.
Class JsonValueLaws (V : Type) `{JsonValue V} := {
  to_json_wf v : json_wf (to_json v);
  to_json_not_none v : to_json v <> JNull;
  of_to_json v : of_json (to_json v) = v;
  of_to_json_sorted v : of_json (json_sorted (to_json v)) = v
}.

Section Codec.
  Context {F V : Type} `{PyFloat F} `{FloatText F} `{JsonValue V}.
  Implicit Types (j : ExecutionJob F V) (sp : JobSpec F V).

(** ** Writing *)

Definition status_text (s : JobStatus) : string :=
  match s with
  | QUEUED => "queued" | RUNNING => "running" | RETRY_WAIT => "retry_wait"
  | SUCCEEDED => "succeeded" | FAILED => "failed" | CANCELLED => "cancelled"
  end.

Definition json_float (x : F) : json := JFloat (f_repr x).

Definition retry_json (p : RetryPolicy F) : json :=
  JObj [("max_attempts", JInt (max_attempts p));
        ("initial_backoff_seconds", json_float (initial_backoff_seconds p));
        ("max_backoff_seconds", json_float (max_backoff_seconds p))].

Definition spec_value sp : json :=
  JObj [("idempotency_key", JStr (idempotency_key sp));
        ("domain", JStr (domain sp));
        ("payload", to_json (payload sp));
        ("priority", JInt (priority_int (priority sp)));
        ("retry", retry_json (retry sp));
        ("deadline_at", match deadline_at sp with Some d => json_float d | None => JNull end)].

Definition spec_json sp : string := json_dumps (spec_value sp).

Definition job_fields j : list (string * string) :=
  [("job_id", job_id j);
   ("spec", spec_json (spec j));
   ("status", status_text (status j));
   ("created_at", f_repr (created_at j));
   ("updated_at", f_repr (updated_at j));
   ("available_at", f_repr (available_at j));
   ("attempt", pretty (attempt j));
   ("worker_id", or_string (worker_id j) "");
   ("lease_token", or_string (lease_token j) "");
   ("lease_expires_at", match lease_expires_at j with None => "" | Some e => f_repr e end);
   ("cancel_requested", if cancel_requested j then "1" else "0");
   ("last_error", or_string (last_error j) "");
   ("result", match result j with None => "" | Some v => json_text (to_json v) end)].

Definition job_mapping j : gmap string string := list_to_map (job_fields j).

(** ** Reading *)

(** [ExecutionPriority(n)] and [JobStatus(text)]. *)
Definition priority_of_int (n : Z) : res ExecutionPriority :=
  if n =? 0 then mret EMERGENCY else if n =? 10 then mret INTERACTIVE
  else if n =? 20 then mret NORMAL else if n =? 30 then mret BATCH
  else raise ValueError (pretty n +:+ " is not a valid ExecutionPriority").

Definition status_of_text (s : string) : res JobStatus :=
  if bool_decide (s = "queued") then mret QUEUED
  else if bool_decide (s = "running") then mret RUNNING
  else if bool_decide (s = "retry_wait") then mret RETRY_WAIT
  else if bool_decide (s = "succeeded") then mret SUCCEEDED
  else if bool_decide (s = "failed") then mret FAILED
  else if bool_decide (s = "cancelled") then mret CANCELLED
  else raise ValueError (repr_str s +:+ " is not a valid JobStatus").

(** Subscripting, [int] and [float] of a JSON value; a float is never turned into an
    integer here. *)
Definition as_object (v : json) : res (list (string * json)) :=
  match v with JObj ps => mret ps | _ => raise TypeError "object is not subscriptable by str" end.
Definition as_text (v : json) : res string :=
  match v with JStr s => mret s | _ => raise AttributeError "object has no attribute 'strip'" end.

(** [int(text)]. *)
Definition int_of_text (text : string) : res Z :=
  let (neg, s) := take_sign (strip text) in
  match underscored 10 0 false s with
  | Some n => mret (if neg : bool then - n else n)
  | None => raise ValueError "invalid literal for int() with base 10"
  end.
Definition int_of_json (v : json) : res Z :=
  match v with
  | JInt n => mret n
  | JBool b => mret (Z.b2z b)
  | JStr s => int_of_text s
  | _ => raise TypeError "int() argument must be a string or a number"
  end.
Definition float_of_json (v : json) : res F :=
  match v with
  | JFloat t => f_of_text t
  | JInt n => f_of_text (pretty n)
  | JStr s => f_of_text s
  | JBool b => f_of_text (if b then "1" else "0")
  | _ => raise TypeError "float() argument must be a string or a real number"
  end.

Definition retry_from_json (v : json) : res (RetryPolicy F) :=
  d ← as_object v;
  n ← jindex d "max_attempts" ≫= int_of_json;
  initial ← jindex d "initial_backoff_seconds" ≫= float_of_json;
  maximal ← jindex d "max_backoff_seconds" ≫= float_of_json;
  let p := {| max_attempts := n; initial_backoff_seconds := initial; max_backoff_seconds := maximal |} in
  _ ← RetryPolicy_post_init p;
  mret p.

Definition spec_from_text (text : string) : res (JobSpec F V) :=
  d ← json_loads text ≫= as_object;
  retry_data ← jindex d "retry";
  key ← jindex d "idempotency_key";
  dom ← jindex d "domain";
  body ← jindex d "payload";
  prio ← (jindex d "priority" ≫= int_of_json) ≫= priority_of_int;
  policy ← retry_from_json retry_data;
  deadline ← jindex d "deadline_at" ≫= (fun v =>
    match v with JNull => mret None | _ => x ← float_of_json v; mret (Some x) end);
  key ← as_text key;
  dom ← as_text dom;
  let sp := {| idempotency_key := key; domain := dom; payload := of_json body; priority := prio;
               retry := policy; deadline_at := deadline |} in
  _ ← JobSpec_post_init sp;
  mret sp.

(** [data[k]] and [data.get(k) or None]. *)
Definition field (data : gmap string string) (k : string) : res string :=
  match data !! k with Some v => mret v | None => raise KeyError k end.
Definition field_or_none (data : gmap string string) (k : string) : option string :=
  match data !! k with Some v => if bool_decide (v = "") then None else Some v | None => None end.

Definition job_from_hash (data : gmap string string) : res (ExecutionJob F V) :=
  if bool_decide (data = ∅) then raise JobNotFoundError "job not found" else
  sp ← field data "spec" ≫= spec_from_text;
  id ← field data "job_id";
  st ← field data "status" ≫= status_of_text;
  created ← field data "created_at" ≫= f_of_text;
  updated ← field data "updated_at" ≫= f_of_text;
  available ← field data "available_at" ≫= f_of_text;
  att ← int_of_text (default "0" (data !! "attempt"));
  expires ← match field_or_none data "lease_expires_at" with
            | Some t => x ← f_of_text t; mret (Some x)
            | None => mret None
            end;
  value ← match field_or_none data "result" with
          | Some t => v ← json_loads t; mret (match v with JNull => None | _ => Some (of_json v) end)
          | None => mret None
          end;
  mret {| job_id := id; spec := sp; status := st; created_at := created; updated_at := updated;
          available_at := available; attempt := att;
          worker_id := field_or_none data "worker_id";
          lease_token := field_or_none data "lease_token";
          lease_expires_at := expires;
          cancel_requested := bool_decide (default "0" (data !! "cancel_requested") = "1");
          last_error := field_or_none data "last_error";
          result := value |}.
End Codec.

(** ** The round trip *)

Section RoundTrip.
  Context {F V : Type} `{PyFloat F} `{FloatTextLaws F} `{JsonValueLaws V}.
  Implicit Types (j : ExecutionJob F V) (sp : JobSpec F V).

(** A specification the constructors accept. *)
Definition spec_valid sp : Prop :=
  RetryPolicy_post_init (retry sp) = Ok tt /\ JobSpec_post_init sp = Ok tt.

(** An empty text is stored and read as no text. *)
Definition no_empty (x : option string) : option string :=
  match x with Some "" => None | _ => x end.
Definition norm_job j : ExecutionJob F V :=
  set_last_error (no_empty (last_error j))
    (set_lease (no_empty (worker_id j)) (no_empty (lease_token j)) (lease_expires_at j) j).

Lemma spec_value_wf sp : json_wf (spec_value sp).
Proof.
  unfold spec_value, retry_json, json_float. apply wf_obj. split; [by apply (bool_decide_unpack _)|].
  repeat (apply Forall_cons; split); cbn; try apply Forall_nil; try done; [apply to_json_wf| |].
  - split; [by apply (bool_decide_unpack _)|]. split_and!; try done; apply repr_float_text.
  - destruct (deadline_at sp); [apply repr_float_text|done].
Qed.

(** The pairs of the specification in the order of their keys. *)
Lemma spec_value_sorted sp :
  json_sorted (spec_value sp) =
  JObj [("deadline_at", match deadline_at sp with Some d => json_float d | None => JNull end);
        ("domain", JStr (domain sp));
        ("idempotency_key", JStr (idempotency_key sp));
        ("payload", json_sorted (to_json (payload sp)));
        ("priority", JInt (priority_int (priority sp)));
        ("retry", JObj [("initial_backoff_seconds", json_float (initial_backoff_seconds (retry sp)));
                        ("max_attempts", JInt (max_attempts (retry sp)));
                        ("max_backoff_seconds", json_float (max_backoff_seconds (retry sp)))])].
Proof. destruct sp as [key dom body prio [n a b] [d|]]; reflexivity. Qed.

Lemma priority_round_trip p : priority_of_int (priority_int p) = Ok p.
Proof. by destruct p. Qed.
Lemma status_round_trip s : status_of_text (status_text s) = Ok s.
Proof. by destruct s. Qed.

Lemma jindex_at d k v : dict_get d k = Some v -> jindex d k = Ok v.
Proof. unfold jindex. by intros ->. Qed.

(** Reads the keys of a known object. *)
Ltac read_keys :=
  repeat match goal with
  | |- context [jindex ?d ?k] => erewrite (jindex_at d k) by reflexivity; cbn [mbind res_bind mret res_ret]
  end.

Lemma spec_round_trip sp : spec_valid sp -> spec_from_text (spec_json sp) = Ok sp.
Proof.
  intros [Hp Hs]. unfold spec_from_text, spec_json.
  rewrite (json_sorted_round_trip _ (spec_value_wf sp)) spec_value_sorted.
  destruct sp as [key dom body prio [n a b] dl]. cbn in Hp, Hs.
  cbn [mbind res_bind mret res_ret as_object domain idempotency_key payload priority retry deadline_at
       initial_backoff_seconds max_attempts max_backoff_seconds].
  read_keys. cbn [int_of_json mbind res_bind mret res_ret]. rewrite priority_round_trip.
  unfold retry_from_json, json_float. cbn [mbind res_bind mret res_ret as_object]. read_keys.
  cbn [int_of_json float_of_json mbind res_bind mret res_ret]. rewrite !repr_round_trip.
  cbn [mbind res_bind mret res_ret]. rewrite Hp of_to_json_sorted.
  destruct dl as [d|]; cbn [float_of_json as_text mbind res_bind mret res_ret];
    rewrite ?repr_round_trip; cbn [as_text mbind res_bind mret res_ret]; by rewrite Hs.
Qed.

Lemma underscored_digits s acc :
  all_chars is_digit s = true -> underscored 10 acc true s = digits_value 10 acc s.
Proof.
  revert acc. induction s as [|c s IH]; intros acc; cbn; [done|]. intros [Hc Hs]%andb_true_iff.
  assert (Ascii.eqb c "_" = false) as ->.
  { destruct (Ascii.eqb_spec c "_"%char) as [->|]; done. }
  destruct (digit_value c); [|done]. case_match; [by apply IH|done].
Qed.

Lemma int_of_pretty n : int_of_text (pretty n) = Ok n.
Proof.
  unfold int_of_text. rewrite pretty_Z.
  pose proof (pretty_whole (Z.to_N (Z.abs n))) as [Hd _]. pose proof (pretty_value (Z.to_N (Z.abs n))) as Hv.
  destruct (pretty (Z.to_N (Z.abs n))) as [|c s] eqn:E; [by destruct (pretty_nonempty _ E)|].
  assert (underscored 10 0 false (String c s) = Some (Z.abs n)) as Hu.
  { cbn in Hd. apply andb_true_iff in Hd as [Hc Hs]. rewrite Z2N.id in Hv; [lia|]. rewrite -Hv. cbn.
    assert (Ascii.eqb c "_" = false) as ->.
    { destruct (Ascii.eqb_spec c "_"%char) as [->|]; done. }
    destruct (digit_value c); [|done]. case_match; [by apply underscored_digits|done]. }
  assert (all_chars (fun c => negb (is_space c)) ((if n <? 0 then "-" else "") +:+ String c s) = true) as Hsp.
  { destruct (n <? 0); cbn [String.append all_chars]; [change (negb (is_space "-")) with true; cbn [andb]|];
      refine (all_chars_impl _ _ (String c s) _ Hd); intros d Hdig;
      exact (proj1 (amount_char_plain d (is_digit_amount d Hdig))). }
  rewrite strip_none //. cbn in Hd. apply andb_true_iff in Hd as [Hc _].
  destruct (is_digit_sign c Hc) as [Hm Hp].
  assert (take_sign ((if n <? 0 then "-" else "") +:+ String c s) = (n <? 0, String c s)) as ->.
  { destruct (n <? 0); [done|]. change (take_sign (String c s) = (false, String c s)).
    unfold take_sign. by rewrite Hm Hp. }
  cbn match. rewrite Hu. destruct (Z.ltb_spec n 0); cbn; f_equal; lia.
Qed.

Lemma field_nonempty_text data k v : data !! k = Some (or_string v "") -> field_or_none data k = no_empty v.
Proof.
  unfold field_or_none, or_string. intros ->. destruct v as [s|]; cbn; [|done].
  destruct s; by repeat case_bool_decide.
Qed.

Lemma repr_nonempty (x : F) : f_repr x <> "".
Proof. pose proof (repr_float_text x) as [Hh _]. by destruct (f_repr x). Qed.

(** The fields of a job's hash. *)
Lemma mapping_lookup j k v : dict_get (job_fields j) k = Some v -> job_mapping j !! k = Some v.
Proof.
  intros Hk. apply elem_of_list_to_map_1; [by apply (bool_decide_unpack _)|]. by apply dict_get_Some_elem.
Qed.

(** Reads the fields of a job's hash. *)
Ltac read_fields :=
  repeat match goal with
  | |- context [field (job_mapping ?j) ?k] =>
      unfold field at 1; erewrite (mapping_lookup j k) by reflexivity; cbn [mbind res_bind mret res_ret]
  | |- context [field_or_none (job_mapping ?j) ?k] =>
      erewrite (field_nonempty_text (job_mapping j) k) by (apply mapping_lookup; reflexivity)
  | |- context [job_mapping ?j !! ?k] => erewrite (mapping_lookup j k) by reflexivity
  end.

(** What [_job_mapping] writes of a job, [_job_from_hash] reads, with empty texts as
    [None]. *)
Theorem job_round_trip j : spec_valid (spec j) -> job_from_hash (job_mapping j) = Ok (norm_job j).
Proof.
  intros Hsp. unfold job_from_hash.
  rewrite bool_decide_eq_false_2.
  { intros E. pose proof (mapping_lookup j "job_id" _ eq_refl) as Hl. by rewrite E lookup_empty in Hl. }
  assert (field_or_none (job_mapping j) "lease_expires_at" = f_repr <$> lease_expires_at j) as ->.
  { unfold field_or_none. erewrite mapping_lookup by reflexivity. destruct (lease_expires_at j) as [x|]; [|done].
    cbn. by rewrite bool_decide_eq_false_2; [apply repr_nonempty|]. }
  assert (field_or_none (job_mapping j) "result" = (fun v => json_text (to_json v)) <$> result j) as ->.
  { unfold field_or_none. erewrite mapping_lookup by reflexivity. destruct (result j) as [x|]; [|done].
    cbn. rewrite bool_decide_eq_false_2; [|done]. intros E. pose proof (text_head _ (to_json_wf x)) as Hh.
    by rewrite E in Hh. }
  read_fields. cbn [from_option id default].
  rewrite (spec_round_trip _ Hsp). cbn [mbind res_bind mret res_ret]. rewrite status_round_trip !repr_round_trip.
  cbn [mbind res_bind mret res_ret]. rewrite int_of_pretty. cbn [mbind res_bind mret res_ret].
  destruct j as [id sp st cr up av att w t [e|] c er [v|]]; cbn [fmap option_fmap option_map lease_expires_at result];
    rewrite ?repr_round_trip; cbn [mbind res_bind mret res_ret];
    rewrite ?(json_round_trip _ (to_json_wf v)); cbn [mbind res_bind mret res_ret];
    unfold norm_job; cbn; rewrite ?of_to_json.
  all: assert (bool_decide ((if c then "1" else "0") = "1") = c) as -> by (by destruct c); try done.
  all: assert (match to_json v with JNull => None | _ => Some v end = Some v) as -> by
    (pose proof (to_json_not_none v); by destruct (to_json v)); done.
Qed.
End RoundTrip.
#[global] Arguments job_mapping {F V _ _} j : simpl never.
#[global] Arguments job_from_hash {F V _ _ _} data : simpl never.
