(* ===== verification/RedisStore.v ===== *)
(** * The Redis job store

    Models [execution/redis_store.py] ([RedisDurableJobStore]): every operation as the
    program of the commands it sends, with its watched keys, its retry budgets and its early
    returns.  [prefix] is the key prefix after [rstrip(":")]. *)
From Stdlib Require Import Ascii.
From S2P Require Import Prelude PyString PyFloat JsonLoads DurableJobs RedisClient RedisCodec.

(** The prefix [__init__] keeps. *)
Definition is_colon (c : ascii) : bool := Ascii.eqb c ":"%char.
Definition store_prefix (prefix : string) : res string :=
  _ ← ensure (bool_decide (rstrip_by is_colon (lstrip_by is_colon prefix) <> "")) ValueError
        "prefix cannot be empty";
  mret (rstrip_by is_colon prefix).

Section Store.
  Context {F V : Type} `{PyFloat F} `{EqDecision V} `{FloatText F} `{JsonValue V}.
  Context (prefix : string).
  Implicit Types (j : ExecutionJob F V) (sp : JobSpec F V).
#[local] Notation P := (prog F).

Definition queue_key : string := prefix +:+ ":queue".
Definition running_key : string := prefix +:+ ":running".
Definition job_key (id : string) : string := prefix +:+ ":job:" +:+ id.
Definition idem_key (key : string) : string := prefix +:+ ":idem:" +:+ key.

(** [_now]. *)
Definition now_ : P F := send TIME.

Definition hash_job (data : gmap string string) : P (ExecutionJob F V) := liftp (job_from_hash data).

Definition redis_get (id : string) : P (ExecutionJob F V) :=
  data ← send (HGETALL (job_key id));
  if bool_decide (data = ∅) then throwp JobNotFoundError id else hash_job data.

Definition redis_submit sp : P (ExecutionJob F V * bool) :=
  attempts 8
    (send (WATCH [idem_key (idempotency_key sp)]);;
     existing_id ← send (GET (idem_key (idempotency_key sp)));
     match existing_id with
     | Some (String _ _ as id) =>
         existing ← redis_get id;
         if same_submission (spec existing) sp then mret (Some (existing, false))
         else throwp IdempotencyConflictError
                ("idempotency key already belongs to another job: " +:+ idempotency_key sp)
     | _ =>
         now ← now_;
         id ← send UUID4;
         let job := Build_ExecutionJob id sp QUEUED now now now 0 None None None false None None in
         done ← send (EXEC [HSET (job_key id) (job_mapping job);
                            SET (idem_key (idempotency_key sp)) id;
                            ZADD queue_key id now]);
         mret (if done : bool then Some (job, true) else None)
     end)
    (throwp RuntimeError "durable submit contention exceeded retry budget").

(** [job.deadline_at is not None and job.deadline_at <= now] is [deadline_expired]. *)
Definition expire_queued (now : F) j : ExecutionJob F V :=
  clear_lease (set_updated_at now (set_last_error (Some "deadline_exceeded") (set_status FAILED j))).

Definition expire_queued_deadline (id : string) (now : F) : P bool :=
  attempts 8
    (send (WATCH [job_key id; queue_key]);;
     data ← send (HGETALL (job_key id));
     if bool_decide (data = ∅) then
       done ← send (EXEC [ZREM queue_key id]);
       mret (if done : bool then Some false else None)
     else
       job ← hash_job data;
       if negb (claimable (status job)) then mret (Some false)
       else if negb (deadline_expired job now) then mret (Some false)
       else
         let job' := expire_queued now job in
         done ← send (EXEC [HSET (job_key id) (job_mapping job'); ZREM queue_key id]);
         mret (if done : bool then Some true else None))
    (mret false).

Definition allowed (domains : option (list string)) j : bool :=
  match domains with None => true | Some ds => bool_decide (domain (spec j) ∈ ds) end.

(** One entry of the queue in [claim]: the candidates so far, with it or without it. *)
Definition consider (now : F) (domains : option (list string)) (found : list (ExecutionJob F V))
    (id : string) : P (list (ExecutionJob F V)) :=
  job ← catch JobNotFoundError (send (ZREM_NOW queue_key id);; mret None)
          (job ← redis_get id; mret (Some job));
  match job with
  | None => mret found
  | Some job =>
      if negb (claimable (status job)) then send (ZREM_NOW queue_key id);; mret found
      else if cancel_requested job then mret found
      else if deadline_expired job now then _ ← expire_queued_deadline id now; mret found
      else if negb (allowed domains job) then mret found
      else mret (found ++ [job])
  end.

(** The job [claim] writes. *)
Definition claimed_job (now : F) (w token : string) (lease_seconds : F) j : ExecutionJob F V :=
  set_updated_at now (set_lease (Some w) (Some token) (Some (f_add now lease_seconds))
    (set_attempt (attempt j + 1) (set_status RUNNING j))).

Definition redis_claim (w : string) (lease_seconds : F) (domains : option (list string))
    : P (option (ExecutionJob F V)) :=
  _ ← liftp (reject_if (blank w) ValueError "worker_id cannot be empty");
  _ ← liftp (reject_if (f_leb lease_seconds f_zero) ValueError "lease_seconds must be positive");
  attempts 12
    (now ← now_;
     ids ← send (ZRANGEBYSCORE queue_key now);
     candidates ← each (consider now domains) [] ids;
     match merge_sort job_le candidates with
     | [] => mret (Some None)
     | selected :: _ =>
         let key := job_key (job_id selected) in
         send (WATCH [queue_key; key]);;
         data ← send (HGETALL key);
         if bool_decide (data = ∅) then mret None else
         current ← hash_job data;
         if negb (claimable (status current)) then mret None
         else if negb (f_leb (available_at current) now) || cancel_requested current then mret None
         else if deadline_expired current now then mret None
         else if negb (allowed domains current) then mret None
         else
           token ← send UUID4;
           let job := claimed_job now w token lease_seconds current in
           done ← send (EXEC [ZREM queue_key (job_id current);
                              ZADD running_key (job_id current) (f_add now lease_seconds);
                              HSET key (job_mapping job)]);
           mret (if done : bool then Some (Some job) else None)
     end)
    (mret None).

(** The writes of [_mutate_claimed] for the mutated job. *)
Definition mutation_writes (id : string) j : res (list (rwrite F)) :=
  let save := HSET (job_key id) (job_mapping j) in
  if bool_decide (status j = RUNNING) then
    match lease_expires_at j with
    | None => raise JobLeaseLostError ("running job has no lease expiry: " +:+ id)
    | Some e => mret [save; ZADD running_key id e]
    end
  else if claimable (status j) then
    mret [save; ZREM running_key id; ZADD queue_key id (available_at j)]
  else mret [save; ZREM running_key id; ZREM queue_key id].

Definition mutate_claimed (id w token : string) (mutate : ExecutionJob F V -> F -> res (ExecutionJob F V))
    : P (ExecutionJob F V) :=
  attempts 8
    (now ← now_;
     send (WATCH [job_key id; running_key]);;
     data ← send (HGETALL (job_key id));
     if bool_decide (data = ∅) then throwp JobNotFoundError id else
     job ← hash_job data;
     if negb (lease_active job w token now) then
       throwp JobLeaseLostError ("job lease is not active: " +:+ id)
     else
       job' ← liftp (mutate job now);
       ws ← liftp (mutation_writes id job');
       done ← send (EXEC ws);
       mret (if done : bool then Some job' else None))
    (throwp JobLeaseLostError ("job lease changed during mutation: " +:+ id)).

Definition heartbeat_mutation (lease_seconds : F) j (now : F) : res (ExecutionJob F V) :=
  mret (if deadline_expired j now then expire_queued now j
        else set_updated_at now
               (set_lease (worker_id j) (lease_token j) (Some (f_add now lease_seconds)) j)).

Definition redis_heartbeat (id w token : string) (lease_seconds : F) : P (ExecutionJob F V) :=
  _ ← liftp (reject_if (f_leb lease_seconds f_zero) ValueError "lease_seconds must be positive");
  updated ← mutate_claimed id w token (heartbeat_mutation lease_seconds);
  if bool_decide (status updated = FAILED) && bool_decide (last_error updated = Some "deadline_exceeded")
  then throwp JobLeaseLostError ("job deadline expired: " +:+ id)
  else mret updated.

Definition release_mutation (delay_seconds : F) j (now : F) : res (ExecutionJob F V) :=
  mret (clear_lease (set_updated_at now (set_available_at (f_add now delay_seconds)
          (set_attempt (Z.max (attempt j - 1) 0) (set_status QUEUED j))))).

Definition redis_release (id w token : string) (delay_seconds : F) : P (ExecutionJob F V) :=
  _ ← liftp (reject_if (f_ltb delay_seconds f_zero) ValueError "delay_seconds cannot be negative");
  mutate_claimed id w token (release_mutation delay_seconds).

Definition succeed_mutation (r : option V) j (now : F) : res (ExecutionJob F V) :=
  let j1 :=
    if cancel_requested j then set_status CANCELLED j
    else if deadline_expired j now then set_last_error (Some "deadline_exceeded") (set_status FAILED j)
    else set_last_error None (set_result r (set_status SUCCEEDED j)) in
  mret (clear_lease (set_updated_at now j1)).

Definition redis_succeed (id w token : string) (r : option V) : P (ExecutionJob F V) :=
  mutate_claimed id w token (succeed_mutation r).

Definition fail_mutation (error : string) j (now : F) : res (ExecutionJob F V) :=
  let j1 := clear_lease (set_updated_at now (set_last_error (Some error) j)) in
  if cancel_requested j1 then mret (set_status CANCELLED j1)
  else if deadline_expired j1 now then
    mret (set_last_error (Some "deadline_exceeded") (set_status FAILED j1))
  else if max_attempts (retry (spec j1)) <=? attempt j1 then mret (set_status FAILED j1)
  else
    delay ← delay_after_attempt (retry (spec j1)) (attempt j1);
    let retry_at := f_add now delay in
    if match deadline_at (spec j1) with Some d => f_leb d retry_at | None => false end then
      mret (set_last_error (Some "deadline_exceeded") (set_status FAILED j1))
    else mret (set_available_at retry_at (set_status RETRY_WAIT j1)).

Definition redis_fail (id w token error : string) : P (ExecutionJob F V) :=
  mutate_claimed id w token (fail_mutation error).

Definition cancel_request (now : F) j : ExecutionJob F V :=
  let j1 := set_updated_at now (set_cancel_requested true j) in
  if claimable (status j1) then set_status CANCELLED j1 else j1.

Definition redis_request_cancel (id : string) : P (ExecutionJob F V) :=
  attempts 8
    (now ← now_;
     send (WATCH [job_key id; queue_key]);;
     data ← send (HGETALL (job_key id));
     if bool_decide (data = ∅) then throwp JobNotFoundError id else
     job ← hash_job data;
     if terminal (status job) then mret (Some job)
     else
       let j2 := cancel_request now job in
       done ← send (EXEC (HSET (job_key id) (job_mapping j2) ::
                          (if bool_decide (status j2 = CANCELLED) then [ZREM queue_key id] else [])));
       mret (if done : bool then Some j2 else None))
    (throwp RuntimeError ("cancel contention exceeded retry budget: " +:+ id)).

Definition cancel_mutation j (now : F) : res (ExecutionJob F V) :=
  mret (clear_lease (set_updated_at now (set_cancel_requested true (set_status CANCELLED j)))).

Definition redis_cancel_claimed (id w token : string) : P (ExecutionJob F V) :=
  mutate_claimed id w token cancel_mutation.

(** One entry of the running set in [recover_expired_leases]. *)
Definition recover_one (now : F) (recovered : Z) (id : string) : P Z :=
  attempts 8
    (send (WATCH [job_key id; running_key]);;
     data ← send (HGETALL (job_key id));
     if bool_decide (data = ∅) then
       done ← send (EXEC [ZREM running_key id]);
       mret (if done : bool then Some recovered else None)
     else
       job ← hash_job data;
       if negb (lease_lapsed now job) then mret (Some recovered)
       else
         let job' := recover_job now job in
         done ← send (EXEC (HSET (job_key id) (job_mapping job') :: ZREM running_key id ::
                            (if bool_decide (status job' = QUEUED) then [ZADD queue_key id now] else [])));
         mret (if done : bool then Some (recovered + 1) else None))
    (mret recovered).

Definition redis_recover : P Z :=
  now ← now_;
  ids ← send (ZRANGEBYSCORE running_key now);
  each (recover_one now) 0 ids.

(** ** The operations as one alphabet *)

Inductive redis_op :=
  | RSubmit sp
  | RGet (id : string)
  | RClaim (w : string) (lease_seconds : F) (domains : option (list string))
  | RHeartbeat (id w token : string) (lease_seconds : F)
  | RRelease (id w token : string) (delay_seconds : F)
  | RSucceed (id w token : string) (r : option V)
  | RFail (id w token error : string)
  | RRequestCancel (id : string)
  | RCancelClaimed (id w token : string)
  | RRecover.

Inductive redis_reply :=
  | GotJob j
  | GotSubmission j (created : bool)
  | GotClaim (j : option (ExecutionJob F V))
  | GotCount (n : Z).

Definition redis_program (o : redis_op) : P redis_reply :=
  match o with
  | RSubmit sp => '(j, created) ← redis_submit sp; mret (GotSubmission j created)
  | RGet id => j ← redis_get id; mret (GotJob j)
  | RClaim w l ds => j ← redis_claim w l ds; mret (GotClaim j)
  | RHeartbeat id w t l => j ← redis_heartbeat id w t l; mret (GotJob j)
  | RRelease id w t d => j ← redis_release id w t d; mret (GotJob j)
  | RSucceed id w t r => j ← redis_succeed id w t r; mret (GotJob j)
  | RFail id w t e => j ← redis_fail id w t e; mret (GotJob j)
  | RRequestCancel id => j ← redis_request_cancel id; mret (GotJob j)
  | RCancelClaimed id w t => j ← redis_cancel_claimed id w t; mret (GotJob j)
  | RRecover => n ← redis_recover; mret (GotCount n)
  end.
End Store.
Arguments redis_op F V : clear implicits.
Arguments redis_reply F V : clear implicits.
