(* ===== verification/RedisModel.v ===== *)
(** * What the Redis store represents

    The keys of the store hold a reference store ([DurableJobs]), a queue index and an index
    of the running jobs.  [store_view] is that content, [represents] relates it to the server,
    [view_wf] is its invariant and [change] lists every change the operations make, with the
    conditions under which they make it. *)
From S2P Require Import Prelude PyString PyFloat JsonLoads DurableJobs DurableLifecycle RedisClient RedisCodec RedisStore.

Section Model.
  Context {F V : Type} `{PyFloatLaws F} `{!EqDecision V} `{!Redis F} `{!RedisLaws F} `{!FloatText F}
    `{!FloatTextLaws F} `{JsonValueLaws V}.
  Context (prefix : string).
  Implicit Types (j : ExecutionJob F V) (sp : JobSpec F V) (s : rstate).
#[local] Notation queue_key := (queue_key prefix).
#[local] Notation running_key := (running_key prefix).
#[local] Notation job_key := (job_key prefix).
#[local] Notation idem_key := (idem_key prefix).

(** ** Keys *)

Lemma prefix_inj (x y : string) : prefix +:+ x = prefix +:+ y -> x = y.
Proof. induction prefix as [|c p IH]; cbn; [done|]. intros [= E]. auto. Qed.

Lemma job_key_inj a b : job_key a = job_key b -> a = b.
Proof. intros E%prefix_inj. by injection E. Qed.
Lemma idem_key_inj a b : idem_key a = idem_key b -> a = b.
Proof. intros E%prefix_inj. by injection E. Qed.
Lemma job_not_idem a b : job_key a <> idem_key b.
Proof. by intros E%prefix_inj. Qed.
Lemma job_not_queue a : job_key a <> queue_key.
Proof. by intros E%prefix_inj. Qed.
Lemma job_not_running a : job_key a <> running_key.
Proof. by intros E%prefix_inj. Qed.
Lemma idem_not_queue a : idem_key a <> queue_key.
Proof. by intros E%prefix_inj. Qed.
Lemma idem_not_running a : idem_key a <> running_key.
Proof. by intros E%prefix_inj. Qed.
Lemma queue_not_running : queue_key <> running_key.
Proof. by intros E%prefix_inj. Qed.

#[local] Hint Resolve job_not_idem job_not_queue job_not_running idem_not_queue idem_not_running
  queue_not_running not_eq_sym : core.

(** ** Jobs as they are stored *)

Lemma no_empty_idemp x : no_empty (no_empty x) = no_empty x.
Proof. by destruct x as [[|]|]. Qed.
Lemma or_no_empty x : or_string (no_empty x) "" = or_string x "".
Proof. by destruct x as [[|]|]. Qed.

Lemma norm_idemp j : norm_job (norm_job j) = norm_job j.
Proof. unfold norm_job. cbn. by rewrite !no_empty_idemp. Qed.
Lemma norm_mapping j : job_mapping (norm_job j) = job_mapping j.
Proof. unfold job_mapping, job_fields, norm_job. cbn. by rewrite !or_no_empty. Qed.

Lemma mapping_dom j j' : dom (job_mapping j) = dom (job_mapping j').
Proof. unfold job_mapping. by rewrite !dom_list_to_map_L. Qed.
Lemma mapping_nonempty j : job_mapping j <> ∅.
Proof. intros E. pose proof (mapping_lookup j "job_id" _ eq_refl) as Hl. by rewrite E lookup_empty in Hl. Qed.

(** Saving a job replaces every field of its hash. *)
Lemma mapping_union j j' : job_mapping j' ∪ job_mapping j = job_mapping j'.
Proof.
  apply map_eq. intros k. destruct (job_mapping j' !! k) eqn:E.
  - by apply lookup_union_Some_l.
  - rewrite lookup_union E left_id_L. apply not_elem_of_dom. rewrite (mapping_dom j j').
    by apply not_elem_of_dom.
Qed.

(** ** The content of the server *)

Record store_view := {
  sv_store : Store F V;
  sv_queue : gmap string F;
  sv_running : gmap string F
}.

Record represents s (a : store_view) : Prop := {
  rep_jobs : forall id, r_get s (job_key id) = (fun j => RHash (job_mapping j)) <$> jobs (sv_store a) !! id;
  rep_idem : forall k, r_get s (idem_key k) = RString <$> idempotency (sv_store a) !! k;
  rep_queue : as_zset (r_get s queue_key) = Some (sv_queue a);
  rep_running : as_zset (r_get s running_key) = Some (sv_running a)
}.

(** The running index holds exactly the leases of the running jobs; every entry of the queue
    is a claimable job at its time of availability. *)
Record view_wf (a : store_view) : Prop := {
  vw_store : store_wf (sv_store a);
  vw_norm : forall id j, jobs (sv_store a) !! id = Some j -> norm_job j = j /\ spec_valid (spec j);
  vw_ids : forall k id, idempotency (sv_store a) !! k = Some id -> id <> "";
  vw_running : forall id, sv_running a !! id =
    j ← jobs (sv_store a) !! id; if bool_decide (status j = RUNNING) then lease_expires_at j else None;
  vw_queue : forall id x, sv_queue a !! id = Some x ->
    exists j, jobs (sv_store a) !! id = Some j /\ claimable (status j) = true /\ available_at j = x
}.

Definition with_queue q (a : store_view) : store_view :=
  {| sv_store := sv_store a; sv_queue := q; sv_running := sv_running a |}.
Definition with_running r (a : store_view) : store_view :=
  {| sv_store := sv_store a; sv_queue := sv_queue a; sv_running := r |}.
Definition with_store st (a : store_view) : store_view :=
  {| sv_store := st; sv_queue := sv_queue a; sv_running := sv_running a |}.

(** ** One write *)

Lemma write_hset s a id j :
  represents s a ->
  represents (r_write (HSET (job_key id) (job_mapping j)) s) (with_store (put_job id (norm_job j) (sv_store a)) a).
Proof.
  intros [Hj Hi Hq Hr]. split; cbn.
  - intros id'. destruct (decide (id = id')) as [<-|Hne].
    + rewrite lookup_insert_eq. cbn [fmap option_fmap option_map]. rewrite norm_mapping. specialize (Hj id).
      destruct (jobs (sv_store a) !! id) as [j0|]; cbn in Hj.
      * rewrite (hset_law _ _ _ (job_mapping j0)); [by rewrite Hj|apply mapping_nonempty|].
        by rewrite mapping_union.
      * rewrite (hset_law _ _ _ ∅); [by rewrite Hj|apply mapping_nonempty|].
        by rewrite right_id_L.
    + rewrite lookup_insert_ne // write_frame; [intros E%job_key_inj; congruence|done].
  - intros k. rewrite write_frame; [apply not_eq_sym, job_not_idem|done].
  - rewrite write_frame; [apply not_eq_sym, job_not_queue|done].
  - rewrite write_frame; [apply not_eq_sym, job_not_running|done].
Qed.

Lemma write_set s a k id :
  represents s a ->
  represents (r_write (SET (idem_key k) id) s)
    (with_store {| jobs := jobs (sv_store a); idempotency := <[k := id]> (idempotency (sv_store a)) |} a).
Proof.
  intros [Hj Hi Hq Hr]. split; cbn.
  - intros id'. rewrite write_frame; [apply job_not_idem|done].
  - intros k'. destruct (decide (k = k')) as [<-|Hne].
    + by rewrite lookup_insert_eq set_law.
    + rewrite lookup_insert_ne // write_frame; [intros E%idem_key_inj; congruence|done].
  - rewrite write_frame; [apply not_eq_sym, idem_not_queue|done].
  - rewrite write_frame; [apply not_eq_sym, idem_not_running|done].
Qed.

Lemma write_queue s a w q :
  written w = queue_key -> as_zset (r_get (r_write w s) queue_key) = Some q ->
  represents s a -> represents (r_write w s) (with_queue q a).
Proof.
  intros Hw Hz [Hj Hi Hq Hr]. split; cbn; [intros id|intros k|done|];
    (rewrite write_frame; [rewrite Hw|done]);
    [apply job_not_queue|apply idem_not_queue|apply not_eq_sym, queue_not_running].
Qed.
Lemma write_running s a w q :
  written w = running_key -> as_zset (r_get (r_write w s) running_key) = Some q ->
  represents s a -> represents (r_write w s) (with_running q a).
Proof.
  intros Hw Hz [Hj Hi Hq Hr]. split; cbn; [intros id|intros k| |done];
    (rewrite write_frame; [rewrite Hw|done]);
    [apply job_not_running|apply idem_not_running|apply queue_not_running].
Qed.

Lemma zadd_queue s a id x :
  represents s a -> represents (r_write (ZADD queue_key id x) s) (with_queue (<[id := x]> (sv_queue a)) a).
Proof. intros Hr. apply write_queue; [done| |done]. by erewrite zadd_law by apply (rep_queue _ _ Hr). Qed.
Lemma zrem_queue s a id :
  represents s a -> represents (r_write (ZREM queue_key id) s) (with_queue (delete id (sv_queue a)) a).
Proof. intros Hr. apply write_queue; [done| |done]. by erewrite zrem_law by apply (rep_queue _ _ Hr). Qed.
Lemma zadd_running s a id x :
  represents s a -> represents (r_write (ZADD running_key id x) s) (with_running (<[id := x]> (sv_running a)) a).
Proof. intros Hr. apply write_running; [done| |done]. by erewrite zadd_law by apply (rep_running _ _ Hr). Qed.
Lemma zrem_running s a id :
  represents s a -> represents (r_write (ZREM running_key id) s) (with_running (delete id (sv_running a)) a).
Proof. intros Hr. apply write_running; [done| |done]. by erewrite zrem_law by apply (rep_running _ _ Hr). Qed.

(** ** The changes *)

(** The mutations of a lease holder. *)
Inductive lease_mutation : (ExecutionJob F V -> F -> res (ExecutionJob F V)) -> Prop :=
  | lm_heartbeat l : lease_mutation (heartbeat_mutation l)
  | lm_release d : lease_mutation (release_mutation d)
  | lm_succeed r : lease_mutation (succeed_mutation r)
  | lm_fail e : lease_mutation (fail_mutation e)
  | lm_cancel : lease_mutation cancel_mutation.

(** What an operation makes of one job.  [Seen id]: some reading of the queue returned it;
    [Cancel id]: a caller asked for its cancellation; [D]: the identifiers the operation has
    drawn. *)
Inductive job_change (Seen Cancel : string -> Prop) (D : list string) (id : string) j :
    ExecutionJob F V -> Prop :=
  | jc_claim now w t l :
      Seen id -> t ∈ D -> t <> "" -> blank w = false ->
      claimable (status j) = true -> cancel_requested j = false ->
      f_leb (available_at j) now = true -> deadline_expired j now = false ->
      job_change Seen Cancel D id j (claimed_job now w t l j)
  | jc_expire now :
      Seen id -> claimable (status j) = true -> deadline_expired j now = true ->
      job_change Seen Cancel D id j (expire_queued now j)
  | jc_lease now w t mutate j' :
      lease_active j w t now = true -> lease_mutation mutate -> mutate j now = Ok j' ->
      job_change Seen Cancel D id j j'
  | jc_cancel now :
      Cancel id -> terminal (status j) = false -> job_change Seen Cancel D id j (cancel_request now j)
  | jc_recover now :
      lease_lapsed now j = true -> job_change Seen Cancel D id j (recover_job now j).

(** A job saved, with the two indexes following its status. *)
Definition update_job (id : string) j (a : store_view) : store_view :=
  {| sv_store := put_job id (norm_job j) (sv_store a);
     sv_queue := if claimable (status j) then <[id := available_at j]> (sv_queue a)
                 else delete id (sv_queue a);
     sv_running := match (if bool_decide (status j = RUNNING) then lease_expires_at j else None) with
                   | Some e => <[id := e]> (sv_running a)
                   | None => delete id (sv_running a)
                   end |}.

Definition new_job (now : F) (id : string) sp : ExecutionJob F V :=
  Build_ExecutionJob id sp QUEUED now now now 0 None None None false None None.

Definition submitted (now : F) (id : string) sp (a : store_view) : store_view :=
  {| sv_store := {| jobs := <[id := new_job now id sp]> (jobs (sv_store a));
                    idempotency := <[idempotency_key sp := id]> (idempotency (sv_store a)) |};
     sv_queue := <[id := now]> (sv_queue a);
     sv_running := sv_running a |}.

Inductive change (Seen Cancel : string -> Prop) (D : list string) (a : store_view) : store_view -> Prop :=
  | ch_submit now id sp :
      id ∈ D -> id <> "" -> jobs (sv_store a) !! id = None ->
      idempotency (sv_store a) !! idempotency_key sp = None ->
      spec_valid sp -> policy_ok (retry sp) ->
      change Seen Cancel D a (submitted now id sp a)
  | ch_job id j j' :
      jobs (sv_store a) !! id = Some j -> job_change Seen Cancel D id j j' ->
      change Seen Cancel D a (update_job id j' a)
  | ch_cleanup id : change Seen Cancel D a (with_queue (delete id (sv_queue a)) a)
  | ch_stay : change Seen Cancel D a a.

(** ** A change is a step of the lifecycle *)

Lemma norm_leased j : norm_job j = j -> no_empty (worker_id j) = worker_id j /\
  no_empty (lease_token j) = lease_token j.
Proof.
  intros E. split.
  - exact (f_equal (fun k : ExecutionJob F V => worker_id k) E).
  - exact (f_equal (fun k : ExecutionJob F V => lease_token k) E).
Qed.

Lemma no_empty_text t : t <> "" -> no_empty (Some t) = Some t.
Proof. by destruct t. Qed.

Lemma norm_unleased j : unleased j -> unleased (norm_job j).
Proof. unfold unleased, norm_job. cbn. by intros (-> & -> & ->). Qed.

Lemma requeue_norm d j j' :
  same_core j j' -> status j = RUNNING -> claimable (status j') = true -> attempt j' = attempt j ->
  attempt j < max_attempts (retry (spec j)) -> unleased j' -> job_step d j (norm_job j').
Proof. intros Hc Hr Hs Ha Hm Hu. by eapply js_requeue; try apply norm_unleased. Qed.

Lemma finish_norm d j j' :
  same_core j j' -> terminal (status j) = false -> terminal (status j') = true ->
  attempt j' = attempt j -> unleased j' -> job_step d j (norm_job j').
Proof. intros Hc Hs Ht Ha Hu. eapply js_finish; try done. left. by apply norm_unleased. Qed.

Lemma mutation_step d id j w t now mutate j' :
  job_wf id j -> norm_job j = j -> lease_active j w t now = true -> lease_mutation mutate ->
  mutate j now = Ok j' -> job_step d j (norm_job j').
Proof.
  intros (Hid & Hp & Hs) Hn (Hrun & Hw & Ht & ex & Hex & Hlt)%lease_active_running Hm Ej.
  assert (terminal (status j) = false) as Hnt by (by rewrite Hrun).
  rewrite Hrun in Hs. destruct (norm_leased _ Hn) as [En1 En2].
  destruct Hm; cbv [heartbeat_mutation release_mutation succeed_mutation fail_mutation cancel_mutation] in Ej.
  - injection Ej as <-. case_match; [by apply finish_norm|].
    by eapply js_renew; unfold norm_job; cbn; rewrite ?En1 ?En2.
  - injection Ej as <-. by eapply js_release.
  - injection Ej as <-. apply finish_norm; try done; by repeat case_match.
  - cbv [mbind mret res_bind res_ret] in Ej. run_op; to_prop; first [by apply finish_norm|by apply requeue_norm].
  - injection Ej as <-. by apply finish_norm.
Qed.

Lemma change_step Seen Cancel D id j j' :
  job_wf id j -> norm_job j = j -> job_change Seen Cancel D id j j' ->
  exists d, job_step d j (norm_job j') /\ forall t, d = Some t -> t ∈ D.
Proof.
  intros Hwf Hn Hc. pose proof Hwf as (Hid & Hp & Hs). destruct (norm_leased _ Hn) as [En1 En2].
  destruct Hc as [now w t l _ Ht Htn Hw Hcl Hcr Hav Hd|now _ Hcl Hd|now w t mutate j' Hl Hm Ej|now _ Ht|now Hl].
  - exists (Some t). split; [|by intros ? [= <-]].
    eapply js_claim; unfold norm_job, claimed_job; cbn; try done; apply no_empty_text; [|done].
    by apply not_blank_nonempty.
  - exists None. split; [|done]. apply finish_norm; try done. by destruct (status j).
  - exists None. split; [|done]. eapply mutation_step; eassumption.
  - exists None. split; [|done]. unfold cancel_request. cbn. destruct (claimable (status j)) eqn:Ec.
    + eapply js_finish; unfold norm_job; cbn; try done. right. by rewrite En1 En2.
    + assert (status j = RUNNING) as Hr by (by destruct (status j)).
      by eapply js_mark_cancel; unfold norm_job; cbn; rewrite ?En1 ?En2.
  - exists None. split; [|done]. unfold recover_job. rewrite Hl. cbn.
    assert (status j = RUNNING) as Hr by (unfold lease_lapsed in Hl; by to_prop).
    assert (terminal (status j) = false) as Hnt by (by rewrite Hr).
    rewrite Hr in Hs. repeat case_match; to_prop; first [by apply finish_norm|by apply requeue_norm].
Qed.

Lemma submitted_step a now id sp :
  jobs (sv_store a) !! id = None ->
  idempotency (sv_store a) !! idempotency_key sp = None -> policy_ok (retry sp) ->
  store_step None (sv_store a) (sv_store (submitted now id sp a)).
Proof. intros Hid Hk Hp. by eapply (ss_submit _ _ _ id sp (new_job now id sp)). Qed.

(** Every change is a step of the abstract lifecycle, claiming only with a drawn token. *)
Lemma change_lifecycle Seen Cancel D a a' :
  view_wf a -> change Seen Cancel D a a' ->
  exists d, store_step d (sv_store a) (sv_store a') /\ forall t, d = Some t -> t ∈ D.
Proof.
  intros Hwf Hc. destruct Hc as [now id sp Hin Hne Hid Hk Hs Hp|id j j' Hj Hc|id|];
    try (exists None; by split; [apply store_step_refl|]).
  - exists None. split; [|done]. by apply submitted_step.
  - destruct (vw_norm _ Hwf id j Hj) as [Hn _].
    destruct (change_step Seen Cancel D id j j') as (d & Hd & HD); [by apply (wf_jobs _ (vw_store _ Hwf))|done..|].
    exists d. split; [|done]. eapply put_job_step; eassumption.
Qed.

Lemma running_update (o : option F) id id' (r : gmap string F) :
  (match o with Some e => <[id := e]> r | None => delete id r end) !! id' =
  if decide (id = id') then o else r !! id'.
Proof. destruct o; [rewrite lookup_insert|rewrite lookup_delete]; by case_decide. Qed.

Lemma update_job_wf Seen Cancel D a id j j' :
  view_wf a -> jobs (sv_store a) !! id = Some j -> job_change Seen Cancel D id j j' -> view_wf (update_job id j' a).
Proof.
  intros Hwf Hj Hc. pose proof (ch_job Seen Cancel D a id j j' Hj Hc) as Hch.
  destruct (change_lifecycle _ _ _ _ _ Hwf Hch) as (d & Hd & _).
  destruct (vw_norm _ Hwf id j Hj) as [Hn Hs].
  destruct (change_step Seen Cancel D id j j') as (d' & Hd' & _); [by apply (wf_jobs _ (vw_store _ Hwf))|done..|].
  split.
  - exact (store_step_wf _ _ _ (vw_store _ Hwf) Hd).
  - intros id' k. cbn. rewrite lookup_insert. case_decide; [|apply (vw_norm _ Hwf)]. intros [= <-].
    split; [apply norm_idemp|]. by rewrite (job_step_spec _ _ _ Hd').
  - apply (vw_ids _ Hwf).
  - intros id'. cbn [update_job sv_running sv_store put_job jobs]. rewrite running_update lookup_insert.
    case_decide; [done|]. apply (vw_running _ Hwf).
  - intros id' x. cbn [update_job sv_queue sv_store put_job jobs]. rewrite lookup_insert.
    destruct (claimable (status j')) eqn:Ec; [rewrite lookup_insert|rewrite lookup_delete];
      case_decide; try done; try apply (vw_queue _ Hwf). intros [= <-]. by exists (norm_job j').
Qed.

Lemma submitted_wf a now id sp :
  view_wf a -> id <> "" -> jobs (sv_store a) !! id = None ->
  idempotency (sv_store a) !! idempotency_key sp = None -> spec_valid sp -> policy_ok (retry sp) ->
  view_wf (submitted now id sp a).
Proof.
  intros Hwf Hne Hid Hk Hs Hp. split.
  - eapply store_step_wf; [apply (vw_store _ Hwf)|by apply submitted_step].
  - intros id' k. cbn. rewrite lookup_insert. case_decide; [|apply (vw_norm _ Hwf)]. by intros [= <-].
  - intros k id'. cbn. rewrite lookup_insert. case_decide; [by intros [= <-]|apply (vw_ids _ Hwf)].
  - intros id'. cbn. rewrite lookup_insert. case_decide as E; [|apply (vw_running _ Hwf)].
    subst id'. by rewrite (vw_running _ Hwf) Hid.
  - intros id' x. cbn. rewrite !lookup_insert. case_decide as E; [|apply (vw_queue _ Hwf)].
    intros [= <-]. by eexists.
Qed.

Lemma change_wf Seen Cancel D a a' : view_wf a -> change Seen Cancel D a a' -> view_wf a'.
Proof.
  intros Hwf Hc. destruct Hc as [now id sp Hin Hne Hid Hk Hs Hp|id j j' Hj Hc|id|]; [..|done].
  - by apply submitted_wf.
  - eapply update_job_wf; eassumption.
  - split; cbn; try apply Hwf. intros id' x. rewrite lookup_delete. case_decide; [done|apply (vw_queue _ Hwf)].
Qed.

(** Identifiers that name no job keep naming none, unless the change drew them. *)
Lemma change_fresh Seen Cancel D a a' x :
  change Seen Cancel D a a' -> jobs (sv_store a) !! x = None -> x ∉ D -> jobs (sv_store a') !! x = None.
Proof.
  intros Hc Hx HD. destruct Hc as [now id sp Hin|id j j' Hj Hc|id|]; try done; cbn;
    rewrite lookup_insert_ne; try done; congruence.
Qed.

(** ** Reading a job *)

Lemma hash_of_job s a id :
  represents s a -> hash_at s (job_key id) =
    match jobs (sv_store a) !! id with Some j => job_mapping j | None => ∅ end.
Proof. intros Hr. unfold hash_at. rewrite (rep_jobs _ _ Hr). by destruct (_ !! id). Qed.

Lemma read_job s a id j :
  represents s a -> view_wf a -> jobs (sv_store a) !! id = Some j ->
  hash_at s (job_key id) <> ∅ /\ job_from_hash (hash_at s (job_key id)) = Ok j.
Proof.
  intros Hr Hwf Hj. rewrite (hash_of_job _ _ _ Hr) Hj. split; [apply mapping_nonempty|].
  destruct (vw_norm _ Hwf id j Hj) as [Hn Hs]. by rewrite (job_round_trip j Hs) Hn.
Qed.

(** A hash read is the hash of a stored job. *)
Lemma read_hash s a id :
  represents s a -> view_wf a -> hash_at s (job_key id) <> ∅ ->
  exists j, jobs (sv_store a) !! id = Some j /\ job_from_hash (hash_at s (job_key id)) = Ok j.
Proof.
  intros Hr Hwf Hne. destruct (jobs (sv_store a) !! id) as [j|] eqn:Ej.
  - exists j. split; [done|]. by apply (read_job s a id j).
  - by rewrite (hash_of_job _ _ _ Hr) Ej in Hne.
Qed.

Lemma read_missing s a id :
  represents s a -> hash_at s (job_key id) = ∅ -> jobs (sv_store a) !! id = None.
Proof.
  intros Hr He. rewrite (hash_of_job _ _ _ Hr) in He. destruct (_ !! id); [|done].
  by destruct (mapping_nonempty e).
Qed.

Lemma read_string s a k :
  represents s a -> string_at s (idem_key k) = idempotency (sv_store a) !! k.
Proof. intros Hr. unfold string_at. rewrite (rep_idem _ _ Hr). by destruct (_ !! k). Qed.

Lemma queue_range s a x id :
  represents s a -> id ∈ r_range s queue_key x <->
  exists y, sv_queue a !! id = Some y /\ f_leb y x = true.
Proof.
  intros Hr. rewrite (range_law _ _ x _ (rep_queue _ _ Hr)) list_elem_of_fmap. split.
  - intros ([k y] & -> & Hin%elem_of_map_to_list). apply map_lookup_filter_Some in Hin. by exists y.
  - intros (y & Hy & Hle). exists (id, y). split; [done|]. apply elem_of_map_to_list.
    by apply map_lookup_filter_Some.
Qed.

Lemma running_range s a x id :
  represents s a -> id ∈ r_range s running_key x <->
  exists y, sv_running a !! id = Some y /\ f_leb y x = true.
Proof.
  intros Hr. rewrite (range_law _ _ x _ (rep_running _ _ Hr)) list_elem_of_fmap. split.
  - intros ([k y] & -> & Hin%elem_of_map_to_list). apply map_lookup_filter_Some in Hin. by exists y.
  - intros (y & Hy & Hle). exists (id, y). split; [done|]. apply elem_of_map_to_list.
    by apply map_lookup_filter_Some.
Qed.
End Model.
