(* ===== verification/RedisSafety.v ===== *)
(** * The operations make the changes of the model

    Every operation of [RedisStore] is a safe program: each of its writes, whenever it
    succeeds, makes one [change] of what the server represents. *)
From S2P Require Import Prelude PyString PyFloat JsonLoads DurableJobs DurableLifecycle RedisClient RedisLogic RedisCodec RedisStore RedisModel.

Section Safety.
  Context {F V : Type} `{PyFloatLaws F} `{!EqDecision V} `{!Redis F} `{!RedisLaws F} `{!FloatText F}
    `{!FloatTextLaws F} `{JsonValueLaws V} `{UuidLaws}.
  Context (prefix : string).
  (** An invariant of the server under which it represents a store. *)
  Context (Inv : rstate -> Prop).
  Hypothesis Inv_view : forall s, Inv s -> exists a : store_view (F:=F) (V:=V), represents prefix s a /\ view_wf a.
  (** The jobs whose cancellation callers request. *)
  Context (Cancel : string -> Prop).
  (** Identifiers that are never drawn. *)
  Context (Avoid : string -> Prop).
  Implicit Types (j : ExecutionJob F V) (sp : JobSpec F V) (s : rstate).

(** A reading of the queue returned the identifier. *)
Definition seen (id : string) : Prop :=
  exists s (a : store_view (F:=F) (V:=V)), Inv s /\ represents prefix s a /\ view_wf a /\ is_Some (sv_queue a !! id).
Definition fresh (x : string) s : Prop := r_get s (job_key prefix x) = None /\ ~ Avoid x.
Definition move (D : list string) s s' : Prop :=
  (forall a : store_view (F:=F) (V:=V), represents prefix s a -> view_wf a ->
   exists a', represents prefix s' a' /\ change seen Cancel D a a') /\
  Forall (fun x => ~ Avoid x) D.

#[local] Notation safe := (safe Inv fresh move).
#[local] Notation stored s id j :=
  (exists a : store_view, represents prefix s a /\ view_wf a /\ jobs (sv_store a) !! id = Some j).

(** ** Absent index entries *)

Lemma queue_absent (a : store_view (F:=F) (V:=V)) id j :
  view_wf a -> jobs (sv_store a) !! id = Some j -> claimable (status j) = false -> sv_queue a !! id = None.
Proof.
  intros Hwf Hj Hc. destruct (sv_queue a !! id) as [x|] eqn:E; [|done].
  destruct (vw_queue _ Hwf _ _ E) as (k & Hk & Hck & _). congruence.
Qed.

Lemma running_absent (a : store_view (F:=F) (V:=V)) id j :
  view_wf a -> jobs (sv_store a) !! id = Some j -> status j <> RUNNING -> sv_running a !! id = None.
Proof. intros Hwf Hj Hs. rewrite (vw_running _ Hwf) Hj /=. by rewrite bool_decide_eq_false_2. Qed.

Lemma running_present (a : store_view (F:=F) (V:=V)) id j :
  view_wf a -> jobs (sv_store a) !! id = Some j -> status j = RUNNING ->
  exists e, lease_expires_at j = Some e /\ sv_running a !! id = Some e.
Proof.
  intros Hwf Hj Hs. destruct (wf_jobs _ (vw_store _ Hwf) id j Hj) as (_ & _ & Hw). rewrite Hs in Hw.
  destruct Hw as (_ & _ & [e He] & _). exists e. split; [done|].
  rewrite (vw_running _ Hwf) Hj /=. by rewrite bool_decide_eq_true_2.
Qed.

Lemma view_eq (a b : store_view (F:=F) (V:=V)) :
  sv_store a = sv_store b -> sv_queue a = sv_queue b -> sv_running a = sv_running b -> a = b.
Proof. destruct a, b. cbn. by intros -> -> ->. Qed.

(** ** The write lists *)

Ltac by_fields := apply view_eq; cbn; rewrite ?delete_id ?insert_id; done.

Lemma mutation_represents s a id j j' ws :
  represents prefix s a -> view_wf a -> jobs (sv_store a) !! id = Some j -> status j = RUNNING ->
  mutation_writes prefix id j' = Ok ws -> represents prefix (apply_writes ws s) (update_job id j' a).
Proof.
  intros Hr Hwf Hj Hs. unfold mutation_writes.
  assert (sv_queue a !! id = None) as Hq by (apply (queue_absent a id j); [done..|by rewrite Hs]).
  pose proof (write_hset prefix s a id j' Hr) as Hw.
  case_bool_decide as Hrun.
  - destruct (lease_expires_at j') as [e|] eqn:Ee; [|done]. intros [= <-]. cbn [apply_writes].
    replace (update_job id j' a) with
      (with_running (<[id := e]> (sv_running a)) (with_store (put_job id (norm_job j') (sv_store a)) a)).
    { exact (zadd_running prefix _ _ id e Hw). }
    apply view_eq; cbn; [done| |].
    + rewrite Hrun /=. by rewrite delete_id.
    + by rewrite bool_decide_eq_true_2 // Ee.
  - destruct (claimable (status j')) eqn:Ec; intros [= <-]; cbn [apply_writes];
      pose proof (zrem_running prefix _ _ id Hw) as Hz.
    + pose proof (zadd_queue prefix _ _ id (available_at j') Hz) as Hz2.
      replace (update_job id j' a) with (with_queue (<[id := available_at j']> (sv_queue a))
        (with_running (delete id (sv_running a)) (with_store (put_job id (norm_job j') (sv_store a)) a)));
        [exact Hz2|].
      apply view_eq; cbn; [done| |]; by rewrite ?Ec ?bool_decide_eq_false_2.
    + pose proof (zrem_queue prefix _ _ id Hz) as Hz2.
      replace (update_job id j' a) with (with_queue (delete id (sv_queue a))
        (with_running (delete id (sv_running a)) (with_store (put_job id (norm_job j') (sv_store a)) a)));
        [exact Hz2|].
      apply view_eq; cbn; [done| |]; by rewrite ?Ec ?bool_decide_eq_false_2.
Qed.

Lemma claim_represents s a id j now w t l :
  represents prefix s a -> view_wf a -> jobs (sv_store a) !! id = Some j ->
  represents prefix
    (apply_writes [ZREM (queue_key prefix) id; ZADD (running_key prefix) id (f_add now l);
                   HSET (job_key prefix id) (job_mapping (claimed_job now w t l j))] s)
    (update_job id (claimed_job now w t l j) a).
Proof.
  intros Hr Hwf Hj. cbn [apply_writes].
  pose proof (zrem_queue prefix _ _ id Hr) as Hz.
  pose proof (zadd_running prefix _ _ id (f_add now l) Hz) as Hz2.
  exact (write_hset prefix _ _ id (claimed_job now w t l j) Hz2).
Qed.

Lemma expire_represents s a id j now :
  represents prefix s a -> view_wf a -> jobs (sv_store a) !! id = Some j -> claimable (status j) = true ->
  represents prefix
    (apply_writes [HSET (job_key prefix id) (job_mapping (expire_queued now j)); ZREM (queue_key prefix) id] s)
    (update_job id (expire_queued now j) a).
Proof.
  intros Hr Hwf Hj Hc. cbn [apply_writes].
  pose proof (write_hset prefix s a id (expire_queued now j) Hr) as Hw.
  pose proof (zrem_queue prefix _ _ id Hw) as Hz.
  replace (update_job id (expire_queued now j) a) with (with_queue (delete id (sv_queue a))
    (with_store (put_job id (norm_job (expire_queued now j)) (sv_store a)) a)); [exact Hz|].
  apply view_eq; cbn; [done..|]. symmetry. apply delete_id, (running_absent a id j); [done..|].
  by destruct (status j).
Qed.

Lemma cancel_represents s a id j now :
  represents prefix s a -> view_wf a -> jobs (sv_store a) !! id = Some j -> terminal (status j) = false ->
  represents prefix
    (apply_writes (HSET (job_key prefix id) (job_mapping (cancel_request now j)) ::
       (if bool_decide (status (cancel_request now j) = CANCELLED) then [ZREM (queue_key prefix) id] else [])) s)
    (update_job id (cancel_request now j) a).
Proof.
  intros Hr Hwf Hj Ht. pose proof (write_hset prefix s a id (cancel_request now j) Hr) as Hw.
  unfold cancel_request in *. cbn in Hw |- *. destruct (claimable (status j)) eqn:Ec.
  - cbn [status set_status]. rewrite bool_decide_eq_true_2 //. cbn [apply_writes].
    pose proof (zrem_queue prefix _ _ id Hw) as Hz. cbn in Hz.
    match goal with |- represents _ _ ?b => replace b with
      (with_queue (delete id (sv_queue a)) (with_store (put_job id
         (norm_job (set_status CANCELLED (set_updated_at now (set_cancel_requested true j)))) (sv_store a)) a)) end;
      [exact Hz|].
    apply view_eq; cbn; [done..|]. symmetry. apply delete_id, (running_absent a id j); [done..|].
    by destruct (status j).
  - assert (status j = RUNNING) as Hs by (by destruct (status j)). cbn.
    rewrite bool_decide_eq_false_2; [by rewrite Hs|]. cbn [apply_writes].
    destruct (running_present a id j Hwf Hj Hs) as (e & He & Hre).
    match goal with |- represents _ _ ?b => replace b with
      (with_store (put_job id (norm_job (set_updated_at now (set_cancel_requested true j))) (sv_store a)) a) end;
      [exact Hw|].
    apply view_eq; cbn; [done| |].
    + rewrite Ec. symmetry. by apply delete_id, (queue_absent a id j).
    + rewrite bool_decide_eq_true_2 // He. symmetry. by apply insert_id.
Qed.

Lemma recover_represents s a id j now :
  represents prefix s a -> view_wf a -> jobs (sv_store a) !! id = Some j -> lease_lapsed now j = true ->
  represents prefix
    (apply_writes (HSET (job_key prefix id) (job_mapping (recover_job now j)) :: ZREM (running_key prefix) id ::
       (if bool_decide (status (recover_job now j) = QUEUED) then [ZADD (queue_key prefix) id now] else [])) s)
    (update_job id (recover_job now j) a).
Proof.
  intros Hr Hwf Hj Hl. pose proof (write_hset prefix s a id (recover_job now j) Hr) as Hw.
  pose proof (zrem_running prefix _ _ id Hw) as Hz.
  assert (status j = RUNNING) as Hs by (unfold lease_lapsed in Hl; by to_prop).
  assert (sv_queue a !! id = None) as Hq by (apply (queue_absent a id j); [done..|by rewrite Hs]).
  assert (status (recover_job now j) = QUEUED /\ available_at (recover_job now j) = now \/
          claimable (status (recover_job now j)) = false /\ status (recover_job now j) <> RUNNING)
    as Hcase.
  { unfold recover_job. rewrite Hl. cbn. repeat case_match; cbn; auto. }
  destruct Hcase as [[Eq Ea]|[Ec Er]].
  - rewrite bool_decide_eq_true_2 //. cbn [apply_writes].
    pose proof (zadd_queue prefix _ _ id now Hz) as Hz2.
    match goal with |- represents _ _ ?b => replace b with (with_queue (<[id := now]> (sv_queue a))
      (with_running (delete id (sv_running a)) (with_store (put_job id (norm_job (recover_job now j)) (sv_store a)) a))) end;
      [exact Hz2|].
    apply view_eq; cbn; [done| |]; by rewrite Eq /= ?Ea.
  - rewrite bool_decide_eq_false_2; [by intros E; rewrite E in Ec|]. cbn [apply_writes].
    match goal with |- represents _ _ ?b => replace b with
      (with_running (delete id (sv_running a)) (with_store (put_job id (norm_job (recover_job now j)) (sv_store a)) a)) end;
      [exact Hz|].
    apply view_eq; cbn; [done| |].
    + rewrite Ec. by rewrite delete_id.
    + by rewrite bool_decide_eq_false_2.
Qed.

(** ** Programs *)

(** The result does not matter. *)
Definition any {A} (_ : res A) (_ : view) : Prop := True.

Lemma any_on_ok {A B} (P : A -> view -> Prop) (p : prog F A) v :
  (forall a v, P a v) -> safe any v p -> safe (on_ok P (fun e => any (A:=B) (Raise e))) v p.
Proof. intros HP. apply safe_mono. by intros [a|e] w _; [apply HP|]. Qed.

(** An attempt whose outcome does not matter. *)
Lemma safe_attempts_any {A} n body (after : prog F A) :
  (forall v, safe any v body) -> (forall v, safe any v after) -> forall v, safe any v (attempts n body after).
Proof.
  intros Hb Ha. apply safe_attempts; [|done]. intros v. eapply safe_mono; [|apply Hb].
  by intros [[a|]|e] w _.
Qed.

Lemma safe_bind_any {A B} (p : prog F A) (f : A -> prog F B) (Q : res B -> view -> Prop) v :
  (forall e v, Q (Raise e) v) -> safe any v p -> (forall a v, safe Q v (f a)) -> safe Q v (p ≫= f).
Proof.
  intros He Hp Hf. apply safe_bind. eapply safe_mono; [|exact Hp]. intros [a|e] w _; [apply Hf|apply He].
Qed.

(** [redis_get] returns a stored job. *)
Lemma safe_get (Q : res (ExecutionJob F V) -> view -> Prop) v id :
  (forall e v, Q (Raise e) v) -> (forall j v, (exists s, Inv s /\ stored s id j) -> Q (Ok j) v) ->
  safe Q v (redis_get prefix id).
Proof.
  intros He Hj. unfold redis_get. apply safe_bind, safe_send; [done|].
  intros x (s & HI & ->). cbn [on_ok]. case_bool_decide as E; [by apply He|].
  destruct (Inv_view s HI) as (a & Hr & Hwf). destruct (read_hash prefix s a id Hr Hwf E) as (j & Hjj & Hp).
  unfold hash_job, liftp. rewrite Hp. apply Hj. exists s. split; [done|]. by exists a.
Qed.

(** What a transaction on one job knows after it has watched and read its hash. *)
Definition knowing (keys : list string) (id : string) (data : gmap string string) (drawn : list string) : view :=
  {| v_watched := keys; v_facts := [(job_key prefix id, FHash data)]; v_drawn := drawn |}.

Lemma safe_watch {A} (Q : res A -> view -> Prop) keys id (body : gmap string string -> prog F A) v :
  job_key prefix id ∈ keys ->
  (forall data, (exists s, Inv s /\ data = hash_at s (job_key prefix id)) ->
     safe Q (knowing keys id data (v_drawn v)) (body data)) ->
  safe Q v (send (WATCH keys);; data ← send (HGETALL (job_key prefix id)); body data).
Proof.
  intros Hk Hb. apply safe_bind, safe_send; [done|]. intros [] _. cbn [on_ok].
  apply safe_bind, safe_send; [done|]. intros data Hd. cbn [on_ok learn note].
  unfold note. cbn. rewrite bool_decide_eq_true_2 //. by apply Hb.
Qed.

(** An [EXEC] on the job that was read. *)
Lemma safe_exec {A} (Q : res A -> view -> Prop) keys id data drawn ws (k : bool -> prog F A) :
  (forall s a, Inv s -> represents prefix s a -> view_wf a -> hash_at s (job_key prefix id) = data ->
     Forall (fun x => fresh x s) drawn ->
     exists a', represents prefix (apply_writes ws s) a' /\ change seen Cancel drawn a a') ->
  (forall b v, safe Q v (k b)) ->
  safe Q (knowing keys id data drawn) (done ← send (EXEC ws); k done).
Proof.
  intros Hm Hk. apply safe_bind, safe_send.
  - intros s HI Hf Hd. split.
    + intros a Hr Hwf. apply Hm; try done. by apply Forall_cons in Hf as [Hf _].
    + eapply Forall_impl; [exact Hd|]. by intros x [_ Hx].
  - intros b _. apply Hk.
Qed.

(** The job an attempt read is the one stored when its [EXEC] succeeds. *)
Lemma read_again s (a : store_view (F:=F) (V:=V)) id data j :
  represents prefix s a -> view_wf a -> hash_at s (job_key prefix id) = data -> data <> ∅ ->
  job_from_hash data = Ok j -> jobs (sv_store a) !! id = Some j.
Proof.
  intros Hr Hwf <- Hne Hj. destruct (read_hash prefix s a id Hr Hwf Hne) as (k & Hk & Hp). congruence.
Qed.

Lemma safe_exec_job {A} (Q : res A -> view -> Prop) keys id data drawn j j' ws (k : bool -> prog F A) :
  data <> ∅ -> job_from_hash data = Ok j -> job_change seen Cancel drawn id j j' ->
  (forall s (a : store_view (F:=F) (V:=V)), represents prefix s a -> view_wf a ->
     jobs (sv_store a) !! id = Some j -> represents prefix (apply_writes ws s) (update_job id j' a)) ->
  (forall b v, safe Q v (k b)) ->
  safe Q (knowing keys id data drawn) (done ← send (EXEC ws); k done).
Proof.
  intros Hne Hj Hc Hw Hk. apply safe_exec; [|done]. intros s a HI Hr Hwf Hd _.
  pose proof (read_again s a id data j Hr Hwf Hd Hne Hj) as Hja. exists (update_job id j' a).
  split; [by apply Hw|]. eapply ch_job; eassumption.
Qed.

(** Reading a non-empty hash gives a job. *)
Lemma safe_hash_job {A} (Q : res A -> view -> Prop) v id data (f : ExecutionJob F V -> prog F A) :
  (exists s, Inv s /\ data = hash_at s (job_key prefix id)) -> data <> ∅ ->
  (forall j, job_from_hash data = Ok j -> job_id j = id -> job_wf id j -> safe Q v (f j)) ->
  safe Q v (j ← hash_job data; f j).
Proof.
  intros (s & HI & ->) Hne Hf. destruct (Inv_view s HI) as (a & Hr & Hwf).
  destruct (read_hash prefix s a id Hr Hwf Hne) as (j & Hj & Hp).
  pose proof (wf_jobs _ (vw_store _ Hwf) id j Hj) as Hjw.
  unfold hash_job, liftp. rewrite Hp. apply Hf; [done| |done]. by destruct Hjw.
Qed.

(** ** Submitting *)

Lemma submit_represents s (a : store_view (F:=F) (V:=V)) now id sp :
  represents prefix s a ->
  represents prefix
    (apply_writes [HSET (job_key prefix id) (job_mapping (new_job now id sp));
                   SET (idem_key prefix (idempotency_key sp)) id; ZADD (queue_key prefix) id now] s)
    (submitted now id sp a).
Proof.
  intros Hr. cbn [apply_writes]. pose proof (write_hset prefix s a id (new_job now id sp) Hr) as Hw.
  pose proof (write_set prefix _ _ (idempotency_key sp) id Hw) as Hs.
  exact (zadd_queue prefix _ _ id now Hs).
Qed.

Lemma submit_safe sp v : spec_valid sp -> policy_ok (retry sp) -> safe any v (redis_submit prefix sp).
Proof.
  intros Hs Hp. revert v. apply safe_attempts_any; [|done]. intros v.
  apply safe_bind, safe_send; [done|]. intros [] _. cbn [on_ok learn].
  apply safe_bind, safe_send; [done|]. intros o _. cbn [on_ok learn]. unfold note.
  rewrite bool_decide_eq_true_2; [by left|].
  assert (o = None \/ o = Some "" ->
    safe any {| v_watched := [idem_key prefix (idempotency_key sp)];
                v_facts := [(idem_key prefix (idempotency_key sp), FString o)]; v_drawn := v_drawn v |}
      (now ← now_; id ← send UUID4;
       let job := Build_ExecutionJob id sp QUEUED now now now 0 None None None false None None in
       done ← send (EXEC [HSET (job_key prefix id) (job_mapping job);
                          SET (idem_key prefix (idempotency_key sp)) id; ZADD (queue_key prefix) id now]);
       mret (if done : bool then Some (job, true) else None))) as Hnew.
  { intros Ho. unfold now_. apply safe_bind, safe_send; [done|]. intros now _. cbn [on_ok learn].
    apply safe_bind, safe_send; [done|]. intros id Hid. cbn [on_ok learn v_watched v_facts v_drawn]. cbn [answered] in Hid.
    apply safe_bind, safe_send; [|done]. intros s HI Hf Hfr. cbn [v_facts v_drawn] in *.
    split; [|eapply Forall_impl; [exact Hfr|]; by intros x [_ Hx]]. intros a Hr Hwf.
    apply Forall_cons in Hf as [Hf _]. apply Forall_cons in Hfr as [[Hfr _] _].
    unfold fact_holds in Hf. cbn in Hf. rewrite (read_string prefix s a _ Hr) in Hf.
    assert (idempotency (sv_store a) !! idempotency_key sp = None) as Hk.
    { destruct Ho as [->| ->]; [done|]. by destruct (vw_ids _ Hwf _ _ Hf). }
    exists (submitted now id sp a). split; [by apply submit_represents|].
    apply ch_submit; try done; [by left|]. rewrite (rep_jobs _ _ _ Hr) in Hfr.
    by destruct (jobs (sv_store a) !! id). }
  destruct o as [[|c id]|]; [apply Hnew; by right| |apply Hnew; by left].
  apply safe_bind, safe_get; [done|]. intros j w _. cbn [on_ok]. by case_match.
Qed.

(** ** Acting under a lease *)

(** Passes the value of a computation that returned. *)
Ltac ret_step :=
  match goal with |- context [liftp (Ok ?a) ≫= ?f] => change (liftp (Ok a) ≫= f) with (f a); cbn beta end.

Lemma mutate_safe id w t mutate v :
  lease_mutation mutate -> safe any v (mutate_claimed prefix id w t mutate).
Proof.
  intros Hm. revert v. apply safe_attempts_any; [|done]. intros v. unfold now_.
  apply safe_bind, safe_send; [done|]. intros now _. cbn [on_ok learn].
  apply safe_watch; [by left|]. intros data Hd. case_bool_decide as He; [done|].
  apply (safe_hash_job _ _ id); [done..|]. intros j Hj _ _. destruct (lease_active j w t now) eqn:El; [cbn [negb]|done].
  destruct (mutate j now) as [j'|e] eqn:Em; [ret_step|done].
  destruct (mutation_writes prefix id j') as [ws|e] eqn:Ew; [ret_step|done].
  apply (safe_exec_job _ _ id data _ j j'); [done|done| | |done].
  - eapply jc_lease; eassumption.
  - intros s a Hr Hwf Hja. apply (mutation_represents s a id j j' ws); try done.
    by apply lease_active_running in El as [? _].
Qed.

Lemma heartbeat_safe id w t l v : safe any v (redis_heartbeat prefix id w t l).
Proof.
  unfold redis_heartbeat. destruct (reject_if _ _ _); [ret_step|done].
  apply safe_bind_any; [done|by apply mutate_safe, lm_heartbeat|]. intros j u. by case_match.
Qed.

Lemma release_safe id w t d v : safe any v (redis_release prefix id w t d).
Proof.
  unfold redis_release. destruct (reject_if _ _ _); [ret_step|done]. by apply mutate_safe, lm_release.
Qed.

(** ** Cancelling and recovering *)

Lemma request_cancel_safe id v : Cancel id -> safe any v (redis_request_cancel (V:=V) prefix id).
Proof.
  intros Hcan. revert v. apply safe_attempts_any; [|done]. intros v. unfold now_.
  apply safe_bind, safe_send; [done|]. intros now _. cbn [on_ok learn].
  apply safe_watch; [by left|]. intros data Hd. case_bool_decide as He; [done|].
  apply (safe_hash_job _ _ id); [done..|]. intros j Hj _ _. destruct (terminal (status j)) eqn:Et; [done|].
  apply (safe_exec_job _ _ id data _ j (cancel_request now j)); [done|done|by apply jc_cancel| |done].
  intros s a Hr Hwf Hja. by apply cancel_represents.
Qed.

Lemma recover_safe v : safe any v (redis_recover (V:=V) prefix).
Proof.
  unfold redis_recover, now_. apply safe_bind, safe_send; [done|]. intros now _. cbn [on_ok learn].
  apply safe_bind, safe_send; [done|]. intros ids _. cbn [on_ok learn].
  apply (safe_each Inv fresh move _ (fun _ => True)); [|done..]. intros w n id _ _.
  apply any_on_ok; [done|]. revert w. apply safe_attempts_any; [|done]. intros w.
  apply safe_watch; [by left|]. intros data Hd. case_bool_decide as He.
  - apply safe_exec; [|done]. intros s a HI Hr Hwf Hh _. exists a. split; [|apply ch_stay].
    rewrite He in Hh. pose proof (read_missing prefix s a id Hr Hh) as Hn.
    pose proof (zrem_running prefix s a id Hr) as Hz. cbn [apply_writes].
    replace a with (with_running (delete id (sv_running a)) a); [done|].
    apply view_eq; cbn; [done..|]. apply delete_id. by rewrite (vw_running _ Hwf) Hn.
  - apply (safe_hash_job _ _ id); [done..|]. intros j Hj _ _. destruct (lease_lapsed now j) eqn:El; [cbn [negb]|done].
    apply (safe_exec_job _ _ id data _ j (recover_job now j)); [done|done|by apply jc_recover| |done].
    intros s a Hr Hwf Hja. by apply recover_represents.
Qed.

(** ** Claiming *)

Lemma expire_safe id now v : seen id -> safe any v (expire_queued_deadline (V:=V) prefix id now).
Proof.
  intros Hseen. revert v. apply safe_attempts_any; [|done]. intros v.
  apply safe_watch; [by left|]. intros data Hd. case_bool_decide as He.
  - apply safe_exec; [|done]. intros s a HI Hr Hwf Hh _.
    exists (with_queue (delete id (sv_queue a)) a). split; [by apply zrem_queue|apply ch_cleanup].
  - apply (safe_hash_job _ _ id); [done..|]. intros j Hj _ _.
    destruct (claimable (status j)) eqn:Ec; [cbn [negb]|done]. destruct (deadline_expired j now) eqn:Ed; [cbn [negb]|done].
    apply (safe_exec_job _ _ id data _ j (expire_queued now j)); [done|done|by apply jc_expire| |done].
    intros s a Hr Hwf Hja. by apply expire_represents.
Qed.

Lemma cleanup_safe {A} (Q : res A -> view -> Prop) id v (p : prog F A) :
  safe Q v p -> safe Q v (send (ZREM_NOW (queue_key prefix) id);; p).
Proof.
  intros Hp. apply safe_bind, safe_send; [|done]. intros s HI. split; [|done]. intros a Hr Hwf.
  exists (with_queue (delete id (sv_queue a)) a). split; [by apply zrem_queue|apply ch_cleanup].
Qed.

(** The jobs collected are stored under identifiers a reading of the queue returned. *)
Definition all_seen (found : list (ExecutionJob F V)) : Prop := Forall (fun j => seen (job_id j)) found.

Lemma consider_safe now domains found id v :
  seen id -> all_seen found ->
  safe (on_ok (fun found _ => all_seen found) (fun e => any (A:=option (ExecutionJob F V)) (Raise e)))
    v (consider prefix now domains found id).
Proof.
  intros Hseen Hf. unfold consider. apply safe_bind, safe_catch.
  apply safe_bind, safe_get.
  - intros e w. cbn [on_ok]. case_bool_decide; [|done]. apply cleanup_safe. exact Hf.
  - intros j w (s & HI & a & Hr & Hwf & Hj). cbn [on_ok].
    assert (job_id j = id) as Eid by (by destruct (wf_jobs _ (vw_store _ Hwf) id j Hj)).
    change (safe (on_ok (fun found _ => all_seen found) (fun e => any (A:=option (ExecutionJob F V)) (Raise e))) w
      (if negb (claimable (status j)) then send (ZREM_NOW (queue_key prefix) id);; mret found
       else if cancel_requested j then mret found
       else if deadline_expired j now then _ ← expire_queued_deadline (V:=V) prefix id now; mret found
       else if negb (allowed domains j) then mret found
       else mret (found ++ [j]))).
    repeat case_match; try done.
    + by apply cleanup_safe.
    + apply safe_bind_any; [done|by apply expire_safe|done].
    + cbn. apply Forall_app_2; [done|]. by rewrite Forall_singleton Eid.
Qed.

Lemma claim_safe w l domains v : safe any v (redis_claim (V:=V) prefix w l domains).
Proof.
  unfold redis_claim. destruct (reject_if (blank w) _ _) as [u|] eqn:Ew; [ret_step|done].
  destruct (reject_if (f_leb l f_zero) _ _) as [u2|]; [ret_step|done]. apply reject_if_Ok in Ew.
  revert v. apply safe_attempts_any; [|done]. intros v. unfold now_.
  apply safe_bind, safe_send; [done|]. intros now _. cbn [on_ok learn].
  apply safe_bind, safe_send; [done|]. intros ids (s & HI & ->). cbn [on_ok learn].
  apply safe_bind. apply (safe_each Inv fresh move _ all_seen).
  { intros z found id Hin Hf. eapply safe_mono; [|apply consider_safe; [|exact Hf]].
    - intros [a|e] x Hx; [exact Hx|done].
    - destruct (Inv_view s HI) as (a & Hr & Hwf). exists s, a. split_and!; try done.
      apply (queue_range prefix s a _ _ Hr) in Hin as (y & Hy & _). rewrite Hy. by eexists. }
  2:{ by apply Forall_nil. }
  intros z found Hf. cbn [on_ok]. destruct (merge_sort job_le found) as [|selected rest] eqn:Es; [done|].
  assert (seen (job_id selected)) as Hsel.
  { assert (selected ∈ found) as Hin by (rewrite -(merge_sort_Permutation job_le found) Es; by left).
    unfold all_seen in Hf. rewrite Forall_forall in Hf. by apply Hf. }
  apply safe_watch; [by right; left|]. intros data Hd. case_bool_decide as He; [done|].
  apply (safe_hash_job _ _ (job_id selected)); [done..|]. intros j Hj Eid _.
  destruct (claimable (status j)) eqn:Ec; [cbn [negb]|done].
  destruct (f_leb (available_at j) now) eqn:Eav; [cbn [negb]|done].
  destruct (cancel_requested j) eqn:Ecr; [done|]. destruct (deadline_expired j now) eqn:Ed; [done|].
  destruct (allowed domains j); [cbn [negb]|done]. split; [done|]. intros t Ht. cbn [answered] in Ht.
  rewrite Eid.
  apply (safe_exec_job _ _ (job_id selected) data _ j (claimed_job now w t l j)); [done|done| | |done].
  - eapply jc_claim; try done. by left.
  - intros s' a Hr Hwf Hja. by apply claim_represents.
Qed.

(** ** Every operation *)

(** What callers pass: a specification the constructors accept, with a budget of attempts
    whose backoff is representable. *)
Definition good_op (o : redis_op F V) : Prop :=
  match o with
  | RSubmit sp => spec_valid sp /\ policy_ok (retry sp)
  | RRequestCancel id => Cancel id
  | _ => True
  end.

Lemma program_safe o v : good_op o -> safe (fun _ _ => True) v (redis_program prefix o).
Proof.
  intros Hg. destruct o; cbn [redis_program]; apply (safe_bind_any _ _ any); try done.
  - by apply submit_safe; destruct Hg.
  - by intros [].
  - by apply safe_get.
  - by apply claim_safe.
  - by apply heartbeat_safe.
  - by apply release_safe.
  - by apply mutate_safe, lm_succeed.
  - by apply mutate_safe, lm_fail.
  - by apply request_cancel_safe.
  - by apply mutate_safe, lm_cancel.
  - by apply recover_safe.
Qed.

(** ** A lease that is lost *)

(** Where no stored job has the token, no request under it returns. *)
Lemma mutate_refused id w t mutate v :
  (forall s (a : store_view (F:=F) (V:=V)) j, Inv s -> represents prefix s a -> view_wf a ->
     jobs (sv_store a) !! id = Some j -> lease_token j <> Some t) ->
  safe (fun r _ => is_ok r = false) v (mutate_claimed prefix id w t mutate).
Proof.
  intros Hlost. revert v. apply safe_attempts; [|done]. intros v. unfold now_.
  apply safe_bind, safe_send; [done|]. intros now _. cbn [on_ok learn].
  apply safe_watch; [by left|]. intros data (s & HI & ->). case_bool_decide as He; [done|].
  destruct (Inv_view s HI) as (a & Hr & Hwf). destruct (read_hash prefix s a id Hr Hwf He) as (j & Hj & Hp).
  assert (lease_active j w t now = false) as El.
  { apply not_true_iff_false. intros (_ & _ & Et & _)%lease_active_running. by destruct (Hlost s a j HI Hr Hwf Hj). }
  unfold hash_job. rewrite Hp. ret_step. by rewrite El.
Qed.

(** A request under the token [t] for the job [id]. *)
Definition under_lease (id t : string) (o : redis_op F V) : Prop :=
  match o with
  | RHeartbeat id' _ t' _ | RRelease id' _ t' _ | RSucceed id' _ t' _ | RFail id' _ t' _
  | RCancelClaimed id' _ t' => id' = id /\ t' = t
  | _ => False
  end.

#[global] Instance under_lease_dec id t o : Decision (under_lease id t o).
Proof. destruct o; apply _. Defined.

Lemma refused_bind {A B} (p : prog F A) (f : A -> prog F B) v :
  safe (fun r _ => is_ok r = false) v p -> safe (fun r _ => is_ok r = false) v (p ≫= f).
Proof. intros Hp. apply safe_bind. eapply safe_mono; [|exact Hp]. by intros [a|e] w. Qed.

Lemma under_lease_refused id t o v :
  (forall s (a : store_view (F:=F) (V:=V)) j, Inv s -> represents prefix s a -> view_wf a ->
     jobs (sv_store a) !! id = Some j -> lease_token j <> Some t) ->
  under_lease id t o -> safe (fun r _ => is_ok r = false) v (redis_program prefix o).
Proof.
  intros Hlost Ho. destruct o; try done; destruct Ho as [-> ->]; cbn [redis_program]; apply refused_bind.
  - unfold redis_heartbeat. destruct (reject_if _ _ _); [ret_step|done]. by apply refused_bind, mutate_refused.
  - unfold redis_release. destruct (reject_if _ _ _); [ret_step|done]. by apply mutate_refused.
  - by apply mutate_refused.
  - by apply mutate_refused.
  - by apply mutate_refused.
Qed.
End Safety.
