(* ===== verification/RedisProps.v ===== *)
(** * The Redis job store: concrete runs and properties

    First a server that is a finite map, with integers for the clock; a run of two workers; and
    the run in which the cleanup of one claim drops the queue entry of a job another worker
    has just given back; then the theorems on any number of clients. *)
From stdpp Require Import pretty.
From Stdlib Require Import Ascii.
From S2P Require Import Prelude PyString PyFloat PyDecimal DurableJobs DurableLifecycle DurableProps RedisClient RedisLogic PyDateTime PyText PyJson JsonLoads RedisCodec RedisStore RedisModel RedisSafety.
#[local] Open Scope Z_scope.
#[export] Instance rvalue_eq_dec : EqDecision (rvalue Z).
Proof. solve_decision. Defined.

Definition map_write (w : rwrite Z) (s : gmap string (rvalue Z)) : gmap string (rvalue Z) :=
  match w with
  | HSET k m => match as_hash (s !! k) with Some h => <[k := RHash (m ∪ h)]> s | None => s end
  | SET k v => <[k := RString v]> s
  | ZADD k m x => match as_zset (s !! k) with Some z => <[k := RZset (<[m := x]> z)]> s | None => s end
  | ZREM k m => match as_zset (s !! k) with
                | Some z => if bool_decide (delete m z = ∅) then delete k s
                            else <[k := RZset (delete m z)]> s
                | None => s
                end
  end.

Definition by_score (a b : string * Z) : Prop :=
  a.2 < b.2 \/ a.2 = b.2 /\ Is_true (String.leb a.1 b.1).
#[export] Instance by_score_dec a b : Decision (by_score a b).
Proof. unfold by_score. apply _. Defined.

#[export] Instance map_redis : Redis Z := {
  rstate := gmap string (rvalue Z);
  r_get s k := s !! k;
  r_write := map_write;
  r_touches s w := bool_decide (map_write w s !! written w <> s !! written w);
  r_range s k x :=
    match as_zset (s !! k) with
    | Some z => (merge_sort by_score (map_to_list (filter (fun kv => f_leb kv.2 x = true) z))).*1
    | None => []
    end
}.

#[export] Instance map_redis_laws : RedisLaws Z.
Proof.
  split; cbn.
  - intros s w k Hk. destruct w; cbn in *; repeat case_match; try done;
      rewrite ?lookup_insert_ne ?lookup_delete_ne //; congruence.
  - intros s w H. by apply bool_decide_eq_false, dec_stable in H.
  - intros s k m h H _. by rewrite H lookup_insert_eq.
  - intros s k v. by rewrite lookup_insert_eq.
  - intros s k m x z H. by rewrite H lookup_insert_eq.
  - intros s k m z H. rewrite H. case_bool_decide as E; [by rewrite lookup_delete_eq E|by rewrite lookup_insert_eq].
  - intros s k x z H. rewrite H. by rewrite merge_sort_Permutation.
Qed.

#[export] Instance counted_uuid : Uuid := fun i m => pretty (N.pos (encode (i, m))).
#[export] Instance counted_uuid_laws : UuidLaws.
Proof.
  split.
  - intros i j m n E. unfold uuid, counted_uuid in E. apply (inj pretty) in E. injection E as E.
    apply (inj encode) in E. by injection E as -> ->.
  - intros i m. apply pretty_nonempty.
Qed.

(** Whole seconds, written with one decimal. *)
#[export] Instance Z_text : FloatText Z := {
  f_repr n := pretty n +:+ ".0";
  f_of_text t := int_of_text (before_char "."%char t)
}.

Lemma before_point ds t : all_chars amount_char ds = true -> has_char 46 ds = false ->
  before_char "."%char (ds +:+ "." +:+ t) = ds.
Proof.
  induction ds as [|c ds IH]; [done|]. cbn [all_chars has_char]. intros [_ Hd]%andb_true_iff [Hc Hs]%orb_false_iff.
  change (String c ds +:+ "." +:+ t) with (String c (ds +:+ "." +:+ t)). cbn [before_char].
  destruct (Ascii.eqb_spec c "."%char) as [->|]; [done|]. by rewrite IH.
Qed.

Lemma digits_no_point ds : all_chars is_digit ds = true -> has_char 46 ds = false.
Proof.
  induction ds as [|c ds IH]; [done|]. cbn [all_chars has_char]. intros [Hc Hd]%andb_true_iff.
  rewrite IH // orb_false_r. by destruct c as [[] [] [] [] [] [] [] []].
Qed.

#[export] Instance Z_text_laws : FloatTextLaws Z.
Proof.
  split.
  - intros n. cbn. pose proof (pretty_whole (Z.to_N (Z.abs n))) as Hw. rewrite pretty_Z.
    set (ds := pretty (Z.to_N (Z.abs n))) in *. split.
    + destruct (n <? 0); [by right|]. destruct ds as [|c s]; [by destruct Hw|]. left.
      destruct Hw as [Hd _]. cbn in Hd. by apply andb_true_iff in Hd as [Hd _].
    + intros rest Hr. rewrite !append_assoc_string. unfold scan_number.
      assert (take_whole (ds +:+ ".0" +:+ rest) = Some (ds, ".0" +:+ rest)) as Ht.
      { destruct Hw as [Hd Hz]. destruct ds as [|c s]; [done|].
        change (String c s +:+ ?t) with (String c (s +:+ t)). cbn [take_whole]. cbn in Hd.
        apply andb_true_iff in Hd as [Hc Hs]. destruct (Z.eqb_spec (code c) 48) as [E|E]; [by rewrite (Hz E)|].
        rewrite Hc. change (String c (s +:+ ?t)) with (String c s +:+ t).
        rewrite span_digits //. cbn. by rewrite Hc Hs. }
      assert (take_point (".0" +:+ rest) = (".0", rest)) as Hp.
      { change (".0" +:+ rest) with (String "."%char ("0" +:+ rest)). unfold take_point.
        change (code "." =? 46) with true. cbn match. by rewrite (span_number "0" rest). }
      assert (match ds with String c s' => (code c =? 45) = false | _ => True end) as Hc.
      { destruct Hw as [Hd _]. destruct ds as [|c s]; [done|]. cbn in Hd.
        apply andb_true_iff in Hd as [Hd _]. unfold is_digit, in_range in Hd. to_prop. apply Z.eqb_neq. lia. }
      destruct (n <? 0).
      * change ("-" +:+ ?t) with (String "-"%char t). cbn match. change (code "-" =? 45) with true. cbn match.
        rewrite Ht. cbn [mbind option_bind]. rewrite Hp take_power_end //.
      * change ("" +:+ ?t) with t. destruct ds as [|c s] eqn:E; [by destruct Hw|].
        change (String c s +:+ ?t) with (String c (s +:+ t)) in Ht |- *. cbn match. rewrite Hc Ht. cbn [mbind option_bind].
        rewrite Hp take_power_end //.
  - intros n. cbn. pose proof (pretty_digits (Z.to_N (Z.abs n))) as Hd. rewrite pretty_Z.
    change ".0" with ("." +:+ "0"). rewrite before_point.
    + destruct (n <? 0); [|exact (all_chars_impl _ _ _ is_digit_amount Hd)].
      change ("-" +:+ ?t) with (String "-"%char t). cbn [all_chars].
      exact (all_chars_impl _ _ _ is_digit_amount Hd).
    + destruct (n <? 0); [|exact (digits_no_point _ Hd)].
      change ("-" +:+ ?t) with (String "-"%char t). cbn [has_char]. by rewrite (digits_no_point _ Hd).
    + rewrite -pretty_Z. apply int_of_pretty.
Qed.

#[export] Instance Z_json : JsonValue Z := {
  to_json := JInt;
  of_json v := match v with JInt n => n | _ => 0 end
}.
#[export] Instance Z_json_laws : JsonValueLaws Z.
Proof. by split. Qed.

(** ** Runs *)

Definition ex_policy : RetryPolicy Z :=
  {| max_attempts := 3; initial_backoff_seconds := 1; max_backoff_seconds := 30 |}.
Definition ex_job_spec : JobSpec Z Z :=
  {| idempotency_key := "order-7"; domain := "reports"; payload := 7; priority := NORMAL;
     retry := ex_policy; deadline_at := None |}.

Definition ex_event : Type := event Z (redis_op Z Z).
(** Client [i] sends its next [k] commands, the clock showing [now]. *)
Definition sends (i : nat) (now : Z) (k : nat) : list ex_event := repeat (Next i now) k.
(** Client [i] runs an operation of [k] commands. *)
Definition runs (i : nat) (now : Z) (o : redis_op Z Z) (k : nat) : list ex_event := Start i o :: sends i now k.

Definition ex_run (es : list ex_event) : system Z (redis_op Z Z) (redis_reply Z Z) :=
  run (redis_program "m") es (idle ∅ (fun _ => 0%nat)).

Definition ex_id : string := uuid 0 0.
Definition bob_token : string := uuid 2 0.

(** Alice reads the queue; bob claims the job; alice reads the job, running; bob gives it
    back for lack of capacity; alice removes the entry she holds for stale. *)
Definition ex_race : list ex_event :=
  runs 0 10 (RSubmit ex_job_spec) 5 ++
  runs 1 11 (RClaim "alice" 30 None) 2 ++
  runs 2 11 (RClaim "bob" 30 None) 7 ++
  sends 1 11 1 ++
  runs 2 12 (RRelease ex_id "bob" bob_token 0) 4 ++
  sends 1 12 1.

Definition ex_raced : rstate (F:=Z) := server (ex_run ex_race).
Definition ex_status (es : list ex_event) : res (JobStatus * Z) :=
  j ← job_from_hash (V:=Z) (hash_at (F:=Z) (server (ex_run es)) (job_key "m" ex_id)); mret (status j, attempt j).

(** Nobody is running the job, and no index has it. *)
Example race_drops_the_job :
  ex_status ex_race = Ok (QUEUED, 0) /\
  zset_at ex_raced (queue_key "m") = ∅ /\ zset_at ex_raced (running_key "m") = ∅ /\
  programs (ex_run ex_race) 1%nat = Done (Ok (GotClaim None)).
Proof. vm_compute. done. Qed.

(** Two workers claim at the same time: the second [EXEC] fails, and bob's second attempt
    finds nothing; alice fails, and bob claims the job after the backoff and finishes it,
    while alice still tries to. *)
Definition ex_failed : list ex_event :=
  runs 0 10 (RSubmit ex_job_spec) 5 ++
  runs 1 11 (RClaim "alice" 30 None) 6 ++ runs 2 11 (RClaim "bob" 30 None) 6 ++
  sends 1 11 1 ++ sends 2 11 1 ++ sends 2 11 2 ++
  runs 1 12 (RFail ex_id "alice" (uuid 1 0) "boom") 4.
Definition ex_after (bob : string) : list ex_event :=
  runs 2 13 (RClaim "bob" 30 None) 7 ++
  runs 1 14 (RSucceed ex_id "alice" (uuid 1 0) (Some 41)) 2 ++
  runs 2 14 (RSucceed ex_id "bob" bob (Some 42)) 4 ++ sends 1 15 1.
Definition ex_two_workers : list ex_event := ex_failed ++ ex_after (uuid 2 1).

Example two_workers_finish :
  ex_status ex_two_workers = Ok (SUCCEEDED, 2) /\
  zset_at (server (ex_run ex_two_workers)) (queue_key "m") = ∅ /\
  zset_at (server (ex_run ex_two_workers)) (running_key "m") = ∅.
Proof. vm_compute. done. Qed.

(** The job after a run. *)
Definition ex_stored (es : list ex_event) : ExecutionJob Z Z :=
  match job_from_hash (hash_at (F:=Z) (server (ex_run es)) (job_key "m" ex_id)) with
  | Ok j => j
  | Raise _ => Build_ExecutionJob "" ex_job_spec FAILED 0 0 0 0 None None None false None None
  end.
Definition ex_draws (es : list ex_event) (i : nat) : nat := draws (sessions (ex_run es) i).

(** Later the dropped job is looked for: by a claim, a recovery and a late request of bob. *)
Definition ex_later : list ex_event :=
  runs 1 50 (RClaim "alice" 30 None) 2 ++ runs 3 60 RRecover 2 ++
  runs 2 61 (RHeartbeat ex_id "bob" bob_token 30) 3.

(** ** What an empty server represents *)

Definition empty_view : store_view (F:=Z) (V:=Z) :=
  {| sv_store := empty_store; sv_queue := ∅; sv_running := ∅ |}.

Lemma empty_represents : represents (F:=Z) "m" ∅ empty_view.
Proof. split; cbn; intros; by rewrite ?lookup_empty. Qed.
Lemma empty_view_wf : view_wf empty_view.
Proof.
  split; cbn.
  - apply empty_store_wf.
  - intros *. by rewrite lookup_empty.
  - intros *. by rewrite lookup_empty.
  - intros id. by rewrite !lookup_empty.
  - intros *. by rewrite lookup_empty.
Qed.

(** * Properties of the Redis job store

    Of any number of clients whose commands interleave in any order, and which may die
    between two commands: the store follows the lifecycle of the reference store, a lost
    lease is fenced, and a queue entry dropped by the cleanup of [claim] strands its job. *)
Section Runs.
  Context {F V : Type} `{PyFloatLaws F} `{!EqDecision V} `{!Redis F} `{!RedisLaws F} `{!FloatText F}
    `{!FloatTextLaws F} `{JsonValueLaws V} `{UuidLaws}.
  Context (prefix : string).
  Implicit Types (s : rstate) (j : ExecutionJob F V) (a : store_view (F:=F) (V:=V)).
#[local] Notation program := (redis_program (V:=V) prefix).
#[local] Notation events := (list (event F (redis_op F V))).

(** ** What the server determines *)

Lemma represents_unique s a b :
  represents prefix s a -> represents prefix s b -> view_wf a -> view_wf b -> a = b.
Proof.
  intros Ha Hb Wa Wb. apply view_eq.
  - assert (jobs (sv_store a) = jobs (sv_store b)) as Ej.
    { apply map_eq. intros id. pose proof (rep_jobs _ _ _ Ha id) as Ea. pose proof (rep_jobs _ _ _ Hb id) as Eb.
      rewrite Ea in Eb. destruct (jobs (sv_store a) !! id) as [j|] eqn:E1, (jobs (sv_store b) !! id) as [k|] eqn:E2;
        try done. destruct (read_job prefix s a id j Ha Wa E1) as [_ R1].
      destruct (read_job prefix s b id k Hb Wb E2) as [_ R2]. rewrite R1 in R2. by injection R2 as ->. }
    assert (idempotency (sv_store a) = idempotency (sv_store b)) as Ei.
    { apply map_eq. intros k. by rewrite -(read_string prefix s a k Ha) (read_string prefix s b k Hb). }
    destruct (sv_store a), (sv_store b). cbn in *. by subst.
  - pose proof (rep_queue _ _ _ Ha) as E1. pose proof (rep_queue _ _ _ Hb) as E2. congruence.
  - pose proof (rep_running _ _ _ Ha) as E1. pose proof (rep_running _ _ _ Hb) as E2. congruence.
Qed.

(** The server represents a well-formed store with a property. *)
Definition holds (P : store_view (F:=F) (V:=V) -> Prop) s : Prop :=
  exists a, represents prefix s a /\ view_wf a /\ P a.
Definition sound s : Prop := holds (fun _ => True) s.

Lemma holds_view P s : holds P s -> exists a, represents prefix s a /\ view_wf a.
Proof. intros (a & Hr & Hwf & _). by exists a. Qed.

Lemma holds_at P s a : holds P s -> represents prefix s a -> view_wf a -> P a.
Proof. intros (b & Hr & Hwf & Hp) Ha Wa. by rewrite (represents_unique s a b Ha Hr Wa Hwf). Qed.

(** ** Runs *)

Section Invariant.
  Context (P : store_view (F:=F) (V:=V) -> Prop) (Cancel Avoid : string -> Prop).
  Context (Post : redis_op F V -> res (redis_reply F V) -> Prop).
  Hypothesis P_stable : forall D a a',
    view_wf a -> P a -> change (seen prefix (holds P)) Cancel D a a' -> Forall (fun x => ~ Avoid x) D -> P a'.
  Hypothesis P_program : forall o v, good_op Cancel o ->
    safe (holds P) (fresh prefix Avoid) (move prefix (holds P) Cancel Avoid) (fun r _ => Post o r) v (program o).

Lemma move_holds D s s' : holds P s -> move prefix (holds P) Cancel Avoid D s s' -> holds P s'.
Proof.
  intros (a & Hr & Hwf & Hp) [Hm HD]. destruct (Hm a Hr Hwf) as (a' & Hr' & Hc). exists a'.
  split_and!; [done|eapply change_wf; eassumption|eapply P_stable; eassumption].
Qed.

Lemma move_keeps_fresh D s s' x :
  holds P s -> move prefix (holds P) Cancel Avoid D s s' -> fresh prefix Avoid x s -> x ∉ D ->
  fresh prefix Avoid x s'.
Proof.
  intros (a & Hr & Hwf & Hp) [Hm _] [Hx Ha] HD. split; [|done].
  destruct (Hm a Hr Hwf) as (a' & Hr' & Hc). rewrite (rep_jobs _ _ _ Hr) in Hx. rewrite (rep_jobs _ _ _ Hr').
  rewrite (change_fresh _ _ _ _ _ x Hc) //. by destruct (jobs (sv_store a) !! x).
Qed.

Lemma run_holds (es : events) s n :
  Forall (good_event (good_op Cancel)) es -> holds P s ->
  (forall i m, (n i <= m)%nat -> fresh prefix Avoid (uuid i m) s) ->
  let σ := run program es (idle s n) in
  system_ok (holds P) (fresh prefix Avoid) (move prefix (holds P) Cancel Avoid) Post σ /\
  rtc (fun s s' => exists i n D, move prefix (holds P) Cancel Avoid D s s' /\ drawn_by i n D) s (server σ).
Proof.
  intros Hg Hs Hn σ. apply (run_moves _ _ _ move_holds move_keeps_fresh program (good_op Cancel) Post P_program es (idle s n) Hg).
  by apply idle_ok.
Qed.
End Invariant.

Lemma sound_program (Cancel Avoid : string -> Prop) P o v :
  good_op Cancel o ->
  safe (holds P) (fresh prefix Avoid) (move prefix (holds P) Cancel Avoid) (fun _ _ => True) v (program o).
Proof. apply program_safe. apply holds_view. Qed.

(** One step of the reference lifecycle, whatever identifier it draws. *)
Definition lifecycle_step (st st' : Store F V) : Prop := exists d, store_step d st st'.

(** No identifier still to be drawn names a job. *)
Definition fresh_ids (n : nat -> nat) s : Prop :=
  forall i m, (n i <= m)%nat -> r_get s (job_key prefix (uuid i m)) = None.

Definition good_run (es : events) : Prop := Forall (good_event (good_op (fun _ => True))) es.

Lemma moves_lifecycle Inv Cancel Avoid s s' a :
  represents prefix s a -> view_wf a ->
  rtc (fun s s' => exists i n D, move (V:=V) prefix Inv Cancel Avoid D s s' /\ drawn_by i n D) s s' ->
  exists a', represents prefix s' a' /\ view_wf a' /\ rtc lifecycle_step (sv_store a) (sv_store a').
Proof.
  intros Hr Hwf Hrtc. revert a Hr Hwf.
  induction Hrtc as [s|s s1 s' (i & n & D & [Hm _] & _) _ IH]; intros a Hr Hwf.
  - exists a. split_and!; [done..|apply rtc_refl].
  - destruct (Hm a Hr Hwf) as (a1 & Hr1 & Hc).
    destruct (IH a1 Hr1 (change_wf _ _ _ _ _ Hwf Hc)) as (a' & Hr' & Hwf' & Hs). exists a'.
    split_and!; [done..|]. eapply rtc_l; [|exact Hs].
    destruct (change_lifecycle _ _ _ _ _ Hwf Hc) as (d & Hd & _). by exists d.
Qed.

(** C12. The Redis store follows the lifecycle of the reference store. *)
Theorem redis_run_refines_the_lifecycle (es : events) s n a :
  represents prefix s a -> view_wf a -> fresh_ids n s -> good_run es ->
  exists a', represents prefix (server (run program es (idle s n))) a' /\ view_wf a' /\
    rtc lifecycle_step (sv_store a) (sv_store a').
Proof.
  intros Hr Hwf Hn Hg.
  destruct (run_holds (fun _ => True) (fun _ => True) (fun _ => False) (fun _ _ => True)
              ltac:(done) (sound_program _ _ _) es s n) as [_ Hrtc]; [done|by exists a|by intros i m Hm; split; [apply Hn|]|].
  eapply moves_lifecycle; eassumption.
Qed.

(** A run leaves a sound server, and the identifiers its clients have yet to draw fresh. *)
Lemma run_sound (es : events) s n :
  sound s -> fresh_ids n s -> good_run es ->
  sound (server (run program es (idle s n))) /\
  fresh_ids (fun i => draws (sessions (run program es (idle s n)) i)) (server (run program es (idle s n))).
Proof.
  intros Hs Hn Hg.
  destruct (run_holds (fun _ => True) (fun _ => True) (fun _ => False) (fun _ _ => True)
              ltac:(done) (sound_program _ _ _) es s n Hg Hs) as [Hok _]; [by intros i m Hm; split; [apply Hn|]|].
  split; [apply (ok_inv _ _ _ _ _ Hok)|]. intros i m Hm. by apply (ok_uuid _ _ _ _ _ Hok).
Qed.

(** ** Fencing *)

Lemma read_sound s id j :
  job_from_hash (hash_at s (job_key prefix id)) = Ok j -> sound s ->
  exists a, represents prefix s a /\ view_wf a /\ jobs (sv_store a) !! id = Some j.
Proof.
  intros Hj (a & Hr & Hwf & _). exists a. split_and!; [done..|].
  apply (read_again prefix s a id (hash_at s (job_key prefix id))); try done.
  intros E. by rewrite E in Hj.
Qed.

Definition token_lost (id t : string) a : Prop :=
  exists j, jobs (sv_store a) !! id = Some j /\ lease_token j <> Some t.

Lemma token_lost_stable id t Seen Cancel D a a' :
  view_wf a -> token_lost id t a -> change Seen Cancel D a a' -> Forall (fun x => x <> t) D -> token_lost id t a'.
Proof.
  intros Hwf (j & Hj & Ht) Hc HD. destruct Hc as [now id' sp _ _ Hid|id' j0 j' Hj0 Hc|id'|]; try by exists j.
  - exists j. cbn. rewrite lookup_insert_ne; [congruence|done].
  - unfold token_lost. cbn. rewrite lookup_insert. case_decide as E; [|by exists j].
    subst id'. rewrite Hj in Hj0. injection Hj0 as <-. exists (norm_job j'). split; [done|].
    destruct (vw_norm _ Hwf id j Hj) as [Hn _].
    destruct (change_step Seen Cancel D id j j') as (d & Hd & Hin); [by apply (wf_jobs _ (vw_store _ Hwf))|done..|].
    refine (token_step d j _ t _ Ht Hd). intros ->. rewrite Forall_forall in HD. by apply (HD t (Hin t eq_refl)).
Qed.

(** No request that starts after its lease was lost succeeds: from a server whose clients
    are idle and whose job [id] is not held under [t], it never is again, and every request
    under [t] for it fails, in any interleaving. *)
Theorem redis_lost_lease_is_fenced (es : events) s n id j t :
  sound s -> fresh_ids n s -> good_run es ->
  job_from_hash (hash_at s (job_key prefix id)) = Ok j -> lease_token j <> Some t ->
  (forall i m, (n i <= m)%nat -> uuid i m <> t) ->
  let σ := run program es (idle s n) in
  (exists j', job_from_hash (hash_at (server σ) (job_key prefix id)) = Ok j' /\ lease_token j' <> Some t) /\
  forall i o r, under_lease id t o -> started σ i = Some o -> programs σ i = Done r -> is_ok r = false.
Proof.
  intros Hs Hn Hg Hj Ht Hd σ. destruct (read_sound s id j Hj Hs) as (a & Hr & Hwf & Hja).
  set (Post := fun (o : redis_op F V) (r : res (redis_reply F V)) => under_lease id t o -> is_ok r = false).
  destruct (run_holds (token_lost id t) (fun _ => True) (fun x => x = t) Post) with (es := es) (s := s) (n := n)
    as [Hok _].
  - intros D b b' Hb HP Hc HD. eapply token_lost_stable; eassumption.
  - intros o v Ho. destruct (decide (under_lease id t o)) as [Hu|Hu].
    + apply (safe_mono _ _ _ (fun r _ => is_ok r = false)); [by intros r w Hr' _|].
      apply (under_lease_refused prefix _ (holds_view _) _ _ id t); [|done].
      intros s' b k HP Hrb Hb Hk Et. destruct (holds_at _ _ _ HP Hrb Hb) as (k' & Hk' & Ht'). congruence.
    + apply (safe_mono _ _ _ (fun _ _ => True)); [by intros r w _ Hu'|by apply sound_program].
  - done.
  - exists a. split_and!; [done..|]. by exists j.
  - intros i m Hm. split; [by apply Hn|by apply Hd].
  - split.
    + destruct (ok_inv _ _ _ _ _ Hok) as (b & Hrb & Hb & k & Hk & Htk). exists k.
      split; [|done]. by apply (read_job prefix _ b).
    + intros i o r Hu Ho Hp. exact (finished _ _ _ _ σ i o r Hok Ho Hp Hu).
Qed.

(** ** Success needs the lease *)







(** ** Dropped queue entries *)

Definition dropped (id : string) j a : Prop :=
  jobs (sv_store a) !! id = Some j /\ sv_queue a !! id = None.

Lemma dropped_stable id j D a a' :
  claimable (status j) = true -> view_wf a -> dropped id j a ->
  change (seen prefix (holds (dropped id j))) (fun x => x <> id) D a a' -> dropped id j a'.
Proof.
  intros Hcl Hwf [Hj Hq] Hc.
  assert (~ seen prefix (holds (dropped id j)) id) as Hns.
  { intros (s & b & HP & Hr & Hb & Hx). destruct (holds_at _ _ _ HP Hr Hb) as [_ E]. rewrite E in Hx.
    by destruct Hx. }
  destruct Hc as [now id' sp _ _ Hid|id' j0 j' Hj0 Hc|id'|]; [..|done].
  - split; cbn; rewrite lookup_insert_ne //; congruence.
  - destruct (decide (id' = id)) as [->|Hne].
    + rewrite Hj in Hj0. injection Hj0 as <-. destruct Hc as [|??|now w t mutate j' Hl _ _|now Hcan|now Hl]; try done.
      * apply lease_active_running in Hl as [Hl _]. by rewrite Hl in Hcl.
      * unfold lease_lapsed in Hl. apply andb_true_iff in Hl as [Hl _]. to_prop. by rewrite Hl in Hcl.
    + split; cbn; [by rewrite lookup_insert_ne|]. case_match; rewrite ?lookup_insert_ne ?lookup_delete_ne //.
  - split; [done|]. cbn. rewrite lookup_delete. by case_decide.
Qed.

(** A claimable job whose queue entry is gone, while no request is under way, stays as it is
    for ever: no request that starts afterwards claims it, unless it is cancelled. *)
Theorem redis_dropped_job_is_never_claimed (es : events) s n id j :
  sound s -> fresh_ids n s -> Forall (good_event (good_op (fun x => x <> id))) es ->
  job_from_hash (hash_at s (job_key prefix id)) = Ok j -> claimable (status j) = true ->
  zset_at s (queue_key prefix) !! id = None ->
  let s' := server (run program es (idle s n)) in
  hash_at s' (job_key prefix id) = hash_at s (job_key prefix id) /\
  zset_at s' (queue_key prefix) !! id = None.
Proof.
  intros Hs Hn Hg Hj Hcl Hq s'. destruct (read_sound s id j Hj Hs) as (a & Hr & Hwf & Hja).
  unfold zset_at in Hq. rewrite (rep_queue _ _ _ Hr) in Hq.
  destruct (run_holds (dropped id j) (fun x => x <> id) (fun _ => False) (fun _ _ => True)) with (es := es) (s := s) (n := n)
    as [Hok _].
  - intros D b b' Hb HP Hc _. eapply dropped_stable; eassumption.
  - apply sound_program.
  - done.
  - exists a. by split_and!.
  - intros i m Hm. by split; [apply Hn|].
  - destruct (ok_inv _ _ _ _ _ Hok) as (b & Hrb & Hb & Hjb & Hqb). unfold s'.
    rewrite (hash_of_job _ _ _ _ Hrb) Hjb (hash_of_job _ _ _ _ Hr) Hja. split; [done|].
    unfold zset_at. by rewrite (rep_queue _ _ _ Hrb).
Qed.
End Runs.

(** ** Witnesses *)

Lemma empty_fresh n : fresh_ids (F:=Z) "m" n ∅.
Proof. intros i m _. exact (lookup_empty (M:=gmap string) _). Qed.

Lemma ex_spec_good : spec_valid ex_job_spec /\ policy_ok (retry ex_job_spec).
Proof. repeat split; cbn; lia. Qed.

Lemma ex_good_race : good_run ex_race.
Proof.
  unfold ex_race, runs, sends. cbn [repeat app].
  repeat (apply Forall_cons; split); try exact I; [apply ex_spec_good|by apply Forall_nil].
Qed.

Lemma ex_good_two : good_run ex_two_workers.
Proof.
  unfold ex_two_workers, ex_failed, ex_after, runs, sends. cbn [repeat app].
  repeat (apply Forall_cons; split); try exact I; [apply ex_spec_good|by apply Forall_nil].
Qed.

Lemma ex_sound es : good_run es -> sound (V:=Z) "m" (server (ex_run es)) /\
  fresh_ids "m" (fun i => draws (sessions (ex_run es) i)) (server (ex_run es)).
Proof.
  intros Hg. apply run_sound; [|apply empty_fresh|done].
  exists empty_view. split_and!; [apply empty_represents|apply empty_view_wf|done].
Qed.

Lemma redis_run_refines_the_lifecycle_witness :
  exists a', represents "m" (server (ex_run ex_two_workers)) a' /\ view_wf a' /\
    rtc lifecycle_step (sv_store empty_view) (sv_store a').
Proof.
  apply (redis_run_refines_the_lifecycle "m" ex_two_workers ∅ (fun _ => 0%nat) empty_view).
  - apply empty_represents.
  - apply empty_view_wf.
  - apply empty_fresh.
  - apply ex_good_two.
Defined.

Lemma ex_good_failed : good_run ex_failed.
Proof. pose proof ex_good_two as Hg. unfold good_run, ex_two_workers in Hg. by apply Forall_app in Hg as [Hg _]. Qed.

Lemma redis_lost_lease_is_fenced_witness :
  let σ := run (redis_program "m") (ex_after (uuid 2 1)) (idle (server (ex_run ex_failed)) (ex_draws ex_failed)) in
  (exists j', job_from_hash (V:=Z) (hash_at (F:=Z) (server σ) (job_key "m" ex_id)) = Ok j' /\
     lease_token j' <> Some (uuid 1 0)) /\
  forall i o r, under_lease ex_id (uuid 1 0) o -> started σ i = Some o -> programs σ i = Done r -> is_ok r = false.
Proof.
  destruct (ex_sound ex_failed ex_good_failed) as [Hs Hn].
  apply (redis_lost_lease_is_fenced "m" (ex_after (uuid 2 1)) _ (ex_draws ex_failed) ex_id (ex_stored ex_failed)).
  - exact Hs.
  - exact Hn.
  - pose proof ex_good_two as Hg. unfold good_run, ex_two_workers in Hg. by apply Forall_app in Hg as [_ Hg].
  - vm_compute. reflexivity.
  - vm_compute. discriminate.
  - intros i m Hm E. apply uuid_inj in E as [-> ->]. vm_compute in Hm. lia.
Defined.



Lemma redis_dropped_job_is_never_claimed_witness :
  let s' := server (run (redis_program (V:=Z) "m") ex_later (idle ex_raced (ex_draws ex_race))) in
  hash_at (F:=Z) s' (job_key "m" ex_id) = hash_at (F:=Z) ex_raced (job_key "m" ex_id) /\
  zset_at (F:=Z) s' (queue_key "m") !! ex_id = None.
Proof.
  destruct (ex_sound ex_race ex_good_race) as [Hs Hn].
  apply (redis_dropped_job_is_never_claimed "m" ex_later ex_raced (ex_draws ex_race) ex_id (ex_stored ex_race)).
  - exact Hs.
  - exact Hn.
  - unfold ex_later, runs, sends. cbn [repeat app]. repeat (apply Forall_cons; split); try exact I. by apply Forall_nil.
  - vm_compute. reflexivity.
  - vm_compute. reflexivity.
  - vm_compute. reflexivity.
Defined.

(** ** Stored jobs *)

(** C30. A job written over the hash of another reads back. *)
Theorem redis_hash_round_trip {F V : Type} `{PyFloatLaws F} `{!EqDecision V} `{!FloatText F} `{!FloatTextLaws F}
    `{JsonValueLaws V} (j j' : ExecutionJob F V) :
  spec_valid (spec j) ->
  job_from_hash (job_mapping j ∪ job_mapping j') = Ok (norm_job j) /\
  job_mapping (norm_job j) = job_mapping j.
Proof. intros Hs. rewrite mapping_union. split; [by apply job_round_trip|apply norm_mapping]. Qed.

Lemma redis_hash_round_trip_witness :
  job_from_hash (job_mapping (claimed_job 11 "alice" "t" 30 (new_job 10 ex_id ex_job_spec)) ∪
                 job_mapping (new_job 10 ex_id ex_job_spec)) =
    Ok (norm_job (claimed_job 11 "alice" "t" 30 (new_job 10 ex_id ex_job_spec))) /\
  job_mapping (norm_job (claimed_job 11 "alice" "t" 30 (new_job 10 ex_id ex_job_spec))) =
    job_mapping (claimed_job 11 "alice" "t" 30 (new_job 10 ex_id ex_job_spec)).
Proof. apply redis_hash_round_trip. apply ex_spec_good. Defined.
