(* ===== verification/RedisSolo.v ===== *)
(** * The Redis store without contention

    An operation that no other client disturbs replies what the reference store replies at
    the same clock reading, and leaves the store the reference store leaves. *)
From S2P Require Import Prelude PyString PyFloat DurableJobs DurableLifecycle DurableProps RedisClient JsonLoads RedisCodec RedisStore RedisModel RedisProps RedisSafety.

Section Solo.
  Context {F V : Type} `{PyFloatLaws F} `{!EqDecision V} `{!Redis F} `{!RedisLaws F} `{!FloatText F}
    `{!FloatTextLaws F} `{JsonValueLaws V} `{UuidLaws}.
  Context (prefix : string) (i : nat) (now : F).
  Implicit Types (s : rstate) (j : ExecutionJob F V) (a : store_view (F:=F) (V:=V)) (se : session).

(** The same operation on the reference store; [new_id] is the identifier it draws. *)
Definition reference (new_id : string) (o : redis_op F V) : M (Store F V) (redis_reply F V) :=
  match o with
  | RSubmit sp => '(j, created) ← submit now new_id sp; mret (GotSubmission j created)
  | RGet id => j ← get_op id; mret (GotJob j)
  | RClaim w l ds => j ← claim now new_id w l ds; mret (GotClaim j)
  | RHeartbeat id w t l => j ← heartbeat now id w t l; mret (GotJob j)
  | RRelease id w t d => j ← release_unstarted_claim now id w t d; mret (GotJob j)
  | RSucceed id w t r => j ← succeed now id w t r; mret (GotJob j)
  | RFail id w t e => j ← fail now id w t e; mret (GotJob j)
  | RRequestCancel id => j ← request_cancel now id; mret (GotJob j)
  | RCancelClaimed id w t => j ← cancel_claimed now id w t; mret (GotJob j)
  | RRecover => n ← recover_expired_leases now; mret (GotCount n)
  end.

(** ** Running a program alone *)

Definition outcome {B} (x : res B * rstate * session) : res B * rstate := x.1.

Lemma solo_bind {A B} (p : prog F A) (f : A -> prog F B) s se :
  solo i now (p ≫= f) s se =
  match solo i now p s se with
  | (Ok a, s1, se1) => solo i now (f a) s1 se1
  | (Raise e, s1, se1) => (Raise e, s1, se1)
  end.
Proof. revert s se. induction p as [[a|e]|X c k IH]; intros s se; cbn; [done..|]. apply IH. Qed.

Lemma solo_watch {B} keys key (body : gmap string string -> prog F B) s se :
  exists se1, dirty se1 = false /\ draws se1 = draws se /\
    solo i now (send (WATCH keys);; data ← send (HGETALL key); body data) s se =
    solo i now (body (hash_at s key)) s se1.
Proof. by exists {| watched := keys; dirty := false; draws := draws se |}. Qed.

(** An [EXEC] succeeds: no one else writes. *)
Lemma solo_exec {B} ws (k : bool -> prog F B) s se :
  dirty se = false ->
  exists se1, draws se1 = draws se /\
    solo i now (done ← send (EXEC ws); k done) s se = solo i now (k true) (apply_writes ws s) se1.
Proof. intros Hd. exists {| watched := []; dirty := false; draws := draws se |}. split; [done|]. cbn. by rewrite Hd. Qed.

Lemma solo_attempts {A} n (body : prog F (option A)) after s se r s1 se1 :
  solo i now body s se = (Ok (Some r), s1, se1) ->
  solo i now (attempts (S n) body after) s se = (Ok r, s1, se1).
Proof. intros E. cbn [attempts]. by rewrite solo_bind E. Qed.
Lemma solo_attempts_raise {A} n (body : prog F (option A)) after s se e s1 se1 :
  solo i now body s se = (Raise e, s1, se1) ->
  solo i now (attempts (S n) body after) s se = (Raise e, s1, se1).
Proof. intros E. cbn [attempts]. by rewrite solo_bind E. Qed.

(** ** Requests under a lease *)

(** What [mutate_claimed] does to the reference store. *)
Definition mutation (id w t : string) (mutate : ExecutionJob F V -> F -> res (ExecutionJob F V))
    : M (Store F V) (ExecutionJob F V) :=
  j ← get_job id;
  _ ← lift (assert_lease j w t now);
  j' ← lift (mutate j now);
  _ ← save id j';
  mret j'.

(** The reply and the store of a run alone are those of a reference computation. *)
Definition matches {B} (x : res B * rstate * session) (m : M (Store F V) B) a : Prop :=
  x.1.1 = (m (sv_store a)).1 /\
  exists a', represents prefix x.1.2 a' /\ view_wf a' /\ sv_store a' = (m (sv_store a)).2.

Lemma matches_bind {A B} (p : prog F A) (m : M (Store F V) A) (k : A -> prog F B) k' s se a :
  (forall x, exists y, k x = mret y /\ k' x = mret y) ->
  matches (solo i now p s se) m a -> matches (solo i now (p ≫= k) s se) (m ≫= k') a.
Proof.
  unfold matches. rewrite solo_bind. unfold mbind, M_bind. intros Hk (E & a' & Hr & Hwf & Es).
  destruct (solo i now p s se) as [[[b|e] s1] se1]; cbn in *;
    destruct (m (sv_store a)) as [[b'|e'] st]; cbn in *; try done; injection E as <-.
  - destruct (Hk b) as (y & -> & ->). split; [done|]. eauto.
  - split; [done|]. eauto.
Qed.

Lemma unchanged {B} (r : res B) s se1 a (m : M (Store F V) B) :
  represents prefix s a -> view_wf a -> m (sv_store a) = (r, sv_store a) -> matches (r, s, se1) m a.
Proof. intros Hr Hwf E. unfold matches. rewrite E. cbn. eauto. Qed.

Lemma mutate_alone id w t mutate s se a :
  represents prefix s a -> view_wf a -> lease_mutation mutate ->
  (forall j j', jobs (sv_store a) !! id = Some j -> mutate j now = Ok j' -> norm_job j' = j') ->
  matches (solo i now (mutate_claimed prefix id w t mutate) s se) (mutation id w t mutate) a.
Proof.
  intros Hr Hwf Hm Hnorm. unfold mutate_claimed.
  set (body := now ← now_; _). 
  assert (exists se1, dirty se1 = false /\ solo i now body s se =
    solo i now (if bool_decide (hash_at s (job_key prefix id) = ∅) then throwp JobNotFoundError id
      else job ← hash_job (hash_at s (job_key prefix id));
           if negb (lease_active job w t now)
           then throwp JobLeaseLostError ("job lease is not active: " +:+ id)
           else job' ← liftp (mutate job now); ws ← liftp (mutation_writes prefix id job');
                done ← send (EXEC ws); mret (if done : bool then Some job' else None)) s se1) as (se1 & Hd & Eb)
    by (by exists {| watched := [job_key prefix id; running_key prefix]; dirty := false; draws := draws se |}).
  clearbody body. destruct (jobs (sv_store a) !! id) as [j|] eqn:Ej.
  - destruct (read_job prefix s a id j Hr Hwf Ej) as [Hne Hj]. rewrite bool_decide_eq_false_2 // in Eb.
    unfold hash_job, liftp in Eb. rewrite Hj in Eb.
    change (Done (Ok j) ≫= ?f) with (f j) in Eb. cbn beta in Eb.
    assert (mutation id w t mutate (sv_store a) =
      if lease_active j w t now then
        match mutate j now with
        | Ok j' => (Ok j', put_job id j' (sv_store a))
        | Raise e => (Raise e, sv_store a)
        end
      else (raise JobLeaseLostError ("job lease is not active: " +:+ id), sv_store a)) as Em.
    { unfold mutation, get_job, assert_lease. cbv [mbind M_bind lift ensure save modify mret M_ret raise].
      assert (job_id j = id) as Eid by (by destruct (wf_jobs _ (vw_store _ Hwf) id j Ej)).
      rewrite Ej Eid. destruct (lease_active j w t now); [|done]. by destruct (mutate j now). }
    destruct (lease_active j w t now) eqn:El; cbn [negb] in Eb.
    + destruct (mutate j now) as [j'|e] eqn:Emu.
      * change (Done (Ok j') ≫= ?f) with (f j') in Eb. cbn beta in Eb.
        pose proof (lease_active_running _ _ _ _ El) as (Hrun & _).
        assert (job_change (fun _ => True) (fun _ => True) [] id j j') as Hc by (eapply jc_lease; eassumption).
        pose proof (update_job_wf _ _ _ a id j j' Hwf Ej Hc) as Hwf'.
        assert (exists ws, mutation_writes prefix id j' = Ok ws) as [ws Ew].
        { unfold mutation_writes. case_bool_decide as Er; [|by case_match; eexists].
          pose proof (wf_jobs _ (vw_store _ Hwf') id (norm_job j')) as Hw. cbn in Hw. rewrite lookup_insert_eq in Hw.
          destruct (Hw eq_refl) as (_ & _ & Hs). cbn in Hs. rewrite Er in Hs. destruct Hs as (_ & _ & [e ->] & _). by eexists. }
        rewrite Ew in Eb. change (Done (Ok ws) ≫= ?f) with (f ws) in Eb. cbn beta in Eb.
        destruct (solo_exec ws (fun done => mret (if done : bool then Some j' else None)) s se1 Hd) as (se2 & _ & Ex).
        rewrite Ex in Eb. cbn in Eb. rewrite (solo_attempts _ _ _ _ _ _ _ _ Eb). unfold matches. rewrite Em. cbn.
        split; [done|]. exists (update_job id j' a). split_and!; [|done|].
        -- eapply mutation_represents; eassumption.
        -- cbn. by rewrite (Hnorm j j').
      * rewrite (solo_attempts_raise _ _ _ _ _ _ _ _ Eb). by apply unchanged.
    + rewrite (solo_attempts_raise _ _ _ _ _ _ _ _ Eb). by apply unchanged.
  - rewrite (hash_of_job _ _ _ _ Hr) Ej in Eb. rewrite bool_decide_eq_true_2 // in Eb.
    rewrite (solo_attempts_raise _ _ _ _ _ _ _ _ Eb). apply unchanged; [done..|].
    unfold mutation, get_job. cbv [mbind M_bind]. by rewrite Ej.
Qed.

Lemma matches_ext {B} (x : res B * rstate * session) m m' a :
  m (sv_store a) = m' (sv_store a) -> matches x m a -> matches x m' a.
Proof. unfold matches. by intros ->. Qed.

Lemma norm_fix j :
  no_empty (worker_id j) = worker_id j -> no_empty (lease_token j) = lease_token j ->
  no_empty (last_error j) = last_error j -> norm_job j = j.
Proof. destruct j. unfold norm_job. cbn. by intros -> -> ->. Qed.

Lemma norm_error j : norm_job j = j -> no_empty (last_error j) = last_error j.
Proof. intros E. exact (f_equal (fun k : ExecutionJob F V => last_error k) E). Qed.

(** Unfolds both computations on the store and runs their tests. *)
Ltac compare_ops :=
  cbv [mutation get_job get_op assert_lease reject_if ensure raise lift throw save modify
       mbind M_bind mret M_ret res_bind res_ret];
  repeat (case_match; simplify_eq/=); try done.

Lemma expire_running j : status j = RUNNING -> deadline_expired j now = true ->
  expire_deadline now j = expire_queued now j.
Proof. intros Hr Hd. unfold expire_deadline, expire_queued. by rewrite Hr Hd. Qed.

Lemma succeed_as_mutation id w t r st :
  mutation id w t (succeed_mutation r) st = succeed now id w t r st.
Proof.
  unfold succeed, succeed_mutation. compare_ops.
  rewrite expire_running //. by match goal with Ha : lease_active _ _ _ _ = true |- _ =>
    apply lease_active_running in Ha as [? _] end.
Qed.

Lemma cancel_as_mutation id w t st : mutation id w t cancel_mutation st = cancel_claimed now id w t st.
Proof. unfold cancel_claimed, cancel_mutation. compare_ops. Qed.

Lemma release_as_mutation id w t d st :
  f_ltb d f_zero = false ->
  mutation id w t (release_mutation d) st = release_unstarted_claim now id w t d st.
Proof. intros Hd. unfold release_unstarted_claim, release_mutation. rewrite Hd. compare_ops. Qed.

Lemma fail_as_mutation id w t e st :
  store_wf st -> mutation id w t (fail_mutation e) st = fail now id w t e st.
Proof.
  intros Hwf. unfold fail, fail_mutation. destruct (jobs st !! id) as [j|] eqn:Ej.
  - destruct (wf_jobs _ Hwf id j Ej) as (_ & Hp & Hs).
    destruct (lease_active j w t now) eqn:El.
    + apply lease_active_running in El as Hl. destruct Hl as (Hrun & _). rewrite Hrun in Hs.
      cbv [mutation get_job get_op assert_lease reject_if ensure raise lift throw save modify
           mbind M_bind mret M_ret res_bind res_ret]. rewrite Ej El.
      set (j1 := clear_lease (set_updated_at now (set_last_error (Some e) j))).
      destruct (cancel_requested j1); [by rewrite put_job_twice|].
      destruct (deadline_expired j1 now); [by rewrite put_job_twice|].
      destruct (Z.leb_spec (max_attempts (retry (spec j1))) (attempt j1)) as [|Hlt]; [by rewrite put_job_twice|].
      destruct (delay_defined (retry (spec j1)) (attempt j1)) as [x Hx]; [done|cbn in *; lia|].
      rewrite Hx. destruct (deadline_at (spec j1)) as [dl|]; [destruct (f_leb dl (f_add now x))|];
        by rewrite put_job_twice.
    + compare_ops.
  - compare_ops.
Qed.

Lemma heartbeat_alone id w t l s se a :
  represents prefix s a -> view_wf a ->
  matches (solo i now (redis_heartbeat prefix id w t l) s se) (heartbeat now id w t l) a.
Proof.
  intros Hr Hwf. unfold redis_heartbeat. destruct (f_leb l f_zero) eqn:El.
  { apply unchanged; [done..|]. unfold heartbeat. by rewrite El. }
  change (liftp (reject_if false ValueError "lease_seconds must be positive") ≫= ?f) with (f tt). cbn beta.
  assert (matches (solo i now (mutate_claimed prefix id w t (heartbeat_mutation l)) s se)
            (mutation id w t (heartbeat_mutation l)) a) as Hm.
  { apply mutate_alone; [done|done|constructor|]. intros j j' Hj [= <-].
    destruct (vw_norm _ Hwf id j Hj) as [Hn _]. destruct (norm_leased _ Hn) as [E1 E2].
    pose proof (norm_error _ Hn) as E3. case_match; by apply norm_fix. }
  unfold matches in *. rewrite solo_bind.
  destruct (solo i now (mutate_claimed prefix id w t (heartbeat_mutation l)) s se) as [[r s1] se1].
  cbn [fst snd] in Hm |- *. destruct Hm as [Er (a' & Hr' & Hwf' & Es)].
  assert (heartbeat now id w t l (sv_store a) =
    match mutation id w t (heartbeat_mutation l) (sv_store a) with
    | (Ok j, st) =>
        if bool_decide (status j = FAILED) && bool_decide (last_error j = Some "deadline_exceeded")
        then (raise JobLeaseLostError ("job deadline expired: " +:+ id), st) else (Ok j, st)
    | r => r
    end) as ->.
  { unfold heartbeat, heartbeat_mutation. rewrite El.
    cbv [mutation get_job get_op assert_lease reject_if ensure raise lift throw save modify
         mbind M_bind mret M_ret res_bind res_ret negb].
    destruct (jobs (sv_store a) !! id) as [j|]; [|done]. destruct (lease_active j w t now) eqn:Ea; [|done].
    apply lease_active_running in Ea as (Hrun & _). destruct (deadline_expired j now) eqn:Ed.
    - rewrite expire_running //.
    - cbn [status set_updated_at set_lease]. by rewrite Hrun. }
  destruct (mutation id w t (heartbeat_mutation l) (sv_store a)) as [[j|e] st]; cbn [fst snd] in *; subst r.
  - destruct (bool_decide _ && bool_decide _); cbn; eauto.
  - cbn. eauto.
Qed.

(** ** The other operations *)

Lemma get_alone id s se a :
  represents prefix s a -> view_wf a ->
  matches (solo i now (redis_get prefix id) s se) (get_op id) a.
Proof.
  intros Hr Hwf. destruct (jobs (sv_store a) !! id) as [j|] eqn:Ej.
  - destruct (read_job prefix s a id j Hr Hwf Ej) as [Hne Hj].
    assert (solo i now (redis_get prefix id) s se = (Ok j, s, se)) as ->.
    { cbn. rewrite bool_decide_eq_false_2 //. unfold hash_job, liftp. by rewrite Hj. }
    apply unchanged; [done..|]. unfold get_op, get_job. by rewrite Ej.
  - assert (solo i now (redis_get (V:=V) prefix id) s se = (raise JobNotFoundError id, s, se)) as ->.
    { cbn. by rewrite (hash_of_job _ _ _ _ Hr) Ej bool_decide_eq_true_2. }
    apply unchanged; [done..|]. unfold get_op, get_job. by rewrite Ej.
Qed.

Lemma request_cancel_alone id s se a :
  represents prefix s a -> view_wf a ->
  matches (solo i now (redis_request_cancel prefix id) s se) (request_cancel now id) a.
Proof.
  intros Hr Hwf. unfold redis_request_cancel. set (body := now ← now_; _).
  assert (exists se1, dirty se1 = false /\ solo i now body s se =
    solo i now (if bool_decide (hash_at s (job_key prefix id) = ∅) then throwp JobNotFoundError id
      else job ← hash_job (hash_at s (job_key prefix id));
           if terminal (status job) then mret (Some job)
           else let j2 := cancel_request now job in
                done ← send (EXEC (HSET (job_key prefix id) (job_mapping j2) ::
                  (if bool_decide (status j2 = CANCELLED) then [ZREM (queue_key prefix) id] else [])));
                mret (if done : bool then Some j2 else None)) s se1) as (se1 & Hd & Eb)
    by (by exists {| watched := [job_key prefix id; queue_key prefix]; dirty := false; draws := draws se |}).
  clearbody body. destruct (jobs (sv_store a) !! id) as [j|] eqn:Ej.
  - destruct (read_job prefix s a id j Hr Hwf Ej) as [Hne Hj]. rewrite bool_decide_eq_false_2 // in Eb.
    unfold hash_job, liftp in Eb. rewrite Hj in Eb. change (Done (Ok j) ≫= ?f) with (f j) in Eb. cbn beta zeta in Eb.
    destruct (terminal (status j)) eqn:Et.
    + rewrite (solo_attempts _ _ _ _ _ _ _ _ Eb). apply unchanged; [done..|].
      unfold request_cancel, get_job. cbv [mbind M_bind]. by rewrite Ej Et.
    + destruct (solo_exec (HSET (job_key prefix id) (job_mapping (cancel_request now j)) ::
          (if bool_decide (status (cancel_request now j) = CANCELLED) then [ZREM (queue_key prefix) id] else []))
          (fun done => mret (if done : bool then Some (cancel_request now j) else None)) s se1 Hd) as (se2 & _ & Ex).
      rewrite Ex in Eb. cbn [solo prog_mret mret] in Eb. rewrite (solo_attempts _ _ _ _ _ _ _ _ Eb).
      unfold matches, request_cancel, get_job. cbv [mbind M_bind]. rewrite Ej Et.
      split; [done|]. exists (update_job id (cancel_request now j) a). split_and!.
      * by apply cancel_represents.
      * apply (update_job_wf (fun _ => True) (fun _ => True) [] a id j); [done..|]. by apply jc_cancel.
      * destruct (vw_norm _ Hwf id j Ej) as [Hn _]. destruct (norm_leased _ Hn) as [E1 E2].
        pose proof (norm_error _ Hn) as E3.
        assert (norm_job (cancel_request now j) = cancel_request now j) as En.
        { unfold cancel_request. cbv zeta.
          destruct (claimable (status (set_updated_at now (set_cancel_requested true j))));
            apply norm_fix; first [exact E1|exact E2|exact E3]. }
        cbn [update_job sv_store]. by rewrite En.
  - rewrite (hash_of_job _ _ _ _ Hr) Ej in Eb. rewrite bool_decide_eq_true_2 // in Eb.
    rewrite (solo_attempts_raise _ _ _ _ _ _ _ _ Eb). apply unchanged; [done..|].
    unfold request_cancel, get_job. cbv [mbind M_bind]. by rewrite Ej.
Qed.

Lemma submit_alone sp s se a :
  represents prefix s a -> view_wf a -> spec_valid sp -> policy_ok (retry sp) ->
  jobs (sv_store a) !! uuid i (draws se) = None ->
  matches (solo i now (redis_submit prefix sp) s se) (submit now (uuid i (draws se)) sp) a.
Proof.
  intros Hr Hwf Hs Hp Hid. unfold redis_submit. set (key := idem_key prefix (idempotency_key sp)).
  assert (string_at s key = idempotency (sv_store a) !! idempotency_key sp) as Ek by (by apply read_string).
  set (body := send (WATCH _);; _).
  destruct (idempotency (sv_store a) !! idempotency_key sp) as [id|] eqn:Ei.
  - pose proof (vw_ids _ Hwf _ _ Ei) as Hne. destruct (wf_index_inv _ (vw_store _ Hwf) _ _ Ei) as (j & Hj & _).
    destruct (read_job prefix s a id j Hr Hwf Hj) as [Hh Hrj].
    assert (exists se1, solo i now body s se =
      (if same_submission (spec j) sp then Ok (Some (j, false))
       else raise IdempotencyConflictError ("idempotency key already belongs to another job: " +:+ idempotency_key sp),
       s, se1)) as [se1 Eb].
    { exists {| watched := [key]; dirty := false; draws := draws se |}. cbn. rewrite Ek.
      destruct id as [|c id]; [done|]. cbn. rewrite bool_decide_eq_false_2 //. unfold hash_job, liftp. rewrite Hrj. cbn.
      by destruct (same_submission (spec j) sp). }
    assert (submit now (uuid i (draws se)) sp (sv_store a) =
      (if same_submission (spec j) sp then Ok (j, false)
       else raise IdempotencyConflictError ("idempotency key already belongs to another job: " +:+ idempotency_key sp),
       sv_store a)) as Em.
    { unfold submit. rewrite Ei Hj. by destruct (same_submission (spec j) sp). }
    destruct (same_submission (spec j) sp).
    + rewrite (solo_attempts _ _ _ _ _ _ _ _ Eb). by apply unchanged.
    + rewrite (solo_attempts_raise _ _ _ _ _ _ _ _ Eb). by apply unchanged.
  - set (id := uuid i (draws se)).
    assert (exists se1, solo i now body s se =
      (Ok (Some (new_job now id sp, true)),
       apply_writes [HSET (job_key prefix id) (job_mapping (new_job now id sp)); SET key id;
                     ZADD (queue_key prefix) id now] s, se1)) as [se1 Eb].
    { eexists. cbn. rewrite Ek. cbn. reflexivity. }
    rewrite (solo_attempts _ _ _ _ _ _ _ _ Eb). unfold matches, submit. rewrite Ei.
    split; [done|]. exists (submitted now id sp a). split_and!; [by apply submit_represents| |done].
    apply submitted_wf; try done. apply uuid_nonempty.
Qed.

(** ** The recovery sweep *)

Lemma recover_norm j : lease_lapsed now j = true -> norm_job (recover_job now j) = recover_job now j.
Proof.
  intros Hl. unfold recover_job. rewrite Hl. cbn [negb]. cbv zeta.
  by destruct (cancel_requested _); [|destruct (deadline_expired _ now); [|destruct (_ <=? _)]]; apply norm_fix.
Qed.

Lemma recover_not_lapsed j : lease_lapsed now j = false -> recover_job now j = j.
Proof. unfold recover_job. by intros ->. Qed.

Lemma recover_one_alone id j n s se a :
  represents prefix s a -> view_wf a -> jobs (sv_store a) !! id = Some j -> lease_lapsed now j = true ->
  exists s1 se1, solo i now (recover_one (V:=V) prefix now n id) s se = (Ok (n + 1), s1, se1) /\
    represents prefix s1 (update_job id (recover_job now j) a) /\
    view_wf (update_job id (recover_job now j) a).
Proof.
  intros Hr Hwf Hj Hl. destruct (read_job prefix s a id j Hr Hwf Hj) as [Hne Hrj]. unfold recover_one.
  set (ws := HSET (job_key prefix id) (job_mapping (recover_job now j)) :: ZREM (running_key prefix) id ::
    (if bool_decide (status (recover_job now j) = QUEUED) then [ZADD (queue_key prefix) id now] else [])).
  exists (apply_writes ws s), {| watched := []; dirty := false; draws := draws se |}. split_and!.
  - apply solo_attempts. cbn. rewrite bool_decide_eq_false_2 //. unfold hash_job, liftp. rewrite Hrj. cbn.
    rewrite Hl. done.
  - by apply recover_represents.
  - apply (update_job_wf (fun _ => True) (fun _ => True) [] a id j); [done..|]. by apply jc_recover.
Qed.

Lemma recover_each_alone ids n s se a :
  represents prefix s a -> view_wf a -> NoDup ids ->
  (forall id, id ∈ ids -> exists j, jobs (sv_store a) !! id = Some j /\ lease_lapsed now j = true) ->
  exists s1 se1 a1, solo i now (each (recover_one (V:=V) prefix now) n ids) s se = (Ok (n + Z.of_nat (length ids)), s1, se1) /\
    represents prefix s1 a1 /\ view_wf a1 /\ idempotency (sv_store a1) = idempotency (sv_store a) /\
    forall id, jobs (sv_store a1) !! id =
      if bool_decide (id ∈ ids) then recover_job now <$> jobs (sv_store a) !! id else jobs (sv_store a) !! id.
Proof.
  intros Hr Hwf Hnd Hl. revert n s se a Hr Hwf Hl. induction ids as [|id ids IH]; intros n s se a Hr Hwf Hl.
  - exists s, se, a. cbn. rewrite Z.add_0_r. split_and!; try done.
  - apply NoDup_cons in Hnd as [Hin Hnd]. destruct (Hl id) as (j & Hj & Hlj); [by left|].
    destruct (recover_one_alone id j n s se a Hr Hwf Hj Hlj) as (s1 & se1 & E & Hr1 & Hwf1).
    destruct (IH Hnd (n + 1) s1 se1 (update_job id (recover_job now j) a) Hr1 Hwf1) as (s2 & se2 & a2 & E2 & Hr2 & Hwf2 & Hi & Hjobs).
    { intros id' Hid'. cbn. rewrite lookup_insert_ne; [by intros ->|]. apply Hl. by right. }
    exists s2, se2, a2. split_and!; [|done|done|done|].
    + cbn [each]. rewrite solo_bind E E2. do 3 f_equal. cbn. lia.
    + intros id'. rewrite Hjobs. cbn. rewrite lookup_insert. destruct (decide (id = id')) as [<-|Hne].
      * rewrite bool_decide_eq_false_2 // bool_decide_eq_true_2; [by left|]. rewrite Hj /=. by rewrite recover_norm.
      * assert (id' ∈ id :: ids <-> id' ∈ ids) as Hiff by (rewrite elem_of_cons; naive_solver).
        by rewrite (bool_decide_ext _ _ Hiff).
Qed.

Lemma lapsed_range s a id :
  represents prefix s a -> view_wf a ->
  id ∈ r_range s (running_key prefix) now <->
  exists j, jobs (sv_store a) !! id = Some j /\ lease_lapsed now j = true.
Proof.
  intros Hr Hwf. rewrite (running_range prefix s a now id Hr). rewrite (vw_running _ Hwf).
  unfold lease_lapsed. split.
  - intros (y & Hy & Hle). destruct (jobs (sv_store a) !! id) as [j|]; [|done]. cbn in Hy. exists j. split; [done|].
    case_bool_decide as E; [|done]. cbn. by rewrite Hy.
  - intros (j & -> & Hl). apply andb_true_iff in Hl as [Hs He]. to_prop. cbn. rewrite bool_decide_eq_true_2 //.
    destruct (lease_expires_at j) as [y|]; [|done]. by exists y.
Qed.

Lemma range_nodup s a : represents prefix s a -> NoDup (r_range s (running_key prefix) now).
Proof. intros Hr. rewrite (range_law _ _ now _ (rep_running _ _ _ Hr)). apply NoDup_fst_map_to_list. Qed.

Lemma recover_alone s se a :
  represents prefix s a -> view_wf a ->
  matches (solo i now (redis_recover (V:=V) prefix) s se) (recover_expired_leases now) a.
Proof.
  intros Hr Hwf. set (ids := r_range s (running_key prefix) now).
  assert (NoDup ids) as Hnd by (eapply range_nodup; exact Hr).
  destruct (recover_each_alone ids 0 s se a Hr Hwf Hnd) as (s1 & se1 & a1 & E & Hr1 & Hwf1 & Hi & Hj).
  { intros id Hid. by apply (lapsed_range s a id Hr Hwf). }
  assert (solo i now (redis_recover (V:=V) prefix) s se = (Ok (0 + Z.of_nat (length ids)), s1, se1)) as -> by exact E.
  unfold matches, recover_expired_leases. cbn [fst snd].
  assert (forall id, bool_decide (id ∈ ids) = match jobs (sv_store a) !! id with Some j => lease_lapsed now j | None => false end) as Hin.
  { intros id. apply eq_true_iff_eq. rewrite bool_decide_eq_true (lapsed_range s a id Hr Hwf).
    destruct (jobs (sv_store a) !! id); naive_solver. }
  split.
  - change (0 + Z.of_nat (length ids)) with (Z.of_nat (length ids)). cbn. f_equal. f_equal. rewrite -(size_dom (D:=gset string)) -(size_list_to_set (C:=gset string) ids Hnd).
    apply (f_equal size). apply set_eq. intros id. rewrite elem_of_list_to_set elem_of_dom. rewrite -(bool_decide_eq_true (id ∈ ids)) Hin.
    unfold is_Some. setoid_rewrite map_lookup_filter_Some. destruct (jobs (sv_store a) !! id); naive_solver.
  - exists a1. split_and!; [done|done|]. destruct (sv_store a1) as [js im] eqn:Es. cbn in *. subst im. f_equal.
    apply map_eq. intros id. rewrite Hj lookup_fmap Hin. destruct (jobs (sv_store a) !! id) as [j|]; [|done]. cbn.
    destruct (lease_lapsed now j) eqn:El; [done|]. by rewrite recover_not_lapsed.
Qed.

(** ** Every operation but the claim *)

(** What an operation alone needs: a fresh identifier and an admissible policy for a
    submission, and an error text the hash can hold for a failure; a claim is apart. *)
Definition alone_op (new_id : string) a (o : redis_op F V) : Prop :=
  good_op (fun _ => True) o /\
  match o with
  | RSubmit _ => jobs (sv_store a) !! new_id = None
  | RFail _ _ _ e => e <> ""
  | RClaim _ _ _ => False
  | _ => True
  end.

(** C28. An operation that runs alone behaves like the reference: it replies what the
    reference store replies, and leaves its content.  The operations are all but the claim,
    which has a theorem of its own because it needs every claimable job to be queued; a
    submission is of a valid specification of at most 1025 attempts and draws a fresh
    identifier, and a failure has a non-empty error text, which the hash would read
    back as none ([alone_op]). *)
Theorem redis_alone_equals_reference (o : redis_op F V) s se a :
  represents prefix s a -> view_wf a -> alone_op (uuid i (draws se)) a o ->
  matches (solo i now (redis_program prefix o) s se) (reference (uuid i (draws se)) o) a.
Proof.
  intros Hr Hwf [Hg Ho].
  assert (forall id j, jobs (sv_store a) !! id = Some j -> no_empty (worker_id j) = worker_id j /\
    no_empty (lease_token j) = lease_token j /\ no_empty (last_error j) = last_error j) as Hn.
  { intros id j Hj. destruct (vw_norm _ Hwf id j Hj) as [E _]. destruct (norm_leased _ E). by rewrite (norm_error _ E). }
  destruct o as [sp|id|w l ds|id w t l|id w t d|id w t r|id w t e|id|id w t|]; cbn [redis_program reference].
  - destruct Hg. apply matches_bind; [intros []; by eexists|by apply submit_alone].
  - apply matches_bind; [by eexists|]. by apply get_alone.
  - done.
  - apply matches_bind; [by eexists|]. by apply heartbeat_alone.
  - apply matches_bind; [by eexists|]. unfold redis_release. destruct (f_ltb d f_zero) eqn:Ed.
    { apply unchanged; [done..|]. unfold release_unstarted_claim. by rewrite Ed. }
    apply (matches_ext _ (mutation id w t (release_mutation d))); [by apply release_as_mutation|].
    apply mutate_alone; [done|done|constructor|]. intros j j' Hj [= <-].
    destruct (Hn id j Hj) as (E1 & E2 & E3). by apply norm_fix.
  - apply matches_bind; [by eexists|]. apply (matches_ext _ (mutation id w t (succeed_mutation r))); [by apply succeed_as_mutation|].
    apply mutate_alone; [done|done|constructor|]. intros j j' Hj [= <-].
    destruct (Hn id j Hj) as (E1 & E2 & E3). by repeat case_match; apply norm_fix.
  - apply matches_bind; [by eexists|]. apply (matches_ext _ (mutation id w t (fail_mutation e))); [apply fail_as_mutation, Hwf|].
    apply mutate_alone; [done|done|constructor|]. intros j j' Hj Hf.
    unfold fail_mutation in Hf. cbv [mbind res_bind mret res_ret] in Hf.
    by repeat case_match; simplify_eq; apply norm_fix; destruct e.
  - apply matches_bind; [by eexists|]. by apply request_cancel_alone.
  - apply matches_bind; [by eexists|]. apply (matches_ext _ (mutation id w t cancel_mutation)); [by apply cancel_as_mutation|].
    apply mutate_alone; [done|done|constructor|]. intros j j' Hj [= <-].
    destruct (Hn id j Hj) as (E1 & E2 & E3). by apply norm_fix.
  - apply matches_bind; [by eexists|]. by apply recover_alone.
Qed.
End Solo.

(** ** A queued job *)

Definition ex_queued : rstate (F:=Z) :=
  apply_writes [HSET (job_key "m" ex_id) (job_mapping (new_job 10 ex_id ex_job_spec));
                SET (idem_key "m" (idempotency_key ex_job_spec)) ex_id; ZADD (queue_key "m") ex_id 10] ∅.
Definition ex_queued_view : store_view (F:=Z) (V:=Z) := submitted 10 ex_id ex_job_spec empty_view.
Definition ex_session : session := {| watched := []; dirty := false; draws := 1 |}.

Lemma ex_queued_represents : represents "m" ex_queued ex_queued_view.
Proof. apply submit_represents, empty_represents. Qed.
Lemma ex_queued_wf : view_wf ex_queued_view.
Proof. by apply (submitted_wf empty_view 10 ex_id ex_job_spec empty_view_wf). Qed.

Lemma redis_alone_equals_reference_witness :
  matches "m" (solo 0 12 (redis_program "m" (RRequestCancel ex_id)) ex_queued ex_session)
    (reference 12 (uuid 0 1) (RRequestCancel ex_id)) ex_queued_view.
Proof.
  apply (redis_alone_equals_reference "m" 0 12 (RRequestCancel ex_id) ex_queued ex_session ex_queued_view).
  - apply ex_queued_represents.
  - apply ex_queued_wf.
  - by split.
Defined.

(** * A claim without contention

    A claim that no other client disturbs takes the job the reference store hands out, when
    every claimable job has its entry in the queue. *)
Section Claim.
  Context {F V : Type} `{PyFloatLaws F} `{!EqDecision V} `{!Redis F} `{!RedisLaws F} `{!FloatText F}
    `{!FloatTextLaws F} `{JsonValueLaws V} `{UuidLaws}.
  Context (prefix : string) (i : nat) (now : F) (domains : option (list string)).
  Implicit Types (s : rstate) (j : ExecutionJob F V) (a : store_view (F:=F) (V:=V)) (se : session).

(** A job [claim] may take, whenever it becomes available. *)
Definition ripe j : bool :=
  claimable (status j) && negb (cancel_requested j) && negb (deadline_expired j now) && allowed domains j.

Definition pick a (id : string) : list (ExecutionJob F V) :=
  match jobs (sv_store a) !! id with Some j => if ripe j then [j] else [] | None => [] end.

(** A store between [a] and [a] with every deadline expired. *)
Definition partly_expired a a1 : Prop :=
  forall id, jobs (sv_store a1) !! id = jobs (sv_store a) !! id \/
    jobs (sv_store a1) !! id = expire_deadline now <$> jobs (sv_store a) !! id.

(** Every claimable job is queued for the moment it becomes available. *)
Definition indexed a : Prop :=
  forall id j, jobs (sv_store a) !! id = Some j -> claimable (status j) = true ->
    sv_queue a !! id = Some (available_at j).

Lemma expire_deadline_idemp j : expire_deadline now (expire_deadline now j) = expire_deadline now j.
Proof.
  unfold expire_deadline at 2 3. destruct (terminal (status j)) eqn:Et; [unfold expire_deadline; by rewrite Et|].
  destruct (deadline_expired j now) eqn:Ed; [done|]. unfold expire_deadline. by rewrite Et Ed.
Qed.

Lemma ripe_expired j : ripe (expire_deadline now j) = ripe j /\ (ripe j = true -> expire_deadline now j = j).
Proof.
  unfold expire_deadline, ripe. destruct (terminal (status j)) eqn:Et; [done|].
  destruct (deadline_expired j now) eqn:Ed; cbn; [|by rewrite Ed].
  rewrite !andb_false_r. done.
Qed.

Lemma partly_expired_pick a a1 id : partly_expired a a1 -> pick a1 id = pick a id.
Proof.
  intros Hp. unfold pick. destruct (Hp id) as [->| ->]; [done|].
  destruct (jobs (sv_store a) !! id) as [j|]; [cbn|done].
  destruct (ripe_expired j) as [-> E]. destruct (ripe j); [by rewrite E|done].
Qed.

Lemma partly_expired_trans a a1 a2 : partly_expired a a1 -> partly_expired a1 a2 -> partly_expired a a2.
Proof.
  intros Ha Hb id. destruct (Ha id) as [E1|E1], (Hb id) as [E2|E2]; rewrite E2 E1; auto.
  right. destruct (jobs (sv_store a) !! id); [cbn|done]. by rewrite expire_deadline_idemp.
Qed.

(** ** Reading the queue *)

Lemma expire_alone id j s se a :
  represents prefix s a -> view_wf a -> jobs (sv_store a) !! id = Some j ->
  claimable (status j) = true -> deadline_expired j now = true ->
  exists s1 se1 a1, solo i now (expire_queued_deadline (V:=V) prefix id now) s se = (Ok true, s1, se1) /\
    draws se1 = draws se /\ represents prefix s1 a1 /\ view_wf a1 /\ partly_expired a a1.
Proof.
  intros Hr Hwf Hj Hc Hd. destruct (read_job prefix s a id j Hr Hwf Hj) as [Hne Hrj].
  exists (apply_writes [HSET (job_key prefix id) (job_mapping (expire_queued now j)); ZREM (queue_key prefix) id] s),
    {| watched := []; dirty := false; draws := draws se |}, (update_job id (expire_queued now j) a).
  split_and!; [|done| | |].
  - unfold expire_queued_deadline. apply solo_attempts. cbn. rewrite bool_decide_eq_false_2 //.
    unfold hash_job, liftp. rewrite Hrj. cbn. by rewrite Hc Hd.
  - by apply expire_represents.
  - apply (update_job_wf (fun _ => True) (fun _ => True) [] a id j); [done..|]. by apply jc_expire.
  - intros id'. cbn. rewrite lookup_insert. case_decide as E; [subst id'|by left]. right. rewrite Hj. cbn.
    unfold expire_deadline. rewrite Hd.
    destruct (terminal (status j)) eqn:Et; [by destruct (status j)|]. done.
Qed.

Lemma consider_alone found id s se a :
  represents prefix s a -> view_wf a ->
  exists s1 se1 a1, solo i now (consider prefix now domains found id) s se = (Ok (found ++ pick a id), s1, se1) /\
    draws se1 = draws se /\ represents prefix s1 a1 /\ view_wf a1 /\ partly_expired a a1.
Proof.
  intros Hr Hwf. unfold consider. rewrite solo_bind. unfold pick.
  assert (exists s1 se1, solo i now (send (ZREM_NOW (queue_key prefix) id) : prog F unit) s se = (Ok tt, s1, se1) /\
    draws se1 = draws se /\ represents prefix s1 (with_queue (delete id (sv_queue a)) a)) as (sz & sez & Ez & Edz & Hz).
  { eexists _, _. split_and!; [reflexivity|done|]. by apply zrem_queue. }
  assert (view_wf (with_queue (delete id (sv_queue a)) a)) as Hwz
    by exact (change_wf (fun _ => True) (fun _ => True) [] a _ Hwf (ch_cleanup _ _ _ _ id)).
  destruct (jobs (sv_store a) !! id) as [j|] eqn:Ej.
  - destruct (read_job prefix s a id j Hr Hwf Ej) as [Hne Hrj].
    assert (solo i now (catch JobNotFoundError (send (ZREM_NOW (queue_key prefix) id);; mret None)
      (job ← redis_get prefix id; mret (Some job))) s se = (Ok (Some j), s, se)) as ->.
    { cbn. rewrite bool_decide_eq_false_2 //. unfold hash_job, liftp. by rewrite Hrj. }
    unfold ripe. destruct (claimable (status j)) eqn:Ec; cbn [negb andb].
    2:{ exists sz, sez, (with_queue (delete id (sv_queue a)) a). rewrite solo_bind Ez app_nil_r.
        split_and!; try done. by left. }
    destruct (cancel_requested j) eqn:Ecr; cbn [negb andb].
    { exists s, se, a. rewrite app_nil_r. split_and!; try done. by left. }
    destruct (deadline_expired j now) eqn:Ed; cbn [negb andb].
    { destruct (expire_alone id j s se a Hr Hwf Ej Ec Ed) as (s1 & se1 & a1 & E & Hx). exists s1, se1, a1.
      by rewrite solo_bind E app_nil_r. }
    exists s, se, a. destruct (allowed domains j); cbn [negb]; rewrite ?app_nil_r; split_and!; try done; by left.
  - exists sz, sez, (with_queue (delete id (sv_queue a)) a). rewrite app_nil_r. split_and!; try done; [|by left].
    assert (solo i now (catch JobNotFoundError (send (ZREM_NOW (queue_key prefix) id);; mret None)
      (job ← redis_get (V:=V) prefix id; mret (Some job))) s se = (Ok None, sz, sez)) as ->; [|done].
    { cbn. rewrite (hash_of_job _ _ _ _ Hr) Ej bool_decide_eq_true_2 //. cbn. cbn in Ez. by injection Ez as <- <-. }
Qed.

Lemma consider_each_alone ids found s se a :
  represents prefix s a -> view_wf a ->
  exists s1 se1 a1, solo i now (each (consider prefix now domains) found ids) s se = (Ok (found ++ (ids ≫= pick a)), s1, se1) /\
    draws se1 = draws se /\ represents prefix s1 a1 /\ view_wf a1 /\ partly_expired a a1.
Proof.
  intros Hr Hwf. revert found s se a Hr Hwf. induction ids as [|id ids IH]; intros found s se a Hr Hwf.
  - exists s, se, a. cbn. rewrite app_nil_r. split_and!; try done. by left.
  - destruct (consider_alone found id s se a Hr Hwf) as (s1 & se1 & a1 & E & Ed & Hr1 & Hwf1 & Hp1).
    destruct (IH (found ++ pick a id) s1 se1 a1 Hr1 Hwf1) as (s2 & se2 & a2 & E2 & Ed2 & Hr2 & Hwf2 & Hp2).
    exists s2, se2, a2. cbn [each]. rewrite solo_bind E E2. cbn [mbind list_bind].
    rewrite -app_assoc. split_and!; [|congruence|done|done|by eapply partly_expired_trans].
    assert (ids ≫= pick a1 = ids ≫= pick a) as -> by (apply list_bind_ext; [intros x; by apply partly_expired_pick|done]).
    done.
Qed.

(** ** The candidates *)

Lemma job_le_same_id j k : job_le j k -> job_le k j -> job_id j = job_id k.
Proof.
  unfold job_le. rewrite !job_before_eq. cbn. rewrite (Z.eqb_sym (priority_int (priority (spec k)))).
  destruct (Z.eqb_spec (priority_int (priority (spec j))) (priority_int (priority (spec k)))).
  - unfold job_rest. intros E1 E2. apply (lex_same _ _ _ _ E1) in E2 as [E1' E2']. 
    apply (lex_same _ _ _ _ E1') in E2' as [E1'' E2'']. by apply leb_antisym.
  - rewrite !Z.ltb_lt. lia.
Qed.

Lemma picked_elem a ids j : j ∈ ids ≫= pick a <-> exists id, id ∈ ids /\ jobs (sv_store a) !! id = Some j /\ ripe j = true.
Proof.
  rewrite list_elem_of_bind. split.
  - intros (id & Hin & Hid). exists id. unfold pick in Hin. destruct (jobs (sv_store a) !! id) as [k|]; [|by apply not_elem_of_nil in Hin].
    destruct (ripe k) eqn:Er; [|by apply not_elem_of_nil in Hin]. apply list_elem_of_singleton in Hin as ->. done.
  - intros (id & Hid & Hj & Hr). exists id. split; [|done]. unfold pick. rewrite Hj Hr. by left.
Qed.

Lemma job_id_of a id j : view_wf a -> jobs (sv_store a) !! id = Some j -> job_id j = id.
Proof. intros Hwf Hj. by destruct (wf_jobs _ (vw_store _ Hwf) id j Hj). Qed.

Lemma picked_nodup a ids : view_wf a -> NoDup ids -> NoDup (ids ≫= pick a).
Proof.
  intros Hwf Hnd. apply NoDup_bind; [..|done].
  - intros x y j _ _ Hx Hy.
    assert (forall z, j ∈ pick a z -> job_id j = z) as Hz.
    { intros z Hz. unfold pick in Hz. destruct (jobs (sv_store a) !! z) as [k|] eqn:Ek; [|by apply not_elem_of_nil in Hz].
      destruct (ripe k); [|by apply not_elem_of_nil in Hz]. apply list_elem_of_singleton in Hz as ->. eapply job_id_of; eassumption. }
    by rewrite -(Hz x Hx) -(Hz y Hy).
  - intros x _. unfold pick. repeat case_match; repeat constructor. by apply not_elem_of_nil.
Qed.

(** The queue yields the candidates of the reference, in the same order. *)
Lemma picked_candidates s a :
  represents prefix s a -> view_wf a -> indexed a ->
  merge_sort job_le (r_range s (queue_key prefix) now ≫= pick a) = candidates now domains (expire_deadlines now (sv_store a)).
Proof.
  intros Hr Hwf Hix. set (ids := r_range s (queue_key prefix) now).
  assert (forall j, j ∈ ids ≫= pick a <-> j ∈ candidates now domains (expire_deadlines now (sv_store a))) as Hel.
  { intros j. rewrite picked_elem candidates_elem. split.
    - intros (id & Hid & Hj & Hp). destruct (ripe_expired j) as [_ E].
      pose proof Hp as Hp'. unfold ripe in Hp'.
      apply andb_true_iff in Hp' as [[[Hc Hcr]%andb_true_iff _]%andb_true_iff Ha]. split.
      + unfold eligible. apply (queue_range prefix s a now id Hr) in Hid as (y & Hy & Hle).
        rewrite (Hix id j Hj) in Hy; [done|]. injection Hy as <-. rewrite Hc Hle Hcr. exact Ha.
      + exists id. apply expired_lookup. exists j. by rewrite E.
    - intros [He (id & (j0 & Hj0 & ->)%expired_lookup)].
      pose proof He as He'. unfold eligible in He'.
      apply andb_true_iff in He' as [[[Hc Hav]%andb_true_iff Hcr]%andb_true_iff Ha].
      destruct (expire_claimable now j0 Hc) as [E Ed]. rewrite E in Hc Hav Hcr Ha |- *. exists id. split_and!; [|done|].
      + apply (queue_range prefix s a now id Hr). exists (available_at j0). split; [|done]. by apply Hix.
      + unfold ripe. rewrite Hc Ed Hcr. exact Ha. }
  assert (NoDup ids) as Hnd by (rewrite /ids (range_law _ _ now _ (rep_queue _ _ _ Hr)); apply NoDup_fst_map_to_list).
  assert (forall id j, jobs (expire_deadlines now (sv_store a)) !! id = Some j -> job_id j = id) as Hid.
  { intros id j (j0 & Hj0 & ->)%expired_lookup. rewrite expire_job_id. eapply job_id_of; eassumption. }
  eapply (StronglySorted_unique_strong job_le).
  - intros x y Hx Hy Hxy Hyx. rewrite merge_sort_Permutation in Hx. apply Hel, candidates_elem in Hx as [_ [u Hu]].
    apply candidates_elem in Hy as [_ [v Hv]].
    pose proof (job_le_same_id _ _ Hxy Hyx) as E. rewrite (Hid u x Hu) (Hid v y Hv) in E. congruence.
  - apply (StronglySorted_merge_sort _).
  - apply (StronglySorted_merge_sort _).
  - rewrite merge_sort_Permutation. apply NoDup_Permutation; [by apply picked_nodup| |exact Hel].
    unfold candidates. rewrite merge_sort_Permutation. apply NoDup_ListNoDup, List.NoDup_filter, NoDup_ListNoDup.
    apply NoDup_fmap_2_strong; [|apply NoDup_map_to_list].
    intros [u x] [v y] Hx%elem_of_map_to_list Hy%elem_of_map_to_list E. cbn in E. subst y.
    by rewrite -(Hid u x Hx) -(Hid v x Hy).
Qed.

(** What [claim] does with the candidate it has chosen. *)
Definition claim_selected (w : string) (l : F) (selected : ExecutionJob F V)
    : prog F (option (option (ExecutionJob F V))) :=
  send (WATCH [queue_key prefix; job_key prefix (job_id selected)]);;
  data ← send (HGETALL (job_key prefix (job_id selected)));
  if bool_decide (data = ∅) then mret None else
  current ← hash_job data;
  if negb (claimable (status current)) then mret None
  else if negb (f_leb (available_at current) now) || cancel_requested current then mret None
  else if deadline_expired current now then mret None
  else if negb (allowed domains current) then mret None
  else
    token ← send UUID4;
    done ← send (EXEC [ZREM (queue_key prefix) (job_id current);
                       ZADD (running_key prefix) (job_id current) (f_add now l);
                       HSET (job_key prefix (job_id selected)) (job_mapping (claimed_job now w token l current))]);
    mret (if done : bool then Some (Some (claimed_job now w token l current)) else None).

Lemma claim_selected_alone w l j s se a :
  represents prefix s a -> view_wf a -> jobs (sv_store a) !! job_id j = Some j -> ripe j = true ->
  f_leb (available_at j) now = true -> blank w = false ->
  exists s1 se1, solo i now (claim_selected w l j) s se = (Ok (Some (Some (claimed_job now w (uuid i (draws se)) l j))), s1, se1) /\
    represents prefix s1 (update_job (job_id j) (claimed_job now w (uuid i (draws se)) l j) a) /\
    view_wf (update_job (job_id j) (claimed_job now w (uuid i (draws se)) l j) a).
Proof.
  intros Hr Hwf Hj Hp Hav Hw. destruct (read_job prefix s a (job_id j) j Hr Hwf Hj) as [Hne Hrj].
  unfold ripe in Hp. apply andb_true_iff in Hp as [[[Hc Hcr]%andb_true_iff Hd]%andb_true_iff Ha].
  apply negb_true_iff in Hcr, Hd.
  exists (apply_writes [ZREM (queue_key prefix) (job_id j); ZADD (running_key prefix) (job_id j) (f_add now l);
      HSET (job_key prefix (job_id j)) (job_mapping (claimed_job now w (uuid i (draws se)) l j))] s).
  eexists. split_and!.
  - unfold claim_selected. cbn. rewrite bool_decide_eq_false_2 //. unfold hash_job, liftp. rewrite Hrj. cbn.
    rewrite Hc Hav Hcr Hd Ha. cbn. reflexivity.
  - by apply claim_represents.
  - apply (update_job_wf (fun _ => True) (fun _ => True) [uuid i (draws se)] a (job_id j) j); [done..|].
    apply jc_claim; try done; [by left|apply uuid_nonempty].
Qed.

(** C29. A claim that runs alone takes the job the reference hands out. *)
Theorem redis_claim_alone_equals_reference (w : string) (l : F) s se a :
  represents prefix s a -> view_wf a -> indexed a ->
  let x := solo i now (redis_claim (V:=V) prefix w l domains) s se in
  let m := claim now (uuid i (draws se)) w l domains (sv_store a) in
  x.1.1 = m.1 /\
  exists a', represents prefix x.1.2 a' /\ view_wf a' /\
    forall id, jobs (sv_store a') !! id = jobs m.2 !! id \/ jobs (sv_store a') !! id = jobs (sv_store a) !! id /\
      (forall j, x.1.1 = Ok (Some j) -> job_id j <> id).
Proof.
  intros Hr Hwf Hix. cbv zeta. unfold redis_claim. destruct (blank w) eqn:Ew.
  { split; [by unfold claim; rewrite Ew|]. exists a. by split_and!; [| |right]. }
  destruct (f_leb l f_zero) eqn:El.
  { split; [by unfold claim; rewrite Ew El|]. exists a. by split_and!; [| |right]. }
  set (ids := r_range s (queue_key prefix) now).
  destruct (consider_each_alone ids [] s se a Hr Hwf) as (s1 & se1 & a1 & E1 & Ed1 & Hr1 & Hwf1 & Hp1).
  cbn [app] in E1. set (body := now ← now_; _).
  assert (solo i now body s se = solo i now
    (match merge_sort job_le (ids ≫= pick a) with
     | [] => mret (Some None)
     | selected :: _ => claim_selected w l selected
     end) s1 se1) as Eb.
  { subst body. change (solo i now (found ← each (consider prefix now domains) [] ids;
      match merge_sort job_le found with [] => mret (Some None) | selected :: _ => claim_selected w l selected end) s se = 
      solo i now (match merge_sort job_le (ids ≫= pick a) with [] => mret (Some None) | selected :: _ => claim_selected w l selected end) s1 se1).
    by rewrite solo_bind E1. }
  clearbody body. rewrite (picked_candidates s a Hr Hwf Hix) in Eb.
  assert (claim now (uuid i (draws se)) w l domains (sv_store a) =
    match candidates now domains (expire_deadlines now (sv_store a)) with
    | [] => (Ok None, expire_deadlines now (sv_store a))
    | j :: _ => (Ok (Some (claimed_job now w (uuid i (draws se)) l j)),
        put_job (job_id j) (claimed_job now w (uuid i (draws se)) l j) (expire_deadlines now (sv_store a)))
    end) as ->.
  { unfold claim. rewrite Ew El. cbv [lift reject_if ensure mbind M_bind modify gets mret M_ret save].
    cbn -[candidates expire_deadlines]. by destruct (candidates _ _ _). }
  assert (forall id, jobs (sv_store a1) !! id = jobs (expire_deadlines now (sv_store a)) !! id \/
    jobs (sv_store a1) !! id = jobs (sv_store a) !! id) as Hother.
  { intros id. cbn. rewrite lookup_fmap. destruct (Hp1 id); auto. }
  destruct (candidates now domains (expire_deadlines now (sv_store a))) as [|j rest] eqn:Ec.
  - rewrite (solo_attempts _ _ _ _ _ _ _ _ _ _ Eb). split; [done|]. exists a1.
    split_and!; [done|done|]. intros id. destruct (Hother id); [by left|]. by right.
  - pose proof Ec as (id & j0 & Hj0 & -> & Hcl & Hcr & Hd & He)%candidates_head.
    assert (job_id j0 = id) as Eid by exact (job_id_of a id j0 Hwf Hj0). subst id.
    unfold eligible in He. apply andb_true_iff in He as [[[_ Hav]%andb_true_iff _]%andb_true_iff Ha].
    assert (ripe j0 = true) as Hripe by (unfold ripe; rewrite Hcl Hcr Hd; exact Ha).
    assert (jobs (sv_store a1) !! job_id j0 = Some j0) as Hj1.
    { destruct (Hp1 (job_id j0)) as [->| ->]; [done|]. rewrite Hj0. cbn. by rewrite (proj2 (ripe_expired j0) Hripe). }
    destruct (claim_selected_alone w l j0 s1 se1 a1 Hr1 Hwf1 Hj1 Hripe Hav Ew) as (s2 & se2 & E2 & Hr2 & Hwf2).
    rewrite Ed1 in E2 Hr2 Hwf2. rewrite E2 in Eb. rewrite (solo_attempts _ _ _ _ _ _ _ _ _ _ Eb).
    split; [done|]. exists (update_job (job_id j0) (claimed_job now w (uuid i (draws se)) l j0) a1).
    split_and!; [done|done|]. intros id.
    assert (norm_job (claimed_job now w (uuid i (draws se)) l j0) = claimed_job now w (uuid i (draws se)) l j0) as En.
    { apply norm_fix; [apply no_empty_text, not_blank_nonempty, Ew|apply no_empty_text, uuid_nonempty|].
      apply (norm_error j0). by destruct (vw_norm _ Hwf _ _ Hj0). }
    cbn [fst snd update_job sv_store put_job jobs]. rewrite En !lookup_insert. case_decide as Ei; [by left|].
    destruct (Hother id) as [E|E]; [by left|]. right. split; [done|]. by intros j [= <-].
Qed.
End Claim.

Lemma redis_claim_alone_equals_reference_witness :
  let x := solo 0 12 (redis_claim (V:=Z) "m" "alice" 30 None) ex_queued ex_session in
  let m := claim 12 (uuid 0 1) "alice" 30 None (sv_store ex_queued_view) in
  x.1.1 = m.1 /\
  exists a', represents "m" x.1.2 a' /\ view_wf a' /\
    forall id, jobs (sv_store a') !! id = jobs m.2 !! id \/ jobs (sv_store a') !! id = jobs (sv_store ex_queued_view) !! id /\
      (forall j, x.1.1 = Ok (Some j) -> job_id j <> id).
Proof.
  apply (redis_claim_alone_equals_reference "m" 0 12 None "alice" 30 ex_queued ex_session ex_queued_view).
  - apply ex_queued_represents.
  - apply ex_queued_wf.
  - intros id j Hj _. unfold ex_queued_view, submitted in *. cbn [sv_store jobs sv_queue] in *.
    rewrite lookup_insert in Hj. rewrite lookup_insert. case_decide; [by injection Hj as <-|].
    by rewrite lookup_empty in Hj.
Defined.
