(* ===== verification/BillingPeriod.v ===== *)
(** * Billing periods

    Models [processual_api/admin_marketplace/subscription_billing_period.py] and proves
    that iterating the anchored boundary does not drift from the activation day. *)
From S2P Require Import Prelude PyString PyDateTime.

Definition add_calendar_months (value : datetime) (months : Z) : res datetime :=
  _ ← reject_if (naive value) ValueError "billing period anchor must be timezone-aware.";
  _ ← reject_if (months <? 1) ValueError "months must be a positive integer.";
  let month_index := dt_month value - 1 + months in
  let year := dt_year value + month_index / 12 in
  let month := month_index mod 12 + 1 in
  let day := Z.min (dt_day value) (days_in_month year month) in
  replace_date year month day value.

Definition next_anchored_month_boundary (starts_at : datetime) (anchor_day : Z) : res datetime :=
  _ ← reject_if (naive starts_at) ValueError "billing period anchor must be timezone-aware.";
  _ ← ensure ((1 <=? anchor_day) && (anchor_day <=? 31)) ValueError
        "anchor_day must be between 1 and 31.";
  let month_index := dt_month starts_at in
  let year := dt_year starts_at + month_index / 12 in
  let month := month_index mod 12 + 1 in
  let day := Z.min anchor_day (days_in_month year month) in
  replace_date year month day starts_at.

Definition subscription_period_end (starts_at : datetime) (billing_period : string)
  : res datetime :=
  let normalized := lower (strip billing_period) in
  if bool_decide (normalized = "monthly") then add_calendar_months starts_at 1
  else if bool_decide (normalized = "annual") then add_calendar_months starts_at 12
  else raise ValueError "unsupported subscription billing period.".

Definition quota_period_end (starts_at : datetime) (period_days : Z) : res datetime :=
  _ ← reject_if (period_days <? 1) ValueError "quota period must be a positive integer.";
  if period_days =? 30 then add_calendar_months starts_at 1
  else add_days (Z.to_nat period_days) starts_at.

(** The starts of consecutive cycles: the boundary after [n] cycles from [s]. *)
Fixpoint nth_boundary (n : nat) (anchor_day : Z) (s : datetime) : res datetime :=
  match n with
  | O => mret s
  | S n' => s' ← nth_boundary n' anchor_day s; next_anchored_month_boundary s' anchor_day
  end.

(** ** Month arithmetic *)

(** Months since year zero, and the datetime [t] moved to a month by its number, on
    the day [d] or the last day of that month. *)
Definition month_number (t : datetime) : Z := 12 * dt_year t + (dt_month t - 1).

Definition at_month (k d : Z) (t : datetime) : res datetime :=
  replace_date (k / 12) (k mod 12 + 1) (Z.min d (days_in_month (k / 12) (k mod 12 + 1))) t.

Lemma month_index_div t i :
  dt_year t + i / 12 = (12 * dt_year t + i) / 12 /\ i mod 12 = (12 * dt_year t + i) mod 12.
Proof. Z.to_euclidean_division_equations; lia. Qed.

Lemma add_calendar_months_at t n :
  naive t = false -> 1 <= n ->
  add_calendar_months t n = at_month (month_number t + n) (dt_day t) t.
Proof.
  intros Ht Hn. unfold add_calendar_months, at_month, month_number. rewrite Ht.
  destruct (Z.ltb_spec n 1); [lia|]. cbn -[Z.div Z.modulo Z.mul].
  destruct (month_index_div t (dt_month t - 1 + n)) as [-> ->].
  by rewrite Z.add_assoc.
Qed.

Lemma next_anchored_at t a :
  naive t = false -> 1 <= a <= 31 ->
  next_anchored_month_boundary t a = at_month (month_number t + 1) a t.
Proof.
  intros Ht Ha. unfold next_anchored_month_boundary, at_month, month_number. rewrite Ht.
  rewrite (proj2 (andb_true_iff _ _)); [split; apply Z.leb_le; lia|].
  cbn -[Z.div Z.modulo Z.mul].
  destruct (month_index_div t (dt_month t)) as [-> ->].
  by replace (12 * dt_year t + (dt_month t - 1) + 1) with (12 * dt_year t + dt_month t) by lia.
Qed.

Lemma month_bounds k : 1 <= k mod 12 + 1 <= 12.
Proof. pose proof (Z.mod_pos_bound k 12). lia. Qed.

(** [at_month] fails exactly when the year leaves the range. *)
Lemma at_month_spec k d t :
  1 <= d ->
  at_month k d t =
    if (1 <=? k / 12) && (k / 12 <=? 9999)
    then Ok (set_date (k / 12) (k mod 12 + 1)
               (Z.min d (days_in_month (k / 12) (k mod 12 + 1))) t)
    else raise ValueError "year is out of range".
Proof.
  intros Hd. unfold at_month, replace_date.
  destruct ((1 <=? k / 12) && (k / 12 <=? 9999)); [|reflexivity].
  pose proof (month_bounds k) as Hm.
  pose proof (days_in_month_bounds (k / 12) (k mod 12 + 1)) as Hb.
  rewrite (proj2 (andb_true_iff _ _)); [split; apply Z.leb_le; lia|].
  cbn -[Z.div Z.modulo]. rewrite (proj2 (andb_true_iff _ _)); [split; apply Z.leb_le; lia|].
  done.
Qed.

Lemma month_number_set k d t : month_number (set_date (k / 12) (k mod 12 + 1) d t) = k.
Proof. unfold month_number. cbn -[Z.div Z.modulo Z.mul]. Z.to_euclidean_division_equations; lia. Qed.

Lemma month_number_div t : 1 <= dt_month t <= 12 -> month_number t / 12 = dt_year t.
Proof. unfold month_number. intros. Z.to_euclidean_division_equations; lia. Qed.

(** Moving to a month twice is moving to the second month. *)
Lemma at_month_set k d k' d' t :
  at_month k' d' (set_date (k / 12) (k mod 12 + 1) d t) = at_month k' d' t.
Proof. reflexivity. Qed.

(** The boundary after [n + 1] cycles is the start moved [n + 1] months ahead. *)
Lemma nth_boundary_at n s a :
  dt_valid s -> naive s = false -> 1 <= a <= 31 ->
  nth_boundary (S n) a s = at_month (month_number s + Z.of_nat (S n)) a s.
Proof.
  intros Hv Hs Ha. induction n as [|n IH].
  - by rewrite /= next_anchored_at.
  - cbn [nth_boundary]. cbn [nth_boundary] in IH. rewrite IH at_month_spec; [lia|].
    set (k := month_number s + Z.of_nat (S n)).
    replace (month_number s + Z.of_nat (S (S n))) with (k + 1) by lia.
    assert (1 <= k / 12) as Hk.
    { destruct Hv as (Hy & Hm & _). pose proof (month_number_div s Hm).
      pose proof (Z.div_le_mono (month_number s) k 12). lia. }
    destruct (Z.leb_spec 1 (k / 12)) as [_|]; [|lia]. cbn [andb].
    destruct (Z.leb_spec (k / 12) 9999) as [Hle|Hgt]; cbn [mbind res_bind].
    + rewrite next_anchored_at //. by rewrite month_number_set at_month_set.
    + rewrite at_month_spec; [lia|].
      destruct (Z.leb_spec ((k + 1) / 12) 9999) as [Hle|]; [|by rewrite andb_false_r].
      pose proof (Z.div_le_mono k (k + 1) 12). lia.
Qed.

(** The next boundary is later than the start, by at most 62 days, and by 28 to 31
    days when the start itself is on the anchor. *)
Lemma next_boundary_bounds s a t :
  dt_valid s -> next_anchored_month_boundary s a = Ok t ->
  dt_valid t /\ dt_offset t = dt_offset s /\
  instant s < instant t <= instant s + 62 * day_micros /\
  (dt_day s = Z.min a (days_in_month (dt_year s) (dt_month s)) ->
   instant s + 28 * day_micros <= instant t <= instant s + 31 * day_micros) /\
  dt_day t = Z.min a (days_in_month (dt_year t) (dt_month t)).
Proof.
  intros Hv Hn. pose proof Hn as Hn'.
  apply res_bind_Ok in Hn' as (? & Hs%reject_if_Ok & Hn').
  apply res_bind_Ok in Hn' as (? & Ha%ensure_Ok & _). to_prop.
  rewrite next_anchored_at // at_month_spec // in Hn.
  destruct (_ && _) eqn:Ey in Hn; [|discriminate]. to_prop. injection Hn as <-.
  destruct Hv as (Hy & Hm & Hd & Ht).
  set (k := month_number s + 1) in *.
  pose proof (month_bounds k) as Hk. pose proof (days_in_month_bounds (k / 12) (k mod 12 + 1)) as Hb.
  pose proof (days_in_month_bounds (dt_year s) (dt_month s)) as Hbs.
  assert (succ_month (dt_year s, dt_month s) = (k / 12, k mod 12 + 1)) as Hsm.
  { unfold succ_month, k, month_number. cbn [fst snd].
    destruct (Z.ltb_spec (dt_month s) 12); f_equal; Z.to_euclidean_division_equations; lia. }
  pose proof (toordinal_succ_month (dt_year s) (dt_month s) Hm) as Ho. rewrite Hsm in Ho.
  cbn [fst snd] in Ho. split.
  { unfold dt_valid, set_date. cbn -[Z.div Z.modulo]. lia. }
  split; [done|].
  assert (instant (set_date (k / 12) (k mod 12 + 1)
            (Z.min a (days_in_month (k / 12) (k mod 12 + 1))) s) =
          instant s + (days_in_month (dt_year s) (dt_month s) - dt_day s +
            Z.min a (days_in_month (k / 12) (k mod 12 + 1))) * day_micros) as ->.
  { unfold instant, local_micros, set_date, time_of_day, day_micros. cbn -[Z.div Z.modulo Z.mul Z.min].
    rewrite toordinal_day Ho (toordinal_day _ _ (dt_day s)). lia. }
  unfold day_micros. cbn -[Z.div Z.modulo Z.mul Z.min Z.le Z.lt]. split; [lia|]. split; [|done].
  intros Hday. lia.
Qed.

(** * Properties of billing periods *)
(** Anchored monthly cycles do not drift: iterating the anchored boundary [n]
    times from the activation date gives exactly (value or error) the activation date
    moved [n] calendar months ahead, so twelve quota cycles end where the annual
    subscription period ends; and every cycle on the way lasts 28 to 31 days. *)
Theorem anchored_cycles_do_not_drift s n :
  dt_valid s -> naive s = false ->
  nth_boundary (S n) (dt_day s) s = add_calendar_months s (Z.of_nat (S n)) /\
  subscription_period_end s "annual" = nth_boundary 12 (dt_day s) s /\
  (forall b b', nth_boundary n (dt_day s) s = Ok b -> nth_boundary (S n) (dt_day s) s = Ok b' ->
     instant b + 28 * day_micros <= instant b' <= instant b + 31 * day_micros).
Proof.
  intros Hv Hs. assert (1 <= dt_day s <= 31) as Ha.
  { destruct Hv as (_ & _ & Hd & _). pose proof (days_in_month_bounds (dt_year s) (dt_month s)). lia. }
  assert (forall n, nth_boundary (S n) (dt_day s) s = add_calendar_months s (Z.of_nat (S n))) as Hn.
  { intros m. rewrite nth_boundary_at // add_calendar_months_at //. lia. }
  split; [apply Hn|]. split; [by rewrite (Hn 11%nat)|].
  intros b b' Hb Hb'. cbn [nth_boundary] in Hb'. rewrite Hb in Hb'. cbn in Hb'.
  assert (dt_valid b /\ dt_day b = Z.min (dt_day s) (days_in_month (dt_year b) (dt_month b)))
    as [Hvb Hdb].
  { clear b' Hb'. revert b Hb. induction n as [|m IH]; intros b.
    - intros [= <-]. split; [done|]. destruct Hv as (_ & _ & Hd & _). lia.
    - cbn [nth_boundary]. intros (c & Hc & Hb)%res_bind_Ok. destruct (IH c Hc) as [Hvc _].
      by destruct (next_boundary_bounds c _ b Hvc Hb) as (? & _ & _ & _ & ?). }
  destruct (next_boundary_bounds b _ b' Hvb Hb') as (_ & _ & _ & Hlen & _). auto.
Qed.

Definition w_activation : datetime :=
  {| dt_year := 2026; dt_month := 1; dt_day := 31; dt_hour := 9; dt_minute := 30;
     dt_second := 0; dt_micro := 0; dt_offset := Some 0 |}.

Lemma w_activation_valid : dt_valid w_activation.
Proof. unfold dt_valid, w_activation. cbn. lia. Qed.

Lemma anchored_cycles_do_not_drift_witness :
  nth_boundary 2 31 w_activation = add_calendar_months w_activation 2 /\
  (dt_day <$> (match nth_boundary 2 31 w_activation with Ok b => Some b | _ => None end)) = Some 31.
Proof.
  split; [|vm_compute; reflexivity].
  exact (proj1 (anchored_cycles_do_not_drift w_activation 1 w_activation_valid eq_refl)).
Defined.

(** Without the anchor the day does drift. *)
Example unanchored_drift :
  (b ← add_calendar_months w_activation 1; c ← add_calendar_months b 1; mret (dt_day c)) = Ok 28.
Proof. vm_compute. reflexivity. Qed.
