(* ===== verification/Uow.v ===== *)
(** * Units of work

    A request runs in one transaction: [async with unit_of_work_factory() as uow].
    Its session holds the rows as the request sees and mutates them; [commit] makes
    them durable, and leaving the block without a commit discards them
    ([SqlAlchemyAdminMarketplaceUnitOfWork]).  The row locks ([for_update]) and the
    unique constraints serialise the requests, so a request is one step. *)
From S2P Require Import Prelude.

Record Session (DB : Type) := { working : DB; committed : DB }.
Arguments working {DB} s.
Arguments committed {DB} s.
Arguments Build_Session {DB} working committed.

Section UnitOfWork.
Context {DB : Type}.

(** A read of the session. *)
Definition query {A} (f : DB -> A) : M (Session DB) A := gets (fun s => f (working s)).

(** A mutation of the rows of the session. *)
Definition mutate (f : DB -> DB) : M (Session DB) unit :=
  modify (fun s => {| working := f (working s); committed := committed s |}).

(** [commit] of a database whose constraints are [check]: a violation rolls the
    session back and is raised. *)
Definition commit (check : DB -> res unit) : M (Session DB) unit := fun s =>
  match check (working s) with
  | Ok _ => (Ok tt, {| working := working s; committed := working s |})
  | Raise e => (Raise e, {| working := committed s; committed := committed s |})
  end.

(** [async with unit_of_work_factory() as uow: body]. *)
Definition with_uow {A} (body : M (Session DB) A) (db : DB) : res A * DB :=
  let (r, s) := body {| working := db; committed := db |} in (r, committed s).

Lemma with_uow_inv {A} (body : M (Session DB) A) db r db' :
  with_uow body db = (r, db') ->
  exists s', body {| working := db; committed := db |} = (r, s') /\ committed s' = db'.
Proof. unfold with_uow. destruct (body _) as [x s']. intros [= <- <-]. eauto. Qed.

(** A body that never commits leaves the database unchanged. *)
Definition no_commit {A} (m : M (Session DB) A) : Prop :=
  forall s, committed (snd (m s)) = committed s.

Lemma no_commit_bind {A B} (m : M (Session DB) A) (f : A -> M (Session DB) B) :
  no_commit m -> (forall a, no_commit (f a)) -> no_commit (m ≫= f).
Proof.
  intros Hm Hf s. rewrite M_bind_eq. specialize (Hm s). destruct (m s) as [[a|e] s']; cbn in *.
  - by rewrite Hf.
  - done.
Qed.

Lemma no_commit_ret {A} (a : A) : no_commit (mret a).
Proof. done. Qed.
Lemma no_commit_lift {A} (m : res A) : no_commit (lift m).
Proof. done. Qed.
Lemma no_commit_query {A} (f : DB -> A) : no_commit (query f).
Proof. done. Qed.
Lemma no_commit_mutate f : no_commit (mutate f).
Proof. done. Qed.

Lemma with_uow_no_commit {A} (m : M (Session DB) A) db :
  no_commit m -> snd (with_uow m db) = db.
Proof.
  intros H. unfold with_uow. specialize (H {| working := db; committed := db |}).
  by destruct (m _) as [r s].
Qed.

(** A body that only reads leaves the session as it is. *)
Definition read_only {A} (m : M (Session DB) A) : Prop := forall s, snd (m s) = s.

Lemma read_only_bind {A B} (m : M (Session DB) A) (f : A -> M (Session DB) B) :
  read_only m -> (forall a, read_only (f a)) -> read_only (m ≫= f).
Proof.
  intros Hm Hf s. rewrite M_bind_eq. specialize (Hm s). destruct (m s) as [[a|e] s']; cbn in *.
  - by rewrite Hf.
  - done.
Qed.

Lemma read_only_ret {A} (a : A) : read_only (mret a).
Proof. done. Qed.
Lemma read_only_lift {A} (m : res A) : read_only (lift m).
Proof. done. Qed.
Lemma read_only_query {A} (f : DB -> A) : read_only (query f).
Proof. done. Qed.
Lemma read_only_eq {A} (m : M (Session DB) A) s r s' : read_only m -> m s = (r, s') -> s' = s.
Proof. intros Hm E. specialize (Hm s). by rewrite E in Hm. Qed.
Lemma no_commit_eq {A} (m : M (Session DB) A) s r s' :
  no_commit m -> m s = (r, s') -> committed s' = committed s.
Proof. intros Hm E. specialize (Hm s). by rewrite E in Hm. Qed.
Lemma read_only_no_commit {A} (m : M (Session DB) A) : read_only m -> no_commit m.
Proof. intros Hm s. by rewrite Hm. Qed.

(** A body that returns relates the rows it leaves to the rows it found. *)
Definition relates (R : DB -> DB -> Prop) {A} (m : M (Session DB) A) : Prop :=
  forall s a s', m s = (Ok a, s') -> R (working s) (working s').

Lemma relates_bind R `{!Transitive R} {A B} (m : M (Session DB) A) (f : A -> M (Session DB) B) :
  relates R m -> (forall a, relates R (f a)) -> relates R (m ≫= f).
Proof.
  intros Hm Hf s b s' (a & s1 & H1 & H2)%M_bind_Ok. exact (transitivity (Hm _ _ _ H1) (Hf _ _ _ _ H2)).
Qed.

Lemma relates_read_only R `{!Reflexive R} {A} (m : M (Session DB) A) : read_only m -> relates R m.
Proof. intros Hm s a s' ->%read_only_eq; [reflexivity|done]. Qed.

Lemma relates_mutate (R : DB -> DB -> Prop) f : (forall db, R db (f db)) -> relates R (mutate f).
Proof. intros Hf s a s' [= <- <-]. apply Hf. Qed.

(** A body followed by a commit: the database is unchanged, or it satisfies the
    constraints and is related to the one before. *)
Lemma with_uow_commit R check {A} (m : M (Session DB) A) db :
  relates R m -> no_commit m ->
  let '(r, db') := with_uow (m;; commit check) db in
  (exists e, r = Raise e) /\ db' = db \/
  r = Ok tt /\ check db' = Ok tt /\ R db db'.
Proof.
  intros Hm Hc. unfold with_uow. rewrite M_bind_eq.
  pose proof (Hc {| working := db; committed := db |}) as Hc'.
  destruct (m _) as [[a|e] s1] eqn:E; cbn in Hc'; [|left; eauto].
  pose proof (Hm _ _ _ E) as HR. unfold commit. cbn in HR.
  destruct (check (working s1)) as [[]|e] eqn:Ec; cbn; [|left; eauto].
  right. split_and!; [done|by rewrite Ec|done].
Qed.

(** A body that raises has committed nothing. *)
Definition fails_clean {A} (m : M (Session DB) A) : Prop :=
  forall s e s', m s = (Raise e, s') -> committed s' = committed s.

Lemma no_commit_fails_clean {A} (m : M (Session DB) A) : no_commit m -> fails_clean m.
Proof. intros Hm s e s'. by apply no_commit_eq. Qed.

Lemma fails_clean_bind {A B} (m : M (Session DB) A) (f : A -> M (Session DB) B) :
  no_commit m -> (forall a, fails_clean (f a)) -> fails_clean (m ≫= f).
Proof.
  intros Hm Hf s e s'. rewrite M_bind_eq. specialize (Hm s). destruct (m s) as [[a|x] s1]; cbn in *.
  - intros H. rewrite (Hf _ _ _ _ H). done.
  - by intros [= _ <-].
Qed.

Lemma fails_clean_commit check : fails_clean (commit check).
Proof. intros s e s'. unfold commit. destruct (check _); [done|]. by intros [= _ <-]. Qed.

Lemma fails_clean_commit_ret check {A} (a : A) : fails_clean (commit check;; mret a).
Proof.
  intros s e s'. rewrite M_bind_eq. destruct (commit check s) as [[u|x] s1] eqn:E; [done|].
  intros [= _ <-]. exact (fails_clean_commit _ _ _ _ E).
Qed.

Lemma with_uow_fails {A} (m : M (Session DB) A) db e db' :
  fails_clean m -> with_uow m db = (Raise e, db') -> db' = db.
Proof. intros Hm (s' & H%Hm & <-)%with_uow_inv. done. Qed.

(** Running a bind whose first computation is known. *)
Lemma bind_eq {A B} (m : M (Session DB) A) (f : A -> M (Session DB) B) s a s' :
  m s = (Ok a, s') -> (m ≫= f) s = f a s'.
Proof. intros H. by rewrite M_bind_eq H. Qed.
Lemma bind_ret {A B} (a : A) (f : A -> M (Session DB) B) s : (mret a ≫= f) s = f a s.
Proof. reflexivity. Qed.
Lemma bind_query {A B} (q : DB -> A) (f : A -> M (Session DB) B) s :
  (query q ≫= f) s = f (q (working s)) s.
Proof. reflexivity. Qed.
Lemma bind_lift {A B} (m : res A) a (f : A -> M (Session DB) B) s :
  m = Ok a -> (lift m ≫= f) s = f a s.
Proof. by intros ->. Qed.
Lemma bind_ensure {B} b k msg (f : unit -> M (Session DB) B) s :
  b = true -> (lift (ensure b k msg) ≫= f) s = f tt s.
Proof. by intros ->. Qed.

Lemma query_eq {A} (f : DB -> A) s : query f s = (Ok (f (working s)), s).
Proof. reflexivity. Qed.
End UnitOfWork.

#[export] Hint Resolve no_commit_ret no_commit_lift no_commit_query
  no_commit_mutate read_only_no_commit relates_read_only read_only_ret read_only_lift read_only_query : maestro.

(** Proves that a body only reads, or never commits, by following its structure. *)
Ltac follow_body bind :=
  cbv zeta;
  lazymatch goal with
  | |- _ (_ ≫= _) => apply bind; [follow_body bind|intros ?; follow_body bind]
  | |- _ (if ?b then _ else _) => destruct b; follow_body bind
  | |- _ (match ?x with _ => _ end) => destruct x; follow_body bind
  | |- _ (match ?x with _ => _ end _) => destruct x; follow_body bind
  | |- _ => solve [eauto with maestro nocore | done]
  end.
Ltac reads_only := follow_body @read_only_bind.
Ltac never_commits := follow_body @no_commit_bind.
Ltac relates_by_parts := follow_body @relates_bind.

(** Proves that a body commits at its end or not at all. *)
Ltac commits_last :=
  cbv zeta;
  lazymatch goal with
  | |- fails_clean (commit _) => apply fails_clean_commit
  | |- fails_clean (commit _;; mret _) => apply fails_clean_commit_ret
  | |- fails_clean (_ ≫= _) =>
      first [solve [eauto with maestro nocore]
            | apply fails_clean_bind; [never_commits|intros ?; commits_last]]
  | |- fails_clean (if ?b then _ else _) => destruct b; commits_last
  | |- fails_clean (match ?x with _ => _ end) => destruct x; commits_last
  | |- fails_clean (match ?x with _ => _ end _) => destruct x; commits_last
  | |- _ => first [solve [eauto with maestro nocore] | apply no_commit_fails_clean; never_commits]
  end.

(** ** Tables

    A table maps primary keys to rows.  A query on another column returns the first
    row that satisfies it, with its key. *)
Notation UUID := string.
Notation Table R := (gmap UUID R).

Section Tables.
Context {R : Type}.
Implicit Types (t : Table R) (p : R -> bool).

Definition find_rows p t : list (UUID * R) := List.filter (fun kr => p kr.2) (map_to_list t).
Definition find_row p t : option (UUID * R) := head (find_rows p t).

(** A unique constraint on an optional column: no two rows have the same value. *)
Definition unique_on {K} `{EqDecision K} (col : R -> option K) t : bool :=
  bool_decide (NoDup (omap (fun kr : UUID * R => col kr.2) (map_to_list t))).

(** A check constraint. *)
Definition check_rows p t : bool := forallb (fun kr => p kr.2) (map_to_list t).

Lemma find_rows_elem p t k r : (k, r) ∈ find_rows p t <-> t !! k = Some r /\ p r = true.
Proof.
  unfold find_rows. rewrite list_elem_of_In filter_In -list_elem_of_In elem_of_map_to_list.
  done.
Qed.

Lemma NoDup_find_rows p t : NoDup (find_rows p t).*1.
Proof.
  unfold find_rows. eapply sublist_NoDup; [apply (NoDup_fst_map_to_list t)|].
  induction (map_to_list t) as [|[k r] l IH]; cbn; [constructor|].
  destruct (p r); cbn; by constructor.
Qed.

Lemma find_row_Some p t k r : find_row p t = Some (k, r) -> t !! k = Some r /\ p r = true.
Proof.
  unfold find_row. intros H%head_Some_elem_of. by apply find_rows_elem.
Qed.

Lemma find_row_None p t k r : find_row p t = None -> t !! k = Some r -> p r = false.
Proof.
  unfold find_row. intros H%head_None Hk. destruct (p r) eqn:E; [|done].
  assert ((k, r) ∈ find_rows p t) as Hin by (by apply find_rows_elem).
  rewrite H in Hin. by apply not_elem_of_nil in Hin.
Qed.

Lemma find_row_absent p t :
  (forall k r, t !! k = Some r -> p r = false) -> find_row p t = None.
Proof.
  intros H. destruct (find_row p t) as [[k r]|] eqn:E; [|done].
  apply find_row_Some in E as [Hk Hp]. by rewrite (H k r Hk) in Hp.
Qed.

Lemma find_row_unique p t k r :
  t !! k = Some r -> p r = true -> (forall k' r', t !! k' = Some r' -> p r' = true -> k' = k) ->
  find_row p t = Some (k, r).
Proof.
  intros Hk Hp Hu. destruct (find_row p t) as [[k' r']|] eqn:E.
  - apply find_row_Some in E as [Hk' Hp']. pose proof (Hu _ _ Hk' Hp') as ->. congruence.
  - by rewrite (find_row_None _ _ _ _ E Hk) in Hp.
Qed.

Lemma check_rows_true p t : check_rows p t = true <-> forall k r, t !! k = Some r -> p r = true.
Proof.
  unfold check_rows. rewrite forallb_forall. split.
  - intros H k r Hk. apply (H (k, r)). by apply list_elem_of_In, elem_of_map_to_list.
  - intros H [k r] Hin%list_elem_of_In%elem_of_map_to_list. by apply (H k).
Qed.

Lemma elem_of_col {K} (col : R -> option K) (l : list (UUID * R)) v :
  v ∈ omap (fun kr : UUID * R => col kr.2) l <-> exists k r, (k, r) ∈ l /\ col r = Some v.
Proof.
  rewrite list_elem_of_omap. split.
  - intros ([k r] & ? & ?). by exists k, r.
  - intros (k & r & ? & ?). by exists (k, r).
Qed.

(** In a list of keyed rows, a column has no duplicates exactly when its value
    determines the key. *)
Lemma NoDup_col {K} (col : R -> option K) (l : list (UUID * R)) :
  NoDup l.*1 ->
  NoDup (omap (fun kr : UUID * R => col kr.2) l) <->
  forall k1 k2 r1 r2 v, (k1, r1) ∈ l -> (k2, r2) ∈ l ->
    col r1 = Some v -> col r2 = Some v -> k1 = k2.
Proof.
  induction l as [|[k r] l IH]; intros Hnd.
  { split; [intros _ ????? H; by apply not_elem_of_nil in H|constructor]. }
  apply NoDup_cons in Hnd as [Hk Hnd]. specialize (IH Hnd). cbn. destruct (col r) as [v|] eqn:Ev.
  - rewrite NoDup_cons IH elem_of_col. split.
    + intros [Hn Hu] k1 k2 r1 r2 u [[= -> ->]|H1]%elem_of_cons [[= -> ->]|H2]%elem_of_cons E1 E2.
      * done.
      * exfalso. apply Hn. exists k2, r2. split; [done|congruence].
      * exfalso. apply Hn. exists k1, r1. split; [done|congruence].
      * exact (Hu _ _ _ _ _ H1 H2 E1 E2).
    + intros Hu. split.
      * intros (k' & r' & Hin' & E'). apply Hk.
        rewrite (Hu k k' r r' v); [left|by right|done|done|].
        apply list_elem_of_fmap. by exists (k', r').
      * intros k1 k2 r1 r2 u H1 H2. apply (Hu k1 k2 r1 r2 u); by right.
  - rewrite IH. split.
    + intros Hu k1 k2 r1 r2 u [[= -> ->]|H1]%elem_of_cons [[= -> ->]|H2]%elem_of_cons E1 E2;
        try congruence. exact (Hu _ _ _ _ _ H1 H2 E1 E2).
    + intros Hu k1 k2 r1 r2 u H1 H2. apply (Hu k1 k2 r1 r2 u); by right.
Qed.

Lemma unique_on_true {K} `{EqDecision K} (col : R -> option K) t :
  unique_on col t = true <->
  forall k1 k2 r1 r2 v, t !! k1 = Some r1 -> t !! k2 = Some r2 ->
    col r1 = Some v -> col r2 = Some v -> k1 = k2.
Proof.
  unfold unique_on. rewrite bool_decide_eq_true NoDup_col; [apply NoDup_fst_map_to_list|].
  split; intros Hu k1 k2 r1 r2 v H1 H2; apply (Hu k1 k2 r1 r2 v);
    by apply elem_of_map_to_list.
Qed.
(** The sum of a column. *)
Definition sum_rows (f : R -> Z) t : Z := map_fold (fun _ r acc => f r + acc) 0 t.

Lemma sum_rows_insert f t k r : t !! k = None -> sum_rows f (<[k := r]> t) = f r + sum_rows f t.
Proof.
  intros Hk. unfold sum_rows. rewrite map_fold_insert_L; [intros; lia|done|done].
Qed.

Lemma sum_rows_replace f t k r0 r :
  t !! k = Some r0 -> sum_rows f (<[k := r]> t) = sum_rows f t - f r0 + f r.
Proof.
  intros Hk. rewrite -(insert_delete_id t k r0 Hk) insert_insert_eq.
  rewrite !sum_rows_insert; [apply lookup_delete_eq|apply lookup_delete_eq|lia].
Qed.

(** A sum only depends on the rows. *)
Lemma sum_rows_ext f g t :
  (forall k r, t !! k = Some r -> f r = g r) -> sum_rows f t = sum_rows g t.
Proof.
  induction t as [|k r t Hk IH] using map_ind; [done|]. intros Hf.
  rewrite !sum_rows_insert // (Hf k r) ?lookup_insert_eq // IH //.
  intros k' r' Hk'. apply (Hf k' r'). rewrite lookup_insert_ne; [by intros ->; congruence|done].
Qed.

Lemma sum_rows_zero f t :
  (forall k r, t !! k = Some r -> f r = 0) -> sum_rows f t = 0.
Proof.
  intros Hf. rewrite (sum_rows_ext f (fun _ => 0)) //.
  induction t as [|k r t Hk IH] using map_ind; [done|]. rewrite sum_rows_insert // IH //.
  intros k' r' Hk'. apply (Hf k' r'). rewrite lookup_insert_ne; [by intros ->; congruence|done].
Qed.

Lemma sum_rows_le f g t :
  (forall k r, t !! k = Some r -> f r <= g r) -> sum_rows f t <= sum_rows g t.
Proof.
  induction t as [|k r t Hk IH] using map_ind; [done|]. intros Hf.
  rewrite !sum_rows_insert //.
  pose proof (Hf k r (lookup_insert_eq _ _ _)). enough (sum_rows f t <= sum_rows g t) by lia.
  apply IH. intros k' r' Hk'. apply (Hf k' r'). rewrite lookup_insert_ne; [by intros ->; congruence|done].
Qed.
End Tables.
