(* ===== verification/TopUpDb.v ===== *)
(** * The tables of the top-ups

    The orders, payment evidence, grants and reversals: the rows and constraints of
    [billing/commercial_top_up_models.py] (CommercialTopUpOrder,
    CommercialTopUpPaymentEvidence), [subscription_top_up_grant_persistence.py] and
    [subscription_top_up_reversal_persistence.py].  They are part of the marketplace
    database, and so are the tables of the payment provider in the second part. *)
From Stdlib Require Import Ascii.
From S2P Require Import Prelude PyString PyDecimal PyDateTime TopUpQuote Uow.
#[local] Open Scope Z_scope.
Inductive TopUpOrderState :=
  DRAFT | AWAITING_CONFIRMATION | AWAITING_PAYMENT | PAYMENT_PENDING | PAYMENT_VERIFIED
| PAYMENT_REJECTED | GRANT_PENDING | GRANTED | ORDER_FAILED | ORDER_CANCELLED.
Inductive CheckoutCreationStatus := CkNotStarted | CkCreating | CkReady | CkUncertain.
Inductive PaymentOutcome := PayVerified | PayRejected | PayPending.
Inductive ReversalOutcome := ROReversed | ROManualReview.

#[global] Instance TopUpOrderState_eq_dec : EqDecision TopUpOrderState.
Proof. solve_decision. Defined.
#[global] Instance CheckoutCreationStatus_eq_dec : EqDecision CheckoutCreationStatus.
Proof. solve_decision. Defined.
#[global] Instance PaymentOutcome_eq_dec : EqDecision PaymentOutcome.
Proof. solve_decision. Defined.
#[global] Instance ReversalOutcome_eq_dec : EqDecision ReversalOutcome.
Proof. solve_decision. Defined.

(** ** Rows *)

Record CommercialTopUpOrder := {
  o_account_id : option UUID;
  o_customer_ref : string;
  o_subscription_id : UUID;
  o_quota_cycle_id : UUID;
  o_plan_code : string;
  o_plan_catalog_version : string;
  o_requested_units : Z;
  o_bundle_count : Z;
  o_total_price_usd : dec;
  o_settlement_currency : string;
  o_settlement_amount : dec;
  o_exchange_rate_usd_tnd : option dec;
  o_exchange_rate_source : option string;
  o_exchange_rate_reference : option string;
  o_exchange_rate_observed_at : option datetime;
  o_exchange_rate_expires_at : option datetime;
  o_channel : TopUpCheckoutChannel;
  o_provider_variant_id : option string;
  o_provider_checkout_id : option string;
  o_checkout_creation_status : CheckoutCreationStatus;
  o_idempotency_key : string;
  o_state : TopUpOrderState;
  o_created_at : datetime
}.

Record CommercialTopUpPaymentEvidence := {
  pe_order_id : UUID;
  pe_provider_reference : string;
  pe_outcome : PaymentOutcome;
  pe_verified_amount : option dec;
  pe_verified_currency : option string;
  pe_immutable_evidence_reference : option string;
  pe_created_at : datetime
}.

Record AdminMarketSubscriptionTopUpGrant := {
  g_order_id : UUID;
  g_subscription_id : UUID;
  g_quota_cycle_id : UUID;
  g_customer_ref : string;
  g_plan_code : string;
  g_plan_catalog_version : string;
  g_units : Z;
  g_grant_idempotency_key : string;
  g_provider_reference : string;
  g_granted_at : datetime;
  g_expires_at : datetime
}.

Record AdminMarketSubscriptionTopUpReversal := {
  v_order_id : UUID;
  v_grant_id : UUID;
  v_subscription_id : UUID;
  v_quota_cycle_id : UUID;
  v_customer_ref : string;
  v_provider_event_ref : string;
  v_units : Z;
  v_outcome : ReversalOutcome;
  v_reason_code : string;
  v_reversed_at : datetime
}.

Record TopUpTables := {
  tu_orders : Table CommercialTopUpOrder;
  tu_payments : Table CommercialTopUpPaymentEvidence;
  tu_grants : Table AdminMarketSubscriptionTopUpGrant;
  tu_reversals : Table AdminMarketSubscriptionTopUpReversal
}.

Definition no_top_ups : TopUpTables :=
  {| tu_orders := ∅; tu_payments := ∅; tu_grants := ∅; tu_reversals := ∅ |}.

Definition tu_put_order (id : UUID) (o : CommercialTopUpOrder) (t : TopUpTables) : TopUpTables :=
  {| tu_orders := <[id := o]> (tu_orders t); tu_payments := tu_payments t;
     tu_grants := tu_grants t; tu_reversals := tu_reversals t |}.
Definition tu_put_payment (id : UUID) (p : CommercialTopUpPaymentEvidence) (t : TopUpTables)
  : TopUpTables :=
  {| tu_orders := tu_orders t; tu_payments := <[id := p]> (tu_payments t);
     tu_grants := tu_grants t; tu_reversals := tu_reversals t |}.
Definition tu_put_grant (id : UUID) (g : AdminMarketSubscriptionTopUpGrant) (t : TopUpTables)
  : TopUpTables :=
  {| tu_orders := tu_orders t; tu_payments := tu_payments t;
     tu_grants := <[id := g]> (tu_grants t); tu_reversals := tu_reversals t |}.
Definition tu_put_reversal (id : UUID) (v : AdminMarketSubscriptionTopUpReversal) (t : TopUpTables)
  : TopUpTables :=
  {| tu_orders := tu_orders t; tu_payments := tu_payments t;
     tu_grants := tu_grants t; tu_reversals := <[id := v]> (tu_reversals t) |}.

(** [order.state = st]. *)
Definition set_order_state (st : TopUpOrderState) (o : CommercialTopUpOrder) : CommercialTopUpOrder :=
  {| o_account_id := o_account_id o; o_customer_ref := o_customer_ref o;
     o_subscription_id := o_subscription_id o; o_quota_cycle_id := o_quota_cycle_id o;
     o_plan_code := o_plan_code o; o_plan_catalog_version := o_plan_catalog_version o;
     o_requested_units := o_requested_units o; o_bundle_count := o_bundle_count o;
     o_total_price_usd := o_total_price_usd o; o_settlement_currency := o_settlement_currency o;
     o_settlement_amount := o_settlement_amount o;
     o_exchange_rate_usd_tnd := o_exchange_rate_usd_tnd o;
     o_exchange_rate_source := o_exchange_rate_source o;
     o_exchange_rate_reference := o_exchange_rate_reference o;
     o_exchange_rate_observed_at := o_exchange_rate_observed_at o;
     o_exchange_rate_expires_at := o_exchange_rate_expires_at o;
     o_channel := o_channel o; o_provider_variant_id := o_provider_variant_id o;
     o_provider_checkout_id := o_provider_checkout_id o;
     o_checkout_creation_status := o_checkout_creation_status o;
     o_idempotency_key := o_idempotency_key o; o_state := st; o_created_at := o_created_at o |}.

(** ** Columns *)

(** A value stored in a [Numeric(18, scale)] column: rounded, half away from zero. *)
Definition numeric (scale : Z) (d : dec) : dec :=
  Dec (if - scale <=? dexp d then align (- scale) d
       else shift_right ROUND_HALF_UP (coef d) (- scale - dexp d)) (- scale).

(** The row of an order: its numeric columns at their scale. *)
Definition stored_order (o : CommercialTopUpOrder) : CommercialTopUpOrder :=
  {| o_account_id := o_account_id o; o_customer_ref := o_customer_ref o;
     o_subscription_id := o_subscription_id o; o_quota_cycle_id := o_quota_cycle_id o;
     o_plan_code := o_plan_code o; o_plan_catalog_version := o_plan_catalog_version o;
     o_requested_units := o_requested_units o; o_bundle_count := o_bundle_count o;
     o_total_price_usd := numeric 2 (o_total_price_usd o);
     o_settlement_currency := o_settlement_currency o;
     o_settlement_amount := numeric 3 (o_settlement_amount o);
     o_exchange_rate_usd_tnd := numeric 6 <$> o_exchange_rate_usd_tnd o;
     o_exchange_rate_source := o_exchange_rate_source o;
     o_exchange_rate_reference := o_exchange_rate_reference o;
     o_exchange_rate_observed_at := o_exchange_rate_observed_at o;
     o_exchange_rate_expires_at := o_exchange_rate_expires_at o;
     o_channel := o_channel o; o_provider_variant_id := o_provider_variant_id o;
     o_provider_checkout_id := o_provider_checkout_id o;
     o_checkout_creation_status := o_checkout_creation_status o;
     o_idempotency_key := o_idempotency_key o; o_state := o_state o;
     o_created_at := o_created_at o |}.

Definition stored_payment (p : CommercialTopUpPaymentEvidence) : CommercialTopUpPaymentEvidence :=
  {| pe_order_id := pe_order_id p; pe_provider_reference := pe_provider_reference p;
     pe_outcome := pe_outcome p; pe_verified_amount := numeric 3 <$> pe_verified_amount p;
     pe_verified_currency := pe_verified_currency p;
     pe_immutable_evidence_reference := pe_immutable_evidence_reference p;
     pe_created_at := pe_created_at p |}.

(** ** Constraints *)

(** A numeric column holds at most 18 digits. *)
Definition numeric_fits (d : dec) : bool := Z.abs (coef d) <? 10 ^ 18.

(** [length(trim(s)) > 0], which removes spaces. *)
Definition trimmed_nonempty (s : string) : bool :=
  let is_blank (c : ascii) := Ascii.eqb c " "%char in
  negb (bool_decide (rstrip_by is_blank (lstrip_by is_blank s) = "")).

Definition channel_settlement_consistent (o : CommercialTopUpOrder) : bool :=
  match o_channel o with
  | LEMON_SQUEEZY =>
      bool_decide (o_settlement_currency o = "USD") &&
      dec_eqb (o_settlement_amount o) (o_total_price_usd o) &&
      match o_exchange_rate_usd_tnd o, o_exchange_rate_source o, o_exchange_rate_reference o,
            o_exchange_rate_observed_at o, o_exchange_rate_expires_at o with
      | None, None, None, None, None => true
      | _, _, _, _, _ => false
      end
  | LOCAL_TUNISIA =>
      bool_decide (o_settlement_currency o = "TND") &&
      match o_exchange_rate_usd_tnd o, o_exchange_rate_source o, o_exchange_rate_reference o,
            o_exchange_rate_observed_at o, o_exchange_rate_expires_at o with
      | Some r, Some source, Some reference, Some observed, Some expires =>
          dec_ltb (dec_int 0) r && trimmed_nonempty source && trimmed_nonempty reference &&
          (instant observed <? instant expires)
      | _, _, _, _, _ => false
      end
  end.

Definition order_checks (o : CommercialTopUpOrder) : bool :=
  (0 <? o_requested_units o) && (0 <? o_bundle_count o) &&
  dec_ltb (dec_int 0) (o_total_price_usd o) && dec_ltb (dec_int 0) (o_settlement_amount o) &&
  channel_settlement_consistent o &&
  match o_checkout_creation_status o, o_provider_checkout_id o with
  | CkReady, None => false
  | _, _ => true
  end &&
  numeric_fits (o_total_price_usd o) && numeric_fits (o_settlement_amount o) &&
  match o_exchange_rate_usd_tnd o with Some r => numeric_fits r | None => true end.

Definition payment_checks (p : CommercialTopUpPaymentEvidence) : bool :=
  match pe_verified_amount p with
  | Some a => dec_ltb (dec_int 0) a && numeric_fits a
  | None => true
  end &&
  match pe_verified_currency p with Some c => Nat.eqb (String.length c) 3 | None => true end.

Definition reversal_checks (v : AdminMarketSubscriptionTopUpReversal) : bool := 0 <? v_units v.

Definition top_up_uniques (t : TopUpTables) : bool :=
  unique_on (fun o => Some (o_idempotency_key o)) (tu_orders t) &&
  unique_on o_provider_checkout_id (tu_orders t) &&
  unique_on (fun p => Some (pe_provider_reference p)) (tu_payments t) &&
  unique_on (fun g => Some (g_order_id g)) (tu_grants t) &&
  unique_on (fun g => Some (g_grant_idempotency_key g)) (tu_grants t) &&
  unique_on (fun v => Some (v_provider_event_ref v)) (tu_reversals t) &&
  unique_on (fun v => Some (v_grant_id v)) (tu_reversals t).

Definition top_up_checks (t : TopUpTables) : bool :=
  check_rows order_checks (tu_orders t) && check_rows payment_checks (tu_payments t) &&
  check_rows reversal_checks (tu_reversals t).

(** * The tables of the payment provider

    The webhook inbox ([lemon_squeezy_persistence.py]), the reconciliation decisions
    ([lemon_squeezy_reconciliation_persistence.py]) and the provider bindings
    ([lemon_squeezy_binding_persistence.py]), with their constraints.  They are part of the
    marketplace database. *)
Inductive ProcessingStatus := InReceived | InProcessing | InProcessed | InRejected.
Inductive ReconciliationAction := ActIgnore | ActReconcile | ActRequiresReview.

#[global] Instance ProcessingStatus_eq_dec : EqDecision ProcessingStatus.
Proof. solve_decision. Defined.
#[global] Instance ReconciliationAction_eq_dec : EqDecision ReconciliationAction.
Proof. solve_decision. Defined.

(** ** Rows *)

(** The row of the inbox, and the entry [LemonSqueezyWebhookInboxEntry] it is made of. *)
Record AdminMarketLemonSqueezyWebhookInbox := {
  i_event_identity_hash : string;
  i_payload_digest : string;
  i_event_name : string;
  i_resource_type : string;
  i_external_resource_id : string;
  i_store_id : string;
  i_customer_ref : string;
  i_order_ref : string;
  i_offer_ref : string;
  i_test_mode : bool;
  i_processing_status : ProcessingStatus;
  i_attempt_count : Z;
  i_evidence_schema_version : option Z;
  i_provider_customer_id : option string;
  i_provider_order_id : option string;
  i_provider_subscription_id : option string;
  i_variant_id : option string;
  i_currency : option string;
  i_subtotal_amount : option string;
  i_total_amount : option string;
  i_refunded_amount : option string;
  i_provider_status : option string;
  i_provider_effective_at : option datetime;
  i_last_error_code : option string;
  i_received_at : datetime;
  i_claimed_at : option datetime;
  i_processed_at : option datetime;
  i_rejected_at : option datetime
}.

Record AdminMarketLemonSqueezyReconciliationDecision := {
  rd_inbox_id : UUID;
  rd_event_identity_hash : string;
  rd_customer_ref : string;
  rd_order_ref : string;
  rd_offer_ref : string;
  rd_action : ReconciliationAction;
  rd_reason_code : string;
  rd_decided_at : datetime
}.

Record AdminMarketLemonSqueezyCustomerBinding := {
  cb_customer_ref : string;
  cb_provider_customer_id : string
}.

Record AdminMarketLemonSqueezyBinding := {
  b_customer_ref : string;
  b_order_id : UUID;
  b_offer_id : UUID;
  b_subscription_id : option UUID;
  b_provider_customer_id : string;
  b_provider_order_id : string;
  b_provider_subscription_id : option string;
  b_variant_id : string;
  b_currency : string;
  b_total_amount : string;
  b_last_provider_effective_at : option datetime
}.

Record ProviderTables := {
  pv_inbox : Table AdminMarketLemonSqueezyWebhookInbox;
  pv_decisions : Table AdminMarketLemonSqueezyReconciliationDecision;
  pv_customers : Table AdminMarketLemonSqueezyCustomerBinding;
  pv_bindings : Table AdminMarketLemonSqueezyBinding
}.

Definition no_provider : ProviderTables :=
  {| pv_inbox := ∅; pv_decisions := ∅; pv_customers := ∅;
     pv_bindings := ∅ |}.

Definition pv_put_inbox (id : UUID) (r : AdminMarketLemonSqueezyWebhookInbox) (t : ProviderTables)
  : ProviderTables :=
  {| pv_inbox := <[id := r]> (pv_inbox t);
     pv_decisions := pv_decisions t; pv_customers := pv_customers t; pv_bindings := pv_bindings t |}.
Definition pv_put_decision (id : UUID) (r : AdminMarketLemonSqueezyReconciliationDecision)
    (t : ProviderTables) : ProviderTables :=
  {| pv_inbox := pv_inbox t;
     pv_decisions := <[id := r]> (pv_decisions t); pv_customers := pv_customers t;
     pv_bindings := pv_bindings t |}.
Definition pv_put_customer (id : UUID) (r : AdminMarketLemonSqueezyCustomerBinding)
    (t : ProviderTables) : ProviderTables :=
  {| pv_inbox := pv_inbox t;
     pv_decisions := pv_decisions t; pv_customers := <[id := r]> (pv_customers t);
     pv_bindings := pv_bindings t |}.
Definition pv_put_binding (id : UUID) (r : AdminMarketLemonSqueezyBinding) (t : ProviderTables)
  : ProviderTables :=
  {| pv_inbox := pv_inbox t;
     pv_decisions := pv_decisions t; pv_customers := pv_customers t;
     pv_bindings := <[id := r]> (pv_bindings t) |}.

(** ** Constraints *)

Definition evidence_core_complete (i : AdminMarketLemonSqueezyWebhookInbox) : bool :=
  match i_evidence_schema_version i, i_provider_customer_id i, i_provider_status i,
        i_provider_effective_at i with
  | None, None, None, None => true
  | Some _, Some _, Some _, Some _ => true
  | _, _, _, _ => false
  end.

Definition terminal_timestamps (i : AdminMarketLemonSqueezyWebhookInbox) : bool :=
  match i_processing_status i, i_processed_at i, i_rejected_at i with
  | InProcessed, Some _, None => true
  | InRejected, None, Some _ => true
  | (InReceived | InProcessing), None, None => true
  | _, _, _ => false
  end.

Definition inbox_checks (i : AdminMarketLemonSqueezyWebhookInbox) : bool :=
  (0 <=? i_attempt_count i) &&
  (Nat.eqb (String.length (i_event_identity_hash i)) 64 &&
   Nat.eqb (String.length (i_payload_digest i)) 64) &&
  match i_evidence_schema_version i with Some v => 1 <=? v | None => true end &&
  match i_currency i with Some c => Nat.eqb (String.length c) 3 | None => true end &&
  evidence_core_complete i && terminal_timestamps i.

Definition decision_checks (d : AdminMarketLemonSqueezyReconciliationDecision) : bool :=
  Nat.eqb (String.length (rd_event_identity_hash d)) 64 &&
  (Nat.leb 1 (String.length (rd_reason_code d)) && Nat.leb (String.length (rd_reason_code d)) 128).

Definition binding_checks (b : AdminMarketLemonSqueezyBinding) : bool :=
  Nat.eqb (String.length (b_currency b)) 3.

Definition provider_uniques (t : ProviderTables) : bool :=
  unique_on (fun i => Some (i_event_identity_hash i)) (pv_inbox t) &&
  unique_on (fun i => Some (i_payload_digest i)) (pv_inbox t) &&
  unique_on (fun d => Some (rd_inbox_id d)) (pv_decisions t) &&
  unique_on (fun d => Some (rd_event_identity_hash d)) (pv_decisions t) &&
  unique_on (fun c => Some (cb_customer_ref c)) (pv_customers t) &&
  unique_on (fun c => Some (cb_provider_customer_id c)) (pv_customers t) &&
  unique_on (fun b => Some (b_order_id b)) (pv_bindings t) &&
  unique_on (fun b => Some (b_provider_order_id b)) (pv_bindings t) &&
  unique_on b_provider_subscription_id (pv_bindings t).

Definition provider_checks (t : ProviderTables) : bool :=
  check_rows inbox_checks (pv_inbox t) && check_rows decision_checks (pv_decisions t) &&
  check_rows binding_checks (pv_bindings t).
