(* ===== verification/LemonWebhook.v ===== *)
(** * Signed provider webhooks

    Models [lemon_squeezy_webhooks.py] (signature verification, the parsing of the body)
    and [lemon_squeezy_evidence.py] (the evidence a body carries).  The primitives of
    the environment are the class [WebhookPrimitives]: SHA-256 and HMAC, the reading of a
    body as JSON, and [datetime.fromisoformat]. *)
From S2P Require Import Prelude PyString PyDateTime PyDecimal PyText PyJson.
From stdpp Require Import pretty.
From Stdlib Require Import Ascii.
#[local] Open Scope Z_scope.

(** [decode_body] is UTF-8 decoding followed by JSON parsing, [None] where either fails. *)
Class WebhookPrimitives := {
  webhook_sha256 :: Sha256;
  hmac_sha256_hex : string -> string -> string;
  decode_body : string -> option json;
  fromisoformat : string -> option datetime
}.

Definition MAX_BODY_BYTES : Z := 1048576.
Definition SUPPORTED_EVENTS : list string :=
  [ "order_created"; "order_refunded"; "subscription_created"; "subscription_updated";
    "subscription_cancelled"; "subscription_resumed"; "subscription_expired";
    "subscription_paused"; "subscription_unpaused"; "subscription_payment_failed";
    "subscription_payment_success"; "subscription_payment_recovered";
    "subscription_payment_refunded" ].

Definition webhook_check (b : bool) (msg : string) : res unit := ensure b LemonSqueezyWebhookError msg.
Definition evidence_check (b : bool) (msg : string) : res unit := ensure b LemonSqueezyEvidenceError msg.

(** [_SIGNATURE_PATTERN] and [_REFERENCE_PATTERN], for [fullmatch]. *)
Definition is_hex (c : ascii) : bool :=
  is_digit c || in_range 65 70 (code c) || in_range 97 102 (code c).
Definition signature_pattern (s : string) : bool :=
  Nat.eqb (String.length s) 64 && all_chars is_hex s.
Definition reference_char (c : ascii) : bool :=
  is_alnum c || Ascii.eqb c "."%char || Ascii.eqb c "_"%char || Ascii.eqb c ":"%char ||
  Ascii.eqb c "-"%char.
Definition reference_pattern (s : string) : bool :=
  match s with
  | String c s' => is_alnum c && (String.length s' <=? 127)%nat && all_chars reference_char s'
  | EmptyString => false
  end.

(** ** Reading of values *)

(** [_reject_duplicate_keys], applied to every object of the body. *)
Fixpoint unique_keys (j : json) : bool :=
  match j with
  | JArr xs => forallb unique_keys xs
  | JObj ps => bool_decide (NoDup ps.*1) && forallb (fun p => unique_keys p.2) ps
  | _ => true
  end.

Definition required_mapping (v : json) (field_name : string) : res (list (string * json)) :=
  match v with
  | JObj ps => mret ps
  | _ => raise LemonSqueezyWebhookError (field_name +:+ " must be an object.")
  end.

Definition required_text (v : json) (field_name : string) (maximum : Z) : res string :=
  match v with
  | JStr s =>
      let normalized := strip s in
      webhook_check (nonempty normalized && (Z.of_nat (String.length normalized) <=? maximum))
        (field_name +:+ " is invalid.");;
      mret normalized
  | _ => raise LemonSqueezyWebhookError (field_name +:+ " must be text.")
  end.

Definition positive_identifier (v : json) (field_name : string) : res string :=
  match v with
  | JBool _ => raise LemonSqueezyWebhookError (field_name +:+ " is invalid.")
  | JInt n =>
      webhook_check (0 <? n) (field_name +:+ " is invalid.");;
      mret (pretty n)
  | _ =>
      normalized ← required_text v field_name 128;
      webhook_check (isdecimal normalized) (field_name +:+ " is invalid.");;
      n ← int_of_digits normalized;
      webhook_check (0 <? n) (field_name +:+ " is invalid.");;
      mret normalized
  end.

Definition internal_reference (v : json) (field_name : string) : res string :=
  normalized ← required_text v field_name 128;
  webhook_check (reference_pattern normalized) (field_name +:+ " is invalid.");;
  mret normalized.

(** ** Evidence *)

Record LemonSqueezyVerifiedEvidence := {
  ev_schema_version : Z;
  ev_provider_customer_id : string;
  ev_provider_order_id : option string;
  ev_provider_subscription_id : option string;
  ev_variant_id : option string;
  ev_currency : option string;
  ev_subtotal_amount : option string;
  ev_total_amount : option string;
  ev_refunded_amount : option string;
  ev_status : string;
  ev_effective_at : datetime
}.

Definition evidence_mapping (v : json) (field : string) : res (list (string * json)) :=
  match v with
  | JObj ps => mret ps
  | _ => raise LemonSqueezyEvidenceError (field +:+ " must be an object")
  end.

Definition evidence_identifier (v : json) (field : string) : res string :=
  match v with
  | JBool _ => raise LemonSqueezyEvidenceError (field +:+ " is invalid")
  | _ =>
      let text := match v with JStr s => strip s | JInt n => strip (pretty n) | _ => "" end in
      evidence_check (isdecimal text) (field +:+ " is invalid");;
      n ← int_of_digits text;
      evidence_check (0 <? n) (field +:+ " is invalid");;
      mret text
  end.

Definition evidence_text (v : json) (field : string) (maximum : Z) : res string :=
  let text := match v with JStr s => strip s | _ => "" end in
  evidence_check (nonempty text && (Z.of_nat (String.length text) <=? maximum))
    (field +:+ " is invalid");;
  mret text.

Definition evidence_currency (v : json) (field : string) : res string :=
  raw ← evidence_text v field 3;
  let text := upper raw in
  evidence_check (Nat.eqb (String.length text) 3 && all_chars is_alpha text)
    (field +:+ " is invalid");;
  mret text.

(** [Decimal(str(value))]; the text of anything but a number or a string is not one. *)
Definition decimal_of_json (v : json) : option decimal_text :=
  match v with
  | JInt n => Some (DFinite (n <? 0) (Z.abs n) 0)
  | JFloat t => decimal_of_text t
  | JStr s => decimal_of_text s
  | _ => None
  end.

Definition evidence_amount (v : json) (field : string) : res string :=
  match v, decimal_of_json v with
  | JBool _, _ => raise LemonSqueezyEvidenceError (field +:+ " is invalid")
  | _, Some (DFinite neg c e) =>
      evidence_check (negb (neg && negb (c =? 0))) (field +:+ " is invalid");;
      mret (format_f neg c e)
  | _, _ => raise LemonSqueezyEvidenceError (field +:+ " is invalid")
  end.

(** [text.replace("Z", "+00:00")]. *)
Fixpoint replace_zulu (s : string) : string :=
  match s with
  | EmptyString => EmptyString
  | String c s' => if Ascii.eqb c "Z"%char then "+00:00" +:+ replace_zulu s'
                   else String c (replace_zulu s')
  end.

(** The truth value of a JSON value. *)
Definition truthy (v : json) : bool :=
  match v with
  | JNull => false
  | JBool b => b
  | JInt n => negb (n =? 0)
  | JFloat t => match decimal_of_text t with Some (DFinite _ c _) => negb (c =? 0) | _ => true end
  | JStr s => nonempty s
  | JArr xs => negb (Nat.eqb (length xs) 0)
  | JObj ps => negb (Nat.eqb (length ps) 0)
  end.

Section Webhook.
Context `{WebhookPrimitives}.

Definition evidence_timestamp (v : json) (field : string) : res datetime :=
  text ← evidence_text v field 64;
  match fromisoformat (replace_zulu text) with
  | None => raise LemonSqueezyEvidenceError (field +:+ " is invalid")
  | Some parsed =>
      evidence_check (negb (naive parsed)) (field +:+ " must be timezone-aware");;
      mret parsed
  end.

Definition extract_lemon_squeezy_verified_evidence (resource_type external_resource_id : string)
    (attributes : list (string * json)) : res LemonSqueezyVerifiedEvidence :=
  let get := jget attributes in
  let refunded := default (JInt 0) (dict_get attributes "refunded_amount") in
  customer_id ← evidence_identifier (get "customer_id") "customer_id";
  status ← evidence_text (get "status") "status" 64;
  effective_at ← evidence_timestamp
    (if truthy (get "updated_at") then get "updated_at" else get "created_at") "updated_at";
  if bool_decide (resource_type = "orders") then
    first_item ← evidence_mapping (get "first_order_item") "first_order_item";
    variant ← evidence_identifier (jget first_item "variant_id") "variant_id";
    currency ← evidence_currency (get "currency") "currency";
    subtotal ← evidence_amount (get "subtotal") "subtotal";
    total ← evidence_amount (get "total") "total";
    refunded_amount ← evidence_amount refunded "refunded_amount";
    mret {| ev_schema_version := 3; ev_provider_customer_id := customer_id;
            ev_provider_order_id := Some external_resource_id;
            ev_provider_subscription_id := None; ev_variant_id := Some variant;
            ev_currency := Some currency; ev_subtotal_amount := Some subtotal;
            ev_total_amount := Some total; ev_refunded_amount := Some refunded_amount;
            ev_status := status; ev_effective_at := effective_at |}
  else if bool_decide (resource_type = "subscriptions") then
    order ← evidence_identifier (get "order_id") "order_id";
    variant ← evidence_identifier (get "variant_id") "variant_id";
    mret {| ev_schema_version := 1; ev_provider_customer_id := customer_id;
            ev_provider_order_id := Some order;
            ev_provider_subscription_id := Some external_resource_id;
            ev_variant_id := Some variant; ev_currency := None; ev_subtotal_amount := None;
            ev_total_amount := None; ev_refunded_amount := None;
            ev_status := status; ev_effective_at := effective_at |}
  else if bool_decide (resource_type = "subscription-invoices") then
    subscription ← evidence_identifier (get "subscription_id") "subscription_id";
    currency ← evidence_currency (get "currency") "currency";
    subtotal ← evidence_amount (get "subtotal") "subtotal";
    total ← evidence_amount (get "total") "total";
    refunded_amount ← evidence_amount refunded "refunded_amount";
    mret {| ev_schema_version := 1; ev_provider_customer_id := customer_id;
            ev_provider_order_id := None; ev_provider_subscription_id := Some subscription;
            ev_variant_id := None; ev_currency := Some currency;
            ev_subtotal_amount := Some subtotal; ev_total_amount := Some total;
            ev_refunded_amount := Some refunded_amount;
            ev_status := status; ev_effective_at := effective_at |}
  else raise LemonSqueezyEvidenceError "resource type is not supported for evidence".

(** ** The webhook *)

Record VerifiedLemonSqueezyWebhook := {
  vw_event_name : string;
  vw_resource_type : string;
  vw_external_resource_id : string;
  vw_store_id : string;
  vw_customer_ref : string;
  vw_order_ref : string;
  vw_offer_ref : string;
  vw_test_mode : bool;
  vw_evidence : LemonSqueezyVerifiedEvidence;
  vw_payload : list (string * json)
}.

Definition verify_lemon_squeezy_signature (raw_body signature signing_secret : string) : res unit :=
  webhook_check (nonempty raw_body) "webhook body is required.";;
  webhook_check (Z.of_nat (String.length raw_body) <=? MAX_BODY_BYTES) "webhook body is too large.";;
  secret ← required_text (JStr signing_secret) "webhook signing secret" 512;
  candidate ← required_text (JStr signature) "X-Signature" 64;
  webhook_check (signature_pattern candidate) "X-Signature is invalid.";;
  webhook_check (bool_decide (hmac_sha256_hex secret raw_body = lower candidate))
    "webhook signature verification failed.".

(** The evidence, an evidence error turned into a webhook error. *)
Definition webhook_evidence (resource_type external_resource_id : string)
    (attributes : list (string * json)) : res LemonSqueezyVerifiedEvidence :=
  match extract_lemon_squeezy_verified_evidence resource_type external_resource_id attributes with
  | Ok e => mret e
  | Raise x => if bool_decide (exn_kind x = LemonSqueezyEvidenceError)
               then raise LemonSqueezyWebhookError "webhook reconciliation evidence is invalid."
               else Raise x
  end.

Definition parse_body (raw_body : string) : res (list (string * json)) :=
  match decode_body raw_body with
  | None => raise LemonSqueezyWebhookError "webhook body must be valid UTF-8 JSON."
  | Some payload =>
      webhook_check (unique_keys payload) "webhook JSON contains duplicate keys.";;
      required_mapping payload "webhook body"
  end.

Definition parse_verified_lemon_squeezy_webhook
    (raw_body signature signing_secret event_header expected_store_id : string)
  : res VerifiedLemonSqueezyWebhook :=
  verify_lemon_squeezy_signature raw_body signature signing_secret;;
  root ← parse_body raw_body;
  meta ← required_mapping (jget root "meta") "meta";
  data ← required_mapping (jget root "data") "data";
  attributes ← required_mapping (jget data "attributes") "data.attributes";
  header_event ← required_text (JStr event_header) "X-Event-Name" 128;
  payload_event ← required_text (jget meta "event_name") "meta.event_name" 128;
  let event := lower payload_event in
  webhook_check (bool_decide (lower header_event = event)) "webhook event names do not match.";;
  webhook_check (bool_decide (event ∈ SUPPORTED_EVENTS)) "webhook event is not supported.";;
  store_id ← positive_identifier (jget attributes "store_id") "data.attributes.store_id";
  trusted ← positive_identifier (JStr expected_store_id) "expected_store_id";
  webhook_check (bool_decide (store_id = trusted))
    "webhook store does not match the configured store.";;
  raw_type ← required_text (jget data "type") "data.type" 128;
  external_resource_id ← positive_identifier (jget data "id") "data.id";
  custom_data ← required_mapping (jget meta "custom_data") "meta.custom_data";
  customer_ref ← internal_reference (jget custom_data "customer_ref") "meta.custom_data.customer_ref";
  order_ref ← internal_reference (jget custom_data "order_ref") "meta.custom_data.order_ref";
  offer_ref ← internal_reference (jget custom_data "offer_ref") "meta.custom_data.offer_ref";
  match jget attributes "test_mode" with
  | JBool test_mode =>
      evidence ← webhook_evidence (lower raw_type) external_resource_id attributes;
      mret {| vw_event_name := event; vw_resource_type := lower raw_type;
              vw_external_resource_id := external_resource_id; vw_store_id := store_id;
              vw_customer_ref := customer_ref; vw_order_ref := order_ref;
              vw_offer_ref := offer_ref; vw_test_mode := test_mode; vw_evidence := evidence;
              vw_payload := root |}
  | _ => raise LemonSqueezyWebhookError "data.attributes.test_mode must be boolean."
  end.
End Webhook.
