(* ===== verification/SalesDb.v ===== *)
(** * The tables of the sales

    The catalog and the direct sales of the marketplace ([admin_marketplace/models.py]):
    offers, orders, contracts, payment evidence, verifications, reconciliation cases,
    payment destinations, channel eligibilities, entitlement activations, and the two
    append-only tables every decision writes to, the audit records and the outbox of
    notifications; with their CHECK and UNIQUE constraints.  A column with a
    CHECK (... IN ...) constraint is an inductive type, except the two the reconciliation
    computes as text ([exception_type] and [resolution]), the authority of an audit record
    and the event of a notification, which are text with their constraint. *)
From S2P Require Import Prelude PyString PyDateTime PyDecimal PyText PyJson Uow.
From Stdlib Require Import Ascii.
#[local] Open Scope Z_scope.

Inductive SalesChannel := MaestroDirect | LemonSqueezy.
Inductive BillingInterval := Monthly | Annual.
Inductive OfferStatus :=
  OfDraft | OfUnderReview | OfApproved | OfPublished | OfSuspended | OfRetired.
Inductive OrderStatus :=
  OrDraft | OrAwaitingContract | OrAwaitingPayment | OrPaymentUnderReview
| OrReadyForActivation | OrActivated | OrCancelled | OrExpired | OrRequiresReview.
Inductive ContractStatus := CtNotRequired | CtPending | CtCompleted | CtRejected | CtExpired.
Inductive PaymentRequirement := PayRequired | PayNotRequired.
Inductive OrderPaymentStatus :=
  OpPending | OpCustomerReported | OpNotificationReceived | OpMatched | OpVerified
| OpRequiresReview | OpRejected | OpNotRequired.
Inductive ContractRowStatus := CrCompleted | CrRejected | CrExpired.
Inductive AcceptanceMethod := AuthenticatedClickwrap | AdminException.
Inductive EvidenceSource :=
  SrcCustomerReport | SrcAdminException | SrcProviderNotification | SrcReconciliation.
Inductive EvidenceStatus := EvReceived | EvMatched | EvRequiresReview | EvRejected.
Inductive VerificationStatus := VfPending | VfVerified | VfRejected | VfRequiresReview.
Inductive CaseStatus := CaseOpen | CaseRequiresReview | CaseResolved | CaseRejected.
Inductive ActivationStatus := AcActivated | AcFailed | AcRequiresReview.
Inductive AddressStatus := AdUnverified | AdConfirmed | AdRevoked.
Inductive ChannelStatus := ChEligible | ChIneligible | ChRequiresReview.
Inductive DestinationType := BankAccount | PostalAccount.
Inductive DestinationStatus := DsDraft | DsValidated | DsActive | DsInactive.
Inductive ValidationMethod := Structural | ByProvider.
Inductive CommercialAuditAction :=
  AUTHORITY_CHECKED | OFFER_DECIDED | CHANNEL_ELIGIBILITY_DECIDED | CHANNEL_SELECTED
| PAYMENT_VERIFICATION_DECIDED | SUBSCRIPTION_ACTIVATION_DECIDED | PAYMENT_DESTINATION_CREATED
| PAYMENT_DESTINATION_VALIDATED | PAYMENT_DESTINATION_ACTIVATED | PAYMENT_DESTINATION_DEACTIVATED
| PAYMENT_DESTINATION_DEFAULT_SET | ORDER_CREATED | CONTRACT_COMPLETED | PAYMENT_EVIDENCE_RECORDED
| PAYMENT_RECONCILIATION_DECIDED.
Inductive CommercialResourceType :=
  RtOffer | RtPlan | RtOrder | RtPaymentVerification | RtSubscription | RtTrial
| RtSalesChannelEligibility | RtPaymentDestination | RtContract | RtPaymentEvidence
| RtPaymentReconciliation.
Inductive CommercialAuditOutcome := ALLOWED | DENIED | REQUIRES_REVIEW.

#[global] Instance SalesChannel_eq_dec : EqDecision SalesChannel.
Proof. solve_decision. Defined.
#[global] Instance BillingInterval_eq_dec : EqDecision BillingInterval.
Proof. solve_decision. Defined.
#[global] Instance OfferStatus_eq_dec : EqDecision OfferStatus.
Proof. solve_decision. Defined.
#[global] Instance OrderStatus_eq_dec : EqDecision OrderStatus.
Proof. solve_decision. Defined.
#[global] Instance ContractStatus_eq_dec : EqDecision ContractStatus.
Proof. solve_decision. Defined.
#[global] Instance PaymentRequirement_eq_dec : EqDecision PaymentRequirement.
Proof. solve_decision. Defined.
#[global] Instance OrderPaymentStatus_eq_dec : EqDecision OrderPaymentStatus.
Proof. solve_decision. Defined.
#[global] Instance ContractRowStatus_eq_dec : EqDecision ContractRowStatus.
Proof. solve_decision. Defined.
#[global] Instance AcceptanceMethod_eq_dec : EqDecision AcceptanceMethod.
Proof. solve_decision. Defined.
#[global] Instance EvidenceSource_eq_dec : EqDecision EvidenceSource.
Proof. solve_decision. Defined.
#[global] Instance EvidenceStatus_eq_dec : EqDecision EvidenceStatus.
Proof. solve_decision. Defined.
#[global] Instance VerificationStatus_eq_dec : EqDecision VerificationStatus.
Proof. solve_decision. Defined.
#[global] Instance CaseStatus_eq_dec : EqDecision CaseStatus.
Proof. solve_decision. Defined.
#[global] Instance AddressStatus_eq_dec : EqDecision AddressStatus.
Proof. solve_decision. Defined.
#[global] Instance ChannelStatus_eq_dec : EqDecision ChannelStatus.
Proof. solve_decision. Defined.
#[global] Instance DestinationStatus_eq_dec : EqDecision DestinationStatus.
Proof. solve_decision. Defined.

(** ** The texts of the columns *)

Definition channel_text (c : SalesChannel) : string :=
  match c with
  | MaestroDirect => "maestro_direct"
  | LemonSqueezy => "lemon_squeezy"
  end.
Definition period_text (p : BillingInterval) : string :=
  match p with
  | Monthly => "monthly"
  | Annual => "annual"
  end.
Definition order_status_text (s : OrderStatus) : string :=
  match s with
  | OrDraft => "draft"
  | OrAwaitingContract => "awaiting_contract"
  | OrAwaitingPayment => "awaiting_payment"
  | OrPaymentUnderReview => "payment_under_review"
  | OrReadyForActivation => "ready_for_activation"
  | OrActivated => "activated"
  | OrCancelled => "cancelled"
  | OrExpired => "expired"
  | OrRequiresReview => "requires_review"
  end.
Definition contract_status_text (s : ContractStatus) : string :=
  match s with
  | CtNotRequired => "not_required"
  | CtPending => "pending"
  | CtCompleted => "completed"
  | CtRejected => "rejected"
  | CtExpired => "expired"
  end.
Definition requirement_text (r : PaymentRequirement) : string :=
  match r with
  | PayRequired => "required"
  | PayNotRequired => "not_required"
  end.
Definition payment_status_text (s : OrderPaymentStatus) : string :=
  match s with
  | OpPending => "pending"
  | OpCustomerReported => "customer_reported"
  | OpNotificationReceived => "notification_received"
  | OpMatched => "matched"
  | OpVerified => "verified"
  | OpRequiresReview => "requires_review"
  | OpRejected => "rejected"
  | OpNotRequired => "not_required"
  end.
Definition acceptance_text (m : AcceptanceMethod) : string :=
  match m with
  | AuthenticatedClickwrap => "authenticated_clickwrap"
  | AdminException => "admin_exception"
  end.
Definition source_text (s : EvidenceSource) : string :=
  match s with
  | SrcCustomerReport => "customer_report"
  | SrcAdminException => "admin_exception"
  | SrcProviderNotification => "provider_notification"
  | SrcReconciliation => "reconciliation"
  end.
Definition evidence_status_text (s : EvidenceStatus) : string :=
  match s with
  | EvReceived => "received"
  | EvMatched => "matched"
  | EvRequiresReview => "requires_review"
  | EvRejected => "rejected"
  end.
Definition verification_status_text (s : VerificationStatus) : string :=
  match s with
  | VfPending => "pending"
  | VfVerified => "verified"
  | VfRejected => "rejected"
  | VfRequiresReview => "requires_review"
  end.
Definition case_status_text (s : CaseStatus) : string :=
  match s with
  | CaseOpen => "open"
  | CaseRequiresReview => "requires_review"
  | CaseResolved => "resolved"
  | CaseRejected => "rejected"
  end.
Definition activation_status_text (s : ActivationStatus) : string :=
  match s with
  | AcActivated => "activated"
  | AcFailed => "failed"
  | AcRequiresReview => "requires_review"
  end.
Definition destination_type_text (t : DestinationType) : string :=
  match t with
  | BankAccount => "bank_account"
  | PostalAccount => "postal_account"
  end.

(** ** Rows *)

Record AdminMarketOffer := {
  of_offer_code : string;
  of_plan_id : UUID;
  of_display_name : string;
  of_currency : string;
  of_sales_channel : SalesChannel;
  of_billing_period : BillingInterval;
  of_amount : dec;
  of_status : OfferStatus;
  of_effective_at : option datetime;
  of_expires_at : option datetime;
  of_customer_specific : bool;
  of_updated_at : datetime
}.

Record AdminMarketOrder := {
  or_order_ref : string;
  or_customer_ref : string;
  or_offer_id : UUID;
  or_plan_id : UUID;
  or_billing_period : BillingInterval;
  or_selected_channel : SalesChannel;
  or_country_code : string;
  or_currency : string;
  or_subtotal_amount : dec;
  or_tax_amount : dec;
  or_total_amount : dec;
  or_status : OrderStatus;
  or_contract_status : ContractStatus;
  or_payment_requirement : PaymentRequirement;
  or_payment_status : OrderPaymentStatus;
  or_payment_reference : option string;
  or_payment_destination_snapshot : list (string * json);
  or_offer_snapshot : list (string * json);
  or_creation_idempotency_key_hash : option string;
  or_created_at : datetime;
  or_updated_at : datetime;
  or_completed_at : option datetime;
  or_cancelled_at : option datetime
}.

Record AdminMarketContract := {
  ctr_contract_ref : string;
  ctr_order_id : UUID;
  ctr_customer_ref : string;
  ctr_contract_version : string;
  ctr_status : ContractRowStatus;
  ctr_accepted_party_ref : string;
  ctr_acceptance_method : AcceptanceMethod;
  ctr_evidence_reference : string;
  ctr_completion_idempotency_key_hash : string;
  ctr_completed_at : datetime;
  ctr_created_at : datetime
}.

Record AdminMarketPaymentVerification := {
  pvr_verification_ref : string;
  pvr_order_id : UUID;
  pvr_evidence_id : option UUID;
  pvr_status : VerificationStatus;
  pvr_safe_reference : option string;
  pvr_decided_by_user_id : option string;
  pvr_decision_reason_code : option string;
  pvr_decision_idempotency_key_hash : option string;
  pvr_decided_at : option datetime;
  pvr_created_at : datetime;
  pvr_updated_at : datetime
}.

Record AdminMarketPaymentEvidence := {
  pev_evidence_ref : string;
  pev_order_id : UUID;
  pev_customer_ref : string;
  pev_source_type : EvidenceSource;
  pev_status : EvidenceStatus;
  pev_actual_amount : dec;
  pev_currency : string;
  pev_safe_source_reference : string;
  pev_source_reference_hash : string;
  pev_submission_idempotency_key_hash : string;
  pev_reference_matched : bool;
  pev_amount_matched : bool;
  pev_currency_matched : bool;
  pev_destination_matched : bool;
  pev_match_reason_code : string;
  pev_reported_at : datetime;
  pev_created_at : datetime
}.

Record AdminMarketPaymentReconciliationCase := {
  prc_case_ref : string;
  prc_evidence_id : UUID;
  prc_candidate_order_id : option UUID;
  prc_status : CaseStatus;
  prc_exception_type : string;
  prc_resolution : option string;
  prc_reason_code : string;
  prc_safe_note : option string;
  prc_decided_by_user_id : option string;
  prc_decision_idempotency_key_hash : option string;
  prc_opened_at : datetime;
  prc_resolved_at : option datetime;
  prc_created_at : datetime;
  prc_updated_at : datetime
}.

Record AdminMarketNotificationOutbox := {
  cno_event_ref : string;
  cno_event_type : string;
  cno_aggregate_type : string;
  cno_aggregate_ref : string;
  cno_recipient_customer_ref : string;
  cno_payload : list (string * string);
  cno_deduplication_key_hash : string;
  cno_available_at : datetime;
  cno_attempt_count : Z;
  cno_claim_id : option UUID;
  cno_claimed_at : option datetime;
  cno_delivered_at : option datetime;
  cno_dead_lettered_at : option datetime;
  cno_last_error_code : option string;
  cno_created_at : datetime
}.

Record AdminMarketEntitlementActivation := {
  act_activation_ref : string;
  act_customer_ref : string;
  act_order_id : option UUID;
  act_subscription_id : UUID;
  act_entitlement_profile_ref : string;
  act_automatic_activation_allowed : bool;
  act_status : ActivationStatus;
  act_activation_idempotency_key_hash : option string;
  act_activated_at : option datetime;
  act_created_at : datetime
}.

Record AdminMarketChannelEligibility := {
  elg_customer_ref : string;
  elg_country_code : option string;
  elg_address_status : AddressStatus;
  elg_address_source : option string;
  elg_address_verified_at : option datetime;
  elg_maestro_direct_status : ChannelStatus;
  elg_lemon_squeezy_status : ChannelStatus;
  elg_customer_choice_allowed : bool;
  elg_admin_review_required : bool;
  elg_restriction_reason : option string;
  elg_automatic_activation_allowed : bool
}.

Record AdminMarketAuditRecord := {
  aud_event_ref : string;
  aud_occurred_at : datetime;
  aud_actor_user_id : string;
  aud_actor_session_id : string;
  aud_platform_authority : string;
  aud_action : CommercialAuditAction;
  aud_resource_type : CommercialResourceType;
  aud_resource_id : string;
  aud_outcome : CommercialAuditOutcome;
  aud_reason_code : string;
  aud_correlation_id : string;
  aud_previous_state_digest : option string;
  aud_new_state_digest : option string;
  aud_metadata : list (string * string);
  aud_created_at : datetime
}.

Record AdminMarketPaymentDestination := {
  pd_destination_ref : string;
  pd_display_name : string;
  pd_destination_type : DestinationType;
  pd_institution_name : string;
  pd_account_holder_name : string;
  pd_identifier_ciphertext : string;
  pd_identifier_key_version : string;
  pd_masked_identifier : string;
  pd_creation_idempotency_key_hash : option string;
  pd_country_code : string;
  pd_currency : string;
  pd_sales_channel : SalesChannel;
  pd_status : DestinationStatus;
  pd_validation_method : option ValidationMethod;
  pd_validation_reason_code : option string;
  pd_validated_at : option datetime;
  pd_is_active : bool;
  pd_is_default : bool;
  pd_effective_at : option datetime;
  pd_expires_at : option datetime;
  pd_instructions : option string
}.

Record SalesTables := {
  sl_offers : Table AdminMarketOffer;
  sl_orders : Table AdminMarketOrder;
  sl_contracts : Table AdminMarketContract;
  sl_evidence : Table AdminMarketPaymentEvidence;
  sl_verifications : Table AdminMarketPaymentVerification;
  sl_cases : Table AdminMarketPaymentReconciliationCase;
  sl_destinations : Table AdminMarketPaymentDestination;
  sl_eligibilities : Table AdminMarketChannelEligibility;
  sl_activations : Table AdminMarketEntitlementActivation;
  sl_audit : Table AdminMarketAuditRecord;
  sl_outbox : Table AdminMarketNotificationOutbox
}.

Definition no_sales : SalesTables :=
  {| sl_offers := ∅; sl_orders := ∅; sl_contracts := ∅; sl_evidence := ∅; sl_verifications := ∅; sl_cases := ∅;
     sl_destinations := ∅; sl_eligibilities := ∅; sl_activations := ∅; sl_audit := ∅; sl_outbox := ∅ |}.

Definition sl_put_order (id : UUID) (r : AdminMarketOrder) (t : SalesTables) : SalesTables :=
  {| sl_offers := sl_offers t; sl_orders := <[id := r]> (sl_orders t); sl_contracts := sl_contracts t;
     sl_evidence := sl_evidence t; sl_verifications := sl_verifications t; sl_cases := sl_cases t;
     sl_destinations := sl_destinations t; sl_eligibilities := sl_eligibilities t; sl_activations := sl_activations t;
     sl_audit := sl_audit t; sl_outbox := sl_outbox t |}.
Definition sl_put_contract (id : UUID) (r : AdminMarketContract) (t : SalesTables) : SalesTables :=
  {| sl_offers := sl_offers t; sl_orders := sl_orders t; sl_contracts := <[id := r]> (sl_contracts t);
     sl_evidence := sl_evidence t; sl_verifications := sl_verifications t; sl_cases := sl_cases t;
     sl_destinations := sl_destinations t; sl_eligibilities := sl_eligibilities t; sl_activations := sl_activations t;
     sl_audit := sl_audit t; sl_outbox := sl_outbox t |}.
Definition sl_put_evidence (id : UUID) (r : AdminMarketPaymentEvidence) (t : SalesTables) : SalesTables :=
  {| sl_offers := sl_offers t; sl_orders := sl_orders t; sl_contracts := sl_contracts t;
     sl_evidence := <[id := r]> (sl_evidence t); sl_verifications := sl_verifications t; sl_cases := sl_cases t;
     sl_destinations := sl_destinations t; sl_eligibilities := sl_eligibilities t; sl_activations := sl_activations t;
     sl_audit := sl_audit t; sl_outbox := sl_outbox t |}.
Definition sl_put_verification (id : UUID) (r : AdminMarketPaymentVerification) (t : SalesTables) : SalesTables :=
  {| sl_offers := sl_offers t; sl_orders := sl_orders t; sl_contracts := sl_contracts t;
     sl_evidence := sl_evidence t; sl_verifications := <[id := r]> (sl_verifications t); sl_cases := sl_cases t;
     sl_destinations := sl_destinations t; sl_eligibilities := sl_eligibilities t; sl_activations := sl_activations t;
     sl_audit := sl_audit t; sl_outbox := sl_outbox t |}.
Definition sl_put_case (id : UUID) (r : AdminMarketPaymentReconciliationCase) (t : SalesTables) : SalesTables :=
  {| sl_offers := sl_offers t; sl_orders := sl_orders t; sl_contracts := sl_contracts t;
     sl_evidence := sl_evidence t; sl_verifications := sl_verifications t; sl_cases := <[id := r]> (sl_cases t);
     sl_destinations := sl_destinations t; sl_eligibilities := sl_eligibilities t; sl_activations := sl_activations t;
     sl_audit := sl_audit t; sl_outbox := sl_outbox t |}.
Definition sl_put_activation (id : UUID) (r : AdminMarketEntitlementActivation) (t : SalesTables) : SalesTables :=
  {| sl_offers := sl_offers t; sl_orders := sl_orders t; sl_contracts := sl_contracts t;
     sl_evidence := sl_evidence t; sl_verifications := sl_verifications t; sl_cases := sl_cases t;
     sl_destinations := sl_destinations t; sl_eligibilities := sl_eligibilities t; sl_activations := <[id := r]> (sl_activations t);
     sl_audit := sl_audit t; sl_outbox := sl_outbox t |}.
Definition sl_put_audit (id : UUID) (r : AdminMarketAuditRecord) (t : SalesTables) : SalesTables :=
  {| sl_offers := sl_offers t; sl_orders := sl_orders t; sl_contracts := sl_contracts t;
     sl_evidence := sl_evidence t; sl_verifications := sl_verifications t; sl_cases := sl_cases t;
     sl_destinations := sl_destinations t; sl_eligibilities := sl_eligibilities t; sl_activations := sl_activations t;
     sl_audit := <[id := r]> (sl_audit t); sl_outbox := sl_outbox t |}.
Definition sl_put_outbox (id : UUID) (r : AdminMarketNotificationOutbox) (t : SalesTables) : SalesTables :=
  {| sl_offers := sl_offers t; sl_orders := sl_orders t; sl_contracts := sl_contracts t;
     sl_evidence := sl_evidence t; sl_verifications := sl_verifications t; sl_cases := sl_cases t;
     sl_destinations := sl_destinations t; sl_eligibilities := sl_eligibilities t; sl_activations := sl_activations t;
     sl_audit := sl_audit t; sl_outbox := <[id := r]> (sl_outbox t) |}.

(** ** Constraints *)

Definition offer_checks (o : AdminMarketOffer) : bool :=
  dec_leb (dec_int 0) (of_amount o) && Nat.eqb (String.length (of_currency o)) 3 &&
  match of_sales_channel o with
  | MaestroDirect => bool_decide (of_currency o = "TND")
  | LemonSqueezy => true
  end &&
  match of_effective_at o, of_expires_at o with
  | Some a, Some b => instant a <? instant b
  | _, _ => true
  end.

Definition market_order_checks (o : AdminMarketOrder) : bool :=
  match or_selected_channel o with
  | MaestroDirect => bool_decide (or_country_code o = "TN") && bool_decide (or_currency o = "TND")
  | LemonSqueezy => true
  end &&
  dec_leb (dec_int 0) (or_subtotal_amount o) && dec_leb (dec_int 0) (or_tax_amount o) &&
  dec_leb (dec_int 0) (or_total_amount o) &&
  dec_eqb (or_total_amount o) (dec_add (or_subtotal_amount o) (or_tax_amount o)).

Definition evidence_checks (e : AdminMarketPaymentEvidence) : bool :=
  dec_leb (dec_int 0) (pev_actual_amount e) && Nat.eqb (String.length (pev_currency e)) 3.

Definition EXCEPTION_TYPES : list string :=
  [ "underpayment"; "overpayment"; "unknown_reference"; "old_destination"; "late_payment";
    "duplicate_payment"; "payer_mismatch"; "currency_mismatch"; "untrusted_evidence"; "other" ].
Definition RESOLUTIONS : list string :=
  [ "accepted_match"; "rejected"; "linked"; "unlinked"; "reevaluated"; "placed_in_review" ].

Definition case_checks (c : AdminMarketPaymentReconciliationCase) : bool :=
  bool_decide (prc_exception_type c ∈ EXCEPTION_TYPES) &&
  match prc_resolution c with Some r => bool_decide (r ∈ RESOLUTIONS) | None => true end.

Definition NOTIFICATION_EVENTS : list string :=
  [ "order_created"; "contract_completed"; "payment_instructions_ready"; "payment_reported";
    "payment_verified"; "payment_requires_review"; "subscription_activated"; "activation_failed";
    "order_cancelled" ].

Definition outbox_checks (n : AdminMarketNotificationOutbox) : bool :=
  bool_decide (cno_event_type n ∈ NOTIFICATION_EVENTS) && (0 <=? cno_attempt_count n).

Definition eligibility_checks (e : AdminMarketChannelEligibility) : bool :=
  match elg_country_code e with Some c => Nat.eqb (String.length c) 2 | None => true end &&
  (negb (bool_decide (elg_address_status e = AdConfirmed)) ||
   bool_decide (is_Some (elg_country_code e)) && bool_decide (is_Some (elg_address_source e)) &&
   bool_decide (is_Some (elg_address_verified_at e))) &&
  (negb (elg_admin_review_required e) || negb (elg_automatic_activation_allowed e)) &&
  (negb (elg_customer_choice_allowed e) ||
   bool_decide (elg_maestro_direct_status e = ChEligible) &&
   bool_decide (elg_lemon_squeezy_status e = ChEligible)) &&
  (negb (bool_decide (elg_maestro_direct_status e = ChIneligible)) &&
   negb (bool_decide (elg_lemon_squeezy_status e = ChIneligible)) ||
   bool_decide (is_Some (elg_restriction_reason e))).

Definition AUDIT_AUTHORITIES : list string := ["platform_admin"; "identity_customer"; "system"].
Definition digest_length (d : option string) : bool :=
  match d with Some s => Nat.eqb (String.length s) 64 | None => true end.

Definition audit_checks (a : AdminMarketAuditRecord) : bool :=
  bool_decide (aud_platform_authority a ∈ AUDIT_AUTHORITIES) &&
  digest_length (aud_previous_state_digest a) && digest_length (aud_new_state_digest a).

(** [length(trim(s))] of the database: [trim] removes spaces only. *)
Definition is_blank_char (c : ascii) : bool := Ascii.eqb c " "%char.
Definition trimmed_length (s : string) : nat :=
  String.length (rstrip_by is_blank_char (lstrip_by is_blank_char s)).

Definition destination_checks (d : AdminMarketPaymentDestination) : bool :=
  bool_decide (pd_country_code d = "TN") && bool_decide (pd_currency d = "TND") &&
  bool_decide (pd_sales_channel d = MaestroDirect) &&
  Nat.ltb 12 (String.length (pd_identifier_ciphertext d)) &&
  Nat.leb 8 (trimmed_length (pd_masked_identifier d)) &&
  match pd_effective_at d, pd_expires_at d with
  | Some a, Some b => instant a <? instant b
  | _, _ => true
  end &&
  (negb (pd_is_active d) || bool_decide (pd_status d = DsActive)) &&
  (negb (pd_is_default d) || pd_is_active d && bool_decide (pd_status d = DsActive)) &&
  (bool_decide (pd_status d = DsDraft) ||
   bool_decide (is_Some (pd_validation_method d)) && bool_decide (is_Some (pd_validation_reason_code d)) &&
   bool_decide (is_Some (pd_validated_at d))).

(** The partial unique index on active default destinations. *)
Definition active_default (d : AdminMarketPaymentDestination) : option SalesChannel :=
  if pd_is_active d && pd_is_default d then Some (pd_sales_channel d) else None.

Definition sales_uniques (t : SalesTables) : bool :=
  unique_on (fun o => Some (of_offer_code o)) (sl_offers t) &&
  unique_on (fun o => Some (or_order_ref o)) (sl_orders t) &&
  unique_on or_creation_idempotency_key_hash (sl_orders t) &&
  unique_on or_payment_reference (sl_orders t) &&
  unique_on (fun c => Some (ctr_contract_ref c)) (sl_contracts t) &&
  unique_on (fun c => Some (ctr_order_id c)) (sl_contracts t) &&
  unique_on (fun c => Some (ctr_evidence_reference c)) (sl_contracts t) &&
  unique_on (fun c => Some (ctr_completion_idempotency_key_hash c)) (sl_contracts t) &&
  unique_on (fun v => Some (pvr_verification_ref v)) (sl_verifications t) &&
  unique_on (fun v => Some (pvr_order_id v)) (sl_verifications t) &&
  unique_on pvr_decision_idempotency_key_hash (sl_verifications t) &&
  unique_on (fun e => Some (pev_evidence_ref e)) (sl_evidence t) &&
  unique_on (fun e => Some (pev_source_reference_hash e)) (sl_evidence t) &&
  unique_on (fun e => Some (pev_submission_idempotency_key_hash e)) (sl_evidence t) &&
  unique_on (fun c => Some (prc_case_ref c)) (sl_cases t) &&
  unique_on (fun c => Some (prc_evidence_id c)) (sl_cases t) &&
  unique_on prc_decision_idempotency_key_hash (sl_cases t) &&
  unique_on (fun n => Some (cno_event_ref n)) (sl_outbox t) &&
  unique_on (fun n => Some (cno_deduplication_key_hash n)) (sl_outbox t) &&
  unique_on (fun a => Some (act_activation_ref a)) (sl_activations t) &&
  unique_on (fun a => Some (act_subscription_id a)) (sl_activations t) &&
  unique_on act_order_id (sl_activations t) &&
  unique_on act_activation_idempotency_key_hash (sl_activations t) &&
  unique_on (fun e => Some (elg_customer_ref e)) (sl_eligibilities t) &&
  unique_on (fun a => Some (aud_event_ref a)) (sl_audit t) &&
  unique_on (fun d => Some (pd_destination_ref d)) (sl_destinations t) &&
  unique_on pd_creation_idempotency_key_hash (sl_destinations t) &&
  unique_on active_default (sl_destinations t).

Definition sales_checks (t : SalesTables) : bool :=
  check_rows offer_checks (sl_offers t) && check_rows market_order_checks (sl_orders t) &&
  check_rows evidence_checks (sl_evidence t) && check_rows case_checks (sl_cases t) &&
  check_rows outbox_checks (sl_outbox t) && check_rows eligibility_checks (sl_eligibilities t) &&
  check_rows audit_checks (sl_audit t) && check_rows destination_checks (sl_destinations t).
