(* ===== verification/MarketDb.v ===== *)
(** * The marketplace database

    The rows the quota, delinquency and rollover operations read and write, with the
    constraints of their tables: [admin_marketplace/models.py] (plan, subscription),
    [subscription_runtime_persistence.py], [subscription_delinquency_persistence.py],
    [subscription_quota_rollover_persistence.py] and
    [subscription_quota_usage_persistence.py].  A column with a CHECK (... IN ...)
    constraint is an inductive type; the audit columns [created_at], [updated_at] and
    [recorded_at], which the server fills in, are left out. *)
From S2P Require Import Prelude PyString PyDateTime PyDecimal TopUpQuote Uow TopUpDb SalesDb.

Inductive SubscriptionStatus :=
  SubPending | SubActive | SubSuspended | SubCancelled | SubExpired.
Inductive AccessStage := StActive | StGrace | StSuspended | StTerminated.
Inductive RolloverStatus := RoAvailable | RoLocked | RoRestored | RoExpired.
Inductive DelinquencyState :=
  DqGraceDegraded | DqReadOnly | DqAccountFrozen | DqPendingDeletion | DqResolved.

#[global] Instance SubscriptionStatus_eq_dec : EqDecision SubscriptionStatus.
Proof. solve_decision. Defined.
#[global] Instance AccessStage_eq_dec : EqDecision AccessStage.
Proof. solve_decision. Defined.
#[global] Instance RolloverStatus_eq_dec : EqDecision RolloverStatus.
Proof. solve_decision. Defined.
#[global] Instance DelinquencyState_eq_dec : EqDecision DelinquencyState.
Proof. solve_decision. Defined.

(** ** Rows *)

Record AdminMarketPlan := {
  p_plan_code : string;
  p_display_name : string;
  p_entitlement_profile_ref : string;
  p_quota_profile_ref : string
}.

Record AdminMarketSubscription := {
  s_subscription_ref : string;
  s_customer_ref : string;
  s_order_id : option UUID;
  s_offer_id : option UUID;
  s_plan_id : UUID;
  s_status : SubscriptionStatus;
  s_starts_at : option datetime;
  s_ends_at : option datetime
}.

Record AdminMarketSubscriptionRuntime := {
  r_subscription_id : UUID;
  r_customer_ref : string;
  r_entitlement_profile_ref : string;
  r_quota_profile_ref : string;
  r_access_stage : AccessStage;
  r_version : Z;
  r_effective_at : datetime;
  r_grace_until : option datetime;
  r_suspended_at : option datetime;
  r_terminated_at : option datetime
}.

Record AdminMarketSubscriptionDelinquency := {
  d_subscription_id : UUID;
  d_customer_ref : string;
  d_state : DelinquencyState;
  d_missed_billing_cycles : Z;
  d_last_failed_cycle_key : option string;
  d_first_failed_at : option datetime;
  d_last_failed_at : option datetime;
  d_grace_started_at : option datetime;
  d_grace_until : option datetime;
  d_grace_usage_percent : Z;
  d_frozen_at : option datetime;
  d_deletion_eligible_at : option datetime;
  d_resolved_at : option datetime
}.

Record AdminMarketSubscriptionQuotaCycle := {
  c_subscription_id : UUID;
  c_source_cycle_id : option UUID;
  c_customer_ref : string;
  c_plan_code : string;
  c_plan_catalog_version : string;
  c_entitlement_codes : list string;
  c_quota_profile_ref : string;
  c_metric_code : string;
  c_period_start : datetime;
  c_period_end : datetime;
  c_base_limit_units : Z;
  c_rollover_units : Z;
  c_top_up_units : Z;
  c_rollover_status : RolloverStatus;
  c_rollover_expires_at : option datetime;
  c_rollover_locked_at : option datetime;
  c_rollover_restored_at : option datetime;
  c_rollover_expired_at : option datetime;
  c_used_units : Z;
  c_version : Z
}.

Record AdminMarketSubscriptionQuotaCycleUsage := {
  u_quota_cycle_id : UUID;
  u_subscription_id : UUID;
  u_customer_ref : string;
  u_metric_code : string;
  u_units : Z;
  u_idempotency_key_hash : string;
  u_dimensions_digest : string;
  u_occurred_at : datetime
}.

Record AdminMarketSubscriptionRuntimeTransition := {
  t_runtime_id : UUID;
  t_subscription_id : UUID;
  t_reconciliation_decision_id : UUID;
  t_customer_ref : string;
  t_event_name : string;
  t_from_stage : AccessStage;
  t_to_stage : AccessStage;
  t_effective_at : datetime
}.

(** ** Quota cycle balances *)

Definition spendable_rollover_units (c : AdminMarketSubscriptionQuotaCycle) : Z :=
  match c_rollover_status c with
  | RoAvailable | RoRestored => c_rollover_units c
  | RoLocked | RoExpired => 0
  end.

Definition rollover_eligible_units (c : AdminMarketSubscriptionQuotaCycle) : Z :=
  Z.max (c_base_limit_units c + spendable_rollover_units c - c_used_units c) 0.

Definition available_units (c : AdminMarketSubscriptionQuotaCycle) : Z :=
  Z.max (c_base_limit_units c + spendable_rollover_units c + c_top_up_units c
         - c_used_units c) 0.

(** ** Mutations of a row *)

(** [cycle.used_units += units; cycle.version += 1]. *)
Definition consume_units (units : Z) (c : AdminMarketSubscriptionQuotaCycle)
  : AdminMarketSubscriptionQuotaCycle :=
  {| c_subscription_id := c_subscription_id c; c_source_cycle_id := c_source_cycle_id c;
     c_customer_ref := c_customer_ref c; c_plan_code := c_plan_code c;
     c_plan_catalog_version := c_plan_catalog_version c;
     c_entitlement_codes := c_entitlement_codes c; c_quota_profile_ref := c_quota_profile_ref c;
     c_metric_code := c_metric_code c; c_period_start := c_period_start c;
     c_period_end := c_period_end c; c_base_limit_units := c_base_limit_units c;
     c_rollover_units := c_rollover_units c; c_top_up_units := c_top_up_units c;
     c_rollover_status := c_rollover_status c; c_rollover_expires_at := c_rollover_expires_at c;
     c_rollover_locked_at := c_rollover_locked_at c;
     c_rollover_restored_at := c_rollover_restored_at c;
     c_rollover_expired_at := c_rollover_expired_at c;
     c_used_units := c_used_units c + units; c_version := c_version c + 1 |}.

(** The rollover columns of a cycle, set together; [version] goes up by one. *)
Definition set_rollover (st : RolloverStatus) (expires locked restored expired : option datetime)
    (c : AdminMarketSubscriptionQuotaCycle) : AdminMarketSubscriptionQuotaCycle :=
  {| c_subscription_id := c_subscription_id c; c_source_cycle_id := c_source_cycle_id c;
     c_customer_ref := c_customer_ref c; c_plan_code := c_plan_code c;
     c_plan_catalog_version := c_plan_catalog_version c;
     c_entitlement_codes := c_entitlement_codes c; c_quota_profile_ref := c_quota_profile_ref c;
     c_metric_code := c_metric_code c; c_period_start := c_period_start c;
     c_period_end := c_period_end c; c_base_limit_units := c_base_limit_units c;
     c_rollover_units := c_rollover_units c; c_top_up_units := c_top_up_units c;
     c_rollover_status := st; c_rollover_expires_at := expires; c_rollover_locked_at := locked;
     c_rollover_restored_at := restored; c_rollover_expired_at := expired;
     c_used_units := c_used_units c; c_version := c_version c + 1 |}.

(** ** The database *)

Record MarketDb := {
  db_plans : Table AdminMarketPlan;
  db_subscriptions : Table AdminMarketSubscription;
  db_runtimes : Table AdminMarketSubscriptionRuntime;
  db_delinquencies : Table AdminMarketSubscriptionDelinquency;
  db_cycles : Table AdminMarketSubscriptionQuotaCycle;
  db_usages : Table AdminMarketSubscriptionQuotaCycleUsage;
  db_transitions : Table AdminMarketSubscriptionRuntimeTransition;
  db_top_ups : TopUpTables;
  db_provider : ProviderTables;
  db_sales : SalesTables
}.

Definition put_runtime (id : UUID) (r : AdminMarketSubscriptionRuntime) (db : MarketDb) : MarketDb :=
  {| db_plans := db_plans db; db_subscriptions := db_subscriptions db;
     db_runtimes := <[id := r]> (db_runtimes db); db_delinquencies := db_delinquencies db;
     db_cycles := db_cycles db; db_usages := db_usages db;
     db_transitions := db_transitions db; db_top_ups := db_top_ups db;
     db_provider := db_provider db; db_sales := db_sales db |}.

Definition put_delinquency (id : UUID) (d : AdminMarketSubscriptionDelinquency) (db : MarketDb)
  : MarketDb :=
  {| db_plans := db_plans db; db_subscriptions := db_subscriptions db;
     db_runtimes := db_runtimes db; db_delinquencies := <[id := d]> (db_delinquencies db);
     db_cycles := db_cycles db; db_usages := db_usages db;
     db_transitions := db_transitions db; db_top_ups := db_top_ups db;
     db_provider := db_provider db; db_sales := db_sales db |}.

Definition put_cycle (id : UUID) (c : AdminMarketSubscriptionQuotaCycle) (db : MarketDb) : MarketDb :=
  {| db_plans := db_plans db; db_subscriptions := db_subscriptions db;
     db_runtimes := db_runtimes db; db_delinquencies := db_delinquencies db;
     db_cycles := <[id := c]> (db_cycles db); db_usages := db_usages db;
     db_transitions := db_transitions db; db_top_ups := db_top_ups db;
     db_provider := db_provider db; db_sales := db_sales db |}.

(** The cycles replaced as a whole. *)
Definition set_cycles (cs : Table AdminMarketSubscriptionQuotaCycle) (db : MarketDb) : MarketDb :=
  {| db_plans := db_plans db; db_subscriptions := db_subscriptions db;
     db_runtimes := db_runtimes db; db_delinquencies := db_delinquencies db;
     db_cycles := cs; db_usages := db_usages db;
     db_transitions := db_transitions db; db_top_ups := db_top_ups db;
     db_provider := db_provider db; db_sales := db_sales db |}.

Definition put_usage (id : UUID) (u : AdminMarketSubscriptionQuotaCycleUsage) (db : MarketDb)
  : MarketDb :=
  {| db_plans := db_plans db; db_subscriptions := db_subscriptions db;
     db_runtimes := db_runtimes db; db_delinquencies := db_delinquencies db;
     db_cycles := db_cycles db; db_usages := <[id := u]> (db_usages db);
     db_transitions := db_transitions db; db_top_ups := db_top_ups db;
     db_provider := db_provider db; db_sales := db_sales db |}.

Definition put_subscription (id : UUID) (r : AdminMarketSubscription) (db : MarketDb) : MarketDb :=
  {| db_plans := db_plans db; db_subscriptions := <[id := r]> (db_subscriptions db);
     db_runtimes := db_runtimes db; db_delinquencies := db_delinquencies db;
     db_cycles := db_cycles db; db_usages := db_usages db;
     db_transitions := db_transitions db; db_top_ups := db_top_ups db;
     db_provider := db_provider db; db_sales := db_sales db |}.

Definition put_transition (id : UUID) (r : AdminMarketSubscriptionRuntimeTransition) (db : MarketDb)
  : MarketDb :=
  {| db_plans := db_plans db; db_subscriptions := db_subscriptions db;
     db_runtimes := db_runtimes db; db_delinquencies := db_delinquencies db;
     db_cycles := db_cycles db; db_usages := db_usages db;
     db_transitions := <[id := r]> (db_transitions db); db_top_ups := db_top_ups db;
     db_provider := db_provider db; db_sales := db_sales db |}.

(** The top-up tables changed by [f]. *)
Definition put_top_ups (f : TopUpTables -> TopUpTables) (db : MarketDb) : MarketDb :=
  {| db_plans := db_plans db; db_subscriptions := db_subscriptions db;
     db_runtimes := db_runtimes db; db_delinquencies := db_delinquencies db;
     db_cycles := db_cycles db; db_usages := db_usages db;
     db_transitions := db_transitions db; db_top_ups := f (db_top_ups db);
     db_provider := db_provider db; db_sales := db_sales db |}.

(** The tables of the provider changed by [f]. *)
Definition put_provider (f : ProviderTables -> ProviderTables) (db : MarketDb) : MarketDb :=
  {| db_plans := db_plans db; db_subscriptions := db_subscriptions db;
     db_runtimes := db_runtimes db; db_delinquencies := db_delinquencies db;
     db_cycles := db_cycles db; db_usages := db_usages db;
     db_transitions := db_transitions db; db_top_ups := db_top_ups db;
     db_provider := f (db_provider db); db_sales := db_sales db |}.

(** The tables of the sales changed by [f]. *)
Definition put_sales (f : SalesTables -> SalesTables) (db : MarketDb) : MarketDb :=
  {| db_plans := db_plans db; db_subscriptions := db_subscriptions db;
     db_runtimes := db_runtimes db; db_delinquencies := db_delinquencies db;
     db_cycles := db_cycles db; db_usages := db_usages db;
     db_transitions := db_transitions db; db_top_ups := db_top_ups db;
     db_provider := db_provider db; db_sales := f (db_sales db) |}.

(** ** Constraints *)

Definition is_some_b {A} (x : option A) : bool := match x with Some _ => true | None => false end.

Definition subscription_checks (s : AdminMarketSubscription) : bool :=
  match s_starts_at s, s_ends_at s with
  | Some a, Some b => instant a <? instant b
  | _, _ => true
  end.

Definition runtime_checks (r : AdminMarketSubscriptionRuntime) : bool :=
  (0 <=? r_version r) &&
  match r_access_stage r with
  | StActive => true
  | StGrace => is_some_b (r_grace_until r)
  | StSuspended => is_some_b (r_suspended_at r)
  | StTerminated => is_some_b (r_terminated_at r)
  end.

Definition delinquency_checks (d : AdminMarketSubscriptionDelinquency) : bool :=
  (0 <=? d_missed_billing_cycles d) &&
  ((0 <=? d_grace_usage_percent d) && (d_grace_usage_percent d <=? 100)).

Definition cycle_checks (c : AdminMarketSubscriptionQuotaCycle) : bool :=
  (instant (c_period_start c) <? instant (c_period_end c)) &&
  (0 <=? c_base_limit_units c) && (0 <=? c_rollover_units c) && (0 <=? c_top_up_units c) &&
  ((0 <=? c_used_units c) &&
   (c_used_units c <=? c_base_limit_units c + c_rollover_units c + c_top_up_units c)) &&
  (0 <=? c_version c).

Definition active_customer (s : AdminMarketSubscription) : option string :=
  if bool_decide (s_status s = SubActive) then Some (s_customer_ref s) else None.

Definition market_constraints (db : MarketDb) : res unit :=
  _ ← ensure (unique_on (fun p => Some (p_plan_code p)) (db_plans db) &&
              unique_on active_customer (db_subscriptions db) &&
              unique_on (fun s => Some (s_subscription_ref s)) (db_subscriptions db) &&
              unique_on s_order_id (db_subscriptions db) &&
              unique_on (fun r => Some (r_subscription_id r)) (db_runtimes db) &&
              unique_on (fun d => Some (d_subscription_id d)) (db_delinquencies db) &&
              unique_on (fun c => Some (c_subscription_id c, c_metric_code c,
                                        instant (c_period_start c))) (db_cycles db) &&
              unique_on c_source_cycle_id (db_cycles db) &&
              unique_on (fun u => Some (u_idempotency_key_hash u)) (db_usages db) &&
              unique_on (fun t => Some (t_reconciliation_decision_id t)) (db_transitions db) &&
              top_up_uniques (db_top_ups db) && provider_uniques (db_provider db) &&
              sales_uniques (db_sales db))
        AdminMarketplaceDuplicateReferenceError "Admin Marketplace duplicate reference";
  ensure (check_rows subscription_checks (db_subscriptions db) &&
          check_rows runtime_checks (db_runtimes db) &&
          check_rows delinquency_checks (db_delinquencies db) &&
          check_rows cycle_checks (db_cycles db) && top_up_checks (db_top_ups db) &&
          provider_checks (db_provider db) && sales_checks (db_sales db))
    AdminMarketplaceConflictError "Admin Marketplace integrity conflict".

Notation Market := (M (Session MarketDb)).

(** ** Repositories *)

Definition subscription_by_id (id : UUID) : Market (option AdminMarketSubscription) :=
  query (fun db => db_subscriptions db !! id).
Definition plan_by_id (id : UUID) : Market (option AdminMarketPlan) :=
  query (fun db => db_plans db !! id).
Definition runtime_by_subscription (id : UUID) : Market (option (UUID * AdminMarketSubscriptionRuntime)) :=
  query (fun db => find_row (fun r => bool_decide (r_subscription_id r = id)) (db_runtimes db)).
Definition delinquency_by_subscription (id : UUID)
  : Market (option (UUID * AdminMarketSubscriptionDelinquency)) :=
  query (fun db => find_row (fun d => bool_decide (d_subscription_id d = id)) (db_delinquencies db)).
Definition cycle_by_id (id : UUID) : Market (option AdminMarketSubscriptionQuotaCycle) :=
  query (fun db => db_cycles db !! id).
Definition cycle_by_source (id : UUID) : Market (option (UUID * AdminMarketSubscriptionQuotaCycle)) :=
  query (fun db => find_row (fun c => bool_decide (c_source_cycle_id c = Some id)) (db_cycles db)).

Definition rollover_cycle_of (subscription : UUID) (c : AdminMarketSubscriptionQuotaCycle) : bool :=
  bool_decide (c_subscription_id c = subscription) && (0 <? c_rollover_units c) &&
  negb (bool_decide (c_rollover_status c = RoExpired)).
Definition list_rollover_cycles (subscription : UUID)
  : Market (list (UUID * AdminMarketSubscriptionQuotaCycle)) :=
  query (fun db => find_rows (rollover_cycle_of subscription) (db_cycles db)).

Definition usage_by_idempotency_hash (value : string)
  : Market (option (UUID * AdminMarketSubscriptionQuotaCycleUsage)) :=
  query (fun db => find_row (fun u => bool_decide (u_idempotency_key_hash u = value)) (db_usages db)).

Definition units_since (cycle : UUID) (since : datetime)
    (u : AdminMarketSubscriptionQuotaCycleUsage) : Z :=
  if bool_decide (u_quota_cycle_id u = cycle) && (instant since <=? instant (u_occurred_at u))
  then u_units u else 0.
Definition sum_units_since (cycle : UUID) (since : datetime) : Market Z :=
  query (fun db => sum_rows (units_since cycle since) (db_usages db)).

(** [add]: the insertion fails when the primary key exists. *)
Definition add_row {R} (get : MarketDb -> Table R) (put : UUID -> R -> MarketDb -> MarketDb)
    (id : UUID) (r : R) : Market unit :=
  t ← query get;
  match t !! id with
  | None => mutate (put id r)
  | Some _ => throw AdminMarketplaceDuplicateReferenceError "Admin Marketplace duplicate reference"
  end.
Definition add_usage := add_row db_usages put_usage.
Definition add_cycle := add_row db_cycles put_cycle.
Definition add_delinquency := add_row db_delinquencies put_delinquency.

Definition add_transition := add_row db_transitions put_transition.

Definition transition_by_decision (id : UUID)
  : Market (option (UUID * AdminMarketSubscriptionRuntimeTransition)) :=
  query (fun db =>
    find_row (fun t => bool_decide (t_reconciliation_decision_id t = id)) (db_transitions db)).

Definition market_commit : Market unit := commit market_constraints.

(** ** Lemmas *)

Lemma put_runtime_id id r db : db_runtimes db !! id = Some r -> put_runtime id r db = db.
Proof. intros H. unfold put_runtime. rewrite insert_id //. by destruct db. Qed.

Lemma runtime_by_subscription_Some sid s row s' :
  runtime_by_subscription sid s = (Ok (Some row), s') ->
  s' = s /\ db_runtimes (working s) !! row.1 = Some row.2 /\ r_subscription_id row.2 = sid.
Proof.
  unfold runtime_by_subscription. rewrite query_eq. intros [= H <-]. destruct row as [k r].
  apply find_row_Some in H as [Hk H%bool_decide_eq_true]. done.
Qed.

Lemma delinquency_by_subscription_Some sid s row s' :
  delinquency_by_subscription sid s = (Ok (Some row), s') ->
  s' = s /\ db_delinquencies (working s) !! row.1 = Some row.2 /\ d_subscription_id row.2 = sid.
Proof.
  unfold delinquency_by_subscription. rewrite query_eq. intros [= H <-]. destruct row as [k r].
  apply find_row_Some in H as [Hk H%bool_decide_eq_true]. done.
Qed.

Lemma market_commit_cases s r s' :
  market_commit s = (r, s') ->
  r = Ok tt /\ market_constraints (working s) = Ok tt /\
    s' = {| working := working s; committed := working s |} \/
  (exists e, r = Raise e) /\ committed s' = committed s.
Proof.
  unfold market_commit, commit. destruct (market_constraints (working s)) as [[]|e] eqn:E;
    intros [= <- <-]; [by left|right; eauto].
Qed.

Lemma add_row_cases {R} (get : MarketDb -> Table R) put id r s x s' :
  add_row get put id r s = (x, s') ->
  x = Ok tt /\ get (working s) !! id = None /\
    s' = {| working := put id r (working s); committed := committed s |} \/
  (exists e, x = Raise e) /\ s' = s.
Proof.
  unfold add_row. rewrite M_bind_eq query_eq. destruct (get (working s) !! id);
    intros [= <- <-]; [right; eauto|by left].
Qed.
