(* ===== verification/CommerceAudit.v ===== *)
(** * Audit records, notifications and the repositories of the sales

    Models [audit_contracts.py] (the validation of an audit record, and the row each
    service makes of it), [enqueue_commercial_notification] of [notification_outbox.py],
    the queries of [persistence/repositories.py] the sales use, and the parts the sales
    services share: normalised inputs, digests of the idempotency keys and the second unit
    of work that looks for a replay after a conflict. *)
From stdpp Require Import pretty.
From Stdlib Require Import Ascii.
From S2P Require Import Prelude PyString PyDateTime PyDecimal PyText PyJson Uow SalesDb MarketDb.
#[local] Open Scope Z_scope.

(** [sub in s]. *)
Fixpoint contains (sub s : string) : bool :=
  String.prefix sub s || match s with EmptyString => false | String _ s' => contains sub s' end.

(** ** Audit records *)

(** [_PROHIBITED_KEY_PATTERN], with its optional separators written out. *)
Definition PROHIBITED_AUDIT_KEYS : list string :=
  [ "password"; "passwd"; "secret"; "token"; "apikey"; "api_key"; "api-key"; "authorization";
    "cookie"; "credential"; "mfa"; "otp"; "webhooksignature"; "webhook_signature";
    "webhook-signature"; "paymentevidence"; "payment_evidence"; "payment-evidence" ].
Definition prohibited_audit_key (k : string) : bool :=
  existsb (fun sub => contains sub (lower k)) PROHIBITED_AUDIT_KEYS.

Definition audit_required (value field_name : string) : res string :=
  let normalized := strip value in
  ensure (nonempty normalized) AdminMarketplaceAuditSafetyError (field_name +:+ " is required.");;
  mret normalized.

(** [d[k] = v] on a dict kept as its pairs in insertion order. *)
Fixpoint dict_set (d : list (string * string)) (k v : string) : list (string * string) :=
  match d with
  | [] => [(k, v)]
  | (k', v') :: d' => if bool_decide (k' = k) then (k, v) :: d' else (k', v') :: dict_set d' k v
  end.

Fixpoint safe_metadata (normalized metadata : list (string * string)) : res (list (string * string)) :=
  match metadata with
  | [] => mret normalized
  | (key, value) :: rest =>
      key_text ← audit_required key "metadata key";
      _ ← reject_if (prohibited_audit_key key_text) AdminMarketplaceAuditSafetyError
            ("Sensitive audit metadata key is forbidden: " +:+ key_text);
      value_text ← audit_required value "metadata value";
      _ ← ensure (Nat.leb (String.length value_text) 1024) AdminMarketplaceAuditSafetyError
            "Audit metadata value is too long.";
      safe_metadata (dict_set normalized key_text value_text) rest
  end.

Definition is_lower_hex (c : ascii) : bool := is_digit c || in_range 97 102 (code c).
Definition audit_digest (value : option string) (field_name : string) : res (option string) :=
  match value with
  | None => mret None
  | Some v =>
      let normalized := lower (strip v) in
      ensure (Nat.eqb (String.length normalized) 64 && all_chars is_lower_hex normalized)
        AdminMarketplaceAuditSafetyError (field_name +:+ " must be a SHA-256 hex digest.");;
      mret (Some normalized)
  end.

Record CommercialAuditRecord := {
  car_event_id : string;
  car_occurred_at : datetime;
  car_actor_user_id : string;
  car_actor_session_id : string;
  car_platform_authority : string;
  car_action : CommercialAuditAction;
  car_resource_type : CommercialResourceType;
  car_resource_id : string;
  car_outcome : CommercialAuditOutcome;
  car_reason_code : string;
  car_correlation_id : string;
  car_previous_state_digest : option string;
  car_new_state_digest : option string;
  car_metadata : list (string * string)
}.

(** [CommercialAuditRecord(...)]: [__post_init__] normalises and validates. *)
Definition commercial_audit (r : CommercialAuditRecord) : res CommercialAuditRecord :=
  event_id ← audit_required (car_event_id r) "event_id";
  actor ← audit_required (car_actor_user_id r) "actor_user_id";
  session ← audit_required (car_actor_session_id r) "actor_session_id";
  authority ← audit_required (car_platform_authority r) "platform_authority";
  resource ← audit_required (car_resource_id r) "resource_id";
  reason ← audit_required (car_reason_code r) "reason_code";
  correlation ← audit_required (car_correlation_id r) "correlation_id";
  _ ← reject_if (naive (car_occurred_at r)) AdminMarketplaceAuditSafetyError
        "occurred_at must be timezone-aware.";
  _ ← ensure (bool_decide (authority ∈ AUDIT_AUTHORITIES)) AdminMarketplaceAuditSafetyError
        "Commercial audit actor authority is invalid.";
  previous ← audit_digest (car_previous_state_digest r) "previous_state_digest";
  new_digest ← audit_digest (car_new_state_digest r) "new_state_digest";
  metadata ← safe_metadata [] (car_metadata r);
  mret {| car_event_id := event_id; car_occurred_at := car_occurred_at r;
          car_actor_user_id := actor; car_actor_session_id := session;
          car_platform_authority := authority; car_action := car_action r;
          car_resource_type := car_resource_type r; car_resource_id := resource;
          car_outcome := car_outcome r; car_reason_code := reason;
          car_correlation_id := correlation; car_previous_state_digest := previous;
          car_new_state_digest := new_digest; car_metadata := metadata |}.

(** The row of a record, with its key [uuid.UUID(record.event_id)]. *)
Definition audit_row (r : CommercialAuditRecord) : res (UUID * AdminMarketAuditRecord) :=
  match uuid_of_text (car_event_id r) with
  | None => raise ValueError "badly formed hexadecimal UUID string"
  | Some id =>
      mret (id, {| aud_event_ref := car_event_id r; aud_occurred_at := car_occurred_at r;
                   aud_actor_user_id := car_actor_user_id r;
                   aud_actor_session_id := car_actor_session_id r;
                   aud_platform_authority := car_platform_authority r; aud_action := car_action r;
                   aud_resource_type := car_resource_type r; aud_resource_id := car_resource_id r;
                   aud_outcome := car_outcome r; aud_reason_code := car_reason_code r;
                   aud_correlation_id := car_correlation_id r;
                   aud_previous_state_digest := car_previous_state_digest r;
                   aud_new_state_digest := car_new_state_digest r; aud_metadata := car_metadata r;
                   aud_created_at := car_occurred_at r |})
  end.

Definition add_audit := add_row (fun db => sl_audit (db_sales db)) (fun id r => put_sales (sl_put_audit id r)).

(** [unit.commercial_audit.append(...)] of a record made by the service. *)
Definition append_audit (r : CommercialAuditRecord) : Market unit :=
  record ← lift (commercial_audit r);
  row ← lift (audit_row record);
  add_audit (fst row) (snd row).

(** ** Notifications *)

Definition PROHIBITED_PAYLOAD_KEYS : list string :=
  [ "account"; "iban"; "rib"; "identifier"; "cipher"; "secret"; "token"; "password"; "credential";
    "evidence_raw"; "transfer_reference" ].
Definition prohibited_payload_key (k : string) : bool :=
  existsb (fun sub => contains sub (lower k)) PROHIBITED_PAYLOAD_KEYS.

Definition notice_required (value name : string) (maximum : nat) : res string :=
  let normalized := strip value in
  ensure (nonempty normalized && Nat.leb (String.length normalized) maximum) ValueError
    (name +:+ " is invalid.");;
  mret normalized.

Fixpoint safe_pairs (result payload : list (string * string)) : res (list (string * string)) :=
  match payload with
  | [] => mret result
  | (key, value) :: rest =>
      normalized_key ← notice_required key "payload key" 64;
      _ ← reject_if (prohibited_payload_key normalized_key) ValueError
            "Sensitive notification payload key is forbidden.";
      text ← notice_required value "payload value" 256;
      safe_pairs (dict_set result normalized_key text) rest
  end.
Definition safe_payload (payload : list (string * string)) : res (list (string * string)) :=
  _ ← ensure (Nat.leb (length payload) 12) ValueError "Commercial notification payload is too large.";
  safe_pairs [] payload.

(** [u.hex] of a UUID. *)
Definition uuid_hex (u : UUID) : string := keep_chars (fun c => negb (Ascii.eqb c "-"%char)) u.

Definition add_outbox := add_row (fun db => sl_outbox (db_sales db)) (fun id r => put_sales (sl_put_outbox id r)).

Section Notifications.
Context `{Sha256}.

Definition notification (event_id : UUID) (event_type aggregate_type aggregate_ref customer_ref : string)
    (payload : list (string * string)) (deduplication_material : string) (occurred_at : datetime)
  : res AdminMarketNotificationOutbox :=
  normalized_payload ← safe_payload payload;
  _ ← ensure (bool_decide (event_type ∈ NOTIFICATION_EVENTS)) ValueError
        "Commercial notification event_type is invalid.";
  _ ← reject_if (naive occurred_at) ValueError "Commercial notification time must be timezone-aware.";
  atype ← notice_required aggregate_type "aggregate_type" 32;
  aref ← notice_required aggregate_ref "aggregate_ref" 128;
  customer ← notice_required customer_ref "customer_ref" 128;
  material ← notice_required deduplication_material "deduplication_material" 256;
  mret {| cno_event_ref := "cno_" +:+ String.substring 0 24 (uuid_hex event_id);
          cno_event_type := event_type; cno_aggregate_type := atype; cno_aggregate_ref := aref;
          cno_recipient_customer_ref := customer; cno_payload := normalized_payload;
          cno_deduplication_key_hash :=
            sha256_hex (event_type +:+ ":" +:+ aggregate_ref +:+ ":" +:+ material);
          cno_available_at := occurred_at; cno_attempt_count := 0; cno_claim_id := None;
          cno_claimed_at := None; cno_delivered_at := None; cno_dead_lettered_at := None;
          cno_last_error_code := None; cno_created_at := occurred_at |}.

Definition enqueue_commercial_notification (event_id : UUID)
    (event_type aggregate_type aggregate_ref customer_ref : string) (payload : list (string * string))
    (deduplication_material : string) (occurred_at : datetime) : Market unit :=
  row ← lift (notification event_id event_type aggregate_type aggregate_ref customer_ref payload
                deduplication_material occurred_at);
  add_outbox event_id row.

(** ** What the services share *)

(** [_idempotency_hash]. *)
Definition idempotency_hash (value : string) : res string :=
  let normalized := strip value in
  _ ← ensure (Nat.leb 16 (String.length normalized) && Nat.leb (String.length normalized) 128)
        ValueError "idempotency_key is invalid.";
  mret (sha256_hex normalized).

(** [_digest] of a state. *)
Definition state_digest (state : list (string * json)) : string := sha256_hex (json_dumps (JObj state)).
End Notifications.

(** [_required]. *)
Definition sales_required (value field_name : string) : res string :=
  let normalized := strip value in
  _ ← ensure (nonempty normalized) ValueError (field_name +:+ " is required.");
  mret normalized.

(** [_now] and [_aware_now]. *)
Definition aware_now (now : datetime) (label : string) : res datetime :=
  _ ← reject_if (naive now) ValueError (label +:+ " clock must be timezone-aware.");
  mret now.

(** The identifiers a request draws: rows, references, the audit event, notifications. *)
Record SalesIds := {
  si_row : UUID;
  si_row2 : UUID;
  si_reference : UUID;
  si_reference2 : UUID;
  si_event : UUID;
  si_notice : UUID;
  si_notice2 : UUID
}.

(** [except AdminMarketplaceConflictError]: a duplicate reference is one. *)
Definition is_conflict (e : exn) : bool :=
  bool_decide (exn_kind e = AdminMarketplaceConflictError) ||
  bool_decide (exn_kind e = AdminMarketplaceDuplicateReferenceError).

(** A unit of work; after a conflict a second one looks for what a concurrent request left.
    It sees the database [later], and nothing to return raises the conflict again. *)
Definition with_replay {A} (body : Market A) (replay : Market (option A)) (db later : MarketDb)
  : res A * MarketDb :=
  match with_uow body db with
  | (Ok a, db') => (Ok a, db')
  | (Raise e, db') =>
      (if is_conflict e then
         match fst (with_uow replay later) with
         | Ok (Some a) => Ok a
         | Ok None => Raise e
         | Raise e' => Raise e'
         end
       else Raise e, db')
  end.

(** ** Repositories *)

Definition put_market_order (id : UUID) (o : AdminMarketOrder) : MarketDb -> MarketDb :=
  put_sales (sl_put_order id o).
Definition add_market_order := add_row (fun db => sl_orders (db_sales db)) put_market_order.
Definition market_order_by_id (id : UUID) : Market (option AdminMarketOrder) :=
  query (fun db => sl_orders (db_sales db) !! id).
Definition market_order_by_ref (ref : string) : Market (option (UUID * AdminMarketOrder)) :=
  query (fun db => find_row (fun o => bool_decide (or_order_ref o = lower (strip ref)))
                     (sl_orders (db_sales db))).
Definition market_order_by_creation_hash (h : string) : Market (option (UUID * AdminMarketOrder)) :=
  query (fun db => find_row (fun o => bool_decide (or_creation_idempotency_key_hash o = Some h))
                     (sl_orders (db_sales db))).

Definition offer_by_id (id : UUID) : Market (option AdminMarketOffer) :=
  query (fun db => sl_offers (db_sales db) !! id).

(** A published direct offer of the plan, on sale at [now]. *)
Definition direct_offer_on_sale (plans : Table AdminMarketPlan) (plan_code : string)
    (period : BillingInterval) (now : datetime) (o : AdminMarketOffer) : bool :=
  match plans !! of_plan_id o with
  | Some p => bool_decide (p_plan_code p = lower (strip plan_code))
  | None => false
  end &&
  bool_decide (of_billing_period o = period) && bool_decide (of_sales_channel o = MaestroDirect) &&
  bool_decide (of_currency o = "TND") && bool_decide (of_status o = OfPublished) &&
  match of_effective_at o with Some t => instant t <=? instant now | None => true end &&
  match of_expires_at o with Some t => instant now <? instant t | None => true end.

(** [order_by(updated_at.desc()).limit(1)]. *)
Fixpoint newest_offer (rows : list (UUID * AdminMarketOffer)) : option (UUID * AdminMarketOffer) :=
  match rows with
  | [] => None
  | r :: rest =>
      match newest_offer rest with
      | Some r' => if instant (of_updated_at (snd r)) <? instant (of_updated_at (snd r'))
                   then Some r' else Some r
      | None => Some r
      end
  end.

Definition get_published_direct_for_plan_code (plan_code : string) (period : BillingInterval)
    (now : datetime) : Market (option (UUID * AdminMarketOffer)) :=
  query (fun db => newest_offer (find_rows (direct_offer_on_sale (db_plans db) plan_code period now)
                                   (sl_offers (db_sales db)))).

Definition active_subscription_by_customer (ref : string)
  : Market (option (UUID * AdminMarketSubscription)) :=
  query (fun db => find_row (fun s => bool_decide (s_customer_ref s = ref) &&
                                      bool_decide (s_status s = SubActive)) (db_subscriptions db)).

Definition eligibility_by_customer (ref : string) : Market (option (UUID * AdminMarketChannelEligibility)) :=
  query (fun db => find_row (fun e => bool_decide (elg_customer_ref e = ref)) (sl_eligibilities (db_sales db))).

(** [get_active_default]. *)
Definition is_active_default (d : AdminMarketPaymentDestination) : bool :=
  bool_decide (pd_sales_channel d = MaestroDirect) && bool_decide (pd_country_code d = "TN") &&
  bool_decide (pd_currency d = "TND") && bool_decide (pd_status d = DsActive) &&
  pd_is_active d && pd_is_default d.
Definition active_default_destination : Market (option (UUID * AdminMarketPaymentDestination)) :=
  query (fun db => find_row is_active_default (sl_destinations (db_sales db))).

Definition contract_by_order (id : UUID) : Market (option (UUID * AdminMarketContract)) :=
  query (fun db => find_row (fun c => bool_decide (ctr_order_id c = id)) (sl_contracts (db_sales db))).
Definition add_contract :=
  add_row (fun db => sl_contracts (db_sales db)) (fun id r => put_sales (sl_put_contract id r)).

Definition verification_by_order (id : UUID) : Market (option (UUID * AdminMarketPaymentVerification)) :=
  query (fun db => find_row (fun v => bool_decide (pvr_order_id v = id)) (sl_verifications (db_sales db))).
Definition add_verification :=
  add_row (fun db => sl_verifications (db_sales db)) (fun id r => put_sales (sl_put_verification id r)).

Definition evidence_by_id (id : UUID) : Market (option AdminMarketPaymentEvidence) :=
  query (fun db => sl_evidence (db_sales db) !! id).
Definition evidence_by_ref (ref : string) : Market (option (UUID * AdminMarketPaymentEvidence)) :=
  query (fun db => find_row (fun e => bool_decide (pev_evidence_ref e = lower (strip ref)))
                     (sl_evidence (db_sales db))).
Definition evidence_by_submission_hash (h : string) : Market (option (UUID * AdminMarketPaymentEvidence)) :=
  query (fun db => find_row (fun e => bool_decide (pev_submission_idempotency_key_hash e = h))
                     (sl_evidence (db_sales db))).
Definition put_evidence (id : UUID) (e : AdminMarketPaymentEvidence) : MarketDb -> MarketDb :=
  put_sales (sl_put_evidence id e).
Definition add_evidence := add_row (fun db => sl_evidence (db_sales db)) put_evidence.

Definition case_by_evidence (id : UUID) : Market (option (UUID * AdminMarketPaymentReconciliationCase)) :=
  query (fun db => find_row (fun c => bool_decide (prc_evidence_id c = id)) (sl_cases (db_sales db))).
Definition case_by_decision_hash (h : string) : Market (option (UUID * AdminMarketPaymentReconciliationCase)) :=
  query (fun db => find_row (fun c => bool_decide (prc_decision_idempotency_key_hash c = Some h))
                     (sl_cases (db_sales db))).
Definition put_case (id : UUID) (c : AdminMarketPaymentReconciliationCase) : MarketDb -> MarketDb :=
  put_sales (sl_put_case id c).
Definition add_case := add_row (fun db => sl_cases (db_sales db)) put_case.

Definition activation_by_order (id : UUID) : Market (option (UUID * AdminMarketEntitlementActivation)) :=
  query (fun db => find_row (fun a => bool_decide (act_order_id a = Some id)) (sl_activations (db_sales db))).
Definition activation_by_hash (h : string) : Market (option (UUID * AdminMarketEntitlementActivation)) :=
  query (fun db => find_row (fun a => bool_decide (act_activation_idempotency_key_hash a = Some h))
                     (sl_activations (db_sales db))).
Definition add_activation :=
  add_row (fun db => sl_activations (db_sales db)) (fun id r => put_sales (sl_put_activation id r)).
Definition add_subscription := add_row db_subscriptions put_subscription.
