(* ===== verification/DirectOrder.v ===== *)
(** * Direct orders

    Models [direct_order_service.py]: the payment option shown to a customer, and the
    idempotent creation of an order with the snapshots of its offer and of the payment
    destination. *)
From stdpp Require Import pretty.
From Stdlib Require Import Ascii.
From S2P Require Import Prelude PyString PyDecimal PyDateTime PyText PyJson Uow SalesDb MarketDb CommerceAudit.
#[local] Open Scope Z_scope.

Definition TUNISIA_DIRECT_CONTRACT_VERSION : string := "tn-direct-v1".

Record TunisiaPaymentOptionResult := {
  tpo_visible : bool;
  tpo_reason_code : string;
  tpo_address_status : option string;
  tpo_country_code : option string;
  tpo_sales_channel : option string;
  tpo_currency : option string;
  tpo_offer_ref : option string;
  tpo_offer_display_name : option string;
  tpo_billing_period : option string;
  tpo_amount : option dec
}.

Record DirectCommercialOrderResult := {
  dor_order_id : UUID;
  dor_order_ref : string;
  dor_customer_ref : string;
  dor_offer_ref : string;
  dor_plan_ref : string;
  dor_billing_period : BillingInterval;
  dor_sales_channel : SalesChannel;
  dor_country_code : string;
  dor_currency : string;
  dor_subtotal_amount : dec;
  dor_tax_amount : dec;
  dor_total_amount : dec;
  dor_status : OrderStatus;
  dor_contract_status : ContractStatus;
  dor_contract_version : string;
  dor_payment_requirement : PaymentRequirement;
  dor_payment_status : OrderPaymentStatus;
  dor_payment_reference : option string;
  dor_payment_destination_snapshot : list (string * json);
  dor_created_at : datetime;
  dor_updated_at : datetime;
  dor_reason_code : string
}.

(** ** Inputs *)

Definition direct_inputs (customer_ref plan_ref billing_period : string)
  : res (string * string * BillingInterval) :=
  customer ← sales_required customer_ref "customer_ref";
  plan ← sales_required plan_ref "plan_ref";
  period ← sales_required billing_period "billing_period";
  if bool_decide (lower period = "monthly") then mret (customer, lower plan, Monthly)
  else if bool_decide (lower period = "annual") then mret (customer, lower plan, Annual)
  else raise ValueError "billing_period is invalid.".

(** ** Eligibility *)

Definition address_status_text (s : AddressStatus) : string :=
  match s with
  | AdUnverified => "unverified"
  | AdConfirmed => "confirmed"
  | AdRevoked => "revoked"
  end.
Definition channel_status_text (s : ChannelStatus) : string :=
  match s with
  | ChEligible => "eligible"
  | ChIneligible => "ineligible"
  | ChRequiresReview => "requires_review"
  end.

Definition unavailable (reason_code : string) (eligibility : option AdminMarketChannelEligibility)
  : TunisiaPaymentOptionResult :=
  {| tpo_visible := false; tpo_reason_code := reason_code;
     tpo_address_status := (fun e => address_status_text (elg_address_status e)) <$> eligibility;
     tpo_country_code := e ← eligibility; elg_country_code e;
     tpo_sales_channel := None; tpo_currency := None; tpo_offer_ref := None;
     tpo_offer_display_name := None; tpo_billing_period := None; tpo_amount := None |}.

Definition eligibility_failure (eligibility : option AdminMarketChannelEligibility)
  : option TunisiaPaymentOptionResult :=
  match eligibility with
  | None => Some (unavailable "trusted_customer_eligibility_required" None)
  | Some e =>
      let address_status := lower (strip (address_status_text (elg_address_status e))) in
      let country_code := (fun c => upper (strip c)) <$> elg_country_code e in
      if negb (bool_decide (address_status = "confirmed"))
      then Some (unavailable "confirmed_customer_address_required" eligibility)
      else if negb (bool_decide (country_code = Some "TN"))
      then Some (unavailable "tunisian_customer_address_required" eligibility)
      else if negb (bool_decide (lower (strip (channel_status_text (elg_maestro_direct_status e))) =
                                 "eligible"))
      then Some (unavailable "maestro_direct_customer_ineligible" eligibility)
      else if elg_admin_review_required e
      then Some (unavailable "maestro_direct_admin_review_required" eligibility)
      else None
  end.

(** ** The payment option *)

Definition payment_option_body (customer plan : string) (period : BillingInterval) (now : datetime)
  : Market TunisiaPaymentOptionResult :=
  erow ← eligibility_by_customer customer;
  let eligibility := snd <$> erow in
  match eligibility_failure eligibility with
  | Some failure => mret failure
  | None =>
      orow ← get_published_direct_for_plan_code plan period now;
      match orow with
      | None => mret (unavailable "published_tnd_direct_offer_required" eligibility)
      | Some (_, offer) =>
          destination ← active_default_destination;
          match destination with
          | None => mret (unavailable "active_default_payment_destination_required" eligibility)
          | Some _ =>
              mret {| tpo_visible := true; tpo_reason_code := "tunisian_direct_payment_available";
                      tpo_address_status := Some "confirmed"; tpo_country_code := Some "TN";
                      tpo_sales_channel := Some "maestro_direct"; tpo_currency := Some "TND";
                      tpo_offer_ref := Some (of_offer_code offer);
                      tpo_offer_display_name := Some (of_display_name offer);
                      tpo_billing_period := Some (period_text period);
                      tpo_amount := Some (of_amount offer) |}
          end
      end
  end.

Definition evaluate_payment_option (customer_ref plan_ref billing_period : string) (now : datetime)
    (db : MarketDb) : res TunisiaPaymentOptionResult :=
  '(customer, plan, period) ← direct_inputs customer_ref plan_ref billing_period;
  t ← aware_now now "Direct-commerce";
  fst (with_uow (payment_option_body customer plan period t) db).

(** ** The order *)

Record DirectOrderCommand := {
  do_actor_user_id : string;
  do_actor_session_id : string;
  do_customer_ref : string;
  do_plan_ref : string;
  do_billing_period : string;
  do_correlation_id : string;
  do_idempotency_key : string
}.

(** The normalised request. *)
Record DirectOrderRequest := {
  dq_actor : string;
  dq_session : string;
  dq_customer : string;
  dq_plan : string;
  dq_period : BillingInterval;
  dq_correlation : string;
  dq_hash : string;
  dq_now : datetime
}.

Definition offer_snapshot (offer : AdminMarketOffer) (plan_ref : string) (period : BillingInterval)
    (amount : dec) (now : datetime) : list (string * json) :=
  [ ("offer_ref", JStr (of_offer_code offer)); ("plan_ref", JStr plan_ref);
    ("display_name", JStr (of_display_name offer)); ("billing_period", JStr (period_text period));
    ("currency", JStr "TND"); ("amount", JStr (dec_str amount));
    ("sales_channel", JStr "maestro_direct"); ("contract_required", JBool true);
    ("contract_version", JStr TUNISIA_DIRECT_CONTRACT_VERSION);
    ("snapshot_at", JStr (isoformat now)) ].

Definition destination_snapshot (d : AdminMarketPaymentDestination) (now : datetime)
  : list (string * json) :=
  [ ("destination_ref", JStr (pd_destination_ref d)); ("display_name", JStr (pd_display_name d));
    ("destination_type", JStr (destination_type_text (pd_destination_type d)));
    ("institution_name", JStr (pd_institution_name d));
    ("account_holder_name", JStr (pd_account_holder_name d));
    ("masked_identifier", JStr (pd_masked_identifier d));
    ("instructions", json_opt (pd_instructions d)); ("country_code", JStr "TN");
    ("currency", JStr "TND"); ("sales_channel", JStr "maestro_direct");
    ("snapshot_at", JStr (isoformat now)) ].

Definition build_order (reference : UUID) (r : DirectOrderRequest) (offer_id : UUID)
    (offer : AdminMarketOffer) (d : AdminMarketPaymentDestination) : res AdminMarketOrder :=
  amount ← quantize ROUND_HALF_EVEN (-3) (of_amount offer);
  let token := uuid_hex reference in
  mret {| or_order_ref := "ord_" +:+ String.substring 0 24 token;
          or_customer_ref := dq_customer r; or_offer_id := offer_id; or_plan_id := of_plan_id offer;
          or_billing_period := dq_period r; or_selected_channel := MaestroDirect;
          or_country_code := "TN"; or_currency := "TND"; or_subtotal_amount := amount;
          or_tax_amount := Dec 0 (-3); or_total_amount := amount; or_status := OrAwaitingContract;
          or_contract_status := CtPending; or_payment_requirement := PayRequired;
          or_payment_status := OpPending;
          or_payment_reference := Some ("TN-" +:+ upper (String.substring 24 12 token));
          or_payment_destination_snapshot := destination_snapshot d (dq_now r);
          or_offer_snapshot := offer_snapshot offer (dq_plan r) (dq_period r) amount (dq_now r);
          or_creation_idempotency_key_hash := Some (dq_hash r); or_created_at := dq_now r;
          or_updated_at := dq_now r; or_completed_at := None; or_cancelled_at := None |}.

Definition order_state (o : AdminMarketOrder) : list (string * json) :=
  [ ("order_ref", JStr (or_order_ref o)); ("customer_ref", JStr (or_customer_ref o));
    ("offer_id", JStr (or_offer_id o)); ("plan_id", JStr (or_plan_id o));
    ("billing_period", JStr (period_text (or_billing_period o)));
    ("sales_channel", JStr (channel_text (or_selected_channel o)));
    ("country_code", JStr (or_country_code o)); ("currency", JStr (or_currency o));
    ("subtotal_amount", JStr (dec_str (or_subtotal_amount o)));
    ("tax_amount", JStr (dec_str (or_tax_amount o)));
    ("total_amount", JStr (dec_str (or_total_amount o)));
    ("status", JStr (order_status_text (or_status o)));
    ("contract_status", JStr (contract_status_text (or_contract_status o)));
    ("payment_requirement", JStr (requirement_text (or_payment_requirement o)));
    ("payment_status", JStr (payment_status_text (or_payment_status o)));
    ("payment_reference", json_opt (or_payment_reference o)) ].

(** The order belongs to the same request. *)
Definition same_order_request (o : AdminMarketOrder) (customer plan : string) (period : BillingInterval)
  : bool :=
  bool_decide (or_customer_ref o = customer) && bool_decide (or_billing_period o = period) &&
  bool_decide (jget_text (or_offer_snapshot o) "plan_ref" = plan) &&
  bool_decide (or_selected_channel o = MaestroDirect).
Definition require_same_request (o : AdminMarketOrder) (r : DirectOrderRequest) : res unit :=
  ensure (same_order_request o (dq_customer r) (dq_plan r) (dq_period r)) DirectCommerceConflictError
    "Idempotency key belongs to another commercial order request.".

Definition direct_order_result (id : UUID) (o : AdminMarketOrder) (reason_code : string)
  : res DirectCommercialOrderResult :=
  offer_ref ← jindex (or_offer_snapshot o) "offer_ref";
  plan_ref ← jindex (or_offer_snapshot o) "plan_ref";
  version ← jindex (or_offer_snapshot o) "contract_version";
  mret {| dor_order_id := id; dor_order_ref := or_order_ref o; dor_customer_ref := or_customer_ref o;
          dor_offer_ref := py_str offer_ref; dor_plan_ref := py_str plan_ref;
          dor_billing_period := or_billing_period o; dor_sales_channel := or_selected_channel o;
          dor_country_code := or_country_code o; dor_currency := or_currency o;
          dor_subtotal_amount := or_subtotal_amount o; dor_tax_amount := or_tax_amount o;
          dor_total_amount := or_total_amount o; dor_status := or_status o;
          dor_contract_status := or_contract_status o; dor_contract_version := py_str version;
          dor_payment_requirement := or_payment_requirement o;
          dor_payment_status := or_payment_status o; dor_payment_reference := or_payment_reference o;
          dor_payment_destination_snapshot := or_payment_destination_snapshot o;
          dor_created_at := or_created_at o; dor_updated_at := or_updated_at o;
          dor_reason_code := reason_code |}.

Section DirectOrder.
Context `{Sha256}.

Definition direct_order_request (cmd : DirectOrderCommand) (now : datetime) : res DirectOrderRequest :=
  '(customer, plan, period) ←
    direct_inputs (do_customer_ref cmd) (do_plan_ref cmd) (do_billing_period cmd);
  actor ← sales_required (do_actor_user_id cmd) "actor_user_id";
  session ← sales_required (do_actor_session_id cmd) "actor_session_id";
  correlation ← sales_required (do_correlation_id cmd) "correlation_id";
  hash ← idempotency_hash (do_idempotency_key cmd);
  t ← aware_now now "Direct-commerce";
  mret {| dq_actor := actor; dq_session := session; dq_customer := customer; dq_plan := plan;
          dq_period := period; dq_correlation := correlation; dq_hash := hash; dq_now := t |}.

Definition order_audit (event : UUID) (o : AdminMarketOrder) (r : DirectOrderRequest)
  : res CommercialAuditRecord :=
  plan_ref ← jindex (or_offer_snapshot o) "plan_ref";
  mret {| car_event_id := event; car_occurred_at := dq_now r; car_actor_user_id := dq_actor r;
          car_actor_session_id := dq_session r; car_platform_authority := "identity_customer";
          car_action := ORDER_CREATED; car_resource_type := RtOrder;
          car_resource_id := or_order_ref o; car_outcome := ALLOWED;
          car_reason_code := "commercial_order_created"; car_correlation_id := dq_correlation r;
          car_previous_state_digest := None;
          car_new_state_digest := Some (state_digest (order_state o));
          car_metadata := [ ("plan_ref", py_str plan_ref);
                            ("billing_period", period_text (or_billing_period o));
                            ("sales_channel", channel_text (or_selected_channel o)) ] |}.

(** [unit.orders.add(order)] and what is recorded with it. *)
Definition record_order (ids : SalesIds) (r : DirectOrderRequest) (o : AdminMarketOrder) : Market unit :=
  add_market_order (si_row ids) o;;
  audit ← lift (order_audit (si_event ids) o r);
  append_audit audit;;
  enqueue_commercial_notification (si_notice ids) "order_created" "order" (or_order_ref o)
    (or_customer_ref o)
    [ ("order_ref", or_order_ref o); ("status", order_status_text (or_status o));
      ("currency", or_currency o) ]
    (dq_hash r) (dq_now r).

Definition direct_order_body (ids : SalesIds) (r : DirectOrderRequest)
  : Market DirectCommercialOrderResult :=
  existing ← market_order_by_creation_hash (dq_hash r);
  match existing with
  | Some (id, o) =>
      lift (require_same_request o r);;
      lift (direct_order_result id o "commercial_order_create_idempotent")
  | None =>
      erow ← eligibility_by_customer (dq_customer r);
      match eligibility_failure (snd <$> erow) with
      | Some failure => throw DirectCommerceUnavailableError (tpo_reason_code failure)
      | None =>
          offer_row ← get_published_direct_for_plan_code (dq_plan r) (dq_period r) (dq_now r);
          match offer_row with
          | None => throw DirectCommerceUnavailableError "published_tnd_direct_offer_required"
          | Some (offer_id, offer) =>
              destination ← active_default_destination;
              match destination with
              | None => throw DirectCommerceUnavailableError
                          "active_default_payment_destination_required"
              | Some (_, d) =>
                  o ← lift (build_order (si_reference ids) r offer_id offer d);
                  record_order ids r o;;
                  market_commit;;
                  lift (direct_order_result (si_row ids) o "commercial_order_created")
              end
          end
      end
  end.

Definition direct_order_replay (r : DirectOrderRequest) : Market (option DirectCommercialOrderResult) :=
  existing ← market_order_by_creation_hash (dq_hash r);
  match existing with
  | None => mret None
  | Some (id, o) =>
      lift (require_same_request o r);;
      result ← lift (direct_order_result id o "commercial_order_create_idempotent");
      mret (Some result)
  end.

Definition create_direct_order (ids : SalesIds) (cmd : DirectOrderCommand) (now : datetime)
    (db later : MarketDb) : res DirectCommercialOrderResult * MarketDb :=
  match direct_order_request cmd now with
  | Ok r => with_replay (direct_order_body ids r) (direct_order_replay r) db later
  | Raise e => (Raise e, db)
  end.
End DirectOrder.

(** * Contracts of direct orders

    Models [contract_service.py]: the authenticated clickwrap that completes the contract of
    an order and opens its payment. *)
Record ContractCompletionResult := {
  ccr_contract_id : UUID;
  ccr_contract_ref : string;
  ccr_order_ref : string;
  ccr_contract_version : string;
  ccr_status : ContractRowStatus;
  ccr_acceptance_method : AcceptanceMethod;
  ccr_evidence_reference : string;
  ccr_completed_at : datetime;
  ccr_order_status : OrderStatus;
  ccr_payment_status : OrderPaymentStatus;
  ccr_payment_reference : option string;
  ccr_payment_destination_snapshot : list (string * json);
  ccr_reason_code : string
}.

Record ContractCommand := {
  cm_actor_user_id : string;
  cm_actor_session_id : string;
  cm_customer_ref : string;
  cm_order_ref : string;
  cm_contract_version : string;
  cm_correlation_id : string;
  cm_idempotency_key : string
}.

(** The normalised request. *)
Record ContractRequest := {
  cq_actor : string;
  cq_session : string;
  cq_customer : string;
  cq_order_ref : string;
  cq_version : string;
  cq_correlation : string;
  cq_hash : string;
  cq_now : datetime
}.

Definition require_customer_order (row : option (UUID * AdminMarketOrder)) (customer_ref : string)
  : res (UUID * AdminMarketOrder) :=
  match row with
  | Some (id, o) =>
      if bool_decide (or_customer_ref o = customer_ref) then mret (id, o)
      else raise CommercialOrderNotFoundError "Commercial order was not found."
  | None => raise CommercialOrderNotFoundError "Commercial order was not found."
  end.

Definition require_same_contract (c : AdminMarketContract) (version : string) : res unit :=
  ensure (bool_decide (ctr_contract_version c = version) && bool_decide (ctr_status c = CrCompleted) &&
          bool_decide (ctr_acceptance_method c = AuthenticatedClickwrap))
    ContractCompletionConflictError "Stored contract conflicts with the completion request.".

Definition order_contract_state (o : AdminMarketOrder) : list (string * json) :=
  [ ("order_ref", JStr (or_order_ref o)); ("status", JStr (order_status_text (or_status o)));
    ("contract_status", JStr (contract_status_text (or_contract_status o)));
    ("payment_status", JStr (payment_status_text (or_payment_status o))) ].

(** The columns of an order that decisions change. *)
Definition set_order (st : OrderStatus) (contract : ContractStatus) (pay : OrderPaymentStatus)
    (updated : datetime) (completed : option datetime) (o : AdminMarketOrder) : AdminMarketOrder :=
  {| or_order_ref := or_order_ref o; or_customer_ref := or_customer_ref o;
     or_offer_id := or_offer_id o; or_plan_id := or_plan_id o;
     or_billing_period := or_billing_period o; or_selected_channel := or_selected_channel o;
     or_country_code := or_country_code o; or_currency := or_currency o;
     or_subtotal_amount := or_subtotal_amount o; or_tax_amount := or_tax_amount o;
     or_total_amount := or_total_amount o; or_status := st; or_contract_status := contract;
     or_payment_requirement := or_payment_requirement o; or_payment_status := pay;
     or_payment_reference := or_payment_reference o;
     or_payment_destination_snapshot := or_payment_destination_snapshot o;
     or_offer_snapshot := or_offer_snapshot o;
     or_creation_idempotency_key_hash := or_creation_idempotency_key_hash o;
     or_created_at := or_created_at o; or_updated_at := updated; or_completed_at := completed;
     or_cancelled_at := or_cancelled_at o |}.

(** [order.contract_status = "completed"; order.status = "awaiting_payment"]. *)
Definition contract_completed_order (now : datetime) (o : AdminMarketOrder) : AdminMarketOrder :=
  set_order OrAwaitingPayment CtCompleted (or_payment_status o) now (or_completed_at o) o.

Definition contract_result (id : UUID) (c : AdminMarketContract) (o : AdminMarketOrder)
    (reason_code : string) : ContractCompletionResult :=
  {| ccr_contract_id := id; ccr_contract_ref := ctr_contract_ref c; ccr_order_ref := or_order_ref o;
     ccr_contract_version := ctr_contract_version c; ccr_status := ctr_status c;
     ccr_acceptance_method := ctr_acceptance_method c;
     ccr_evidence_reference := ctr_evidence_reference c; ccr_completed_at := ctr_completed_at c;
     ccr_order_status := or_status o; ccr_payment_status := or_payment_status o;
     ccr_payment_reference := or_payment_reference o;
     ccr_payment_destination_snapshot := or_payment_destination_snapshot o;
     ccr_reason_code := reason_code |}.

Definition completed_contract (ids : SalesIds) (r : ContractRequest) (order_id : UUID)
  : AdminMarketContract :=
  let token := uuid_hex (si_reference ids) in
  {| ctr_contract_ref := "ctr_" +:+ String.substring 0 24 token; ctr_order_id := order_id;
     ctr_customer_ref := cq_customer r; ctr_contract_version := cq_version r;
     ctr_status := CrCompleted; ctr_accepted_party_ref := cq_actor r;
     ctr_acceptance_method := AuthenticatedClickwrap;
     ctr_evidence_reference := "cev_" +:+ String.substring 24 8 token;
     ctr_completion_idempotency_key_hash := cq_hash r; ctr_completed_at := cq_now r;
     ctr_created_at := cq_now r |}.

(** The order accepts the contract of this version. *)
Definition contract_acceptable (o : AdminMarketOrder) (version : string) : res unit :=
  let expected := lower (strip (jget_text (or_offer_snapshot o) "contract_version")) in
  _ ← ensure (nonempty expected && bool_decide (version = expected)) ContractCompletionConflictError
        "Contract version does not match the order snapshot.";
  _ ← ensure (bool_decide (or_selected_channel o = MaestroDirect)) ContractCompletionConflictError
        "Order does not use the direct sales channel.";
  ensure (bool_decide (or_status o = OrAwaitingContract) && bool_decide (or_contract_status o = CtPending))
    ContractCompletionConflictError "Order is not awaiting contract completion.".

Section DirectContract.
Context `{Sha256}.

Definition contract_request (cmd : ContractCommand) (now : datetime) : res ContractRequest :=
  actor ← sales_required (cm_actor_user_id cmd) "actor_user_id";
  session ← sales_required (cm_actor_session_id cmd) "actor_session_id";
  customer ← sales_required (cm_customer_ref cmd) "customer_ref";
  order_ref ← sales_required (cm_order_ref cmd) "order_ref";
  version ← sales_required (cm_contract_version cmd) "contract_version";
  correlation ← sales_required (cm_correlation_id cmd) "correlation_id";
  hash ← idempotency_hash (cm_idempotency_key cmd);
  t ← aware_now now "Contract completion";
  mret {| cq_actor := actor; cq_session := session; cq_customer := customer;
          cq_order_ref := lower order_ref; cq_version := lower version; cq_correlation := correlation;
          cq_hash := hash; cq_now := t |}.

Definition contract_audit (event : UUID) (c : AdminMarketContract) (o : AdminMarketOrder)
    (r : ContractRequest) (previous_digest : string) : CommercialAuditRecord :=
  {| car_event_id := event; car_occurred_at := cq_now r; car_actor_user_id := cq_actor r;
     car_actor_session_id := cq_session r; car_platform_authority := "identity_customer";
     car_action := CONTRACT_COMPLETED; car_resource_type := RtContract;
     car_resource_id := ctr_contract_ref c; car_outcome := ALLOWED;
     car_reason_code := "contract_completed"; car_correlation_id := cq_correlation r;
     car_previous_state_digest := Some previous_digest;
     car_new_state_digest := Some (state_digest (order_contract_state o));
     car_metadata := [ ("order_ref", or_order_ref o); ("contract_version", ctr_contract_version c);
                       ("acceptance_method", acceptance_text (ctr_acceptance_method c)) ] |}.

(** The contract, the order moved to its payment, the audit record and two notifications. *)
Definition record_contract (ids : SalesIds) (r : ContractRequest) (order_id : UUID)
    (o : AdminMarketOrder) : Market (AdminMarketContract * AdminMarketOrder) :=
  let previous := state_digest (order_contract_state o) in
  let c := completed_contract ids r order_id in
  let o' := contract_completed_order (cq_now r) o in
  mutate (put_market_order order_id o');;
  add_contract (si_row ids) c;;
  append_audit (contract_audit (si_event ids) c o' r previous);;
  enqueue_commercial_notification (si_notice ids) "contract_completed" "order" (or_order_ref o')
    (or_customer_ref o')
    [ ("order_ref", or_order_ref o'); ("contract_ref", ctr_contract_ref c);
      ("contract_version", ctr_contract_version c) ]
    (ctr_completion_idempotency_key_hash c) (cq_now r);;
  enqueue_commercial_notification (si_notice2 ids) "payment_instructions_ready" "order"
    (or_order_ref o') (or_customer_ref o')
    [ ("order_ref", or_order_ref o'); ("currency", "TND");
      ("status", order_status_text (or_status o')) ]
    (ctr_completion_idempotency_key_hash c) (cq_now r);;
  mret (c, o').

Definition contract_body (ids : SalesIds) (r : ContractRequest) : Market ContractCompletionResult :=
  orow ← market_order_by_ref (cq_order_ref r);
  order ← lift (require_customer_order orow (cq_customer r));
  let '(order_id, o) := order in
  existing ← contract_by_order order_id;
  match existing with
  | Some (id, c) =>
      lift (require_same_contract c (cq_version r));;
      mret (contract_result id c o "contract_completion_idempotent")
  | None =>
      lift (contract_acceptable o (cq_version r));;
      written ← record_contract ids r order_id o;
      market_commit;;
      mret (contract_result (si_row ids) (fst written) (snd written) "contract_completed")
  end.

Definition contract_replay (r : ContractRequest) : Market (option ContractCompletionResult) :=
  orow ← market_order_by_ref (cq_order_ref r);
  order ← lift (require_customer_order orow (cq_customer r));
  let '(order_id, o) := order in
  existing ← contract_by_order order_id;
  match existing with
  | None => mret None
  | Some (id, c) =>
      lift (require_same_contract c (cq_version r));;
      mret (Some (contract_result id c o "contract_completion_idempotent"))
  end.

Definition complete_authenticated_clickwrap (ids : SalesIds) (cmd : ContractCommand) (now : datetime)
    (db later : MarketDb) : res ContractCompletionResult * MarketDb :=
  match contract_request cmd now with
  | Ok r => with_replay (contract_body ids r) (contract_replay r) db later
  | Raise e => (Raise e, db)
  end.
End DirectContract.
