(* ===== verification/PaymentEvidence.v ===== *)
(** * Payment reports and their verification

    Models [payment_evidence_service.py]: the report of a customer, recorded with what it
    matches and never taken for a verification, and the one explicit decision of an
    administrator on it. *)
From stdpp Require Import pretty.
From Stdlib Require Import Ascii.
From S2P Require Import Prelude PyString PyDateTime PyDecimal PyText PyJson Authority Uow SalesDb MarketDb.
From S2P Require Import CommerceAudit DirectOrder.
#[local] Open Scope Z_scope.

Record CustomerPaymentReportResult := {
  cpr_evidence_id : UUID;
  cpr_evidence_ref : string;
  cpr_order_ref : string;
  cpr_source_type : EvidenceSource;
  cpr_status : EvidenceStatus;
  cpr_actual_amount : dec;
  cpr_currency : string;
  cpr_safe_source_reference : string;
  cpr_reference_matched : bool;
  cpr_amount_matched : bool;
  cpr_currency_matched : bool;
  cpr_destination_matched : bool;
  cpr_match_reason_code : string;
  cpr_reported_at : datetime;
  cpr_order_status : OrderStatus;
  cpr_payment_status : OrderPaymentStatus;
  cpr_reason_code : string
}.

Record AdminPaymentVerificationResult := {
  apv_verification_id : UUID;
  apv_verification_ref : string;
  apv_evidence_ref : string;
  apv_order_ref : string;
  apv_status : VerificationStatus;
  apv_decision_reason_code : option string;
  apv_decided_at : option datetime;
  apv_order_status : OrderStatus;
  apv_payment_status : OrderPaymentStatus;
  apv_reason_code : string
}.

(** ** Inputs *)

Definition report_currency (value : string) : res string :=
  normalized ← sales_required value "currency";
  let c := upper normalized in
  _ ← ensure (Nat.eqb (String.length c) 3 && all_chars is_alpha c) ValueError
        "currency must be a three-letter code.";
  mret c.

(** [_amount]: finite, not negative, three decimals, at most fifteen digits before them. *)
Definition report_amount (value : Decimal) : res dec :=
  match value with
  | NonFinite => raise ValueError "actual_amount must be a nonnegative amount with 3 decimals."
  | Finite amount =>
      _ ← reject_if (dec_ltb amount (dec_int 0)) ValueError
            "actual_amount must be a nonnegative amount with 3 decimals.";
      _ ← reject_if (dexp amount <? -3) ValueError
            "actual_amount must be a nonnegative amount with 3 decimals.";
      _ ← reject_if (14 <? adjusted amount) ValueError "actual_amount is too large.";
      mret amount
  end.

(** [_source_reference]: upper case, without white space. *)
Definition source_reference (value : string) : res string :=
  text ← sales_required value "transfer_reference";
  let normalized := keep_chars (fun c => negb (is_space c)) (upper text) in
  _ ← ensure (Nat.leb 4 (String.length normalized) && Nat.leb (String.length normalized) 128)
        ValueError "transfer_reference length is invalid.";
  mret normalized.

(** [f"***{value[-4:]}"]. *)
Definition masked_reference (value : string) : string :=
  "***" +:+ String.substring (String.length value - 4) 4 value.

(** ** What a report matches *)

(** [_destination_matches_order]. *)
Definition destination_matches_order (o : AdminMarketOrder) : bool :=
  let snapshot := or_payment_destination_snapshot o in
  let holds key text := match dict_get snapshot key with
                        | Some (JStr s) => bool_decide (s = text)
                        | _ => false
                        end in
  nonempty (strip (jget_text snapshot "destination_ref")) &&
  holds "country_code" "TN" && holds "currency" "TND" && holds "sales_channel" "maestro_direct".

Definition expected_reference (o : AdminMarketOrder) : string :=
  upper (strip (default "" (or_payment_reference o))).

Record MatchFlags := {
  mf_reference : bool;
  mf_amount : bool;
  mf_currency : bool;
  mf_destination : bool
}.
Definition all_matched (m : MatchFlags) : bool :=
  mf_reference m && mf_amount m && mf_currency m && mf_destination m.

Definition report_match (o : AdminMarketOrder) (payment_reference : string) (amount : dec)
    (currency : string) : MatchFlags :=
  {| mf_reference := nonempty (expected_reference o) &&
                     bool_decide (payment_reference = expected_reference o);
     mf_amount := dec_eqb amount (or_total_amount o);
     mf_currency := bool_decide (currency = upper (or_currency o));
     mf_destination := destination_matches_order o |}.

Definition mismatch_reason (m : MatchFlags) : string :=
  if negb (mf_reference m) then "customer_report_reference_mismatch"
  else if negb (mf_amount m) then "customer_report_amount_mismatch"
  else if negb (mf_currency m) then "customer_report_currency_mismatch"
  else if negb (mf_destination m) then "customer_report_destination_mismatch"
  else "customer_report_requires_review".

(** ** The state of an order's payment *)

Definition order_payment_state (o : AdminMarketOrder) : list (string * json) :=
  [ ("order_ref", JStr (or_order_ref o)); ("status", JStr (order_status_text (or_status o)));
    ("payment_status", JStr (payment_status_text (or_payment_status o)));
    ("updated_at", JStr (isoformat (or_updated_at o))) ].

(** [order.payment_status = ...; order.status = ...; order.updated_at = now]. *)
Definition set_payment (st : OrderStatus) (pay : OrderPaymentStatus) (now : datetime)
    (o : AdminMarketOrder) : AdminMarketOrder :=
  set_order st (or_contract_status o) pay now (or_completed_at o) o.

(** [_require_customer_payment_order]. *)
Definition require_customer_payment_order (row : option (UUID * AdminMarketOrder)) (customer_ref : string)
  : res (UUID * AdminMarketOrder) :=
  order ← require_customer_order row customer_ref;
  let o := snd order in
  _ ← ensure (bool_decide (or_selected_channel o = MaestroDirect) &&
              bool_decide (or_country_code o = "TN")) PaymentEvidenceConflictError
        "Order is not a Tunisian direct order.";
  _ ← ensure (bool_decide (or_contract_status o = CtCompleted)) PaymentEvidenceConflictError
        "Contract completion is required.";
  _ ← ensure (bool_decide (or_status o ∈ [OrAwaitingPayment; OrPaymentUnderReview]))
        PaymentEvidenceConflictError "Order is not accepting payment reports.";
  _ ← ensure (bool_decide (or_payment_status o ∈ [OpPending; OpCustomerReported; OpRequiresReview]))
        PaymentEvidenceConflictError "Payment state does not accept reports.";
  mret order.

Definition customer_result (id : UUID) (e : AdminMarketPaymentEvidence) (o : AdminMarketOrder)
    (reason_code : string) : CustomerPaymentReportResult :=
  {| cpr_evidence_id := id; cpr_evidence_ref := pev_evidence_ref e; cpr_order_ref := or_order_ref o;
     cpr_source_type := pev_source_type e; cpr_status := pev_status e;
     cpr_actual_amount := pev_actual_amount e; cpr_currency := pev_currency e;
     cpr_safe_source_reference := pev_safe_source_reference e;
     cpr_reference_matched := pev_reference_matched e; cpr_amount_matched := pev_amount_matched e;
     cpr_currency_matched := pev_currency_matched e;
     cpr_destination_matched := pev_destination_matched e;
     cpr_match_reason_code := pev_match_reason_code e; cpr_reported_at := pev_reported_at e;
     cpr_order_status := or_status o; cpr_payment_status := or_payment_status o;
     cpr_reason_code := reason_code |}.

(** ** The report *)

Record PaymentReportCommand := {
  rp_actor_user_id : string;
  rp_actor_session_id : string;
  rp_customer_ref : string;
  rp_order_ref : string;
  rp_actual_amount : Decimal;
  rp_currency : string;
  rp_payment_reference : string;
  rp_transfer_reference : string;
  rp_correlation_id : string;
  rp_idempotency_key : string
}.

(** The normalised report. *)
Record PaymentReport := {
  pq_actor : string;
  pq_session : string;
  pq_customer : string;
  pq_order_ref : string;
  pq_amount : dec;
  pq_currency : string;
  pq_reference : string;
  pq_source_hash : string;
  pq_safe_source : string;
  pq_correlation : string;
  pq_hash : string;
  pq_now : datetime
}.

(** [_require_replay]: the stored evidence is of the same report. *)
Definition require_report_replay (e : AdminMarketPaymentEvidence) (order : option AdminMarketOrder)
    (r : PaymentReport) : res AdminMarketOrder :=
  match order with
  | None => raise PaymentEvidenceConflictError "Idempotency key conflicts with stored state."
  | Some o =>
      _ ← ensure (bool_decide (pev_customer_ref e = pq_customer r)) PaymentEvidenceConflictError
            "Idempotency key conflicts with stored state.";
      _ ← ensure (bool_decide (or_order_ref o = pq_order_ref r) &&
                  dec_eqb (pev_actual_amount e) (pq_amount r) &&
                  bool_decide (pev_currency e = pq_currency r) &&
                  eqb (pev_reference_matched e) (bool_decide (pq_reference r = expected_reference o)) &&
                  bool_decide (pev_source_reference_hash e = pq_source_hash r))
            PaymentEvidenceConflictError "Idempotency key conflicts with stored state.";
      mret o
  end.

Definition reported_evidence (ids : SalesIds) (r : PaymentReport) (order_id : UUID) (m : MatchFlags)
  : AdminMarketPaymentEvidence :=
  {| pev_evidence_ref := "pev_" +:+ String.substring 0 24 (uuid_hex (si_reference ids));
     pev_order_id := order_id; pev_customer_ref := pq_customer r;
     pev_source_type := SrcCustomerReport;
     pev_status := if all_matched m then EvMatched else EvRequiresReview;
     pev_actual_amount := pq_amount r; pev_currency := pq_currency r;
     pev_safe_source_reference := pq_safe_source r; pev_source_reference_hash := pq_source_hash r;
     pev_submission_idempotency_key_hash := pq_hash r; pev_reference_matched := mf_reference m;
     pev_amount_matched := mf_amount m; pev_currency_matched := mf_currency m;
     pev_destination_matched := mf_destination m;
     pev_match_reason_code := if all_matched m then "customer_report_exact_match" else mismatch_reason m;
     pev_reported_at := pq_now r; pev_created_at := pq_now r |}.

Definition reported_order (r : PaymentReport) (m : MatchFlags) (o : AdminMarketOrder) : AdminMarketOrder :=
  set_payment (if all_matched m then OrAwaitingPayment else OrPaymentUnderReview)
    (if all_matched m then OpCustomerReported else OpRequiresReview) (pq_now r) o.

(** [_audit_record]. *)
Definition evidence_audit (event : UUID) (now : datetime) (actor session authority : string)
    (action : CommercialAuditAction) (rtype : CommercialResourceType) (resource : string)
    (outcome : CommercialAuditOutcome) (reason correlation previous new_digest : string)
    (metadata : list (string * string)) : CommercialAuditRecord :=
  {| car_event_id := event; car_occurred_at := now; car_actor_user_id := actor;
     car_actor_session_id := session; car_platform_authority := authority; car_action := action;
     car_resource_type := rtype; car_resource_id := resource; car_outcome := outcome;
     car_reason_code := reason; car_correlation_id := correlation;
     car_previous_state_digest := Some previous; car_new_state_digest := Some new_digest;
     car_metadata := metadata |}.

Section PaymentEvidence.
Context `{Sha256}.

Definition payment_report (cmd : PaymentReportCommand) (now : datetime) : res PaymentReport :=
  actor ← sales_required (rp_actor_user_id cmd) "actor_user_id";
  session ← sales_required (rp_actor_session_id cmd) "actor_session_id";
  customer ← sales_required (rp_customer_ref cmd) "customer_ref";
  order_ref ← sales_required (rp_order_ref cmd) "order_ref";
  currency ← report_currency (rp_currency cmd);
  amount ← report_amount (rp_actual_amount cmd);
  reference ← sales_required (rp_payment_reference cmd) "payment_reference";
  source ← source_reference (rp_transfer_reference cmd);
  correlation ← sales_required (rp_correlation_id cmd) "correlation_id";
  key ← sales_required (rp_idempotency_key cmd) "idempotency_key";
  t ← aware_now now "Payment evidence";
  mret {| pq_actor := actor; pq_session := session; pq_customer := customer;
          pq_order_ref := lower order_ref; pq_amount := amount; pq_currency := currency;
          pq_reference := upper reference; pq_source_hash := sha256_hex source;
          pq_safe_source := masked_reference source; pq_correlation := correlation;
          pq_hash := sha256_hex key; pq_now := t |}.

(** The order, its evidence, the audit record and the notification of a report. *)
Definition record_report (ids : SalesIds) (r : PaymentReport) (order_id : UUID) (o : AdminMarketOrder)
    (m : MatchFlags) : Market (AdminMarketPaymentEvidence * AdminMarketOrder) :=
  let previous := state_digest (order_payment_state o) in
  let e := reported_evidence ids r order_id m in
  let o' := reported_order r m o in
  mutate (put_market_order order_id o');;
  add_evidence (si_row ids) e;;
  append_audit (evidence_audit (si_event ids) (pq_now r) (pq_actor r) (pq_session r)
    "identity_customer" PAYMENT_EVIDENCE_RECORDED RtPaymentEvidence (pev_evidence_ref e)
    (if all_matched m then ALLOWED else REQUIRES_REVIEW) (pev_match_reason_code e)
    (pq_correlation r) previous (state_digest (order_payment_state o'))
    [ ("order_ref", or_order_ref o'); ("source_type", source_text (pev_source_type e));
      ("match_reason", pev_match_reason_code e) ]);;
  enqueue_commercial_notification (si_notice ids)
    (if all_matched m then "payment_reported" else "payment_requires_review") "order"
    (or_order_ref o') (or_customer_ref o')
    [ ("order_ref", or_order_ref o'); ("evidence_ref", pev_evidence_ref e);
      ("status", evidence_status_text (pev_status e)); ("currency", pev_currency e) ]
    (pq_hash r) (pq_now r);;
  mret (e, o').

Definition report_body (ids : SalesIds) (r : PaymentReport) : Market CustomerPaymentReportResult :=
  replay ← evidence_by_submission_hash (pq_hash r);
  match replay with
  | Some (id, e) =>
      order ← market_order_by_id (pev_order_id e);
      o ← lift (require_report_replay e order r);
      mret (customer_result id e o "payment_report_idempotent")
  | None =>
      orow ← market_order_by_ref (pq_order_ref r);
      order ← lift (require_customer_payment_order orow (pq_customer r));
      let '(order_id, o) := order in
      let m := report_match o (pq_reference r) (pq_amount r) (pq_currency r) in
      written ← record_report ids r order_id o m;
      market_commit;;
      mret (customer_result (si_row ids) (fst written) (snd written) "payment_report_recorded")
  end.

Definition report_replay (r : PaymentReport) : Market (option CustomerPaymentReportResult) :=
  replay ← evidence_by_submission_hash (pq_hash r);
  match replay with
  | None => mret None
  | Some (id, e) =>
      order ← market_order_by_id (pev_order_id e);
      o ← lift (require_report_replay e order r);
      mret (Some (customer_result id e o "payment_report_idempotent"))
  end.

Definition report_payment (ids : SalesIds) (cmd : PaymentReportCommand) (now : datetime)
    (db later : MarketDb) : res CustomerPaymentReportResult * MarketDb :=
  match payment_report cmd now with
  | Ok r => with_replay (report_body ids r) (report_replay r) db later
  | Raise e => (Raise e, db)
  end.

(** ** The decision *)

Record VerifyPaymentCommand := {
  vp_authority : AdminMarketplaceAuthorityContext;
  vp_evidence_ref : string;
  vp_decision : string;
  vp_reason_code : string;
  vp_correlation_id : string;
  vp_idempotency_key : string
}.

Record PaymentDecision := {
  vq_authority : AdminMarketplaceAuthorityContext;
  vq_evidence_ref : string;
  vq_verified : bool;
  vq_reason : string;
  vq_correlation : string;
  vq_hash : string;
  vq_now : datetime
}.

Definition decision_status (verified : bool) : VerificationStatus :=
  if verified then VfVerified else VfRejected.

Definition payment_decision (cmd : VerifyPaymentCommand) (now : datetime) : res PaymentDecision :=
  _ ← require_admin_marketplace_authority (vp_authority cmd) VERIFY_PAYMENT;
  evidence_ref ← sales_required (vp_evidence_ref cmd) "evidence_ref";
  text ← sales_required (vp_decision cmd) "decision";
  _ ← ensure (bool_decide (lower text = "verified") || bool_decide (lower text = "rejected"))
        ValueError "Unsupported payment verification decision.";
  reason ← sales_required (vp_reason_code cmd) "reason_code";
  correlation ← sales_required (vp_correlation_id cmd) "correlation_id";
  key ← sales_required (vp_idempotency_key cmd) "idempotency_key";
  t ← aware_now now "Payment verification";
  mret {| vq_authority := vp_authority cmd; vq_evidence_ref := lower evidence_ref;
          vq_verified := bool_decide (lower text = "verified"); vq_reason := lower reason;
          vq_correlation := correlation; vq_hash := sha256_hex key; vq_now := t |}.

Definition evidence_flags (e : AdminMarketPaymentEvidence) : MatchFlags :=
  {| mf_reference := pev_reference_matched e; mf_amount := pev_amount_matched e;
     mf_currency := pev_currency_matched e; mf_destination := pev_destination_matched e |}.

(** The evidence matched, or its exception was accepted. *)
Definition exact_evidence (e : AdminMarketPaymentEvidence) : bool :=
  bool_decide (pev_status e = EvMatched) && all_matched (evidence_flags e).
Definition accepted_exception (evidence_id : UUID) (c : option AdminMarketPaymentReconciliationCase)
  : bool :=
  match c with
  | Some c => bool_decide (prc_status c = CaseResolved) &&
              bool_decide (prc_resolution c = Some "accepted_match") &&
              bool_decide (prc_evidence_id c = evidence_id)
  | None => false
  end.

Definition require_verifiable (o : AdminMarketOrder) (evidence_id : UUID) (e : AdminMarketPaymentEvidence)
    (verified : bool) (c : option AdminMarketPaymentReconciliationCase) : res unit :=
  _ ← ensure (bool_decide (or_contract_status o = CtCompleted) &&
              bool_decide (or_selected_channel o = MaestroDirect)) PaymentVerificationConflictError
        "Order cannot be payment-verified.";
  if verified then
    _ ← ensure ((exact_evidence e || accepted_exception evidence_id c) &&
                bool_decide (or_payment_status o = OpCustomerReported)) PaymentVerificationConflictError
          "Only an exact matched customer report can be verified.";
    ensure (bool_decide (or_status o = OrAwaitingPayment)) PaymentVerificationConflictError
      "Order is not awaiting verification."
  else mret tt.

(** [_require_same_decision]. *)
Definition require_same_decision (v : AdminMarketPaymentVerification) (evidence_id : UUID)
    (r : PaymentDecision) : res unit :=
  ensure (bool_decide (pvr_evidence_id v = Some evidence_id) &&
          bool_decide (pvr_status v = decision_status (vq_verified r)) &&
          bool_decide (pvr_decision_reason_code v = Some (vq_reason r)) &&
          bool_decide (pvr_decision_idempotency_key_hash v = Some (vq_hash r)))
    PaymentVerificationConflictError "Payment verification already has a different decision.".

(** The columns of an evidence row that decisions change. *)
Definition set_evidence (st : EvidenceStatus) (m : MatchFlags) (reason : string)
    (e : AdminMarketPaymentEvidence) : AdminMarketPaymentEvidence :=
  {| pev_evidence_ref := pev_evidence_ref e; pev_order_id := pev_order_id e;
     pev_customer_ref := pev_customer_ref e; pev_source_type := pev_source_type e;
     pev_status := st; pev_actual_amount := pev_actual_amount e; pev_currency := pev_currency e;
     pev_safe_source_reference := pev_safe_source_reference e;
     pev_source_reference_hash := pev_source_reference_hash e;
     pev_submission_idempotency_key_hash := pev_submission_idempotency_key_hash e;
     pev_reference_matched := mf_reference m; pev_amount_matched := mf_amount m;
     pev_currency_matched := mf_currency m; pev_destination_matched := mf_destination m;
     pev_match_reason_code := reason; pev_reported_at := pev_reported_at e;
     pev_created_at := pev_created_at e |}.
Definition set_evidence_status (st : EvidenceStatus) (e : AdminMarketPaymentEvidence)
  : AdminMarketPaymentEvidence :=
  set_evidence st (evidence_flags e) (pev_match_reason_code e) e.

Definition new_verification (ids : SalesIds) (r : PaymentDecision) (order_id evidence_id : UUID)
    (e : AdminMarketPaymentEvidence) : AdminMarketPaymentVerification :=
  {| pvr_verification_ref := "pvr_" +:+ String.substring 0 24 (uuid_hex (si_reference ids));
     pvr_order_id := order_id; pvr_evidence_id := Some evidence_id;
     pvr_status := decision_status (vq_verified r); pvr_safe_reference := Some (pev_evidence_ref e);
     pvr_decided_by_user_id := Some (au_user_id (vq_authority r));
     pvr_decision_reason_code := Some (vq_reason r);
     pvr_decision_idempotency_key_hash := Some (vq_hash r); pvr_decided_at := Some (vq_now r);
     pvr_created_at := vq_now r; pvr_updated_at := vq_now r |}.

Definition decided_order (r : PaymentDecision) (o : AdminMarketOrder) : AdminMarketOrder :=
  if vq_verified r then set_payment OrReadyForActivation OpVerified (vq_now r) o
  else set_payment OrRequiresReview OpRejected (vq_now r) o.

Definition verification_result (id : UUID) (v : AdminMarketPaymentVerification)
    (e : AdminMarketPaymentEvidence) (o : AdminMarketOrder) (reason_code : string)
  : AdminPaymentVerificationResult :=
  {| apv_verification_id := id; apv_verification_ref := pvr_verification_ref v;
     apv_evidence_ref := pev_evidence_ref e; apv_order_ref := or_order_ref o;
     apv_status := pvr_status v; apv_decision_reason_code := pvr_decision_reason_code v;
     apv_decided_at := pvr_decided_at v; apv_order_status := or_status o;
     apv_payment_status := or_payment_status o; apv_reason_code := reason_code |}.

(** The order, a rejected evidence, the verification, the audit record and the
    notification of a decision. *)
Definition record_decision (ids : SalesIds) (r : PaymentDecision) (order_id : UUID) (o : AdminMarketOrder)
    (evidence_id : UUID) (e : AdminMarketPaymentEvidence)
  : Market (AdminMarketPaymentVerification * AdminMarketPaymentEvidence * AdminMarketOrder) :=
  let previous := state_digest (order_payment_state o) in
  let v := new_verification ids r order_id evidence_id e in
  let o' := decided_order r o in
  let e' := if vq_verified r then e else set_evidence_status EvRejected e in
  mutate (put_market_order order_id o');;
  mutate (put_evidence evidence_id e');;
  add_verification (si_row ids) v;;
  append_audit (evidence_audit (si_event ids) (vq_now r) (au_user_id (vq_authority r))
    (au_session_id (vq_authority r)) "platform_admin" PAYMENT_VERIFICATION_DECIDED
    RtPaymentVerification (pvr_verification_ref v) (if vq_verified r then ALLOWED else DENIED)
    (vq_reason r) (vq_correlation r) previous (state_digest (order_payment_state o'))
    [ ("order_ref", or_order_ref o'); ("evidence_ref", pev_evidence_ref e');
      ("decision", verification_status_text (pvr_status v)) ]);;
  enqueue_commercial_notification (si_notice ids)
    (if vq_verified r then "payment_verified" else "payment_requires_review") "order"
    (or_order_ref o') (or_customer_ref o')
    [ ("order_ref", or_order_ref o'); ("evidence_ref", pev_evidence_ref e');
      ("verification_ref", pvr_verification_ref v);
      ("status", verification_status_text (pvr_status v)) ]
    (vq_hash r) (vq_now r);;
  mret (v, e', o').

Definition decision_body (ids : SalesIds) (r : PaymentDecision) : Market AdminPaymentVerificationResult :=
  erow ← evidence_by_ref (vq_evidence_ref r);
  match erow with
  | None => throw PaymentEvidenceNotFoundError "Payment evidence was not found."
  | Some (evidence_id, e) =>
      order ← market_order_by_id (pev_order_id e);
      match order with
      | None => throw PaymentEvidenceNotFoundError "Payment evidence was not found."
      | Some o =>
          let order_id := pev_order_id e in
          existing ← verification_by_order order_id;
          match existing with
          | Some (id, v) =>
              lift (require_same_decision v evidence_id r);;
              mret (verification_result id v e o "payment_decision_idempotent")
          | None =>
              crow ← case_by_evidence evidence_id;
              lift (require_verifiable o evidence_id e (vq_verified r) (snd <$> crow));;
              written ← record_decision ids r order_id o evidence_id e;
              market_commit;;
              let '(v, e', o') := written in
              mret (verification_result (si_row ids) v e' o' "payment_decision_recorded")
          end
      end
  end.

(** [_decision_replay]. *)
Definition decision_replay (r : PaymentDecision) : Market (option AdminPaymentVerificationResult) :=
  erow ← evidence_by_ref (vq_evidence_ref r);
  match erow with
  | None => mret None
  | Some (evidence_id, e) =>
      order ← market_order_by_id (pev_order_id e);
      vrow ← verification_by_order (pev_order_id e);
      match order, vrow with
      | Some o, Some (id, v) =>
          lift (require_same_decision v evidence_id r);;
          mret (Some (verification_result id v e o "payment_decision_idempotent"))
      | _, _ => mret None
      end
  end.

Definition decide_payment (ids : SalesIds) (cmd : VerifyPaymentCommand) (now : datetime)
    (db later : MarketDb) : res AdminPaymentVerificationResult * MarketDb :=
  match payment_decision cmd now with
  | Ok r => with_replay (decision_body ids r) (decision_replay r) db later
  | Raise e => (Raise e, db)
  end.
End PaymentEvidence.
