(* ===== verification/PaymentReconciliation.v ===== *)
(** * Reconciliation of payment exceptions

    Models [payment_reconciliation_service.py]: the decisions of an administrator on the
    case of a payment evidence, which never verify the payment themselves. *)
From stdpp Require Import pretty.
From Stdlib Require Import Ascii.
From S2P Require Import Prelude PyString PyDateTime PyDecimal PyText PyJson Authority Uow SalesDb MarketDb.
From S2P Require Import CommerceAudit DirectOrder PaymentEvidence.
#[local] Open Scope Z_scope.

Notation case_row := AdminMarketPaymentReconciliationCase.

Inductive CaseAction :=
  DoAcceptMatch | DoReject | DoLink | DoUnlink | DoReevaluate | DoReview.

#[global] Instance CaseAction_eq_dec : EqDecision CaseAction.
Proof. solve_decision. Defined.

(** [_ACTIONS]. *)
Definition CASE_ACTIONS : list (string * CaseAction) :=
  [ ("accept_match", DoAcceptMatch); ("reject", DoReject); ("link", DoLink); ("unlink", DoUnlink);
    ("reevaluate", DoReevaluate); ("review", DoReview) ].
Definition action_text (a : CaseAction) : string :=
  match a with
  | DoAcceptMatch => "accept_match"
  | DoReject => "reject"
  | DoLink => "link"
  | DoUnlink => "unlink"
  | DoReevaluate => "reevaluate"
  | DoReview => "review"
  end.

(** [_resolution]: the action's own name, but for two. *)
Definition resolution (a : CaseAction) : string :=
  match a with
  | DoReview => "placed_in_review"
  | DoAcceptMatch => "accepted_match"
  | _ => action_text a
  end.

Record PaymentReconciliationResult := {
  prr_case_ref : string;
  prr_evidence_ref : string;
  prr_original_order_ref : string;
  prr_candidate_order_ref : option string;
  prr_status : CaseStatus;
  prr_exception_type : string;
  prr_resolution : option string;
  prr_reason_code : string;
  prr_safe_note : option string;
  prr_evidence_status : EvidenceStatus;
  prr_updated_at : datetime
}.

(** ** Inputs *)

Definition case_required (value name : string) : res string :=
  let normalized := strip value in
  _ ← ensure (nonempty normalized) PaymentReconciliationConflictError (name +:+ " is required.");
  mret normalized.

(** [value.split()]: the words between white space; [cur] is the word being read. *)
Fixpoint words (cur s : string) : list string :=
  match s with
  | EmptyString => if nonempty cur then [cur] else []
  | String c s' =>
      if is_space c then (if nonempty cur then cur :: words "" s' else words "" s')
      else words (cur +:+ String c "") s'
  end.

(** [\d{8,}]; [run] counts the digits just before. *)
Fixpoint eight_digits (run : nat) (s : string) : bool :=
  match s with
  | EmptyString => false
  | String c s' =>
      if is_digit c then Nat.leb 7 run || eight_digits (S run) s' else eight_digits 0 s'
  end.

Definition is_word (c : ascii) : bool := is_alnum c || Ascii.eqb c "_"%char.

(** [[A-Z]{2}\d{2}[A-Z0-9]{10,30}\b], ignoring case, at the start of the text. *)
Definition iban_here (s : string) : bool :=
  match s with
  | String a (String b (String c (String d rest))) =>
      is_alpha a && is_alpha b && is_digit c && is_digit d &&
      let (run, after) := span_chars is_alnum rest in
      Nat.leb 10 (String.length run) && Nat.leb (String.length run) 30 &&
      match after with String u _ => negb (is_word u) | EmptyString => true end
  | _ => false
  end.
(** The same after a word boundary; [prev] tells whether a word character came before. *)
Fixpoint iban_anywhere (prev : bool) (s : string) : bool :=
  negb prev && iban_here s ||
  match s with EmptyString => false | String c s' => iban_anywhere (is_word c) s' end.

Definition NOTE_SECRETS : list string :=
  [ "password"; "secret"; "token"; "apikey"; "api_key"; "api key"; "api-key"; "authorization";
    "cookie"; "credential"; "otp"; "mfa" ].
Definition unsafe_note (s : string) : bool :=
  existsb (fun sub => contains sub (lower s)) NOTE_SECRETS || iban_anywhere false s || eight_digits 0 s.

Definition safe_note (value : option string) : res (option string) :=
  match value with
  | None => mret None
  | Some v =>
      if blank v then mret None
      else
        let normalized := join " " (words "" v) in
        _ ← reject_if (Nat.ltb 500 (String.length normalized) || unsafe_note normalized)
              PaymentReconciliationConflictError "The reconciliation note is not safe.";
        mret (Some normalized)
  end.

Record ReconcilePaymentCommand := {
  rx_authority : AdminMarketplaceAuthorityContext;
  rx_evidence_ref : string;
  rx_action : string;
  rx_exception_type : option string;
  rx_reason_code : string;
  rx_safe_note : option string;
  rx_candidate_order_ref : option string;
  rx_correlation_id : string;
  rx_idempotency_key : string
}.

Record CaseDecision := {
  cd_authority : AdminMarketplaceAuthorityContext;
  cd_evidence_ref : string;
  cd_action : CaseAction;
  cd_exception_type : option string;
  cd_reason : string;
  cd_note : option string;
  cd_candidate_ref : option string;
  cd_correlation : string;
  cd_hash : string;
  cd_now : datetime
}.

Definition optional_lower (value : option string) (name : string) : res (option string) :=
  match value with
  | None => mret None
  | Some v => n ← case_required v name; mret (Some (lower n))
  end.

(** ** The case *)

(** [_exception_type]. *)
Definition exception_type (e : AdminMarketPaymentEvidence) (o : AdminMarketOrder) : string :=
  if dec_ltb (pev_actual_amount e) (or_total_amount o) then "underpayment"
  else if dec_ltb (or_total_amount o) (pev_actual_amount e) then "overpayment"
  else if negb (pev_currency_matched e) then "currency_mismatch"
  else if negb (pev_reference_matched e) then "unknown_reference"
  else if negb (pev_destination_matched e) then "old_destination"
  else if bool_decide (pev_source_type e = SrcAdminException) then "untrusted_evidence"
  else "other".

(** [_trusted_destination] asks for the same snapshot as the report does. *)
Definition trusted_destination (o : AdminMarketOrder) : bool := destination_matches_order o.

Definition opened_case (ids : SalesIds) (r : CaseDecision) (evidence_id : UUID)
    (e : AdminMarketPaymentEvidence) (o : AdminMarketOrder) : case_row :=
  {| prc_case_ref := "prc_" +:+ String.substring 0 24 (uuid_hex (si_reference ids));
     prc_evidence_id := evidence_id; prc_candidate_order_id := None; prc_status := CaseOpen;
     prc_exception_type := exception_type e o; prc_resolution := None; prc_reason_code := cd_reason r;
     prc_safe_note := None; prc_decided_by_user_id := None;
     prc_decision_idempotency_key_hash := None; prc_opened_at := cd_now r; prc_resolved_at := None;
     prc_created_at := cd_now r; prc_updated_at := cd_now r |}.

Definition case_status_of (a : CaseAction) : CaseStatus :=
  match a with
  | DoReject => CaseRejected
  | DoAcceptMatch => CaseResolved
  | _ => CaseRequiresReview
  end.

Definition decided_case (r : CaseDecision) (candidate : option UUID) (c : case_row) : case_row :=
  {| prc_case_ref := prc_case_ref c; prc_evidence_id := prc_evidence_id c;
     prc_candidate_order_id := candidate; prc_status := case_status_of (cd_action r);
     prc_exception_type := default (prc_exception_type c) (cd_exception_type r);
     prc_resolution := Some (resolution (cd_action r)); prc_reason_code := cd_reason r;
     prc_safe_note := cd_note r; prc_decided_by_user_id := Some (au_user_id (cd_authority r));
     prc_decision_idempotency_key_hash := Some (cd_hash r); prc_opened_at := prc_opened_at c;
     prc_resolved_at := match cd_action r with
                        | DoAcceptMatch | DoReject => Some (cd_now r)
                        | _ => None
                        end;
     prc_created_at := prc_created_at c; prc_updated_at := cd_now r |}.

(** [repr(_case_state(case, evidence))]. *)
Definition case_state_text (c : case_row) (e : AdminMarketPaymentEvidence) : string :=
  "(" +:+ join ", "
    [ repr_str (prc_case_ref c); repr_str (case_status_text (prc_status c));
      py_repr (json_opt (prc_resolution c));
      match prc_candidate_order_id c with
      | Some id => "UUID(" +:+ repr_str id +:+ ")"
      | None => "None"
      end;
      repr_str (evidence_status_text (pev_status e)); repr_str (pev_match_reason_code e) ] +:+ ")".

(** The evidence compared again with [target]. *)
Definition reevaluated_flags (e : AdminMarketPaymentEvidence) (target : AdminMarketOrder)
    (same_order : bool) : MatchFlags :=
  {| mf_reference := pev_reference_matched e && same_order;
     mf_amount := dec_eqb (pev_actual_amount e) (or_total_amount target);
     mf_currency := bool_decide (pev_currency e = or_currency target);
     mf_destination := trusted_destination target |}.
Definition reevaluated (m : MatchFlags) (e : AdminMarketPaymentEvidence) : AdminMarketPaymentEvidence :=
  set_evidence (if all_matched m then EvMatched else EvRequiresReview) m
    (if all_matched m then "reconciliation_exact_match" else "reconciliation_requires_review") e.

(** The evidence after the action. *)
Definition case_evidence (r : CaseDecision) (e : AdminMarketPaymentEvidence)
    (target : AdminMarketOrder) (same_order : bool) : AdminMarketPaymentEvidence :=
  match cd_action r with
  | DoLink | DoUnlink => set_evidence_status (pev_status e) e
  | DoReevaluate => reevaluated (reevaluated_flags e target same_order) e
  | DoAcceptMatch => set_evidence EvMatched (evidence_flags e) "admin_exception_match_accepted" e
  | DoReject => set_evidence_status EvRejected e
  | DoReview => set_evidence_status EvRequiresReview e
  end.

(** The order after the action; an activated order is left alone. *)
Definition case_order (r : CaseDecision) (o : AdminMarketOrder) : AdminMarketOrder :=
  if bool_decide (or_status o = OrActivated) then o
  else match cd_action r with
       | DoAcceptMatch => set_payment OrAwaitingPayment OpCustomerReported (cd_now r) o
       | DoReject => set_payment OrRequiresReview OpRejected (cd_now r) o
       | DoReview => set_payment OrPaymentUnderReview OpRequiresReview (cd_now r) o
       | DoLink | DoUnlink | DoReevaluate => o
       end.

Definition case_result (c : case_row) (e : AdminMarketPaymentEvidence) (original : AdminMarketOrder)
    (candidate : option AdminMarketOrder) : PaymentReconciliationResult :=
  {| prr_case_ref := prc_case_ref c; prr_evidence_ref := pev_evidence_ref e;
     prr_original_order_ref := or_order_ref original;
     prr_candidate_order_ref := or_order_ref <$> candidate; prr_status := prc_status c;
     prr_exception_type := prc_exception_type c; prr_resolution := prc_resolution c;
     prr_reason_code := prc_reason_code c; prr_safe_note := prc_safe_note c;
     prr_evidence_status := pev_status e; prr_updated_at := prc_updated_at c |}.

Section PaymentReconciliation.
Context `{Sha256}.

Definition case_decision (cmd : ReconcilePaymentCommand) (now : datetime) : res CaseDecision :=
  _ ← require_admin_marketplace_authority (rx_authority cmd) RECONCILE_PAYMENT;
  evidence_ref ← case_required (rx_evidence_ref cmd) "evidence_ref";
  text ← case_required (rx_action cmd) "action";
  action ← match dict_get CASE_ACTIONS (lower text) with
           | Some a => mret a
           | None => raise PaymentReconciliationConflictError "Unknown reconciliation action."
           end;
  etype ← optional_lower (rx_exception_type cmd) "exception_type";
  _ ← ensure (match etype with Some t => bool_decide (t ∈ EXCEPTION_TYPES) | None => true end)
        PaymentReconciliationConflictError "Unknown payment exception type.";
  reason ← case_required (rx_reason_code cmd) "reason_code";
  _ ← ensure (Nat.leb (String.length (lower reason)) 128) PaymentReconciliationConflictError
        "Reason code is too long.";
  note ← safe_note (rx_safe_note cmd);
  candidate ← optional_lower (rx_candidate_order_ref cmd) "candidate_order_ref";
  _ ← reject_if (bool_decide (action = DoLink) && bool_decide (candidate = None))
        PaymentReconciliationConflictError "A candidate order is required.";
  t ← aware_now now "Payment reconciliation";
  key ← case_required (rx_idempotency_key cmd) "idempotency_key";
  correlation ← case_required (rx_correlation_id cmd) "correlation_id";
  mret {| cd_authority := rx_authority cmd; cd_evidence_ref := lower evidence_ref; cd_action := action;
          cd_exception_type := etype; cd_reason := lower reason; cd_note := note;
          cd_candidate_ref := candidate; cd_correlation := correlation; cd_hash := sha256_hex key;
          cd_now := t |}.

Definition case_audit (event : UUID) (r : CaseDecision) (c : case_row) (evidence_ref : string)
    (previous new_digest : string) : CommercialAuditRecord :=
  {| car_event_id := event; car_occurred_at := cd_now r;
     car_actor_user_id := au_user_id (cd_authority r);
     car_actor_session_id := au_session_id (cd_authority r);
     car_platform_authority := "platform_admin"; car_action := PAYMENT_RECONCILIATION_DECIDED;
     car_resource_type := RtPaymentReconciliation; car_resource_id := prc_case_ref c;
     car_outcome := match cd_action r with
                    | DoReject => DENIED
                    | DoAcceptMatch => ALLOWED
                    | _ => REQUIRES_REVIEW
                    end;
     car_reason_code := cd_reason r; car_correlation_id := cd_correlation r;
     car_previous_state_digest := Some previous; car_new_state_digest := Some new_digest;
     car_metadata := [ ("evidence_ref", evidence_ref);
                       ("reconciliation_action", action_text (cd_action r)) ] |}.

(** The decision of an idempotency key already used: the same evidence and the same action. *)
Definition case_replay (r : CaseDecision) (c : case_row) : Market PaymentReconciliationResult :=
  erow ← evidence_by_ref (cd_evidence_ref r);
  match erow with
  | None => throw PaymentReconciliationConflictError "Idempotency key conflicts with stored state."
  | Some (evidence_id, e) =>
      lift (ensure (bool_decide (prc_evidence_id c = evidence_id) &&
                    bool_decide (prc_resolution c = Some (resolution (cd_action r))))
              PaymentReconciliationConflictError "Idempotency key conflicts with stored state.");;
      original ← market_order_by_id (pev_order_id e);
      candidate ← match prc_candidate_order_id c with
                  | None => mret None
                  | Some id => market_order_by_id id
                  end;
      match original with
      | Some o => mret (case_result c e o candidate)
      | None => throw AttributeError "'NoneType' object has no attribute 'order_ref'"
      end
  end.

(** The candidate the request names, of the customer of the evidence. *)
Definition case_candidate (r : CaseDecision) (e : AdminMarketPaymentEvidence)
  : Market (option (UUID * AdminMarketOrder)) :=
  match cd_candidate_ref r with
  | None => mret None
  | Some ref =>
      row ← market_order_by_ref ref;
      lift (ensure (match row with
                    | Some (_, o) => bool_decide (or_customer_ref o = pev_customer_ref e)
                    | None => false
                    end) PaymentReconciliationConflictError
              "Candidate order does not match the evidence customer.");;
      mret row
  end.

(** The order the evidence is compared with again: the candidate, the case's, or its own. *)
Definition reevaluation_target (candidate : option (UUID * AdminMarketOrder)) (c : case_row)
    (original : UUID * AdminMarketOrder) : Market (UUID * AdminMarketOrder) :=
  match candidate, prc_candidate_order_id c with
  | Some row, _ => mret row
  | None, Some id =>
      order ← market_order_by_id id;
      mret (match order with Some o => (id, o) | None => original end)
  | None, None => mret original
  end.

(** What the action makes of the candidate: the one kept by the case, and the one shown. *)
Definition candidate_after (a : CaseAction) (candidate : option (UUID * AdminMarketOrder))
    (target original : UUID * AdminMarketOrder) (c : case_row)
  : res (option UUID * option (UUID * AdminMarketOrder)) :=
  match a, candidate with
  | DoLink, Some row => mret (Some (fst row), Some row)
  | DoLink, None => raise PaymentReconciliationConflictError "A candidate order is required."
  | DoUnlink, _ => mret (None, None)
  | DoReevaluate, _ =>
      mret (prc_candidate_order_id c,
            if bool_decide (fst target = fst original) then None else Some target)
  | _, _ => mret (prc_candidate_order_id c, candidate)
  end.

(** The case, the evidence and the order after the action, the audit record and the
    notification. *)
Definition record_case (ids : SalesIds) (r : CaseDecision) (new_case : bool) (case_id : UUID)
    (c c' : case_row) (evidence_id : UUID) (e e' : AdminMarketPaymentEvidence) (order_id : UUID)
    (o' : AdminMarketOrder) : Market unit :=
  let previous := sha256_hex (case_state_text c e) in
  (if new_case then add_case case_id c' else mutate (put_case case_id c'));;
  mutate (put_evidence evidence_id e');;
  mutate (put_market_order order_id o');;
  append_audit (case_audit (si_event ids) r c' (pev_evidence_ref e') previous
                  (sha256_hex (case_state_text c' e')));;
  enqueue_commercial_notification (si_notice ids)
    (match cd_action r with DoAcceptMatch => "payment_reported" | _ => "payment_requires_review" end)
    "order" (or_order_ref o') (or_customer_ref o')
    [ ("order_ref", or_order_ref o'); ("case_ref", prc_case_ref c');
      ("status", case_status_text (prc_status c')); ("reason_code", prc_reason_code c') ]
    (cd_hash r) (cd_now r).

Definition case_body (ids : SalesIds) (r : CaseDecision) : Market PaymentReconciliationResult :=
  replay ← case_by_decision_hash (cd_hash r);
  match replay with
  | Some (_, c) => case_replay r c
  | None =>
      erow ← evidence_by_ref (cd_evidence_ref r);
      match erow with
      | None => throw PaymentEvidenceNotFoundError "Payment evidence was not found."
      | Some (evidence_id, e) =>
          order ← market_order_by_id (pev_order_id e);
          match order with
          | None => throw PaymentEvidenceNotFoundError "Payment evidence was not found."
          | Some o =>
              let original := (pev_order_id e, o) in
              crow ← case_by_evidence evidence_id;
              candidate ← case_candidate r e;
              let new_case := match crow with Some _ => false | None => true end in
              let case_id := match crow with Some (id, _) => id | None => si_row ids end in
              let c := match crow with Some (_, c) => c | None => opened_case ids r evidence_id e o end in
              target ← reevaluation_target candidate c original;
              after ← lift (candidate_after (cd_action r) candidate target original c);
              let c' := decided_case r (fst after) c in
              let e' := case_evidence r e (snd target) (bool_decide (fst target = fst original)) in
              let o' := case_order r o in
              record_case ids r new_case case_id c c' evidence_id e e' (fst original) o';;
              market_commit;;
              shown ← match snd after, prc_candidate_order_id c' with
                      | None, Some id => market_order_by_id id
                      | row, _ => mret (snd <$> row)
                      end;
              mret (case_result c' e' o' shown)
          end
      end
  end.

Definition reconcile_payment (ids : SalesIds) (cmd : ReconcilePaymentCommand) (now : datetime)
    (db : MarketDb) : res PaymentReconciliationResult * MarketDb :=
  match case_decision cmd now with
  | Ok r => with_uow (case_body ids r) db
  | Raise e => (Raise e, db)
  end.
End PaymentReconciliation.

Example note_iban : unsafe_note "paid from tn5910006035183598478831 ok" = true.
Proof. vm_compute. reflexivity. Qed.
Example note_words : safe_note (Some "  seen   at the desk ") = Ok (Some "seen at the desk").
Proof. vm_compute. reflexivity. Qed.
