(* ===== verification/Activation.v ===== *)
(** * The activation of an order

    The gate, then the unit of work that turns a ready order into a subscription. *)
From stdpp Require Import pretty.
From S2P Require Import Prelude PyString PyDecimal PyDateTime PyText PyJson Uow SalesDb MarketDb CommerceAudit DirectOrder PaymentEvidence.
#[local] Open Scope Z_scope.

(** * The activation gate

    Models [activation_gate.py]: the checks an order passes before its subscription is
    created, each with its reason, in the order of the code. *)

Record ActivationGateInput := {
  ag_order_ref : string;
  ag_customer_ref : string;
  ag_offer_ref : string;
  ag_plan_ref : string;
  ag_order_status : string;
  ag_contract_status : string;
  ag_payment_requirement : string;
  ag_payment_status : string;
  ag_selected_channel : string;
  ag_country_code : string;
  ag_currency : string;
  ag_total_amount : dec;
  ag_offer_snapshot : list (string * json);
  ag_payment_customer_ref : option string;
  ag_payment_order_ref : option string;
  ag_payment_amount : option dec;
  ag_payment_currency : option string;
  ag_existing_subscription_order_ref : option string;
  ag_existing_active_subscription_customer_ref : option string
}.

Record ActivationGateDecision := {
  agd_allowed : bool;
  agd_reasons : list string
}.

(** [_snapshot_text]: a text of the snapshot, or the empty one. *)
Definition snapshot_text (snapshot : list (string * json)) (key : string) : string :=
  match dict_get snapshot key with Some (JStr s) => strip s | _ => "" end.

(** [if b: reasons.append(reason)]. *)
Definition when (b : bool) (reason : string) : list string := if b then [reason] else [].

Definition differs (a b : string) : bool := negb (bool_decide (a = b)).
(** [a != b] of an optional and a plain value. *)
Definition opt_differs (a : option string) (b : string) : bool := negb (bool_decide (a = Some b)).
Definition amount_differs (a : option dec) (b : dec) : bool :=
  match a with Some x => negb (dec_eqb x b) | None => true end.

Definition identity_reasons (c : ActivationGateInput) : list string :=
  when (blank (ag_order_ref c)) "missing_order_ref" ++
  when (blank (ag_customer_ref c)) "missing_customer_ref" ++
  when (blank (ag_offer_ref c)) "missing_offer_ref" ++
  when (blank (ag_plan_ref c)) "missing_plan_ref".

Definition status_reasons (c : ActivationGateInput) : list string :=
  when (differs (ag_order_status c) "ready_for_activation") "order_not_ready_for_activation" ++
  when (negb (bool_decide (ag_contract_status c ∈ ["completed"; "not_required"])))
    "contract_not_completed" ++
  when (negb (bool_decide (ag_payment_status c ∈ ["verified"; "not_required"])))
    "payment_not_verified" ++
  when (bool_decide (ag_payment_requirement c = "required") && differs (ag_payment_status c) "verified")
    "required_payment_not_verified".

Definition channel_reasons (c : ActivationGateInput) : list string :=
  when (negb (bool_decide (ag_selected_channel c ∈ ["maestro_direct"; "lemon_squeezy"])))
    "unsupported_sales_channel" ++
  (if bool_decide (ag_selected_channel c = "maestro_direct") then
     when (differs (ag_country_code c) "TN") "direct_channel_requires_tunisia" ++
     when (differs (ag_currency c) "TND") "direct_channel_requires_tnd"
   else []) ++
  when (dec_ltb (ag_total_amount c) (dec_int 0)) "negative_order_total".

(** A text of the snapshot that is missing or another one. *)
Definition snapshot_differs (c : ActivationGateInput) (key value : string) : bool :=
  let t := snapshot_text (ag_offer_snapshot c) key in
  negb (nonempty t) || differs t value.

Definition snapshot_reasons (c : ActivationGateInput) : list string :=
  when (snapshot_differs c "offer_ref" (ag_offer_ref c)) "offer_snapshot_mismatch" ++
  when (snapshot_differs c "plan_ref" (ag_plan_ref c)) "plan_snapshot_mismatch" ++
  when (snapshot_differs c "currency" (ag_currency c)) "currency_snapshot_mismatch" ++
  when (snapshot_differs c "sales_channel" (ag_selected_channel c)) "channel_snapshot_mismatch" ++
  when (negb (nonempty (snapshot_text (ag_offer_snapshot c) "snapshot_at")))
    "missing_offer_snapshot_timestamp".

Definition payment_reasons (c : ActivationGateInput) : list string :=
  if bool_decide (ag_payment_status c = "verified") then
    when (opt_differs (ag_payment_customer_ref c) (ag_customer_ref c)) "payment_customer_mismatch" ++
    when (opt_differs (ag_payment_order_ref c) (ag_order_ref c)) "payment_order_mismatch" ++
    when (amount_differs (ag_payment_amount c) (ag_total_amount c)) "payment_amount_mismatch" ++
    when (opt_differs (ag_payment_currency c) (ag_currency c)) "payment_currency_mismatch"
  else [].

Definition subscription_reasons (c : ActivationGateInput) : list string :=
  when (bool_decide (is_Some (ag_existing_subscription_order_ref c))) "order_already_has_subscription" ++
  match ag_existing_active_subscription_customer_ref c with
  | None => []
  | Some other => if differs other (ag_customer_ref c) then ["active_subscription_customer_mismatch"]
                  else ["customer_already_has_active_subscription"]
  end.

Definition evaluate_activation_gate (c : ActivationGateInput) : ActivationGateDecision :=
  let reasons := identity_reasons c ++ status_reasons c ++ channel_reasons c ++ snapshot_reasons c ++
                 payment_reasons c ++ subscription_reasons c in
  {| agd_allowed := Nat.eqb (length reasons) 0; agd_reasons := reasons |}.

(** ** Lemmas *)

Lemma when_nil b reason : when b reason = [] <-> b = false.
Proof. by destruct b. Qed.

(** An allowed candidate gives no reason. *)
Lemma gate_allowed c :
  agd_allowed (evaluate_activation_gate c) = true <->
  identity_reasons c = [] /\ status_reasons c = [] /\ channel_reasons c = [] /\
  snapshot_reasons c = [] /\ payment_reasons c = [] /\ subscription_reasons c = [].
Proof.
  unfold evaluate_activation_gate. cbn [agd_allowed].
  rewrite Nat.eqb_eq length_zero_iff_nil !app_nil. tauto.
Qed.

Lemma gate_refused c :
  agd_allowed (evaluate_activation_gate c) = false -> agd_reasons (evaluate_activation_gate c) <> [].
Proof.
  unfold evaluate_activation_gate. cbn. intros H E. by rewrite E in H.
Qed.

(** * Activation of a paid order

    Models [subscription_activation_service.py]: the one unit of work that turns an order
    ready for activation into a subscription, with every condition checked again. *)
Record SubscriptionActivationResult := {
  sar_activation_id : UUID;
  sar_activation_ref : string;
  sar_subscription_id : UUID;
  sar_subscription_ref : string;
  sar_order_ref : string;
  sar_customer_ref : string;
  sar_entitlement_profile_ref : string;
  sar_status : ActivationStatus;
  sar_subscription_status : SubscriptionStatus;
  sar_order_status : OrderStatus;
  sar_activated_at : datetime;
  sar_reason_code : string
}.

Record ActivationRequest := {
  aq_order_ref : string;
  aq_correlation : string;
  aq_hash : string;
  aq_now : datetime
}.

Definition not_ready (reason : string) : res unit := raise SubscriptionActivationNotReadyError reason.
Definition ready_if (b : bool) (reason : string) : res unit :=
  ensure b SubscriptionActivationNotReadyError reason.

(** ** The conditions *)

(** [_require_order_ready]; the last test of the code, on the payment requirement, cannot
    fail on the enumeration. *)
Definition require_order_ready (o : AdminMarketOrder) : res unit :=
  _ ← reject_if (bool_decide (or_status o = OrActivated)) SubscriptionActivationConflictError
        "Activated order is missing its activation record.";
  _ ← ready_if (bool_decide (or_status o = OrReadyForActivation)) "order_not_ready_for_activation";
  _ ← ready_if (bool_decide (or_selected_channel o = MaestroDirect)) "direct_channel_required";
  _ ← ready_if (bool_decide (or_country_code o = "TN") && bool_decide (or_currency o = "TND"))
        "tunisian_direct_order_required";
  _ ← ready_if (bool_decide (or_contract_status o = CtCompleted)) "completed_contract_required";
  ready_if (negb (bool_decide (or_payment_requirement o = PayRequired)) ||
            bool_decide (or_payment_status o = OpVerified)) "verified_payment_required".

Definition contract_completed (order_id : UUID) (o : AdminMarketOrder)
    (row : option (UUID * AdminMarketContract)) : bool :=
  match row with
  | Some (_, c) => bool_decide (ctr_status c = CrCompleted) && bool_decide (ctr_order_id c = order_id) &&
                   bool_decide (ctr_customer_ref c = or_customer_ref o)
  | None => false
  end.

(** [list_by_order_id], and the item of the verification. *)
Definition evidence_of_order (order_id : UUID) : Market (list (UUID * AdminMarketPaymentEvidence)) :=
  query (fun db => find_rows (fun e => bool_decide (pev_order_id e = order_id)) (sl_evidence (db_sales db))).

Definition fully_matched (order_id : UUID) (o : AdminMarketOrder) (e : AdminMarketPaymentEvidence) : bool :=
  bool_decide (pev_order_id e = order_id) && bool_decide (pev_customer_ref e = or_customer_ref o) &&
  bool_decide (pev_status e = EvMatched) && all_matched (evidence_flags e).

(** [_load_verified_evidence]. *)
Definition load_verified_evidence (order_id : UUID) (o : AdminMarketOrder) (evidence_id : UUID)
  : Market AdminMarketPaymentEvidence :=
  items ← evidence_of_order order_id;
  match List.find (fun kr => bool_decide (fst kr = evidence_id)) items with
  | None => throw SubscriptionActivationNotReadyError "verified_payment_evidence_required"
  | Some (_, e) =>
      lift (ready_if (fully_matched order_id o e) "payment_evidence_not_fully_matched");;
      mret e
  end.

(** The evidence of a required payment: that of the verification of the order. *)
Definition required_evidence (order_id : UUID) (o : AdminMarketOrder)
  : Market (option AdminMarketPaymentEvidence) :=
  match or_payment_requirement o with
  | PayNotRequired => mret None
  | PayRequired =>
      vrow ← verification_by_order order_id;
      match vrow with
      | Some (_, v) =>
          match pvr_evidence_id v with
          | Some evidence_id =>
              lift (ready_if (bool_decide (pvr_status v = VfVerified) &&
                              bool_decide (pvr_order_id v = order_id)) "verified_payment_required");;
              e ← load_verified_evidence order_id o evidence_id;
              mret (Some e)
          | None => throw SubscriptionActivationNotReadyError "verified_payment_required"
          end
      | None => throw SubscriptionActivationNotReadyError "verified_payment_required"
      end
  end.

(** [_require_automatic_eligibility]. *)
Definition require_automatic_eligibility (row : option (UUID * AdminMarketChannelEligibility)) : res unit :=
  match row with
  | None => not_ready "channel_eligibility_required"
  | Some (_, e) =>
      _ ← ready_if (bool_decide (elg_address_status e = AdConfirmed) &&
                    bool_decide (elg_country_code e = Some "TN")) "confirmed_tunisian_address_required";
      _ ← ready_if (bool_decide (elg_maestro_direct_status e = ChEligible))
            "maestro_direct_eligibility_required";
      _ ← ready_if (negb (elg_admin_review_required e)) "admin_review_blocks_activation";
      ready_if (elg_automatic_activation_allowed e) "automatic_activation_not_allowed"
  end.

(** [_require_offer_valid], for the offer of the order's id. *)
Definition require_offer_valid (offer : AdminMarketOffer) (o : AdminMarketOrder) (now : datetime)
  : res unit :=
  _ ← ready_if (bool_decide (of_plan_id offer = or_plan_id o) &&
                bool_decide (of_status offer = OfPublished) &&
                bool_decide (of_sales_channel offer = MaestroDirect) &&
                bool_decide (of_currency offer = or_currency o) &&
                bool_decide (of_billing_period offer = or_billing_period o) &&
                dec_eqb (of_amount offer) (or_subtotal_amount o)) "offer_no_longer_valid";
  early ← match of_effective_at offer with Some t => dt_lt now t | None => mret false end;
  _ ← ready_if (negb early) "offer_not_yet_effective";
  expired ← match of_expires_at offer with Some t => dt_le t now | None => mret false end;
  ready_if (negb expired) "offer_expired".

Definition plan_profiles (plan : AdminMarketPlan) : bool :=
  negb (blank (p_plan_code plan)) && negb (blank (p_entitlement_profile_ref plan)) &&
  negb (blank (p_quota_profile_ref plan)).

(** The candidate of the gate. *)
Definition gate_input (order_id : UUID) (o : AdminMarketOrder) (offer : AdminMarketOffer)
    (plan : AdminMarketPlan) (e : option AdminMarketPaymentEvidence)
    (active : option AdminMarketSubscription) : ActivationGateInput :=
  {| ag_order_ref := or_order_ref o; ag_customer_ref := or_customer_ref o;
     ag_offer_ref := of_offer_code offer; ag_plan_ref := p_plan_code plan;
     ag_order_status := order_status_text (or_status o);
     ag_contract_status := contract_status_text (or_contract_status o);
     ag_payment_requirement := requirement_text (or_payment_requirement o);
     ag_payment_status := payment_status_text (or_payment_status o);
     ag_selected_channel := channel_text (or_selected_channel o);
     ag_country_code := or_country_code o; ag_currency := or_currency o;
     ag_total_amount := or_total_amount o; ag_offer_snapshot := or_offer_snapshot o;
     ag_payment_customer_ref := pev_customer_ref <$> e;
     ag_payment_order_ref :=
       match e with
       | Some ev => if bool_decide (pev_order_id ev = order_id) then Some (or_order_ref o) else None
       | None => None
       end;
     ag_payment_amount := pev_actual_amount <$> e; ag_payment_currency := pev_currency <$> e;
     ag_existing_subscription_order_ref := None;
     ag_existing_active_subscription_customer_ref := s_customer_ref <$> active |}.

(** ** The rows *)

Definition subscription_status_text (s : SubscriptionStatus) : string :=
  match s with
  | SubPending => "pending"
  | SubActive => "active"
  | SubSuspended => "suspended"
  | SubCancelled => "cancelled"
  | SubExpired => "expired"
  end.

Definition new_subscription (ids : SalesIds) (order_id : UUID) (o : AdminMarketOrder) (now : datetime)
  : AdminMarketSubscription :=
  {| s_subscription_ref := "sub_" +:+ String.substring 0 24 (uuid_hex (si_reference ids));
     s_customer_ref := or_customer_ref o; s_order_id := Some order_id;
     s_offer_id := Some (or_offer_id o); s_plan_id := or_plan_id o; s_status := SubActive;
     s_starts_at := Some now; s_ends_at := None |}.

Definition new_activation (ids : SalesIds) (order_id : UUID) (o : AdminMarketOrder)
    (plan : AdminMarketPlan) (r : ActivationRequest) : AdminMarketEntitlementActivation :=
  {| act_activation_ref := "act_" +:+ String.substring 0 24 (uuid_hex (si_reference2 ids));
     act_customer_ref := or_customer_ref o; act_order_id := Some order_id;
     act_subscription_id := si_row ids;
     act_entitlement_profile_ref := p_entitlement_profile_ref plan;
     act_automatic_activation_allowed := true; act_status := AcActivated;
     act_activation_idempotency_key_hash := Some (aq_hash r); act_activated_at := Some (aq_now r);
     act_created_at := aq_now r |}.

Definition activated_order (now : datetime) (o : AdminMarketOrder) : AdminMarketOrder :=
  set_order OrActivated (or_contract_status o) (or_payment_status o) now (Some now) o.

Definition activation_state (o : AdminMarketOrder) (s : option AdminMarketSubscription)
    (a : option AdminMarketEntitlementActivation) : list (string * json) :=
  [ ("order_ref", JStr (or_order_ref o)); ("order_status", JStr (order_status_text (or_status o)));
    ("subscription_ref", json_opt (s_subscription_ref <$> s));
    ("subscription_status", json_opt ((fun s => subscription_status_text (s_status s)) <$> s));
    ("activation_ref", json_opt (act_activation_ref <$> a));
    ("activation_status", json_opt ((fun a => activation_status_text (act_status a)) <$> a)) ].

Definition activation_result (activation_id : UUID) (a : AdminMarketEntitlementActivation)
    (s : AdminMarketSubscription) (o : AdminMarketOrder) (reason_code : string)
  : SubscriptionActivationResult :=
  {| sar_activation_id := activation_id; sar_activation_ref := act_activation_ref a;
     sar_subscription_id := act_subscription_id a; sar_subscription_ref := s_subscription_ref s;
     sar_order_ref := or_order_ref o; sar_customer_ref := or_customer_ref o;
     sar_entitlement_profile_ref := act_entitlement_profile_ref a; sar_status := act_status a;
     sar_subscription_status := s_status s; sar_order_status := or_status o;
     sar_activated_at := default (act_created_at a) (act_activated_at a);
     sar_reason_code := reason_code |}.

Section Activation.
Context `{Sha256}.

Definition activation_request (order_ref correlation_id idempotency_key : string) (now : datetime)
  : res ActivationRequest :=
  ref ← sales_required order_ref "order_ref";
  correlation ← sales_required correlation_id "correlation_id";
  key ← sales_required idempotency_key "idempotency_key";
  t ← aware_now now "Subscription activation";
  mret {| aq_order_ref := lower ref; aq_correlation := correlation; aq_hash := sha256_hex key;
          aq_now := t |}.

Definition activation_audit (event : UUID) (r : ActivationRequest) (o : AdminMarketOrder)
    (s : AdminMarketSubscription) (a : AdminMarketEntitlementActivation) (previous quota_profile : string)
  : CommercialAuditRecord :=
  {| car_event_id := event; car_occurred_at := aq_now r;
     car_actor_user_id := "system_subscription_activation"; car_actor_session_id := "system";
     car_platform_authority := "system"; car_action := SUBSCRIPTION_ACTIVATION_DECIDED;
     car_resource_type := RtSubscription; car_resource_id := s_subscription_ref s;
     car_outcome := ALLOWED; car_reason_code := "subscription_activated";
     car_correlation_id := aq_correlation r; car_previous_state_digest := Some previous;
     car_new_state_digest := Some (state_digest (activation_state o (Some s) (Some a)));
     car_metadata := [ ("order_ref", or_order_ref o); ("subscription_ref", s_subscription_ref s);
                       ("activation_ref", act_activation_ref a);
                       ("entitlement_profile_ref", act_entitlement_profile_ref a);
                       ("quota_profile_ref", quota_profile) ] |}.

(** The conditions of an activation, and the plan it activates. *)
Definition activation_conditions (r : ActivationRequest) (order_id : UUID) (o : AdminMarketOrder)
  : Market AdminMarketPlan :=
  lift (require_order_ready o);;
  crow ← contract_by_order order_id;
  lift (ready_if (contract_completed order_id o crow) "completed_contract_required");;
  evidence ← required_evidence order_id o;
  eligibility ← eligibility_by_customer (or_customer_ref o);
  lift (require_automatic_eligibility eligibility);;
  active ← active_subscription_by_customer (or_customer_ref o);
  found ← offer_by_id (or_offer_id o);
  match found with
  | None => throw SubscriptionActivationNotReadyError "offer_required"
  | Some offer =>
      lift (require_offer_valid offer o (aq_now r));;
      found_plan ← plan_by_id (or_plan_id o);
      match found_plan with
      | None => throw SubscriptionActivationNotReadyError "entitlement_and_quota_profiles_required"
      | Some plan =>
          lift (ready_if (plan_profiles plan) "entitlement_and_quota_profiles_required");;
          let decision :=
            evaluate_activation_gate (gate_input order_id o offer plan evidence (snd <$> active)) in
          lift (ready_if (agd_allowed decision) (default "" (head (agd_reasons decision))));;
          mret plan
      end
  end.

(** The order, its subscription and activation, the audit record and the notification. *)
Definition record_activation (ids : SalesIds) (r : ActivationRequest) (order_id : UUID)
    (o : AdminMarketOrder) (plan : AdminMarketPlan)
  : Market (AdminMarketSubscription * AdminMarketEntitlementActivation * AdminMarketOrder) :=
  let previous := state_digest (activation_state o None None) in
  let s := new_subscription ids order_id o (aq_now r) in
  let a := new_activation ids order_id o plan r in
  let o' := activated_order (aq_now r) o in
  mutate (put_market_order order_id o');;
  add_subscription (si_row ids) s;;
  add_activation (si_row2 ids) a;;
  append_audit (activation_audit (si_event ids) r o' s a previous (p_quota_profile_ref plan));;
  enqueue_commercial_notification (si_notice ids) "subscription_activated" "order" (or_order_ref o')
    (or_customer_ref o')
    [ ("order_ref", or_order_ref o'); ("subscription_ref", s_subscription_ref s);
      ("activation_ref", act_activation_ref a); ("status", activation_status_text (act_status a)) ]
    (aq_hash r) (aq_now r);;
  mret (s, a, o').

(** The key was used for this order, or not at all. *)
Definition key_conflicts (key_replay : option (UUID * AdminMarketEntitlementActivation)) (order_id : UUID)
  : bool :=
  match key_replay with
  | Some (_, a) => negb (bool_decide (act_order_id a = Some order_id))
  | None => false
  end.

Definition activation_body (ids : SalesIds) (r : ActivationRequest) : Market SubscriptionActivationResult :=
  orow ← market_order_by_ref (aq_order_ref r);
  match orow with
  | None => throw CommercialOrderNotFoundError "Commercial order was not found."
  | Some (order_id, o) =>
      key_replay ← activation_by_hash (aq_hash r);
      lift (reject_if (key_conflicts key_replay order_id) SubscriptionActivationConflictError
              "Activation idempotency key conflicts with another order.");;
      existing ← activation_by_order order_id;
      match existing with
      | Some (aid, a) =>
          found ← subscription_by_id (act_subscription_id a);
          match found with
          | None => throw SubscriptionActivationConflictError
                      "Activation references a missing subscription."
          | Some s => mret (activation_result aid a s o "subscription_already_activated")
          end
      | None =>
          plan ← activation_conditions r order_id o;
          written ← record_activation ids r order_id o plan;
          market_commit;;
          let '(s, a, o') := written in
          mret (activation_result (si_row2 ids) a s o' "subscription_activated")
      end
  end.

Definition activation_replay (r : ActivationRequest) : Market (option SubscriptionActivationResult) :=
  orow ← market_order_by_ref (aq_order_ref r);
  match orow with
  | None => mret None
  | Some (order_id, o) =>
      arow ← activation_by_hash (aq_hash r);
      match arow with
      | None => mret None
      | Some (aid, a) =>
          lift (ensure (bool_decide (act_order_id a = Some order_id)) SubscriptionActivationConflictError
                  "Activation idempotency key conflicts with another order.");;
          found ← subscription_by_id (act_subscription_id a);
          mret ((fun s => activation_result aid a s o "subscription_already_activated") <$> found)
      end
  end.

Definition activate_ready_order (ids : SalesIds) (order_ref correlation_id idempotency_key : string)
    (now : datetime) (db later : MarketDb) : res SubscriptionActivationResult * MarketDb :=
  match activation_request order_ref correlation_id idempotency_key now with
  | Ok r => with_replay (activation_body ids r) (activation_replay r) db later
  | Raise e => (Raise e, db)
  end.
End Activation.
