(* ===== verification/QuotaUsage.v ===== *)
(** * Quota usage

    The access a runtime grants, the recording of usage, and the specification of its outcomes. *)
From S2P Require Import Prelude PyString MaestroUnits PlanCatalog PyDateTime BillingPeriod Uow MarketDb.
(** * Runtime access policy

    Models [subscription_runtime_access_policy.py]: whether a subscription's runtime
    admits usage at an instant, and the lazy expiry of the grace stage. *)

(** The grace deadline of a runtime; the code raises when it is absent or naive. *)
Definition grace_deadline (r : AdminMarketSubscriptionRuntime) : res datetime :=
  match r_grace_until r with
  | Some g =>
      _ ← reject_if (naive g) SubscriptionRuntimeAccessError
            "grace runtime requires a timezone-aware grace deadline.";
      mret g
  | None => raise SubscriptionRuntimeAccessError
              "grace runtime requires a timezone-aware grace deadline."
  end.

Definition runtime_allows_usage (r : AdminMarketSubscriptionRuntime) (occurred_at : datetime)
  : res bool :=
  _ ← reject_if (naive occurred_at) ValueError "runtime access timestamp must be timezone-aware.";
  match r_access_stage r with
  | StActive => mret true
  | StGrace => g ← grace_deadline r; dt_lt occurred_at g
  | StSuspended | StTerminated => mret false
  end.

(** The runtime after its grace deadline [g]. *)
Definition suspend_at (g : datetime) (r : AdminMarketSubscriptionRuntime)
  : AdminMarketSubscriptionRuntime :=
  {| r_subscription_id := r_subscription_id r; r_customer_ref := r_customer_ref r;
     r_entitlement_profile_ref := r_entitlement_profile_ref r;
     r_quota_profile_ref := r_quota_profile_ref r; r_access_stage := StSuspended;
     r_version := r_version r + 1; r_effective_at := g; r_grace_until := None;
     r_suspended_at := Some g; r_terminated_at := None |}.

(** Returns whether the stage was advanced, and the runtime as it is left. *)
Definition advance_expired_runtime_stage (r : AdminMarketSubscriptionRuntime)
    (evaluated_at : datetime) : res (bool * AdminMarketSubscriptionRuntime) :=
  _ ← reject_if (naive evaluated_at) ValueError
        "runtime evaluation timestamp must be timezone-aware.";
  if negb (bool_decide (r_access_stage r = StGrace)) then mret (false, r)
  else
    g ← grace_deadline r;
    before ← dt_lt evaluated_at g;
    if before : bool then mret (false, r) else mret (true, suspend_at g r).

(** After the lazy expiry, usage is admitted exactly in the active stage and in a
    grace stage whose deadline lies ahead. *)
Lemma grace_deadline_Ok r g : grace_deadline r = Ok g <-> r_grace_until r = Some g /\ naive g = false.
Proof.
  unfold grace_deadline. destruct (r_grace_until r) as [h|]; [|by split; [|intros [??]]].
  split.
  - intros (? & H%reject_if_Ok & [= <-])%res_bind_Ok. done.
  - intros [[= <-] H]. apply res_bind_Ok. exists tt. split; [by apply reject_if_Ok|done].
Qed.

Lemma advance_then_allows r t b r' a :
  advance_expired_runtime_stage r t = Ok (b, r') -> runtime_allows_usage r' t = Ok a ->
  (a = true <-> r_access_stage r = StActive \/
     r_access_stage r = StGrace /\ exists g, r_grace_until r = Some g /\ instant t < instant g) /\
  (b = true <-> r_access_stage r = StGrace /\
     exists g, r_grace_until r = Some g /\ instant g <= instant t) /\
  (b = false -> r' = r) /\
  (b = true -> a = false /\ exists g, r_grace_until r = Some g /\ r' = suspend_at g r).
Proof.
  unfold advance_expired_runtime_stage. intros (? & Ht%reject_if_Ok & H)%res_bind_Ok.
  case_bool_decide as Hst; cbn [negb] in H.
  - apply res_bind_Ok in H as (g & Hg & H). apply grace_deadline_Ok in Hg as [Hg Hn].
    rewrite dt_lt_aware // in H. cbn in H. unfold runtime_allows_usage.
    destruct (Z.ltb_spec (instant t) (instant g)) as [Hlt|Hge]; injection H as <- <-;
      intros (? & _ & H)%res_bind_Ok.
    + rewrite Hst in H. apply res_bind_Ok in H as (g' & [Hg' Hn']%grace_deadline_Ok & H).
      rewrite Hg in Hg'. injection Hg' as <-. rewrite dt_lt_aware // in H.
      injection H as <-. rewrite (proj2 (Z.ltb_lt _ _) Hlt).
      split; [|split; [|split; done]].
      * split; [intros _; right; eauto|done].
      * split; [done|]. intros (_ & g' & Hg' & ?). rewrite Hg in Hg'. injection Hg' as <-. lia.
    + injection H as <-. split; [|split; [|split; [done|intros _; split; [done|eauto]]]].
      * split; [done|]. intros [?|(_ & g' & Hg' & ?)]; [congruence|].
        rewrite Hg in Hg'. injection Hg' as <-. lia.
      * split; [intros _; eauto|done].
  - injection H as <- <-. unfold runtime_allows_usage. intros (? & _ & H)%res_bind_Ok.
    split; [|split; [|split; done]].
    + destruct (r_access_stage r); try done; injection H as <-; (split; [by auto|naive_solver]).
    + split; [done|]. intros (? & _). done.
Qed.

(** * Recording quota usage

    Models [subscription_quota_usage.py]: one metered unit of work charges a quota
    cycle, exactly once per idempotency hash, gated by the subscription, its runtime
    stage and, in the grace stage, the degraded-usage cap. *)
Record SubscriptionQuotaUsageCommand := {
  q_subscription_id : UUID;
  q_quota_cycle_id : UUID;
  q_customer_ref : string;
  q_metric_code : string;
  q_units : Z;
  q_idempotency_key_hash : string;
  q_dimensions_digest : string;
  q_occurred_at : datetime
}.

Implicit Types (cmd : SubscriptionQuotaUsageCommand).

Definition usage_error {A} (msg : string) : Market A := throw SubscriptionQuotaUsageError msg.
Definition usage_require (b : bool) (msg : string) : Market unit :=
  lift (ensure b SubscriptionQuotaUsageError msg).

(** [x = await ...; if x is None: raise]. *)
Definition usage_found {A} (x : option A) (msg : string) : Market A :=
  match x with Some a => mret a | None => usage_error msg end.

Definition validate_usage cmd : res unit :=
  _ ← reject_if (q_units cmd <=? 0) ValueError "quota usage units must be positive.";
  _ ← reject_if (naive (q_occurred_at cmd)) ValueError
        "quota usage timestamp must be timezone-aware.";
  _ ← ensure (Nat.eqb (String.length (q_idempotency_key_hash cmd)) 64) ValueError
        "quota usage idempotency hash must contain 64 characters.";
  ensure (Nat.eqb (String.length (q_dimensions_digest cmd)) 64) ValueError
    "quota usage dimensions digest must contain 64 characters.".

Definition replay_matches cmd (e : AdminMarketSubscriptionQuotaCycleUsage) : bool :=
  bool_decide (u_quota_cycle_id e = q_quota_cycle_id cmd) &&
  bool_decide (u_subscription_id e = q_subscription_id cmd) &&
  bool_decide (u_customer_ref e = q_customer_ref cmd) &&
  bool_decide (u_metric_code e = q_metric_code cmd) &&
  (u_units e =? q_units cmd) &&
  bool_decide (u_dimensions_digest e = q_dimensions_digest cmd) &&
  dt_eqb (u_occurred_at e) (q_occurred_at cmd).

(** [a <= x < b]. *)
Definition dt_between (a x b : datetime) : res bool :=
  l ← dt_le a x;
  if l : bool then dt_lt x b else mret false.

(** [except SubscriptionRuntimeAccessError as exc:
    raise SubscriptionQuotaUsageError(str(exc)) from exc]. *)
Definition as_usage_error {A} (m : res A) : res A :=
  match m with
  | Raise (Exn SubscriptionRuntimeAccessError msg) => raise SubscriptionQuotaUsageError msg
  | _ => m
  end.

(** [str]-typed instants of the grace window, present and aware, and equal to the
    runtime's deadline. *)
Definition grace_window (d : AdminMarketSubscriptionDelinquency)
    (r : AdminMarketSubscriptionRuntime) : option (datetime * datetime) :=
  match d_grace_started_at d, d_grace_until d with
  | Some a, Some b =>
      if negb (naive a) && negb (naive b) && dt_opt_eqb (r_grace_until r) (Some b)
      then Some (a, b) else None
  | _, _ => None
  end.

Definition grace_cap (c : AdminMarketSubscriptionQuotaCycle)
    (d : AdminMarketSubscriptionDelinquency) : Z :=
  c_base_limit_units c * d_grace_usage_percent d / 100.

Definition enforce_degraded_grace_cap cmd (cycle : AdminMarketSubscriptionQuotaCycle)
    (runtime : AdminMarketSubscriptionRuntime) : Market unit :=
  found ← delinquency_by_subscription (q_subscription_id cmd);
  drow ← usage_found found "grace usage requires authoritative delinquency state.";
  let d := snd drow in
  usage_require (bool_decide (d_state d = DqGraceDegraded))
    "grace usage requires authoritative delinquency state.";;
  usage_require (bool_decide (d_customer_ref d = q_customer_ref cmd))
    "grace usage customer conflicts with delinquency state.";;
  window ← usage_found (grace_window d runtime)
             "grace usage requires consistent timezone-aware deadlines.";
  inside ← lift (dt_between (fst window) (q_occurred_at cmd) (snd window));
  usage_require inside "quota usage falls outside the degraded grace window.";;
  consumed_in_grace ← sum_units_since (q_quota_cycle_id cmd) (fst window);
  usage_require (negb (grace_cap cycle d <? consumed_in_grace + q_units cmd))
    "degraded grace usage cap is exhausted.".

(** The usage row of a command charged to a cycle. *)
Definition usage_of cmd (cycle : AdminMarketSubscriptionQuotaCycle)
  : AdminMarketSubscriptionQuotaCycleUsage :=
  {| u_quota_cycle_id := q_quota_cycle_id cmd; u_subscription_id := c_subscription_id cycle;
     u_customer_ref := c_customer_ref cycle; u_metric_code := c_metric_code cycle;
     u_units := q_units cmd; u_idempotency_key_hash := q_idempotency_key_hash cmd;
     u_dimensions_digest := q_dimensions_digest cmd; u_occurred_at := q_occurred_at cmd |}.

(** The subscription and the runtime, as the command requires them. *)
Definition usage_runtime cmd : Market (UUID * AdminMarketSubscriptionRuntime) :=
  sub ← subscription_by_id (q_subscription_id cmd);
  s ← usage_found sub "quota usage requires an active subscription.";
  usage_require (bool_decide (s_status s = SubActive)) "quota usage requires an active subscription.";;
  usage_require (bool_decide (s_customer_ref s = q_customer_ref cmd))
    "quota usage customer conflicts with subscription.";;
  found ← runtime_by_subscription (q_subscription_id cmd);
  rrow ← usage_found found "quota usage requires authoritative runtime access.";
  usage_require (bool_decide (r_customer_ref (snd rrow) = q_customer_ref cmd))
    "quota usage customer conflicts with runtime.";;
  mret rrow.

(** The lazy expiry of the runtime and the access decision, with the commit of an
    expired stage when usage is refused. *)
Definition usage_access cmd (rrow : UUID * AdminMarketSubscriptionRuntime)
  : Market AdminMarketSubscriptionRuntime :=
  step ← lift (as_usage_error (advance_expired_runtime_stage (snd rrow) (q_occurred_at cmd)));
  let expired := fst step in
  let runtime := snd step in
  mutate (put_runtime (fst rrow) runtime);;
  allowed ← lift (as_usage_error (runtime_allows_usage runtime (q_occurred_at cmd)));
  (if allowed : bool then mret tt
   else (if expired : bool then market_commit else mret tt);;
        usage_error "quota usage is blocked by runtime access stage.");;
  mret runtime.

(** The cycle of the command, with its balance checks. *)
Definition usage_cycle cmd (runtime : AdminMarketSubscriptionRuntime)
  : Market AdminMarketSubscriptionQuotaCycle :=
  found ← cycle_by_id (q_quota_cycle_id cmd);
  cycle ← usage_found found "quota cycle was not found.";
  usage_require (bool_decide (c_subscription_id cycle = q_subscription_id cmd) &&
                 bool_decide (c_customer_ref cycle = q_customer_ref cmd) &&
                 bool_decide (c_metric_code cycle = q_metric_code cmd))
    "quota cycle conflicts with usage command.";;
  inside ← lift (dt_between (c_period_start cycle) (q_occurred_at cmd) (c_period_end cycle));
  usage_require inside "quota usage falls outside the selected cycle.";;
  (if bool_decide (r_access_stage runtime = StGrace)
   then enforce_degraded_grace_cap cmd cycle runtime else mret tt);;
  usage_require (negb (available_units cycle <? q_units cmd)) "quota balance is insufficient.";;
  mret cycle.

(** The body of [record] inside the unit of work; [new_id] is the usage's primary key. *)
Definition record_body (new_id : UUID) cmd : Market (UUID * AdminMarketSubscriptionQuotaCycleUsage) :=
  existing ← usage_by_idempotency_hash (q_idempotency_key_hash cmd);
  match existing with
  | Some row =>
      usage_require (replay_matches cmd (snd row))
        "quota usage replay conflicts with the existing ledger entry.";;
      mret row
  | None =>
      rrow ← usage_runtime cmd;
      runtime ← usage_access cmd rrow;
      cycle ← usage_cycle cmd runtime;
      mutate (put_cycle (q_quota_cycle_id cmd) (consume_units (q_units cmd) cycle));;
      add_usage new_id (usage_of cmd cycle);;
      market_commit;;
      mret (new_id, usage_of cmd cycle)
  end.

Definition record (new_id : UUID) cmd (db : MarketDb)
  : res (UUID * AdminMarketSubscriptionQuotaCycleUsage) * MarketDb :=
  match validate_usage cmd with
  | Ok _ => with_uow (record_body new_id cmd) db
  | Raise e => (Raise e, db)
  end.

(** * What recording usage promises

    The abstract specification of [record]: a request charges the cycle once, replays
    an earlier charge, is refused without a trace, or is refused after recording that
    the grace stage has expired; and the proof that [record] implements it. *)
Section UsageSpec.
Implicit Types (db : MarketDb).

(** The degraded grace stage admits [cmd]: the runtime deadline lies ahead and the
    consumption since the grace started stays within the cap. *)
Definition grace_admits cmd db (rt : AdminMarketSubscriptionRuntime)
    (c : AdminMarketSubscriptionQuotaCycle) : Prop :=
  exists did d a g,
    db_delinquencies db !! did = Some d /\ d_subscription_id d = q_subscription_id cmd /\
    d_state d = DqGraceDegraded /\ d_customer_ref d = q_customer_ref cmd /\
    d_grace_started_at d = Some a /\ r_grace_until rt = Some g /\
    instant a <= instant (q_occurred_at cmd) < instant g /\
    sum_rows (units_since (q_quota_cycle_id cmd) a) (db_usages db) + q_units cmd <= grace_cap c d.

Definition usage_admitted cmd db (rt : AdminMarketSubscriptionRuntime)
    (c : AdminMarketSubscriptionQuotaCycle) : Prop :=
  (exists s, db_subscriptions db !! q_subscription_id cmd = Some s /\
     s_status s = SubActive /\ s_customer_ref s = q_customer_ref cmd) /\
  r_subscription_id rt = q_subscription_id cmd /\ r_customer_ref rt = q_customer_ref cmd /\
  (r_access_stage rt = StActive \/ r_access_stage rt = StGrace /\ grace_admits cmd db rt c) /\
  c_subscription_id c = q_subscription_id cmd /\ c_customer_ref c = q_customer_ref cmd /\
  c_metric_code c = q_metric_code cmd /\
  instant (c_period_start c) <= instant (q_occurred_at cmd) < instant (c_period_end c) /\
  0 < q_units cmd <= available_units c.

Definition charged (new_id : UUID) cmd (c : AdminMarketSubscriptionQuotaCycle) db : MarketDb :=
  put_usage new_id (usage_of cmd c)
    (put_cycle (q_quota_cycle_id cmd) (consume_units (q_units cmd) c) db).

(** What a request may do to the database; [usage_spec] says when. *)
Inductive usage_moves (new_id : UUID) cmd db
  : res (UUID * AdminMarketSubscriptionQuotaCycleUsage) -> MarketDb -> Prop :=
  | us_recorded rid rt c :
      (forall k u, db_usages db !! k = Some u ->
         u_idempotency_key_hash u <> q_idempotency_key_hash cmd) ->
      db_usages db !! new_id = None ->
      db_runtimes db !! rid = Some rt ->
      db_cycles db !! q_quota_cycle_id cmd = Some c ->
      usage_admitted cmd db rt c ->
      market_constraints (charged new_id cmd c db) = Ok tt ->
      usage_moves new_id cmd db (Ok (new_id, usage_of cmd c)) (charged new_id cmd c db)
  | us_replayed id u :
      db_usages db !! id = Some u ->
      u_idempotency_key_hash u = q_idempotency_key_hash cmd ->
      replay_matches cmd u = true ->
      usage_moves new_id cmd db (Ok (id, u)) db
  | us_refused e : usage_moves new_id cmd db (Raise e) db
  | us_expired e rid rt g :
      db_runtimes db !! rid = Some rt -> r_subscription_id rt = q_subscription_id cmd ->
      r_access_stage rt = StGrace -> r_grace_until rt = Some g ->
      instant g <= instant (q_occurred_at cmd) ->
      market_constraints (put_runtime rid (suspend_at g rt) db) = Ok tt ->
      usage_moves new_id cmd db (Raise e) (put_runtime rid (suspend_at g rt) db).

(** ** When a request does it

    The decision on a request, from what the database holds. *)
Inductive usage_verdict :=
  | UReplay (row : UUID * AdminMarketSubscriptionQuotaCycleUsage)
  | UCharge (c : AdminMarketSubscriptionQuotaCycle)
  | UExpire (rid : UUID) (rt : AdminMarketSubscriptionRuntime) (g : datetime)
  | URefuse.

(** The runtime of an active subscription of the customer. *)
Definition party cmd db : option (UUID * AdminMarketSubscriptionRuntime) :=
  match db_subscriptions db !! q_subscription_id cmd,
        find_row (fun r => bool_decide (r_subscription_id r = q_subscription_id cmd)) (db_runtimes db) with
  | Some s, Some (rid, rt) =>
      if bool_decide (s_status s = SubActive) && bool_decide (s_customer_ref s = q_customer_ref cmd) &&
         bool_decide (r_customer_ref rt = q_customer_ref cmd)
      then Some (rid, rt) else None
  | _, _ => None
  end.

(** [x] lies in [[a, b)], all of them aware. *)
Definition within_period (a x b : datetime) : bool :=
  negb (naive a) && negb (naive x) && (instant a <=? instant x) && negb (naive b) && (instant x <? instant b).

(** The degraded cap of the grace stage. *)
Definition under_cap cmd db (rt : AdminMarketSubscriptionRuntime) (c : AdminMarketSubscriptionQuotaCycle) : bool :=
  match find_row (fun d => bool_decide (d_subscription_id d = q_subscription_id cmd)) (db_delinquencies db) with
  | Some (_, d) =>
      match d_grace_started_at d, d_grace_until d, r_grace_until rt with
      | Some a, Some b, Some g =>
          bool_decide (d_state d = DqGraceDegraded) && bool_decide (d_customer_ref d = q_customer_ref cmd) &&
          dt_eqb g b && within_period a (q_occurred_at cmd) b &&
          (sum_rows (units_since (q_quota_cycle_id cmd) a) (db_usages db) + q_units cmd <=? grace_cap c d)
      | _, _, _ => false
      end
  | None => false
  end.

(** The cycle has the units for the command. *)
Definition covers cmd db (rt : AdminMarketSubscriptionRuntime) (c : AdminMarketSubscriptionQuotaCycle) : bool :=
  bool_decide (c_subscription_id c = q_subscription_id cmd) && bool_decide (c_customer_ref c = q_customer_ref cmd) &&
  bool_decide (c_metric_code c = q_metric_code cmd) && within_period (c_period_start c) (q_occurred_at cmd) (c_period_end c) &&
  (negb (bool_decide (r_access_stage rt = StGrace)) || under_cap cmd db rt c) && (q_units cmd <=? available_units c).

Definition charge_verdict cmd db (rt : AdminMarketSubscriptionRuntime) : usage_verdict :=
  match db_cycles db !! q_quota_cycle_id cmd with
  | Some c => if covers cmd db rt c then UCharge c else URefuse
  | None => URefuse
  end.

(** Active, or in a grace stage that is over, or still runs. *)
Definition stage_verdict cmd db (rid : UUID) (rt : AdminMarketSubscriptionRuntime) : usage_verdict :=
  match r_access_stage rt, r_grace_until rt with
  | StActive, _ => charge_verdict cmd db rt
  | StGrace, Some g =>
      if naive g then URefuse
      else if instant g <=? instant (q_occurred_at cmd) then UExpire rid rt g
      else charge_verdict cmd db rt
  | _, _ => URefuse
  end.

Definition verdict_of cmd db : usage_verdict :=
  if negb (is_ok (validate_usage cmd)) then URefuse
  else match find_row (fun u => bool_decide (u_idempotency_key_hash u = q_idempotency_key_hash cmd)) (db_usages db) with
       | Some row => if replay_matches cmd row.2 then UReplay row else URefuse
       | None => match party cmd db with
                 | Some (rid, rt) => stage_verdict cmd db rid rt
                 | None => URefuse
                 end
       end.

Definition refused {A} (r : res A) : Prop := exists e, r = Raise e.

(** The outcome of a request, decided by the verdict: nothing that is due is refused, and
    nothing else is done.  A charge needs a fresh identifier, and what the tables reject
    is not committed. *)
Definition usage_outcome (new_id : UUID) cmd db (v : usage_verdict)
    (r : res (UUID * AdminMarketSubscriptionQuotaCycleUsage)) (db' : MarketDb) : Prop :=
  match v with
  | UReplay row => r = Ok row /\ db' = db
  | UCharge c =>
      if bool_decide (db_usages db !! new_id = None) && is_ok (market_constraints (charged new_id cmd c db))
      then r = Ok (new_id, usage_of cmd c) /\ db' = charged new_id cmd c db
      else refused r /\ db' = db
  | UExpire rid rt g =>
      refused r /\
      db' = (if is_ok (market_constraints (put_runtime rid (suspend_at g rt) db)) then put_runtime rid (suspend_at g rt) db else db)
  | URefuse => refused r /\ db' = db
  end.

Definition usage_spec (new_id : UUID) cmd db r db' : Prop :=
  usage_outcome new_id cmd db (verdict_of cmd db) r db'.

Lemma charge_verdict_cases cmd db rt :
  (exists c, charge_verdict cmd db rt = UCharge c) \/ charge_verdict cmd db rt = URefuse.
Proof.
  unfold charge_verdict. destruct (db_cycles db !! _) as [c|]; [|by right].
  destruct (covers _ _ _ _); [left; by exists c|by right].
Qed.

(** ** The phases of the body *)

Lemma usage_found_Ok {A} (x : option A) msg (s : Session MarketDb) a s' :
  usage_found x msg s = (Ok a, s') <-> x = Some a /\ s' = s.
Proof. destruct x; cbn; split; [intros [= -> ->]|intros [[= ->] ->]|done|intros [? _]]; done. Qed.

Lemma usage_require_Ok b msg (s : Session MarketDb) u s' :
  usage_require b msg s = (Ok u, s') <-> b = true /\ s' = s.
Proof.
  unfold usage_require. rewrite lift_Ok ensure_Ok. split; intros [? ?]; done.
Qed.

Lemma read_only_found {A} (x : option A) msg : read_only (DB:=MarketDb) (usage_found x msg).
Proof. by destruct x. Qed.
Lemma read_only_require b msg : read_only (DB:=MarketDb) (usage_require b msg).
Proof. done. Qed.
Hint Resolve read_only_found read_only_require : maestro.

Lemma read_only_usage_runtime cmd : read_only (usage_runtime cmd).
Proof. unfold usage_runtime. reads_only. Qed.

Lemma read_only_grace_cap cmd c r : read_only (enforce_degraded_grace_cap cmd c r).
Proof. unfold enforce_degraded_grace_cap. reads_only. Qed.
Hint Resolve read_only_usage_runtime read_only_grace_cap : maestro.

Lemma read_only_usage_cycle cmd r : read_only (usage_cycle cmd r).
Proof. unfold usage_cycle. reads_only. Qed.

Ltac inv_usage :=
  repeat match goal with
  | H : (_ ≫= _) _ = (Ok _, _) |- _ => apply M_bind_Ok in H as (? & ? & ? & H)
  | H : usage_found _ _ _ = (Ok _, _) |- _ => apply usage_found_Ok in H as [? ->]
  | H : usage_require _ _ _ = (Ok _, _) |- _ => apply usage_require_Ok in H as [? ->]
  | H : lift _ _ = (Ok _, _) |- _ => apply lift_Ok in H as [? <-]
  | H : query _ _ = (Ok _, _) |- _ => rewrite query_eq in H; injection H as ? <-
  | H : mret _ _ = (Ok _, _) |- _ => injection H as <- <-
  end.

Lemma usage_runtime_Ok cmd s row s' :
  usage_runtime cmd s = (Ok row, s') ->
  s' = s /\
  (exists u, db_subscriptions (working s) !! q_subscription_id cmd = Some u /\
     s_status u = SubActive /\ s_customer_ref u = q_customer_ref cmd) /\
  db_runtimes (working s) !! row.1 = Some row.2 /\
  r_subscription_id row.2 = q_subscription_id cmd /\ r_customer_ref row.2 = q_customer_ref cmd.
Proof.
  unfold usage_runtime, subscription_by_id. intros H. inv_usage. to_prop. subst.
  match goal with H : runtime_by_subscription _ _ = _ |- _ =>
    apply runtime_by_subscription_Some in H as (-> & ? & ?) end. split_and!; eauto.
Qed.

Lemma dt_between_true a x b :
  dt_between a x b = Ok true -> instant a <= instant x < instant b.
Proof.
  intros (l & (? & _ & Hl)%res_bind_Ok & H)%res_bind_Ok. injection Hl as <-.
  destruct (Z.leb_spec (instant a) (instant x)) as [Hax|]; [|discriminate].
  apply res_bind_Ok in H as (? & _ & H). injection H as H%Z.ltb_lt. lia.
Qed.

Lemma grace_window_Some d r a b :
  grace_window d r = Some (a, b) ->
  d_grace_started_at d = Some a /\ exists g, r_grace_until r = Some g /\ instant g = instant b.
Proof.
  unfold grace_window. destruct (d_grace_started_at d) as [a'|]; [|done].
  destruct (d_grace_until d) as [b'|]; [|done]. destruct (_ && _) eqn:E; [|done].
  intros [= -> ->]. to_prop. split; [done|]. destruct (r_grace_until r) as [g|]; [|done].
  cbn in *. unfold dt_eqb in *. to_prop. eauto.
Qed.

Lemma grace_cap_Ok cmd c r s u s' :
  r_subscription_id r = q_subscription_id cmd ->
  enforce_degraded_grace_cap cmd c r s = (Ok u, s') -> grace_admits cmd (working s) r c.
Proof.
  intros Hr. unfold enforce_degraded_grace_cap, sum_units_since. intros H. inv_usage. subst.
  match goal with H : delinquency_by_subscription _ _ = _ |- _ =>
    apply delinquency_by_subscription_Some in H as (-> & Hd & Hds) end.
  match goal with H : grace_window _ _ = Some ?w |- _ =>
    destruct w as [a b]; apply grace_window_Some in H as (Ha & g & Hg & Hgb) end.
  match goal with H : dt_between _ _ _ = Ok _ |- _ => apply dt_between_true in H end.
  cbn [fst snd] in *. to_prop. unfold grace_admits. eexists _, _, a, g. split_and!; eauto; lia.
Qed.

Lemma usage_cycle_Ok cmd r s c s' :
  r_subscription_id r = q_subscription_id cmd ->
  usage_cycle cmd r s = (Ok c, s') ->
  s' = s /\ db_cycles (working s) !! q_quota_cycle_id cmd = Some c /\
  c_subscription_id c = q_subscription_id cmd /\ c_customer_ref c = q_customer_ref cmd /\
  c_metric_code c = q_metric_code cmd /\
  instant (c_period_start c) <= instant (q_occurred_at cmd) < instant (c_period_end c) /\
  (r_access_stage r = StGrace -> grace_admits cmd (working s) r c) /\
  q_units cmd <= available_units c.
Proof.
  intros Hr H. pose proof (read_only_eq _ _ _ _ (read_only_usage_cycle cmd r) H) as ->.
  split; [done|]. unfold usage_cycle, cycle_by_id in H. inv_usage. subst.
  match goal with H : dt_between _ _ _ = Ok _ |- _ => apply dt_between_true in H end.
  to_prop. split_and!; try done; try lia.
  intros Hst. match goal with H : (if bool_decide _ then _ else _) _ = _ |- _ =>
    rewrite (bool_decide_eq_true_2 _ Hst) in H; by apply grace_cap_Ok in H end.
Qed.

Lemma as_usage_error_Ok {A} (m : res A) a : as_usage_error m = Ok a -> m = Ok a.
Proof. destruct m as [|[[] ?]]; done. Qed.

(** The access phase: it returns only in an admitted stage, without changing the
    session; otherwise nothing is committed, or the expiry of the grace stage is. *)
Lemma usage_access_cases cmd rid rt s x s' :
  db_runtimes (working s) !! rid = Some rt -> committed s = working s ->
  usage_access cmd (rid, rt) s = (x, s') ->
  x = Ok rt /\ s' = s /\
    (r_access_stage rt = StActive \/ r_access_stage rt = StGrace) \/
  (exists e, x = Raise e) /\ committed s' = committed s \/
  (exists e, x = Raise e) /\ exists g, r_access_stage rt = StGrace /\
     r_grace_until rt = Some g /\ instant g <= instant (q_occurred_at cmd) /\
     market_constraints (put_runtime rid (suspend_at g rt) (working s)) = Ok tt /\
     committed s' = put_runtime rid (suspend_at g rt) (working s).
Proof.
  intros Hrt Hs. unfold usage_access. cbn [fst snd]. intros H. m_step H E.
  2:{ injection H as <- <-. right; left. injection E as _ <-. eauto. }
  destruct v as [b r']. apply lift_Ok in E as [E <-].
  apply as_usage_error_Ok in E as Ea.
  m_step H Em; [|discriminate]. injection Em as <- <-. m_step H El.
  2:{ injection H as <- <-. right; left. injection El as _ <-. eauto. }
  apply lift_Ok in El as [El <-]. match type of El with _ = Ok ?x => rename x into a end.
  apply as_usage_error_Ok in El as Er. cbn [snd] in Er.
  destruct (advance_then_allows _ _ _ _ _ Ea Er) as (Ha & Hb & Hbf & Hbt).
  destruct a.
  - left. injection H as <- <-. destruct b; [by destruct (Hbt eq_refl)|].
    rewrite (Hbf eq_refl) put_runtime_id //. split; [done|]. split; [by destruct s|].
    destruct (proj1 Ha eq_refl) as [?|[? _]]; auto.
  - destruct b; cbn [fst] in H.
    + destruct (proj1 Hb eq_refl) as (Hst & g & Hg & Hle).
      destruct (Hbt eq_refl) as (_ & g' & Hg' & ->). rewrite Hg in Hg'. injection Hg' as <-.
      rewrite M_bind_eq in H. rewrite M_bind_eq in H.
      destruct (market_commit _) as [y s1] eqn:Ec in H.
      apply market_commit_cases in Ec as [(-> & Hc & ->)|[[e ->] Hc]]; injection H as <- <-.
      * right; right. split; [eauto|]. exists g. cbn in *. done.
      * right; left. split; [eauto|]. done.
    + injection H as <- <-. right; left. eauto.
Qed.

(** [record] implements the specification. *)
Lemma record_refines new_id cmd db r db' :
  record new_id cmd db = (r, db') -> usage_moves new_id cmd db r db'.
Proof.
  unfold record. destruct (validate_usage cmd) as [u|e] eqn:Ev; [|intros [= <- <-]; constructor].
  assert (0 < q_units cmd) as Hu.
  { unfold validate_usage in Ev. apply res_bind_Ok in Ev as (? & Ev%reject_if_Ok & _). to_prop. lia. }
  unfold with_uow. set (s := {| working := db; committed := db |}).
  destruct (record_body new_id cmd s) as [x s'] eqn:H. intros [= <- <-].
  unfold record_body, usage_by_idempotency_hash in H. rewrite M_bind_eq query_eq in H.
  cbn [working s] in H. destruct (find_row _ (db_usages db)) as [[id row]|] eqn:Ef.
  { apply find_row_Some in Ef as [Hid Hh%bool_decide_eq_true]. m_step H E.
    - apply usage_require_Ok in E as [Hm ->]. injection H as <- <-. by constructor.
    - injection H as <- <-. injection E as _ <-. constructor. }
  m_step H E1.
  2:{ injection H as <- <-. apply read_only_eq in E1 as ->; [constructor|apply read_only_usage_runtime]. }
  destruct v as [rid rt].
  apply usage_runtime_Ok in E1 as (-> & Hsub & Hrt & Hrs & Hrc). cbn [fst snd] in *.
  m_step H E2; apply usage_access_cases in E2; try done.
  2:{ injection H as <- <-. destruct E2 as [[? _]|[[_ ->]|(_ & g & ? & ? & ? & ? & ->)]];
        [done|constructor|by econstructor]. }
  destruct E2 as [([= ->] & -> & Hst)|[[[? ?] _]|[[? ?] _]]]; [|done|done].
  m_step H E3.
  2:{ injection H as <- <-. apply read_only_eq in E3 as ->; [constructor|apply read_only_usage_cycle]. }
  match type of E3 with _ = (Ok ?x, _) => rename x into c end.
  apply usage_cycle_Ok in E3 as (-> & Hc & ? & ? & ? & ? & Hg & Hav); [|done]. cbn [working s] in *.
  m_step H E4; [|discriminate]. injection E4 as <- <-.
  m_step H E5; apply add_row_cases in E5 as [(Eq & Hn & ->)|[[? Eq] ->]]; try done.
  2:{ injection H as <- <-. constructor. }
  m_step H E6; apply market_commit_cases in E6 as [(Eq' & Hk & ->)|[[? Eq'] Hk]]; try done.
  2:{ injection H as <- <-. rewrite Hk. constructor. }
  injection H as <- <-. cbn in Hn, Hk |- *.
  eapply (us_recorded _ _ _ rid rt c); try done.
  - intros k u' Hk' Heq. pose proof (find_row_None _ _ _ _ Ef Hk') as Hf.
    by apply bool_decide_eq_false in Hf.
  - unfold usage_admitted. split_and!; try done; try lia. naive_solver.
Qed.

(** ** The verdict decides the outcome

    [m] only reads, and returns exactly when [o] holds a value. *)
Definition decides {A} (m : Market A) (s : Session MarketDb) (o : option A) : Prop :=
  match o with Some a => m s = (Ok a, s) | None => exists e, m s = (Raise e, s) end.

Lemma decides_query {A B} (q : MarketDb -> A) (f : A -> Market B) s o :
  decides (f (q (working s))) s o -> decides (query q ≫= f) s o.
Proof. by destruct o. Qed.

Lemma decides_found {A B} (x : option A) msg (f : A -> Market B) s o :
  (x = None -> o = None) -> (forall a, x = Some a -> decides (f a) s o) ->
  decides (usage_found x msg ≫= f) s o.
Proof. destruct x as [a|]; [intros _ H; by destruct o; apply (H a eq_refl)|]. intros H _. rewrite (H eq_refl). eexists. reflexivity. Qed.

Lemma decides_require {B} b msg (f : unit -> Market B) s o :
  (b = false -> o = None) -> (b = true -> decides (f tt) s o) ->
  decides (usage_require b msg ≫= f) s o.
Proof. destruct b; [intros _ H; by destruct o; apply (H eq_refl)|]. intros H _. rewrite (H eq_refl). eexists. reflexivity. Qed.

Lemma decides_bind {A B} (m : Market A) (f : A -> Market B) s o o' :
  decides m s o -> (o = None -> o' = None) -> (forall a, o = Some a -> decides (f a) s o') ->
  decides (m ≫= f) s o'.
Proof.
  destruct o as [a|]; cbn; intros Hm Hn Hs.
  - specialize (Hs a eq_refl). destruct o'; cbn in *; by rewrite (bind_eq _ _ _ _ _ Hm).
  - rewrite (Hn eq_refl). destruct Hm as [e Hm]. exists e. by rewrite M_bind_eq Hm.
Qed.

Lemma decides_last b msg s : decides (usage_require b msg) s (if b then Some tt else None).
Proof. destruct b; [done|]. eexists. reflexivity. Qed.

Lemma decides_within {B} a x b msg (f : unit -> Market B) s o :
  naive x = false -> (within_period a x b = false -> o = None) ->
  (within_period a x b = true -> decides (f tt) s o) ->
  decides (inside ← lift (dt_between a x b); usage_require inside msg ≫= f) s o.
Proof.
  intros Hx Hf Ht. unfold dt_between, dt_le, dt_lt, comparable, within_period in *. rewrite Hx in Hf, Ht |- *.
  destruct (naive a); [rewrite Hf //; eexists; reflexivity|].
  destruct (instant a <=? instant x); [|rewrite Hf //; eexists; reflexivity].
  destruct (naive b); [rewrite Hf //; eexists; reflexivity|].
  destruct (instant x <? instant b); [by apply Ht|rewrite Hf //; eexists; reflexivity].
Qed.

(** Follows the code, a guard or a lookup at a time. *)
Ltac decide_code :=
  repeat first
    [ apply decides_query; cbn [working]
    | apply decides_within; [done|intros ?|intros ?]
    | apply decides_found; [intros ?|intros ? ?]
    | apply decides_require; [intros ?|intros ?] ].

Ltac rewrite_bools :=
  repeat match goal with
  | H : ?b = true |- context [?b] => rewrite H
  | H : ?b = false |- context [?b] => rewrite H
  end; rewrite /= ?andb_true_r ?andb_false_r.

Ltac decide_guards := repeat (rewrite_bools; try done; case_match; simplify_eq/=).

Lemma party_decides cmd s : decides (usage_runtime cmd) s (party cmd (working s)).
Proof.
  unfold usage_runtime, subscription_by_id, runtime_by_subscription, party.
  decide_code; decide_guards.
Qed.

(** In the grace stage, the cap is enforced. *)
Lemma under_cap_decides cmd c rt s :
  naive (q_occurred_at cmd) = false ->
  decides (enforce_degraded_grace_cap cmd c rt) s
    (if under_cap cmd (working s) rt c then Some tt else None).
Proof.
  intros Hn. unfold enforce_degraded_grace_cap, delinquency_by_subscription, sum_units_since, under_cap.
  apply decides_query. apply decides_found; [by intros ->|intros [k d] ->]. unfold grace_window. cbn [fst snd].
  destruct (d_grace_started_at d) as [a|], (d_grace_until d) as [b|], (r_grace_until rt) as [g|];
    cbn [dt_opt_eqb]; rewrite ?andb_false_r; decide_code; try done; try by decide_guards.
  - unfold within_period. destruct (naive a), (naive b), (dt_eqb g b); try done; by rewrite /= ?andb_false_r.
  - case_match; [|done]. simplify_eq/=. rewrite_bools.
    rewrite Z.leb_antisym. to_prop. rewrite_bools. by apply decides_last.
Qed.

Lemma cycle_decides cmd rt s :
  naive (q_occurred_at cmd) = false ->
  decides (usage_cycle cmd rt) s
    (match charge_verdict cmd (working s) rt with UCharge c => Some c | _ => None end).
Proof.
  intros Hn. unfold usage_cycle, cycle_by_id, charge_verdict, covers.
  apply decides_query, decides_found; [by intros ->|intros c ->].
  apply decides_require; intros H; rewrite H //. cbn [andb].
  apply decides_within; [done|intros Hp; by rewrite Hp|intros Hp; rewrite Hp]. cbn [andb].
  apply (decides_bind _ _ _
    (if negb (bool_decide (r_access_stage rt = StGrace)) || under_cap cmd (working s) rt c then Some tt else None)).
  - destruct (bool_decide (r_access_stage rt = StGrace)); [by apply under_cap_decides|done].
  - by destruct (_ || _).
  - intros []. destruct (_ || _); [|done]. intros _. cbn [andb]. rewrite -Z.leb_antisym.
    apply decides_require; intros Hav; by rewrite Hav.
Qed.

(** The access phase from the results of the two decisions on the runtime. *)
Lemma usage_access_run cmd rid rt s b rt' a :
  advance_expired_runtime_stage rt (q_occurred_at cmd) = Ok (b, rt') ->
  runtime_allows_usage rt' (q_occurred_at cmd) = Ok a ->
  let s1 := {| working := put_runtime rid rt' (working s); committed := committed s |} in
  usage_access cmd (rid, rt) s =
    ((if a then mret tt
      else (if b then market_commit else mret tt);;
           usage_error "quota usage is blocked by runtime access stage.");; mret rt') s1.
Proof.
  intros Ha Hr. cbv zeta. unfold usage_access. cbn [fst snd].
  rewrite (bind_lift _ (b, rt')); [by rewrite Ha|]. rewrite (bind_eq (mutate _) _ _ tt
    {| working := put_runtime rid rt' (working s); committed := committed s |}) //.
  cbn [fst snd]. rewrite (bind_lift _ a); [by rewrite Hr|]. done.
Qed.

Lemma advance_keeps rt t :
  naive t = false ->
  r_access_stage rt <> StGrace \/ (exists g, grace_deadline rt = Ok g /\ instant t < instant g) ->
  advance_expired_runtime_stage rt t = Ok (false, rt).
Proof.
  unfold advance_expired_runtime_stage. intros Ht. rewrite Ht. case_bool_decide; cbn; [|done].
  intros [?|(g & Hg & Hlt)]; [done|]. rewrite Hg /=. apply grace_deadline_Ok in Hg as [_ Hg].
  by rewrite dt_lt_aware //= (proj2 (Z.ltb_lt _ _) Hlt).
Qed.

Lemma access_blocked cmd rid rt s :
  naive (q_occurred_at cmd) = false -> r_access_stage rt <> StGrace ->
  match r_access_stage rt with StSuspended | StTerminated => True | _ => False end ->
  exists e' s', usage_access cmd (rid, rt) s = (Raise e', s') /\ committed s' = committed s.
Proof.
  intros Hn Hst Hb. rewrite (usage_access_run cmd rid rt s false rt false).
  - apply advance_keeps; auto.
  - unfold runtime_allows_usage. rewrite Hn. by destruct (r_access_stage rt).
  - eexists _, _. split; reflexivity.
Qed.

Lemma access_raises cmd rid rt s e :
  naive (q_occurred_at cmd) = false -> r_access_stage rt = StGrace -> grace_deadline rt = Raise e ->
  exists e' s', usage_access cmd (rid, rt) s = (Raise e', s') /\ committed s' = committed s.
Proof.
  intros Hn Hst Hg. unfold usage_access, advance_expired_runtime_stage. cbn [snd].
  rewrite Hn Hst Hg M_bind_eq /=. destruct e as [[] ?]; eexists _, _; split; reflexivity.
Qed.

(** The access phase, by the stage: it admits the request in the session as it is, or
    refuses it, recording at most the expiry of the grace stage. *)
Lemma stage_decides cmd rid rt s :
  naive (q_occurred_at cmd) = false ->
  db_runtimes (working s) !! rid = Some rt -> committed s = working s ->
  let ends db' := exists e s', usage_access cmd (rid, rt) s = (Raise e, s') /\ committed s' = db' in
  match r_access_stage rt, r_grace_until rt with
  | StActive, _ => usage_access cmd (rid, rt) s = (Ok rt, s)
  | StGrace, Some g =>
      let late := put_runtime rid (suspend_at g rt) (committed s) in
      if naive g then ends (committed s)
      else if instant g <=? instant (q_occurred_at cmd)
      then ends (if is_ok (market_constraints late) then late else committed s)
      else usage_access cmd (rid, rt) s = (Ok rt, s)
  | _, _ => ends (committed s)
  end.
Proof.
  intros Hn Hrt Hs. cbv zeta.
  assert (forall b, {| working := put_runtime rid rt (working s); committed := b |} =
            {| working := working s; committed := b |}) as Hid by (intros ?; by rewrite put_runtime_id).
  pose proof (fun b rt' a => usage_access_run cmd rid rt s b rt' a) as Hrun.
  destruct (r_access_stage rt) eqn:Est.
  - rewrite (Hrun false rt true).
    + apply advance_keeps; [done|]. left. congruence.
    + unfold runtime_allows_usage. by rewrite Hn Est.
    + rewrite Hid. by destruct s.
  - destruct (r_grace_until rt) as [g|] eqn:Eg.
    2:{ eapply access_raises; [done..|]. by rewrite /grace_deadline Eg. }
    destruct (naive g) eqn:En; [eapply access_raises; [done..|]; by rewrite /grace_deadline Eg En|].
    assert (grace_deadline rt = Ok g) as Hg by (by apply grace_deadline_Ok).
    destruct (Z.leb_spec (instant g) (instant (q_occurred_at cmd))) as [Hle|Hlt].
    + rewrite (Hrun true (suspend_at g rt) false).
      * unfold advance_expired_runtime_stage. rewrite Hn Est Hg /=. rewrite dt_lt_aware //=.
        by rewrite (proj2 (Z.ltb_ge _ _) Hle).
      * unfold runtime_allows_usage. by rewrite Hn.
      * unfold market_commit, commit. rewrite M_bind_eq M_bind_eq. cbn [working]. rewrite Hs.
        destruct (market_constraints _) as [[]|e]; eexists _, _; split; reflexivity.
    + rewrite (Hrun false rt true).
      * apply advance_keeps; [done|]. eauto.
      * unfold runtime_allows_usage. rewrite Hn Est Hg /=. rewrite dt_lt_aware //=.
        by rewrite (proj2 (Z.ltb_lt _ _) Hlt).
      * rewrite Hid. by destruct s.
  - apply (access_blocked _ _ _ s); [done|by rewrite Est|by rewrite Est].
  - apply (access_blocked _ _ _ s); [done|by rewrite Est|by rewrite Est].
Qed.

(** What follows an admitting access phase. *)
Lemma charge_decided new_id cmd rid rt db r db' :
  naive (q_occurred_at cmd) = false ->
  let s := {| working := db; committed := db |} in
  usage_access cmd (rid, rt) s = (Ok rt, s) ->
  (let (x, s') := (runtime ← usage_access cmd (rid, rt); cycle ← usage_cycle cmd runtime;
     mutate (put_cycle (q_quota_cycle_id cmd) (consume_units (q_units cmd) cycle));;
     add_usage new_id (usage_of cmd cycle);; market_commit;; mret (new_id, usage_of cmd cycle)) s
   in (x, committed s')) = (r, db') ->
  usage_outcome new_id cmd db (charge_verdict cmd db rt) r db'.
Proof.
  cbv zeta. set (s := {| working := db; committed := db |}). intros Hn Ha. rewrite (bind_eq _ _ _ _ _ Ha).
  pose proof (cycle_decides cmd rt s Hn) as Hc. cbn [working s] in Hc.
  destruct (charge_verdict_cases cmd db rt) as [[c Hv]|Hv]; rewrite Hv in Hc |- *; cbn in Hc |- *.
  2:{ destruct Hc as [e Hc]. rewrite M_bind_eq Hc. intros [= <- <-]. split; [by eexists|done]. }
  rewrite (bind_eq _ _ _ _ _ Hc).
  rewrite (bind_eq (mutate _) _ _ tt
    {| working := put_cycle (q_quota_cycle_id cmd) (consume_units (q_units cmd) c) db; committed := db |}) //.
  rewrite M_bind_eq. unfold add_usage, add_row. rewrite bind_query. cbn [working put_cycle db_usages].
  destruct (db_usages db !! new_id); cbn.
  { intros [= <- <-]. split; [by eexists|done]. }
  unfold market_commit, commit. rewrite M_bind_eq. cbn [working committed]. fold (charged new_id cmd c db).
  destruct (market_constraints _); intros [= <- <-]; [done|]. split; [by eexists|done].
Qed.

Lemma access_refused {A} cmd rid rt (k : AdminMarketSubscriptionRuntime -> Market A) s db' x y :
  (exists e s', usage_access cmd (rid, rt) s = (Raise e, s') /\ committed s' = db') ->
  (let (x, s') := (usage_access cmd (rid, rt) ≫= k) s in (x, committed s')) = (x, y) ->
  refused x /\ y = db'.
Proof.
  intros (e & s' & Ha & <-). rewrite M_bind_eq Ha. intros [= <- <-]. split; [by eexists|done].
Qed.

(** [record] implements its specification, whatever the database holds. *)
Lemma record_decided new_id cmd db r db' :
  record new_id cmd db = (r, db') -> usage_spec new_id cmd db r db'.
Proof.
  unfold record, usage_spec, verdict_of. destruct (validate_usage cmd) as [u|e] eqn:Ev; cbn [is_ok negb].
  2:{ intros [= <- <-]. split; [by eexists|done]. }
  assert (naive (q_occurred_at cmd) = false) as Hn.
  { unfold validate_usage in Ev. apply res_bind_Ok in Ev as (? & _ & Ev).
    by apply res_bind_Ok in Ev as (? & Ev%reject_if_Ok & _). }
  unfold with_uow. set (s := {| working := db; committed := db |}).
  unfold record_body, usage_by_idempotency_hash. rewrite bind_query. cbn [working s].
  destruct (find_row _ (db_usages db)) as [row|].
  { destruct (replay_matches cmd row.2); cbn; intros [= <- <-]; [done|]. split; [by eexists|done]. }
  pose proof (party_decides cmd s) as Hp. cbn [working s] in Hp.
  destruct (party cmd db) as [[rid rt]|] eqn:Ep; cbn [decides] in Hp.
  2:{ destruct Hp as [e Hp]. rewrite M_bind_eq Hp. intros [= <- <-]. split; [by eexists|done]. }
  rewrite (bind_eq _ _ _ _ _ Hp).
  assert (db_runtimes db !! rid = Some rt) as Hrt.
  { unfold party in Ep. repeat case_match; simplify_eq.
    by match goal with H : find_row _ _ = Some _ |- _ => apply find_row_Some in H as [? _] end. }
  pose proof (stage_decides cmd rid rt s Hn Hrt eq_refl) as Hst. unfold stage_verdict. cbn [committed s] in Hst.
  intros H. destruct (r_access_stage rt), (r_grace_until rt) as [g|];
    try (by apply charge_decided in H); try (by apply (access_refused _ _ _ _ _ _ _ _ Hst) in H).
  destruct (naive g); [by apply (access_refused _ _ _ _ _ _ _ _ Hst) in H|].
  destruct (_ <=? _); [by apply (access_refused _ _ _ _ _ _ _ _ Hst) in H|by apply charge_decided in H].
Qed.

End UsageSpec.

(** * Quota rollover

    Models [subscription_quota_rollover.py]: the next monthly cycle of a subscription
    is opened with the unspent units of the source cycle. *)
Record SubscriptionQuotaRolloverCommand := {
  ro_subscription_id : UUID;
  ro_source_cycle_id : UUID;
  ro_metric_code : string;
  ro_period_start : datetime;
  ro_period_end : datetime;
  ro_base_limit_units : Z
}.

Definition rollover_require (b : bool) (msg : string) : Market unit :=
  lift (ensure b SubscriptionQuotaRolloverError msg).

Definition rollover_found {A} (x : option A) (msg : string) : Market A :=
  match x with Some a => mret a | None => throw SubscriptionQuotaRolloverError msg end.

Definition validate_rollover (cmd : SubscriptionQuotaRolloverCommand) : res unit :=
  _ ← reject_if (blank (ro_metric_code cmd)) ValueError "quota metric code is required.";
  _ ← reject_if (naive (ro_period_start cmd) || naive (ro_period_end cmd)) ValueError
        "quota rollover timestamps must be timezone-aware.";
  invalid ← dt_le (ro_period_end cmd) (ro_period_start cmd);
  _ ← reject_if invalid ValueError "quota rollover period is invalid.";
  reject_if (ro_base_limit_units cmd <? 0) ValueError "quota base limit cannot be negative.".

Definition is_quota_metric (metric : string) : bool :=
  bool_decide (normalize_maestro_metric_code (Some metric) = QUOTA_METRIC_CODE).

Definition rollover_replay_matches (cmd : SubscriptionQuotaRolloverCommand)
    (e : AdminMarketSubscriptionQuotaCycle) (plan_code : string) (expected_period_end : datetime)
  : bool :=
  bool_decide (c_subscription_id e = ro_subscription_id cmd) &&
  bool_decide (c_source_cycle_id e = Some (ro_source_cycle_id cmd)) &&
  is_quota_metric (c_metric_code e) &&
  bool_decide (c_plan_code e = plan_code) &&
  bool_decide (c_plan_catalog_version e = PLAN_FULFILLMENT_CATALOG_VERSION) &&
  dt_eqb (c_period_start e) (ro_period_start cmd) &&
  dt_eqb (c_period_end e) expected_period_end &&
  (c_base_limit_units e =? ro_base_limit_units cmd) &&
  (c_top_up_units e =? 0).

(** [except KeyError: raise SubscriptionQuotaRolloverError]. *)
Definition rollover_plan_spec (plan_code : string) : res PlanFulfillmentSpec :=
  match get_plan_fulfillment_spec (Some plan_code) with
  | Raise (Exn KeyError _) =>
      raise SubscriptionQuotaRolloverError "subscription plan is not in the authoritative catalog."
  | r => r
  end.

(** The activation anchor of a subscription. *)
Definition activation_anchor (s : AdminMarketSubscription) : option datetime :=
  match s_starts_at s with
  | Some t => if naive t then None else Some t
  | None => None
  end.

(** The subscription, its plan and the period the command must name. *)
Definition rollover_context (cmd : SubscriptionQuotaRolloverCommand)
  : Market (AdminMarketSubscription * AdminMarketPlan * PlanFulfillmentSpec * datetime) :=
  sub ← subscription_by_id (ro_subscription_id cmd);
  s ← rollover_found sub "subscription was not found.";
  rollover_require (bool_decide (s_status s = SubActive))
    "quota rollover requires an active subscription.";;
  anchor ← rollover_found (activation_anchor s)
             "active subscription is missing its activation anchor.";
  found ← plan_by_id (s_plan_id s);
  plan ← rollover_found found "subscription plan was not found.";
  spec ← lift (rollover_plan_spec (p_plan_code plan));
  rollover_require (negb (seat_based_consumption spec)) "quota consumption cannot be seat based.";;
  rollover_require (is_quota_metric (ro_metric_code cmd))
    "quota metric conflicts with the authoritative plan.";;
  rollover_require (ro_base_limit_units cmd =? spec_monthly_unit_allowance spec)
    "quota base limit conflicts with the authoritative plan.";;
  expected ← lift (next_anchored_month_boundary (ro_period_start cmd) (dt_day anchor));
  rollover_require (dt_eqb (ro_period_end cmd) expected)
    "quota period end conflicts with the activation-anchored monthly boundary.";;
  mret (s, plan, spec, expected).

(** The source cycle, consistent with the subscription and its plan. *)
Definition rollover_source (cmd : SubscriptionQuotaRolloverCommand) (s : AdminMarketSubscription)
    (spec : PlanFulfillmentSpec) : Market AdminMarketSubscriptionQuotaCycle :=
  found ← cycle_by_id (ro_source_cycle_id cmd);
  source ← rollover_found found "source quota cycle was not found.";
  rollover_require
    (bool_decide (c_subscription_id source = ro_subscription_id cmd) &&
     is_quota_metric (c_metric_code source) &&
     bool_decide (c_customer_ref source = s_customer_ref s) &&
     bool_decide (c_plan_code source = spec_plan_code spec) &&
     bool_decide (c_plan_catalog_version source = PLAN_FULFILLMENT_CATALOG_VERSION))
    "source quota cycle conflicts with the authoritative subscription plan.";;
  rollover_require (dt_eqb (c_period_end source) (ro_period_start cmd))
    "quota periods are not contiguous.";;
  mret source.

(** The cycle opened after [source]. *)
Definition opened_cycle (cmd : SubscriptionQuotaRolloverCommand) (s : AdminMarketSubscription)
    (plan : AdminMarketPlan) (spec : PlanFulfillmentSpec) (expected : datetime)
    (source : AdminMarketSubscriptionQuotaCycle) : AdminMarketSubscriptionQuotaCycle :=
  {| c_subscription_id := ro_subscription_id cmd;
     c_source_cycle_id := Some (ro_source_cycle_id cmd);
     c_customer_ref := s_customer_ref s;
     c_plan_code := spec_plan_code spec;
     c_plan_catalog_version := PLAN_FULFILLMENT_CATALOG_VERSION;
     c_entitlement_codes := entitlement_codes spec;
     c_quota_profile_ref := p_quota_profile_ref plan;
     c_metric_code := QUOTA_METRIC_CODE;
     c_period_start := ro_period_start cmd;
     c_period_end := expected;
     c_base_limit_units := spec_monthly_unit_allowance spec;
     c_rollover_units := rollover_eligible_units source;
     c_top_up_units := 0;
     c_rollover_status := RoAvailable;
     c_rollover_expires_at := None; c_rollover_locked_at := None;
     c_rollover_restored_at := None; c_rollover_expired_at := None;
     c_used_units := 0; c_version := 0 |}.

Definition rollover_body (new_id : UUID) (cmd : SubscriptionQuotaRolloverCommand)
  : Market (UUID * AdminMarketSubscriptionQuotaCycle) :=
  ctx ← rollover_context cmd;
  let '(s, plan, spec, expected) := ctx in
  existing ← cycle_by_source (ro_source_cycle_id cmd);
  match existing with
  | Some (id, e) =>
      rollover_require (rollover_replay_matches cmd e (spec_plan_code spec) expected)
        "quota rollover replay conflicts with the existing cycle.";;
      mret (id, e)
  | None =>
      source ← rollover_source cmd s spec;
      let cycle := opened_cycle cmd s plan spec expected source in
      add_cycle new_id cycle;;
      market_commit;;
      mret (new_id, cycle)
  end.

Definition rollover (new_id : UUID) (cmd : SubscriptionQuotaRolloverCommand) (db : MarketDb)
  : res (UUID * AdminMarketSubscriptionQuotaCycle) * MarketDb :=
  match validate_rollover cmd with
  | Ok _ => with_uow (rollover_body new_id cmd) db
  | Raise e => (Raise e, db)
  end.
