(* ===== verification/Delinquency.v ===== *)
(** * Payment delinquency

    Models [subscription_rollover_delinquency.py] (the rollover balance of a
    delinquent subscription is locked, then restored or expired) and
    [subscription_delinquency_policy.py] (the escalation of missed payments). *)
From S2P Require Import Prelude PyString PyDateTime Uow MarketDb.

(** ** The rollover balance *)

Definition validate_times (effective_at expires_at : datetime) : res unit :=
  _ ← reject_if (naive effective_at || naive expires_at) ValueError
        "rollover delinquency timestamps must be timezone-aware.";
  late ← dt_le expires_at effective_at;
  reject_if late ValueError "rollover expiry must follow the delinquency timestamp.".

(** [for cycle in cycles: ...]: a step raises, leaves the cycle ([continue]) or
    mutates it; the changed cycles are collected in order. *)
Fixpoint each_cycle
    (step : AdminMarketSubscriptionQuotaCycle -> res (option AdminMarketSubscriptionQuotaCycle))
    (cycles : list (UUID * AdminMarketSubscriptionQuotaCycle)) : Market (list UUID) :=
  match cycles with
  | [] => mret []
  | (id, c) :: cycles' =>
      changed ← lift (step c);
      match changed with
      | None => each_cycle step cycles'
      | Some c' =>
          mutate (put_cycle id c');;
          rest ← each_cycle step cycles';
          mret (id :: rest)
      end
  end.

Definition lock_step (effective_at expires_at : datetime) (c : AdminMarketSubscriptionQuotaCycle)
  : res (option AdminMarketSubscriptionQuotaCycle) :=
  match c_rollover_status c with
  | RoExpired => mret None
  | RoLocked =>
      if dt_opt_eqb (c_rollover_expires_at c) (Some expires_at) then mret None
      else raise SubscriptionRolloverDelinquencyError
             "locked rollover expiry conflicts with the current delinquency."
  | RoAvailable | RoRestored =>
      mret (Some (set_rollover RoLocked (Some expires_at) (Some effective_at) None None c))
  end.

Definition lock_rollover_for_delinquency (subscription : UUID) (effective_at expires_at : datetime)
  : Market (list UUID) :=
  lift (validate_times effective_at expires_at);;
  cycles ← list_rollover_cycles subscription;
  each_cycle (lock_step effective_at expires_at) cycles.

(** [expires_at = cycle.rollover_expires_at], which must be an aware datetime. *)
Definition locked_until (c : AdminMarketSubscriptionQuotaCycle) : res datetime :=
  match c_rollover_expires_at c with
  | Some e =>
      _ ← reject_if (naive e) SubscriptionRolloverDelinquencyError
            "locked rollover requires a valid expiry timestamp.";
      mret e
  | None => raise SubscriptionRolloverDelinquencyError
              "locked rollover requires a valid expiry timestamp."
  end.

Definition expire_rollover (at_ : datetime) (c : AdminMarketSubscriptionQuotaCycle)
  : AdminMarketSubscriptionQuotaCycle :=
  set_rollover RoExpired (c_rollover_expires_at c) (c_rollover_locked_at c) None (Some at_) c.

Definition restore_rollover (at_ : datetime) (c : AdminMarketSubscriptionQuotaCycle)
  : AdminMarketSubscriptionQuotaCycle :=
  set_rollover RoRestored (c_rollover_expires_at c) (c_rollover_locked_at c) (Some at_) None c.

Definition payment_step (effective_at : datetime) (c : AdminMarketSubscriptionQuotaCycle)
  : res (option AdminMarketSubscriptionQuotaCycle) :=
  if negb (bool_decide (c_rollover_status c = RoLocked)) then mret None
  else
    expires_at ← locked_until c;
    before ← dt_lt effective_at expires_at;
    mret (Some (if before : bool then restore_rollover effective_at c
                else expire_rollover effective_at c)).

Definition restore_or_expire_rollover_after_payment (subscription : UUID) (effective_at : datetime)
  : Market (list UUID) :=
  lift (reject_if (naive effective_at) ValueError
          "rollover payment timestamp must be timezone-aware.");;
  cycles ← list_rollover_cycles subscription;
  each_cycle (payment_step effective_at) cycles.

Definition overdue_step (evaluated_at : datetime) (c : AdminMarketSubscriptionQuotaCycle)
  : res (option AdminMarketSubscriptionQuotaCycle) :=
  if negb (bool_decide (c_rollover_status c = RoLocked)) then mret None
  else
    expires_at ← locked_until c;
    before ← dt_lt evaluated_at expires_at;
    mret (if before : bool then None else Some (expire_rollover evaluated_at c)).

Definition expire_overdue_rollover (subscription : UUID) (evaluated_at : datetime)
  : Market (list UUID) :=
  lift (reject_if (naive evaluated_at) ValueError
          "rollover expiry timestamp must be timezone-aware.");;
  cycles ← list_rollover_cycles subscription;
  each_cycle (overdue_step evaluated_at) cycles.

(** ** The delinquency record *)

Definition GRACE_DAYS : nat := 15.
Definition GRACE_USAGE_PERCENT : Z := 25.
Definition FREEZE_AFTER_MISSED_CYCLES : Z := 3.
Definition PENDING_DELETION_AFTER_MISSED_CYCLES : Z := 6.

Definition billing_cycle_key (value : datetime) : res string :=
  _ ← reject_if (naive value) ValueError "billing cycle timestamp must be timezone-aware.";
  mret (year_month_key value).

Definition rollover_payment_deadline (value : datetime) : res datetime :=
  _ ← reject_if (naive value) ValueError "rollover deadline timestamp must be timezone-aware.";
  let month := dt_month value + 2 in
  let year := if 12 <? month then dt_year value + (month - 1) / 12 else dt_year value in
  let month := if 12 <? month then (month - 1) mod 12 + 1 else month in
  t ← replace_date year month 1 value;
  mret (midnight t).

(** The record of a first failed payment. *)
Definition new_delinquency (sid : UUID) (customer : string) (key : string)
    (effective_at until : datetime) : AdminMarketSubscriptionDelinquency :=
  {| d_subscription_id := sid; d_customer_ref := customer; d_state := DqGraceDegraded;
     d_missed_billing_cycles := 1; d_last_failed_cycle_key := Some key;
     d_first_failed_at := Some effective_at; d_last_failed_at := Some effective_at;
     d_grace_started_at := Some effective_at; d_grace_until := Some until;
     d_grace_usage_percent := GRACE_USAGE_PERCENT; d_frozen_at := None;
     d_deletion_eligible_at := None; d_resolved_at := None |}.

(** The counters after another failed payment in the cycle [key]. *)
Definition count_failure (key : string) (effective_at : datetime)
    (d : AdminMarketSubscriptionDelinquency) : AdminMarketSubscriptionDelinquency :=
  let new_cycle := negb (bool_decide (d_last_failed_cycle_key d = Some key)) in
  {| d_subscription_id := d_subscription_id d; d_customer_ref := d_customer_ref d;
     d_state := d_state d;
     d_missed_billing_cycles :=
       if new_cycle then d_missed_billing_cycles d + 1 else d_missed_billing_cycles d;
     d_last_failed_cycle_key := Some key; d_first_failed_at := d_first_failed_at d;
     d_last_failed_at := Some effective_at; d_grace_started_at := d_grace_started_at d;
     d_grace_until := d_grace_until d; d_grace_usage_percent := d_grace_usage_percent d;
     d_frozen_at := d_frozen_at d; d_deletion_eligible_at := d_deletion_eligible_at d;
     d_resolved_at := None |}.

(** The state columns, set together. *)
Definition set_delinquency_state (st : DelinquencyState)
    (grace_started grace_until frozen deletion : option datetime)
    (d : AdminMarketSubscriptionDelinquency) : AdminMarketSubscriptionDelinquency :=
  {| d_subscription_id := d_subscription_id d; d_customer_ref := d_customer_ref d;
     d_state := st; d_missed_billing_cycles := d_missed_billing_cycles d;
     d_last_failed_cycle_key := d_last_failed_cycle_key d;
     d_first_failed_at := d_first_failed_at d; d_last_failed_at := d_last_failed_at d;
     d_grace_started_at := grace_started; d_grace_until := grace_until;
     d_grace_usage_percent := d_grace_usage_percent d; d_frozen_at := frozen;
     d_deletion_eligible_at := deletion; d_resolved_at := d_resolved_at d |}.

(** The escalation by the number of missed cycles. *)
Definition escalate (new_cycle : bool) (effective_at : datetime)
    (d : AdminMarketSubscriptionDelinquency) : res AdminMarketSubscriptionDelinquency :=
  if PENDING_DELETION_AFTER_MISSED_CYCLES <=? d_missed_billing_cycles d
  then mret (set_delinquency_state DqPendingDeletion None None (d_frozen_at d) (Some effective_at) d)
  else if FREEZE_AFTER_MISSED_CYCLES <=? d_missed_billing_cycles d
  then mret (set_delinquency_state DqAccountFrozen None None (Some effective_at)
               (d_deletion_eligible_at d) d)
  else if new_cycle || negb (is_some_b (d_grace_started_at d))
  then
    until ← add_days GRACE_DAYS effective_at;
    mret (set_delinquency_state DqGraceDegraded (Some effective_at) (Some until) (d_frozen_at d)
            (d_deletion_eligible_at d) d)
  else mret (set_delinquency_state DqGraceDegraded (d_grace_started_at d) (d_grace_until d)
               (d_frozen_at d) (d_deletion_eligible_at d) d).

Definition apply_payment_failure (new_id sid : UUID) (customer : string) (effective_at : datetime)
  : Market (UUID * AdminMarketSubscriptionDelinquency) :=
  key ← lift (billing_cycle_key effective_at);
  found ← delinquency_by_subscription sid;
  match found with
  | None =>
      until ← lift (add_days GRACE_DAYS effective_at);
      let d := new_delinquency sid customer key effective_at until in
      add_delinquency new_id d;;
      deadline ← lift (rollover_payment_deadline effective_at);
      lock_rollover_for_delinquency sid effective_at deadline;;
      mret (new_id, d)
  | Some (id, d) =>
      lift (ensure (bool_decide (d_customer_ref d = customer)) RuntimeError
              "delinquency customer conflicts with subscription.");;
      let new_cycle := negb (bool_decide (d_last_failed_cycle_key d = Some key)) in
      let d1 := count_failure key effective_at d in
      mutate (put_delinquency id d1);;
      d2 ← lift (escalate new_cycle effective_at d1);
      mutate (put_delinquency id d2);;
      mret (id, d2)
  end.

(** The record after the payment that resolves it. *)
Definition resolved_delinquency (effective_at : datetime)
    (d : AdminMarketSubscriptionDelinquency) : AdminMarketSubscriptionDelinquency :=
  {| d_subscription_id := d_subscription_id d; d_customer_ref := d_customer_ref d;
     d_state := DqResolved; d_missed_billing_cycles := 0; d_last_failed_cycle_key := None;
     d_first_failed_at := d_first_failed_at d; d_last_failed_at := d_last_failed_at d;
     d_grace_started_at := None; d_grace_until := None;
     d_grace_usage_percent := d_grace_usage_percent d; d_frozen_at := None;
     d_deletion_eligible_at := None; d_resolved_at := Some effective_at |}.

Definition resolve_payment_delinquency (sid : UUID) (customer : string) (effective_at : datetime)
  : Market (option (UUID * AdminMarketSubscriptionDelinquency)) :=
  lift (billing_cycle_key effective_at);;
  found ← delinquency_by_subscription sid;
  match found with
  | None => mret None
  | Some (id, d) =>
      lift (ensure (bool_decide (d_customer_ref d = customer)) RuntimeError
              "delinquency customer conflicts with subscription.");;
      restore_or_expire_rollover_after_payment sid effective_at;;
      let d' := resolved_delinquency effective_at d in
      mutate (put_delinquency id d');;
      mret (Some (id, d'))
  end.

(** * What the delinquency operations promise

    The loops over the rollover cycles as one simultaneous update, and the escalation
    of the delinquency record as a function of the missed cycles. *)
Section DelinquencySpec.
Implicit Types (c : AdminMarketSubscriptionQuotaCycle) (d : AdminMarketSubscriptionDelinquency)
  (s : Session MarketDb).

(** ** Loops *)

(** [cs'] is [cs] with [step] applied to the cycles that satisfy [p]. *)
Definition cycles_updated (p : AdminMarketSubscriptionQuotaCycle -> bool)
    (step : AdminMarketSubscriptionQuotaCycle -> res (option AdminMarketSubscriptionQuotaCycle))
    (cs cs' : Table AdminMarketSubscriptionQuotaCycle) : Prop :=
  forall id,
    match cs !! id with
    | None => cs' !! id = None
    | Some c => if p c then exists x, step c = Ok x /\ cs' !! id = Some (default c x)
                else cs' !! id = Some c
    end.

Lemma each_cycle_Ok step l s ch s' :
  NoDup l.*1 -> (forall id c, (id, c) ∈ l -> db_cycles (working s) !! id = Some c) ->
  each_cycle step l s = (Ok ch, s') ->
  exists cs', s' = {| working := set_cycles cs' (working s); committed := committed s |} /\
    (forall id c, (id, c) ∈ l -> exists x, step c = Ok x /\ cs' !! id = Some (default c x)) /\
    (forall id, id ∉ l.*1 -> cs' !! id = db_cycles (working s) !! id).
Proof.
  revert s ch s'. induction l as [|[id c] l IH]; intros s ch s' Hnd Hl; cbn [each_cycle].
  - intros [= <- <-]. exists (db_cycles (working s)). split; [by destruct s as [[]]|].
    split; [intros ?? []%not_elem_of_nil|done].
  - apply NoDup_cons in Hnd as [Hid Hnd]. intros (x & s1 & [Hx <-]%lift_Ok & H)%M_bind_Ok.
    destruct x as [c'|].
    + apply M_bind_Ok in H as (? & s2 & [= <- <-] & H).
      apply M_bind_Ok in H as (rest & s3 & H & [= <- <-]).
      apply IH in H as (cs' & -> & Hin & Hout); [|done|].
      2:{ intros id' c1 H1. cbn. rewrite lookup_insert_ne; [|apply Hl; by right].
          intros ->. apply Hid, list_elem_of_fmap. by exists (id', c1). }
      exists cs'. split; [done|]. split.
      * intros id' c1 [[= -> ->]|H1]%elem_of_cons; [|by apply Hin].
        exists (Some c'). split; [done|]. rewrite Hout //. cbn. by rewrite lookup_insert_eq.
      * intros id' [Hne H1]%not_elem_of_cons. rewrite Hout //. cbn. cbn in Hne. apply lookup_insert_ne. congruence.
    + apply IH in H as (cs' & -> & Hin & Hout); [|done|intros; apply Hl; by right].
      exists cs'. split; [done|]. split.
      * intros id' c1 [[= -> ->]|H1]%elem_of_cons; [|by apply Hin].
        exists None. split; [done|]. rewrite Hout //. apply Hl. left.
      * intros id' [Hne H1]%not_elem_of_cons. by apply Hout.
Qed.

(** The update of the cycles a query returns. *)
Lemma each_cycle_query step sid s ch s' :
  (cycles ← list_rollover_cycles sid; each_cycle step cycles) s = (Ok ch, s') ->
  exists cs', s' = {| working := set_cycles cs' (working s); committed := committed s |} /\
    cycles_updated (rollover_cycle_of sid) step (db_cycles (working s)) cs'.
Proof.
  unfold list_rollover_cycles. rewrite M_bind_eq query_eq. intros H.
  apply each_cycle_Ok in H as (cs' & -> & Hin & Hout);
    [|apply NoDup_find_rows|by intros id c [? _]%find_rows_elem].
  exists cs'. split; [done|]. intros id. destruct (db_cycles (working s) !! id) as [c|] eqn:E.
  - destruct (rollover_cycle_of sid c) eqn:Ep.
    + apply Hin. by apply find_rows_elem.
    + rewrite Hout //. intros ([? c'] & -> & [Hc Hp]%find_rows_elem)%list_elem_of_fmap.
      cbn in *. congruence.
  - rewrite Hout //. intros ([? c'] & -> & [Hc Hp]%find_rows_elem)%list_elem_of_fmap.
    cbn in *. congruence.
Qed.

Lemma no_commit_each_cycle step l : no_commit (each_cycle step l).
Proof.
  induction l as [|[id c] l IH]; cbn [each_cycle]; [done|].
  apply no_commit_bind; [done|]. intros [c'|]; [|done].
  apply no_commit_bind; [done|]. intros _. by apply no_commit_bind.
Qed.
End DelinquencySpec.

#[export] Hint Resolve no_commit_each_cycle : maestro.
