(* ===== verification/TopUpOrder.v ===== *)
(** * Ordering a top-up

    Models [admin_marketplace/subscription_top_up_eligibility.py] and
    [subscription_top_up_order.py]: who may buy units for the current quota cycle, and
    the order with its price and settlement snapshot.  The Tunisia-local eligibility
    resolver and the exchange-rate provider are arguments, as in the code. *)
From S2P Require Import Prelude PyString PyDateTime PyDecimal MaestroUnits PlanCatalog.
From S2P Require Import TopUpQuote Uow TopUpDb MarketDb QuotaUsage.
From S2P Require Import QuotaUsage.
#[local] Open Scope Z_scope.

Definition TOP_UP_MINIMUM_MONTHLY_CONSUMPTION_PERCENT : Z := 80.
Definition ceil_percent (value percent : Z) : Z := (value * percent + 99) / 100.

(** ** Repositories *)

Definition order_by_id (id : UUID) : Market (option CommercialTopUpOrder) :=
  query (fun db => tu_orders (db_top_ups db) !! id).
Definition order_by_idempotency_key (key : string) : Market (option (UUID * CommercialTopUpOrder)) :=
  query (fun db => find_row (fun o => bool_decide (o_idempotency_key o = key))
                     (tu_orders (db_top_ups db))).
(** [top_up_orders.add]: the row is stored at the scale of its columns. *)
Definition add_order (id : UUID) (o : CommercialTopUpOrder) : Market unit :=
  add_row (fun db => tu_orders (db_top_ups db)) (fun id o => put_top_ups (tu_put_order id o)) id
    (stored_order o).

(** ** The subscription and the cycle of a top-up

    The order, the grant and the eligibility check make the same checks, each with its
    own error class and messages. *)
Record top_up_messages := {
  tm_error : exn_class;
  tm_missing : string;
  tm_inactive : string;
  tm_customer : string;
  tm_no_plan : string;
  tm_unknown_plan : string;
  tm_no_cycle : string;
  tm_cycle : string;
  tm_period : string;
  tm_snapshot : string;
  tm_consumption : string
}.

Section Context.
Context (ms : top_up_messages).

Definition tm_require (b : bool) (msg : string) : Market unit := lift (ensure b (tm_error ms) msg).
Definition tm_found {A} (x : option A) (msg : string) : Market A :=
  match x with Some a => mret a | None => throw (tm_error ms) msg end.

(** [except KeyError]. *)
Definition top_up_plan_spec (plan_code : string) : res PlanFulfillmentSpec :=
  match get_plan_fulfillment_spec (Some plan_code) with
  | Raise (Exn KeyError _) => raise (tm_error ms) (tm_unknown_plan ms)
  | r => r
  end.

(** The active subscription of the customer and the specification of its plan. *)
Definition top_up_subscription (subscription_id : UUID) (customer_ref : string)
  : Market (AdminMarketSubscription * PlanFulfillmentSpec) :=
  sub ← subscription_by_id subscription_id;
  s ← tm_found sub (tm_missing ms);
  tm_require (bool_decide (s_status s = SubActive)) (tm_inactive ms);;
  tm_require (bool_decide (s_customer_ref s = customer_ref)) (tm_customer ms);;
  found ← plan_by_id (s_plan_id s);
  plan ← tm_found found (tm_no_plan ms);
  spec ← lift (top_up_plan_spec (p_plan_code plan));
  mret (s, spec).

(** The current cycle of the subscription, on the snapshot of the plan, with at least
    80% of its base quota consumed. *)
Definition top_up_cycle (subscription_id cycle_id : UUID) (customer_ref : string)
    (spec : PlanFulfillmentSpec) (at_ : datetime) : Market AdminMarketSubscriptionQuotaCycle :=
  found ← cycle_by_id cycle_id;
  cycle ← tm_found found (tm_no_cycle ms);
  tm_require (bool_decide (c_subscription_id cycle = subscription_id) &&
              bool_decide (c_customer_ref cycle = customer_ref) &&
              is_quota_metric (c_metric_code cycle)) (tm_cycle ms);;
  inside ← lift (dt_between (c_period_start cycle) at_ (c_period_end cycle));
  tm_require inside (tm_period ms);;
  tm_require (bool_decide (c_plan_code cycle = spec_plan_code spec) &&
              bool_decide (c_plan_catalog_version cycle = PLAN_FULFILLMENT_CATALOG_VERSION) &&
              (c_base_limit_units cycle =? spec_monthly_unit_allowance spec)) (tm_snapshot ms);;
  tm_require (negb (c_used_units cycle <?
                    ceil_percent (c_base_limit_units cycle)
                      TOP_UP_MINIMUM_MONTHLY_CONSUMPTION_PERCENT)) (tm_consumption ms);;
  mret cycle.
End Context.

(** ** Eligibility *)

Record SubscriptionTopUpEligibilityCommand := {
  te_customer_ref : string;
  te_subscription_id : UUID;
  te_quota_cycle_id : UUID;
  te_requested_units : Z;
  te_billing_period : string;
  te_evaluated_at : datetime
}.

Record SubscriptionTopUpEligibilityDecision := {
  td_eligible : bool;
  td_reason : string;
  td_customer_ref : string;
  td_plan_code : string;
  td_plan_catalog_version : string;
  td_billing_period : string;
  td_quota_cycle_id : UUID;
  td_monthly_base_units : Z;
  td_monthly_used_units : Z;
  td_minimum_used_units : Z;
  td_consumption_percent_floor : Z;
  td_requested_units : Z;
  td_bundle_count : Z;
  td_total_units : Z;
  td_total_price_usd : string;
  td_quote_state : string
}.

Definition ALLOWED_BILLING_PERIODS : list string := ["monthly"; "annual"].

Definition validate_eligibility (cmd : SubscriptionTopUpEligibilityCommand) : res (string * string) :=
  let customer_ref := strip (te_customer_ref cmd) in
  _ ← ensure (negb (bool_decide (customer_ref = ""))) ValueError "customer_ref is required.";
  _ ← ensure (0 <? te_requested_units cmd) ValueError "requested_units must be positive.";
  let billing_period := lower (strip (te_billing_period cmd)) in
  _ ← ensure (bool_decide (billing_period ∈ ALLOWED_BILLING_PERIODS)) ValueError
        "billing_period must be monthly or annual.";
  _ ← reject_if (naive (te_evaluated_at cmd)) ValueError
        "top-up eligibility timestamp must be timezone-aware.";
  mret (customer_ref, billing_period).

Definition eligibility_messages : top_up_messages :=
  {| tm_error := SubscriptionTopUpEligibilityError;
     tm_missing := "subscription was not found.";
     tm_inactive := "top-up purchase requires an active subscription.";
     tm_customer := "subscription does not belong to the purchasing customer.";
     tm_no_plan := "subscription plan was not found.";
     tm_unknown_plan := "subscription plan is not in the authoritative fulfillment catalog.";
     tm_no_cycle := "quota cycle was not found.";
     tm_cycle := "quota cycle conflicts with the subscription.";
     tm_period := "top-up eligibility requires the current monthly quota cycle.";
     tm_snapshot := "quota cycle conflicts with the authoritative plan snapshot.";
     tm_consumption := "top-up purchase requires at least 80% consumption of the monthly base quota." |}.

Definition eligibility_body (cmd : SubscriptionTopUpEligibilityCommand)
    (customer_ref billing_period : string) : Market SubscriptionTopUpEligibilityDecision :=
  let ms := eligibility_messages in
  ctx ← top_up_subscription ms (te_subscription_id cmd) customer_ref;
  let spec := snd ctx in
  cycle ← top_up_cycle ms (te_subscription_id cmd) (te_quota_cycle_id cmd) customer_ref spec
            (te_evaluated_at cmd);
  quote ← lift (quote_top_up_for_runtime (spec_plan_code spec) (te_requested_units cmd));
  tm_require ms (bool_decide (tq_state quote = READY_FOR_REVIEW) ||
                 bool_decide (tq_state quote = UPGRADE_RECOMMENDED))
    ("top-up request is not purchasable: " +:+ purchase_state_value (tq_state quote) +:+ ".");;
  tm_require ms ((0 <? total_units quote) && (0 <? bundle_count quote))
    "top-up quote did not produce purchasable units.";;
  mret {| td_eligible := true; td_reason := "monthly base quota consumption threshold satisfied";
          td_customer_ref := customer_ref; td_plan_code := spec_plan_code spec;
          td_plan_catalog_version := PLAN_FULFILLMENT_CATALOG_VERSION;
          td_billing_period := billing_period; td_quota_cycle_id := te_quota_cycle_id cmd;
          td_monthly_base_units := c_base_limit_units cycle;
          td_monthly_used_units := c_used_units cycle;
          td_minimum_used_units := ceil_percent (c_base_limit_units cycle)
                                     TOP_UP_MINIMUM_MONTHLY_CONSUMPTION_PERCENT;
          td_consumption_percent_floor := TOP_UP_MINIMUM_MONTHLY_CONSUMPTION_PERCENT;
          td_requested_units := te_requested_units cmd; td_bundle_count := bundle_count quote;
          td_total_units := total_units quote;
          td_total_price_usd := dec_str (total_price_usd quote);
          td_quote_state := purchase_state_value (tq_state quote) |}.

Definition evaluate_eligibility (cmd : SubscriptionTopUpEligibilityCommand) (db : MarketDb)
  : res SubscriptionTopUpEligibilityDecision * MarketDb :=
  match validate_eligibility cmd with
  | Ok (customer_ref, billing_period) =>
      with_uow (eligibility_body cmd customer_ref billing_period) db
  | Raise e => (Raise e, db)
  end.

(** ** The order *)

Record CreateSubscriptionTopUpOrderCommand := {
  co_order_id : UUID;
  co_customer_ref : string;
  co_subscription_id : UUID;
  co_quota_cycle_id : UUID;
  co_requested_units : Z;
  co_channel : TopUpCheckoutChannel;
  co_idempotency_key : string;
  co_created_at : datetime
}.

Record SubscriptionTopUpOrderResult := {
  or_order_id : UUID;
  or_plan_code : string;
  or_quota_cycle_id : UUID;
  or_requested_units : Z;
  or_bundle_count : Z;
  or_total_price_usd : string;
  or_settlement_currency : string;
  or_settlement_amount : string;
  or_channel : TopUpCheckoutChannel;
  or_idempotent_replay : bool;
  or_committed : bool
}.

Definition order_result (id : UUID) (o : CommercialTopUpOrder) (replay committed : bool)
  : SubscriptionTopUpOrderResult :=
  {| or_order_id := id; or_plan_code := o_plan_code o; or_quota_cycle_id := o_quota_cycle_id o;
     or_requested_units := o_requested_units o; or_bundle_count := o_bundle_count o;
     or_total_price_usd := dec_str (o_total_price_usd o);
     or_settlement_currency := o_settlement_currency o;
     or_settlement_amount := dec_str (o_settlement_amount o);
     or_channel := o_channel o; or_idempotent_replay := replay; or_committed := committed |}.

Definition order_replay_matches (cmd : CreateSubscriptionTopUpOrderCommand) (id : UUID)
    (e : CommercialTopUpOrder) : bool :=
  bool_decide (id = co_order_id cmd) &&
  bool_decide (o_customer_ref e = co_customer_ref cmd) &&
  bool_decide (o_subscription_id e = co_subscription_id cmd) &&
  bool_decide (o_quota_cycle_id e = co_quota_cycle_id cmd) &&
  (o_requested_units e =? co_requested_units cmd) &&
  bool_decide (o_channel e = co_channel cmd) &&
  bool_decide (o_plan_catalog_version e = PLAN_FULFILLMENT_CATALOG_VERSION).

Definition validate_order (cmd : CreateSubscriptionTopUpOrderCommand) : res unit :=
  _ ← reject_if (blank (co_customer_ref cmd)) ValueError "customer_ref must not be blank.";
  _ ← ensure (0 <? co_requested_units cmd) ValueError "requested_units must be positive.";
  _ ← reject_if (blank (co_idempotency_key cmd)) ValueError "idempotency_key must not be blank.";
  reject_if (naive (co_created_at cmd)) ValueError "top-up order timestamp must be timezone-aware.".

Definition order_messages : top_up_messages :=
  {| tm_error := SubscriptionTopUpOrderError;
     tm_missing := "top-up order requires an active subscription.";
     tm_inactive := "top-up order requires an active subscription.";
     tm_customer := "top-up order customer conflicts with the subscription.";
     tm_no_plan := "subscription plan was not found.";
     tm_unknown_plan := "subscription plan is not authoritative.";
     tm_no_cycle := "quota cycle was not found.";
     tm_cycle := "quota cycle conflicts with the top-up order.";
     tm_period := "top-up order requires the current monthly quota cycle.";
     tm_snapshot := "quota cycle conflicts with the authoritative plan snapshot.";
     tm_consumption := "top-up order requires at least 80% consumption of the monthly base quota." |}.

Section Order.
Context (resolver : option (string -> UUID -> datetime -> res bool))
        (provider : option (datetime -> res ExchangeRateQuote)).

Definition order_require (b : bool) (msg : string) : res unit :=
  ensure b SubscriptionTopUpOrderError msg.

(** The settlement of the channel: currency, amount and exchange-rate quote. *)
Definition order_settlement (cmd : CreateSubscriptionTopUpOrderCommand) (price : dec)
  : res (string * dec * option ExchangeRateQuote) :=
  match co_channel cmd with
  | LEMON_SQUEEZY => mret ("USD", price, None)
  | LOCAL_TUNISIA =>
      match resolver, provider with
      | Some resolve, Some quote_usd_to_tnd =>
          eligible ← resolve (co_customer_ref cmd) (co_subscription_id cmd) (co_created_at cmd);
          _ ← order_require eligible "customer is not eligible for Tunisia-local settlement.";
          q ← quote_usd_to_tnd (co_created_at cmd);
          expired ← is_expired_at q (co_created_at cmd);
          _ ← order_require (negb expired) "Tunisia-local exchange-rate quote is expired.";
          amount ← calculate_tnd_settlement price (eq_rate q);
          mret ("TND", amount, Some q)
      | _, _ => raise SubscriptionTopUpOrderError "Tunisia-local top-up ordering is not configured."
      end
  end.

(** [except (TypeError, ValueError)]. *)
Definition as_order_error {A} (m : res A) : res A :=
  match m with
  | Raise (Exn TypeError _) | Raise (Exn ValueError _) =>
      raise SubscriptionTopUpOrderError "top-up settlement snapshot is invalid."
  | _ => m
  end.

Definition new_order (cmd : CreateSubscriptionTopUpOrderCommand) (s : AdminMarketSubscription)
    (spec : PlanFulfillmentSpec) (quote : TopUpQuote) (currency : string) (amount : dec)
    (rate_quote : option ExchangeRateQuote) : CommercialTopUpOrder :=
  {| o_account_id := None; o_customer_ref := s_customer_ref s;
     o_subscription_id := co_subscription_id cmd; o_quota_cycle_id := co_quota_cycle_id cmd;
     o_plan_code := spec_plan_code spec; o_plan_catalog_version := PLAN_FULFILLMENT_CATALOG_VERSION;
     o_requested_units := total_units quote; o_bundle_count := bundle_count quote;
     o_total_price_usd := total_price_usd quote; o_settlement_currency := currency;
     o_settlement_amount := amount; o_exchange_rate_usd_tnd := eq_rate <$> rate_quote;
     o_exchange_rate_source := eq_source <$> rate_quote;
     o_exchange_rate_reference := eq_reference <$> rate_quote;
     o_exchange_rate_observed_at := observed_at <$> rate_quote;
     o_exchange_rate_expires_at := eq_expires_at <$> rate_quote;
     o_channel := co_channel cmd; o_provider_variant_id := None; o_provider_checkout_id := None;
     o_checkout_creation_status := CkNotStarted; o_idempotency_key := co_idempotency_key cmd;
     o_state := AWAITING_PAYMENT; o_created_at := co_created_at cmd |}.

Definition order_body (cmd : CreateSubscriptionTopUpOrderCommand)
  : Market SubscriptionTopUpOrderResult :=
  let ms := order_messages in
  existing ← order_by_idempotency_key (co_idempotency_key cmd);
  match existing with
  | Some (id, e) =>
      tm_require ms (order_replay_matches cmd id e)
        "top-up order idempotency replay conflicts with the existing order.";;
      mret (order_result id e true false)
  | None =>
      ctx ← top_up_subscription ms (co_subscription_id cmd) (co_customer_ref cmd);
      let '(s, spec) := ctx in
      top_up_cycle ms (co_subscription_id cmd) (co_quota_cycle_id cmd) (co_customer_ref cmd) spec
        (co_created_at cmd);;
      quote ← lift (quote_top_up (spec_plan_code spec) (co_requested_units cmd));
      tm_require ms ((0 <? total_units quote) && (0 <? bundle_count quote))
        ("top-up request is not purchasable: " +:+ purchase_state_value (tq_state quote) +:+ ".");;
      tm_require ms (total_units quote =? co_requested_units cmd)
        "top-up quote units conflict with the requested units.";;
      settlement ← lift (order_settlement cmd (total_price_usd quote));
      let '(currency, amount, rate_quote) := settlement in
      lift (as_order_error (validate_channel_settlement (co_channel cmd) (total_price_usd quote)
                              currency amount rate_quote));;
      let order := new_order cmd s spec quote currency amount rate_quote in
      add_order (co_order_id cmd) order;;
      market_commit;;
      mret (order_result (co_order_id cmd) order false true)
  end.

Definition create_order (cmd : CreateSubscriptionTopUpOrderCommand) (db : MarketDb)
  : res SubscriptionTopUpOrderResult * MarketDb :=
  match validate_order cmd with
  | Ok _ => with_uow (order_body cmd) db
  | Raise e => (Raise e, db)
  end.
End Order.
