(* ===== verification/TopUpGrant.v ===== *)
(** * Granting and reversing a top-up

    Models [admin_marketplace/subscription_top_up_grant.py] (verified units are added to
    the current quota cycle), [local_tunisia_top_up_payment.py] (a verified local payment
    and its grant) and [subscription_top_up_reversal.py] (the units of a refunded grant
    are taken back, or the refund is left for review). *)
From S2P Require Import Prelude PyString PyDateTime PyDecimal MaestroUnits PlanCatalog.
From S2P Require Import TopUpQuote Uow TopUpDb MarketDb QuotaUsage.
From S2P Require Import QuotaUsage TopUpOrder.
#[local] Open Scope Z_scope.

(** ** Repositories *)

Definition grant_by_order_id (order_id : UUID)
  : Market (option (UUID * AdminMarketSubscriptionTopUpGrant)) :=
  query (fun db => find_row (fun g => bool_decide (g_order_id g = order_id)) (tu_grants (db_top_ups db))).
Definition grant_by_idempotency_key (key : string)
  : Market (option (UUID * AdminMarketSubscriptionTopUpGrant)) :=
  query (fun db => find_row (fun g => bool_decide (g_grant_idempotency_key g = key))
                     (tu_grants (db_top_ups db))).
Definition payment_by_provider_reference (ref : string)
  : Market (option (UUID * CommercialTopUpPaymentEvidence)) :=
  query (fun db => find_row (fun p => bool_decide (pe_provider_reference p = ref))
                     (tu_payments (db_top_ups db))).
Definition reversal_by_provider_event_ref (ref : string)
  : Market (option (UUID * AdminMarketSubscriptionTopUpReversal)) :=
  query (fun db => find_row (fun v => bool_decide (v_provider_event_ref v = ref))
                     (tu_reversals (db_top_ups db))).
Definition reversal_by_grant_id (id : UUID)
  : Market (option (UUID * AdminMarketSubscriptionTopUpReversal)) :=
  query (fun db => find_row (fun v => bool_decide (v_grant_id v = id)) (tu_reversals (db_top_ups db))).

Definition add_grant := add_row (fun db => tu_grants (db_top_ups db))
                          (fun id g => put_top_ups (tu_put_grant id g)).
Definition add_reversal := add_row (fun db => tu_reversals (db_top_ups db))
                             (fun id v => put_top_ups (tu_put_reversal id v)).
Definition add_payment (id : UUID) (p : CommercialTopUpPaymentEvidence) : Market unit :=
  add_row (fun db => tu_payments (db_top_ups db)) (fun id p => put_top_ups (tu_put_payment id p)) id
    (stored_payment p).
Definition put_order (id : UUID) (o : CommercialTopUpOrder) : MarketDb -> MarketDb :=
  put_top_ups (tu_put_order id o).

(** [cycle.top_up_units = units; cycle.version += 1]. *)
Definition set_top_up_units (units : Z) (c : AdminMarketSubscriptionQuotaCycle)
  : AdminMarketSubscriptionQuotaCycle :=
  {| c_subscription_id := c_subscription_id c; c_source_cycle_id := c_source_cycle_id c;
     c_customer_ref := c_customer_ref c; c_plan_code := c_plan_code c;
     c_plan_catalog_version := c_plan_catalog_version c;
     c_entitlement_codes := c_entitlement_codes c; c_quota_profile_ref := c_quota_profile_ref c;
     c_metric_code := c_metric_code c; c_period_start := c_period_start c;
     c_period_end := c_period_end c; c_base_limit_units := c_base_limit_units c;
     c_rollover_units := c_rollover_units c; c_top_up_units := units;
     c_rollover_status := c_rollover_status c; c_rollover_expires_at := c_rollover_expires_at c;
     c_rollover_locked_at := c_rollover_locked_at c;
     c_rollover_restored_at := c_rollover_restored_at c;
     c_rollover_expired_at := c_rollover_expired_at c;
     c_used_units := c_used_units c; c_version := c_version c + 1 |}.

(** ** The grant *)

Record SubscriptionTopUpGrantCommand := {
  gc_order_id : UUID;
  gc_subscription_id : UUID;
  gc_quota_cycle_id : UUID;
  gc_customer_ref : string;
  gc_provider_reference : string;
  gc_granted_at : datetime
}.

Record SubscriptionTopUpGrantResult := {
  gr_grant_id : UUID;
  gr_order_id : UUID;
  gr_quota_cycle_id : UUID;
  gr_units : Z;
  gr_expires_at : datetime;
  gr_idempotent_replay : bool;
  gr_committed : bool
}.

Definition validate_grant (cmd : SubscriptionTopUpGrantCommand) : res unit :=
  _ ← reject_if (blank (gc_customer_ref cmd)) ValueError "customer_ref must not be blank.";
  _ ← reject_if (blank (gc_provider_reference cmd)) ValueError "provider_reference must not be blank.";
  reject_if (naive (gc_granted_at cmd)) ValueError "top-up grant timestamp must be timezone-aware.".

Definition grant_replay_matches (e : AdminMarketSubscriptionTopUpGrant)
    (cmd : SubscriptionTopUpGrantCommand) : bool :=
  bool_decide (g_subscription_id e = gc_subscription_id cmd) &&
  bool_decide (g_quota_cycle_id e = gc_quota_cycle_id cmd) &&
  bool_decide (g_customer_ref e = gc_customer_ref cmd) &&
  bool_decide (g_provider_reference e = gc_provider_reference cmd).

Definition grant_messages : top_up_messages :=
  {| tm_error := SubscriptionTopUpGrantError;
     tm_missing := "top-up grant requires an active subscription.";
     tm_inactive := "top-up grant requires an active subscription.";
     tm_customer := "top-up grant customer conflicts with the subscription.";
     tm_no_plan := "subscription plan was not found.";
     tm_unknown_plan := "subscription plan is not authoritative.";
     tm_no_cycle := "quota cycle was not found.";
     tm_cycle := "quota cycle conflicts with the top-up grant.";
     tm_period := "top-up grant requires the current monthly quota cycle.";
     tm_snapshot := "quota cycle conflicts with the authoritative plan snapshot.";
     tm_consumption := "top-up grant requires at least 80% consumption of the monthly base quota." |}.

Notation grant_require := (tm_require grant_messages).
Notation grant_found := (tm_found grant_messages).

(** The order of the command, still to be granted. *)
Definition grantable_order (cmd : SubscriptionTopUpGrantCommand) : Market CommercialTopUpOrder :=
  found ← order_by_id (gc_order_id cmd);
  order ← grant_found found "top-up order was not found.";
  grant_require (bool_decide (o_subscription_id order = gc_subscription_id cmd) &&
                 bool_decide (o_quota_cycle_id order = gc_quota_cycle_id cmd) &&
                 bool_decide (o_customer_ref order = gc_customer_ref cmd) &&
                 bool_decide (o_plan_catalog_version order = PLAN_FULFILLMENT_CATALOG_VERSION))
    "top-up order ownership snapshot conflicts with the grant command.";;
  grant_require (bool_decide (o_state order = AWAITING_PAYMENT) ||
                 bool_decide (o_state order = PAYMENT_VERIFIED))
    "top-up order is not eligible for a new grant.";;
  mret order.

(** The quote of the order, equal to its snapshot. *)
Definition grant_quote (order : CommercialTopUpOrder) (spec : PlanFulfillmentSpec)
  : Market TopUpQuote :=
  quote ← lift (quote_top_up (spec_plan_code spec) (o_requested_units order));
  grant_require ((0 <? total_units quote) && (0 <? bundle_count quote))
    "top-up order does not resolve to an authoritative quote.";;
  grant_require ((o_bundle_count order =? bundle_count quote) &&
                 (o_requested_units order =? total_units quote) &&
                 dec_eqb (o_total_price_usd order) (total_price_usd quote))
    "top-up order snapshot conflicts with the authoritative quote.";;
  mret quote.

(** The verified payment of the order: its currency and amount. *)
Definition verified_payment (cmd : SubscriptionTopUpGrantCommand) (order : CommercialTopUpOrder)
  : Market unit :=
  found ← payment_by_provider_reference (gc_provider_reference cmd);
  payment ← grant_found found "verified payment does not belong to the top-up order.";
  let p := snd payment in
  grant_require (bool_decide (pe_order_id p = gc_order_id cmd))
    "verified payment does not belong to the top-up order.";;
  grant_require (bool_decide (pe_outcome p = PayVerified)) "top-up payment is not verified.";;
  grant_require (bool_decide (pe_verified_currency p =
                              Some (upper (strip (o_settlement_currency order)))))
    "verified payment currency conflicts with the top-up order.";;
  match pe_verified_amount p with
  | None => throw TypeError "conversion from NoneType to Decimal is not supported"
  | Some amount =>
      grant_require (dec_eqb amount (o_settlement_amount order))
        "verified payment amount conflicts with the top-up order."
  end.

(** [grant_key]. *)
Definition grant_key (order_id : UUID) : string := "subscription-top-up:" +:+ order_id.

Definition new_grant (cmd : SubscriptionTopUpGrantCommand) (s : AdminMarketSubscription)
    (spec : PlanFulfillmentSpec) (cycle : AdminMarketSubscriptionQuotaCycle) (units : Z)
  : AdminMarketSubscriptionTopUpGrant :=
  {| g_order_id := gc_order_id cmd; g_subscription_id := gc_subscription_id cmd;
     g_quota_cycle_id := gc_quota_cycle_id cmd; g_customer_ref := s_customer_ref s;
     g_plan_code := spec_plan_code spec; g_plan_catalog_version := PLAN_FULFILLMENT_CATALOG_VERSION;
     g_units := units; g_grant_idempotency_key := grant_key (gc_order_id cmd);
     g_provider_reference := gc_provider_reference cmd; g_granted_at := gc_granted_at cmd;
     g_expires_at := c_period_end cycle |}.

Definition grant_result (id : UUID) (g : AdminMarketSubscriptionTopUpGrant) (replay committed : bool)
  : SubscriptionTopUpGrantResult :=
  {| gr_grant_id := id; gr_order_id := g_order_id g; gr_quota_cycle_id := g_quota_cycle_id g;
     gr_units := g_units g; gr_expires_at := g_expires_at g; gr_idempotent_replay := replay;
     gr_committed := committed |}.

(** Everything a new grant requires: the order, the subscription with its plan, the
    cycle and the quote. *)
Definition grant_context (cmd : SubscriptionTopUpGrantCommand)
  : Market (CommercialTopUpOrder * AdminMarketSubscription * PlanFulfillmentSpec *
            AdminMarketSubscriptionQuotaCycle * TopUpQuote) :=
  order ← grantable_order cmd;
  ctx ← top_up_subscription grant_messages (gc_subscription_id cmd) (gc_customer_ref cmd);
  let '(s, spec) := ctx in
  grant_require (bool_decide (o_plan_code order = spec_plan_code spec))
    "top-up order plan conflicts with the subscription.";;
  cycle ← top_up_cycle grant_messages (gc_subscription_id cmd) (gc_quota_cycle_id cmd)
            (gc_customer_ref cmd) spec (gc_granted_at cmd);
  quote ← grant_quote order spec;
  verified_payment cmd order;;
  duplicate ← grant_by_idempotency_key (grant_key (gc_order_id cmd));
  grant_require (match duplicate with None => true | Some _ => false end)
    "top-up grant idempotency key already belongs to another grant.";;
  mret (order, s, spec, cycle, quote).

Definition apply_verified_subscription_top_up_in_uow (new_id : UUID)
    (cmd : SubscriptionTopUpGrantCommand) : Market SubscriptionTopUpGrantResult :=
  lift (validate_grant cmd);;
  existing ← grant_by_order_id (gc_order_id cmd);
  match existing with
  | Some (id, e) =>
      grant_require (grant_replay_matches e cmd)
        "top-up grant replay conflicts with the existing ledger entry.";;
      mret (grant_result id e true false)
  | None =>
      ctx ← grant_context cmd;
      let '(order, s, spec, cycle, quote) := ctx in
      let g := new_grant cmd s spec cycle (total_units quote) in
      add_grant new_id g;;
      mutate (put_cycle (gc_quota_cycle_id cmd)
                (set_top_up_units (c_top_up_units cycle + total_units quote) cycle));;
      mutate (put_order (gc_order_id cmd) (set_order_state GRANTED order));;
      mret (grant_result new_id g false false)
  end.

(** [if result.idempotent_replay: return result], else the commit. *)
Definition grant_body (new_id : UUID) (cmd : SubscriptionTopUpGrantCommand)
  : Market SubscriptionTopUpGrantResult :=
  r ← apply_verified_subscription_top_up_in_uow new_id cmd;
  if gr_idempotent_replay r then mret r
  else
    market_commit;;
    mret {| gr_grant_id := gr_grant_id r; gr_order_id := gr_order_id r;
            gr_quota_cycle_id := gr_quota_cycle_id r; gr_units := gr_units r;
            gr_expires_at := gr_expires_at r; gr_idempotent_replay := false; gr_committed := true |}.

Definition grant (new_id : UUID) (cmd : SubscriptionTopUpGrantCommand) (db : MarketDb)
  : res SubscriptionTopUpGrantResult * MarketDb := with_uow (grant_body new_id cmd) db.

(** ** A verified Tunisia-local payment *)

Record VerifyLocalTunisiaTopUpPaymentCommand := {
  lc_order_id : UUID;
  lc_customer_ref : string;
  lc_provider_reference : string;
  lc_amount_tnd : Decimal;
  lc_evidence_reference : string;
  lc_verified_at : datetime
}.

Record LocalTunisiaTopUpPaymentResult := {
  lr_order_id : UUID;
  lr_grant_id : UUID;
  lr_units : Z;
  lr_replayed_grant : bool;
  lr_committed : bool
}.

Definition local_require (b : bool) (msg : string) : Market unit :=
  lift (ensure b LocalTunisiaTopUpPaymentError msg).
Definition local_found {A} (x : option A) (msg : string) : Market A :=
  match x with Some a => mret a | None => throw LocalTunisiaTopUpPaymentError msg end.

(** The validated amount of the command. *)
Definition validate_local (cmd : VerifyLocalTunisiaTopUpPaymentCommand) : res dec :=
  _ ← reject_if (blank (lc_customer_ref cmd)) ValueError "customer_ref must not be blank.";
  _ ← reject_if (blank (lc_provider_reference cmd)) ValueError "provider_reference must not be blank.";
  _ ← reject_if (blank (lc_evidence_reference cmd)) ValueError "evidence_reference must not be blank.";
  amount ← match lc_amount_tnd cmd with
           | Finite a =>
               _ ← ensure (dec_ltb (dec_int 0) a) ValueError "amount_tnd must be positive and finite.";
               mret a
           | NonFinite => raise ValueError "amount_tnd must be positive and finite."
           end;
  _ ← reject_if (naive (lc_verified_at cmd)) ValueError "verified_at must be timezone-aware.";
  mret amount.

(** [_decimal(value)]. *)
Definition local_decimal (v : option dec) (field_name : string) : res dec :=
  match v with
  | Some d =>
      _ ← ensure (dec_ltb (dec_int 0) d) LocalTunisiaTopUpPaymentError (field_name +:+ " is invalid.");
      mret d
  | None => raise LocalTunisiaTopUpPaymentError (field_name +:+ " is invalid.")
  end.

Definition new_payment (order_id : UUID) (ref : string) (amount : dec) (currency evidence : string)
    (created_at : datetime) : CommercialTopUpPaymentEvidence :=
  {| pe_order_id := order_id; pe_provider_reference := ref; pe_outcome := PayVerified;
     pe_verified_amount := Some amount; pe_verified_currency := Some currency;
     pe_immutable_evidence_reference := Some evidence; pe_created_at := created_at |}.

Definition has_rate_snapshot (o : CommercialTopUpOrder) : bool :=
  match o_exchange_rate_usd_tnd o, o_exchange_rate_source o, o_exchange_rate_reference o,
        o_exchange_rate_observed_at o, o_exchange_rate_expires_at o with
  | Some _, Some _, Some _, Some _, Some _ => true
  | _, _, _, _, _ => false
  end.

(** The order a local payment pays for. *)
Definition local_order (cmd : VerifyLocalTunisiaTopUpPaymentCommand) (amount : dec)
  : Market CommercialTopUpOrder :=
  found ← order_by_id (lc_order_id cmd);
  order ← local_found found "top-up order was not found.";
  local_require (bool_decide (o_customer_ref order = lc_customer_ref cmd))
    "payment customer conflicts with the top-up order.";;
  local_require (bool_decide (o_channel order = LOCAL_TUNISIA) &&
                 bool_decide (o_settlement_currency order = "TND"))
    "top-up order is not a Tunisia-local settlement.";;
  local_require (bool_decide (o_state order = AWAITING_PAYMENT) ||
                 bool_decide (o_state order = PAYMENT_VERIFIED) ||
                 bool_decide (o_state order = GRANTED))
    "top-up order is not eligible for payment verification.";;
  local_require (has_rate_snapshot order)
    "top-up order is missing its fixed exchange-rate snapshot.";;
  expected ← lift (local_decimal (Some (o_settlement_amount order)) "order settlement amount");
  local_require (dec_eqb amount expected) "Tunisia-local payment amount conflicts with the order.";;
  mret order.

(** The evidence of the payment, recorded once. *)
Definition local_evidence (new_payment_id : UUID) (cmd : VerifyLocalTunisiaTopUpPaymentCommand)
    (amount : dec) : Market unit :=
  existing ← payment_by_provider_reference (lc_provider_reference cmd);
  match existing with
  | None =>
      add_payment new_payment_id
        (new_payment (lc_order_id cmd) (lc_provider_reference cmd) amount "TND"
           (lc_evidence_reference cmd) (lc_verified_at cmd))
  | Some (_, p) =>
      let conflict := "Tunisia-local payment reference conflicts with existing evidence." in
      local_require (bool_decide (pe_order_id p = lc_order_id cmd) &&
                     bool_decide (pe_outcome p = PayVerified)) conflict;;
      paid ← lift (local_decimal (pe_verified_amount p) "existing verified amount");
      local_require (dec_eqb paid amount && bool_decide (pe_verified_currency p = Some "TND") &&
                     bool_decide (pe_immutable_evidence_reference p = Some (lc_evidence_reference cmd)))
        conflict
  end.

(** [except SubscriptionTopUpGrantError as exc: raise k(msg) from exc]. *)
Definition translate_grant_error {A} (k : exn_class) (msg : string) (m : Market A) : Market A :=
  fun s => match m s with
           | (Raise (Exn SubscriptionTopUpGrantError _), s') => (raise k msg, s')
           | r => r
           end.

Definition verify_local_body (new_payment_id new_grant_id : UUID)
    (cmd : VerifyLocalTunisiaTopUpPaymentCommand) : Market LocalTunisiaTopUpPaymentResult :=
  amount ← lift (validate_local cmd);
  order ← local_order cmd amount;
  local_evidence new_payment_id cmd amount;;
  (if bool_decide (o_state order = AWAITING_PAYMENT)
   then mutate (put_order (lc_order_id cmd) (set_order_state PAYMENT_VERIFIED order)) else mret tt);;
  g ← translate_grant_error LocalTunisiaTopUpPaymentError
        "verified Tunisia-local payment could not be granted safely."
        (apply_verified_subscription_top_up_in_uow new_grant_id
           {| gc_order_id := lc_order_id cmd; gc_subscription_id := o_subscription_id order;
              gc_quota_cycle_id := o_quota_cycle_id order; gc_customer_ref := o_customer_ref order;
              gc_provider_reference := lc_provider_reference cmd;
              gc_granted_at := lc_verified_at cmd |});
  (if gr_idempotent_replay g then mret tt else market_commit);;
  mret {| lr_order_id := lc_order_id cmd; lr_grant_id := gr_grant_id g; lr_units := gr_units g;
          lr_replayed_grant := gr_idempotent_replay g;
          lr_committed := negb (gr_idempotent_replay g) |}.

Definition verify_local (new_payment_id new_grant_id : UUID)
    (cmd : VerifyLocalTunisiaTopUpPaymentCommand) (db : MarketDb)
  : res LocalTunisiaTopUpPaymentResult * MarketDb :=
  with_uow (verify_local_body new_payment_id new_grant_id cmd) db.

(** ** The reversal *)

Record ReverseSubscriptionTopUpCommand := {
  rc_order_id : UUID;
  rc_provider_event_ref : string;
  rc_reason_code : string;
  rc_reversed_at : datetime
}.

Record SubscriptionTopUpReversalResult := {
  rr_reversal_id : UUID;
  rr_order_id : UUID;
  rr_grant_id : UUID;
  rr_units : Z;
  rr_outcome : ReversalOutcome;
  rr_idempotent_replay : bool;
  rr_committed : bool
}.

Definition validate_reversal (cmd : ReverseSubscriptionTopUpCommand) : res unit :=
  _ ← reject_if (blank (rc_provider_event_ref cmd)) ValueError "provider_event_ref must not be blank.";
  _ ← reject_if (blank (rc_reason_code cmd)) ValueError "reason_code must not be blank.";
  reject_if (naive (rc_reversed_at cmd)) ValueError "top-up reversal timestamp must be timezone-aware.".

Definition reversal_require (b : bool) (msg : string) : Market unit :=
  lift (ensure b SubscriptionTopUpReversalError msg).
Definition reversal_found {A} (x : option A) (msg : string) : Market A :=
  match x with Some a => mret a | None => throw SubscriptionTopUpReversalError msg end.

Definition reversal_result (id : UUID) (v : AdminMarketSubscriptionTopUpReversal)
    (replay committed : bool) : SubscriptionTopUpReversalResult :=
  {| rr_reversal_id := id; rr_order_id := v_order_id v; rr_grant_id := v_grant_id v;
     rr_units := v_units v; rr_outcome := v_outcome v; rr_idempotent_replay := replay;
     rr_committed := committed |}.

(** The grant of the order and its cycle, consistent with each other. *)
Definition reversal_context (cmd : ReverseSubscriptionTopUpCommand)
  : Market (UUID * AdminMarketSubscriptionTopUpGrant * AdminMarketSubscriptionQuotaCycle) :=
  found ← grant_by_order_id (rc_order_id cmd);
  grow ← reversal_found found "top-up grant was not found.";
  let '(gid, g) := grow in
  decided ← reversal_by_grant_id gid;
  reversal_require (match decided with None => true | Some _ => false end)
    "top-up grant already has a reversal decision.";;
  found_order ← order_by_id (rc_order_id cmd);
  order ← reversal_found found_order "top-up reversal requires a granted order.";
  reversal_require (bool_decide (o_state order = GRANTED)) "top-up reversal requires a granted order.";;
  reversal_require (bool_decide (g_order_id g = rc_order_id cmd) &&
                    bool_decide (g_subscription_id g = o_subscription_id order) &&
                    bool_decide (g_quota_cycle_id g = o_quota_cycle_id order) &&
                    bool_decide (g_customer_ref g = o_customer_ref order))
    "top-up grant conflicts with the authoritative order snapshot.";;
  found_cycle ← cycle_by_id (g_quota_cycle_id g);
  cycle ← reversal_found found_cycle "top-up quota cycle was not found.";
  reversal_require (bool_decide (c_subscription_id cycle = g_subscription_id g) &&
                    bool_decide (c_customer_ref cycle = g_customer_ref g))
    "top-up reversal conflicts with the quota cycle.";;
  reversal_require (negb (c_top_up_units cycle <? g_units g))
    "quota cycle contains fewer top-up units than the grant ledger.";;
  mret (gid, g, cycle).

(** [can_reverse_balance]: the units of the grant have not been consumed. *)
Definition can_reverse (g : AdminMarketSubscriptionTopUpGrant)
    (c : AdminMarketSubscriptionQuotaCycle) : bool :=
  c_used_units c <=? c_base_limit_units c + spendable_rollover_units c
                     + (c_top_up_units c - g_units g).

Definition new_reversal (cmd : ReverseSubscriptionTopUpCommand) (gid : UUID)
    (g : AdminMarketSubscriptionTopUpGrant) (reversible : bool)
  : AdminMarketSubscriptionTopUpReversal :=
  {| v_order_id := rc_order_id cmd; v_grant_id := gid; v_subscription_id := g_subscription_id g;
     v_quota_cycle_id := g_quota_cycle_id g; v_customer_ref := g_customer_ref g;
     v_provider_event_ref := rc_provider_event_ref cmd; v_units := g_units g;
     v_outcome := if reversible then ROReversed else ROManualReview;
     v_reason_code := if reversible then rc_reason_code cmd else "units_already_consumed";
     v_reversed_at := rc_reversed_at cmd |}.

Definition reverse_subscription_top_up_in_uow (new_id : UUID)
    (cmd : ReverseSubscriptionTopUpCommand) : Market SubscriptionTopUpReversalResult :=
  lift (validate_reversal cmd);;
  existing ← reversal_by_provider_event_ref (rc_provider_event_ref cmd);
  match existing with
  | Some (id, e) =>
      reversal_require (bool_decide (v_order_id e = rc_order_id cmd))
        "top-up reversal event already belongs to another order.";;
      mret (reversal_result id e true false)
  | None =>
      ctx ← reversal_context cmd;
      let '(gid, g, cycle) := ctx in
      let reversible := can_reverse g cycle in
      let v := new_reversal cmd gid g reversible in
      add_reversal new_id v;;
      (if reversible
       then mutate (put_cycle (g_quota_cycle_id g)
                      (set_top_up_units (c_top_up_units cycle - g_units g) cycle))
       else mret tt);;
      mret (reversal_result new_id v false false)
  end.

Definition reverse_body (new_id : UUID) (cmd : ReverseSubscriptionTopUpCommand)
  : Market SubscriptionTopUpReversalResult :=
  r ← reverse_subscription_top_up_in_uow new_id cmd;
  if rr_idempotent_replay r then mret r
  else
    market_commit;;
    mret {| rr_reversal_id := rr_reversal_id r; rr_order_id := rr_order_id r;
            rr_grant_id := rr_grant_id r; rr_units := rr_units r; rr_outcome := rr_outcome r;
            rr_idempotent_replay := false; rr_committed := true |}.

Definition reverse (new_id : UUID) (cmd : ReverseSubscriptionTopUpCommand) (db : MarketDb)
  : res SubscriptionTopUpReversalResult * MarketDb := with_uow (reverse_body new_id cmd) db.
