(* ===== verification/TopUpSpec.v ===== *)
(** * What granting and reversing a top-up promise

    The abstract effect of a grant, of a reversal and of an order on the database, the
    conditions under which each happens, and the proofs that the bodies of [TopUpOrder]
    and [TopUpGrant] have exactly these effects. *)
From S2P Require Import Prelude PyString PyDateTime PyDecimal MaestroUnits PlanCatalog.
From S2P Require Import TopUpQuote Uow TopUpDb MarketDb QuotaUsage.
From S2P Require Import QuotaUsage TopUpOrder TopUpGrant.
#[local] Open Scope Z_scope.

Section TopUpSpec.
Implicit Types (db : MarketDb) (c : AdminMarketSubscriptionQuotaCycle).

Notation orders db := (tu_orders (db_top_ups db)).
Notation payments db := (tu_payments (db_top_ups db)).
Notation grants db := (tu_grants (db_top_ups db)).
Notation reversals db := (tu_reversals (db_top_ups db)).

(** ** Inversion *)

Lemma tm_found_Ok ms {A} (x : option A) msg (s : Session MarketDb) a s' :
  tm_found ms x msg s = (Ok a, s') -> x = Some a /\ s' = s.
Proof. destruct x; cbn; [by intros [= -> ->]|done]. Qed.
Lemma tm_require_Ok ms b msg (s : Session MarketDb) u s' :
  tm_require ms b msg s = (Ok u, s') -> b = true /\ s' = s.
Proof. unfold tm_require. rewrite lift_Ok ensure_Ok. naive_solver. Qed.
Lemma reversal_found_Ok {A} (x : option A) msg (s : Session MarketDb) a s' :
  reversal_found x msg s = (Ok a, s') -> x = Some a /\ s' = s.
Proof. destruct x; cbn; [by intros [= -> ->]|done]. Qed.
Lemma reversal_require_Ok b msg (s : Session MarketDb) u s' :
  reversal_require b msg s = (Ok u, s') -> b = true /\ s' = s.
Proof. unfold reversal_require. rewrite lift_Ok ensure_Ok. naive_solver. Qed.
Lemma local_found_Ok {A} (x : option A) msg (s : Session MarketDb) a s' :
  local_found x msg s = (Ok a, s') -> x = Some a /\ s' = s.
Proof. destruct x; cbn; [by intros [= -> ->]|done]. Qed.
Lemma local_require_Ok b msg (s : Session MarketDb) u s' :
  local_require b msg s = (Ok u, s') -> b = true /\ s' = s.
Proof. unfold local_require. rewrite lift_Ok ensure_Ok. naive_solver. Qed.

Lemma lift_inv {A} (m : res A) (s : Session MarketDb) r s' : lift m s = (r, s') -> m = r /\ s' = s.
Proof. unfold lift. by intros [= -> ->]. Qed.
Lemma mret_Ok {A} (a b : A) (s s' : Session MarketDb) :
  (mret a : Market A) s = (Ok b, s') -> a = b /\ s = s'.
Proof. by intros [= -> ->]. Qed.

Ltac inv_top_up :=
  repeat match goal with
  | H : (_ ≫= _) _ = (Ok _, _) |- _ => apply M_bind_Ok in H as (? & ? & ? & H)
  | H : tm_found _ _ _ _ = (Ok _, _) |- _ => apply tm_found_Ok in H as [? ->]
  | H : tm_require _ _ _ _ = (Ok _, _) |- _ => apply tm_require_Ok in H as [? ->]
  | H : reversal_found _ _ _ = (Ok _, _) |- _ => apply reversal_found_Ok in H as [? ->]
  | H : reversal_require _ _ _ = (Ok _, _) |- _ => apply reversal_require_Ok in H as [? ->]
  | H : local_found _ _ _ = (Ok _, _) |- _ => apply local_found_Ok in H as [? ->]
  | H : local_require _ _ _ = (Ok _, _) |- _ => apply local_require_Ok in H as [? ->]
  | H : (match ?x with pair _ _ => _ end) _ = (Ok _, _) |- _ => destruct x
  | H : lift _ _ = (Ok _, _) |- _ => apply lift_Ok in H as [? <-]
  | H : query _ _ = (Ok _, _) |- _ => rewrite query_eq in H; injection H as ? <-
  | H : mret _ _ = (Ok _, _) |- _ => apply mret_Ok in H as [? ?]
  end.

Lemma read_only_tm_found ms {A} (x : option A) msg : read_only (DB:=MarketDb) (tm_found ms x msg).
Proof. by destruct x. Qed.
Lemma read_only_tm_require ms b msg : read_only (DB:=MarketDb) (tm_require ms b msg).
Proof. done. Qed.
Lemma read_only_reversal_found {A} (x : option A) msg : read_only (DB:=MarketDb) (reversal_found x msg).
Proof. by destruct x. Qed.
Lemma read_only_reversal_require b msg : read_only (DB:=MarketDb) (reversal_require b msg).
Proof. done. Qed.
Lemma read_only_local_found {A} (x : option A) msg : read_only (DB:=MarketDb) (local_found x msg).
Proof. by destruct x. Qed.
Lemma read_only_local_require b msg : read_only (DB:=MarketDb) (local_require b msg).
Proof. done. Qed.
Hint Resolve read_only_tm_found read_only_tm_require read_only_reversal_found
  read_only_reversal_require read_only_local_found read_only_local_require : maestro.

Lemma read_only_top_up_subscription ms sid customer : read_only (top_up_subscription ms sid customer).
Proof. unfold top_up_subscription. reads_only. Qed.
Lemma read_only_top_up_cycle ms sid cid customer spec t :
  read_only (top_up_cycle ms sid cid customer spec t).
Proof. unfold top_up_cycle. reads_only. Qed.
Lemma read_only_grantable_order cmd : read_only (grantable_order cmd).
Proof. unfold grantable_order. reads_only. Qed.
Lemma read_only_grant_quote o spec : read_only (grant_quote o spec).
Proof. unfold grant_quote. reads_only. Qed.
Lemma read_only_verified_payment cmd o : read_only (verified_payment cmd o).
Proof. unfold verified_payment. reads_only. Qed.
Hint Resolve read_only_top_up_subscription read_only_top_up_cycle read_only_grantable_order
  read_only_grant_quote read_only_verified_payment : maestro.
Lemma read_only_grant_context cmd : read_only (grant_context cmd).
Proof. unfold grant_context. reads_only. Qed.
Lemma read_only_reversal_context cmd : read_only (reversal_context cmd).
Proof. unfold reversal_context. reads_only. Qed.
Lemma read_only_local_order cmd a : read_only (local_order cmd a).
Proof. unfold local_order. reads_only. Qed.

(** ** Conditions *)

(** The current cycle of the subscription at [t], on the plan of [spec], with at least
    80% of its base consumed. *)
Definition top_up_current (spec : PlanFulfillmentSpec) (sid : UUID) (customer : string)
    (t : datetime) c : Prop :=
  c_subscription_id c = sid /\ c_customer_ref c = customer /\
  instant (c_period_start c) <= instant t < instant (c_period_end c) /\
  c_plan_code c = spec_plan_code spec /\ c_base_limit_units c = spec_monthly_unit_allowance spec /\
  ceil_percent (c_base_limit_units c) TOP_UP_MINIMUM_MONTHLY_CONSUMPTION_PERCENT <= c_used_units c.

Definition active_subscription db (sid : UUID) (customer : string) : Prop :=
  exists s, db_subscriptions db !! sid = Some s /\ s_status s = SubActive /\ s_customer_ref s = customer.

Lemma top_up_subscription_Ok ms sid customer s0 s spec s' :
  top_up_subscription ms sid customer s0 = (Ok (s, spec), s') ->
  s' = s0 /\ db_subscriptions (working s0) !! sid = Some s /\ s_status s = SubActive /\
  s_customer_ref s = customer.
Proof.
  intros H. pose proof (read_only_eq _ _ _ _ (read_only_top_up_subscription _ _ _) H) as ->.
  unfold top_up_subscription, subscription_by_id in H. inv_top_up. to_prop. by simplify_eq.
Qed.

Lemma top_up_cycle_Ok ms sid cid customer spec t s0 c s' :
  top_up_cycle ms sid cid customer spec t s0 = (Ok c, s') ->
  s' = s0 /\ db_cycles (working s0) !! cid = Some c /\ top_up_current spec sid customer t c.
Proof.
  intros H. pose proof (read_only_eq _ _ _ _ (read_only_top_up_cycle _ _ _ _ _ _) H) as ->.
  split; [done|]. unfold top_up_cycle, cycle_by_id in H. inv_top_up. subst.
  match goal with H : dt_between _ _ _ = Ok _ |- _ => apply dt_between_true in H end.
  to_prop. unfold top_up_current. subst. split_and!; (done || lia).
Qed.

(** The order was paid: verified evidence of its full amount under the reference. *)
Definition paid db (oid : UUID) (o : CommercialTopUpOrder) (ref : string) : Prop :=
  exists k p a, payments db !! k = Some p /\ pe_order_id p = oid /\ pe_provider_reference p = ref /\
    pe_outcome p = PayVerified /\ pe_verified_amount p = Some a /\
    dec_eqb a (o_settlement_amount o) = true.

(** A new grant: an order awaiting its grant, paid in full, for the current cycle of an
    active subscription, of exactly the units the order bought. *)
Record grant_new (gid : UUID) (g : AdminMarketSubscriptionTopUpGrant) (o : CommercialTopUpOrder)
    c db : Prop := {
  gn_fresh : grants db !! gid = None;
  gn_once : forall k g', grants db !! k = Some g' -> g_order_id g' <> g_order_id g;
  gn_order : orders db !! g_order_id g = Some o;
  gn_state : o_state o = AWAITING_PAYMENT \/ o_state o = PAYMENT_VERIFIED;
  gn_units : g_units g = o_requested_units o;
  gn_positive : 0 < g_units g;
  gn_cycle_id : o_quota_cycle_id o = g_quota_cycle_id g;
  gn_subscription : o_subscription_id o = g_subscription_id g;
  gn_customer : o_customer_ref o = g_customer_ref g;
  gn_active : active_subscription db (g_subscription_id g) (g_customer_ref g);
  gn_cycle : db_cycles db !! g_quota_cycle_id g = Some c;
  gn_current : exists spec,
    top_up_current spec (g_subscription_id g) (g_customer_ref g) (g_granted_at g) c;
  gn_expires : g_expires_at g = c_period_end c;
  gn_paid : paid db (g_order_id g) o (g_provider_reference g)
}.

(** The database after the grant. *)
Definition granted_db (gid : UUID) (g : AdminMarketSubscriptionTopUpGrant)
    (o : CommercialTopUpOrder) c db : MarketDb :=
  put_order (g_order_id g) (set_order_state GRANTED o)
    (put_cycle (g_quota_cycle_id g) (set_top_up_units (c_top_up_units c + g_units g) c)
       (put_top_ups (tu_put_grant gid g) db)).

Lemma grantable_order_Ok cmd s0 o s' :
  grantable_order cmd s0 = (Ok o, s') ->
  s' = s0 /\ orders (working s0) !! gc_order_id cmd = Some o /\
  (o_state o = AWAITING_PAYMENT \/ o_state o = PAYMENT_VERIFIED) /\
  o_subscription_id o = gc_subscription_id cmd /\ o_quota_cycle_id o = gc_quota_cycle_id cmd /\
  o_customer_ref o = gc_customer_ref cmd.
Proof.
  intros H. pose proof (read_only_eq _ _ _ _ (read_only_grantable_order _) H) as ->. split; [done|].
  unfold grantable_order, order_by_id in H. inv_top_up.
  match goal with H : _ || _ = true |- _ => apply orb_true_iff in H as [H|H] end; to_prop;
    simplify_eq; split_and!; auto.
Qed.

Lemma grant_quote_Ok o spec s0 q s' :
  grant_quote o spec s0 = (Ok q, s') ->
  s' = s0 /\ 0 < total_units q /\ o_requested_units o = total_units q /\
  quote_top_up (spec_plan_code spec) (o_requested_units o) = Ok q /\
  dec_eqb (o_total_price_usd o) (total_price_usd q) = true.
Proof.
  intros H. pose proof (read_only_eq _ _ _ _ (read_only_grant_quote _ _) H) as ->. split; [done|].
  unfold grant_quote in H. inv_top_up. to_prop. subst. split_and!; assumption.
Qed.

Lemma payment_by_reference_Ok ref s0 k p s' :
  payment_by_provider_reference ref s0 = (Ok (Some (k, p)), s') ->
  s' = s0 /\ payments (working s0) !! k = Some p /\ pe_provider_reference p = ref.
Proof.
  unfold payment_by_provider_reference. rewrite query_eq. intros [= H <-].
  apply find_row_Some in H as [Hk H%bool_decide_eq_true]. done.
Qed.

Lemma verified_payment_Ok cmd o s0 u s' :
  verified_payment cmd o s0 = (Ok u, s') ->
  s' = s0 /\ paid (working s0) (gc_order_id cmd) o (gc_provider_reference cmd).
Proof.
  intros H. pose proof (read_only_eq _ _ _ _ (read_only_verified_payment _ _) H) as ->. split; [done|].
  unfold verified_payment in H. inv_top_up. subst.
  match goal with x : UUID * CommercialTopUpPaymentEvidence |- _ => destruct x as [k p]; cbn [snd] in * end.
  match goal with H : payment_by_provider_reference _ _ = _ |- _ =>
    apply payment_by_reference_Ok in H as (-> & Hk & Hr) end.
  destruct (pe_verified_amount p) as [a|] eqn:Ea; [|done].
  apply tm_require_Ok in H as [H _]. to_prop. exists k, p, a. by split_and!.
Qed.

Lemma grant_context_Ok cmd s0 order s spec c quote s' :
  grant_context cmd s0 = (Ok (order, s, spec, c, quote), s') ->
  s' = s0 /\ orders (working s0) !! gc_order_id cmd = Some order /\
  (o_state order = AWAITING_PAYMENT \/ o_state order = PAYMENT_VERIFIED) /\
  o_subscription_id order = gc_subscription_id cmd /\
  o_quota_cycle_id order = gc_quota_cycle_id cmd /\ o_customer_ref order = gc_customer_ref cmd /\
  s_customer_ref s = gc_customer_ref cmd /\
  active_subscription (working s0) (gc_subscription_id cmd) (gc_customer_ref cmd) /\
  db_cycles (working s0) !! gc_quota_cycle_id cmd = Some c /\
  top_up_current spec (gc_subscription_id cmd) (gc_customer_ref cmd) (gc_granted_at cmd) c /\
  0 < total_units quote /\ o_requested_units order = total_units quote /\
  paid (working s0) (gc_order_id cmd) order (gc_provider_reference cmd).
Proof.
  intros H. pose proof (read_only_eq _ _ _ _ (read_only_grant_context _) H) as ->. split; [done|].
  unfold grant_context in H. inv_top_up.
  repeat match goal with
  | H : grantable_order _ _ = _ |- _ => apply grantable_order_Ok in H; destruct_and!; subst
  | H : top_up_subscription _ _ _ _ = _ |- _ => apply top_up_subscription_Ok in H; destruct_and!; subst
  | H : top_up_cycle _ _ _ _ _ _ _ = _ |- _ => apply top_up_cycle_Ok in H; destruct_and!; subst
  | H : grant_quote _ _ _ = _ |- _ => apply grant_quote_Ok in H; destruct_and!; subst
  | H : verified_payment _ _ _ = _ |- _ => apply verified_payment_Ok in H; destruct_and!; subst
  end.
  try match goal with H : quote_top_up _ _ = _ |- _ => clear H end.
  simplify_eq. split_and!; try assumption; try reflexivity. unfold active_subscription. eauto.
Qed.

(** ** The grant *)

(** The grant is the one the command asks for. *)
Definition grant_of cmd (g : AdminMarketSubscriptionTopUpGrant) : Prop :=
  g_order_id g = gc_order_id cmd /\ g_subscription_id g = gc_subscription_id cmd /\
  g_quota_cycle_id g = gc_quota_cycle_id cmd /\ g_customer_ref g = gc_customer_ref cmd /\
  g_provider_reference g = gc_provider_reference cmd.

Lemma grant_replay_of g cmd :
  g_order_id g = gc_order_id cmd -> grant_replay_matches g cmd = true <-> grant_of cmd g.
Proof.
  intros Ho. unfold grant_replay_matches, grant_of. rewrite !andb_true_iff !bool_decide_eq_true. tauto.
Qed.

Inductive grant_outcome (new_id : UUID) cmd (s : Session MarketDb)
  : res SubscriptionTopUpGrantResult -> Session MarketDb -> Prop :=
  | go_refused e : grant_outcome new_id cmd s (Raise e) s
  | go_replayed id g :
      grants (working s) !! id = Some g -> grant_of cmd g ->
      grant_outcome new_id cmd s (Ok (grant_result id g true false)) s
  | go_granted g o c :
      grant_new new_id g o c (working s) -> grant_of cmd g -> g_granted_at g = gc_granted_at cmd ->
      grant_outcome new_id cmd s (Ok (grant_result new_id g false false))
        {| working := granted_db new_id g o c (working s); committed := committed s |}.

Lemma apply_grant_outcome new_id cmd s r s' :
  apply_verified_subscription_top_up_in_uow new_id cmd s = (r, s') ->
  grant_outcome new_id cmd s r s'.
Proof.
  unfold apply_verified_subscription_top_up_in_uow. intros H. m_step H E0.
  2:{ injection E0 as _ <-. injection H as <- <-. constructor. }
  apply lift_Ok in E0 as [_ <-]. unfold grant_by_order_id in H. rewrite M_bind_eq query_eq in H.
  destruct (find_row _ _) as [[id g]|] eqn:Ef.
  { apply find_row_Some in Ef as [Hg Ho%bool_decide_eq_true]. m_step H E1.
    - injection H as <- <-. apply tm_require_Ok in E1 as [Hm ->].
      constructor; [done|]. by apply grant_replay_of.
    - injection E1 as _ <-. injection H as <- <-. constructor. }
  m_step H E1.
  2:{ apply (read_only_eq _ _ _ _ (read_only_grant_context _)) in E1 as ->.
      injection H as <- <-. constructor. }
  destruct v0 as [[[[o sub] spec] c] q]. apply grant_context_Ok in E1. destruct_and!. subst.
  m_step H E2; apply add_row_cases in E2 as [(Eq & Hn & ->)|[[? Eq] ->]]; try done.
  2:{ injection H as <- <-. constructor. }
  injection H as <- <-. eapply go_granted; [|by unfold grant_of; cbn|done].
  split; cbn; try done.
  - intros k g' Hk. apply (find_row_None _ _ _ _ Ef) in Hk as ?. by to_prop.
  - match goal with H : s_customer_ref sub = _ |- _ => by rewrite H end.
  - match goal with H : s_customer_ref sub = _ |- _ => by rewrite H end.
  - match goal with H : s_customer_ref sub = _ |- _ => rewrite H end. eauto.
Qed.

(** A grant request in its own unit of work. *)
Lemma grant_cases new_id cmd db r db' :
  grant new_id cmd db = (r, db') ->
  (exists e, r = Raise e) /\ db' = db \/
  (exists id g, r = Ok (grant_result id g true false) /\ db' = db /\
     grants db !! id = Some g /\ grant_of cmd g) \/
  (exists g o c, r = Ok (grant_result new_id g false true) /\ grant_new new_id g o c db /\
     grant_of cmd g /\ g_granted_at g = gc_granted_at cmd /\
     db' = granted_db new_id g o c db /\ market_constraints db' = Ok tt).
Proof.
  unfold grant. intros (s' & H & <-)%with_uow_inv. unfold grant_body in H.
  m_step H E; apply apply_grant_outcome in E; inversion E; subst; cbn in H.
  - injection H as <- <-. right; left. by do 2 eexists.
  - m_step H E2; apply market_commit_cases in E2 as [(Eq & Hk & ->)|[[? Eq] Hk]]; try done.
    + injection H as <- <-. right; right. do 3 eexists.
      split_and!; [reflexivity|eassumption|assumption|assumption|reflexivity|assumption].
    + injection H as <- <-. left. eauto.
  - injection H as <- <-. left. eauto.
Qed.

(** ** The local payment *)

(** The evidence of the payment is there, or is added. *)
Definition with_payment (k : UUID) (p : option CommercialTopUpPaymentEvidence) db : MarketDb :=
  match p with
  | Some p => put_top_ups (tu_put_payment k (stored_payment p)) db
  | None => db
  end.

(** The order awaiting its grant once the payment is verified. *)
Definition awaiting_grant (oid : UUID) (o : CommercialTopUpOrder) db : MarketDb :=
  put_order oid (set_order_state PAYMENT_VERIFIED o) db.

Lemma local_order_Ok cmd a s0 o s' :
  local_order cmd a s0 = (Ok o, s') ->
  s' = s0 /\ orders (working s0) !! lc_order_id cmd = Some o /\ o_channel o = LOCAL_TUNISIA /\
  o_settlement_currency o = "TND" /\
  (o_state o = AWAITING_PAYMENT \/ o_state o = PAYMENT_VERIFIED \/ o_state o = GRANTED) /\
  dec_eqb a (o_settlement_amount o) = true.
Proof.
  intros H. pose proof (read_only_eq _ _ _ _ (read_only_local_order _ _) H) as ->. split; [done|].
  unfold local_order, order_by_id in H. inv_top_up. subst.
  match goal with H : local_decimal (Some _) _ = Ok _ |- _ =>
    apply res_bind_Ok in H as (? & _ & [= <-]) end.
  match goal with H : _ || _ = true |- _ => rewrite !orb_true_iff !bool_decide_eq_true in H end.
  to_prop. split_and!; try assumption. tauto.
Qed.

Lemma local_evidence_cases k cmd a s0 u s' :
  local_evidence k cmd a s0 = (u, s') ->
  (exists e, u = Raise e) /\ committed s' = committed s0 \/
  exists p, s' = {| working := with_payment k p (working s0); committed := committed s0 |} /\
    match p with
    | Some p => payments (working s0) !! k = None /\ pe_order_id p = lc_order_id cmd /\
                pe_provider_reference p = lc_provider_reference cmd
    | None => True
    end.
Proof.
  unfold local_evidence, payment_by_provider_reference. rewrite M_bind_eq query_eq.
  destruct (find_row _ _) as [[k' p]|].
  - intros H. right. exists None. split; [|done]. destruct s0 as [w0 c0].
    match type of H with ?m ?s = _ => assert (read_only m) as Hr by reads_only end.
    by apply (read_only_eq _ _ _ _ Hr) in H as ->.
  - intros [(-> & Hn & ->)|[[e ->] ->]]%add_row_cases; [|left; eauto].
    right. eexists (Some _). split; [reflexivity|]. by split_and!.
Qed.

(** The outcome of a verified local payment: nothing changes, or the payment is recorded
    and the order granted in one commit. *)
Inductive local_outcome (pid gid : UUID) (cmd : VerifyLocalTunisiaTopUpPaymentCommand) db
  : res LocalTunisiaTopUpPaymentResult -> MarketDb -> Prop :=
  | lo_refused e : local_outcome pid gid cmd db (Raise e) db
  | lo_replayed id g o r :
      orders db !! lc_order_id cmd = Some o -> grants db !! id = Some g ->
      g_order_id g = lc_order_id cmd -> g_provider_reference g = lc_provider_reference cmd ->
      lr_grant_id r = id -> lr_units r = g_units g -> lr_replayed_grant r = true ->
      local_outcome pid gid cmd db (Ok r) db
  | lo_granted o p g c a r db1 db' :
      orders db !! lc_order_id cmd = Some o -> o_channel o = LOCAL_TUNISIA ->
      o_settlement_currency o = "TND" ->
      lc_amount_tnd cmd = Finite a -> dec_eqb a (o_settlement_amount o) = true ->
      match p with
      | Some p => payments db !! pid = None /\ pe_order_id p = lc_order_id cmd /\
                  pe_provider_reference p = lc_provider_reference cmd
      | None => True
      end ->
      db1 = (if bool_decide (o_state o = AWAITING_PAYMENT)
             then awaiting_grant (lc_order_id cmd) o (with_payment pid p db)
             else with_payment pid p db) ->
      grant_new gid g (if bool_decide (o_state o = AWAITING_PAYMENT)
                       then set_order_state PAYMENT_VERIFIED o else o) c db1 ->
      g_order_id g = lc_order_id cmd -> g_provider_reference g = lc_provider_reference cmd ->
      g_granted_at g = lc_verified_at cmd ->
      db' = granted_db gid g (if bool_decide (o_state o = AWAITING_PAYMENT)
                              then set_order_state PAYMENT_VERIFIED o else o) c db1 ->
      market_constraints db' = Ok tt ->
      lr_grant_id r = gid -> lr_units r = g_units g -> lr_replayed_grant r = false ->
      local_outcome pid gid cmd db (Ok r) db'.

Lemma validate_local_Ok cmd a :
  validate_local cmd = Ok a -> lc_amount_tnd cmd = Finite a /\ dec_ltb (dec_int 0) a = true.
Proof.
  unfold validate_local. intros (_ & _ & (_ & _ & (_ & _ & (b & Hb & (_ & _ & [= <-])%res_bind_Ok)
    %res_bind_Ok)%res_bind_Ok)%res_bind_Ok)%res_bind_Ok.
  destruct (lc_amount_tnd cmd) as [d|]; [|done].
  apply res_bind_Ok in Hb as (_ & Hd%ensure_Ok & [= ->]). done.
Qed.

Lemma translate_grant_Ok {A} k msg (m : Market A) s r s' :
  translate_grant_error k msg m s = (r, s') ->
  exists r', m s = (r', s') /\
    match r' with Ok a => r = Ok a | Raise _ => exists e, r = Raise e end.
Proof.
  unfold translate_grant_error. destruct (m s) as [[a|[[] ?]] s1]; intros [= <- <-];
    eexists; (split; [reflexivity|]); cbn; eauto.
Qed.

Lemma verify_local_outcome pid gid cmd db r db' :
  verify_local pid gid cmd db = (r, db') -> local_outcome pid gid cmd db r db'.
Proof.
  unfold verify_local. intros (s' & H & <-)%with_uow_inv. unfold verify_local_body in H.
  m_step H E0; [|injection E0 as _ <-; injection H as <- <-; constructor].
  apply lift_Ok in E0 as [Hv%validate_local_Ok <-]. destruct Hv as [Ha _].
  m_step H E1.
  2:{ apply (read_only_eq _ _ _ _ (read_only_local_order _ _)) in E1 as ->.
      injection H as <- <-. constructor. }
  apply local_order_Ok in E1 as (-> & Ho & Hch & Hcur & Hst & Heq). cbn [working] in Ho.
  match type of Ho with _ = Some ?x => rename x into o end.
  m_step H E2; apply local_evidence_cases in E2 as [[[? Eq] Hk]|(p & -> & Hp)]; try discriminate Eq.
  2:{ injection H as <- <-. cbn in Hk. rewrite Hk. constructor. }
  2:{ injection H as <- <-. constructor. }
  cbn [working committed] in *.
  set (o' := if bool_decide (o_state o = AWAITING_PAYMENT)
             then set_order_state PAYMENT_VERIFIED o else o).
  set (db1 := if bool_decide (o_state o = AWAITING_PAYMENT)
              then awaiting_grant (lc_order_id cmd) o (with_payment pid p db)
              else with_payment pid p db).
  assert (exists u st, (if bool_decide (o_state o = AWAITING_PAYMENT)
     then mutate (put_order (lc_order_id cmd) (set_order_state PAYMENT_VERIFIED o)) else mret tt)
     {| working := with_payment pid p db; committed := db |} = (Ok u, st) /\
     st = {| working := db1; committed := db |}) as (u & st & Em & ->).
  { subst db1. destruct (bool_decide _); do 2 eexists; split; reflexivity. }
  rewrite (bind_eq _ _ _ _ _ Em) in H. clear Em u.
  assert (orders db1 !! lc_order_id cmd = Some o') as Ho'.
  { subst db1 o'. destruct (bool_decide _); [apply lookup_insert_eq|by destruct p]. }
  m_step H E3; apply translate_grant_Ok in E3 as (r' & E3 & Hr'); destruct r' as [gr|e'];
    try (by destruct Hr'); try discriminate Hr'.
  2:{ injection H as <- <-. apply apply_grant_outcome in E3. inversion E3. subst. constructor. }
  injection Hr' as ->. apply apply_grant_outcome in E3. inversion E3 as [|id g Hg Hof|g o1 c Hn Hof Hat];
    subst; cbn in H.
  - injection H as <- <-. destruct Hof as (Hoid & _ & _ & _ & Href). cbn in Hoid, Href.
    eapply (lo_replayed _ _ _ _ id g o); try done.
    subst db1. revert Hg. destruct (bool_decide _); by destruct p.
  - pose proof Hof as (Hoid & _ & _ & _ & Href). cbn in Hoid, Href, Hn.
    assert (o1 = o') as -> by (pose proof (gn_order _ _ _ _ _ Hn); congruence).
    m_step H E4; apply market_commit_cases in E4 as [(Eq & Hk & ->)|[[? Eq] Hk]]; try discriminate Eq.
    2:{ injection H as <- <-. rewrite Hk. constructor. }
    injection H as <- <-.
    eapply (lo_granted _ _ _ _ o p g c _ _ db1); first [eassumption|reflexivity|done].
Qed.

(** ** The reversal *)

(** A new decision on a grant: the first one, of all its units, taken back exactly when
    the cycle does not need them for what it has already used. *)
Record reversal_new (vid : UUID) (v : AdminMarketSubscriptionTopUpReversal)
    (g : AdminMarketSubscriptionTopUpGrant) c db : Prop := {
  rn_fresh : reversals db !! vid = None;
  rn_event : forall k v', reversals db !! k = Some v' ->
    v_provider_event_ref v' <> v_provider_event_ref v;
  rn_once : forall k v', reversals db !! k = Some v' -> v_grant_id v' <> v_grant_id v;
  rn_grant : grants db !! v_grant_id v = Some g;
  rn_order : v_order_id v = g_order_id g;
  rn_granted : exists o, orders db !! g_order_id g = Some o /\ o_state o = GRANTED;
  rn_units : v_units v = g_units g;
  rn_cycle_id : v_quota_cycle_id v = g_quota_cycle_id g;
  rn_cycle : db_cycles db !! g_quota_cycle_id g = Some c;
  rn_enough : g_units g <= c_top_up_units c;
  rn_outcome : v_outcome v = if can_reverse g c then ROReversed else ROManualReview
}.

(** The database after the decision. *)
Definition reversed_db (vid : UUID) (v : AdminMarketSubscriptionTopUpReversal)
    (g : AdminMarketSubscriptionTopUpGrant) c db : MarketDb :=
  let db1 := put_top_ups (tu_put_reversal vid v) db in
  if can_reverse g c
  then put_cycle (g_quota_cycle_id g) (set_top_up_units (c_top_up_units c - g_units g) c) db1
  else db1.

Inductive reversal_outcome (vid : UUID) (cmd : ReverseSubscriptionTopUpCommand) db
  : res SubscriptionTopUpReversalResult -> MarketDb -> Prop :=
  | ro_refused e : reversal_outcome vid cmd db (Raise e) db
  | ro_replayed id v :
      reversals db !! id = Some v -> v_provider_event_ref v = rc_provider_event_ref cmd ->
      v_order_id v = rc_order_id cmd ->
      reversal_outcome vid cmd db (Ok (reversal_result id v true false)) db
  | ro_decided v g c :
      reversal_new vid v g c db -> v_provider_event_ref v = rc_provider_event_ref cmd ->
      v_order_id v = rc_order_id cmd -> v_reversed_at v = rc_reversed_at cmd ->
      market_constraints (reversed_db vid v g c db) = Ok tt ->
      reversal_outcome vid cmd db (Ok (reversal_result vid v false true)) (reversed_db vid v g c db).

Lemma reversal_context_Ok cmd s0 gid g c s' :
  reversal_context cmd s0 = (Ok (gid, g, c), s') ->
  s' = s0 /\ grants (working s0) !! gid = Some g /\ g_order_id g = rc_order_id cmd /\
  (forall k v', reversals (working s0) !! k = Some v' -> v_grant_id v' <> gid) /\
  (exists o, orders (working s0) !! g_order_id g = Some o /\ o_state o = GRANTED) /\
  db_cycles (working s0) !! g_quota_cycle_id g = Some c /\ g_units g <= c_top_up_units c.
Proof.
  intros H. pose proof (read_only_eq _ _ _ _ (read_only_reversal_context _) H) as ->. split; [done|].
  unfold reversal_context, grant_by_order_id, reversal_by_grant_id, order_by_id, cycle_by_id in H.
  inv_top_up. subst. repeat match goal with H : _ = (_, _) |- _ => injection H as -> -> end.
  match goal with H : find_row _ (grants _) = Some _ |- _ =>
    apply find_row_Some in H as [Hg _] end.
  match goal with H : match ?x with Some _ => false | None => true end = true |- _ =>
    destruct x eqn:Ef; [discriminate H|] end.
  to_prop. subst. split_and!; try assumption.
  - intros k v' Hk E. apply (find_row_None _ _ _ _ Ef) in Hk. to_prop. done.
  - match goal with H : g_order_id _ = rc_order_id _ |- _ => rewrite H end. eauto.
Qed.

Lemma reverse_in_uow_cases vid cmd s r s' :
  reverse_subscription_top_up_in_uow vid cmd s = (r, s') ->
  (exists e, r = Raise e) /\ s' = s \/
  (exists id v, r = Ok (reversal_result id v true false) /\ s' = s /\
     reversals (working s) !! id = Some v /\ v_provider_event_ref v = rc_provider_event_ref cmd /\
     v_order_id v = rc_order_id cmd) \/
  (exists v g c, r = Ok (reversal_result vid v false false) /\ reversal_new vid v g c (working s) /\
     v_provider_event_ref v = rc_provider_event_ref cmd /\ v_order_id v = rc_order_id cmd /\
     v_reversed_at v = rc_reversed_at cmd /\
     s' = {| working := reversed_db vid v g c (working s); committed := committed s |}).
Proof.
  unfold reverse_subscription_top_up_in_uow. intros H. m_step H E0.
  2:{ injection E0 as _ <-. injection H as <- <-. left. eauto. }
  apply lift_Ok in E0 as [_ <-]. unfold reversal_by_provider_event_ref in H.
  rewrite M_bind_eq query_eq in H. destruct (find_row _ _) as [[id v']|] eqn:Ef.
  { apply find_row_Some in Ef as [Hv He%bool_decide_eq_true]. m_step H E1.
    - apply reversal_require_Ok in E1 as [Ho%bool_decide_eq_true ->]. injection H as <- <-.
      right; left. do 2 eexists. split_and!; [reflexivity|reflexivity|eassumption..].
    - injection E1 as _ <-. injection H as <- <-. left. eauto. }
  m_step H E1.
  2:{ apply (read_only_eq _ _ _ _ (read_only_reversal_context _)) in E1 as ->.
      injection H as <- <-. left. eauto. }
  match goal with x : _ * _ * _ |- _ => destruct x as [[gid g] c] end.
  apply reversal_context_Ok in E1 as (-> & Hg & Hgo & Hnr & Hord & Hc & Hle).
  m_step H E2; apply add_row_cases in E2 as [(Eq & Hn & ->)|[[? Eq] ->]]; try discriminate Eq.
  2:{ injection H as <- <-. left. eauto. }
  right; right. exists (new_reversal cmd gid g (can_reverse g c)), g, c.
  rewrite M_bind_eq in H. unfold reversed_db.
  destruct (can_reverse g c) eqn:Ec; injection H as <- <-.
  all: split_and!; try reflexivity.
  all: split; try done; cbn; rewrite ?Ec //.
  all: intros k v' Hk; apply (find_row_None _ _ _ _ Ef) in Hk; by to_prop.
Qed.

Lemma reverse_outcome vid cmd db r db' :
  reverse vid cmd db = (r, db') -> reversal_outcome vid cmd db r db'.
Proof.
  unfold reverse. intros (s' & H & <-)%with_uow_inv. unfold reverse_body in H.
  m_step H E; apply reverse_in_uow_cases in E as [[[e1 Er] ->]|[(id & v' & Er & -> & ?)|
    (v' & g & c & Er & HN & ? & ? & ? & ->)]]; try discriminate Er.
  - injection Er as ->. injection H as <- <-. destruct_and!. by constructor.
  - injection Er as ->. cbn [reversal_result rr_idempotent_replay] in H. m_step H E2;
      apply market_commit_cases in E2 as [(Eq & Hk & ->)|[[? Eq] Hk]]; try discriminate Eq.
    + injection H as <- <-. by apply (ro_decided _ _ _ v' g c).
    + injection H as <- <-. rewrite Hk. constructor.
  - injection H as <- <-. constructor.
Qed.

(** ** The order *)

(** A new order: bought by the customer of an active subscription for its current
    cycle, at the price of the quote, awaiting its payment. *)
Record order_new (cmd : CreateSubscriptionTopUpOrderCommand) (o : CommercialTopUpOrder) db
  : Prop := {
  on_fresh : orders db !! co_order_id cmd = None;
  on_key : forall k o', orders db !! k = Some o' -> o_idempotency_key o' <> co_idempotency_key cmd;
  on_idempotency_key : o_idempotency_key o = co_idempotency_key cmd;
  on_state : o_state o = AWAITING_PAYMENT;
  on_account : o_account_id o = None;
  on_customer : o_customer_ref o = co_customer_ref cmd;
  on_subscription : o_subscription_id o = co_subscription_id cmd;
  on_active : active_subscription db (co_subscription_id cmd) (co_customer_ref cmd);
  on_cycle_id : o_quota_cycle_id o = co_quota_cycle_id cmd;
  on_cycle : exists spec c, db_cycles db !! co_quota_cycle_id cmd = Some c /\
    top_up_current spec (co_subscription_id cmd) (co_customer_ref cmd) (co_created_at cmd) c;
  on_units : o_requested_units o = co_requested_units cmd;
  on_positive : 0 < o_requested_units o;
  on_price : exists q, quote_top_up (o_plan_code o) (co_requested_units cmd) = Ok q /\
    o_total_price_usd o = total_price_usd q
}.

Inductive order_outcome cmd db : res SubscriptionTopUpOrderResult -> MarketDb -> Prop :=
  | oo_refused e : order_outcome cmd db (Raise e) db
  | oo_replayed id o :
      orders db !! id = Some o -> o_idempotency_key o = co_idempotency_key cmd ->
      order_replay_matches cmd id o = true ->
      order_outcome cmd db (Ok (order_result id o true false)) db
  | oo_created o :
      order_new cmd o db ->
      market_constraints (put_order (co_order_id cmd) (stored_order o) db) = Ok tt ->
      order_outcome cmd db (Ok (order_result (co_order_id cmd) o false true))
        (put_order (co_order_id cmd) (stored_order o) db).

Lemma create_order_outcome resolver provider cmd db r db' :
  create_order resolver provider cmd db = (r, db') -> order_outcome cmd db r db'.
Proof.
  unfold create_order. destruct (validate_order cmd); [|intros [= <- <-]; constructor].
  intros (s' & H & <-)%with_uow_inv. unfold order_body, order_by_idempotency_key in H.
  rewrite M_bind_eq query_eq in H. cbn [working] in H.
  destruct (find_row _ _) as [[id e]|] eqn:Ef.
  { apply find_row_Some in Ef as [He Hk%bool_decide_eq_true]. m_step H E1.
    - apply tm_require_Ok in E1 as [Hm ->]. injection H as <- <-. by constructor.
    - injection E1 as _ <-. injection H as <- <-. constructor. }
  m_step H E1; [|apply (read_only_eq _ _ _ _ (read_only_top_up_subscription _ _ _)) in E1 as ->;
                 injection H as <- <-; constructor].
  match goal with x : AdminMarketSubscription * _ |- _ => destruct x as [s spec] end.
  apply top_up_subscription_Ok in E1 as (-> & Hs & Hact & Hcust). cbn [working] in Hs.
  m_step H E2; [|apply (read_only_eq _ _ _ _ (read_only_top_up_cycle _ _ _ _ _ _)) in E2 as ->;
                 injection H as <- <-; constructor].
  apply top_up_cycle_Ok in E2 as (-> & Hc & Hcur). cbn [working] in Hc.
  m_step H E3; [|apply lift_inv in E3 as [_ ->]; injection H as <- <-; constructor].
  apply lift_Ok in E3 as [Hq <-]. match type of Hq with _ = Ok ?x => rename x into q end.
  m_step H E4; [|injection E4 as _ <-; injection H as <- <-; constructor].
  apply tm_require_Ok in E4 as [[Hp%Z.ltb_lt _]%andb_true_iff ->].
  m_step H E5; [|apply lift_inv in E5 as [_ ->]; injection H as <- <-; constructor].
  apply tm_require_Ok in E5 as [Hu%Z.eqb_eq ->].
  m_step H E6; [|apply lift_inv in E6 as [_ ->]; injection H as <- <-; constructor].
  apply lift_Ok in E6 as [_ <-].
  match goal with x : string * dec * _ |- _ => destruct x as [[currency amount] rate] end.
  m_step H E7; [|apply lift_inv in E7 as [_ ->]; injection H as <- <-; constructor].
  apply lift_Ok in E7 as [_ <-].
  m_step H E8; apply add_row_cases in E8 as [(Eq & Hn & ->)|[[? Eq] ->]]; try discriminate Eq.
  2:{ injection H as <- <-. constructor. }
  m_step H E9; apply market_commit_cases in E9 as [(Eq' & Hk & ->)|[[? Eq'] Hk]]; try discriminate Eq'.
  2:{ injection H as <- <-. rewrite Hk. constructor. }
  injection H as <- <-. apply oo_created; [|exact Hk]. cbn [working] in Hn.
  split; cbn [new_order o_idempotency_key o_state o_account_id o_customer_ref o_subscription_id o_quota_cycle_id
              o_requested_units o_plan_code o_total_price_usd]; try assumption; try reflexivity.
  - intros k o' Hk'. apply (find_row_None _ _ _ _ Ef) in Hk'. by apply bool_decide_eq_false in Hk'.
  - exists s. by split_and!.
  - eauto.
  - exists q. split; [exact Hq|reflexivity].
Qed.

End TopUpSpec.
