(* ===== verification/LemonRuntime.v ===== *)
(** * Provider events and the runtime

    Models [lemon_squeezy_subscription_reconciliation.py] and
    [lemon_squeezy_runtime_reconciliation.py]: how a verified Lemon Squeezy event moves
    the subscription, its runtime access stage and its delinquency record, and the part
    of [lemon_squeezy_reconciliation_processor.py] that runs the two in one unit of
    work.  The binding and the inbox entry carry the fields these steps read. *)
From S2P Require Import Prelude PyString PyDateTime Uow TopUpDb MarketDb Delinquency.

Definition webhook_require (b : bool) (msg : string) : Market unit :=
  lift (ensure b LemonSqueezyWebhookError msg).
Definition webhook_found {A} (x : option A) (msg : string) : Market A :=
  match x with Some a => mret a | None => throw LemonSqueezyWebhookError msg end.

(** ** The subscription lifecycle *)

Definition EVENT_STATUS : list (string * SubscriptionStatus) :=
  [ ("subscription_created", SubActive);
    ("subscription_updated", SubActive);
    ("subscription_resumed", SubActive);
    ("subscription_unpaused", SubActive);
    ("subscription_payment_success", SubActive);
    ("subscription_payment_recovered", SubActive);
    ("subscription_payment_failed", SubActive);
    ("subscription_paused", SubSuspended);
    ("subscription_payment_refunded", SubSuspended);
    ("subscription_cancelled", SubCancelled);
    ("subscription_expired", SubExpired) ].

(** [_ALLOWED_SOURCE[target]]; no event targets the pending status. *)
Definition ALLOWED_SOURCE (target : SubscriptionStatus) : list SubscriptionStatus :=
  match target with
  | SubPending => []
  | SubActive => [SubPending; SubActive; SubSuspended]
  | SubSuspended => [SubPending; SubActive; SubSuspended]
  | SubCancelled => [SubPending; SubActive; SubSuspended; SubCancelled]
  | SubExpired => [SubPending; SubActive; SubSuspended; SubExpired]
  end.

Definition aware_opt (t : option datetime) : option datetime :=
  match t with Some d => if naive d then None else Some d | None => None end.

(** The subscription moved to [target] at [effective_at]. *)
Definition move_subscription (target : SubscriptionStatus) (effective_at : datetime)
    (s : AdminMarketSubscription) : AdminMarketSubscription :=
  {| s_subscription_ref := s_subscription_ref s; s_customer_ref := s_customer_ref s;
     s_order_id := s_order_id s; s_offer_id := s_offer_id s; s_plan_id := s_plan_id s;
     s_status := target;
     s_starts_at :=
       if bool_decide (target = SubActive)
       then Some (default effective_at (s_starts_at s)) else s_starts_at s;
     s_ends_at :=
       match target with
       | SubActive => None
       | SubCancelled | SubExpired => Some effective_at
       | SubPending | SubSuspended => s_ends_at s
       end |}.

Definition apply_lemon_squeezy_subscription_lifecycle (binding : AdminMarketLemonSqueezyBinding) (inbox : AdminMarketLemonSqueezyWebhookInbox)
  : Market (option (UUID * AdminMarketSubscription)) :=
  match dict_get EVENT_STATUS (i_event_name inbox) with
  | None => mret None
  | Some target =>
      sid ← webhook_found (b_subscription_id binding)
              "authoritative binding has no internal subscription.";
      found ← subscription_by_id sid;
      s ← webhook_found found "authoritative subscription was not found.";
      webhook_require (bool_decide (s_customer_ref s = i_customer_ref inbox) &&
                       bool_decide (s_order_id s = Some (b_order_id binding)) &&
                       bool_decide (s_offer_id s = Some (b_offer_id binding)))
        "authoritative subscription conflicts with provider binding.";;
      webhook_require (bool_decide (s_status s ∈ ALLOWED_SOURCE target))
        "provider lifecycle cannot transition the authoritative subscription.";;
      effective_at ← webhook_found (aware_opt (i_provider_effective_at inbox))
                       "provider lifecycle timestamp is invalid.";
      let s' := move_subscription target effective_at s in
      mutate (put_subscription sid s');;
      mret (Some (sid, s'))
  end.

(** ** The runtime *)

Definition STATUS_STAGE (st : SubscriptionStatus) : option AccessStage :=
  match st with
  | SubActive => Some StActive
  | SubSuspended => Some StSuspended
  | SubCancelled | SubExpired => Some StTerminated
  | SubPending => None
  end.

Definition PAYMENT_FAILED : string := "subscription_payment_failed".
Definition PAYMENT_RECOVERY_EVENTS : list string :=
  ["subscription_payment_success"; "subscription_payment_recovered"].

Definition target_stage (event : string) (st : SubscriptionStatus) : option AccessStage :=
  if bool_decide (event = PAYMENT_FAILED) then Some StGrace else STATUS_STAGE st.

(** The runtime moved to [target]; [grace] is the delinquency's deadline. *)
Definition move_runtime (target : AccessStage) (effective_at : datetime) (grace : option datetime)
    (r : AdminMarketSubscriptionRuntime) : AdminMarketSubscriptionRuntime :=
  {| r_subscription_id := r_subscription_id r; r_customer_ref := r_customer_ref r;
     r_entitlement_profile_ref := r_entitlement_profile_ref r;
     r_quota_profile_ref := r_quota_profile_ref r; r_access_stage := target;
     r_version := r_version r + 1; r_effective_at := effective_at;
     r_grace_until := if bool_decide (target = StGrace) then grace else None;
     r_suspended_at := if bool_decide (target = StSuspended) then Some effective_at else None;
     r_terminated_at := if bool_decide (target = StTerminated) then Some effective_at else None |}.

(** The delinquency step of an event: the record of a failed payment, or nothing.
    The deadline is only read in the grace stage, hence after a failed payment. *)
Definition event_delinquency (new_id : UUID) (event : string) (sid : UUID) (customer : string)
    (effective_at : datetime) : Market (option AdminMarketSubscriptionDelinquency) :=
  if bool_decide (event = PAYMENT_FAILED) then
    row ← apply_payment_failure new_id sid customer effective_at;
    mret (Some (snd row))
  else if bool_decide (event ∈ PAYMENT_RECOVERY_EVENTS) then
    resolve_payment_delinquency sid customer effective_at;;
    mret None
  else mret None.

(** [new_delinquency_id] and [new_transition_id] are the primary keys drawn for the rows
    the step may insert. *)
Definition apply_lemon_squeezy_runtime_access (new_delinquency_id new_transition_id : UUID)
    (binding : AdminMarketLemonSqueezyBinding) (sid : UUID) (s : AdminMarketSubscription) (inbox : AdminMarketLemonSqueezyWebhookInbox)
    (decision_id : UUID) : Market unit :=
  let event := i_event_name inbox in
  match target_stage event (s_status s) with
  | None => mret tt
  | Some target =>
      existing ← transition_by_decision decision_id;
      match existing with
      | Some _ => mret tt
      | None =>
          found ← runtime_by_subscription sid;
          rrow ← webhook_found found "authoritative subscription runtime was not found.";
          let r := snd rrow in
          webhook_require (bool_decide (r_customer_ref r = s_customer_ref s) &&
                           bool_decide (r_subscription_id r = sid) &&
                           bool_decide (b_subscription_id binding = Some sid))
            "subscription runtime conflicts with authoritative binding.";;
          effective_at ← webhook_found (aware_opt (i_provider_effective_at inbox))
                           "runtime transition timestamp is invalid.";
          older ← lift (dt_lt effective_at (r_effective_at r));
          webhook_require (negb older) "runtime transition is older than current state.";;
          let from_stage := r_access_stage r in
          webhook_require (negb (bool_decide (from_stage = StTerminated) &&
                                 negb (bool_decide (target = StTerminated))))
            "terminated runtime cannot be reactivated.";;
          delinquency ← event_delinquency new_delinquency_id event sid (s_customer_ref s)
                          effective_at;
          (if negb (bool_decide (from_stage = target)) || bool_decide (target = StGrace)
           then mutate (put_runtime (fst rrow)
                  (move_runtime target effective_at (d ← delinquency; d_grace_until d) r))
           else mret tt);;
          add_transition new_transition_id
            {| t_runtime_id := fst rrow; t_subscription_id := sid;
               t_reconciliation_decision_id := decision_id;
               t_customer_ref := s_customer_ref s;
               t_event_name := or_string (Some event) "unknown";
               t_from_stage := from_stage; t_to_stage := target;
               t_effective_at := effective_at |}
      end
  end.

(** The reconcile branch of the processor: the lifecycle step, the runtime step when
    the event has one, and the commit. *)
Definition reconcile_body (new_delinquency_id new_transition_id : UUID) (binding : AdminMarketLemonSqueezyBinding)
    (inbox : AdminMarketLemonSqueezyWebhookInbox) (decision_id : UUID) : Market unit :=
  subscription ← apply_lemon_squeezy_subscription_lifecycle binding inbox;
  match subscription with
  | None => mret tt
  | Some (sid, s) =>
      apply_lemon_squeezy_runtime_access new_delinquency_id new_transition_id binding sid s inbox
        decision_id
  end;;
  market_commit.

Definition reconcile (new_delinquency_id new_transition_id : UUID) (binding : AdminMarketLemonSqueezyBinding)
    (inbox : AdminMarketLemonSqueezyWebhookInbox) (decision_id : UUID) (db : MarketDb) : res unit * MarketDb :=
  with_uow (reconcile_body new_delinquency_id new_transition_id binding inbox decision_id) db.
