(* ===== verification/LemonInbox.v ===== *)
(** * The webhook inbox

    Models [lemon_squeezy_inbox.py] and [lemon_squeezy_ingestion_service.py] (a verified
    webhook is stored once, and replays are recognised), [lemon_squeezy_inbox_lifecycle.py]
    (claim, processed, rejected) and the repository of [lemon_squeezy_persistence.py]. *)
From S2P Require Import Prelude PyString PyDateTime PyDecimal PyText PyJson LemonWebhook Uow.
From S2P Require Import TopUpDb MarketDb LemonRuntime.
From Stdlib Require Import Ascii.
#[local] Open Scope Z_scope.

Notation inbox_row := AdminMarketLemonSqueezyWebhookInbox.

(** ** Repository *)

Definition put_inbox (id : UUID) (i : inbox_row) : MarketDb -> MarketDb :=
  put_provider (pv_put_inbox id i).
Definition inbox_by_id (id : UUID) : Market (option inbox_row) :=
  query (fun db => pv_inbox (db_provider db) !! id).
Definition inbox_by_identity (hash : string) : Market (option (UUID * inbox_row)) :=
  query (fun db => find_row (fun i => bool_decide (i_event_identity_hash i = hash))
                     (pv_inbox (db_provider db))).
Definition inbox_by_payload (digest : string) : Market (option (UUID * inbox_row)) :=
  query (fun db => find_row (fun i => bool_decide (i_payload_digest i = digest))
                     (pv_inbox (db_provider db))).
Definition add_inbox := add_row (fun db => pv_inbox (db_provider db)) put_inbox.

(** ** Ingestion *)

Definition UNIT_SEPARATOR : string := String (ascii_of_N 31) "".

(** The text whose digest identifies an event. *)
Definition canonical_event (w : VerifiedLemonSqueezyWebhook) : string :=
  join UNIT_SEPARATOR
    [ vw_store_id w; vw_event_name w; vw_resource_type w; vw_external_resource_id w;
      isoformat (ev_effective_at (vw_evidence w)) ].

Definition same_binding (i : inbox_row) (w : VerifiedLemonSqueezyWebhook) : bool :=
  let e := vw_evidence w in
  bool_decide (i_event_name i = vw_event_name w) &&
  bool_decide (i_resource_type i = vw_resource_type w) &&
  bool_decide (i_external_resource_id i = vw_external_resource_id w) &&
  bool_decide (i_store_id i = vw_store_id w) &&
  bool_decide (i_customer_ref i = vw_customer_ref w) &&
  bool_decide (i_order_ref i = vw_order_ref w) &&
  bool_decide (i_offer_ref i = vw_offer_ref w) &&
  Bool.eqb (i_test_mode i) (vw_test_mode w) &&
  bool_decide (i_evidence_schema_version i = Some (ev_schema_version e)) &&
  bool_decide (i_provider_customer_id i = Some (ev_provider_customer_id e)) &&
  bool_decide (i_provider_order_id i = ev_provider_order_id e) &&
  bool_decide (i_provider_subscription_id i = ev_provider_subscription_id e) &&
  bool_decide (i_variant_id i = ev_variant_id e) &&
  bool_decide (i_currency i = ev_currency e) &&
  bool_decide (i_subtotal_amount i = ev_subtotal_amount e) &&
  bool_decide (i_total_amount i = ev_total_amount e) &&
  bool_decide (i_refunded_amount i = ev_refunded_amount e) &&
  bool_decide (i_provider_status i = Some (ev_status e)) &&
  dt_opt_eqb (i_provider_effective_at i) (Some (ev_effective_at e)).

Definition received_entry (identity_hash payload_digest : string)
    (w : VerifiedLemonSqueezyWebhook) (received_at : datetime) : inbox_row :=
  let e := vw_evidence w in
  {| i_event_identity_hash := identity_hash; i_payload_digest := payload_digest;
     i_event_name := vw_event_name w; i_resource_type := vw_resource_type w;
     i_external_resource_id := vw_external_resource_id w; i_store_id := vw_store_id w;
     i_customer_ref := vw_customer_ref w; i_order_ref := vw_order_ref w;
     i_offer_ref := vw_offer_ref w; i_test_mode := vw_test_mode w;
     i_processing_status := InReceived; i_attempt_count := 0;
     i_evidence_schema_version := Some (ev_schema_version e);
     i_provider_customer_id := Some (ev_provider_customer_id e);
     i_provider_order_id := ev_provider_order_id e;
     i_provider_subscription_id := ev_provider_subscription_id e;
     i_variant_id := ev_variant_id e; i_currency := ev_currency e;
     i_subtotal_amount := ev_subtotal_amount e; i_total_amount := ev_total_amount e;
     i_refunded_amount := ev_refunded_amount e; i_provider_status := Some (ev_status e);
     i_provider_effective_at := Some (ev_effective_at e); i_last_error_code := None;
     i_received_at := received_at; i_claimed_at := None; i_processed_at := None;
     i_rejected_at := None |}.

Record LemonSqueezyWebhookIngestionResult := {
  ig_id : UUID;
  ig_entry : inbox_row;
  ig_replayed : bool
}.

Section Inbox.
Context `{WebhookPrimitives}.

Definition event_identity (w : VerifiedLemonSqueezyWebhook) : res string :=
  webhook_check (negb (naive (ev_effective_at (vw_evidence w))))
    "verified webhook provider effective time must be timezone-aware.";;
  mret (sha256_hex (canonical_event w)).

(** [new_id] is the identifier drawn for the entry. *)
Definition ingest_verified_lemon_squeezy_webhook (new_id : UUID)
    (w : VerifiedLemonSqueezyWebhook) (raw_body : string) (received_at : datetime)
  : Market LemonSqueezyWebhookIngestionResult :=
  webhook_require (nonempty raw_body) "verified webhook raw body is required.";;
  let payload_digest := sha256_hex raw_body in
  identity_hash ← lift (event_identity w);
  existing ← inbox_by_identity identity_hash;
  match existing with
  | Some (id, e) =>
      webhook_require (bool_decide (i_payload_digest e = payload_digest) && same_binding e w)
        "webhook event identity was replayed with conflicting payload or references.";;
      mret {| ig_id := id; ig_entry := e; ig_replayed := true |}
  | None =>
      owner ← inbox_by_payload payload_digest;
      webhook_require (negb (is_some_b owner))
        "webhook payload was already bound to a different event identity.";;
      webhook_require (negb (naive received_at)) "received_at must be timezone-aware.";;
      let entry := received_entry identity_hash payload_digest w received_at in
      add_inbox new_id entry;;
      mret {| ig_id := new_id; ig_entry := entry; ig_replayed := false |}
  end.

(** A webhook request: what the HTTP handler passes to [ingest_request]. *)
Record WebhookRequest := {
  wr_raw_body : string;
  wr_signature : string;
  wr_signing_secret : string;
  wr_event_header : string;
  wr_expected_store_id : string;
  wr_received_at : datetime
}.

Definition parse_request (q : WebhookRequest) : res VerifiedLemonSqueezyWebhook :=
  parse_verified_lemon_squeezy_webhook (wr_raw_body q) (wr_signature q) (wr_signing_secret q)
    (wr_event_header q) (wr_expected_store_id q).

Definition ingest_body (new_id : UUID) (q : WebhookRequest) (w : VerifiedLemonSqueezyWebhook)
  : Market LemonSqueezyWebhookIngestionResult :=
  result ← ingest_verified_lemon_squeezy_webhook new_id w (wr_raw_body q) (wr_received_at q);
  market_commit;;
  mret result.

Definition ingest_request (new_id : UUID) (q : WebhookRequest) (db : MarketDb)
  : res LemonSqueezyWebhookIngestionResult * MarketDb :=
  match parse_request q with
  | Ok w => with_uow (ingest_body new_id q w) db
  | Raise e => (Raise e, db)
  end.
End Inbox.

(** ** Lifecycle *)

Definition MAX_ATTEMPT_COUNT : Z := 2147483646.

(** [_ERROR_CODE_PATTERN]. *)
Definition lower_alnum (c : ascii) : bool := is_digit c || in_range 97 122 (code c).
Definition error_code_char (c : ascii) : bool :=
  lower_alnum c || Ascii.eqb c "."%char || Ascii.eqb c "_"%char || Ascii.eqb c "-"%char.
Definition error_code_pattern (s : string) : bool :=
  match s with
  | String c s' => lower_alnum c && (String.length s' <=? 127)%nat && all_chars error_code_char s'
  | EmptyString => false
  end.

Definition normalized_error_code (value : string) : res string :=
  let normalized := lower (strip value) in
  webhook_check (error_code_pattern normalized) "error_code is invalid.";;
  mret normalized.

(** The lifecycle columns of an entry, set together. *)
Definition set_lifecycle (st : ProcessingStatus) (attempts : Z)
    (claimed processed rejected : option datetime) (error : option string) (i : inbox_row) : inbox_row :=
  {| i_event_identity_hash := i_event_identity_hash i; i_payload_digest := i_payload_digest i;
     i_event_name := i_event_name i; i_resource_type := i_resource_type i;
     i_external_resource_id := i_external_resource_id i; i_store_id := i_store_id i;
     i_customer_ref := i_customer_ref i; i_order_ref := i_order_ref i;
     i_offer_ref := i_offer_ref i; i_test_mode := i_test_mode i;
     i_processing_status := st; i_attempt_count := attempts;
     i_evidence_schema_version := i_evidence_schema_version i;
     i_provider_customer_id := i_provider_customer_id i;
     i_provider_order_id := i_provider_order_id i;
     i_provider_subscription_id := i_provider_subscription_id i;
     i_variant_id := i_variant_id i; i_currency := i_currency i;
     i_subtotal_amount := i_subtotal_amount i; i_total_amount := i_total_amount i;
     i_refunded_amount := i_refunded_amount i; i_provider_status := i_provider_status i;
     i_provider_effective_at := i_provider_effective_at i; i_last_error_code := error;
     i_received_at := i_received_at i; i_claimed_at := claimed; i_processed_at := processed;
     i_rejected_at := rejected |}.

Definition claim_lemon_squeezy_webhook (claimed_at : datetime) (i : inbox_row) : res inbox_row :=
  webhook_check (bool_decide (i_processing_status i = InReceived))
    "only a received webhook can be claimed for processing.";;
  webhook_check (negb (is_some_b (i_claimed_at i) || is_some_b (i_processed_at i) ||
                       is_some_b (i_rejected_at i)))
    "webhook lifecycle timestamps are inconsistent.";;
  webhook_check ((0 <=? i_attempt_count i) && (i_attempt_count i <=? MAX_ATTEMPT_COUNT))
    "attempt_count is outside the supported range.";;
  webhook_check (negb (naive claimed_at)) "claimed_at must be timezone-aware.";;
  mret (set_lifecycle InProcessing (i_attempt_count i + 1) (Some claimed_at) (i_processed_at i)
          (i_rejected_at i) None i).

Definition mark_lemon_squeezy_webhook_processed (processed_at : datetime) (i : inbox_row)
  : res inbox_row :=
  match i_processing_status i with
  | InProcessed => mret i
  | InProcessing =>
      match i_claimed_at i, i_rejected_at i with
      | Some claimed, None =>
          webhook_check (negb (naive processed_at)) "processed_at must be timezone-aware.";;
          early ← dt_lt processed_at claimed;
          webhook_check (negb early) "processed_at cannot precede claimed_at.";;
          mret (set_lifecycle InProcessed (i_attempt_count i) (Some claimed) (Some processed_at)
                  None None i)
      | _, _ => raise LemonSqueezyWebhookError "webhook lifecycle timestamps are inconsistent."
      end
  | InReceived | InRejected =>
      raise LemonSqueezyWebhookError "only a processing webhook can be marked processed."
  end.

Definition mark_lemon_squeezy_webhook_rejected (error_code : string) (rejected_at : datetime)
    (i : inbox_row) : res inbox_row :=
  normalized ← normalized_error_code error_code;
  match i_processing_status i with
  | InRejected =>
      webhook_check (bool_decide (i_last_error_code i = Some normalized))
        "rejected webhook cannot be replayed with a different error code.";;
      mret i
  | InProcessing =>
      match i_claimed_at i, i_processed_at i with
      | Some claimed, None =>
          webhook_check (negb (naive rejected_at)) "rejected_at must be timezone-aware.";;
          early ← dt_lt rejected_at claimed;
          webhook_check (negb early) "rejected_at cannot precede claimed_at.";;
          mret (set_lifecycle InRejected (i_attempt_count i) (Some claimed) None (Some rejected_at)
                  (Some normalized) i)
      | _, _ => raise LemonSqueezyWebhookError "webhook lifecycle timestamps are inconsistent."
      end
  | InReceived | InProcessed =>
      raise LemonSqueezyWebhookError "only a processing webhook can be rejected."
  end.
