(* ===== verification/LemonProcess.v ===== *)
(** * Reconciliation of provider webhooks

    Models [lemon_squeezy_reconciliation_gate.py] (the decision on an entry against its
    context), [lemon_squeezy_context_loader.py] (the authoritative context of an entry),
    [lemon_squeezy_reconciliation_processor.py] (one entry claimed, decided, applied and
    closed in one unit of work) and [lemon_squeezy_binding_service.py]. *)
From S2P Require Import Prelude PyString PyDecimal PyDateTime PyText Uow SalesDb TopUpDb MarketDb CommerceAudit LemonRuntime LemonInbox.
#[local] Open Scope Z_scope.

Notation decision_row := AdminMarketLemonSqueezyReconciliationDecision.
Notation binding_row := AdminMarketLemonSqueezyBinding.

(** ** The gate *)

Record LemonSqueezyReconciliationContext := {
  x_customer_ref : string;
  x_order_ref : string;
  x_offer_ref : string;
  x_order_sales_channel : SalesChannel;
  x_offer_sales_channel : SalesChannel;
  x_production_mode : bool;
  x_provider_customer_id : string;
  x_provider_order_id : option string;
  x_provider_subscription_id : option string;
  x_variant_id : option string;
  x_currency : option string;
  x_total_amount : option string;
  x_latest_provider_effective_at : option datetime
}.

Record LemonSqueezyReconciliationDecision := {
  de_action : ReconciliationAction;
  de_reason_code : string
}.

(** [_RESOURCE_TYPES_BY_EVENT], whose keys are [_RECONCILE_EVENTS]. *)
Definition RESOURCE_TYPES_BY_EVENT : list (string * string) :=
  [ ("order_created", "orders"); ("order_refunded", "orders");
    ("subscription_created", "subscriptions"); ("subscription_updated", "subscriptions");
    ("subscription_cancelled", "subscriptions"); ("subscription_resumed", "subscriptions");
    ("subscription_expired", "subscriptions"); ("subscription_paused", "subscriptions");
    ("subscription_unpaused", "subscriptions");
    ("subscription_payment_failed", "subscription-invoices");
    ("subscription_payment_success", "subscription-invoices");
    ("subscription_payment_recovered", "subscription-invoices");
    ("subscription_payment_refunded", "subscription-invoices") ].
Definition EVIDENCE_SCHEMA_BY_RESOURCE : list (string * Z) :=
  [ ("orders", 3); ("subscriptions", 1); ("subscription-invoices", 1) ].

Definition review (reason : string) : LemonSqueezyReconciliationDecision :=
  {| de_action := ActRequiresReview; de_reason_code := reason |}.
Definition ignore (reason : string) : LemonSqueezyReconciliationDecision :=
  {| de_action := ActIgnore; de_reason_code := reason |}.

Definition amounts_equal (left right : string) : bool :=
  match decimal_of_text left, decimal_of_text right with
  | Some (DFinite n1 c1 e1), Some (DFinite n2 c2 e2) =>
      dec_eqb (dec_of_finite n1 c1 e1) (dec_of_finite n2 c2 e2)
  | Some (DInfinity n1), Some (DInfinity n2) => eqb n1 n2
  | _, _ => false
  end.

(** [expected is not None and actual != expected]. *)
Definition mismatch {A} `{EqDecision A} (expected actual : option A) : bool :=
  is_some_b expected && negb (bool_decide (actual = expected)).

(** The evidence a resource type must carry; the reason to review it otherwise. *)
Definition resource_evidence (i : inbox_row) : option string :=
  if bool_decide (i_resource_type i = "orders") then
    if negb (bool_decide (i_provider_order_id i = Some (i_external_resource_id i)))
    then Some "resource_provider_order_mismatch"
    else if is_some_b (i_variant_id i) && is_some_b (i_currency i) && is_some_b (i_total_amount i)
    then None else Some "order_evidence_incomplete"
  else if bool_decide (i_resource_type i = "subscriptions") then
    if negb (bool_decide (i_provider_subscription_id i = Some (i_external_resource_id i)))
    then Some "resource_provider_subscription_mismatch"
    else if is_some_b (i_provider_order_id i) && is_some_b (i_variant_id i)
    then None else Some "subscription_evidence_incomplete"
  else if bool_decide (i_resource_type i = "subscription-invoices") then
    if is_some_b (i_provider_subscription_id i) && is_some_b (i_currency i) &&
       is_some_b (i_total_amount i)
    then None else Some "invoice_evidence_incomplete"
  else None.

(** The checks of the identifiers and amounts the context expects. *)
Definition expected_evidence (i : inbox_row) (x : LemonSqueezyReconciliationContext) : option string :=
  if negb (bool_decide (i_provider_customer_id i = Some (x_provider_customer_id x)))
  then Some "provider_customer_mismatch"
  else if mismatch (x_provider_order_id x) (i_provider_order_id i)
  then Some "provider_order_mismatch"
  else if mismatch (x_provider_subscription_id x) (i_provider_subscription_id i)
  then Some "provider_subscription_mismatch"
  else if mismatch (x_variant_id x) (i_variant_id i) then Some "variant_mismatch"
  else if mismatch (upper <$> x_currency x) (i_currency i) then Some "currency_mismatch"
  else match x_total_amount x, i_total_amount i with
       | Some _, None => Some "total_amount_mismatch"
       | Some expected, Some total =>
           if amounts_equal total expected then None else Some "total_amount_mismatch"
       | None, _ => None
       end.

(** The checks of the effective times. *)
Definition effective_evidence (i : inbox_row) (latest : option datetime) : option string :=
  match aware_opt (i_provider_effective_at i), latest with
  | None, _ => Some "provider_effective_at_invalid"
  | Some t, Some l =>
      if naive l then Some "latest_provider_effective_at_invalid"
      else if instant t <? instant l then Some "stale_provider_event" else None
  | Some _, None => None
  end.

Definition classify_lemon_squeezy_reconciliation (i : inbox_row)
    (x : LemonSqueezyReconciliationContext) : LemonSqueezyReconciliationDecision :=
  match i_processing_status i with
  | InProcessed | InRejected => ignore "event_already_terminal"
  | InReceived | InProcessing =>
      match dict_get RESOURCE_TYPES_BY_EVENT (i_event_name i) with
      | None => review "unsupported_event"
      | Some expected_resource_type =>
          if negb (bool_decide (i_resource_type i = expected_resource_type))
          then review "resource_type_mismatch"
          else if negb (bool_decide (i_customer_ref i = x_customer_ref x))
          then review "customer_binding_mismatch"
          else if negb (bool_decide (i_order_ref i = x_order_ref x))
          then review "order_binding_mismatch"
          else if negb (bool_decide (i_offer_ref i = x_offer_ref x))
          then review "offer_binding_mismatch"
          else if negb (bool_decide (x_order_sales_channel x = LemonSqueezy))
          then review "order_channel_mismatch"
          else if negb (bool_decide (x_offer_sales_channel x = LemonSqueezy))
          then review "offer_channel_mismatch"
          else if x_production_mode x && i_test_mode i then ignore "test_event_in_production"
          else if negb (x_production_mode x) && negb (i_test_mode i)
          then review "live_event_in_test_environment"
          else if negb (match dict_get EVIDENCE_SCHEMA_BY_RESOURCE (i_resource_type i) with
                        | Some v => bool_decide (i_evidence_schema_version i = Some v)
                        | None => false
                        end)
          then review "verified_evidence_missing"
          else match effective_evidence i (x_latest_provider_effective_at x),
                     expected_evidence i x, resource_evidence i with
               | Some r, _, _ | None, Some r, _ | None, None, Some r => review r
               | None, None, None =>
                   {| de_action := ActReconcile;
                      de_reason_code := "verified_evidence_requires_reconciliation" |}
               end
      end
  end.

(** ** Repositories *)

Definition decision_by_inbox_id (id : UUID) : Market (option (UUID * decision_row)) :=
  query (fun db => find_row (fun d => bool_decide (rd_inbox_id d = id))
                     (pv_decisions (db_provider db))).
Definition add_decision := add_row (fun db => pv_decisions (db_provider db))
                             (fun id d => put_provider (pv_put_decision id d)).
Definition customer_binding_by_customer (ref : string)
  : Market (option (UUID * AdminMarketLemonSqueezyCustomerBinding)) :=
  query (fun db => find_row (fun c => bool_decide (cb_customer_ref c = ref))
                     (pv_customers (db_provider db))).
Definition customer_binding_by_provider (ref : string)
  : Market (option (UUID * AdminMarketLemonSqueezyCustomerBinding)) :=
  query (fun db => find_row (fun c => bool_decide (cb_provider_customer_id c = ref))
                     (pv_customers (db_provider db))).
Definition add_customer_binding := add_row (fun db => pv_customers (db_provider db))
                                     (fun id c => put_provider (pv_put_customer id c)).
Definition binding_by_order (id : UUID) : Market (option (UUID * binding_row)) :=
  query (fun db => find_row (fun b => bool_decide (b_order_id b = id)) (pv_bindings (db_provider db))).
Definition binding_by_provider_order (id : string) : Market (option (UUID * binding_row)) :=
  query (fun db => find_row (fun b => bool_decide (b_provider_order_id b = id))
                     (pv_bindings (db_provider db))).
Definition binding_by_provider_subscription (id : string) : Market (option (UUID * binding_row)) :=
  query (fun db => find_row (fun b => bool_decide (b_provider_subscription_id b = Some id))
                     (pv_bindings (db_provider db))).
Definition put_binding (id : UUID) (b : binding_row) : MarketDb -> MarketDb :=
  put_provider (pv_put_binding id b).
Definition add_binding := add_row (fun db => pv_bindings (db_provider db)) put_binding.
(** ** The context of an entry *)

Definition truthy_text (x : option string) : bool :=
  match x with Some s => nonempty s | None => false end.

(** The order and the offer an entry refers to. *)
Definition referenced_order (i : inbox_row) : Market (UUID * AdminMarketOrder * AdminMarketOffer) :=
  found ← market_order_by_ref (i_order_ref i);
  orow ← webhook_found found "referenced marketplace order was not found.";
  let order := snd orow in
  webhook_require (bool_decide (or_customer_ref order = i_customer_ref i))
    "order customer binding conflicts with webhook.";;
  webhook_require (bool_decide (or_selected_channel order = LemonSqueezy))
    "order is not assigned to Lemon Squeezy.";;
  found_offer ← offer_by_id (or_offer_id order);
  offer ← webhook_found found_offer "referenced marketplace offer was not found.";
  webhook_require (bool_decide (of_offer_code offer = i_offer_ref i))
    "offer binding conflicts with webhook.";;
  webhook_require (bool_decide (of_sales_channel offer = LemonSqueezy))
    "offer is not assigned to Lemon Squeezy.";;
  webhook_require (bool_decide (of_billing_period offer = or_billing_period order))
    "order billing period conflicts with offer.";;
  mret (fst orow, order, offer).

(** The binding of the order, owned by the customer on both sides. *)
Definition owned_binding (i : inbox_row) (order_id offer_id : UUID) (provider_customer : string)
  : Market (UUID * binding_row) :=
  customer_owner ← customer_binding_by_customer (i_customer_ref i);
  provider_owner ← customer_binding_by_provider provider_customer;
  match customer_owner, provider_owner with
  | Some (cid, c), Some (pid, _) =>
      webhook_require (bool_decide (cid = pid))
        "provider customer identifier has conflicting ownership.";;
      webhook_require (bool_decide (cb_provider_customer_id c = provider_customer))
        "provider customer binding conflicts with webhook."
  | _, _ => throw LemonSqueezyWebhookError "provider customer ownership was not found."
  end;;
  found ← binding_by_order order_id;
  brow ← webhook_found found "Lemon Squeezy binding was not found.";
  let b := snd brow in
  webhook_require (bool_decide (b_customer_ref b = i_customer_ref i))
    "provider binding belongs to another customer.";;
  webhook_require (bool_decide (b_offer_id b = offer_id)) "provider binding belongs to another offer.";;
  webhook_require (bool_decide (b_provider_customer_id b = provider_customer))
    "provider customer binding conflicts with webhook.";;
  mret brow.

(** The active subscription of the customer agrees with the binding. *)
Definition active_subscription_agrees (customer : string) (order_id offer_id : UUID) (b : binding_row)
  : Market unit :=
  active ← active_subscription_by_customer customer;
  match active with
  | None => mret tt
  | Some (sid, s) =>
      webhook_require (bool_decide (s_order_id s = Some order_id))
        "customer has an active subscription for another order.";;
      webhook_require (bool_decide (s_offer_id s = Some offer_id))
        "active subscription offer conflicts with provider binding.";;
      webhook_require (bool_decide (b_subscription_id b = Some sid))
        "provider binding subscription conflicts with active subscription."
  end.

Definition expected_subscription (i : inbox_row) (brow : UUID * binding_row)
  : Market (option string) :=
  match i_provider_subscription_id i with
  | None => mret (b_provider_subscription_id (snd brow))
  | Some ps =>
      owner ← binding_by_provider_subscription ps;
      webhook_require (match owner with Some (oid, _) => bool_decide (oid = fst brow) | None => false end)
        "provider subscription identifier has conflicting ownership.";;
      mret (Some ps)
  end.

(** [lemon_squeezy_reconciliation_context_loader_factory(production_mode=...)]. *)
Definition load_context (production_mode : bool) (i : inbox_row)
  : Market LemonSqueezyReconciliationContext :=
  webhook_require (nonempty (i_order_ref i) && nonempty (i_customer_ref i) &&
                   nonempty (i_offer_ref i) && truthy_text (i_provider_customer_id i))
    "webhook reconciliation references are incomplete.";;
  let provider_customer := default "" (i_provider_customer_id i) in
  refs ← referenced_order i;
  let '(order_id, order, offer) := refs in
  brow ← owned_binding i order_id (or_offer_id order) provider_customer;
  let b := snd brow in
  active_subscription_agrees (i_customer_ref i) order_id (or_offer_id order) b;;
  expected ← expected_subscription i brow;
  mret {| x_customer_ref := i_customer_ref i; x_order_ref := or_order_ref order;
          x_offer_ref := of_offer_code offer; x_order_sales_channel := or_selected_channel order;
          x_offer_sales_channel := of_sales_channel offer; x_production_mode := production_mode;
          x_provider_customer_id := b_provider_customer_id b;
          x_provider_order_id := Some (b_provider_order_id b);
          x_provider_subscription_id := expected; x_variant_id := Some (b_variant_id b);
          x_currency := Some (b_currency b); x_total_amount := Some (b_total_amount b);
          x_latest_provider_effective_at := b_last_provider_effective_at b |}.

(** ** The processor *)

Definition advanced_binding (subscription : option string) (effective_at : datetime)
    (b : binding_row) : binding_row :=
  {| b_customer_ref := b_customer_ref b; b_order_id := b_order_id b; b_offer_id := b_offer_id b;
     b_subscription_id := b_subscription_id b; b_provider_customer_id := b_provider_customer_id b;
     b_provider_order_id := b_provider_order_id b;
     b_provider_subscription_id :=
       match subscription with Some s => Some s | None => b_provider_subscription_id b end;
     b_variant_id := b_variant_id b; b_currency := b_currency b;
     b_total_amount := b_total_amount b; b_last_provider_effective_at := Some effective_at |}.

(** The binding of an event: by its order, else by its subscription. *)
Definition event_binding (i : inbox_row) : Market (option (UUID * binding_row)) :=
  let incomplete := throw LemonSqueezyWebhookError "reconciliation binding evidence is incomplete." in
  match i_provider_order_id i, i_provider_subscription_id i with
  | Some po, ps =>
      if nonempty po then binding_by_provider_order po
      else match ps with
           | Some s => if nonempty s then binding_by_provider_subscription s else incomplete
           | None => incomplete
           end
  | None, Some s => if nonempty s then binding_by_provider_subscription s else incomplete
  | None, None => incomplete
  end.

Definition advance_binding_watermark (i : inbox_row) : Market binding_row :=
  effective_at ← webhook_found (i_provider_effective_at i)
                   "reconciliation binding evidence is incomplete.";
  found ← event_binding i;
  brow ← webhook_found found "authoritative Lemon Squeezy binding was not found.";
  let b := snd brow in
  webhook_require (bool_decide (b_customer_ref b = i_customer_ref i) &&
                   bool_decide (Some (b_provider_customer_id b) = i_provider_customer_id i) &&
                   bool_decide (Some (b_variant_id b) = i_variant_id i))
    "authoritative Lemon Squeezy binding conflicts with verified evidence.";;
  webhook_require (match b_provider_subscription_id b with
                   | None => true
                   | known => bool_decide (known = i_provider_subscription_id i)
                   end)
    "provider subscription conflicts with authoritative binding.";;
  older ← match b_last_provider_effective_at b with
          | Some current => lift (dt_lt effective_at current)
          | None => mret false
          end;
  webhook_require (negb older) "provider event is older than binding watermark.";;
  let b' := advanced_binding (i_provider_subscription_id i) effective_at b in
  mutate (put_binding (fst brow) b');;
  mret b'.

Definition stored_binding_matches (d : decision_row) (inbox_id : UUID) (i : inbox_row) : bool :=
  bool_decide (rd_inbox_id d = inbox_id) &&
  bool_decide (rd_event_identity_hash d = i_event_identity_hash i) &&
  bool_decide (rd_customer_ref d = i_customer_ref i) &&
  bool_decide (rd_order_ref d = i_order_ref i) && bool_decide (rd_offer_ref d = i_offer_ref i).

Definition context_binding_matches (x : LemonSqueezyReconciliationContext) (i : inbox_row) : bool :=
  bool_decide (x_customer_ref x = i_customer_ref i) &&
  bool_decide (x_order_ref x = i_order_ref i) && bool_decide (x_offer_ref x = i_offer_ref i).

(** The identifiers drawn for the rows a run may insert. *)
Record ProcessIds := { pid_decision : UUID; pid_delinquency : UUID; pid_transition : UUID }.

Definition new_decision (inbox_id : UUID) (i : inbox_row) (d : LemonSqueezyReconciliationDecision)
    (decided_at : datetime) : decision_row :=
  {| rd_inbox_id := inbox_id; rd_event_identity_hash := i_event_identity_hash i;
     rd_customer_ref := i_customer_ref i; rd_order_ref := i_order_ref i;
     rd_offer_ref := i_offer_ref i; rd_action := de_action d;
     rd_reason_code := de_reason_code d; rd_decided_at := decided_at |}.

(** The effects of a reconciled event. *)
Definition apply_reconciled (ids : ProcessIds) (i : inbox_row) : Market unit :=
  binding ← advance_binding_watermark i;
  subscription ← apply_lemon_squeezy_subscription_lifecycle binding i;
  match subscription with
  | None => mret tt
  | Some (sid, s) =>
      apply_lemon_squeezy_runtime_access (pid_delinquency ids) (pid_transition ids) binding sid s i
        (pid_decision ids)
  end.

(** The decision carried out on the claimed entry [i], which is then closed. *)
Definition carry_out (ids : ProcessIds) (inbox_id : UUID) (i : inbox_row)
    (d : LemonSqueezyReconciliationDecision) (timestamp : datetime) : Market unit :=
  match de_action d with
  | ActRequiresReview =>
      closed ← lift (mark_lemon_squeezy_webhook_rejected (de_reason_code d) timestamp i);
      mutate (put_inbox inbox_id closed)
  | ActReconcile =>
      apply_reconciled ids i;;
      closed ← lift (mark_lemon_squeezy_webhook_processed timestamp i);
      mutate (put_inbox inbox_id closed)
  | ActIgnore =>
      closed ← lift (mark_lemon_squeezy_webhook_processed timestamp i);
      mutate (put_inbox inbox_id closed)
  end.

(** An entry without a decision: claimed, decided and closed. *)
Definition decide_entry (load : inbox_row -> Market LemonSqueezyReconciliationContext)
    (ids : ProcessIds) (inbox_id : UUID) (i : inbox_row) (timestamp : datetime)
  : Market (UUID * decision_row) :=
  claimed ← lift (claim_lemon_squeezy_webhook timestamp i);
  mutate (put_inbox inbox_id claimed);;
  context ← load claimed;
  webhook_require (context_binding_matches context claimed)
    "reconciliation context conflicts with inbox binding.";;
  let d := classify_lemon_squeezy_reconciliation claimed context in
  let record := new_decision inbox_id claimed d timestamp in
  add_decision (pid_decision ids) record;;
  carry_out ids inbox_id claimed d timestamp;;
  market_commit;;
  mret (pid_decision ids, record).

Definition process_body (load : inbox_row -> Market LemonSqueezyReconciliationContext)
    (ids : ProcessIds) (inbox_id : UUID) (timestamp : datetime) : Market (UUID * decision_row) :=
  found ← inbox_by_id inbox_id;
  i ← webhook_found found "webhook inbox entry was not found.";
  existing ← decision_by_inbox_id inbox_id;
  match existing with
  | Some drow =>
      webhook_require (stored_binding_matches (snd drow) inbox_id i)
        "stored reconciliation decision conflicts with inbox binding.";;
      mret drow
  | None => decide_entry load ids inbox_id i timestamp
  end.

Definition process_reconciliation (load : inbox_row -> Market LemonSqueezyReconciliationContext)
    (ids : ProcessIds) (inbox_id : UUID) (decided_at : datetime) (db : MarketDb)
  : res (UUID * decision_row) * MarketDb :=
  if naive decided_at
  then (raise LemonSqueezyWebhookError "decided_at must be timezone-aware.", db)
  else with_uow (process_body load ids inbox_id decided_at) db.

(** * Binding an order to its provider identifiers

    Models [lemon_squeezy_binding_service.py]: a customer belongs to one provider
    customer, an order has one binding, and a repeated request must agree with it. *)
Record LemonSqueezyBindingCommand := {
  bc_customer_ref : string;
  bc_order_id : UUID;
  bc_offer_id : UUID;
  bc_provider_customer_id : string;
  bc_provider_order_id : string;
  bc_provider_subscription_id : option string;
  bc_variant_id : string;
  bc_currency : string;
  bc_total_amount : string;
  bc_subscription_id : option UUID;
  bc_provider_effective_at : option datetime
}.

Definition validate_binding_command (cmd : LemonSqueezyBindingCommand) : res unit :=
  reject_if (blank (bc_customer_ref cmd) || blank (bc_provider_customer_id cmd) ||
             blank (bc_provider_order_id cmd) || blank (bc_variant_id cmd) ||
             blank (bc_currency cmd) || blank (bc_total_amount cmd))
    ValueError "Lemon Squeezy binding command is incomplete.";;
  ensure (Nat.eqb (String.length (strip (bc_currency cmd))) 3)
    ValueError "Lemon Squeezy binding currency is invalid.".

Definition binding_require (b : bool) (msg : string) : Market unit :=
  lift (ensure b LemonSqueezyBindingConflictError msg).

Definition assert_owner_compatible (cmd : LemonSqueezyBindingCommand)
    (customer_owner provider_owner : option (UUID * AdminMarketLemonSqueezyCustomerBinding))
  : Market unit :=
  binding_require (match customer_owner with
                   | Some (_, c) => bool_decide (cb_provider_customer_id c = bc_provider_customer_id cmd)
                   | None => true
                   end)
    "Internal customer already belongs to another provider customer.";;
  binding_require (match provider_owner with
                   | Some (_, c) => bool_decide (cb_customer_ref c = bc_customer_ref cmd)
                   | None => true
                   end)
    "Provider customer already belongs to another internal customer.".

Definition binding_matches (cmd : LemonSqueezyBindingCommand) (b : binding_row) : bool :=
  bool_decide (b_customer_ref b = bc_customer_ref cmd) &&
  bool_decide (b_offer_id b = bc_offer_id cmd) &&
  bool_decide (b_subscription_id b = bc_subscription_id cmd) &&
  bool_decide (b_provider_customer_id b = bc_provider_customer_id cmd) &&
  bool_decide (b_provider_order_id b = bc_provider_order_id cmd) &&
  bool_decide (b_provider_subscription_id b = bc_provider_subscription_id cmd) &&
  bool_decide (b_variant_id b = bc_variant_id cmd) &&
  bool_decide (b_currency b = upper (bc_currency cmd)) &&
  bool_decide (b_total_amount b = bc_total_amount cmd).

Definition new_binding (cmd : LemonSqueezyBindingCommand) : binding_row :=
  {| b_customer_ref := bc_customer_ref cmd; b_order_id := bc_order_id cmd;
     b_offer_id := bc_offer_id cmd; b_subscription_id := bc_subscription_id cmd;
     b_provider_customer_id := bc_provider_customer_id cmd;
     b_provider_order_id := bc_provider_order_id cmd;
     b_provider_subscription_id := bc_provider_subscription_id cmd;
     b_variant_id := bc_variant_id cmd; b_currency := upper (bc_currency cmd);
     b_total_amount := bc_total_amount cmd;
     b_last_provider_effective_at := bc_provider_effective_at cmd |}.

(** [new_customer] and [new_id] are the identifiers drawn for the rows. *)
Definition bind_body (new_customer new_id : UUID) (cmd : LemonSqueezyBindingCommand)
  : Market (UUID * binding_row) :=
  customer_owner ← customer_binding_by_customer (bc_customer_ref cmd);
  provider_owner ← customer_binding_by_provider (bc_provider_customer_id cmd);
  assert_owner_compatible cmd customer_owner provider_owner;;
  match customer_owner with
  | Some _ => mret tt
  | None => add_customer_binding new_customer
              {| cb_customer_ref := bc_customer_ref cmd;
                 cb_provider_customer_id := bc_provider_customer_id cmd |}
  end;;
  existing ← binding_by_order (bc_order_id cmd);
  match existing with
  | Some brow =>
      binding_require (binding_matches cmd (snd brow))
        "Order already has a different Lemon Squeezy binding.";;
      mret brow
  | None =>
      add_binding new_id (new_binding cmd);;
      market_commit;;
      mret (new_id, new_binding cmd)
  end.

(** [except AdminMarketplaceConflictError], whose subclass for duplicates it covers. *)
Definition translate_conflict {A} (r : res A) : res A :=
  match r with
  | Raise (Exn (AdminMarketplaceConflictError | AdminMarketplaceDuplicateReferenceError) _) =>
      raise LemonSqueezyBindingConflictError "Lemon Squeezy binding conflicts with existing ownership."
  | _ => r
  end.

Definition bind (new_customer new_id : UUID) (cmd : LemonSqueezyBindingCommand) (db : MarketDb)
  : res (UUID * binding_row) * MarketDb :=
  match validate_binding_command cmd with
  | Raise e => (Raise e, db)
  | Ok _ => let (r, db') := with_uow (bind_body new_customer new_id cmd) db in
            (translate_conflict r, db')
  end.
