(* ===== verification/LemonTopUp.v ===== *)
(** * Top-ups bought and refunded through the provider

    Models [lemon_squeezy_top_up_processor.py] (a paid order becomes payment evidence and
    a grant, in one unit of work), [lemon_squeezy_top_up_refund_processor.py] and the
    dispatch of [lemon_squeezy_secure_webhook_router.py] after its configuration and
    header checks. *)
From S2P Require Import Prelude PyString PyDateTime PyDecimal PyText LemonWebhook.
From S2P Require Import TopUpQuote Uow TopUpDb MarketDb TopUpOrder TopUpGrant.
From S2P Require Import LemonRuntime LemonInbox LemonProcess.
#[local] Open Scope Z_scope.

Definition TOP_UP_OFFER_REF : string := "quota_top_up".

(** [_usd_from_cents] and [_amount_from_cents]: an amount in cents, as a decimal. *)
Definition amount_from_cents (value message : string) : res dec :=
  match decimal_of_text value with
  | Some (DFinite neg c e) =>
      webhook_check (negb (neg && negb (c =? 0)) && is_integral (dec_of_finite neg c e)) message;;
      dec_div (dec_of_finite neg c e) (dec_int 100)
  | _ => raise LemonSqueezyWebhookError message
  end.

(** The order the entry refers to, bound to the same customer and variant. *)
Definition bound_top_up_order (i : inbox_row) (order_id : UUID) (absent conflict : string)
  : Market CommercialTopUpOrder :=
  found ← order_by_id order_id;
  order ← webhook_found found absent;
  webhook_require (bool_decide (o_customer_ref order = i_customer_ref i) &&
                   bool_decide (o_channel order = LEMON_SQUEEZY) &&
                   is_some_b (o_provider_variant_id order) &&
                   bool_decide (o_provider_variant_id order = i_variant_id i)) conflict;;
  mret order.

(** ** A paid order *)

Record LemonSqueezyTopUpProcessingResult := {
  tp_inbox_id : UUID;
  tp_order_id : UUID;
  tp_grant_id : UUID;
  tp_units : Z;
  tp_replayed_grant : bool
}.

(** An entry already processed: the grant its order has. *)
Definition replayed_top_up (inbox_id : UUID) (i : inbox_row)
  : Market LemonSqueezyTopUpProcessingResult :=
  order_id ← webhook_found (uuid_of_text (i_order_ref i))
               "processed top-up webhook has invalid order binding.";
  existing ← grant_by_order_id order_id;
  grow ← webhook_found existing "processed top-up webhook is missing its grant ledger entry.";
  mret {| tp_inbox_id := inbox_id; tp_order_id := order_id; tp_grant_id := fst grow;
          tp_units := g_units (snd grow); tp_replayed_grant := true |}.

Definition paid_top_up_event (i : inbox_row) : Market string :=
  webhook_require (bool_decide (i_offer_ref i = TOP_UP_OFFER_REF)) "webhook is not a top-up event.";;
  webhook_require (bool_decide (i_event_name i = "order_created") &&
                   bool_decide (i_resource_type i = "orders"))
    "top-up fulfillment requires a Lemon Squeezy order_created event.";;
  webhook_require (bool_decide (i_provider_status i = Some "paid"))
    "top-up provider order is not paid.";;
  webhook_require (bool_decide (i_provider_order_id i = Some (i_external_resource_id i)))
    "top-up provider order binding is invalid.";;
  webhook_require (negb (is_some_b (i_provider_subscription_id i)))
    "top-up purchase must not be bound to a provider subscription.";;
  webhook_require (bool_decide (i_currency i = Some "USD")) "top-up payment evidence is incomplete.";;
  webhook_found (i_subtotal_amount i) "top-up payment evidence is incomplete.".

Definition provider_order_reference (i : inbox_row) : string :=
  "lemon_squeezy:order:" +:+ default "None" (i_provider_order_id i).

Definition provider_payment (inbox_id order_id : UUID) (i : inbox_row) (amount : dec)
    (timestamp : datetime) : CommercialTopUpPaymentEvidence :=
  {| pe_order_id := order_id; pe_provider_reference := provider_order_reference i;
     pe_outcome := PayVerified; pe_verified_amount := Some amount;
     pe_verified_currency := Some "USD";
     pe_immutable_evidence_reference :=
       Some ("ls-inbox:" +:+ inbox_id +:+ ":" +:+ i_payload_digest i);
     pe_created_at := timestamp |}.

(** The evidence of the payment: recorded, or the same as recorded before. *)
Definition provider_evidence (new_payment_id inbox_id order_id : UUID) (i : inbox_row) (amount : dec)
    (timestamp : datetime) : Market unit :=
  let conflict := "provider payment reference conflicts with existing top-up evidence." in
  existing ← payment_by_provider_reference (provider_order_reference i);
  match existing with
  | None => add_payment new_payment_id (provider_payment inbox_id order_id i amount timestamp)
  | Some (_, p) =>
      webhook_require (bool_decide (pe_order_id p = order_id) &&
                       bool_decide (pe_outcome p = PayVerified)) conflict;;
      match pe_verified_amount p with
      | None => throw TypeError "conversion from NoneType to Decimal is not supported"
      | Some paid => webhook_require (dec_eqb paid amount &&
                                      bool_decide (pe_verified_currency p = Some "USD")) conflict
      end
  end.

Definition top_up_grant_command (order_id : UUID) (order : CommercialTopUpOrder) (i : inbox_row)
    (timestamp : datetime) : SubscriptionTopUpGrantCommand :=
  {| gc_order_id := order_id; gc_subscription_id := o_subscription_id order;
     gc_quota_cycle_id := o_quota_cycle_id order; gc_customer_ref := o_customer_ref order;
     gc_provider_reference := provider_order_reference i; gc_granted_at := timestamp |}.

(** The identifiers drawn for the rows a run may insert. *)
Record TopUpIds := { tid_payment : UUID; tid_grant : UUID; tid_reversal : UUID }.

(** What a paid event requires before anything is written. *)
Definition top_up_purchase (i : inbox_row) : Market (UUID * CommercialTopUpOrder * dec) :=
  subtotal ← paid_top_up_event i;
  order_id ← webhook_found (uuid_of_text (i_order_ref i)) "top-up order_ref must be a UUID.";
  order ← bound_top_up_order i order_id "referenced top-up order was not found."
            "top-up webhook conflicts with the authoritative order binding.";
  amount ← lift (amount_from_cents subtotal "top-up subtotal evidence is invalid.");
  webhook_require (dec_eqb amount (o_settlement_amount order))
    "top-up webhook subtotal conflicts with the authoritative order.";;
  mret (order_id, order, amount).

Definition fulfil_top_up (ids : TopUpIds) (inbox_id : UUID) (i : inbox_row) (timestamp : datetime)
  : Market LemonSqueezyTopUpProcessingResult :=
  purchase ← top_up_purchase i;
  let '(order_id, order, amount) := purchase in
  provider_evidence (tid_payment ids) inbox_id order_id i amount timestamp;;
  (if bool_decide (o_state order = AWAITING_PAYMENT)
   then mutate (put_order order_id (set_order_state PAYMENT_VERIFIED order)) else mret tt);;
  claimed ← lift (claim_lemon_squeezy_webhook timestamp i);
  mutate (put_inbox inbox_id claimed);;
  g ← translate_grant_error LemonSqueezyWebhookError
        "verified top-up payment could not be granted safely."
        (apply_verified_subscription_top_up_in_uow (tid_grant ids)
           (top_up_grant_command order_id order i timestamp));
  closed ← lift (mark_lemon_squeezy_webhook_processed timestamp claimed);
  mutate (put_inbox inbox_id closed);;
  market_commit;;
  mret {| tp_inbox_id := inbox_id; tp_order_id := order_id; tp_grant_id := gr_grant_id g;
          tp_units := gr_units g; tp_replayed_grant := gr_idempotent_replay g |}.

Definition process_top_up_body (ids : TopUpIds) (inbox_id : UUID) (timestamp : datetime)
  : Market LemonSqueezyTopUpProcessingResult :=
  found ← inbox_by_id inbox_id;
  i ← webhook_found found "top-up webhook inbox entry was not found.";
  if bool_decide (i_processing_status i = InProcessed) then replayed_top_up inbox_id i
  else fulfil_top_up ids inbox_id i timestamp.

Definition process_top_up (ids : TopUpIds) (inbox_id : UUID) (processed_at : datetime) (db : MarketDb)
  : res LemonSqueezyTopUpProcessingResult * MarketDb :=
  if naive processed_at
  then (raise LemonSqueezyWebhookError "processed_at must be timezone-aware.", db)
  else with_uow (process_top_up_body ids inbox_id processed_at) db.

(** ** A refund *)

Record LemonSqueezyTopUpRefundResult := {
  rf_inbox_id : UUID;
  rf_order_id : UUID;
  rf_outcome : ReversalOutcome;
  rf_reversal_id : option UUID;
  rf_replayed : bool
}.

Definition provider_event_ref (i : inbox_row) : string :=
  "lemon_squeezy:order_refunded:" +:+ i_external_resource_id i +:+ ":" +:+ i_payload_digest i.

(** An entry already processed: "reversed" when its event has a reversal row. *)
Definition replayed_refund (inbox_id order_id : UUID) (i : inbox_row)
  : Market LemonSqueezyTopUpRefundResult :=
  reversal ← reversal_by_provider_event_ref (provider_event_ref i);
  mret {| rf_inbox_id := inbox_id; rf_order_id := order_id;
          rf_outcome := if is_some_b reversal then ROReversed else ROManualReview;
          rf_reversal_id := fst <$> reversal; rf_replayed := true |}.

Definition refund_event (i : inbox_row) : Market (string * string) :=
  webhook_require (bool_decide (i_offer_ref i = TOP_UP_OFFER_REF))
    "webhook is not a top-up refund event.";;
  webhook_require (bool_decide (i_event_name i = "order_refunded") &&
                   bool_decide (i_resource_type i = "orders"))
    "top-up refund processing requires a Lemon Squeezy order_refunded event.";;
  webhook_require (bool_decide (i_provider_order_id i = Some (i_external_resource_id i)))
    "top-up refund provider order binding is invalid.";;
  webhook_require (negb (is_some_b (i_provider_subscription_id i)))
    "top-up refund must not be bound to a subscription.";;
  webhook_require (bool_decide (i_currency i = Some "USD")) "top-up refund evidence is incomplete.";;
  refunded ← webhook_found (i_refunded_amount i) "top-up refund evidence is incomplete.";
  total ← webhook_found (i_total_amount i) "top-up refund evidence is incomplete.";
  mret (refunded, total).

(** The amounts of a refund: refunded and total, in dollars. *)
Definition refund_amounts (i : inbox_row) (order_id : UUID) : Market (dec * dec) :=
  texts ← refund_event i;
  bound_top_up_order i order_id "referenced top-up order was not found."
    "top-up refund conflicts with the authoritative order binding.";;
  refunded ← lift (amount_from_cents (fst texts) "top-up refunded amount is invalid.");
  total ← lift (amount_from_cents (snd texts) "top-up total amount is invalid.");
  webhook_require (negb (dec_leb refunded (dec_int 0) || dec_ltb total refunded))
    "top-up refund amount is invalid.";;
  mret (refunded, total).

(** [except SubscriptionTopUpReversalError]. *)
Definition translate_reversal_error {A} (msg : string) (m : Market A) : Market A :=
  fun s => match m s with
           | (Raise (Exn SubscriptionTopUpReversalError _), s') => (raise LemonSqueezyWebhookError msg, s')
           | r => r
           end.

Definition close_processed (inbox_id : UUID) (claimed : inbox_row) (timestamp : datetime) : Market unit :=
  closed ← lift (mark_lemon_squeezy_webhook_processed timestamp claimed);
  mutate (put_inbox inbox_id closed);;
  market_commit.

Definition settle_refund (ids : TopUpIds) (inbox_id order_id : UUID) (i : inbox_row)
    (timestamp : datetime) : Market LemonSqueezyTopUpRefundResult :=
  amounts ← refund_amounts i order_id;
  let '(refunded, total) := amounts in
  claimed ← lift (claim_lemon_squeezy_webhook timestamp i);
  mutate (put_inbox inbox_id claimed);;
  if bool_decide (i_provider_status i = Some "partial_refund") && dec_ltb refunded total then
    close_processed inbox_id claimed timestamp;;
    mret {| rf_inbox_id := inbox_id; rf_order_id := order_id; rf_outcome := ROManualReview;
            rf_reversal_id := None; rf_replayed := false |}
  else
    webhook_require (bool_decide (i_provider_status i = Some "refunded") && dec_eqb refunded total)
      "top-up refund status conflicts with refunded amount evidence.";;
    r ← translate_reversal_error "top-up refund could not be reconciled safely."
          (reverse_subscription_top_up_in_uow (tid_reversal ids)
             {| rc_order_id := order_id; rc_provider_event_ref := provider_event_ref i;
                rc_reason_code := "provider_full_refund"; rc_reversed_at := timestamp |});
    close_processed inbox_id claimed timestamp;;
    mret {| rf_inbox_id := inbox_id; rf_order_id := order_id; rf_outcome := rr_outcome r;
            rf_reversal_id := Some (rr_reversal_id r); rf_replayed := rr_idempotent_replay r |}.

Definition process_refund_body (ids : TopUpIds) (inbox_id : UUID) (timestamp : datetime)
  : Market LemonSqueezyTopUpRefundResult :=
  found ← inbox_by_id inbox_id;
  i ← webhook_found found "top-up refund webhook inbox entry was not found.";
  order_id ← webhook_found (uuid_of_text (i_order_ref i)) "top-up refund order_ref must be a UUID.";
  if bool_decide (i_processing_status i = InProcessed) then replayed_refund inbox_id order_id i
  else settle_refund ids inbox_id order_id i timestamp.

Definition process_refund (ids : TopUpIds) (inbox_id : UUID) (processed_at : datetime) (db : MarketDb)
  : res LemonSqueezyTopUpRefundResult * MarketDb :=
  if naive processed_at
  then (raise LemonSqueezyWebhookError "processed_at must be timezone-aware.", db)
  else with_uow (process_refund_body ids inbox_id processed_at) db.

(** ** The endpoint *)

Inductive webhook_response :=
  | TopUpRefundResponse (replayed : bool) (refund : LemonSqueezyTopUpRefundResult)
  | TopUpResponse (replayed : bool) (top_up : LemonSqueezyTopUpProcessingResult)
  | ReconciliationResponse (replayed : bool) (decision : decision_row).

(** [except LemonSqueezyWebhookError as exc: raise HTTPException(...)]. *)
Definition http_error {A} (detail : string) (r : res A) : res A :=
  match r with
  | Raise (Exn LemonSqueezyWebhookError _) => raise HTTPException detail
  | _ => r
  end.

(** The drawings of a request: the identifiers of new rows and the clock of the step
    after the ingestion. *)
Record WebhookDraws := {
  wd_inbox : UUID;
  wd_process : ProcessIds;
  wd_top_up : TopUpIds;
  wd_now : datetime
}.

Section Endpoint.
Context `{WebhookPrimitives}.

(** The step after the ingestion of an entry: three units of work, by offer and event. *)
Definition dispatch_webhook (production_mode : bool) (d : WebhookDraws)
    (g : LemonSqueezyWebhookIngestionResult) (db : MarketDb) : res webhook_response * MarketDb :=
  if bool_decide (i_offer_ref (ig_entry g) = TOP_UP_OFFER_REF) then
    if bool_decide (i_event_name (ig_entry g) = "order_refunded") then
      let (r, db') := process_refund (wd_top_up d) (ig_id g) (wd_now d) db in
      (refund ← http_error "Top-up refund reconciliation failed." r;
       mret (TopUpRefundResponse (ig_replayed g || rf_replayed refund) refund), db')
    else
      let (r, db') := process_top_up (wd_top_up d) (ig_id g) (wd_now d) db in
      (top_up ← http_error "Top-up reconciliation failed." r;
       mret (TopUpResponse (ig_replayed g) top_up), db')
  else
    let (r, db') := process_reconciliation (load_context production_mode) (wd_process d) (ig_id g)
                      (wd_now d) db in
    (decision ← http_error "Webhook reconciliation failed." r;
     mret (ReconciliationResponse (ig_replayed g) (snd decision)), db').

Definition secure_lemon_squeezy_webhook (production_mode : bool) (d : WebhookDraws)
    (q : WebhookRequest) (db : MarketDb) : res webhook_response * MarketDb :=
  if MAX_BODY_BYTES <? Z.of_nat (String.length (wr_raw_body q))
  then (raise HTTPException "Webhook request is too large.", db)
  else
    let (r, db1) := ingest_request (wd_inbox d) q db in
    match http_error "Invalid webhook request." r with
    | Raise e => (Raise e, db1)
    | Ok g => dispatch_webhook production_mode d g db1
    end.
End Endpoint.
