(* ===== verification/LemonCheckout.v ===== *)
(** * Provider checkouts of the top-ups

    Models [lemon_squeezy_top_up_checkout.py] (a checkout is created at the provider
    between two units of work), [lemon_squeezy_top_up_checkout_recovery.py] (a checkout
    whose outcome is uncertain is found again) and [top_up_recovery_scan.py].  The
    provider is the outcome the creation is given, or the list of checkouts the recovery
    is given; each unit of work is a step of its own, so that other requests can run in
    between. *)
From S2P Require Import Prelude PyString PyDateTime PyDecimal PyText PyJson LemonWebhook PlanCatalog.
From S2P Require Import TopUpQuote Uow TopUpDb MarketDb TopUpOrder TopUpGrant.
From S2P Require Import LemonRuntime LemonTopUp.
From stdpp Require Import pretty.
#[local] Open Scope Z_scope.

Record LemonSqueezyCheckoutRequest := {
  cq_store_id : string;
  cq_variant_id : string;
  cq_customer_ref : string;
  cq_order_ref : string;
  cq_subtotal_usd : dec;
  cq_email : option string;
  cq_success_url : string
}.

Record LemonSqueezyCheckoutResponse := {
  cr_checkout_id : string;
  cr_url : string
}.

Record CreateTopUpCheckoutCommand := {
  cc_order_id : UUID;
  cc_customer_ref : string;
  cc_provider_variant_id : string;
  cc_store_id : string;
  cc_success_url : string;
  cc_email : option string
}.

Record CreateTopUpCheckoutResult := {
  ck_order_id : UUID;
  ck_checkout_id : string;
  ck_url : string;
  ck_provider_variant_id : string;
  ck_replayed : bool;
  ck_committed : bool
}.

Definition checkout_require (b : bool) (msg : string) : Market unit :=
  lift (ensure b LemonSqueezyTopUpCheckoutError msg).
Definition checkout_found {A} (x : option A) (msg : string) : Market A :=
  match x with Some a => mret a | None => throw LemonSqueezyTopUpCheckoutError msg end.

(** [value.isdigit() and int(value) > 0]. *)
Definition positive_numeric (value message : string) : res unit :=
  ensure (isdecimal value) ValueError message;;
  n ← int_of_digits value;
  ensure (0 <? n) ValueError message.

Definition validate_checkout (cmd : CreateTopUpCheckoutCommand) : res unit :=
  reject_if (blank (cc_customer_ref cmd)) ValueError "customer_ref must not be blank.";;
  positive_numeric (cc_provider_variant_id cmd)
    "provider_variant_id must be a positive numeric identifier.";;
  positive_numeric (cc_store_id cmd) "store_id must be a positive numeric identifier.";;
  reject_if (blank (cc_success_url cmd)) ValueError "success_url must not be blank.".

Definition is_https (url : string) : bool := startswith "https://" url.

Definition validate_provider_response (r : LemonSqueezyCheckoutResponse) : res unit :=
  ensure (is_some_b (uuid_of_text (cr_checkout_id r))) LemonSqueezyTopUpCheckoutError
    "provider checkout id is invalid.";;
  ensure (is_https (cr_url r)) LemonSqueezyTopUpCheckoutError "provider checkout URL is invalid.".

(** The checkout columns of an order. *)
Definition set_checkout (variant checkout : option string) (st : CheckoutCreationStatus)
    (o : CommercialTopUpOrder) : CommercialTopUpOrder :=
  {| o_account_id := o_account_id o; o_customer_ref := o_customer_ref o;
     o_subscription_id := o_subscription_id o; o_quota_cycle_id := o_quota_cycle_id o;
     o_plan_code := o_plan_code o; o_plan_catalog_version := o_plan_catalog_version o;
     o_requested_units := o_requested_units o; o_bundle_count := o_bundle_count o;
     o_total_price_usd := o_total_price_usd o;
     o_settlement_currency := o_settlement_currency o;
     o_settlement_amount := o_settlement_amount o;
     o_exchange_rate_usd_tnd := o_exchange_rate_usd_tnd o;
     o_exchange_rate_source := o_exchange_rate_source o;
     o_exchange_rate_reference := o_exchange_rate_reference o;
     o_exchange_rate_observed_at := o_exchange_rate_observed_at o;
     o_exchange_rate_expires_at := o_exchange_rate_expires_at o;
     o_channel := o_channel o; o_provider_variant_id := variant;
     o_provider_checkout_id := checkout; o_checkout_creation_status := st;
     o_idempotency_key := o_idempotency_key o; o_state := o_state o;
     o_created_at := o_created_at o |}.

(** ** The request to the provider *)

(** [_usd_to_cents]; the error class is the caller's. *)
Definition usd_to_cents (k : exn_class) (value : dec) : res Z :=
  normalized ← quantize ROUND_HALF_EVEN (-2) value;
  let cents := dec_mul normalized (dec_int 100) in
  ensure (is_integral cents && dec_ltb (dec_int 0) cents) k "top-up checkout amount is invalid.";;
  mret (if 0 <=? dexp cents then coef cents * 10 ^ dexp cents else coef cents / 10 ^ (- dexp cents)).


Definition build_lemon_squeezy_checkout_payload (r : LemonSqueezyCheckoutRequest) : res json :=
  cents ← usd_to_cents LemonSqueezyTopUpCheckoutError (cq_subtotal_usd r);
  variant ← int_of_digits (cq_variant_id r);
  let custom := JObj [ ("customer_ref", JStr (cq_customer_ref r));
                       ("order_ref", JStr (cq_order_ref r));
                       ("offer_ref", JStr TOP_UP_OFFER_REF) ] in
  let checkout_data := ("custom", custom) ::
    (if match cq_email r with Some e => nonempty e | None => false end then [("email", JStr (default "" (cq_email r)))] else []) in
  mret (JObj [ ("data", JObj
    [ ("type", JStr "checkouts");
      ("attributes", JObj
        [ ("custom_price", JInt cents);
          ("product_options", JObj [ ("redirect_url", JStr (cq_success_url r));
                                     ("enabled_variants", JArr [JInt variant]) ]);
          ("checkout_options", JObj [ ("embed", JBool false); ("media", JBool false);
                                      ("logo", JBool true) ]);
          ("checkout_data", JObj checkout_data);
          ("expires_at", JNull);
          ("preview", JBool false) ]);
      ("relationships", JObj
        [ ("store", JObj [ ("data", JObj [ ("type", JStr "stores"); ("id", JStr (cq_store_id r)) ]) ]);
          ("variant", JObj [ ("data", JObj [ ("type", JStr "variants");
                                             ("id", JStr (cq_variant_id r)) ]) ]) ]) ]) ]).

(** ** Creation: the steps *)

(** The first unit of work: the order is bound to the variant and marked as being
    created; the price to ask is read. *)
Definition begin_checkout_body (cmd : CreateTopUpCheckoutCommand) : Market dec :=
  found ← order_by_id (cc_order_id cmd);
  order ← checkout_found found "top-up order was not found.";
  checkout_require (bool_decide (o_customer_ref order = cc_customer_ref cmd))
    "top-up checkout customer conflicts with the order.";;
  checkout_require (bool_decide (o_channel order = LEMON_SQUEEZY))
    "top-up order is not assigned to Lemon Squeezy.";;
  checkout_require (bool_decide (o_plan_catalog_version order = PLAN_FULFILLMENT_CATALOG_VERSION))
    "top-up order catalog snapshot is stale.";;
  checkout_require (bool_decide (o_state order = AWAITING_PAYMENT))
    "top-up order is not awaiting payment.";;
  match o_checkout_creation_status order with
  | CkReady =>
      checkout_require (bool_decide (o_provider_variant_id order = Some (cc_provider_variant_id cmd)))
        "checkout replay conflicts with the bound variant.";;
      checkout_require (match o_provider_checkout_id order with Some c => nonempty c | None => false end)
        "ready checkout is missing provider checkout id.";;
      throw LemonSqueezyTopUpCheckoutError
        "checkout already exists; retrieve it from the provider instead of creating another."
  | CkCreating | CkUncertain =>
      throw LemonSqueezyTopUpCheckoutError
        "checkout creation state is uncertain; reconciliation is required."
  | CkNotStarted =>
      mutate (put_order (cc_order_id cmd)
                (set_checkout (Some (cc_provider_variant_id cmd)) (o_provider_checkout_id order)
                   CkCreating order));;
      market_commit;;
      mret (o_total_price_usd order)
  end.

Definition begin_checkout (cmd : CreateTopUpCheckoutCommand) (db : MarketDb) : res dec * MarketDb :=
  match validate_checkout cmd with
  | Raise e => (Raise e, db)
  | Ok _ => with_uow (begin_checkout_body cmd) db
  end.

(** The unit of work after a failed call: the outcome at the provider is uncertain. *)
Definition uncertain_checkout_body (order_id : UUID) : Market unit :=
  found ← order_by_id order_id;
  match found with
  | Some order =>
      if bool_decide (o_checkout_creation_status order = CkCreating) then
        mutate (put_order order_id
                  (set_checkout (o_provider_variant_id order) (o_provider_checkout_id order)
                     CkUncertain order));;
        market_commit
      else mret tt
  | None => mret tt
  end.

(** The unit of work after a response. *)
Definition ready_checkout_body (cmd : CreateTopUpCheckoutCommand) (r : LemonSqueezyCheckoutResponse)
  : Market unit :=
  found ← order_by_id (cc_order_id cmd);
  order ← checkout_found found "top-up order disappeared after checkout.";
  checkout_require (bool_decide (o_customer_ref order = cc_customer_ref cmd) &&
                    bool_decide (o_provider_variant_id order = Some (cc_provider_variant_id cmd)) &&
                    bool_decide (o_checkout_creation_status order = CkCreating))
    "top-up order changed while checkout was being created.";;
  mutate (put_order (cc_order_id cmd)
            (set_checkout (o_provider_variant_id order) (Some (cr_checkout_id r)) CkReady order));;
  market_commit.

(** The step after the provider's answer, [None] where the call raised. *)
Definition finish_checkout (cmd : CreateTopUpCheckoutCommand)
    (answer : option LemonSqueezyCheckoutResponse) (db : MarketDb)
  : res CreateTopUpCheckoutResult * MarketDb :=
  match answer with
  | None =>
      let (r, db') := with_uow (uncertain_checkout_body (cc_order_id cmd)) db in
      (r;; raise LemonSqueezyTopUpCheckoutError
             "payment provider checkout creation outcome is uncertain.", db')
  | Some response =>
      match validate_provider_response response with
      | Raise e => (Raise e, db)
      | Ok _ =>
          let (r, db') := with_uow (ready_checkout_body cmd response) db in
          (r;; mret {| ck_order_id := cc_order_id cmd; ck_checkout_id := cr_checkout_id response;
                       ck_url := cr_url response;
                       ck_provider_variant_id := cc_provider_variant_id cmd;
                       ck_replayed := false; ck_committed := true |}, db')
      end
  end.

Definition checkout_request (cmd : CreateTopUpCheckoutCommand) (subtotal : dec)
  : LemonSqueezyCheckoutRequest :=
  {| cq_store_id := cc_store_id cmd; cq_variant_id := cc_provider_variant_id cmd;
     cq_customer_ref := cc_customer_ref cmd; cq_order_ref := cc_order_id cmd;
     cq_subtotal_usd := subtotal;
     cq_email := match cc_email cmd with Some e => if nonempty e then Some (strip e) else None
                                       | None => None end;
     cq_success_url := cc_success_url cmd |}.

(** The whole creation, when no other request runs during the call. *)
Definition create_checkout
    (creator : LemonSqueezyCheckoutRequest -> option LemonSqueezyCheckoutResponse)
    (cmd : CreateTopUpCheckoutCommand) (db : MarketDb) : res CreateTopUpCheckoutResult * MarketDb :=
  match begin_checkout cmd db with
  | (Raise e, db1) => (Raise e, db1)
  | (Ok subtotal, db1) => finish_checkout cmd (creator (checkout_request cmd subtotal)) db1
  end.

(** ** Recovery *)

(** [cd_custom] is the custom data of the checkout, as JSON pairs. *)
Record LemonSqueezyCheckoutCandidate := {
  cd_checkout_id : string;
  cd_url : string;
  cd_store_id : string;
  cd_variant_id : string;
  cd_custom_price : Z;
  cd_custom : list (string * json)
}.

Record RecoverTopUpCheckoutCommand := {
  rcv_order_id : UUID;
  rcv_customer_ref : string;
  rcv_store_id : string;
  rcv_provider_variant_id : string
}.

Record RecoverTopUpCheckoutResult := {
  rv_order_id : UUID;
  rv_checkout_id : string;
  rv_url : string;
  rv_recovered : bool;
  rv_committed : bool
}.

Definition recovery_require (b : bool) (msg : string) : Market unit :=
  lift (ensure b LemonSqueezyTopUpCheckoutRecoveryError msg).
Definition recovery_found {A} (x : option A) (msg : string) : Market A :=
  match x with Some a => mret a | None => throw LemonSqueezyTopUpCheckoutRecoveryError msg end.

Definition validate_recovery (cmd : RecoverTopUpCheckoutCommand) : res unit :=
  reject_if (blank (rcv_customer_ref cmd)) ValueError "customer_ref must not be blank.";;
  positive_numeric (rcv_store_id cmd) "store_id must be a positive numeric identifier.";;
  positive_numeric (rcv_provider_variant_id cmd)
    "provider_variant_id must be a positive numeric identifier.".

Definition recoverable_order (cmd : RecoverTopUpCheckoutCommand) (absent : string)
  : Market CommercialTopUpOrder :=
  found ← order_by_id (rcv_order_id cmd);
  order ← recovery_found found absent;
  recovery_require (bool_decide (o_customer_ref order = rcv_customer_ref cmd))
    "top-up checkout customer conflicts with the order.";;
  recovery_require (bool_decide (o_channel order = LEMON_SQUEEZY) &&
                    bool_decide (o_state order = AWAITING_PAYMENT))
    "top-up order is not recoverable through Lemon Squeezy.";;
  recovery_require (bool_decide (o_plan_catalog_version order = PLAN_FULFILLMENT_CATALOG_VERSION))
    "top-up order catalog snapshot is stale.";;
  recovery_require (bool_decide (o_provider_variant_id order = Some (rcv_provider_variant_id cmd)))
    "top-up checkout variant conflicts with the order.";;
  mret order.

(** The first unit of work, which only reads: a checkout already bound, or the price of
    the one to find. *)
Definition begin_recovery_body (cmd : RecoverTopUpCheckoutCommand)
  : Market (RecoverTopUpCheckoutResult + Z) :=
  order ← recoverable_order cmd "top-up order was not found.";
  match o_checkout_creation_status order with
  | CkReady =>
      checkout ← recovery_found (o_provider_checkout_id order)
                   "ready top-up checkout is missing provider checkout id.";
      recovery_require (nonempty checkout) "ready top-up checkout is missing provider checkout id.";;
      mret (inl {| rv_order_id := rcv_order_id cmd; rv_checkout_id := checkout; rv_url := "";
                   rv_recovered := false; rv_committed := false |})
  | CkCreating | CkUncertain =>
      cents ← lift (usd_to_cents LemonSqueezyTopUpCheckoutRecoveryError (o_total_price_usd order));
      mret (inr cents)
  | CkNotStarted => throw LemonSqueezyTopUpCheckoutRecoveryError
                      "top-up checkout is not eligible for recovery."
  end.

(** [str(v or "")]; the text of a list or an object that is not empty is no reference. *)
Definition text_or_empty (v : json) : option string :=
  if truthy v then
    match v with
    | JStr s => Some s
    | JInt n => Some (pretty n)
    | JBool _ => Some "True"
    | JFloat t => Some t
    | JNull => Some ""
    | JArr _ | JObj _ => None
    end
  else Some "".
Definition custom_text (custom : list (string * json)) (k expected : string) : bool :=
  bool_decide (text_or_empty (jget custom k) = Some expected).

Definition candidate_matches (cmd : RecoverTopUpCheckoutCommand) (expected_cents : Z)
    (c : LemonSqueezyCheckoutCandidate) : bool :=
  bool_decide (cd_store_id c = rcv_store_id cmd) &&
  bool_decide (cd_variant_id c = rcv_provider_variant_id cmd) &&
  (cd_custom_price c =? expected_cents) &&
  custom_text (cd_custom c) "customer_ref" (rcv_customer_ref cmd) &&
  custom_text (cd_custom c) "order_ref" (rcv_order_id cmd) &&
  custom_text (cd_custom c) "offer_ref" TOP_UP_OFFER_REF.

(** The one candidate that matches. *)
Definition authoritative_match (cmd : RecoverTopUpCheckoutCommand) (expected_cents : Z)
    (candidates : list LemonSqueezyCheckoutCandidate) : res LemonSqueezyCheckoutCandidate :=
  match List.filter (candidate_matches cmd expected_cents) candidates with
  | [m] =>
      ensure (is_some_b (uuid_of_text (cd_checkout_id m))) LemonSqueezyTopUpCheckoutRecoveryError
        "recovered provider checkout id is invalid.";;
      ensure (is_https (cd_url m)) LemonSqueezyTopUpCheckoutRecoveryError
        "recovered provider checkout URL is invalid.";;
      mret m
  | _ => raise LemonSqueezyTopUpCheckoutRecoveryError
           "provider checkout recovery requires exactly one authoritative match."
  end.

(** The last unit of work: the order is bound to the checkout found. *)
Definition finish_recovery_body (cmd : RecoverTopUpCheckoutCommand) (m : LemonSqueezyCheckoutCandidate)
  : Market RecoverTopUpCheckoutResult :=
  order ← recoverable_order cmd "top-up order disappeared during recovery.";
  let result recovered := {| rv_order_id := rcv_order_id cmd; rv_checkout_id := cd_checkout_id m;
                             rv_url := cd_url m; rv_recovered := recovered;
                             rv_committed := recovered |} in
  match o_checkout_creation_status order with
  | CkReady =>
      recovery_require (bool_decide (o_provider_checkout_id order = Some (cd_checkout_id m)))
        "top-up checkout was rebound to a different provider checkout.";;
      mret (result false)
  | CkCreating | CkUncertain =>
      mutate (put_order (rcv_order_id cmd)
                (set_checkout (o_provider_variant_id order) (Some (cd_checkout_id m)) CkReady order));;
      market_commit;;
      mret (result true)
  | CkNotStarted => throw LemonSqueezyTopUpCheckoutRecoveryError
                      "top-up checkout state changed during recovery."
  end.

Definition finish_recovery (cmd : RecoverTopUpCheckoutCommand) (expected_cents : Z)
    (candidates : list LemonSqueezyCheckoutCandidate) (db : MarketDb)
  : res RecoverTopUpCheckoutResult * MarketDb :=
  match authoritative_match cmd expected_cents candidates with
  | Raise e => (Raise e, db)
  | Ok m => with_uow (finish_recovery_body cmd m) db
  end.

Definition recover_checkout
    (finder : string -> string -> list LemonSqueezyCheckoutCandidate)
    (cmd : RecoverTopUpCheckoutCommand) (db : MarketDb) : res RecoverTopUpCheckoutResult * MarketDb :=
  match validate_recovery cmd with
  | Raise e => (Raise e, db)
  | Ok _ =>
      match with_uow (begin_recovery_body cmd) db with
      | (Raise e, db1) => (Raise e, db1)
      | (Ok (inl r), db1) => (Ok r, db1)
      | (Ok (inr cents), db1) =>
          finish_recovery cmd cents (finder (rcv_store_id cmd) (rcv_provider_variant_id cmd)) db1
      end
  end.

(** ** The recovery scan *)

Inductive recovery_kind := CheckoutRecovery | GrantRecovery | ReversalReview.

Record TopUpRecoveryCandidate := {
  rk_kind : recovery_kind;
  rk_order_id : UUID;
  rk_reference : string;
  rk_reason_code : string
}.

Definition bounded_limit (limit : Z) : Z := Z.max 1 (Z.min limit 500).

(** Rows sorted by a time and the primary key. *)
Definition row_before {R} (at_ : R -> datetime) (a b : UUID * R) : Prop :=
  instant (at_ a.2) < instant (at_ b.2) \/
  instant (at_ a.2) = instant (at_ b.2) /\ String.leb a.1 b.1 = true.
#[global] Instance row_before_dec {R} (at_ : R -> datetime) : RelDecision (row_before at_).
Proof. intros a b. unfold row_before. apply _. Defined.

Definition list_recovery_candidates (limit : Z) : Market (list (UUID * CommercialTopUpOrder)) :=
  query (fun db => take (Z.to_nat (bounded_limit limit))
    (merge_sort (row_before o_created_at)
      (find_rows (fun o => bool_decide (o_checkout_creation_status o = CkUncertain) ||
                           bool_decide (o_state o = PAYMENT_VERIFIED)) (tu_orders (db_top_ups db))))).
Definition list_manual_review (limit : Z) : Market (list (UUID * AdminMarketSubscriptionTopUpReversal)) :=
  query (fun db => take (Z.to_nat (bounded_limit limit))
    (merge_sort (row_before v_reversed_at)
      (find_rows (fun v => bool_decide (v_outcome v = ROManualReview)) (tu_reversals (db_top_ups db))))).

Definition channel_text (c : TopUpCheckoutChannel) : string :=
  match c with LEMON_SQUEEZY => "lemon_squeezy" | LOCAL_TUNISIA => "local_tunisia" end.

Definition order_candidates (row : UUID * CommercialTopUpOrder) : list TopUpRecoveryCandidate :=
  let (id, o) := row in
  (if bool_decide (o_checkout_creation_status o = CkUncertain)
   then [{| rk_kind := CheckoutRecovery; rk_order_id := id;
            rk_reference := or_string (o_provider_variant_id o) "unbound";
            rk_reason_code := "checkout_creation_uncertain" |}] else []) ++
  (if bool_decide (o_state o = PAYMENT_VERIFIED)
   then [{| rk_kind := GrantRecovery; rk_order_id := id; rk_reference := channel_text (o_channel o);
            rk_reason_code := "verified_payment_without_grant" |}] else []).

Definition reversal_candidate (row : UUID * AdminMarketSubscriptionTopUpReversal)
  : TopUpRecoveryCandidate :=
  {| rk_kind := ReversalReview; rk_order_id := v_order_id row.2;
     rk_reference := v_provider_event_ref row.2; rk_reason_code := v_reason_code row.2 |}.

Definition scan_top_up_recovery_candidates (limit : Z) : Market (list TopUpRecoveryCandidate) :=
  let bound := bounded_limit limit in
  orders ← list_recovery_candidates bound;
  let candidates := List.concat (map order_candidates orders) in
  let remaining := Z.max 0 (bound - Z.of_nat (length candidates)) in
  all ← (if remaining =? 0 then mret candidates
         else
           reversals ← list_manual_review remaining;
           mret (candidates ++ map reversal_candidate reversals));
  mret (take (Z.to_nat bound) all).
