(* ===== verification/MarketFrames.v ===== *)
(** * What the requests leave alone

    The parts of the marketplace database each group of requests never changes: provider
    events and expiry sweeps, and the requests of the top-ups; and that a body commits
    at its end only. *)
From S2P Require Import Prelude PyString PyDateTime PyDecimal MaestroUnits PlanCatalog.
From S2P Require Import BillingPeriod Uow MarketDb QuotaUsage.
From S2P Require Import QuotaUsage Delinquency.
From S2P Require Import TopUpQuote TopUpDb TopUpOrder TopUpGrant TopUpSpec LemonRuntime.

Section MarketFrames.
Implicit Types (db : MarketDb) (c : AdminMarketSubscriptionQuotaCycle).

(** ** Frames *)

(** Everything of a cycle but the state of its rollover balance and its version. *)
Definition cycle_core c :=
  ((c_subscription_id c, c_source_cycle_id c, c_customer_ref c, c_plan_code c,
    c_plan_catalog_version c, c_entitlement_codes c, c_quota_profile_ref c),
   (c_metric_code c, c_period_start c, c_period_end c, c_base_limit_units c,
    c_rollover_units c, c_top_up_units c, c_used_units c)).

(** What a subscription was sold as. *)
Definition subscription_core (s : AdminMarketSubscription) :=
  (s_subscription_ref s, s_customer_ref s, s_order_id s, s_offer_id s, s_plan_id s).

(** Provider events and expiry sweeps leave the plans, the ledger and the balances
    alone, and never touch a cycle whose rollover has expired. *)
Record frame db db' : Prop := {
  frame_usages : db_usages db' = db_usages db;
  frame_plans : db_plans db' = db_plans db;
  frame_top_ups : db_top_ups db' = db_top_ups db;
  frame_subscriptions : forall id,
    subscription_core <$> db_subscriptions db' !! id = subscription_core <$> db_subscriptions db !! id;
  frame_cycles : forall id, cycle_core <$> db_cycles db' !! id = cycle_core <$> db_cycles db !! id;
  frame_expired : forall id c, db_cycles db !! id = Some c -> c_rollover_status c = RoExpired ->
    db_cycles db' !! id = Some c;
  frame_provider : db_provider db' = db_provider db;
  frame_sales : db_sales db' = db_sales db
}.

#[global] Instance frame_preorder : PreOrder frame.
Proof.
  split.
  - by intros db; split.
  - intros a b c [H1 H2 H5 H7 H3 H4 H6 H8] [K1 K2 K5 K7 K3 K4 K6 K8].
    split; [congruence..| | |auto|congruence|congruence]; intros id; [by rewrite K7|by rewrite K3].
Qed.

Lemma frame_put_subscription id r r' db :
  db_subscriptions db !! id = Some r -> subscription_core r' = subscription_core r ->
  frame db (put_subscription id r' db).
Proof.
  intros Hr Hc. split; try done. intros k. cbn. destruct (decide (id = k)) as [<-|].
  - rewrite lookup_insert_eq Hr. cbn. by rewrite Hc.
  - by rewrite lookup_insert_ne.
Qed.
Lemma frame_put_runtime id r db : frame db (put_runtime id r db).
Proof. by split. Qed.
Lemma frame_put_delinquency id r db : frame db (put_delinquency id r db).
Proof. by split. Qed.
Lemma frame_put_transition id r db : frame db (put_transition id r db).
Proof. by split. Qed.

(** A step of a loop that only touches the rollover state. *)
Definition rollover_step
    (step : AdminMarketSubscriptionQuotaCycle -> res (option AdminMarketSubscriptionQuotaCycle))
  : Prop := forall c c', step c = Ok (Some c') -> cycle_core c' = cycle_core c.

Lemma frame_each_cycle step sid :
  rollover_step step ->
  relates frame (cycles ← list_rollover_cycles sid; each_cycle step cycles).
Proof.
  intros Hstep s a s' (cs' & -> & Hu)%each_cycle_query. split; try done.
  - intros id. cbn. specialize (Hu id).
    destruct (db_cycles (working s) !! id) as [c|]; [|by rewrite Hu].
    destruct (rollover_cycle_of sid c); [|by rewrite Hu].
    destruct Hu as ([c'|] & Hx & ->); cbn; [|done]. by rewrite (Hstep _ _ Hx).
  - intros id c Hc He. cbn. specialize (Hu id). rewrite Hc in Hu.
    unfold rollover_cycle_of in Hu. rewrite (bool_decide_eq_true_2 _ He) andb_false_r in Hu. done.
Qed.

Lemma lock_step_core eff ex : rollover_step (lock_step eff ex).
Proof.
  intros c c'. unfold lock_step. destruct (c_rollover_status c); try done.
  - intros H. injection H as <-. done.
  - destruct (dt_opt_eqb _ _); done.
  - intros H. injection H as <-. done.
Qed.

Lemma payment_step_core t : rollover_step (payment_step t).
Proof.
  intros c c'. unfold payment_step. destruct (negb _); [done|].
  intros (e & _ & (b & _ & H)%res_bind_Ok)%res_bind_Ok. injection H as <-. by destruct b.
Qed.

Lemma overdue_step_core t : rollover_step (overdue_step t).
Proof.
  intros c c'. unfold overdue_step. destruct (negb _); [done|].
  intros (e & _ & (b & _ & H)%res_bind_Ok)%res_bind_Ok. destruct b; [done|]. by injection H as <-.
Qed.

Lemma relates_add_row {R} (get : MarketDb -> Table R) put id r :
  (forall db, frame db (put id r db)) -> relates frame (add_row get put id r).
Proof.
  intros Hp s a s' [(_ & _ & ->)|[[e ?] _]]%add_row_cases; [apply Hp|done].
Qed.

Lemma frame_lock sid eff ex : relates frame (lock_rollover_for_delinquency sid eff ex).
Proof.
  unfold lock_rollover_for_delinquency.
  apply (relates_bind frame); [by apply (relates_read_only frame)|intros _].
  apply frame_each_cycle, lock_step_core.
Qed.

Lemma frame_payment sid t : relates frame (restore_or_expire_rollover_after_payment sid t).
Proof.
  unfold restore_or_expire_rollover_after_payment.
  apply (relates_bind frame); [by apply (relates_read_only frame)|intros _].
  apply frame_each_cycle, payment_step_core.
Qed.

Lemma frame_overdue sid t : relates frame (expire_overdue_rollover sid t).
Proof.
  unfold expire_overdue_rollover.
  apply (relates_bind frame); [by apply (relates_read_only frame)|intros _].
  apply frame_each_cycle, overdue_step_core.
Qed.

Ltac frame_body :=
  lazymatch goal with
  | |- relates _ (_ ≫= _) => apply (relates_bind frame); [frame_body|intros ?; frame_body]
  | |- relates _ (if ?b then _ else _) => destruct b; frame_body
  | |- relates _ (match ?x with _ => _ end) => destruct x; frame_body
  | |- relates _ (mutate _) =>
      apply relates_mutate; intros ?;
      first [apply frame_put_runtime
            | apply frame_put_delinquency | apply frame_put_transition]
  | |- relates _ (lock_rollover_for_delinquency _ _ _) => apply frame_lock
  | |- relates _ (restore_or_expire_rollover_after_payment _ _) => apply frame_payment
  | |- relates _ (add_delinquency _ _) => apply relates_add_row; apply frame_put_delinquency
  | |- relates _ (add_transition _ _) => apply relates_add_row; apply frame_put_transition
  | |- _ => apply (relates_read_only frame); done
  end.

Lemma frame_failure id sid customer t : relates frame (apply_payment_failure id sid customer t).
Proof. unfold apply_payment_failure. frame_body. Qed.

Lemma frame_resolve sid customer t : relates frame (resolve_payment_delinquency sid customer t).
Proof. unfold resolve_payment_delinquency. frame_body. Qed.

Lemma frame_event id ev sid customer t : relates frame (event_delinquency id ev sid customer t).
Proof.
  unfold event_delinquency. repeat case_match.
  - apply (relates_bind frame); [apply frame_failure|intros ?; frame_body].
  - apply (relates_bind frame); [apply frame_resolve|intros ?; frame_body].
  - frame_body.
Qed.

Lemma frame_lifecycle b i : relates frame (apply_lemon_squeezy_subscription_lifecycle b i).
Proof.
  intros s a s' H. unfold apply_lemon_squeezy_subscription_lifecycle, webhook_found in H.
  destruct (dict_get _ _) as [target|]; [|by injection H as <- <-].
  destruct (b_subscription_id b) as [sid|]; [|done]. rewrite bind_ret in H.
  unfold subscription_by_id in H. rewrite bind_query in H.
  destruct (db_subscriptions (working s) !! sid) as [r|] eqn:Er; [|done]. rewrite bind_ret in H.
  apply M_bind_Ok in H as (? & ? & [_ <-]%lift_Ok & H).
  apply M_bind_Ok in H as (? & ? & [_ <-]%lift_Ok & H).
  destruct (aware_opt _) as [t|]; [|done]. rewrite bind_ret in H. injection H as <- <-.
  by apply (frame_put_subscription sid r).
Qed.

Lemma frame_runtime_access did tid b sid s i dec :
  relates frame (apply_lemon_squeezy_runtime_access did tid b sid s i dec).
Proof.
  unfold apply_lemon_squeezy_runtime_access, webhook_found.
  destruct (target_stage _ _) as [target|]; [|frame_body].
  apply (relates_bind frame); [frame_body|intros [?|]; [frame_body|]].
  do 7 (apply (relates_bind frame); [frame_body|intros ?]).
  apply (relates_bind frame); [apply frame_event|intros ?]. frame_body.
Qed.

(** ** No commit before the end *)

Lemma no_commit_add_row {R} (get : MarketDb -> Table R) put id r : no_commit (add_row get put id r).
Proof. unfold add_row. never_commits. Qed.
Lemma no_commit_runtime_by_subscription sid : no_commit (runtime_by_subscription sid).
Proof. done. Qed.
Hint Resolve no_commit_add_row : maestro.

Lemma no_commit_lock sid eff ex : no_commit (lock_rollover_for_delinquency sid eff ex).
Proof. unfold lock_rollover_for_delinquency. never_commits. Qed.
Lemma no_commit_payment sid t : no_commit (restore_or_expire_rollover_after_payment sid t).
Proof. unfold restore_or_expire_rollover_after_payment. never_commits. Qed.
Lemma no_commit_overdue sid t : no_commit (expire_overdue_rollover sid t).
Proof. unfold expire_overdue_rollover. never_commits. Qed.
Hint Resolve no_commit_lock no_commit_payment no_commit_overdue : maestro.

Lemma no_commit_failure id sid customer t : no_commit (apply_payment_failure id sid customer t).
Proof. unfold apply_payment_failure, add_delinquency. never_commits. Qed.
Lemma no_commit_resolve sid customer t : no_commit (resolve_payment_delinquency sid customer t).
Proof. unfold resolve_payment_delinquency. never_commits. Qed.
Hint Resolve no_commit_failure no_commit_resolve : maestro.

Lemma no_commit_lifecycle b i : no_commit (apply_lemon_squeezy_subscription_lifecycle b i).
Proof. unfold apply_lemon_squeezy_subscription_lifecycle, webhook_found. never_commits. Qed.
Lemma no_commit_runtime_access did tid b sid s i dec :
  no_commit (apply_lemon_squeezy_runtime_access did tid b sid s i dec).
Proof.
  unfold apply_lemon_squeezy_runtime_access, webhook_found, event_delinquency, add_transition.
  never_commits.
Qed.

(** A request of this kind either leaves the database as it is, or commits within the
    frame; the tables of the provider are its own. *)
Definition core_step db db' : Prop :=
  db' = db \/ market_constraints db' = Ok tt /\ frame (put_provider (fun _ => db_provider db') db) db'.

Lemma core_step_frame db db' : market_constraints db' = Ok tt -> frame db db' -> core_step db db'.
Proof. intros Hk []. right. split; [done|]. by split. Qed.

Lemma core_step_provider f db :
  market_constraints (put_provider f db) = Ok tt -> core_step db (put_provider f db).
Proof. intros Hk. right. split; [done|]. by split. Qed.

(** ** Requests of the top-ups *)

(** Everything of a cycle but its top-up units and its version. *)
Definition cycle_rest c :=
  ((c_subscription_id c, c_source_cycle_id c, c_customer_ref c, c_plan_code c,
    c_plan_catalog_version c, c_entitlement_codes c, c_quota_profile_ref c),
   (c_metric_code c, c_period_start c, c_period_end c, c_base_limit_units c,
    c_rollover_units c, c_used_units c),
   (c_rollover_status c, c_rollover_expires_at c, c_rollover_locked_at c,
    c_rollover_restored_at c, c_rollover_expired_at c)).

(** They change the tables of the top-ups and the top-up units of cycles only. *)
Record top_up_frame db db' : Prop := {
  tf_plans : db_plans db' = db_plans db;
  tf_subscriptions : db_subscriptions db' = db_subscriptions db;
  tf_runtimes : db_runtimes db' = db_runtimes db;
  tf_delinquencies : db_delinquencies db' = db_delinquencies db;
  tf_usages : db_usages db' = db_usages db;
  tf_transitions : db_transitions db' = db_transitions db;
  tf_sales : db_sales db' = db_sales db;
  tf_cycles : forall id, cycle_rest <$> db_cycles db' !! id = cycle_rest <$> db_cycles db !! id
}.

#[global] Instance top_up_frame_preorder : PreOrder top_up_frame.
Proof.
  split; [by intros db; split|]. intros a b c [] []. split; try congruence.
Qed.

Lemma top_up_frame_tables f db : top_up_frame db (put_top_ups f db).
Proof. by split. Qed.

Lemma top_up_frame_provider f db : top_up_frame db (put_provider f db).
Proof. by split. Qed.

Lemma top_up_frame_cycle id n c db :
  db_cycles db !! id = Some c -> top_up_frame db (put_cycle id (set_top_up_units n c) db).
Proof.
  intros Hc. split; try done. intros k. cbn. destruct (decide (id = k)) as [<-|].
  - by rewrite lookup_insert_eq Hc.
  - by rewrite lookup_insert_ne.
Qed.

Lemma top_up_frame_granted gid g o c db :
  db_cycles db !! g_quota_cycle_id g = Some c -> top_up_frame db (granted_db gid g o c db).
Proof.
  intros Hc. unfold granted_db, put_order. etrans; [|apply top_up_frame_tables].
  etrans; [apply (top_up_frame_tables (tu_put_grant gid g))|]. by apply top_up_frame_cycle.
Qed.

Lemma top_up_frame_reversed vid v g c db :
  db_cycles db !! g_quota_cycle_id g = Some c -> top_up_frame db (reversed_db vid v g c db).
Proof.
  intros Hc. unfold reversed_db. etrans; [apply (top_up_frame_tables (tu_put_reversal vid v))|].
  case_match; [by apply top_up_frame_cycle|done].
Qed.

Lemma top_up_frame_with_payment k p db : top_up_frame db (with_payment k p db).
Proof. destruct p; [apply top_up_frame_tables|done]. Qed.

(** A request either leaves the database as it is, or commits within the frame. *)
Definition top_up_step db db' : Prop :=
  db' = db \/ market_constraints db' = Ok tt /\ top_up_frame db db'.

Lemma create_order_step resolver provider cmd db :
  top_up_step db (snd (create_order resolver provider cmd db)).
Proof.
  destruct (create_order _ _ _ _) as [r db'] eqn:E. apply create_order_outcome in E.
  destruct E as [| |o Hn Hk]; [by left|by left|right]. split; [done|apply top_up_frame_tables].
Qed.

Lemma grant_step new_id cmd db : top_up_step db (snd (grant new_id cmd db)).
Proof.
  destruct (grant _ _ _) as [r db'] eqn:E. cbn.
  apply grant_cases in E as [[_ ->]|[(id & g & _ & -> & _)|(g & o & c & _ & Hn & _ & _ & -> & Hk)]];
    [by left|by left|right].
  split; [done|]. apply top_up_frame_granted, (gn_cycle _ _ _ _ _ Hn).
Qed.

Lemma verify_local_step pid gid cmd db : top_up_step db (snd (verify_local pid gid cmd db)).
Proof.
  destruct (verify_local _ _ _ _) as [r db'] eqn:E. cbn. apply verify_local_outcome in E.
  destruct E as [e|id g o r0|o p g c a r0 db1 db' Ho _ _ _ _ _ Hdb1 Hn _ _ _ -> Hk _ _ _];
    [by left|by left|right]. split; [done|].
  etrans; [|apply top_up_frame_granted, (gn_cycle _ _ _ _ _ Hn)].
  rewrite Hdb1. case_bool_decide; [|apply top_up_frame_with_payment].
  etrans; [apply top_up_frame_with_payment|apply top_up_frame_tables].
Qed.

Lemma reverse_step new_id cmd db : top_up_step db (snd (reverse new_id cmd db)).
Proof.
  destruct (reverse _ _ _) as [r db'] eqn:E. cbn. apply reverse_outcome in E.
  destruct E as [e|id v|v g c Hn _ _ _ Hk]; [by left|by left|right].
  split; [done|]. apply top_up_frame_reversed, (rn_cycle _ _ _ _ _ Hn).
Qed.

Lemma top_up_frame_cycle_inv db db' id c' :
  top_up_frame db db' -> db_cycles db' !! id = Some c' ->
  exists c, db_cycles db !! id = Some c /\ cycle_rest c' = cycle_rest c.
Proof.
  intros Hf Hc. pose proof (tf_cycles _ _ Hf id) as H. rewrite Hc in H.
  destruct (db_cycles db !! id) as [c|]; [|discriminate H]. injection H. intros. exists c.
  split; [done|]. unfold cycle_rest. congruence.
Qed.

Lemma top_up_frame_cycle_kept db db' id c :
  top_up_frame db db' -> db_cycles db !! id = Some c ->
  exists c', db_cycles db' !! id = Some c' /\ cycle_rest c' = cycle_rest c.
Proof.
  intros Hf Hc. pose proof (tf_cycles _ _ Hf id) as H. rewrite Hc in H.
  destruct (db_cycles db' !! id) as [c'|]; [|discriminate H]. injection H. intros. exists c'.
  split; [done|]. unfold cycle_rest. congruence.
Qed.

End MarketFrames.

#[export] Hint Resolve no_commit_add_row no_commit_lock no_commit_payment no_commit_overdue
  no_commit_failure no_commit_resolve no_commit_lifecycle no_commit_runtime_access : maestro.
