(* ===== verification/LemonSpec.v ===== *)
(** * What the webhook requests promise

    The effect of each request of the provider on the database: ingestion, the binding of
    an order, the reconciliation of an entry, a paid top-up and a refund; each a case
    analysis that the bodies of [LemonInbox], [LemonProcess] and
    [LemonTopUp] are proved to follow. *)
From S2P Require Import Prelude PyString PyDecimal PyDateTime TopUpQuote PyText PyJson Uow TopUpDb LemonWebhook MarketDb CommerceAudit Delinquency TopUpOrder TopUpGrant TopUpSpec LemonRuntime LemonInbox LemonProcess LemonTopUp MarketFrames.
#[local] Open Scope Z_scope.

Notation inbox db := (pv_inbox (db_provider db)).
Notation decisions db := (pv_decisions (db_provider db)).
Notation bindings db := (pv_bindings (db_provider db)).
Notation customers db := (pv_customers (db_provider db)).

Section LemonInversion.

Lemma webhook_found_Ok {A} (x : option A) msg (s : Session MarketDb) a s' :
  webhook_found x msg s = (Ok a, s') -> x = Some a /\ s' = s.
Proof. destruct x; cbn; [by intros [= -> ->]|done]. Qed.
Lemma webhook_require_Ok b msg (s : Session MarketDb) u s' :
  webhook_require b msg s = (Ok u, s') -> b = true /\ s' = s.
Proof. unfold webhook_require. rewrite lift_Ok ensure_Ok. naive_solver. Qed.
Lemma binding_require_Ok b msg (s : Session MarketDb) u s' :
  binding_require b msg s = (Ok u, s') -> b = true /\ s' = s.
Proof. unfold binding_require. rewrite lift_Ok ensure_Ok. naive_solver. Qed.
Lemma mutate_Ok (f : MarketDb -> MarketDb) s u s' :
  mutate f s = (Ok u, s') -> s' = {| working := f (working s); committed := committed s |}.
Proof. by intros [= _ <-]. Qed.
Lemma add_row_Ok {R} (get : MarketDb -> Table R) put id r s u s' :
  add_row get put id r s = (Ok u, s') ->
  get (working s) !! id = None /\ s' = {| working := put id r (working s); committed := committed s |}.
Proof. by intros [(_ & Hn & ->)|[[? Eq] _]]%add_row_cases. Qed.
Lemma market_commit_Ok s u s' :
  market_commit s = (Ok u, s') ->
  market_constraints (working s) = Ok tt /\ s' = {| working := working s; committed := working s |}.
Proof. by intros [(_ & Hk & ->)|[[? Eq] _]]%market_commit_cases. Qed.
Lemma read_only_webhook_found {A} (x : option A) msg : read_only (DB:=MarketDb) (webhook_found x msg).
Proof. destruct x; done. Qed.
Lemma read_only_webhook_require b msg : read_only (DB:=MarketDb) (webhook_require b msg).
Proof. apply read_only_lift. Qed.
Lemma read_only_binding_require b msg : read_only (DB:=MarketDb) (binding_require b msg).
Proof. apply read_only_lift. Qed.
End LemonInversion.

#[export] Hint Resolve read_only_webhook_found read_only_webhook_require
  read_only_binding_require : maestro.

(** Splits hypotheses that say a body of the webhook requests returned. *)
Ltac inv_webhook :=
  repeat match goal with
  | H : (_ ≫= _) _ = (Ok _, _) |- _ => apply M_bind_Ok in H as (? & ? & ? & H)
  | H : webhook_found _ _ _ = (Ok _, _) |- _ => apply webhook_found_Ok in H as [? ->]
  | H : webhook_require _ _ _ = (Ok _, _) |- _ => apply webhook_require_Ok in H as [? ->]
  | H : binding_require _ _ _ = (Ok _, _) |- _ => apply binding_require_Ok in H as [? ->]
  | H : (match ?x with pair _ _ => _ end) _ = (Ok _, _) |- _ => destruct x
  | H : lift _ _ = (Ok _, _) |- _ => apply lift_Ok in H as [? <-]
  | H : query _ _ = (Ok _, _) |- _ => rewrite query_eq in H; injection H as ? <-
  | H : mutate _ _ = (Ok _, _) |- _ => apply mutate_Ok in H as ->
  | H : add_row _ _ _ _ _ = (Ok _, _) |- _ => apply add_row_Ok in H as [? ->]
  | H : market_commit _ = (Ok _, _) |- _ => apply market_commit_Ok in H as [? ->]
  | H : mret _ _ = (Ok _, _) |- _ => apply mret_Ok in H as [? ?]
  | H : throw _ _ _ = (Ok _, _) |- _ => discriminate H
  end.

(** ** The lifecycle of an entry *)

Section Lifecycle.
Implicit Types i : inbox_row.

(** Everything of an entry but its lifecycle. *)
Definition entry_core i : inbox_row := set_lifecycle InReceived 0 None None None None i.

(** An entry claimed, and closed, at one time. *)
Definition claimed_entry (t : datetime) i : inbox_row :=
  set_lifecycle InProcessing (i_attempt_count i + 1) (Some t) None None None i.
Definition processed_entry (t : datetime) i : inbox_row :=
  set_lifecycle InProcessed (i_attempt_count i + 1) (Some t) (Some t) None None i.
Definition rejected_entry (t : datetime) (code : string) i : inbox_row :=
  set_lifecycle InRejected (i_attempt_count i + 1) (Some t) None (Some t) (Some code) i.

Lemma claim_Ok t i i' :
  claim_lemon_squeezy_webhook t i = Ok i' ->
  i_processing_status i = InReceived /\ i_claimed_at i = None /\ i_processed_at i = None /\
  i_rejected_at i = None /\ 0 <= i_attempt_count i <= MAX_ATTEMPT_COUNT /\ naive t = false /\
  i' = claimed_entry t i.
Proof.
  unfold claim_lemon_squeezy_webhook, webhook_check. intros H. inv_ok. to_prop.
  unfold claimed_entry. subst i'.
  destruct (i_claimed_at i), (i_processed_at i), (i_rejected_at i); try discriminate.
  split_and!; (done || lia).
Qed.

Lemma dt_lt_refl t : dt_lt t t = Ok false.
Proof. unfold dt_lt, comparable. rewrite eqb_reflx /= Z.ltb_irrefl. done. Qed.

Lemma close_claimed t i i' :
  mark_lemon_squeezy_webhook_processed t (claimed_entry t i) = Ok i' -> i' = processed_entry t i.
Proof.
  unfold mark_lemon_squeezy_webhook_processed, webhook_check. cbn. rewrite dt_lt_refl.
  intros H. by inv_ok.
Qed.

Lemma reject_claimed code t i i' :
  mark_lemon_squeezy_webhook_rejected code t (claimed_entry t i) = Ok i' ->
  i' = rejected_entry t (lower (strip code)) i.
Proof.
  unfold mark_lemon_squeezy_webhook_rejected, normalized_error_code, webhook_check. cbn.
  rewrite dt_lt_refl. intros H. inv_ok. by subst.
Qed.
End Lifecycle.

(** ** Ingestion *)

Section Ingestion.
Context `{WP : WebhookPrimitives}.

Inductive ingest_outcome (new_id : UUID) (q : WebhookRequest) (db : MarketDb)
  : res LemonSqueezyWebhookIngestionResult -> MarketDb -> Prop :=
  | ig_refused e : ingest_outcome new_id q db (Raise e) db
  | ig_replay w id e :
      parse_request q = Ok w -> inbox db !! id = Some e ->
      i_event_identity_hash e = sha256_hex (canonical_event w) ->
      i_payload_digest e = sha256_hex (wr_raw_body q) -> same_binding e w = true ->
      ingest_outcome new_id q db (Ok {| ig_id := id; ig_entry := e; ig_replayed := true |}) db
  | ig_received w e :
      parse_request q = Ok w -> inbox db !! new_id = None ->
      e = received_entry (sha256_hex (canonical_event w)) (sha256_hex (wr_raw_body q)) w
            (wr_received_at q) ->
      (forall k i, inbox db !! k = Some i ->
         i_event_identity_hash i <> i_event_identity_hash e /\
         i_payload_digest i <> i_payload_digest e) ->
      market_constraints (put_inbox new_id e db) = Ok tt ->
      ingest_outcome new_id q db (Ok {| ig_id := new_id; ig_entry := e; ig_replayed := false |})
        (put_inbox new_id e db).

Lemma ingest_fails_clean new_id q w : fails_clean (ingest_body new_id q w).
Proof.
  unfold ingest_body, market_commit. apply fails_clean_bind.
  - unfold ingest_verified_lemon_squeezy_webhook, inbox_by_identity, inbox_by_payload, add_inbox.
    never_commits.
  - intros a. apply fails_clean_commit_ret.
Qed.

Lemma ingest_request_outcome new_id q db r db' :
  ingest_request new_id q db = (r, db') -> ingest_outcome new_id q db r db'.
Proof.
  unfold ingest_request. destruct (parse_request q) as [w|e] eqn:Ew; [|by intros [= <- <-]; constructor].
  destruct r as [a|e]; [|intros ->%with_uow_fails; [constructor|apply ingest_fails_clean]].
  intros (s' & H & <-)%with_uow_inv. unfold ingest_body in H.
  apply M_bind_Ok in H as (g & s1 & Hg & H). unfold ingest_verified_lemon_squeezy_webhook in Hg.
  inv_webhook. unfold event_identity, webhook_check in *. inv_ok. subst.
  unfold inbox_by_identity in *. inv_webhook.
  match goal with E : find_row ?p ?t = _ |- _ => destruct (find_row p t) as [[id e]|] eqn:Ef in E end.
  - subst. apply find_row_Some in Ef as [Hk Hid%bool_decide_eq_true]. cbn in Hid.
    inv_webhook. to_prop. subst. by apply (ig_replay _ _ _ w).
  - subst. unfold inbox_by_payload, add_inbox in *. inv_webhook. to_prop. subst.
    match goal with H : is_some_b _ = false |- _ => rename H into Hp end.
    destruct (find_row _ _) as [|] eqn:Eg in Hp; [done|].
    eapply (ig_received _ _ _ w); [done|done|reflexivity| |done].
    intros k i Hk. pose proof (find_row_None _ _ _ _ Ef Hk). pose proof (find_row_None _ _ _ _ Eg Hk).
    cbn in *. by to_prop.
Qed.
End Ingestion.

(** ** Binding an order *)

Section Binding.

Definition with_customer (id : UUID) (c : option AdminMarketLemonSqueezyCustomerBinding)
    (db : MarketDb) : MarketDb :=
  match c with Some c => put_provider (pv_put_customer id c) db | None => db end.

Inductive bind_outcome (new_customer new_id : UUID) (cmd : LemonSqueezyBindingCommand) (db : MarketDb)
  : res (UUID * binding_row) -> MarketDb -> Prop :=
  | bd_refused e : bind_outcome new_customer new_id cmd db (Raise e) db
  | bd_existing id b :
      bindings db !! id = Some b -> b_order_id b = bc_order_id cmd -> binding_matches cmd b = true ->
      bind_outcome new_customer new_id cmd db (Ok (id, b)) db
  | bd_bound c db' :
      (forall k b, bindings db !! k = Some b -> b_order_id b <> bc_order_id cmd) ->
      bindings db !! new_id = None ->
      match c with
      | Some c => customers db !! new_customer = None /\ cb_customer_ref c = bc_customer_ref cmd /\
                  cb_provider_customer_id c = bc_provider_customer_id cmd
      | None => True
      end ->
      db' = put_binding new_id (new_binding cmd) (with_customer new_customer c db) ->
      market_constraints db' = Ok tt ->
      bind_outcome new_customer new_id cmd db (Ok (new_id, new_binding cmd)) db'.

Lemma bind_fails_clean new_customer new_id cmd : fails_clean (bind_body new_customer new_id cmd).
Proof.
  unfold bind_body, market_commit, assert_owner_compatible, customer_binding_by_customer,
    customer_binding_by_provider, binding_by_order, add_customer_binding, add_binding. commits_last.
Qed.

Lemma bind_bind_outcome new_customer new_id cmd db r db' :
  bind new_customer new_id cmd db = (r, db') -> bind_outcome new_customer new_id cmd db r db'.
Proof.
  unfold bind. destruct (validate_binding_command cmd) as [u|e]; [|by intros [= <- <-]; constructor].
  destruct (with_uow _ db) as [x db1] eqn:E. destruct x as [[id b]|e]; cbn.
  2:{ apply with_uow_fails in E as ->; [|apply bind_fails_clean]. destruct e as [k msg].
      destruct k; intros [= <- <-]; constructor. }
  intros [= <- <-]. apply with_uow_inv in E as (s' & H & <-). unfold bind_body in H.
  unfold customer_binding_by_customer, customer_binding_by_provider, assert_owner_compatible in H.
  inv_webhook. subst. unfold binding_by_order in *. inv_webhook.
  match goal with H : _ {| working := db; committed := db |} = (Ok _, ?s) |- _ =>
    assert (exists c, s = {| working := with_customer new_customer c db; committed := db |} /\
      match c with
      | Some c => customers db !! new_customer = None /\ cb_customer_ref c = bc_customer_ref cmd /\
                  cb_provider_customer_id c = bc_provider_customer_id cmd
      | None => True
      end) as (c & -> & Hc)
  end.
  { match goal with H : match find_row ?p ?t with _ => _ end _ = (Ok _, ?x) |- exists _, ?x = _ /\ _ =>
      destruct (find_row p t) as [[k c]|]; [exists None; by injection H as _ <-|];
      apply add_row_Ok in H as [Hn ->]
    end. cbn in Hn. eexists (Some _). by split_and!. }
  assert (bindings (with_customer new_customer c db) = bindings db) as Eb by by destruct c.
  cbn [working] in *. rewrite ->Eb in *.
  match goal with E : find_row ?p ?t = _ |- _ => destruct (find_row p t) as [[k b1]|] eqn:Ef end.
  - subst. apply find_row_Some in Ef as [Hk Ho%bool_decide_eq_true]. inv_webhook.
    simplify_eq. by apply bd_existing.
  - subst. unfold add_binding in *. inv_webhook. simplify_eq. cbn in *. rewrite ->Eb in *.
    apply (bd_bound _ _ _ _ c); try done.
    intros k b1 Hk. apply (find_row_None _ _ _ _ Ef) in Hk. by to_prop.
Qed.
End Binding.

(** ** Within the frames *)

Lemma ingest_core_step `{WP : WebhookPrimitives} new_id q db :
  core_step db (snd (ingest_request new_id q db)).
Proof.
  destruct (ingest_request _ _ _) as [r db'] eqn:E. apply ingest_request_outcome in E. cbn.
  destruct E; [by left|by left|by apply core_step_provider].
Qed.

Lemma bind_core_step new_customer new_id cmd db : core_step db (snd (bind new_customer new_id cmd db)).
Proof.
  destruct (bind _ _ _ _) as [r db'] eqn:E. apply bind_bind_outcome in E. cbn.
  destruct E as [| |c db' _ _ _ -> Hk]; [by left|by left|]. right. split; [done|].
  by destruct c; split.
Qed.

(** * What the reconciliation of an entry promises

    The outcomes of [process_reconciliation]: refused without a trace, a stored decision
    repeated, or the entry claimed, decided and closed; and what an applied event may
    change. *)
Section ReconcileSpec.
Implicit Types (db : MarketDb) (b : binding_row).

(** ** The context of an entry is only read *)

Lemma read_only_load_context production i : read_only (load_context production i).
Proof.
  unfold load_context, referenced_order, owned_binding, active_subscription_agrees,
    expected_subscription, market_order_by_ref, offer_by_id, customer_binding_by_customer,
    customer_binding_by_provider, binding_by_order, active_subscription_by_customer,
    binding_by_provider_subscription.
  reads_only.
Qed.

Lemma read_only_event_binding i : read_only (event_binding i).
Proof.
  unfold event_binding, binding_by_provider_order, binding_by_provider_subscription. reads_only.
Qed.

Lemma no_commit_watermark i : no_commit (advance_binding_watermark i).
Proof.
  unfold advance_binding_watermark. pose proof (read_only_no_commit _ (read_only_event_binding i)).
  never_commits.
Qed.

Lemma no_commit_apply_reconciled ids i : no_commit (apply_reconciled ids i).
Proof. unfold apply_reconciled. pose proof (no_commit_watermark i). never_commits. Qed.

Lemma no_commit_carry_out ids id i d t : no_commit (carry_out ids id i d t).
Proof. unfold carry_out. pose proof (no_commit_apply_reconciled ids i). never_commits. Qed.

Lemma process_fails_clean load ids id t :
  (forall i, read_only (load i)) -> fails_clean (process_body load ids id t).
Proof.
  intros Hload. unfold process_body, decide_entry, decision_by_inbox_id, inbox_by_id, add_decision,
    market_commit.
  assert (forall i, no_commit (load i)) by (intros i; apply read_only_no_commit, Hload).
  pose proof (fun i d => no_commit_carry_out ids id i d t).
  commits_last.
Qed.

(** ** An applied event *)

(** The watermark moved: the binding of the event takes its effective time, which is not
    before the one it had. *)
Record watermarked (i : inbox_row) (bid : UUID) b (t : datetime) : Prop := {
  wm_effective : i_provider_effective_at i = Some t;
  wm_customer : b_customer_ref b = i_customer_ref i;
  wm_provider_customer : i_provider_customer_id i = Some (b_provider_customer_id b);
  wm_variant : i_variant_id i = Some (b_variant_id b);
  wm_subscription : forall s, b_provider_subscription_id b = Some s ->
    i_provider_subscription_id i = Some s;
  wm_newer : forall t0, b_last_provider_effective_at b = Some t0 -> dt_lt t t0 = Ok false
}.

(** Outside the tables of the provider, an applied event is a provider event; inside, it
    moves the watermark of one binding. *)
Record reconciled (i : inbox_row) db db' : Prop := {
  rc_frame : frame (put_provider (fun _ => db_provider db') db) db';
  rc_binding : exists bid b t, bindings db !! bid = Some b /\ watermarked i bid b t /\
    db_provider db' =
      pv_put_binding bid (advanced_binding (i_provider_subscription_id i) t b) (db_provider db);
  rc_run : exists ids s u s', apply_reconciled ids i s = (Ok u, s') /\ working s = db /\ working s' = db'
}.

Lemma event_binding_Ok i s r s' :
  event_binding i s = (Ok (Some r), s') -> s' = s /\ bindings (working s) !! r.1 = Some r.2.
Proof.
  intros H. pose proof (read_only_eq _ _ _ _ (read_only_event_binding i) H) as ->. split; [done|].
  unfold event_binding, binding_by_provider_order, binding_by_provider_subscription in H.
  destruct r as [bid b].
  repeat case_match; try discriminate H; rewrite query_eq in H; injection H as H;
    by apply find_row_Some in H as [? _].
Qed.

Lemma watermark_Ok i s b' s' :
  advance_binding_watermark i s = (Ok b', s') ->
  exists bid b t, bindings (working s) !! bid = Some b /\ watermarked i bid b t /\
    b' = advanced_binding (i_provider_subscription_id i) t b /\
    s' = {| working := put_binding bid b' (working s); committed := committed s |}.
Proof.
  unfold advance_binding_watermark. intros H. inv_webhook. subst.
  match goal with H : event_binding _ _ = _ |- _ => apply event_binding_Ok in H as [-> Hb] end.
  match type of Hb with _ = Some ?r.2 => destruct r as [bid b] end. cbn in *. to_prop.
  exists bid, b. eexists. split; [done|]. split; [|split; [reflexivity|]].
  - split; try done.
    + intros s0 Hs. rewrite Hs in H4. by to_prop.
    + intros t0 Ht. rewrite Ht in H5. inv_webhook. to_prop. by subst.
  - destruct (b_last_provider_effective_at b); inv_webhook; by subst.
Qed.

Lemma frame_provider_irrelevant f db db' : frame (put_provider f db) db' ->
  frame (put_provider (fun _ => db_provider db') db) db'.
Proof. intros [H1 H2 H3 H4 H5 H6]. by split. Qed.

Lemma apply_reconciled_Ok ids i s u s' :
  apply_reconciled ids i s = (Ok u, s') ->
  committed s' = committed s /\ reconciled i (working s) (working s').
Proof.
  intros H. split; [exact (no_commit_eq _ _ _ _ (no_commit_apply_reconciled _ _) H)|].
  pose proof H as Hrun. unfold apply_reconciled in H. apply M_bind_Ok in H as (b' & s1 & Hw & H).
  apply watermark_Ok in Hw as (bid & b & t & Hb & Hwm & -> & ->).
  assert (frame (put_binding bid (advanced_binding (i_provider_subscription_id i) t b) (working s))
            (working s')) as Hf.
  { apply M_bind_Ok in H as (sub & s2 & H1 & H2). apply frame_lifecycle in H1. cbn in H1.
    etrans; [exact H1|]. destruct sub as [[sid sb]|].
    - by apply frame_runtime_access in H2.
    - by injection H2 as _ <-. }
  split; [by apply (frame_provider_irrelevant (pv_put_binding bid
    (advanced_binding (i_provider_subscription_id i) t b)))| |by exists ids, s, u, s'].
  exists bid, b, t. split_and!; [done|done|]. by rewrite (frame_provider _ _ Hf).
Qed.

(** ** A decision carried out *)

(** The entry with its decision recorded, before it is carried out. *)
Definition decided_db (id did : UUID) (claimed : inbox_row) (d : decision_row) db : MarketDb :=
  put_provider (pv_put_decision did d) (put_inbox id claimed db).

(** What a decision does to the database: a review closes the entry as rejected, an
    ignored event as processed, and a reconciled event is applied first. *)
Inductive carried_out (id did : UUID) i (t : datetime) (d : LemonSqueezyReconciliationDecision) db
  : MarketDb -> Prop :=
  | co_rejected :
      de_action d = ActRequiresReview ->
      carried_out id did i t d db (put_inbox id (rejected_entry t (lower (strip (de_reason_code d))) i) db)
  | co_ignored :
      de_action d = ActIgnore ->
      carried_out id did i t d db (put_inbox id (processed_entry t i) db)
  | co_reconciled db2 :
      de_action d = ActReconcile -> reconciled (claimed_entry t i) db db2 ->
      carried_out id did i t d db (put_inbox id (processed_entry t i) db2).

Lemma carry_out_Ok ids id did i d t s u s' :
  carry_out ids id (claimed_entry t i) d t s = (Ok u, s') ->
  carried_out id did i t d (working s) (working s').
Proof.
  unfold carry_out. intros H. destruct (de_action d) eqn:Ea; inv_webhook.
  - match goal with H : mark_lemon_squeezy_webhook_processed _ _ = _ |- _ =>
      apply close_claimed in H as -> end. by constructor.
  - match goal with H : apply_reconciled _ _ _ = _ |- _ => apply apply_reconciled_Ok in H as [_ H] end.
    match goal with H : mark_lemon_squeezy_webhook_processed _ _ = _ |- _ =>
      apply close_claimed in H as -> end. by eapply co_reconciled.
  - match goal with H : mark_lemon_squeezy_webhook_rejected _ _ _ = _ |- _ =>
      apply reject_claimed in H as -> end. by constructor.
Qed.

(** ** The request *)

Inductive process_outcome (load : inbox_row -> Market LemonSqueezyReconciliationContext)
    (ids : ProcessIds) (id : UUID) (t : datetime) db : res (UUID * decision_row) -> MarketDb -> Prop :=
  | pc_refused e : process_outcome load ids id t db (Raise e) db
  | pc_repeated did d i :
      inbox db !! id = Some i -> decisions db !! did = Some d ->
      stored_binding_matches d id i = true ->
      process_outcome load ids id t db (Ok (did, d)) db
  | pc_decided i x claimed d db' :
      inbox db !! id = Some i -> i_processing_status i = InReceived ->
      0 <= i_attempt_count i <= MAX_ATTEMPT_COUNT -> naive t = false ->
      (forall k r, decisions db !! k = Some r -> rd_inbox_id r <> id) ->
      decisions db !! pid_decision ids = None ->
      claimed = claimed_entry t i ->
      fst (load claimed {| working := put_inbox id claimed db; committed := db |}) = Ok x ->
      context_binding_matches x claimed = true ->
      d = new_decision id claimed (classify_lemon_squeezy_reconciliation claimed x) t ->
      carried_out id (pid_decision ids) i t (classify_lemon_squeezy_reconciliation claimed x)
        (decided_db id (pid_decision ids) claimed d db) db' ->
      market_constraints db' = Ok tt ->
      process_outcome load ids id t db (Ok (pid_decision ids, d)) db'.

Lemma process_reconciliation_outcome load ids id t db r db' :
  (forall i, read_only (load i)) ->
  process_reconciliation load ids id t db = (r, db') -> process_outcome load ids id t db r db'.
Proof.
  intros Hload. unfold process_reconciliation. destruct (naive t) eqn:En; [intros [= <- <-]; constructor|].
  destruct r as [[did d]|e]; [|intros ->%with_uow_fails; [constructor|by apply process_fails_clean]].
  intros (s' & H & <-)%with_uow_inv. unfold process_body, inbox_by_id, decision_by_inbox_id in H.
  inv_webhook. match goal with E : find_row ?p ?t = _ |- _ =>
    destruct (find_row p t) as [[k d0]|] eqn:Ef; subst end.
  - apply find_row_Some in Ef as [Hk Hd%bool_decide_eq_true]. inv_webhook. simplify_eq.
    eapply pc_repeated; [eassumption|done|done].
  - unfold decide_entry, add_decision in H. inv_webhook.
    match goal with H : claim_lemon_squeezy_webhook _ _ = _ |- _ =>
      apply claim_Ok in H as (Hst & _ & _ & _ & Hat & _ & ->) end.
    match goal with H : load _ _ = (Ok _, _) |- _ => rename H into Hx end.
    pose proof (read_only_eq _ _ _ _ (Hload _) Hx) as ->.
    match goal with H : carry_out _ _ _ _ _ _ = (Ok _, _) |- _ =>
      apply (carry_out_Ok _ _ (pid_decision ids)) in H end.
    simplify_eq. cbn [working committed] in *.
    eapply (pc_decided _ _ _ _ _ x1 x4); try eassumption; [|reflexivity|by rewrite Hx|reflexivity].
    intros k r Hk. apply (find_row_None _ _ _ _ Ef) in Hk. by to_prop.
Qed.


Lemma carried_out_frame id did i t d db db' :
  carried_out id did i t d db db' -> frame (put_provider (fun _ => db_provider db') db) db'.
Proof.
  intros [?|?|db2 _ Hr]; [by split..|]. pose proof (rc_frame _ _ _ Hr) as [H1 H2 H3 H4 H5 H6]. by split.
Qed.

Lemma process_core_step production ids id t db :
  core_step db (snd (process_reconciliation (load_context production) ids id t db)).
Proof.
  destruct (process_reconciliation _ _ _ _ _) as [r db'] eqn:E.
  apply process_reconciliation_outcome in E; [|apply read_only_load_context]. cbn.
  destruct E as [| |i x claimed d db' _ _ _ _ _ _ _ _ _ _ Hc Hk]; [by left|by left|].
  right. split; [done|]. apply carried_out_frame in Hc as [H1 H2 H3 H4 H5 H6]. by split.
Qed.
End ReconcileSpec.
