(* ===== verification/OrderSpec.v ===== *)
(** * What the requests of the direct sales promise

    The effect of each request on the database: the creation of an order, its contract, a
    payment report, the decision on it, the reconciliation of its evidence and the
    activation of the order; each a case analysis that the bodies of [DirectOrder],
    [PaymentEvidence], [PaymentReconciliation] and [Activation] are proved
    to follow.  A request that changes anything writes one audit record and its
    notifications in the same commit. *)
From S2P Require Import Prelude PyString PyDecimal PyDateTime PyText PyJson Authority Uow SalesDb MarketDb CommerceAudit DirectOrder PaymentEvidence PaymentReconciliation Activation TopUpSpec MarketFrames LemonSpec.
#[local] Open Scope Z_scope.
Notation market_orders db := (sl_orders (db_sales db)).
Notation contracts db := (sl_contracts (db_sales db)).
Notation evidences db := (sl_evidence (db_sales db)).
Notation verifications db := (sl_verifications (db_sales db)).
Notation cases db := (sl_cases (db_sales db)).
Notation activations db := (sl_activations (db_sales db)).
Notation audits db := (sl_audit (db_sales db)).
Notation outbox db := (sl_outbox (db_sales db)).

(** The database with an audit record and notifications (the last one first). *)
Definition logged (aid : UUID) (a : AdminMarketAuditRecord)
    (notices : list (UUID * AdminMarketNotificationOutbox)) : MarketDb -> MarketDb :=
  put_sales (fun t => foldr (fun n => sl_put_outbox n.1 n.2) (sl_put_audit aid a t) notices).

Section SalesInversion.
Context `{Sha256}.
Implicit Types db : MarketDb.

Lemma append_audit_Ok r s u s' :
  append_audit r s = (Ok u, s') ->
  exists rec aid a, commercial_audit r = Ok rec /\ audit_row rec = Ok (aid, a) /\
    audits (working s) !! aid = None /\
    s' = {| working := put_sales (sl_put_audit aid a) (working s); committed := committed s |}.
Proof.
  unfold append_audit, add_audit. intros Ha. inv_webhook. subst.
  match goal with p : UUID * _ |- _ => destruct p as [aid a] end. eauto 8.
Qed.

Lemma enqueue_Ok id ev ty ref cust payload mat t s u s' :
  enqueue_commercial_notification id ev ty ref cust payload mat t s = (Ok u, s') ->
  exists n, notification id ev ty ref cust payload mat t = Ok n /\
    outbox (working s) !! id = None /\
    s' = {| working := put_sales (sl_put_outbox id n) (working s); committed := committed s |}.
Proof. unfold enqueue_commercial_notification, add_outbox. intros Ha. inv_webhook. subst. eauto. Qed.

Lemma no_commit_append_audit r : no_commit (append_audit r).
Proof. unfold append_audit, add_audit. never_commits. Qed.
Lemma no_commit_enqueue id ev ty ref cust payload mat t :
  no_commit (enqueue_commercial_notification id ev ty ref cust payload mat t).
Proof. unfold enqueue_commercial_notification, add_outbox. never_commits. Qed.

(** After the commit nothing may raise any more. *)
Lemma fails_clean_commit_total {A} check (m : Market A) :
  (forall s e s', m s <> (Raise e, s')) -> fails_clean (commit check;; m).
Proof.
  intros Hm s e s'. rewrite M_bind_eq. destruct (commit check s) as [[u|x] s1] eqn:E.
  - intros Hr. by apply Hm in Hr.
  - intros [= _ <-]. exact (fails_clean_commit _ _ _ _ E).
Qed.

(** The database a request with a replay leaves is that of its first unit of work. *)
Lemma with_replay_db {A} (body : Market A) (replay : Market (option A)) db later :
  snd (with_replay body replay db later) = snd (with_uow body db).
Proof. unfold with_replay. by destruct (with_uow body db) as [[a|e] db']. Qed.

Lemma with_replay_Ok {A} (body : Market A) (replay : Market (option A)) db later a db' :
  with_uow body db = (Ok a, db') -> with_replay body replay db later = (Ok a, db').
Proof. unfold with_replay. by intros ->. Qed.

(** A conflict is answered by what the second unit of work finds. *)
Lemma with_replay_found {A} (body : Market A) (replay : Market (option A)) db later e db' a :
  with_uow body db = (Raise e, db') -> is_conflict e = true ->
  fst (with_uow replay later) = Ok (Some a) ->
  with_replay body replay db later = (Ok a, db').
Proof. unfold with_replay. by intros -> -> ->. Qed.
End SalesInversion.

#[export] Hint Resolve no_commit_append_audit no_commit_enqueue : maestro.

(** Splits hypotheses that say a body of the sales requests returned. *)
Ltac inv_sales :=
  repeat first
    [ progress inv_webhook
    | match goal with
      | H : append_audit _ _ = (Ok _, _) |- _ => apply append_audit_Ok in H as (? & ? & ? & ? & ? & ? & ->)
      | H : enqueue_commercial_notification _ _ _ _ _ _ _ _ _ = (Ok _, _) |- _ =>
          apply enqueue_Ok in H as (? & ? & ? & ->)
      | H : raise _ _ = Ok _ |- _ => discriminate H
      | H : ensure _ _ _ = Ok _ |- _ => apply ensure_Ok in H
      end ].

(** * What ordering and contracting promise

    The outcomes of the creation of a direct order and of the completion of its contract. *)
Section OrderSpec.
Context `{Sha256}.

(** ** The order *)

(** What a new order is made of: an eligible customer, a published offer on sale now and
    the active default destination. *)
Record order_sold (r : DirectOrderRequest) (ids : SalesIds) (offer_id : UUID)
    (offer : AdminMarketOffer) (d : AdminMarketPaymentDestination) (o : AdminMarketOrder) db : Prop := {
  os_first : forall k o', market_orders db !! k = Some o' ->
    or_creation_idempotency_key_hash o' <> Some (dq_hash r);
  os_eligible : exists eid e, sl_eligibilities (db_sales db) !! eid = Some e /\
    elg_customer_ref e = dq_customer r /\ eligibility_failure (Some e) = None;
  os_offer : sl_offers (db_sales db) !! offer_id = Some offer;
  os_on_sale : direct_offer_on_sale (db_plans db) (dq_plan r) (dq_period r) (dq_now r) offer = true;
  os_newest : forall k o', sl_offers (db_sales db) !! k = Some o' ->
    direct_offer_on_sale (db_plans db) (dq_plan r) (dq_period r) (dq_now r) o' = true ->
    instant (of_updated_at o') <= instant (of_updated_at offer);
  os_destination : exists did, sl_destinations (db_sales db) !! did = Some d /\ is_active_default d = true;
  os_order : build_order (si_reference ids) r offer_id offer d = Ok o;
  os_fresh : market_orders db !! si_row ids = None
}.

Inductive direct_order_outcome (ids : SalesIds) (r : DirectOrderRequest) db
  : res DirectCommercialOrderResult -> MarketDb -> Prop :=
  | direct_order_refused e : direct_order_outcome ids r db (Raise e) db
  | direct_order_replayed id o result :
      market_orders db !! id = Some o -> or_creation_idempotency_key_hash o = Some (dq_hash r) ->
      same_order_request o (dq_customer r) (dq_plan r) (dq_period r) = true ->
      direct_order_result id o "commercial_order_create_idempotent" = Ok result ->
      direct_order_outcome ids r db (Ok result) db
  | direct_order_created offer_id offer d o result aid a n db' :
      order_sold r ids offer_id offer d o db ->
      direct_order_result (si_row ids) o "commercial_order_created" = Ok result ->
      audits db !! aid = None ->
      db' = logged aid a [(si_notice ids, n)] (put_market_order (si_row ids) o db) ->
      market_constraints db' = Ok tt ->
      direct_order_outcome ids r db (Ok result) db'.

Lemma newest_offer_elem rows row : newest_offer rows = Some row -> row ∈ rows.
Proof.
  induction rows as [|r rows IH]; cbn; [done|]. destruct (newest_offer rows) as [r'|].
  - destruct (_ <? _); intros [= <-]; [right; auto|left].
  - intros [= <-]. left.
Qed.

(** No row of the result is older than another offer on sale. *)
Lemma newest_offer_max rows row r :
  newest_offer rows = Some row -> r ∈ rows -> instant (of_updated_at r.2) <= instant (of_updated_at row.2).
Proof.
  revert row. induction rows as [|x rows IH]; intros row Hn Hr; cbn in Hn; [done|].
  destruct (newest_offer rows) as [y|] eqn:E.
  - destruct (Z.ltb_spec (instant (of_updated_at x.2)) (instant (of_updated_at y.2))); injection Hn as <-;
      apply elem_of_cons in Hr as [->|Hr]; (lia || (specialize (IH _ eq_refl Hr); lia)).
  - injection Hn as <-. apply elem_of_cons in Hr as [->|Hr]; [lia|].
    destruct rows as [|z rows]; [by apply not_elem_of_nil in Hr|].
    cbn in E. destruct (newest_offer rows); [destruct (_ <? _)|]; discriminate E.
Qed.

Lemma direct_offer_found plan period now s row s' :
  get_published_direct_for_plan_code plan period now s = (Ok (Some row), s') ->
  s' = s /\ sl_offers (db_sales (working s)) !! row.1 = Some row.2 /\
  direct_offer_on_sale (db_plans (working s)) plan period now row.2 = true /\
  (forall k o, sl_offers (db_sales (working s)) !! k = Some o ->
     direct_offer_on_sale (db_plans (working s)) plan period now o = true ->
     instant (of_updated_at o) <= instant (of_updated_at row.2)).
Proof.
  unfold get_published_direct_for_plan_code. rewrite query_eq. intros [= Hn <-].
  pose proof (newest_offer_elem _ _ Hn) as He. destruct row as [k o]. apply find_rows_elem in He as [? ?].
  split_and!; try done. intros k' o' Hk Hs. apply (newest_offer_max _ _ (k', o') Hn). by apply find_rows_elem.
Qed.

Lemma built_order_result reference r offer_id offer d o id reason :
  build_order reference r offer_id offer d = Ok o ->
  exists result, direct_order_result id o reason = Ok result.
Proof. unfold build_order. intros Hb. inv_ok. subst o. cbn. eauto. Qed.

Lemma no_commit_record_order ids r o : no_commit (record_order ids r o).
Proof. unfold record_order, add_market_order. never_commits. Qed.
Hint Resolve no_commit_record_order : maestro.

Lemma read_only_direct_offer plan period now : read_only (get_published_direct_for_plan_code plan period now).
Proof. done. Qed.
Hint Resolve read_only_direct_offer : maestro.

Lemma direct_order_body_fails ids r : fails_clean (direct_order_body ids r).
Proof.
  unfold direct_order_body. apply fails_clean_bind; [never_commits|intros [[id o]|]].
  { apply no_commit_fails_clean. never_commits. }
  apply fails_clean_bind; [never_commits|intros erow].
  destruct (eligibility_failure _); [apply no_commit_fails_clean; never_commits|].
  apply fails_clean_bind; [never_commits|intros [[offer_id offer]|]];
    [|apply no_commit_fails_clean; never_commits].
  apply fails_clean_bind; [never_commits|intros [[did d]|]]; [|apply no_commit_fails_clean; never_commits].
  destruct (build_order (si_reference ids) r offer_id offer d) as [o|e] eqn:Eo.
  2:{ intros s e' s'. by intros [= _ <-]. }
  change (fails_clean (record_order ids r o;; market_commit;;
                       lift (direct_order_result (si_row ids) o "commercial_order_created"))).
  apply fails_clean_bind; [never_commits|intros ?]. apply fails_clean_commit_total.
  intros s1 e1 s1'.
  destruct (built_order_result _ _ _ _ _ _ (si_row ids) "commercial_order_created" Eo) as [result ->].
  done.
Qed.

Lemma direct_order_body_outcome ids r db result db' :
  with_uow (direct_order_body ids r) db = (result, db') -> direct_order_outcome ids r db result db'.
Proof.
  destruct result as [result|e]; intros Hb.
  2:{ apply with_uow_fails in Hb as ->; [constructor|apply direct_order_body_fails]. }
  apply with_uow_inv in Hb as (s' & Hb & <-).
  unfold direct_order_body, market_order_by_creation_hash, eligibility_by_customer, active_default_destination in Hb.
  rewrite bind_query in Hb. destruct (find_row _ _) as [[id o]|] eqn:Ex; cbn [working] in *.
  { apply find_row_Some in Ex as [Hk Hh%bool_decide_eq_true]. unfold require_same_request in Hb.
    inv_sales. eapply direct_order_replayed; eauto. }
  rewrite bind_query in Hb. cbn [working] in Hb. destruct (find_row _ (sl_eligibilities _)) as [[eid e]|] eqn:Ee; [|done].
  cbn [fmap option_fmap option_map snd] in Hb.
  destruct (eligibility_failure _) eqn:Ef in Hb; [done|].
  apply M_bind_Ok in Hb as (offer_row & s1 & Ho & Hb). destruct offer_row as [[offer_id offer]|]; [|done].
  apply direct_offer_found in Ho as (-> & Ho & Hs & Hm). rewrite bind_query in Hb.
  cbn [working fst snd] in *. destruct (find_row is_active_default _) as [[did d]|] eqn:Ed; [|done].
  apply find_row_Some in Ee as [Ee Ec%bool_decide_eq_true]. apply find_row_Some in Ed as [Ed Ed'].
  unfold record_order, add_market_order in Hb. inv_sales. subst.
  eapply (direct_order_created ids r db offer_id offer d); [split| | | |]; try eassumption; eauto.
  intros k o' Hk. pose proof (find_row_None _ _ _ _ Ex Hk) as Hn. by apply bool_decide_eq_false in Hn.
Qed.

Lemma create_direct_order_outcome ids cmd now db later :
  match direct_order_request cmd now with
  | Ok r => exists result, direct_order_outcome ids r db result (snd (create_direct_order ids cmd now db later))
  | Raise _ => snd (create_direct_order ids cmd now db later) = db
  end.
Proof.
  unfold create_direct_order. destruct (direct_order_request cmd now) as [r|e]; [|done].
  rewrite with_replay_db. destruct (with_uow _ db) as [result db'] eqn:E. exists result.
  by apply direct_order_body_outcome.
Qed.

(** ** The contract *)

Inductive contract_outcome (ids : SalesIds) (r : ContractRequest) db
  : res ContractCompletionResult -> MarketDb -> Prop :=
  | contract_refused e : contract_outcome ids r db (Raise e) db
  | contract_replayed order_id o id c :
      market_orders db !! order_id = Some o -> or_order_ref o = lower (strip (cq_order_ref r)) ->
      or_customer_ref o = cq_customer r -> contracts db !! id = Some c -> ctr_order_id c = order_id ->
      require_same_contract c (cq_version r) = Ok tt ->
      contract_outcome ids r db (Ok (contract_result id c o "contract_completion_idempotent")) db
  | contract_written order_id o c aid a n1 n2 db' :
      market_orders db !! order_id = Some o -> or_order_ref o = lower (strip (cq_order_ref r)) ->
      or_customer_ref o = cq_customer r ->
      (forall k c', contracts db !! k = Some c' -> ctr_order_id c' <> order_id) ->
      contract_acceptable o (cq_version r) = Ok tt ->
      c = completed_contract ids r order_id -> contracts db !! si_row ids = None ->
      audits db !! aid = None ->
      db' = logged aid a [(si_notice2 ids, n2); (si_notice ids, n1)]
              (put_sales (sl_put_contract (si_row ids) c)
                 (put_market_order order_id (contract_completed_order (cq_now r) o) db)) ->
      market_constraints db' = Ok tt ->
      contract_outcome ids r db
        (Ok (contract_result (si_row ids) c (contract_completed_order (cq_now r) o) "contract_completed")) db'.

Lemma no_commit_record_contract ids r order_id o : no_commit (record_contract ids r order_id o).
Proof. unfold record_contract, add_contract. never_commits. Qed.
Hint Resolve no_commit_record_contract : maestro.

Lemma contract_body_fails ids r : fails_clean (contract_body ids r).
Proof.
  unfold contract_body, market_commit. apply fails_clean_bind; [never_commits|intros orow].
  apply fails_clean_bind; [never_commits|intros [order_id o]]. commits_last.
Qed.

Lemma require_customer_order_Ok row customer id o :
  require_customer_order row customer = Ok (id, o) -> row = Some (id, o) /\ or_customer_ref o = customer.
Proof.
  unfold require_customer_order. destruct row as [[k x]|]; [|done]. case_bool_decide; [|done].
  by intros [= -> ->].
Qed.

Lemma market_order_found ref s id o s' :
  market_order_by_ref ref s = (Ok (Some (id, o)), s') ->
  s' = s /\ market_orders (working s) !! id = Some o /\ or_order_ref o = lower (strip ref).
Proof.
  unfold market_order_by_ref. rewrite query_eq. intros [= Hf <-].
  by apply find_row_Some in Hf as [? ?%bool_decide_eq_true].
Qed.

Lemma contract_body_outcome ids r db result db' :
  with_uow (contract_body ids r) db = (result, db') -> contract_outcome ids r db result db'.
Proof.
  destruct result as [result|e]; intros Hb.
  2:{ apply with_uow_fails in Hb as ->; [constructor|apply contract_body_fails]. }
  apply with_uow_inv in Hb as (s' & Hb & <-). unfold contract_body in Hb.
  apply M_bind_Ok in Hb as (orow & s1 & Ho & Hb).
  apply M_bind_Ok in Hb as ([order_id o] & s2 & [Hc <-]%lift_Ok & Hb).
  apply require_customer_order_Ok in Hc as [-> Hc].
  apply market_order_found in Ho as (-> & Ho & Hr). unfold contract_by_order in Hb.
  rewrite bind_query in Hb. cbn [working] in *. destruct (find_row _ (contracts db)) as [[id c]|] eqn:Ex.
  - apply find_row_Some in Ex as [Hk Hi%bool_decide_eq_true].
    destruct (require_same_contract c (cq_version r)) as [[]|] eqn:Es; [|done].
    injection Hb as <- <-. eapply contract_replayed; eauto.
  - destruct (contract_acceptable o (cq_version r)) as [[]|] eqn:Ea; [|discriminate Hb].
    unfold record_contract, add_contract in Hb. inv_sales. subst.
    eapply contract_written; try eassumption; try reflexivity.
    intros k c' Hk. pose proof (find_row_None _ _ _ _ Ex Hk) as Hn. by apply bool_decide_eq_false in Hn.
Qed.

Lemma clickwrap_outcome ids cmd now db later :
  match contract_request cmd now with
  | Ok r => exists result,
      contract_outcome ids r db result (snd (complete_authenticated_clickwrap ids cmd now db later))
  | Raise _ => snd (complete_authenticated_clickwrap ids cmd now db later) = db
  end.
Proof.
  unfold complete_authenticated_clickwrap. destruct (contract_request cmd now) as [r|e]; [|done].
  rewrite with_replay_db. destruct (with_uow _ db) as [result db'] eqn:E. exists result.
  by apply contract_body_outcome.
Qed.
End OrderSpec.

#[export] Hint Resolve no_commit_record_order no_commit_record_contract read_only_direct_offer : maestro.

(** * What payments and the activation promise

    The outcomes of the requests on payments, then of the activation. *)
(** * What payment reports and decisions promise

    The outcomes of a payment report, of the decision on its evidence and of the
    reconciliation of an exception. *)

Section PaymentSpec.
Context `{Sha256}.
Implicit Types db : MarketDb.

(** ** The report *)

(** An order that accepts payment reports. *)
Definition reportable (o : AdminMarketOrder) : Prop :=
  or_selected_channel o = MaestroDirect /\ or_country_code o = "TN" /\ or_contract_status o = CtCompleted /\
  or_status o ∈ [OrAwaitingPayment; OrPaymentUnderReview] /\
  or_payment_status o ∈ [OpPending; OpCustomerReported; OpRequiresReview].

Inductive report_outcome (ids : SalesIds) (r : PaymentReport) db
  : res CustomerPaymentReportResult -> MarketDb -> Prop :=
  | report_refused e : report_outcome ids r db (Raise e) db
  | report_replayed id e o :
      evidences db !! id = Some e -> pev_submission_idempotency_key_hash e = pq_hash r ->
      market_orders db !! pev_order_id e = Some o -> require_report_replay e (Some o) r = Ok o ->
      report_outcome ids r db (Ok (customer_result id e o "payment_report_idempotent")) db
  | report_written order_id o m e aid a n db' :
      (forall k e', evidences db !! k = Some e' -> pev_submission_idempotency_key_hash e' <> pq_hash r) ->
      market_orders db !! order_id = Some o -> or_order_ref o = lower (strip (pq_order_ref r)) ->
      or_customer_ref o = pq_customer r -> reportable o ->
      m = report_match o (pq_reference r) (pq_amount r) (pq_currency r) ->
      e = reported_evidence ids r order_id m -> evidences db !! si_row ids = None ->
      audits db !! aid = None ->
      db' = logged aid a [(si_notice ids, n)]
              (put_evidence (si_row ids) e (put_market_order order_id (reported_order r m o) db)) ->
      market_constraints db' = Ok tt ->
      report_outcome ids r db
        (Ok (customer_result (si_row ids) e (reported_order r m o) "payment_report_recorded")) db'.

Lemma require_customer_payment_order_Ok row customer id o :
  require_customer_payment_order row customer = Ok (id, o) ->
  row = Some (id, o) /\ or_customer_ref o = customer /\ reportable o.
Proof.
  unfold require_customer_payment_order. intros Hr. inv_ok. subst. cbn [snd] in *. to_prop.
  match goal with E : require_customer_order _ _ = _ |- _ =>
    apply require_customer_order_Ok in E as [-> ?] end. done.
Qed.

Lemma no_commit_record_report ids r order_id o m : no_commit (record_report ids r order_id o m).
Proof. unfold record_report, add_evidence. never_commits. Qed.
Hint Resolve no_commit_record_report : maestro.

Lemma report_body_fails ids r : fails_clean (report_body ids r).
Proof.
  unfold report_body, market_commit. apply fails_clean_bind; [never_commits|intros [[id e]|]].
  { apply no_commit_fails_clean. never_commits. }
  apply fails_clean_bind; [never_commits|intros orow].
  apply fails_clean_bind; [never_commits|intros [order_id o]]. commits_last.
Qed.

Lemma require_report_replay_Ok e order r o :
  require_report_replay e order r = Ok o -> order = Some o.
Proof. unfold require_report_replay. destruct order; [|done]. intros Hr. inv_ok. by subst. Qed.

Lemma report_body_outcome ids r db result db' :
  with_uow (report_body ids r) db = (result, db') -> report_outcome ids r db result db'.
Proof.
  destruct result as [result|e]; intros Hb.
  2:{ apply with_uow_fails in Hb as ->; [constructor|apply report_body_fails]. }
  apply with_uow_inv in Hb as (s' & Hb & <-). unfold report_body, evidence_by_submission_hash in Hb.
  rewrite bind_query in Hb. cbn [working] in Hb. destruct (find_row _ _) as [[id e]|] eqn:Ex.
  - apply find_row_Some in Ex as [Hk Hh%bool_decide_eq_true].
    unfold market_order_by_id in Hb. rewrite bind_query in Hb. cbn [working] in Hb.
    apply M_bind_Ok in Hb as (o & s1 & [Hr <-]%lift_Ok & Hb).
    pose proof (require_report_replay_Ok _ _ _ _ Hr) as Ho. rewrite Ho in Hr.
    injection Hb as <- <-. eapply report_replayed; eauto.
  - apply M_bind_Ok in Hb as (orow & s1 & Ho & Hb).
    apply M_bind_Ok in Hb as ([order_id o] & s2 & [Hc <-]%lift_Ok & Hb).
    apply require_customer_payment_order_Ok in Hc as (-> & Hc & Hp).
    apply market_order_found in Ho as (-> & Ho & Hr).
    unfold record_report, add_evidence in Hb. inv_sales. subst.
    eapply report_written; try eassumption; try reflexivity.
    intros k e' Hk. pose proof (find_row_None _ _ _ _ Ex Hk) as Hn. by apply bool_decide_eq_false in Hn.
Qed.

Lemma report_payment_outcome ids cmd now db later :
  match payment_report cmd now with
  | Ok r => exists result, report_outcome ids r db result (snd (report_payment ids cmd now db later))
  | Raise _ => snd (report_payment ids cmd now db later) = db
  end.
Proof.
  unfold report_payment. destruct (payment_report cmd now) as [r|e]; [|done].
  rewrite with_replay_db. destruct (with_uow _ db) as [result db'] eqn:E. exists result.
  by apply report_body_outcome.
Qed.

(** ** The decision *)

Definition decided_evidence (r : PaymentDecision) (e : AdminMarketPaymentEvidence)
  : AdminMarketPaymentEvidence := if vq_verified r then e else set_evidence_status EvRejected e.

Inductive decision_outcome (ids : SalesIds) (r : PaymentDecision) db
  : res AdminPaymentVerificationResult -> MarketDb -> Prop :=
  | decision_refused e : decision_outcome ids r db (Raise e) db
  | decision_replayed eid e o vid v :
      evidences db !! eid = Some e -> market_orders db !! pev_order_id e = Some o ->
      verifications db !! vid = Some v -> pvr_order_id v = pev_order_id e ->
      require_same_decision v eid r = Ok tt ->
      decision_outcome ids r db (Ok (verification_result vid v e o "payment_decision_idempotent")) db
  | decision_written eid e o c v aid a n db' :
      evidences db !! eid = Some e -> market_orders db !! pev_order_id e = Some o ->
      (forall k v', verifications db !! k = Some v' -> pvr_order_id v' <> pev_order_id e) ->
      find_row (fun c => bool_decide (prc_evidence_id c = eid)) (cases db) = c ->
      require_verifiable o eid e (vq_verified r) (snd <$> c) = Ok tt ->
      v = new_verification ids r (pev_order_id e) eid e -> verifications db !! si_row ids = None ->
      audits db !! aid = None ->
      db' = logged aid a [(si_notice ids, n)]
              (put_sales (sl_put_verification (si_row ids) v)
                 (put_evidence eid (decided_evidence r e)
                    (put_market_order (pev_order_id e) (decided_order r o) db))) ->
      market_constraints db' = Ok tt ->
      decision_outcome ids r db
        (Ok (verification_result (si_row ids) v (decided_evidence r e) (decided_order r o)
               "payment_decision_recorded")) db'.

Lemma no_commit_record_decision ids r order_id o eid e : no_commit (record_decision ids r order_id o eid e).
Proof. unfold record_decision, add_verification. never_commits. Qed.
Hint Resolve no_commit_record_decision : maestro.

Lemma decision_body_fails ids r : fails_clean (decision_body ids r).
Proof.
  unfold decision_body, market_commit. apply fails_clean_bind; [never_commits|intros [[eid e]|]].
  2:{ apply no_commit_fails_clean. never_commits. }
  apply fails_clean_bind; [never_commits|intros [o|]]; [|apply no_commit_fails_clean; never_commits].
  apply fails_clean_bind; [never_commits|intros [[vid v]|]]; [apply no_commit_fails_clean; never_commits|].
  apply fails_clean_bind; [never_commits|intros crow].
  apply fails_clean_bind; [never_commits|intros _].
  apply fails_clean_bind; [never_commits|intros [[v e'] o']]. apply fails_clean_commit_ret.
Qed.

Lemma decision_body_outcome ids r db result db' :
  with_uow (decision_body ids r) db = (result, db') -> decision_outcome ids r db result db'.
Proof.
  destruct result as [result|e]; intros Hb.
  2:{ apply with_uow_fails in Hb as ->; [constructor|apply decision_body_fails]. }
  apply with_uow_inv in Hb as (s' & Hb & <-). unfold decision_body, evidence_by_ref in Hb.
  rewrite bind_query in Hb. cbn [working] in Hb.
  destruct (find_row _ _) as [[eid e]|] eqn:Ee; [|done]. apply find_row_Some in Ee as [Ee _].
  unfold market_order_by_id in Hb. rewrite bind_query in Hb. cbn [working] in Hb.
  destruct (market_orders db !! pev_order_id e) as [o|] eqn:Eo; [|done].
  unfold verification_by_order in Hb. rewrite bind_query in Hb. cbn [working] in Hb.
  destruct (find_row _ (verifications db)) as [[vid v]|] eqn:Ev.
  - apply find_row_Some in Ev as [Hv Hi%bool_decide_eq_true].
    destruct (require_same_decision v eid r) as [[]|] eqn:Es; [|done].
    injection Hb as <- <-. eapply decision_replayed; eauto.
  - unfold case_by_evidence in Hb. rewrite bind_query in Hb. cbn [working] in Hb.
    destruct (require_verifiable _ _ _ _ _) as [[]|] eqn:Er in Hb; [|discriminate Hb].
    unfold record_decision, add_verification in Hb. inv_sales. cbn [working committed] in *. simplify_eq.
    eapply decision_written; try eassumption; try reflexivity.
    intros k v' Hk. pose proof (find_row_None _ _ _ _ Ev Hk) as Hn. by apply bool_decide_eq_false in Hn.
Qed.

Lemma decide_payment_outcome ids cmd now db later :
  match payment_decision cmd now with
  | Ok r => exists result, decision_outcome ids r db result (snd (decide_payment ids cmd now db later))
  | Raise _ => snd (decide_payment ids cmd now db later) = db
  end.
Proof.
  unfold decide_payment. destruct (payment_decision cmd now) as [r|e]; [|done].
  rewrite with_replay_db. destruct (with_uow _ db) as [result db'] eqn:E. exists result.
  by apply decision_body_outcome.
Qed.

(** ** The reconciliation *)

(** The effect of a reconciliation that commits; its case is a new one or one already
    there, of the same evidence. *)
Inductive case_outcome (ids : SalesIds) (r : CaseDecision) db
  : res PaymentReconciliationResult -> MarketDb -> Prop :=
  | case_refused e : case_outcome ids r db (Raise e) db
  | case_replayed k c result :
      cases db !! k = Some c -> prc_resolution c = Some (resolution (cd_action r)) ->
      case_outcome ids r db (Ok result) db
  | case_written eid e o cid c candidate target same aid a n result db' :
      evidences db !! eid = Some e -> market_orders db !! pev_order_id e = Some o ->
      prc_evidence_id c = eid -> (cases db !! cid = Some c \/ cases db !! cid = None) ->
      audits db !! aid = None ->
      db' = logged aid a [(si_notice ids, n)]
              (put_market_order (pev_order_id e) (case_order r o)
                 (put_evidence eid (case_evidence r e target same)
                    (put_case cid (decided_case r candidate c) db))) ->
      market_constraints db' = Ok tt ->
      case_outcome ids r db (Ok result) db'.

Lemma read_only_case_replay r c : read_only (case_replay r c).
Proof. unfold case_replay, evidence_by_ref, market_order_by_id. reads_only. Qed.
Lemma read_only_case_candidate r e : read_only (case_candidate r e).
Proof. unfold case_candidate, market_order_by_ref. reads_only. Qed.
Lemma read_only_reevaluation_target candidate c original :
  read_only (reevaluation_target candidate c original).
Proof. unfold reevaluation_target, market_order_by_id. reads_only. Qed.
Lemma no_commit_record_case ids r b k c c' eid e e' oid o' :
  no_commit (record_case ids r b k c c' eid e e' oid o').
Proof. unfold record_case, add_case. never_commits. Qed.
Hint Resolve read_only_case_replay read_only_case_candidate read_only_reevaluation_target
  no_commit_record_case : maestro.

Lemma case_body_fails ids r : fails_clean (case_body ids r).
Proof.
  unfold case_body, market_commit. apply fails_clean_bind; [never_commits|intros [[k c]|]].
  { apply no_commit_fails_clean. never_commits. }
  apply fails_clean_bind; [never_commits|intros [[eid e]|]]; [|apply no_commit_fails_clean; never_commits].
  apply fails_clean_bind; [never_commits|intros [o|]]; [|apply no_commit_fails_clean; never_commits].
  do 2 (apply fails_clean_bind; [never_commits|intros ?]). cbv zeta.
  do 3 (apply fails_clean_bind; [never_commits|intros ?]).
  apply fails_clean_commit_total. intros s x s'. unfold market_order_by_id.
  rewrite M_bind_eq. by repeat case_match.
Qed.

Lemma case_body_outcome ids r db result db' :
  with_uow (case_body ids r) db = (result, db') -> case_outcome ids r db result db'.
Proof.
  destruct result as [result|e]; intros Hb.
  2:{ apply with_uow_fails in Hb as ->; [constructor|apply case_body_fails]. }
  apply with_uow_inv in Hb as (s' & Hb & <-). unfold case_body, case_by_decision_hash in Hb.
  rewrite bind_query in Hb. cbn [working] in Hb. destruct (find_row _ _) as [[k c]|] eqn:Ec.
  { apply find_row_Some in Ec as [Hk _]. pose proof (read_only_eq _ _ _ _ (read_only_case_replay r c) Hb) as ->.
    unfold case_replay, evidence_by_ref in Hb. rewrite bind_query in Hb. cbn [working] in Hb.
    destruct (find_row _ _) as [[eid e]|]; [|done]. apply M_bind_Ok in Hb as (? & ? & [Hr _]%lift_Ok & _).
    apply ensure_Ok in Hr. to_prop. eapply case_replayed; eauto. }
  unfold evidence_by_ref in Hb. rewrite bind_query in Hb. cbn [working] in Hb.
  destruct (find_row _ (evidences db)) as [[eid e]|] eqn:Ee; [|done]. apply find_row_Some in Ee as [Ee _].
  unfold market_order_by_id in Hb. rewrite bind_query in Hb. cbn [working] in Hb.
  destruct (market_orders db !! pev_order_id e) as [o|] eqn:Eo; [|done].
  unfold case_by_evidence in Hb. rewrite bind_query in Hb. cbn [working] in Hb.
  apply M_bind_Ok in Hb as (candidate & s1 & H1 & Hb).
  apply (read_only_eq _ _ _ _ (read_only_case_candidate r e)) in H1 as ->. cbv zeta in Hb.
  apply M_bind_Ok in Hb as (target & s2 & H2 & Hb).
  apply (read_only_eq _ _ _ _ (read_only_reevaluation_target _ _ _)) in H2 as ->.
  apply M_bind_Ok in Hb as (after & s3 & [_ <-]%lift_Ok & Hb).
  apply M_bind_Ok in Hb as (u & s4 & Hrec & Hb).
  apply M_bind_Ok in Hb as (u2 & s5 & [Hk ->]%market_commit_Ok & Hb).
  apply M_bind_Ok in Hb as (shown & s6 & H6 & Hb).
  assert (s' = {| working := working s4; committed := working s4 |}) as ->.
  { injection Hb as _ <-. destruct (snd after); [by injection H6|].
    destruct (prc_candidate_order_id _); by injection H6. }
  cbn [committed] in *. unfold record_case, add_case in Hrec.
  destruct (find_row (fun c => bool_decide (prc_evidence_id c = eid)) (cases db)) as [[cid c]|] eqn:Ecase.
  - apply find_row_Some in Ecase as [Hc Hi%bool_decide_eq_true].
    inv_sales. subst.
    eapply (case_written ids r db (prc_evidence_id c) e o cid c);
      [eassumption|eassumption|done|by left|eassumption|reflexivity|eassumption].
  - inv_sales. subst.
    eapply (case_written ids r db eid e o (si_row ids) (opened_case ids r eid e o));
      [eassumption|eassumption|done|by right|eassumption|reflexivity|eassumption].
Qed.

Lemma reconcile_payment_outcome ids cmd now db :
  match case_decision cmd now with
  | Ok r => case_outcome ids r db (fst (reconcile_payment ids cmd now db)) (snd (reconcile_payment ids cmd now db))
  | Raise _ => snd (reconcile_payment ids cmd now db) = db
  end.
Proof.
  unfold reconcile_payment. destruct (case_decision cmd now) as [r|e]; [|done].
  by apply case_body_outcome, surjective_pairing.
Qed.
End PaymentSpec.

(** * What the activation of an order promises

    The conditions under which an order is activated, and the outcomes of a request. *)
Section ActivationSpec.
Context `{Sha256}.

(** The order's contract is completed. *)
Definition contracted db (order_id : UUID) (o : AdminMarketOrder) : Prop :=
  exists k c, contracts db !! k = Some c /\ ctr_order_id c = order_id /\ ctr_status c = CrCompleted /\
    ctr_customer_ref c = or_customer_ref o.

(** The evidence shows the order paid: by its customer, under its reference, to its
    destination, in full and in its currency. *)
Record pays (order_id : UUID) (o : AdminMarketOrder) (e : AdminMarketPaymentEvidence) : Prop := {
  pays_order : pev_order_id e = order_id;
  pays_customer : pev_customer_ref e = or_customer_ref o;
  pays_matched : all_matched (evidence_flags e) = true;
  pays_amount : dec_eqb (pev_actual_amount e) (or_total_amount o) = true;
  pays_currency : pev_currency e = or_currency o
}.

(** The order has a verified payment. *)
Definition verified_paid db (order_id : UUID) (o : AdminMarketOrder) : Prop :=
  exists vid v eid e, verifications db !! vid = Some v /\ pvr_order_id v = order_id /\
    pvr_status v = VfVerified /\ pvr_evidence_id v = Some eid /\ evidences db !! eid = Some e /\
    pays order_id o e.

Record activable (r : ActivationRequest) (order_id : UUID) (o : AdminMarketOrder) (plan : AdminMarketPlan)
    db : Prop := {
  ab_ready : require_order_ready o = Ok tt;
  ab_contract : contracted db order_id o;
  ab_paid : or_payment_requirement o = PayRequired -> verified_paid db order_id o;
  ab_eligible : exists k e, sl_eligibilities (db_sales db) !! k = Some e /\
    elg_customer_ref e = or_customer_ref o /\ require_automatic_eligibility (Some (k, e)) = Ok tt;
  ab_offer : exists offer, sl_offers (db_sales db) !! or_offer_id o = Some offer /\
    require_offer_valid offer o (aq_now r) = Ok tt;
  ab_plan : db_plans db !! or_plan_id o = Some plan;
  ab_no_active : forall k s, db_subscriptions db !! k = Some s -> s_customer_ref s = or_customer_ref o ->
    s_status s <> SubActive
}.

Lemma find_by_key {R} (l : list (UUID * R)) k x :
  List.find (fun kr => bool_decide (fst kr = k)) l = Some x -> x ∈ l /\ x.1 = k.
Proof.
  intros [Hin Hk]%List.find_some. split; [by apply list_elem_of_In|]. by apply bool_decide_eq_true in Hk.
Qed.

Lemma read_only_load_verified_evidence oid o eid : read_only (load_verified_evidence oid o eid).
Proof. unfold load_verified_evidence, evidence_of_order. reads_only. Qed.
Hint Resolve read_only_load_verified_evidence : maestro.
Lemma read_only_required_evidence oid o : read_only (required_evidence oid o).
Proof. unfold required_evidence, verification_by_order. reads_only. Qed.
Hint Resolve read_only_required_evidence : maestro.
Lemma read_only_activation_conditions r oid o : read_only (activation_conditions r oid o).
Proof.
  unfold activation_conditions, contract_by_order, eligibility_by_customer, active_subscription_by_customer,
    offer_by_id, plan_by_id. reads_only.
Qed.
Lemma no_commit_record_activation ids r oid o plan : no_commit (record_activation ids r oid o plan).
Proof. unfold record_activation, add_subscription, add_activation. never_commits. Qed.
Hint Resolve read_only_activation_conditions no_commit_record_activation : maestro.

(** The evidence the activation reads is that of the verification of the order. *)
Lemma required_evidence_Ok oid o s e s' :
  required_evidence oid o s = (Ok e, s') ->
  match e with
  | Some e => or_payment_requirement o = PayRequired /\
      exists vid v eid, verifications (working s) !! vid = Some v /\ pvr_order_id v = oid /\
        find_row (fun v => bool_decide (pvr_order_id v = oid)) (verifications (working s)) = Some (vid, v) /\
        pvr_status v = VfVerified /\ pvr_evidence_id v = Some eid /\
        evidences (working s) !! eid = Some e /\ fully_matched oid o e = true
  | None => or_payment_requirement o = PayNotRequired
  end.
Proof.
  unfold required_evidence. destruct (or_payment_requirement o); [|by intros [= <- _]].
  unfold verification_by_order. rewrite bind_query.
  destruct (find_row _ _) as [[vid v]|] eqn:Ev; [|done]. intros Hb.
  destruct (pvr_evidence_id v) as [eid|] eqn:Ee; [|done].
  apply M_bind_Ok in Hb as (u & s1 & [Hs <-]%lift_Ok & Hb). apply ensure_Ok in Hs. to_prop.
  apply M_bind_Ok in Hb as (e1 & s2 & Hl & Hb). injection Hb as <- _.
  unfold load_verified_evidence, evidence_of_order in Hl. rewrite bind_query in Hl.
  destruct (List.find _ _) as [[k x]|] eqn:Ef; [|done].
  apply M_bind_Ok in Hl as (u2 & s3 & [Hm <-]%lift_Ok & Hl). injection Hl as <- _.
  apply ensure_Ok in Hm. apply find_by_key in Ef as [Hin Hk]. cbn [fst] in Hk. subst k.
  apply find_rows_elem in Hin as [Hin _]. split; [done|].
  pose proof (find_row_Some _ _ _ _ Ev) as [Hv _]. exists vid, v, eid. by split_and!.
Qed.

Lemma gate_paid order_id o offer plan e active :
  agd_allowed (evaluate_activation_gate (gate_input order_id o offer plan (Some e) active)) = true ->
  or_payment_status o = OpVerified ->
  dec_eqb (pev_actual_amount e) (or_total_amount o) = true /\ pev_currency e = or_currency o.
Proof.
  intros (_ & _ & _ & _ & Hp & _)%gate_allowed Hs. unfold payment_reasons in Hp. cbn in Hp.
  rewrite Hs in Hp. cbn in Hp. rewrite !app_nil !when_nil in Hp. destruct Hp as (_ & _ & Ha & Hc).
  unfold opt_differs in Hc. to_prop. by injection Hc.
Qed.

Lemma gate_no_active order_id o offer plan e active :
  agd_allowed (evaluate_activation_gate (gate_input order_id o offer plan e active)) = true -> active = None.
Proof.
  intros (_ & _ & _ & _ & _ & Hs)%gate_allowed. unfold subscription_reasons in Hs. cbn in Hs.
  destruct active; [|done]. cbn in Hs. by destruct (differs _ _).
Qed.

Lemma order_ready_inv o :
  require_order_ready o = Ok tt ->
  or_status o = OrReadyForActivation /\ or_selected_channel o = MaestroDirect /\
  or_contract_status o = CtCompleted /\
  (or_payment_requirement o = PayRequired -> or_payment_status o = OpVerified).
Proof.
  unfold require_order_ready, ready_if. intros Hr. inv_ok. to_prop. split_and!; try done.
  intros Hp. match goal with H : _ || _ = true |- _ => apply orb_true_iff in H as [H|H]; to_prop; done end.
Qed.

Lemma activation_conditions_Ok r oid o s plan s' :
  activation_conditions r oid o s = (Ok plan, s') -> s' = s /\ activable r oid o plan (working s).
Proof.
  intros Hb. pose proof (read_only_eq _ _ _ _ (read_only_activation_conditions r oid o) Hb) as ->.
  split; [done|]. unfold activation_conditions in Hb.
  apply M_bind_Ok in Hb as (u & s1 & [Hready <-]%lift_Ok & Hb). destruct u.
  unfold contract_by_order in Hb. rewrite bind_query in Hb.
  apply M_bind_Ok in Hb as (u & s1 & [Hc <-]%lift_Ok & Hb). apply ensure_Ok in Hc.
  apply M_bind_Ok in Hb as (e & s1 & He & Hb).
  pose proof (read_only_eq _ _ _ _ (read_only_required_evidence oid o) He) as ->.
  unfold eligibility_by_customer in Hb. rewrite bind_query in Hb.
  apply M_bind_Ok in Hb as (u1 & s1 & [Hel <-]%lift_Ok & Hb).
  unfold active_subscription_by_customer in Hb. rewrite bind_query in Hb.
  unfold offer_by_id in Hb. rewrite bind_query in Hb.
  destruct (sl_offers _ !! _) as [offer|] eqn:Eo; [|done].
  apply M_bind_Ok in Hb as (u2 & s1 & [Hov <-]%lift_Ok & Hb).
  unfold plan_by_id in Hb. rewrite bind_query in Hb.
  destruct (db_plans _ !! _) as [p|] eqn:Ep; [|done].
  apply M_bind_Ok in Hb as (u3 & s1 & [Hpp <-]%lift_Ok & Hb).
  apply M_bind_Ok in Hb as (u4 & s1 & [Hg <-]%lift_Ok & Hb). injection Hb as <-.
  unfold ready_if in *. apply ensure_Ok in Hg.
  pose proof (gate_no_active _ _ _ _ _ _ Hg) as Hna.
  destruct (order_ready_inv o Hready) as (_ & _ & _ & Hver).
  split; try done.
  - unfold contract_completed in Hc. destruct (find_row _ _) as [[k c]|] eqn:Ec in Hc; [|done]. to_prop.
    apply find_row_Some in Ec as [Ec _]. exists k, c. by split_and!.
  - intros Hp. apply required_evidence_Ok in He. destruct e as [e|]; [|congruence].
    destruct He as (_ & vid & v & eid & Hv & Hvo & _ & Hvs & Hve & Hev & Hm).
    destruct (gate_paid _ _ _ _ _ _ Hg (Hver Hp)) as [Ha Hcur].
    unfold fully_matched in Hm. to_prop. exists vid, v, eid, e. by split_and!.
  - destruct (find_row _ (sl_eligibilities _)) as [[k el]|] eqn:Ee in Hel; [|done].
    apply find_row_Some in Ee as [Ee Ec%bool_decide_eq_true]. exists k, el. destruct u1. done.
  - exists offer. by destruct u2.
  - intros k s1 Hk Hcust Hst. destruct (find_row _ (db_subscriptions _)) as [[k' s2]|] eqn:Ef in Hna; [done|].
    pose proof (find_row_None _ _ _ _ Ef Hk) as Hn.
    by rewrite !bool_decide_eq_true_2 in Hn.
Qed.

Inductive activation_outcome (ids : SalesIds) (r : ActivationRequest) db
  : res SubscriptionActivationResult -> MarketDb -> Prop :=
  | activation_refused e : activation_outcome ids r db (Raise e) db
  | activation_replayed order_id o aid a s :
      market_orders db !! order_id = Some o -> or_order_ref o = lower (strip (aq_order_ref r)) ->
      activations db !! aid = Some a -> act_order_id a = Some order_id ->
      db_subscriptions db !! act_subscription_id a = Some s ->
      activation_outcome ids r db (Ok (activation_result aid a s o "subscription_already_activated")) db
  | activation_written order_id o plan s a uid u n db' :
      market_orders db !! order_id = Some o -> or_order_ref o = lower (strip (aq_order_ref r)) ->
      (forall k a', activations db !! k = Some a' -> act_order_id a' <> Some order_id) ->
      activable r order_id o plan db ->
      s = new_subscription ids order_id o (aq_now r) -> a = new_activation ids order_id o plan r ->
      db_subscriptions db !! si_row ids = None -> activations db !! si_row2 ids = None ->
      audits db !! uid = None ->
      db' = logged uid u [(si_notice ids, n)]
              (put_sales (sl_put_activation (si_row2 ids) a)
                 (put_subscription (si_row ids) s
                    (put_market_order order_id (activated_order (aq_now r) o) db))) ->
      market_constraints db' = Ok tt ->
      activation_outcome ids r db
        (Ok (activation_result (si_row2 ids) a s (activated_order (aq_now r) o) "subscription_activated")) db'.

Lemma activation_body_fails ids r : fails_clean (activation_body ids r).
Proof.
  unfold activation_body, market_commit. apply fails_clean_bind; [never_commits|intros [[oid o]|]].
  2:{ apply no_commit_fails_clean. never_commits. }
  apply fails_clean_bind; [never_commits|intros _key].
  apply fails_clean_bind; [never_commits|intros _checked].
  apply fails_clean_bind; [never_commits|intros [[aid act]|]].
  { apply no_commit_fails_clean. unfold subscription_by_id. never_commits. }
  apply fails_clean_bind; [never_commits|intros plan].
  apply fails_clean_bind; [never_commits|intros [[sub act] o']]. apply fails_clean_commit_ret.
Qed.

Lemma activation_body_outcome ids r db result db' :
  with_uow (activation_body ids r) db = (result, db') -> activation_outcome ids r db result db'.
Proof.
  destruct result as [result|e]; intros Hb.
  2:{ apply with_uow_fails in Hb as ->; [constructor|apply activation_body_fails]. }
  apply with_uow_inv in Hb as (s' & Hb & <-). unfold activation_body in Hb.
  apply M_bind_Ok in Hb as (orow & s1 & Ho & Hb). destruct orow as [[oid o]|]; [|done].
  apply market_order_found in Ho as (-> & Ho & Hr). unfold activation_by_hash in Hb.
  rewrite bind_query in Hb. cbn [working] in *.
  apply M_bind_Ok in Hb as (u & s1 & [_ <-]%lift_Ok & Hb). unfold activation_by_order in Hb.
  rewrite bind_query in Hb. cbn [working] in *.
  destruct (find_row (fun a => bool_decide (act_order_id a = Some oid)) (activations db)) as [[aid a]|] eqn:Ea.
  - apply find_row_Some in Ea as [Ha Hi%bool_decide_eq_true]. unfold subscription_by_id in Hb.
    rewrite bind_query in Hb. cbn [working] in Hb.
    destruct (db_subscriptions db !! act_subscription_id a) as [s|] eqn:Es; [|done].
    injection Hb as <- <-. eapply activation_replayed; eauto.
  - apply M_bind_Ok in Hb as (plan & s1 & Hc & Hb). apply activation_conditions_Ok in Hc as [-> Hc].
    unfold record_activation, add_subscription, add_activation in Hb. inv_sales.
    cbn [working committed] in *. simplify_eq.
    eapply activation_written; try eassumption; try reflexivity.
    intros k a' Hk. pose proof (find_row_None _ _ _ _ Ea Hk) as Hn. by apply bool_decide_eq_false in Hn.
Qed.

Lemma activate_ready_order_outcome ids ref correlation key now db later :
  match activation_request ref correlation key now with
  | Ok r => exists result,
      activation_outcome ids r db result (snd (activate_ready_order ids ref correlation key now db later))
  | Raise _ => snd (activate_ready_order ids ref correlation key now db later) = db
  end.
Proof.
  unfold activate_ready_order. destruct (activation_request ref correlation key now) as [r|e]; [|done].
  rewrite with_replay_db. destruct (with_uow _ db) as [result db'] eqn:E. exists result.
  by apply activation_body_outcome.
Qed.
End ActivationSpec.
