(* ===== verification/SalesChange.v ===== *)
(** * The changes of the direct sales

    Every request of the direct sales leaves the database as it is, or makes one of six
    changes and writes one audit record with it; and what none of the changes touches. *)
From S2P Require Import Prelude PyString PyDateTime PyDecimal PyText PyJson Authority Uow SalesDb MarketDb.
From S2P Require Import CommerceAudit DirectOrder PaymentEvidence PaymentReconciliation.
From S2P Require Import Activation TopUpSpec MarketFrames LemonSpec.
From S2P Require Import OrderSpec.
#[local] Open Scope Z_scope.

Section SalesChange.
Context `{Sha256}.
Implicit Types db : MarketDb.

(** The change of one request, without what it logs. *)
Inductive sales_change db : MarketDb -> Prop :=
  | ch_ordered ids r offer_id offer d o :
      order_sold r ids offer_id offer d o db -> sales_change db (put_market_order (si_row ids) o db)
  | ch_contracted ids r order_id o :
      market_orders db !! order_id = Some o -> or_customer_ref o = cq_customer r ->
      contract_acceptable o (cq_version r) = Ok tt -> contracts db !! si_row ids = None ->
      sales_change db
        (put_sales (sl_put_contract (si_row ids) (completed_contract ids r order_id))
           (put_market_order order_id (contract_completed_order (cq_now r) o) db))
  | ch_reported ids r order_id o m :
      market_orders db !! order_id = Some o -> or_customer_ref o = pq_customer r -> reportable o ->
      m = report_match o (pq_reference r) (pq_amount r) (pq_currency r) ->
      evidences db !! si_row ids = None ->
      sales_change db
        (put_evidence (si_row ids) (reported_evidence ids r order_id m)
           (put_market_order order_id (reported_order r m o) db))
  | ch_decided ids r eid e o :
      evidences db !! eid = Some e -> market_orders db !! pev_order_id e = Some o ->
      (forall k v, verifications db !! k = Some v -> pvr_order_id v <> pev_order_id e) ->
      (exists c, require_verifiable o eid e (vq_verified r) c = Ok tt) ->
      verifications db !! si_row ids = None ->
      sales_change db
        (put_sales (sl_put_verification (si_row ids) (new_verification ids r (pev_order_id e) eid e))
           (put_evidence eid (decided_evidence r e)
              (put_market_order (pev_order_id e) (decided_order r o) db)))
  | ch_reconciled r eid e o cid c candidate target same :
      evidences db !! eid = Some e -> market_orders db !! pev_order_id e = Some o ->
      cd_action r = DoAcceptMatch \/ cd_action r = DoReview ->
      sales_change db
        (put_market_order (pev_order_id e) (case_order r o)
           (put_evidence eid (case_evidence r e target same)
              (put_case cid (decided_case r candidate c) db)))
  | ch_activated ids r order_id o plan :
      market_orders db !! order_id = Some o -> activable r order_id o plan db ->
      db_subscriptions db !! si_row ids = None -> activations db !! si_row2 ids = None ->
      sales_change db
        (put_sales (sl_put_activation (si_row2 ids) (new_activation ids order_id o plan r))
           (put_subscription (si_row ids) (new_subscription ids order_id o (aq_now r))
              (put_market_order order_id (activated_order (aq_now r) o) db))).

(** Nothing happened, or a change with its audit record and at least one notification. *)
Inductive sales_request db : MarketDb -> Prop :=
  | rq_none : sales_request db db
  | rq_changed db1 aid a n ns :
      sales_change db db1 -> audits db !! aid = None ->
      market_constraints (logged aid a (n :: ns) db1) = Ok tt ->
      sales_request db (logged aid a (n :: ns) db1).

(** ** The requests *)

Lemma create_direct_order_request ids cmd now db later :
  sales_request db (snd (create_direct_order ids cmd now db later)).
Proof.
  pose proof (create_direct_order_outcome ids cmd now db later) as E.
  destruct (direct_order_request cmd now) as [r|x]; [|rewrite E; constructor].
  destruct E as [result E]. destruct E as [| |offer_id offer d o result aid a n db' Hs _ Ha -> Hk];
    [constructor..|]. constructor; [|done|done]. eapply ch_ordered; eassumption.
Qed.

Lemma clickwrap_request ids cmd now db later :
  sales_request db (snd (complete_authenticated_clickwrap ids cmd now db later)).
Proof.
  pose proof (clickwrap_outcome ids cmd now db later) as E.
  destruct (contract_request cmd now) as [r|x]; [|rewrite E; constructor].
  destruct E as [result E].
  destruct E as [| |oid o c aid a n1 n2 db' Ho _ Hc _ Hacc -> Hf Ha -> Hk]; [constructor..|].
  constructor; [|done|done]. by apply (ch_contracted _ ids).
Qed.

Lemma report_payment_request ids cmd now db later :
  sales_request db (snd (report_payment ids cmd now db later)).
Proof.
  pose proof (report_payment_outcome ids cmd now db later) as E.
  destruct (payment_report cmd now) as [r|x]; [|rewrite E; constructor].
  destruct E as [result E].
  destruct E as [| |oid o m e aid a n db' _ Ho _ Hc Hr Hm -> Hf Ha -> Hk]; [constructor..|].
  constructor; [|done|done]. by apply (ch_reported _ ids).
Qed.

Lemma decide_payment_request ids cmd now db later :
  sales_request db (snd (decide_payment ids cmd now db later)).
Proof.
  pose proof (decide_payment_outcome ids cmd now db later) as E.
  destruct (payment_decision cmd now) as [r|x]; [|rewrite E; constructor].
  destruct E as [result E].
  destruct E as [| |eid e o c v aid a n db' He Ho Hn _ Hr -> Hf Ha -> Hk]; [constructor..|].
  constructor; [|done|done]. apply (ch_decided _ ids); eauto.
Qed.

(** Only two of the six actions have a resolution the table accepts. *)
Lemma resolution_accepted a :
  bool_decide (resolution a ∈ RESOLUTIONS) = true -> a = DoAcceptMatch \/ a = DoReview.
Proof. destruct a; cbn; intros Hr; auto; by apply bool_decide_eq_true in Hr; set_solver. Qed.

Lemma case_resolution db id c :
  market_constraints db = Ok tt -> cases db !! id = Some c ->
  match prc_resolution c with Some r => bool_decide (r ∈ RESOLUTIONS) = true | None => True end.
Proof.
  unfold market_constraints. intros (? & _ & Hk%ensure_Ok)%res_bind_Ok Hc. to_prop.
  match goal with Hs : sales_checks _ = true |- _ => unfold sales_checks in Hs; to_prop end.
  match goal with Hs : check_rows case_checks _ = true |- _ =>
    rewrite check_rows_true in Hs; pose proof (Hs _ _ Hc) as Hr end.
  unfold case_checks in Hr. to_prop. by destruct (prc_resolution c).
Qed.

Lemma reconcile_payment_request ids cmd now db :
  sales_request db (snd (reconcile_payment ids cmd now db)).
Proof.
  pose proof (reconcile_payment_outcome ids cmd now db) as E.
  destruct (case_decision cmd now) as [r|x]; [|rewrite E; constructor].
  destruct E as [| |eid e o cid c candidate target same aid a n result db' He Ho Hc _ Ha -> Hk];
    [constructor..|].
  constructor; [|done|done]. apply ch_reconciled; try done. apply resolution_accepted.
  pose proof (case_resolution _ cid (decided_case r candidate c) Hk) as Hr. apply Hr.
  cbn. apply lookup_insert_eq.
Qed.

Lemma activate_ready_order_request ids ref correlation key now db later :
  sales_request db (snd (activate_ready_order ids ref correlation key now db later)).
Proof.
  pose proof (activate_ready_order_outcome ids ref correlation key now db later) as E.
  destruct (activation_request ref correlation key now) as [r|x]; [|rewrite E; constructor].
  destruct E as [result E].
  destruct E as [| |oid o plan s a uid u n db' Ho _ _ Hab -> -> Hs Hac Hu -> Hk]; [constructor..|].
  constructor; [|done|done]. by apply (ch_activated _ ids).
Qed.

End SalesChange.

(** ** What is logged touches the audit records and the outbox only *)

Section Logged.
Context (aid : UUID) (a : AdminMarketAuditRecord) (ns : list (UUID * AdminMarketNotificationOutbox)).
Implicit Types db : MarketDb.

Ltac by_notices := unfold logged; cbn; induction ns as [|[? ?] ? IH]; [done|exact IH].

Lemma logged_orders db : market_orders (logged aid a ns db) = market_orders db.
Proof. by_notices. Qed.
Lemma logged_contracts db : contracts (logged aid a ns db) = contracts db.
Proof. by_notices. Qed.
Lemma logged_evidences db : evidences (logged aid a ns db) = evidences db.
Proof. by_notices. Qed.
Lemma logged_verifications db : verifications (logged aid a ns db) = verifications db.
Proof. by_notices. Qed.
Lemma logged_activations db : activations (logged aid a ns db) = activations db.
Proof. by_notices. Qed.
Lemma logged_audits db : audits (logged aid a ns db) = <[aid := a]> (audits db).
Proof. by_notices. Qed.
Lemma logged_offers db : sl_offers (db_sales (logged aid a ns db)) = sl_offers (db_sales db).
Proof. by_notices. Qed.
End Logged.

#[export] Hint Rewrite logged_orders logged_contracts logged_evidences logged_verifications
  logged_activations logged_offers : logged.

(** ** What the requests of the sales leave alone *)

Record sales_frame (db db' : MarketDb) : Prop := {
  sf_plans : db_plans db' = db_plans db;
  sf_runtimes : db_runtimes db' = db_runtimes db;
  sf_delinquencies : db_delinquencies db' = db_delinquencies db;
  sf_cycles : db_cycles db' = db_cycles db;
  sf_usages : db_usages db' = db_usages db;
  sf_transitions : db_transitions db' = db_transitions db;
  sf_top_ups : db_top_ups db' = db_top_ups db;
  sf_provider : db_provider db' = db_provider db;
  sf_subscriptions : forall id s,
    db_subscriptions db !! id = Some s -> db_subscriptions db' !! id = Some s
}.

Definition sales_step (db db' : MarketDb) : Prop :=
  db' = db \/ market_constraints db' = Ok tt /\ sales_frame db db'.

Lemma sales_change_frame `{Sha256} db db' aid a ns :
  sales_change db db' -> sales_frame db (logged aid a ns db').
Proof.
  intros Hc. destruct Hc as [| | | | |? ? ? ? ? ? ? Hs ?]; split; try done.
  cbn. intros id s Hid. by rewrite lookup_insert_ne; [intros E; congruence|].
Qed.

Lemma sales_request_step `{Sha256} db db' : sales_request db db' -> sales_step db db'.
Proof. intros [|db1 aid a n ns Hc _ Hk]; [by left|right]. split; [done|]. by apply sales_change_frame. Qed.

(** ** The requests as one alphabet *)

Inductive sales_op :=
  | SoOrder (cmd : DirectOrderCommand)
  | SoContract (cmd : ContractCommand)
  | SoReport (cmd : PaymentReportCommand)
  | SoDecide (cmd : VerifyPaymentCommand)
  | SoReconcile (cmd : ReconcilePaymentCommand)
  | SoActivate (order_ref correlation_id idempotency_key : string).

(** A request at [now]; [later] is the database its replay would find. *)
Definition sales_exec `{Sha256} (ids : SalesIds) (now : datetime) (later : MarketDb) (o : sales_op)
    (db : MarketDb) : MarketDb :=
  match o with
  | SoOrder cmd => snd (create_direct_order ids cmd now db later)
  | SoContract cmd => snd (complete_authenticated_clickwrap ids cmd now db later)
  | SoReport cmd => snd (report_payment ids cmd now db later)
  | SoDecide cmd => snd (decide_payment ids cmd now db later)
  | SoReconcile cmd => snd (reconcile_payment ids cmd now db)
  | SoActivate ref correlation key => snd (activate_ready_order ids ref correlation key now db later)
  end.

(** Whether the request succeeds. *)
Definition sales_accepted `{Sha256} (ids : SalesIds) (now : datetime) (later : MarketDb) (o : sales_op)
    (db : MarketDb) : bool :=
  match o with
  | SoOrder cmd => is_ok (fst (create_direct_order ids cmd now db later))
  | SoContract cmd => is_ok (fst (complete_authenticated_clickwrap ids cmd now db later))
  | SoReport cmd => is_ok (fst (report_payment ids cmd now db later))
  | SoDecide cmd => is_ok (fst (decide_payment ids cmd now db later))
  | SoReconcile cmd => is_ok (fst (reconcile_payment ids cmd now db))
  | SoActivate ref correlation key => is_ok (fst (activate_ready_order ids ref correlation key now db later))
  end.

Lemma sales_exec_request `{Sha256} ids now later o db : sales_request db (sales_exec ids now later o db).
Proof.
  destruct o; cbn.
  - apply create_direct_order_request.
  - apply clickwrap_request.
  - apply report_payment_request.
  - apply decide_payment_request.
  - apply reconcile_payment_request.
  - apply activate_ready_order_request.
Qed.

Lemma sales_exec_step `{Sha256} ids now later o db : sales_step db (sales_exec ids now later o db).
Proof. apply sales_request_step, sales_exec_request. Qed.
