(* ===== verification/LemonTopUpSpec.v ===== *)
(** * What the provider's top-ups promise

    The outcomes of [process_top_up] and [process_refund]: refused without a trace, an
    entry already processed reported again, or the entry claimed and closed together with
    the payment evidence and the grant, or with the reversal. *)
From S2P Require Import Prelude PyString PyDecimal PlanCatalog PyDateTime TopUpQuote PyText Uow TopUpDb LemonWebhook MarketDb TopUpOrder TopUpGrant TopUpSpec LemonRuntime LemonInbox LemonProcess LemonTopUp LemonCheckout MarketFrames LemonSpec.
#[local] Open Scope Z_scope.
Section LemonTopUpSpec.
Implicit Types (db : MarketDb) (i : inbox_row) (o : CommercialTopUpOrder).

Notation orders db := (tu_orders (db_top_ups db)).
Notation payments db := (tu_payments (db_top_ups db)).
Notation grants db := (tu_grants (db_top_ups db)).
Notation reversals db := (tu_reversals (db_top_ups db)).

(** ** Reads and commits *)

Lemma read_only_bound_order i oid a c : read_only (bound_top_up_order i oid a c).
Proof. unfold bound_top_up_order, order_by_id. reads_only. Qed.
Lemma read_only_paid_event i : read_only (paid_top_up_event i).
Proof. unfold paid_top_up_event. reads_only. Qed.
Lemma read_only_purchase i : read_only (top_up_purchase i).
Proof. pose proof read_only_bound_order. pose proof read_only_paid_event. unfold top_up_purchase. reads_only. Qed.
Lemma read_only_refund_event i : read_only (refund_event i).
Proof. unfold refund_event. reads_only. Qed.
Lemma read_only_refund_amounts i oid : read_only (refund_amounts i oid).
Proof. pose proof read_only_bound_order. pose proof read_only_refund_event. unfold refund_amounts. reads_only. Qed.

Lemma no_commit_apply_grant id cmd : no_commit (apply_verified_subscription_top_up_in_uow id cmd).
Proof.
  intros s. destruct (apply_verified_subscription_top_up_in_uow id cmd s) as [r s'] eqn:E.
  by apply apply_grant_outcome in E as [].
Qed.
Lemma no_commit_translate_grant {A} k msg (m : Market A) :
  no_commit m -> no_commit (translate_grant_error k msg m).
Proof.
  intros Hm s. specialize (Hm s). unfold translate_grant_error.
  destruct (m s) as [[a|[c x]] s']; [done|]. by destruct c.
Qed.
Lemma no_commit_apply_reversal id cmd : no_commit (reverse_subscription_top_up_in_uow id cmd).
Proof.
  intros s. destruct (reverse_subscription_top_up_in_uow id cmd s) as [r s'] eqn:E.
  apply reverse_in_uow_cases in E as [[_ ->]|[(? & ? & _ & -> & _)|(? & ? & ? & _ & _ & _ & _ & _ & ->)]]; done.
Qed.
Lemma no_commit_translate_reversal {A} msg (m : Market A) :
  no_commit m -> no_commit (translate_reversal_error msg m).
Proof.
  intros Hm s. specialize (Hm s). unfold translate_reversal_error.
  destruct (m s) as [[a|[c x]] s']; [done|]. by destruct c.
Qed.
Lemma no_commit_evidence pid id oid i a t : no_commit (provider_evidence pid id oid i a t).
Proof. unfold provider_evidence, payment_by_provider_reference, add_payment. never_commits. Qed.

Lemma fulfil_fails_clean ids id i t : fails_clean (fulfil_top_up ids id i t).
Proof.
  pose proof read_only_purchase. pose proof no_commit_evidence.
  pose proof (fun id cmd msg => no_commit_translate_grant LemonSqueezyWebhookError msg _
                (no_commit_apply_grant id cmd)).
  unfold fulfil_top_up, market_commit. commits_last.
Qed.

Lemma top_up_fails_clean ids id t : fails_clean (process_top_up_body ids id t).
Proof.
  pose proof fulfil_fails_clean.
  unfold process_top_up_body, replayed_top_up, inbox_by_id, grant_by_order_id. commits_last.
Qed.

Lemma close_fails_clean {A} id i t (a : A) : fails_clean (close_processed id i t;; mret a).
Proof.
  assert (fails_clean (close_processed id i t)) as Hc
    by (unfold close_processed, market_commit; commits_last).
  intros s e s'. rewrite M_bind_eq. destruct (close_processed id i t s) as [[u|x] s1] eqn:E; [done|].
  intros [= _ <-]. by apply Hc in E.
Qed.

Lemma refund_fails_clean ids id t : fails_clean (process_refund_body ids id t).
Proof.
  pose proof read_only_refund_amounts.
  pose proof (fun id cmd msg => no_commit_translate_reversal msg _ (no_commit_apply_reversal id cmd)).
  unfold process_refund_body, settle_refund, replayed_refund, inbox_by_id, reversal_by_provider_event_ref.
  pose proof @close_fails_clean. commits_last.
Qed.

(** ** A paid order *)

(** What a paid event says, against the order it refers to. *)
Record purchased db i (oid : UUID) o (amount : dec) : Prop := {
  pu_reference : uuid_of_text (i_order_ref i) = Some oid;
  pu_order : orders db !! oid = Some o;
  pu_customer : o_customer_ref o = i_customer_ref i;
  pu_channel : o_channel o = LEMON_SQUEEZY;
  pu_variant : o_provider_variant_id o = i_variant_id i;
  pu_offer : i_offer_ref i = TOP_UP_OFFER_REF;
  pu_event : i_event_name i = "order_created";
  pu_paid : i_provider_status i = Some "paid";
  pu_amount : exists subtotal, i_subtotal_amount i = Some subtotal /\
    amount_from_cents subtotal "top-up subtotal evidence is invalid." = Ok amount;
  pu_settled : dec_eqb amount (o_settlement_amount o) = true
}.

Lemma bound_order_Ok i oid a c s o s' :
  bound_top_up_order i oid a c s = (Ok o, s') ->
  s' = s /\ orders (working s) !! oid = Some o /\ o_customer_ref o = i_customer_ref i /\
  o_channel o = LEMON_SQUEEZY /\ o_provider_variant_id o = i_variant_id i.
Proof.
  unfold bound_top_up_order, order_by_id. intros H. inv_webhook. to_prop. subst.
  by split_and!.
Qed.

Lemma purchase_Ok i s oid o amount s' :
  top_up_purchase i s = (Ok (oid, o, amount), s') ->
  s' = s /\ purchased (working s) i oid o amount.
Proof.
  intros H. pose proof (read_only_eq _ _ _ _ (read_only_purchase _) H) as ->. split; [done|].
  unfold top_up_purchase, paid_top_up_event in H. inv_webhook.
  match goal with H : bound_top_up_order _ _ _ _ _ = _ |- _ =>
    apply bound_order_Ok in H as (-> & Ho & Hc & Hch & Hv) end.
  to_prop. simplify_eq. split; eauto.
Qed.

Lemma provider_evidence_Ok k id oid i amount t s u s' :
  provider_evidence k id oid i amount t s = (Ok u, s') ->
  exists p, s' = {| working := with_payment k p (working s); committed := committed s |} /\
    match p with
    | Some p => payments (working s) !! k = None /\ pe_order_id p = oid /\
                pe_provider_reference p = provider_order_reference i
    | None => True
    end.
Proof.
  unfold provider_evidence, payment_by_provider_reference. rewrite M_bind_eq query_eq.
  destruct (find_row _ _) as [[k' p]|].
  - intros H. exists None. split; [|done]. destruct s as [w0 c0].
    match type of H with ?m ?s = _ => assert (read_only m) as Hr by reads_only end.
    by apply (read_only_eq _ _ _ _ Hr) in H as ->.
  - intros [Hn ->]%add_row_Ok. eexists (Some _). split; [reflexivity|]. by split_and!.
Qed.

(** The database with the evidence, the order awaiting its grant and the entry claimed. *)
Definition paid_db (ids : TopUpIds) (id : UUID) i (t : datetime) (oid : UUID) o
    (p : option CommercialTopUpPaymentEvidence) db : MarketDb :=
  put_inbox id (claimed_entry t i)
    (if bool_decide (o_state o = AWAITING_PAYMENT)
     then awaiting_grant oid o (with_payment (tid_payment ids) p db)
     else with_payment (tid_payment ids) p db).

Inductive top_up_outcome (ids : TopUpIds) (id : UUID) (t : datetime) db
  : res LemonSqueezyTopUpProcessingResult -> MarketDb -> Prop :=
  | tp_refused e : top_up_outcome ids id t db (Raise e) db
  | tp_reported i oid gid g :
      inbox db !! id = Some i -> i_processing_status i = InProcessed ->
      uuid_of_text (i_order_ref i) = Some oid -> grants db !! gid = Some g -> g_order_id g = oid ->
      top_up_outcome ids id t db
        (Ok {| tp_inbox_id := id; tp_order_id := oid; tp_grant_id := gid; tp_units := g_units g;
               tp_replayed_grant := true |}) db
  | tp_fulfilled i oid o amount p g s2 db' :
      inbox db !! id = Some i -> i_processing_status i = InReceived ->
      0 <= i_attempt_count i <= MAX_ATTEMPT_COUNT -> naive t = false ->
      purchased db i oid o amount ->
      match p with
      | Some p => payments db !! tid_payment ids = None /\ pe_order_id p = oid /\
                  pe_provider_reference p = provider_order_reference i
      | None => True
      end ->
      grant_outcome (tid_grant ids) (top_up_grant_command oid o i t)
        {| working := paid_db ids id i t oid o p db; committed := db |} (Ok g) s2 ->
      db' = put_inbox id (processed_entry t i) (working s2) ->
      market_constraints db' = Ok tt ->
      top_up_outcome ids id t db
        (Ok {| tp_inbox_id := id; tp_order_id := oid; tp_grant_id := gr_grant_id g;
               tp_units := gr_units g; tp_replayed_grant := gr_idempotent_replay g |}) db'.

Lemma fulfil_Ok ids id i t db r s' :
  inbox db !! id = Some i -> naive t = false ->
  fulfil_top_up ids id i t {| working := db; committed := db |} = (Ok r, s') ->
  top_up_outcome ids id t db (Ok r) (committed s').
Proof.
  intros Hi Ht. unfold fulfil_top_up. intros H. apply M_bind_Ok in H as ([[oid o] amount] & s1 & Hp & H).
  apply purchase_Ok in Hp as [-> Hp]. apply M_bind_Ok in H as (u & s2 & He & H).
  apply provider_evidence_Ok in He as (p & -> & Hpay). cbn [working committed] in *.
  apply M_bind_Ok in H as (u1 & s3 & Ho & H).
  assert (s3 = {| working := if bool_decide (o_state o = AWAITING_PAYMENT)
                   then awaiting_grant oid o (with_payment (tid_payment ids) p db)
                   else with_payment (tid_payment ids) p db; committed := db |}) as ->.
  { by destruct (bool_decide _); injection Ho as _ <-. }
  inv_webhook. match goal with H : claim_lemon_squeezy_webhook _ _ = _ |- _ =>
    apply claim_Ok in H as (Hst & _ & _ & _ & Hat & _ & ->) end.
  match goal with H : translate_grant_error _ _ _ _ = _ |- _ =>
    apply translate_grant_Ok in H as (r' & Hg & Hr) end.
  destruct r' as [g|e]; [injection Hr as <-|by destruct Hr].
  match goal with H : mark_lemon_squeezy_webhook_processed _ _ = _ |- _ =>
    apply close_claimed in H as -> end.
  apply apply_grant_outcome in Hg. cbn [working committed] in *. subst.
  eapply (tp_fulfilled _ _ _ _ i oid o amount p); first [eassumption|reflexivity].
Qed.

Lemma process_top_up_outcome ids id t db r db' :
  process_top_up ids id t db = (r, db') -> top_up_outcome ids id t db r db'.
Proof.
  unfold process_top_up. destruct (naive t) eqn:En; [intros [= <- <-]; constructor|].
  destruct r as [r|e]; [|intros ->%with_uow_fails; [constructor|apply top_up_fails_clean]].
  intros (s' & H & <-)%with_uow_inv. unfold process_top_up_body, inbox_by_id in H. inv_webhook.
  destruct (bool_decide _) eqn:Es in H; [|subst; eapply fulfil_Ok; eassumption].
  unfold replayed_top_up, grant_by_order_id in H. inv_webhook. to_prop. subst.
  match goal with H : find_row _ _ = Some ?x |- _ => destruct x as [gid g];
    apply find_row_Some in H as [Hg Ho%bool_decide_eq_true] end. cbn in Ho. subst.
  eapply tp_reported; first [eassumption|reflexivity].
Qed.

(** ** A refund *)

(** What a refund event says, against the order it refers to. *)
Record refunded db i (oid : UUID) (part total : dec) : Prop := {
  re_order : exists o, orders db !! oid = Some o /\ o_customer_ref o = i_customer_ref i /\
    o_channel o = LEMON_SQUEEZY /\ o_provider_variant_id o = i_variant_id i;
  re_offer : i_offer_ref i = TOP_UP_OFFER_REF;
  re_event : i_event_name i = "order_refunded";
  re_part : exists text, i_refunded_amount i = Some text /\
    amount_from_cents text "top-up refunded amount is invalid." = Ok part;
  re_total : exists text, i_total_amount i = Some text /\
    amount_from_cents text "top-up total amount is invalid." = Ok total;
  re_positive : dec_leb part (dec_int 0) = false;
  re_bounded : dec_ltb total part = false
}.

Inductive refund_outcome (ids : TopUpIds) (id : UUID) (t : datetime) db
  : res LemonSqueezyTopUpRefundResult -> MarketDb -> Prop :=
  | rfo_refused e : refund_outcome ids id t db (Raise e) db
  | rfo_reported i oid v :
      inbox db !! id = Some i -> i_processing_status i = InProcessed ->
      uuid_of_text (i_order_ref i) = Some oid ->
      v = find_row (fun v => bool_decide (v_provider_event_ref v = provider_event_ref i)) (reversals db) ->
      refund_outcome ids id t db
        (Ok {| rf_inbox_id := id; rf_order_id := oid;
               rf_outcome := if is_some_b v then ROReversed else ROManualReview;
               rf_reversal_id := fst <$> v; rf_replayed := true |}) db
  | rfo_partial i oid part total db' :
      inbox db !! id = Some i -> i_processing_status i = InReceived ->
      0 <= i_attempt_count i <= MAX_ATTEMPT_COUNT -> naive t = false ->
      uuid_of_text (i_order_ref i) = Some oid -> refunded db i oid part total ->
      i_provider_status i = Some "partial_refund" -> dec_ltb part total = true ->
      db' = put_inbox id (processed_entry t i) (put_inbox id (claimed_entry t i) db) ->
      market_constraints db' = Ok tt ->
      refund_outcome ids id t db
        (Ok {| rf_inbox_id := id; rf_order_id := oid; rf_outcome := ROManualReview;
               rf_reversal_id := None; rf_replayed := false |}) db'
  | rfo_full i oid part total r s2 db' :
      inbox db !! id = Some i -> i_processing_status i = InReceived ->
      0 <= i_attempt_count i <= MAX_ATTEMPT_COUNT -> naive t = false ->
      uuid_of_text (i_order_ref i) = Some oid -> refunded db i oid part total ->
      i_provider_status i = Some "refunded" -> dec_eqb part total = true ->
      reverse_subscription_top_up_in_uow (tid_reversal ids)
        {| rc_order_id := oid; rc_provider_event_ref := provider_event_ref i;
           rc_reason_code := "provider_full_refund"; rc_reversed_at := t |}
        {| working := put_inbox id (claimed_entry t i) db; committed := db |} = (Ok r, s2) ->
      db' = put_inbox id (processed_entry t i) (working s2) ->
      market_constraints db' = Ok tt ->
      refund_outcome ids id t db
        (Ok {| rf_inbox_id := id; rf_order_id := oid; rf_outcome := rr_outcome r;
               rf_reversal_id := Some (rr_reversal_id r); rf_replayed := rr_idempotent_replay r |}) db'.

Lemma refund_amounts_Ok i oid s part total s' :
  refund_amounts i oid s = (Ok (part, total), s') ->
  s' = s /\ refunded (working s) i oid part total.
Proof.
  intros H. pose proof (read_only_eq _ _ _ _ (read_only_refund_amounts _ _) H) as ->. split; [done|].
  unfold refund_amounts, refund_event in H. inv_webhook. cbn [fst snd] in *.
  match goal with H : bound_top_up_order _ _ _ _ _ = _ |- _ =>
    apply bound_order_Ok in H as (-> & Ho & Hc & Hch & Hv) end.
  to_prop. simplify_eq. split; eauto 10.
Qed.

Lemma close_processed_Ok id i t s u s' :
  close_processed id (claimed_entry t i) t s = (Ok u, s') ->
  committed s' = put_inbox id (processed_entry t i) (working s) /\
  market_constraints (committed s') = Ok tt.
Proof.
  unfold close_processed. intros H. inv_webhook.
  match goal with H : mark_lemon_squeezy_webhook_processed _ _ = _ |- _ =>
    apply close_claimed in H as -> end. done.
Qed.

Lemma translate_reversal_Ok {A} msg (m : Market A) s a s' :
  translate_reversal_error msg m s = (Ok a, s') -> m s = (Ok a, s').
Proof. unfold translate_reversal_error. by destruct (m s) as [[x|[[] ?]] s1]. Qed.

Lemma settle_Ok ids id oid i t db r s' :
  inbox db !! id = Some i -> naive t = false -> uuid_of_text (i_order_ref i) = Some oid ->
  settle_refund ids id oid i t {| working := db; committed := db |} = (Ok r, s') ->
  refund_outcome ids id t db (Ok r) (committed s').
Proof.
  intros Hi Ht Hu. unfold settle_refund. intros H.
  apply M_bind_Ok in H as ([part total] & s1 & Ha & H). apply refund_amounts_Ok in Ha as [-> Hr].
  cbn [working] in Hr. inv_webhook. match goal with H : claim_lemon_squeezy_webhook _ _ = _ |- _ =>
    apply claim_Ok in H as (Hst & _ & _ & _ & Hat & _ & ->) end.
  destruct (_ && _) eqn:Ep in H; inv_webhook; to_prop;
    match goal with H : close_processed _ _ _ _ = _ |- _ =>
      apply close_processed_Ok in H as [Hc Hk] end; cbn [working] in *; subst r.
  - match goal with E : s' = _ |- _ => subst s' | E : _ = s' |- _ => subst s' end.
    rewrite Hc in Hk |- *. eapply rfo_partial; first [eassumption|reflexivity].
  - match goal with E : s' = _ |- _ => subst s' | E : _ = s' |- _ => subst s' end.
    match goal with H : translate_reversal_error _ _ _ = _ |- _ =>
      apply translate_reversal_Ok in H as Hv end.
    rewrite Hc in Hk |- *. eapply rfo_full; first [eassumption|reflexivity].
Qed.

Lemma process_refund_outcome ids id t db r db' :
  process_refund ids id t db = (r, db') -> refund_outcome ids id t db r db'.
Proof.
  unfold process_refund. destruct (naive t) eqn:En; [intros [= <- <-]; constructor|].
  destruct r as [r|e]; [|intros ->%with_uow_fails; [constructor|apply refund_fails_clean]].
  intros (s' & H & <-)%with_uow_inv. unfold process_refund_body, inbox_by_id in H. inv_webhook.
  destruct (bool_decide _) eqn:Es in H; [|subst; eapply settle_Ok; eassumption].
  unfold replayed_refund, reversal_by_provider_event_ref in H. inv_webhook. to_prop. subst.
  eapply rfo_reported; first [eassumption|reflexivity].
Qed.


(** ** Within the frame of the top-ups *)

Lemma top_up_frame_paid ids id i t oid o p db : top_up_frame db (paid_db ids id i t oid o p db).
Proof. unfold paid_db. destruct (bool_decide _); by destruct p; split. Qed.

Lemma top_up_frame_grant_outcome gid cmd db db0 r s2 :
  grant_outcome gid cmd {| working := db; committed := db0 |} r s2 -> top_up_frame db (working s2).
Proof.
  intros [e|k g Hg Hof|g o c Hn Hof Hat]; [done|done|]. apply top_up_frame_granted, (gn_cycle _ _ _ _ _ Hn).
Qed.

Lemma process_top_up_step ids id t db : top_up_step db (snd (process_top_up ids id t db)).
Proof.
  destruct (process_top_up _ _ _ _) as [r db'] eqn:E. apply process_top_up_outcome in E. cbn.
  destruct E as [| |i oid o amount p g s2 db' _ _ _ _ _ _ Hg -> Hk]; [by left|by left|].
  right. split; [done|]. apply top_up_frame_grant_outcome in Hg.
  etrans; [apply top_up_frame_paid|]. etrans; [exact Hg|apply top_up_frame_provider].
Qed.

Lemma process_refund_step ids id t db : top_up_step db (snd (process_refund ids id t db)).
Proof.
  destruct (process_refund _ _ _ _) as [r db'] eqn:E. apply process_refund_outcome in E. cbn.
  destruct E as [| |i oid pa to db' _ _ _ _ _ _ _ _ -> Hk
    |i oid pa to r s2 db' _ _ _ _ _ _ _ _ Hv -> Hk]; [by left|by left|right..]; (split; [done|]).
  - etrans; apply top_up_frame_provider.
  - apply reverse_in_uow_cases in Hv as [[[? Eq] _]|[(? & ? & _ & -> & _)|(v & g & c & _ & Hn & _ & _ & _ & ->)]];
      [done|etrans; apply top_up_frame_provider|].
    etrans; [apply top_up_frame_provider|]. etrans; [|apply top_up_frame_provider]. cbn.
    apply top_up_frame_reversed, (rn_cycle _ _ _ _ _ Hn).
Qed.
End LemonTopUpSpec.

(** * What the provider checkouts promise

    The checkout columns of an order as a state machine: not started, being created,
    uncertain, ready; and the proof that the steps of [LemonCheckout] make one of its
    moves or none. *)
Notation orders db := (tu_orders (db_top_ups db)).

(** The checkout columns: status, variant, checkout. *)
Definition checkout_state (o : CommercialTopUpOrder) :=
  (o_checkout_creation_status o, o_provider_variant_id o, o_provider_checkout_id o).

Inductive checkout_move : relation (CheckoutCreationStatus * option string * option string) :=
  | mv_begin v v' c : checkout_move (CkNotStarted, v, c) (CkCreating, Some v', c)
  | mv_uncertain v c : checkout_move (CkCreating, v, c) (CkUncertain, v, c)
  | mv_ready st v c c' : st = CkCreating \/ st = CkUncertain ->
      checkout_move (st, v, c) (CkReady, v, Some c').

(** An order that has made the move, with everything else as it was. *)
Inductive rebound (o : CommercialTopUpOrder) : CommercialTopUpOrder -> Prop :=
  | rebound_order v c st :
      checkout_move (checkout_state o) (st, v, c) -> rebound o (set_checkout v c st o).

(** The effect of a step on the database: none, or a move of one order. *)
Definition checkout_step (oid : UUID) (db db' : MarketDb) : Prop :=
  db' = db \/ exists o o', orders db !! oid = Some o /\ rebound o o' /\ db' = put_order oid o' db /\
    market_constraints db' = Ok tt.

Section CheckoutSpec.
Implicit Types db : MarketDb.

Lemma checkout_found_Ok {A} (x : option A) msg (s : Session MarketDb) a s' :
  checkout_found x msg s = (Ok a, s') -> x = Some a /\ s' = s.
Proof. destruct x; cbn; [by intros [= -> ->]|done]. Qed.
Lemma checkout_require_Ok b msg (s : Session MarketDb) u s' :
  checkout_require b msg s = (Ok u, s') -> b = true /\ s' = s.
Proof. unfold checkout_require. rewrite lift_Ok ensure_Ok. naive_solver. Qed.
Lemma recovery_found_Ok {A} (x : option A) msg (s : Session MarketDb) a s' :
  recovery_found x msg s = (Ok a, s') -> x = Some a /\ s' = s.
Proof. destruct x; cbn; [by intros [= -> ->]|done]. Qed.
Lemma recovery_require_Ok b msg (s : Session MarketDb) u s' :
  recovery_require b msg s = (Ok u, s') -> b = true /\ s' = s.
Proof. unfold recovery_require. rewrite lift_Ok ensure_Ok. naive_solver. Qed.

Ltac inv_checkout :=
  repeat first
    [ progress inv_webhook
    | match goal with
      | H : checkout_found _ _ _ = (Ok _, _) |- _ => apply checkout_found_Ok in H as [? ->]
      | H : checkout_require _ _ _ = (Ok _, _) |- _ => apply checkout_require_Ok in H as [? ->]
      | H : recovery_found _ _ _ = (Ok _, _) |- _ => apply recovery_found_Ok in H as [? ->]
      | H : recovery_require _ _ _ = (Ok _, _) |- _ => apply recovery_require_Ok in H as [? ->]
      end ].

Lemma read_only_checkout_found {A} (x : option A) msg : read_only (DB:=MarketDb) (checkout_found x msg).
Proof. destruct x; done. Qed.
Lemma read_only_checkout_require b msg : read_only (DB:=MarketDb) (checkout_require b msg).
Proof. apply read_only_lift. Qed.
Lemma read_only_recovery_found {A} (x : option A) msg : read_only (DB:=MarketDb) (recovery_found x msg).
Proof. destruct x; done. Qed.
Lemma read_only_recovery_require b msg : read_only (DB:=MarketDb) (recovery_require b msg).
Proof. apply read_only_lift. Qed.
Lemma read_only_order_by_id id : read_only (order_by_id id).
Proof. done. Qed.
Hint Resolve read_only_checkout_found read_only_checkout_require read_only_recovery_found
  read_only_recovery_require read_only_order_by_id : maestro.
Lemma read_only_recoverable cmd msg : read_only (recoverable_order cmd msg).
Proof. unfold recoverable_order. reads_only. Qed.
Hint Resolve read_only_recoverable : maestro.

(** A run that returned made the move of its order, or none. *)
Lemma moved_step {A} (m : Market A) oid db r db' :
  fails_clean m ->
  (forall a s', m {| working := db; committed := db |} = (Ok a, s') -> checkout_step oid db (committed s')) ->
  with_uow m db = (r, db') -> checkout_step oid db db'.
Proof.
  intros Hf Hm. destruct r as [a|e]; [|intros ->%with_uow_fails; [by left|done]].
  intros (s' & H & <-)%with_uow_inv. by apply (Hm a).
Qed.

Lemma begin_checkout_step cmd db r db' :
  begin_checkout cmd db = (r, db') -> checkout_step (cc_order_id cmd) db db'.
Proof.
  unfold begin_checkout. destruct (validate_checkout cmd); [|intros [= _ <-]; by left].
  apply moved_step.
  - unfold begin_checkout_body, market_commit. commits_last.
  - intros p s' H. unfold begin_checkout_body, order_by_id in H. inv_checkout.
    destruct (o_checkout_creation_status _) eqn:Es in H; inv_checkout; subst.
    right. do 2 eexists. split_and!; [eassumption| |reflexivity|done]. constructor.
    unfold checkout_state. rewrite Es. constructor.
Qed.

Lemma finish_checkout_step cmd answer db r db' :
  finish_checkout cmd answer db = (r, db') -> checkout_step (cc_order_id cmd) db db'.
Proof.
  unfold finish_checkout. destruct answer as [resp|].
  - destruct (validate_provider_response resp); [|intros [= _ <-]; by left].
    destruct (with_uow _ db) as [x db1] eqn:E. intros [= _ <-]. revert E. apply moved_step.
    + unfold ready_checkout_body, market_commit. commits_last.
    + intros u s' H. unfold ready_checkout_body, order_by_id in H. inv_checkout. to_prop. subst.
      right. do 2 eexists. split_and!; [eassumption| |reflexivity|done]. constructor.
      unfold checkout_state. constructor. by left.
  - destruct (with_uow _ db) as [x db1] eqn:E. intros [= _ <-]. revert E. apply moved_step.
    + unfold uncertain_checkout_body, market_commit. commits_last.
    + intros u s' H. unfold uncertain_checkout_body, order_by_id in H. inv_checkout.
      match goal with E : _ !! _ = ?x |- _ => destruct x as [o|] eqn:Eo end; [|inv_checkout; subst; by left].
      destruct (bool_decide _) eqn:Es in H; inv_checkout; subst; [|by left]. to_prop.
      right. do 2 eexists. split_and!; [eassumption| |reflexivity|done]. constructor.
      unfold checkout_state. rewrite Es. constructor.
Qed.

Lemma finish_recovery_step cmd cents candidates db r db' :
  finish_recovery cmd cents candidates db = (r, db') -> checkout_step (rcv_order_id cmd) db db'.
Proof.
  unfold finish_recovery. destruct (authoritative_match _ _ _) as [m|]; [|intros [= _ <-]; by left].
  apply moved_step.
  - unfold finish_recovery_body, market_commit. commits_last.
  - intros p s' H. unfold finish_recovery_body, recoverable_order, order_by_id in H. inv_checkout.
    destruct (o_checkout_creation_status _) eqn:Es in H; inv_checkout; subst; try (by left).
    all: right; do 2 eexists; split_and!; [eassumption| |reflexivity|done]; constructor.
    all: unfold checkout_state; rewrite Es; constructor; eauto.
Qed.

Lemma checkout_step_top_up oid db db' : checkout_step oid db db' -> top_up_step db db'.
Proof.
  intros [->|(o & o' & _ & _ & -> & Hk)]; [by left|right]. split; [done|apply top_up_frame_tables].
Qed.
(** A checkout begun: its order is now being created for the variant asked. *)
Lemma begun_order cmd db price db1 :
  begin_checkout cmd db = (Ok price, db1) ->
  exists o, orders db !! cc_order_id cmd = Some o /\
    o_checkout_creation_status o = CkNotStarted /\ price = o_total_price_usd o /\
    orders db1 !! cc_order_id cmd =
      Some (set_checkout (Some (cc_provider_variant_id cmd)) (o_provider_checkout_id o) CkCreating o).
Proof.
  unfold begin_checkout. destruct (validate_checkout cmd); [|done].
  intros (s' & H & <-)%with_uow_inv. unfold begin_checkout_body, order_by_id in H. inv_checkout.
  destruct (o_checkout_creation_status _) eqn:Es in H; inv_checkout; subst.
  eexists. split; [eassumption|]. split_and!; [done|done|]. cbn. by rewrite lookup_insert_eq.
Qed.

(** A checkout is begun only for an order that has none; otherwise nothing changes. *)
Lemma begin_refused cmd db o :
  orders db !! cc_order_id cmd = Some o -> o_checkout_creation_status o <> CkNotStarted ->
  exists e, begin_checkout cmd db = (Raise e, db).
Proof.
  intros Ho Hs. destruct (begin_checkout cmd db) as [[p|e] db'] eqn:E.
  - apply begun_order in E as (o1 & Ho1 & Hs1 & _). congruence.
  - exists e. unfold begin_checkout in E. destruct (validate_checkout cmd); [|congruence].
    apply with_uow_fails in E as ->; [done|]. unfold begin_checkout_body, market_commit. commits_last.
Qed.
End CheckoutSpec.
