(* ===== verification/MarketLedger.v ===== *)
(** * Requests and the invariant of the quota ledger *)
From Stdlib Require Import Ascii.
From S2P Require Import Prelude PyString PyDecimal MaestroUnits PlanCatalog PyDateTime TopUpQuote PyJson BillingPeriod Uow TopUpDb LemonWebhook SalesDb MarketDb CommerceAudit QuotaUsage Delinquency TopUpOrder TopUpGrant TopUpSpec LemonRuntime LemonInbox LemonProcess LemonTopUp LemonCheckout MarketFrames LemonSpec SalesChange LemonTopUpSpec.
(** * Requests on the marketplace database

    The operations of the quota core, of the top-ups, of the provider's webhooks and of the
    direct sales as one alphabet, so that properties can speak of any sequence of requests. *)

(** One request; the [UUID]s drawn for new rows are part of it. *)
Inductive market_op :=
  | OpRecord (new_id : UUID) (cmd : SubscriptionQuotaUsageCommand)
  | OpRollover (new_id : UUID) (cmd : SubscriptionQuotaRolloverCommand)
  | OpReconcile (new_delinquency_id new_transition_id : UUID) 
      (binding : AdminMarketLemonSqueezyBinding) (inbox : AdminMarketLemonSqueezyWebhookInbox)
      (decision_id : UUID)
  | OpExpireOverdue (subscription : UUID) (evaluated_at : datetime)
  | OpOrder (resolver : option (string -> UUID -> datetime -> res bool))
      (provider : option (datetime -> res ExchangeRateQuote))
      (cmd : CreateSubscriptionTopUpOrderCommand)
  | OpGrant (new_id : UUID) (cmd : SubscriptionTopUpGrantCommand)
  | OpVerifyLocal (new_payment_id new_grant_id : UUID) (cmd : VerifyLocalTunisiaTopUpPaymentCommand)
  | OpReverse (new_id : UUID) (cmd : ReverseSubscriptionTopUpCommand)
  | OpIngest (primitives : WebhookPrimitives) (new_id : UUID) (q : WebhookRequest)
  | OpBind (new_customer new_id : UUID) (cmd : LemonSqueezyBindingCommand)
  | OpProcess (production_mode : bool) (ids : ProcessIds) (inbox_id : UUID) (decided_at : datetime)
  | OpLemonTopUp (ids : TopUpIds) (inbox_id : UUID) (processed_at : datetime)
  | OpLemonRefund (ids : TopUpIds) (inbox_id : UUID) (processed_at : datetime)
  | OpCheckoutBegin (cmd : CreateTopUpCheckoutCommand)
  | OpCheckoutFinish (cmd : CreateTopUpCheckoutCommand) (answer : option LemonSqueezyCheckoutResponse)
  | OpRecoveryFinish (cmd : RecoverTopUpCheckoutCommand) (expected_cents : Z)
      (candidates : list LemonSqueezyCheckoutCandidate)
  | OpSales (hash : Sha256) (ids : SalesIds) (now : datetime) (later : MarketDb) (o : sales_op).

Definition expire_overdue (subscription : UUID) (evaluated_at : datetime) (db : MarketDb)
  : res unit * MarketDb :=
  with_uow (expire_overdue_rollover subscription evaluated_at;; market_commit) db.

Definition market_exec (o : market_op) (db : MarketDb) : MarketDb :=
  match o with
  | OpRecord id cmd => snd (record id cmd db)
  | OpRollover id cmd => snd (rollover id cmd db)
  | OpReconcile did tid b i dec => snd (reconcile did tid b i dec db)
  | OpExpireOverdue sid t => snd (expire_overdue sid t db)
  | OpOrder resolver provider cmd => snd (create_order resolver provider cmd db)
  | OpGrant id cmd => snd (grant id cmd db)
  | OpVerifyLocal pid gid cmd => snd (verify_local pid gid cmd db)
  | OpReverse id cmd => snd (reverse id cmd db)
  | OpIngest _ id q => snd (ingest_request id q db)
  | OpBind cid id cmd => snd (bind cid id cmd db)
  | OpProcess production ids id t =>
      snd (process_reconciliation (load_context production) ids id t db)
  | OpLemonTopUp ids id t => snd (process_top_up ids id t db)
  | OpLemonRefund ids id t => snd (process_refund ids id t db)
  | OpCheckoutBegin cmd => snd (begin_checkout cmd db)
  | OpCheckoutFinish cmd answer => snd (finish_checkout cmd answer db)
  | OpRecoveryFinish cmd cents candidates => snd (finish_recovery cmd cents candidates db)
  | OpSales _ ids now later o => sales_exec ids now later o db
  end.

Fixpoint market_run (ops : list market_op) (db : MarketDb) : MarketDb :=
  match ops with
  | [] => db
  | o :: ops' => market_run ops' (market_exec o db)
  end.

(** * The usage ledger

    The invariant that ties the balances of the quota cycles to the ledger of usage
    rows, and its preservation by every request. *)
(** Units of a usage row charged to the cycle [id]. *)
Definition charged_to (id : UUID) (u : AdminMarketSubscriptionQuotaCycleUsage) : Z :=
  if bool_decide (u_quota_cycle_id u = id) then u_units u else 0.

(** The units used of every cycle are the sum of the ledger rows charged to it, and
    every ledger row charges a positive number of units to an existing cycle. *)
Record ledger (db : MarketDb) : Prop := {
  ledger_balanced : forall id c, db_cycles db !! id = Some c ->
    c_used_units c = sum_rows (charged_to id) (db_usages db);
  ledger_rows : forall k u, db_usages db !! k = Some u ->
    0 < u_units u /\ is_Some (db_cycles db !! u_quota_cycle_id u)
}.

(** A state a commit left: the constraints hold and the ledger is balanced. *)
Definition market_inv (db : MarketDb) : Prop := market_constraints db = Ok tt /\ ledger db.

(** No usage row is ever changed or removed. *)
Definition usages_kept (db db' : MarketDb) : Prop :=
  forall k u, db_usages db !! k = Some u -> db_usages db' !! k = Some u.

Section Ledger.
Implicit Types (db : MarketDb) (c : AdminMarketSubscriptionQuotaCycle).

Lemma cycle_core_used c c' : cycle_core c = cycle_core c' -> c_used_units c = c_used_units c'.
Proof. by intros [=]. Qed.

Lemma frame_cycle_inv db db' id c' :
  frame db db' -> db_cycles db' !! id = Some c' ->
  exists c, db_cycles db !! id = Some c /\ cycle_core c' = cycle_core c.
Proof.
  intros Hfr Hc. pose proof (frame_cycles _ _ Hfr id) as Hf. rewrite Hc in Hf. cbn in Hf.
  destruct (db_cycles db !! id) as [c|]; [|done]. injection Hf. intros. exists c.
  split; [done|]. unfold cycle_core. congruence.
Qed.

Lemma frame_ledger db db' : frame db db' -> ledger db -> ledger db'.
Proof.
  intros Hf [Hb Hr]. pose proof (frame_usages _ _ Hf) as Hu. pose proof (frame_cycles _ _ Hf) as Hc. split; rewrite Hu.
  - intros id c' (c & Hid & Hcore)%(frame_cycle_inv db) ; [|done].
    rewrite (cycle_core_used _ _ Hcore). by apply Hb.
  - intros k u Hk. destruct (Hr k u Hk) as [? [c Hid]]. split; [done|].
    specialize (Hc (u_quota_cycle_id u)). rewrite Hid in Hc. cbn in Hc.
    destruct (db_cycles db' !! u_quota_cycle_id u); [eauto|done].
Qed.

Lemma top_up_frame_ledger db db' : top_up_frame db db' -> ledger db -> ledger db'.
Proof.
  intros Hf [Hb Hr]. split; rewrite (tf_usages _ _ Hf).
  - intros id c' Hc. destruct (top_up_frame_cycle_inv _ _ _ _ Hf Hc) as (c & Hid & [=]).
    rewrite -(Hb _ _ Hid). congruence.
  - intros k u Hk. destruct (Hr k u Hk) as [? [c Hid]]. split; [done|].
    destruct (top_up_frame_cycle_kept _ _ _ _ Hf Hid) as (c' & -> & _). eauto.
Qed.

Lemma charged_ledger new_id cmd c db :
  ledger db -> db_usages db !! new_id = None ->
  db_cycles db !! q_quota_cycle_id cmd = Some c -> 0 < q_units cmd ->
  ledger (charged new_id cmd c db).
Proof.
  intros [Hb Hr] Hn Hc Hu. split; cbn.
  - intros id c'. rewrite sum_rows_insert //. unfold charged_to at 1. cbn.
    destruct (decide (q_quota_cycle_id cmd = id)) as [<-|Hne].
    + rewrite lookup_insert_eq bool_decide_eq_true_2 //. intros [= <-]. cbn. rewrite (Hb _ _ Hc). lia.
    + rewrite lookup_insert_ne // bool_decide_eq_false_2 //. intros Hid. by rewrite (Hb _ _ Hid).
  - intros k u. destruct (decide (new_id = k)) as [<-|Hne].
    + rewrite lookup_insert_eq. intros [= <-]. cbn. split; [done|]. rewrite lookup_insert_eq. eauto.
    + rewrite lookup_insert_ne //. intros Hk. destruct (Hr k u Hk) as [? Hs]. split; [done|].
      destruct (decide (q_quota_cycle_id cmd = u_quota_cycle_id u)) as [->|];
        [rewrite lookup_insert_eq; eauto|by rewrite lookup_insert_ne].
Qed.

Lemma charges_absent id db :
  ledger db -> db_cycles db !! id = None -> sum_rows (charged_to id) (db_usages db) = 0.
Proof.
  intros [_ Hr] Hid. apply sum_rows_zero. intros k u Hk. unfold charged_to. case_bool_decide as E; [|done].
  destruct (Hr k u Hk) as [_ [c Hc]]. congruence.
Qed.

Lemma opened_ledger id c db :
  ledger db -> db_cycles db !! id = None -> c_used_units c = 0 -> ledger (put_cycle id c db).
Proof.
  intros Hl Hid Hu. pose proof Hl as [Hb Hr]. split; cbn.
  - intros k c'. destruct (decide (id = k)) as [<-|Hne].
    + rewrite lookup_insert_eq. intros [= <-]. by rewrite Hu charges_absent.
    + rewrite lookup_insert_ne //. apply Hb.
  - intros k u Hk. destruct (Hr k u Hk) as [? Hs]. split; [done|].
    destruct (decide (id = u_quota_cycle_id u)) as [->|];
      [rewrite lookup_insert_eq; eauto|by rewrite lookup_insert_ne].
Qed.

(** ** The requests *)

(** What a rollover leaves: nothing new, or one new cycle. *)
Lemma rollover_cases new_id cmd db r db' :
  rollover new_id cmd db = (r, db') ->
  db' = db \/
  exists c, db_cycles db !! new_id = None /\ (c_used_units c = 0 /\ c_top_up_units c = 0) /\
    db' = put_cycle new_id c db /\ market_constraints db' = Ok tt.
Proof.
  unfold rollover. destruct (validate_rollover cmd) as [u|]; [|intros [= <- <-]; by left].
  unfold with_uow. destruct (rollover_body new_id cmd _) as [x s'] eqn:H. intros [= <- <-].
  unfold rollover_body in H. m_step H E1.
  2:{ injection H as <- <-. left.
      assert (read_only (rollover_context cmd)) as Hr by (unfold rollover_context, rollover_found; reads_only).
      by rewrite (read_only_eq _ _ _ _ Hr E1). }
  assert (read_only (rollover_context cmd)) as Hr by (unfold rollover_context, rollover_found; reads_only).
  apply (read_only_eq _ _ _ _ Hr) in E1 as ->. destruct v as [[[s plan] spec] expected].
  unfold cycle_by_source in H. rewrite M_bind_eq query_eq in H.
  destruct (find_row _ _) as [[id e]|].
  { left. m_step H E2; [|injection E2 as _ <-]; injection H as <- <-; [|done].
    apply lift_Ok in E2 as [_ <-]. done. }
  m_step H E2.
  2:{ injection H as <- <-. left.
      assert (read_only (rollover_source cmd s spec)) as Hr' by (unfold rollover_source, rollover_found; reads_only).
      by rewrite (read_only_eq _ _ _ _ Hr' E2). }
  assert (read_only (rollover_source cmd s spec)) as Hr' by (unfold rollover_source, rollover_found; reads_only).
  apply (read_only_eq _ _ _ _ Hr') in E2 as ->.
  m_step H E3; apply add_row_cases in E3 as [(Eq & Hn & ->)|[[? Eq] ->]]; try done.
  2:{ injection H as <- <-. by left. }
  m_step H E4; apply market_commit_cases in E4 as [(Eq' & Hk & ->)|[[? Eq'] Hk]]; try done.
  2:{ injection H as <- <-. by left. }
  injection H as <- <-. right. exists (opened_cycle cmd s plan spec expected v). by split_and!.
Qed.

Lemma reconcile_cases did tid b i dec db :
  let '(r, db') := reconcile did tid b i dec db in
  (exists e, r = Raise e) /\ db' = db \/
  r = Ok tt /\ market_constraints db' = Ok tt /\ frame db db'.
Proof.
  unfold reconcile, reconcile_body, market_commit.
  pose proof (with_uow_commit frame market_constraints
    (subscription ← apply_lemon_squeezy_subscription_lifecycle b i;
     match subscription with
     | None => mret tt
     | Some (sid, s) => apply_lemon_squeezy_runtime_access did tid b sid s i dec
     end) db) as H.
  replace (with_uow _ db) with (with_uow ((subscription ← apply_lemon_squeezy_subscription_lifecycle b i;
     match subscription with
     | None => mret tt
     | Some (sid, s) => apply_lemon_squeezy_runtime_access did tid b sid s i dec
     end);; commit market_constraints) db).
  2:{ unfold with_uow. rewrite !M_bind_eq. by destruct (apply_lemon_squeezy_subscription_lifecycle b i _) as [[a|e] s]. }
  apply H.
  - apply (relates_bind frame); [apply frame_lifecycle|]. intros [[sid s]|]; [apply frame_runtime_access|].
    by apply (relates_read_only frame).
  - never_commits.
Qed.

Lemma expire_cases sid t db :
  let '(r, db') := expire_overdue sid t db in
  (exists e, r = Raise e) /\ db' = db \/
  r = Ok tt /\ market_constraints db' = Ok tt /\ frame db db'.
Proof. apply with_uow_commit; [apply frame_overdue|apply no_commit_overdue]. Qed.

(** The requests of the top-ups stay within their frame. *)
Lemma top_up_op_step o db :
  match o with
  | OpOrder _ _ _ | OpGrant _ _ | OpVerifyLocal _ _ _ | OpReverse _ _ | OpLemonTopUp _ _ _
  | OpLemonRefund _ _ _ | OpCheckoutBegin _ | OpCheckoutFinish _ _ | OpRecoveryFinish _ _ _ =>
      top_up_step db (market_exec o db)
  | _ => True
  end.
Proof.
  destruct o; try done; cbn.
  - apply create_order_step.
  - apply grant_step.
  - apply verify_local_step.
  - apply reverse_step.
  - apply process_top_up_step.
  - apply process_refund_step.
  - apply (checkout_step_top_up (cc_order_id cmd)), (begin_checkout_step _ _ _ _ (surjective_pairing _)).
  - apply (checkout_step_top_up (cc_order_id cmd)), (finish_checkout_step _ _ _ _ _ (surjective_pairing _)).
  - apply (checkout_step_top_up (rcv_order_id cmd)),
      (finish_recovery_step _ _ _ _ _ _ (surjective_pairing _)).
Qed.

(** So do the events of the provider, the expiry sweeps and the bindings. *)
Lemma core_op_step o db :
  match o with
  | OpReconcile _ _ _ _ _ | OpExpireOverdue _ _ | OpIngest _ _ _ | OpBind _ _ _ | OpProcess _ _ _ _ =>
      core_step db (market_exec o db)
  | _ => True
  end.
Proof.
  destruct o as [| |did tid b i dec|sid t| | | | | | | | | | | | |]; try done; cbn.
  - pose proof (reconcile_cases did tid b i dec db) as H. destruct (reconcile _ _ _ _ _ _) as [r db'].
    destruct H as [[_ ->]|(_ & Hk & Hf)]; [by left|by apply core_step_frame].
  - pose proof (expire_cases sid t db) as H. destruct (expire_overdue _ _ _) as [r db'].
    destruct H as [[_ ->]|(_ & Hk & Hf)]; [by left|by apply core_step_frame].
  - apply ingest_core_step.
  - apply bind_core_step.
  - apply process_core_step.
Qed.

Lemma top_up_step_expired db db' id c :
  top_up_step db db' -> db_cycles db !! id = Some c -> c_rollover_status c = RoExpired ->
  exists c', db_cycles db' !! id = Some c' /\ c_rollover_status c' = RoExpired.
Proof.
  intros [->|[_ Hf]] Hc He; [eauto|].
  destruct (top_up_frame_cycle_kept _ _ _ _ Hf Hc) as (c' & Hc' & [=]). exists c'. split; congruence.
Qed.

Lemma core_step_expired db db' id c :
  core_step db db' -> db_cycles db !! id = Some c -> c_rollover_status c = RoExpired ->
  exists c', db_cycles db' !! id = Some c' /\ c_rollover_status c' = RoExpired.
Proof.
  intros [->|[_ Hf]] Hc He; [eauto|]. exists c. split; [|done]. exact (frame_expired _ _ Hf id c Hc He).
Qed.

Lemma sales_step_cycles db db' : sales_step db db' -> db_cycles db' = db_cycles db.
Proof. intros [->|[_ Hf]]; [done|apply (sf_cycles _ _ Hf)]. Qed.

(** No request revives a rollover balance that has expired. *)
Lemma market_exec_expired o db id c :
  db_cycles db !! id = Some c -> c_rollover_status c = RoExpired ->
  exists c', db_cycles (market_exec o db) !! id = Some c' /\ c_rollover_status c' = RoExpired.
Proof.
  intros Hc He. pose proof (top_up_op_step o db) as Ht. pose proof (core_op_step o db) as Hs.
  destruct o as [nid cmd|nid cmd| | | | | | | | | | | | | | |h ids t later so];
    try (by apply (top_up_step_expired _ _ _ _ Ht Hc He));
    try (by apply (core_step_expired _ _ _ _ Hs Hc He)).
  all: clear Ht Hs; cbn.
  - destruct (record nid cmd db) as [r db'] eqn:E. cbn. apply record_refines in E.
    destruct E as [rid rt c1 Hh Hn Hrt Hcy Had Hk|k u|e|e rid rt g Hrt]; cbn; eauto.
    destruct (decide (q_quota_cycle_id cmd = id)) as [<-|]; [|rewrite lookup_insert_ne; eauto].
    rewrite lookup_insert_eq. eexists. split; [done|]. cbn. congruence.
  - destruct (rollover nid cmd db) as [r db'] eqn:E. cbn.
    apply rollover_cases in E as [->|(c1 & Hid & Hu & -> & Hk)]; [eauto|].
    cbn. rewrite lookup_insert_ne; [congruence|eauto].
  - exists c. by rewrite (sales_step_cycles _ _ (sales_exec_step ids t later so db)).
Qed.

Lemma top_up_step_inv db db' :
  top_up_step db db' -> market_constraints db = Ok tt -> ledger db ->
  market_inv db' /\ usages_kept db db'.
Proof.
  intros [->|[Hk Hf]] Hc Hl; [split; [done|by intros ??]|]. split.
  - split; [done|]. by apply (top_up_frame_ledger db).
  - intros k u. by rewrite (tf_usages _ _ Hf).
Qed.

Lemma core_step_inv db db' :
  core_step db db' -> market_constraints db = Ok tt -> ledger db ->
  market_inv db' /\ usages_kept db db'.
Proof.
  intros [->|[Hk Hf]] Hc Hl; [split; [done|by intros ??]|]. split.
  - split; [done|]. apply (frame_ledger _ _ Hf). by destruct Hl; split.
  - intros k u. by rewrite (frame_usages _ _ Hf).
Qed.

Lemma sales_step_inv db db' :
  sales_step db db' -> market_constraints db = Ok tt -> ledger db ->
  market_inv db' /\ usages_kept db db'.
Proof.
  intros [->|[Hk Hf]] Hc [Hb Hr]; [split; [split; [done|by split]|by intros ??]|].
  pose proof (sf_cycles _ _ Hf) as Ec. pose proof (sf_usages _ _ Hf) as Eu.
  split; [split; [done|split]|intros k u]; by rewrite ?Ec ?Eu.
Qed.

(** Every request keeps the invariant and the ledger rows. *)
Lemma market_exec_inv o db :
  market_inv db -> market_inv (market_exec o db) /\ usages_kept db (market_exec o db).
Proof.
  intros [Hc Hl]. pose proof (top_up_op_step o db) as Ht. pose proof (core_op_step o db) as Hs.
  destruct o as [id cmd|id cmd| | | | | | | | | | | | | | |h ids t later so];
    try (by apply top_up_step_inv); try (by apply core_step_inv).
  all: clear Ht Hs; cbn.
  - destruct (record id cmd db) as [r db'] eqn:E. cbn. apply record_refines in E.
    destruct E as [rid rt c Hh Hn Hrt Hcy Had Hk|k u|e|e rid rt g Hrt]; [|split; [done|by intros ??]|split; [done|by intros ??]|].
    + unfold usage_admitted in Had. destruct_and!. split.
      * split; [done|]. apply charged_ledger; (done || lia).
      * intros k u Hku. cbn. rewrite lookup_insert_ne; [intros ->; congruence|done].
    + split; [split; [done|]|by intros ??].
      by apply (frame_ledger db); [apply frame_put_runtime|].
  - destruct (rollover id cmd db) as [r db'] eqn:E. cbn.
    apply rollover_cases in E as [->|(c & Hid & Hu & -> & Hk)]; [split; [done|by intros ??]|].
    split; [split; [done|by apply opened_ledger, Hu]|by intros ??].
  - by apply sales_step_inv; [apply sales_exec_step| |].
Qed.

Lemma market_run_inv ops db :
  market_inv db -> market_inv (market_run ops db) /\ usages_kept db (market_run ops db).
Proof.
  revert db. induction ops as [|o ops IH]; intros db Hi; cbn; [split; [done|by intros ??]|].
  destruct (market_exec_inv o db Hi) as [Hi' Hk]. destruct (IH _ Hi') as [Hi'' Hk'].
  split; [done|]. intros k u Hu. by apply Hk', Hk.
Qed.

(** The parts of the constraints. *)
Lemma market_constraints_cycles db id c :
  market_constraints db = Ok tt -> db_cycles db !! id = Some c -> cycle_checks c = true.
Proof.
  unfold market_constraints. intros (? & _ & H%ensure_Ok)%res_bind_Ok Hid. to_prop.
  match goal with H : check_rows cycle_checks _ = true |- _ =>
    rewrite check_rows_true in H; exact (H _ _ Hid) end.
Qed.

Lemma market_constraints_hash db k1 k2 u1 u2 :
  market_constraints db = Ok tt -> db_usages db !! k1 = Some u1 -> db_usages db !! k2 = Some u2 ->
  u_idempotency_key_hash u1 = u_idempotency_key_hash u2 -> k1 = k2.
Proof.
  unfold market_constraints. intros (? & H%ensure_Ok & _)%res_bind_Ok H1 H2 E. to_prop.
  match goal with H : unique_on (fun u => Some (u_idempotency_key_hash u)) _ = true |- _ =>
    rewrite unique_on_true in H; exact (H k1 k2 u1 u2 _ H1 H2 eq_refl (f_equal Some (eq_sym E))) end.
Qed.
End Ledger.

(** * A concrete marketplace database

    One starter subscription, active since 15 January 2026, with its first quota
    cycle; the inputs of the witnesses. *)
Fixpoint copies (n : nat) (c : ascii) : string :=
  match n with O => EmptyString | S n' => String c (copies n' c) end.

(** Noon UTC of a day. *)
Definition noon (y m d : Z) : datetime :=
  {| dt_year := y; dt_month := m; dt_day := d; dt_hour := 12; dt_minute := 0; dt_second := 0;
     dt_micro := 0; dt_offset := Some 0 |}.

Definition ex_plan : AdminMarketPlan :=
  {| p_plan_code := "starter"; p_display_name := "Starter"; p_entitlement_profile_ref := "ent";
     p_quota_profile_ref := "quota" |}.

Definition ex_subscription : AdminMarketSubscription :=
  {| s_subscription_ref := "ref"; s_customer_ref := "cust"; s_order_id := Some "order";
     s_offer_id := Some "offer"; s_plan_id := "plan"; s_status := SubActive;
     s_starts_at := Some (noon 2026 1 15); s_ends_at := None |}.

Definition ex_runtime : AdminMarketSubscriptionRuntime :=
  {| r_subscription_id := "sub"; r_customer_ref := "cust"; r_entitlement_profile_ref := "ent";
     r_quota_profile_ref := "quota"; r_access_stage := StActive; r_version := 0;
     r_effective_at := noon 2026 1 15; r_grace_until := None; r_suspended_at := None;
     r_terminated_at := None |}.

(** A cycle of the subscription, with some units rolled over. *)
Definition ex_cycle (rollover : Z) : AdminMarketSubscriptionQuotaCycle :=
  {| c_subscription_id := "sub"; c_source_cycle_id := None; c_customer_ref := "cust";
     c_plan_code := "starter"; c_plan_catalog_version := PLAN_FULFILLMENT_CATALOG_VERSION;
     c_entitlement_codes := []; c_quota_profile_ref := "quota"; c_metric_code := "maestro_units";
     c_period_start := noon 2026 1 15; c_period_end := noon 2026 2 15;
     c_base_limit_units := 10000; c_rollover_units := rollover; c_top_up_units := 0;
     c_rollover_status := RoAvailable; c_rollover_expires_at := None;
     c_rollover_locked_at := None; c_rollover_restored_at := None; c_rollover_expired_at := None;
     c_used_units := 0; c_version := 0 |}.

Definition ex_db (rollover : Z) : MarketDb :=
  {| db_plans := {[ "plan" := ex_plan ]};
     db_subscriptions := {[ "sub" := ex_subscription ]};
     db_runtimes := {[ "rt" := ex_runtime ]};
     db_delinquencies := ∅;
     db_cycles := {[ "c1" := ex_cycle rollover ]};
     db_usages := ∅;
     db_transitions := ∅; db_top_ups := no_top_ups; db_provider := no_provider;
     db_sales := no_sales |}.

(** A usage command for [units] of the cycle, told apart by the character [k]. *)
Definition ex_usage (cycle : UUID) (units : Z) (k : ascii) (at_ : datetime)
  : SubscriptionQuotaUsageCommand :=
  {| q_subscription_id := "sub"; q_quota_cycle_id := cycle; q_customer_ref := "cust";
     q_metric_code := "maestro_units"; q_units := units; q_idempotency_key_hash := copies 64 k;
     q_dimensions_digest := copies 64 "d"%char; q_occurred_at := at_ |}.

Definition ex_rollover : SubscriptionQuotaRolloverCommand :=
  {| ro_subscription_id := "sub"; ro_source_cycle_id := "c1"; ro_metric_code := "credits";
     ro_period_start := noon 2026 2 15; ro_period_end := noon 2026 3 15;
     ro_base_limit_units := 10000 |}.

Definition ex_binding : AdminMarketLemonSqueezyBinding :=
  {| b_customer_ref := "cust"; b_order_id := "order"; b_offer_id := "offer";
     b_subscription_id := Some "sub"; b_provider_customer_id := "7001";
     b_provider_order_id := "5001"; b_provider_subscription_id := Some "9001";
     b_variant_id := "301"; b_currency := "USD"; b_total_amount := "5900";
     b_last_provider_effective_at := Some (noon 2026 1 15) |}.

(** An event about the invoices of the subscription, claimed at its effective time. *)
Definition ex_event (name : string) (at_ : datetime) : AdminMarketLemonSqueezyWebhookInbox :=
  {| i_event_identity_hash := copies 64 "e"%char; i_payload_digest := copies 64 "p"%char;
     i_event_name := name; i_resource_type := "subscription-invoices";
     i_external_resource_id := "8001"; i_store_id := "1"; i_customer_ref := "cust";
     i_order_ref := "order-ref"; i_offer_ref := "offer-code"; i_test_mode := false;
     i_processing_status := InProcessing; i_attempt_count := 1;
     i_evidence_schema_version := Some 1; i_provider_customer_id := Some "7001";
     i_provider_order_id := None; i_provider_subscription_id := Some "9001";
     i_variant_id := None; i_currency := Some "USD"; i_subtotal_amount := Some "5900";
     i_total_amount := Some "5900"; i_refunded_amount := Some "0";
     i_provider_status := Some "failed"; i_provider_effective_at := Some at_;
     i_last_error_code := None; i_received_at := at_; i_claimed_at := Some at_;
     i_processed_at := None; i_rejected_at := None |}.

Lemma ex_db_inv n : n = 0 \/ n = 500 -> market_inv (ex_db n).
Proof.
  intros Hn. split.
  - destruct Hn as [-> | ->]; vm_compute; reflexivity.
  - split.
    + intros id c. cbn. rewrite lookup_singleton_Some. intros [<- <-]. reflexivity.
    + intros k u. cbn. by rewrite lookup_empty.
Qed.

(** Cells of the results, for evaluation. *)
Definition available_in (id : UUID) (db : MarketDb) : option Z := available_units <$> db_cycles db !! id.
Definition used_in (id : UUID) (db : MarketDb) : option Z := c_used_units <$> db_cycles db !! id.
Definition total_charged (db : MarketDb) : Z := sum_rows u_units (db_usages db).

(** Whether a request succeeds. *)
Definition accepted (o : market_op) (db : MarketDb) : bool :=
  match o with
  | OpRecord id cmd => is_ok (fst (record id cmd db))
  | OpRollover id cmd => is_ok (fst (rollover id cmd db))
  | OpReconcile did tid b i dec => is_ok (fst (reconcile did tid b i dec db))
  | OpExpireOverdue sid t => is_ok (fst (expire_overdue sid t db))
  | OpOrder resolver provider cmd => is_ok (fst (create_order resolver provider cmd db))
  | OpGrant id cmd => is_ok (fst (grant id cmd db))
  | OpVerifyLocal pid gid cmd => is_ok (fst (verify_local pid gid cmd db))
  | OpReverse id cmd => is_ok (fst (reverse id cmd db))
  | OpIngest _ id q => is_ok (fst (ingest_request id q db))
  | OpBind cid id cmd => is_ok (fst (bind cid id cmd db))
  | OpProcess production ids id t =>
      is_ok (fst (process_reconciliation (load_context production) ids id t db))
  | OpLemonTopUp ids id t => is_ok (fst (process_top_up ids id t db))
  | OpLemonRefund ids id t => is_ok (fst (process_refund ids id t db))
  | OpCheckoutBegin cmd => is_ok (fst (begin_checkout cmd db))
  | OpCheckoutFinish cmd answer => is_ok (fst (finish_checkout cmd answer db))
  | OpRecoveryFinish cmd cents candidates => is_ok (fst (finish_recovery cmd cents candidates db))
  | OpSales _ ids now later o => sales_accepted ids now later o db
  end.
