(* ===== verification/SalesLedger.v ===== *)
(** * The history of the direct sales

    The phases of a direct order as an abstract machine, what no request ever changes, the
    invariant of the sales, and that every request keeps it and moves every order along
    the machine. *)
From S2P Require Import Prelude PyString PyDateTime PyDecimal PyText PyJson Authority Uow SalesDb MarketDb.
From S2P Require Import CommerceAudit DirectOrder PaymentEvidence PaymentReconciliation.
From S2P Require Import Activation QuotaUsage TopUpSpec MarketFrames LemonSpec.
From S2P Require Import OrderSpec SalesChange MarketLedger.
#[local] Open Scope Z_scope.

(** ** The machine *)

Inductive OrderPhase := Contracting | Paying | Reported | Reviewing | Refused | Ready | Active.

#[global] Instance OrderPhase_eq_dec : EqDecision OrderPhase.
Proof. solve_decision. Defined.

(** The phase the three status columns of a direct order stand for. *)
Definition order_phase (o : AdminMarketOrder) : option OrderPhase :=
  match or_status o, or_contract_status o, or_payment_status o with
  | OrAwaitingContract, CtPending, OpPending => Some Contracting
  | OrAwaitingPayment, CtCompleted, OpPending => Some Paying
  | OrAwaitingPayment, CtCompleted, OpCustomerReported => Some Reported
  | OrPaymentUnderReview, CtCompleted, OpRequiresReview => Some Reviewing
  | OrRequiresReview, CtCompleted, OpRejected => Some Refused
  | OrReadyForActivation, CtCompleted, OpVerified => Some Ready
  | OrActivated, CtCompleted, OpVerified => Some Active
  | _, _, _ => None
  end.

(** The columns of a phase. *)
Definition phase_columns (p : OrderPhase) : OrderStatus * ContractStatus * OrderPaymentStatus :=
  match p with
  | Contracting => (OrAwaitingContract, CtPending, OpPending)
  | Paying => (OrAwaitingPayment, CtCompleted, OpPending)
  | Reported => (OrAwaitingPayment, CtCompleted, OpCustomerReported)
  | Reviewing => (OrPaymentUnderReview, CtCompleted, OpRequiresReview)
  | Refused => (OrRequiresReview, CtCompleted, OpRejected)
  | Ready => (OrReadyForActivation, CtCompleted, OpVerified)
  | Active => (OrActivated, CtCompleted, OpVerified)
  end.

(** The arrows: a contract, a report, a decision, a reconciliation, the activation. *)
Inductive phase_step : OrderPhase -> OrderPhase -> Prop :=
  | ph_contract : phase_step Contracting Paying
  | ph_report p p' : p ∈ [Paying; Reported; Reviewing] -> p' ∈ [Reported; Reviewing] -> phase_step p p'
  | ph_verify : phase_step Reported Ready
  | ph_reject p : p ∈ [Paying; Reported; Reviewing; Refused] -> phase_step p Refused
  | ph_reconcile p p' : p ∉ [Contracting; Active] -> p' ∈ [Reported; Reviewing] -> phase_step p p'
  | ph_activate : phase_step Ready Active.

(** Everything of an order but its three statuses and their times. *)
Definition order_core (o : AdminMarketOrder) : AdminMarketOrder :=
  set_order OrDraft CtPending OpPending (or_created_at o) None o.

(** Everything of an evidence but its status and reason: what was reported and what of it
    matched. *)
Definition evidence_core (e : AdminMarketPaymentEvidence) : AdminMarketPaymentEvidence :=
  set_evidence EvReceived (evidence_flags e) "" e.

(** An order keeps what was sold and stays as it is, or moves along an arrow. *)
Definition order_moves (o o' : AdminMarketOrder) : Prop :=
  o' = o \/ order_core o' = order_core o /\
    exists p p', order_phase o = Some p /\ order_phase o' = Some p' /\ phase_step p p'.

(** ** What never changes *)

Record sales_kept (db db' : MarketDb) : Prop := {
  sk_orders : forall id o, market_orders db !! id = Some o ->
    exists o', market_orders db' !! id = Some o' /\ order_core o' = order_core o;
  sk_contracts : forall id c, contracts db !! id = Some c -> contracts db' !! id = Some c;
  sk_evidence : forall id e, evidences db !! id = Some e ->
    exists e', evidences db' !! id = Some e' /\ evidence_core e' = evidence_core e;
  sk_verifications : forall id v, verifications db !! id = Some v -> verifications db' !! id = Some v;
  sk_activations : forall id a, activations db !! id = Some a -> activations db' !! id = Some a;
  sk_subscriptions : forall id s, db_subscriptions db !! id = Some s ->
    exists s', db_subscriptions db' !! id = Some s' /\ subscription_core s' = subscription_core s
}.

#[global] Instance sales_kept_preorder : PreOrder sales_kept.
Proof.
  split; [intros db; split; eauto|].
  intros a b c [H1 H2 H3 H4 H5 H6] [K1 K2 K3 K4 K5 K6]. split; auto; intros id x Hx.
  - destruct (H1 _ _ Hx) as (y & Hy & Ey). destruct (K1 _ _ Hy) as (z & Hz & Ez). exists z. split; congruence.
  - destruct (H3 _ _ Hx) as (y & Hy & Ey). destruct (K3 _ _ Hy) as (z & Hz & Ez). exists z. split; congruence.
  - destruct (H6 _ _ Hx) as (y & Hy & Ey). destruct (K6 _ _ Hy) as (z & Hz & Ez). exists z. split; congruence.
Qed.

(** ** The invariant *)

(** The verification of the order approves it. *)
Definition approved (db : MarketDb) (id : UUID) : Prop :=
  exists k v, verifications db !! k = Some v /\ pvr_order_id v = id /\ pvr_status v = VfVerified.

(** The order was activated: an activation of it names a subscription sold by it. *)
Definition delivered (db : MarketDb) (id : UUID) (o : AdminMarketOrder) : Prop :=
  exists k a s, activations db !! k = Some a /\ act_order_id a = Some id /\
    act_customer_ref a = or_customer_ref o /\
    db_subscriptions db !! act_subscription_id a = Some s /\ s_order_id s = Some id /\
    s_customer_ref s = or_customer_ref o /\ s_offer_id s = Some (or_offer_id o) /\
    s_plan_id s = or_plan_id o.

(** What a direct order in a phase has behind it. *)
Definition backed (db : MarketDb) (id : UUID) (o : AdminMarketOrder) (p : OrderPhase) : Prop :=
  match p with
  | Contracting => True
  | Paying | Reported | Reviewing | Refused => contracted db id o
  | Ready => contracted db id o /\ approved db id
  | Active => contracted db id o /\ approved db id /\ verified_paid db id o /\ delivered db id o
  end.

Record sales_inv (db : MarketDb) : Prop := {
  sv_orders : forall id o, market_orders db !! id = Some o -> or_selected_channel o = MaestroDirect ->
    or_payment_requirement o = PayRequired /\ exists p, order_phase o = Some p /\ backed db id o p;
  sv_evidence : forall k e, evidences db !! k = Some e ->
    exists o, market_orders db !! pev_order_id e = Some o /\ or_selected_channel o = MaestroDirect /\
      order_phase o <> Some Contracting
}.

Section SalesLedger.
Implicit Types (db : MarketDb) (o : AdminMarketOrder) (e : AdminMarketPaymentEvidence).

(** What the core of a row fixes. *)
Lemma order_core_fields o o' :
  order_core o' = order_core o ->
  or_customer_ref o' = or_customer_ref o /\ or_selected_channel o' = or_selected_channel o /\
  or_payment_requirement o' = or_payment_requirement o /\ or_total_amount o' = or_total_amount o /\
  or_currency o' = or_currency o /\ or_offer_id o' = or_offer_id o /\ or_plan_id o' = or_plan_id o.
Proof.
  intros E. split_and!; [change (or_customer_ref (order_core o') = or_customer_ref (order_core o))
    |change (or_selected_channel (order_core o') = or_selected_channel (order_core o))
    |change (or_payment_requirement (order_core o') = or_payment_requirement (order_core o))
    |change (or_total_amount (order_core o') = or_total_amount (order_core o))
    |change (or_currency (order_core o') = or_currency (order_core o))
    |change (or_offer_id (order_core o') = or_offer_id (order_core o))
    |change (or_plan_id (order_core o') = or_plan_id (order_core o))]; by rewrite E.
Qed.

Lemma evidence_core_fields e e' :
  evidence_core e' = evidence_core e ->
  pev_order_id e' = pev_order_id e /\ pev_customer_ref e' = pev_customer_ref e /\
  evidence_flags e' = evidence_flags e /\ pev_actual_amount e' = pev_actual_amount e /\
  pev_currency e' = pev_currency e.
Proof.
  intros E. split_and!; [change (pev_order_id (evidence_core e') = pev_order_id (evidence_core e))
    |change (pev_customer_ref (evidence_core e') = pev_customer_ref (evidence_core e))
    |change (evidence_flags (evidence_core e') = evidence_flags (evidence_core e))
    |change (pev_actual_amount (evidence_core e') = pev_actual_amount (evidence_core e))
    |change (pev_currency (evidence_core e') = pev_currency (evidence_core e))]; by rewrite E.
Qed.

Lemma set_order_core st ct pay t1 t2 o : order_core (set_order st ct pay t1 t2 o) = order_core o.
Proof. done. Qed.

(** ** What is behind an order stays behind it *)

Lemma contracted_kept db db' id o o' :
  sales_kept db db' -> order_core o' = order_core o -> contracted db id o -> contracted db' id o'.
Proof.
  intros Hk (Ec & _)%order_core_fields (k & c & Hc & Hi & Hs & Hr). exists k, c.
  split_and!; [by apply (sk_contracts _ _ Hk)|done|done|congruence].
Qed.

Lemma approved_kept db db' id : sales_kept db db' -> approved db id -> approved db' id.
Proof.
  intros Hk (k & v & Hv & Hi & Hs). exists k, v. split_and!; [|done|done].
  by apply (sk_verifications _ _ Hk).
Qed.

Lemma pays_core id o o' e e' :
  order_core o' = order_core o -> evidence_core e' = evidence_core e -> pays id o e -> pays id o' e'.
Proof.
  intros (E1 & _ & _ & E2 & E3 & _)%order_core_fields (K1 & K2 & K3 & K4 & K5)%evidence_core_fields [].
  split; congruence.
Qed.

Lemma verified_paid_kept db db' id o o' :
  sales_kept db db' -> order_core o' = order_core o -> verified_paid db id o -> verified_paid db' id o'.
Proof.
  intros Hk Eo (vid & v & eid & e & Hv & Hi & Hs & He & Hev & Hp).
  destruct (sk_evidence _ _ Hk _ _ Hev) as (e' & He' & Ee). exists vid, v, eid, e'.
  split_and!; try done; [by apply (sk_verifications _ _ Hk)|by apply (pays_core _ o _ e)].
Qed.

Lemma delivered_kept db db' id o o' :
  sales_kept db db' -> order_core o' = order_core o -> delivered db id o -> delivered db' id o'.
Proof.
  intros Hk (E1 & _ & _ & _ & _ & E2 & E3)%order_core_fields
    (k & a & s & Ha & Hi & Hc & Hs & S1 & S2 & S3 & S4).
  destruct (sk_subscriptions _ _ Hk _ _ Hs) as (s' & Hs' & [=]). exists k, a, s'.
  split_and!; try congruence. by apply (sk_activations _ _ Hk).
Qed.

Lemma backed_kept db db' id o o' p :
  sales_kept db db' -> order_core o' = order_core o -> backed db id o p -> backed db' id o' p.
Proof.
  intros Hk Eo. destruct p; cbn; try done; try by apply contracted_kept.
  - intros [Hc Ha]. split; [by apply (contracted_kept db _ _ o)|by apply (approved_kept db)].
  - intros (Hc & Ha & Hp & Hd). split_and!; [by apply (contracted_kept db _ _ o)|by apply (approved_kept db)
      |by apply (verified_paid_kept db _ _ o)|by apply (delivered_kept db _ _ o)].
Qed.
(** ** The phases *)

Lemma order_phase_columns o p :
  order_phase o = Some p <-> (or_status o, or_contract_status o, or_payment_status o) = phase_columns p.
Proof.
  unfold order_phase. split.
  - destruct (or_status o), (or_contract_status o), (or_payment_status o); try done; by intros [= <-].
  - destruct p; cbn; by intros [= -> -> ->].
Qed.

Lemma order_phase_status o p : order_phase o = Some p -> or_status o = (phase_columns p).1.1.
Proof. intros H%order_phase_columns. by rewrite -H. Qed.

Lemma phase_step_target p p' : phase_step p p' -> p' <> Contracting.
Proof. destruct 1; try done; set_solver. Qed.

Lemma phase_step_source p p' : phase_step p p' -> p <> Active.
Proof. destruct 1; try done; set_solver. Qed.

Lemma order_moves_core o o' : order_moves o o' -> order_core o' = order_core o.
Proof. by intros [->|[? _]]. Qed.

Lemma order_moves_begun o o' :
  order_moves o o' -> order_phase o <> Some Contracting -> order_phase o' <> Some Contracting.
Proof. intros [->|(_ & p & p' & _ & -> & Hs)] Hn; [done|]. apply phase_step_target in Hs. congruence. Qed.

(** A move that sets the three columns. *)
Lemma order_moves_to p' st ct pay t1 t2 o p :
  order_phase o = Some p -> phase_columns p' = (st, ct, pay) -> phase_step p p' ->
  order_moves o (set_order st ct pay t1 t2 o).
Proof.
  intros Hp Hc Hs. right. split; [done|]. exists p, p'. split_and!; [done| |done].
  by apply order_phase_columns.
Qed.

(** ** The changes *)

Section Changes.
Context `{Sha256}.

Lemma change_kept db db1 : sales_change db db1 -> sales_kept db db1.
Proof.
  assert (forall {A} (m : Table A) k (x : A) id y, m !! k = None -> m !! id = Some y ->
            <[k := x]> m !! id = Some y) as fresh
    by (intros; rewrite lookup_insert_ne; [congruence|done]).
  assert (forall {A B} (f : A -> B) (m : Table A) k (x x' : A), m !! k = Some x -> f x' = f x ->
            forall id y, m !! id = Some y -> exists y', <[k := x']> m !! id = Some y' /\ f y' = f y) as same.
  { intros A B f m k x x' Hx E id y Hy. destruct (decide (k = id)) as [<-|].
    - rewrite lookup_insert_eq. exists x'. split; congruence.
    - rewrite lookup_insert_ne; eauto. }
  destruct 1 as [ids r offer_id offer d o Hs|ids r oid o Ho Hc Ha Hf|ids r oid o m Ho Hc Hr Hm Hf
    |ids r eid e o He Ho Hn Hr Hf|r eid e o cid c cand target sm He Ho Ha|ids r oid o plan Ho Hab Hs Hf];
    split; cbn; try done; eauto.
  - intros id x Hx. exists x. split; [|done]. apply fresh; [apply (os_fresh _ _ _ _ _ _ _ Hs)|done].
  - apply (same _ _ order_core _ _ o); [done|]. unfold decided_order. by destruct (vq_verified r).
  - apply (same _ _ evidence_core _ _ e); [done|]. unfold decided_evidence. by destruct (vq_verified r).
  - apply (same _ _ order_core _ _ o); [done|]. unfold case_order. by destruct (bool_decide _), (cd_action r).
  - apply (same _ _ evidence_core _ _ e); [done|]. unfold case_evidence. by destruct Ha as [-> | ->].
Qed.

(** What a change does to the orders: a new one, or a move of a direct one, with what is
    behind it. *)
Inductive orders_changed db db1 : Prop :=
  | oc_new id o :
      market_orders db !! id = None -> market_orders db1 = <[id := o]> (market_orders db) ->
      or_selected_channel o = MaestroDirect -> or_payment_requirement o = PayRequired ->
      order_phase o = Some Contracting -> orders_changed db db1
  | oc_moved id o o' p :
      market_orders db !! id = Some o -> market_orders db1 = <[id := o']> (market_orders db) ->
      or_selected_channel o = MaestroDirect -> order_moves o o' ->
      order_phase o' = Some p -> backed db1 id o' p -> orders_changed db db1.

Lemma built_order_columns reference r offer_id offer d o :
  build_order reference r offer_id offer d = Ok o ->
  or_selected_channel o = MaestroDirect /\ or_payment_requirement o = PayRequired /\
  order_phase o = Some Contracting.
Proof. unfold build_order. intros Hb. inv_ok. by subst o. Qed.

Lemma contract_acceptable_Ok o version :
  contract_acceptable o version = Ok tt ->
  or_selected_channel o = MaestroDirect /\ or_status o = OrAwaitingContract /\ or_contract_status o = CtPending.
Proof. unfold contract_acceptable. intros Ha. inv_ok. by to_prop. Qed.

Lemma require_verifiable_Ok o eid e verified c :
  require_verifiable o eid e verified c = Ok tt ->
  or_contract_status o = CtCompleted /\ or_selected_channel o = MaestroDirect /\
  (verified = true -> or_status o = OrAwaitingPayment /\ or_payment_status o = OpCustomerReported /\
     (exact_evidence e = true \/ accepted_exception eid c = true)).
Proof.
  unfold require_verifiable. intros Hr. inv_ok. to_prop. split_and!; [done..|].
  intros ->. inv_ok. to_prop. split_and!; [done..|]. by apply orb_true_iff.
Qed.

(** The phase of a direct order, with its contract once it is past it. *)
Lemma direct_phase db id o :
  sales_inv db -> market_orders db !! id = Some o -> or_selected_channel o = MaestroDirect ->
  exists p, order_phase o = Some p /\ backed db id o p /\ (p <> Contracting -> contracted db id o).
Proof.
  intros Hi Ho Hd. destruct (sv_orders _ Hi _ _ Ho Hd) as (_ & p & Hp & Hb). exists p.
  split_and!; [done|done|]. destruct p; cbn in Hb; tauto.
Qed.

Lemma ordered_changes ids r offer_id offer d o db :
  order_sold r ids offer_id offer d o db -> orders_changed db (put_market_order (si_row ids) o db).
Proof.
  intros Hs. destruct (built_order_columns _ _ _ _ _ _ (os_order _ _ _ _ _ _ _ Hs)) as (H1 & H2 & H3).
  by eapply oc_new; [apply (os_fresh _ _ _ _ _ _ _ Hs)|..].
Qed.

Lemma contracted_changes ids r id o db :
  sales_inv db -> market_orders db !! id = Some o -> or_customer_ref o = cq_customer r ->
  contract_acceptable o (cq_version r) = Ok tt -> contracts db !! si_row ids = None ->
  orders_changed db
    (put_sales (sl_put_contract (si_row ids) (completed_contract ids r id))
       (put_market_order id (contract_completed_order (cq_now r) o) db)).
Proof.
  intros Hi Ho Hc (Hd & Hs & Hct)%contract_acceptable_Ok Hf.
  destruct (direct_phase _ _ _ Hi Ho Hd) as (p & Hp & _ & _).
  pose proof Hp as Hcol%order_phase_columns. rewrite Hs Hct in Hcol.
  assert (p = Contracting) as -> by (destruct p; (done || congruence)). injection Hcol as Hpay.
  assert (order_phase (contract_completed_order (cq_now r) o) = Some Paying) as Hp'
    by (apply order_phase_columns; cbn; by rewrite Hpay).
  eapply (oc_moved _ _ id o _ Paying); try done.
  - right. split; [done|]. exists Contracting, Paying. split_and!; [done|done|constructor].
  - exists (si_row ids), (completed_contract ids r id). split_and!; try done. cbn. apply lookup_insert_eq.
Qed.

Lemma reported_changes ids r id o m db :
  sales_inv db -> sales_kept db (put_evidence (si_row ids) (reported_evidence ids r id m)
                                   (put_market_order id (reported_order r m o) db)) ->
  market_orders db !! id = Some o -> reportable o ->
  orders_changed db
    (put_evidence (si_row ids) (reported_evidence ids r id m)
       (put_market_order id (reported_order r m o) db)).
Proof.
  intros Hi Hk Ho (Hd & _ & Hct & Hs & Hpay).
  destruct (direct_phase _ _ _ Hi Ho Hd) as (p & Hp & _ & Hc).
  pose proof Hp as Hcol%order_phase_columns. rewrite Hct in Hcol.
  assert (p ∈ [Paying; Reported; Reviewing]) as Hin.
  { destruct p; injection Hcol as E1 E2; rewrite ?E1 ?E2 in Hs Hpay; set_solver. }
  set (p' := if all_matched m then Reported else Reviewing).
  assert (order_phase (reported_order r m o) = Some p') as Hp'.
  { apply order_phase_columns. unfold reported_order, p'. cbn. rewrite Hct. by destruct (all_matched m). }
  assert (phase_step p p') as Hst
    by (apply ph_report; [done|]; unfold p'; destruct (all_matched m); set_solver).
  eapply (oc_moved _ _ id o _ p'); try done.
  - right. split; [done|]. by exists p, p'.
  - assert (contracted db id o) as Hc' by (apply Hc; set_solver).
    pose proof (contracted_kept _ _ _ _ (reported_order r m o) Hk eq_refl Hc') as Hc1.
    by unfold p'; destruct (all_matched m).
Qed.

Definition decided_db (ids : SalesIds) (r : PaymentDecision) (eid : UUID) e o db : MarketDb :=
  put_sales (sl_put_verification (si_row ids) (new_verification ids r (pev_order_id e) eid e))
    (put_evidence eid (decided_evidence r e)
       (put_market_order (pev_order_id e) (decided_order r o) db)).

Lemma decided_changes ids r eid e o c db :
  sales_inv db -> sales_kept db (decided_db ids r eid e o db) ->
  market_orders db !! pev_order_id e = Some o ->
  (forall k v, verifications db !! k = Some v -> pvr_order_id v <> pev_order_id e) ->
  require_verifiable o eid e (vq_verified r) c = Ok tt ->
  orders_changed db (decided_db ids r eid e o db).
Proof.
  intros Hi Hk Ho Hn (Hct & Hd & Hv)%require_verifiable_Ok.
  destruct (direct_phase _ _ _ Hi Ho Hd) as (p & Hp & Hb & Hc).
  pose proof Hp as Hcol%order_phase_columns. rewrite Hct in Hcol.
  assert (contracted db (pev_order_id e) o) as Hcon
    by (apply Hc; intros ->; discriminate Hcol).
  assert (order_core (decided_order r o) = order_core o) as Hcore
    by (unfold decided_order; by destruct (vq_verified r)).
  pose proof (contracted_kept _ _ _ _ _ Hk Hcore Hcon) as Hc1.
  destruct (vq_verified r) eqn:Er.
  - destruct (Hv eq_refl) as (Hs & Hpay & _). rewrite Hs Hpay in Hcol.
    assert (p = Reported) as -> by (destruct p; (done || congruence)).
    assert (order_phase (decided_order r o) = Some Ready) as Hp'
      by (apply order_phase_columns; unfold decided_order; rewrite Er; cbn; by rewrite Hct).
    eapply (oc_moved _ _ (pev_order_id e) o _ Ready); try done.
    + right. split; [done|]. exists Reported, Ready. split_and!; [done|done|apply ph_verify].
    + cbn. split; [exact Hc1|].
      exists (si_row ids), (new_verification ids r (pev_order_id e) eid e). cbn.
      rewrite lookup_insert_eq Er. by split_and!.
  - assert (p ∈ [Paying; Reported; Reviewing; Refused]) as Hin.
    { assert (~ approved db (pev_order_id e)) as Hna by (intros (k & v & Hkv & Hkid & _); exact (Hn k v Hkv Hkid)).
      clear - Hb Hcol Hna. destruct p; [discriminate Hcol|by apply (bool_decide_unpack _)..| |];
        cbn in Hb; tauto. }
    assert (order_phase (decided_order r o) = Some Refused) as Hp'
      by (apply order_phase_columns; unfold decided_order; rewrite Er; cbn; by rewrite Hct).
    eapply (oc_moved _ _ (pev_order_id e) o _ Refused); try done.
    right. split; [done|]. exists p, Refused. split_and!; [done|done|by apply ph_reject].
Qed.

Definition reconciled_db (r : CaseDecision) (eid : UUID) e o (cid : UUID) c candidate target same db
  : MarketDb :=
  put_market_order (pev_order_id e) (case_order r o)
    (put_evidence eid (case_evidence r e target same) (put_case cid (decided_case r candidate c) db)).

Lemma reconciled_changes r eid e o cid c candidate target same db :
  sales_inv db -> sales_kept db (reconciled_db r eid e o cid c candidate target same db) ->
  evidences db !! eid = Some e -> market_orders db !! pev_order_id e = Some o ->
  cd_action r = DoAcceptMatch \/ cd_action r = DoReview ->
  orders_changed db (reconciled_db r eid e o cid c candidate target same db).
Proof.
  intros Hi Hk He Ho Ha. destruct (sv_evidence _ Hi _ _ He) as (o1 & Ho1 & Hd & Hn).
  assert (o1 = o) as -> by congruence. destruct (direct_phase _ _ _ Hi Ho Hd) as (p & Hp & Hb & Hc).
  assert (p <> Contracting) as Hpc by congruence. specialize (Hc Hpc).
  assert (order_core (case_order r o) = order_core o) as Hcore
    by (unfold case_order; by destruct (bool_decide _), (cd_action r)).
  destruct (decide (or_status o = OrActivated)) as [Hs|Hs].
  - assert (case_order r o = o) as E by (unfold case_order; by rewrite bool_decide_eq_true_2).
    eapply (oc_moved _ _ (pev_order_id e) o _ p); try done.
    + left. done.
    + by rewrite E.
    + by apply (backed_kept db _ _ o).
  - pose proof Hp as Hcol%order_phase_columns.
    assert (or_contract_status o = CtCompleted) as Hct by (destruct p; cbn in Hcol; congruence).
    assert (p <> Active) as Hpa by (intros ->; cbn in Hcol; congruence).
    set (p' := match cd_action r with DoAcceptMatch => Reported | _ => Reviewing end).
    assert (order_phase (case_order r o) = Some p') as Hp'.
    { apply order_phase_columns. unfold case_order, p'. rewrite bool_decide_eq_false_2 //.
      destruct Ha as [-> | ->]; cbn; by rewrite Hct. }
    eapply (oc_moved _ _ (pev_order_id e) o _ p'); try done.
    + right. split; [done|]. exists p, p'. split_and!; [done|done|].
      apply ph_reconcile; [set_solver|]. unfold p'. destruct Ha as [-> | ->]; set_solver.
    + pose proof (contracted_kept _ _ _ _ (case_order r o) Hk Hcore Hc) as Hc1.
      unfold p'. by destruct Ha as [-> | ->].
Qed.

Definition activated_db (ids : SalesIds) (r : ActivationRequest) (id : UUID) o plan db : MarketDb :=
  put_sales (sl_put_activation (si_row2 ids) (new_activation ids id o plan r))
    (put_subscription (si_row ids) (new_subscription ids id o (aq_now r))
       (put_market_order id (activated_order (aq_now r) o) db)).

Lemma activated_changes ids r id o plan db :
  sales_inv db -> sales_kept db (activated_db ids r id o plan db) ->
  market_orders db !! id = Some o -> activable r id o plan db ->
  orders_changed db (activated_db ids r id o plan db).
Proof.
  intros Hi Hk Ho Hab. destruct (order_ready_inv _ (ab_ready _ _ _ _ _ Hab)) as (Hs & Hd & Hct & _).
  destruct (sv_orders _ Hi _ _ Ho Hd) as (Hreq & p & Hp & Hb).
  pose proof Hp as Hcol%order_phase_columns. rewrite Hs Hct in Hcol.
  assert (p = Ready) as -> by (destruct p; (done || congruence)). injection Hcol as Hpay.
  assert (order_phase (activated_order (aq_now r) o) = Some Active) as Hp'
    by (apply order_phase_columns; cbn; by rewrite Hct Hpay).
  eapply (oc_moved _ _ id o _ Active); try done.
  - right. split; [done|]. exists Ready, Active. split_and!; [done|done|apply ph_activate].
  - destruct Hb as [Hc Hv]. split_and!.
    + by apply (contracted_kept db _ _ o).
    + by apply (approved_kept db).
    + apply (verified_paid_kept db _ _ o); [done|done|]. by apply (ab_paid _ _ _ _ _ Hab).
    + exists (si_row2 ids), (new_activation ids id o plan r), (new_subscription ids id o (aq_now r)).
      cbn. by rewrite !lookup_insert_eq.
Qed.

Lemma change_orders db db1 : sales_inv db -> sales_change db db1 -> orders_changed db db1.
Proof.
  intros Hi Hc. pose proof (change_kept _ _ Hc) as Hk.
  destruct Hc as [ids r offer_id offer d o Hs| | | ids r eid e o He Ho Hn [c Hr] Hf| |].
  - eapply ordered_changes; eassumption.
  - by apply contracted_changes.
  - by apply reported_changes.
  - by apply (decided_changes _ _ _ _ _ c).
  - by apply reconciled_changes.
  - by apply activated_changes.
Qed.

Lemma change_evidence db db1 k e' :
  sales_change db db1 -> evidences db1 !! k = Some e' ->
  (exists e, evidences db !! k = Some e /\ pev_order_id e' = pev_order_id e) \/
  (exists o, market_orders db !! pev_order_id e' = Some o /\ reportable o).
Proof.
  destruct 1 as [| |ids r oid o m Ho _ Hr _ _|ids r eid e o He _ _ _ _|r eid e o cid c cand target sm He _ Ha|];
    cbn; eauto; intros [[<- <-]|[_ Hk]]%lookup_insert_Some; eauto; left; exists e; split; try done.
  - unfold decided_evidence. by destruct (vq_verified r).
  - unfold case_evidence. by destruct Ha as [-> | ->].
Qed.

Lemma change_audits db db1 : sales_change db db1 -> audits db1 = audits db.
Proof. by destruct 1. Qed.
End Changes.

Lemma orders_changed_lookup db db1 id o :
  orders_changed db db1 -> market_orders db !! id = Some o ->
  exists o', market_orders db1 !! id = Some o' /\ order_moves o o'.
Proof.
  intros [k x Hk -> _ _ _|k x x' p Hk -> _ Hm _ _] Ho.
  - exists o. rewrite lookup_insert_ne; [congruence|]. split; [done|by left].
  - destruct (decide (k = id)) as [->|].
    + rewrite lookup_insert_eq. exists x'. split; [done|]. congruence.
    + rewrite lookup_insert_ne //. exists o. split; [done|by left].
Qed.

Lemma reportable_begun o : reportable o -> order_phase o <> Some Contracting.
Proof.
  intros (_ & _ & Hct & _) Hp%order_phase_columns. cbn in Hp. rewrite Hct in Hp. discriminate Hp.
Qed.

Lemma change_inv `{Sha256} db db1 : sales_inv db -> sales_change db db1 -> sales_inv db1.
Proof.
  intros Hi Hc. pose proof (change_kept _ _ Hc) as Hk. pose proof (change_orders _ _ Hi Hc) as Hch.
  split.
  - intros id o Ho Hd. destruct Hch as [k x Hx Ex _ Hr Hp|k x x' p Hx Ex Hd' Hm Hp Hb];
      rewrite Ex in Ho; apply lookup_insert_Some in Ho as [[<- <-]|[_ Ho]].
    + split; [done|]. by exists Contracting.
    + destruct (sv_orders _ Hi _ _ Ho Hd) as (? & p & ? & Hb). split; [done|]. exists p.
      split; [done|by apply (backed_kept db _ _ o)].
    + destruct (order_core_fields _ _ (order_moves_core _ _ Hm)) as (_ & _ & -> & _).
      split; [by apply (sv_orders _ Hi k x)|by exists p].
    + destruct (sv_orders _ Hi _ _ Ho Hd) as (? & q & ? & Hb'). split; [done|]. exists q.
      split; [done|by apply (backed_kept db _ _ o)].
  - intros k e' He'.
    assert (exists o, market_orders db !! pev_order_id e' = Some o /\ or_selected_channel o = MaestroDirect /\
              order_phase o <> Some Contracting) as (o & Ho & Hd & Hn).
    { destruct (change_evidence _ _ _ _ Hc He') as [(e & He & ->)|(o & Ho & Hr)].
      - by apply (sv_evidence _ Hi k).
      - exists o. split_and!; [done|apply Hr|by apply reportable_begun]. }
    destruct (orders_changed_lookup _ _ _ _ Hch Ho) as (o' & Ho' & Hm). exists o'.
    split_and!; [done| |by apply (order_moves_begun o)].
    by destruct (order_core_fields _ _ (order_moves_core _ _ Hm)) as (_ & -> & _).
Qed.

(** ** Every request *)

(** The tables the invariant reads; what is logged is not among them. *)
Lemma logged_kept aid a ns db : sales_kept db (logged aid a ns db).
Proof. split; intros id x Hx; autorewrite with logged; eauto. Qed.

Lemma logged_backed aid a ns db id o p : backed db id o p -> backed (logged aid a ns db) id o p.
Proof. by apply backed_kept, eq_refl; apply logged_kept. Qed.

Lemma logged_inv aid a ns db : sales_inv db -> sales_inv (logged aid a ns db).
Proof.
  intros [Ho He]. split.
  - intros id o. autorewrite with logged. intros Hid Hd.
    destruct (Ho id o Hid Hd) as (? & p & ? & Hb). split; [done|]. exists p.
    split; [done|by apply logged_backed].
  - intros k e. autorewrite with logged. intros Hk. destruct (He k e Hk) as (o & Hx & ?).
    by exists o.
Qed.

(** What the requests of the other components do to the sales. *)
Record sales_quiet (db db' : MarketDb) : Prop := {
  sq_sales : db_sales db' = db_sales db;
  sq_subscriptions : forall id,
    subscription_core <$> db_subscriptions db' !! id = subscription_core <$> db_subscriptions db !! id
}.

Lemma sales_quiet_kept db db' : sales_quiet db db' -> sales_kept db db'.
Proof.
  intros [Es Eu]. split; rewrite ?Es; eauto. intros id s Hs. specialize (Eu id). rewrite Hs in Eu.
  destruct (db_subscriptions db' !! id) as [s'|]; [|discriminate Eu]. exists s'. split; [done|].
  injection Eu. intros. unfold subscription_core. congruence.
Qed.

Lemma sales_quiet_inv db db' : sales_quiet db db' -> sales_inv db -> sales_inv db'.
Proof.
  intros Hq [Ho He]. pose proof (sales_quiet_kept _ _ Hq) as Hk. destruct Hq as [Es _]. split; rewrite Es.
  - intros id o Hid Hd. destruct (Ho id o Hid Hd) as (? & p & ? & Hb). split; [done|]. exists p.
    split; [done|]. by apply (backed_kept db _ _ o).
  - exact He.
Qed.

Lemma other_sales_quiet (o : market_op) db :
  match o with OpSales _ _ _ _ _ => True | _ => sales_quiet db (market_exec o db) end.
Proof.
  pose proof (top_up_op_step o db) as Ht. pose proof (core_op_step o db) as Hs.
  destruct o as [id cmd|id cmd| | | | | | | | | | | | | | |h ids t later so]; try done;
    try (destruct Ht as [->|[_ Hf]]; [done|split; [apply (tf_sales _ _ Hf)|by rewrite (tf_subscriptions _ _ Hf)]]);
    try (destruct Hs as [->|[_ Hf]]; [done|split; [apply (frame_sales _ _ Hf)|apply (frame_subscriptions _ _ Hf)]]).
  all: clear Ht Hs; cbn.
  - destruct (record id cmd db) as [r db'] eqn:E. apply record_refines in E. by destruct E.
  - destruct (rollover id cmd db) as [r db'] eqn:E. by apply rollover_cases in E as [->|(? & _ & _ & -> & _)].
Qed.

(** An audit record is added, or the sales are left alone. *)
Definition audited (db db' : MarketDb) : Prop :=
  db_sales db' = db_sales db \/
  exists aid a, audits db !! aid = None /\ audits db' = <[aid := a]> (audits db).

Lemma market_exec_audited (o : market_op) db : audited db (market_exec o db).
Proof.
  pose proof (other_sales_quiet o db) as Hq. destruct o; try (left; apply (sq_sales _ _ Hq)).
  cbn [market_exec]. destruct (sales_exec_request ids now later o db) as [|db1 aid a n ns Hc Ha _]; [by left|right].
  exists aid, a. split; [done|]. by rewrite logged_audits (change_audits _ _ Hc).
Qed.

(** What one request does: the invariant stays, what never changes is kept, every order
    stays or moves, and a new one begins with its contract. *)
Record sales_history (db db' : MarketDb) : Prop := {
  sh_inv : sales_inv db';
  sh_kept : sales_kept db db';
  sh_moves : forall id o, market_orders db !! id = Some o ->
    exists o', market_orders db' !! id = Some o' /\ order_moves o o';
  sh_new : forall id o', market_orders db !! id = None -> market_orders db' !! id = Some o' ->
    or_selected_channel o' = MaestroDirect /\ order_phase o' = Some Contracting
}.

Lemma sales_quiet_history db db' : sales_inv db -> sales_quiet db db' -> sales_history db db'.
Proof.
  intros Hi Hq. split; [by apply (sales_quiet_inv db)|by apply sales_quiet_kept| |];
    rewrite (sq_sales _ _ Hq); [|congruence].
  intros id o Ho. exists o. split; [done|by left].
Qed.

Lemma sales_request_history `{Sha256} db db' :
  sales_inv db -> sales_request db db' -> sales_history db db'.
Proof.
  intros Hi [|db1 aid a n ns Hc Ha _]; [by apply sales_quiet_history|].
  pose proof (change_orders _ _ Hi Hc) as Hch. split.
  - apply logged_inv. by apply (change_inv db).
  - transitivity db1; [by apply change_kept|apply logged_kept].
  - intros id o Ho. rewrite logged_orders. by apply (orders_changed_lookup db).
  - intros id o' Hn. rewrite logged_orders.
    destruct Hch as [k x Hx -> Hd _ Hp|k x x' p Hx -> _ _ _ _]; intros [[<- <-]|[_ Hk]]%lookup_insert_Some;
      congruence || done.
Qed.

Lemma market_exec_sales (o : market_op) db : sales_inv db -> sales_history db (market_exec o db).
Proof.
  intros Hi. pose proof (other_sales_quiet o db) as Hq. destruct o; try by apply sales_quiet_history.
  apply sales_request_history; [done|apply sales_exec_request].
Qed.

Lemma market_run_sales ops db :
  sales_inv db -> sales_inv (market_run ops db) /\ sales_kept db (market_run ops db).
Proof.
  revert db. induction ops as [|o ops IH]; intros db Hi; [split; [done|reflexivity]|]. cbn.
  destruct (market_exec_sales o db Hi) as [Hi' Hk _ _]. destruct (IH _ Hi') as [Hi'' Hk'].
  split; [done|exact (transitivity Hk Hk')].
Qed.

(** The path of an order through a sequence of requests. *)
Inductive order_path (o o' : AdminMarketOrder) : Prop :=
  | path_direct p p' :
      order_core o' = order_core o -> order_phase o = Some p -> order_phase o' = Some p' ->
      rtc phase_step p p' -> (p = Active -> o' = o) -> order_path o o'.

Lemma phase_active p p' : rtc phase_step p p' -> p = Active -> p' = Active.
Proof. intros Hr ->. inversion Hr as [|? q ? Hs]; subst; [done|]. by apply phase_step_source in Hs. Qed.

Lemma order_path_moves o o1 o2 : order_moves o o1 -> order_path o1 o2 -> order_path o o2.
Proof.
  intros [->|(Ec & p & p1 & Hp & Hp1 & Hs)] [q p2 Ec2 Hq Hp2 Hr Ha]; [by apply (path_direct _ _ q p2)|].
  assert (q = p1) as -> by congruence. apply (path_direct _ _ p p2); try done; [congruence|exact (rtc_l _ _ _ _ Hs Hr)|].
  intros ->. by apply phase_step_source in Hs.
Qed.

Lemma market_run_path ops db id o :
  sales_inv db -> market_orders db !! id = Some o -> or_selected_channel o = MaestroDirect ->
  exists o', market_orders (market_run ops db) !! id = Some o' /\ order_path o o'.
Proof.
  revert db o. induction ops as [|op ops IH]; intros db o Hi Ho Hd; cbn.
  - destruct (sv_orders _ Hi _ _ Ho Hd) as (_ & p & Hp & _). exists o. split; [done|].
    by apply (path_direct _ _ p p); [..|apply rtc_refl|].
  - destruct (market_exec_sales op db Hi) as [Hi' _ Hm _]. destruct (Hm _ _ Ho) as (o1 & Ho1 & Hs).
    destruct (order_core_fields _ _ (order_moves_core _ _ Hs)) as (_ & Ed & _).
    destruct (IH _ o1 Hi' Ho1 ltac:(congruence)) as (o2 & Ho2 & Hp). exists o2.
    split; [done|by apply (order_path_moves o o1)].
Qed.

Lemma market_run_new ops db id o' :
  sales_inv db -> market_orders db !! id = None -> market_orders (market_run ops db) !! id = Some o' ->
  or_selected_channel o' = MaestroDirect /\
  exists p', order_phase o' = Some p' /\ rtc phase_step Contracting p'.
Proof.
  revert db. induction ops as [|op ops IH]; intros db Hi Hn Ho; cbn in Ho; [congruence|].
  destruct (market_exec_sales op db Hi) as [Hi' _ _ Hnew].
  destruct (market_orders (market_exec op db) !! id) as [o1|] eqn:E; [|by apply (IH _ Hi' E)].
  destruct (Hnew _ _ Hn E) as [Hd Hp].
  destruct (market_run_path ops _ _ _ Hi' E Hd) as (o2 & Ho2 & [p p' Ec Hp1 Hp2 Hr _]).
  destruct (order_core_fields _ _ Ec) as (_ & Ed & _). assert (o2 = o') as -> by congruence.
  split; [congruence|]. exists p'. split; [done|]. congruence.
Qed.
End SalesLedger.
