(* ===== verification/ProviderLedger.v ===== *)
(** * The history of the webhook inbox

    What every entry of the inbox is in a committed database (its lifecycle and the shape
    of its evidence), how it agrees with its decision, and that every request keeps this
    and the history of the entries. *)
From S2P Require Import Prelude PyString PyDateTime PyDecimal PyText PyJson LemonWebhook.
From S2P Require Import Uow TopUpDb MarketDb QuotaUsage.
From S2P Require Import Delinquency TopUpOrder TopUpGrant TopUpSpec.
From S2P Require Import LemonRuntime LemonInbox LemonProcess LemonTopUp MarketFrames.
From S2P Require Import LemonSpec LemonTopUpSpec LemonCheckout SalesChange MarketLedger.
#[local] Open Scope Z_scope.

(** The evidence an entry carries, by the type of its resource. *)
Inductive evidence_shape (i : inbox_row) : Prop :=
  | es_order :
      i_resource_type i = "orders" -> i_evidence_schema_version i = Some 3 ->
      i_provider_order_id i = Some (i_external_resource_id i) ->
      i_provider_subscription_id i = None -> is_Some (i_variant_id i) ->
      is_Some (i_currency i) -> is_Some (i_total_amount i) -> evidence_shape i
  | es_subscription :
      i_resource_type i = "subscriptions" -> i_evidence_schema_version i = Some 1 ->
      i_provider_subscription_id i = Some (i_external_resource_id i) ->
      is_Some (i_provider_order_id i) -> is_Some (i_variant_id i) ->
      i_currency i = None -> i_total_amount i = None -> evidence_shape i
  | es_invoice :
      i_resource_type i = "subscription-invoices" -> i_evidence_schema_version i = Some 1 ->
      is_Some (i_provider_subscription_id i) -> i_provider_order_id i = None ->
      i_variant_id i = None -> is_Some (i_currency i) -> is_Some (i_total_amount i) ->
      evidence_shape i.

(** The lifecycle of a committed entry: received, or claimed once and closed at the time
    it was claimed.  No committed entry is being processed. *)
Inductive entry_lifecycle (i : inbox_row) : Prop :=
  | el_received :
      i = entry_core i -> entry_lifecycle i
  | el_processed t :
      i = processed_entry t (entry_core i) -> entry_lifecycle i
  | el_rejected t code :
      i = rejected_entry t code (entry_core i) -> entry_lifecycle i.

Record entry_ok (i : inbox_row) : Prop := {
  eo_lifecycle : entry_lifecycle i;
  eo_shape : evidence_shape i
}.

(** A decision and the entry it was made on. *)
Definition decision_status (a : ReconciliationAction) : ProcessingStatus :=
  match a with ActRequiresReview => InRejected | ActIgnore | ActReconcile => InProcessed end.
Definition settled (id : UUID) (i : inbox_row) (d : decision_row) : Prop :=
  stored_binding_matches d id i = true /\ i_processing_status i = decision_status (rd_action d) /\
  i_claimed_at i = Some (rd_decided_at d).

Record provider_inv (db : MarketDb) : Prop := {
  pi_entries : forall k i, inbox db !! k = Some i -> entry_ok i;
  pi_decisions : forall k d, decisions db !! k = Some d ->
    exists i, inbox db !! rd_inbox_id d = Some i /\ settled (rd_inbox_id d) i d
}.

(** The history: entries stay, with what they say; closed entries and decisions never
    change. *)
Record provider_kept (db db' : MarketDb) : Prop := {
  pk_entries : forall k i, inbox db !! k = Some i ->
    exists i', inbox db' !! k = Some i' /\ entry_core i' = entry_core i /\
      (i_processing_status i <> InReceived -> i' = i);
  pk_decisions : forall k d, decisions db !! k = Some d -> decisions db' !! k = Some d
}.

Section ProviderLedger.
Implicit Types (db : MarketDb) (i : inbox_row) (d : decision_row).

#[global] Instance provider_kept_preorder : PreOrder provider_kept.
Proof.
  split.
  - intros db. split; eauto.
  - intros a b c [E1 D1] [E2 D2]. split; [|auto]. intros k i Hi.
    destruct (E1 k i Hi) as (i1 & H1 & C1 & S1). destruct (E2 k i1 H1) as (i2 & H2 & C2 & S2).
    exists i2. split; [done|]. split; [congruence|]. intros Hs. rewrite S2; [by rewrite S1|by apply S1].
Qed.

(** ** What ingestion puts into the inbox *)

Lemma extract_shape `{WP : WebhookPrimitives} rt ext attrs e :
  extract_lemon_squeezy_verified_evidence rt ext attrs = Ok e ->
  forall h p w t, vw_resource_type w = rt -> vw_external_resource_id w = ext -> vw_evidence w = e ->
  evidence_shape (received_entry h p w t).
Proof.
  unfold extract_lemon_squeezy_verified_evidence. intros H h p w t <- <- <-. inv_ok.
  case_bool_decide as E1; [inv_ok; match goal with H : _ = vw_evidence w |- _ => symmetry in H end|
    case_bool_decide as E2; [inv_ok; match goal with H : _ = vw_evidence w |- _ => symmetry in H end|
    case_bool_decide as E3; [inv_ok; match goal with H : _ = vw_evidence w |- _ => symmetry in H end|done]]].
  all: match goal with H : vw_evidence _ = _ |- _ => rename H into Ev end.
  - apply es_order; cbn; rewrite ?Ev; cbn; eauto.
  - apply es_subscription; cbn; rewrite ?Ev; cbn; eauto.
  - apply es_invoice; cbn; rewrite ?Ev; cbn; eauto.
Qed.

Lemma parse_shape `{WP : WebhookPrimitives} q w h p t :
  parse_request q = Ok w -> evidence_shape (received_entry h p w t).
Proof.
  unfold parse_request, parse_verified_lemon_squeezy_webhook. intros H. inv_ok.
  destruct (jget _ "test_mode"); try discriminate H. inv_ok.
  match goal with H : webhook_evidence _ _ _ = Ok _ |- _ => rename H into He end.
  unfold webhook_evidence in He.
  destruct (extract_lemon_squeezy_verified_evidence _ _ _) as [e|exc] eqn:Ex in He.
  - injection He as <-. subst w. by apply (extract_shape _ _ _ _ Ex).
  - destruct (bool_decide _) in He; discriminate He.
Qed.

Lemma received_ok `{WP : WebhookPrimitives} q w h p t :
  parse_request q = Ok w -> entry_ok (received_entry h p w t).
Proof. intros H. split; [by apply el_received|exact (parse_shape q w h p t H)]. Qed.

(** ** Closing an entry *)

Lemma entry_core_idemp i : entry_core (entry_core i) = entry_core i.
Proof. done. Qed.

Lemma received_core i : entry_ok i -> i_processing_status i = InReceived -> i = entry_core i.
Proof. intros [[H|t H|t c H] _] Hs; [done|rewrite H in Hs; done..]. Qed.

Lemma shape_core i i' : entry_core i' = entry_core i -> evidence_shape i -> evidence_shape i'.
Proof.
  intros E H.
  assert (i_resource_type i' = i_resource_type i /\
    i_evidence_schema_version i' = i_evidence_schema_version i /\
    i_external_resource_id i' = i_external_resource_id i /\
    i_provider_order_id i' = i_provider_order_id i /\
    i_provider_subscription_id i' = i_provider_subscription_id i /\
    i_variant_id i' = i_variant_id i /\ i_currency i' = i_currency i /\
    i_total_amount i' = i_total_amount i) as (E1 & E2 & E3 & E4 & E5 & E6 & E7 & E8)
    by (injection E; auto 20).
  destruct H; [apply es_order|apply es_subscription|apply es_invoice]; congruence.
Qed.

(** The entry [id], received, is closed as [i'], together with at most one decision. *)
Lemma closed_kept id i i' db db' :
  provider_inv db -> inbox db !! id = Some i -> i_processing_status i = InReceived ->
  inbox db' = <[id := i']> (inbox db) -> entry_core i' = entry_core i -> entry_lifecycle i' ->
  i_processing_status i' <> InReceived ->
  (decisions db' = decisions db \/
   exists k d, decisions db !! k = None /\ decisions db' = <[k := d]> (decisions db) /\
     rd_inbox_id d = id /\ settled id i' d) ->
  provider_inv db' /\ provider_kept db db'.
Proof.
  intros [He Hd] Hi Hst Ei Hcore Hl Hcl Hdec.
  assert (forall k d, decisions db !! k = Some d ->
    exists i0, inbox db' !! rd_inbox_id d = Some i0 /\ settled (rd_inbox_id d) i0 d) as Hold.
  { intros k d Hk. destruct (Hd k d Hk) as (i0 & Hi0 & Hs). exists i0. split; [|done].
    rewrite Ei lookup_insert_ne; [|done]. intros Heq. rewrite -Heq Hi in Hi0. injection Hi0 as <-.
    destruct Hs as (_ & Hs & _). rewrite Hst in Hs. by destruct (rd_action d). }
  split; split.
  - intros k j. rewrite Ei. intros [[<- <-]|[_ Hk]]%lookup_insert_Some; [|by apply (He k)].
    split; [done|]. apply (shape_core i); [done|]. by apply (He id).
  - intros k d Hk. destruct Hdec as [E|(k0 & d0 & Hn & E & <- & Hs)]; rewrite E in Hk;
      [by apply (Hold k)|]. apply lookup_insert_Some in Hk as [[<- <-]|[_ Hk]]; [|by apply (Hold k)].
    exists i'. by rewrite Ei lookup_insert_eq.
  - intros k j Hk. destruct (decide (id = k)) as [<-|Hne].
    + rewrite Hi in Hk. injection Hk as <-. exists i'. rewrite Ei lookup_insert_eq. by split_and!.
    + exists j. by rewrite Ei lookup_insert_ne.
  - intros k d Hk. destruct Hdec as [->|(k0 & d0 & Hn & -> & _)]; [done|].
    rewrite lookup_insert_ne; [intros ->; congruence|done].
Qed.

(** ** The requests *)

Definition provider_step db db' : Prop :=
  provider_inv db -> provider_inv db' /\ provider_kept db db'.

Lemma provider_step_same db db' : db_provider db' = db_provider db -> provider_step db db'.
Proof. intros E [He Hd]. split; split; rewrite ?E; eauto. Qed.

Lemma ingest_provider_step `{WP : WebhookPrimitives} new_id q db :
  provider_step db (snd (ingest_request new_id q db)).
Proof.
  destruct (ingest_request _ _ _) as [r db'] eqn:E. apply ingest_request_outcome in E. cbn.
  destruct E as [| |w e Hw Hn He Hu Hk]; [by apply provider_step_same..|]. intros [Hent Hdec].
  split; split; cbn.
  - intros k i [[<- <-]|[_ Hk']]%lookup_insert_Some; [|by apply (Hent k)].
    rewrite He. exact (received_ok q w _ _ _ Hw).
  - intros k d Hd. destruct (Hdec k d Hd) as (i & Hi & Hs). exists i. split; [|done].
    rewrite lookup_insert_ne; [congruence|done].
  - intros k i Hi. exists i. rewrite lookup_insert_ne; [intros ->; congruence|done].
  - done.
Qed.

Lemma bind_provider_step new_customer new_id cmd db :
  provider_step db (snd (bind new_customer new_id cmd db)).
Proof.
  destruct (bind _ _ _ _) as [r db'] eqn:E. apply bind_bind_outcome in E. cbn.
  destruct E as [| |c db' _ _ _ -> _]; [by apply provider_step_same..|].
  intros [He Hd]. split; split; destruct c; cbn; eauto.
Qed.

(** The tables of a decision carried out. *)
Lemma carried_out_tables id did i t dec db db' :
  carried_out id did i t dec db db' ->
  exists i', inbox db' = <[id := i']> (inbox db) /\ decisions db' = decisions db /\
    entry_core i' = entry_core i /\ i_processing_status i' = decision_status (de_action dec) /\
    i_claimed_at i' = Some t /\ (i = entry_core i -> entry_lifecycle i').
Proof.
  intros [Ha|Ha|db2 Ha Hr]; rewrite Ha.
  - eexists. split_and!; try reflexivity. intros ->. by eapply el_rejected.
  - eexists. split_and!; try reflexivity. intros ->. by eapply el_processed.
  - destruct (rc_binding _ _ _ Hr) as (bid & b & u & _ & _ & E). cbn. rewrite E.
    eexists. split_and!; try reflexivity. intros ->. by eapply el_processed.
Qed.

Lemma process_provider_step production ids id t db :
  provider_step db (snd (process_reconciliation (load_context production) ids id t db)).
Proof.
  destruct (process_reconciliation _ _ _ _ _) as [r db'] eqn:E.
  apply process_reconciliation_outcome in E; [|apply read_only_load_context]. cbn.
  destruct E as [| |i x claimed d db' Hi Hst _ _ _ Hn -> _ _ -> Hc _]; [by apply provider_step_same..|].
  intros Hinv. pose proof (received_core _ (pi_entries _ Hinv _ _ Hi) Hst) as Hcore.
  apply carried_out_tables in Hc as (i' & Ei & Ed & Ec & Es & Et & Hl). cbn in Ei, Ed.
  rewrite insert_insert_eq in Ei.
  apply (closed_kept id i i'); auto.
  - rewrite Es. by destruct (de_action _).
  - right. do 2 eexists. split_and!; [exact Hn|exact Ed|done|]. split; [|done].
    injection Ec. intros. unfold stored_binding_matches. cbn.
    repeat (rewrite bool_decide_eq_true_2; [congruence|]). done.
Qed.

Lemma db_provider_granted gid g o c db : db_provider (granted_db gid g o c db) = db_provider db.
Proof. done. Qed.
Lemma db_provider_reversed vid v g c db : db_provider (reversed_db vid v g c db) = db_provider db.
Proof. unfold reversed_db. by destruct (can_reverse g c). Qed.

(** An entry closed as processed without a decision. *)
Lemma processed_kept id i t db db' :
  provider_inv db -> inbox db !! id = Some i -> i_processing_status i = InReceived ->
  db_provider db' = pv_put_inbox id (processed_entry t i) (pv_put_inbox id (claimed_entry t i) (db_provider db)) ->
  provider_inv db' /\ provider_kept db db'.
Proof.
  intros Hinv Hi Hst E. pose proof (received_core _ (pi_entries _ Hinv _ _ Hi) Hst) as Hcore.
  apply (closed_kept id i (processed_entry t i)); rewrite ?E; try done.
  - cbn. by rewrite insert_insert_eq.
  - rewrite Hcore. by apply (el_processed _ t).
  - by left.
Qed.

Lemma top_up_provider_step ids id t db : provider_step db (snd (process_top_up ids id t db)).
Proof.
  destruct (process_top_up _ _ _ _) as [r db'] eqn:E. apply process_top_up_outcome in E. cbn.
  destruct E as [| |i oid o amount p g s2 db' Hi Hst _ _ _ _ Hg -> _]; [by apply provider_step_same..|].
  intros Hinv. apply (processed_kept id i t db); auto. cbn.
  assert (db_provider (working s2) = db_provider (paid_db ids id i t oid o p db)) as ->.
  { by inversion Hg. }
  unfold paid_db. by destruct (bool_decide _), p.
Qed.

Lemma refund_provider_step ids id t db : provider_step db (snd (process_refund ids id t db)).
Proof.
  destruct (process_refund _ _ _ _) as [r db'] eqn:E. apply process_refund_outcome in E. cbn.
  destruct E as [| |i oid pa to db' Hi Hst _ _ _ _ _ _ -> _
    |i oid pa to r s2 db' Hi Hst _ _ _ _ _ _ Hv -> _]; [by apply provider_step_same..| |];
    intros Hinv; apply (processed_kept id i t db); auto.
  apply reverse_in_uow_cases in Hv as [[[? Eq] _]|[(? & ? & _ & -> & _)|(v & g & c & _ & Hn & _ & _ & _ & ->)]];
    [done|done|]. cbn. by rewrite db_provider_reversed.
Qed.

Lemma checkout_step_provider oid db db' :
  checkout_step oid db db' -> db_provider db' = db_provider db.
Proof. by intros [->|(? & ? & _ & _ & -> & _)]. Qed.

(** The requests of the other components leave the tables of the provider alone. *)
Lemma other_provider o db :
  match o with
  | OpIngest _ _ _ | OpBind _ _ _ | OpProcess _ _ _ _ | OpLemonTopUp _ _ _ | OpLemonRefund _ _ _ => True
  | _ => db_provider (market_exec o db) = db_provider db
  end.
Proof.
  destruct o as [id cmd|id cmd|did tid b i dec|sid t|res prov cmd|id cmd|pid gid cmd|id cmd
    | | | | | |cmd|cmd answer|cmd cents candidates|h ids t later so];
    try done; cbn.
  - destruct (record id cmd db) as [r db'] eqn:E. apply record_refines in E. by destruct E.
  - destruct (rollover id cmd db) as [r db'] eqn:E. by apply rollover_cases in E as [->|(? & _ & _ & -> & _)].
  - pose proof (reconcile_cases did tid b i dec db) as H. destruct (reconcile _ _ _ _ _ _) as [r db'].
    destruct H as [[_ ->]|(_ & _ & Hf)]; [done|apply (frame_provider _ _ Hf)].
  - pose proof (expire_cases sid t db) as H. destruct (expire_overdue _ _ _) as [r db'].
    destruct H as [[_ ->]|(_ & _ & Hf)]; [done|apply (frame_provider _ _ Hf)].
  - destruct (create_order _ _ _ _) as [r db'] eqn:E. apply create_order_outcome in E. by destruct E.
  - destruct (grant _ _ _) as [r db'] eqn:E.
    by apply grant_cases in E as [[_ ->]|[(? & ? & _ & -> & _)|(? & ? & ? & _ & _ & _ & _ & -> & _)]].
  - destruct (verify_local _ _ _ _) as [r db'] eqn:E. apply verify_local_outcome in E.
    destruct E as [e|id g o r0|o p g c a r0 db1 db' _ _ _ _ _ _ -> _ _ _ _ -> _ _ _ _]; [done|done|].
    cbn. by destruct (bool_decide _), p.
  - destruct (reverse _ _ _) as [r db'] eqn:E. apply reverse_outcome in E.
    destruct E as [e|? v|v g c _ _ _ _ _]; [done|done|]. apply db_provider_reversed.
  - eapply checkout_step_provider, begin_checkout_step, surjective_pairing.
  - eapply checkout_step_provider, finish_checkout_step, surjective_pairing.
  - eapply checkout_step_provider, finish_recovery_step, surjective_pairing.
  - by destruct (sales_exec_step ids t later so db) as [->|[_ Hf]]; [|apply (sf_provider _ _ Hf)].
Qed.

Lemma market_exec_provider o db : provider_step db (market_exec o db).
Proof.
  pose proof (other_provider o db) as H. destruct o; try by apply provider_step_same.
  - apply ingest_provider_step.
  - apply bind_provider_step.
  - apply process_provider_step.
  - apply top_up_provider_step.
  - apply refund_provider_step.
Qed.

Lemma market_run_provider ops db : provider_step db (market_run ops db).
Proof.
  revert db. induction ops as [|o ops IH]; intros db Hi; [split; [done|reflexivity]|]. cbn.
  destruct (market_exec_provider o db Hi) as [Hi' Hk]. destruct (IH _ Hi') as [Hi'' Hk'].
  split; [done|]. exact (transitivity Hk Hk').
Qed.

End ProviderLedger.
