(* ===== verification/TopUpLedger.v ===== *)
(** * The ledger of the top-ups

    The invariant that ties the top-up units of the quota cycles to the grants and
    reversals, the grants to paid orders, and the payment evidence to grants; and its
    preservation by every request; then the theorems it gives. *)
From Stdlib Require Import Ascii.
From S2P Require Import Prelude PyString PyDecimal MaestroUnits PlanCatalog PyDateTime TopUpQuote BillingPeriod Uow TopUpDb MarketDb QuotaUsage Delinquency TopUpOrder TopUpGrant TopUpSpec LemonRuntime LemonInbox LemonTopUp LemonCheckout MarketFrames LemonSpec SalesChange LemonTopUpSpec MarketLedger.
#[local] Open Scope Z_scope.
Notation orders db := (tu_orders (db_top_ups db)).
Notation payments db := (tu_payments (db_top_ups db)).
Notation grants db := (tu_grants (db_top_ups db)).
Notation reversals db := (tu_reversals (db_top_ups db)).

(** Units a grant adds to the cycle [id], and units a reversal takes back from it. *)
Definition granted_to (id : UUID) (g : AdminMarketSubscriptionTopUpGrant) : Z :=
  if bool_decide (g_quota_cycle_id g = id) then g_units g else 0.
Definition taken_from (id : UUID) (v : AdminMarketSubscriptionTopUpReversal) : Z :=
  if bool_decide (v_quota_cycle_id v = id) && bool_decide (v_outcome v = ROReversed)
  then v_units v else 0.

(** The grant was bought: its order is granted, for the same cycle and units, and paid. *)
Definition bought (db : MarketDb) (g : AdminMarketSubscriptionTopUpGrant) : Prop :=
  exists o, orders db !! g_order_id g = Some o /\ o_state o = GRANTED /\
    o_requested_units o = g_units g /\ o_quota_cycle_id o = g_quota_cycle_id g /\
    paid db (g_order_id g) o (g_provider_reference g).

(** The top-up units of every cycle are the units granted to it less the units taken
    back; every grant is positive, for an existing cycle, and was bought; every reversal
    is of all the units of a grant; an order awaits its payment or is granted; and
    payment evidence is only recorded together with the grant it pays for. *)
Record top_up_ledger (db : MarketDb) : Prop := {
  tl_balanced : forall id c, db_cycles db !! id = Some c ->
    c_top_up_units c = sum_rows (granted_to id) (grants db) - sum_rows (taken_from id) (reversals db);
  tl_grants : forall k g, grants db !! k = Some g ->
    0 < g_units g /\ is_Some (db_cycles db !! g_quota_cycle_id g) /\ bought db g;
  tl_reversals : forall k v, reversals db !! k = Some v ->
    exists g, grants db !! v_grant_id v = Some g /\ v_units v = g_units g /\
      v_order_id v = g_order_id g /\ v_quota_cycle_id v = g_quota_cycle_id g;
  tl_orders : forall k o, orders db !! k = Some o ->
    o_state o = AWAITING_PAYMENT \/
    o_state o = GRANTED /\ exists gid g, grants db !! gid = Some g /\ g_order_id g = k;
  tl_payments : forall k p, payments db !! k = Some p ->
    exists gid g, grants db !! gid = Some g /\ g_order_id g = pe_order_id p /\
      g_provider_reference g = pe_provider_reference p
}.

(** No row of the top-up ledger is ever changed or removed. *)
Record top_ups_kept (db db' : MarketDb) : Prop := {
  kept_grants : forall k g, grants db !! k = Some g -> grants db' !! k = Some g;
  kept_reversals : forall k v, reversals db !! k = Some v -> reversals db' !! k = Some v;
  kept_payments : forall k p, payments db !! k = Some p -> payments db' !! k = Some p
}.

#[global] Instance top_ups_kept_preorder : PreOrder top_ups_kept.
Proof. split; [by intros db; split; intros ??|]. intros a b c [] []. split; eauto. Qed.

Section TopUpLedger.
Implicit Types (db : MarketDb) (c : AdminMarketSubscriptionQuotaCycle).

Lemma top_ups_kept_same db db' : db_top_ups db' = db_top_ups db -> top_ups_kept db db'.
Proof. intros E. by split; intros ?? H; rewrite E. Qed.

Lemma lookup_insert_kept {R} (t : Table R) id r k x :
  t !! id = None -> t !! k = Some x -> <[id := r]> t !! k = Some x.
Proof. intros Hn Hk. rewrite lookup_insert_ne; [intros ->; congruence|done]. Qed.

Lemma paid_mono db db' oid o o' ref :
  (forall k p, payments db !! k = Some p -> payments db' !! k = Some p) ->
  o_settlement_amount o' = o_settlement_amount o -> paid db oid o ref -> paid db' oid o' ref.
Proof. intros Hp Ho (k & p & a & H). exists k, p, a. rewrite Ho. naive_solver. Qed.

Lemma bought_mono db db' g :
  (forall k p, payments db !! k = Some p -> payments db' !! k = Some p) ->
  orders db' !! g_order_id g = orders db !! g_order_id g -> bought db g -> bought db' g.
Proof.
  intros Hp Ho (o & H1 & H2 & H3 & H4 & H5). exists o. rewrite Ho. split_and!; try done.
  exact (paid_mono _ _ _ _ _ _ Hp eq_refl H5).
Qed.

(** Sums over a cycle that does not exist. *)
Lemma grants_absent id db :
  top_up_ledger db -> db_cycles db !! id = None -> sum_rows (granted_to id) (grants db) = 0.
Proof.
  intros Hl Hid. apply sum_rows_zero. intros k g Hk. unfold granted_to. case_bool_decide as E; [|done].
  destruct (tl_grants _ Hl k g Hk) as (_ & [c Hc] & _). congruence.
Qed.
Lemma reversals_absent id db :
  top_up_ledger db -> db_cycles db !! id = None -> sum_rows (taken_from id) (reversals db) = 0.
Proof.
  intros Hl Hid. apply sum_rows_zero. intros k v Hk. unfold taken_from.
  destruct (bool_decide (v_quota_cycle_id v = id)) eqn:E; [|done]. to_prop.
  destruct (tl_reversals _ Hl k v Hk) as (g & Hg & _ & _ & Hc).
  destruct (tl_grants _ Hl _ g Hg) as (_ & [c Hc'] & _). congruence.
Qed.

(** A request that leaves the top-up tables alone, keeps the top-up units of the cycles
    and opens new ones without any. *)
Lemma top_up_ledger_ext db db' :
  db_top_ups db' = db_top_ups db ->
  (forall id c, db_cycles db !! id = Some c ->
     exists c', db_cycles db' !! id = Some c' /\ c_top_up_units c' = c_top_up_units c) ->
  (forall id c', db_cycles db' !! id = Some c' -> db_cycles db !! id = None -> c_top_up_units c' = 0) ->
  top_up_ledger db -> top_up_ledger db'.
Proof.
  intros E Hkeep Hnew Hl. pose proof Hl as [Hb Hg Hv Ho Hp]. split; rewrite ?E //.
  - intros id c' Hc'. destruct (db_cycles db !! id) as [c|] eqn:Hc.
    + destruct (Hkeep _ _ Hc) as (c'' & Hc'' & Hu). rewrite -(Hb _ _ Hc). congruence.
    + rewrite (Hnew _ _ Hc' Hc) (grants_absent _ _ Hl Hc) (reversals_absent _ _ Hl Hc). done.
  - intros k g Hk. destruct (Hg k g Hk) as (Hpos & [c Hc] & Hbt). split; [done|].
    destruct (Hkeep _ _ Hc) as (c'' & -> & _). split; [eauto|].
    apply (bought_mono db); rewrite ?E //.
Qed.

Lemma frame_top_up_ledger db db' : frame db db' -> top_up_ledger db -> top_up_ledger db'.
Proof.
  intros Hf. pose proof (frame_cycles _ _ Hf) as Hc. apply top_up_ledger_ext.
  - apply (frame_top_ups _ _ Hf).
  - intros id c Hid. specialize (Hc id). rewrite Hid in Hc. destruct (db_cycles db' !! id) as [c'|];
      [|discriminate Hc]. exists c'. split; [done|]. injection Hc. congruence.
  - intros id c' Hid Hn. specialize (Hc id). rewrite Hid Hn in Hc. discriminate Hc.
Qed.

(** ** The grant *)

(** A grant of an order of [db]: the database [db1] the grant finds may hold its payment
    and its new state already. *)
Lemma granted_top_up_ledger gid g o c db db1 :
  top_up_ledger db -> grant_new gid g o c db1 ->
  db_cycles db1 = db_cycles db -> grants db1 = grants db -> reversals db1 = reversals db ->
  (forall k p, payments db !! k = Some p -> payments db1 !! k = Some p) ->
  (forall k p, payments db1 !! k = Some p -> payments db !! k = Some p \/
     pe_order_id p = g_order_id g /\ pe_provider_reference p = g_provider_reference g) ->
  orders db1 = <[g_order_id g := o]> (orders db) ->
  top_up_ledger (granted_db gid g o c db1).
Proof.
  intros Hl Hn Ec Eg Er Hpk Hpn Eo. pose proof Hl as [Hb Hg Hv Ho Hp].
  pose proof (gn_fresh _ _ _ _ _ Hn) as Hfresh. pose proof (gn_cycle _ _ _ _ _ Hn) as Hc.
  rewrite Ec in Hc. rewrite Eg in Hfresh.
  unfold granted_db, put_order. split; cbn; rewrite ?Ec ?Eg ?Er ?Eo ?insert_insert_eq.
  - intros id c' Hid. rewrite sum_rows_insert //. unfold granted_to at 1.
    destruct (decide (g_quota_cycle_id g = id)) as [<-|Hne].
    + rewrite lookup_insert_eq in Hid. injection Hid as <-. rewrite bool_decide_eq_true_2 //.
      cbn. rewrite (Hb _ _ Hc). lia.
    + rewrite lookup_insert_ne // in Hid. rewrite bool_decide_eq_false_2 //. by rewrite (Hb _ _ Hid).
  - intros k g' Hk. unfold bought. cbn. rewrite Eo insert_insert_eq.
    destruct (decide (gid = k)) as [<-|Hne].
    + rewrite lookup_insert_eq in Hk. injection Hk as <-.
      split; [apply (gn_positive _ _ _ _ _ Hn)|]. rewrite lookup_insert_eq. split; [eauto|].
      exists (set_order_state GRANTED o). rewrite lookup_insert_eq. cbn. split_and!; try done.
      * by rewrite (gn_units _ _ _ _ _ Hn).
      * apply (gn_cycle_id _ _ _ _ _ Hn).
      * exact (paid_mono _ _ _ _ (set_order_state GRANTED o) _ (fun k p H => H) eq_refl (gn_paid _ _ _ _ _ Hn)).
    + rewrite lookup_insert_ne // in Hk. destruct (Hg _ _ Hk) as (Hpos & Hcy & o' & H1 & H2 & H3 & H4 & H5).
      split; [done|]. split.
      { destruct (decide (g_quota_cycle_id g = g_quota_cycle_id g')) as [->|];
          [rewrite lookup_insert_eq; eauto|by rewrite lookup_insert_ne]. }
      exists o'. rewrite lookup_insert_ne; [intros E; apply (gn_once _ _ _ _ _ Hn k g'); [by rewrite Eg|done]|].
      split_and!; try done. exact (paid_mono _ _ _ _ _ _ Hpk eq_refl H5).
  - intros k v Hk. destruct (Hv k v Hk) as (g' & Hg' & ?). exists g'. split; [|done].
    by apply lookup_insert_kept.
  - intros k o'. destruct (decide (g_order_id g = k)) as [<-|Hne].
    + rewrite lookup_insert_eq. intros [= <-]. right. split; [done|]. exists gid, g.
      by rewrite lookup_insert_eq.
    + rewrite lookup_insert_ne //. intros Hk. destruct (Ho k o' Hk) as [?|[? (gid' & g' & Hg' & ?)]]; [by left|].
      right. split; [done|]. exists gid', g'. split; [by apply lookup_insert_kept|done].
  - intros k p Hk. destruct (Hpn k p Hk) as [Hk'|[H1 H2]].
    + destruct (Hp k p Hk') as (gid' & g' & Hg' & ?). exists gid', g'.
      split; [by apply lookup_insert_kept|done].
    + exists gid, g. by rewrite lookup_insert_eq.
Qed.

Lemma granted_kept gid g o c db db1 :
  grant_new gid g o c db1 -> top_ups_kept db db1 -> top_ups_kept db (granted_db gid g o c db1).
Proof.
  intros Hn Hk. etrans; [exact Hk|]. split; try done. intros k g' Hg. cbn.
  apply lookup_insert_kept; [apply (gn_fresh _ _ _ _ _ Hn)|done].
Qed.

(** ** The reversal and the order *)

Lemma reversed_top_up_ledger vid v g c db :
  top_up_ledger db -> reversal_new vid v g c db -> top_up_ledger (reversed_db vid v g c db).
Proof.
  intros Hl Hn. pose proof Hl as [Hb Hg Hv Ho Hp].
  pose proof (rn_cycle _ _ _ _ _ Hn) as Hc. pose proof (rn_fresh _ _ _ _ _ Hn) as Hfresh.
  assert (taken_from (g_quota_cycle_id g) v = if can_reverse g c then g_units g else 0) as Ht.
  { unfold taken_from. rewrite (rn_cycle_id _ _ _ _ _ Hn) (rn_outcome _ _ _ _ _ Hn)
      (rn_units _ _ _ _ _ Hn) bool_decide_eq_true_2 //. by destruct (can_reverse g c). }
  assert (forall id, g_quota_cycle_id g <> id -> taken_from id v = 0) as Ht'.
  { intros id Hne. unfold taken_from. rewrite (rn_cycle_id _ _ _ _ _ Hn) bool_decide_eq_false_2 //. }
  assert (db_top_ups (reversed_db vid v g c db) = tu_put_reversal vid v (db_top_ups db)) as Et
    by (unfold reversed_db; by destruct (can_reverse g c)).
  split; rewrite ?Et; cbn [tu_orders tu_payments tu_grants tu_reversals tu_put_reversal].
  - intros id c' Hid. rewrite sum_rows_insert //. unfold reversed_db in Hid.
    destruct (decide (g_quota_cycle_id g = id)) as [<-|Hne].
    + rewrite Ht. destruct (can_reverse g c); cbn in Hid.
      * rewrite lookup_insert_eq in Hid. injection Hid as <-. cbn. rewrite (Hb _ _ Hc). lia.
      * rewrite (Hb _ _ Hid). lia.
    + rewrite Ht' //. destruct (can_reverse g c); cbn in Hid;
        rewrite ?lookup_insert_ne // in Hid; by rewrite (Hb _ _ Hid).
  - intros k g' Hk. destruct (Hg k g' Hk) as (Hpos & Hcy & Hbt). split; [done|]. split.
    + unfold reversed_db. destruct (can_reverse g c); [cbn|done].
      destruct (decide (g_quota_cycle_id g = g_quota_cycle_id g')) as [->|];
        [rewrite lookup_insert_eq; eauto|by rewrite lookup_insert_ne].
    + by apply (bought_mono db); rewrite ?Et.
  - intros k v' [[<- <-]|[_ Hk]]%lookup_insert_Some; [|by apply (Hv k)].
    exists g. split_and!; [apply (rn_grant _ _ _ _ _ Hn)|apply (rn_units _ _ _ _ _ Hn)
      |apply (rn_order _ _ _ _ _ Hn)|apply (rn_cycle_id _ _ _ _ _ Hn)].
  - apply Ho.
  - apply Hp.
Qed.

Lemma reversed_kept vid v g c db :
  reversal_new vid v g c db -> top_ups_kept db (reversed_db vid v g c db).
Proof.
  intros Hn.
  assert (db_top_ups (reversed_db vid v g c db) = tu_put_reversal vid v (db_top_ups db)) as Et
    by (unfold reversed_db; by destruct (can_reverse g c)).
  split; rewrite ?Et; try done. intros k v' Hk.
  apply lookup_insert_kept; [apply (rn_fresh _ _ _ _ _ Hn)|done].
Qed.

Lemma ordered_top_up_ledger cmd o db :
  top_up_ledger db -> order_new cmd o db ->
  top_up_ledger (put_order (co_order_id cmd) (stored_order o) db).
Proof.
  intros Hl Hn. pose proof Hl as [Hb Hg Hv Ho Hp]. pose proof (on_fresh _ _ _ Hn) as Hf.
  split; cbn; try done.
  - intros k g Hk. destruct (Hg k g Hk) as (Hpos & Hcy & Hbt). split; [done|]. split; [done|].
    apply (bought_mono db); [done| |done]. cbn. destruct Hbt as (o' & H1 & _).
    rewrite lookup_insert_ne; [intros E; congruence|done].
  - intros k o' [[<- <-]|[_ Hk]]%lookup_insert_Some; [|by apply (Ho k)].
    left. cbn. apply (on_state _ _ _ Hn).
Qed.

(** ** The requests *)

Lemma create_order_ledger resolver provider cmd db :
  top_up_ledger db -> let db' := snd (create_order resolver provider cmd db) in
  top_up_ledger db' /\ top_ups_kept db db'.
Proof.
  intros Hl. destruct (create_order _ _ _ _) as [r db'] eqn:E. apply create_order_outcome in E.
  destruct E as [| |o Hn Hk]; cbn; [split; [done|reflexivity]..|].
  split; [by apply ordered_top_up_ledger|by split].
Qed.

Lemma grant_ledger new_id cmd db :
  top_up_ledger db -> let db' := snd (grant new_id cmd db) in top_up_ledger db' /\ top_ups_kept db db'.
Proof.
  intros Hl. destruct (grant _ _ _) as [r db'] eqn:E. cbn.
  apply grant_cases in E as [[_ ->]|[(id & g & _ & -> & _)|(g & o & c & _ & Hn & _ & _ & -> & Hk)]];
    [split; [done|reflexivity]..|].
  split; [|by apply granted_kept].
  apply (granted_top_up_ledger _ _ _ _ db); auto.
  symmetry. apply insert_id, (gn_order _ _ _ _ _ Hn).
Qed.

Lemma verify_local_ledger pid gid cmd db :
  top_up_ledger db -> let db' := snd (verify_local pid gid cmd db) in
  top_up_ledger db' /\ top_ups_kept db db'.
Proof.
  intros Hl. destruct (verify_local _ _ _ _) as [r db'] eqn:E. cbn. apply verify_local_outcome in E.
  destruct E as [e|id g o r0|o p g c a r0 db1 db' Ho _ _ _ _ Hp Hdb1 Hn Hoid Hrid _ -> Hk _ _ _];
    [split; [done|reflexivity]..|].
  set (o' := if bool_decide _ then _ else o) in *.
  assert (orders db1 = <[g_order_id g := o']> (orders db)) as Eo.
  { rewrite Hdb1 Hoid. subst o'. case_bool_decide; [by destruct p|].
    rewrite insert_id //. by destruct p. }
  assert (payments db1 = match p with Some p => <[pid := stored_payment p]> (payments db)
                                    | None => payments db end) as Ep.
  { rewrite Hdb1. case_bool_decide; by destruct p. }
  assert (db_cycles db1 = db_cycles db /\ grants db1 = grants db /\ reversals db1 = reversals db)
    as (Ec & Eg & Er) by (rewrite Hdb1; case_bool_decide; by destruct p).
  assert (forall k q, payments db !! k = Some q -> payments db1 !! k = Some q) as Hkp.
  { intros k q Hq. rewrite Ep. destruct p as [p|]; [|done]. apply lookup_insert_kept; [apply Hp|done]. }
  split.
  - apply (granted_top_up_ledger _ _ _ _ db); try done. intros k q. rewrite Ep.
    destruct p as [p|]; [|by left]. destruct Hp as (_ & Hpo & Hpr).
    intros [[<- <-]|[_ Hk']]%lookup_insert_Some; [right|by left]. cbn. split; congruence.
  - apply (granted_kept _ _ o' _ db); [done|]. split; [by rewrite Eg|by rewrite Er|done].
Qed.

Lemma reverse_ledger new_id cmd db :
  top_up_ledger db -> let db' := snd (reverse new_id cmd db) in top_up_ledger db' /\ top_ups_kept db db'.
Proof.
  intros Hl. destruct (reverse _ _ _) as [r db'] eqn:E. cbn. apply reverse_outcome in E.
  destruct E as [e|id v|v g c Hn _ _ _ Hk]; [split; [done|reflexivity]..|].
  split; [by apply reversed_top_up_ledger|by apply reversed_kept].
Qed.

(** The tables of the provider are not part of the ledger. *)
Lemma top_up_ledger_provider f db : top_up_ledger db -> top_up_ledger (put_provider f db).
Proof. apply top_up_ledger_ext; [done|eauto|]. intros id c' H1 H2. cbn in H1. congruence. Qed.

(** Evidence of a payment that has its grant. *)
Lemma with_payment_ledger k p gid g db :
  top_up_ledger db -> grants db !! gid = Some g ->
  match p with
  | Some p => payments db !! k = None /\ pe_order_id p = g_order_id g /\
              pe_provider_reference p = g_provider_reference g
  | None => True
  end ->
  top_up_ledger (with_payment k p db) /\ top_ups_kept db (with_payment k p db).
Proof.
  destruct p as [p|]; [|by split]. intros Hl Hg (Hn & Ho & Hr). pose proof Hl as [H1 H2 H3 H4 H5].
  assert (forall k' q, payments db !! k' = Some q -> payments (with_payment k (Some p) db) !! k' = Some q)
    as Hk by (intros k' q; by apply lookup_insert_kept).
  split; [|by split]. split; try done.
  - intros k' g' Hg'. destruct (H2 k' g' Hg') as (? & ? & Hb). split_and!; try done.
    by apply (bought_mono db).
  - cbn. intros k' q [[<- <-]|[_ Hq]]%lookup_insert_Some; [|by apply (H5 k')].
    exists gid, g. by cbn.
Qed.

Lemma process_top_up_ledger ids id t db :
  top_up_ledger db -> let db' := snd (process_top_up ids id t db) in
  top_up_ledger db' /\ top_ups_kept db db'.
Proof.
  intros Hl. destruct (process_top_up _ _ _ _) as [r db'] eqn:E. apply process_top_up_outcome in E. cbn.
  destruct E as [| |i oid o amount p gr s2 db' Hi _ _ _ Hpu Hp Hg -> _]; [split; [done|reflexivity]..|].
  pose proof (pu_order _ _ _ _ _ Hpu) as Ho.
  inversion Hg as [|gid g Hg1 Hof|g o1 c Hn Hof Hat]; subst; cbn [working].
  - destruct Hof as (Hoid & _ & _ & _ & Href). cbn in Hoid, Href.
    assert (grants db !! gid = Some g) as Hg0.
    { revert Hg1. cbn. unfold paid_db. by destruct (bool_decide _), p. }
    assert (o_state o = GRANTED) as Hst.
    { destruct (tl_grants _ Hl _ _ Hg0) as (_ & _ & o' & Ho' & Hs & _). rewrite Hoid in Ho'. congruence. }
    unfold paid_db. rewrite bool_decide_eq_false_2; [by rewrite Hst|].
    destruct (with_payment_ledger (tid_payment ids) p gid g db) as [Hl' Hk]; [done|done| |].
    { destruct p; [|done]. destruct Hp as (? & ? & ?). split_and!; congruence. }
    split; [by do 2 apply top_up_ledger_provider|].
    etrans; [exact Hk|by apply top_ups_kept_same].
  - pose proof Hof as (Hoid & _ & _ & _ & Href). cbn in Hoid, Href.
    set (db1 := paid_db ids id i t oid o p db) in *.
    assert (orders db1 = <[g_order_id g := o1]> (orders db)) as Eo.
    { pose proof (gn_order _ _ _ _ _ Hn) as Ho1. rewrite Hoid in Ho1 |- *. subst db1. unfold paid_db in *.
      destruct (bool_decide _).
      - assert (o1 = set_order_state PAYMENT_VERIFIED o) as ->
          by (destruct p; cbn in Ho1; rewrite lookup_insert_eq in Ho1; congruence).
        by destruct p.
      - assert (o1 = o) as -> by (destruct p; cbn in Ho1; congruence).
        rewrite insert_id //. by destruct p. }
    assert (payments db1 = match p with Some p => <[tid_payment ids := stored_payment p]> (payments db)
                                      | None => payments db end) as Ep
      by (subst db1; unfold paid_db; by destruct (bool_decide _), p).
    assert (db_cycles db1 = db_cycles db /\ grants db1 = grants db /\ reversals db1 = reversals db)
      as (Ec & Eg & Er) by (subst db1; unfold paid_db; by destruct (bool_decide _), p).
    assert (forall k q, payments db !! k = Some q -> payments db1 !! k = Some q) as Hkp.
    { intros k q Hq. rewrite Ep. destruct p as [p|]; [|done]. apply lookup_insert_kept; [apply Hp|done]. }
    split.
    + apply top_up_ledger_provider. apply (granted_top_up_ledger _ _ _ _ db); try done.
      intros k q. rewrite Ep. destruct p as [p|]; [|by left]. destruct Hp as (_ & Hpo & Hpr).
      intros [[<- <-]|[_ Hk']]%lookup_insert_Some; [right|by left]. cbn. split; congruence.
    + transitivity (granted_db (tid_grant ids) g o1 c db1); [|by apply top_ups_kept_same].
      apply (granted_kept _ _ o1 _ db); [done|]. split; [by rewrite Eg|by rewrite Er|done].
Qed.

Lemma process_refund_ledger ids id t db :
  top_up_ledger db -> let db' := snd (process_refund ids id t db) in
  top_up_ledger db' /\ top_ups_kept db db'.
Proof.
  intros Hl. destruct (process_refund _ _ _ _) as [r db'] eqn:E. apply process_refund_outcome in E. cbn.
  destruct E as [| |i oid pa to db' _ _ _ _ _ _ _ _ -> _|i oid pa to rv s2 db' _ _ _ _ _ _ _ _ Hv -> _];
    [split; [done|reflexivity]..| |].
  - split; [by do 2 apply top_up_ledger_provider|by apply top_ups_kept_same].
  - apply (top_up_ledger_provider (pv_put_inbox id (claimed_entry t i))) in Hl.
    apply reverse_in_uow_cases in Hv as [[[? Eq] _]|[(? & ? & _ & -> & _)|(v & g & c & _ & Hn & _ & _ & _ & ->)]];
      [done|by split; [apply top_up_ledger_provider|apply top_ups_kept_same]|]. cbn [working] in *.
    split; [by apply top_up_ledger_provider, reversed_top_up_ledger|].
    transitivity (put_inbox id (claimed_entry t i) db); [by apply top_ups_kept_same|].
    transitivity (reversed_db (tid_reversal ids) v g c (put_inbox id (claimed_entry t i) db));
      [by apply reversed_kept|by apply top_ups_kept_same].
Qed.

(** A move of a checkout changes nothing the ledger reads. *)
Lemma rebound_ledger oid o o' db :
  top_up_ledger db -> orders db !! oid = Some o -> rebound o o' -> top_up_ledger (put_order oid o' db).
Proof.
  intros Hl Ho [v c st _]. pose proof Hl as [Hb Hg Hv Hor Hp]. split; cbn; try done.
  - intros k g Hk. destruct (Hg k g Hk) as (Hpos & Hcy & o1 & H1 & H2 & H3 & H4 & H5).
    split; [done|]. split; [done|]. destruct (decide (oid = g_order_id g)) as [E|Hne].
    + assert (o1 = o) as -> by congruence. exists (set_checkout v c st o). cbn.
      rewrite -E lookup_insert_eq. split_and!; try done. rewrite E.
      by apply (paid_mono db _ _ o).
    + exists o1. cbn. rewrite lookup_insert_ne //.
  - intros k o1 [[<- <-]|[_ Hk]]%lookup_insert_Some; [by apply (Hor oid o)|by apply (Hor k)].
Qed.

Lemma checkout_step_ledger oid db db' :
  checkout_step oid db db' -> top_up_ledger db -> top_up_ledger db' /\ top_ups_kept db db'.
Proof.
  intros [->|(o & o' & Ho & Hr & -> & _)] Hl; [split; [done|reflexivity]|].
  split; [by apply (rebound_ledger _ o)|by split].
Qed.

Lemma core_step_top_ups db db' :
  core_step db db' -> top_up_ledger db -> top_up_ledger db' /\ top_ups_kept db db'.
Proof.
  intros [->|[_ Hf]] Hl; [split; [done|reflexivity]|].
  split; [by apply (frame_top_up_ledger _ _ Hf), top_up_ledger_provider|].
  apply top_ups_kept_same, (frame_top_ups _ _ Hf).
Qed.

Lemma record_top_ups new_id cmd db :
  top_up_ledger db -> let db' := snd (record new_id cmd db) in
  top_up_ledger db' /\ top_ups_kept db db'.
Proof.
  intros Hl. destruct (record new_id cmd db) as [r db'] eqn:E. cbn. apply record_refines in E.
  destruct E as [rid rt c Hh Hn Hrt Hc Had Hk|k u|e|e rid rt g Hrt]; [|split; [done|reflexivity]..|].
  - split; [|by apply top_ups_kept_same]. apply (top_up_ledger_ext db); [done| | |done]; cbn.
    + intros id c'. destruct (decide (q_quota_cycle_id cmd = id)) as [<-|].
      * rewrite lookup_insert_eq Hc. intros [= <-]. eauto.
      * rewrite lookup_insert_ne //. eauto.
    + intros id c' Hid Hnone. rewrite lookup_insert_ne in Hid; congruence.
  - split; [|by apply top_ups_kept_same]. by apply (frame_top_up_ledger db); [apply frame_put_runtime|].
Qed.

Lemma rollover_top_ups new_id cmd db :
  top_up_ledger db -> let db' := snd (rollover new_id cmd db) in
  top_up_ledger db' /\ top_ups_kept db db'.
Proof.
  intros Hl. destruct (rollover new_id cmd db) as [r db'] eqn:E. cbn.
  apply rollover_cases in E as [->|(c & Hid & [_ Hu] & -> & Hk)]; [split; [done|reflexivity]|].
  split; [|by apply top_ups_kept_same]. apply (top_up_ledger_ext db); [done| | |done]; cbn.
  - intros id c' Hc. rewrite lookup_insert_ne; [intros <-; congruence|eauto].
  - intros id c' [[<- <-]|[_ Hc]]%lookup_insert_Some Hn; [done|congruence].
Qed.

Lemma sales_step_top_ups db db' :
  sales_step db db' -> top_up_ledger db -> top_up_ledger db' /\ top_ups_kept db db'.
Proof.
  intros [->|[_ Hf]] Hl; [split; [done|reflexivity]|].
  pose proof (sf_cycles _ _ Hf) as Ec. pose proof (sf_top_ups _ _ Hf) as Et.
  split; [|by apply top_ups_kept_same]. apply (top_up_ledger_ext db); try done; intros id c.
  - rewrite Ec. eauto.
  - rewrite Ec. congruence.
Qed.

(** Every request keeps the ledger of the top-ups and its rows. *)
Lemma market_exec_top_ups o db :
  top_up_ledger db -> top_up_ledger (market_exec o db) /\ top_ups_kept db (market_exec o db).
Proof.
  intros Hl. pose proof (core_op_step o db) as Hs.
  destruct o; try (by apply core_step_top_ups); clear Hs; cbn.
  - by apply record_top_ups.
  - by apply rollover_top_ups.
  - by apply create_order_ledger.
  - by apply grant_ledger.
  - by apply verify_local_ledger.
  - by apply reverse_ledger.
  - by apply process_top_up_ledger.
  - by apply process_refund_ledger.
  - apply (checkout_step_ledger (cc_order_id cmd)); [|done].
    exact (begin_checkout_step _ _ _ _ (surjective_pairing _)).
  - apply (checkout_step_ledger (cc_order_id cmd)); [|done].
    exact (finish_checkout_step _ _ _ _ _ (surjective_pairing _)).
  - apply (checkout_step_ledger (rcv_order_id cmd)); [|done].
    exact (finish_recovery_step _ _ _ _ _ _ (surjective_pairing _)).
  - by apply sales_step_top_ups; [apply sales_exec_step|].
Qed.

Lemma market_run_top_ups ops db :
  top_up_ledger db -> top_up_ledger (market_run ops db) /\ top_ups_kept db (market_run ops db).
Proof.
  revert db. induction ops as [|o ops IH]; intros db Hl; [split; [done|reflexivity]|]. cbn.
  destruct (market_exec_top_ups o db Hl) as [Hl' Hk]. destruct (IH _ Hl') as [Hl'' Hk'].
  split; [done|]. exact (transitivity Hk Hk').
Qed.

(** The constraints make the ledger rows of an order and of a grant unique. *)
Lemma top_up_unique db :
  market_constraints db = Ok tt -> top_up_uniques (db_top_ups db) = true.
Proof. unfold market_constraints. intros (? & H%ensure_Ok & _)%res_bind_Ok. by to_prop. Qed.

Lemma grant_unique db k1 k2 g1 g2 :
  market_constraints db = Ok tt -> grants db !! k1 = Some g1 -> grants db !! k2 = Some g2 ->
  g_order_id g1 = g_order_id g2 -> k1 = k2.
Proof.
  intros H%top_up_unique H1 H2 E. unfold top_up_uniques in H. to_prop.
  match goal with H : unique_on (fun g => Some (g_order_id g)) _ = true |- _ =>
    rewrite unique_on_true in H; exact (H k1 k2 g1 g2 _ H1 H2 eq_refl (f_equal Some (eq_sym E))) end.
Qed.

Lemma reversal_unique db k1 k2 v1 v2 :
  market_constraints db = Ok tt -> reversals db !! k1 = Some v1 -> reversals db !! k2 = Some v2 ->
  v_grant_id v1 = v_grant_id v2 -> k1 = k2.
Proof.
  intros H%top_up_unique H1 H2 E. unfold top_up_uniques in H. to_prop.
  match goal with H : unique_on (fun v => Some (v_grant_id v)) _ = true |- _ =>
    rewrite unique_on_true in H; exact (H k1 k2 v1 v2 _ H1 H2 eq_refl (f_equal Some (eq_sym E))) end.
Qed.

End TopUpLedger.

(** * Properties of the top-ups

    Orders, local payments, grants and reversals: what each request does, that units are
    only granted for verified payments, once, and only taken back when they have not been
    consumed; along any sequence of requests. *)
Section TopUpProps.
Implicit Types (db : MarketDb) (c : AdminMarketSubscriptionQuotaCycle).

(** ** Replays *)

(** A grant request for an order that was granted finds the ledger entry. *)
Lemma grant_found db k g id cmd :
  market_constraints db = Ok tt -> grants db !! k = Some g -> g_order_id g = gc_order_id cmd ->
  grant id cmd db =
    (_ ← validate_grant cmd;
     if grant_replay_matches g cmd then mret (grant_result k g true false)
     else raise SubscriptionTopUpGrantError "top-up grant replay conflicts with the existing ledger entry.", db).
Proof.
  intros Hk Hg Ho. unfold grant, with_uow, grant_body, apply_verified_subscription_top_up_in_uow.
  rewrite !M_bind_eq. destruct (validate_grant cmd) as [[]|e]; [|done]. cbn [lift mbind res_bind].
  unfold grant_by_order_id. rewrite bind_query. cbn [working].
  rewrite (find_row_unique _ _ k g) //.
  { by apply bool_decide_eq_true. }
  { intros k' g' Hk' E%bool_decide_eq_true. apply (grant_unique db k' k g' g); congruence. }
  rewrite M_bind_eq. unfold tm_require. by destruct (grant_replay_matches g cmd).
Qed.

Lemma grant_replayed db k g cmd :
  grants db !! k = Some g -> grant_of cmd g -> market_constraints db = Ok tt ->
  validate_grant cmd = Ok tt ->
  forall id, grant id cmd db = (Ok (grant_result k g true false), db).
Proof.
  intros Hg Hof Hk Hv id. rewrite (grant_found db k g) //; [by destruct Hof|].
  rewrite Hv. cbn [mbind res_bind].
  by rewrite (proj2 (grant_replay_of g cmd ltac:(by destruct Hof)) Hof).
Qed.

(** C25. Top-up units are paid for and accounted.  Along any sequence of requests the
    top-up units of every cycle are the units granted to it less the units taken back,
    and never negative; every grant is for a positive number of units, bought by one
    order of as many units for the same cycle, whose full amount was verified; every
    order awaits its payment or has been granted; payment evidence is only ever
    recorded together with the grant it pays for; and no ledger row changes. *)
Theorem top_up_units_accounted ops db :
  market_inv db -> top_up_ledger db ->
  let db' := market_run ops db in
  top_up_ledger db' /\ top_ups_kept db db' /\
  forall id c, db_cycles db' !! id = Some c ->
    0 <= sum_rows (granted_to id) (grants db') - sum_rows (taken_from id) (reversals db')
    /\ c_top_up_units c =
         sum_rows (granted_to id) (grants db') - sum_rows (taken_from id) (reversals db').
Proof.
  intros Hi Hl db'. destruct (market_run_inv ops db Hi) as [[Hc _] _].
  destruct (market_run_top_ups ops db Hl) as [Hl' Hk]. split; [done|]. split; [done|].
  intros id c Hid. rewrite -(tl_balanced _ Hl' _ _ Hid). split; [|done].
  pose proof (market_constraints_cycles _ _ _ Hc Hid) as Hcc. unfold cycle_checks in Hcc. to_prop. lia.
Qed.

(** A top-up is granted once.  Once the order of a grant is in the ledger, whatever
    requests come next: the grant command for the same order, cycle, customer and
    payment returns that grant; and no grant command for the order, and no local payment
    for it, changes anything again, a local payment that succeeds returning that grant. *)
Theorem top_up_granted_once ops db k g :
  market_inv db -> top_up_ledger db -> grants db !! k = Some g ->
  let db' := market_run ops db in
  (forall id cmd, validate_grant cmd = Ok tt -> grant_of cmd g ->
     grant id cmd db' = (Ok (grant_result k g true false), db')) /\
  (forall id cmd, gc_order_id cmd = g_order_id g -> snd (grant id cmd db') = db') /\
  (forall pid gid cmd, lc_order_id cmd = g_order_id g ->
     snd (verify_local pid gid cmd db') = db' /\
     forall r, fst (verify_local pid gid cmd db') = Ok r ->
       lr_grant_id r = k /\ lr_units r = g_units g /\ lr_replayed_grant r = true).
Proof.
  intros Hi Hl Hg db'. destruct (market_run_inv ops db Hi) as [[Hc _] _].
  destruct (market_run_top_ups ops db Hl) as [_ Hk]. apply (kept_grants _ _ Hk) in Hg.
  fold db' in Hc, Hg. split_and!.
  - intros id cmd Hv Hof. by apply grant_replayed.
  - intros id cmd E. by rewrite (grant_found _ _ _ _ _ Hc Hg).
  - intros pid gid cmd E. destruct (verify_local pid gid cmd db') as [r db3] eqn:H.
    apply verify_local_outcome in H.
    destruct H as [e|id g' o r0 _ Hg' Ho' _ Hid Hu Hr|o p g' c a r0 db1 db3 _ _ _ _ _ _ Hdb1 Hn Ho' _ _ _ _ _ _ _].
    + by split.
    + split; [done|]. intros r [= ->]. assert (id = k) as -> by (apply (grant_unique db' id k g' g); congruence).
      split_and!; congruence.
    + exfalso. apply (gn_once _ _ _ _ _ Hn k g); [|congruence].
      assert (grants db1 = grants db') as -> by (rewrite Hdb1; case_bool_decide; by destruct p). done.
Qed.

(** A refund is decided once, and never takes back units that were consumed.  A new
    decision is of all the units of the grant of the order: they are taken back exactly
    when what the cycle has used stays covered by its base, its spendable rollover and
    its remaining top-up units, and otherwise the refund is left for review and the
    balances stay as they are; and no later request on the order changes anything. *)
Theorem refund_decided_once new_id cmd db r db1 ops :
  market_inv db -> top_up_ledger db -> reverse new_id cmd db = (Ok r, db1) ->
  rr_idempotent_replay r = false ->
  (exists g c c', grants db !! rr_grant_id r = Some g /\ g_order_id g = rc_order_id cmd /\
     rr_units r = g_units g /\ db_cycles db !! g_quota_cycle_id g = Some c /\
     db_cycles db1 !! g_quota_cycle_id g = Some c' /\ c_used_units c' = c_used_units c /\
     if c_used_units c + g_units g <=? c_base_limit_units c + spendable_rollover_units c + c_top_up_units c
     then rr_outcome r = ROReversed /\ c_top_up_units c' = c_top_up_units c - g_units g /\
          c_used_units c' <= c_base_limit_units c' + spendable_rollover_units c' + c_top_up_units c'
     else rr_outcome r = ROManualReview /\ db_cycles db1 = db_cycles db) /\
  forall id cmd', rc_order_id cmd' = rc_order_id cmd ->
    snd (reverse id cmd' (market_run ops db1)) = market_run ops db1.
Proof.
  intros Hi Hl H Hr.
  pose proof (market_exec_inv (OpReverse new_id cmd) db Hi) as [Hi1 _].
  pose proof (market_exec_top_ups (OpReverse new_id cmd) db Hl) as [Hl1 _].
  cbn in Hi1, Hl1. rewrite H in Hi1, Hl1. cbn in Hi1, Hl1.
  apply reverse_outcome in H. inversion H as [|id v|v g c Hn _ Hvo _ Hk]; subst; [discriminate Hr|].
  clear H Hr. pose proof (rn_cycle _ _ _ _ _ Hn) as Hc.
  pose proof (rn_order _ _ _ _ _ Hn) as Ho. pose proof (rn_grant _ _ _ _ _ Hn) as Hg. split.
  - exists g, c. unfold reversed_db. cbn [reversal_result rr_grant_id rr_units rr_outcome].
    rewrite (rn_outcome _ _ _ _ _ Hn).
    assert (can_reverse g c = (c_used_units c + g_units g <=?
      c_base_limit_units c + spendable_rollover_units c + c_top_up_units c)) as Hcr.
    { unfold can_reverse. destruct (Z.leb_spec (c_used_units c)
        (c_base_limit_units c + spendable_rollover_units c + (c_top_up_units c - g_units g)));
        symmetry; [apply Z.leb_le|apply Z.leb_gt]; lia. }
    rewrite -Hcr. destruct (can_reverse g c) eqn:E.
    + eexists. cbn. rewrite lookup_insert_eq.
      split_and!; [exact Hg|congruence|by apply (rn_units _ _ _ _ _ Hn)|exact Hc|reflexivity|reflexivity
        |reflexivity|reflexivity|]. cbn. unfold can_reverse in E. unfold spendable_rollover_units in *.
      cbn. lia.
    + exists c. cbn. split_and!; [exact Hg|congruence|by apply (rn_units _ _ _ _ _ Hn)|exact Hc|exact Hc|done..].
  - intros id cmd' E. set (db1 := reversed_db new_id v g c db) in *.
    destruct (market_run_inv ops db1 Hi1) as [[Hc2 _] _].
    destruct (market_run_top_ups ops db1 Hl1) as [_ Hkept].
    assert (top_ups_kept db db1) as Hkept1 by (apply reversed_kept; done).
    assert (reversals db1 !! new_id = Some v) as Hv.
    { subst db1. unfold reversed_db. destruct (can_reverse g c); cbn; by rewrite lookup_insert_eq. }
    apply (kept_reversals _ _ Hkept) in Hv. apply (kept_grants _ _ Hkept1), (kept_grants _ _ Hkept) in Hg.
    destruct (reverse id cmd' (market_run ops db1)) as [r' db3] eqn:E'. apply reverse_outcome in E'.
    destruct E' as [| |v' g' c' Hn' _ Hvo' _ _]; [done|done|]. exfalso.
    pose proof (rn_grant _ _ _ _ _ Hn') as Hg'. pose proof (rn_order _ _ _ _ _ Hn') as Ho'.
    assert (v_grant_id v' = v_grant_id v) as Eg
      by (apply (grant_unique _ _ _ g' g Hc2 Hg' Hg); congruence).
    exact (rn_once _ _ _ _ _ Hn' _ _ Hv (eq_sym Eg)).
Qed.

(** A request for an order creates it, replays it, or changes nothing.  A created
    order has a fresh key and awaits its payment; its customer has an active
    subscription, whose current cycle has at least 80% of its base consumed; and it is
    for the requested units at the price of the quote of its plan. *)
Theorem order_request_outcomes resolver provider cmd db r db' :
  create_order resolver provider cmd db = (r, db') ->
  (exists e, r = Raise e) /\ db' = db \/
  (exists id o, r = Ok (order_result id o true false) /\ db' = db /\ orders db !! id = Some o /\
     o_idempotency_key o = co_idempotency_key cmd /\ order_replay_matches cmd id o = true) \/
  (exists o, r = Ok (order_result (co_order_id cmd) o false true) /\ order_new cmd o db /\
     db' = put_order (co_order_id cmd) (stored_order o) db /\ market_constraints db' = Ok tt).
Proof.
  intros H%create_order_outcome. destruct H as [e|id o Ho Hk Hm|o Hn Hk].
  - left. eauto.
  - right; left. exists id, o. by split_and!.
  - right; right. exists o. split; [reflexivity|]. split; [exact Hn|]. split; [reflexivity|exact Hk].
Qed.

(** A dinar payment verified too late leaves no record.  When the cycle of an order
    that was not granted has ended at the instant of the verification, or has used less
    than 80% of its base, the verification fails whatever the evidence, and the payment
    evidence is discarded with it. *)
Theorem late_payment_leaves_no_record pid gid cmd db o c :
  orders db !! lc_order_id cmd = Some o -> db_cycles db !! o_quota_cycle_id o = Some c ->
  (forall k g, grants db !! k = Some g -> g_order_id g <> lc_order_id cmd) ->
  instant (c_period_end c) <= instant (lc_verified_at cmd) \/
  c_used_units c < ceil_percent (c_base_limit_units c) TOP_UP_MINIMUM_MONTHLY_CONSUMPTION_PERCENT ->
  exists e, verify_local pid gid cmd db = (Raise e, db).
Proof.
  intros Ho Hc Hng Hlate. destruct (verify_local pid gid cmd db) as [r db'] eqn:E.
  apply verify_local_outcome in E.
  destruct E as [e|id g o1 r0 _ Hg Hgo|o1 p g c1 a r0 db1 db' Ho1 _ _ _ _ _ Hdb1 Hn Hoid _ Hat _ _ _ _ _];
    [eauto|by destruct (Hng _ _ Hg)|exfalso].
  assert (o1 = o) as -> by congruence.
  assert (db_cycles db1 = db_cycles db) as Ec by (rewrite Hdb1; case_bool_decide; by destruct p).
  pose proof (gn_cycle _ _ _ _ _ Hn) as Hc1. pose proof (gn_cycle_id _ _ _ _ _ Hn) as Hid.
  assert (g_quota_cycle_id g = o_quota_cycle_id o) as E by (rewrite -Hid; by case_bool_decide).
  assert (c1 = c) as -> by congruence.
  destruct (gn_current _ _ _ _ _ Hn) as (spec & _ & _ & Hp & _ & _ & Hu). rewrite Hat in Hp. lia.
Qed.
End TopUpProps.

(** ** A concrete top-up

    A starter cycle with 8,200 of its 10,000 units used; a bundle of 10,000 units bought
    in dinars, granted, and refunded. *)

(** Everyone is eligible, at 3.1 dinars. *)
Definition ex_resolver : option (string -> UUID -> datetime -> res bool) := Some (fun _ _ _ => Ok true).
Definition ex_provider : option (datetime -> res ExchangeRateQuote) :=
  Some (fun _ => ExchangeRateQuote_init "USD" "TND" (Finite (Dec 31 (-1))) "bank" "ref"
                   (noon 2026 1 20) (noon 2026 2 20)).

Definition ex_order_command : CreateSubscriptionTopUpOrderCommand :=
  {| co_order_id := "o1"; co_customer_ref := "cust"; co_subscription_id := "sub";
     co_quota_cycle_id := "c1"; co_requested_units := 10000; co_channel := LOCAL_TUNISIA;
     co_idempotency_key := "k1"; co_created_at := noon 2026 1 25 |}.

Definition ex_payment (at_ : datetime) : VerifyLocalTunisiaTopUpPaymentCommand :=
  {| lc_order_id := "o1"; lc_customer_ref := "cust"; lc_provider_reference := "bank-1";
     lc_amount_tnd := Finite (Dec 1829 (-1)); lc_evidence_reference := "scan-1";
     lc_verified_at := at_ |}.

Definition ex_refund : ReverseSubscriptionTopUpCommand :=
  {| rc_order_id := "o1"; rc_provider_event_ref := "event-1"; rc_reason_code := "refund";
     rc_reversed_at := noon 2026 1 30 |}.

(** The database with the order, and after its payment. *)
Definition db_ordered : MarketDb := Eval vm_compute in
  market_run [ OpRecord "u1" (ex_usage "c1" 8200 "a"%char (noon 2026 1 22));
               OpOrder ex_resolver ex_provider ex_order_command ] (ex_db 0).
Definition db_granted : MarketDb := Eval vm_compute in
  market_exec (OpVerifyLocal "p1" "g1" (ex_payment (noon 2026 1 26))) db_ordered.

Definition top_up_in (id : UUID) (db : MarketDb) : option Z := c_top_up_units <$> db_cycles db !! id.

Example top_up_flow :
  accepted (OpVerifyLocal "p1" "g1" (ex_payment (noon 2026 1 26))) db_ordered = true /\
  top_up_in "c1" db_granted = Some 10000 /\
  accepted (OpReverse "v1" ex_refund) db_granted = true /\
  top_up_in "c1" (market_exec (OpReverse "v1" ex_refund) db_granted) = Some 0 /\
  let db := market_exec (OpRecord "u2" (ex_usage "c1" 5000 "b"%char (noon 2026 1 27))) db_granted in
  accepted (OpReverse "v1" ex_refund) db = true /\
  top_up_in "c1" (market_exec (OpReverse "v1" ex_refund) db) = Some 10000.
Proof. vm_compute. split_and!; reflexivity. Qed.

Lemma ex_db_top_ups n : top_up_ledger (ex_db n).
Proof.
  split; cbn; try (intros ? ? H; by rewrite lookup_empty in H).
  intros id c. rewrite lookup_singleton_Some. intros [<- <-]. reflexivity.
Qed.

Lemma db_ordered_inv : market_inv db_ordered /\ top_up_ledger db_ordered.
Proof.
  assert (db_ordered = market_run [ OpRecord "u1" (ex_usage "c1" 8200 "a"%char (noon 2026 1 22));
    OpOrder ex_resolver ex_provider ex_order_command ] (ex_db 0)) as -> by (vm_compute; reflexivity).
  split.
  - apply market_run_inv, ex_db_inv. by left.
  - apply market_run_top_ups, ex_db_top_ups.
Qed.

Lemma db_granted_inv : market_inv db_granted /\ top_up_ledger db_granted.
Proof.
  assert (db_granted = market_exec (OpVerifyLocal "p1" "g1" (ex_payment (noon 2026 1 26))) db_ordered)
    as -> by (vm_compute; reflexivity).
  destruct db_ordered_inv as [H1 H2]. split; [by apply market_exec_inv|by apply market_exec_top_ups].
Qed.

Lemma top_up_units_accounted_witness :
  top_up_in "c1" (market_run [OpReverse "v1" ex_refund] db_granted) = Some 0 /\
  top_up_ledger (market_run [OpReverse "v1" ex_refund] db_granted).
Proof.
  split; [vm_compute; reflexivity|].
  exact (proj1 (top_up_units_accounted [OpReverse "v1" ex_refund] db_granted
    (proj1 db_granted_inv) (proj2 db_granted_inv))).
Defined.

Definition ex_grant_row : AdminMarketSubscriptionTopUpGrant :=
  {| g_order_id := "o1"; g_subscription_id := "sub"; g_quota_cycle_id := "c1";
     g_customer_ref := "cust"; g_plan_code := "starter";
     g_plan_catalog_version := PLAN_FULFILLMENT_CATALOG_VERSION; g_units := 10000;
     g_grant_idempotency_key := "subscription-top-up:o1"; g_provider_reference := "bank-1";
     g_granted_at := noon 2026 1 26; g_expires_at := noon 2026 2 15 |}.

Lemma top_up_granted_once_witness :
  grants db_granted !! "g1" = Some ex_grant_row /\
  snd (verify_local "p2" "g2" (ex_payment (noon 2026 1 28)) db_granted) = db_granted /\
  lr_units <$> (match fst (verify_local "p2" "g2" (ex_payment (noon 2026 1 28)) db_granted) with
                | Ok r => Some r | Raise _ => None end) = Some 10000.
Proof.
  assert (grants db_granted !! "g1" = Some ex_grant_row) as H by (vm_compute; reflexivity).
  split; [exact H|]. split; [|vm_compute; reflexivity].
  exact (proj1 (proj2 (proj2 (top_up_granted_once [] db_granted "g1" ex_grant_row
    (proj1 db_granted_inv) (proj2 db_granted_inv) H)) "p2" "g2" (ex_payment (noon 2026 1 28)) eq_refl)).
Defined.

Definition ex_reversed : res SubscriptionTopUpReversalResult * MarketDb := reverse "v1" ex_refund db_granted.

Lemma refund_decided_once_witness :
  exists r db1, ex_reversed = (Ok r, db1) /\ rr_outcome r = ROReversed /\
    snd (reverse "v2" ex_refund (market_run [] db1)) = db1.
Proof.
  eexists _, _. split; [vm_compute; reflexivity|]. split; [reflexivity|].
  exact (proj2 (refund_decided_once "v1" ex_refund db_granted _ _ []
    (proj1 db_granted_inv) (proj2 db_granted_inv) ltac:(vm_compute; reflexivity) eq_refl) "v2" ex_refund eq_refl).
Defined.

Definition db_used : MarketDb := Eval vm_compute in
  market_exec (OpRecord "u1" (ex_usage "c1" 8200 "a"%char (noon 2026 1 22))) (ex_db 0).

Definition ex_ordered : res SubscriptionTopUpOrderResult * MarketDb :=
  create_order ex_resolver ex_provider ex_order_command db_used.

Lemma order_request_outcomes_witness :
  exists o, fst ex_ordered = Ok (order_result "o1" o false true) /\ order_new ex_order_command o db_used.
Proof.
  assert (match fst ex_ordered with Ok r => or_idempotent_replay r | Raise _ => true end = false) as Hf
    by (vm_compute; reflexivity).
  destruct (order_request_outcomes ex_resolver ex_provider ex_order_command db_used (fst ex_ordered)
    (snd ex_ordered) (surjective_pairing _)) as [[[e H] _]|[(id & o & H & _)|(o & H & Hn & _)]].
  - rewrite H in Hf. discriminate Hf.
  - rewrite H in Hf. discriminate Hf.
  - exists o. split; [exact H|exact Hn].
Defined.

Lemma late_payment_leaves_no_record_witness :
  exists e, verify_local "p1" "g1" (ex_payment (noon 2026 2 16)) db_ordered = (Raise e, db_ordered).
Proof.
  refine (late_payment_leaves_no_record "p1" "g1" (ex_payment (noon 2026 2 16)) db_ordered _ _ _ _ _ _).
  - vm_compute. reflexivity.
  - vm_compute. reflexivity.
  - intros k g H. vm_compute in H. destruct k; discriminate H.
  - left. vm_compute. discriminate.
Defined.
