(* ===== verification/QuotaProps.v ===== *)
(** * Properties of the quota ledger

    Usage requests implement their specification, are charged exactly once, and keep
    the ledger balanced under every sequence of requests; a rollover carries exactly
    the unspent units, but does not close the cycle it takes them from. *)
From Stdlib Require Import Ascii.
From S2P Require Import Prelude PyString MaestroUnits PlanCatalog PyDateTime BillingPeriod Uow MarketDb QuotaUsage Delinquency LemonRuntime MarketFrames SalesChange MarketLedger.
Section QuotaProps.
Implicit Types (cmd : SubscriptionQuotaUsageCommand) (db : MarketDb).

(** C2. What a usage request does is decided by what the database holds ([verdict_of]): a
    request that is not well formed, conflicts with the row of its hash, has no active
    subscription and runtime of the customer, falls in a closed stage or outside the cycle or
    the grace window, or asks for more than the balance or the degraded cap, is refused
    without a trace; one that matches the row of its hash is answered with it; one whose
    grace stage is over is refused and the expiry is recorded; and every other request is
    charged: the cycle is charged and one ledger row added under the new identifier, unless
    that is taken or the tables reject the result. *)
Theorem usage_request_outcomes new_id cmd db r db' :
  record new_id cmd db = (r, db') -> usage_spec new_id cmd db r db'.
Proof. apply record_decided. Qed.

Lemma find_usage_kept db k u :
  market_constraints db = Ok tt -> db_usages db !! k = Some u ->
  find_row (fun v => bool_decide (u_idempotency_key_hash v = u_idempotency_key_hash u)) (db_usages db)
    = Some (k, u).
Proof.
  intros Hc Hk. apply find_row_unique; [done|by apply bool_decide_eq_true|].
  intros k' u' Hk' E%bool_decide_eq_true. exact (market_constraints_hash db _ _ _ _ Hc Hk' Hk E).
Qed.

Lemma record_validates new_id cmd db row db' :
  record new_id cmd db = (Ok row, db') -> validate_usage cmd = Ok tt.
Proof. unfold record. destruct (validate_usage cmd) as [[]|]; done. Qed.

Lemma usage_of_matches cmd c :
  c_subscription_id c = q_subscription_id cmd -> c_customer_ref c = q_customer_ref cmd ->
  c_metric_code c = q_metric_code cmd -> replay_matches cmd (usage_of cmd c) = true.
Proof.
  intros H1 H2 H3. unfold replay_matches, usage_of. cbn. rewrite H1 H2 H3 dt_eqb_refl Z.eqb_refl.
  by rewrite !bool_decide_eq_true_2.
Qed.

Lemma record_Ok_row new_id cmd db row db' :
  record new_id cmd db = (Ok row, db') ->
  db_usages db' !! row.1 = Some row.2 /\
  u_idempotency_key_hash row.2 = q_idempotency_key_hash cmd /\ replay_matches cmd row.2 = true.
Proof.
  intros H%record_refines. inversion H as [rid rt c Hh Hn Hrt Hcy Had Hk|k u Hk Hh Hm| |]; subst.
  - unfold usage_admitted in Had. destruct_and!. cbn. rewrite lookup_insert_eq.
    split_and!; [done|done|by apply usage_of_matches].
  - done.
Qed.

(** C4. A usage command is charged at most once: after it has been accepted, whatever
    requests follow, submitting it again (with any primary key for a new row) returns
    the row of the first charge and changes nothing. *)
Theorem usage_charged_once new_id new_id' cmd db row db1 ops :
  market_inv db -> record new_id cmd db = (Ok row, db1) ->
  record new_id' cmd (market_run ops db1) = (Ok row, market_run ops db1).
Proof.
  intros Hi H. pose proof (record_validates _ _ _ _ _ H) as Hv.
  destruct (record_Ok_row _ _ _ _ _ H) as (Hrow & Hh & Hm).
  pose proof (market_exec_inv (OpRecord new_id cmd) db Hi) as [Hi1 _].
  cbn in Hi1. rewrite H in Hi1. cbn in Hi1.
  destruct (market_run_inv ops db1 Hi1) as [[Hc _] Hk]. apply Hk in Hrow.
  unfold record. rewrite Hv. unfold with_uow, record_body, usage_by_idempotency_hash.
  rewrite M_bind_eq query_eq. cbn [working]. rewrite -Hh (find_usage_kept _ _ _ Hc Hrow).
  cbn [snd]. rewrite Hm. by destruct row.
Qed.

(** C1. The ledger stays balanced: from any database a commit left, whatever usage
    requests, rollovers, provider events and expiry sweeps follow, the constraints
    hold, the units used of every cycle are the sum of the ledger rows charged to it,
    they never exceed what was granted, and no ledger row is changed or removed. *)
Theorem quota_ledger_balanced ops db :
  market_inv db ->
  market_inv (market_run ops db) /\ usages_kept db (market_run ops db) /\
  forall id c, db_cycles (market_run ops db) !! id = Some c ->
    0 <= sum_rows (charged_to id) (db_usages (market_run ops db))
      <= c_base_limit_units c + c_rollover_units c + c_top_up_units c.
Proof.
  intros Hi. destruct (market_run_inv ops db Hi) as [Hi' Hk]. split; [done|]. split; [done|].
  intros id c Hid. destruct Hi' as [Hc Hl]. rewrite -(ledger_balanced _ Hl _ _ Hid).
  pose proof (market_constraints_cycles _ _ _ Hc Hid) as Hcc. unfold cycle_checks in Hcc.
  to_prop. lia.
Qed.

(** ** Completeness in the active stage *)

Lemma charged_constraints new_id cmd c db :
  market_constraints db = Ok tt -> db_cycles db !! q_quota_cycle_id cmd = Some c ->
  db_usages db !! new_id = None ->
  (forall k u, db_usages db !! k = Some u -> u_idempotency_key_hash u <> q_idempotency_key_hash cmd) ->
  0 < q_units cmd <= available_units c ->
  market_constraints (charged new_id cmd c db) = Ok tt.
Proof.
  intros Hm Hc Hn Hh Hu. pose proof (market_constraints_cycles _ _ _ Hm Hc) as Hcc.
  unfold market_constraints in Hm |- *. apply res_bind_Ok in Hm as (? & H1%ensure_Ok & H2%ensure_Ok).
  to_prop. apply res_bind_Ok. exists tt. split; apply ensure_Ok; cbn; split_andb;
    try done; rewrite ?unique_on_true ?check_rows_true.
  - match goal with H : unique_on (fun c => Some (c_subscription_id c, _, _)) _ = true |- _ =>
      rewrite unique_on_true in H; rename H into Hq end.
    intros k1 k2 r1 r2 v [[<- <-]|[? K1]]%lookup_insert_Some [[<- <-]|[? K2]]%lookup_insert_Some E1 E2;
      [done|exact (Hq _ _ c r2 v Hc K2 E1 E2)|exact (Hq _ _ r1 c v K1 Hc E1 E2)
      |exact (Hq _ _ r1 r2 v K1 K2 E1 E2)].
  - match goal with H : unique_on c_source_cycle_id _ = true |- _ =>
      rewrite unique_on_true in H; rename H into Hq end.
    intros k1 k2 r1 r2 v [[<- <-]|[? K1]]%lookup_insert_Some [[<- <-]|[? K2]]%lookup_insert_Some E1 E2;
      [done|exact (Hq _ _ c r2 v Hc K2 E1 E2)|exact (Hq _ _ r1 c v K1 Hc E1 E2)
      |exact (Hq _ _ r1 r2 v K1 K2 E1 E2)].
  - match goal with H : unique_on (fun u => Some (u_idempotency_key_hash u)) _ = true |- _ =>
      rewrite unique_on_true in H; rename H into Hq end.
    intros k1 k2 r1 r2 v [[<- <-]|[? K1]]%lookup_insert_Some [[<- <-]|[? K2]]%lookup_insert_Some E1 E2;
      [done| | |exact (Hq _ _ r1 r2 v K1 K2 E1 E2)]; exfalso; cbn in E1, E2.
    + apply (Hh _ _ K2). congruence.
    + apply (Hh _ _ K1). congruence.
  - intros k r [[<- <-]|[? Hr]]%lookup_insert_Some.
    + unfold cycle_checks in Hcc |- *. cbn. to_prop. unfold available_units, spendable_rollover_units in Hu.
      repeat (apply andb_true_iff; split); (apply Z.ltb_lt || apply Z.leb_le);
        try lia; destruct (c_rollover_status c); lia.
    + match goal with H : check_rows cycle_checks _ = true |- _ =>
        rewrite check_rows_true in H; exact (H _ _ Hr) end.
Qed.

Lemma runtime_found db rid rt sid c :
  market_constraints db = Ok tt -> db_runtimes db !! rid = Some rt -> r_subscription_id rt = sid ->
  runtime_by_subscription sid {| working := db; committed := c |} =
    (Ok (Some (rid, rt)), {| working := db; committed := c |}).
Proof.
  intros Hm Hr Hs. unfold runtime_by_subscription. rewrite query_eq. cbn [working].
  rewrite (find_row_unique _ _ rid rt) //; [by apply bool_decide_eq_true|].
  intros k' r' Hk' E%bool_decide_eq_true. unfold market_constraints in Hm.
  apply res_bind_Ok in Hm as (? & H%ensure_Ok & _). to_prop.
  match goal with H : unique_on (fun r => Some (r_subscription_id r)) _ = true |- _ =>
    rewrite unique_on_true in H;
    exact (H k' rid r' rt _ Hk' Hr (f_equal Some E) (f_equal Some Hs)) end.
Qed.

Lemma dt_between_aware a x b :
  naive a = false -> naive x = false -> naive b = false -> instant a <= instant x < instant b ->
  dt_between a x b = Ok true.
Proof.
  intros Ha Hx Hb [H1 H2]. unfold dt_between. rewrite dt_le_aware // dt_lt_aware //. cbn.
  apply Z.leb_le in H1. apply Z.ltb_lt in H2. by rewrite H1 H2.
Qed.

(** No usage within the balance is lost in the active stage: a valid command with
    a new idempotency hash, for an active subscription with an active runtime and a
    cycle of the subscription that contains the instant and has the units available,
    is charged; the constraints of the database never reject it. *)
Theorem usage_accepted_when_active new_id cmd db rid rt c :
  market_constraints db = Ok tt -> validate_usage cmd = Ok tt ->
  (forall k u, db_usages db !! k = Some u -> u_idempotency_key_hash u <> q_idempotency_key_hash cmd) ->
  db_usages db !! new_id = None ->
  db_runtimes db !! rid = Some rt -> r_access_stage rt = StActive ->
  db_cycles db !! q_quota_cycle_id cmd = Some c ->
  naive (c_period_start c) = false -> naive (c_period_end c) = false ->
  usage_admitted cmd db rt c ->
  record new_id cmd db = (Ok (new_id, usage_of cmd c), charged new_id cmd c db).
Proof.
  intros Hm Hv Hh Hn Hrt Hst Hc Hns Hne ((s & Hs & Hss & Hsc) & Hrs & Hrc & _ & H1 & H2 & H3 & Hp & Hu).
  assert (naive (q_occurred_at cmd) = false) as Ho.
  { unfold validate_usage in Hv. by apply res_bind_Ok in Hv as (? & _ & (? & H%reject_if_Ok & _)%res_bind_Ok). }
  unfold record. rewrite Hv. unfold with_uow, record_body, usage_by_idempotency_hash.
  rewrite M_bind_eq query_eq. cbn [working].
  rewrite find_row_absent; [intros k u Hk; apply bool_decide_eq_false; by apply (Hh k)|].
  assert (forall k, usage_runtime cmd {| working := db; committed := k |} =
            (Ok (rid, rt), {| working := db; committed := k |})) as Hr.
  { intros k. unfold usage_runtime, subscription_by_id, usage_require.
    rewrite bind_query. cbn [working]. rewrite Hs bind_ret.
    rewrite bind_ensure; [by apply bool_decide_eq_true|].
    rewrite bind_ensure; [by apply bool_decide_eq_true|].
    rewrite (bind_eq _ _ _ _ _ (runtime_found _ rid rt _ _ Hm Hrt Hrs)) bind_ret.
    by rewrite bind_ensure; [apply bool_decide_eq_true|]. }
  assert (forall k, usage_access cmd (rid, rt) {| working := db; committed := k |} =
            (Ok rt, {| working := db; committed := k |})) as Ha.
  { intros k. unfold usage_access, advance_expired_runtime_stage, runtime_allows_usage.
    cbn [fst snd]. rewrite Ho Hst (bind_lift _ (false, rt)) //. cbn [fst snd].
    rewrite (bind_eq _ _ _ tt {| working := db; committed := k |}).
    { unfold mutate, modify. cbn [working committed]. by rewrite put_runtime_id. }
    by rewrite Hst. }
  assert (forall k, usage_cycle cmd rt {| working := db; committed := k |} =
            (Ok c, {| working := db; committed := k |})) as Hcy.
  { intros k. unfold usage_cycle, cycle_by_id, usage_require.
    rewrite bind_query. cbn [working]. rewrite Hc bind_ret.
    rewrite bind_ensure; [by rewrite !bool_decide_eq_true_2|].
    rewrite (bind_lift _ true); [by apply dt_between_aware|].
    rewrite bind_ensure // Hst bool_decide_eq_false_2 // bind_ret.
    rewrite bind_ensure //. apply negb_true_iff, Z.ltb_ge. lia. }
  rewrite (bind_eq _ _ _ _ _ (Hr _)) (bind_eq _ _ _ _ _ (Ha _)) (bind_eq _ _ _ _ _ (Hcy _)).
  set (db1 := put_cycle (q_quota_cycle_id cmd) (consume_units (q_units cmd) c) db).
  rewrite (bind_eq (mutate _) _ _ tt {| working := db1; committed := db |}) //.
  rewrite (bind_eq (add_usage _ _) _ _ tt {| working := charged new_id cmd c db; committed := db |}).
  { unfold add_usage, add_row. rewrite bind_query. cbn [working db1 put_cycle db_usages]. by rewrite Hn. }
  unfold market_commit, commit. rewrite M_bind_eq. cbn [working].
  by rewrite (charged_constraints new_id cmd c db Hm Hc Hn Hh Hu).
Qed.

End QuotaProps.

(** ** Concrete requests *)

Definition w_cmd : SubscriptionQuotaUsageCommand := ex_usage "c1" 700 "a"%char (noon 2026 1 20).
Definition w_row : UUID * AdminMarketSubscriptionQuotaCycleUsage := ("u1", usage_of w_cmd (ex_cycle 500)).
Definition w_db : MarketDb := charged "u1" w_cmd (ex_cycle 500) (ex_db 500).
Definition w_ops : list market_op :=
  [ OpRecord "u2" (ex_usage "c1" 300 "b"%char (noon 2026 1 21));
    OpRollover "c2" ex_rollover;
    OpReconcile "d1" "t1" ex_binding (ex_event "subscription_payment_failed" (noon 2026 2 1)) "dec1" ].

Lemma w_inv : market_inv (ex_db 500).
Proof. apply ex_db_inv. by right. Qed.

Lemma w_record : record "u1" w_cmd (ex_db 500) = (Ok w_row, w_db).
Proof. vm_compute. reflexivity. Qed.

Example w_balances :
  used_in "c1" (market_run w_ops w_db) = Some 1000 /\
  available_in "c2" (market_run w_ops w_db) = Some 10000 /\
  c_rollover_units <$> db_cycles (market_run w_ops w_db) !! "c2" = Some 9500.
Proof. vm_compute. done. Qed.

Lemma usage_request_outcomes_witness :
  record "u1" w_cmd (ex_db 500) = (Ok w_row, w_db) /\
  usage_spec "u1" w_cmd (ex_db 500) (Ok w_row) w_db.
Proof.
  split; [exact w_record|]. exact (usage_request_outcomes "u1" w_cmd (ex_db 500) _ _ w_record).
Defined.

Lemma usage_charged_once_witness :
  record "other" w_cmd (market_run w_ops w_db) = (Ok w_row, market_run w_ops w_db).
Proof. exact (usage_charged_once "u1" "other" w_cmd (ex_db 500) w_row w_db w_ops w_inv w_record). Defined.

Lemma quota_ledger_balanced_witness :
  used_in "c1" (market_run (OpRecord "u1" w_cmd :: w_ops) (ex_db 500)) = Some 1000 /\
  market_inv (market_run (OpRecord "u1" w_cmd :: w_ops) (ex_db 500)).
Proof.
  split; [vm_compute; reflexivity|].
  exact (proj1 (quota_ledger_balanced (OpRecord "u1" w_cmd :: w_ops) (ex_db 500) w_inv)).
Defined.

Lemma usage_accepted_when_active_witness :
  available_units (ex_cycle 500) = 10500 /\
  record "u1" w_cmd (ex_db 500) = (Ok ("u1", usage_of w_cmd (ex_cycle 500)), w_db).
Proof.
  split; [reflexivity|].
  apply (usage_accepted_when_active "u1" w_cmd (ex_db 500) "rt" ex_runtime (ex_cycle 500));
    [exact (proj1 w_inv)|vm_compute; reflexivity|intros k u Hk; cbn in Hk; by rewrite lookup_empty in Hk
    |reflexivity|reflexivity|reflexivity|reflexivity|reflexivity|reflexivity|].
  unfold usage_admitted. split; [exists ex_subscription; split_and!; reflexivity|].
  split; [reflexivity|]. split; [reflexivity|]. split; [by left|].
  split; [reflexivity|]. split; [reflexivity|]. split; [reflexivity|].
  split; split; vm_compute; (reflexivity || discriminate).
Defined.

(** * Properties of the rollover and of the delinquency operations *)
Section RolloverProps.
Implicit Types (cmd : SubscriptionQuotaRolloverCommand) (db : MarketDb)
  (c : AdminMarketSubscriptionQuotaCycle).

(** ** The phases of the rollover *)

Lemma rollover_found_Ok {A} (x : option A) msg (s : Session MarketDb) a s' :
  rollover_found x msg s = (Ok a, s') <-> x = Some a /\ s' = s.
Proof. destruct x; cbn; split; [intros [= -> ->]|intros [[= ->] ->]|done|intros [? _]]; done. Qed.

Lemma rollover_require_Ok b msg (s : Session MarketDb) u s' :
  rollover_require b msg s = (Ok u, s') <-> b = true /\ s' = s.
Proof. unfold rollover_require. rewrite lift_Ok ensure_Ok. split; intros [? ?]; done. Qed.

Ltac inv_rollover :=
  repeat match goal with
  | H : (_ ≫= _) _ = (Ok _, _) |- _ => apply M_bind_Ok in H as (? & ? & ? & H)
  | H : rollover_found _ _ _ = (Ok _, _) |- _ => apply rollover_found_Ok in H as [? ->]
  | H : rollover_require _ _ _ = (Ok _, _) |- _ => apply rollover_require_Ok in H as [? ->]
  | H : lift _ _ = (Ok _, _) |- _ => apply lift_Ok in H as [? <-]
  | H : query _ _ = (Ok _, _) |- _ => rewrite query_eq in H; injection H as ? <-
  | H : mret _ _ = (Ok _, _) |- _ => injection H as <- <-
  end.

Lemma rollover_context_Ok cmd s sub plan spec expected s' :
  rollover_context cmd s = (Ok (sub, plan, spec, expected), s') ->
  s' = s /\
  db_subscriptions (working s) !! ro_subscription_id cmd = Some sub /\ s_status sub = SubActive /\
  db_plans (working s) !! s_plan_id sub = Some plan /\
  get_plan_fulfillment_spec (Some (p_plan_code plan)) = Ok spec /\
  ro_base_limit_units cmd = spec_monthly_unit_allowance spec /\
  (exists t, s_starts_at sub = Some t /\
     next_anchored_month_boundary (ro_period_start cmd) (dt_day t) = Ok expected) /\
  dt_eqb (ro_period_end cmd) expected = true.
Proof.
  unfold rollover_context, subscription_by_id, plan_by_id. intros H. inv_rollover. to_prop. subst.
  match goal with H : rollover_plan_spec _ = _ |- _ => rename H into Hp end.
  match goal with H : activation_anchor _ = _ |- _ => rename H into Ha end.
  split_and!; try done.
  - unfold rollover_plan_spec in Hp. destruct (get_plan_fulfillment_spec _) as [|[[] ?]]; done.
  - unfold activation_anchor in Ha. destruct (s_starts_at _) as [t|]; [|done].
    destruct (naive t); [done|]. injection Ha as ->. eauto.
Qed.

Lemma rollover_source_Ok cmd sub spec s src s' :
  rollover_source cmd sub spec s = (Ok src, s') ->
  s' = s /\ db_cycles (working s) !! ro_source_cycle_id cmd = Some src /\
  c_subscription_id src = ro_subscription_id cmd /\ c_customer_ref src = s_customer_ref sub /\
  dt_eqb (c_period_end src) (ro_period_start cmd) = true.
Proof.
  unfold rollover_source, cycle_by_id. intros H. inv_rollover. to_prop. subst. done.
Qed.

(** ** Cycles follow their source

    Where a cycle lies: its customer's subscription, its source and its period, which
    no request changes. *)
Definition cycle_place c :=
  (c_subscription_id c, c_customer_ref c, c_source_cycle_id c, c_period_start c, c_period_end c).

(** A cycle that was rolled over starts where its source ends. *)
Definition chained db : Prop :=
  forall id c sid, db_cycles db !! id = Some c -> c_source_cycle_id c = Some sid ->
  exists src, db_cycles db !! sid = Some src /\ c_subscription_id c = c_subscription_id src /\
    c_customer_ref c = c_customer_ref src /\ instant (c_period_start c) = instant (c_period_end src).

Lemma chained_places db db' :
  (forall id, cycle_place <$> db_cycles db' !! id = cycle_place <$> db_cycles db !! id) ->
  chained db -> chained db'.
Proof.
  intros Hp Hc id c' sid Hid Hs. pose proof (Hp id) as Hi. rewrite Hid in Hi.
  destruct (db_cycles db !! id) as [c|] eqn:E; [|done]. injection Hi as Es Ec Eo Ea Eb.
  destruct (Hc id c sid E) as (src & Hsrc & H1 & H2 & H3); [congruence|].
  pose proof (Hp sid) as Hj. rewrite Hsrc in Hj.
  destruct (db_cycles db' !! sid) as [src'|]; [|done]. injection Hj as Fs Fc Fo Fa Fb.
  exists src'. split_and!; congruence.
Qed.

Lemma chained_opened db id sid c src :
  chained db -> db_cycles db !! id = None -> db_cycles db !! sid = Some src ->
  c_source_cycle_id c = Some sid -> c_subscription_id c = c_subscription_id src ->
  c_customer_ref c = c_customer_ref src -> instant (c_period_start c) = instant (c_period_end src) ->
  chained (put_cycle id c db).
Proof.
  intros Hc Hn Hsrc Hs ? ? ? k c' sid'. cbn.
  assert (forall j d, db_cycles db !! j = Some d -> <[id:=c]> (db_cycles db) !! j = Some d) as Hmono.
  { intros j d Hj. rewrite lookup_insert_ne; [congruence|done]. }
  destruct (decide (id = k)) as [<-|Hne].
  - rewrite lookup_insert_eq. intros [= <-] Hs'. exists src. split; [apply Hmono; congruence|done].
  - rewrite lookup_insert_ne //. intros Hk Hs'. destruct (Hc k c' sid' Hk Hs') as (d & Hd & ?).
    exists d. split; [by apply Hmono|done].
Qed.

(** The following cycle, as the plan has it. *)
Definition follows db cmd c : Prop :=
  exists sub plan spec t expected src,
    db_subscriptions db !! ro_subscription_id cmd = Some sub /\ s_status sub = SubActive /\
    db_plans db !! s_plan_id sub = Some plan /\
    get_plan_fulfillment_spec (Some (p_plan_code plan)) = Ok spec /\
    s_starts_at sub = Some t /\
    next_anchored_month_boundary (ro_period_start cmd) (dt_day t) = Ok expected /\
    c_source_cycle_id c = Some (ro_source_cycle_id cmd) /\
    c_subscription_id c = ro_subscription_id cmd /\
    c_plan_code c = spec_plan_code spec /\
    c_base_limit_units c = spec_monthly_unit_allowance spec /\ c_top_up_units c = 0 /\
    dt_eqb (c_period_start c) (ro_period_start cmd) = true /\
    dt_eqb (c_period_end c) expected = true /\
    db_cycles db !! ro_source_cycle_id cmd = Some src /\
    c_subscription_id c = c_subscription_id src /\ c_customer_ref c = c_customer_ref src /\
    instant (c_period_start c) = instant (c_period_end src).

(** The balance a rollover opens the cycle with: nothing spent, and the units of [src]
    that are not spent. *)
Definition carried_over (src c : AdminMarketSubscriptionQuotaCycle) : Prop :=
  c_used_units c = 0 /\ c_rollover_status c = RoAvailable /\
  c_rollover_units c =
    Z.max (c_base_limit_units src + spendable_rollover_units src - c_used_units src) 0 /\
  available_units c = c_base_limit_units c + c_rollover_units c /\
  instant (c_period_start c) < instant (c_period_end c).

(** A rollover that returns replays the cycle it finds, or opens one. *)
Lemma rollover_opens new_id cmd db id c db' :
  chained db -> rollover new_id cmd db = (Ok (id, c), db') ->
  db_cycles db' !! id = Some c /\ follows db cmd c /\
  (db' = db \/
   id = new_id /\ db_cycles db !! new_id = None /\ db' = put_cycle new_id c db /\
   exists src, db_cycles db !! ro_source_cycle_id cmd = Some src /\ carried_over src c).
Proof.
  intros Hch H. unfold rollover in H. destruct (validate_rollover cmd) as [u|] eqn:Ev; [|done].
  unfold with_uow in H. destruct (rollover_body new_id cmd _) as [x s'] eqn:Hb.
  injection H as -> <-. unfold rollover_body in Hb.
  apply M_bind_Ok in Hb as ([[[sub plan] spec] expected] & s1 & Hctx & Hb).
  apply rollover_context_Ok in Hctx as (-> & Hsub & Hst & Hpl & Hsp & Hbase & (t & Ht & Hnext) & Heq).
  cbn [working] in *. unfold cycle_by_source in Hb. rewrite bind_query in Hb. cbn [working] in Hb.
  destruct (find_row _ (db_cycles db)) as [[id0 e]|] eqn:Ef.
  - apply find_row_Some in Ef as [He Hsrc%bool_decide_eq_true].
    apply M_bind_Ok in Hb as (? & ? & [Hm ->]%rollover_require_Ok & Hb). injection Hb as <- <- <-.
    unfold rollover_replay_matches in Hm. to_prop.
    destruct (Hch _ _ _ He Hsrc) as (src & Hs & ? & ? & ?).
    split; [done|]. split; [|by left]. exists sub, plan, spec, t, expected, src. split_and!; (done || congruence).
  - apply M_bind_Ok in Hb as (src & s2 & Hsrc & Hb).
    apply rollover_source_Ok in Hsrc as (-> & Hsrc & Hss & Hsc & Hse). cbn [working] in *.
    apply M_bind_Ok in Hb as (? & s3 & Ha & Hb).
    apply add_row_cases in Ha as [(_ & Hn & ->)|[[? ?] _]]; [|done]. cbn [working committed] in *.
    apply M_bind_Ok in Hb as (? & s4 & Hk & Hb).
    apply market_commit_cases in Hk as [(_ & Hk & ->)|[[? ?] _]]; [|done]. cbn [working committed] in *.
    injection Hb as <- <- <-. split; [by cbn; rewrite lookup_insert_eq|].
    assert (cycle_checks (opened_cycle cmd sub plan spec expected src) = true) as Hcc.
    { eapply (market_constraints_cycles _ new_id); [exact Hk|]. cbn. by rewrite lookup_insert_eq. }
    unfold dt_eqb in Hse. to_prop. split.
    + exists sub, plan, spec, t, expected, src. split_and!; try done; apply dt_eqb_refl.
    + right. split_and!; try done. exists src. split; [done|].
      unfold cycle_checks in Hcc. cbn -[Z.ltb Z.leb Z.add] in Hcc. to_prop.
      unfold carried_over, available_units, spendable_rollover_units. cbn -[Z.max Z.add Z.sub].
      split_and!; try done; lia.
Qed.

Lemma fails_clean_rollover new_id cmd : fails_clean (rollover_body new_id cmd).
Proof. unfold rollover_body, rollover_context, rollover_source, rollover_found, market_commit, add_cycle. commits_last. Qed.

Lemma market_exec_chained o db : chained db -> chained (market_exec o db).
Proof.
  intros Hc. pose proof (top_up_op_step o db) as Ht. pose proof (core_op_step o db) as Hs.
  assert (top_up_step db (market_exec o db) -> chained (market_exec o db)) as Htop.
  { intros [->|[_ Hf]]; [done|]. apply (chained_places db); [|done]. intros id.
    destruct (db_cycles (market_exec o db) !! id) as [c'|] eqn:E.
    - destruct (top_up_frame_cycle_inv _ _ _ _ Hf E) as (c & -> & [=]). cbn. unfold cycle_place. congruence.
    - destruct (db_cycles db !! id) as [c|] eqn:E2; [|done].
      destruct (top_up_frame_cycle_kept _ _ _ _ Hf E2) as (c' & ? & _). congruence. }
  assert (core_step db (market_exec o db) -> chained (market_exec o db)) as Hcore.
  { intros [->|[_ Hf]]; [done|]. apply (chained_places db); [|done]. intros id.
    pose proof (frame_cycles _ _ Hf id) as Hi. cbn in Hi.
    destruct (db_cycles (market_exec o db) !! id), (db_cycles db !! id); try done.
    injection Hi. intros. cbn. unfold cycle_place. congruence. }
  destruct o as [nid cmd|nid cmd| | | | | | | | | | | | | | |h ids t later so]; auto; clear Ht Hs Htop Hcore; cbn.
  - destruct (record nid cmd db) as [r db'] eqn:E. cbn. apply record_refines in E.
    destruct E as [rid rt c Hh Hn Hrt Hcy Had Hk|k u|e|e rid rt g Hrt]; try done.
    apply (chained_places db); [|done]. intros id. cbn.
    destruct (decide (q_quota_cycle_id cmd = id)) as [<-|]; [|by rewrite lookup_insert_ne].
    by rewrite lookup_insert_eq Hcy.
  - destruct (rollover nid cmd db) as [[[id c]|e] db'] eqn:E; cbn.
    + destruct (rollover_opens _ _ _ _ _ _ Hc E) as (Hid & Hf & [->|(-> & Hn & -> & _)]); [done|].
      destruct Hf as (? & ? & ? & ? & ? & src & Hf). destruct_and!. eapply chained_opened; try eassumption; congruence.
    + unfold rollover in E. destruct (validate_rollover cmd); [|by injection E as _ <-].
      by apply (with_uow_fails _ _ _ _ (fails_clean_rollover nid cmd)) in E as ->.
  - apply (chained_places db); [|done]. intros id. by rewrite (sales_step_cycles _ _ (sales_exec_step ids t later so db)).
Qed.

Lemma market_run_chained ops db : chained db -> chained (market_run ops db).
Proof. revert db. induction ops as [|o ops IH]; intros db Hc; cbn; [done|]. by apply IH, market_exec_chained. Qed.

(** C6. After any run of requests, from a database whose cycles start where their
    sources end, a rollover that returns gives the one cycle that has the source: it
    starts where the source ends, its end is the month boundary of the subscription's
    activation anchor, and its allowance is the one of the subscription's plan, without
    top-up units.  Either that cycle was opened before, and nothing changes, or it is
    opened now, with nothing spent and exactly the unspent base and rollover units of the
    source (top-up units are not carried), all of it available. *)
Theorem rollover_opens_following_cycle ops db0 new_id cmd id c db' :
  market_inv db0 -> chained db0 ->
  let db := market_run ops db0 in
  rollover new_id cmd db = (Ok (id, c), db') ->
  db_cycles db' !! id = Some c /\ follows db cmd c /\
  (forall id' c', db_cycles db' !! id' = Some c' ->
     c_source_cycle_id c' = Some (ro_source_cycle_id cmd) -> id' = id) /\
  (db' = db \/
   id = new_id /\ db_cycles db !! new_id = None /\ db' = put_cycle new_id c db /\
   exists src, db_cycles db !! ro_source_cycle_id cmd = Some src /\ carried_over src c).
Proof.
  intros Hi Hch db H. destruct (market_run_inv ops db0 Hi) as [Hi' _]. fold db in Hi'.
  destruct (rollover_opens _ _ _ _ _ _ (market_run_chained ops db0 Hch) H) as (Hid & Hf & Hcases).
  split_and!; try done. intros id' c' Hid' Heq.
  pose proof (market_exec_inv (OpRollover new_id cmd) db Hi') as [[Hc' _] _].
  cbn in Hc'. fold db in H. rewrite H in Hc'. unfold market_constraints in Hc'. cbn [snd] in Hc'.
  apply res_bind_Ok in Hc' as (? & Hu%ensure_Ok & _). to_prop.
  destruct Hf as (? & ? & ? & ? & ? & ? & Hf). destruct_and! Hf.
  match goal with H : unique_on c_source_cycle_id _ = true, S : c_source_cycle_id c = Some _ |- _ =>
    rewrite unique_on_true in H; exact (H id' id c' c _ Hid' Hid Heq S) end.
Qed.
End RolloverProps.

(** ** A rollover does not close its source *)

(** The requests of one customer: an early rollover on 20 January, then the source
    cycle is spent on 25 January and the new cycle on 20 February. *)
Definition early_rollover_run : list market_op :=
  [ OpRollover "c2" ex_rollover;
    OpRecord "u1" (ex_usage "c1" 10000 "a"%char (noon 2026 1 25));
    OpRecord "u2" (ex_usage "c2" 20000 "b"%char (noon 2026 2 20)) ].

(** A rollover does not require that the source cycle is over and does not close
    it: requests that all succeed, from a database a commit left, spend the allowance of
    the source cycle and, in the next cycle, the same units again as rollover: 30000
    units are charged where the two monthly allowances grant 20000. *)
Theorem early_rollover_spends_twice :
  exists db ops,
    market_inv db /\ market_inv (market_run ops db) /\
    total_charged db = 0 /\ total_charged (market_run ops db) = 30000 /\
    (forall id c, db_cycles (market_run ops db) !! id = Some c ->
       c_base_limit_units c = 10000 /\ c_top_up_units c = 0) /\
    size (db_cycles (market_run ops db)) = 2%nat.
Proof.
  exists (ex_db 0), early_rollover_run.
  pose proof (ex_db_inv 0 (or_introl eq_refl)) as Hi.
  split; [exact Hi|]. split; [exact (proj1 (market_run_inv early_rollover_run (ex_db 0) Hi))|].
  split; [vm_compute; reflexivity|]. split; [vm_compute; reflexivity|].
  split; [|vm_compute; reflexivity].
  intros id c Hc. assert (check_rows (fun c => (c_base_limit_units c =? 10000) && (c_top_up_units c =? 0))
    (db_cycles (market_run early_rollover_run (ex_db 0))) = true) as Hk by (vm_compute; reflexivity).
  rewrite check_rows_true in Hk. specialize (Hk id c Hc). cbv beta in Hk. to_prop. split; assumption.
Qed.

Definition w_starter : PlanFulfillmentSpec :=
  snd (plan_spec "starter" 10000
         ["maestro_execution"; "byok_provider_connection"; "standard_support"]).
Definition w_c2 : AdminMarketSubscriptionQuotaCycle :=
  opened_cycle ex_rollover ex_subscription ex_plan w_starter (noon 2026 3 15) (ex_cycle 500).

Lemma w_rollover :
  rollover "c2" ex_rollover (ex_db 500) = (Ok ("c2", w_c2), put_cycle "c2" w_c2 (ex_db 500)).
Proof. vm_compute. reflexivity. Qed.

Lemma ex_chained : chained (ex_db 500).
Proof.
  intros id c sid Hid. assert (check_rows (fun c => bool_decide (c_source_cycle_id c = None))
    (db_cycles (ex_db 500)) = true) as Hk by (vm_compute; reflexivity).
  rewrite check_rows_true in Hk. specialize (Hk id c Hid). cbv beta in Hk. to_prop. congruence.
Qed.

Lemma rollover_opens_following_cycle_witness :
  c_rollover_units w_c2 = 10500 /\
  db_cycles (put_cycle "c2" w_c2 (ex_db 500)) !! "c2" = Some w_c2.
Proof.
  split; [reflexivity|].
  exact (proj1 (rollover_opens_following_cycle [] (ex_db 500) "c2" ex_rollover "c2" w_c2
    (put_cycle "c2" w_c2 (ex_db 500)) (ex_db_inv 500 (or_intror eq_refl)) ex_chained w_rollover)).
Defined.
