(* ===== verification/DelinquencyProps.v ===== *)
(** * Properties of the delinquency operations

    The escalation of the record, the lock on the rollover balance and its settlement;
    and two behaviours the constraints and the control flow give the code: the third
    missed payment can never be recorded, and a second delinquency episode does not
    lock the rollover. *)
From S2P Require Import Prelude PyString PyDateTime MaestroUnits PlanCatalog.
From S2P Require Import BillingPeriod Uow TopUpDb MarketDb QuotaUsage.
From S2P Require Import QuotaUsage Delinquency.
From S2P Require Import LemonInbox LemonProcess LemonSpec.
From S2P Require Import LemonRuntime MarketFrames SalesChange MarketLedger.

Section DelinquencyProps.
Implicit Types (d : AdminMarketSubscriptionDelinquency) (c : AdminMarketSubscriptionQuotaCycle)
  (s : Session MarketDb) (db : MarketDb).

(** ** Escalation *)

(** The state that [n] missed billing cycles call for. *)
Definition missed_state (n : Z) : DelinquencyState :=
  if n <=? 0 then DqResolved
  else if n <? FREEZE_AFTER_MISSED_CYCLES then DqGraceDegraded
  else if n <? PENDING_DELETION_AFTER_MISSED_CYCLES then DqAccountFrozen
  else DqPendingDeletion.

(** A delinquency record is well formed: its state is that of its missed cycles; a grace
    window exists exactly in the grace state and lasts fifteen days; a frozen account
    and one pending deletion carry the instant they became so; the key of the last
    failed cycle is kept while there are missed cycles. *)
Definition delinquency_wf d : Prop :=
  0 <= d_missed_billing_cycles d /\ d_state d = missed_state (d_missed_billing_cycles d) /\
  (d_missed_billing_cycles d = 0 <-> d_last_failed_cycle_key d = None) /\
  match d_state d with
  | DqGraceDegraded => exists a u, d_grace_started_at d = Some a /\ d_grace_until d = Some u /\
      instant u = instant a + 15 * day_micros
  | DqAccountFrozen => d_grace_started_at d = None /\ d_grace_until d = None /\ is_Some (d_frozen_at d)
  | DqPendingDeletion =>
      d_grace_started_at d = None /\ d_grace_until d = None /\ is_Some (d_deletion_eligible_at d)
  | DqReadOnly | DqResolved => d_grace_started_at d = None /\ d_grace_until d = None
  end.

Lemma escalate_wf nc t d d' :
  dt_valid t -> 0 < d_missed_billing_cycles d -> is_Some (d_last_failed_cycle_key d) ->
  (nc = false -> d_grace_started_at d = None \/ exists a u, d_grace_started_at d = Some a /\
     d_grace_until d = Some u /\ instant u = instant a + 15 * day_micros) ->
  escalate nc t d = Ok d' ->
  delinquency_wf d' /\ d_missed_billing_cycles d' = d_missed_billing_cycles d /\
  d_last_failed_cycle_key d' = d_last_failed_cycle_key d /\
  (nc = false -> (d_missed_billing_cycles d < 3 -> is_Some (d_grace_started_at d)) ->
     (3 <= d_missed_billing_cycles d -> d_grace_until d = None) ->
     d_grace_until d' = d_grace_until d).
Proof.
  intros Ht Hm [k Hk] Hg. unfold escalate, delinquency_wf, missed_state, FREEZE_AFTER_MISSED_CYCLES,
    PENDING_DELETION_AFTER_MISSED_CYCLES.
  destruct (Z.leb_spec 6 (d_missed_billing_cycles d)) as [H6|H6].
  { intros H. injection H as <-. cbn -[Z.leb Z.ltb Z.mul day_micros]. rewrite Hk.
    destruct (Z.leb_spec (d_missed_billing_cycles d) 0); [lia|].
    destruct (Z.ltb_spec (d_missed_billing_cycles d) 3); [lia|].
    destruct (Z.ltb_spec (d_missed_billing_cycles d) 6); [lia|].
    split_and!; try (done || lia || (split; (lia || done)) || by eauto).
    intros _ _ Hu. symmetry. apply Hu. lia. }
  destruct (Z.leb_spec 3 (d_missed_billing_cycles d)) as [H3|H3].
  { intros H. injection H as <-. cbn -[Z.leb Z.ltb Z.mul day_micros]. rewrite Hk.
    destruct (Z.leb_spec (d_missed_billing_cycles d) 0); [lia|].
    destruct (Z.ltb_spec (d_missed_billing_cycles d) 3); [lia|].
    destruct (Z.ltb_spec (d_missed_billing_cycles d) 6); [|lia].
    split_and!; try (done || lia || (split; (lia || done)) || by eauto).
    intros _ _ Hu. symmetry. apply Hu. lia. }
  destruct (nc || negb (is_some_b (d_grace_started_at d))) eqn:En.
  - intros (u & Hu & H)%res_bind_Ok. injection H as <-.
    destruct (add_days_spec _ _ _ Ht Hu) as (Hi & _ & _).
    cbn -[Z.leb Z.ltb Z.mul day_micros]. rewrite Hk.
    destruct (Z.leb_spec (d_missed_billing_cycles d) 0); [lia|].
    destruct (Z.ltb_spec (d_missed_billing_cycles d) 3); [|lia].
    split_and!; try (done || lia || (split; (lia || done)) || (by eauto)).
    intros -> Hs _. destruct (Hs ltac:(lia)) as [a Ha]. by rewrite Ha in En.
  - apply orb_false_iff in En as [-> En]. apply negb_false_iff in En.
    destruct (Hg eq_refl) as [Hn|Hw]; [by rewrite Hn in En|].
    intros H. injection H as <-. cbn -[Z.leb Z.ltb Z.mul day_micros]. rewrite Hk.
    destruct (Z.leb_spec (d_missed_billing_cycles d) 0); [lia|].
    destruct (Z.ltb_spec (d_missed_billing_cycles d) 3); [|lia].
    split_and!; (done || lia || (split; (lia || done))).
Qed.

Lemma lock_delinquencies sid eff ex s ch s' :
  lock_rollover_for_delinquency sid eff ex s = (Ok ch, s') ->
  db_delinquencies (working s') = db_delinquencies (working s).
Proof.
  unfold lock_rollover_for_delinquency. intros (? & ? & [_ <-]%lift_Ok & H)%M_bind_Ok.
  by apply each_cycle_query in H as (cs & -> & _).
Qed.

(** The record a subscription has, as the repository finds it. *)
Definition delinquency_of (sid : UUID) db : option (UUID * AdminMarketSubscriptionDelinquency) :=
  find_row (fun d => bool_decide (d_subscription_id d = sid)) (db_delinquencies db).

(** C8. A failed payment escalates the record by the calendar months it covers: the
    result is well formed (grace for one or two missed cycles, with a fifteen-day
    window; frozen from the third; pending deletion from the sixth); the first failure
    counts one missed cycle, a failure in a new month one more, and another failure in
    the same month neither counts nor extends the grace window. *)
Theorem payment_failure_escalates new_id sid customer t s id d' s' :
  dt_valid t ->
  (forall k d, db_delinquencies (working s) !! k = Some d -> delinquency_wf d) ->
  apply_payment_failure new_id sid customer t s = (Ok (id, d'), s') ->
  delinquency_wf d' /\ db_delinquencies (working s') !! id = Some d' /\
  d_last_failed_cycle_key d' = Some (year_month_key t) /\
  match delinquency_of sid (working s) with
  | None => d_missed_billing_cycles d' = 1
  | Some (k, d) =>
      id = k /\
      if decide (d_last_failed_cycle_key d = Some (year_month_key t))
      then d_missed_billing_cycles d' = d_missed_billing_cycles d /\
           d_grace_until d' = d_grace_until d
      else d_missed_billing_cycles d' = d_missed_billing_cycles d + 1
  end.
Proof.
  intros Ht Hwf. unfold apply_payment_failure, delinquency_by_subscription.
  intros (key & ? & [(? & _ & [= <-])%res_bind_Ok <-]%lift_Ok & H)%M_bind_Ok.
  rewrite bind_query in H. unfold delinquency_of.
  destruct (find_row _ (db_delinquencies (working s))) as [[k d]|] eqn:Ef.
  - apply find_row_Some in Ef as [Hd _]. pose proof (Hwf k d Hd) as (Hnn & Hst & Hkey & Hsh).
    apply M_bind_Ok in H as (? & ? & [_ <-]%lift_Ok & H).
    apply M_bind_Ok in H as (? & s2 & [= <- <-] & H).
    apply M_bind_Ok in H as (d2 & s3 & [He <-]%lift_Ok & H).
    apply M_bind_Ok in H as (? & s4 & [= <- <-] & [= -> <- <-]).
    assert (0 < d_missed_billing_cycles (count_failure (year_month_key t) t d)) as Hpos.
    { cbn. case_bool_decide as E; cbn; [|lia]. rewrite E in Hkey.
      destruct (decide (d_missed_billing_cycles d = 0)) as [H0|]; [|lia]. by apply Hkey in H0. }
    apply escalate_wf in He as (Hw & Hm & Hlk & Hgu); [|done|done|by eexists|].
    + split; [done|]. split; [by cbn; rewrite !lookup_insert_eq|]. split; [done|]. split; [done|].
      destruct (decide _) as [E|E].
      * cbn in Hm, Hgu. rewrite (bool_decide_eq_true_2 _ E) in Hm, Hgu.
        cbn [negb] in Hm, Hgu. split; [done|].
        apply Hgu; [done| |]; intros Hlt; rewrite Hst in Hsh; unfold missed_state in Hsh.
        -- cbn in Hpos. rewrite (bool_decide_eq_true_2 _ E) in Hpos. cbn in Hpos.
           destruct (Z.leb_spec (d_missed_billing_cycles d) 0); [lia|].
           unfold FREEZE_AFTER_MISSED_CYCLES in Hsh.
           destruct (Z.ltb_spec (d_missed_billing_cycles d) 3); [|lia].
           destruct Hsh as (a & u & Ha & _). eauto.
        -- destruct (Z.leb_spec (d_missed_billing_cycles d) 0); [lia|].
           unfold FREEZE_AFTER_MISSED_CYCLES in Hsh.
           destruct (Z.ltb_spec (d_missed_billing_cycles d) 3); [lia|].
           by destruct (_ <? _); destruct Hsh as (_ & ? & _).
      * rewrite Hm. cbn. by rewrite (bool_decide_eq_false_2 _ E).
    + intros _. cbn. destruct (d_state d); naive_solver.
  - apply M_bind_Ok in H as (u & ? & [Hu <-]%lift_Ok & H).
    apply M_bind_Ok in H as (? & s2 & Ha & H).
    apply add_row_cases in Ha as [(_ & Hn & ->)|[[? ?] _]]; [|done].
    apply M_bind_Ok in H as (dl & ? & [_ <-]%lift_Ok & H).
    apply M_bind_Ok in H as (ch & s3 & Hl & [= <- <- <-]).
    destruct (add_days_spec _ _ _ Ht Hu) as (Hi & _ & _).
    split.
    { unfold delinquency_wf. cbn -[Z.mul day_micros]. split_and!; try done; eauto. }
    split; [|done].
    pose proof (lock_delinquencies _ _ _ _ _ _ Hl) as Hd. rewrite Hd. cbn. by rewrite lookup_insert_eq.
Qed.

(** ** Lock and settlement of the rollover balance *)

Lemma rollover_cycle_of_true sid c :
  rollover_cycle_of sid c = true <->
  c_subscription_id c = sid /\ 0 < c_rollover_units c /\ c_rollover_status c <> RoExpired.
Proof.
  unfold rollover_cycle_of. rewrite !andb_true_iff negb_true_iff bool_decide_eq_true bool_decide_eq_false
    Z.ltb_lt. naive_solver.
Qed.

Lemma locked_until_Ok c e : locked_until c = Ok e -> c_rollover_expires_at c = Some e /\ naive e = false.
Proof.
  unfold locked_until. destruct (c_rollover_expires_at c) as [x|]; [|done].
  intros (? & H%reject_if_Ok & [= <-])%res_bind_Ok. done.
Qed.

(** C7. The rollover balance of a delinquent subscription is locked, then settled once
    and for all.  When [lock_rollover_for_delinquency] returns, none of the rollover
    units of the subscription can be spent, and each locked cycle carries the payment
    deadline; when [restore_or_expire_rollover_after_payment] returns, every cycle that
    was locked is restored, with all its units spendable, if the payment came before
    its deadline, and expired otherwise; and a cycle whose rollover has expired stays
    so, whatever requests follow. *)
Theorem rollover_locked_then_settled sid eff ex s ch s' :
  (lock_rollover_for_delinquency sid eff ex s = (Ok ch, s') ->
   instant eff < instant ex /\
   forall id c', db_cycles (working s') !! id = Some c' -> c_subscription_id c' = sid ->
     0 < c_rollover_units c' ->
     spendable_rollover_units c' = 0 /\
     (c_rollover_status c' = RoLocked -> dt_opt_eqb (c_rollover_expires_at c') (Some ex) = true)) /\
  (restore_or_expire_rollover_after_payment sid eff s = (Ok ch, s') ->
   forall id c, db_cycles (working s) !! id = Some c -> c_subscription_id c = sid ->
     0 < c_rollover_units c -> c_rollover_status c = RoLocked ->
     exists e c', c_rollover_expires_at c = Some e /\ db_cycles (working s') !! id = Some c' /\
       spendable_rollover_units c' = (if instant eff <? instant e then c_rollover_units c else 0) /\
       c_rollover_status c' = (if instant eff <? instant e then RoRestored else RoExpired)) /\
  (forall ops db id c, db_cycles db !! id = Some c -> c_rollover_status c = RoExpired ->
     exists c', db_cycles (market_run ops db) !! id = Some c' /\ c_rollover_status c' = RoExpired).
Proof.
  split_and!.
  - unfold lock_rollover_for_delinquency.
    intros (? & ? & [Hv <-]%lift_Ok & (cs & -> & Hu)%each_cycle_query)%M_bind_Ok. split.
    { unfold validate_times in Hv. apply res_bind_Ok in Hv as (? & _ & Hv).
      apply res_bind_Ok in Hv as (late & (? & _ & [= <-])%res_bind_Ok & H%reject_if_Ok). to_prop. lia. }
    intros id c' Hc' Hs Hr. specialize (Hu id). cbn in Hc'. rewrite Hc' in Hu.
    destruct (db_cycles (working s) !! id) as [c|]; [|done].
    destruct (rollover_cycle_of sid c) eqn:Ep.
    + destruct Hu as (y & Hx & [= ->]). unfold lock_step in Hx.
      apply rollover_cycle_of_true in Ep as (_ & _ & Hne).
      destruct (c_rollover_status c) eqn:Est; [| | |done].
      * injection Hx as <-. cbn. split; [done|]. intros _. apply dt_eqb_refl.
      * destruct (dt_opt_eqb _ _) eqn:Ee; [|done]. injection Hx as <-. cbn.
        unfold spendable_rollover_units. by rewrite Est.
      * injection Hx as <-. cbn. split; [done|]. intros _. apply dt_eqb_refl.
    + injection Hu as ->. apply not_true_iff_false in Ep.
      destruct (decide (c_rollover_status c = RoExpired)) as [He|He].
      * unfold spendable_rollover_units. by rewrite He.
      * exfalso. apply Ep, rollover_cycle_of_true. done.
  - unfold restore_or_expire_rollover_after_payment.
    intros (? & ? & [Hn%reject_if_Ok <-]%lift_Ok & (cs & -> & Hu)%each_cycle_query)%M_bind_Ok.
    intros id c Hc Hs Hr Hst. specialize (Hu id). rewrite Hc in Hu.
    rewrite (proj2 (rollover_cycle_of_true sid c)) in Hu; [by rewrite Hst|].
    destruct Hu as (y & Hx & Hid). unfold payment_step in Hx.
    rewrite (bool_decide_eq_true_2 _ Hst) in Hx. cbn [negb] in Hx.
    apply res_bind_Ok in Hx as (e & [He Hne]%locked_until_Ok & Hx).
    apply res_bind_Ok in Hx as (b & Hb & [= <-]). rewrite dt_lt_aware // in Hb. injection Hb as <-.
    exists e, (if instant eff <? instant e then restore_rollover eff c else expire_rollover eff c).
    split; [done|]. split; [done|]. by destruct (instant eff <? instant e).
  - intros ops db id c Hc He. revert db c Hc He. induction ops as [|o ops IH]; intros; cbn; [eauto|].
    destruct (market_exec_expired o db id c Hc He) as (c' & Hc' & He'). exact (IH _ c' Hc' He').
Qed.

(** ** The escalation is never recorded *)

Definition escalated d : Prop := d_state d = DqAccountFrozen \/ d_state d = DqPendingDeletion.

Definition none_escalated db : Prop :=
  forall k d, db_delinquencies db !! k = Some d -> ~ escalated d.

Lemma escalate_grace nc t d d' : escalate nc t d = Ok d' -> escalated d' -> d_grace_until d' = None.
Proof.
  unfold escalate, escalated. destruct (_ <=? _); [by intros [= <-]|].
  destruct (_ <=? _); [by intros [= <-]|].
  destruct (_ || _).
  - intros (u & _ & [= <-])%res_bind_Ok. cbn. by intros [?|?].
  - intros [= <-]. cbn. by intros [?|?].
Qed.

Lemma failure_effect new_id sid customer t s id d' s' :
  apply_payment_failure new_id sid customer t s = (Ok (id, d'), s') ->
  db_delinquencies (working s') = <[id := d']> (db_delinquencies (working s)) /\
  (escalated d' -> d_grace_until d' = None).
Proof.
  unfold apply_payment_failure, delinquency_by_subscription.
  intros (key & ? & [_ <-]%lift_Ok & H)%M_bind_Ok. rewrite bind_query in H.
  destruct (find_row _ (db_delinquencies (working s))) as [[k d]|].
  - apply M_bind_Ok in H as (? & ? & [_ <-]%lift_Ok & H).
    apply M_bind_Ok in H as (? & s2 & [= <- <-] & H).
    apply M_bind_Ok in H as (d2 & s3 & [He <-]%lift_Ok & H).
    apply M_bind_Ok in H as (? & s4 & [= <- <-] & [= -> <- <-]).
    split; [cbn; by rewrite insert_insert_eq|exact (escalate_grace _ _ _ _ He)].
  - apply M_bind_Ok in H as (u & ? & [_ <-]%lift_Ok & H).
    apply M_bind_Ok in H as (? & s2 & Ha & H).
    apply add_row_cases in Ha as [(_ & Hn & ->)|[[? ?] _]]; [|done].
    apply M_bind_Ok in H as (dl & ? & [_ <-]%lift_Ok & H).
    apply M_bind_Ok in H as (ch & s3 & Hl & [= <- <- <-]).
    rewrite (lock_delinquencies _ _ _ _ _ _ Hl). split; [done|]. by intros [?|?].
Qed.

Lemma resolve_effect sid customer t s x s' :
  resolve_payment_delinquency sid customer t s = (Ok x, s') ->
  none_escalated (working s) -> none_escalated (working s').
Proof.
  unfold resolve_payment_delinquency, delinquency_by_subscription.
  intros (? & ? & [_ <-]%lift_Ok & H)%M_bind_Ok Hn. rewrite bind_query in H.
  destruct (find_row _ _) as [[k d]|]; [|by injection H as <- <-].
  apply M_bind_Ok in H as (? & ? & [_ <-]%lift_Ok & H).
  apply M_bind_Ok in H as (? & s2 & Hp & H).
  apply M_bind_Ok in H as (? & s3 & [= <- <-] & [= <- <-]).
  assert (db_delinquencies (working s2) = db_delinquencies (working s)) as Hd.
  { unfold restore_or_expire_rollover_after_payment in Hp.
    apply M_bind_Ok in Hp as (? & ? & [_ <-]%lift_Ok & (cs & -> & _)%each_cycle_query). done. }
  intros k' d1. cbn. rewrite Hd. intros [[<- <-]|[_ Hk]]%lookup_insert_Some; [|by apply (Hn k')].
  by intros [?|?].
Qed.

(** A runtime in the grace stage without a deadline, which the table rejects. *)
Definition stuck db : Prop :=
  exists rid r, db_runtimes db !! rid = Some r /\ r_access_stage r = StGrace /\ r_grace_until r = None.

Lemma stuck_rejected db : stuck db -> market_constraints db <> Ok tt.
Proof.
  intros (rid & r & Hr & Hs & Hg) (? & _ & H%ensure_Ok)%res_bind_Ok. to_prop.
  match goal with H : check_rows runtime_checks _ = true |- _ =>
    rewrite check_rows_true in H; specialize (H rid r Hr); unfold runtime_checks in H;
    rewrite Hs Hg andb_false_r in H; discriminate end.
Qed.

Lemma lifecycle_delinquencies b i s x s' :
  apply_lemon_squeezy_subscription_lifecycle b i s = (Ok x, s') ->
  db_delinquencies (working s') = db_delinquencies (working s).
Proof.
  assert (relates (fun db db' => db_delinquencies db' = db_delinquencies db)
            (apply_lemon_squeezy_subscription_lifecycle b i)) as H; [|by apply H].
  assert (PreOrder (fun db db' => db_delinquencies db' = db_delinquencies db)) as Hpre.
  { split; [by intros ?|intros x1 x2 x3 H1 H2; by rewrite H2]. }
  unfold apply_lemon_squeezy_subscription_lifecycle, webhook_found.
  destruct (dict_get _ _) as [target|]; [|by apply relates_read_only].
  repeat (apply relates_bind; [apply _|(by apply relates_read_only) || (by case_match; apply relates_read_only)
    || by apply relates_mutate|intros ?]). by apply relates_read_only.
Qed.

Lemma runtime_access_escalation did tid b sid sub i dec s u s' :
  apply_lemon_squeezy_runtime_access did tid b sid sub i dec s = (Ok u, s') ->
  none_escalated (working s) -> none_escalated (working s') \/ stuck (working s').
Proof.
  unfold apply_lemon_squeezy_runtime_access. destruct (target_stage _ _) as [target|] eqn:Et;
    [|intros [= <- <-]; by left].
  unfold transition_by_decision. rewrite bind_query.
  destruct (find_row _ _); [intros [= <- <-]; by left|].
  intros (f & s1 & Hf & H)%M_bind_Ok Hn.
  assert (s1 = s) as -> by (unfold runtime_by_subscription in Hf; rewrite query_eq in Hf; by injection Hf).
  apply M_bind_Ok in H as ([rid r] & s2 & Hr & H).
  assert (s2 = s) as -> by (destruct f; [by injection Hr as _ <-|done]).
  apply M_bind_Ok in H as (? & ? & [_ <-]%lift_Ok & H).
  apply M_bind_Ok in H as (t & s3 & Ht & H).
  assert (s3 = s) as -> by (destruct (aware_opt _); [by injection Ht as _ <-|done]).
  apply M_bind_Ok in H as (? & ? & [_ <-]%lift_Ok & H).
  apply M_bind_Ok in H as (? & ? & [_ <-]%lift_Ok & H).
  apply M_bind_Ok in H as (? & ? & [_ <-]%lift_Ok & H).
  apply M_bind_Ok in H as (od & s4 & Hd & H).
  apply M_bind_Ok in H as (? & s5 & Hm & H).
  apply add_row_cases in H as [(_ & _ & ->)|[[? ?] _]]; [|done].
  unfold event_delinquency in Hd. unfold target_stage in Et.
  destruct (bool_decide (i_event_name i = PAYMENT_FAILED)) in Hd, Et.
  - injection Et as <-. apply M_bind_Ok in Hd as ([did' d'] & s6 & Hd & [= <- <-]).
    apply failure_effect in Hd as [Hdl Hgr]. rewrite orb_true_r in Hm. injection Hm as _ <-.
    destruct (decide (d_state d' = DqAccountFrozen \/ d_state d' = DqPendingDeletion)) as [He|He].
    + right. exists rid. eexists. cbn. rewrite lookup_insert_eq. split; [done|]. split; [done|].
      by apply Hgr.
    + left. intros k d. cbn. rewrite Hdl. intros [[<- <-]|[_ Hk]]%lookup_insert_Some; [done|].
      by apply (Hn k).
  - left. assert (none_escalated (working s4)) as Hn4.
    { destruct (bool_decide (i_event_name i ∈ PAYMENT_RECOVERY_EVENTS)) in Hd; [|by injection Hd as _ <-].
      apply M_bind_Ok in Hd as (? & s6 & Hd & [= _ <-]). exact (resolve_effect _ _ _ _ _ _ Hd Hn). }
    intros k d. cbn. destruct (_ || _) in Hm; injection Hm as _ <-; apply Hn4.
Qed.

Lemma top_up_step_unescalated db db' :
  top_up_step db db' -> none_escalated db -> none_escalated db'.
Proof.
  intros [->|[_ Hf]] Hn; [done|]. intros k d. rewrite (tf_delinquencies _ _ Hf). apply Hn.
Qed.

Lemma apply_reconciled_escalation ids i s u s' :
  apply_reconciled ids i s = (Ok u, s') ->
  none_escalated (working s) -> none_escalated (working s') \/ stuck (working s').
Proof.
  unfold apply_reconciled. intros (b & s1 & Hw & (sub & s2 & Hl & H)%M_bind_Ok)%M_bind_Ok Hn.
  apply watermark_Ok in Hw as (bid & b0 & t & _ & _ & _ & ->).
  apply lifecycle_delinquencies in Hl.
  assert (none_escalated (working s2)) as Hn2 by (intros k d; rewrite Hl; apply Hn).
  destruct sub as [[sid sb]|]; [by apply runtime_access_escalation in H|injection H as _ <-; by left].
Qed.

(** A webhook entry reconciled leaves no escalated account behind. *)
Lemma process_unescalated production ids id t db :
  none_escalated db ->
  none_escalated (snd (process_reconciliation (load_context production) ids id t db)).
Proof.
  intros Hn. destruct (process_reconciliation _ _ _ _ _) as [r db'] eqn:E.
  apply process_reconciliation_outcome in E; [|apply read_only_load_context]. cbn.
  destruct E as [| |i x claimed d db' _ _ _ _ _ _ _ _ _ _ Hc Hk]; [done|done|].
  destruct Hc as [_|_|db2 _ Hr]; [done|done|].
  destruct (rc_run _ _ _ Hr) as (ids' & s & u & s' & H & Hs & <-).
  apply apply_reconciled_escalation in H as [?|(rid & r & Hst)]; [done| |by rewrite Hs].
  exfalso. revert Hk. apply stuck_rejected. by exists rid, r.
Qed.

(** The escalation of a delinquent account never takes effect: from a database
    without frozen accounts or accounts pending deletion, no sequence of requests ever
    commits one.  A failed payment puts the runtime in the grace stage with the deadline
    of the record; from the third missed cycle the record has no deadline, the runtime
    table requires one, and the commit of the whole request fails. *)
Theorem escalation_is_never_committed ops db :
  none_escalated db -> none_escalated (market_run ops db).
Proof.
  revert db. induction ops as [|o ops IH]; intros db Hn; [done|]. apply IH. clear IH ops.
  pose proof (top_up_op_step o db) as Ht.
  destruct o as [nid cmd|nid cmd|did tid b i dec|sid t| | | | |WP nid q|cid nid cmd|prod ids id t| | | | | |h ids t later so];
    try by apply (top_up_step_unescalated _ _ Ht Hn).
  all: clear Ht; cbn.
  - destruct (record nid cmd db) as [r db'] eqn:E. apply record_refines in E. by destruct E.
  - destruct (rollover nid cmd db) as [r db'] eqn:E.
    by apply rollover_cases in E as [->|(c1 & _ & _ & -> & _)].
  - unfold reconcile, with_uow. destruct (reconcile_body did tid b i dec _) as [r s'] eqn:E. cbn.
    unfold reconcile_body in E. m_step E E1.
    2:{ injection E as <- <-. by rewrite (no_commit_eq _ _ _ _ (no_commit_lifecycle b i) E1). }
    pose proof (no_commit_eq _ _ _ _ (no_commit_lifecycle b i) E1) as Hc.
    pose proof (lifecycle_delinquencies _ _ _ _ _ E1) as Hl.
    assert (none_escalated (working st)) as Hn1 by (intros k d; rewrite Hl; apply Hn).
    destruct v as [[sid sub]|].
    + m_step E E2; pose proof (no_commit_eq _ _ _ _ (no_commit_runtime_access did tid b sid sub i dec) E2) as Hc2.
      2:{ injection E as <- <-. by rewrite Hc2 Hc. }
      apply runtime_access_escalation in E2; [|done].
      apply market_commit_cases in E as [(_ & Hk & ->)|[_ ->]]; [|by rewrite Hc2 Hc].
      destruct E2 as [?|Hs]; [done|by apply stuck_rejected in Hs].
    + rewrite bind_ret in E. apply market_commit_cases in E as [(_ & Hk & ->)|[_ ->]]; [done|by rewrite Hc].
  - unfold expire_overdue, with_uow.
    destruct ((expire_overdue_rollover sid t;; market_commit) {| working := db; committed := db |})
      as [r s'] eqn:E. cbn. m_step E E1.
    2:{ injection E as <- <-. by rewrite (no_commit_eq _ _ _ _ (no_commit_overdue sid t) E1). }
    pose proof (no_commit_eq _ _ _ _ (no_commit_overdue sid t) E1) as Hc.
    unfold expire_overdue_rollover in E1.
    apply M_bind_Ok in E1 as (? & ? & [_ <-]%lift_Ok & (cs & -> & _)%each_cycle_query).
    apply market_commit_cases in E as [(_ & Hk & ->)|[_ ->]]; [done|by rewrite Hc].
  - destruct (ingest_request _ _ _) as [r db'] eqn:E. by apply ingest_request_outcome in E as [].
  - destruct (bind _ _ _ _) as [r db'] eqn:E.
    apply bind_bind_outcome in E. destruct E as [| |c db' _ _ _ -> _]; [done|done|by destruct c].
  - by apply process_unescalated.
  - destruct (sales_exec_step ids t later so db) as [->|[_ Hf]]; [done|].
    intros k d. rewrite (sf_delinquencies _ _ Hf). apply Hn.
Qed.

End DelinquencyProps.

(** ** Concrete episodes *)

Definition ex_reconcile (k : string) (name : string) (at_ : datetime) : market_op :=
  OpReconcile ("d" +:+ k) ("t" +:+ k) ex_binding (ex_event name at_) ("dec" +:+ k).

Definition ex_failed (k : string) (at_ : datetime) : market_op :=
  ex_reconcile k "subscription_payment_failed" at_.

Definition spendable_in (id : UUID) (db : MarketDb) : option Z :=
  spendable_rollover_units <$> db_cycles db !! id.

Definition episode_1 : list market_op := [ ex_failed "1" (noon 2026 1 20) ].
Definition payment_1 : market_op := ex_reconcile "2" "subscription_payment_success" (noon 2026 1 25).
Definition failure_2 : market_op := ex_failed "3" (noon 2026 2 10).

(** Only the first failed payment a subscription ever has locks its rollover: with
    requests that are all accepted, the first failure locks the 500 units carried over,
    the payment restores them, and after the next failure the account is delinquent
    again, its grace window open, and the 500 units stay spendable. *)
Theorem second_episode_leaves_rollover_spendable :
  exists db, market_inv db /\
    accepted (ex_failed "1" (noon 2026 1 20)) db = true /\
    let db1 := market_run episode_1 db in
    spendable_in "c1" db1 = Some 0 /\ accepted payment_1 db1 = true /\
    let db2 := market_exec payment_1 db1 in
    spendable_in "c1" db2 = Some 500 /\ accepted failure_2 db2 = true /\
    let db3 := market_exec failure_2 db2 in
    (exists k d, db_delinquencies db3 !! k = Some d /\ d_state d = DqGraceDegraded) /\
    spendable_in "c1" db3 = Some 500.
Proof.
  exists (ex_db 500). split; [apply ex_db_inv; by right|].
  split; [vm_compute; reflexivity|]. split; [vm_compute; reflexivity|].
  split; [vm_compute; reflexivity|]. split; [vm_compute; reflexivity|].
  split; [vm_compute; reflexivity|]. split; [|vm_compute; reflexivity].
  exists "d1". eexists. split; [vm_compute; reflexivity|reflexivity].
Qed.

(** The third monthly failure is refused, and leaves the second in force. *)
Example third_failure_refused :
  let db2 := market_run [ex_failed "1" (noon 2026 1 20); ex_failed "2" (noon 2026 2 20)] (ex_db 500) in
  accepted (ex_failed "3" (noon 2026 3 20)) db2 = false /\
  (d_missed_billing_cycles <$> db_delinquencies db2 !! "d1") = Some 2 /\
  (d_state <$> db_delinquencies (market_exec (ex_failed "3" (noon 2026 3 20)) db2) !! "d1") =
    Some DqGraceDegraded.
Proof. vm_compute. done. Qed.

Lemma escalation_is_never_committed_witness :
  none_escalated (ex_db 500) /\
  none_escalated (market_run [ex_failed "1" (noon 2026 1 20); ex_failed "2" (noon 2026 2 20);
                              ex_failed "3" (noon 2026 3 20)] (ex_db 500)).
Proof.
  assert (none_escalated (ex_db 500)) as H.
  { intros k d Hk. cbn in Hk. by rewrite lookup_empty in Hk. }
  split; [exact H|]. exact (escalation_is_never_committed _ (ex_db 500) H).
Defined.

Definition w_session (db : MarketDb) : Session MarketDb := {| working := db; committed := db |}.

Definition w_delinquency : AdminMarketSubscriptionDelinquency :=
  new_delinquency "sub" "cust" "2026-01" (noon 2026 1 20) (noon 2026 2 4).

Lemma w_delinquency_wf : delinquency_wf w_delinquency.
Proof.
  unfold delinquency_wf. split; [vm_compute; discriminate|]. split; [reflexivity|].
  split; [done|]. exists (noon 2026 1 20), (noon 2026 2 4). split_and!; vm_compute; reflexivity.
Qed.

Definition w_delinquent : Session MarketDb :=
  w_session (put_delinquency "d1" w_delinquency (ex_db 500)).

Definition w_failure : res (UUID * AdminMarketSubscriptionDelinquency) * Session MarketDb :=
  apply_payment_failure "d2" "sub" "cust" (noon 2026 3 20) w_delinquent.

Lemma payment_failure_escalates_witness :
  exists id d' s', w_failure = (Ok (id, d'), s') /\ d_missed_billing_cycles d' = 2 /\ delinquency_wf d'.
Proof.
  eexists _, _, _. split; [vm_compute; reflexivity|]. split; [reflexivity|].
  refine (proj1 (payment_failure_escalates "d2" "sub" "cust" (noon 2026 3 20) w_delinquent _ _ _ _ _ _)).
  - vm_compute. repeat split; discriminate.
  - intros k d. cbn. rewrite insert_empty lookup_singleton_Some. intros [_ <-]. exact w_delinquency_wf.
  - vm_compute. reflexivity.
Defined.

Definition w_lock : res (list UUID) * Session MarketDb :=
  lock_rollover_for_delinquency "sub" (noon 2026 1 20) (noon 2026 3 1) (w_session (ex_db 500)).

Lemma rollover_locked_then_settled_witness :
  fst w_lock = Ok ["c1"] /\
  forall id c', db_cycles (working (snd w_lock)) !! id = Some c' -> c_subscription_id c' = "sub" ->
    0 < c_rollover_units c' -> spendable_rollover_units c' = 0.
Proof.
  split; [vm_compute; reflexivity|]. intros id c' H1 H2 H3.
  destruct w_lock as [[ch|e] s'] eqn:E; [|exfalso; vm_compute in E; discriminate].
  exact (proj1 (proj2 (proj1 (rollover_locked_then_settled "sub" (noon 2026 1 20) (noon 2026 3 1)
    (w_session (ex_db 500)) ch s') E) id c' H1 H2 H3)).
Defined.
