(* ===== verification/ProviderProps.v ===== *)
(** * The payment provider: concrete webhooks and the properties

    First the inputs of the witnesses of the provider's properties: an instance of the
    primitives, the starter subscription with its order, its offer and its bindings, and
    a top-up bought and refunded through the provider; then the theorems. *)
From Stdlib Require Import Ascii.
From S2P Require Import Prelude PyString PyDecimal PlanCatalog PyDateTime TopUpQuote PyText PyJson Uow TopUpDb LemonWebhook SalesDb MarketDb QuotaUsage Delinquency TopUpOrder TopUpGrant TopUpSpec LemonRuntime LemonInbox LemonProcess LemonTopUp LemonCheckout MarketFrames LemonSpec LemonTopUpSpec MarketLedger ProviderLedger TopUpLedger.
#[local] Open Scope Z_scope.
(** ** The primitives *)

(** A polynomial digest, as 64 hexadecimal digits. *)
Fixpoint ex_digest (acc : Z) (s : string) : string :=
  match s with
  | EmptyString => hex_digits 64 acc ""
  | String c s' => ex_digest ((acc * 257 + code c + 1) mod 2 ^ 256) s'
  end.

(** The body of an event: its name, the resource, the references and the attributes. *)
Definition ex_body (event rtype id order_ref offer_ref : string) (attributes : list (string * json))
  : json :=
  JObj [ ("meta", JObj [ ("event_name", JStr event);
                         ("custom_data", JObj [ ("customer_ref", JStr "cust");
                                                ("order_ref", JStr order_ref);
                                                ("offer_ref", JStr offer_ref) ]) ]);
         ("data", JObj [ ("type", JStr rtype); ("id", JStr id);
                         ("attributes", JObj ([ ("store_id", JInt 1); ("customer_id", JInt 7001);
                                                ("test_mode", JBool false) ] ++ attributes)) ]) ].

Definition ex_amounts (refunded : Z) : list (string * json) :=
  [ ("currency", JStr "USD"); ("subtotal", JInt 5900); ("total", JInt 5900);
    ("refunded_amount", JInt refunded) ].

Definition ex_top_up_id : UUID := "6ba7b810-9dad-11d1-80b4-00c04fd430c8".

Definition ex_top_up_body (event status time : string) (refunded : Z) : json :=
  ex_body event "orders" "6001" ex_top_up_id TOP_UP_OFFER_REF
    ([ ("status", JStr status); ("updated_at", JStr time);
       ("first_order_item", JObj [ ("variant_id", JInt 401) ]) ] ++ ex_amounts refunded).

(** The bodies, named by their text. *)
Definition ex_bodies : list (string * json) :=
  [ ("failed", ex_body "subscription_payment_failed" "subscription-invoices" "8001" "order-ref"
       "offer-code" ([ ("status", JStr "failed"); ("updated_at", JStr "2026-02-20T12:00:00Z");
                       ("subscription_id", JInt 9001) ] ++ ex_amounts 0));
    ("paid", ex_top_up_body "order_created" "paid" "2026-01-26T12:00:00Z" 0);
    ("refund", ex_top_up_body "order_refunded" "refunded" "2026-01-28T12:00:00Z" 5900) ].

Definition ex_times : list (string * datetime) :=
  [ ("2026-02-20T12:00:00+00:00", noon 2026 2 20); ("2026-01-26T12:00:00+00:00", noon 2026 1 26);
    ("2026-01-28T12:00:00+00:00", noon 2026 1 28) ].

#[local] Instance ex_primitives : WebhookPrimitives :=
  {| webhook_sha256 := ex_digest 0;
     hmac_sha256_hex secret body := ex_digest 0 (secret +:+ "." +:+ body);
     decode_body := dict_get ex_bodies;
     fromisoformat := dict_get ex_times |}.

Definition ex_request (event body : string) (at_ : datetime) : WebhookRequest :=
  {| wr_raw_body := body; wr_signature := hmac_sha256_hex "secret" body;
     wr_signing_secret := "secret"; wr_event_header := event; wr_expected_store_id := "1";
     wr_received_at := at_ |}.
Definition ex_failed : WebhookRequest :=
  ex_request "subscription_payment_failed" "failed" (noon 2026 2 20).
Definition ex_paid : WebhookRequest := ex_request "order_created" "paid" (noon 2026 1 26).
Definition ex_refunded : WebhookRequest := ex_request "order_refunded" "refund" (noon 2026 1 28).

(** ** The database *)

Definition ex_offer : AdminMarketOffer :=
  {| of_offer_code := "offer-code"; of_plan_id := "plan"; of_display_name := "Starter";
     of_currency := "USD"; of_sales_channel := LemonSqueezy; of_billing_period := Monthly;
     of_amount := dec_int 59; of_status := OfPublished; of_effective_at := None;
     of_expires_at := None; of_customer_specific := false;
     of_updated_at := noon 2026 1 1 |}.

Definition ex_market_order : AdminMarketOrder :=
  {| or_order_ref := "order-ref"; or_customer_ref := "cust"; or_offer_id := "offer";
     or_plan_id := "plan"; or_billing_period := Monthly; or_selected_channel := LemonSqueezy;
     or_country_code := "US"; or_currency := "USD"; or_subtotal_amount := dec_int 59;
     or_tax_amount := dec_int 0; or_total_amount := dec_int 59; or_status := OrActivated;
     or_contract_status := CtNotRequired; or_payment_requirement := PayRequired;
     or_payment_status := OpVerified; or_payment_reference := None;
     or_payment_destination_snapshot := []; or_offer_snapshot := [];
     or_creation_idempotency_key_hash := None; or_created_at := noon 2026 1 1;
     or_updated_at := noon 2026 1 1; or_completed_at := None;
     or_cancelled_at := None |}.

Definition ex_sales_tables : SalesTables :=
  {| sl_offers := {[ "offer" := ex_offer ]}; sl_orders := {[ "order" := ex_market_order ]};
     sl_contracts := ∅; sl_evidence := ∅; sl_verifications := ∅; sl_cases := ∅;
     sl_destinations := ∅; sl_eligibilities := ∅; sl_activations := ∅; sl_audit := ∅;
     sl_outbox := ∅ |}.

Definition ex_provider_tables : ProviderTables :=
  {| pv_inbox := ∅; pv_decisions := ∅;
     pv_customers := {[ "cb" := {| cb_customer_ref := "cust"; cb_provider_customer_id := "7001" |} ]};
     pv_bindings := {[ "b" := ex_binding ]} |}.

Definition ex_provider_db : MarketDb :=
  put_sales (fun _ => ex_sales_tables) (put_provider (fun _ => ex_provider_tables) (ex_db 0)).

Lemma ex_provider_db_inv :
  market_inv ex_provider_db /\ provider_inv ex_provider_db /\ top_up_ledger ex_provider_db.
Proof.
  destruct (ex_db_inv 0 ltac:(by left)) as [_ Hq]. split_and!.
  - split; [vm_compute; reflexivity|]. destruct Hq as [H1 H2]. by split.
  - split; intros k r; cbn; by rewrite lookup_empty.
  - destruct (ex_db_top_ups 0) as [H1 H2 H3 H4]. by split.
Qed.

(** ** A failed payment *)

Definition ex_ids : ProcessIds :=
  {| pid_decision := "d1"; pid_delinquency := "dq1"; pid_transition := "t1" |}.

Definition ex_ingested : MarketDb := Eval vm_compute in
  market_exec (OpIngest ex_primitives "i1" ex_failed) ex_provider_db.

(** ** A top-up bought through the provider *)

Definition ex_lemon_order : CreateSubscriptionTopUpOrderCommand :=
  {| co_order_id := ex_top_up_id; co_customer_ref := "cust"; co_subscription_id := "sub";
     co_quota_cycle_id := "c1"; co_requested_units := 10000; co_channel := LEMON_SQUEEZY;
     co_idempotency_key := "k1"; co_created_at := noon 2026 1 25 |}.

Definition ex_checkout : CreateTopUpCheckoutCommand :=
  {| cc_order_id := ex_top_up_id; cc_customer_ref := "cust"; cc_provider_variant_id := "401";
     cc_store_id := "1"; cc_success_url := "https://maestro.example/done"; cc_email := None |}.

Definition ex_response : LemonSqueezyCheckoutResponse :=
  {| cr_checkout_id := "5e92042d-a2b6-47a1-9a2c-9f1c1d1b1c11";
     cr_url := "https://store.example/checkout" |}.

Definition ex_top_up_ids : TopUpIds := {| tid_payment := "p1"; tid_grant := "g1"; tid_reversal := "v1" |}.

Definition ex_before_checkout : list market_op :=
  [ OpRecord "u1" (ex_usage "c1" 8200 "a"%char (noon 2026 1 22));
    OpOrder ex_resolver ex_provider ex_lemon_order ].
Definition ex_purchase : list market_op :=
  ex_before_checkout ++
  [ OpCheckoutBegin ex_checkout; OpCheckoutFinish ex_checkout (Some ex_response);
    OpIngest ex_primitives "i1" ex_paid ].
Definition ex_fulfilment : list market_op :=
  ex_purchase ++ [ OpLemonTopUp ex_top_up_ids "i1" (noon 2026 1 26);
                   OpIngest ex_primitives "i2" ex_refunded ].

Definition db_before_checkout : MarketDb := Eval vm_compute in market_run ex_before_checkout ex_provider_db.
Definition db_purchased : MarketDb := Eval vm_compute in market_run ex_purchase ex_provider_db.
Definition db_fulfilled : MarketDb := Eval vm_compute in market_run ex_fulfilment ex_provider_db.

Lemma ex_run_inv ops :
  let db := market_run ops ex_provider_db in market_inv db /\ provider_inv db /\ top_up_ledger db.
Proof.
  destruct ex_provider_db_inv as (H1 & H2 & H3). cbn.
  split_and!; [by apply market_run_inv|by apply market_run_provider|by apply market_run_top_ups].
Qed.

Example provider_flow :
  accepted (OpIngest ex_primitives "i1" ex_failed) ex_provider_db = true /\
  accepted (OpProcess true ex_ids "i1" (noon 2026 2 20)) ex_ingested = true /\
  accepted (OpLemonTopUp ex_top_up_ids "i1" (noon 2026 1 26)) db_purchased = true /\
  top_up_in "c1" db_purchased = Some 0 /\
  top_up_in "c1" (market_exec (OpLemonTopUp ex_top_up_ids "i1" (noon 2026 1 26)) db_purchased) = Some 10000 /\
  accepted (OpLemonRefund ex_top_up_ids "i2" (noon 2026 1 28)) db_fulfilled = true.
Proof. vm_compute. split_and!; reflexivity. Qed.

(** * Properties of the provider's webhooks

    The history of the inbox, replays of webhooks and of paid orders, and what the
    reconciliation can reach: with the context it is wired to, no event ever changes a
    subscription. *)
Section ProviderProps.
Implicit Types (db : MarketDb) (i : inbox_row) (d : decision_row).

(** The constraints of the provider's tables. *)
Lemma provider_unique db : market_constraints db = Ok tt -> provider_uniques (db_provider db) = true.
Proof. unfold market_constraints. intros (? & H%ensure_Ok & _)%res_bind_Ok. by to_prop. Qed.

Lemma decision_unique db k1 k2 d1 d2 :
  market_constraints db = Ok tt -> decisions db !! k1 = Some d1 -> decisions db !! k2 = Some d2 ->
  rd_inbox_id d1 = rd_inbox_id d2 -> k1 = k2.
Proof.
  intros H%provider_unique H1 H2 E. unfold provider_uniques in H. to_prop.
  match goal with H : unique_on (fun d => Some (rd_inbox_id d)) _ = true |- _ =>
    rewrite unique_on_true in H; exact (H k1 k2 d1 d2 _ H1 H2 eq_refl (f_equal Some (eq_sym E))) end.
Qed.

Lemma identity_unique db k1 k2 i1 i2 :
  market_constraints db = Ok tt -> inbox db !! k1 = Some i1 -> inbox db !! k2 = Some i2 ->
  i_event_identity_hash i1 = i_event_identity_hash i2 -> k1 = k2.
Proof.
  intros H%provider_unique H1 H2 E. unfold provider_uniques in H. to_prop.
  match goal with H : unique_on (fun i => Some (i_event_identity_hash i)) _ = true |- _ =>
    rewrite unique_on_true in H; exact (H k1 k2 i1 i2 _ H1 H2 eq_refl (f_equal Some (eq_sym E))) end.
Qed.

(** ** The history of the inbox *)

(** C24. Along any sequence of requests a webhook entry is claimed at most once and is never
    left in processing: it is as received with no attempt, or closed after one; once
    closed it never changes.  An entry has at most one decision, a decision never changes,
    and the entry is closed the way its decision says. *)
Theorem webhook_entries_decided_once ops db :
  market_inv db -> provider_inv db ->
  let db' := market_run ops db in
  (forall k i, inbox db !! k = Some i -> i_processing_status i <> InReceived ->
     inbox db' !! k = Some i) /\
  (forall k i, inbox db' !! k = Some i -> i_processing_status i <> InProcessing /\
     i_attempt_count i = if bool_decide (i_processing_status i = InReceived) then 0 else 1) /\
  (forall k d, decisions db !! k = Some d -> decisions db' !! k = Some d) /\
  (forall k1 k2 d1 d2, decisions db' !! k1 = Some d1 -> decisions db' !! k2 = Some d2 ->
     rd_inbox_id d1 = rd_inbox_id d2 -> k1 = k2) /\
  (forall k d, decisions db' !! k = Some d -> exists i, inbox db' !! rd_inbox_id d = Some i /\
     i_processing_status i = decision_status (rd_action d)).
Proof.
  intros Hm Hp. destruct (market_run_provider ops db Hp) as [[He Hd] [Ke Kd]].
  destruct (market_run_inv ops db Hm) as [[Hc _] _]. cbn. split_and!; [| |exact Kd| |].
  - intros k i Hi Hs. destruct (Ke k i Hi) as (i' & Hi' & _ & Hsame). by rewrite Hi' Hsame.
  - intros k i Hi. destruct (He k i Hi) as [[E|t E|t c E] _]; rewrite E; by cbn.
  - intros k1 k2 d1 d2. by apply decision_unique.
  - intros k d Hk. destruct (Hd k d Hk) as (i & Hi & _ & Hs & _). eauto.
Qed.

(** ** Replays of a webhook *)

Lemma same_binding_core i i' w : entry_core i' = entry_core i -> same_binding i' w = same_binding i w.
Proof. intros E. change (same_binding (entry_core i') w = same_binding (entry_core i) w). by rewrite E. Qed.

Lemma same_binding_received `{WP : WebhookPrimitives} h p w t :
  same_binding (received_entry h p w t) w = true.
Proof.
  unfold same_binding. cbn [received_entry i_event_name i_resource_type i_external_resource_id
    i_store_id i_customer_ref i_order_ref i_offer_ref i_test_mode i_evidence_schema_version
    i_provider_customer_id i_provider_order_id i_provider_subscription_id i_variant_id i_currency
    i_subtotal_amount i_total_amount i_refunded_amount i_provider_status i_provider_effective_at].
  rewrite dt_opt_eqb_refl eqb_reflx. repeat (rewrite bool_decide_eq_true_2; [done|]). done.
Qed.

(** An accepted request leaves the entry of its event. *)
Lemma ingested_entry `{WP : WebhookPrimitives} id q db g db' :
  ingest_request id q db = (Ok g, db') ->
  exists w, parse_request q = Ok w /\ inbox db' !! ig_id g = Some (ig_entry g) /\
    i_event_identity_hash (ig_entry g) = sha256_hex (canonical_event w) /\
    i_payload_digest (ig_entry g) = sha256_hex (wr_raw_body q) /\ same_binding (ig_entry g) w = true.
Proof.
  intros H%ingest_request_outcome. inversion H as [|w k e Hw Hk Hh Hp Hb|w e Hw Hn He Hu Hk]; subst.
  - by exists w.
  - exists w. cbn. rewrite lookup_insert_eq. split_and!; try done. apply same_binding_received.
Qed.

Lemma ingest_valid `{WP : WebhookPrimitives} id q w db g db' :
  parse_request q = Ok w -> ingest_request id q db = (Ok g, db') ->
  nonempty (wr_raw_body q) = true /\ event_identity w = Ok (sha256_hex (canonical_event w)).
Proof.
  intros Hw. unfold ingest_request. rewrite Hw. intros (s' & H & _)%with_uow_inv.
  unfold ingest_body in H. apply M_bind_Ok in H as (g0 & s1 & H & _).
  unfold ingest_verified_lemon_squeezy_webhook in H.
  apply M_bind_Ok in H as (u & s2 & [Hn ->]%webhook_require_Ok & H).
  apply M_bind_Ok in H as (h & s3 & [Hh _]%lift_Ok & _). split; [done|].
  rewrite Hh. unfold event_identity in Hh. inv_ok. by subst.
Qed.

(** A webhook accepted once is recognised for ever: whatever requests ran in between,
    the same request is answered with the entry it made, marked as a replay, and changes
    nothing. *)
Theorem webhook_replay_is_recognised `{WP : WebhookPrimitives} id1 id2 q db g db1 ops :
  market_inv db -> provider_inv db -> ingest_request id1 q db = (Ok g, db1) ->
  let db2 := market_run ops db1 in
  exists e, inbox db2 !! ig_id g = Some e /\ entry_core e = entry_core (ig_entry g) /\
    ingest_request id2 q db2 = (Ok {| ig_id := ig_id g; ig_entry := e; ig_replayed := true |}, db2).
Proof.
  intros Hm Hp H. destruct (ingested_entry _ _ _ _ _ H) as (w & Hw & Hg & Hh & Hd & Hs).
  destruct (ingest_valid _ _ _ _ _ _ Hw H) as [Hn Hid].
  pose proof (market_exec_inv (OpIngest WP id1 q) db Hm) as [Hm1 _].
  pose proof (market_exec_provider (OpIngest WP id1 q) db Hp) as [Hp1 _]. cbn in Hm1, Hp1.
  rewrite H in Hm1, Hp1. cbn in Hm1, Hp1. cbn.
  destruct (market_run_inv ops db1 Hm1) as [[Hc _] _].
  destruct (market_run_provider ops db1 Hp1) as [_ [Ke _]].
  destruct (Ke _ _ Hg) as (e & He & Hcore & _). exists e. split; [done|]. split; [done|].
  assert (i_event_identity_hash e = sha256_hex (canonical_event w) /\
          i_payload_digest e = sha256_hex (wr_raw_body q)) as [Ee Ed]
    by (injection Hcore; intros; split; congruence).
  set (db2 := market_run ops db1) in *.
  assert (ingest_verified_lemon_squeezy_webhook id2 w (wr_raw_body q) (wr_received_at q)
    {| working := db2; committed := db2 |} =
    (Ok {| ig_id := ig_id g; ig_entry := e; ig_replayed := true |},
     {| working := db2; committed := db2 |})) as Hin.
  { unfold ingest_verified_lemon_squeezy_webhook, webhook_require, inbox_by_identity.
    rewrite (bind_ensure _ _ _ _ _ Hn) (bind_lift _ _ _ _ Hid) bind_query. cbn [working].
    rewrite (find_row_unique _ _ (ig_id g) e); [exact He|by apply bool_decide_eq_true| |].
    { intros k i Hk Hi%bool_decide_eq_true. apply (identity_unique db2 k (ig_id g) i e Hc Hk He). congruence. }
    rewrite bind_ensure //. by rewrite (same_binding_core _ _ _ Hcore) Hs bool_decide_eq_true_2. }
  unfold ingest_request. rewrite Hw. unfold with_uow, ingest_body.
  rewrite (bind_eq _ _ _ _ _ Hin) M_bind_eq. unfold market_commit, commit. cbn [working].
  by rewrite Hc.
Qed.

(** ** What the reconciliation reaches *)

(** The context the endpoint is wired to expects the order, the variant, the currency and
    the total of the binding, whatever the event is about. *)
Lemma load_context_expects production i s x s' :
  load_context production i s = (Ok x, s') ->
  is_Some (x_provider_order_id x) /\ is_Some (x_variant_id x) /\ is_Some (x_currency x) /\
  is_Some (x_total_amount x).
Proof. unfold load_context. intros H. inv_webhook. subst x. cbn. eauto. Qed.

Lemma mismatch_None {A} `{EqDecision A} (x : option A) : is_Some x -> mismatch x None = true.
Proof. by intros [a ->]. Qed.

(** Events about subscriptions carry no amount and events about invoices no order, so the
    gate never lets them through. *)
Lemma gate_only_orders i x :
  evidence_shape i -> is_Some (x_provider_order_id x) -> is_Some (x_currency x) ->
  de_action (classify_lemon_squeezy_reconciliation i x) = ActReconcile ->
  i_resource_type i = "orders" /\ dict_get RESOURCE_TYPES_BY_EVENT (i_event_name i) = Some "orders".
Proof.
  intros Hs Ho Hc. unfold classify_lemon_squeezy_reconciliation.
  destruct (i_processing_status i); try discriminate;
    (destruct (dict_get _ _) as [rt|] eqn:Er; [|discriminate]);
    (case_bool_decide as E; [|discriminate]); subst rt; cbn [negb].
  all: repeat (case_bool_decide; [|discriminate]); cbn [negb].
  all: repeat (case_match; try discriminate).
  all: intros _; destruct Hs as [?|Hr Hv _ _ _ Hcu _|Hr Hv _ Hord _ _ _]; [split; congruence|exfalso..].
  all: match goal with H : expected_evidence _ _ = None |- _ => unfold expected_evidence in H;
         rewrite ?Hcu ?Hord in H; revert H end.
  all: rewrite ?(mismatch_None _ Ho); destruct Hc as [cu Hcx]; rewrite ?Hcx; cbn.
  all: by repeat case_match.
Qed.

(** The subscription side of the database. *)
Definition subscription_side db :=
  (db_subscriptions db, db_runtimes db, db_delinquencies db, db_cycles db, db_usages db,
   db_transitions db, db_top_ups db).

Lemma order_event_reaches_nothing ids i s u s' :
  dict_get RESOURCE_TYPES_BY_EVENT (i_event_name i) = Some "orders" ->
  apply_reconciled ids i s = (Ok u, s') ->
  subscription_side (working s') = subscription_side (working s).
Proof.
  intros Hn. unfold apply_reconciled. intros (b & s1 & Hw & H)%M_bind_Ok.
  apply watermark_Ok in Hw as (bid & b0 & t & _ & _ & _ & ->).
  assert (dict_get EVENT_STATUS (i_event_name i) = None) as He.
  { apply dict_get_Some_elem in Hn. unfold RESOURCE_TYPES_BY_EVENT in Hn.
    repeat (apply elem_of_cons in Hn as [[= ->]|Hn]; [reflexivity|]).
    all: repeat (apply elem_of_cons in Hn as [[=]|Hn]). by apply not_elem_of_nil in Hn. }
  unfold apply_lemon_squeezy_subscription_lifecycle in H. rewrite He in H.
  rewrite M_bind_eq in H. by injection H as _ <-.
Qed.

(** With the context loader the endpoint is wired to, the reconciliation of a webhook
    entry never changes a subscription, its runtime, its delinquency record or a quota
    cycle: no event about a subscription or an invoice is decided to be reconciled, because
    it lacks evidence the context always expects, and the events about orders have no
    effect on the lifecycle.  In particular a failed payment never starts the grace period
    and a cancellation never ends an access. *)
Theorem reconciliation_never_reaches_a_subscription production ids id t db r db' :
  provider_inv db ->
  process_reconciliation (load_context production) ids id t db = (r, db') ->
  subscription_side db' = subscription_side db /\
  forall did d i, r = Ok (did, d) -> decisions db !! did = None -> inbox db !! id = Some i ->
    i_resource_type i <> "orders" -> rd_action d <> ActReconcile.
Proof.
  intros Hp H. apply process_reconciliation_outcome in H; [|apply read_only_load_context].
  destruct H as [e|did d i Hi Hd Hm|i x claimed d db' Hi Hst _ _ _ Hn -> Hx _ -> Hc Hk].
  - by split.
  - split; [done|]. intros did' d' i' [= <- <-]. congruence.
  - pose proof (pi_entries _ Hp _ _ Hi) as [_ Hshape].
    apply (shape_core i (claimed_entry t i)) in Hshape; [|done].
    destruct (load_context production _ _) as [x' s'] eqn:Hload. cbn in Hx. subst x'.
    apply load_context_expects in Hload as (Ho & _ & Hcur & _).
    set (dec := classify_lemon_squeezy_reconciliation (claimed_entry t i) x) in *.
    assert (de_action dec = ActReconcile -> i_resource_type i = "orders" /\
      dict_get RESOURCE_TYPES_BY_EVENT (i_event_name i) = Some "orders") as Hgate
      by exact (gate_only_orders (claimed_entry t i) x Hshape Ho Hcur).
    split.
    + destruct Hc as [_|_|db2 Ha Hr]; [done|done|]. destruct (Hgate Ha) as [_ Hev].
      destruct (rc_run _ _ _ Hr) as (ids' & s & u & s2 & Hrun & Es & <-).
      apply order_event_reaches_nothing in Hrun; [|exact Hev]. rewrite Es in Hrun. exact Hrun.
    + intros did' d' i' [= <- <-] _ Hi' Hne Ha. apply Hne. rewrite Hi in Hi'. injection Hi' as <-.
      by apply Hgate.
Qed.

(** ** Replays of a paid order and of a refund *)

(** A fulfilled entry is closed, and the order it names has the grant reported. *)
Lemma fulfilled_entry ids id t db r db' :
  process_top_up ids id t db = (Ok r, db') ->
  exists i g, inbox db' !! id = Some i /\ i_processing_status i = InProcessed /\
    uuid_of_text (i_order_ref i) = Some (tp_order_id r) /\
    grants db' !! tp_grant_id r = Some g /\ g_order_id g = tp_order_id r /\ g_units g = tp_units r.
Proof.
  intros H%process_top_up_outcome.
  inversion H as [|i oid gid g Hi Hs Hu Hg Ho|i oid o amount p gr s2 db1 Hi Hst _ _ Hpu Hp Hg Edb Hk]; subst.
  - by exists i, g.
  - exists (processed_entry t i). cbn [tp_order_id tp_grant_id tp_units].
    inversion Hg as [|gid g Hg1 Hof|g o1 c Hn Hof Hat]; subst; exists g; cbn; rewrite lookup_insert_eq.
    + destruct Hof as (Hoid & _). cbn in Hoid, Hg1. split_and!; try done. apply (pu_reference _ _ _ _ _ Hpu).
    + destruct Hof as (Hoid & _). cbn in Hoid. rewrite lookup_insert_eq.
      split_and!; try done. apply (pu_reference _ _ _ _ _ Hpu).
Qed.

(** C26. A paid order is granted once: whatever requests ran since its webhook was
    processed, processing the webhook again reports the same grant of the same units and
    changes nothing. *)
Theorem paid_webhook_grants_once ids1 ids2 id t1 t2 db r db1 ops :
  market_inv db -> provider_inv db -> top_up_ledger db -> naive t2 = false ->
  process_top_up ids1 id t1 db = (Ok r, db1) ->
  let db2 := market_run ops db1 in
  process_top_up ids2 id t2 db2 =
    (Ok {| tp_inbox_id := id; tp_order_id := tp_order_id r; tp_grant_id := tp_grant_id r;
           tp_units := tp_units r; tp_replayed_grant := true |}, db2) /\
  exists g, grants db2 !! tp_grant_id r = Some g /\ g_order_id g = tp_order_id r /\
    g_units g = tp_units r.
Proof.
  intros Hm Hp Hl Ht H. destruct (fulfilled_entry _ _ _ _ _ _ H) as (i & g & Hi & Hs & Hu & Hg & Ho & Hun).
  pose proof (market_exec_inv (OpLemonTopUp ids1 id t1) db Hm) as [Hm1 _].
  pose proof (market_exec_provider (OpLemonTopUp ids1 id t1) db Hp) as [Hp1 _].
  pose proof (market_exec_top_ups (OpLemonTopUp ids1 id t1) db Hl) as [Hl1 _].
  cbn in Hm1, Hp1, Hl1. rewrite H in Hm1, Hp1, Hl1. cbn in Hm1, Hp1, Hl1. cbn.
  destruct (market_run_inv ops db1 Hm1) as [[Hc _] _].
  destruct (market_run_provider ops db1 Hp1) as [_ [Ke _]].
  destruct (market_run_top_ups ops db1 Hl1) as [_ [Kg _ _]].
  set (db2 := market_run ops db1) in *.
  destruct (Ke _ _ Hi) as (i' & Hi' & _ & Hsame). rewrite Hsame in Hi'; [by rewrite Hs|].
  apply Kg in Hg. split; [|by exists g].
  unfold process_top_up. rewrite Ht. unfold with_uow, process_top_up_body, inbox_by_id.
  rewrite bind_query. cbn [working]. rewrite Hi' bind_ret bool_decide_eq_true_2 //.
  unfold replayed_top_up, grant_by_order_id. rewrite Hu bind_ret bind_query. cbn [working].
  rewrite (find_row_unique _ _ (tp_grant_id r) g); [exact Hg|by apply bool_decide_eq_true|..].
  { intros k g' Hk Hk'%bool_decide_eq_true. apply (grant_unique db2 k (tp_grant_id r) g' g Hc Hk Hg). congruence. }
  rewrite bind_ret. cbn. by rewrite Hun.
Qed.

Lemma reversal_event_unique db k1 k2 v1 v2 :
  market_constraints db = Ok tt -> reversals db !! k1 = Some v1 -> reversals db !! k2 = Some v2 ->
  v_provider_event_ref v1 = v_provider_event_ref v2 -> k1 = k2.
Proof.
  intros H%top_up_unique H1 H2 E. unfold top_up_uniques in H. to_prop.
  match goal with H : unique_on (fun v => Some (v_provider_event_ref v)) _ = true |- _ =>
    rewrite unique_on_true in H; exact (H k1 k2 v1 v2 _ H1 H2 eq_refl (f_equal Some (eq_sym E))) end.
Qed.

(** A settled refund with a reversal: the entry is closed and the reversal is its event's. *)
Lemma settled_entry ids id t db r db' vid :
  process_refund ids id t db = (Ok r, db') -> rf_reversal_id r = Some vid ->
  exists i v, inbox db' !! id = Some i /\ i_processing_status i = InProcessed /\
    uuid_of_text (i_order_ref i) = Some (rf_order_id r) /\
    reversals db' !! vid = Some v /\ v_provider_event_ref v = provider_event_ref i.
Proof.
  intros H%process_refund_outcome Hv.
  inversion H as [|i oid w Hi Hs Hu Ew|i oid pa to db1 Hi Hst _ _ Hu _ _ _ Edb Hk
    |i oid pa to rv s2 db1 Hi Hst _ _ Hu _ _ _ Hr Edb Hk]; subst; cbn in Hv.
  - destruct (find_row _ _) as [[k v]|] eqn:Ef in Hv; [|done]. injection Hv as <-.
    apply find_row_Some in Ef as [Hk He%bool_decide_eq_true]. by exists i, v.
  - done.
  - injection Hv as <-. exists (processed_entry t i).
    apply reverse_in_uow_cases in Hr as [[[? Eq] _]|[(k & v & Er & -> & Hk' & He & _)|
      (v & g & c & Er & Hn & He & _ & _ & ->)]]; [done|exists v; injection Er as ->..];
      cbn; rewrite lookup_insert_eq; split_and!; try done.
    unfold reversed_db. by destruct (can_reverse g c); cbn; rewrite lookup_insert_eq.
Qed.

(** A refund with a reversal is reported by every replay as reversed, with the same
    reversal, even when the units had been consumed and the refund was left for manual
    review. *)
Theorem refund_replay_reports_reversed ids1 ids2 id t1 t2 db r db1 ops vid :
  market_inv db -> provider_inv db -> top_up_ledger db -> naive t2 = false ->
  process_refund ids1 id t1 db = (Ok r, db1) -> rf_reversal_id r = Some vid ->
  let db2 := market_run ops db1 in
  process_refund ids2 id t2 db2 =
    (Ok {| rf_inbox_id := id; rf_order_id := rf_order_id r; rf_outcome := ROReversed;
           rf_reversal_id := Some vid; rf_replayed := true |}, db2).
Proof.
  intros Hm Hp Hl Ht H Hv. destruct (settled_entry _ _ _ _ _ _ _ H Hv) as (i & v & Hi & Hs & Hu & Hr & He).
  pose proof (market_exec_inv (OpLemonRefund ids1 id t1) db Hm) as [Hm1 _].
  pose proof (market_exec_provider (OpLemonRefund ids1 id t1) db Hp) as [Hp1 _].
  pose proof (market_exec_top_ups (OpLemonRefund ids1 id t1) db Hl) as [Hl1 _].
  cbn in Hm1, Hp1, Hl1. rewrite H in Hm1, Hp1, Hl1. cbn in Hm1, Hp1, Hl1. cbn.
  destruct (market_run_inv ops db1 Hm1) as [[Hc _] _].
  destruct (market_run_provider ops db1 Hp1) as [_ [Ke _]].
  destruct (market_run_top_ups ops db1 Hl1) as [_ [_ Kr _]].
  set (db2 := market_run ops db1) in *.
  destruct (Ke _ _ Hi) as (i' & Hi' & _ & Hsame). rewrite Hsame in Hi'; [by rewrite Hs|].
  apply Kr in Hr.
  unfold process_refund. rewrite Ht. unfold with_uow, process_refund_body, inbox_by_id.
  rewrite bind_query. cbn [working]. rewrite Hi' bind_ret Hu bind_ret bool_decide_eq_true_2 //.
  unfold replayed_refund, reversal_by_provider_event_ref. rewrite bind_query. cbn [working].
  rewrite (find_row_unique _ _ vid v); [exact Hr|by apply bool_decide_eq_true|..].
  { intros k v' Hk Hk'%bool_decide_eq_true. apply (reversal_event_unique db2 k vid v' v Hc Hk Hr). congruence. }
  done.
Qed.

End ProviderProps.

(** ** Witnesses *)

(** The failed payment, received and then reconciled. *)
Definition db_reconciled : MarketDb := Eval vm_compute in
  market_exec (OpProcess true ex_ids "i1" (noon 2026 2 20)) ex_ingested.

Lemma ex_ingested_inv : market_inv ex_ingested /\ provider_inv ex_ingested.
Proof.
  assert (ex_ingested = market_run [OpIngest ex_primitives "i1" ex_failed] ex_provider_db) as ->
    by (vm_compute; reflexivity).
  destruct (ex_run_inv [OpIngest ex_primitives "i1" ex_failed]) as (H1 & H2 & _). by split.
Qed.

Lemma webhook_entries_decided_once_witness :
  let db := market_run [OpProcess true ex_ids "i1" (noon 2026 2 20)] ex_ingested in
  (exists i, inbox db !! "i1" = Some i /\ i_processing_status i = InRejected) /\
  forall k i, inbox db !! k = Some i -> i_processing_status i <> InProcessing.
Proof.
  split; [eexists; split; vm_compute; reflexivity|]. intros k i H.
  exact (proj1 (proj1 (proj2 (webhook_entries_decided_once
    [OpProcess true ex_ids "i1" (noon 2026 2 20)] ex_ingested
    (proj1 ex_ingested_inv) (proj2 ex_ingested_inv))) k i H)).
Defined.

Lemma webhook_replay_is_recognised_witness :
  exists g db1 e, ingest_request (H:=ex_primitives) "i1" ex_failed ex_provider_db = (Ok g, db1) /\
    ig_replayed g = false /\
    let db2 := market_run [OpProcess true ex_ids "i1" (noon 2026 2 20)] db1 in
    ingest_request (H:=ex_primitives) "i9" ex_failed db2 =
      (Ok {| ig_id := ig_id g; ig_entry := e; ig_replayed := true |}, db2).
Proof.
  destruct ex_provider_db_inv as (H1 & H2 & _).
  destruct (ingest_request (H:=ex_primitives) "i1" ex_failed ex_provider_db) as [r db1] eqn:E.
  assert (match fst (ingest_request (H:=ex_primitives) "i1" ex_failed ex_provider_db) with
          | Ok g => ig_replayed g | Raise _ => true end = false) as Hf by (vm_compute; reflexivity).
  rewrite E in Hf. destruct r as [g|e]; [|discriminate Hf]. exists g, db1.
  destruct (webhook_replay_is_recognised (WP:=ex_primitives) "i1" "i9" ex_failed ex_provider_db g db1
    [OpProcess true ex_ids "i1" (noon 2026 2 20)] H1 H2 E) as (e & _ & _ & H).
  exists e. split; [reflexivity|]. split; [exact Hf|exact H].
Defined.

Lemma reconciliation_never_reaches_a_subscription_witness :
  exists db', snd (process_reconciliation (load_context true) ex_ids "i1" (noon 2026 2 20) ex_ingested) = db' /\
    decisions db' !! "d1" <> None /\ subscription_side db' = subscription_side ex_ingested.
Proof.
  exists (snd (process_reconciliation (load_context true) ex_ids "i1" (noon 2026 2 20) ex_ingested)).
  split; [reflexivity|]. split; [vm_compute; discriminate|].
  exact (proj1 (reconciliation_never_reaches_a_subscription true ex_ids "i1" (noon 2026 2 20) ex_ingested
    _ _ (proj2 ex_ingested_inv) (surjective_pairing _))).
Defined.

Lemma ex_purchased_inv : market_inv db_purchased /\ provider_inv db_purchased /\ top_up_ledger db_purchased.
Proof.
  assert (db_purchased = market_run ex_purchase ex_provider_db) as -> by (vm_compute; reflexivity).
  apply ex_run_inv.
Qed.

Lemma ex_fulfilled_inv : market_inv db_fulfilled /\ provider_inv db_fulfilled /\ top_up_ledger db_fulfilled.
Proof.
  assert (db_fulfilled = market_run ex_fulfilment ex_provider_db) as -> by (vm_compute; reflexivity).
  apply ex_run_inv.
Qed.

Lemma paid_webhook_grants_once_witness :
  exists r db1, process_top_up ex_top_up_ids "i1" (noon 2026 1 26) db_purchased = (Ok r, db1) /\
    tp_replayed_grant r = false /\
    exists g, grants db1 !! tp_grant_id r = Some g /\ g_order_id g = tp_order_id r /\
      g_units g = tp_units r.
Proof.
  destruct ex_purchased_inv as (H1 & H2 & H3).
  assert (match fst (process_top_up ex_top_up_ids "i1" (noon 2026 1 26) db_purchased) with
          | Ok r => tp_replayed_grant r | Raise _ => true end = false) as Hf by (vm_compute; reflexivity).
  destruct (process_top_up ex_top_up_ids "i1" (noon 2026 1 26) db_purchased) as [r db1] eqn:E.
  destruct r as [r|e]; [|discriminate Hf]. exists r, db1. split; [reflexivity|]. split; [exact Hf|].
  exact (proj2 (paid_webhook_grants_once ex_top_up_ids ex_top_up_ids "i1" (noon 2026 1 26) (noon 2026 1 27)
    db_purchased r db1 [] H1 H2 H3 eq_refl E)).
Defined.

Lemma refund_replay_reports_reversed_witness :
  let db := market_run [OpRecord "u2" (ex_usage "c1" 5000 "b"%char (noon 2026 1 27))] db_fulfilled in
  exists r db1, process_refund ex_top_up_ids "i2" (noon 2026 1 28) db = (Ok r, db1) /\
    rf_outcome r = ROManualReview /\
    exists r2, process_refund ex_top_up_ids "i2" (noon 2026 1 29) db1 = (Ok r2, db1) /\
      rf_outcome r2 = ROReversed.
Proof.
  destruct ex_fulfilled_inv as (H1 & H2 & H3). set (op := OpRecord _ _). intros db.
  assert (market_inv db /\ provider_inv db /\ top_up_ledger db) as (I1 & I2 & I3)
    by (split_and!; [by apply market_run_inv|by apply market_run_provider|by apply market_run_top_ups]).
  assert (match fst (process_refund ex_top_up_ids "i2" (noon 2026 1 28) db) with
          | Ok r => (rf_outcome r, rf_reversal_id r) | Raise _ => (ROReversed, None) end =
          (ROManualReview, Some "v1")) as Hf by (vm_compute; reflexivity).
  destruct (process_refund ex_top_up_ids "i2" (noon 2026 1 28) db) as [r db1] eqn:E.
  destruct r as [r|e]; [|discriminate Hf]. injection Hf as Ho Hv.
  exists r, db1. split; [reflexivity|]. split; [exact Ho|]. eexists. split.
  - exact (refund_replay_reports_reversed ex_top_up_ids ex_top_up_ids "i2" (noon 2026 1 28) (noon 2026 1 29)
      db r db1 [] "v1" I1 I2 I3 eq_refl E Hv).
  - reflexivity.
Defined.
