(* ===== verification/OrderHistory.v ===== *)
(** * The history of the orders

    What every request of the marketplace does to the orders of top-ups, their payments and
    their grants: an order keeps its terms, a granted one stays granted, its checkout columns
    move along the machine of section [CheckoutSpec], a new order has no account, no payment evidence
    is lost, and no order that is granted gets another grant. *)
From S2P Require Import Prelude PyString PyDecimal PlanCatalog PyDateTime TopUpQuote PyText Uow TopUpDb LemonWebhook MarketDb QuotaUsage Delinquency TopUpOrder TopUpGrant TopUpSpec LemonRuntime LemonInbox LemonProcess LemonTopUp LemonCheckout MarketFrames LemonSpec SalesChange LemonTopUpSpec MarketLedger ProviderProps.
#[local] Open Scope Z_scope.
#[local] Notation orders db := (tu_orders (db_top_ups db)).
#[local] Notation payments db := (tu_payments (db_top_ups db)).
#[local] Notation grants db := (tu_grants (db_top_ups db)).

(** The columns no request changes. *)
Definition order_terms (o : CommercialTopUpOrder) :=
  (o_account_id o, o_customer_ref o, o_subscription_id o, o_quota_cycle_id o, o_requested_units o,
   o_settlement_currency o, o_settlement_amount o, o_idempotency_key o).

Record order_moved (o o' : CommercialTopUpOrder) : Prop := {
  om_terms : order_terms o' = order_terms o;
  om_granted : o_state o = GRANTED -> o_state o' = GRANTED;
  om_checkout : rtc checkout_move (checkout_state o) (checkout_state o')
}.

#[global] Instance order_moved_preorder : PreOrder order_moved.
Proof.
  split; [intros o; split; [done|done|reflexivity]|]. intros a b c [] []. split; [congruence|eauto|etrans; eassumption].
Qed.

Record orders_moved (db db' : MarketDb) : Prop := {
  mv_orders : forall k o, orders db !! k = Some o -> exists o', orders db' !! k = Some o' /\ order_moved o o';
  mv_new : forall k o', orders db' !! k = Some o' -> is_Some (orders db !! k) \/ o_account_id o' = None;
  mv_payments : forall k p, payments db !! k = Some p -> payments db' !! k = Some p;
  mv_grants : forall k g o, grants db' !! k = Some g -> orders db !! g_order_id g = Some o ->
    o_state o = GRANTED -> grants db !! k = Some g
}.

Section OrderHistory.
Implicit Types db : MarketDb.

#[global] Instance orders_moved_preorder : PreOrder orders_moved.
Proof.
  split.
  - intros db. split; [|by eauto|done|done]. intros k o Ho. exists o. split; [done|reflexivity].
  - intros a b c H1 H2. split.
    + intros k o Ho. destruct (mv_orders _ _ H1 k o Ho) as (o1 & Ho1 & M1).
      destruct (mv_orders _ _ H2 k o1 Ho1) as (o2 & Ho2 & M2). exists o2. split; [done|etrans; eassumption].
    + intros k o2 Ho2. destruct (mv_new _ _ H2 k o2 Ho2) as [[o1 Ho1]|]; [|by right].
      destruct (mv_new _ _ H1 k o1 Ho1) as [|Hn]; [by left|right].
      destruct (mv_orders _ _ H2 k o1 Ho1) as (o2' & Ho2' & M). assert (o2' = o2) as -> by congruence.
      pose proof (om_terms _ _ M) as Ht. unfold order_terms in Ht. congruence.
    + intros k p Hp. by apply (mv_payments _ _ H2), (mv_payments _ _ H1).
    + intros k g o Hg Ho Hs. destruct (mv_orders _ _ H1 _ o Ho) as (o1 & Ho1 & M1).
      apply (mv_grants _ _ H1 k g o); [|done|done]. apply (mv_grants _ _ H2 k g o1); [done|done|].
      by apply (om_granted _ _ M1).
Qed.

(** A request that leaves the orders and the grants alone. *)
Lemma orders_moved_table db db' : orders db' = orders db -> grants db' = grants db ->
  (forall k p, payments db !! k = Some p -> payments db' !! k = Some p) -> orders_moved db db'.
Proof.
  intros Eo Eg Hp. split; rewrite ?Eo ?Eg; [|by eauto|done|done]. intros k o Ho. exists o. split; [done|reflexivity].
Qed.

Lemma orders_moved_same db db' : db_top_ups db' = db_top_ups db -> orders_moved db db'.
Proof. intros E. by apply orders_moved_table; rewrite E. Qed.

(** The order [oid] replaced by one it moves to; only an order that is not granted gets a
    grant. *)
Lemma orders_moved_replace oid o o' db db' :
  orders db !! oid = Some o -> orders db' = <[oid := o']> (orders db) -> order_moved o o' ->
  (forall k p, payments db !! k = Some p -> payments db' !! k = Some p) ->
  (forall k g, grants db' !! k = Some g -> grants db !! k = Some g \/ g_order_id g = oid /\ o_state o <> GRANTED) ->
  orders_moved db db'.
Proof.
  intros Ho E R Hp Hg. split; [| |done|].
  - intros k o1 Hk. rewrite E. destruct (decide (oid = k)) as [<-|Hne].
    + assert (o1 = o) as -> by congruence. exists o'. by rewrite lookup_insert_eq.
    + exists o1. rewrite lookup_insert_ne //. split; [done|reflexivity].
  - intros k o1. rewrite E. intros [[<- <-]|[_ Hk]]%lookup_insert_Some; [left; by exists o|left; by exists o1].
  - intros k g o1 Hk Ho1 Hs. destruct (Hg k g Hk) as [|[E1 Hn]]; [done|]. rewrite E1 in Ho1. congruence.
Qed.

Lemma granted_moved gid g o c db : grant_new gid g o c db -> orders_moved db (granted_db gid g o c db).
Proof.
  intros Hn. apply (orders_moved_replace (g_order_id g) o (set_order_state GRANTED o)).
  - apply (gn_order _ _ _ _ _ Hn).
  - done.
  - split; [done|done|reflexivity].
  - done.
  - intros k g'. cbn. intros [[<- <-]|[_ Hk]]%lookup_insert_Some; [right|by left].
    split; [done|]. destruct (gn_state _ _ _ _ _ Hn) as [->| ->]; discriminate.
Qed.

Lemma checkout_step_moved oid db db' : checkout_step oid db db' -> orders_moved db db'.
Proof.
  intros [->|(o & o' & Ho & [v c st Hm] & -> & _)]; [reflexivity|].
  apply (orders_moved_replace oid o (set_checkout v c st o)); [done|done| |done|by left].
  split; [done|done|by apply rtc_once].
Qed.

Lemma core_step_moved db db' : core_step db db' -> orders_moved db db'.
Proof. intros [->|[_ Hf]]; [reflexivity|]. apply orders_moved_same, (frame_top_ups _ _ Hf). Qed.

(** New evidence under a fresh identifier, and the order it may put in wait of its grant. *)
Lemma with_payment_keeps pid (p : option CommercialTopUpPaymentEvidence) (P : CommercialTopUpPaymentEvidence -> Prop) db :
  match p with Some p => payments db !! pid = None /\ P p | None => True end ->
  forall k q, payments db !! k = Some q -> payments (with_payment pid p db) !! k = Some q.
Proof.
  destruct p as [p|]; [|done]. intros [Hn _] k q Hq. cbn. rewrite lookup_insert_ne //. intros ->. congruence.
Qed.

Lemma awaiting_moved pid p (P : CommercialTopUpPaymentEvidence -> Prop) oid o db :
  orders db !! oid = Some o ->
  match p with Some p => payments db !! pid = None /\ P p | None => True end ->
  orders_moved db (if bool_decide (o_state o = AWAITING_PAYMENT) then awaiting_grant oid o (with_payment pid p db)
                   else with_payment pid p db).
Proof.
  intros Ho Hp. pose proof (with_payment_keeps pid p P db Hp) as Hk. case_bool_decide as Es.
  - apply (orders_moved_replace oid o (set_order_state PAYMENT_VERIFIED o)).
    + done.
    + by destruct p.
    + split; [done|rewrite Es; discriminate|reflexivity].
    + by destruct p.
    + left. by destruct p.
  - apply orders_moved_table; [by destruct p|by destruct p|done].
Qed.

Lemma verify_local_moved pid gid cmd db : orders_moved db (snd (verify_local pid gid cmd db)).
Proof.
  destruct (verify_local _ _ _ _) as [r db'] eqn:E. apply verify_local_outcome in E. cbn.
  destruct E as [e|id g o r0|o p g c a r0 db1 db' Ho _ _ _ _ Hp Hdb1 Hn _ _ _ -> _ _ _ _]; [reflexivity..|].
  etrans; [|by apply granted_moved]. rewrite Hdb1.
  apply (awaiting_moved pid p (fun p => pe_order_id p = lc_order_id cmd /\ pe_provider_reference p = lc_provider_reference cmd)); done.
Qed.

(** The inbox of the provider is another table. *)
Lemma inbox_moved id i db : orders_moved db (put_inbox id i db).
Proof. by apply orders_moved_same. Qed.

Lemma process_top_up_moved ids id t db : orders_moved db (snd (process_top_up ids id t db)).
Proof.
  destruct (process_top_up _ _ _ _) as [r db'] eqn:E. apply process_top_up_outcome in E. cbn.
  destruct E as [| |i oid o amount p g s2 db' _ _ _ _ Hpu Hp Hg -> _]; [reflexivity..|].
  assert (orders_moved db (paid_db ids id i t oid o p db)) as Hpaid.
  { pose proof (awaiting_moved (tid_payment ids) p
             (fun p => pe_order_id p = oid /\ pe_provider_reference p = provider_order_reference i)
             oid o db (pu_order _ _ _ _ _ Hpu) Hp) as H1.
    etrans; [exact H1|apply inbox_moved]. }
  etrans; [exact Hpaid|]. inversion Hg as [|k g0 _ _|g0 o1 c Hn _ _]; subst; [apply inbox_moved|].
  etrans; [by apply (granted_moved (tid_grant ids) g0 o1 c)|apply inbox_moved].
Qed.

Lemma reversed_moved vid v g c db : orders_moved db (reversed_db vid v g c db).
Proof. by apply orders_moved_table; unfold reversed_db; destruct (can_reverse g c). Qed.

Lemma process_refund_moved ids id t db : orders_moved db (snd (process_refund ids id t db)).
Proof.
  destruct (process_refund _ _ _ _) as [r db'] eqn:E. apply process_refund_outcome in E. cbn.
  destruct E as [| |i oid pa to db' _ _ _ _ _ _ _ _ -> _|i oid pa to rv s2 db' _ _ _ _ _ _ _ _ Hv -> _];
    [reflexivity..|by apply orders_moved_table|].
  apply reverse_in_uow_cases in Hv as [[[? Eq] _]|[(? & ? & _ & -> & _)|(v & g & c & _ & _ & _ & _ & _ & ->)]];
    [done|by apply orders_moved_table|]. cbn.
  transitivity (put_inbox id (claimed_entry t i) db); [by apply orders_moved_table|].
  etrans; [apply (reversed_moved (tid_reversal ids) v g c)|by apply orders_moved_table].
Qed.

Lemma create_order_moved resolver provider cmd db : orders_moved db (snd (create_order resolver provider cmd db)).
Proof.
  destruct (create_order _ _ _ _) as [r db'] eqn:E. apply create_order_outcome in E. cbn.
  destruct E as [| |o Hn _]; [reflexivity..|]. pose proof (on_fresh _ _ _ Hn) as Hf. split; [| |done|done].
  - intros k o1 Hk. exists o1. cbn. rewrite lookup_insert_ne; [|split; [done|reflexivity]]. intros Heq. rewrite Heq in Hf. congruence.
  - cbn. intros k o1 [[<- <-]|[_ Hk]]%lookup_insert_Some; [right; apply (on_account _ _ _ Hn)|left; by exists o1].
Qed.

Lemma market_exec_moved o db : orders_moved db (market_exec o db).
Proof.
  pose proof (core_op_step o db) as Hs. destruct o; try (by apply core_step_moved); clear Hs; cbn.
  - destruct (record new_id cmd db) as [r db'] eqn:E. apply record_refines in E.
    by destruct E; apply orders_moved_same.
  - destruct (rollover new_id cmd db) as [r db'] eqn:E. cbn.
    by apply rollover_cases in E as [->|(c & _ & _ & -> & _)]; apply orders_moved_same.
  - apply create_order_moved.
  - destruct (grant _ _ _) as [r db'] eqn:E. cbn.
    apply grant_cases in E as [[_ ->]|[(? & ? & _ & -> & _)|(g & o & c & _ & Hn & _ & _ & -> & _)]];
      [reflexivity..|]. by apply granted_moved.
  - apply verify_local_moved.
  - destruct (reverse _ _ _) as [r db'] eqn:E. apply reverse_outcome in E. cbn.
    destruct E as [| |v g c _ _ _ _ _]; [reflexivity..|apply reversed_moved].
  - apply process_top_up_moved.
  - apply process_refund_moved.
  - eapply checkout_step_moved, begin_checkout_step, surjective_pairing.
  - eapply checkout_step_moved, finish_checkout_step, surjective_pairing.
  - eapply checkout_step_moved, finish_recovery_step, surjective_pairing.
  - destruct (sales_exec_step ids now later o db) as [->|[_ Hf]]; [reflexivity|].
    apply orders_moved_same, (sf_top_ups _ _ Hf).
Qed.

Lemma market_run_moved ops db : orders_moved db (market_run ops db).
Proof.
  revert db. induction ops as [|o ops IH]; intros db; [reflexivity|]. cbn.
  etrans; [apply market_exec_moved|apply IH].
Qed.
End OrderHistory.

(** * The checkouts of top-ups *)

Section CheckoutLedger.

(** ** The machine *)

(** A ready checkout stays as it is. *)
Lemma ready_final v c s : rtc checkout_move (CkReady, v, c) s -> s = (CkReady, v, c).
Proof.
  intros H. inversion H as [|? s1 ? Hm _]; subst; [done|]. inversion Hm as [| |st ? ? ? [E|E]]; congruence.
Qed.

(** A checkout once begun stays begun, for the same variant. *)
Lemma begun_for_ever s s' :
  rtc checkout_move s s' -> s.1.1 <> CkNotStarted -> s'.1.1 <> CkNotStarted /\ s'.1.2 = s.1.2.
Proof.
  induction 1 as [|s s1 s2 Hm _ IH]; [done|]. intros Hs.
  assert (s1.1.1 <> CkNotStarted /\ s1.1.2 = s.1.2) as [H1 <-] by (by destruct Hm).
  by apply IH.
Qed.
End CheckoutLedger.

(** * Properties of the provider checkouts

    An order is offered to the provider once. *)
Section CheckoutProps.

(** C27. An order is offered to the provider at most once: after a checkout was begun,
    whatever requests ran in between, beginning another for the same order fails and
    changes nothing, and the order stays bound to the variant it was begun for; and a
    checkout that is ready is never bound again to another. *)
Theorem checkout_begun_once cmd db price db1 ops :
  begin_checkout cmd db = (Ok price, db1) ->
  let db2 := market_run ops db1 in
  (forall cmd', cc_order_id cmd' = cc_order_id cmd ->
     exists e, begin_checkout cmd' db2 = (Raise e, db2)) /\
  (exists o, orders db2 !! cc_order_id cmd = Some o /\
     o_provider_variant_id o = Some (cc_provider_variant_id cmd)) /\
  (forall k o, orders db1 !! k = Some o -> o_checkout_creation_status o = CkReady ->
     exists o', orders db2 !! k = Some o' /\ checkout_state o' = checkout_state o).
Proof.
  intros (o & _ & _ & _ & Ho)%begun_order. cbn. pose proof (market_run_moved ops db1) as Hm.
  destruct (mv_orders _ _ Hm _ _ Ho) as (o2 & Ho2 & [_ _ R]).
  destruct (begun_for_ever _ _ R ltac:(discriminate)) as [Hs Hv]. split_and!.
  - intros cmd' E. apply (begin_refused cmd' _ o2); [by rewrite E|exact Hs].
  - exists o2. split; [exact Ho2|exact Hv].
  - intros k o1 Hk Hr. destruct (mv_orders _ _ Hm _ _ Hk) as (o' & Hk' & [_ _ R']). exists o'. split; [exact Hk'|].
    unfold checkout_state in R' |- *. rewrite Hr in R' |- *. exact (ready_final _ _ _ R').
Qed.
End CheckoutProps.

Lemma checkout_begun_once_witness :
  exists price db1, begin_checkout ex_checkout db_before_checkout = (Ok price, db1) /\
    dec_eqb price (dec_int 59) = true /\
    exists e, begin_checkout ex_checkout (market_run [OpCheckoutFinish ex_checkout (Some ex_response)] db1) =
      (Raise e, market_run [OpCheckoutFinish ex_checkout (Some ex_response)] db1).
Proof.
  assert (match fst (begin_checkout ex_checkout db_before_checkout) with
          | Ok p => dec_eqb p (dec_int 59) | Raise _ => false end = true) as Hf by (vm_compute; reflexivity).
  destruct (begin_checkout ex_checkout db_before_checkout) as [r db1] eqn:E.
  destruct r as [p|e]; [|discriminate Hf]. exists p, db1. split; [reflexivity|]. split; [exact Hf|].
  exact (proj1 (checkout_begun_once ex_checkout db_before_checkout p db1
    [OpCheckoutFinish ex_checkout (Some ex_response)] E) ex_checkout eq_refl).
Defined.
