(* ===== verification/SalesProps.v ===== *)
(** * The direct sales: a concrete sale and the properties

    First a Tunisian customer, two published offers of the starter plan, the default payment
    destination, and the requests from the order to its activation; then the theorems on
    the orders of any history. *)
From stdpp Require Import pretty.
From Stdlib Require Import Ascii.
From S2P Require Import Prelude PyString PyDecimal PyDateTime PyText PyJson Authority Uow TopUpDb SalesDb MarketDb CommerceAudit DirectOrder PaymentEvidence PaymentReconciliation Activation TopUpSpec MarketFrames LemonSpec OrderSpec SalesChange MarketLedger SalesLedger ProviderProps.
#[local] Open Scope Z_scope.
(** A digest of 64 bits, as 64 hexadecimal digits. *)
Fixpoint ex_short_digest (acc : Z) (s : string) : string :=
  match s with
  | EmptyString => hex_digits 64 acc ""
  | String c s' => ex_short_digest (Z.land (acc * 257 + code c + 1) (2 ^ 64 - 1)) s'
  end.
#[local] Instance ex_sha : Sha256 := ex_short_digest 0.

(** A UUID of a first character and another one repeated. *)
Definition ex_uuid (k c : ascii) : UUID :=
  String k (copies 7 c) +:+ "-" +:+ copies 4 c +:+ "-" +:+ copies 4 c +:+ "-" +:+ copies 4 c +:+ "-" +:+ copies 12 c.

(** The identifiers drawn by the request [k]. *)
Definition ex_sales_ids (k : ascii) : SalesIds :=
  {| si_row := ex_uuid k "1"; si_row2 := ex_uuid k "2"; si_reference := ex_uuid k "3";
     si_reference2 := ex_uuid k "4"; si_event := ex_uuid k "5"; si_notice := ex_uuid k "6";
     si_notice2 := ex_uuid k "7" |}.

Definition ex_direct_offer (code : string) (amount : dec) (updated : datetime) : AdminMarketOffer :=
  {| of_offer_code := code; of_plan_id := "plan"; of_display_name := "Starter"; of_currency := "TND";
     of_sales_channel := MaestroDirect; of_billing_period := Monthly; of_amount := amount;
     of_status := OfPublished; of_effective_at := None; of_expires_at := None;
     of_customer_specific := false; of_updated_at := updated |}.

Definition ex_destination : AdminMarketPaymentDestination :=
  {| pd_destination_ref := "dest-1"; pd_display_name := "Bank"; pd_destination_type := BankAccount;
     pd_institution_name := "Bank"; pd_account_holder_name := "Maestro";
     pd_identifier_ciphertext := "cipher-text-0001"; pd_identifier_key_version := "v1";
     pd_masked_identifier := "****8831"; pd_creation_idempotency_key_hash := None;
     pd_country_code := "TN"; pd_currency := "TND"; pd_sales_channel := MaestroDirect;
     pd_status := DsActive; pd_validation_method := Some Structural;
     pd_validation_reason_code := Some "structure_valid"; pd_validated_at := Some (noon 2026 1 1);
     pd_is_active := true; pd_is_default := true; pd_effective_at := None; pd_expires_at := None;
     pd_instructions := None |}.

Definition ex_eligibility : AdminMarketChannelEligibility :=
  {| elg_customer_ref := "tunis"; elg_country_code := Some "TN"; elg_address_status := AdConfirmed;
     elg_address_source := Some "identity"; elg_address_verified_at := Some (noon 2026 1 1);
     elg_maestro_direct_status := ChEligible; elg_lemon_squeezy_status := ChIneligible;
     elg_customer_choice_allowed := false; elg_admin_review_required := false;
     elg_restriction_reason := Some "tunisia"; elg_automatic_activation_allowed := true |}.

Definition ex_direct_sales : SalesTables :=
  {| sl_offers := {[ "old" := ex_direct_offer "starter-tn-1" (dec_int 179) (noon 2026 1 1);
                     "new" := ex_direct_offer "starter-tn-2" (Dec 1895 (-1)) (noon 2026 1 10) ]};
     sl_orders := ∅; sl_contracts := ∅; sl_evidence := ∅; sl_verifications := ∅; sl_cases := ∅;
     sl_destinations := {[ "dest" := ex_destination ]}; sl_eligibilities := {[ "elg" := ex_eligibility ]};
     sl_activations := ∅; sl_audit := ∅; sl_outbox := ∅ |}.

Definition ex_sales_db : MarketDb := put_sales (fun _ => ex_direct_sales) (ex_db 0).

(** ** The requests *)

Definition ex_direct_command : DirectOrderCommand :=
  {| do_actor_user_id := "user-1"; do_actor_session_id := "session-1"; do_customer_ref := "tunis";
     do_plan_ref := "Starter"; do_billing_period := "monthly"; do_correlation_id := "corr-1";
     do_idempotency_key := "order-key-0000000001" |}.
Definition ex_order_id : UUID := ex_uuid "a" "1".
Definition ex_order_ref : string := "ord_a33333333333333333333333".

Definition ex_contract_command : ContractCommand :=
  {| cm_actor_user_id := "user-1"; cm_actor_session_id := "session-1"; cm_customer_ref := "tunis";
     cm_order_ref := ex_order_ref; cm_contract_version := "tn-direct-v1"; cm_correlation_id := "corr-2";
     cm_idempotency_key := "contract-key-00000001" |}.

(** A report of [amount] under the order's payment reference. *)
Definition ex_report (amount : dec) : PaymentReportCommand :=
  {| rp_actor_user_id := "user-1"; rp_actor_session_id := "session-1"; rp_customer_ref := "tunis";
     rp_order_ref := ex_order_ref; rp_actual_amount := Finite amount; rp_currency := "tnd";
     rp_payment_reference := "tn-33333333"; rp_transfer_reference := "transfer 2026 0117";
     rp_correlation_id := "corr-3"; rp_idempotency_key := "report-key-0000000001" |}.
Definition ex_evidence_ref : string := "pev_c33333333333333333333333".

Definition ex_admin : AdminMarketplaceAuthorityContext :=
  {| au_user_id := "admin-1"; au_session_id := "session-9"; au_platform_authorities := ["platform_admin"];
     au_active_platform_admin := true; au_recent_mfa_step_up := true |}.

Definition ex_verify (decision : string) : VerifyPaymentCommand :=
  {| vp_authority := ex_admin; vp_evidence_ref := ex_evidence_ref; vp_decision := decision;
     vp_reason_code := "bank_statement"; vp_correlation_id := "corr-4";
     vp_idempotency_key := "verify-key-0000000001" |}.

Definition ex_reconcile_command (action key : string) : ReconcilePaymentCommand :=
  {| rx_authority := ex_admin; rx_evidence_ref := ex_evidence_ref; rx_action := action;
     rx_exception_type := None; rx_reason_code := "seen_at_the_desk"; rx_safe_note := None;
     rx_candidate_order_ref := None; rx_correlation_id := "corr-5"; rx_idempotency_key := key |}.

Definition ex_sale (k : ascii) (day : Z) (o : sales_op) : market_op :=
  OpSales ex_sha (ex_sales_ids k) (noon 2026 1 day) ex_sales_db o.

Definition ex_ordered : list market_op :=
  [ ex_sale "a" 15 (SoOrder ex_direct_command); ex_sale "b" 16 (SoContract ex_contract_command) ].
Definition ex_paid_in_full : list market_op := ex_ordered ++ [ ex_sale "c" 17 (SoReport (ex_report (Dec 1895 (-1)))) ].
Definition ex_underpaid : list market_op := ex_ordered ++ [ ex_sale "c" 17 (SoReport (ex_report (dec_int 100))) ].
Definition ex_verified : list market_op := ex_paid_in_full ++ [ ex_sale "d" 18 (SoDecide (ex_verify "verified")) ].
Definition ex_activation : sales_op := SoActivate ex_order_ref "corr-6" "activate-key-00000001".
Definition ex_sold : list market_op := ex_verified ++ [ ex_sale "e" 19 ex_activation ].

(** An underpaid order whose exception is accepted, and its payment verified. *)
Definition ex_exception : list market_op :=
  ex_underpaid ++ [ ex_sale "f" 18 (SoReconcile (ex_reconcile_command "accept_match" "case-key-1"));
                    ex_sale "d" 19 (SoDecide (ex_verify "verified")) ].
(** A verified order whose match is accepted again. *)
Definition ex_reopened : list market_op :=
  ex_verified ++ [ ex_sale "f" 19 (SoReconcile (ex_reconcile_command "accept_match" "case-key-1")) ].

(** Whether all the requests of a sequence succeed. *)
Fixpoint all_accepted (ops : list market_op) (db : MarketDb) : bool :=
  match ops with
  | [] => true
  | o :: ops' => accepted o db && all_accepted ops' (market_exec o db)
  end.

Definition ex_status (db : MarketDb) : option OrderPhase :=
  o ← market_orders db !! ex_order_id; order_phase o.

Example ex_sale_runs : all_accepted ex_sold ex_sales_db = true.
Proof. vm_compute. reflexivity. Qed.
Example ex_sale_active : ex_status (market_run ex_sold ex_sales_db) = Some Active.
Proof. vm_compute. reflexivity. Qed.
Example ex_sale_price :
  or_total_amount <$> market_orders (market_run ex_sold ex_sales_db) !! ex_order_id = Some (Dec 189500 (-3)).
Proof. vm_compute. reflexivity. Qed.

Example ex_exception_runs :
  all_accepted ex_exception ex_sales_db = true /\ ex_status (market_run ex_exception ex_sales_db) = Some Ready.
Proof. vm_compute. split; reflexivity. Qed.
Example ex_reopened_runs :
  all_accepted ex_reopened ex_sales_db = true /\ ex_status (market_run ex_reopened ex_sales_db) = Some Reported.
Proof. vm_compute. split; reflexivity. Qed.

(** The orders and the rows the witnesses name. *)
Definition ex_order_in (db : MarketDb) : AdminMarketOrder :=
  default ex_market_order (market_orders db !! ex_order_id).
Definition ex_contracting_order : AdminMarketOrder := Eval vm_compute in ex_order_in (market_run [ex_sale "a" 15 (SoOrder ex_direct_command)] ex_sales_db).
Definition ex_active_order : AdminMarketOrder := Eval vm_compute in ex_order_in (market_run ex_sold ex_sales_db).
Definition ex_exception_db : MarketDb := Eval vm_compute in market_run ex_exception ex_sales_db.
Definition ex_reopened_db : MarketDb := Eval vm_compute in market_run ex_reopened ex_sales_db.
Lemma ex_exception_run : market_run ex_exception ex_sales_db = ex_exception_db.
Proof. vm_compute. reflexivity. Qed.
Lemma ex_reopened_run : market_run ex_reopened ex_sales_db = ex_reopened_db.
Proof. vm_compute. reflexivity. Qed.

Lemma ex_sales_db_inv : market_inv ex_sales_db /\ sales_inv ex_sales_db.
Proof.
  destruct (ex_db_inv 0 ltac:(by left)) as [_ Hq]. split.
  - split; [vm_compute; reflexivity|]. by destruct Hq; split.
  - split; intros k r; cbn; by rewrite lookup_empty.
Qed.

(** * The properties of the direct sales

    What an activated order has behind it, the machine every order follows, the decisions
    that end a sale, idempotency, authority, the audit trail and refused requests. *)
Section SalesProps.
Implicit Types (db : MarketDb) (o : AdminMarketOrder).

(** ** Settled orders *)

Lemma sales_unique db : market_constraints db = Ok tt -> sales_uniques (db_sales db) = true.
Proof. unfold market_constraints. intros (? & H%ensure_Ok & _)%res_bind_Ok. by to_prop. Qed.

Lemma subscription_unique db k1 k2 s1 s2 order_id :
  market_constraints db = Ok tt -> db_subscriptions db !! k1 = Some s1 -> db_subscriptions db !! k2 = Some s2 ->
  s_order_id s1 = Some order_id -> s_order_id s2 = Some order_id -> k1 = k2.
Proof.
  unfold market_constraints. intros (? & H%ensure_Ok & _)%res_bind_Ok H1 H2 E1 E2. to_prop.
  match goal with H : unique_on s_order_id _ = true |- _ =>
    rewrite unique_on_true in H; exact (H k1 k2 s1 s2 order_id H1 H2 E1 E2) end.
Qed.

Lemma verification_unique db k1 k2 v1 v2 :
  market_constraints db = Ok tt -> verifications db !! k1 = Some v1 -> verifications db !! k2 = Some v2 ->
  pvr_order_id v1 = pvr_order_id v2 -> k1 = k2.
Proof.
  intros H%sales_unique H1 H2 E. unfold sales_uniques in H. to_prop.
  match goal with H : unique_on (fun v => Some (pvr_order_id v)) _ = true |- _ =>
    rewrite unique_on_true in H; exact (H k1 k2 v1 v2 _ H1 H2 eq_refl (f_equal Some (eq_sym E))) end.
Qed.

Lemma active_backed db id o :
  sales_inv db -> market_orders db !! id = Some o -> or_selected_channel o = MaestroDirect ->
  or_status o = OrActivated -> backed db id o Active.
Proof.
  intros Hi Ho Hd Hs. destruct (sv_orders _ Hi _ _ Ho Hd) as (_ & p & Hp & Hb).
  pose proof (order_phase_status _ _ Hp) as E. rewrite Hs in E. by destruct p.
Qed.

(** C20. A direct order is activated only when it is settled, and once.  In every state that
    a sequence of requests reaches, an activated direct order has its completed contract,
    the payment verified on evidence that shows it paid in full, in its currency, by its
    customer, under its reference and to its destination, and the activation of a
    subscription to the offer and the plan that were ordered; no other subscription
    belongs to it. *)
Theorem activated_orders_are_settled ops db :
  market_inv db -> sales_inv db -> let db' := market_run ops db in
  forall id o, market_orders db' !! id = Some o -> or_selected_channel o = MaestroDirect ->
    or_status o = OrActivated ->
    contracted db' id o /\ verified_paid db' id o /\ delivered db' id o /\
    (forall k1 k2 s1 s2, db_subscriptions db' !! k1 = Some s1 -> db_subscriptions db' !! k2 = Some s2 ->
       s_order_id s1 = Some id -> s_order_id s2 = Some id -> k1 = k2).
Proof.
  intros Hm Hi db' id o Ho Hd Hs. destruct (market_run_sales ops db Hi) as [Hi' _].
  destruct (market_run_inv ops db Hm) as [[Hc _] _].
  destruct (active_backed _ _ _ Hi' Ho Hd Hs) as (? & _ & ? & ?). split_and!; [done..|].
  intros k1 k2 s1 s2. by apply subscription_unique.
Qed.

(** C21. Every direct order follows the machine of its phases.  Along any sequence of requests
    an order keeps what was sold, its phases go along the arrows (a contract, then reports
    and reconciliations, a verified decision, the activation), and once activated its row
    never changes; an order created on the way begins with its contract. *)
Theorem orders_follow_the_machine ops db :
  sales_inv db -> let db' := market_run ops db in
  (forall id o, market_orders db !! id = Some o -> or_selected_channel o = MaestroDirect ->
     exists o', market_orders db' !! id = Some o' /\ order_path o o') /\
  (forall id o', market_orders db !! id = None -> market_orders db' !! id = Some o' ->
     exists p', order_phase o' = Some p' /\ rtc phase_step Contracting p').
Proof.
  intros Hi db'. split; [intros id o; by apply market_run_path|].
  intros id o' Hn Ho. by apply (market_run_new ops db id).
Qed.

(** ** Sales that end *)

(** The decision on the order rejected it, or rests on evidence that does not match. *)
Definition faulty_decision db (id : UUID) : Prop :=
  exists k v, verifications db !! k = Some v /\ pvr_order_id v = id /\
    (pvr_status v <> VfVerified \/
     exists eid e, pvr_evidence_id v = Some eid /\ evidences db !! eid = Some e /\
       all_matched (evidence_flags e) = false).

Lemma faulty_decision_kept db db' id : sales_kept db db' -> faulty_decision db id -> faulty_decision db' id.
Proof.
  intros Hk (k & v & Hv & Hid & Hf). exists k, v. split_and!; [by apply (sk_verifications _ _ Hk)|done|].
  destruct Hf as [?|(eid & e & He & Hev & Hm)]; [by left|right].
  destruct (sk_evidence _ _ Hk _ _ Hev) as (e' & He' & (_ & _ & Ef & _)%evidence_core_fields).
  exists eid, e'. split_and!; [done|done|congruence].
Qed.

(** C32. An order whose payment was decided on a rejection, or on evidence of which a part
    does not match, is never activated, whatever requests follow.  An administrator may
    accept the exception of such evidence and verify its payment; the order then says it
    is ready for its activation, which never succeeds, and there is no second decision. *)
Theorem faulty_decision_ends_the_sale ops db id :
  market_inv db -> sales_inv db -> faulty_decision db id ->
  forall o, market_orders (market_run ops db) !! id = Some o -> or_selected_channel o = MaestroDirect ->
    or_status o <> OrActivated.
Proof.
  intros Hm Hi Hf o Ho Hd Hs. destruct (market_run_sales ops db Hi) as [Hi' Hk].
  destruct (market_run_inv ops db Hm) as [[Hc _] _].
  destruct (active_backed _ _ _ Hi' Ho Hd Hs) as (_ & _ & (k1 & v1 & eid1 & e1 & Hv1 & Hid1 & Hs1 & He1 & Hev1 & Hp) & _).
  destruct (faulty_decision_kept _ _ _ Hk Hf) as (k2 & v2 & Hv2 & Hid2 & Hbad).
  assert (k1 = k2) as <- by (apply (verification_unique (market_run ops db) _ _ v1 v2); congruence).
  assert (v2 = v1) as -> by congruence. destruct Hbad as [?|(eid & e & He & Hev & Hf2)]; [done|].
  assert (e = e1) as -> by congruence. pose proof (pays_matched _ _ _ Hp). congruence.
Qed.

(** An order with a decision that is neither ready nor activated. *)
Definition stranded db (id : UUID) : Prop :=
  exists o k v, market_orders db !! id = Some o /\ or_selected_channel o = MaestroDirect /\
    or_status o <> OrReadyForActivation /\ or_status o <> OrActivated /\
    verifications db !! k = Some v /\ pvr_order_id v = id.

(** Only a decision makes an order ready, and there is at most one. *)
Lemma change_to_ready `{Sha256} db db1 id o o' :
  sales_change db db1 -> market_orders db !! id = Some o -> or_status o <> OrReadyForActivation ->
  market_orders db1 !! id = Some o' -> or_status o' = OrReadyForActivation ->
  forall k v, verifications db !! k = Some v -> pvr_order_id v <> id.
Proof.
  intros Hc Ho Hs Ho' Hs'.
  assert (forall k x, <[k := x]> (market_orders db) !! id = Some o' -> k = id /\ x = o') as Hput.
  { intros k x [[-> ->]|[_ Hk]]%lookup_insert_Some; [done|]. congruence. }
  destruct Hc as [ids r offer_id offer d x Hsold|ids r oid x Hx| ids r oid x m Hx|ids r eid e x He Hx Hn [c Hr] _
    |r eid e x cid c cand target sm He Hx Ha|ids r oid x plan Hx]; cbn in Ho'; apply Hput in Ho' as [<- <-].
  - pose proof (os_fresh _ _ _ _ _ _ _ Hsold). congruence.
  - discriminate Hs'.
  - unfold reported_order in Hs'. cbn in Hs'. by destruct (all_matched m).
  - exact Hn.
  - assert (x = o) as -> by congruence. revert Hs'. unfold case_order.
    destruct (bool_decide _); [done|]. by destruct Ha as [-> | ->].
  - discriminate Hs'.
Qed.

Lemma market_exec_stranded (op : market_op) db id :
  sales_inv db -> stranded db id -> stranded (market_exec op db) id.
Proof.
  intros Hi (o & k & v & Ho & Hd & Hr & Ha & Hv & Hid).
  destruct (market_exec_sales op db Hi) as [_ Hk Hm _].
  destruct (Hm _ _ Ho) as (o' & Ho' & Hs). exists o', k, v.
  destruct (order_core_fields _ _ (order_moves_core _ _ Hs)) as (_ & Ed & _).
  split_and!; [done|congruence| | |by apply (sk_verifications _ _ Hk)|done].
  - intros Hr'. pose proof (other_sales_quiet op db) as Hq.
    destruct op; try (rewrite (sq_sales _ _ Hq) in Ho'; congruence).
    cbn [market_exec] in Ho'.
    destruct (sales_exec_request ids now later o0 db) as [|db1 aid a n ns Hc _ _]; [congruence|].
    rewrite logged_orders in Ho'. exact (change_to_ready _ _ _ _ _ Hc Ho Hr Ho' Hr' _ _ Hv Hid).
  - intros Ha'. destruct Hs as [->|(_ & p & p' & Hp & Hp' & Hst)]; [done|].
    apply order_phase_status in Hp, Hp'. rewrite Ha' in Hp'. destruct p'; try done.
    inversion Hst as [| | | |? ? _ Hin|]; subst; [set_solver..|done].
Qed.

(** A reconciliation can take a verified order out of [ready_for_activation] (accepting the
    match of its evidence again asks for a decision that was already taken); such an order
    is stranded: no sequence of requests makes it ready or activated. *)
Theorem stranded_order_is_never_activated ops db id :
  sales_inv db -> stranded db id -> stranded (market_run ops db) id.
Proof.
  revert db. induction ops as [|op ops IH]; intros db Hi Hs; [done|]. cbn.
  apply IH; [apply (sh_inv _ _ (market_exec_sales op db Hi))|by apply market_exec_stranded].
Qed.

(** Of the six actions of a payment reconciliation only two can ever be carried out.  The
    code stores the action's own name as the resolution of a case, and the table accepts
    [rejected], [linked], [unlinked] and [reevaluated] but not [reject], [link], [unlink] and
    [reevaluate]: from every committed database these four raise and change nothing. *)
Theorem reconciliation_actions_fail `{Sha256} ids cmd now db r :
  market_constraints db = Ok tt -> case_decision cmd now = Ok r ->
  cd_action r ∈ [DoReject; DoLink; DoUnlink; DoReevaluate] ->
  exists e, reconcile_payment ids cmd now db = (Raise e, db).
Proof.
  intros Hk Hr Ha. pose proof (reconcile_payment_outcome ids cmd now db) as E. rewrite Hr in E.
  assert (bool_decide (resolution (cd_action r) ∈ RESOLUTIONS) <> true) as Hn.
  { intros [E1|E1]%resolution_accepted; rewrite E1 in Ha; set_solver. }
  destruct (reconcile_payment ids cmd now db) as [x db']. cbn in E.
  destruct E as [e|k c result Hc Hres|eid e o cid c cand target sm aid a n result db' _ _ _ _ _ -> Hk'].
  - by exists e.
  - pose proof (case_resolution _ _ _ Hk Hc) as Hrc. by rewrite Hres in Hrc.
  - pose proof (case_resolution _ cid (decided_case r cand c) Hk') as Hrc. cbn in Hrc.
    rewrite lookup_insert_eq in Hrc. by specialize (Hrc eq_refl).
Qed.
End SalesProps.

(** ** Witnesses *)

#[local] Existing Instance ex_sha.

Lemma activated_orders_are_settled_witness :
  let db' := market_run ex_sold ex_sales_db in
  market_orders db' !! ex_order_id = Some ex_active_order /\ or_status ex_active_order = OrActivated /\
  verified_paid db' ex_order_id ex_active_order /\ delivered db' ex_order_id ex_active_order.
Proof.
  destruct ex_sales_db_inv as [Hm Hi].
  assert (market_orders (market_run ex_sold ex_sales_db) !! ex_order_id = Some ex_active_order) as Ho
    by (vm_compute; reflexivity).
  destruct (activated_orders_are_settled ex_sold ex_sales_db Hm Hi _ _ Ho eq_refl eq_refl) as (_ & Hp & Hd & _).
  by split_and!.
Defined.

Lemma orders_follow_the_machine_witness :
  exists p, order_phase ex_active_order = Some p /\ rtc phase_step Contracting p.
Proof.
  destruct ex_sales_db_inv as [_ Hi].
  apply (proj2 (orders_follow_the_machine ex_sold ex_sales_db Hi) ex_order_id); vm_compute; reflexivity.
Defined.

Lemma faulty_decision_ends_the_sale_witness :
  or_status (ex_order_in ex_exception_db) = OrReadyForActivation /\
  or_status (ex_order_in (market_run [ex_sale "e" 20 ex_activation] ex_exception_db)) <> OrActivated.
Proof.
  split; [vm_compute; reflexivity|].
  destruct ex_sales_db_inv as [Hm Hi].
  destruct (market_run_inv ex_exception ex_sales_db Hm) as [Hm' _].
  destruct (market_run_sales ex_exception ex_sales_db Hi) as [Hi' _].
  rewrite ex_exception_run in Hm', Hi'.
  apply (faulty_decision_ends_the_sale [ex_sale "e" 20 ex_activation] ex_exception_db ex_order_id Hm' Hi');
    [|vm_compute; reflexivity..].
  exists (ex_uuid "d" "1"). eexists. split; [vm_compute; reflexivity|]. split; [vm_compute; reflexivity|].
  right. exists (ex_uuid "c" "1"). eexists. by split_and!; vm_compute.
Defined.

Lemma stranded_order_is_never_activated_witness :
  stranded (market_run [ex_sale "g" 20 (SoDecide (ex_verify "verified")); ex_sale "e" 20 ex_activation] ex_reopened_db)
    ex_order_id.
Proof.
  destruct ex_sales_db_inv as [_ Hi].
  destruct (market_run_sales ex_reopened ex_sales_db Hi) as [Hi' _]. rewrite ex_reopened_run in Hi'.
  apply (stranded_order_is_never_activated _ ex_reopened_db ex_order_id Hi').
  exists (ex_order_in ex_reopened_db), (ex_uuid "d" "1"). eexists.
  split; [vm_compute; reflexivity|]. split; [vm_compute; reflexivity|]. split; [vm_compute; discriminate|].
  split; [vm_compute; discriminate|]. split; vm_compute; reflexivity.
Defined.

Lemma reconciliation_actions_fail_witness :
  exists e, reconcile_payment (ex_sales_ids "f") (ex_reconcile_command "reject" "case-key-2") (noon 2026 1 18)
              (market_run ex_underpaid ex_sales_db) = (Raise e, market_run ex_underpaid ex_sales_db).
Proof.
  destruct ex_sales_db_inv as [Hm _]. destruct (market_run_inv ex_underpaid ex_sales_db Hm) as [[Hk _] _].
  destruct (case_decision (ex_reconcile_command "reject" "case-key-2") (noon 2026 1 18)) as [r|e] eqn:E;
    [|vm_compute in E; discriminate E].
  apply (reconciliation_actions_fail _ _ _ _ r Hk E). vm_compute in E. injection E as <-. left.
Defined.
