(* ===== verification/CommercialEvents.v ===== *)
(** * The commercial state machine and its event ledger

    Models [billing/commercial_state_machine.py] (the transition table of every commercial
    aggregate), [commercial_event_contracts.py] (events and their idempotency keys),
    [commercial_top_up_transition_authority.py] (the events of a verified top-up payment),
    [commercial_top_up_event_ledger.py] (staging a chain of events on a ledger) and the
    records of [commercial_event_repository.py]. *)
From S2P Require Import Prelude PyString PyDateTime PyText PyJson Uow TopUpDb.
#[local] Open Scope Z_scope.

(** ** The state machine *)

Inductive CommercialAggregate :=
  | AggOrder | AggPayment | AggSubscription | AggAssessmentActivation | AggTopUp | AggReconciliation.
#[export] Instance CommercialAggregate_eq_dec : EqDecision CommercialAggregate.
Proof. solve_decision. Defined.

Definition aggregate_value (a : CommercialAggregate) : string :=
  match a with
  | AggOrder => "order" | AggPayment => "payment" | AggSubscription => "subscription"
  | AggAssessmentActivation => "assessment_activation" | AggTopUp => "top_up"
  | AggReconciliation => "reconciliation"
  end.
Definition all_aggregates : list CommercialAggregate :=
  [AggOrder; AggPayment; AggSubscription; AggAssessmentActivation; AggTopUp; AggReconciliation].

(** [CommercialAggregate(value)]. *)
Definition aggregate_of_value (value : string) : res CommercialAggregate :=
  match List.find (fun a => bool_decide (aggregate_value a = value)) all_aggregates with
  | Some a => Ok a
  | None => raise ValueError (value +:+ " is not a valid CommercialAggregate")
  end.

(** [TopUpOrderState(...).value]. *)
Definition top_up_state_value (s : TopUpOrderState) : string :=
  match s with
  | DRAFT => "draft" | AWAITING_CONFIRMATION => "awaiting_confirmation" | AWAITING_PAYMENT => "awaiting_payment"
  | PAYMENT_PENDING => "payment_pending" | PAYMENT_VERIFIED => "payment_verified"
  | PAYMENT_REJECTED => "payment_rejected" | GRANT_PENDING => "grant_pending" | GRANTED => "granted"
  | ORDER_FAILED => "failed" | ORDER_CANCELLED => "cancelled"
  end.
Definition all_top_up_states : list TopUpOrderState :=
  [DRAFT; AWAITING_CONFIRMATION; AWAITING_PAYMENT; PAYMENT_PENDING; PAYMENT_VERIFIED; PAYMENT_REJECTED;
   GRANT_PENDING; GRANTED; ORDER_FAILED; ORDER_CANCELLED].

(** The transitions of the top-ups, in the states of [TopUpOrderState]. *)
Definition TOP_UP_TRANSITIONS : list (TopUpOrderState * TopUpOrderState) :=
  [(DRAFT, AWAITING_CONFIRMATION); (AWAITING_CONFIRMATION, AWAITING_PAYMENT); (AWAITING_CONFIRMATION, ORDER_CANCELLED);
   (AWAITING_PAYMENT, PAYMENT_PENDING); (AWAITING_PAYMENT, ORDER_CANCELLED); (PAYMENT_PENDING, PAYMENT_VERIFIED);
   (PAYMENT_PENDING, PAYMENT_REJECTED); (PAYMENT_VERIFIED, GRANT_PENDING); (GRANT_PENDING, GRANTED);
   (GRANT_PENDING, ORDER_FAILED)].

Definition COMMERCIAL_TRANSITIONS (a : CommercialAggregate) : list (string * string) :=
  match a with
  | AggOrder => [("draft", "pending_payment"); ("pending_payment", "paid"); ("pending_payment", "cancelled");
                 ("paid", "fulfilled"); ("paid", "refunded")]
  | AggPayment => [("pending", "verified"); ("pending", "failed"); ("verified", "settled"); ("verified", "refunded")]
  | AggSubscription => [("pending", "active"); ("active", "suspended"); ("suspended", "active"); ("active", "cancelled");
                        ("suspended", "cancelled"); ("active", "expired")]
  | AggAssessmentActivation =>
      [("requested", "qualified"); ("qualified", "approved"); ("approved", "activated"); ("requested", "rejected");
       ("qualified", "rejected"); ("approved", "revoked"); ("activated", "revoked")]
  | AggTopUp => map (fun t => (top_up_state_value t.1, top_up_state_value t.2)) TOP_UP_TRANSITIONS
  | AggReconciliation => [("open", "matched"); ("open", "exception"); ("exception", "matched"); ("matched", "closed")]
  end.

Record CommercialTransition := {
  ct_aggregate : CommercialAggregate;
  ct_current_state : string;
  ct_next_state : string;
  ct_operation : string
}.

Definition CommercialTransition_post_init (t : CommercialTransition) : res unit :=
  _ ← reject_if (blank (ct_current_state t)) ValueError "current_state must not be blank";
  _ ← reject_if (blank (ct_next_state t)) ValueError "next_state must not be blank";
  reject_if (blank (ct_operation t)) ValueError "operation must not be blank".

Definition normalize_commercial_state (value : string) : string := lower (strip value).

Definition transition_allowed (t : CommercialTransition) : bool :=
  bool_decide ((normalize_commercial_state (ct_current_state t), normalize_commercial_state (ct_next_state t))
               ∈ COMMERCIAL_TRANSITIONS (ct_aggregate t)).

Definition validate_commercial_transition (t : CommercialTransition) : res unit :=
  let current_state := normalize_commercial_state (ct_current_state t) in
  let next_state := normalize_commercial_state (ct_next_state t) in
  _ ← reject_if (bool_decide (current_state = next_state)) CommercialTransitionError
        ("commercial transition must change state: " +:+ aggregate_value (ct_aggregate t) +:+ " " +:+ current_state);
  ensure (transition_allowed t) CommercialTransitionError
    ("commercial transition is not allowed: " +:+ aggregate_value (ct_aggregate t) +:+ " " +:+ current_state +:+ "->"
     +:+ next_state +:+ " operation=" +:+ ct_operation t).

(** [validate_commercial_state_machine], run when the module is loaded. *)
Definition validate_aggregate (a : CommercialAggregate) : res unit :=
  _ ← reject_if (bool_decide (COMMERCIAL_TRANSITIONS a = [])) ValueError
        ("commercial aggregate has no transition policy: " +:+ aggregate_value a);
  foldr (fun t rest =>
           _ ← reject_if (bool_decide (t.1 = "") || bool_decide (t.2 = "")) ValueError
                 ("commercial transition contains blank state: " +:+ aggregate_value a);
           _ ← reject_if (bool_decide (t.1 = t.2)) ValueError
                 ("commercial transition contains self-loop: " +:+ aggregate_value a +:+ " " +:+ t.1);
           rest) (Ok tt) (COMMERCIAL_TRANSITIONS a).
Definition validate_commercial_state_machine : res unit :=
  _ ← foldr (fun a rest => _ ← validate_aggregate a; rest) (Ok tt) all_aggregates;
  let states := map top_up_state_value all_top_up_states in
  ensure (forallb (fun t => bool_decide (t.1 ∈ states) && bool_decide (t.2 ∈ states)) (COMMERCIAL_TRANSITIONS AggTopUp))
    ValueError "top-up transition policy references unknown authoritative state".

(** ** Events *)

Record CommercialIdempotencyKey := {
  ik_aggregate : CommercialAggregate;
  ik_aggregate_id : UUID;
  ik_operation : string;
  ik_request_key : string
}.

Definition CommercialIdempotencyKey_post_init (k : CommercialIdempotencyKey) : res unit :=
  _ ← reject_if (blank (ik_operation k)) ValueError "operation must not be blank";
  reject_if (blank (ik_request_key k)) ValueError "request_key must not be blank".

(** [canonical]. *)
Definition canonical (k : CommercialIdempotencyKey) : string :=
  aggregate_value (ik_aggregate k) +:+ ":" +:+ ik_aggregate_id k +:+ ":" +:+ lower (strip (ik_operation k)) +:+ ":" +:+
  strip (ik_request_key k).

Record CommercialEvent := {
  ev_event_id : UUID;
  ev_aggregate : CommercialAggregate;
  ev_aggregate_id : UUID;
  ev_current_state : string;
  ev_next_state : string;
  ev_operation : string;
  ev_idempotency_key : CommercialIdempotencyKey;
  ev_occurred_at : datetime;
  ev_actor_reference : string;
  ev_evidence_reference : string;
  ev_payload_digest : string
}.

Definition event_transition (e : CommercialEvent) : CommercialTransition :=
  {| ct_aggregate := ev_aggregate e; ct_current_state := ev_current_state e; ct_next_state := ev_next_state e;
     ct_operation := ev_operation e |}.

Definition CommercialEvent_post_init (e : CommercialEvent) : res unit :=
  let k := ev_idempotency_key e in
  _ ← ensure (bool_decide (ik_aggregate k = ev_aggregate e)) ValueError "idempotency aggregate must match event aggregate";
  _ ← ensure (bool_decide (ik_aggregate_id k = ev_aggregate_id e)) ValueError
        "idempotency aggregate_id must match event aggregate_id";
  _ ← ensure (bool_decide (lower (strip (ik_operation k)) = lower (strip (ev_operation e)))) ValueError
        "idempotency operation must match event operation";
  _ ← reject_if (naive (ev_occurred_at e)) ValueError "occurred_at must be timezone aware";
  _ ← reject_if (blank (ev_actor_reference e)) ValueError "actor_reference must not be blank";
  _ ← reject_if (blank (ev_evidence_reference e)) ValueError "evidence_reference must not be blank";
  _ ← reject_if (blank (ev_payload_digest e)) ValueError "payload_digest must not be blank";
  _ ← CommercialTransition_post_init (event_transition e);
  validate_commercial_transition (event_transition e).

(** ** The events of a verified payment *)

(** [uuid.uuid5(namespace, name)]. *)
Class Uuid5 := uuid5 : UUID -> string -> UUID.

Record TopUpTransitionEvidence := {
  te_order_id : UUID;
  te_provider_reference : string;
  te_actor_reference : string;
  te_evidence_reference : string;
  te_occurred_at : datetime;
  te_payment_payload_digest : string;
  te_grant_payload_digest : string
}.

Definition TopUpTransitionEvidence_post_init (e : TopUpTransitionEvidence) : res unit :=
  _ ← reject_if (blank (te_provider_reference e)) ValueError "provider_reference must not be blank";
  _ ← reject_if (blank (te_actor_reference e)) ValueError "actor_reference must not be blank";
  _ ← reject_if (blank (te_evidence_reference e)) ValueError "evidence_reference must not be blank";
  _ ← reject_if (naive (te_occurred_at e)) ValueError "occurred_at must be timezone aware";
  _ ← reject_if (blank (te_payment_payload_digest e)) ValueError "payment_payload_digest must not be blank";
  reject_if (blank (te_grant_payload_digest e)) ValueError "grant_payload_digest must not be blank".

Definition EVENT_NAMESPACE : UUID := "f264367b-3109-4ad3-af87-d59e3cf8ca43".

Section Authority.
Context `{Sha256, Uuid5}.

(** [_event_id]; [_digest] is [sha256_hex]. *)
Definition event_id_of (canonical_key current_state next_state : string) : UUID :=
  uuid5 EVENT_NAMESPACE (canonical_key +:+ ":" +:+ current_state +:+ "->" +:+ next_state).

(** The four steps: current state, next state, operation, digest of the payload. *)
Definition authority_steps (e : TopUpTransitionEvidence) : list (TopUpOrderState * TopUpOrderState * string * string) :=
  [(AWAITING_PAYMENT, PAYMENT_PENDING, "record_payment", te_payment_payload_digest e);
   (PAYMENT_PENDING, PAYMENT_VERIFIED, "verify_payment", te_payment_payload_digest e);
   (PAYMENT_VERIFIED, GRANT_PENDING, "request_grant", te_grant_payload_digest e);
   (GRANT_PENDING, GRANTED, "apply_grant", te_grant_payload_digest e)].

Definition authority_key (e : TopUpTransitionEvidence) (operation digest : string) : CommercialIdempotencyKey :=
  {| ik_aggregate := AggTopUp; ik_aggregate_id := te_order_id e; ik_operation := operation;
     ik_request_key := sha256_hex (te_provider_reference e +:+ ":" +:+ operation +:+ ":" +:+ digest) |}.

Definition authority_event (e : TopUpTransitionEvidence) (s : TopUpOrderState * TopUpOrderState * string * string)
  : CommercialEvent :=
  let '(current, next, operation, digest) := s in
  let key := authority_key e operation digest in
  {| ev_event_id := event_id_of (canonical key) (top_up_state_value current) (top_up_state_value next);
     ev_aggregate := AggTopUp; ev_aggregate_id := te_order_id e; ev_current_state := top_up_state_value current;
     ev_next_state := top_up_state_value next; ev_operation := operation; ev_idempotency_key := key;
     ev_occurred_at := te_occurred_at e; ev_actor_reference := te_actor_reference e;
     ev_evidence_reference := te_evidence_reference e; ev_payload_digest := digest |}.

Definition build_event (e : TopUpTransitionEvidence) (s : TopUpOrderState * TopUpOrderState * string * string)
  : res CommercialEvent :=
  let event := authority_event e s in
  _ ← CommercialIdempotencyKey_post_init (ev_idempotency_key event);
  _ ← CommercialEvent_post_init event;
  mret event.

Definition build_verified_payment_grant_events (e : TopUpTransitionEvidence) : res (list CommercialEvent) :=
  mapM (build_event e) (authority_steps e).
End Authority.

Fixpoint chain_links (events : list CommercialEvent) : res unit :=
  match events with
  | previous :: (current :: _) as rest =>
      _ ← ensure (bool_decide (ev_aggregate previous = AggTopUp)) ValueError "top-up transition chain contains another aggregate";
      _ ← ensure (bool_decide (ev_aggregate_id previous = ev_aggregate_id current)) ValueError
            "top-up transition chain changes aggregate_id";
      _ ← ensure (bool_decide (ev_next_state previous = ev_current_state current)) ValueError
            "top-up transition chain contains a state gap";
      chain_links rest
  | _ => Ok tt
  end.
Definition validate_top_up_transition_chain (events : list CommercialEvent) : res unit :=
  match last events with
  | None => raise ValueError "top-up transition chain must not be empty"
  | Some e =>
      _ ← chain_links events;
      ensure (bool_decide (ev_aggregate e = AggTopUp)) ValueError "top-up transition chain contains another aggregate"
  end.

(** ** Staging a chain on a ledger *)

(** The port of the ledger. *)
Class TopUpEventLedgerRepository (S : Type) := {
  get_by_idempotency_key : string -> M S (option CommercialEvent);
  append_event : CommercialEvent -> M S unit
}.

Definition same_event (left right : CommercialEvent) : bool :=
  bool_decide (ev_event_id left = ev_event_id right) && bool_decide (ev_aggregate left = ev_aggregate right) &&
  bool_decide (ev_aggregate_id left = ev_aggregate_id right) && bool_decide (ev_current_state left = ev_current_state right) &&
  bool_decide (ev_next_state left = ev_next_state right) && bool_decide (ev_operation left = ev_operation right) &&
  bool_decide (canonical (ev_idempotency_key left) = canonical (ev_idempotency_key right)) &&
  bool_decide (ev_actor_reference left = ev_actor_reference right) &&
  bool_decide (ev_evidence_reference left = ev_evidence_reference right) &&
  bool_decide (ev_payload_digest left = ev_payload_digest right).

Section Staging.
Context {S : Type} `{!TopUpEventLedgerRepository S}.

(** The loop of [stage_top_up_events]; [appended] is non-empty when a new event was seen. *)
Fixpoint stage_each (events appended replayed : list CommercialEvent) : M S (list CommercialEvent * list CommercialEvent) :=
  match events with
  | [] => mret (appended, replayed)
  | event :: rest =>
      existing ← get_by_idempotency_key (canonical (ev_idempotency_key event));
      match existing with
      | None =>
          lift (ensure (bool_decide (replayed = [])) TopUpEventLedgerConflictError
                  "top-up event chain is partially replayed; atomic ledger is incomplete");;
          append_event event;;
          stage_each rest (appended ++ [event]) replayed
      | Some found =>
          lift (ensure (bool_decide (appended = [])) TopUpEventLedgerConflictError
                  "top-up event chain mixes new events with an existing suffix");;
          lift (ensure (same_event found event) TopUpEventLedgerConflictError
                  "top-up event idempotency key conflicts with existing event");;
          stage_each rest appended (replayed ++ [found])
      end
  end.

Definition stage_top_up_events (events : list CommercialEvent) : M S (list CommercialEvent * list CommercialEvent) :=
  lift (validate_top_up_transition_chain events);;
  stage_each events [] [].
End Staging.

(** ** Records *)

Record CommercialEventRecord := {
  er_event_id : UUID;
  er_aggregate : string;
  er_aggregate_id : UUID;
  er_current_state : string;
  er_next_state : string;
  er_operation : string;
  er_request_key : string;
  er_canonical_idempotency_key : string;
  er_occurred_at : datetime;
  er_actor_reference : string;
  er_evidence_reference : string;
  er_payload_digest : string
}.

Definition to_record (e : CommercialEvent) : CommercialEventRecord :=
  {| er_event_id := ev_event_id e; er_aggregate := aggregate_value (ev_aggregate e); er_aggregate_id := ev_aggregate_id e;
     er_current_state := ev_current_state e; er_next_state := ev_next_state e; er_operation := ev_operation e;
     er_request_key := ik_request_key (ev_idempotency_key e);
     er_canonical_idempotency_key := canonical (ev_idempotency_key e); er_occurred_at := ev_occurred_at e;
     er_actor_reference := ev_actor_reference e; er_evidence_reference := ev_evidence_reference e;
     er_payload_digest := ev_payload_digest e |}.

Definition to_event (r : CommercialEventRecord) : res CommercialEvent :=
  aggregate ← aggregate_of_value (er_aggregate r);
  let occurred_at := if naive (er_occurred_at r) then
                       {| dt_year := dt_year (er_occurred_at r); dt_month := dt_month (er_occurred_at r);
                          dt_day := dt_day (er_occurred_at r); dt_hour := dt_hour (er_occurred_at r);
                          dt_minute := dt_minute (er_occurred_at r); dt_second := dt_second (er_occurred_at r);
                          dt_micro := dt_micro (er_occurred_at r); dt_offset := Some 0 |}
                     else er_occurred_at r in
  let key := {| ik_aggregate := aggregate; ik_aggregate_id := er_aggregate_id r; ik_operation := er_operation r;
                ik_request_key := er_request_key r |} in
  _ ← CommercialIdempotencyKey_post_init key;
  let event := {| ev_event_id := er_event_id r; ev_aggregate := aggregate; ev_aggregate_id := er_aggregate_id r;
                  ev_current_state := er_current_state r; ev_next_state := er_next_state r; ev_operation := er_operation r;
                  ev_idempotency_key := key; ev_occurred_at := occurred_at; ev_actor_reference := er_actor_reference r;
                  ev_evidence_reference := er_evidence_reference r; ev_payload_digest := er_payload_digest r |} in
  _ ← CommercialEvent_post_init event;
  mret event.

(** ** Lemmas *)

Lemma aggregate_of_value_ok a : aggregate_of_value (aggregate_value a) = Ok a.
Proof. by destruct a. Qed.

Lemma state_machine_valid : validate_commercial_state_machine = Ok tt.
Proof. vm_compute. reflexivity. Qed.

Section AuthorityLemmas.
Context `{Sha256, Uuid5}.

Lemma build_events_Ok e evs :
  build_verified_payment_grant_events e = Ok evs ->
  evs = map (authority_event e) (authority_steps e) /\
  forall ev, ev ∈ evs -> CommercialIdempotencyKey_post_init (ev_idempotency_key ev) = Ok tt /\
    CommercialEvent_post_init ev = Ok tt.
Proof.
  unfold build_verified_payment_grant_events. generalize (authority_steps e). intros l. revert evs.
  induction l as [|s l IH]; intros evs; cbn [mapM map].
  - intros [= <-]. split; [done|]. by intros ev ?%not_elem_of_nil.
  - intros (ev & ([] & Hk & ([] & He & [= <-])%res_bind_Ok)%res_bind_Ok & (rest & Hr & [= <-])%res_bind_Ok)%res_bind_Ok.
    destruct (IH rest Hr) as [<- Hrest]. split; [done|].
    intros ev' [->|Hin]%elem_of_cons; [done|by apply Hrest].
Qed.
End AuthorityLemmas.

(** Staging a chain that replays nothing appends all of it. *)
Section StagingLemmas.
Context {S : Type} `{!TopUpEventLedgerRepository S}.
Context (added : list CommercialEvent -> S -> S).
Hypothesis added_nil : forall s, added [] s = s.
Hypothesis added_app : forall e l s, added (e :: l) s = added l (added [e] s).
Hypothesis append_adds : forall e s, append_event e s = (Ok tt, added [e] s).
Hypothesis get_reads : forall key s, snd (get_by_idempotency_key key s) = s.

Lemma stage_each_replayed events app rep s a r s' :
  stage_each events app rep s = (Ok (a, r), s') -> exists more, r = rep ++ more.
Proof.
  revert app rep s. induction events as [|e events IH]; intros app rep s E; cbn in E.
  { injection E as <- <- <-. exists []. by rewrite app_nil_r. }
  apply M_bind_Ok in E as (found & s1 & _ & E). destruct found as [f|].
  - apply M_bind_Ok in E as (? & ? & _ & E). apply M_bind_Ok in E as (? & ? & _ & E).
    apply IH in E as [more ->]. exists (f :: more). by rewrite -app_assoc.
  - apply M_bind_Ok in E as (? & ? & _ & E). apply M_bind_Ok in E as (? & ? & _ & E). by apply IH in E.
Qed.

Lemma stage_each_new events app rep s a s' :
  stage_each events app rep s = (Ok (a, []), s') -> a = app ++ events /\ s' = added events s.
Proof.
  revert app rep s. induction events as [|e events IH]; intros app rep s E; cbn in E.
  { injection E as <- -> <-. by rewrite app_nil_r added_nil. }
  apply M_bind_Ok in E as (found & s1 & Hg & E). pose proof (get_reads (canonical (ev_idempotency_key e)) s) as Hs.
  rewrite Hg in Hs. cbn in Hs. subst s1. destruct found as [f|].
  - apply M_bind_Ok in E as (? & ? & _ & E). apply M_bind_Ok in E as (? & ? & _ & E).
    apply stage_each_replayed in E as [more Hm]. by destruct rep.
  - apply M_bind_Ok in E as (? & s1 & [_ <-]%lift_Ok & E). apply M_bind_Ok in E as (? & s2 & Ha & E).
    rewrite append_adds in Ha. injection Ha as _ <-. apply IH in E as [-> ->]. split; [by rewrite -app_assoc|].
    symmetry. apply added_app.
Qed.
End StagingLemmas.

(** ** Records read back *)

(** A stored event spells the operation of its key as the event does. *)
Definition respelled (e : CommercialEvent) : CommercialEvent :=
  let k := ev_idempotency_key e in
  {| ev_event_id := ev_event_id e; ev_aggregate := ev_aggregate e; ev_aggregate_id := ev_aggregate_id e;
     ev_current_state := ev_current_state e; ev_next_state := ev_next_state e; ev_operation := ev_operation e;
     ev_idempotency_key := {| ik_aggregate := ik_aggregate k; ik_aggregate_id := ik_aggregate_id k;
                              ik_operation := ev_operation e; ik_request_key := ik_request_key k |};
     ev_occurred_at := ev_occurred_at e; ev_actor_reference := ev_actor_reference e;
     ev_evidence_reference := ev_evidence_reference e; ev_payload_digest := ev_payload_digest e |}.

Lemma stored_event_read e :
  CommercialIdempotencyKey_post_init (ev_idempotency_key e) = Ok tt -> CommercialEvent_post_init e = Ok tt ->
  to_event (to_record e) = Ok (respelled e) /\
  canonical (ev_idempotency_key (respelled e)) = canonical (ev_idempotency_key e).
Proof.
  intros Hk He. pose proof He as Hc. unfold CommercialEvent_post_init in Hc.
  apply res_bind_Ok in Hc as (_ & Ha%ensure_Ok & Hc). apply res_bind_Ok in Hc as (_ & Hid%ensure_Ok & Hc).
  apply res_bind_Ok in Hc as (_ & Hop%ensure_Ok & Hc). apply res_bind_Ok in Hc as (_ & Hn%reject_if_Ok & Hc).
  do 3 apply res_bind_Ok in Hc as (_ & _ & Hc). apply res_bind_Ok in Hc as (? & Ht & _).
  apply res_bind_Ok in Ht as (_ & _ & Ht). apply res_bind_Ok in Ht as (_ & _ & Hb%reject_if_Ok). to_prop.
  split; [|unfold canonical; cbn; by rewrite Hop].
  assert (CommercialEvent_post_init (respelled e) = Ok tt) as Hr.
  { revert He. unfold CommercialEvent_post_init. cbn.
    by rewrite (bool_decide_eq_true_2 _ Hop) (bool_decide_eq_true_2 (lower (strip (ev_operation e)) = _)). }
  assert (CommercialIdempotencyKey_post_init (ev_idempotency_key (respelled e)) = Ok tt) as Hkey.
  { unfold CommercialIdempotencyKey_post_init in *. cbn in *. rewrite Hb.
    apply res_bind_Ok in Hk as (_ & _ & ->). done. }
  unfold to_event. cbn -[CommercialEvent_post_init CommercialIdempotencyKey_post_init]. rewrite aggregate_of_value_ok.
  cbn -[CommercialEvent_post_init CommercialIdempotencyKey_post_init]. rewrite Hn.
  unfold respelled in Hr, Hkey |- *. cbn [ev_idempotency_key] in Hkey. rewrite Ha Hid in Hr, Hkey |- *.
  rewrite Hkey. cbn -[CommercialEvent_post_init]. by rewrite Hr.
Qed.

Lemma event_transition_valid e :
  CommercialEvent_post_init e = Ok tt -> validate_commercial_transition (event_transition e) = Ok tt.
Proof.
  unfold CommercialEvent_post_init. intros H. do 8 apply res_bind_Ok in H as (_ & _ & H). exact H.
Qed.

(** An event reads back.  Every event that passes its own checks is read from its record
    as the event it was, up to the spelling of the operation in its idempotency key: the
    ledger takes the two for the same event, and writing it again gives the same record. *)
Theorem event_record_reads_back e :
  CommercialIdempotencyKey_post_init (ev_idempotency_key e) = Ok tt -> CommercialEvent_post_init e = Ok tt ->
  to_event (to_record e) = Ok (respelled e) /\ same_event (respelled e) e = true /\ to_record (respelled e) = to_record e.
Proof.
  intros Hk He. destruct (stored_event_read e Hk He) as [Hr Hc]. split_and!; [done| |].
  - unfold same_event. rewrite Hc. cbn. by rewrite !bool_decide_eq_true_2.
  - unfold to_record. by rewrite Hc.
Qed.
