(* ===== verification/TopUpService.v ===== *)
(** * The commercial top-up service

    Models [billing/commercial_top_up_order_grant_contracts.py] (order, payment and grant
    contracts), [commercial_top_up_application_service.py] ([CommercialTopUpApplicationService]),
    the repositories and the unit of work it runs on, and the rows of its own tables
    ([commercial_top_up_models.py], [commercial_event_models.py]).  Orders and payment
    evidence are the tables of the marketplace. *)
From stdpp Require Import pretty.
From S2P Require Import Prelude PyString PyDecimal PyDateTime PyText PyJson TopUpQuote Uow TopUpDb MarketDb CommercialEvents.
#[local] Open Scope Z_scope.

(** ** [str] of a decimal *)

Definition dotted (digits : string) (dotplace : Z) : string :=
  let len := Z.of_nat (String.length digits) in
  if dotplace <=? 0 then "0." +:+ zeros (Z.to_nat (- dotplace)) +:+ digits
  else if len <=? dotplace then digits +:+ zeros (Z.to_nat (dotplace - len))
  else String.substring 0 (Z.to_nat dotplace) digits +:+ "." +:+
       String.substring (Z.to_nat dotplace) (Z.to_nat (len - dotplace)) digits.
Definition decimal_str (d : dec) : string :=
  let digits := pretty (Z.to_N (Z.abs (coef d))) in
  let leftdigits := dexp d + Z.of_nat (String.length digits) in
  (if coef d <? 0 then "-" else "") +:+
  if (dexp d <=? 0) && (-6 <? leftdigits) then dotted digits leftdigits
  else dotted digits 1 +:+
       (if leftdigits =? 1 then "" else "E" +:+ (if leftdigits - 1 <? 0 then "-" else "+") +:+ pretty (Z.to_N (Z.abs (leftdigits - 1)))).

Example decimal_str_examples :
  map decimal_str [Dec 1829 (-1); Dec 19 0; Dec 5 2; Dec 5 (-7); Dec 12345 2; Dec (-5) (-4)]
  = ["182.9"; "19"; "5E+2"; "5E-7"; "1.2345E+6"; "-0.0005"].
Proof. vm_compute. reflexivity. Qed.

(** ** Contracts *)

Inductive UnitGrantOutcome := UgGranted | UgDuplicate | UgBlocked.
#[export] Instance UnitGrantOutcome_eq_dec : EqDecision UnitGrantOutcome.
Proof. solve_decision. Defined.
Definition unit_grant_value (o : UnitGrantOutcome) : string :=
  match o with UgGranted => "granted" | UgDuplicate => "duplicate" | UgBlocked => "blocked" end.

Record TopUpOrderContract := {
  oc_order_id : UUID;
  oc_account_id : UUID;
  oc_subscription_id : UUID;
  oc_plan_code : string;
  oc_requested_units : Z;
  oc_bundle_count : Z;
  oc_total_price_usd : dec;
  oc_channel : TopUpCheckoutChannel;
  oc_idempotency_key : string;
  oc_state : TopUpOrderState;
  oc_confirmed : bool;
  oc_payment_verified : bool;
  oc_units_granted : bool;
  oc_settlement_currency : string;
  oc_settlement_amount : dec;
  oc_exchange_rate_usd_tnd : option dec;
  oc_exchange_rate_source : option string;
  oc_exchange_rate_reference : option string;
  oc_exchange_rate_observed_at : option datetime;
  oc_exchange_rate_expires_at : option datetime
}.

(** The property [exchange_rate_quote]. *)
Definition exchange_rate_quote (c : TopUpOrderContract) : res (option ExchangeRateQuote) :=
  match oc_exchange_rate_usd_tnd c, oc_exchange_rate_source c, oc_exchange_rate_reference c,
        oc_exchange_rate_observed_at c, oc_exchange_rate_expires_at c with
  | None, None, None, None, None => Ok None
  | Some rate, Some source, Some reference, Some observed, Some expires =>
      q ← ExchangeRateQuote_init AUTHORITATIVE_PRICING_CURRENCY (oc_settlement_currency c) (Finite rate) source reference
            observed expires;
      mret (Some q)
  | _, _, _, _, _ => raise ValueError "exchange-rate metadata must be complete"
  end.

(** The settlement defaults of [__post_init__] are those of an order that has none; a stored
    order has both. *)
Definition TopUpOrderContract_post_init (c : TopUpOrderContract) : res unit :=
  _ ← reject_if (blank (oc_plan_code c)) ValueError "plan_code must not be blank";
  _ ← ensure (0 <? oc_requested_units c) ValueError "requested_units must be positive";
  _ ← ensure (0 <? oc_bundle_count c) ValueError "bundle_count must be positive";
  _ ← ensure (dec_ltb (dec_int 0) (oc_total_price_usd c)) ValueError "total_price_usd must be positive";
  quote ← exchange_rate_quote c;
  _ ← validate_channel_settlement (oc_channel c) (oc_total_price_usd c) (oc_settlement_currency c) (oc_settlement_amount c) quote;
  _ ← reject_if (blank (oc_idempotency_key c)) ValueError "idempotency_key must not be blank";
  reject_if (oc_units_granted c && negb (oc_payment_verified c)) ValueError "units cannot be granted before payment verification".

Record PaymentVerificationContract := {
  pv_order_id : UUID;
  pv_provider_reference : string;
  pv_outcome : PaymentOutcome;
  pv_verified_amount : option dec;
  pv_verified_currency : option string;
  pv_immutable_evidence_reference : option string
}.

Definition PaymentVerificationContract_post_init (c : PaymentVerificationContract) : res unit :=
  _ ← reject_if (blank (pv_provider_reference c)) ValueError "provider_reference must not be blank";
  _ ← reject_if (match pv_verified_amount c with Some a => negb (dec_ltb (dec_int 0) a) | None => false end) ValueError
        "verified_amount must be positive";
  _ ← reject_if (match pv_verified_currency c with
                 | Some s => negb (Nat.eqb (String.length (upper (strip s))) 3) | None => false end) ValueError
        "verified_currency must be ISO-4217";
  if bool_decide (pv_outcome c = PayVerified) then
    _ ← ensure (bool_decide (is_Some (pv_verified_amount c))) ValueError "verified payment requires amount";
    _ ← ensure (bool_decide (is_Some (pv_verified_currency c))) ValueError "verified payment requires currency";
    ensure (match pv_immutable_evidence_reference c with Some s => nonempty s | None => false end) ValueError
      "verified payment requires immutable evidence"
  else Ok tt.

Record UnitGrantDecision := {
  ud_order_id : UUID;
  ud_outcome : UnitGrantOutcome;
  ud_units : Z;
  ud_grant_idempotency_key : string;
  ud_reason : string
}.

Definition UnitGrantDecision_post_init (d : UnitGrantDecision) : res unit :=
  _ ← ensure (0 <? ud_units d) ValueError "units must be positive";
  _ ← reject_if (blank (ud_grant_idempotency_key d)) ValueError "grant_idempotency_key must not be blank";
  reject_if (blank (ud_reason d)) ValueError "reason must not be blank".

(** [grant_key]. *)
Definition service_grant_key (order_id : UUID) (idempotency_key : string) : string :=
  "top-up-grant:" +:+ order_id +:+ ":" +:+ idempotency_key.

(** The outcome and the reason of [decide_unit_grant]. *)
Definition unit_grant_outcome (order : TopUpOrderContract) (payment : PaymentVerificationContract) (previous : list string)
    (execution_enabled : bool) : UnitGrantOutcome * string :=
  let grant_key := service_grant_key (oc_order_id order) (oc_idempotency_key order) in
  if bool_decide (grant_key ∈ previous) || oc_units_granted order then (UgDuplicate, "grant already recorded")
  else if negb (oc_confirmed order) then (UgBlocked, "order confirmation required")
  else if negb (bool_decide (pv_order_id payment = oc_order_id order)) then (UgBlocked, "payment does not match order")
  else if negb (bool_decide (pv_outcome payment = PayVerified)) then (UgBlocked, "payment is not verified")
  else if negb (bool_decide (pv_verified_currency payment = Some (upper (strip (oc_settlement_currency order)))))
  then (UgBlocked, "verified currency does not match order settlement")
  else if negb (match pv_verified_amount payment with
                | Some a => dec_eqb a (oc_settlement_amount order) | None => false end)
  then (UgBlocked, "verified amount does not match order settlement")
  else if negb execution_enabled then (UgBlocked, "unit grant execution is disabled")
  else (UgGranted, "payment verified and grant approved").

Definition decide_unit_grant (order : TopUpOrderContract) (payment : PaymentVerificationContract) (previous : list string)
    (execution_enabled : bool) : res UnitGrantDecision :=
  let '(outcome, reason) := unit_grant_outcome order payment previous execution_enabled in
  let decision := {| ud_order_id := oc_order_id order; ud_outcome := outcome; ud_units := oc_requested_units order;
                     ud_grant_idempotency_key := service_grant_key (oc_order_id order) (oc_idempotency_key order);
                     ud_reason := reason |} in
  _ ← UnitGrantDecision_post_init decision;
  mret decision.

(** ** Tables *)

Record CommercialTopUpGrant := {
  cg_order_id : UUID;
  cg_outcome : UnitGrantOutcome;
  cg_units : Z;
  cg_grant_idempotency_key : string;
  cg_reason : string
}.

Record CommercialTopUpAuditRecord := {
  ca_event_ref : string;
  ca_order_id : UUID;
  ca_action : string;
  ca_occurred_at : datetime;
  ca_actor_reference : string;
  ca_evidence_reference : string;
  ca_payload_digest : string
}.

(** An order as [create_order] builds it: the columns it leaves out are NULL. *)
Record NewOrder := {
  no_id : UUID;
  no_account_id : option UUID;
  no_customer_ref : option string;
  no_subscription_id : UUID;
  no_quota_cycle_id : option UUID;
  no_plan_code : string;
  no_plan_catalog_version : option string;
  no_requested_units : Z;
  no_bundle_count : Z;
  no_total_price_usd : dec;
  no_settlement_currency : string;
  no_settlement_amount : option dec;
  no_exchange_rate_usd_tnd : option dec;
  no_exchange_rate_source : option string;
  no_exchange_rate_reference : option string;
  no_exchange_rate_observed_at : option datetime;
  no_exchange_rate_expires_at : option datetime;
  no_channel : TopUpCheckoutChannel;
  no_idempotency_key : string;
  no_state : TopUpOrderState
}.

(** The database: the marketplace, the tables of the service, and the orders of the session
    that are not written yet. *)
Record ServiceDb := {
  sv_market : MarketDb;
  sv_grants : list CommercialTopUpGrant;
  sv_audit : list CommercialTopUpAuditRecord;
  sv_events : list CommercialEventRecord;
  sv_new_orders : list NewOrder
}.

Notation orders_of db := (tu_orders (db_top_ups (sv_market db))).
Notation payments_of db := (tu_payments (db_top_ups (sv_market db))).

Definition sv_put_market (f : MarketDb -> MarketDb) (db : ServiceDb) : ServiceDb :=
  {| sv_market := f (sv_market db); sv_grants := sv_grants db; sv_audit := sv_audit db; sv_events := sv_events db;
     sv_new_orders := sv_new_orders db |}.
Definition sv_add_grant (g : CommercialTopUpGrant) (db : ServiceDb) : ServiceDb :=
  {| sv_market := sv_market db; sv_grants := sv_grants db ++ [g]; sv_audit := sv_audit db; sv_events := sv_events db;
     sv_new_orders := sv_new_orders db |}.
Definition sv_add_audit (a : CommercialTopUpAuditRecord) (db : ServiceDb) : ServiceDb :=
  {| sv_market := sv_market db; sv_grants := sv_grants db; sv_audit := sv_audit db ++ [a]; sv_events := sv_events db;
     sv_new_orders := sv_new_orders db |}.
Definition sv_add_event (e : CommercialEventRecord) (db : ServiceDb) : ServiceDb :=
  {| sv_market := sv_market db; sv_grants := sv_grants db; sv_audit := sv_audit db; sv_events := sv_events db ++ [e];
     sv_new_orders := sv_new_orders db |}.
Definition sv_add_order (o : NewOrder) (db : ServiceDb) : ServiceDb :=
  {| sv_market := sv_market db; sv_grants := sv_grants db; sv_audit := sv_audit db; sv_events := sv_events db;
     sv_new_orders := sv_new_orders db ++ [o] |}.

(** ** Constraints *)

Definition unique_list {R} (col : R -> string) (rows : list R) : bool := bool_decide (NoDup (map col rows)).

(** A violation the flush of the session finds; it is raised as it is. *)
Definition integrity (b : bool) : res unit := ensure b IntegrityError "constraint failed".

Definition event_constraints (db : ServiceDb) : res unit :=
  integrity (unique_list er_event_id (sv_events db) && unique_list er_canonical_idempotency_key (sv_events db)).
Definition service_constraints (db : ServiceDb) : res unit :=
  _ ← integrity (is_ok (market_constraints (sv_market db)));
  _ ← integrity (forallb (fun g => 0 <? cg_units g) (sv_grants db));
  _ ← integrity (unique_list cg_grant_idempotency_key (sv_grants db) && unique_list cg_order_id (sv_grants db));
  _ ← integrity (unique_list ca_event_ref (sv_audit db));
  event_constraints db.

(** The row of a new order: a NOT NULL column that is not set is a violation. *)
Definition order_row (created_at : datetime) (o : NewOrder) : res (UUID * CommercialTopUpOrder) :=
  match no_customer_ref o, no_quota_cycle_id o, no_plan_catalog_version o, no_settlement_amount o with
  | Some customer_ref, Some quota_cycle_id, Some version, Some amount =>
      mret (no_id o,
        {| o_account_id := no_account_id o; o_customer_ref := customer_ref; o_subscription_id := no_subscription_id o;
           o_quota_cycle_id := quota_cycle_id; o_plan_code := no_plan_code o; o_plan_catalog_version := version;
           o_requested_units := no_requested_units o; o_bundle_count := no_bundle_count o;
           o_total_price_usd := no_total_price_usd o; o_settlement_currency := no_settlement_currency o;
           o_settlement_amount := amount; o_exchange_rate_usd_tnd := no_exchange_rate_usd_tnd o;
           o_exchange_rate_source := no_exchange_rate_source o; o_exchange_rate_reference := no_exchange_rate_reference o;
           o_exchange_rate_observed_at := no_exchange_rate_observed_at o;
           o_exchange_rate_expires_at := no_exchange_rate_expires_at o; o_channel := no_channel o;
           o_provider_variant_id := None; o_provider_checkout_id := None; o_checkout_creation_status := CkNotStarted;
           o_idempotency_key := no_idempotency_key o; o_state := no_state o; o_created_at := created_at |})
  | _, _, _, _ => raise IntegrityError "NOT NULL constraint failed"
  end.

(** ** The unit of work *)

Notation Service := (M (Session ServiceDb)).

(** [commit]: the new orders are written, then the constraints checked. *)
Definition service_commit (created_at : datetime) : Service unit :=
  db ← query id;
  rows ← lift (mapM (order_row created_at) (sv_new_orders db));
  lift (integrity (forallb (fun kr => bool_decide (orders_of db !! kr.1 = None)) rows));;
  mutate (fun db =>
    {| sv_market := foldl (fun m kr => put_top_ups (tu_put_order kr.1 (stored_order kr.2)) m) (sv_market db) rows;
       sv_grants := sv_grants db; sv_audit := sv_audit db; sv_events := sv_events db; sv_new_orders := [] |});;
  commit service_constraints.

(** The repositories.  A query flushes the events added before it. *)
Definition get_by_id (order_id : UUID) : Service (option CommercialTopUpOrder) := query (fun db => orders_of db !! order_id).
Definition get_order_by_idempotency_key (key : string) : Service (option (UUID * CommercialTopUpOrder)) :=
  query (fun db => find_row (fun o => bool_decide (o_idempotency_key o = key)) (orders_of db)).
Definition get_by_provider_reference (reference : string) : Service (option (UUID * CommercialTopUpPaymentEvidence)) :=
  query (fun db => find_row (fun p => bool_decide (pe_provider_reference p = reference)) (payments_of db)).
Definition get_grant_for_order (order_id : UUID) : Service (option CommercialTopUpGrant) :=
  query (fun db => List.find (fun g => bool_decide (cg_order_id g = order_id)) (sv_grants db)).

#[export] Instance SqlAlchemyCommercialEventRepository : TopUpEventLedgerRepository (Session ServiceDb) := {
  get_by_idempotency_key := fun key =>
    db ← query id;
    lift (event_constraints db);;
    match List.find (fun r => bool_decide (er_canonical_idempotency_key r = key)) (sv_events db) with
    | Some r => e ← lift (to_event r); mret (Some e)
    | None => mret None
    end;
  append_event := fun e => mutate (sv_add_event (to_record e))
}.

(** ** Commands *)

Record TopUpApplicationPolicy := {
  ap_order_creation_enabled : bool;
  ap_payment_verification_enabled : bool;
  ap_grant_execution_enabled : bool;
  ap_order_storage_enabled : bool;
  ap_payment_storage_enabled : bool;
  ap_grant_storage_enabled : bool;
  ap_audit_storage_enabled : bool;
  ap_event_ledger_enabled : bool
}.
(** The default: everything is disabled. *)
Definition default_application_policy : TopUpApplicationPolicy :=
  {| ap_order_creation_enabled := false; ap_payment_verification_enabled := false; ap_grant_execution_enabled := false;
     ap_order_storage_enabled := false; ap_payment_storage_enabled := false; ap_grant_storage_enabled := false;
     ap_audit_storage_enabled := false; ap_event_ledger_enabled := false |}.

Record CreateTopUpOrderCommand := {
  cr_order_id : UUID;
  cr_account_id : UUID;
  cr_subscription_id : UUID;
  cr_plan_code : string;
  cr_requested_units : Z;
  cr_bundle_count : Z;
  cr_total_price_usd : dec;
  cr_channel : TopUpCheckoutChannel;
  cr_idempotency_key : string;
  cr_actor_reference : string;
  cr_evidence_reference : string;
  cr_settlement_currency : option string;
  cr_settlement_amount : option dec;
  cr_exchange_rate_usd_tnd : option dec;
  cr_exchange_rate_source : option string;
  cr_exchange_rate_reference : option string;
  cr_exchange_rate_observed_at : option datetime;
  cr_exchange_rate_expires_at : option datetime
}.

(** The constructor: it sets the settlement of a command that has none. *)
Definition with_settlement (c : CreateTopUpOrderCommand) : CreateTopUpOrderCommand :=
  {| cr_order_id := cr_order_id c; cr_account_id := cr_account_id c; cr_subscription_id := cr_subscription_id c;
     cr_plan_code := cr_plan_code c; cr_requested_units := cr_requested_units c; cr_bundle_count := cr_bundle_count c;
     cr_total_price_usd := cr_total_price_usd c; cr_channel := cr_channel c; cr_idempotency_key := cr_idempotency_key c;
     cr_actor_reference := cr_actor_reference c; cr_evidence_reference := cr_evidence_reference c;
     cr_settlement_currency := Some (default "USD" (cr_settlement_currency c));
     cr_settlement_amount := Some (default (cr_total_price_usd c) (cr_settlement_amount c));
     cr_exchange_rate_usd_tnd := cr_exchange_rate_usd_tnd c; cr_exchange_rate_source := cr_exchange_rate_source c;
     cr_exchange_rate_reference := cr_exchange_rate_reference c;
     cr_exchange_rate_observed_at := cr_exchange_rate_observed_at c;
     cr_exchange_rate_expires_at := cr_exchange_rate_expires_at c |}.
Definition CreateTopUpOrderCommand_init (c : CreateTopUpOrderCommand) : res CreateTopUpOrderCommand :=
  _ ← reject_if (blank (cr_plan_code c)) ValueError "plan_code must not be blank";
  _ ← ensure (0 <? cr_requested_units c) ValueError "requested_units must be positive";
  _ ← ensure (0 <? cr_bundle_count c) ValueError "bundle_count must be positive";
  _ ← ensure (dec_ltb (dec_int 0) (cr_total_price_usd c)) ValueError "total_price_usd must be positive";
  _ ← reject_if (blank (cr_idempotency_key c)) ValueError "idempotency_key must not be blank";
  _ ← reject_if (blank (cr_actor_reference c)) ValueError "actor_reference must not be blank";
  _ ← reject_if (blank (cr_evidence_reference c)) ValueError "evidence_reference must not be blank";
  mret (with_settlement c).

Record RecordPaymentAndGrantCommand := {
  rp_order_id : UUID;
  rp_provider_reference : string;
  rp_verified_amount : dec;
  rp_verified_currency : string;
  rp_immutable_evidence_reference : string;
  rp_actor_reference : string
}.
Definition RecordPaymentAndGrantCommand_post_init (c : RecordPaymentAndGrantCommand) : res unit :=
  _ ← reject_if (blank (rp_provider_reference c)) ValueError "provider_reference must not be blank";
  _ ← ensure (dec_ltb (dec_int 0) (rp_verified_amount c)) ValueError "verified_amount must be positive";
  _ ← ensure (Nat.eqb (String.length (upper (strip (rp_verified_currency c)))) 3) ValueError "verified_currency must be ISO-4217";
  _ ← reject_if (blank (rp_immutable_evidence_reference c)) ValueError "immutable_evidence_reference must not be blank";
  reject_if (blank (rp_actor_reference c)) ValueError "actor_reference must not be blank".

Inductive TopUpApplicationOutcome := AoCreated | AoIdempotentReplay | AoPaymentAndGrantRecorded.
Record TopUpApplicationResult := {
  ar_order_id : UUID;
  ar_outcome : TopUpApplicationOutcome;
  ar_grant_outcome : option UnitGrantOutcome;
  ar_committed : bool
}.

(** ** Helpers of the service *)

Definition require_enabled (enabled : bool) (message : string) : res unit :=
  ensure enabled TopUpApplicationServiceDisabledError message.

Definition conflict_unless (b : bool) (message : string) : Service unit :=
  lift (ensure b TopUpApplicationConflictError message).

Definition command_settlement_currency (c : CreateTopUpOrderCommand) : res string :=
  match cr_settlement_currency c with
  | Some s => Ok (upper (strip s))
  | None => raise TopUpApplicationConflictError "top-up settlement currency is missing"
  end.

(** Equality of two optional decimals. *)
Definition dec_opt_eqb (a b : option dec) : bool :=
  match a, b with Some x, Some y => dec_eqb x y | None, None => true | _, _ => false end.

Definition same_order (id : UUID) (existing : CommercialTopUpOrder) (c : CreateTopUpOrderCommand) : res bool :=
  if bool_decide (id = cr_order_id c) && bool_decide (o_account_id existing = Some (cr_account_id c)) &&
     bool_decide (o_subscription_id existing = cr_subscription_id c) && bool_decide (o_plan_code existing = cr_plan_code c) &&
     (o_requested_units existing =? cr_requested_units c) && (o_bundle_count existing =? cr_bundle_count c) &&
     dec_eqb (o_total_price_usd existing) (cr_total_price_usd c)
  then
    currency ← command_settlement_currency c;
    mret (bool_decide (o_settlement_currency existing = currency) &&
          dec_opt_eqb (Some (o_settlement_amount existing)) (cr_settlement_amount c) &&
          dec_opt_eqb (o_exchange_rate_usd_tnd existing) (cr_exchange_rate_usd_tnd c) &&
          bool_decide (o_exchange_rate_source existing = cr_exchange_rate_source c) &&
          bool_decide (o_exchange_rate_reference existing = cr_exchange_rate_reference c) &&
          dt_opt_eqb (o_exchange_rate_observed_at existing) (cr_exchange_rate_observed_at c) &&
          dt_opt_eqb (o_exchange_rate_expires_at existing) (cr_exchange_rate_expires_at c) &&
          bool_decide (o_channel existing = cr_channel c))
  else mret false.

(** [_to_order_contract]. *)
Definition to_order_contract (id : UUID) (o : CommercialTopUpOrder) (existing_grant : option CommercialTopUpGrant)
  : res TopUpOrderContract :=
  match o_account_id o with
  | None => raise TopUpApplicationConflictError "stored top-up order is missing its account authority"
  | Some account_id =>
      let contract :=
        {| oc_order_id := id; oc_account_id := account_id; oc_subscription_id := o_subscription_id o;
           oc_plan_code := o_plan_code o; oc_requested_units := o_requested_units o; oc_bundle_count := o_bundle_count o;
           oc_total_price_usd := o_total_price_usd o; oc_channel := o_channel o; oc_idempotency_key := o_idempotency_key o;
           oc_state := o_state o;
           oc_confirmed := negb (bool_decide (o_state o = DRAFT) || bool_decide (o_state o = AWAITING_CONFIRMATION));
           oc_payment_verified := false; oc_units_granted := bool_decide (is_Some existing_grant);
           oc_settlement_currency := o_settlement_currency o; oc_settlement_amount := o_settlement_amount o;
           oc_exchange_rate_usd_tnd := o_exchange_rate_usd_tnd o; oc_exchange_rate_source := o_exchange_rate_source o;
           oc_exchange_rate_reference := o_exchange_rate_reference o;
           oc_exchange_rate_observed_at := o_exchange_rate_observed_at o;
           oc_exchange_rate_expires_at := o_exchange_rate_expires_at o |} in
      _ ← TopUpOrderContract_post_init contract;
      mret contract
  end.

Section Service.
Context `{Sha256, Uuid5}.

(** [_payload_digest] and [_event_reference]. *)
Definition payload_digest (payload : list (string * json)) : string := "sha256:" +:+ sha256_hex (json_dumps (JObj payload)).
Definition event_reference (order_id action evidence_reference digest : string) : string :=
  "top-up-event:" +:+ sha256_hex (order_id +:+ "|" +:+ action +:+ "|" +:+ evidence_reference +:+ "|" +:+ digest).

(** [_audit_record], with the reading of the clock. *)
Definition service_audit (now : datetime) (order_id action actor_reference evidence_reference : string)
    (payload : list (string * json)) : res CommercialTopUpAuditRecord :=
  _ ← reject_if (naive now) ValueError "application service clock must be timezone aware";
  let digest := payload_digest payload in
  mret {| ca_event_ref := event_reference order_id action evidence_reference digest; ca_order_id := order_id;
          ca_action := action; ca_occurred_at := now; ca_actor_reference := actor_reference;
          ca_evidence_reference := evidence_reference; ca_payload_digest := digest |}.

(** ** [create_order] *)

Definition service_new_order (c : CreateTopUpOrderCommand) (currency : string) : NewOrder :=
  {| no_id := cr_order_id c; no_account_id := Some (cr_account_id c); no_customer_ref := None;
     no_subscription_id := cr_subscription_id c; no_quota_cycle_id := None; no_plan_code := cr_plan_code c;
     no_plan_catalog_version := None; no_requested_units := cr_requested_units c; no_bundle_count := cr_bundle_count c;
     no_total_price_usd := cr_total_price_usd c; no_settlement_currency := currency;
     no_settlement_amount := cr_settlement_amount c; no_exchange_rate_usd_tnd := cr_exchange_rate_usd_tnd c;
     no_exchange_rate_source := cr_exchange_rate_source c; no_exchange_rate_reference := cr_exchange_rate_reference c;
     no_exchange_rate_observed_at := cr_exchange_rate_observed_at c;
     no_exchange_rate_expires_at := cr_exchange_rate_expires_at c; no_channel := cr_channel c;
     no_idempotency_key := cr_idempotency_key c; no_state := AWAITING_PAYMENT |}.

Definition service_create_body (now created_at : datetime) (c : CreateTopUpOrderCommand) : Service TopUpApplicationResult :=
  existing ← get_order_by_idempotency_key (cr_idempotency_key c);
  match existing with
  | Some (id, o) =>
      same ← lift (same_order id o c);
      conflict_unless same "top-up order idempotency key conflicts with existing order";;
      mret {| ar_order_id := id; ar_outcome := AoIdempotentReplay; ar_grant_outcome := None; ar_committed := false |}
  | None =>
      currency ← lift (command_settlement_currency c);
      mutate (sv_add_order (service_new_order c currency));;
      audit ← lift (service_audit now (cr_order_id c) "order_created" (cr_actor_reference c) (cr_evidence_reference c)
                      [("idempotency_key", JStr (cr_idempotency_key c)); ("requested_units", JInt (cr_requested_units c));
                       ("total_price_usd", JStr (decimal_str (cr_total_price_usd c)))]);
      mutate (sv_add_audit audit);;
      service_commit created_at;;
      mret {| ar_order_id := cr_order_id c; ar_outcome := AoCreated; ar_grant_outcome := None; ar_committed := true |}
  end.

(** The whole request: the command is built, then the capabilities are required. *)
Definition service_create_order (p : TopUpApplicationPolicy) (now created_at : datetime) (c : CreateTopUpOrderCommand)
    (db : ServiceDb) : res TopUpApplicationResult * ServiceDb :=
  let checks :=
    c' ← CreateTopUpOrderCommand_init c;
    _ ← require_enabled (ap_order_creation_enabled p) "top-up order creation is disabled";
    _ ← require_enabled (ap_order_storage_enabled p) "top-up order storage is disabled";
    _ ← require_enabled (ap_audit_storage_enabled p) "top-up audit storage is disabled";
    mret c' in
  match checks with
  | Raise e => (Raise e, db)
  | Ok c' => with_uow (service_create_body now created_at c') db
  end.

(** ** [record_payment_and_grant] *)

Definition payment_payload (c : RecordPaymentAndGrantCommand) : list (string * json) :=
  [("provider_reference", JStr (rp_provider_reference c)); ("verified_amount", JStr (decimal_str (rp_verified_amount c)));
   ("verified_currency", JStr (upper (strip (rp_verified_currency c))))].
Definition grant_payload (d : UnitGrantDecision) : list (string * json) :=
  [("grant_idempotency_key", JStr (ud_grant_idempotency_key d)); ("units", JInt (ud_units d));
   ("outcome", JStr (unit_grant_value (ud_outcome d)))].

Definition payment_contract (c : RecordPaymentAndGrantCommand) : PaymentVerificationContract :=
  {| pv_order_id := rp_order_id c; pv_provider_reference := rp_provider_reference c; pv_outcome := PayVerified;
     pv_verified_amount := Some (rp_verified_amount c); pv_verified_currency := Some (upper (strip (rp_verified_currency c)));
     pv_immutable_evidence_reference := Some (rp_immutable_evidence_reference c) |}.

(** The decision on a payment of an order that awaits it. *)
Definition service_decision (p : TopUpApplicationPolicy) (c : RecordPaymentAndGrantCommand) (o : CommercialTopUpOrder)
    (existing_grant : option CommercialTopUpGrant) : res UnitGrantDecision :=
  _ ← PaymentVerificationContract_post_init (payment_contract c);
  contract ← to_order_contract (rp_order_id c) o existing_grant;
  decision ← decide_unit_grant contract (payment_contract c)
               (match existing_grant with Some g => [cg_grant_idempotency_key g] | None => [] end)
               (ap_grant_execution_enabled p);
  _ ← ensure (bool_decide (ud_outcome decision = UgGranted)) TopUpApplicationConflictError
        ("atomic unit grant was not approved: " +:+ ud_reason decision);
  mret decision.

Definition transition_evidence (now : datetime) (c : RecordPaymentAndGrantCommand) (d : UnitGrantDecision)
  : TopUpTransitionEvidence :=
  {| te_order_id := rp_order_id c; te_provider_reference := rp_provider_reference c; te_actor_reference := rp_actor_reference c;
     te_evidence_reference := rp_immutable_evidence_reference c; te_occurred_at := now;
     te_payment_payload_digest := payload_digest (payment_payload c);
     te_grant_payload_digest := payload_digest (grant_payload d) |}.

(** [except TopUpEventLedgerConflictError]. *)
Definition ledger_conflicts {A} (m : Service A) : Service A := fun s =>
  match m s with
  | (Raise (Exn TopUpEventLedgerConflictError msg), s') =>
      (raise TopUpApplicationConflictError ("top-up commercial event ledger conflict: " +:+ msg), s')
  | r => r
  end.

Definition stage_payment_events (now : datetime) (c : RecordPaymentAndGrantCommand) (d : UnitGrantDecision) : Service unit :=
  lift (reject_if (naive now) ValueError "application service clock must be timezone aware");;
  let evidence := transition_evidence now c d in
  lift (TopUpTransitionEvidence_post_init evidence);;
  events ← lift (build_verified_payment_grant_events evidence);
  '(_, replayed) ← ledger_conflicts (stage_top_up_events events);
  conflict_unless (bool_decide (replayed = [])) "commercial event replay exists without atomic payment and grant".

Definition service_payment (created_at : datetime) (c : RecordPaymentAndGrantCommand) : CommercialTopUpPaymentEvidence :=
  {| pe_order_id := rp_order_id c; pe_provider_reference := rp_provider_reference c; pe_outcome := PayVerified;
     pe_verified_amount := Some (rp_verified_amount c); pe_verified_currency := Some (upper (strip (rp_verified_currency c)));
     pe_immutable_evidence_reference := Some (rp_immutable_evidence_reference c); pe_created_at := created_at |}.
Definition service_grant (c : RecordPaymentAndGrantCommand) (d : UnitGrantDecision) : CommercialTopUpGrant :=
  {| cg_order_id := rp_order_id c; cg_outcome := ud_outcome d; cg_units := ud_units d;
     cg_grant_idempotency_key := ud_grant_idempotency_key d; cg_reason := ud_reason d |}.

(** The clock is read for the events and for each audit record. *)
Record Clock := { ck_events : datetime; ck_payment : datetime; ck_grant : datetime; ck_created : datetime }.

Definition record_payment_body (p : TopUpApplicationPolicy) (ck : Clock) (payment_id : UUID) (c : RecordPaymentAndGrantCommand)
  : Service TopUpApplicationResult :=
  found ← get_by_id (rp_order_id c);
  match found with
  | None => throw TopUpApplicationNotFoundError "top-up order was not found"
  | Some order =>
      existing_payment ← get_by_provider_reference (rp_provider_reference c);
      existing_grant ← get_grant_for_order (rp_order_id c);
      match existing_payment with
      | Some (_, payment) =>
          conflict_unless (bool_decide (pe_order_id payment = rp_order_id c))
            "provider payment reference belongs to another top-up order";;
          match existing_grant with
          | None => throw TopUpApplicationConflictError "payment replay found without its atomic grant"
          | Some g => mret {| ar_order_id := rp_order_id c; ar_outcome := AoIdempotentReplay;
                              ar_grant_outcome := Some (cg_outcome g); ar_committed := false |}
          end
      | None =>
          conflict_unless (bool_decide (o_state order = AWAITING_PAYMENT))
            "top-up payment and grant must start from awaiting_payment";;
          decision ← lift (service_decision p c order existing_grant);
          stage_payment_events (ck_events ck) c decision;;
          before ← query id;
          mutate (sv_put_market (put_top_ups (tu_put_payment payment_id (stored_payment (service_payment (ck_created ck) c)))));;
          mutate (sv_add_grant (service_grant c decision));;
          mutate (sv_put_market (put_top_ups (tu_put_order (rp_order_id c) (set_order_state GRANTED order))));;
          paid ← lift (service_audit (ck_payment ck) (rp_order_id c) "payment_verified" (rp_actor_reference c)
                         (rp_immutable_evidence_reference c) (payment_payload c));
          mutate (sv_add_audit paid);;
          granted ← lift (service_audit (ck_grant ck) (rp_order_id c) "grant_applied" (rp_actor_reference c)
                            ("grant://" +:+ ud_grant_idempotency_key decision) (grant_payload decision));
          mutate (sv_add_audit granted);;
          lift (integrity (bool_decide (payments_of before !! payment_id = None)));;
          service_commit (ck_created ck);;
          mret {| ar_order_id := rp_order_id c; ar_outcome := AoPaymentAndGrantRecorded; ar_grant_outcome := Some UgGranted;
                  ar_committed := true |}
      end
  end.

Definition record_payment_and_grant (p : TopUpApplicationPolicy) (ck : Clock) (payment_id : UUID)
    (c : RecordPaymentAndGrantCommand) (db : ServiceDb) : res TopUpApplicationResult * ServiceDb :=
  let checks :=
    _ ← RecordPaymentAndGrantCommand_post_init c;
    _ ← require_enabled (ap_payment_verification_enabled p) "top-up payment verification is disabled";
    _ ← require_enabled (ap_grant_execution_enabled p) "top-up unit grant execution is disabled";
    _ ← require_enabled (ap_order_storage_enabled p) "top-up order storage is disabled";
    _ ← require_enabled (ap_payment_storage_enabled p) "top-up payment evidence storage is disabled";
    _ ← require_enabled (ap_grant_storage_enabled p) "top-up grant storage is disabled";
    _ ← require_enabled (ap_audit_storage_enabled p) "top-up audit storage is disabled";
    require_enabled (ap_event_ledger_enabled p) "top-up commercial event ledger is disabled" in
  match checks with
  | Raise e => (Raise e, db)
  | Ok _ => with_uow (record_payment_body p ck payment_id c) db
  end.
End Service.
