(* ===== verification/TopUpServiceProps.v ===== *)
(** * The theorems on the commercial top-up service

    What a payment recorded by the service leaves behind, in any history of requests of the
    marketplace and of the service, and what the two have to do with each other. *)
From S2P Require Import Prelude PyString PyDecimal PlanCatalog PyDateTime PyText PyJson TopUpQuote Uow TopUpDb MarketDb TopUpOrder TopUpGrant TopUpSpec MarketLedger TopUpLedger OrderHistory SalesProps CommercialEvents TopUpService.
#[local] Open Scope Z_scope.

(** ** Histories *)

(** A request of the marketplace, or of the service. *)
Inductive service_op :=
  | SvMarket (o : market_op)
  | SvCreate (p : TopUpApplicationPolicy) (now created_at : datetime) (c : CreateTopUpOrderCommand)
  | SvRecord (p : TopUpApplicationPolicy) (ck : Clock) (payment_id : UUID) (c : RecordPaymentAndGrantCommand).

Definition market_requests (ops : list service_op) : list market_op :=
  omap (fun o => match o with SvMarket o => Some o | _ => None end) ops.

Section Histories.
Context {Hsha : Sha256} {Huuid : Uuid5}.

Definition service_exec (o : service_op) (db : ServiceDb) : ServiceDb :=
  match o with
  | SvMarket o => sv_put_market (market_exec o) db
  | SvCreate p now created_at c => snd (service_create_order p now created_at c db)
  | SvRecord p ck pid c => snd (record_payment_and_grant p ck pid c db)
  end.
Fixpoint service_run (ops : list service_op) (db : ServiceDb) : ServiceDb :=
  match ops with [] => db | o :: ops => service_run ops (service_exec o db) end.

(** ** What the requests do *)

Definition event_rows (e : TopUpTransitionEvidence) : list CommercialEventRecord :=
  map (fun s => to_record (authority_event e s)) (authority_steps e).

(** The database after a payment of the order [o] was recorded. *)
Definition recorded_db ck pid c (o : CommercialTopUpOrder) d paid granted (db : ServiceDb) : ServiceDb :=
  {| sv_market := put_top_ups (tu_put_order (rp_order_id c) (set_order_state GRANTED o))
                    (put_top_ups (tu_put_payment pid (stored_payment (service_payment (ck_created ck) c))) (sv_market db));
     sv_grants := sv_grants db ++ [service_grant c d]; sv_audit := (sv_audit db ++ [paid]) ++ [granted];
     sv_events := sv_events db ++ event_rows (transition_evidence (ck_events ck) c d); sv_new_orders := [] |}.

Definition record_result c outcome committed : TopUpApplicationResult :=
  {| ar_order_id := rp_order_id c; ar_outcome := outcome; ar_grant_outcome := Some UgGranted; ar_committed := committed |}.

Record newly_recorded p ck pid c o d paid granted (db db' : ServiceDb) : Prop := {
  nr_order : orders_of db !! rp_order_id c = Some o;
  nr_state : o_state o = AWAITING_PAYMENT;
  nr_reference : find_row (fun p => bool_decide (pe_provider_reference p = rp_provider_reference c)) (payments_of db) = None;
  nr_payment : payments_of db !! pid = None;
  nr_decision : service_decision p c o (List.find (fun g => bool_decide (cg_order_id g = rp_order_id c)) (sv_grants db)) = Ok d;
  nr_events : build_verified_payment_grant_events (transition_evidence (ck_events ck) c d) =
              Ok (map (authority_event (transition_evidence (ck_events ck) c d))
                      (authority_steps (transition_evidence (ck_events ck) c d)));
  nr_paid : service_audit (ck_payment ck) (rp_order_id c) "payment_verified" (rp_actor_reference c)
              (rp_immutable_evidence_reference c) (payment_payload c) = Ok paid;
  nr_granted : service_audit (ck_grant ck) (rp_order_id c) "grant_applied" (rp_actor_reference c)
                 ("grant://" +:+ ud_grant_idempotency_key d) (grant_payload d) = Ok granted;
  nr_db : db' = recorded_db ck pid c o d paid granted db;
  nr_constraints : service_constraints db' = Ok tt
}.

#[local] Arguments nr_order {p ck pid c o d paid granted db db'} _.
#[local] Arguments nr_state {p ck pid c o d paid granted db db'} _.
#[local] Arguments nr_reference {p ck pid c o d paid granted db db'} _.
#[local] Arguments nr_payment {p ck pid c o d paid granted db db'} _.
#[local] Arguments nr_decision {p ck pid c o d paid granted db db'} _.
#[local] Arguments nr_events {p ck pid c o d paid granted db db'} _.
#[local] Arguments nr_paid {p ck pid c o d paid granted db db'} _.
#[local] Arguments nr_granted {p ck pid c o d paid granted db db'} _.
#[local] Arguments nr_db {p ck pid c o d paid granted db db'} _.
#[local] Arguments nr_constraints {p ck pid c o d paid granted db db'} _.

Inductive record_outcome p ck pid c (db : ServiceDb) : res TopUpApplicationResult -> ServiceDb -> Prop :=
  | ro_refused e : record_outcome p ck pid c db (Raise e) db
  | ro_replayed o k pay g : orders_of db !! rp_order_id c = Some o ->
      payments_of db !! k = Some pay -> pe_order_id pay = rp_order_id c ->
      List.find (fun g => bool_decide (cg_order_id g = rp_order_id c)) (sv_grants db) = Some g ->
      record_outcome p ck pid c db
        (Ok {| ar_order_id := rp_order_id c; ar_outcome := AoIdempotentReplay; ar_grant_outcome := Some (cg_outcome g);
               ar_committed := false |}) db
  | ro_recorded o d paid granted db' : newly_recorded p ck pid c o d paid granted db db' ->
      record_outcome p ck pid c db (Ok (record_result c AoPaymentAndGrantRecorded true)) db'.

(** Staging leaves the rows of the chain. *)
Definition events_added (events : list CommercialEvent) (s : Session ServiceDb) : Session ServiceDb :=
  {| working := {| sv_market := sv_market (working s); sv_grants := sv_grants (working s); sv_audit := sv_audit (working s);
                   sv_events := sv_events (working s) ++ map to_record events; sv_new_orders := sv_new_orders (working s) |};
     committed := committed s |}.

Lemma events_added_nil s : events_added [] s = s.
Proof. unfold events_added. cbn. rewrite app_nil_r. by destruct s as [[] ?]. Qed.
Lemma events_added_cons e l s : events_added (e :: l) s = events_added l (events_added [e] s).
Proof. unfold events_added. cbn. by rewrite -app_assoc. Qed.

Lemma ledger_read_only key : read_only (get_by_idempotency_key (S:=Session ServiceDb) key).
Proof. cbn. reads_only. Qed.

Lemma stage_each_no_commit events app rep : no_commit (stage_each (S:=Session ServiceDb) events app rep).
Proof.
  revert app rep. induction events as [|e events IH]; intros app rep; [done|].
  apply no_commit_bind; [apply read_only_no_commit, ledger_read_only|]. intros [f|].
  - apply no_commit_bind; [done|intros _]. apply no_commit_bind; [done|intros _]. apply IH.
  - apply no_commit_bind; [done|intros _]. apply no_commit_bind; [done|intros _]. apply IH.
Qed.

Lemma stage_no_commit now c d : no_commit (stage_payment_events now c d).
Proof.
  unfold stage_payment_events. repeat (apply no_commit_bind; [done|intros ?]).
  apply no_commit_bind; [|by intros []]. intros s. unfold ledger_conflicts.
  assert (no_commit (stage_top_up_events (S:=Session ServiceDb) a1)) as H
    by (apply no_commit_bind; [done|intros _; apply stage_each_no_commit]).
  specialize (H s). by destruct (stage_top_up_events a1 s) as [[v|[[] msg]] s1].
Qed.

Lemma ledger_conflicts_Ok {A} (m : M (Session ServiceDb) A) s a s' :
  ledger_conflicts m s = (Ok a, s') -> m s = (Ok a, s').
Proof. unfold ledger_conflicts. destruct (m s) as [[v|[[] msg]] s1]; done. Qed.

Lemma stage_payment_events_Ok now c d s u s' :
  stage_payment_events now c d s = (Ok u, s') ->
  let e := transition_evidence now c d in
  let events := map (authority_event e) (authority_steps e) in
  build_verified_payment_grant_events e = Ok events /\ s' = events_added events s.
Proof.
  intros H. cbv zeta. unfold stage_payment_events in H.
  apply M_bind_Ok in H as (? & ? & [_ <-]%lift_Ok & H). apply M_bind_Ok in H as (? & ? & [_ <-]%lift_Ok & H).
  apply M_bind_Ok in H as (evs & ? & [Hb <-]%lift_Ok & H). apply M_bind_Ok in H as ([app rep] & s1 & Hs%ledger_conflicts_Ok & H).
  apply lift_Ok in H as [Hr%ensure_Ok%bool_decide_eq_true <-]. subst rep.
  destruct (build_events_Ok _ _ Hb) as [-> _]. split; [exact Hb|].
  apply M_bind_Ok in Hs as (? & ? & [_ <-]%lift_Ok & Hs).
  apply (stage_each_new events_added) in Hs as [_ ->]; [done|apply events_added_nil|apply events_added_cons|done|
    apply ledger_read_only].
Qed.

(** A commit of a session without new orders. *)
Lemma service_commit_Ok created s u s' :
  sv_new_orders (working s) = [] -> service_commit created s = (Ok u, s') ->
  s' = {| working := working s; committed := working s |} /\ service_constraints (working s) = Ok tt.
Proof.
  intros Hn H. unfold service_commit in H. apply M_bind_Ok in H as (? & ? & [= <- <-] & H). rewrite Hn in H.
  apply M_bind_Ok in H as (? & ? & [[= <-] <-]%lift_Ok & H). apply M_bind_Ok in H as (? & ? & [_ <-]%lift_Ok & H).
  apply M_bind_Ok in H as (? & ? & [= _ <-] & H). unfold commit in H. cbn [foldl working committed] in H.
  assert ({| sv_market := sv_market (working s); sv_grants := sv_grants (working s); sv_audit := sv_audit (working s);
             sv_events := sv_events (working s); sv_new_orders := [] |} = working s) as E
    by (rewrite -Hn; by destruct (working s)).
  rewrite E in H. destruct (service_constraints (working s)) as [[]|]; [|done]. by injection H as _ <-.
Qed.

Lemma service_commit_fails_clean created : fails_clean (service_commit created).
Proof.
  unfold service_commit. repeat (apply fails_clean_bind; [done|intros ?]). apply fails_clean_commit.
Qed.

Lemma fails_clean_bind_ret {DB A B} (m : M (Session DB) A) (b : B) : fails_clean m -> fails_clean (m;; mret b).
Proof.
  intros Hm s e s'. rewrite M_bind_eq. destruct (m s) as [[a|x] s1] eqn:E; [done|]. intros [= _ <-]. exact (Hm _ _ _ E).
Qed.

Lemma record_body_fails_clean p ck pid c : fails_clean (record_payment_body p ck pid c).
Proof.
  unfold record_payment_body. apply fails_clean_bind; [done|intros [o|]]; [|by apply no_commit_fails_clean].
  do 2 (apply fails_clean_bind; [done|intros ?]).
  destruct a as [[k pay]|].
  { apply fails_clean_bind; [done|intros _]. by destruct a0; apply no_commit_fails_clean. }
  do 2 (apply fails_clean_bind; [done|intros ?]).
  apply fails_clean_bind; [apply stage_no_commit|intros _].
  do 9 (apply fails_clean_bind; [done|intros ?]).
  apply fails_clean_bind_ret, service_commit_fails_clean.
Qed.

Lemma record_cases p ck pid c db r db' :
  sv_new_orders db = [] -> record_payment_and_grant p ck pid c db = (r, db') -> record_outcome p ck pid c db r db'.
Proof.
  intros Hno H. unfold record_payment_and_grant in H.
  match type of H with context [match ?checks with Ok _ => _ | Raise _ => _ end] => destruct checks as [?|e] end;
    [|injection H as <- <-; constructor].
  destruct r as [r|e].
  2:{ apply with_uow_fails in H as ->; [constructor|apply record_body_fails_clean]. }
  apply with_uow_inv in H as (s' & H & <-). unfold record_payment_body in H.
  apply M_bind_Ok in H as (found & ? & [= <- <-] & H). cbn [working] in H.
  destruct (orders_of db !! rp_order_id c) as [o|] eqn:Ho; [|done].
  apply M_bind_Ok in H as (ep & ? & [= <- <-] & H). apply M_bind_Ok in H as (eg & ? & [= <- <-] & H). cbn [working] in H.
  destruct (find_row _ _) as [[k pay]|] eqn:Ep.
  - apply M_bind_Ok in H as (? & ? & [Hid%ensure_Ok%bool_decide_eq_true <-]%lift_Ok & H).
    apply find_row_Some in Ep as [Hpay _].
    destruct (List.find _ _) as [g|] eqn:Eg; [|done]. injection H as <- <-. by apply (ro_replayed _ _ _ _ _ o k pay g).
  - apply M_bind_Ok in H as (? & ? & [Hst%ensure_Ok%bool_decide_eq_true <-]%lift_Ok & H).
    apply M_bind_Ok in H as (d & ? & [Hd <-]%lift_Ok & H).
    apply M_bind_Ok in H as (? & ? & [Hev ->]%stage_payment_events_Ok & H).
    apply M_bind_Ok in H as (before & ? & [= <- <-] & H).
    do 3 apply M_bind_Ok in H as (? & ? & [= _ <-] & H).
    apply M_bind_Ok in H as (paid & ? & [Hpaid <-]%lift_Ok & H). apply M_bind_Ok in H as (? & ? & [= _ <-] & H).
    apply M_bind_Ok in H as (granted & ? & [Hgr <-]%lift_Ok & H). apply M_bind_Ok in H as (? & ? & [= _ <-] & H).
    apply M_bind_Ok in H as (? & ? & [Hpid%ensure_Ok%bool_decide_eq_true <-]%lift_Ok & H).
    apply M_bind_Ok in H as (? & s1 & Hc & H). injection H as <- <-.
    apply service_commit_Ok in Hc as [-> Hk]; [|exact Hno]. cbn [committed].
    cbn [working] in Hk |- *. apply (ro_recorded _ _ _ _ _ o d paid granted).
    split; [exact Ho|exact Hst|exact Ep|exact Hpid|exact Hd|exact Hev|exact Hpaid|exact Hgr| |exact Hk].
    unfold recorded_db, event_rows. rewrite -map_map.
    unfold sv_add_audit, sv_put_market, sv_add_grant, events_added. cbn. f_equal. exact Hno.
Qed.

(** An order the service creates lacks columns the table requires: nothing is ever written. *)
Lemma service_commit_new created c currency s :
  sv_new_orders (working s) = [service_new_order c currency] ->
  service_commit created s = (raise IntegrityError "NOT NULL constraint failed", s).
Proof. intros Hn. unfold service_commit. rewrite bind_query. cbn [id]. by rewrite Hn. Qed.

Lemma create_changes_nothing p now created c db :
  sv_new_orders db = [] ->
  snd (service_create_order p now created c db) = db /\
  (find_row (fun o => bool_decide (o_idempotency_key o = cr_idempotency_key c)) (orders_of db) = None ->
   exists e, fst (service_create_order p now created c db) = Raise e).
Proof.
  intros Hno. unfold service_create_order.
  match goal with |- context [match ?checks with Ok _ => _ | Raise _ => _ end] => destruct checks as [c'|e] eqn:Ec end;
    [|by eauto].
  assert (cr_idempotency_key c' = cr_idempotency_key c) as Hkey.
  { apply res_bind_Ok in Ec as (c1 & Hi & Ec). do 3 apply res_bind_Ok in Ec as (_ & _ & Ec). injection Ec as <-.
    unfold CreateTopUpOrderCommand_init in Hi. do 7 apply res_bind_Ok in Hi as (_ & _ & Hi). by injection Hi as <-. }
  destruct (with_uow _ db) as [r db'] eqn:H. apply with_uow_inv in H as (s' & H & <-). cbn [fst snd].
  unfold service_create_body, get_order_by_idempotency_key in H. rewrite bind_query in H. cbn [working] in H. rewrite Hkey in H.
  destruct (find_row _ _) as [[k o]|] eqn:Ef.
  - split; [|done]. revert H. apply (no_commit_eq (DB:=ServiceDb)). do 2 (apply no_commit_bind; [done|intros ?]). done.
  - m_step H E1; [apply lift_Ok in E1 as [_ <-]|injection E1 as _ <-; injection H as <- <-; by eauto].
    m_step H E2; [injection E2 as _ <-|done].
    m_step H E3; [apply lift_Ok in E3 as [_ <-]|injection E3 as _ <-; injection H as <- <-; by eauto].
    m_step H E4; [injection E4 as _ <-|done].
    rewrite M_bind_eq (service_commit_new created c' v) in H; [cbn; by rewrite Hno|]. injection H as <- <-. by eauto.
Qed.

(** ** The decision *)

Record approved c o (g : option CommercialTopUpGrant) d : Prop := {
  ap_account : is_Some (o_account_id o);
  ap_first : g = None;
  ap_units : ud_units d = o_requested_units o;
  ap_outcome : ud_outcome d = UgGranted;
  ap_key : ud_grant_idempotency_key d = service_grant_key (rp_order_id c) (o_idempotency_key o);
  ap_amount : dec_eqb (rp_verified_amount c) (o_settlement_amount o) = true;
  ap_currency : upper (strip (rp_verified_currency c)) = upper (strip (o_settlement_currency o))
}.

Lemma decision_approved p c o g d : service_decision p c o g = Ok d -> approved c o g d.
Proof.
  intros H. unfold service_decision in H. apply res_bind_Ok in H as (_ & _ & H).
  apply res_bind_Ok in H as (k & Hk & H). unfold to_order_contract in Hk.
  destruct (o_account_id o) as [acc|] eqn:Hacc; [|done].
  apply res_bind_Ok in Hk as (_ & _ & Hk). injection Hk as Hk.
  apply res_bind_Ok in H as (d' & Hd & H). apply res_bind_Ok in H as (_ & Ho%ensure_Ok%bool_decide_eq_true & H).
  injection H as ->. unfold decide_unit_grant in Hd. destruct (unit_grant_outcome _ _ _ _) as [out reason] eqn:Hu.
  apply res_bind_Ok in Hd as (_ & _ & Hd). injection Hd as <-. cbn in Ho. subst out k.
  unfold unit_grant_outcome in Hu. cbn -[upper strip] in Hu.
  repeat match type of Hu with (if ?b then _ else _) = _ => destruct b eqn:?; [discriminate Hu|] end.
  repeat match goal with H : negb _ = false |- _ => apply negb_false_iff in H end.
  match goal with H : _ || _ = false |- _ => apply orb_false_iff in H as [_ Hg%bool_decide_eq_false] end.
  match goal with H : bool_decide (Some _ = _) = true |- _ => apply bool_decide_eq_true in H; injection H as Hcur end.
  split; try done. destruct g; [|done]. exfalso. apply Hg. eauto.
Qed.

(** ** What the service has granted *)

Definition of_order_events (id : UUID) (db : ServiceDb) : list CommercialEventRecord :=
  List.filter (fun r => bool_decide (er_aggregate_id r = id)) (sv_events db).
Definition of_order_audit (id : UUID) (db : ServiceDb) : list CommercialTopUpAuditRecord :=
  List.filter (fun a => bool_decide (ca_order_id a = id)) (sv_audit db).

(** A chain of events that leads from [first] to [last], each allowed by the state machine. *)
Definition leads (rows : list CommercialEventRecord) (first last : TopUpOrderState) : Prop :=
  exists events, mapM to_event rows = Ok events /\ validate_top_up_transition_chain events = Ok tt /\
    (forall e, e ∈ events -> validate_commercial_transition (event_transition e) = Ok tt) /\
    ev_current_state <$> head events = Some (top_up_state_value first) /\
    ev_next_state <$> list.last events = Some (top_up_state_value last).

(** The trail of a grant: its order, its payment, its events and its audit records. *)
Record trail (db : ServiceDb) (g : CommercialTopUpGrant) (o : CommercialTopUpOrder) (pay : CommercialTopUpPaymentEvidence)
    (e : TopUpTransitionEvidence) : Prop := {
  tr_order : orders_of db !! cg_order_id g = Some o;
  tr_state : o_state o = GRANTED;
  tr_grant : cg_outcome g = UgGranted /\ cg_units g = o_requested_units o /\
             cg_grant_idempotency_key g = service_grant_key (cg_order_id g) (o_idempotency_key o);
  tr_payment : exists pid, payments_of db !! pid = Some pay;
  tr_paid : pe_order_id pay = cg_order_id g /\ pe_outcome pay = PayVerified /\
            pe_verified_currency pay = Some (upper (strip (o_settlement_currency o))) /\
            exists amount, dec_eqb amount (o_settlement_amount o) = true /\ pe_verified_amount pay = Some (numeric 3 amount);
  tr_events : of_order_events (cg_order_id g) db = event_rows e;
  tr_evidence : te_order_id e = cg_order_id g /\ te_provider_reference e = pe_provider_reference pay /\
                Some (te_evidence_reference e) = pe_immutable_evidence_reference pay;
  tr_leads : leads (event_rows e) AWAITING_PAYMENT GRANTED;
  tr_audit : map ca_action (of_order_audit (cg_order_id g) db) = ["payment_verified"; "grant_applied"] /\
             forall a, a ∈ of_order_audit (cg_order_id g) db -> ca_actor_reference a = te_actor_reference e
}.

#[local] Arguments tr_order {db g o pay e} _.
#[local] Arguments tr_state {db g o pay e} _.
#[local] Arguments tr_grant {db g o pay e} _.
#[local] Arguments tr_payment {db g o pay e} _.
#[local] Arguments tr_paid {db g o pay e} _.
#[local] Arguments tr_events {db g o pay e} _.
#[local] Arguments tr_evidence {db g o pay e} _.
#[local] Arguments tr_leads {db g o pay e} _.
#[local] Arguments tr_audit {db g o pay e} _.

(** Every grant has its trail, and nothing else is in the tables of the service. *)
Record service_ok (db : ServiceDb) : Prop := {
  so_new : sv_new_orders db = [];
  so_grants : NoDup (map cg_order_id (sv_grants db));
  so_trails : forall g, g ∈ sv_grants db -> exists o pay e, trail db g o pay e;
  so_events : forall r, r ∈ sv_events db -> exists g, g ∈ sv_grants db /\ cg_order_id g = er_aggregate_id r;
  so_audit : forall a, a ∈ sv_audit db -> exists g, g ∈ sv_grants db /\ cg_order_id g = ca_order_id a
}.

Lemma stored_events_read events :
  (forall e, e ∈ events -> CommercialIdempotencyKey_post_init (ev_idempotency_key e) = Ok tt /\
     CommercialEvent_post_init e = Ok tt) ->
  mapM to_event (map to_record events) = Ok (map respelled events).
Proof.
  induction events as [|e events IH]; intros Hall; [done|].
  destruct (Hall e) as [Hk He]; [by left|]. cbn [map mapM]. destruct (stored_event_read e Hk He) as [-> _].
  cbn. by rewrite IH; [intros e' ?; apply Hall; by right|].
Qed.

Lemma event_rows_lead e events :
  build_verified_payment_grant_events e = Ok events -> leads (event_rows e) AWAITING_PAYMENT GRANTED.
Proof.
  intros Hb. destruct (build_events_Ok _ _ Hb) as [-> Hall]. exists (map respelled (map (authority_event e) (authority_steps e))).
  split_and!; [| | |done|done].
  - unfold event_rows. rewrite -map_map. by apply stored_events_read.
  - unfold validate_top_up_transition_chain. cbn. by rewrite !bool_decide_eq_true_2.
  - intros ev (ev0 & <- & Hin%list_elem_of_In)%list_elem_of_In%in_map_iff.
    exact (event_transition_valid ev0 (proj2 (Hall ev0 Hin))).
Qed.

Lemma trail_kept db db' g o pay e :
  (exists o', orders_of db' !! cg_order_id g = Some o' /\ order_terms o' = order_terms o /\ o_state o' = GRANTED) ->
  (forall k p, payments_of db !! k = Some p -> payments_of db' !! k = Some p) ->
  of_order_events (cg_order_id g) db' = of_order_events (cg_order_id g) db ->
  of_order_audit (cg_order_id g) db' = of_order_audit (cg_order_id g) db ->
  trail db g o pay e -> exists o', trail db' g o' pay e.
Proof.
  intros (o' & Ho' & [= _ _ _ _ Eu Ec Ea Ek] & Hs) Hp He Ha [H1 H2 H3 [pid H4] H5 H6 H7 H8 H9]. exists o'.
  split; rewrite ?He ?Ha ?Eu ?Ec ?Ea ?Ek; try done. exists pid. by apply Hp.
Qed.

(** A payment is recorded: the new grant has its trail, the others keep theirs. *)
Lemma filter_none {R} (p : R -> bool) (l : list R) : (forall r, r ∈ l -> p r = false) -> List.filter p l = [].
Proof.
  induction l as [|r l IH]; intros H; [done|]. cbn. rewrite H; [by left|]. apply IH. intros r' ?. apply H. by right.
Qed.
Lemma filter_every {R} (p : R -> bool) (l : list R) : (forall r, r ∈ l -> p r = true) -> List.filter p l = l.
Proof.
  induction l as [|r l IH]; intros H; [done|]. cbn. rewrite H; [by left|]. f_equal. apply IH. intros r' ?. apply H. by right.
Qed.

Lemma event_row_id e r : r ∈ event_rows e -> er_aggregate_id r = te_order_id e.
Proof. unfold event_rows. intros (s & <- & _)%list_elem_of_In%in_map_iff. by destruct s as [[[? ?] ?] ?]. Qed.

Lemma service_audit_fields now id action actor ref payload a :
  service_audit now id action actor ref payload = Ok a ->
  ca_order_id a = id /\ ca_action a = action /\ ca_actor_reference a = actor.
Proof. intros (_ & _ & [= <-])%res_bind_Ok. done. Qed.

Section Recorded.
Context {p : TopUpApplicationPolicy} {ck : Clock} {pid : UUID} {c : RecordPaymentAndGrantCommand}.
Context {o : CommercialTopUpOrder} {d : UnitGrantDecision} {paid granted : CommercialTopUpAuditRecord} {db db' : ServiceDb}.
Hypothesis New : newly_recorded p ck pid c o d paid granted db db'.
Hypothesis Hok : service_ok db.

(** An order that awaits its payment has no grant, no event and no audit record yet. *)
Lemma nothing_yet g : g ∈ sv_grants db -> cg_order_id g <> rp_order_id c.
Proof.
  intros Hg E. destruct (so_trails _ Hok g Hg) as (o' & pay & e & T). pose proof (tr_order T) as Ho.
  pose proof (tr_state T). pose proof (nr_state New).
  rewrite E (nr_order New) in Ho. congruence.
Qed.

Lemma other_events id : id <> rp_order_id c -> of_order_events id db' = of_order_events id db.
Proof.
  intros Hne. rewrite (nr_db New). unfold of_order_events, recorded_db. cbn [sv_events].
  rewrite List.filter_app (filter_none _ (event_rows _)) ?app_nil_r //.
  intros r ->%event_row_id. apply bool_decide_eq_false. cbn. congruence.
Qed.

Lemma audit_orders : ca_order_id paid = rp_order_id c /\ ca_order_id granted = rp_order_id c.
Proof.
  destruct (service_audit_fields _ _ _ _ _ _ _ (nr_paid New)) as (-> & _ & _).
  by destruct (service_audit_fields _ _ _ _ _ _ _ (nr_granted New)) as (-> & _ & _).
Qed.

Lemma other_audit id : id <> rp_order_id c -> of_order_audit id db' = of_order_audit id db.
Proof.
  intros Hne. rewrite (nr_db New). unfold of_order_audit, recorded_db. cbn [sv_audit].
  destruct audit_orders as [E1 E2]. rewrite !List.filter_app. cbn. rewrite E1 E2.
  rewrite bool_decide_eq_false_2; [congruence|]. by rewrite !app_nil_r.
Qed.

Lemma payments_grow k q : payments_of db !! k = Some q -> payments_of db' !! k = Some q.
Proof.
  intros Hq. rewrite (nr_db New). cbn. rewrite lookup_insert_ne //. intros <-.
  rewrite (nr_payment New) in Hq. done.
Qed.

Lemma new_trail : trail db' (service_grant c d) (set_order_state GRANTED o)
  (stored_payment (service_payment (ck_created ck) c)) (transition_evidence (ck_events ck) c d).
Proof.
  pose proof (decision_approved _ _ _ _ _ (nr_decision New)) as Hd.
  assert (of_order_events (rp_order_id c) db = []) as Hev.
  { apply filter_none. intros r (g & Hg & Eg)%(so_events _ Hok). apply bool_decide_eq_false. rewrite -Eg. by apply nothing_yet. }
  assert (of_order_audit (rp_order_id c) db = []) as Hau.
  { apply filter_none. intros r (g & Hg & Eg)%(so_audit _ Hok). apply bool_decide_eq_false. rewrite -Eg. by apply nothing_yet. }
  destruct (service_audit_fields _ _ _ _ _ _ _ (nr_paid New)) as (Ep & Ap & Bp).
  destruct (service_audit_fields _ _ _ _ _ _ _ (nr_granted New)) as (Eg & Ag & Bg).
  assert (of_order_audit (rp_order_id c) db' = [paid; granted]) as Hau'.
  { rewrite (nr_db New). unfold of_order_audit in Hau |- *. cbn [sv_audit recorded_db].
    rewrite !List.filter_app Hau. cbn. by rewrite Ep Eg bool_decide_eq_true_2. }
  split; cbn [service_grant cg_order_id cg_outcome cg_units cg_grant_idempotency_key].
  - rewrite (nr_db New). cbn. by rewrite lookup_insert_eq.
  - done.
  - by destruct Hd.
  - exists pid. rewrite (nr_db New). cbn. by rewrite lookup_insert_eq.
  - split_and!; [done|done|cbn; by rewrite (ap_currency _ _ _ _ Hd)|]. exists (rp_verified_amount c).
    split; [apply (ap_amount _ _ _ _ Hd)|done].
  - rewrite (nr_db New). unfold of_order_events in Hev |- *. cbn [sv_events recorded_db].
    rewrite List.filter_app Hev (filter_every _ (event_rows _)) //. intros r ->%event_row_id. by apply bool_decide_eq_true.
  - done.
  - exact (event_rows_lead _ _ (nr_events New)).
  - rewrite Hau'. cbn. rewrite Ap Ag. split; [done|]. intros a [->|[->|[]%elem_of_nil]%elem_of_cons]%elem_of_cons; done.
Qed.

Lemma recorded_ok : service_ok db'.
Proof.
  pose proof (nr_db New) as E.
  assert (sv_grants db' = sv_grants db ++ [service_grant c d]) as Eg by (by rewrite E).
  assert (forall id g, g ∈ sv_grants db -> cg_order_id g = id ->
            exists g, g ∈ sv_grants db' /\ cg_order_id g = id) as Hold
    by (intros id g Hg Hid; exists g; rewrite Eg elem_of_app; eauto).
  assert (exists g, g ∈ sv_grants db' /\ cg_order_id g = rp_order_id c) as Hnew
    by (exists (service_grant c d); rewrite Eg elem_of_app list_elem_of_singleton; eauto).
  split.
  - by rewrite E.
  - rewrite Eg map_app. apply NoDup_app. split_and!; [apply (so_grants _ Hok)| |apply NoDup_singleton].
    cbn. intros id (g & <- & Hg%list_elem_of_In)%list_elem_of_In%in_map_iff. rewrite list_elem_of_singleton. by apply nothing_yet.
  - intros g. rewrite Eg elem_of_app list_elem_of_singleton. intros [Hg| ->]; [|by eauto using new_trail].
    destruct (so_trails _ Hok g Hg) as (o1 & pay & e & T). pose proof (nothing_yet g Hg) as Hne.
    destruct (trail_kept db db' g o1 pay e) as [o' T'];
      [|exact payments_grow|by apply other_events|by apply other_audit|exact T|by eauto].
    exists o1. split_and!; [|done|apply (tr_state T)]. rewrite E. cbn.
    rewrite lookup_insert_ne; [congruence|]. apply (tr_order T).
  - intros r. rewrite E. cbn [sv_events recorded_db]. rewrite elem_of_app. intros [Hr|Hr].
    + destruct (so_events _ Hok r Hr) as (g & Hg & Hid). rewrite -E. by apply (Hold _ g).
    + rewrite -E (event_row_id _ _ Hr). exact Hnew.
  - intros a. rewrite E. cbn [sv_audit recorded_db]. rewrite !elem_of_app !list_elem_of_singleton -E.
    intros [[Ha| ->]| ->].
    + destruct (so_audit _ Hok a Ha) as (g & Hg & Hid). by apply (Hold _ g).
    + destruct audit_orders as [-> _]. exact Hnew.
    + destruct audit_orders as [_ ->]. exact Hnew.
Qed.
End Recorded.

(** ** Histories of requests *)

Lemma market_op_ok o db : service_ok db -> service_ok (sv_put_market (market_exec o) db).
Proof.
  intros [Hn Hg Ht He Ha]. split; [done|done| |done|done].
  intros g Hin. destruct (Ht g Hin) as (o1 & pay & e & T). pose proof (market_exec_moved o (sv_market db)) as Hm.
  destruct (mv_orders _ _ Hm _ _ (tr_order T)) as (o2 & Ho2 & M).
  destruct (trail_kept db (sv_put_market (market_exec o) db) g o1 pay e) as [o' T'];
    [|exact (mv_payments _ _ Hm)|done|done|exact T|by eauto].
  exists o2. split_and!; [done|apply (om_terms _ _ M)|apply (om_granted _ _ M), (tr_state T)].
Qed.

Lemma service_exec_ok o db : service_ok db -> service_ok (service_exec o db).
Proof.
  intros Hok. pose proof (so_new _ Hok) as Hn. destruct o as [o|p now created c|p ck pid c]; cbn.
  - by apply market_op_ok.
  - by destruct (create_changes_nothing p now created c db Hn) as [-> _].
  - destruct (record_payment_and_grant _ _ _ _ _) as [r db'] eqn:E. apply record_cases in E; [|done].
    destruct E as [| |o d paid granted db' New]; [done..|]. exact (recorded_ok New Hok).
Qed.

Lemma service_run_ok ops db : service_ok db -> service_ok (service_run ops db).
Proof. revert db. induction ops as [|o ops IH]; intros db Hok; [done|]. by apply IH, service_exec_ok. Qed.

Notation balance_grants db := (tu_grants (db_top_ups (sv_market db))).

(** What no request takes back: an order that is granted stays so, the payments and the
    grants of the service are kept, and the marketplace grants nothing more for a granted
    order. *)
Record service_moved (db db' : ServiceDb) : Prop := {
  sm_granted : forall k o, orders_of db !! k = Some o -> o_state o = GRANTED ->
    exists o', orders_of db' !! k = Some o' /\ o_state o' = GRANTED;
  sm_payments : forall k q, payments_of db !! k = Some q -> payments_of db' !! k = Some q;
  sm_grants : exists more, sv_grants db' = sv_grants db ++ more;
  sm_balance : forall k g o, balance_grants db' !! k = Some g -> orders_of db !! g_order_id g = Some o ->
    o_state o = GRANTED -> balance_grants db !! k = Some g
}.

#[local] Instance service_moved_preorder : PreOrder service_moved.
Proof.
  split.
  - intros db. split; [by eauto|done| |done]. exists []. by rewrite app_nil_r.
  - intros a b c [G1 P1 [m1 E1] B1] [G2 P2 [m2 E2] B2]. split.
    + intros k o Ho Hs. destruct (G1 k o Ho Hs) as (o1 & Ho1 & Hs1). eauto.
    + eauto.
    + exists (m1 ++ m2). by rewrite E2 E1 app_assoc.
    + intros k g o Hg Ho Hs. destruct (G1 _ _ Ho Hs) as (o1 & Ho1 & Hs1). eauto.
Qed.

(** The database a history of requests keeps. *)
Definition service_db_inv (db : ServiceDb) : Prop := sv_new_orders db = [] /\ market_inv (sv_market db).

Lemma recorded_moved p ck pid c o d paid granted db db' :
  newly_recorded p ck pid c o d paid granted db db' -> service_db_inv db -> service_db_inv db' /\ service_moved db db'.
Proof.
  intros New [Hn [_ [Hb Hr]]]. split.
  - pose proof (nr_constraints New) as Hc. apply res_bind_Ok in Hc as (_ & Hc%ensure_Ok & _).
    apply is_ok_true in Hc as [[] Hc]. rewrite (nr_db New) in Hc |- *. by split; [|split; [|split]].
  - split.
    + intros k o1 Ho Hs. exists o1. rewrite (nr_db New). cbn. rewrite lookup_insert_ne; [|done].
      intros <-. pose proof (nr_state New). rewrite (nr_order New) in Ho. congruence.
    + exact (payments_grow New).
    + exists [service_grant c d]. by rewrite (nr_db New).
    + rewrite (nr_db New). cbn. by intros k g o1.
Qed.

Lemma service_exec_moved o db : service_db_inv db -> service_db_inv (service_exec o db) /\ service_moved db (service_exec o db).
Proof.
  intros Hi. pose proof Hi as [Hn Hm]. destruct o as [o|p now created c|p ck pid c]; cbn.
  - destruct (market_exec_inv o _ Hm) as [Hm' _]. pose proof (market_exec_moved o (sv_market db)) as M.
    split; [done|]. split.
    + intros k o1 Ho Hs. destruct (mv_orders _ _ M _ _ Ho) as (o' & Ho' & Mo). exists o'.
      split; [done|]. by apply (om_granted _ _ Mo).
    + exact (mv_payments _ _ M).
    + exists []. by rewrite app_nil_r.
    + exact (mv_grants _ _ M).
  - destruct (create_changes_nothing p now created c db Hn) as [-> _]. split; [done|reflexivity].
  - destruct (record_payment_and_grant _ _ _ _ _) as [r db'] eqn:E. apply record_cases in E; [|done].
    destruct E as [| |o d paid granted db' New]; [split; [done|reflexivity]..|]. eapply recorded_moved; eassumption.
Qed.

Lemma service_run_moved ops db : service_db_inv db -> service_db_inv (service_run ops db) /\ service_moved db (service_run ops db).
Proof.
  revert db. induction ops as [|o ops IH]; intros db Hi; [split; [done|reflexivity]|]. cbn.
  destruct (service_exec_moved o db Hi) as [Hi' M]. destruct (IH _ Hi') as [Hi'' M'].
  split; [done|]. etrans; eassumption.
Qed.

Lemma find_app {R} (f : R -> bool) (l1 l2 : list R) :
  List.find f (l1 ++ l2) = match List.find f l1 with Some r => Some r | None => List.find f l2 end.
Proof. induction l1 as [|r l1 IH]; [done|]. cbn. by destruct (f r). Qed.

(** Orders without an account never get one, and the service refuses them. *)
Lemma accounts_never_set m m' :
  orders_moved m m' -> (forall k o, tu_orders (db_top_ups m) !! k = Some o -> o_account_id o = None) ->
  forall k o, tu_orders (db_top_ups m') !! k = Some o -> o_account_id o = None.
Proof.
  intros M Hacc k o' Ho'. destruct (mv_new _ _ M k o' Ho') as [[o Ho]|]; [|done].
  destruct (mv_orders _ _ M k o Ho) as (o1 & Ho1 & Mo). pose proof (om_terms _ _ Mo) as [= E _].
  pose proof (Hacc k o Ho). congruence.
Qed.

Lemma record_without_account p ck pid c db :
  sv_grants db = [] -> sv_new_orders db = [] -> (forall k o, orders_of db !! k = Some o -> o_account_id o = None) ->
  exists e, record_payment_and_grant p ck pid c db = (Raise e, db).
Proof.
  intros Eg En Hacc. destruct (record_payment_and_grant p ck pid c db) as [r db'] eqn:E. apply record_cases in E; [|done].
  destruct E as [e|o k pay g _ _ _ Hg|o d paid granted db' New].
  - by exists e.
  - by rewrite Eg in Hg.
  - pose proof (nr_decision New) as [[acc Ha]]%decision_approved. pose proof (Hacc _ _ (nr_order New)). congruence.
Qed.

(** The command of a recorded payment, repeated. *)
Lemma replayed_record p ck pid c db r db1 :
  record_payment_and_grant p ck pid c db = (Ok r, db1) ->
  forall ck' pid' db2 o k pay g,
  orders_of db2 !! rp_order_id c = Some o -> payments_of db2 !! k = Some pay -> market_constraints (sv_market db2) = Ok tt ->
  pe_order_id pay = rp_order_id c -> pe_provider_reference pay = rp_provider_reference c ->
  List.find (fun g => bool_decide (cg_order_id g = rp_order_id c)) (sv_grants db2) = Some g ->
  record_payment_and_grant p ck' pid' c db2 =
    (Ok {| ar_order_id := rp_order_id c; ar_outcome := AoIdempotentReplay; ar_grant_outcome := Some (cg_outcome g);
           ar_committed := false |}, db2).
Proof.
  intros H ck' pid' db2 o k pay g Ho Hp Hm Eo Er Hg. unfold record_payment_and_grant in H |- *.
  match type of H with context [match ?checks with Ok _ => _ | Raise _ => _ end] => destruct checks as [?|e] end; [|done].
  clear H. unfold with_uow, record_payment_body, get_by_id, get_by_provider_reference, get_grant_for_order.
  rewrite !bind_query. cbn [working]. rewrite Ho !bind_query. cbn [working].
  rewrite (find_row_unique _ _ k pay) //.
  - by apply bool_decide_eq_true.
  - intros k' q Hq Eq%bool_decide_eq_true. apply top_up_unique in Hm. unfold top_up_uniques in Hm. to_prop.
    match goal with U : unique_on (fun p => Some (pe_provider_reference p)) _ = true |- _ =>
      rewrite unique_on_true in U; apply (U k' k q pay (rp_provider_reference c)); congruence end.
  - rewrite Hg. unfold conflict_unless. rewrite bind_ensure; [by apply bool_decide_eq_true|]. done.
Qed.

(** ** The theorems *)

(** Every grant of the service has its trail.  Starting with empty tables of the
    service, after any history of requests of the marketplace and of the service: each order
    has at most one grant; each grant is for exactly the units of its order, which is granted;
    its payment is on record, verified, in the currency and of the amount of the order's
    settlement; the events of its order are exactly the four that lead from the wait for the
    payment to the grant, each step allowed by the state machine; and its audit records are
    exactly the verification and the grant, by the same actor.  No event and no audit record
    exists without a grant. *)
Theorem service_grants_have_their_trail ops db :
  sv_grants db = [] -> sv_audit db = [] -> sv_events db = [] -> sv_new_orders db = [] ->
  service_ok (service_run ops db).
Proof.
  intros Eg Ea Ee En. apply service_run_ok. split; rewrite ?Eg ?Ea ?Ee; [done|constructor|..]; intros x Hx; apply elem_of_nil in Hx; done.
Qed.

(** A recorded payment is recognised for ever: once the service recorded it, after any
    requests, the same command answers with the recorded grant and changes nothing, and no
    command about that order changes anything. *)
Theorem recorded_payment_is_recognised p ck pid c db r db1 ops :
  market_inv (sv_market db) -> sv_new_orders db = [] ->
  record_payment_and_grant p ck pid c db = (Ok r, db1) -> ar_committed r = true ->
  let db2 := service_run ops db1 in
  (forall ck' pid', record_payment_and_grant p ck' pid' c db2 = (Ok (record_result c AoIdempotentReplay false), db2)) /\
  (forall p' ck' pid' c', rp_order_id c' = rp_order_id c -> snd (record_payment_and_grant p' ck' pid' c' db2) = db2).
Proof.
  intros Hi Hn H Hc. pose proof H as H0. apply record_cases in H; [|done].
  inversion H as [| |o d paid granted db' New]; subst; [done|]. cbv zeta.
  destruct (recorded_moved _ _ _ _ _ _ _ _ _ _ New (conj Hn Hi)) as [Hi1 _].
  destruct (service_run_moved ops db1 Hi1) as [[Hn2 [Hm2 _]] M]. set (db2 := service_run ops db1) in *.
  destruct (sm_granted _ _ M (rp_order_id c) (set_order_state GRANTED o)) as (o2 & Ho2 & Hs2);
    [rewrite (nr_db New); cbn; by rewrite lookup_insert_eq|done|].
  assert (payments_of db2 !! pid = Some (stored_payment (service_payment (ck_created ck) c))) as Hp2
    by (apply (sm_payments _ _ M); rewrite (nr_db New); cbn; by rewrite lookup_insert_eq).
  assert (List.find (fun g => bool_decide (cg_order_id g = rp_order_id c)) (sv_grants db2) = Some (service_grant c d)) as Hg2.
  { destruct (sm_grants _ _ M) as [more ->]. rewrite (nr_db New). cbn [sv_grants recorded_db].
    pose proof (nr_decision New) as Hd%decision_approved. rewrite -app_assoc find_app (ap_first _ _ _ _ Hd).
    cbn. by rewrite bool_decide_eq_true_2. }
  split.
  - intros ck' pid'. rewrite (replayed_record _ _ _ _ _ _ _ H0 ck' pid' db2 o2 pid _ _ Ho2 Hp2 Hm2 eq_refl eq_refl Hg2).
    pose proof (nr_decision New) as Hd%decision_approved. unfold record_result. cbn. by rewrite (ap_outcome _ _ _ _ Hd).
  - intros p' ck' pid' c' Ec. destruct (record_payment_and_grant p' ck' pid' c' db2) as [r' db'] eqn:E.
    apply record_cases in E; [|done]. destruct E as [| |o' d' paid' granted' db' New']; [done..|].
    pose proof (nr_state New'). pose proof (nr_order New') as Ho'. rewrite Ec Ho2 in Ho'. congruence.
Qed.

(** A grant of the service never reaches the balance: recording it changes no quota
    cycle, and after any further requests the marketplace, whose grants are what adds units
    to a cycle, has no grant for that order that it did not have before. *)
Theorem service_grant_never_reaches_the_balance p ck pid c db r db1 ops :
  market_inv (sv_market db) -> sv_new_orders db = [] ->
  record_payment_and_grant p ck pid c db = (Ok r, db1) -> ar_committed r = true ->
  db_cycles (sv_market db1) = db_cycles (sv_market db) /\
  forall k g, balance_grants (service_run ops db1) !! k = Some g -> g_order_id g = rp_order_id c ->
    balance_grants db !! k = Some g.
Proof.
  intros Hi Hn H Hc. apply record_cases in H; [|done]. inversion H as [| |o d paid granted db' New]; subst; [done|].
  destruct (recorded_moved _ _ _ _ _ _ _ _ _ _ New (conj Hn Hi)) as [Hi1 _].
  destruct (service_run_moved ops db1 Hi1) as [_ M]. split; [by rewrite (nr_db New)|].
  intros k g Hg Eg. pose proof (sm_balance _ _ M k g (set_order_state GRANTED o) Hg) as Hb.
  rewrite (nr_db New) in Hb. apply Hb; [|done]. cbn. by rewrite Eg lookup_insert_eq.
Qed.

(** The service is cut off from the orders there are.  From a database whose orders
    come from the marketplace - they have no account - and whose service tables are empty,
    whatever is requested of the two, the tables of the service stay empty, the marketplace
    is as if it alone had been asked, no payment is ever recorded, and no new order is
    created: the service refuses an order without an account, and an order it creates lacks
    columns the table requires. *)
Theorem service_is_cut_off ops db :
  sv_grants db = [] -> sv_audit db = [] -> sv_events db = [] -> sv_new_orders db = [] ->
  (forall k o, orders_of db !! k = Some o -> o_account_id o = None) ->
  let db' := service_run ops db in
  db' = sv_put_market (market_run (market_requests ops)) db /\
  (forall p ck pid c, exists e, fst (record_payment_and_grant p ck pid c db') = Raise e) /\
  (forall p now created c,
     find_row (fun o => bool_decide (o_idempotency_key o = cr_idempotency_key c)) (orders_of db') = None ->
     exists e, fst (service_create_order p now created c db') = Raise e).
Proof.
  intros Eg Ea Ee En Hacc. cbv zeta.
  assert (service_run ops db = sv_put_market (market_run (market_requests ops)) db) as E.
  { revert db Eg Ea Ee En Hacc. induction ops as [|o ops IH]; intros db Eg Ea Ee En Hacc; [by destruct db|]. cbn.
    destruct o as [o|p now created c|p ck pid c]; cbn.
    - rewrite IH //. exact (accounts_never_set _ _ (market_exec_moved o _) Hacc).
    - destruct (create_changes_nothing p now created c db En) as [-> _]. by apply IH.
    - destruct (record_without_account p ck pid c db Eg En Hacc) as [e ->]. by apply IH. }
  rewrite E. assert (forall k o, orders_of (sv_put_market (market_run (market_requests ops)) db) !! k = Some o ->
    o_account_id o = None) as Hacc' by exact (accounts_never_set _ _ (market_run_moved _ _) Hacc).
  split_and!; [done|..].
  - intros p ck pid c.
    destruct (record_without_account p ck pid c (sv_put_market (market_run (market_requests ops)) db) Eg En Hacc') as [e ->].
    by exists e.
  - intros p now created c Hf. by apply (create_changes_nothing p now created c).
Qed.
End Histories.

(** ** Witnesses

    An order of 10,000 units at 182.9 dinars with an account, its payment at the service, and
    the same order as the marketplace leaves it. *)
#[local] Instance ex_service_sha : Sha256 := ex_short_digest 0.
#[local] Instance ex_service_uuid5 : Uuid5 := fun namespace name => ex_short_digest 0 (namespace +:+ name).

Definition with_account (account : UUID) (o : CommercialTopUpOrder) : CommercialTopUpOrder :=
  {| o_account_id := Some account; o_customer_ref := o_customer_ref o; o_subscription_id := o_subscription_id o;
     o_quota_cycle_id := o_quota_cycle_id o; o_plan_code := o_plan_code o; o_plan_catalog_version := o_plan_catalog_version o;
     o_requested_units := o_requested_units o; o_bundle_count := o_bundle_count o; o_total_price_usd := o_total_price_usd o;
     o_settlement_currency := o_settlement_currency o; o_settlement_amount := o_settlement_amount o;
     o_exchange_rate_usd_tnd := o_exchange_rate_usd_tnd o; o_exchange_rate_source := o_exchange_rate_source o;
     o_exchange_rate_reference := o_exchange_rate_reference o;
     o_exchange_rate_observed_at := o_exchange_rate_observed_at o;
     o_exchange_rate_expires_at := o_exchange_rate_expires_at o; o_channel := o_channel o;
     o_provider_variant_id := o_provider_variant_id o; o_provider_checkout_id := o_provider_checkout_id o;
     o_checkout_creation_status := o_checkout_creation_status o; o_idempotency_key := o_idempotency_key o;
     o_state := o_state o; o_created_at := o_created_at o |}.

Definition service_of (m : MarketDb) : ServiceDb :=
  {| sv_market := m; sv_grants := []; sv_audit := []; sv_events := []; sv_new_orders := [] |}.
Definition ex_service_db : ServiceDb := Eval vm_compute in
  service_of (put_top_ups (fun t => default t ((fun o => tu_put_order "o1" (with_account "acct" o) t) <$> tu_orders t !! "o1"))
    db_ordered).
Definition ex_policy : TopUpApplicationPolicy :=
  {| ap_order_creation_enabled := true; ap_payment_verification_enabled := true; ap_grant_execution_enabled := true;
     ap_order_storage_enabled := true; ap_payment_storage_enabled := true; ap_grant_storage_enabled := true;
     ap_audit_storage_enabled := true; ap_event_ledger_enabled := true |}.
Definition ex_clock : Clock :=
  {| ck_events := noon 2026 1 26; ck_payment := noon 2026 1 26; ck_grant := noon 2026 1 26; ck_created := noon 2026 1 26 |}.
Definition ex_record_command : RecordPaymentAndGrantCommand :=
  {| rp_order_id := "o1"; rp_provider_reference := "bank-1"; rp_verified_amount := Dec 1829 (-1); rp_verified_currency := "tnd";
     rp_immutable_evidence_reference := "scan-1"; rp_actor_reference := "clerk" |}.
Definition ex_recorded : res TopUpApplicationResult * ServiceDb :=
  Eval vm_compute in record_payment_and_grant ex_policy ex_clock "p1" ex_record_command ex_service_db.
Definition ex_create_command : CreateTopUpOrderCommand :=
  {| cr_order_id := "o2"; cr_account_id := "acct"; cr_subscription_id := "sub"; cr_plan_code := "starter";
     cr_requested_units := 10000; cr_bundle_count := 1; cr_total_price_usd := dec_int 59; cr_channel := LEMON_SQUEEZY;
     cr_idempotency_key := "k2"; cr_actor_reference := "clerk"; cr_evidence_reference := "form-2"; cr_settlement_currency := None;
     cr_settlement_amount := None; cr_exchange_rate_usd_tnd := None; cr_exchange_rate_source := None;
     cr_exchange_rate_reference := None; cr_exchange_rate_observed_at := None; cr_exchange_rate_expires_at := None |}.

Example ex_recorded_rows :
  (fst ex_recorded, length (sv_grants (snd ex_recorded)), length (sv_audit (snd ex_recorded)),
   map (fun r => (er_current_state r, er_next_state r)) (sv_events (snd ex_recorded))) =
  (Ok (record_result ex_record_command AoPaymentAndGrantRecorded true), 1%nat, 2%nat,
   [("awaiting_payment", "payment_pending"); ("payment_pending", "payment_verified"); ("payment_verified", "grant_pending");
    ("grant_pending", "granted")]).
Proof. reflexivity. Qed.

Definition ex_result : TopUpApplicationResult := record_result ex_record_command AoPaymentAndGrantRecorded true.
Lemma ex_recorded_eq :
  record_payment_and_grant ex_policy ex_clock "p1" ex_record_command ex_service_db = (Ok ex_result, snd ex_recorded).
Proof. vm_compute. reflexivity. Qed.

Lemma ex_service_inv : market_inv (sv_market ex_service_db).
Proof.
  split; [vm_compute; reflexivity|]. destruct db_ordered_inv as [[_ [Hb Hr]] _]. split; [exact Hb|exact Hr].
Qed.

Lemma service_grants_have_their_trail_witness :
  let db := service_run [SvCreate ex_policy (noon 2026 1 25) (noon 2026 1 25) ex_create_command;
                         SvRecord ex_policy ex_clock "p1" ex_record_command;
                         SvMarket (OpVerifyLocal "p2" "g2" (ex_payment (noon 2026 1 28)))] ex_service_db in
  service_ok db /\ map cg_units (sv_grants db) = [10000].
Proof.
  split; [|vm_compute; reflexivity].
  exact (service_grants_have_their_trail _ ex_service_db eq_refl eq_refl eq_refl eq_refl).
Defined.

Lemma recorded_payment_is_recognised_witness :
  let db2 := service_run [SvMarket (OpVerifyLocal "p2" "g2" (ex_payment (noon 2026 1 28)))] (snd ex_recorded) in
  record_payment_and_grant ex_policy ex_clock "p3" ex_record_command db2 =
    (Ok (record_result ex_record_command AoIdempotentReplay false), db2).
Proof.
  exact (proj1 (recorded_payment_is_recognised ex_policy ex_clock "p1" ex_record_command ex_service_db ex_result (snd ex_recorded)
    [SvMarket (OpVerifyLocal "p2" "g2" (ex_payment (noon 2026 1 28)))] ex_service_inv eq_refl
    ex_recorded_eq eq_refl) ex_clock "p3").
Defined.

Lemma service_grant_never_reaches_the_balance_witness :
  top_up_in "c1" (sv_market (snd ex_recorded)) = Some 0 /\
  db_cycles (sv_market (snd ex_recorded)) = db_cycles (sv_market ex_service_db) /\
  sv_grants (snd ex_recorded) <> [].
Proof.
  split; [vm_compute; reflexivity|]. split; [|vm_compute; discriminate].
  exact (proj1 (service_grant_never_reaches_the_balance ex_policy ex_clock "p1" ex_record_command ex_service_db ex_result
    (snd ex_recorded) [] ex_service_inv eq_refl ex_recorded_eq eq_refl)).
Defined.

Lemma ex_ordered_accounts k o : orders_of (service_of db_ordered) !! k = Some o -> o_account_id o = None.
Proof.
  revert k o. change (map_Forall (fun _ o => o_account_id o = None) (orders_of (service_of db_ordered))).
  apply (bool_decide_unpack _). vm_compute. exact I.
Qed.

Lemma service_is_cut_off_witness :
  let db := service_run [SvCreate ex_policy (noon 2026 1 25) (noon 2026 1 25) ex_create_command;
                         SvRecord ex_policy ex_clock "p1" ex_record_command;
                         SvMarket (OpVerifyLocal "p2" "g2" (ex_payment (noon 2026 1 28)))] (service_of db_ordered) in
  db = sv_put_market (market_run [OpVerifyLocal "p2" "g2" (ex_payment (noon 2026 1 28))]) (service_of db_ordered) /\
  top_up_in "c1" (sv_market db) = Some 10000.
Proof.
  split; [|vm_compute; reflexivity].
  exact (proj1 (service_is_cut_off [SvCreate ex_policy (noon 2026 1 25) (noon 2026 1 25) ex_create_command;
    SvRecord ex_policy ex_clock "p1" ex_record_command;
    SvMarket (OpVerifyLocal "p2" "g2" (ex_payment (noon 2026 1 28)))] (service_of db_ordered)
    eq_refl eq_refl eq_refl eq_refl ex_ordered_accounts)).
Defined.

Definition ex_evidence : TopUpTransitionEvidence :=
  {| te_order_id := "o1"; te_provider_reference := "bank-1"; te_actor_reference := "clerk"; te_evidence_reference := "scan-1";
     te_occurred_at := noon 2026 1 26; te_payment_payload_digest := "digest-1"; te_grant_payload_digest := "digest-2" |}.
Definition ex_ledger_event : CommercialEvent :=
  authority_event ex_evidence (GRANT_PENDING, GRANTED, "apply_grant", "digest-2").

Lemma event_record_reads_back_witness : to_event (to_record ex_ledger_event) = Ok (respelled ex_ledger_event).
Proof. exact (proj1 (event_record_reads_back ex_ledger_event eq_refl eq_refl)). Defined.
