(* ===== verification/SalesRequestProps.v ===== *)
(** * The properties of single requests of the sales

    What an order is sold at, the idempotency of its key, who may change an order, the
    audit trail, and that a refused request changes nothing. *)
From stdpp Require Import pretty.
From S2P Require Import Prelude PyString PyDateTime PyDecimal PyText PyJson Authority Uow SalesDb MarketDb.
From S2P Require Import CommerceAudit DirectOrder PaymentEvidence PaymentReconciliation.
From S2P Require Import Activation TopUpSpec MarketFrames LemonSpec.
From S2P Require Import OrderSpec SalesChange MarketLedger SalesLedger.
From S2P Require Import MarketLedger ProviderProps SalesProps.
From Stdlib Require Import Ascii.
#[local] Open Scope Z_scope.

Section SalesRequestProps.
Context `{Sha256}.
Implicit Types (db : MarketDb) (o : AdminMarketOrder).

(** ** The order *)

(** An order request that changes the database created the order. *)
Lemma created_order ids cmd now db later r :
  direct_order_request cmd now = Ok r ->
  snd (create_direct_order ids cmd now db later) <> db ->
  exists offer_id offer d o,
    order_sold r ids offer_id offer d o db /\
    market_orders (snd (create_direct_order ids cmd now db later)) = <[si_row ids := o]> (market_orders db).
Proof.
  intros Hr. pose proof (create_direct_order_outcome ids cmd now db later) as E. rewrite Hr in E.
  destruct E as [result E].
  destruct E as [| |offer_id offer d o result aid a n db' Hs _ _ -> _]; [done..|]. intros _.
  exists offer_id, offer, d, o. by rewrite logged_orders.
Qed.

Lemma built_order_terms reference r offer_id offer d o :
  build_order reference r offer_id offer d = Ok o ->
  or_customer_ref o = dq_customer r /\ or_offer_id o = offer_id /\ or_plan_id o = of_plan_id offer /\
  quantize ROUND_HALF_EVEN (-3) (of_amount offer) = Ok (or_total_amount o) /\
  or_subtotal_amount o = or_total_amount o /\ or_tax_amount o = Dec 0 (-3) /\
  or_payment_destination_snapshot o = destination_snapshot d (dq_now r) /\
  or_creation_idempotency_key_hash o = Some (dq_hash r) /\ or_billing_period o = dq_period r /\
  or_selected_channel o = MaestroDirect /\
  or_offer_snapshot o = offer_snapshot offer (dq_plan r) (dq_period r) (or_total_amount o) (dq_now r).
Proof.
  unfold build_order. destruct (quantize _ _ _) as [amount|e]; [|done].
  change (mret ?x = Ok o) with (Ok x = Ok o). intros [= <-]. by cbn.
Qed.

(** C31. A direct order is sold at the price of the newest offer.  A request that changes the
    database adds one order, of the requesting customer: for an offer of the plan that is
    published, direct, in dinars, of the period and effective now, of which no offer like
    it is newer; at the offer's amount rounded to the millime, without tax; and payable to
    the active default destination, as it is at that moment. *)
Theorem direct_order_is_sold_at_the_newest_price ids cmd now db later r :
  direct_order_request cmd now = Ok r ->
  let db' := snd (create_direct_order ids cmd now db later) in db' <> db ->
  exists o offer_id offer did d,
    market_orders db' = <[si_row ids := o]> (market_orders db) /\ market_orders db !! si_row ids = None /\
    or_customer_ref o = dq_customer r /\ order_phase o = Some Contracting /\
    sl_offers (db_sales db) !! offer_id = Some offer /\ or_offer_id o = offer_id /\
    or_plan_id o = of_plan_id offer /\
    direct_offer_on_sale (db_plans db) (dq_plan r) (dq_period r) (dq_now r) offer = true /\
    (forall k other, sl_offers (db_sales db) !! k = Some other ->
       direct_offer_on_sale (db_plans db) (dq_plan r) (dq_period r) (dq_now r) other = true ->
       instant (of_updated_at other) <= instant (of_updated_at offer)) /\
    quantize ROUND_HALF_EVEN (-3) (of_amount offer) = Ok (or_total_amount o) /\
    or_subtotal_amount o = or_total_amount o /\ or_tax_amount o = Dec 0 (-3) /\
    sl_destinations (db_sales db) !! did = Some d /\ is_active_default d = true /\
    or_payment_destination_snapshot o = destination_snapshot d (dq_now r).
Proof.
  intros Hr db' Hne. destruct (created_order _ _ _ _ _ _ Hr Hne) as (offer_id & offer & d & o & Hs & E).
  destruct Hs as [_ _ Ho Hsale Hnew (did & Hd & Ha) Hb Hf].
  destruct (built_order_terms _ _ _ _ _ _ Hb) as (? & ? & ? & ? & ? & ? & ? & _).
  destruct (built_order_columns _ _ _ _ _ _ Hb) as (_ & _ & ?).
  exists o, offer_id, offer, did, d. by split_and!.
Qed.

(** The order of a creation key. *)
Lemma order_of_key db h id o :
  market_constraints db = Ok tt -> market_orders db !! id = Some o ->
  or_creation_idempotency_key_hash o = Some h ->
  find_row (fun o => bool_decide (or_creation_idempotency_key_hash o = Some h)) (market_orders db) = Some (id, o).
Proof.
  unfold market_constraints. intros (? & Hu%ensure_Ok & _)%res_bind_Ok Ho Hh. to_prop.
  match goal with Hs : sales_uniques _ = true |- _ => unfold sales_uniques in Hs; to_prop end.
  match goal with Hx : unique_on or_creation_idempotency_key_hash _ = true |- _ =>
    rewrite unique_on_true in Hx; rename Hx into Hq end.
  destruct (find_row _ _) as [[k o1]|] eqn:E.
  - apply find_row_Some in E as [Hk Hx%bool_decide_eq_true].
    assert (k = id) as -> by exact (Hq k id o1 o h Hk Ho Hx Hh). congruence.
  - pose proof (find_row_None _ _ _ _ E Ho) as Hn. by apply bool_decide_eq_false in Hn.
Qed.

Lemma same_request_core o o' customer plan period :
  order_core o' = order_core o ->
  same_order_request o' customer plan period = same_order_request o customer plan period.
Proof.
  intros E. change (same_order_request (order_core o') customer plan period =
                    same_order_request (order_core o) customer plan period). by rewrite E.
Qed.

(** The idempotency key of an order is recognised for ever.  After a request created an
    order, whatever requests ran in between, a request with the same key is answered with
    that order and changes nothing if it is for the same customer, plan and period; any
    other one (also of another customer) is refused as a conflict and changes nothing. *)
Theorem direct_order_key_is_recognised ops ids0 cmd0 now0 db later0 r0 ids cmd now later r :
  market_inv db -> sales_inv db -> direct_order_request cmd0 now0 = Ok r0 ->
  let db1 := snd (create_direct_order ids0 cmd0 now0 db later0) in db1 <> db ->
  direct_order_request cmd now = Ok r -> dq_hash r = dq_hash r0 ->
  let db2 := market_run ops db1 in
  let answer := create_direct_order ids cmd now db2 later in
  if bool_decide ((dq_customer r, dq_plan r, dq_period r) = (dq_customer r0, dq_plan r0, dq_period r0))
  then exists result, answer = (Ok result, db2) /\ dor_order_id result = si_row ids0 /\
         dor_reason_code result = "commercial_order_create_idempotent"
  else exists e, answer = (Raise e, db2) /\ exn_kind e = DirectCommerceConflictError.
Proof.
  intros Hm Hi Hr0 db1 Hne Hr Hh db2 answer.
  destruct (created_order _ _ _ _ _ _ Hr0 Hne) as (offer_id & offer & d & o & Hs & E).
  set (run := OpSales H ids0 now0 later0 (SoOrder cmd0) :: ops).
  assert (db2 = market_run run db) as Erun by done.
  destruct (market_run_inv run db Hm) as [[Hc _] _].
  destruct (built_order_terms _ _ _ _ _ _ (os_order _ _ _ _ _ _ _ Hs))
    as (E1 & _ & _ & _ & _ & _ & _ & E2 & E3 & E4 & E5).
  assert (market_orders db1 !! si_row ids0 = Some o) as Ho by (rewrite /db1 E; apply lookup_insert_eq).
  assert (sales_inv db1) as Hi1
    by apply (sh_inv _ _ (market_exec_sales (OpSales H ids0 now0 later0 (SoOrder cmd0)) db Hi)).
  destruct (market_run_path ops _ _ _ Hi1 Ho E4) as (o' & Ho' & [_ _ Ec _ _ _ _]).
  assert (or_creation_idempotency_key_hash o' = Some (dq_hash r)) as Hh'.
  { change (or_creation_idempotency_key_hash (order_core o') = Some (dq_hash r)). rewrite Ec Hh. exact E2. }
  assert (or_offer_snapshot o' = or_offer_snapshot o) as Es
    by (change (or_offer_snapshot (order_core o') = or_offer_snapshot (order_core o)); by rewrite Ec).
  rewrite -Erun in Hc. pose proof (order_of_key _ _ _ _ Hc Ho' Hh') as Hf.
  assert (answer = with_replay (direct_order_body ids r) (direct_order_replay r) db2 later) as ->
    by (unfold answer, create_direct_order; by rewrite Hr).
  assert (with_uow (direct_order_body ids r) db2 =
            match require_same_request o' r with
            | Ok _ => (direct_order_result (si_row ids0) o' "commercial_order_create_idempotent", db2)
            | Raise e => (Raise e, db2)
            end) as Eb.
  { unfold with_uow, direct_order_body, market_order_by_creation_hash. rewrite bind_query.
    cbn [working]. rewrite Hf M_bind_eq. unfold lift.
    destruct (require_same_request o' r) as [u|e]; [|done]. by destruct (direct_order_result _ _ _). }
  assert (same_order_request o' (dq_customer r) (dq_plan r) (dq_period r) =
            bool_decide ((dq_customer r, dq_plan r, dq_period r) = (dq_customer r0, dq_plan r0, dq_period r0)))
    as Esame.
  { rewrite (same_request_core o _ _ _ _ Ec). unfold same_order_request. rewrite E1 E3 E4 E5.
    apply eq_true_iff_eq. rewrite !andb_true_iff !bool_decide_eq_true. split.
    - by intros [[[-> ->] <-] _].
    - by intros [= -> -> ->]. }
  unfold with_replay. rewrite Eb. unfold require_same_request. rewrite Esame.
  case_bool_decide; [|by eexists].
  unfold direct_order_result. rewrite Es E5. cbn. by eexists.
Qed.
(** ** Who may change an order *)

Lemma sales_required_Ok value name v : sales_required value name = Ok v -> v = strip value.
Proof. unfold sales_required. intros Hr. by inv_ok. Qed.

(** The orders a request may change: a customer's own, anything for an administrator with a
    recent second factor, an order ready for its activation; none for a new order. *)
Definition entitled (op : sales_op) (o : AdminMarketOrder) : Prop :=
  match op with
  | SoOrder _ => False
  | SoContract cmd => or_customer_ref o = strip (cm_customer_ref cmd)
  | SoReport cmd => or_customer_ref o = strip (rp_customer_ref cmd)
  | SoDecide cmd => super_administrator (vp_authority cmd) /\ au_recent_mfa_step_up (vp_authority cmd) = true
  | SoReconcile cmd => super_administrator (rx_authority cmd) /\ au_recent_mfa_step_up (rx_authority cmd) = true
  | SoActivate _ _ _ => or_status o = OrReadyForActivation
  end.

Lemma contract_request_customer cmd now r :
  contract_request cmd now = Ok r -> cq_customer r = strip (cm_customer_ref cmd).
Proof. unfold contract_request. intros Hr. inv_ok. subst r. eapply sales_required_Ok; eassumption. Qed.

Lemma payment_report_customer cmd now r :
  payment_report cmd now = Ok r -> pq_customer r = strip (rp_customer_ref cmd).
Proof. unfold payment_report. intros Hr. inv_ok. subst r. eapply sales_required_Ok; eassumption. Qed.

Lemma required_authority c a d :
  require_admin_marketplace_authority c a = Ok d -> a ∈ SENSITIVE_ACTIONS ->
  super_administrator c /\ au_recent_mfa_step_up c = true.
Proof.
  intros Hr Hs. assert (is_ok (require_admin_marketplace_authority c a) = true) as Hok by (by rewrite Hr).
  apply authority_allowed in Hok as [? Hm]. auto.
Qed.

Lemma payment_decision_authority cmd now r :
  payment_decision cmd now = Ok r ->
  super_administrator (vp_authority cmd) /\ au_recent_mfa_step_up (vp_authority cmd) = true.
Proof.
  unfold payment_decision. intros (d & Hd & _)%res_bind_Ok. apply (required_authority _ _ _ Hd).
  by apply (bool_decide_unpack _).
Qed.

Lemma case_decision_authority cmd now r :
  case_decision cmd now = Ok r ->
  super_administrator (rx_authority cmd) /\ au_recent_mfa_step_up (rx_authority cmd) = true.
Proof.
  unfold case_decision. intros (d & Hd & _)%res_bind_Ok. apply (required_authority _ _ _ Hd).
  by apply (bool_decide_unpack _).
Qed.

(** A row that an insertion changed is the inserted one. *)
Lemma changed_row {R} (m : Table R) k (x : R) id y :
  m !! id = Some y -> <[k := x]> m !! id <> Some y -> id = k.
Proof. intros Hy Hn. destruct (decide (k = id)); [done|]. by rewrite lookup_insert_ne in Hn. Qed.

(** C22. An order is changed only by those entitled to it.  A contract or a payment report
    changes an order of the named customer only; a decision on a payment or its
    reconciliation changes one only under the exclusive authority of an active platform
    administrator with a recent second factor; the activation only an order that is ready;
    and the creation of an order no other order. *)
Theorem order_changes_are_entitled ids now later op db id o :
  market_orders db !! id = Some o -> market_orders (sales_exec ids now later op db) !! id <> Some o ->
  entitled op o.
Proof.
  intros Ho. destruct op as [cmd|cmd|cmd|cmd|cmd|ref correlation key]; cbn.
  - pose proof (create_direct_order_outcome ids cmd now db later) as E.
    destruct (direct_order_request cmd now) as [r|x]; [|by rewrite E]. destruct E as [result E].
    destruct E as [| |offer_id offer d x result aid a n db' Hs _ _ -> _]; [done..|]. rewrite logged_orders.
    intros Hn. pose proof (changed_row _ _ _ _ _ Ho Hn) as ->.
    pose proof (os_fresh _ _ _ _ _ _ _ Hs). congruence.
  - pose proof (clickwrap_outcome ids cmd now db later) as E.
    destruct (contract_request cmd now) as [r|x] eqn:Er; [|by rewrite E]. destruct E as [result E].
    destruct E as [| |oid x c aid a n1 n2 db' Hx _ Hc _ _ -> _ _ -> _]; [done..|]. rewrite logged_orders.
    intros Hn. pose proof (changed_row _ _ _ _ _ Ho Hn) as ->.
    rewrite -(contract_request_customer _ _ _ Er). congruence.
  - pose proof (report_payment_outcome ids cmd now db later) as E.
    destruct (payment_report cmd now) as [r|x] eqn:Er; [|by rewrite E]. destruct E as [result E].
    destruct E as [| |oid x m e aid a n db' _ Hx _ Hc _ _ -> _ _ -> _]; [done..|]. rewrite logged_orders.
    intros Hn. pose proof (changed_row _ _ _ _ _ Ho Hn) as ->.
    rewrite -(payment_report_customer _ _ _ Er). congruence.
  - pose proof (decide_payment_outcome ids cmd now db later) as E.
    destruct (payment_decision cmd now) as [r|x] eqn:Er; [|by rewrite E]. intros _.
    exact (payment_decision_authority _ _ _ Er).
  - pose proof (reconcile_payment_outcome ids cmd now db) as E.
    destruct (case_decision cmd now) as [r|x] eqn:Er; [|by rewrite E]. intros _.
    exact (case_decision_authority _ _ _ Er).
  - pose proof (activate_ready_order_outcome ids ref correlation key now db later) as E.
    destruct (activation_request ref correlation key now) as [r|x]; [|by rewrite E]. destruct E as [result E].
    destruct E as [| |oid x plan s a uid u n db' Hx _ _ Hab -> -> _ _ _ -> _]; [done..|]. rewrite logged_orders.
    intros Hn. pose proof (changed_row _ _ _ _ _ Ho Hn) as ->.
    assert (x = o) as <- by congruence. apply (order_ready_inv _ (ab_ready _ _ _ _ _ Hab)).
Qed.

(** ** Refused requests *)

Lemma with_replay_refused {A} (body : Market A) (replay : Market (option A)) db later :
  fails_clean body -> is_ok (fst (with_replay body replay db later)) = false ->
  snd (with_replay body replay db later) = db.
Proof.
  intros Hb. rewrite with_replay_db. unfold with_replay.
  destruct (with_uow body db) as [[x|e] db'] eqn:E; [done|]. intros _. by apply with_uow_fails in E.
Qed.

(** A refused request changes nothing.  When a request of the direct sales raises,
    whatever it had written before, and also when the commit fails after a concurrent
    request, the database is the one it found. *)
Theorem refused_sale_changes_nothing ids now later op db :
  sales_accepted ids now later op db = false -> sales_exec ids now later op db = db.
Proof.
  destruct op as [cmd|cmd|cmd|cmd|cmd|ref correlation key]; cbn.
  - unfold create_direct_order. destruct (direct_order_request cmd now); [|done].
    apply with_replay_refused, direct_order_body_fails.
  - unfold complete_authenticated_clickwrap. destruct (contract_request cmd now); [|done].
    apply with_replay_refused, contract_body_fails.
  - unfold report_payment. destruct (payment_report cmd now); [|done].
    apply with_replay_refused, report_body_fails.
  - unfold decide_payment. destruct (payment_decision cmd now); [|done].
    apply with_replay_refused, decision_body_fails.
  - unfold reconcile_payment. destruct (case_decision cmd now) as [r|e]; [|done].
    destruct (with_uow (case_body ids r) db) as [[x|e] db'] eqn:E; [done|]. intros _.
    apply with_uow_fails in E; [done|apply case_body_fails].
  - unfold activate_ready_order. destruct (activation_request ref correlation key now); [|done].
    apply with_replay_refused, activation_body_fails.
Qed.

(** ** The audit trail *)

Lemma audited_kept db db' : audited db db' -> audits db ⊆ audits db'.
Proof. intros [->|(k & a & Hk & ->)]; [done|by apply insert_subseteq]. Qed.

(** C23. Every change of the sales is audited.  A request that changes the tables of the
    sales adds exactly one audit record, under a key that was free, in the same commit; no
    sequence of requests ever changes or removes one. *)
Theorem every_sale_is_audited ops db :
  (forall op, audited db (market_exec op db)) /\ audits db ⊆ audits (market_run ops db).
Proof.
  split; [intros op; apply market_exec_audited|].
  revert db. induction ops as [|op ops IH]; intros db; [done|]. cbn.
  etrans; [apply audited_kept, (market_exec_audited op)|apply IH].
Qed.
End SalesRequestProps.

(** ** Witnesses *)

#[local] Existing Instance ex_sha.

Definition ex_ordered_db : MarketDb :=
  snd (create_direct_order (ex_sales_ids "a") ex_direct_command (noon 2026 1 15) ex_sales_db ex_sales_db).

Definition ex_order_request : DirectOrderRequest := Eval vm_compute in
  match direct_order_request ex_direct_command (noon 2026 1 15) with
  | Ok r => r
  | Raise _ => {| dq_actor := ""; dq_session := ""; dq_customer := ""; dq_plan := ""; dq_period := Monthly;
                  dq_correlation := ""; dq_hash := ""; dq_now := noon 2026 1 15 |}
  end.

Lemma ex_ordered_differs : ex_ordered_db <> ex_sales_db.
Proof.
  intros E. apply (f_equal (fun db => bool_decide (is_Some (market_orders db !! ex_order_id)))) in E.
  vm_compute in E. discriminate E.
Qed.

Lemma direct_order_is_sold_at_the_newest_price_witness :
  exists o offer, market_orders ex_ordered_db !! ex_order_id = Some o /\
    sl_offers (db_sales ex_sales_db) !! or_offer_id o = Some offer /\
    quantize ROUND_HALF_EVEN (-3) (of_amount offer) = Ok (or_total_amount o).
Proof.
  assert (direct_order_request ex_direct_command (noon 2026 1 15) = Ok ex_order_request) as Hr
    by (vm_compute; reflexivity).
  destruct (direct_order_is_sold_at_the_newest_price (ex_sales_ids "a") ex_direct_command (noon 2026 1 15)
              ex_sales_db ex_sales_db ex_order_request Hr ex_ordered_differs)
    as (o & offer_id & offer & did & d & E & _ & _ & _ & Hof & Hid & _ & _ & _ & Hq & _).
  exists o, offer. rewrite Hid. split; [|split; [exact Hof|exact Hq]].
  exact (eq_trans (f_equal (fun m : Table AdminMarketOrder => m !! ex_order_id) E) (lookup_insert_eq _ _ _)).
Defined.

Lemma direct_order_key_is_recognised_witness :
  exists result, create_direct_order (ex_sales_ids "z") ex_direct_command (noon 2026 2 1)
      (market_run [ex_sale "b" 16 (SoContract ex_contract_command)] ex_ordered_db) ex_sales_db =
    (Ok result, market_run [ex_sale "b" 16 (SoContract ex_contract_command)] ex_ordered_db) /\
    dor_order_id result = ex_order_id /\ dor_reason_code result = "commercial_order_create_idempotent".
Proof.
  destruct ex_sales_db_inv as [Hm Hi].
  apply (direct_order_key_is_recognised [ex_sale "b" 16 (SoContract ex_contract_command)] (ex_sales_ids "a")
           ex_direct_command (noon 2026 1 15) ex_sales_db ex_sales_db ex_order_request (ex_sales_ids "z")
           ex_direct_command (noon 2026 2 1) ex_sales_db
           {| dq_actor := dq_actor ex_order_request; dq_session := dq_session ex_order_request;
              dq_customer := dq_customer ex_order_request; dq_plan := dq_plan ex_order_request;
              dq_period := dq_period ex_order_request; dq_correlation := dq_correlation ex_order_request;
              dq_hash := dq_hash ex_order_request; dq_now := noon 2026 2 1 |} Hm Hi);
    [vm_compute; reflexivity|exact ex_ordered_differs|vm_compute; reflexivity|reflexivity].
Defined.

Lemma order_changes_are_entitled_witness :
  market_orders ex_ordered_db !! ex_order_id = Some ex_contracting_order /\
  or_customer_ref ex_contracting_order = "tunis".
Proof.
  assert (market_orders ex_ordered_db !! ex_order_id = Some ex_contracting_order) as Ho
    by (vm_compute; reflexivity).
  split; [exact Ho|].
  apply (order_changes_are_entitled (ex_sales_ids "b") (noon 2026 1 16) ex_sales_db
           (SoContract ex_contract_command) ex_ordered_db ex_order_id ex_contracting_order Ho).
  vm_compute. discriminate.
Defined.

Lemma refused_sale_changes_nothing_witness :
  sales_exec (ex_sales_ids "c") (noon 2026 1 16) ex_sales_db (SoReport (ex_report (dec_int 100))) ex_ordered_db =
  ex_ordered_db.
Proof. apply refused_sale_changes_nothing. vm_compute. reflexivity. Defined.
