(* ===== verification/PricingProps.v ===== *)
(** * Properties of the prices and of the amounts

    The selected plan prices against the computed floor, the quotes of top-ups, and the
    settlement in Tunisian dinars; the amounts of the provider's evidence keep their value as
    text, and the price asked of the provider at a checkout is the price its paid webhook is
    compared with. *)
From S2P Require Import Prelude PyString PyDecimal PyDateTime PyText PyJson MaestroUnits PlanCatalog PricingReview TopUpQuote LemonWebhook Uow TopUpDb MarketDb TopUpOrder TopUpGrant LemonRuntime LemonTopUp LemonCheckout.
From stdpp Require Import pretty.
From Stdlib Require Import Ascii QArith Qabs Qpower Lqa.
#[local] Open Scope Z_scope.

Section PricingProps.

(** The monthly price covers the computed floor, which covers the cost; the yearly price
    is twelve months less 15%; the units are those of the fulfilment catalog; nothing is
    approved. *)
Definition covered (p : SelectedPlanProposal) : bool :=
  dec_leb (calculated_minimum_monthly_price p) (selected_monthly_price p) &&
  dec_ltb (calculated_monthly_cost p) (calculated_minimum_monthly_price p) &&
  dec_eqb (selected_yearly_price p) (dec_mul (selected_monthly_price p) (Dec 1020 (-2))) &&
  (sp_monthly_unit_allowance p =? monthly_unit_allowance (Some (sp_plan_id p))) &&
  negb (sp_approved_for_pricing p) && negb (sp_approved_for_checkout p).

(** Twelve months of the yearly price reach the floor of the monthly price. *)
Definition year_covered (p : SelectedPlanProposal) : bool :=
  dec_leb (dec_mul (calculated_minimum_monthly_price p) (dec_int 12)) (selected_yearly_price p).

Definition selected_proposal : list SelectedPlanProposal := Eval vm_compute in
  ok_or [] build_selected_pricing_proposal.

Lemma proposal_built : build_selected_pricing_proposal = Ok selected_proposal.
Proof. vm_compute. reflexivity. Qed.

Lemma no_config_unknown code :
  code ∉ dict_keys SELECTED_MONTHLY_PRICES ->
  dict_get PLAN_REVIEW_CONFIG code = None.
Proof.
  intros H. apply dict_get_None. intros Hin. apply H.
  assert (dict_keys PLAN_REVIEW_CONFIG = dict_keys SELECTED_MONTHLY_PRICES) as <- by reflexivity.
  done.
Qed.

(** The selected prices are consistent with the pricing review.  The proposal builds;
    every plan is priced monthly at or above the computed floor, which lies above the
    computed cost, yearly at 85% of twelve months, for exactly the units of the
    fulfilment catalog, and none is approved; a plan outside the proposal is refused.
    The floor is only enforced on the monthly price: over a year, exactly the starter,
    enterprise scale and enterprise strategic plans are sold below it. *)
Theorem selected_prices_against_floor :
  exists l, build_selected_pricing_proposal = Ok l /\
    map sp_plan_id l = dict_keys SELECTED_MONTHLY_PRICES /\
    forallb covered l = true /\
    map sp_plan_id (List.filter (fun p => negb (year_covered p)) l) =
      ["starter"; "enterprise_scale"; "enterprise_strategic"] /\
    forall code, code ∉ dict_keys SELECTED_MONTHLY_PRICES ->
      calculate_selected_plan_proposal code =
        review_error ("unknown selected proposal plan: " +:+ code).
Proof.
  exists selected_proposal. split; [exact proposal_built|].
  split; [vm_compute; reflexivity|]. split; [vm_compute; reflexivity|].
  split; [vm_compute; reflexivity|]. intros code H%no_config_unknown.
  unfold calculate_selected_plan_proposal. by rewrite H.
Qed.

(** C34. A top-up quote is exact.  For a plan of the table and a positive number of
    units, a runtime quote is given; it is purchasable exactly when the units are a whole
    number of bundles within the limits of the plan, and then it is for all the requested
    units at the overage price of the plan; otherwise it is for nothing.  The preview
    quotes the same units and price.  Other plans, and no or negative units, are
    refused. *)
Theorem top_up_quote_is_exact code n :
  match policy_of code with
  | None =>
      dict_get TOP_UP_POLICY_INPUTS code = None /\
      quote_top_up_for_runtime code n = raise ValueError ("Unknown top-up plan: " +:+ code)
  | Some p =>
      if 0 <? n
      then exists q q', quote_top_up_for_runtime code n = Ok q /\ quote_top_up code n = Ok q' /\
        total_units q' = total_units q /\ total_price_usd q' = total_price_usd q /\
        (bool_decide (tq_state q = READY_FOR_REVIEW) || bool_decide (tq_state q = UPGRADE_RECOMMENDED))
          = sells p n /\
        total_units q = (if sells p n then n else 0) /\
        (sells p n = true -> n = bundle_count q * bundle_units p) /\
        forall o, dict_get SELECTED_OVERAGE_PRICES_PER_1000_UNITS code = Some o ->
          (dval (total_price_usd q) == inject_Z (total_units q) * dval o / 1000)%Q
      else quote_top_up_for_runtime code n = raise ValueError "requested_units must be positive"
  end.
Proof.
  pose proof (quote_top_up_spec code n) as H. pose proof (quote_top_up_base_spec code n) as Hb.
  destruct (policy_of code) as [p|] eqn:Ep; [|split; [by apply policy_of_None|exact Hb]].
  destruct (0 <? n); [|exact Hb].
  destruct H as (q' & q & Hq' & Hq & Hok & Hc & Ht & Hp). exists q, q'.
  apply policy_of_Some in Ep as [Hcode Hpol]. destruct Hok as (_ & _ & _ & _ & Hs).
  split; [exact Hq|]. split; [exact Hq'|]. split; [exact Ht|]. split; [exact Hp|].
  clear Hq Hq' Hb. destruct (sells p n).
  - destruct Hs as (Hst & Hpos & Hn & Htot & Hpr). split_and!; [by destruct Hst as [-> | ->]|done|done|].
    intros o Ho. rewrite Hpr Htot Hn. apply bundle_price_exact; [done|by rewrite Hcode].
  - destruct Hs as (Hst & Hz & Htot & Hpr). split_and!; [by destruct Hst as [->|[-> | ->]]|done|done|].
    intros o _. rewrite Hpr Htot. unfold dval. cbn. unfold Qdiv. ring.
Qed.

Lemma res_positive v name u :
  require_positive_finite_decimal (Finite v) name = Ok u <-> (0 < dval v)%Q.
Proof.
  cbn. rewrite ensure_Ok dec_ltb_val. by replace (dval (dec_int 0)) with 0%Q by reflexivity.
Qed.

(** A decimal settled to the millime [d]: within half a millime, a half rounded up. *)
Definition settles (amount d : Q) : Prop :=
  (0 < amount /\ d - (1 # 2000) <= amount /\ amount < d + (1 # 2000))%Q.

Lemma millime_unit e : e <= -3 -> ((1 # 1000) == inject_Z (10 ^ (-3 - e)) * (10 # 1) ^ e)%Q.
Proof.
  intros He. rewrite -ten_pow; [lia|]. rewrite -Qpower_plus; [done|].
  by replace (-3 - e + e) with (-3) by lia.
Qed.

Lemma scaled_le x y e : (inject_Z x * (10 # 1) ^ e <= inject_Z y * (10 # 1) ^ e)%Q <-> x <= y.
Proof. rewrite Qmult_le_r; [apply ten_pos|]. by rewrite -Zle_Qle. Qed.

Lemma scaled_lt x y e : (inject_Z x * (10 # 1) ^ e < inject_Z y * (10 # 1) ^ e)%Q <-> x < y.
Proof. rewrite Qmult_lt_r; [apply ten_pos|]. by rewrite -Zlt_Qlt. Qed.

Lemma quantize_settles amount c :
  c < 10 ^ PREC ->
  (0 < dval amount)%Q /\ quantize ROUND_HALF_UP TND_QUANTUM amount = Ok (Dec c TND_QUANTUM) <->
  settles (dval amount) (dval (Dec c TND_QUANTUM)).
Proof.
  intros Hc. unfold settles.
  assert ((0 < dval amount)%Q <-> 0 < coef amount) as Hpos.
  { unfold dval. rewrite -(scaled_lt 0 (coef amount) (dexp amount)). by rewrite Qmult_0_l. }
  set (e := Z.min (dexp amount) TND_QUANTUM).
  assert (e <= -3) as He by (unfold e, TND_QUANTUM; lia).
  pose proof (dval_align e amount ltac:(unfold e; lia)) as Ha.
  pose proof (dval_align e (Dec c TND_QUANTUM) ltac:(unfold e; cbn [dexp]; lia)) as Hd.
  pose proof (millime_unit e He) as Hu. unfold align in Hd at 1. cbn [coef dexp] in Hd.
  change (TND_QUANTUM - e) with (-3 - e) in Hd. set (u := 10 ^ (-3 - e)) in *.
  set (x := dval amount) in *. set (y := dval (Dec c TND_QUANTUM)) in *.
  assert ((2 * x == inject_Z (2 * align e amount) * (10 # 1) ^ e)%Q) as Ex
    by (rewrite Ha inject_Z_mult; ring).
  assert ((2 * y - (1 # 1000) == inject_Z (2 * c * u - u) * (10 # 1) ^ e)%Q) as El
    by (rewrite Hd Hu /Zminus inject_Z_plus inject_Z_opp !inject_Z_mult; ring).
  assert ((2 * y + (1 # 1000) == inject_Z (2 * c * u + u) * (10 # 1) ^ e)%Q) as Er
    by (rewrite Hd Hu inject_Z_plus !inject_Z_mult; ring).
  assert ((y - (1 # 2000) <= x)%Q <-> 2 * c * u - u <= 2 * align e amount) as Hl.
  { rewrite -(scaled_le _ _ e) -El -Ex. split; intros; lra. }
  assert ((x < y + (1 # 2000))%Q <-> 2 * align e amount < 2 * c * u + u) as Hr.
  { rewrite -(scaled_lt _ _ e) -Er -Ex. split; intros; lra. }
  rewrite Hl Hr. split; intros [H1 H2]; (split; [done|]); apply Hpos in H1;
    by apply (quantize_half_up TND_QUANTUM amount c).
Qed.

(** A positive product that fits the column has a settlement. *)
Lemma settlement_exists d :
  (0 < dval d)%Q -> (dval d <= inject_Z (10 ^ 24))%Q -> is_ok (quantize ROUND_HALF_UP TND_QUANTUM d) = true.
Proof.
  intros Hpos Hle. set (e := Z.min (dexp d) TND_QUANTUM). set (u := 10 ^ (-3 - e)).
  assert (e <= -3) as He by (unfold e, TND_QUANTUM; lia).
  assert (0 < u) as Hu by (apply Z.pow_pos_nonneg; lia).
  assert (0 < coef d) as Hc.
  { unfold dval in Hpos. apply (scaled_lt 0 (coef d) (dexp d)). by rewrite Qmult_0_l. }
  assert (align e d <= 10 ^ 27 * u) as Ha.
  { apply (scaled_le _ _ e). rewrite -dval_align; [unfold e; lia|]. rewrite inject_Z_mult -Qmult_assoc -millime_unit //.
    eapply Qle_trans; [exact Hle|]. vm_compute. discriminate. }
  set (c := (2 * align e d + u) / (2 * u)).
  assert (2 * c * u - u <= 2 * align e d < 2 * c * u + u) as Hr.
  { pose proof (Z.div_mod (2 * align e d + u) (2 * u) ltac:(lia)).
    pose proof (Z.mod_pos_bound (2 * align e d + u) (2 * u) ltac:(lia)). fold c in H. lia. }
  assert (c < 10 ^ PREC) as Hlt by (apply Z.div_lt_upper_bound; unfold PREC; lia).
  apply (quantize_half_up TND_QUANTUM d c Hc Hlt) in Hr. by rewrite Hr.
Qed.

Lemma settlement_fits price r d :
  calculate_tnd_settlement price r = Ok d -> dexp d = TND_QUANTUM /\ Z.abs (coef d) < 10 ^ PREC.
Proof.
  intros (? & _ & (? & _ & H)%res_bind_Ok)%res_bind_Ok.
  split; [apply (quantize_spec _ _ _ _ H)|apply (quantize_fits _ _ _ _ H)].
Qed.

(** A local order is accepted exactly when its amount rounds to the settlement. *)
Lemma local_accepted price currency amount q :
  validate_channel_settlement LOCAL_TUNISIA price currency amount (Some q) = Ok tt <->
  upper (strip currency) = "TND" /\
  exists d, calculate_tnd_settlement price (eq_rate q) = Ok d /\ settles (dval amount) (dval d).
Proof.
  unfold validate_channel_settlement. split.
  - intros (u1 & Hp & (u2 & Ha & (u3 & Hcur%ensure_Ok & (d & Hd & (a & Hq & He%ensure_Ok)%res_bind_Ok)%res_bind_Ok)
      %res_bind_Ok)%res_bind_Ok)%res_bind_Ok.
    to_prop. split; [done|]. exists d. split; [done|]. apply settlement_fits in Hd as [Hx Hc].
    apply dec_eqb_val in He. apply res_positive in Ha.
    pose proof (quantize_spec _ _ _ _ Hq) as (Hax & _ & _).
    destruct d as [c x], a as [c' x']; cbn in Hx, Hc, Hax; subst x x'.
    unfold dval in He. cbn [coef dexp] in He.
    assert (c' = c) as -> by (apply Z.le_antisymm; apply (scaled_le _ _ TND_QUANTUM); rewrite He; apply Qle_refl).
    by apply quantize_settles; [lia|].
  - intros [Hcur (d & Hd & Hs)]. pose proof (settlement_fits _ _ _ Hd) as [Hx Hc].
    pose proof Hd as ([] & Hp & _)%res_bind_Ok.
    destruct d as [c x]; cbn in Hx, Hc; subst x. apply quantize_settles in Hs as [Hpos Hq]; [|lia].
    apply (res_positive amount "settlement_amount" tt) in Hpos. apply res_positive in Hp.
    apply (res_positive price "total_price_usd" tt) in Hp. rewrite Hp Hpos. cbn [mbind res_bind].
    rewrite Hcur Hd Hq. unfold LOCAL_TUNISIA_SETTLEMENT_CURRENCY. rewrite bool_decide_eq_true_2 //.
    cbn. by rewrite (proj2 (dec_eqb_val _ _) (Qeq_refl _)).
Qed.

(** C35. A settlement in dinars is the price at the rate to the nearest millime, and a local
    order is accepted exactly when it is paid.  For a price and a rate whose product has at
    most 28 digits, the precision of the decimal context: positive ones with a product of
    at most 10^24 have a settlement; a settlement is in millimes and within half a millime
    of the exact product, and of positive decimals only; and a local order in any spelling of
    TND is accepted exactly when its amount is positive and rounds, half a millime up, to
    the settlement, which for an amount in millimes is to be equal to it. *)
Theorem settlement_to_the_millime price r :
  Z.abs (coef price * coef r) < 10 ^ PREC ->
  ((0 < dval price)%Q -> (0 < dval r)%Q -> (dval price * dval r <= inject_Z (10 ^ 24))%Q ->
   exists d, calculate_tnd_settlement price r = Ok d) /\
  (forall d, calculate_tnd_settlement price r = Ok d ->
     (0 < dval price)%Q /\ (0 < dval r)%Q /\ dexp d = -3 /\
     (Qabs (dval d - dval price * dval r) * 2 <= (10 # 1) ^ (-3))%Q) /\
  (forall q currency amount, eq_rate q = r ->
     validate_channel_settlement LOCAL_TUNISIA price currency amount (Some q) = Ok tt <->
     upper (strip currency) = "TND" /\
     exists d, calculate_tnd_settlement price r = Ok d /\ settles (dval amount) (dval d)) /\
  (forall d amount, calculate_tnd_settlement price r = Ok d -> (0 < dval amount)%Q -> -3 <= dexp amount ->
     (settles (dval amount) (dval d) <-> (dval amount == dval d)%Q)).
Proof.
  intros Hfit. split; [|split; [|split]].
  - intros Hp Hr Hle. unfold calculate_tnd_settlement. pose proof (Qmult_lt_0_compat _ _ Hp Hr) as Hpr.
    apply (res_positive price "amount_usd" tt) in Hp as ->. apply (res_positive r "usd_tnd_rate" tt) in Hr as ->.
    rewrite -(dec_mul_val price r Hfit) in Hle Hpr. cbn [mbind res_bind].
    pose proof (settlement_exists (dec_mul price r) Hpr Hle) as Hq.
    destruct (quantize _ _ _) as [d|]; [by exists d|done].
  - intros d (u1 & H1 & (u2 & H2 & H)%res_bind_Ok)%res_bind_Ok.
    apply res_positive in H1. apply res_positive in H2.
    pose proof (quantize_spec _ _ _ _ H) as (He & _ & _). apply quantize_near in H.
    split_and!; try done. by rewrite (dec_mul_val price r Hfit) in H.
  - intros q currency amount <-. by apply local_accepted.
  - intros d amount Hd Hpos He. apply settlement_fits in Hd as [Hx Hc].
    destruct d as [c x]; cbn in Hx, Hc; subst x. rewrite -quantize_settles; [lia|]. split.
    + intros [_ Hq]. apply quantize_exact in Hq; [by rewrite Hq|done].
    + intros Heq. apply quantize_settles; [lia|]. unfold settles. rewrite -Heq. lra.
Qed.

End PricingProps.

(** 29.50 dollars at 3.117250 dinars: 91.958875, settled as 91.959. *)
Definition w_price : dec := Dec 2950 (-2).
Definition w_rate : dec := Dec 3117250 (-6).

Lemma settlement_to_the_millime_witness :
  calculate_tnd_settlement w_price w_rate = Ok (Dec 91959 (-3)) /\
  (Qabs (dval (Dec 91959 (-3)) - dval w_price * dval w_rate) * 2 <= (10 # 1) ^ (-3))%Q.
Proof.
  assert (calculate_tnd_settlement w_price w_rate = Ok (Dec 91959 (-3))) as H
    by (vm_compute; reflexivity).
  split; [exact H|].
  exact (proj2 (proj2 (proj2 (proj1 (proj2 (settlement_to_the_millime w_price w_rate ltac:(vm_compute; reflexivity)))
    (Dec 91959 (-3)) H)))).
Defined.

(** The quotes of a plan: a whole number of bundles, and not. *)
Example starter_quotes :
  option_map (fun p => (bundle_units p, minimum_bundle_count p)) (policy_of "starter") <> None /\
  is_ok (quote_top_up_for_runtime "starter" 1) = true /\
  is_ok (quote_top_up_for_runtime "unlimited" 1000) = false.
Proof. vm_compute. split_and!; [discriminate|reflexivity|reflexivity]. Qed.

Section AmountProps.

(** ** Decimals *)

Lemma dval_shift c k e : 0 <= k -> (dval (Dec (c * 10 ^ k) e) == dval (Dec c (e + k)))%Q.
Proof.
  intros Hk. unfold dval. cbn [coef dexp]. rewrite inject_Z_mult -ten_pow // -Qmult_assoc -Qpower_plus //.
  by rewrite Z.add_comm.
Qed.

(** Stripping trailing zeros keeps the value and does not enlarge the coefficient. *)
Lemma strip_zeros_val f c e i :
  0 <= c ->
  (dval (strip_zeros f c e i) == dval (Dec c e))%Q /\ 0 <= coef (strip_zeros f c e i) <= c.
Proof.
  revert c e. induction f as [|f IH]; intros c e Hc; cbn [strip_zeros]; [split; [done|cbn; lia]|].
  destruct (_ && _) eqn:E; [|split; [done|cbn; lia]]. to_prop.
  destruct (IH (c / 10) (e + 1) ltac:(Z.to_euclidean_division_equations; lia)) as [H1 H2].
  split; [|Z.to_euclidean_division_equations; lia]. rewrite H1 -dval_shift //.
  assert (c / 10 * 10 ^ 1 = c) as -> by (Z.to_euclidean_division_equations; lia). done.
Qed.

(** Zeros beyond the ideal exponent are all stripped. *)
Lemma strip_zeros_shift k f c e i :
  e + Z.of_nat k <= i ->
  strip_zeros (k + f) (c * 10 ^ Z.of_nat k) e i = strip_zeros f c (e + Z.of_nat k) i.
Proof.
  revert e. induction k as [|k IH]; intros e He.
  - cbn [Nat.add]. f_equal; [cbn|]; lia.
  - cbn [Nat.add strip_zeros]. rewrite Nat2Z.inj_succ Z.pow_succ_r; [lia|].
    replace (c * (10 * 10 ^ Z.of_nat k)) with (c * 10 ^ Z.of_nat k * 10) by ring.
    rewrite Z.mod_mul // Z.div_mul // (proj2 (Z.ltb_lt _ _)); [lia|]. cbn [andb Z.eqb].
    rewrite IH; [lia|]. f_equal. lia.
Qed.

(** Cents divided by a hundred are exact. *)
Lemma dec_div_cents n :
  0 < n < 10 ^ PREC ->
  exists d, dec_div (Dec n 0) (dec_int 100) = Ok d /\ (dval d == dval (Dec n (-2)))%Q.
Proof.
  intros Hn. unfold dec_div, dec_int. cbn [coef dexp]. change (100 =? 0) with false. cbn iota.
  rewrite (proj2 (Z.eqb_neq n 0)); [lia|]. rewrite (Z.sgn_pos n) //; [lia|].
  change (Z.sgn 100) with 1. change (ndigits 100) with 3. change (Z.abs 100) with 100.
  pose proof (ndigits_spec n) as (H1 & _). pose proof (ndigits_le n PREC ltac:(done) ltac:(lia)) as H2.
  unfold PREC in *. set (m := 30 - ndigits n). assert (0 <= m) as Hm by lia.
  replace (3 - ndigits n + 28 + 1) with (m + 2) by lia.
  rewrite (Z.max_l (m + 2) 0); [lia|]. rewrite (Z.max_r (- (m + 2)) 0); [lia|].
  rewrite (Z.abs_eq n); [lia|]. rewrite (Z.pow_add_r 10 m 2) //.
  change (100 * 10 ^ 0) with 100. change (10 ^ 2) with 100. rewrite Z.mul_assoc.
  rewrite Z.mod_mul // Z.div_mul //. cbn [Z.eqb].
  replace (Z.to_nat (m + 2)) with (Z.to_nat m + 2)%nat by lia.
  pose proof (strip_zeros_shift (Z.to_nat m) 2 n (0 - 0 - (m + 2)) (0 - 0) ltac:(lia)) as Es.
  rewrite Z2Nat.id // in Es. rewrite Es. replace (0 - 0 - (m + 2) + m) with (-2) by lia.
  destruct (strip_zeros_val 2 n (-2) (0 - 0) ltac:(lia)) as [Hv Hc].
  eexists. split; [reflexivity|]. rewrite dec_fix_exact; cbn [coef dexp]; [|].
  - unfold PREC. lia.
  - rewrite -Hv. destruct (strip_zeros 2 n (-2) (0 - 0)) as [c e]. by destruct c.
Qed.

Lemma quantize_digits m q d d' : quantize m q d = Ok d' -> Z.abs (coef d') < 10 ^ PREC.
Proof.
  unfold quantize. destruct (coef d =? 0); [intros H; by injection H as <-|].
  destruct (PREC <? adjusted d - q + 1); [done|].
  destruct (PREC <? ndigits _) eqn:E; [done|]. intros H. injection H as <-. cbn. apply Z.ltb_ge in E.
  destruct (ndigits_spec (if q <=? dexp d then align q d else shift_right m (coef d) (q - dexp d)))
    as (_ & H & _). eapply Z.lt_le_trans; [exact H|]. by apply Z.pow_le_mono_r.
Qed.

(** [int(normalized * 100)]: the coefficient of a price in cents. *)
Lemma cents_of_price c :
  0 < c < 10 ^ PREC ->
  let d := dec_mul (Dec c (-2)) (dec_int 100) in
  (if 0 <=? dexp d then coef d * 10 ^ dexp d else coef d / 10 ^ (- dexp d)) = c.
Proof.
  intros Hc. unfold dec_mul, dec_int. cbn [coef dexp]. unfold dec_fix. cbn [coef dexp].
  pose proof (ndigits_le (c * 100) 30 ltac:(done) ltac:(unfold PREC in *; lia)) as H30.
  pose proof (ndigits_spec (c * 100)) as (_ & Hlt & _).
  destruct (Z.leb_spec (ndigits (c * 100) - PREC) 0) as [|Hk]; [cbn; by rewrite Z.div_mul|].
  assert (ndigits (c * 100) - PREC = 1 \/ ndigits (c * 100) - PREC = 2) as Hcase
    by (unfold PREC in *; lia).
  assert (forall k, k = 1 \/ k = 2 -> shift_right ROUND_HALF_EVEN (c * 100) k = c * 10 ^ (2 - k)) as Hs.
  { intros k Hk2. unfold shift_right, round_div. rewrite Z.sgn_pos; [lia|]. rewrite Z.abs_eq; [lia|].
    assert (0 < 10 ^ k) as Hp by (destruct Hk2 as [-> | ->]; done).
    replace (c * 100) with (c * 10 ^ (2 - k) * 10 ^ k) by (destruct Hk2 as [-> | ->]; lia).
    rewrite Z.div_mul; [lia|]. rewrite Z.mod_mul; [lia|].
    rewrite (proj2 (Z.ltb_ge (10 ^ k) (2 * 0))); [lia|].
    rewrite (proj2 (Z.eqb_neq (10 ^ k) (2 * 0))); [lia|]. apply Z.mul_1_l. }
  destruct Hcase as [E|E]; rewrite E Hs; [by auto| |by auto|];
    match goal with |- context [Z.abs ?x =? ?y] => destruct (Z.eqb_spec (Z.abs x) y) end;
    unfold PREC in *.
  - change (c * 10 / 10 * 1 = c). by rewrite Z.div_mul // Z.mul_1_r.
  - change (c * 10 / 10 = c). by rewrite Z.div_mul.
  - exfalso. lia.
  - change (c * 1 * 1 = c). lia.
Qed.

Lemma dec_fix_nonpos d : coef d <= 0 -> coef (dec_fix d) <= 0.
Proof.
  intros H. unfold dec_fix. destruct (Z.leb_spec (ndigits (coef d) - PREC) 0) as [|Hk]; [done|].
  set (k := ndigits (coef d) - PREC) in *.
  assert (shift_right ROUND_HALF_EVEN (coef d) k <= 0) as Hs.
  { unfold shift_right. pose proof (Z.pow_pos_nonneg 10 k ltac:(lia) ltac:(lia)) as Hp.
    assert (0 <= round_div ROUND_HALF_EVEN (Z.abs (coef d)) (10 ^ k)) as Hr.
    { unfold round_div. pose proof (Z.div_pos (Z.abs (coef d)) (10 ^ k) ltac:(lia) Hp). case_match; lia. }
    pose proof (Z.sgn_spec (coef d)). nia. }
  destruct (_ =? _); cbn; [|done]. Z.to_euclidean_division_equations; lia.
Qed.

(** ** Round trips *)

Lemma digits_value_nonneg acc s n : 0 <= acc -> digits_value 10 acc s = Some n -> 0 <= n.
Proof.
  revert acc. induction s as [|c s IH]; intros acc Ha; cbn; [by intros [= <-]|].
  unfold digit_value. cbn. repeat case_match; try done; intros H'; simplify_eq.
  all: eapply IH, H'; unfold in_range in *; to_prop; lia.
Qed.

Lemma decimal_text_nonneg s neg c e : decimal_of_text s = Some (DFinite neg c e) -> 0 <= c.
Proof.
  unfold decimal_of_text. destruct (take_sign _) as [n s1]. destruct (span_chars _ _) as [w s2].
  destruct (take_fraction s2) as [f s3]. case_match.
  - destruct (digits_value _ _ _) eqn:E; [|done]. destruct (take_exponent s3); [|done].
    intros [= _ <- _]. by eapply digits_value_nonneg, E.
  - unfold special_text. by repeat case_match.
Qed.

Lemma format_value neg c e :
  0 <= c ->
  dec_eqb (dec_of_finite neg c e)
    (dec_of_finite neg (if 0 <=? e then c * 10 ^ e else c) (Z.min e 0)) = true.
Proof.
  intros Hc. apply dec_eqb_val. destruct (Z.leb_spec 0 e) as [He|He].
  - rewrite Z.min_r //. unfold dec_of_finite. destruct neg.
    + by rewrite -Z.mul_opp_l dval_shift.
    + by rewrite dval_shift.
  - by rewrite Z.min_l; [lia|].
Qed.

(** The amounts of the evidence are kept as text without losing anything: the text
    made of an amount of a webhook is read back as a number of the same value, and the
    amount is not negative. *)
Theorem evidence_amount_roundtrip v field text :
  evidence_amount v field = Ok text ->
  exists neg c e neg' c' e',
    decimal_of_json v = Some (DFinite neg c e) /\
    decimal_of_text text = Some (DFinite neg' c' e') /\
    dec_eqb (dec_of_finite neg c e) (dec_of_finite neg' c' e') = true /\
    dec_leb (dec_int 0) (dec_of_finite neg' c' e') = true.
Proof.
  intros H. assert (match decimal_of_json v with
    | Some (DFinite neg c _) => negb (neg && negb (c =? 0)) = true
    | _ => False end /\ match decimal_of_json v with
    | Some (DFinite neg c e) => text = format_f neg c e
    | _ => False end) as [Hn Ht].
  { unfold evidence_amount in H. destruct v; try discriminate H.
    all: destruct (decimal_of_json _) as [[neg c e| |]|]; try discriminate H.
    all: apply res_bind_Ok in H as (u & H1 & H2); apply ensure_Ok in H1; injection H2 as <-; by split. }
  destruct (decimal_of_json v) as [[neg c e| |]|] eqn:Ev; try done. subst text.
  assert (0 <= c) as Hc.
  { destruct v; cbn in Ev; try done; try by eapply decimal_text_nonneg.
    injection Ev as _ <- _. lia. }
  exists neg, c, e. do 3 eexists. split; [done|]. split; [by apply decimal_of_format|].
  split; [by apply format_value|]. apply dec_leb_val.
  pose proof (proj1 (dec_eqb_val _ _) (format_value neg c e Hc)) as <-.
  assert (0 <= coef (dec_of_finite neg c e)) as H0.
  { unfold dec_of_finite. destruct neg; [|done]. cbn in Hn |- *. to_prop. lia. }
  unfold dval at 1. cbn [coef dexp dec_int]. rewrite Qmult_0_l. apply Qmult_le_0_compat.
  - change 0%Q with (inject_Z 0). by rewrite -Zle_Qle.
  - apply Qlt_le_weak, ten_pos.
Qed.

(** C33. The price asked at a checkout comes back: an order's price of at most two
    decimals is asked as a number of cents, and the same number reported by the paid
    webhook is read as an amount equal to the order's price, so that a payment of what
    was asked is accepted. *)
Theorem checkout_price_comes_back k price cents field msg :
  -2 <= dexp price -> usd_to_cents k price = Ok cents ->
  exists text a, evidence_amount (JInt cents) field = Ok text /\
    amount_from_cents text msg = Ok a /\ dec_eqb a price = true.
Proof.
  intros He H. unfold usd_to_cents in H.
  apply res_bind_Ok in H as (d & Hq & H). apply res_bind_Ok in H as (u & H0 & H).
  apply ensure_Ok in H0. injection H as <-.
  pose proof (quantize_digits _ _ _ _ Hq) as Hd. pose proof (quantize_spec _ _ _ _ Hq) as (He' & _).
  pose proof (quantize_exact _ _ _ _ He Hq) as Hv. destruct d as [c e]. cbn in He', Hd. subst e.
  assert (0 < c) as Hc.
  { apply andb_true_iff in H0 as [_ H0]. apply dec_ltb_val in H0. destruct (Z.lt_ge_cases 0 c) as [|Hle]; [done|exfalso].
    revert H0. apply Qle_not_lt. unfold dval at 2. cbn [coef dexp dec_int]. rewrite Qmult_0_l.
    unfold dec_mul. pose proof (dec_fix_nonpos (Dec (c * 100) (-2 + 0)) ltac:(cbn; lia)) as Hf.
    cbn [coef dexp dec_int]. set (f := dec_fix _) in *. unfold dval. pose proof (ten_pos (dexp f)) as Hp.
    rewrite -(Qmult_0_l ((10 # 1) ^ dexp f)). apply Qmult_le_compat_r; [|by apply Qlt_le_weak].
    change 0%Q with (inject_Z 0). by rewrite -Zle_Qle. }
  assert (0 < c < 10 ^ PREC) as Hb by lia. rewrite (cents_of_price c Hb).
  unfold evidence_amount. cbn [decimal_of_json]. rewrite (proj2 (Z.ltb_ge c 0)); [lia|].
  rewrite (Z.abs_eq c); [lia|]. destruct (dec_div_cents c Hb) as (a & Ha & Hva).
  exists (format_f false c 0), a. split; [done|]. split.
  - unfold amount_from_cents. rewrite decimal_of_format; [lia|]. cbn [Z.leb].
    change (0 <=? 0) with true. cbn iota. rewrite Z.pow_0_r Z.mul_1_r. exact Ha.
  - apply dec_eqb_val. by rewrite Hva.
Qed.
End AmountProps.

(** A yearly price with a surcharge: 59.50 dollars. *)
Lemma evidence_amount_roundtrip_witness :
  evidence_amount (JStr "59.50") "total" = Ok "59.50" /\
  exists neg c e, decimal_of_text "59.50" = Some (DFinite neg c e).
Proof.
  assert (evidence_amount (JStr "59.50") "total" = Ok "59.50") as H by (vm_compute; reflexivity).
  split; [exact H|].
  destruct (evidence_amount_roundtrip (JStr "59.50") "total" "59.50" H) as (_ & _ & _ & n & c & e & _ & E & _).
  exists n, c, e. exact E.
Defined.

Lemma checkout_price_comes_back_witness :
  usd_to_cents ValueError (Dec 5950 (-2)) = Ok 5950 /\
  exists text a, evidence_amount (JInt 5950) "subtotal" = Ok text /\
    amount_from_cents text "invalid" = Ok a /\ dec_eqb a (Dec 5950 (-2)) = true.
Proof.
  assert (usd_to_cents ValueError (Dec 5950 (-2)) = Ok 5950) as H by (vm_compute; reflexivity).
  split; [exact H|].
  exact (checkout_price_comes_back ValueError (Dec 5950 (-2)) 5950 "subtotal" "invalid" ltac:(cbn; lia) H).
Defined.
