(* ===== verification/KernelCore.v ===== *)
(** * The processual kernel: floats, telemetry, coefficients and vitality

    Models [processual_kernel/continuity.py], [cgt_bridge.py], the records of
    [processual_kernel/types.py] and [processual_kernel/contracts], and the types and
    validators of [cgtlib] ([types.py], [validation.py], [invariants.py]).  The engine
    behind [cgtlib] is a private package; it is a parameter of the kernel. *)
From S2P Require Import Prelude PyString.
From Stdlib Require Import QArith Lqa.
#[local] Open Scope Z_scope.

(** ** Floats

    The float operations of the kernel.  [fl_exp] is [math.exp], [None] being its
    [OverflowError]; [fl_of_Z] is [float(n)] with the same; [fl_trunc] is [int(x)], which
    raises on infinities and NaN; [fl_ratio] is the true division of two integers;
    [fl_lit] the value of a literal. *)
Class Float (F : Type) := {
  fl_lt : F -> F -> bool;
  fl_le : F -> F -> bool;
  fl_eq : F -> F -> bool;
  fl_finite : F -> bool;
  fl_add : F -> F -> F;
  fl_sub : F -> F -> F;
  fl_mul : F -> F -> F;
  fl_div : F -> F -> F;
  fl_neg : F -> F;
  fl_exp : F -> option F;
  fl_round : F -> Z -> F;
  fl_trunc : F -> res Z;
  fl_of_Z : Z -> option F;
  fl_ratio : Z -> Z -> F;
  fl_lit : Q -> F
}.
Arguments fl_lit {F _} q%_Q.

Declare Scope float_scope.
Delimit Scope float_scope with float.
Infix "+" := fl_add : float_scope.
Infix "-" := fl_sub : float_scope.
Infix "*" := fl_mul : float_scope.
Infix "/" := fl_div : float_scope.
Notation "- x" := (fl_neg x) : float_scope.

(** [x] is a finite number of the closed interval. *)
Definition within {F} `{Float F} (lo hi x : F) : Prop :=
  fl_finite x = true /\ fl_le lo x = true /\ fl_le x hi = true.
Notation unit_interval := (within (fl_lit 0) (fl_lit 1)).

(** What holds of IEEE 754 doubles with rounding, for finite numbers: the order is total,
    products and differences of the numbers at hand stay within the bounds the exact ones
    have, because rounding is monotone, and [exp] of a small negative number is defined. *)
Class FloatLaws (F : Type) `{Float F} := {
  fl_le_refl : forall a, fl_finite a = true -> fl_le a a = true;
  fl_le_trans : forall a b c, fl_finite a = true -> fl_finite b = true -> fl_finite c = true ->
    fl_le a b = true -> fl_le b c = true -> fl_le a c = true;
  fl_lt_not_le : forall a b, fl_finite a = true -> fl_finite b = true -> fl_lt a b = negb (fl_le b a);
  fl_le_total : forall a b, fl_finite a = true -> fl_finite b = true -> fl_le a b = true \/ fl_le b a = true;
  fl_lit_finite : forall p, (- inject_Z 1000000 <= p <= inject_Z 1000000)%Q -> fl_finite (fl_lit p) = true;
  fl_lit_mono : forall p q, (- inject_Z 1000000 <= p)%Q -> (p <= q)%Q -> (q <= inject_Z 1000000)%Q ->
    fl_le (fl_lit p) (fl_lit q) = true;
  fl_mul_unit : forall a b, unit_interval a -> unit_interval b -> unit_interval (fl_mul a b);
  fl_sub_unit : forall a b, unit_interval a -> unit_interval b ->
    within (fl_lit (-1)) (fl_lit 1) (fl_sub a b);
  fl_exp_unit : forall a, unit_interval a -> exists e, fl_exp (fl_neg a) = Some e /\ unit_interval e;
  fl_mul_signed : forall a b, within (fl_lit (-1)) (fl_lit 1) a -> unit_interval b ->
    within (fl_lit (-1)) (fl_lit 1) (fl_mul a b);
  fl_mul_scale : forall a d, within (fl_lit (-1)) (fl_lit 1) a -> fl_finite d = true ->
    fl_lt (fl_lit 0) d = true -> within (fl_neg d) d (fl_mul a d)
}.

Section Floats.
Context {F : Type} `{Float F}.
#[local] Open Scope float_scope.

(** [min(a, b)] and [max(a, b)] keep their first argument unless the other is smaller,
    respectively greater. *)
Definition min2 (a b : F) : F := if fl_lt b a then b else a.
Definition max2 (a b : F) : F := if fl_lt a b then b else a.

(** [math.exp(x)], and [float(n)] of an integer. *)
Definition exp (x : F) : res F :=
  match fl_exp x with Some e => Ok e | None => raise OverflowError "math range error" end.
Definition float_of_int (n : Z) : res F :=
  match fl_of_Z n with Some x => Ok x | None => raise OverflowError "int too large to convert to float" end.

(** [clamp] of [continuity.py], with the bounds [0.0] and [1.0] when none are given. *)
Definition clamp_to (value lo hi : F) : F :=
  if negb (fl_finite value) then lo else max2 lo (min2 hi value).
Definition clamp (value : F) : F := clamp_to value (fl_lit 0) (fl_lit 1).
End Floats.

(** ** Contracts *)

Inductive AgentState := ACTIVE | TRANSITIONAL | ARCHIVED | QUARANTINED.
Inductive AgentCriticality := LOW | MEDIUM | HIGH | CRITICAL.
Inductive WorkflowState := WDRAFT | WRUNNING | WPAUSED | WDEGRADED | WCOMPLETED | WFAILED | WESCALATED.
Inductive StepState := SPENDING | SRUNNING | SCOMPLETED | SFAILED | SSKIPPED.
Inductive MaestroAction :=
  DELEGATE | HANDOFF | PARALLELIZE | RETRY | REROUTE | MERGE | PAUSE | QUARANTINE | ARCHIVE
| REACTIVATE | ESCALATE | FINALIZE | OBSERVE.

#[global] Instance AgentState_eq_dec : EqDecision AgentState.
Proof. solve_decision. Defined.
#[global] Instance AgentCriticality_eq_dec : EqDecision AgentCriticality.
Proof. solve_decision. Defined.
#[global] Instance WorkflowState_eq_dec : EqDecision WorkflowState.
Proof. solve_decision. Defined.
#[global] Instance StepState_eq_dec : EqDecision StepState.
Proof. solve_decision. Defined.
#[global] Instance MaestroAction_eq_dec : EqDecision MaestroAction.
Proof. solve_decision. Defined.

(** [V] is what the code types as [Any]: outputs of agents, metadata, payloads. *)
Record AgentSpec (V : Type) := {
  as_agent_id : string;
  as_role : string;
  as_version : string;
  as_capabilities : list string;
  as_criticality : AgentCriticality;
  as_metadata : list (string * V)
}.
Record WorkflowStep (V : Type) := {
  ws_step_id : string;
  ws_capability : string;
  ws_instruction : string;
  ws_depends_on : list string;
  ws_preferred_agent_id : option string;
  ws_parallel_group : option string;
  ws_max_retries : Z;
  ws_metadata : list (string * V)
}.
Record WorkflowPlan (F V : Type) := {
  wp_workflow_id : string;
  wp_goal : string;
  wp_steps : list (WorkflowStep V);
  wp_priority : F;
  wp_metadata : list (string * V)
}.

(** The payload of a task: a caller's, the one [assign_agent] builds, and the one
    [_run_step] builds with the outputs of the dependencies. *)
Inductive TaskPayload (V : Type) :=
  | CallerPayload (payload : list (string * V))
  | RoutingPayload (instruction : string) (metadata : list (string * V))
  | StepPayload (workflow_id goal instruction : string) (dependencies : list (string * option V))
      (metadata : list (string * V)).
Record TaskEnvelope (F V : Type) := {
  te_task_id : string;
  te_required_capability : string;
  te_payload : TaskPayload V;
  te_priority : F
}.
Record TaskResult (F V : Type) := {
  tr_ok : bool;
  tr_output : option V;
  tr_error : option string;
  tr_latency_ms : F;
  tr_cost : F
}.
Arguments as_agent_id {V}. Arguments as_role {V}. Arguments as_version {V}. Arguments as_capabilities {V}.
Arguments as_criticality {V}. Arguments as_metadata {V}.
Arguments ws_step_id {V}. Arguments ws_capability {V}. Arguments ws_instruction {V}. Arguments ws_depends_on {V}.
Arguments ws_preferred_agent_id {V}. Arguments ws_parallel_group {V}. Arguments ws_max_retries {V}.
Arguments ws_metadata {V}.
Arguments wp_workflow_id {F V}. Arguments wp_goal {F V}. Arguments wp_steps {F V}. Arguments wp_priority {F V}.
Arguments wp_metadata {F V}.
Arguments CallerPayload {V}. Arguments RoutingPayload {V}. Arguments StepPayload {V}.
Arguments te_task_id {F V}. Arguments te_required_capability {F V}. Arguments te_payload {F V}.
Arguments te_priority {F V}.
Arguments tr_ok {F V}. Arguments tr_output {F V}. Arguments tr_error {F V}. Arguments tr_latency_ms {F V}.
Arguments tr_cost {F V}.

(** ** Telemetry and coefficients *)

Record AgentTelemetry (F : Type) := {
  at_success_rate : F;
  at_cooperation_success : F;
  at_useful_handoff_rate : F;
  at_demand_rate : F;
  at_business_priority : F;
  at_resource_cost : F;
  at_overlap_score : F;
  at_policy_risk : F;
  at_failure_count : Z;
  at_age_seconds : F;
  at_latency_p95_ms : F;
  at_queue_depth : F;
  at_custom : list (string * F)
}.
Record HandoffTelemetry (F : Type) := {
  ht_artifact_quality : F;
  ht_context_preservation : F;
  ht_acceptance_rate : F;
  ht_rework_rate : F;
  ht_latency_ms : F;
  ht_ambiguity : F;
  ht_policy_risk : F;
  ht_demand_rate : F;
  ht_custom : list (string * F)
}.
Record WorkflowTelemetry (F : Type) := {
  wt_goal_alignment : F;
  wt_progress_rate : F;
  wt_completion_confidence : F;
  wt_coordination_quality : F;
  wt_blocking_rate : F;
  wt_rework_rate : F;
  wt_cost_pressure : F;
  wt_latency_pressure : F;
  wt_risk_pressure : F;
  wt_demand_rate : F;
  wt_custom : list (string * F)
}.
Record Coefficients (F : Type) := { cT : F; cN : F; cC : F; cM : F }.
Arguments at_success_rate {F}. Arguments at_cooperation_success {F}. Arguments at_useful_handoff_rate {F}.
Arguments at_demand_rate {F}. Arguments at_business_priority {F}. Arguments at_resource_cost {F}.
Arguments at_overlap_score {F}. Arguments at_policy_risk {F}. Arguments at_failure_count {F}.
Arguments at_age_seconds {F}. Arguments at_latency_p95_ms {F}. Arguments at_queue_depth {F}. Arguments at_custom {F}.
Arguments ht_artifact_quality {F}. Arguments ht_context_preservation {F}. Arguments ht_acceptance_rate {F}.
Arguments ht_rework_rate {F}. Arguments ht_latency_ms {F}. Arguments ht_ambiguity {F}. Arguments ht_policy_risk {F}.
Arguments ht_demand_rate {F}. Arguments ht_custom {F}.
Arguments wt_goal_alignment {F}. Arguments wt_progress_rate {F}. Arguments wt_completion_confidence {F}.
Arguments wt_coordination_quality {F}. Arguments wt_blocking_rate {F}. Arguments wt_rework_rate {F}.
Arguments wt_cost_pressure {F}. Arguments wt_latency_pressure {F}. Arguments wt_risk_pressure {F}.
Arguments wt_demand_rate {F}. Arguments wt_custom {F}.
Arguments cT {F}. Arguments cN {F}. Arguments cC {F}. Arguments cM {F}.

(** ** The types of [cgtlib] *)

Record CGTParameters (F : Type) := {
  lam : F; omega : F; mu : F; lock_threshold : F; lock_gate_max : F; logistic_k : F
}.
Record PhaseState (F : Type) := {
  ph_phase_id : string; ph_mass : F; ph_mean_retention : F; ph_harmony : F; ph_fatigue : F;
  ph_self_potential : option F
}.
Record LockState (F : Type) := {
  lk_locked : bool; lk_self_potential : F; lk_transition_gate : F; lk_lock_threshold : F; lk_lock_gate_max : F
}.
Inductive ExistenceRank := FLOURISHING | STABLE | HYBRID | DISTORTED | TRANSIENT | EXTINCT.
Record ExistenceState (F : Type) := { ex_origin : F; ex_carrier : F; ex_effect : F; ex_score : F }.
Record PossibilityState (F : Type) := { po_raw_potential : F; po_constraint : F; po_carrier : F; po_score : F }.
Record DynamicLiftState (F : Type) := {
  dl_dwell_time : F; dl_pressure : F; dl_carrier : F; dl_overload : F; dl_lift : F
}.
Record FateVector (F : Type) := {
  fv_stability : F; fv_hybridity : F; fv_distortion : F; fv_extinction : F; fv_collapse : F; fv_flourishing : F;
  fv_balance : F
}.
Record AftermathState (F : Type) := { af_collapse_score : F; af_flourishing_score : F; af_balance : F }.
Record StructuralTransitionReport (F : Type) := {
  rp_transmissibility : F;
  rp_retention : F;
  rp_self_potential : F;
  rp_lock_state : LockState F;
  rp_delay_gate : F;
  rp_compatibility : F;
  rp_transition_channel : F;
  rp_aftermath : AftermathState F;
  rp_existence : option (ExistenceState F);
  rp_possibility : option (PossibilityState F);
  rp_fate_vector : option (FateVector F);
  rp_existence_rank : option ExistenceRank;
  rp_dynamic_lift : option (DynamicLiftState F)
}.

(** The arguments of [evaluate_structural_transition]. *)
Record TransitionInput (F : Type) := {
  ti_source_phase : PhaseState F;
  ti_target_phase : PhaseState F;
  ti_gate_openness : F;
  ti_carrying_capacity : F;
  ti_node_fatigue : F;
  ti_local_safety : F;
  ti_continuation_channel : F;
  ti_tau : F;
  ti_tau_star : F;
  ti_trigger : F;
  ti_source_features : list (string * F);
  ti_target_features : list (string * F);
  ti_params : CGTParameters F
}.
Arguments lam {F}. Arguments omega {F}. Arguments mu {F}. Arguments lock_threshold {F}.
Arguments lock_gate_max {F}. Arguments logistic_k {F}.
Arguments ph_phase_id {F}. Arguments ph_mass {F}. Arguments ph_mean_retention {F}. Arguments ph_harmony {F}.
Arguments ph_fatigue {F}. Arguments ph_self_potential {F}.
Arguments lk_locked {F}. Arguments lk_self_potential {F}. Arguments lk_transition_gate {F}.
Arguments lk_lock_threshold {F}. Arguments lk_lock_gate_max {F}.
Arguments ex_origin {F}. Arguments ex_carrier {F}. Arguments ex_effect {F}. Arguments ex_score {F}.
Arguments po_raw_potential {F}. Arguments po_constraint {F}. Arguments po_carrier {F}. Arguments po_score {F}.
Arguments dl_dwell_time {F}. Arguments dl_pressure {F}. Arguments dl_carrier {F}. Arguments dl_overload {F}.
Arguments dl_lift {F}.
Arguments fv_stability {F}. Arguments fv_hybridity {F}. Arguments fv_distortion {F}. Arguments fv_extinction {F}.
Arguments fv_collapse {F}. Arguments fv_flourishing {F}. Arguments fv_balance {F}.
Arguments af_collapse_score {F}. Arguments af_flourishing_score {F}. Arguments af_balance {F}.
Arguments rp_transmissibility {F}. Arguments rp_retention {F}. Arguments rp_self_potential {F}.
Arguments rp_lock_state {F}. Arguments rp_delay_gate {F}. Arguments rp_compatibility {F}.
Arguments rp_transition_channel {F}. Arguments rp_aftermath {F}. Arguments rp_existence {F}.
Arguments rp_possibility {F}. Arguments rp_fate_vector {F}. Arguments rp_existence_rank {F}.
Arguments rp_dynamic_lift {F}.
Arguments ti_source_phase {F}. Arguments ti_target_phase {F}. Arguments ti_gate_openness {F}.
Arguments ti_carrying_capacity {F}. Arguments ti_node_fatigue {F}. Arguments ti_local_safety {F}.
Arguments ti_continuation_channel {F}. Arguments ti_tau {F}. Arguments ti_tau_star {F}. Arguments ti_trigger {F}.
Arguments ti_source_features {F}. Arguments ti_target_features {F}. Arguments ti_params {F}.

#[global] Instance ExistenceRank_eq_dec : EqDecision ExistenceRank.
Proof. solve_decision. Defined.

(** ** Coefficients from telemetry *)

Section Continuity.
Context {F : Type} `{Float F}.
#[local] Open Scope float_scope.
Implicit Types (c : Coefficients F).

(** [custom.get(key, default)]. *)
Definition custom_get (custom : list (string * F)) (key : string) (value : F) : F :=
  default value (dict_get custom key).

Definition from_agent_telemetry (m : AgentTelemetry F) : res (Coefficients F) :=
  let synergy := clamp (fl_lit 0.45 * at_cooperation_success m + fl_lit 0.35 * at_useful_handoff_rate m
                        + fl_lit 0.20 * at_success_rate m) in
  let need := clamp (fl_lit 0.45 * at_demand_rate m + fl_lit 0.25 * at_business_priority m
                     + fl_lit 0.20 * at_queue_depth m + fl_lit 0.10 * custom_get (at_custom m) "need_boost" (fl_lit 0)) in
  let cost := clamp (fl_lit 0.35 * at_resource_cost m + fl_lit 0.25 * at_overlap_score m
                     + fl_lit 0.20 * clamp (at_latency_p95_ms m / fl_lit 10000) + fl_lit 0.20 * at_policy_risk m) in
  failures ← float_of_int (at_failure_count m);
  let mortality := clamp (fl_lit 0.40 * clamp (failures / fl_lit 10) + fl_lit 0.25 * clamp (at_age_seconds m / fl_lit 86400)
                          + fl_lit 0.25 * at_policy_risk m + fl_lit 0.10 * clamp (at_latency_p95_ms m / fl_lit 20000)) in
  mret {| cT := synergy; cN := need; cC := cost; cM := mortality |}.

Definition from_handoff_telemetry (h : HandoffTelemetry F) : Coefficients F :=
  let synergy := clamp (fl_lit 0.35 * ht_artifact_quality h + fl_lit 0.30 * ht_context_preservation h
                        + fl_lit 0.25 * ht_acceptance_rate h + fl_lit 0.10 * (fl_lit 1 - ht_ambiguity h)) in
  let need := clamp (fl_lit 0.70 * ht_demand_rate h
                     + fl_lit 0.30 * custom_get (ht_custom h) "handoff_priority" (fl_lit 0.5)) in
  let cost := clamp (fl_lit 0.35 * ht_rework_rate h + fl_lit 0.25 * ht_ambiguity h
                     + fl_lit 0.20 * clamp (ht_latency_ms h / fl_lit 10000) + fl_lit 0.20 * ht_policy_risk h) in
  let mortality := clamp (fl_lit 0.45 * ht_rework_rate h + fl_lit 0.25 * ht_ambiguity h
                          + fl_lit 0.20 * ht_policy_risk h + fl_lit 0.10 * clamp (ht_latency_ms h / fl_lit 20000)) in
  {| cT := synergy; cN := need; cC := cost; cM := mortality |}.

Definition from_workflow_telemetry (w : WorkflowTelemetry F) : Coefficients F :=
  let synergy := clamp (fl_lit 0.35 * wt_coordination_quality w + fl_lit 0.35 * wt_goal_alignment w
                        + fl_lit 0.30 * wt_completion_confidence w) in
  let need := clamp (fl_lit 0.55 * wt_demand_rate w
                     + fl_lit 0.25 * custom_get (wt_custom w) "business_priority" (fl_lit 0.5)
                     + fl_lit 0.20 * wt_progress_rate w) in
  let cost := clamp (fl_lit 0.30 * wt_cost_pressure w + fl_lit 0.25 * wt_latency_pressure w
                     + fl_lit 0.25 * wt_rework_rate w + fl_lit 0.20 * wt_blocking_rate w) in
  let mortality := clamp (fl_lit 0.35 * wt_risk_pressure w + fl_lit 0.25 * wt_blocking_rate w
                          + fl_lit 0.25 * wt_rework_rate w + fl_lit 0.15 * (fl_lit 1 - wt_goal_alignment w)) in
  {| cT := synergy; cN := need; cC := cost; cM := mortality |}.

(** The defaults of [AgentTelemetry()], [HandoffTelemetry()] and [WorkflowTelemetry()]. *)
Definition default_agent_telemetry : AgentTelemetry F :=
  {| at_success_rate := fl_lit 1; at_cooperation_success := fl_lit 0.5; at_useful_handoff_rate := fl_lit 0.5;
     at_demand_rate := fl_lit 0; at_business_priority := fl_lit 0.5; at_resource_cost := fl_lit 0;
     at_overlap_score := fl_lit 0; at_policy_risk := fl_lit 0; at_failure_count := 0; at_age_seconds := fl_lit 0;
     at_latency_p95_ms := fl_lit 0; at_queue_depth := fl_lit 0; at_custom := [] |}.
Definition default_handoff_telemetry : HandoffTelemetry F :=
  {| ht_artifact_quality := fl_lit 0.5; ht_context_preservation := fl_lit 0.5; ht_acceptance_rate := fl_lit 0.5;
     ht_rework_rate := fl_lit 0; ht_latency_ms := fl_lit 0; ht_ambiguity := fl_lit 0; ht_policy_risk := fl_lit 0;
     ht_demand_rate := fl_lit 0.5; ht_custom := [] |}.
Definition default_workflow_telemetry : WorkflowTelemetry F :=
  {| wt_goal_alignment := fl_lit 0.5; wt_progress_rate := fl_lit 0; wt_completion_confidence := fl_lit 0;
     wt_coordination_quality := fl_lit 0.5; wt_blocking_rate := fl_lit 0; wt_rework_rate := fl_lit 0;
     wt_cost_pressure := fl_lit 0; wt_latency_pressure := fl_lit 0; wt_risk_pressure := fl_lit 0;
     wt_demand_rate := fl_lit 0.5; wt_custom := [] |}.

(** ** Vitality *)

(** [ContinuityEngine.delta], [step] and [normalize_psi]; [dt] is the one of the engine. *)
Definition delta (dt : F) (coeff : Coefficients F) : res F :=
  let t := clamp (cT coeff) in
  let n := clamp (cN coeff) in
  let c := clamp (cC coeff) in
  let m := clamp (cM coeff) in
  e ← exp (- m);
  mret ((t * n - c) * e * dt).

Definition engine_step (dt previous_psi : F) (coeff : Coefficients F) : res (F * F) :=
  dpsi ← delta dt coeff;
  mret (previous_psi + dpsi, dpsi).

Definition normalize_psi (psi : F) : res F :=
  if negb (fl_finite psi) then mret (fl_lit 0)
  else
    e ← exp (- psi / max2 (fl_lit 2) (fl_lit 0.000000001));
    mret (clamp (fl_lit 1 / (fl_lit 1 + e))).

(** ** The bridge to the engine *)

(** [CGTParameters()]. *)
Definition default_parameters : CGTParameters F :=
  {| lam := fl_lit 1; omega := fl_lit 1; mu := fl_lit 1; lock_threshold := fl_lit 0.7; lock_gate_max := fl_lit 0.2;
     logistic_k := fl_lit 10 |}.

Definition coefficients_to_phase (phase_id : string) (coeff : Coefficients F) (psi : F) : res (PhaseState F) :=
  let mean_retention := clamp ((cT coeff * cN coeff) * (fl_lit 1 - fl_lit 0.5 * cM coeff)) in
  let harmony := clamp (cT coeff * (fl_lit 1 - cC coeff)) in
  let fatigue := clamp (fl_lit 0.5 * cC coeff + fl_lit 0.5 * cM coeff) in
  let mass := clamp (cN coeff) in
  self_potential ← normalize_psi psi;
  mret {| ph_phase_id := phase_id; ph_mass := mass; ph_mean_retention := mean_retention; ph_harmony := harmony;
          ph_fatigue := fatigue; ph_self_potential := Some self_potential |}.

Definition feature_vector (coeff : Coefficients F) (psi dpsi : F) : res (list (string * F)) :=
  normalized ← normalize_psi psi;
  mret [("synergy", clamp (cT coeff));
        ("need", clamp (cN coeff));
        ("cost_inverse", clamp (fl_lit 1 - cC coeff));
        ("mortality_inverse", clamp (fl_lit 1 - cM coeff));
        ("psi", normalized);
        ("dpsi_positive", clamp (max2 (fl_lit 0) dpsi));
        ("transition_gate", clamp (max2 (fl_lit 0) (- dpsi) + fl_lit 0.35 * cM coeff + fl_lit 0.25 * cC coeff))].

(** The arguments [evaluate_transition] builds for the engine. *)
Definition transition_input (entity_id : string) (previous_coeff current_coeff : Coefficients F)
    (previous_psi current_psi dpsi : F) (fatigue_counter : Z) : res (TransitionInput F) :=
  source ← coefficients_to_phase (entity_id +:+ "@previous") previous_coeff previous_psi;
  target ← coefficients_to_phase (entity_id +:+ "@current") current_coeff current_psi;
  source_features ← feature_vector previous_coeff previous_psi (fl_lit 0);
  target_features ← feature_vector current_coeff current_psi dpsi;
  let trigger := clamp (max2 (fl_lit 0) (- dpsi) + cM current_coeff + cC current_coeff) in
  tau ← float_of_int (Z.max 0 fatigue_counter);
  mret {| ti_source_phase := source; ti_target_phase := target; ti_gate_openness := clamp (cT current_coeff);
          ti_carrying_capacity := clamp (cN current_coeff);
          ti_node_fatigue := clamp_to (cC current_coeff + cM current_coeff) (fl_lit 0) (fl_lit 2);
          ti_local_safety := clamp (fl_lit 1 - max2 (cC current_coeff) (cM current_coeff));
          ti_continuation_channel := clamp (cT previous_coeff * cN previous_coeff); ti_tau := tau; ti_tau_star := fl_lit 3;
          ti_trigger := trigger; ti_source_features := source_features; ti_target_features := target_features;
          ti_params := default_parameters |}.

Definition evaluate_transition (engine : TransitionInput F -> res (StructuralTransitionReport F)) (entity_id : string)
    (previous_coeff current_coeff : Coefficients F) (previous_psi current_psi dpsi : F) (fatigue_counter : Z)
  : res (StructuralTransitionReport F) :=
  input ← transition_input entity_id previous_coeff current_coeff previous_psi current_psi dpsi fatigue_counter;
  engine input.

(** [report_to_dict]. *)
Inductive CgtValue :=
  | CFloat (x : F) | CBool (b : bool) | CText (s : string) | CDict (entries : list (string * CgtValue)).

Definition rank_value (r : ExistenceRank) : string :=
  match r with
  | FLOURISHING => "flourishing" | STABLE => "stable" | HYBRID => "hybrid" | DISTORTED => "distorted"
  | TRANSIENT => "transient" | EXTINCT => "extinct"
  end.

Definition report_to_dict (r : StructuralTransitionReport F) : list (string * CgtValue) :=
  [("transmissibility", CFloat (rp_transmissibility r)); ("retention", CFloat (rp_retention r));
   ("self_potential", CFloat (rp_self_potential r)); ("locked", CBool (lk_locked (rp_lock_state r)));
   ("transition_gate", CFloat (lk_transition_gate (rp_lock_state r))); ("delay_gate", CFloat (rp_delay_gate r));
   ("compatibility", CFloat (rp_compatibility r)); ("transition_channel", CFloat (rp_transition_channel r));
   ("aftermath", CDict [("collapse_score", CFloat (af_collapse_score (rp_aftermath r)));
                        ("flourishing_score", CFloat (af_flourishing_score (rp_aftermath r)));
                        ("balance", CFloat (af_balance (rp_aftermath r)))])] ++
  match rp_existence r with
  | Some e => [("existence", CDict [("origin", CFloat (ex_origin e)); ("carrier", CFloat (ex_carrier e));
                                    ("effect", CFloat (ex_effect e)); ("score", CFloat (ex_score e))])]
  | None => []
  end ++
  match rp_possibility r with
  | Some p => [("possibility", CDict [("raw_potential", CFloat (po_raw_potential p)); ("constraint", CFloat (po_constraint p));
                                      ("carrier", CFloat (po_carrier p)); ("score", CFloat (po_score p))])]
  | None => []
  end ++
  match rp_dynamic_lift r with
  | Some l => [("dynamic_lift", CDict [("dwell_time", CFloat (dl_dwell_time l)); ("pressure", CFloat (dl_pressure l));
                                       ("carrier", CFloat (dl_carrier l)); ("overload", CFloat (dl_overload l));
                                       ("lift", CFloat (dl_lift l))])]
  | None => []
  end ++
  match rp_fate_vector r with
  | Some v => [("fate_vector", CDict [("stability", CFloat (fv_stability v)); ("hybridity", CFloat (fv_hybridity v));
                                      ("distortion", CFloat (fv_distortion v)); ("extinction", CFloat (fv_extinction v));
                                      ("collapse", CFloat (fv_collapse v)); ("flourishing", CFloat (fv_flourishing v));
                                      ("balance", CFloat (fv_balance v))])]
  | None => []
  end ++
  match rp_existence_rank r with Some k => [("existence_rank", CText (rank_value k))] | None => [] end.

(** [_fallback.py]: without the private engine every evaluation raises. *)
Definition unavailable_engine : TransitionInput F -> res (StructuralTransitionReport F) := fun _ =>
  raise FeatureUnavailableError
    "evaluate_structural_transition requires private CGT engine which is not available in this build".

(** ** The validators of [cgtlib] *)

Definition ensure_finite (value : F) (name : string) : res unit :=
  ensure (fl_finite value) ValidationError (name +:+ " must be finite").
Definition ensure_unit_interval (value : F) (name : string) : res unit :=
  _ ← ensure_finite value name;
  reject_if (fl_lt value (fl_lit 0) || fl_lt (fl_lit 1) value) ValidationError (name +:+ " must be within [0, 1]").
Definition ensure_nonnegative (value : F) (name : string) : res unit :=
  _ ← ensure_finite value name;
  reject_if (fl_lt value (fl_lit 0)) ValidationError (name +:+ " must be non-negative").
Definition ensure_bounded (value : F) (name : string) (minimum maximum : F) (bounds : string) : res unit :=
  _ ← ensure (fl_finite value) ValidationError (name +:+ " must be finite");
  reject_if (fl_lt value minimum || fl_lt maximum value) ValidationError (name +:+ " must be within " +:+ bounds).

Definition validate_phase_state (phase : PhaseState F) : res unit :=
  _ ← reject_if (blank (ph_phase_id phase)) ValidationError "phase.phase_id must not be empty";
  _ ← ensure_nonnegative (ph_mass phase) "phase.mass";
  _ ← ensure_unit_interval (ph_mean_retention phase) "phase.mean_retention";
  _ ← ensure_unit_interval (ph_harmony phase) "phase.harmony";
  _ ← ensure_nonnegative (ph_fatigue phase) "phase.fatigue";
  match ph_self_potential phase with
  | Some s => ensure_bounded s "phase.self_potential" (fl_lit (-1000000)) (fl_lit 1000000) "[-1000000.0, 1000000.0]"
  | None => Ok tt
  end.

Definition validate_parameters (params : CGTParameters F) : res unit :=
  _ ← ensure_nonnegative (lam params) "params.lam";
  _ ← ensure_nonnegative (omega params) "params.omega";
  _ ← ensure_nonnegative (mu params) "params.mu";
  _ ← ensure_unit_interval (lock_threshold params) "params.lock_threshold";
  _ ← ensure_unit_interval (lock_gate_max params) "params.lock_gate_max";
  ensure_nonnegative (logistic_k params) "params.logistic_k".
End Continuity.
Arguments CgtValue F : clear implicits.

(** ** Lemmas *)

Lemma rstrip_nonblank_suffix (s t : string) : rstrip_by is_space t <> "" -> rstrip_by is_space (s +:+ t) <> "".
Proof.
  intros Ht. induction s as [|c s IH]; [done|].
  change (String c s +:+ t) with (String c (s +:+ t)). cbn [rstrip_by].
  destruct (rstrip_by is_space (s +:+ t)) as [|d r]; [by destruct IH|done].
Qed.

Lemma lstrip_suffix (s t : string) : lstrip_by is_space t = t ->
  exists s', lstrip_by is_space (s +:+ t) = s' +:+ t.
Proof.
  intros Ht. induction s as [|c s IH]; [by exists ""|].
  change (String c s +:+ t) with (String c (s +:+ t)). cbn [lstrip_by]. destruct (is_space c); [done|]. by exists (String c s).
Qed.

(** A text that ends in visible characters is not blank. *)
Lemma not_blank_suffix (s t : string) :
  lstrip_by is_space t = t -> rstrip_by is_space t <> "" -> blank (s +:+ t) = false.
Proof.
  intros Hl Hr. apply bool_decide_eq_false_2. unfold strip. destruct (lstrip_suffix s t Hl) as [s' ->].
  by apply rstrip_nonblank_suffix.
Qed.

Section CoreLemmas.
Context {F : Type} `{FloatLaws F}.
#[local] Open Scope float_scope.
Implicit Types (c : Coefficients F).

(** The four coefficients are in the unit interval. *)
Definition normalized c : Prop :=
  unit_interval (cT c) /\ unit_interval (cN c) /\ unit_interval (cC c) /\ unit_interval (cM c).

Lemma lit_within (p q r : Q) : (- inject_Z 1000000 <= p)%Q -> (p <= q)%Q -> (q <= r)%Q -> (r <= inject_Z 1000000)%Q ->
  within (fl_lit p) (fl_lit r) (fl_lit q).
Proof.
  intros H1 H2 H3 H4. split_and!.
  - apply fl_lit_finite. split; eapply Qle_trans; eassumption.
  - apply fl_lit_mono; [done|done|]. eapply Qle_trans; eassumption.
  - apply fl_lit_mono; [|done|done]. eapply Qle_trans; eassumption.
Qed.

Lemma lit_unit (q : Q) : (0 <= q)%Q -> (q <= 1)%Q -> unit_interval (fl_lit q).
Proof. intros. apply lit_within; done. Qed.

Lemma within_lt lo hi x : within lo hi x -> fl_finite lo = true -> fl_finite hi = true ->
  fl_lt x lo = false /\ fl_lt hi x = false.
Proof. intros (Hf & Hl & Hh) Hlo Hhi. by rewrite !fl_lt_not_le // Hl Hh. Qed.

Lemma clamp_to_within (x lo hi : F) : fl_finite lo = true -> fl_finite hi = true -> fl_le lo hi = true ->
  within lo hi (clamp_to x lo hi).
Proof.
  intros Hlo Hhi Hle. unfold clamp_to. destruct (fl_finite x) eqn:Hx; cbn.
  2:{ split_and!; [done|by apply fl_le_refl|done]. }
  unfold max2, min2. rewrite (fl_lt_not_le x hi) //. destruct (fl_le hi x) eqn:E1; cbn.
  - rewrite fl_lt_not_le //. destruct (fl_le hi lo) eqn:E2; cbn.
    + split_and!; [done|by apply fl_le_refl|done].
    + split_and!; [done|done|by apply fl_le_refl].
  - assert (fl_le x hi = true) as Hxh by (destruct (fl_le_total x hi); [done|done|done|congruence]).
    rewrite fl_lt_not_le //. destruct (fl_le x lo) eqn:E2; cbn.
    + split_and!; [done|by apply fl_le_refl|done].
    + assert (fl_le lo x = true) by (destruct (fl_le_total x lo); [done|done|congruence|done]). by split_and!.
Qed.

Lemma clamp_unit (x : F) : unit_interval (clamp x).
Proof.
  apply clamp_to_within; [apply fl_lit_finite; done|apply fl_lit_finite; done|apply fl_lit_mono; done].
Qed.

Lemma from_agent_telemetry_normalized m c : from_agent_telemetry m = Ok c -> normalized c.
Proof. intros (? & _ & [= <-])%res_bind_Ok. split_and!; apply clamp_unit. Qed.
Lemma from_handoff_telemetry_normalized h : normalized (from_handoff_telemetry h).
Proof. split_and!; apply clamp_unit. Qed.
Lemma from_workflow_telemetry_normalized w : normalized (from_workflow_telemetry w).
Proof. split_and!; apply clamp_unit. Qed.

(** Vitality never moves by more than the time step, whatever the coefficients. *)
Lemma delta_bounded dt c : fl_finite dt = true -> fl_lt (fl_lit 0) dt = true ->
  exists d, delta dt c = Ok d /\ within (- dt) dt d.
Proof.
  intros Hf Hdt. unfold delta, exp.
  destruct (fl_exp_unit _ (clamp_unit (cM c))) as (e & -> & He). cbn. eexists. split; [reflexivity|].
  apply fl_mul_scale; [|done|done]. apply fl_mul_signed; [|done].
  apply fl_sub_unit; [apply fl_mul_unit|]; apply clamp_unit.
Qed.

Lemma normalize_psi_unit psi x : normalize_psi psi = Ok x -> unit_interval x.
Proof.
  unfold normalize_psi. destruct (negb _); [intros [= <-]; by apply lit_unit|].
  intros (e & _ & [= <-])%res_bind_Ok. apply clamp_unit.
Qed.

Lemma feature_vector_unit c psi dpsi v : feature_vector c psi dpsi = Ok v -> Forall (fun kx => unit_interval kx.2) v.
Proof.
  intros (n & Hn%normalize_psi_unit & [= <-])%res_bind_Ok.
  repeat (apply Forall_cons_2; [first [apply clamp_unit|exact Hn]|]). by apply Forall_nil_2.
Qed.

(** What is in the unit interval passes the validators. *)
Lemma ensure_unit_ok x name : unit_interval x -> ensure_unit_interval x name = Ok tt.
Proof.
  intros Hx. destruct (within_lt _ _ x Hx) as [H1 H2]; [by apply fl_lit_finite|by apply fl_lit_finite|].
  unfold ensure_unit_interval, ensure_finite. destruct Hx as [-> _]. cbn. by rewrite H1 H2.
Qed.

Lemma ensure_nonnegative_ok x name : fl_finite x = true -> fl_le (fl_lit 0) x = true -> ensure_nonnegative x name = Ok tt.
Proof.
  intros Hf Hx. unfold ensure_nonnegative, ensure_finite. rewrite Hf. cbn.
  rewrite fl_lt_not_le //; [by apply fl_lit_finite|]. by rewrite Hx.
Qed.

Lemma unit_within_million x : unit_interval x -> within (fl_lit (-1000000)) (fl_lit 1000000) x.
Proof.
  intros (Hf & H1 & H2). assert (forall q, (- inject_Z 1000000 <= q <= inject_Z 1000000)%Q -> fl_finite (fl_lit q) = true)
    as Hq by (intros; by apply fl_lit_finite).
  split_and!; [done| |].
  - apply (fl_le_trans _ (fl_lit 0)); [by apply Hq|by apply Hq|done|by apply fl_lit_mono|done].
  - apply (fl_le_trans _ (fl_lit 1)); [done|by apply Hq|by apply Hq|done|by apply fl_lit_mono].
Qed.

Lemma coefficients_to_phase_valid id c psi ph :
  blank id = false -> coefficients_to_phase id c psi = Ok ph -> validate_phase_state ph = Ok tt.
Proof.
  intros Hid (s & Hs%normalize_psi_unit & [= <-])%res_bind_Ok. unfold validate_phase_state. cbn -[clamp].
  rewrite Hid. cbn -[clamp ensure_nonnegative ensure_unit_interval].
  rewrite !ensure_unit_ok ?ensure_nonnegative_ok; try apply clamp_unit. cbn.
  unfold ensure_bounded. pose proof (unit_within_million s Hs) as Hm.
  destruct (within_lt _ _ s Hm) as [-> ->]; [by apply fl_lit_finite|by apply fl_lit_finite|].
  by destruct Hm as [-> _].
Qed.

Lemma default_parameters_valid : validate_parameters default_parameters = Ok tt.
Proof.
  assert (forall q, (0 <= q)%Q -> (q <= inject_Z 1000000)%Q -> fl_finite (fl_lit q) = true /\ fl_le (fl_lit 0) (fl_lit q) = true) as Hq.
  { intros q H1 H2. destruct (lit_within 0 q (inject_Z 1000000)) as (? & ? & ?); done. }
  unfold validate_parameters. cbn -[ensure_nonnegative ensure_unit_interval].
  rewrite !ensure_nonnegative_ok; try (apply Hq; done). by rewrite !ensure_unit_ok; try (apply lit_unit; done).
Qed.

(** What the kernel gives the engine is valid.  Whatever coefficients and vitalities are
    observed, finite or not, the arguments of [evaluate_structural_transition] that the bridge
    manages to build pass the engine's validators: phases, parameters, and every gate,
    channel, trigger and feature in the unit interval, the fatigue of the node in [0, 2]. *)
Theorem engine_inputs_are_valid entity pc cc pp cp dpsi n ti :
  transition_input entity pc cc pp cp dpsi n = Ok ti ->
  validate_phase_state (ti_source_phase ti) = Ok tt /\ validate_phase_state (ti_target_phase ti) = Ok tt /\
  validate_parameters (ti_params ti) = Ok tt /\
  Forall (fun kx => unit_interval kx.2) (ti_source_features ti ++ ti_target_features ti) /\
  (unit_interval (ti_gate_openness ti) /\ unit_interval (ti_carrying_capacity ti) /\ unit_interval (ti_local_safety ti) /\
   unit_interval (ti_continuation_channel ti) /\ unit_interval (ti_trigger ti)) /\
  within (fl_lit 0) (fl_lit 2) (ti_node_fatigue ti).
Proof.
  intros (src & Hs & (tgt & Ht & (sf & Hsf & (tf & Htf & (tau & _ & [= <-])%res_bind_Ok)%res_bind_Ok)%res_bind_Ok)%res_bind_Ok)%res_bind_Ok.
  cbn -[clamp clamp_to]. split_and!; try apply clamp_unit.
  - eapply coefficients_to_phase_valid; [|exact Hs]; by apply not_blank_suffix.
  - eapply coefficients_to_phase_valid; [|exact Ht]; by apply not_blank_suffix.
  - apply default_parameters_valid.
  - apply Forall_app. split; eapply feature_vector_unit; eassumption.
  - apply clamp_to_within; [by apply fl_lit_finite|by apply fl_lit_finite|by apply fl_lit_mono].
Qed.
End CoreLemmas.

(** ** Exact rationals: the instance of the concrete runs *)

(** A rational stand-in for [exp], monotone and with its overflow. *)
Definition q_exp (x : Q) : option Q :=
  if Qle_bool x 0 then Some (Qred (/ (1 - x + x * x / 2)))
  else if Qle_bool x 709 then Some (Qred (1 + x + x * x / 2)) else None.

#[export] Instance Q_float : Float Q := {
  fl_lt := fun a b => negb (Qle_bool b a);
  fl_le := Qle_bool;
  fl_eq := Qeq_bool;
  fl_finite := fun _ => true;
  fl_add := fun a b => Qred (a + b);
  fl_sub := fun a b => Qred (a - b);
  fl_mul := fun a b => Qred (a * b);
  fl_div := fun a b => Qred (a / b);
  fl_neg := fun a => Qred (- a);
  fl_exp := q_exp;
  fl_round := fun a n => Qred (inject_Z ((2 * Qnum a * 10 ^ n + Zpos (Qden a)) / (2 * Zpos (Qden a))) / inject_Z (10 ^ n));
  fl_trunc := fun a => Ok (Z.quot (Qnum a) (Zpos (Qden a)));
  fl_of_Z := fun n => if Z.abs n <? 2 ^ 1024 then Some (inject_Z n) else None;
  fl_ratio := fun a b => Qred (inject_Z a / inject_Z b);
  fl_lit := fun q => q
}.

Lemma q_within (lo hi x : Q) : within lo hi x <-> (lo <= x)%Q /\ (x <= hi)%Q.
Proof. unfold within. cbn. rewrite !Qle_bool_iff. tauto. Qed.

Lemma q_exp_unit (a : Q) : (0 <= a)%Q -> (a <= 1)%Q -> exists e, q_exp (Qred (- a)) = Some e /\ (0 <= e)%Q /\ (e <= 1)%Q.
Proof.
  intros H1 H2. unfold q_exp. assert (Qle_bool (Qred (- a)) 0 = true) as ->.
  { apply Qle_bool_iff. rewrite Qred_correct. lra. }
  eexists. split; [reflexivity|]. rewrite !Qred_correct.
  assert (1 <= 1 - - a + - a * - a / 2)%Q as Hd.
  { assert (0 <= - a * - a)%Q by nra. unfold Qdiv. change (/ 2)%Q with (1 # 2). lra. }
  split.
  - apply Qinv_le_0_compat. lra.
  - apply (Qmult_le_r _ _ (1 - - a + - a * - a / 2)); [lra|]. rewrite Qmult_comm Qmult_inv_r; [lra|]. lra.
Qed.

#[export] Instance Q_float_laws : FloatLaws Q.
Proof.
  split.
  - intros a _. apply Qle_bool_iff, Qle_refl.
  - intros a b c _ _ _ H1%Qle_bool_iff H2%Qle_bool_iff. apply Qle_bool_iff. by apply (Qle_trans _ b).
  - done.
  - intros a b _ _. destruct (Qlt_le_dec a b); [left|right]; apply Qle_bool_iff; lra.
  - done.
  - intros p q _ Hpq _. by apply Qle_bool_iff.
  - intros a b [Ha1 Ha2]%q_within [Hb1 Hb2]%q_within. apply q_within. cbn in *. rewrite Qred_correct. split; nra.
  - intros a b [Ha1 Ha2]%q_within [Hb1 Hb2]%q_within. apply q_within. cbn in *. rewrite Qred_correct. split; lra.
  - intros a [Ha1 Ha2]%q_within. destruct (q_exp_unit a) as (e & He & H1); [done|done|].
    exists e. split; [exact He|by apply q_within].
  - intros a b [Ha1 Ha2]%q_within [Hb1 Hb2]%q_within. apply q_within. cbn in *. rewrite Qred_correct. split; nra.
  - intros a d [Ha1 Ha2]%q_within _ Hd. apply q_within. cbn in *. rewrite !Qred_correct.
    assert (0 < d)%Q by (apply Qnot_le_lt; intros Hle%Qle_bool_iff; by rewrite Hle in Hd). split; nra.
Qed.

(** ** Witness *)

(** An agent that only fails: zero success, cost and risk, with its vitality going down. *)
Definition failing_coefficients : Coefficients Q := {| cT := 1 # 10; cN := 1 # 2; cC := 9 # 10; cM := 4 # 5 |}.

Lemma engine_inputs_are_valid_witness :
  exists ti, transition_input "w1" failing_coefficients failing_coefficients (-(1 # 2))%Q (-1)%Q (-(1 # 2))%Q 4 = Ok ti /\
    validate_phase_state (ti_source_phase ti) = Ok tt /\ ti_trigger ti = 1%Q.
Proof.
  destruct (transition_input (F:=Q) "w1" failing_coefficients failing_coefficients (-(1 # 2))%Q (-1)%Q (-(1 # 2))%Q 4)
    as [ti|e] eqn:E; [|by vm_compute in E].
  exists ti. split; [reflexivity|]. split.
  - apply (engine_inputs_are_valid "w1" failing_coefficients failing_coefficients (-(1 # 2))%Q (-1)%Q (-(1 # 2))%Q 4 ti E).
  - vm_compute in E. by injection E as <-.
Defined.
