(* ===== verification/Governor.v ===== *)
(** * The lifecycle governor

    Models [processual_kernel/governor.py] and the records and decisions of
    [processual_kernel/types.py]: the verdict on an agent, on a handoff between two agents
    and on a workflow, from its vitality and the report of the engine.  The lemmas say which
    states a verdict can lead to and when a human is asked. *)
From S2P Require Import Prelude PyString KernelCore.
From Stdlib Require Import QArith.
#[local] Open Scope Z_scope.

Record KernelPolicy (F : Type) := {
  kp_policy_version : string;
  kp_dt : F;
  kp_alpha : F;
  kp_active_min_psi : F;
  kp_archive_max_psi : F;
  kp_reactivation_need : F;
  kp_min_retention : F;
  kp_max_transition_channel : F;
  kp_min_aftermath_balance : F;
  kp_quarantine_policy_risk : F;
  kp_critical_requires_review : bool;
  kp_max_failure_streak : Z;
  kp_min_edge_psi : F;
  kp_min_workflow_psi : F;
  kp_max_step_attempts : Z;
  kp_prefer_high_psi_agents : bool
}.
Arguments kp_policy_version {F}. Arguments kp_dt {F}. Arguments kp_alpha {F}. Arguments kp_active_min_psi {F}.
Arguments kp_archive_max_psi {F}. Arguments kp_reactivation_need {F}. Arguments kp_min_retention {F}.
Arguments kp_max_transition_channel {F}. Arguments kp_min_aftermath_balance {F}.
Arguments kp_quarantine_policy_risk {F}. Arguments kp_critical_requires_review {F}.
Arguments kp_max_failure_streak {F}. Arguments kp_min_edge_psi {F}. Arguments kp_min_workflow_psi {F}.
Arguments kp_max_step_attempts {F}. Arguments kp_prefer_high_psi_agents {F}.

(** [KernelPolicy()]. *)
Definition default_policy {F} `{Float F} : KernelPolicy F :=
  {| kp_policy_version := "core-0.3.0"; kp_dt := fl_lit 1; kp_alpha := fl_lit 0.05; kp_active_min_psi := fl_lit 0.20;
     kp_archive_max_psi := fl_lit (-0.10); kp_reactivation_need := fl_lit 0.72; kp_min_retention := fl_lit 0.12;
     kp_max_transition_channel := fl_lit 0.78; kp_min_aftermath_balance := fl_lit (-0.05);
     kp_quarantine_policy_risk := fl_lit 0.85; kp_critical_requires_review := true; kp_max_failure_streak := 3;
     kp_min_edge_psi := fl_lit (-0.04); kp_min_workflow_psi := fl_lit (-0.02); kp_max_step_attempts := 2;
     kp_prefer_high_psi_agents := true |}.

(** ** Records *)

Record AgentRecord (F V : Type) := {
  ar_spec : AgentSpec V;
  ar_state : AgentState;
  ar_psi : F;
  ar_previous_psi : F;
  ar_last_coefficients : option (Coefficients F);
  ar_failure_streak : Z;
  ar_observations : Z
}.
Record HandoffRecord (F : Type) := {
  hr_source_agent_id : string;
  hr_target_agent_id : string;
  hr_state : AgentState;
  hr_psi : F;
  hr_previous_psi : F;
  hr_last_coefficients : option (Coefficients F);
  hr_observations : Z
}.
Record StepRecord (V : Type) := {
  sr_step : WorkflowStep V;
  sr_state : StepState;
  sr_assigned_agent_id : option string;
  sr_attempts : Z;
  sr_output : option V;
  sr_error : option string
}.
Record WorkflowRecord (F V : Type) := {
  wr_plan : WorkflowPlan F V;
  wr_state : WorkflowState;
  wr_psi : F;
  wr_previous_psi : F;
  wr_last_coefficients : option (Coefficients F);
  wr_steps : list (string * StepRecord V)
}.
Arguments ar_spec {F V}. Arguments ar_state {F V}. Arguments ar_psi {F V}. Arguments ar_previous_psi {F V}.
Arguments ar_last_coefficients {F V}. Arguments ar_failure_streak {F V}. Arguments ar_observations {F V}.
Arguments hr_source_agent_id {F}. Arguments hr_target_agent_id {F}. Arguments hr_state {F}. Arguments hr_psi {F}.
Arguments hr_previous_psi {F}. Arguments hr_last_coefficients {F}. Arguments hr_observations {F}.
Arguments sr_step {V}. Arguments sr_state {V}. Arguments sr_assigned_agent_id {V}. Arguments sr_attempts {V}.
Arguments sr_output {V}. Arguments sr_error {V}.
Arguments wr_plan {F V}. Arguments wr_state {F V}. Arguments wr_psi {F V}. Arguments wr_previous_psi {F V}.
Arguments wr_last_coefficients {F V}. Arguments wr_steps {F V}.

(** [HandoffRecord.edge_id]. *)
Definition edge_id {F} (r : HandoffRecord F) : string := hr_source_agent_id r +:+ "->" +:+ hr_target_agent_id r.

Record GovernanceDecision (F : Type) := {
  gd_agent_id : string;
  gd_previous_state : AgentState;
  gd_new_state : AgentState;
  gd_psi : F;
  gd_dpsi : F;
  gd_coefficients : Coefficients F;
  gd_reason : string;
  gd_cgt : list (string * CgtValue F);
  gd_requires_human_review : bool;
  gd_confidence : F;
  gd_policy_version : string
}.
Record EdgeDecision (F : Type) := {
  ed_edge_id : string;
  ed_source_agent_id : string;
  ed_target_agent_id : string;
  ed_previous_state : AgentState;
  ed_new_state : AgentState;
  ed_psi : F;
  ed_dpsi : F;
  ed_coefficients : Coefficients F;
  ed_reason : string;
  ed_cgt : list (string * CgtValue F);
  ed_action : MaestroAction;
  ed_confidence : F;
  ed_policy_version : string
}.
Record WorkflowDecision (F : Type) := {
  wd_workflow_id : string;
  wd_previous_state : WorkflowState;
  wd_new_state : WorkflowState;
  wd_psi : F;
  wd_dpsi : F;
  wd_coefficients : Coefficients F;
  wd_reason : string;
  wd_action : MaestroAction;
  wd_cgt : list (string * CgtValue F);
  wd_requires_human_review : bool;
  wd_confidence : F;
  wd_policy_version : string
}.
Arguments gd_agent_id {F}. Arguments gd_previous_state {F}. Arguments gd_new_state {F}. Arguments gd_psi {F}.
Arguments gd_dpsi {F}. Arguments gd_coefficients {F}. Arguments gd_reason {F}. Arguments gd_cgt {F}.
Arguments gd_requires_human_review {F}. Arguments gd_confidence {F}. Arguments gd_policy_version {F}.
Arguments ed_edge_id {F}. Arguments ed_source_agent_id {F}. Arguments ed_target_agent_id {F}.
Arguments ed_previous_state {F}. Arguments ed_new_state {F}. Arguments ed_psi {F}. Arguments ed_dpsi {F}.
Arguments ed_coefficients {F}. Arguments ed_reason {F}. Arguments ed_cgt {F}. Arguments ed_action {F}.
Arguments ed_confidence {F}. Arguments ed_policy_version {F}.
Arguments wd_workflow_id {F}. Arguments wd_previous_state {F}. Arguments wd_new_state {F}. Arguments wd_psi {F}.
Arguments wd_dpsi {F}. Arguments wd_coefficients {F}. Arguments wd_reason {F}. Arguments wd_action {F}.
Arguments wd_cgt {F}. Arguments wd_requires_human_review {F}. Arguments wd_confidence {F}.
Arguments wd_policy_version {F}.

(** ** Verdicts *)

Section Governor.
Context {F V : Type} `{Float F}.
#[local] Open Scope float_scope.
Implicit Types (p : KernelPolicy F) (coeff : Coefficients F) (report : StructuralTransitionReport F).

(** [_clamp] of the governor, which does not look at finiteness. *)
Definition governor_clamp (value : F) : F := max2 (fl_lit 0) (min2 (fl_lit 1) value).

Definition confidence coeff report : F :=
  let structural_strength :=
    (rp_retention report + rp_compatibility report + (fl_lit 1 - rp_transition_channel report)) / fl_lit 3 in
  let risk_penalty := max2 (cC coeff) (cM coeff) * fl_lit 0.25 in
  let fate_adjustment :=
    match rp_fate_vector report with
    | Some v => fl_lit 0.12 * fv_stability v + fl_lit 0.10 * fv_flourishing v - fl_lit 0.10 * fv_distortion v
                - fl_lit 0.14 * fv_extinction v
    | None => fl_lit 0
    end in
  fl_round (governor_clamp (structural_strength + fate_adjustment - risk_penalty)) 4.

Definition is_critical (record : AgentRecord F V) : bool :=
  bool_decide (as_criticality (ar_spec record) = CRITICAL).
Definition is_high_or_critical (record : AgentRecord F V) : bool :=
  bool_decide (as_criticality (ar_spec record) = HIGH \/ as_criticality (ar_spec record) = CRITICAL).

(** The chain of cases of [decide]: the new state, the reason and whether a human is asked. *)
Definition agent_verdict p (record : AgentRecord F V) coeff (dpsi : F) report : AgentState * string * bool :=
  let previous_state := ar_state record in
  let critical := is_critical record in
  let rank := rp_existence_rank report in
  let balance := af_balance (rp_aftermath report) in
  let high_risk := fl_le (kp_quarantine_policy_risk p) (cM coeff) || fl_le (kp_quarantine_policy_risk p) (cC coeff) in
  if high_risk then (QUARANTINED, "high policy/mortality risk", true)
  else if bool_decide (previous_state = ARCHIVED) then
    if fl_le (kp_reactivation_need p) (cN coeff) && fl_le (fl_lit 0.55) (rp_compatibility report)
       && fl_le (kp_min_aftermath_balance p) balance
    then (TRANSITIONAL, "reactivation candidate: demand recovered", critical)
    else (ARCHIVED, "archived: demand or compatibility insufficient", false)
  else if critical && kp_critical_requires_review p &&
          (fl_lt dpsi (- kp_alpha p) || fl_le (kp_max_transition_channel p) (rp_transition_channel report)
           || fl_lt balance (kp_min_aftermath_balance p))
  then (TRANSITIONAL, "critical agent degraded: human review required", true)
  else if negb critical && bool_decide (rank = Some EXTINCT)
  then (ARCHIVED, "CGT existence rank extinct: no viable carrier/effect", false)
  else if bool_decide (rank = Some DISTORTED) && fl_lt dpsi (fl_lit 0)
  then (TRANSITIONAL, "CGT distorted rank: repair or simplify before reuse", is_high_or_critical record)
  else if kp_max_failure_streak p <=? ar_failure_streak record
  then (TRANSITIONAL, "failure streak exceeded", is_high_or_critical record)
  else if critical && fl_le (ar_psi record) (kp_archive_max_psi p)
  then (TRANSITIONAL, "critical agent low Ψ: human review required before archive", true)
  else if negb critical && fl_le (ar_psi record) (kp_archive_max_psi p)
          && fl_lt (rp_retention report) (kp_min_retention p) && fl_lt balance (kp_min_aftermath_balance p)
  then (ARCHIVED, "low Ψ with weak retention and negative aftermath", false)
  else if fl_lt dpsi (- kp_alpha p) || fl_le (kp_max_transition_channel p) (rp_transition_channel report)
  then (TRANSITIONAL, "autophagic trigger: Ψ is decaying or transition channel is high", false)
  else if fl_le (kp_active_min_psi p) (ar_psi record) && fl_le (kp_min_retention p) (rp_retention report)
  then (ACTIVE, "healthy Ψ and acceptable retention", false)
  else (previous_state, "hysteresis: no safe state change", false).

Definition decide_agent p (record : AgentRecord F V) coeff (dpsi : F) report (cgt : list (string * CgtValue F))
  : GovernanceDecision F :=
  let '(new_state, reason, review) := agent_verdict p record coeff dpsi report in
  {| gd_agent_id := as_agent_id (ar_spec record); gd_previous_state := ar_state record; gd_new_state := new_state;
     gd_psi := ar_psi record; gd_dpsi := dpsi; gd_coefficients := coeff; gd_reason := reason; gd_cgt := cgt;
     gd_requires_human_review := review; gd_confidence := confidence coeff report;
     gd_policy_version := kp_policy_version p |}.

(** The chain of cases of [decide_edge]. *)
Definition edge_verdict p (record : HandoffRecord F) coeff (dpsi : F) report : AgentState * string * MaestroAction :=
  let rank := rp_existence_rank report in
  let balance := af_balance (rp_aftermath report) in
  if fl_le (kp_quarantine_policy_risk p) (cC coeff) || fl_le (kp_quarantine_policy_risk p) (cM coeff)
  then (QUARANTINED, "handoff quarantined: high ambiguity/risk/rework", QUARANTINE)
  else if bool_decide (rank = Some EXTINCT) then (ARCHIVED, "handoff extinct: no viable carrier/effect", REROUTE)
  else if bool_decide (rank = Some DISTORTED) && fl_lt dpsi (fl_lit 0)
  then (TRANSITIONAL, "handoff distorted: add mediator or simplify schema", REROUTE)
  else if fl_le (hr_psi record) (kp_archive_max_psi p) && fl_lt balance (kp_min_aftermath_balance p)
  then (ARCHIVED, "handoff archived: structurally harmful edge", REROUTE)
  else if fl_lt dpsi (- kp_alpha p) || fl_le (kp_max_transition_channel p) (rp_transition_channel report)
          || fl_lt (hr_psi record) (kp_min_edge_psi p)
  then (TRANSITIONAL, "handoff degraded: add mediator or reroute", REROUTE)
  else if fl_le (kp_min_retention p) (rp_retention report) && fl_le (fl_lit 0.55) (rp_compatibility report)
  then (ACTIVE, "handoff healthy", HANDOFF)
  else (hr_state record, "handoff hysteresis: keep observing", OBSERVE).

Definition decide_edge p (record : HandoffRecord F) coeff (dpsi : F) report (cgt : list (string * CgtValue F))
  : EdgeDecision F :=
  let '(new_state, reason, action) := edge_verdict p record coeff dpsi report in
  {| ed_edge_id := edge_id record; ed_source_agent_id := hr_source_agent_id record;
     ed_target_agent_id := hr_target_agent_id record; ed_previous_state := hr_state record; ed_new_state := new_state;
     ed_psi := hr_psi record; ed_dpsi := dpsi; ed_coefficients := coeff; ed_reason := reason; ed_cgt := cgt;
     ed_action := action; ed_confidence := confidence coeff report; ed_policy_version := kp_policy_version p |}.

(** The steps of a workflow in a state. *)
Definition steps_in (st : StepState) (steps : list (string * StepRecord V)) : list (StepRecord V) :=
  List.filter (fun s => bool_decide (sr_state s = st)) (dict_values steps).

(** [min(step.max_retries, policy.max_step_attempts)]. *)
Definition attempts_limit p (s : StepRecord V) : Z := Z.min (ws_max_retries (sr_step s)) (kp_max_step_attempts p).

(** The chain of cases of [decide_workflow]. *)
Definition workflow_verdict p (record : WorkflowRecord F V) coeff (dpsi : F) report
  : WorkflowState * string * MaestroAction * bool :=
  let steps := wr_steps record in
  let failed := steps_in SFAILED steps in
  let rank := rp_existence_rank report in
  let any := negb (bool_decide (steps = [])) in
  if fl_le (kp_quarantine_policy_risk p) (cM coeff) || fl_le (kp_quarantine_policy_risk p) (cC coeff)
  then (WESCALATED, "workflow risk too high: human review required", ESCALATE, true)
  else if bool_decide (length (steps_in SCOMPLETED steps) = length steps) && any
  then (WCOMPLETED, "all workflow steps completed", FINALIZE, false)
  else if bool_decide (rank = Some EXTINCT) && any
  then (WDEGRADED, "workflow extinct: no viable carrier/effect", REROUTE, false)
  else if bool_decide (rank = Some DISTORTED) && fl_lt dpsi (fl_lit 0)
  then (WDEGRADED, "workflow distorted: reduce complexity before continuation", REROUTE, false)
  else if negb (bool_decide (failed = [])) && forallb (fun s => attempts_limit p s <=? sr_attempts s) failed
  then (WDEGRADED, "workflow degraded: failed steps exhausted retries", REROUTE, false)
  else if fl_lt dpsi (- kp_alpha p) || fl_lt (wr_psi record) (kp_min_workflow_psi p)
          || fl_le (kp_max_transition_channel p) (rp_transition_channel report)
  then (WDEGRADED, "workflow vitality decaying: reroute or parallelize", REROUTE, false)
  else if negb (bool_decide (steps_in SPENDING steps = [])) || negb (bool_decide (steps_in SRUNNING steps = []))
  then (WRUNNING, "workflow in progress", DELEGATE, false)
  else (WPAUSED, "no executable work found", PAUSE, false).

Definition decide_workflow p (record : WorkflowRecord F V) coeff (dpsi : F) report (cgt : list (string * CgtValue F))
  : WorkflowDecision F :=
  let '(new_state, reason, action, review) := workflow_verdict p record coeff dpsi report in
  {| wd_workflow_id := wp_workflow_id (wr_plan record); wd_previous_state := wr_state record; wd_new_state := new_state;
     wd_psi := wr_psi record; wd_dpsi := dpsi; wd_coefficients := coeff; wd_reason := reason; wd_action := action;
     wd_cgt := cgt; wd_requires_human_review := review; wd_confidence := confidence coeff report;
     wd_policy_version := kp_policy_version p |}.

(** ** Which states a verdict leads to *)

(** A verdict does not archive a critical agent and does not activate an archived one; an
    agent enters quarantine only with a human asked, and an archived critical agent comes
    back only with a human asked. *)
Lemma agent_verdict_states p record coeff dpsi report new_state reason review :
  agent_verdict p record coeff dpsi report = (new_state, reason, review) ->
  (is_critical record = true -> new_state = ARCHIVED -> ar_state record = ARCHIVED) /\
  (ar_state record = ARCHIVED -> new_state <> ACTIVE) /\
  (new_state = QUARANTINED -> ar_state record <> QUARANTINED -> review = true) /\
  (ar_state record = ARCHIVED -> new_state = TRANSITIONAL -> review = is_critical record).
Proof.
  unfold agent_verdict. intros Hv.
  repeat match type of Hv with
         | (if ?b then _ else _) = _ => destruct b eqn:?
         end; injection Hv as <- <- <-; to_prop; split_and!; naive_solver congruence.
Qed.
End Governor.
