(* ===== verification/Maestro.v ===== *)
(** * The Maestro kernel

    Models [processual_kernel/kernel.py]: [ProcessualCGTKernel] (agents, observation,
    routing) and [ProcessualMaestroKernel] (handoffs, workflows, the run of a workflow).
    The kernel's objects are the entries of its dicts; an operation is a computation in [M]
    that keeps the mutations made before an exception.  Awaiting the runtime is the only
    point where others run: a reply says what they did meanwhile. *)
From S2P Require Import Prelude PyString KernelCore Governor.
From Stdlib Require Import QArith.
From stdpp Require Import pretty.
#[local] Open Scope Z_scope.

(** ** State *)

(** A payload of an event: texts and numbers of the kernel, or what a caller passed. *)
Inductive EventValue (F V : Type) := EvText (s : string) | EvFloat (x : F) | EvAny (v : V).
Arguments EvText {F V}. Arguments EvFloat {F V}. Arguments EvAny {F V}.

Record MaestroEvent (F V : Type) := {
  me_workflow_id : option string;
  me_action : MaestroAction;
  me_subject : string;
  me_reason : string;
  me_payload : list (string * EventValue F V)
}.
Arguments me_workflow_id {F V}. Arguments me_action {F V}. Arguments me_subject {F V}. Arguments me_reason {F V}.
Arguments me_payload {F V}.

(** What the audit sink is given. *)
Inductive AuditEntry (F V : Type) :=
  | AuditAgent (d : GovernanceDecision F)
  | AuditEdge (d : EdgeDecision F)
  | AuditWorkflow (d : WorkflowDecision F)
  | AuditEvent (e : MaestroEvent F V).
Arguments AuditAgent {F V}. Arguments AuditEdge {F V}. Arguments AuditWorkflow {F V}. Arguments AuditEvent {F V}.

Record Kernel (F V : Type) := {
  k_registry : list (string * AgentRecord F V);
  k_handoffs : list (string * HandoffRecord F);
  k_workflows : list (string * WorkflowRecord F V);
  k_events : list (MaestroEvent F V);
  k_audit : list (AuditEntry F V)
}.
Arguments k_registry {F V}. Arguments k_handoffs {F V}. Arguments k_workflows {F V}. Arguments k_events {F V}.
Arguments k_audit {F V}.

Definition empty_kernel {F V} : Kernel F V :=
  {| k_registry := []; k_handoffs := []; k_workflows := []; k_events := []; k_audit := [] |}.

Section Kernel.
Context {F V : Type} `{Float F}.
Context (policy : KernelPolicy F) (engine : TransitionInput F -> res (StructuralTransitionReport F)) (audited : bool).
Notation K := (Kernel F V).
Implicit Types (k : K).

Definition set_registry r k : K :=
  {| k_registry := r; k_handoffs := k_handoffs k; k_workflows := k_workflows k; k_events := k_events k;
     k_audit := k_audit k |}.
Definition set_handoffs h k : K :=
  {| k_registry := k_registry k; k_handoffs := h; k_workflows := k_workflows k; k_events := k_events k;
     k_audit := k_audit k |}.
Definition set_workflows w k : K :=
  {| k_registry := k_registry k; k_handoffs := k_handoffs k; k_workflows := w; k_events := k_events k;
     k_audit := k_audit k |}.

(** Mutations of an agent, a handoff and a workflow object. *)
Definition put_agent (id : string) (r : AgentRecord F V) : M K unit :=
  modify (fun k => set_registry (dict_set (k_registry k) id r) k).
Definition put_handoff (id : string) (r : HandoffRecord F) : M K unit :=
  modify (fun k => set_handoffs (dict_set (k_handoffs k) id r) k).
Definition put_workflow (id : string) (r : WorkflowRecord F V) : M K unit :=
  modify (fun k => set_workflows (dict_set (k_workflows k) id r) k).

Definition set_wf_state (st : WorkflowState) (r : WorkflowRecord F V) : WorkflowRecord F V :=
  {| wr_plan := wr_plan r; wr_state := st; wr_psi := wr_psi r; wr_previous_psi := wr_previous_psi r;
     wr_last_coefficients := wr_last_coefficients r; wr_steps := wr_steps r |}.
Definition set_wf_step (id : string) (s : StepRecord V) (r : WorkflowRecord F V) : WorkflowRecord F V :=
  {| wr_plan := wr_plan r; wr_state := wr_state r; wr_psi := wr_psi r; wr_previous_psi := wr_previous_psi r;
     wr_last_coefficients := wr_last_coefficients r; wr_steps := dict_set (wr_steps r) id s |}.

(** [_audit]: the sink is optional. *)
Definition audit (e : AuditEntry F V) : M K unit :=
  modify (fun k => if audited then {| k_registry := k_registry k; k_handoffs := k_handoffs k;
                                      k_workflows := k_workflows k; k_events := k_events k; k_audit := k_audit k ++ [e] |}
                   else k).

Definition emit (workflow_id : option string) (action : MaestroAction) (subject reason : string)
    (payload : list (string * EventValue F V)) : M K unit :=
  let event := {| me_workflow_id := workflow_id; me_action := action; me_subject := subject; me_reason := reason;
                  me_payload := payload |} in
  modify (fun k => {| k_registry := k_registry k; k_handoffs := k_handoffs k; k_workflows := k_workflows k;
                      k_events := k_events k ++ [event]; k_audit := k_audit k |}) ;;
  audit (AuditEvent event).

(** ** Agents *)

Definition register_agent (spec : AgentSpec V) (initial_telemetry : option (AgentTelemetry F)) : M K (AgentRecord F V) :=
  k ← get;
  lift (reject_if (bool_decide (is_Some (dict_get (k_registry k) (as_agent_id spec)))) ValueError
          ("agent already registered: " +:+ as_agent_id spec)) ;;
  coefficients ← match initial_telemetry with
                 | Some m => c ← lift (from_agent_telemetry m); mret (Some c)
                 | None => mret None
                 end;
  let record := {| ar_spec := spec; ar_state := ACTIVE; ar_psi := fl_lit 0; ar_previous_psi := fl_lit 0;
                   ar_last_coefficients := coefficients; ar_failure_streak := 0; ar_observations := 0 |} in
  put_agent (as_agent_id spec) record ;;
  mret record.

Definition get_agent (agent_id : string) : M K (AgentRecord F V) :=
  k ← get;
  match dict_get (k_registry k) agent_id with
  | Some r => mret r
  | None => throw KeyError ("unknown agent: " +:+ agent_id)
  end.

(** The record after [record.previous_psi = record.psi], after the new vitality is stored,
    and after the verdict. *)
Definition ar_begin (r : AgentRecord F V) : AgentRecord F V :=
  {| ar_spec := ar_spec r; ar_state := ar_state r; ar_psi := ar_psi r; ar_previous_psi := ar_psi r;
     ar_last_coefficients := ar_last_coefficients r; ar_failure_streak := ar_failure_streak r;
     ar_observations := ar_observations r |}.
Definition ar_observed (psi : F) (failures : Z) (coeff : Coefficients F) (r : AgentRecord F V) : AgentRecord F V :=
  {| ar_spec := ar_spec r; ar_state := ar_state r; ar_psi := psi; ar_previous_psi := ar_previous_psi r;
     ar_last_coefficients := Some coeff; ar_failure_streak := failures; ar_observations := ar_observations r + 1 |}.
Definition ar_with_state (st : AgentState) (r : AgentRecord F V) : AgentRecord F V :=
  {| ar_spec := ar_spec r; ar_state := st; ar_psi := ar_psi r; ar_previous_psi := ar_previous_psi r;
     ar_last_coefficients := ar_last_coefficients r; ar_failure_streak := ar_failure_streak r;
     ar_observations := ar_observations r |}.

Definition observe_telemetry (agent_id : string) (telemetry : AgentTelemetry F) : M K (GovernanceDecision F) :=
  record ← get_agent agent_id;
  previous_coeff ← lift (match ar_last_coefficients record with
                         | Some c => Ok c
                         | None => from_agent_telemetry default_agent_telemetry
                         end);
  coeff ← lift (from_agent_telemetry telemetry);
  put_agent agent_id (ar_begin record) ;;
  '(new_psi, dpsi) ← lift (engine_step (kp_dt policy) (ar_psi record) coeff);
  let record' := ar_observed new_psi (at_failure_count telemetry) coeff (ar_begin record) in
  put_agent agent_id record' ;;
  report ← lift (evaluate_transition engine agent_id previous_coeff coeff (ar_previous_psi record') (ar_psi record') dpsi
                   (ar_failure_streak record'));
  let decision := decide_agent policy record' coeff dpsi report (report_to_dict report) in
  put_agent agent_id (ar_with_state (gd_new_state decision) record') ;;
  audit (AuditAgent decision) ;;
  mret decision.

(** [sorted(candidates, key=lambda r: (r.psi, -r.failure_streak), reverse=True)]: stable. *)
Definition key_lt (a b : AgentRecord F V) : bool :=
  if fl_eq (ar_psi a) (ar_psi b) then - ar_failure_streak a <? - ar_failure_streak b else fl_lt (ar_psi a) (ar_psi b).
Fixpoint insert_desc (r : AgentRecord F V) (l : list (AgentRecord F V)) : list (AgentRecord F V) :=
  match l with
  | [] => [r]
  | x :: l' => if key_lt r x then x :: insert_desc r l' else r :: l
  end.
Definition sorted_desc (l : list (AgentRecord F V)) : list (AgentRecord F V) := foldr insert_desc [] l.

Definition can_run (capability : string) (r : AgentRecord F V) : bool :=
  bool_decide (ar_state r = ACTIVE) && bool_decide (capability ∈ as_capabilities (ar_spec r)).

Definition route_candidates (task : TaskEnvelope F V) k : list (AgentRecord F V) :=
  let candidates := List.filter (can_run (te_required_capability task)) (dict_values (k_registry k)) in
  if kp_prefer_high_psi_agents policy then sorted_desc candidates else candidates.

(** ** Handoffs *)

Definition hr_begin (r : HandoffRecord F) : HandoffRecord F :=
  {| hr_source_agent_id := hr_source_agent_id r; hr_target_agent_id := hr_target_agent_id r; hr_state := hr_state r;
     hr_psi := hr_psi r; hr_previous_psi := hr_psi r; hr_last_coefficients := hr_last_coefficients r;
     hr_observations := hr_observations r |}.
Definition hr_observed (psi : F) (coeff : Coefficients F) (r : HandoffRecord F) : HandoffRecord F :=
  {| hr_source_agent_id := hr_source_agent_id r; hr_target_agent_id := hr_target_agent_id r; hr_state := hr_state r;
     hr_psi := psi; hr_previous_psi := hr_previous_psi r; hr_last_coefficients := Some coeff;
     hr_observations := hr_observations r + 1 |}.
Definition hr_with_state (st : AgentState) (r : HandoffRecord F) : HandoffRecord F :=
  {| hr_source_agent_id := hr_source_agent_id r; hr_target_agent_id := hr_target_agent_id r; hr_state := st;
     hr_psi := hr_psi r; hr_previous_psi := hr_previous_psi r; hr_last_coefficients := hr_last_coefficients r;
     hr_observations := hr_observations r |}.

(** The observation of the record of an edge. *)
Definition observe_edge (edge : string) (record : HandoffRecord F) (telemetry : HandoffTelemetry F) : M K (EdgeDecision F) :=
  let previous_coeff := default (from_handoff_telemetry default_handoff_telemetry) (hr_last_coefficients record) in
  let coeff := from_handoff_telemetry telemetry in
  put_handoff edge (hr_begin record) ;;
  '(new_psi, dpsi) ← lift (engine_step (kp_dt policy) (hr_psi record) coeff);
  let record' := hr_observed new_psi coeff (hr_begin record) in
  put_handoff edge record' ;;
  fatigue ← lift (fl_trunc (fl_mul (max2 (fl_lit 0) (ht_rework_rate telemetry)) (fl_lit 10)));
  report ← lift (evaluate_transition engine edge previous_coeff coeff (hr_previous_psi record') (hr_psi record') dpsi fatigue);
  let decision := decide_edge policy record' coeff dpsi report (report_to_dict report) in
  put_handoff edge (hr_with_state (ed_new_state decision) record') ;;
  audit (AuditEdge decision) ;;
  (if bool_decide (ed_action decision = REROUTE \/ ed_action decision = QUARANTINE)
   then emit None (ed_action decision) edge (ed_reason decision) [("edge_psi", EvFloat (ed_psi decision))]
   else mret tt) ;;
  mret decision.

Definition observe_handoff (source_agent_id target_agent_id : string) (telemetry : HandoffTelemetry F)
  : M K (EdgeDecision F) :=
  let edge := source_agent_id +:+ "->" +:+ target_agent_id in
  k ← get;
  match dict_get (k_handoffs k) edge with
  | Some record => observe_edge edge record telemetry
  | None =>
      let record := {| hr_source_agent_id := source_agent_id; hr_target_agent_id := target_agent_id;
                       hr_state := ACTIVE; hr_psi := fl_lit 0; hr_previous_psi := fl_lit 0;
                       hr_last_coefficients := None; hr_observations := 0 |} in
      put_handoff edge record ;;
      observe_edge edge record telemetry
  end.

(** ** Workflows *)

(** [StepRecord(step=s)], and the dict of the steps of a plan. *)
Definition fresh_step (s : WorkflowStep V) : StepRecord V :=
  {| sr_step := s; sr_state := SPENDING; sr_assigned_agent_id := None; sr_attempts := 0; sr_output := None;
     sr_error := None |}.
Definition steps_of_plan (steps : list (WorkflowStep V)) : list (string * StepRecord V) :=
  fold_left (fun d s => dict_set d (ws_step_id s) (fresh_step s)) steps [].

Definition create_workflow (plan : WorkflowPlan F V) : M K (WorkflowRecord F V) :=
  k ← get;
  lift (reject_if (bool_decide (is_Some (dict_get (k_workflows k) (wp_workflow_id plan)))) ValueError
          ("workflow already exists: " +:+ wp_workflow_id plan)) ;;
  let record := {| wr_plan := plan; wr_state := WDRAFT; wr_psi := fl_lit 0; wr_previous_psi := fl_lit 0;
                   wr_last_coefficients := None; wr_steps := steps_of_plan (wp_steps plan) |} in
  put_workflow (wp_workflow_id plan) record ;;
  emit None OBSERVE (wp_workflow_id plan) "workflow created" [("goal", EvText (wp_goal plan))] ;;
  mret record.

Definition get_workflow (workflow_id : string) : M K (WorkflowRecord F V) :=
  k ← get;
  match dict_get (k_workflows k) workflow_id with
  | Some r => mret r
  | None => throw KeyError ("unknown workflow: " +:+ workflow_id)
  end.

Definition wr_begin (r : WorkflowRecord F V) : WorkflowRecord F V :=
  {| wr_plan := wr_plan r; wr_state := wr_state r; wr_psi := wr_psi r; wr_previous_psi := wr_psi r;
     wr_last_coefficients := wr_last_coefficients r; wr_steps := wr_steps r |}.
Definition wr_observed (psi : F) (coeff : Coefficients F) (r : WorkflowRecord F V) : WorkflowRecord F V :=
  {| wr_plan := wr_plan r; wr_state := wr_state r; wr_psi := psi; wr_previous_psi := wr_previous_psi r;
     wr_last_coefficients := Some coeff; wr_steps := wr_steps r |}.

Definition observe_workflow (workflow_id : string) (telemetry : WorkflowTelemetry F) : M K (WorkflowDecision F) :=
  record ← get_workflow workflow_id;
  let previous_coeff := default (from_workflow_telemetry default_workflow_telemetry) (wr_last_coefficients record) in
  let coeff := from_workflow_telemetry telemetry in
  put_workflow workflow_id (wr_begin record) ;;
  '(new_psi, dpsi) ← lift (engine_step (kp_dt policy) (wr_psi record) coeff);
  let record' := wr_observed new_psi coeff (wr_begin record) in
  put_workflow workflow_id record' ;;
  let fatigue := Z.of_nat (length (steps_in SFAILED (wr_steps record'))) in
  report ← lift (evaluate_transition engine workflow_id previous_coeff coeff (wr_previous_psi record') (wr_psi record')
                   dpsi fatigue);
  let decision := decide_workflow policy record' coeff dpsi report (report_to_dict report) in
  put_workflow workflow_id (set_wf_state (wd_new_state decision) record') ;;
  audit (AuditWorkflow decision) ;;
  emit (Some workflow_id) (wd_action decision) workflow_id (wd_reason decision)
    [("workflow_psi", EvFloat (wd_psi decision))] ;;
  mret decision.

(** [all(workflow.steps[d].state == COMPLETED for d in depends_on)]. *)
Fixpoint all_completed (steps : list (string * StepRecord V)) (deps : list string) : res bool :=
  match deps with
  | [] => Ok true
  | d :: deps' =>
      match dict_get steps d with
      | None => raise KeyError d
      | Some r => if bool_decide (sr_state r = SCOMPLETED) then all_completed steps deps' else Ok false
      end
  end.

(** The keys of the steps that are pending with their dependencies completed. *)
Fixpoint ready_among (steps todo : list (string * StepRecord V)) : res (list string) :=
  match todo with
  | [] => Ok []
  | (id, r) :: todo' =>
      if negb (bool_decide (sr_state r = SPENDING)) then ready_among steps todo'
      else
        b ← all_completed steps (ws_depends_on (sr_step r));
        rest ← ready_among steps todo';
        mret (if b : bool then id :: rest else rest)
  end.
Definition ready_steps (workflow_id : string) : M K (list string) :=
  workflow ← get_workflow workflow_id;
  lift (ready_among (wr_steps workflow) (wr_steps workflow)).

Definition intervene (workflow_id : string) (action : MaestroAction) (subject reason : string)
    (payload : list (string * EventValue F V)) : M K unit :=
  workflow ← get_workflow workflow_id;
  put_workflow workflow_id
    (match action with
     | PAUSE => set_wf_state WPAUSED workflow
     | ESCALATE => set_wf_state WESCALATED workflow
     | FINALIZE => set_wf_state WCOMPLETED workflow
     | REROUTE => set_wf_state WDEGRADED workflow
     | _ => workflow
     end) ;;
  emit (Some workflow_id) action subject reason payload.

(** [bool(s)] of an optional text. *)
Definition truthy_id (s : option string) : option string :=
  match s with Some x => if bool_decide (x = "") then None else Some x | None => None end.

Definition assign_agent (s : StepRecord V) : M K (AgentRecord F V) :=
  let capability := ws_capability (sr_step s) in
  preferred ← match truthy_id (ws_preferred_agent_id (sr_step s)) with
              | Some id =>
                  r ← get_agent id;
                  mret (if can_run capability r then Some r else None)
              | None => mret None
              end;
  match preferred with
  | Some r => mret r
  | None =>
      k ← get;
      match route_candidates {| te_task_id := ws_step_id (sr_step s); te_required_capability := capability;
                                te_payload := RoutingPayload (ws_instruction (sr_step s)) (ws_metadata (sr_step s));
                                te_priority := fl_lit 0.5 |} k with
      | r :: _ => mret r
      | [] => throw RuntimeError ("no active agent can execute step " +:+ ws_step_id (sr_step s) +:+ " capability=" +:+ capability)
      end
  end.

(** [{dep: workflow.steps[dep].output for dep in depends_on}]. *)
Fixpoint dependency_outputs (steps : list (string * StepRecord V)) (deps : list string) (acc : list (string * option V))
  : res (list (string * option V)) :=
  match deps with
  | [] => Ok acc
  | d :: deps' =>
      match dict_get steps d with
      | None => raise KeyError d
      | Some r => dependency_outputs steps deps' (dict_set acc d (sr_output r))
      end
  end.

(** [_observe_step_handoffs]. *)
Definition pick_by (ok : bool) (a b : Q) : F := if ok then fl_lit a else fl_lit b.
#[local] Arguments pick_by ok a%_Q b%_Q.
Definition step_handoff (workflow_id step_id target dep_id : string) : M K unit :=
  workflow ← get_workflow workflow_id;
  match dict_get (wr_steps workflow) dep_id, dict_get (wr_steps workflow) step_id with
  | Some dep, Some s =>
      match truthy_id (sr_assigned_agent_id dep) with
      | None => mret tt
      | Some source =>
          let ok := bool_decide (sr_state s = SCOMPLETED) in
          observe_handoff source target
            {| ht_artifact_quality := pick_by ok 0.85 0.25; ht_context_preservation := pick_by ok 0.80 0.30;
               ht_acceptance_rate := pick_by ok 0.90 0.20; ht_rework_rate := pick_by ok 0.05 0.75; ht_latency_ms := fl_lit 0;
               ht_ambiguity := pick_by ok 0.10 0.70; ht_policy_risk := fl_lit 0;
               ht_demand_rate := wp_priority (wr_plan workflow); ht_custom := [] |} ;;
          mret tt
      end
  | _, _ => throw KeyError dep_id
  end.
Definition observe_step_handoffs (workflow_id step_id : string) : M K unit :=
  workflow ← get_workflow workflow_id;
  match dict_get (wr_steps workflow) step_id with
  | None => throw KeyError step_id
  | Some s =>
      match truthy_id (sr_assigned_agent_id s) with
      | None => mret tt
      | Some target => for_each (step_handoff workflow_id step_id target) (ws_depends_on (sr_step s))
      end
  end.

(** [_observe_workflow_from_steps]. *)
Definition workflow_telemetry (workflow : WorkflowRecord F V) : res (WorkflowTelemetry F) :=
  let count st := Z.of_nat (length (steps_in st (wr_steps workflow))) in
  let total := Z.max 1 (Z.of_nat (length (wr_steps workflow))) in
  let failed := count SFAILED in
  let progress := fl_ratio (count SCOMPLETED) total in
  let blocking := fl_ratio failed total in
  let confidence := fl_mul progress (fl_sub (fl_lit 1) blocking) in
  let priority := wp_priority (wr_plan workflow) in
  failed_f ← float_of_int failed;
  running_f ← float_of_int (count SRUNNING);
  mret {| wt_goal_alignment := if failed =? 0 then fl_lit 0.9 else fl_lit 0.55; wt_progress_rate := progress;
          wt_completion_confidence := confidence;
          wt_coordination_quality := if failed =? 0 then fl_lit 0.85 else fl_lit 0.45; wt_blocking_rate := blocking;
          wt_rework_rate := blocking; wt_cost_pressure := fl_add (fl_lit 0.10) (fl_mul (fl_lit 0.20) failed_f);
          wt_latency_pressure := fl_add (fl_lit 0.05) (fl_mul (fl_lit 0.10) running_f);
          wt_risk_pressure := fl_mul (fl_lit 0.10) failed_f; wt_demand_rate := priority;
          wt_custom := [("business_priority", priority)] |}.
Definition observe_workflow_from_steps (workflow_id : string) : M K (WorkflowDecision F) :=
  workflow ← get_workflow workflow_id;
  telemetry ← lift (workflow_telemetry workflow);
  observe_workflow workflow_id telemetry.

(** ** What others do while a task runs *)

Inductive KernelOp :=
  | OpRegister (spec : AgentSpec V) (initial : option (AgentTelemetry F))
  | OpObserve (agent_id : string) (telemetry : AgentTelemetry F)
  | OpHandoff (source target : string) (telemetry : HandoffTelemetry F)
  | OpCreate (plan : WorkflowPlan F V)
  | OpWorkflow (workflow_id : string) (telemetry : WorkflowTelemetry F)
  | OpEmit (workflow_id : option string) (action : MaestroAction) (subject reason : string)
      (payload : list (string * EventValue F V))
  | OpIntervene (workflow_id : string) (action : MaestroAction) (subject reason : string)
      (payload : list (string * EventValue F V)).

Definition exec_op (op : KernelOp) : M K unit :=
  match op with
  | OpRegister spec initial => register_agent spec initial ;; mret tt
  | OpObserve id m => observe_telemetry id m ;; mret tt
  | OpHandoff s t m => observe_handoff s t m ;; mret tt
  | OpCreate plan => create_workflow plan ;; mret tt
  | OpWorkflow id m => observe_workflow id m ;; mret tt
  | OpEmit w a s r p => emit w a s r p
  | OpIntervene w a s r p => intervene w a s r p
  end.

(** A history of operations: what an operation raises goes to its caller. *)
Definition run_ops (ops : list KernelOp) k : K := fold_left (fun k op => snd (exec_op op k)) ops k.

(** ** Tasks *)

(** A reply of the runtime: the result or an exception, the elapsed time in seconds and what
    others did before it came. *)
Record Reply := { re_result : res (TaskResult F V); re_elapsed : F; re_meanwhile : list KernelOp }.

(** A call of the runtime, with the kernel it was made in and the step it is for. *)
Record Call := {
  c_step : option (string * string);
  c_agent : AgentSpec V;
  c_task : TaskEnvelope F V;
  c_kernel : K;
  c_result : res (TaskResult F V)
}.
Record World := { w_kernel : K; w_calls : list Call }.

(** The runtime may answer by what it was asked before. *)
Definition Runtime := list (AgentSpec V * TaskEnvelope F V) -> AgentSpec V -> TaskEnvelope F V -> Reply.

Context (runtime : option Runtime).

Definition on_kernel {A} (m : M K A) : M World A := fun w =>
  let (r, k) := m (w_kernel w) in (r, {| w_kernel := k; w_calls := w_calls w |}).

(** [await self.runtime.run(agent, task)], with the time it took. *)
Definition call_runtime (rt : Runtime) (for_step : option (string * string)) (agent : AgentSpec V) (task : TaskEnvelope F V)
  : M World (TaskResult F V * F) := fun w =>
  let reply := rt (map (fun c => (c_agent c, c_task c)) (w_calls w)) agent task in
  ((r ← re_result reply; mret (r, re_elapsed reply)),
   {| w_kernel := run_ops (re_meanwhile reply) (w_kernel w);
      w_calls := w_calls w ++ [{| c_step := for_step; c_agent := agent; c_task := task; c_kernel := w_kernel w;
                                  c_result := re_result reply |}] |}).

(** [result.latency_ms or (elapsed) * 1000]. *)
Definition latency_of (result : TaskResult F V) (elapsed : F) : F :=
  if fl_eq (tr_latency_ms result) (fl_lit 0) then fl_mul elapsed (fl_lit 1000) else tr_latency_ms result.

(** The telemetry [run_task] and [_run_step] report for an agent. *)
Definition task_telemetry (ok : bool) (cooperation handoff : F) (priority cost latency : F) (failures : Z) : AgentTelemetry F :=
  {| at_success_rate := if ok then fl_lit 1 else fl_lit 0; at_cooperation_success := cooperation;
     at_useful_handoff_rate := handoff; at_demand_rate := min2 (fl_lit 1) priority; at_business_priority := priority;
     at_resource_cost := min2 (fl_lit 1) cost; at_overlap_score := fl_lit 0; at_policy_risk := fl_lit 0;
     at_failure_count := failures; at_age_seconds := fl_lit 0; at_latency_p95_ms := latency; at_queue_depth := fl_lit 0;
     at_custom := [] |}.

Definition with_runtime {A} (body : Runtime -> M World A) : M World A :=
  match runtime with Some rt => body rt | None => throw RuntimeError "No AgentRuntime configured" end.

Definition run_task (task : TaskEnvelope F V) : M World (TaskResult F V) :=
  with_runtime (fun rt =>
  k ← on_kernel get;
  match route_candidates task k with
  | [] => throw RuntimeError ("No active agent can handle capability: " +:+ te_required_capability task)
  | chosen :: _ =>
      let spec := ar_spec chosen in
      '(result, elapsed) ← call_runtime rt None spec task;
      failures ← (if tr_ok result then mret 0
                  else r ← on_kernel (get_agent (as_agent_id spec)); mret (ar_failure_streak r + 1));
      on_kernel (observe_telemetry (as_agent_id spec)
        (task_telemetry (tr_ok result) (fl_lit 0.6) (fl_lit 0.6) (te_priority task) (tr_cost result)
           (latency_of result elapsed) failures)) ;;
      mret result
  end).

(** ** The run of a workflow *)

Definition get_step (workflow_id step_id : string) : M K (WorkflowRecord F V * StepRecord V) :=
  workflow ← get_workflow workflow_id;
  match dict_get (wr_steps workflow) step_id with
  | Some s => mret (workflow, s)
  | None => throw KeyError step_id
  end.

(** A mutation of the step object. *)
Definition put_step (workflow_id step_id : string) (f : StepRecord V -> StepRecord V) : M K unit :=
  '(workflow, s) ← get_step workflow_id step_id;
  put_workflow workflow_id (set_wf_step step_id (f s) workflow).

Definition sr_start (agent_id : string) (s : StepRecord V) : StepRecord V :=
  {| sr_step := sr_step s; sr_state := SRUNNING; sr_assigned_agent_id := Some agent_id; sr_attempts := sr_attempts s + 1;
     sr_output := sr_output s; sr_error := sr_error s |}.
Definition sr_finish (result : TaskResult F V) (s : StepRecord V) : StepRecord V :=
  {| sr_step := sr_step s; sr_state := if tr_ok result then SCOMPLETED else SFAILED;
     sr_assigned_agent_id := sr_assigned_agent_id s; sr_attempts := sr_attempts s; sr_output := tr_output result;
     sr_error := tr_error result |}.
Definition sr_retry (s : StepRecord V) : StepRecord V :=
  {| sr_step := sr_step s; sr_state := SPENDING; sr_assigned_agent_id := sr_assigned_agent_id s;
     sr_attempts := sr_attempts s; sr_output := sr_output s; sr_error := sr_error s |}.

(** The task of a step. *)
Definition step_task (plan : WorkflowPlan F V) (s : StepRecord V) (dependencies : list (string * option V))
  : TaskEnvelope F V :=
  {| te_task_id := wp_workflow_id plan +:+ ":" +:+ ws_step_id (sr_step s) +:+ ":" +:+ pretty (sr_attempts s);
     te_required_capability := ws_capability (sr_step s);
     te_payload := StepPayload (wp_workflow_id plan) (wp_goal plan) (ws_instruction (sr_step s)) dependencies
                     (ws_metadata (sr_step s));
     te_priority := wp_priority plan |}.

(** [_run_step] up to the call of the runtime: the agent is chosen and the step started. *)
Definition start_step (workflow_id step_id : string) : M K (AgentSpec V * TaskEnvelope F V) :=
  '(_, s) ← get_step workflow_id step_id;
  agent ← assign_agent s;
  let agent_id := as_agent_id (ar_spec agent) in
  put_step workflow_id step_id (sr_start agent_id) ;;
  '(workflow, s) ← get_step workflow_id step_id;
  emit (Some (wp_workflow_id (wr_plan workflow))) DELEGATE (ws_step_id (sr_step s)) ("assigned to " +:+ agent_id) [] ;;
  dependencies ← lift (dependency_outputs (wr_steps workflow) (ws_depends_on (sr_step s)) []);
  mret (ar_spec agent, step_task (wr_plan workflow) s dependencies).

(** [_run_step] after it. *)
Definition finish_step (workflow_id step_id agent_id : string) (result : TaskResult F V) (elapsed : F) : M K unit :=
  put_step workflow_id step_id (sr_finish result) ;;
  '(workflow, s) ← get_step workflow_id step_id;
  agent ← get_agent agent_id;
  let ok := tr_ok result in
  let priority := wp_priority (wr_plan workflow) in
  observe_telemetry agent_id
    (task_telemetry ok (if ok then fl_lit 0.65 else fl_lit 0.25) (if ok then fl_lit 0.65 else fl_lit 0.20) priority
       (tr_cost result) (latency_of result elapsed) (if ok then 0 else ar_failure_streak agent + 1)) ;;
  let name := ws_step_id (sr_step s) in
  if negb ok && (sr_attempts s <? attempts_limit policy s) then
    put_step workflow_id step_id sr_retry ;;
    emit (Some (wp_workflow_id (wr_plan workflow))) RETRY name "step failed; retry scheduled" []
  else if negb ok then
    emit (Some (wp_workflow_id (wr_plan workflow))) REROUTE name "step failed; retries exhausted" []
  else mret tt.

Definition run_step (rt : Runtime) (workflow_id step_id : string) : M World unit :=
  '(agent, task) ← on_kernel (start_step workflow_id step_id);
  '(result, elapsed) ← call_runtime rt (Some (workflow_id, step_id)) agent task;
  on_kernel (finish_step workflow_id step_id (as_agent_id agent) result elapsed).

(** The steps of a round in turn; [true] when the run stops there. *)
Fixpoint run_ready (rt : Runtime) (workflow_id : string) (ready : list string) : M World bool :=
  match ready with
  | [] => mret false
  | step_id :: ready' =>
      run_step rt workflow_id step_id ;;
      on_kernel (observe_step_handoffs workflow_id step_id) ;;
      on_kernel (observe_workflow_from_steps workflow_id) ;;
      workflow ← on_kernel (get_workflow workflow_id);
      if bool_decide (wr_state workflow = WESCALATED \/ wr_state workflow = WFAILED) then mret true
      else run_ready rt workflow_id ready'
  end.

(** The rounds of [while True]; [None] when the fuel is used up. *)
Fixpoint run_rounds (rt : Runtime) (fuel : nat) (workflow_id : string) : M World (option unit) :=
  match fuel with
  | O => mret None
  | S fuel' =>
      ready ← on_kernel (ready_steps workflow_id);
      match ready with
      | [] => on_kernel (observe_workflow_from_steps workflow_id) ;; mret (Some tt)
      | _ :: _ =>
          stop ← run_ready rt workflow_id ready;
          if stop : bool then mret (Some tt) else run_rounds rt fuel' workflow_id
      end
  end.

Definition run_workflow (fuel : nat) (workflow_id : string) : M World (option unit) :=
  with_runtime (fun rt =>
  workflow ← on_kernel (get_workflow workflow_id);
  on_kernel (put_workflow workflow_id (set_wf_state WRUNNING workflow)) ;;
  on_kernel (emit (Some workflow_id) DELEGATE workflow_id "workflow started" []) ;;
  run_rounds rt fuel workflow_id).
End Kernel.
