(* ===== verification/MaestroProps.v ===== *)
(** * Theorems on the Maestro kernel

    The invariant of a kernel and that every operation keeps it; what a run of a workflow
    does, as a machine on its steps that the run refines; termination, order, attempts and
    outcome of a run, and what interventions and failing tasks do to it. *)
From S2P Require Import Prelude PyString KernelCore Governor Maestro.
From Stdlib Require Import QArith.
From stdpp Require Import pretty relations.
#[local] Open Scope Z_scope.

(** ** Computations that keep an invariant, or move along a relation *)

Section Moves.
Context {S : Type}.

(** Whatever a computation returns or raises, it moves the state along [R]. *)
Definition moves (R : S -> S -> Prop) {A} (m : M S A) : Prop := forall s, R s (snd (m s)).

Lemma moves_bind R `{!Transitive R} {A B} (m : M S A) (f : A -> M S B) :
  moves R m -> (forall a, moves R (f a)) -> moves R (m ≫= f).
Proof.
  intros Hm Hf s. rewrite M_bind_eq. specialize (Hm s). destruct (m s) as [[a|e] s1]; cbn in *; [|done].
  exact (transitivity Hm (Hf a s1)).
Qed.

Lemma moves_same R `{!Reflexive R} {A} (m : M S A) : (forall s, snd (m s) = s) -> moves R m.
Proof. intros Hm s. by rewrite Hm. Qed.

Lemma moves_for_each R `{!PreOrder R} {A} (f : A -> M S unit) l : (forall a, moves R (f a)) -> moves R (for_each f l).
Proof.
  intros Hf. induction l as [|a l IH]; cbn; [by intros s|]. apply moves_bind; [apply _|apply Hf|done].
Qed.

(** A computation that keeps [I], with what it returns. *)
Definition keeps (I : S -> Prop) {A} (m : M S A) (Q : A -> S -> Prop) : Prop :=
  forall s, I s -> let '(r, s') := m s in I s' /\ match r with Ok a => Q a s' | Raise _ => True end.

Lemma keeps_bind I {A B} (m : M S A) (f : A -> M S B) Q P :
  keeps I m Q -> (forall a s, I s -> Q a s -> let '(r, s') := f a s in I s' /\ match r with Ok b => P b s' | Raise _ => True end) ->
  keeps I (m ≫= f) P.
Proof.
  intros Hm Hf s Hs. rewrite M_bind_eq. specialize (Hm s Hs). destruct (m s) as [[a|e] s1]; [|by destruct Hm].
  destruct Hm as [H1 H2]. exact (Hf a s1 H1 H2).
Qed.
End Moves.

(** ** What each operation does to the dicts *)

Section Effects.
Context {F V : Type} `{Float F}.
Context (policy : KernelPolicy F) (engine : TransitionInput F -> res (StructuralTransitionReport F)) (audited : bool).
Notation K := (Kernel F V).
Implicit Types (k : K).

(** The dicts of two kernels. *)
Definition same_registry k k' : Prop := k_registry k' = k_registry k.
Definition same_handoffs k k' : Prop := k_handoffs k' = k_handoffs k.
Definition same_workflows k k' : Prop := k_workflows k' = k_workflows k.

(** What an observation makes of the record of an agent. *)
Inductive agent_next (m : AgentTelemetry F) (r : AgentRecord F V) : AgentRecord F V -> Prop :=
  | agent_begun : agent_next m r (ar_begin r)
  | agent_seen psi c : from_agent_telemetry m = Ok c -> agent_next m r (ar_observed psi (at_failure_count m) c (ar_begin r))
  | agent_judged psi c dpsi report st reason review :
      from_agent_telemetry m = Ok c ->
      agent_verdict policy (ar_observed psi (at_failure_count m) c (ar_begin r)) c dpsi report = (st, reason, review) ->
      agent_next m r (ar_with_state st (ar_observed psi (at_failure_count m) c (ar_begin r))).

Definition only_agent (id : string) (r' : AgentRecord F V) k k' : Prop :=
  k_registry k' = dict_set (k_registry k) id r' /\ same_handoffs k k' /\ same_workflows k k'.

Lemma audit_eq e k : exists k', audit audited e k = (Ok tt, k') /\ k_registry k' = k_registry k /\
  k_handoffs k' = k_handoffs k /\ k_workflows k' = k_workflows k /\ k_events k' = k_events k.
Proof. eexists. split; [reflexivity|]. by destruct audited. Qed.

Lemma emit_eq w a s r p k : exists k', emit audited w a s r p k = (Ok tt, k') /\ k_registry k' = k_registry k /\
  k_handoffs k' = k_handoffs k /\ k_workflows k' = k_workflows k.
Proof. eexists. split; [reflexivity|]. by destruct audited. Qed.

(** Runs the leading computation of a bind in [E], when it is one of the primitives. *)
Ltac run_prim E :=
  rewrite M_bind_eq in E;
  cbn [get put_agent put_handoff put_workflow modify mret M_ret lift throw] in E.

Lemma observe_effect id m k x k' :
  observe_telemetry policy engine audited id m k = (x, k') ->
  k' = k \/ exists r r', dict_get (k_registry k) id = Some r /\ agent_next m r r' /\ only_agent id r' k k'.
Proof.
  unfold observe_telemetry, get_agent. intros E. run_prim E. run_prim E.
  destruct (dict_get (k_registry k) id) as [r|] eqn:Er; [|left; by injection E].
  cbn [mret M_ret] in E. run_prim E.
  destruct (match ar_last_coefficients r with Some c => Ok c | None => _ end) as [pc|e]; [|left; by injection E].
  run_prim E. destruct (from_agent_telemetry m) as [c|e] eqn:Ec; [|left; by injection E].
  right. exists r. run_prim E. run_prim E. destruct (engine_step _ _ _) as [[psi dpsi]|e].
  2:{ exists (ar_begin r). injection E as _ <-. split_and!; [done|constructor|by split_and!]. }
  run_prim E. run_prim E. destruct (evaluate_transition _ _ _ _ _ _ _ _) as [report|e].
  2:{ eexists. injection E as _ <-. split_and!; [done|by eapply agent_seen|]. split_and!; [|done|done].
      cbn. by rewrite dict_set_set. }
  cbv zeta in E. unfold decide_agent in E. destruct (agent_verdict _ _ _ _ _) as [[st reason] review] eqn:Ev.
  eexists. split_and!; [done|by eapply agent_judged|]. run_prim E. rewrite M_bind_eq in E.
  match type of E with context [audit audited ?e ?k1] => destruct (audit_eq e k1) as (k2 & Ha & Hr & Hh & Hw & _) end.
  rewrite Ha in E. injection E as _ <-. unfold only_agent, same_handoffs, same_workflows. rewrite Hr Hh Hw. cbn.
  by rewrite !dict_set_set.
Qed.

Definition only_workflow (id : string) (r' : WorkflowRecord F V) k k' : Prop :=
  k_workflows k' = dict_set (k_workflows k) id r' /\ same_registry k k' /\ same_handoffs k k'.
Definition only_handoff (id : string) (h' : HandoffRecord F) k k' : Prop :=
  k_handoffs k' = dict_set (k_handoffs k) id h' /\ same_registry k k' /\ same_workflows k k'.

(** Coefficients a kernel may store. *)
Definition mapped (c : option (Coefficients F)) : Prop :=
  match c with
  | None => True
  | Some c => (exists m, from_agent_telemetry m = Ok c) \/ (exists m, c = from_handoff_telemetry m) \/
              (exists m, c = from_workflow_telemetry m)
  end.

(** A workflow with the same plan and steps. *)
Definition same_work (r r' : WorkflowRecord F V) : Prop :=
  wr_plan r' = wr_plan r /\ wr_steps r' = wr_steps r /\
  (wr_last_coefficients r' = wr_last_coefficients r \/ mapped (wr_last_coefficients r')).

(** The verdict a decision on a workflow comes from. *)
Definition judged (r : WorkflowRecord F V) (st : WorkflowState) : Prop :=
  exists r' coeff dpsi report reason action review, wr_plan r' = wr_plan r /\ wr_steps r' = wr_steps r /\
    workflow_verdict policy r' coeff dpsi report = (st, reason, action, review).

Lemma same_work_begin r : same_work r (wr_begin r).
Proof. split; [done|]. split; [done|by left]. Qed.
Lemma same_work_observed psi m r : same_work r (wr_observed psi (from_workflow_telemetry m) (wr_begin r)).
Proof. split; [done|]. split; [done|right; right; right; by exists m]. Qed.
Lemma same_work_state st r r' : same_work r r' -> same_work r (set_wf_state st r').
Proof. done. Qed.

Lemma observe_workflow_effect id m k x k' :
  observe_workflow policy engine audited id m k = (x, k') ->
  (k' = k /\ exists e, x = Raise e) \/
  exists r r', dict_get (k_workflows k) id = Some r /\ same_work r r' /\ only_workflow id r' k k' /\
    forall d, x = Ok d -> judged r (wr_state r').
Proof.
  unfold observe_workflow, get_workflow. intros E. run_prim E. run_prim E.
  destruct (dict_get (k_workflows k) id) as [r|] eqn:Er; [|left; by injection E as <- <-; eauto].
  cbn [mret M_ret] in E. cbv zeta in E. right. exists r. run_prim E. run_prim E.
  destruct (engine_step _ _ _) as [[psi dpsi]|e].
  2:{ exists (wr_begin r). injection E as <- <-. split; [done|]. split; [apply same_work_begin|]. by split. }
  run_prim E. run_prim E. destruct (evaluate_transition _ _ _ _ _ _ _ _) as [report|e].
  2:{ eexists. injection E as <- <-. split; [done|]. split; [apply same_work_observed|]. split; [|done].
      split; [cbn; by rewrite dict_set_set|done]. }
  unfold decide_workflow in E. destruct (workflow_verdict _ _ _ _ _) as [[[st reason] action] review] eqn:Ev.
  eexists. split; [done|]. split; [apply same_work_state, same_work_observed|].
  run_prim E. rewrite M_bind_eq in E.
  match type of E with context [audit audited ?e ?k1] => destruct (audit_eq e k1) as (k2 & Ha & Hr & Hh & Hw & _) end.
  rewrite Ha in E. rewrite M_bind_eq in E.
  match type of E with context [emit audited ?w ?a ?s ?r ?p ?k1] => destruct (emit_eq w a s r p k1) as (k3 & He & Hr3 & Hh3 & Hw3) end.
  rewrite He in E. injection E as <- <-. split.
  - unfold only_workflow, same_handoffs, same_registry. rewrite Hr3 Hh3 Hw3 Hr Hh Hw. cbn. by rewrite !dict_set_set.
  - intros _ _. do 7 eexists. split; [|split; [|exact Ev]]; done.
Qed.

Lemma observe_edge_effect edge r m k x k' :
  observe_edge policy engine audited edge r m k = (x, k') ->
  exists h', only_handoff edge h' k k' /\ edge_id h' = edge_id r /\
    (mapped (hr_last_coefficients h') \/ hr_last_coefficients h' = hr_last_coefficients r).
Proof.
  unfold observe_edge. cbv zeta. intros E. run_prim E. run_prim E. destruct (engine_step _ _ _) as [[psi dpsi]|e].
  2:{ exists (hr_begin r). injection E as _ <-. split; [done|]. split; [done|by right]. }
  assert (forall st, mapped (hr_last_coefficients (hr_with_state st (hr_observed psi (from_handoff_telemetry m) (hr_begin r))))) as Hm.
  { intros st. right; left; by exists m. }
  run_prim E. run_prim E. destruct (fl_trunc _) as [fatigue|e].
  2:{ eexists. injection E as _ <-. split; [by split; [cbn; rewrite dict_set_set|]|]. split; [done|left; exact (Hm ACTIVE)]. }
  run_prim E. destruct (evaluate_transition _ _ _ _ _ _ _ _) as [report|e].
  2:{ eexists. injection E as _ <-. split; [by split; [cbn; rewrite dict_set_set|]|]. split; [done|left; exact (Hm ACTIVE)]. }
  unfold decide_edge in E. destruct (edge_verdict _ _ _ _ _) as [[st reason] action].
  exists (hr_with_state st (hr_observed psi (from_handoff_telemetry m) (hr_begin r))).
  split; [|split; [done|left; apply Hm]]. run_prim E. rewrite M_bind_eq in E.
  match type of E with context [audit audited ?e ?k1] => destruct (audit_eq e k1) as (k2 & Ha & Hr & Hh & Hw & _) end.
  rewrite Ha in E. rewrite M_bind_eq in E. cbn [ed_action ed_reason ed_psi] in E.
  unfold only_handoff, same_registry, same_workflows. case_bool_decide.
  - match type of E with context [emit audited ?w ?a ?s ?r ?p ?k1] => destruct (emit_eq w a s r p k1) as (k3 & He & Hr3 & Hh3 & Hw3) end.
    rewrite He in E. injection E as _ <-. rewrite Hr3 Hh3 Hw3 Hr Hh Hw. cbn. by rewrite !dict_set_set.
  - injection E as _ <-. rewrite Hr Hh Hw. cbn. by rewrite !dict_set_set.
Qed.

Lemma observe_handoff_effect s t m k x k' :
  observe_handoff policy engine audited s t m k = (x, k') ->
  exists h', only_handoff (s +:+ "->" +:+ t) h' k k' /\
    (edge_id h' = s +:+ "->" +:+ t \/ exists h, dict_get (k_handoffs k) (s +:+ "->" +:+ t) = Some h /\ edge_id h' = edge_id h) /\
    (mapped (hr_last_coefficients h') \/
     exists h, dict_get (k_handoffs k) (s +:+ "->" +:+ t) = Some h /\ hr_last_coefficients h' = hr_last_coefficients h).
Proof.
  unfold observe_handoff. cbv zeta. set (edge := s +:+ "->" +:+ t). intros E. run_prim E.
  destruct (dict_get (k_handoffs k) edge) as [h|] eqn:Eh.
  - apply observe_edge_effect in E as (h' & Ho & He & Hc). exists h'. split; [done|]. split; [right; by exists h|].
    destruct Hc; [by left|right; by exists h].
  - run_prim E. apply observe_edge_effect in E as (h' & Ho & He & Hc). exists h'. split; [|split; [by left|]].
    + destruct Ho as (Hh & Hr & Hw). split; [by rewrite Hh dict_set_set|done].
    + left. destruct Hc as [Hc|Hc]; [done|by rewrite Hc].
Qed.

(** ** The invariant of a kernel *)

Definition agent_ok (id : string) (r : AgentRecord F V) : Prop :=
  as_agent_id (ar_spec r) = id /\ mapped (ar_last_coefficients r) /\ (is_critical r = true -> ar_state r <> ARCHIVED).
Definition handoff_ok (id : string) (h : HandoffRecord F) : Prop := edge_id h = id /\ mapped (hr_last_coefficients h).
Definition workflow_ok (id : string) (r : WorkflowRecord F V) : Prop :=
  wp_workflow_id (wr_plan r) = id /\ mapped (wr_last_coefficients r) /\ NoDup (dict_keys (wr_steps r)) /\
  forall sid s, dict_get (wr_steps r) sid = Some s -> ws_step_id (sr_step s) = sid.

Record kernel_ok k : Prop := {
  ok_registry : NoDup (dict_keys (k_registry k));
  ok_agents : forall id r, dict_get (k_registry k) id = Some r -> agent_ok id r;
  ok_handoffs : forall id h, dict_get (k_handoffs k) id = Some h -> handoff_ok id h;
  ok_workflows : forall id r, dict_get (k_workflows k) id = Some r -> workflow_ok id r
}.

(** What only a run changes: plans, steps, and the specifications of agents. *)
Definition kept k k' : Prop :=
  (forall id r, dict_get (k_workflows k) id = Some r ->
     exists r', dict_get (k_workflows k') id = Some r' /\ wr_plan r' = wr_plan r /\ wr_steps r' = wr_steps r) /\
  (forall id r, dict_get (k_registry k) id = Some r ->
     exists r', dict_get (k_registry k') id = Some r' /\ ar_spec r' = ar_spec r).

#[global] Instance kept_preorder : PreOrder kept.
Proof.
  split.
  - intros k. split; intros id r Hr; exists r; done.
  - intros k1 k2 k3 [Hw Ha] [Hw' Ha']. split; intros id r Hr.
    + destruct (Hw id r Hr) as (r' & Hr' & Hp & Hs). destruct (Hw' id r' Hr') as (r2 & Hr2 & Hp2 & Hs2).
      exists r2. by rewrite Hp2 Hs2.
    + destruct (Ha id r Hr) as (r' & Hr' & Hp). destruct (Ha' id r' Hr') as (r2 & Hr2 & Hp2). exists r2. by rewrite Hp2.
Qed.

Lemma kept_same k k' : same_registry k k' -> same_workflows k k' -> kept k k'.
Proof.
  unfold same_registry, same_workflows. intros Hr Hw. split; intros id r Hid; exists r; [by rewrite Hw|by rewrite Hr].
Qed.

Lemma kept_agent id r r' k k' :
  dict_get (k_registry k) id = Some r -> ar_spec r' = ar_spec r -> only_agent id r' k k' -> kept k k'.
Proof.
  intros Hr Hspec (Hk & _ & Hw). unfold same_workflows in Hw. split; intros id0 r0 H0.
  - exists r0. by rewrite Hw.
  - rewrite Hk dict_get_set. case_bool_decide as E; [|by exists r0]. subst id0. exists r'. split; [done|congruence].
Qed.

Lemma kept_workflow id r r' k k' :
  dict_get (k_workflows k) id = Some r -> wr_plan r' = wr_plan r -> wr_steps r' = wr_steps r -> only_workflow id r' k k' ->
  kept k k'.
Proof.
  intros Hr Hp Hs (Hk & Hreg & _). unfold same_registry in Hreg. split; intros id0 r0 H0.
  - rewrite Hk dict_get_set. case_bool_decide as E; [|by exists r0]. subst id0. exists r'. split; [done|].
    assert (r0 = r) as -> by congruence. done.
  - exists r0. by rewrite Hreg.
Qed.

Lemma ok_agent id r' k k' : agent_ok id r' -> only_agent id r' k k' -> kernel_ok k -> kernel_ok k'.
Proof.
  intros Hok (Hk & Hh & Hw) [Hn Ha Hho Hwo]. unfold same_handoffs, same_workflows in *. split.
  - rewrite Hk. by apply dict_set_keys_NoDup.
  - intros id0 r0. rewrite Hk dict_get_set. case_bool_decide as E; [|apply Ha]. subst. by intros [= <-].
  - by rewrite Hh.
  - by rewrite Hw.
Qed.
Lemma ok_handoff id h' k k' : handoff_ok id h' -> only_handoff id h' k k' -> kernel_ok k -> kernel_ok k'.
Proof.
  intros Hok (Hk & Hr & Hw) [Hn Ha Hho Hwo]. unfold same_registry, same_workflows in *. split.
  - by rewrite Hr.
  - by rewrite Hr.
  - intros id0 h0. rewrite Hk dict_get_set. case_bool_decide as E; [|apply Hho]. subst. by intros [= <-].
  - by rewrite Hw.
Qed.
Lemma ok_workflow id r' k k' : workflow_ok id r' -> only_workflow id r' k k' -> kernel_ok k -> kernel_ok k'.
Proof.
  intros Hok (Hk & Hr & Hh) [Hn Ha Hho Hwo]. unfold same_registry, same_handoffs in *. split.
  - by rewrite Hr.
  - by rewrite Hr.
  - by rewrite Hh.
  - intros id0 r0. rewrite Hk dict_get_set. case_bool_decide as E; [|apply Hwo]. subst. by intros [= <-].
Qed.
Lemma ok_same k k' : same_registry k k' -> same_handoffs k k' -> same_workflows k k' -> kernel_ok k -> kernel_ok k'.
Proof.
  unfold same_registry, same_handoffs, same_workflows. intros Hr Hh Hw [Hn Ha Hho Hwo]. split; [by rewrite Hr|by rewrite Hr|by rewrite Hh|by rewrite Hw].
Qed.

Lemma agent_next_ok m id r r' : agent_ok id r -> agent_next m r r' -> agent_ok id r' /\ ar_spec r' = ar_spec r.
Proof.
  intros (Hid & Hc & Hcrit) [| psi c Hm | psi c dpsi report st reason review Hm Hv]; (split; [|done]); split; try done; (split; [|]); try done.
  - left. by exists m.
  - left. by exists m.
  - intros Hcr Hst. destruct (agent_verdict_states _ _ _ _ _ _ _ _ Hv) as (H1 & _). exact (Hcrit Hcr (H1 Hcr Hst)).
Qed.

Lemma observe_ok id m k x k' : kernel_ok k -> observe_telemetry policy engine audited id m k = (x, k') -> kernel_ok k' /\ kept k k'.
Proof.
  intros Hk [->|(r & r' & Hr & Hn & Ho)]%observe_effect; [by split|].
  destruct (agent_next_ok m id r r') as [Hok Hspec]; [by apply ok_agents with k|done|].
  split; [by eapply ok_agent|by eapply kept_agent].
Qed.

Lemma observe_workflow_ok id m k x k' :
  kernel_ok k -> observe_workflow policy engine audited id m k = (x, k') -> kernel_ok k' /\ kept k k'.
Proof.
  intros Hk [[-> _]|(r & r' & Hr & (Hp & Hs & Hc) & Ho & _)]%observe_workflow_effect; [by split|].
  split; [|by eapply kept_workflow]. eapply ok_workflow; [|exact Ho|done].
  destruct (ok_workflows k Hk id r Hr) as (H1 & H2 & H3 & H4). unfold workflow_ok. rewrite Hp Hs. split; [done|].
  split; [|done]. destruct Hc as [->|]; done.
Qed.

Lemma observe_handoff_ok s t m k x k' :
  kernel_ok k -> observe_handoff policy engine audited s t m k = (x, k') -> kernel_ok k' /\ kept k k'.
Proof.
  intros Hk (h' & Ho & He & Hc)%observe_handoff_effect. split.
  - eapply ok_handoff; [|exact Ho|done]. split.
    + destruct He as [He|(h & Hh & He)]; [done|]. rewrite He. by apply (ok_handoffs k Hk).
    + destruct Hc as [Hc|(h & Hh & Hc)]; [done|]. rewrite Hc. by apply (ok_handoffs k Hk _ _ Hh).
  - destruct Ho as (_ & Hr & Hw). by apply kept_same.
Qed.

Lemma register_agent_ok spec m k x k' :
  kernel_ok k -> register_agent spec m k = (x, k') -> kernel_ok k' /\ kept k k'.
Proof.
  intros Hk E. unfold register_agent in E. run_prim E. run_prim E. unfold reject_if in E.
  destruct (bool_decide _) eqn:Eb in E; cbn in E; [by injection E as _ <-|]. apply bool_decide_eq_false in Eb.
  assert (forall c, mapped c -> kernel_ok (set_registry (dict_set (k_registry k) (as_agent_id spec)
    {| ar_spec := spec; ar_state := ACTIVE; ar_psi := fl_lit 0; ar_previous_psi := fl_lit 0; ar_last_coefficients := c;
       ar_failure_streak := 0; ar_observations := 0 |}) k)) as Hok.
  { intros c Hc. eapply ok_agent; [|by split|done]. by split. }
  assert (forall r, kept k (set_registry (dict_set (k_registry k) (as_agent_id spec) r) k)) as Hkept.
  { intros r. split; intros id r0 H0; exists r0; [done|]. cbn. rewrite dict_get_set_ne //. intros ->. by destruct Eb; eexists. }
  rewrite M_bind_eq in E. destruct m as [m|]; cbn in E.
  - destruct (from_agent_telemetry m) as [c|e] eqn:Ec; cbn in E; injection E as _ <-; [|by split].
    split; [|apply Hkept]. apply Hok. left. by exists m.
  - injection E as _ <-. split; [|apply Hkept]. by apply Hok.
Qed.

Lemma fold_steps_ok (l : list (WorkflowStep V)) d :
  NoDup (dict_keys d) -> (forall sid s, dict_get d sid = Some s -> ws_step_id (sr_step s) = sid) ->
  let d' := fold_left (fun d s => dict_set d (ws_step_id s) (fresh_step s)) l d in
  NoDup (dict_keys d') /\ (forall sid s, dict_get d' sid = Some s -> ws_step_id (sr_step s) = sid).
Proof.
  revert d. induction l as [|s l IH]; intros d Hnd Hd; cbn; [done|]. apply IH.
  - by apply dict_set_keys_NoDup.
  - intros sid s0. rewrite dict_get_set. case_bool_decide as E; [|apply Hd]. subst. by intros [= <-].
Qed.

Lemma create_workflow_ok plan k x k' :
  kernel_ok k -> create_workflow audited plan k = (x, k') -> kernel_ok k' /\ kept k k'.
Proof.
  intros Hk E. unfold create_workflow in E. run_prim E. run_prim E. unfold reject_if in E.
  destruct (bool_decide _) eqn:Eb in E; cbn in E; [by injection E as _ <-|]. apply bool_decide_eq_false in Eb.
  cbv zeta in E. run_prim E. rewrite M_bind_eq in E.
  match type of E with context [emit audited ?w ?a ?s ?r ?p ?k1] => destruct (emit_eq w a s r p k1) as (k3 & He & Hr3 & Hh3 & Hw3) end.
  rewrite He in E. injection E as _ <-. cbn in Hr3, Hh3, Hw3. split.
  - eapply ok_workflow; [|split; [exact Hw3|by split]|done].
    destruct (fold_steps_ok (wp_steps plan) []) as [H1 H2]; [constructor|done|]. by split.
  - split; intros id r0 H0; exists r0; [|by rewrite Hr3]. split; [|done]. rewrite Hw3 dict_get_set_ne //.
    intros ->. by destruct Eb; eexists.
Qed.

Lemma emit_ok w a s r p k x k' : kernel_ok k -> emit audited w a s r p k = (x, k') -> kernel_ok k' /\ kept k k'.
Proof.
  intros Hk E. destruct (emit_eq w a s r p k) as (k1 & He & Hr & Hh & Hw). rewrite He in E. injection E as _ <-.
  split; [by eapply ok_same|by apply kept_same].
Qed.

Lemma intervene_ok w a s r p k x k' : kernel_ok k -> intervene audited w a s r p k = (x, k') -> kernel_ok k' /\ kept k k'.
Proof.
  intros Hk E. unfold intervene, get_workflow in E. run_prim E. run_prim E.
  destruct (dict_get (k_workflows k) w) as [wf|] eqn:Ew; [|by injection E as _ <-]. cbn [mret M_ret] in E.
  run_prim E. match type of E with emit audited _ _ _ _ _ ?k1 = _ => set (k1' := k1) in E end.
  assert (exists wf', only_workflow w wf' k k1' /\ same_work wf wf') as (wf' & Ho & Hp & Hs & Hc).
  { eexists. split; [by split|]. destruct a; (split; [|split; [|left]]); done. }
  assert (kernel_ok k1') as Hk1.
  { eapply ok_workflow; [|exact Ho|done]. destruct (ok_workflows k Hk w wf Ew) as (H1 & H2 & H3 & H4).
    unfold workflow_ok. rewrite Hp Hs. split; [done|]. split; [|done]. destruct Hc as [->|]; done. }
  destruct (emit_ok _ _ _ _ _ _ _ _ Hk1 E) as [Hk2 Hkept]. split; [done|]. etransitivity; [|exact Hkept].
  by eapply kept_workflow.
Qed.

(** A [M] that ends in a value has the effect of the computation before it. *)
Lemma bind_ret_state {S A B} (m : M S A) (f : A -> B) s : snd ((x ← m; mret (f x)) s) = snd (m s).
Proof. rewrite M_bind_eq. by destruct (m s) as [[a|e] s']. Qed.

Lemma exec_op_ok op k : kernel_ok k -> kernel_ok (snd (exec_op policy engine audited op k)) /\
  kept k (snd (exec_op policy engine audited op k)).
Proof.
  intros Hk. destruct op; cbn [exec_op]; rewrite ?bind_ret_state;
    match goal with |- context [snd (?m k)] => destruct (m k) as [x k'] eqn:E; cbn [snd] end.
  - by eapply register_agent_ok.
  - by eapply observe_ok.
  - by eapply observe_handoff_ok.
  - by eapply create_workflow_ok.
  - by eapply observe_workflow_ok.
  - by eapply emit_ok.
  - by eapply intervene_ok.
Qed.

Lemma run_ops_ok ops k : kernel_ok k -> kernel_ok (run_ops policy engine audited ops k) /\
  kept k (run_ops policy engine audited ops k).
Proof.
  unfold run_ops. revert k. induction ops as [|op ops IH]; intros k Hk; cbn; [by split|].
  destruct (exec_op_ok op k Hk) as [H1 H2]. destruct (IH _ H1) as [H3 H4]. split; [done|]. by etransitivity.
Qed.

Lemma empty_kernel_ok : kernel_ok empty_kernel.
Proof. split; [constructor|done|done|done]. Qed.

(** ** The steps of a workflow *)

Notation Steps := (list (string * StepRecord V)).
Notation call := (@Call F V).

(** The workflow as a run sees it. *)
Definition view k (wf : string) (plan : WorkflowPlan F V) (steps : Steps) : Prop :=
  exists r, dict_get (k_workflows k) wf = Some r /\ wr_plan r = plan /\ wr_steps r = steps.

Lemma view_kept k k' wf plan steps : kept k k' -> view k wf plan steps -> view k' wf plan steps.
Proof. intros [Hw _] (r & Hr & <- & <-). destruct (Hw wf r Hr) as (r' & Hr' & Hp & Hs). by exists r'. Qed.

Lemma view_ok k wf plan steps : kernel_ok k -> view k wf plan steps ->
  wp_workflow_id plan = wf /\ NoDup (dict_keys steps) /\
  forall sid s, dict_get steps sid = Some s -> ws_step_id (sr_step s) = sid.
Proof. intros Hk (r & Hr & <- & <-). destruct (ok_workflows k Hk wf r Hr) as (H1 & _ & H2 & H3). done. Qed.

Lemma get_step_eq k wf plan steps sid s : view k wf plan steps -> dict_get steps sid = Some s ->
  exists r, get_step wf sid k = (Ok (r, s), k) /\ dict_get (k_workflows k) wf = Some r /\ wr_plan r = plan /\ wr_steps r = steps.
Proof.
  intros (r & Hr & Hp & Hs) Hsid. exists r. split; [|done]. unfold get_step, get_workflow. rewrite !M_bind_eq. cbn.
  rewrite Hr. cbn. by rewrite Hs Hsid.
Qed.

Lemma put_step_eq k wf plan steps sid s f :
  kernel_ok k -> view k wf plan steps -> dict_get steps sid = Some s -> sr_step (f s) = sr_step s ->
  exists k', put_step wf sid f k = (Ok tt, k') /\ kernel_ok k' /\ view k' wf plan (dict_set steps sid (f s)) /\
    same_registry k k'.
Proof.
  intros Hk Hv Hsid Hf. destruct (get_step_eq k wf plan steps sid s Hv Hsid) as (r & Hg & Hr & Hp & Hs).
  eexists. unfold put_step. rewrite M_bind_eq Hg. split; [reflexivity|].
  destruct (ok_workflows k Hk wf r Hr) as (H1 & H2 & H3 & H4). rewrite Hs in H3 H4. split; [|split; [|done]].
  - eapply ok_workflow; [|split; [reflexivity|done]|done]. split; [done|]. split; [done|]. cbn [set_wf_step wr_steps]. rewrite Hs. split.
    + rewrite dict_keys_set; [by eexists|done].
    + intros sid0 s0. rewrite dict_get_set. case_bool_decide as E; [|apply H4]. subst sid0. intros [= <-]. rewrite Hf. by apply H4.
  - eexists. cbn. rewrite dict_get_set_eq. split; [reflexivity|]. cbn. by rewrite Hs.
Qed.

(** *** The agent of a step *)

Lemma insert_desc_elem r x (l : list (AgentRecord F V)) : x ∈ insert_desc r l <-> x = r \/ x ∈ l.
Proof.
  induction l as [|y l IH]; cbn; [rewrite list_elem_of_singleton; set_solver|]. destruct (key_lt r y); set_solver.
Qed.
Lemma sorted_desc_elem x (l : list (AgentRecord F V)) : x ∈ sorted_desc l <-> x ∈ l.
Proof. induction l as [|y l IH]; cbn; [done|]. rewrite insert_desc_elem IH. set_solver. Qed.

Lemma route_candidates_elem task k r :
  kernel_ok k -> r ∈ route_candidates policy task k ->
  can_run (te_required_capability task) r = true /\ dict_get (k_registry k) (as_agent_id (ar_spec r)) = Some r.
Proof.
  intros Hk Hin. assert (r ∈ List.filter (can_run (te_required_capability task)) (dict_values (k_registry k))) as Hin'.
  { unfold route_candidates in Hin. destruct (kp_prefer_high_psi_agents policy); [by apply sorted_desc_elem|done]. }
  apply list_elem_of_In, filter_In in Hin' as [Hv Hc]. split; [done|]. apply list_elem_of_In, list_elem_of_fmap in Hv as ([id r0] & -> & Hv).
  cbn. apply dict_get_elem in Hv; [|by apply ok_registry]. by destruct (ok_agents k Hk id r0 Hv) as [-> _].
Qed.

Lemma get_agent_inv id k x k' : get_agent id k = (x, k') -> k' = k /\ forall r, x = Ok r -> dict_get (k_registry k) id = Some r.
Proof.
  unfold get_agent. intros E. run_prim E. destruct (dict_get _ _) as [r|]; cbn in E; injection E as <- <-; (split; [done|]); [|done].
  by intros ? [= <-].
Qed.

Lemma assign_agent_inv s k x k' :
  kernel_ok k -> assign_agent policy s k = (x, k') ->
  k' = k /\ forall r, x = Ok r -> can_run (ws_capability (sr_step s)) r = true /\
                         dict_get (k_registry k) (as_agent_id (ar_spec r)) = Some r.
Proof.
  intros Hk E. unfold assign_agent in E. rewrite M_bind_eq in E.
  assert (forall k1 (x : res (AgentRecord F V)) k',
     match route_candidates policy {| te_task_id := ws_step_id (sr_step s); te_required_capability := ws_capability (sr_step s);
                                te_payload := RoutingPayload (ws_instruction (sr_step s)) (ws_metadata (sr_step s));
                                te_priority := fl_lit 0.5 |} k with
      | r :: _ => mret r
      | [] => throw RuntimeError ("no active agent can execute step " +:+ ws_step_id (sr_step s) +:+ " capability=" +:+ ws_capability (sr_step s))
      end k1 = (x, k') -> k' = k1 /\ forall r, x = Ok r -> can_run (ws_capability (sr_step s)) r = true /\
                         dict_get (k_registry k) (as_agent_id (ar_spec r)) = Some r) as Hroute.
  { intros k1 x1 k1' E1. destruct (route_candidates _ _ _) as [|r l] eqn:Er; injection E1 as <- <-; (split; [done|]); [done|].
    intros r0 [= <-]. apply (route_candidates_elem {| te_task_id := ws_step_id (sr_step s); te_required_capability := ws_capability (sr_step s);
      te_payload := RoutingPayload (ws_instruction (sr_step s)) (ws_metadata (sr_step s)); te_priority := fl_lit 0.5 |} k r Hk).
    rewrite Er. by left. }
  destruct (truthy_id _) as [id|].
  - rewrite M_bind_eq in E. destruct (get_agent id k) as [y k1] eqn:Eg. apply get_agent_inv in Eg as [-> Hg].
    destruct y as [r|e]; [|by injection E as <- <-]. cbn in E. destruct (can_run _ r) eqn:Ec.
    + cbn in E. injection E as <- <-. split; [done|]. intros ? [= <-]. split; [done|].
      destruct (ok_agents k Hk id r (Hg r eq_refl)) as [-> _]. by apply Hg.
    + rewrite M_bind_eq in E. by apply Hroute in E.
  - cbn [mret M_ret] in E. rewrite M_bind_eq in E. by apply Hroute in E.
Qed.

(** ** The machine a run refines *)

(** What the result of its task makes of a started step. *)
Definition settled (result : TaskResult F V) (s : StepRecord V) : StepRecord V :=
  let s' := sr_finish result s in
  if negb (tr_ok result) && (sr_attempts s' <? attempts_limit policy s') then sr_retry s' else s'.

(** The call for step [s] of a workflow: its agent is active and capable in the kernel of the
    call, the step has been started there, and the task carries the outputs of the
    dependencies. *)
Record call_for (wf : string) (plan : WorkflowPlan F V) (steps : Steps) (sid : string) (s : StepRecord V) (c : call) : Prop := {
  for_step : c_step c = Some (wf, sid);
  for_agent : exists r, dict_get (k_registry (c_kernel c)) (as_agent_id (c_agent c)) = Some r /\ ar_spec r = c_agent c /\
    can_run (ws_capability (sr_step s)) r = true;
  for_steps : view (c_kernel c) wf plan (dict_set steps sid (sr_start (as_agent_id (c_agent c)) s));
  for_task : exists outs, dependency_outputs steps (ws_depends_on (sr_step s)) [] = Ok outs /\
    c_task c = step_task plan (sr_start (as_agent_id (c_agent c)) s) outs
}.

(** One task: a pending step whose dependencies are completed is started and given to the
    runtime.  When [done], the run takes its result in; otherwise the run ends there with
    an exception, of the runtime or of an observation. *)
Inductive wf_move (wf : string) (plan : WorkflowPlan F V) (done : bool) : Steps * list call -> Steps * list call -> Prop :=
  | wf_task steps calls sid s c s' :
      dict_get steps sid = Some s -> sr_state s = SPENDING -> all_completed steps (ws_depends_on (sr_step s)) = Ok true ->
      call_for wf plan steps sid s c ->
      match c_result c with
      | Ok result => s' = settled result (sr_start (as_agent_id (c_agent c)) s) \/
                     done = false /\ s' = sr_finish result (sr_start (as_agent_id (c_agent c)) s)
      | Raise _ => done = false /\ s' = sr_start (as_agent_id (c_agent c)) s
      end ->
      wf_move wf plan done (steps, calls) (dict_set steps sid s', calls ++ [c]).

Lemma dependency_outputs_set (steps : Steps) sid s s' deps acc :
  dict_get steps sid = Some s -> sr_output s' = sr_output s ->
  dependency_outputs (dict_set steps sid s') deps acc = dependency_outputs steps deps acc.
Proof.
  intros Hs Ho. revert acc. induction deps as [|d deps IH]; intros acc; [done|]. cbn. rewrite dict_get_set.
  case_bool_decide as E; [|destruct (dict_get steps d); [apply IH|done]]. subst. by rewrite Hs Ho IH.
Qed.

Lemma dependency_outputs_total (steps : Steps) deps acc b :
  all_completed steps deps = Ok b -> b = true -> exists outs, dependency_outputs steps deps acc = Ok outs.
Proof.
  revert acc. induction deps as [|d deps IH]; intros acc; [by eexists|]. cbn. destruct (dict_get steps d) as [r|]; [|done].
  case_bool_decide; [|by intros [= <-]]. intros Ha Hb. by apply IH.
Qed.

Lemma start_step_spec wf plan steps sid s k x k' :
  kernel_ok k -> view k wf plan steps -> dict_get steps sid = Some s ->
  all_completed steps (ws_depends_on (sr_step s)) = Ok true ->
  start_step policy audited wf sid k = (x, k') ->
  kernel_ok k' /\
  match x with
  | Raise _ => view k' wf plan steps
  | Ok (agent, task) =>
      view k' wf plan (dict_set steps sid (sr_start (as_agent_id agent) s)) /\
      (exists r, dict_get (k_registry k') (as_agent_id agent) = Some r /\ ar_spec r = agent /\
        can_run (ws_capability (sr_step s)) r = true) /\
      exists outs, dependency_outputs steps (ws_depends_on (sr_step s)) [] = Ok outs /\
        task = step_task plan (sr_start (as_agent_id agent) s) outs
  end.
Proof.
  intros Hk Hv Hs Hdeps E. unfold start_step in E.
  destruct (get_step_eq k wf plan steps sid s Hv Hs) as (r & Hg & _). rewrite M_bind_eq Hg in E.
  rewrite M_bind_eq in E. destruct (assign_agent policy s k) as [y k1] eqn:Ea.
  apply assign_agent_inv in Ea as [-> Ha]; [|done]. destruct y as [a|e]; [|by injection E as <- <-].
  destruct (Ha a eq_refl) as [Hrun Hreg]. set (aid := as_agent_id (ar_spec a)) in *. cbv zeta in E.
  destruct (put_step_eq k wf plan steps sid s (sr_start aid) Hk Hv Hs eq_refl) as (k2 & Hp2 & Hk2 & Hv2 & Hr2).
  rewrite M_bind_eq Hp2 in E.
  destruct (get_step_eq k2 wf plan _ sid (sr_start aid s) Hv2 (dict_get_set_eq _ _ _)) as (r2 & Hg2 & _ & Hplan & Hsteps).
  rewrite M_bind_eq Hg2 in E. rewrite M_bind_eq in E.
  match type of E with context [emit audited ?w ?a ?s ?r ?p ?k1] =>
    destruct (emit audited w a s r p k1) as [z k3] eqn:Ee; destruct (emit_eq w a s r p k1) as (k3' & He & Hr3 & Hh3 & Hw3) end.
  rewrite He in Ee. injection Ee as <- <-. cbn [sr_start sr_step] in E. rewrite M_bind_eq Hsteps in E.
  destruct (dependency_outputs_total _ _ [] _ Hdeps eq_refl) as [outs Houts].
  rewrite (dependency_outputs_set steps sid s) // Houts in E. cbn in E. injection E as <- <-.
  assert (kernel_ok k3') as Hk3 by (by eapply ok_same). split; [done|]. split; [|split].
  - destruct Hv2 as (r' & H1 & H2). exists r'. by rewrite Hw3.
  - exists a. rewrite Hr3 Hr2. done.
  - exists outs. by rewrite Hplan.
Qed.

Lemma finish_step_spec wf plan steps sid s aid result elapsed k x k' :
  kernel_ok k -> view k wf plan steps -> dict_get steps sid = Some s ->
  finish_step policy engine audited wf sid aid result elapsed k = (x, k') ->
  kernel_ok k' /\ exists s', view k' wf plan (dict_set steps sid s') /\
    (s' = settled result s \/ (exists e, x = Raise e) /\ s' = sr_finish result s).
Proof.
  intros Hk Hv Hs E. unfold finish_step in E.
  destruct (put_step_eq k wf plan steps sid s (sr_finish result) Hk Hv Hs eq_refl) as (k1 & Hp1 & Hk1 & Hv1 & Hr1).
  rewrite M_bind_eq Hp1 in E.
  destruct (get_step_eq k1 wf plan _ sid (sr_finish result s) Hv1 (dict_get_set_eq _ _ _)) as (r & Hg & _).
  rewrite M_bind_eq Hg in E. rewrite M_bind_eq in E. destruct (get_agent aid k1) as [y k2] eqn:Ea.
  apply get_agent_inv in Ea as [-> _].
  destruct y as [a|e]; [|injection E as <- <-; split; [done|]; exists (sr_finish result s); eauto].
  cbv zeta in E. rewrite M_bind_eq in E.
  match type of E with context [observe_telemetry policy engine audited ?i ?m ?k] => destruct (observe_telemetry policy engine audited i m k) as [z k3] eqn:Eo end.
  apply observe_ok in Eo as [Hk3 Hkept3]; [|done]. pose proof (view_kept _ _ _ _ _ Hkept3 Hv1) as Hv3.
  destruct z as [d|e]; [|injection E as <- <-; split; [done|]; exists (sr_finish result s); eauto].
  unfold settled. destruct (negb (tr_ok result)) eqn:Eok; cbn [andb] in E |- *.
  2:{ injection E as <- <-. split; [done|]. exists (sr_finish result s). eauto. }
  destruct (sr_attempts (sr_finish result s) <? attempts_limit policy (sr_finish result s)) eqn:El.
  - destruct (put_step_eq k3 wf plan _ sid _ sr_retry Hk3 Hv3 (dict_get_set_eq _ _ _) eq_refl) as (k4 & Hp4 & Hk4 & Hv4 & _).
    rewrite M_bind_eq Hp4 in E. apply emit_ok in E as [Hk5 Hkept5]; [|done]. split; [done|].
    exists (sr_retry (sr_finish result s)). split; [|by left]. rewrite dict_set_set in Hv4. by eapply view_kept.
  - apply emit_ok in E as [Hk5 Hkept5]; [|done]. split; [done|]. exists (sr_finish result s).
    split; [by eapply view_kept|by left].
Qed.

Lemma run_step_spec rt wf plan steps sid s w x w' :
  kernel_ok (w_kernel w) -> view (w_kernel w) wf plan steps -> dict_get steps sid = Some s -> sr_state s = SPENDING ->
  all_completed steps (ws_depends_on (sr_step s)) = Ok true ->
  run_step policy engine audited rt wf sid w = (x, w') ->
  kernel_ok (w_kernel w') /\ exists s', let steps' := dict_set steps sid s' in
    view (w_kernel w') wf plan steps' /\
    match x with
    | Ok _ => wf_move wf plan true (steps, w_calls w) (steps', w_calls w')
    | Raise _ => (steps' = steps /\ w_calls w' = w_calls w) \/
                 wf_move wf plan false (steps, w_calls w) (steps', w_calls w')
    end.
Proof.
  intros Hk Hv Hs Hp Hdeps E. unfold run_step in E. rewrite M_bind_eq in E. unfold on_kernel at 1 in E.
  destruct (start_step policy audited wf sid (w_kernel w)) as [y k1] eqn:Es.
  destruct (start_step_spec wf plan steps sid s _ _ _ Hk Hv Hs Hdeps Es) as [Hk1 Hy].
  destruct y as [[agent task]|e]; [|injection E as <- <-; split; [done|]; exists s; rewrite dict_set_id //; eauto].
  destruct Hy as (Hv1 & Hagent & Htask). rewrite M_bind_eq in E. unfold call_runtime in E. cbn [w_kernel w_calls] in E.
  set (reply := rt _ agent task) in E. set (c := {| c_step := Some (wf, sid); c_agent := agent; c_task := task;
    c_kernel := k1; c_result := re_result reply |}) in E.
  assert (call_for wf plan steps sid s c) as Hc by (by split).
  destruct (run_ops_ok (re_meanwhile reply) k1 Hk1) as [Hk2 Hkept2]. pose proof (view_kept _ _ _ _ _ Hkept2 Hv1) as Hv2.
  destruct (re_result reply) as [result|e] eqn:Er; cbn in E.
  - unfold on_kernel in E. cbn [w_kernel w_calls] in E.
    match type of E with context [finish_step policy engine audited wf sid ?a ?r ?el ?k] =>
      destruct (finish_step policy engine audited wf sid a r el k) as [z k3] eqn:Ef end.
    injection E as <- <-. cbn [w_kernel w_calls].
    destruct (finish_step_spec wf plan _ sid _ _ _ _ _ _ _ Hk2 Hv2 (dict_get_set_eq _ _ _) Ef) as (Hk3 & s' & Hv3 & Hs').
    rewrite dict_set_set in Hv3. split; [done|]. eexists. split; [exact Hv3|].
    assert (forall done, done = false \/ s' = settled result (sr_start (as_agent_id agent) s) ->
      wf_move wf plan done (steps, w_calls w) (dict_set steps sid s', w_calls w ++ [c])) as Hmove.
    { intros b Hb. apply (wf_task _ _ _ _ _ _ s); try done. cbn. destruct Hs' as [->|[_ ->]]; [by left|].
      destruct Hb as [->|Hb]; [by right|by left]. }
    destruct z as [[]|e]; [|right; apply Hmove; by left]. apply Hmove. destruct Hs' as [->|[[e He] _]]; [by right|done].
  - injection E as <- <-. cbn [w_kernel w_calls]. split; [done|]. eexists. split; [exact Hv2|]. right.
    apply (wf_task _ _ _ _ _ _ s); try done.
Qed.

(** ** Fuel: every task uses up a part of the budget of its step *)

Definition budget (s : StepRecord V) : nat :=
  if bool_decide (sr_state s = SPENDING) then Z.to_nat (Z.max 1 (attempts_limit policy s - sr_attempts s)) else 0%nat.
Definition total_budget (steps : Steps) : nat := sum_list_with (fun kv => budget kv.2) steps.

Lemma sum_list_with_dict_set {A} (f : A -> nat) (d : list (string * A)) i v0 v :
  dict_get d i = Some v0 ->
  (sum_list_with (fun kv => f kv.2) (dict_set d i v) + f v0 = sum_list_with (fun kv => f kv.2) d + f v)%nat.
Proof.
  induction d as [|[k1 v1] d IH]; cbn; [done|]. case_bool_decide as E; cbn; [intros [= ->]; lia|].
  intros Hd. specialize (IH Hd). lia.
Qed.

Lemma budget_pending s : sr_state s = SPENDING -> budget s = Z.to_nat (Z.max 1 (attempts_limit policy s - sr_attempts s)).
Proof. intros Hp. unfold budget. by rewrite (bool_decide_eq_true_2 _ Hp). Qed.
Lemma budget_other s : sr_state s <> SPENDING -> budget s = 0%nat.
Proof. intros Hp. unfold budget. by rewrite (bool_decide_eq_false_2 _ Hp). Qed.

Lemma settled_budget result s aid : sr_state s = SPENDING ->
  (budget (settled result (sr_start aid s)) < budget s)%nat.
Proof.
  intros Hp. rewrite (budget_pending s Hp). unfold settled. set (s' := sr_finish result (sr_start aid s)).
  assert (sr_state s' <> SPENDING) as Hs' by (cbn; by destruct (tr_ok result)).
  destruct (negb (tr_ok result) && (sr_attempts s' <? attempts_limit policy s')) eqn:El.
  - to_prop. rewrite budget_pending //. unfold attempts_limit in *. cbn in *. lia.
  - rewrite (budget_other s' Hs'). lia.
Qed.

Lemma wf_move_budget wf plan a b : wf_move wf plan true a b -> (total_budget b.1 < total_budget a.1)%nat.
Proof.
  intros [steps calls sid s c s' Hs Hp _ _ Ho]. cbn. unfold total_budget.
  pose proof (sum_list_with_dict_set budget steps sid s s' Hs) as Hsum.
  enough (budget s' < budget s)%nat by lia.
  destruct (c_result c); [|by destruct Ho]. destruct Ho as [->|[? _]]; [|done]. by apply settled_budget.
Qed.

Lemma wf_moves_budget wf plan a b : rtc (wf_move wf plan true) a b -> (total_budget b.1 <= total_budget a.1)%nat.
Proof. induction 1 as [|a b c Hab _ IH]; [done|]. apply wf_move_budget in Hab. lia. Qed.

(** ** The observations after a task *)

Definition verdict_at k (wf : string) : Prop :=
  exists r, dict_get (k_workflows k) wf = Some r /\ judged r (wr_state r).

Lemma step_handoff_ok wf sid t d k x k' :
  kernel_ok k -> step_handoff policy engine audited wf sid t d k = (x, k') -> kernel_ok k' /\ kept k k'.
Proof.
  intros Hk E. unfold step_handoff, get_workflow in E. run_prim E. run_prim E.
  destruct (dict_get (k_workflows k) wf) as [r|]; [|by injection E as _ <-]. cbn [mret M_ret] in E.
  destruct (dict_get (wr_steps r) d) as [dep|]; [|by injection E as _ <-].
  destruct (dict_get (wr_steps r) sid) as [s|]; [|by injection E as _ <-].
  destruct (truthy_id _) as [source|]; [|by injection E as _ <-]. cbv zeta in E. rewrite M_bind_eq in E.
  match type of E with context [observe_handoff policy engine audited ?s ?t ?m ?k] =>
    destruct (observe_handoff policy engine audited s t m k) as [y k1] eqn:Eo end.
  apply observe_handoff_ok in Eo; [|done]. by destruct y; injection E as _ <-.
Qed.

Lemma observe_step_handoffs_ok wf sid k x k' :
  kernel_ok k -> observe_step_handoffs policy engine audited wf sid k = (x, k') -> kernel_ok k' /\ kept k k'.
Proof.
  intros Hk E. unfold observe_step_handoffs, get_workflow in E. run_prim E. run_prim E.
  destruct (dict_get (k_workflows k) wf) as [r|]; [|by injection E as _ <-]. cbn [mret M_ret] in E.
  destruct (dict_get (wr_steps r) sid) as [s|]; [|by injection E as _ <-].
  destruct (truthy_id _) as [t|]; [|by injection E as _ <-]. clear r.
  revert k Hk E. induction (ws_depends_on (sr_step s)) as [|d deps IH]; intros k Hk E; cbn in E; [by injection E as _ <-|].
  rewrite M_bind_eq in E. destruct (step_handoff policy engine audited wf sid t d k) as [y k1] eqn:Eo.
  apply step_handoff_ok in Eo as [Hk1 Hkept]; [|done]. destruct y as [[]|e]; [|by injection E as _ <-].
  destruct (IH k1 Hk1 E) as [Hk2 Hkept2]. split; [done|]. by etransitivity.
Qed.

Lemma observe_from_steps_ok wf k x k' :
  kernel_ok k -> observe_workflow_from_steps policy engine audited wf k = (x, k') ->
  kernel_ok k' /\ kept k k' /\ forall d, x = Ok d -> verdict_at k' wf.
Proof.
  intros Hk E. unfold observe_workflow_from_steps, get_workflow in E. run_prim E. run_prim E.
  destruct (dict_get (k_workflows k) wf) as [r|] eqn:Er; [|by injection E as <- <-]. cbn [mret M_ret] in E.
  rewrite M_bind_eq in E. unfold lift in E. destruct (workflow_telemetry r) as [m|e]; [|by injection E as <- <-].
  destruct (observe_workflow_ok _ _ _ _ _ Hk E) as [Hk' Hkept]. split; [done|]. split; [done|]. intros d Hd.
  apply observe_workflow_effect in E as [[_ [e He]]|(r0 & r' & Hr & (Hp & Hs & _) & (Ho & _) & Hj)]; [congruence|].
  exists r'. rewrite Ho dict_get_set_eq. split; [done|].
  destruct (Hj d Hd) as (r1 & co & dp & rep & reason & action & review & Hp1 & Hs1 & Hv).
  exists r1, co, dp, rep, reason, action, review. by rewrite Hp Hs.
Qed.

(** ** Ready steps *)

Definition is_ready (steps : Steps) (sid : string) : Prop :=
  exists s, dict_get steps sid = Some s /\ sr_state s = SPENDING /\ all_completed steps (ws_depends_on (sr_step s)) = Ok true.

Lemma ready_among_spec (steps todo : Steps) l :
  ready_among steps todo = Ok l ->
  (forall sid, sid ∈ l <-> exists s, (sid, s) ∈ todo /\ sr_state s = SPENDING /\
                             all_completed steps (ws_depends_on (sr_step s)) = Ok true) /\
  (NoDup (dict_keys todo) -> NoDup l).
Proof.
  revert l. induction todo as [|[sid s] todo IH]; intros l; cbn.
  { intros [= <-]. split; [|constructor]. intros sid. split; [set_solver|]. intros (s & Hin & _). set_solver. }
  destruct (decide (sr_state s = SPENDING)) as [Hp|Hp].
  2:{ rewrite bool_decide_eq_false_2 //. cbn. intros Hl. destruct (IH l Hl) as [H1 H2]. split.
      - intros sid'. rewrite H1. split; [intros (s' & ? & ?); exists s'; set_solver|].
        intros (s' & [[= -> ->]|Hin]%elem_of_cons & Hs'); [by destruct Hs'|by exists s'].
      - intros [_ Hnd]%NoDup_cons. by apply H2. }
  rewrite bool_decide_eq_true_2 //. cbn. intros (b & Hb & (rest & Hrest & Hl)%res_bind_Ok)%res_bind_Ok.
  destruct (IH rest Hrest) as [H1 H2]. injection Hl as <-. split.
  - intros sid'. split.
    + intros Hin. destruct b; [apply elem_of_cons in Hin as [->|Hin]; [exists s; set_solver|]|];
        apply H1 in Hin as (s' & ? & ?); exists s'; set_solver.
    + intros (s' & [[= -> ->]|Hin]%elem_of_cons & Hs' & Ha).
      * assert (b = true) as -> by congruence. by left.
      * assert (sid' ∈ rest) by (apply H1; by exists s'). destruct b; [by right|done].
  - intros [Hn Hnd]%NoDup_cons. destruct b; [|by apply H2]. apply NoDup_cons. split; [|by apply H2].
    intros (s' & Hin & _)%H1. apply Hn, list_elem_of_fmap. by exists (sid, s').
Qed.

Lemma all_completed_set (steps : Steps) sid s s' deps :
  dict_get steps sid = Some s -> sr_state s = SPENDING -> all_completed steps deps = Ok true ->
  all_completed (dict_set steps sid s') deps = Ok true.
Proof.
  intros Hs Hp. induction deps as [|d deps IH]; cbn; [done|]. rewrite dict_get_set.
  destruct (dict_get steps d) as [r|] eqn:Ed; [|done]. case_bool_decide as E1; [|done]. intros Ha.
  rewrite bool_decide_eq_false_2; [intros ->; congruence|]. rewrite bool_decide_eq_true_2 //. by apply IH.
Qed.

Lemma is_ready_set steps sid s' sid' :
  is_ready steps sid -> is_ready steps sid' -> sid' <> sid -> is_ready (dict_set steps sid s') sid'.
Proof.
  intros (s & Hs & Hp & _) (s2 & Hs2 & Hp2 & Ha) Hne. exists s2. rewrite dict_get_set_ne //. split; [done|].
  split; [done|]. by eapply all_completed_set.
Qed.

Lemma ready_steps_eq wf plan steps k :
  view k wf plan steps -> ready_steps wf k = (ready_among steps steps, k).
Proof.
  intros (r & Hr & _ & Hs). unfold ready_steps, get_workflow. rewrite !M_bind_eq. cbn. rewrite Hr. cbn. by rewrite Hs.
Qed.

(** ** The run *)

(** The moves of a run: all done, or the last one broken off by an exception. *)
Definition wf_run (wf : string) (plan : WorkflowPlan F V) (returned : bool) (a b : Steps * list call) : Prop :=
  exists c, rtc (wf_move wf plan true) a c /\ (c = b \/ returned = false /\ wf_move wf plan false c b).

Lemma wf_run_left wf plan returned a b c :
  wf_move wf plan true a b -> wf_run wf plan returned b c -> wf_run wf plan returned a c.
Proof. intros Hab (d & Hbd & Hd). exists d. split; [by eapply rtc_l|done]. Qed.
Lemma wf_run_trans wf plan returned a b c :
  rtc (wf_move wf plan true) a b -> wf_run wf plan returned b c -> wf_run wf plan returned a c.
Proof. intros Hab (d & Hbd & Hd). exists d. split; [by etransitivity|done]. Qed.
Lemma wf_run_stop wf plan returned a : wf_run wf plan returned a a.
Proof. exists a. split; [done|by left]. Qed.
Lemma wf_run_done wf plan a b : wf_run wf plan true a b -> rtc (wf_move wf plan true) a b.
Proof. by intros (c & Hc & [->|[? _]]). Qed.

Definition ended {A} (x : res A) : bool := match x with Ok _ => true | Raise _ => false end.

(** The workflow is escalated by a verdict of the governor. *)
Definition escalated k (wf : string) : Prop :=
  exists r, dict_get (k_workflows k) wf = Some r /\ wr_state r = WESCALATED /\ judged r WESCALATED.

(** What follows a step of a round: the handoffs and the workflow are observed. *)
Lemma after_step wf plan steps sid w (f : WorkflowRecord F V -> M (World (F:=F) (V:=V)) bool) x w' :
  kernel_ok (w_kernel w) -> view (w_kernel w) wf plan steps ->
  (on_kernel (observe_step_handoffs policy engine audited wf sid) ;;
   on_kernel (observe_workflow_from_steps policy engine audited wf) ;;
   r ← on_kernel (get_workflow wf); f r) w = (x, w') ->
  exists w2, kernel_ok (w_kernel w2) /\ view (w_kernel w2) wf plan steps /\ w_calls w2 = w_calls w /\
    ((w' = w2 /\ exists e, x = Raise e) \/
     exists r, dict_get (k_workflows (w_kernel w2)) wf = Some r /\ judged r (wr_state r) /\ f r w2 = (x, w')).
Proof.
  intros Hk Hv E. rewrite M_bind_eq in E. unfold on_kernel at 1 in E.
  destruct (observe_step_handoffs policy engine audited wf sid (w_kernel w)) as [y k1] eqn:Eh.
  destruct (observe_step_handoffs_ok _ _ _ _ _ Hk Eh) as [Hk1 Hkept1]. pose proof (view_kept _ _ _ _ _ Hkept1 Hv) as Hv1.
  destruct y as [[]|e].
  2:{ injection E as <- <-. exists {| w_kernel := k1; w_calls := w_calls w |}. do 3 (split; [done|]).
      left. split; [done|by eexists]. }
  rewrite M_bind_eq in E. unfold on_kernel at 1 in E. cbn [w_kernel w_calls] in E.
  destruct (observe_workflow_from_steps policy engine audited wf k1) as [y k2] eqn:Eo.
  destruct (observe_from_steps_ok _ _ _ _ Hk1 Eo) as (Hk2 & Hkept2 & Hverdict).
  pose proof (view_kept _ _ _ _ _ Hkept2 Hv1) as Hv2. exists {| w_kernel := k2; w_calls := w_calls w |}.
  do 3 (split; [done|]). destruct y as [d|e]; [right|left; injection E as <- <-; split; [done|by eexists]].
  destruct (Hverdict d eq_refl) as (r & Hr & Hj). exists r. do 2 (split; [done|]).
  rewrite M_bind_eq in E. unfold on_kernel, get_workflow in E. rewrite M_bind_eq in E. cbn [get w_kernel w_calls] in E.
  by rewrite Hr in E.
Qed.

(** The governor never gives the verdict that a workflow has failed. *)
Lemma judged_not_failed r : ~ judged r WFAILED.
Proof.
  intros (r1 & co & dp & rep & reason & action & review & _ & _ & Hv).
  unfold workflow_verdict in Hv. repeat case_match; congruence.
Qed.

Lemma run_ready_spec rt wf plan ready : forall steps w x w',
  kernel_ok (w_kernel w) -> view (w_kernel w) wf plan steps -> NoDup ready -> Forall (is_ready steps) ready ->
  run_ready policy engine audited rt wf ready w = (x, w') ->
  kernel_ok (w_kernel w') /\ exists steps', view (w_kernel w') wf plan steps' /\
    wf_run wf plan (ended x) (steps, w_calls w) (steps', w_calls w') /\
    forall stop, x = Ok stop -> (ready <> [] -> (total_budget steps' < total_budget steps)%nat) /\
                                (stop = true -> escalated (w_kernel w') wf).
Proof.
  induction ready as [|sid ready IH]; intros steps w x w' Hk Hv Hnd Hall E; cbn in E.
  { injection E as <- <-. split; [done|]. exists steps. split; [done|]. split; [apply wf_run_stop|]. by intros ? [= <-]. }
  apply NoDup_cons in Hnd as [Hnin Hnd]. apply Forall_cons in Hall as [Hready Hall].
  destruct Hready as (s & Hs & Hp & Ha). rewrite M_bind_eq in E.
  destruct (run_step policy engine audited rt wf sid w) as [y w1] eqn:Es.
  destruct (run_step_spec rt wf plan steps sid s w y w1 Hk Hv Hs Hp Ha Es) as (Hk1 & s' & Hv1 & Hmove). cbv zeta in Hv1, Hmove.
  set (steps1 := dict_set steps sid s') in *.
  destruct y as [[]|e].
  2:{ injection E as <- <-. split; [done|]. exists steps1. split; [done|]. split; [|done].
      destruct Hmove as [[-> ->]|Hmove]; [apply wf_run_stop|]. eexists. split; [reflexivity|by right]. }
  assert (Forall (is_ready steps1) ready) as Hall1.
  { apply Forall_forall. intros sid' Hin. apply is_ready_set; [by exists s|by eapply Forall_forall in Hall|]. by intros ->. }
  pose proof (wf_move_budget _ _ _ _ Hmove) as Hb. cbn [fst] in Hb.
  destruct (after_step wf plan steps1 sid w1 _ x w' Hk1 Hv1 E) as (w2 & Hk2 & Hv2 & Hcalls & Hnext).
  rewrite -Hcalls in Hmove. destruct Hnext as [[-> [e ->]]|(r & Hr & Hj & E2)].
  { split; [done|]. exists steps1. split; [done|]. split; [|done]. by eapply wf_run_left, wf_run_stop. }
  case_bool_decide as Est.
  - injection E2 as <- <-. split; [done|]. exists steps1. split; [done|]. split; [by eapply wf_run_left, wf_run_stop|].
    intros stop [= <-]. split; [done|]. intros _. exists r. split; [done|].
    destruct Est as [Est|Est]; rewrite Est in Hj; [done|by apply judged_not_failed in Hj].
  - destruct (IH steps1 w2 x w' Hk2 Hv2 Hnd Hall1 E2) as (Hk4 & steps4 & Hv4 & Hrun & Hstop).
    split; [done|]. exists steps4. split; [done|]. split; [by eapply wf_run_left|]. intros stop Hx.
    destruct (Hstop stop Hx) as [_ H2]. split; [|done]. intros _. subst x.
    pose proof (wf_moves_budget _ _ _ _ (wf_run_done _ _ _ _ Hrun)) as Hle. cbn [fst] in Hle. lia.
Qed.

(** How a run that returned left the workflow: escalated by the governor, or judged with no
    step ready. *)
Definition run_ends k (wf : string) (steps : Steps) : Prop :=
  escalated k wf \/ (verdict_at k wf /\ forall sid, ~ is_ready steps sid).

Lemma run_rounds_spec rt wf plan fuel : forall steps w x w',
  kernel_ok (w_kernel w) -> view (w_kernel w) wf plan steps ->
  run_rounds policy engine audited rt fuel wf w = (x, w') ->
  kernel_ok (w_kernel w') /\ exists steps', view (w_kernel w') wf plan steps' /\
    wf_run wf plan (ended x) (steps, w_calls w) (steps', w_calls w') /\
    match x with
    | Ok (Some _) => run_ends (w_kernel w') wf steps'
    | Ok None => (fuel + total_budget steps' <= total_budget steps)%nat
    | Raise _ => True
    end.
Proof.
  induction fuel as [|fuel IH]; intros steps w x w' Hk Hv E; cbn in E.
  { injection E as <- <-. split; [done|]. exists steps. split; [done|]. split; [apply wf_run_stop|lia]. }
  rewrite M_bind_eq in E. unfold on_kernel at 1 in E. rewrite (ready_steps_eq _ _ _ _ Hv) in E.
  destruct (ready_among steps steps) as [l|e] eqn:El.
  2:{ injection E as <- <-. split; [done|]. exists steps. split; [done|]. split; [apply wf_run_stop|done]. }
  destruct (ready_among_spec steps steps l El) as [Hl Hnd]. destruct (view_ok _ _ _ _ Hk Hv) as (_ & Hndk & _).
  specialize (Hnd Hndk).
  assert (forall sid, sid ∈ l <-> is_ready steps sid) as Hready.
  { intros sid. rewrite Hl. by setoid_rewrite <-(dict_get_elem steps sid _ Hndk). }
  destruct l as [|sid0 l0] eqn:Ell.
  - rewrite M_bind_eq in E. unfold on_kernel in E. cbn [w_kernel w_calls] in E.
    destruct (observe_workflow_from_steps policy engine audited wf (w_kernel w)) as [y k1] eqn:Eo.
    destruct (observe_from_steps_ok _ _ _ _ Hk Eo) as (Hk1 & Hkept1 & Hverdict).
    pose proof (view_kept _ _ _ _ _ Hkept1 Hv) as Hv1.
    assert (forall sid, ~ is_ready steps sid) as Hno by (intros sid ?%Hready; set_solver).
    destruct y as [d|e]; injection E as <- <-; (split; [done|]); exists steps; (split; [done|]); (split; [apply wf_run_stop|]); [|done].
    right. split; [by eapply Hverdict|done].
  - rewrite M_bind_eq in E. cbn [w_kernel w_calls] in E.
    destruct (run_ready policy engine audited rt wf (sid0 :: l0) {| w_kernel := w_kernel w; w_calls := w_calls w |}) as [y w1] eqn:Er.
    apply (run_ready_spec rt wf plan (sid0 :: l0) steps) in Er as (Hk1 & steps1 & Hv1 & Hrun & Hstop); [|done|done|done|].
    2:{ apply Forall_forall. intros sid Hin. by apply Hready. }
    cbn [w_calls] in Hrun. destruct y as [stop|e]; [|injection E as <- <-; split; [done|]; by exists steps1].
    destruct (Hstop stop eq_refl) as [Hlt Hesc]. specialize (Hlt ltac:(done)). pose proof (wf_run_done _ _ _ _ Hrun) as Hrtc.
    destruct stop.
    + injection E as <- <-. split; [done|]. exists steps1. split; [done|]. split; [done|left; by apply Hesc].
    + destruct (IH steps1 w1 x w' Hk1 Hv1 E) as (Hk2 & steps2 & Hv2 & Hrun2 & Hx). split; [done|]. exists steps2.
      split; [done|]. split; [by eapply wf_run_trans|]. destruct x as [[[]|]|]; try done. lia.
Qed.

Lemma run_workflow_spec rt fuel wf plan steps w x w' :
  kernel_ok (w_kernel w) -> view (w_kernel w) wf plan steps ->
  run_workflow policy engine audited (Some rt) fuel wf w = (x, w') ->
  kernel_ok (w_kernel w') /\ exists steps', view (w_kernel w') wf plan steps' /\
    wf_run wf plan (ended x) (steps, w_calls w) (steps', w_calls w') /\
    match x with
    | Ok (Some _) => run_ends (w_kernel w') wf steps'
    | Ok None => (fuel + total_budget steps' <= total_budget steps)%nat
    | Raise _ => True
    end.
Proof.
  intros Hk Hv E. unfold run_workflow, with_runtime in E. destruct Hv as (r & Hr & Hp & Hs).
  rewrite M_bind_eq in E. unfold on_kernel at 1 in E. unfold get_workflow in E. rewrite M_bind_eq in E. cbn [get] in E.
  rewrite Hr in E. cbn [mret M_ret] in E. rewrite M_bind_eq in E. unfold on_kernel at 1 in E. cbn [put_workflow modify w_kernel w_calls] in E.
  set (k1 := set_workflows _ _) in E.
  assert (only_workflow wf (set_wf_state WRUNNING r) (w_kernel w) k1) as Ho by done.
  assert (kernel_ok k1) as Hk1.
  { eapply ok_workflow; [|exact Ho|done]. exact (ok_workflows _ Hk wf r Hr). }
  assert (view k1 wf plan steps) as Hv1.
  { eexists. cbn. rewrite dict_get_set_eq. split; [reflexivity|done]. }
  rewrite M_bind_eq in E. unfold on_kernel at 1 in E. cbn [w_kernel w_calls] in E.
  match type of E with context [emit audited ?w ?a ?s ?r ?p ?k1] => destruct (emit audited w a s r p k1) as [y k2] eqn:Ee end.
  destruct (emit_ok _ _ _ _ _ _ _ _ Hk1 Ee) as [Hk2 Hkept2]. pose proof (view_kept _ _ _ _ _ Hkept2 Hv1) as Hv2.
  destruct y as [[]|e].
  - exact (run_rounds_spec rt wf plan fuel steps {| w_kernel := k2; w_calls := w_calls w |} x w' Hk2 Hv2 E).
  - injection E as <- <-. split; [done|]. exists steps. split; [done|]. split; [apply wf_run_stop|done].
Qed.

Lemma run_workflow_ok rt fuel wf w x w' :
  kernel_ok (w_kernel w) -> run_workflow policy engine audited rt fuel wf w = (x, w') -> kernel_ok (w_kernel w').
Proof.
  intros Hk E. destruct (dict_get (k_workflows (w_kernel w)) wf) as [r|] eqn:Er.
  - destruct rt as [rt|]; [|by injection E as _ <-].
    assert (view (w_kernel w) wf (wr_plan r) (wr_steps r)) as Hv by (by exists r).
    apply (run_workflow_spec rt fuel wf _ _ _ _ _ Hk Hv E).
  - unfold run_workflow, with_runtime in E. destruct rt as [rt|]; [|by injection E as _ <-].
    rewrite M_bind_eq in E. unfold on_kernel at 1 in E. unfold get_workflow in E. rewrite M_bind_eq in E. cbn [get] in E.
    rewrite Er in E. by injection E as _ <-.
Qed.

Lemma run_task_ok rt task w x w' :
  kernel_ok (w_kernel w) -> run_task policy engine audited rt task w = (x, w') -> kernel_ok (w_kernel w').
Proof.
  intros Hk E. unfold run_task, with_runtime in E. destruct rt as [rt|]; [|by injection E as _ <-].
  rewrite M_bind_eq in E. cbn [on_kernel get] in E. destruct (route_candidates _ _ _) as [|a l]; [by injection E as _ <-|].
  rewrite M_bind_eq in E. unfold call_runtime in E. cbn [w_kernel w_calls] in E. set (reply := rt _ _ _) in E.
  destruct (run_ops_ok (re_meanwhile reply) (w_kernel w) Hk) as [Hk2 _].
  destruct (re_result reply) as [result|e]; cbn [mbind res_bind mret res_ret] in E; [|by injection E as _ <-].
  rewrite M_bind_eq in E. unfold on_kernel in E.
  destruct (tr_ok result).
  - cbn [mret M_ret w_kernel w_calls] in E. rewrite M_bind_eq in E. cbn [w_kernel w_calls] in E.
    match type of E with context [observe_telemetry policy engine audited ?i ?m ?k] => destruct (observe_telemetry policy engine audited i m k) as [z k3] eqn:Eo end.
    apply observe_ok in Eo as [Hk3 _]; [|done]. by destruct z; injection E as _ <-.
  - rewrite M_bind_eq in E. cbn [w_kernel w_calls] in E.
    match type of E with context [get_agent ?i ?k] => destruct (get_agent i k) as [z k3] eqn:Eg end.
    apply get_agent_inv in Eg as [-> _]. destruct z as [r|e]; [|by injection E as _ <-].
    cbn [mret M_ret w_kernel w_calls] in E. rewrite M_bind_eq in E. cbn [w_kernel w_calls] in E.
    match type of E with context [observe_telemetry policy engine audited ?i ?m ?k] => destruct (observe_telemetry policy engine audited i m k) as [z k3] eqn:Eo end.
    apply observe_ok in Eo as [Hk3 _]; [|done]. by destruct z; injection E as _ <-.
Qed.

(** ** Facts about the machine *)

Definition budget_at (steps : Steps) (sid : string) : nat :=
  match dict_get steps sid with Some s => budget s | None => 0%nat end.
Definition calls_for (wf sid : string) (calls : list call) : nat :=
  length (List.filter (fun c => bool_decide (c_step c = Some (wf, sid))) calls).

(** A call of a step is paid from its budget. *)
Lemma wf_move_pays wf plan b sid a a' : wf_move wf plan b a a' ->
  (calls_for wf sid a'.2 + budget_at a'.1 sid <= calls_for wf sid a.2 + budget_at a.1 sid)%nat.
Proof.
  intros [steps calls sid' s c s' Hs Hp _ Hc Ho]. cbn. unfold calls_for, budget_at.
  rewrite List.filter_app length_app dict_get_set. cbn. rewrite (for_step _ _ _ _ _ _ Hc).
  case_bool_decide as E.
  - injection E as <-. rewrite bool_decide_eq_true_2 // Hs. cbn.
    enough (budget s' < budget s)%nat by lia. destruct (c_result c) as [result|e].
    + destruct Ho as [->|[_ ->]]; [by apply settled_budget|]. rewrite (budget_pending s Hp) budget_other; [cbn; by destruct (tr_ok result)|lia].
    + destruct Ho as [_ ->]. rewrite (budget_pending s Hp) budget_other; [done|lia].
  - rewrite bool_decide_eq_false_2; [by intros ->|]. cbn. lia.
Qed.

Lemma wf_run_pays wf plan b sid a a' : wf_run wf plan b a a' ->
  (calls_for wf sid a'.2 + budget_at a'.1 sid <= calls_for wf sid a.2 + budget_at a.1 sid)%nat.
Proof.
  intros (c & Hc & Hb).
  assert (calls_for wf sid c.2 + budget_at c.1 sid <= calls_for wf sid a.2 + budget_at a.1 sid)%nat as Hle.
  { clear Hb. induction Hc as [|x y z Hxy _ IH]; [done|]. apply (wf_move_pays _ _ _ sid) in Hxy. lia. }
  destruct Hb as [->|[_ Hm]]; [done|]. apply (wf_move_pays _ _ _ sid) in Hm. lia.
Qed.

(** A step that is not pending stays as it is. *)
Lemma wf_move_settled wf plan b a a' sid s : wf_move wf plan b a a' ->
  dict_get a.1 sid = Some s -> sr_state s <> SPENDING -> dict_get a'.1 sid = Some s.
Proof.
  intros [steps calls sid' s1 c s' Hs Hp _ _ _]. cbn. intros Hsid Hne. rewrite dict_get_set_ne //. intros ->. congruence.
Qed.
Lemma wf_run_settled wf plan b a a' sid s : wf_run wf plan b a a' ->
  dict_get a.1 sid = Some s -> sr_state s <> SPENDING -> dict_get a'.1 sid = Some s.
Proof.
  intros (c & Hc & Hb) Hs Hne. assert (dict_get c.1 sid = Some s) as Hsc.
  { clear Hb. induction Hc as [|x y z Hxy _ IH]; [done|]. apply IH. by eapply wf_move_settled. }
  destruct Hb as [->|[_ Hm]]; [done|]. by eapply wf_move_settled.
Qed.

(** The output of a completed step: it was so at the start, or a task of the run gave it. *)
Definition answered (wf : string) (steps0 : Steps) (calls : list call) (sid : string) (out : option V) : Prop :=
  (exists s, dict_get steps0 sid = Some s /\ sr_state s = SCOMPLETED /\ sr_output s = out) \/
  (exists c result, c ∈ calls /\ c_step c = Some (wf, sid) /\ c_result c = Ok result /\ tr_ok result = true /\
     tr_output result = out).

Lemma answered_more wf steps0 calls calls' sid out :
  (forall c, c ∈ calls -> c ∈ calls') -> answered wf steps0 calls sid out -> answered wf steps0 calls' sid out.
Proof. intros Hin [?|(c & result & Hc & Hr)]; [by left|right]. exists c, result. auto. Qed.

Lemma wf_moves_answered wf plan calls0 steps0 a : rtc (wf_move wf plan true) (steps0, calls0) a ->
  exists cs, a.2 = calls0 ++ cs /\
    forall sid s, dict_get a.1 sid = Some s -> sr_state s = SCOMPLETED -> answered wf steps0 cs sid (sr_output s).
Proof.
  revert a. apply rtc_ind_r.
  - exists []. rewrite app_nil_r. split; [done|]. intros sid s Hs Hc. left. by exists s.
  - intros a b _ Hab (cs & Hcs & Hans). destruct Hab as [steps calls sid s c s' Hs Hp _ Hc Ho]. cbn in *. subst calls.
    exists (cs ++ [c]). split; [by rewrite app_assoc|]. intros sid0 s0. rewrite dict_get_set. case_bool_decide as E.
    + subst sid0. intros [= <-] Hst. right. destruct (c_result c) as [result|e] eqn:Er; [|by destruct Ho].
      destruct Ho as [->|[? _]]; [|done]. exists c, result. split; [set_solver|]. split; [apply (for_step _ _ _ _ _ _ Hc)|].
      split; [done|]. unfold settled in *. destruct (tr_ok result) eqn:Eok; cbn in *; [done|]. case_match; cbn in Hst; [done|by rewrite Eok in Hst].
    + intros Hs0 Hst. eapply answered_more; [|by apply Hans]. set_solver.
Qed.

(** What a call of a run was made on. *)
Definition justified (wf : string) (plan : WorkflowPlan F V) (steps0 : Steps) (pre : list call) (c : call) : Prop :=
  exists sid s outs agent,
    c_step c = Some (wf, sid) /\
    (exists steps, view (c_kernel c) wf plan steps /\ dict_get steps sid = Some s /\ sr_state s = SRUNNING) /\
    c_task c = step_task plan s outs /\
    (forall d, d ∈ ws_depends_on (sr_step s) -> exists out, dict_get outs d = Some out /\ answered wf steps0 pre d out) /\
    dict_get (k_registry (c_kernel c)) (as_agent_id (c_agent c)) = Some agent /\ ar_spec agent = c_agent c /\
    ar_state agent = ACTIVE /\ ws_capability (sr_step s) ∈ as_capabilities (c_agent c).

Lemma dependency_outputs_get (steps : Steps) deps acc outs d :
  dependency_outputs steps deps acc = Ok outs ->
  dict_get outs d = if bool_decide (d ∈ deps) then sr_output <$> dict_get steps d else dict_get acc d.
Proof.
  revert acc. induction deps as [|e deps IH]; intros acc; cbn.
  { intros [= <-]. by rewrite bool_decide_eq_false_2; [apply not_elem_of_nil|]. }
  destruct (dict_get steps e) as [r|] eqn:Er; [|done]. intros Ho. rewrite (IH _ Ho) dict_get_set.
  destruct (decide (d ∈ deps)) as [Hin|Hin].
  - rewrite !bool_decide_eq_true_2 //. set_solver.
  - rewrite (bool_decide_eq_false_2 (d ∈ deps)) //. destruct (decide (d = e)) as [->|Hne].
    + rewrite !bool_decide_eq_true_2 //; [set_solver|]. by rewrite Er.
    + rewrite !bool_decide_eq_false_2 //. set_solver.
Qed.

Lemma all_completed_elem (steps : Steps) deps d :
  all_completed steps deps = Ok true -> d ∈ deps -> exists s, dict_get steps d = Some s /\ sr_state s = SCOMPLETED.
Proof.
  induction deps as [|e deps IH]; cbn; [set_solver|]. destruct (dict_get steps e) as [r|] eqn:Er; [|done].
  case_bool_decide as Ec; [|done]. intros Ha [->|Hd]%elem_of_cons; [by exists r|by apply IH].
Qed.

Lemma wf_move_justified wf plan b steps0 cs a a' calls0 :
  a.2 = calls0 ++ cs ->
  (forall sid s, dict_get a.1 sid = Some s -> sr_state s = SCOMPLETED -> answered wf steps0 cs sid (sr_output s)) ->
  wf_move wf plan b a a' -> exists c, a'.2 = calls0 ++ cs ++ [c] /\ justified wf plan steps0 cs c.
Proof.
  intros Hcs Hans Hm. destruct Hm as [steps calls sid s c s' Hs Hp Hd Hc Ho]. cbn in *. subst calls. exists c.
  split; [by rewrite app_assoc|].
  destruct (for_task _ _ _ _ _ _ Hc) as (outs & Houts & Htask). destruct (for_agent _ _ _ _ _ _ Hc) as (r & Hr & Hspec & Hrun).
  unfold can_run in Hrun. to_prop. exists sid, (sr_start (as_agent_id (c_agent c)) s), outs, r.
  split; [apply (for_step _ _ _ _ _ _ Hc)|]. split.
  { eexists. split; [apply (for_steps _ _ _ _ _ _ Hc)|]. by rewrite dict_get_set_eq. }
  split; [done|]. split; [|split_and!; [done|done|done|cbn; by rewrite -Hspec]]. intros d Hin. cbn in Hin.
  destruct (all_completed_elem _ _ d Hd Hin) as (sd & Hsd & Hcomp). exists (sr_output sd).
  split; [|by apply Hans]. rewrite (dependency_outputs_get _ _ _ _ d Houts) bool_decide_eq_true_2 // Hsd. done.
Qed.

Lemma wf_run_justified wf plan b steps0 calls0 a : wf_run wf plan b (steps0, calls0) a ->
  forall pre c post, a.2 = calls0 ++ pre ++ c :: post -> justified wf plan steps0 pre c.
Proof.
  assert (forall a, rtc (wf_move wf plan true) (steps0, calls0) a ->
    forall pre c post, a.2 = calls0 ++ pre ++ c :: post -> justified wf plan steps0 pre c) as Hrtc.
  { apply (rtc_ind_r (fun a => forall pre c post, a.2 = calls0 ++ pre ++ c :: post -> justified wf plan steps0 pre c)).
    - intros pre c post Hx. apply (f_equal length) in Hx. cbn in Hx. rewrite !length_app in Hx. cbn in Hx. lia.
    - intros x y Hx Hxy IH pre c post Hy. destruct (wf_moves_answered _ _ _ _ _ Hx) as (cs & Hcs & Hans).
      destruct (wf_move_justified wf plan true steps0 cs x y calls0 Hcs Hans Hxy) as (c' & Hy' & Hj).
      rewrite Hy' in Hy. apply app_inv_head in Hy. destruct post as [|p post _] using rev_ind.
      + apply app_inj_tail in Hy as [-> ->]. done.
      + rewrite (app_assoc pre (c :: post) [p]) in Hy. apply app_inj_tail in Hy as [Hy ->].
        apply (IH pre c post). by rewrite Hcs Hy. }
  intros (x & Hx & [<-|[_ Hm]]) pre c post Ha; [by eapply Hrtc|].
  destruct (wf_moves_answered _ _ _ _ _ Hx) as (cs & Hcs & Hans).
  destruct (wf_move_justified wf plan false steps0 cs x a calls0 Hcs Hans Hm) as (c' & Hy' & Hj).
  rewrite Hy' in Ha. apply app_inv_head in Ha. destruct post as [|p post _] using rev_ind.
  - apply app_inj_tail in Ha as [-> ->]. done.
  - rewrite (app_assoc pre (c :: post) [p]) in Ha. apply app_inj_tail in Ha as [Ha ->].
    apply (Hrtc x Hx pre c post). by rewrite Hcs Ha.
Qed.

(** ** Theorems on runs *)

(** C14. A task runs when its dependencies are completed, and receives their outputs.  For
    every call a run makes of the runtime, whatever others do while tasks run and however
    the run ends: the step had been started, its agent was active and capable, and for each
    dependency the task carries the output it was completed with, before the run or by an
    earlier task of the run. *)
Theorem tasks_run_after_their_dependencies rt fuel wf plan steps w x w' pre c post :
  kernel_ok (w_kernel w) -> view (w_kernel w) wf plan steps ->
  run_workflow policy engine audited (Some rt) fuel wf w = (x, w') ->
  w_calls w' = w_calls w ++ pre ++ c :: post ->
  justified wf plan steps pre c.
Proof.
  intros Hk Hv E Hc. destruct (run_workflow_spec _ _ _ _ _ _ _ _ Hk Hv E) as (_ & steps' & _ & Hrun & _).
  exact (wf_run_justified _ _ _ _ _ _ Hrun pre c post Hc).
Qed.

(** A run ends.  With fuel above the sum of the attempts its pending steps have left, the
    loop of rounds ends, whatever the runtime answers and whatever others do meanwhile. *)
Theorem run_workflow_ends rt fuel wf plan steps w :
  kernel_ok (w_kernel w) -> view (w_kernel w) wf plan steps -> (total_budget steps < fuel)%nat ->
  fst (run_workflow policy engine audited (Some rt) fuel wf w) <> Ok None.
Proof.
  intros Hk Hv Hf. destruct (run_workflow policy engine audited (Some rt) fuel wf w) as [x w'] eqn:E. cbn.
  destruct (run_workflow_spec _ _ _ _ _ _ _ _ Hk Hv E) as (_ & steps' & _ & _ & Hx). intros ->. lia.
Qed.

(** The attempts of a step are bounded.  A run gives a pending step to the runtime at most
    as often as it has attempts left of [min(max_retries, max_step_attempts)], or once when
    it has none left, and never a step that is not pending. *)
Theorem step_attempts_bounded rt fuel wf plan steps w x w' sid s :
  kernel_ok (w_kernel w) -> view (w_kernel w) wf plan steps -> dict_get steps sid = Some s ->
  run_workflow policy engine audited (Some rt) fuel wf w = (x, w') ->
  Z.of_nat (calls_for wf sid (w_calls w')) - Z.of_nat (calls_for wf sid (w_calls w)) <=
    if bool_decide (sr_state s = SPENDING) then Z.max 1 (attempts_limit policy s - sr_attempts s) else 0.
Proof.
  intros Hk Hv Hs E. destruct (run_workflow_spec _ _ _ _ _ _ _ _ Hk Hv E) as (_ & steps' & _ & Hrun & _).
  pose proof (wf_run_pays _ _ _ sid _ _ Hrun) as Hle. cbn [fst snd] in Hle. unfold budget_at at 2 in Hle. rewrite Hs in Hle.
  case_bool_decide as Hp; [rewrite (budget_pending s Hp) in Hle|rewrite (budget_other s Hp) in Hle]; lia.
Qed.






(** What can happen to a kernel after a run: operations of anyone, and further runs of the
    workflow with any runtime. *)
Inductive later (wf : string) (w : World) : World (F:=F) (V:=V) -> Prop :=
  | later_now : later wf w w
  | later_ops ops w' : later wf w w' ->
      later wf w {| w_kernel := run_ops policy engine audited ops (w_kernel w'); w_calls := w_calls w' |}
  | later_run rt fuel w' : later wf w w' -> later wf w (snd (run_workflow policy engine audited rt fuel wf w')).

Lemma later_settled wf plan sid s w w' : later wf w w' ->
  kernel_ok (w_kernel w) -> (exists steps, view (w_kernel w) wf plan steps /\ dict_get steps sid = Some s) ->
  sr_state s <> SPENDING ->
  kernel_ok (w_kernel w') /\ (exists steps, view (w_kernel w') wf plan steps /\ dict_get steps sid = Some s) /\
  calls_for wf sid (w_calls w') = calls_for wf sid (w_calls w).
Proof.
  induction 1 as [|ops w' Hl IH|rt fuel w' Hl IH]; intros Hk Hs Hne; [done| |].
  - destruct (IH Hk Hs Hne) as (Hk' & (steps & Hv & Hsid) & Hc). cbn. destruct (run_ops_ok ops _ Hk') as [Hk2 Hkept].
    split; [done|]. split; [|done]. exists steps. split; [by eapply view_kept|done].
  - destruct (IH Hk Hs Hne) as (Hk' & (steps & Hv & Hsid) & Hc).
    destruct rt as [rt|]; [|cbn; split; [done|]; split; [by exists steps|done]].
    destruct (run_workflow policy engine audited (Some rt) fuel wf w') as [x w2] eqn:E. cbn [snd].
    destruct (run_workflow_spec _ _ _ _ _ _ _ _ Hk' Hv E) as (Hk2 & steps2 & Hv2 & Hrun & _).
    split; [done|]. pose proof (wf_run_pays _ _ _ sid _ _ Hrun) as Hpay. cbn [fst snd] in Hpay.
    assert (dict_get steps2 sid = Some s) as Hs2 by exact (wf_run_settled _ _ _ _ _ _ _ Hrun Hsid Hne).
    split; [by exists steps2|]. unfold budget_at in Hpay. rewrite Hsid Hs2 (budget_other s Hne) in Hpay.
    enough (calls_for wf sid (w_calls w') <= calls_for wf sid (w_calls w2))%nat by lia.
    destruct Hrun as (c & Hc1 & Hc2).
    assert (forall a b, wf_move wf plan true a b \/ wf_move wf plan false a b -> (calls_for wf sid a.2 <= calls_for wf sid b.2)%nat) as Hmono.
    { intros a b [[? ? ? ? ? ? _ _ _ _ _]|[? ? ? ? ? ? _ _ _ _ _]]; cbn; unfold calls_for; rewrite List.filter_app length_app; lia. }
    assert (calls_for wf sid (w_calls w') <= calls_for wf sid c.2)%nat as H1.
    { change (w_calls w') with ((steps, w_calls w').2). clear Hc2.
      induction Hc1 as [|a b d Hab _ IH1]; [done|]. etransitivity; [by apply Hmono; left|done]. }
    destruct Hc2 as [->|[_ Hm]]; [done|]. etransitivity; [exact H1|]. exact (Hmono _ _ (or_intror Hm)).
Qed.

(** A task that raises strands its step.  When the last task of a run ends with an
    exception of the runtime, the run raises and leaves the step running; from then on,
    whatever operations and runs of the workflow follow, the step stays so and is never
    given to the runtime again, although it may have attempts left. *)
Theorem raised_task_strands_its_step rt fuel wf plan steps w x w' cs c e w2 :
  kernel_ok (w_kernel w) -> view (w_kernel w) wf plan steps ->
  run_workflow policy engine audited (Some rt) fuel wf w = (x, w') ->
  w_calls w' = w_calls w ++ cs ++ [c] -> c_result c = Raise e -> later wf w' w2 ->
  exists sid s, c_step c = Some (wf, sid) /\ sr_state s = SRUNNING /\
    (exists steps2, view (w_kernel w2) wf plan steps2 /\ dict_get steps2 sid = Some s) /\
    calls_for wf sid (w_calls w2) = calls_for wf sid (w_calls w').
Proof.
  intros Hk Hv E Hcs He Hl. destruct (run_workflow_spec _ _ _ _ _ _ _ _ Hk Hv E) as (Hk' & steps' & Hv' & (d & Hd & Hlast) & _).
  assert (forall a, rtc (wf_move wf plan true) (steps, w_calls w) a -> a.2 <> w_calls w ++ cs ++ [c]) as Hno.
  { intros a Ha. destruct (rtc_inv_r _ _ Ha) as [<-|(b & _ & Hm)].
    - intros Hx. apply (f_equal length) in Hx. cbn in Hx. rewrite !length_app in Hx. cbn in Hx. lia.
    - destruct Hm as [st calls sid s c' s' _ _ _ _ Ho]. cbn. rewrite app_assoc. intros [_ ->]%app_inj_tail.
      rewrite He in Ho. by destruct Ho. }
  destruct Hlast as [->|[_ Hm]]; [by destruct (Hno _ Hd)|].
  assert (exists sid s, c_step c = Some (wf, sid) /\ dict_get steps' sid = Some s /\ sr_state s = SRUNNING) as (sid & s & Hsid & Hs & Hst).
  { revert Hm Hcs. generalize (w_calls w'). intros calls' Hm ->. inversion Hm as [st calls sid s c' s' Hs Hp Ha Hc Ho Hx Hy]. subst.
    match goal with Heq : _ ++ [c'] = _ |- _ => rewrite app_assoc in Heq; apply app_inj_tail in Heq as [_ ->] end.
    rewrite He in Ho. destruct Ho as [_ ->]. exists sid, (sr_start (as_agent_id (c_agent c)) s).
    split; [apply (for_step _ _ _ _ _ _ Hc)|]. by rewrite dict_get_set_eq. }
  exists sid, s. split; [done|]. split; [done|].
  destruct (later_settled wf plan sid s _ _ Hl Hk') as (_ & Hview & Hcalls); [by exists steps'|by rewrite Hst|done].
Qed.

(** ** Reachable kernels *)

Inductive reachable : World (F:=F) (V:=V) -> Prop :=
  | reach_start : reachable {| w_kernel := empty_kernel; w_calls := [] |}
  | reach_op op w : reachable w ->
      reachable {| w_kernel := snd (exec_op policy engine audited op (w_kernel w)); w_calls := w_calls w |}
  | reach_task rt task w : reachable w -> reachable (snd (run_task policy engine audited rt task w))
  | reach_run rt fuel wf w : reachable w -> reachable (snd (run_workflow policy engine audited rt fuel wf w)).

Lemma mapped_normalized `{!FloatLaws F} c : mapped (Some c) -> normalized c.
Proof.
  intros [[m Hm]|[[m ->]|[m ->]]]; [by eapply from_agent_telemetry_normalized|apply from_handoff_telemetry_normalized|
    apply from_workflow_telemetry_normalized].
Qed.

(** Reachable kernels are well formed.  After any history of operations, tasks and runs,
    with any runtime: agents, handoffs and workflows are stored under their own identifiers,
    the steps of a workflow have distinct keys, every stored coefficient is in the unit
    interval, and no critical agent is archived. *)
Theorem reachable_kernels_are_well_formed `{!FloatLaws F} w :
  reachable w ->
  (forall id r, dict_get (k_registry (w_kernel w)) id = Some r ->
     as_agent_id (ar_spec r) = id /\ (forall c, ar_last_coefficients r = Some c -> normalized c) /\
     (as_criticality (ar_spec r) = CRITICAL -> ar_state r <> ARCHIVED)) /\
  (forall id h, dict_get (k_handoffs (w_kernel w)) id = Some h ->
     edge_id h = id /\ forall c, hr_last_coefficients h = Some c -> normalized c) /\
  (forall id r, dict_get (k_workflows (w_kernel w)) id = Some r ->
     wp_workflow_id (wr_plan r) = id /\ (forall c, wr_last_coefficients r = Some c -> normalized c) /\
     NoDup (dict_keys (wr_steps r)) /\ forall sid s, dict_get (wr_steps r) sid = Some s -> ws_step_id (sr_step s) = sid).
Proof.
  intros Hw. assert (kernel_ok (w_kernel w)) as [_ Ha Hh Hwf].
  { induction Hw as [|op w Hw IH|rt task w Hw IH|rt fuel wf w Hw IH].
    - apply empty_kernel_ok.
    - by apply exec_op_ok.
    - destruct (run_task policy engine audited rt task w) as [x w'] eqn:E. by eapply run_task_ok.
    - destruct (run_workflow policy engine audited rt fuel wf w) as [x w'] eqn:E. by eapply run_workflow_ok. }
  split_and!.
  - intros id r Hr. destruct (Ha id r Hr) as (H1 & H2 & H3). split; [done|]. split.
    + intros c Hc. rewrite Hc in H2. by apply mapped_normalized.
    + intros Hcr. apply H3. by apply bool_decide_eq_true_2.
  - intros id h Hid. destruct (Hh id h Hid) as (H1 & H2). split; [done|]. intros c Hc. rewrite Hc in H2. by apply mapped_normalized.
  - intros id r Hr. destruct (Hwf id r Hr) as (H1 & H2 & H3). split; [done|]. split; [|done].
    intros c Hc. rewrite Hc in H2. by apply mapped_normalized.
Qed.

(** ** Observations *)

(** Vitality moves by at most the time step.  Whatever telemetry is reported for an agent,
    finite or not, an observation that returns changes its vitality by a finite amount of at
    most [dt] in either direction. *)
Theorem observed_vitality_is_bounded `{!FloatLaws F} id m k d k' :
  fl_finite (kp_dt policy) = true -> fl_lt (fl_lit 0) (kp_dt policy) = true ->
  observe_telemetry policy engine audited id m k = (Ok d, k') ->
  within (fl_neg (kp_dt policy)) (kp_dt policy) (gd_dpsi d) /\
  exists r, dict_get (k_registry k) id = Some r /\ gd_psi d = fl_add (ar_psi r) (gd_dpsi d).
Proof.
  intros Hf Hdt E. unfold observe_telemetry, get_agent in E. run_prim E. run_prim E.
  destruct (dict_get (k_registry k) id) as [r|] eqn:Er; [|done]. cbn [mret M_ret] in E. run_prim E.
  destruct (match ar_last_coefficients r with Some c => Ok c | None => _ end) as [pc|e]; [|done].
  run_prim E. destruct (from_agent_telemetry m) as [c|e] eqn:Ec; [|done].
  run_prim E. run_prim E. destruct (engine_step _ _ _) as [[psi dpsi]|e] eqn:Es; [|done].
  run_prim E. run_prim E. destruct (evaluate_transition _ _ _ _ _ _ _ _) as [report|e]; [|done].
  cbv zeta in E. unfold decide_agent in E. destruct (agent_verdict _ _ _ _ _) as [[st reason] review].
  run_prim E. rewrite M_bind_eq in E.
  match type of E with context [audit audited ?e ?k1] => destruct (audit_eq e k1) as (k2 & Hau & _) end.
  rewrite Hau in E. injection E as <- _. cbn. destruct (delta_bounded (kp_dt policy) c Hf Hdt) as (d & Hd & Hb).
  unfold engine_step in Es. rewrite Hd in Es. cbn in Es. injection Es as <- <-. split; [done|]. by exists r.
Qed.

(** An exhausted agent can no longer be observed.  Vitality accumulates without a bound
    and is normalized with [math.exp(-psi / 2)]; when it has sunk so low that this leaves the
    range of floats, an observation raises [OverflowError] after it stored the new vitality
    and before any verdict: the agent keeps its state, and nothing is audited. *)
Theorem exhausted_agent_cannot_be_observed id m k r pc c psi dpsi :
  dict_get (k_registry k) id = Some r ->
  match ar_last_coefficients r with Some c0 => Ok c0 | None => from_agent_telemetry default_agent_telemetry end = Ok pc ->
  from_agent_telemetry m = Ok c -> engine_step (kp_dt policy) (ar_psi r) c = Ok (psi, dpsi) ->
  fl_finite psi = true ->
  fl_exp (fl_div (fl_neg psi) (max2 (fl_lit 2) (fl_lit 0.000000001))) = None ->
  exists k', observe_telemetry policy engine audited id m k = (raise OverflowError "math range error", k') /\
    k_audit k' = k_audit k /\
    dict_get (k_registry k') id = Some (ar_observed psi (at_failure_count m) c (ar_begin r)) /\
    ar_state (ar_observed psi (at_failure_count m) c (ar_begin r)) = ar_state r.
Proof.
  intros Hr Hpc Hc Hs Hf Hexp. unfold observe_telemetry, get_agent. eexists. split; [|split; [|split; [|reflexivity]]].
  - rewrite !M_bind_eq. cbn [get]. rewrite Hr. cbn [mret M_ret]. rewrite M_bind_eq. unfold lift at 1. rewrite Hpc.
    rewrite M_bind_eq. unfold lift at 1. rewrite Hc. rewrite M_bind_eq. cbn [put_agent modify].
    rewrite M_bind_eq. unfold lift at 1. rewrite Hs. rewrite M_bind_eq. cbn [put_agent modify]. cbv zeta.
    rewrite M_bind_eq. unfold lift at 1.
    assert (normalize_psi psi = raise OverflowError "math range error") as Hn.
    { unfold normalize_psi, exp. rewrite Hf. cbn [negb]. by rewrite Hexp. }
    unfold evaluate_transition, transition_input. cbn [ar_psi ar_previous_psi ar_observed ar_begin].
    assert (forall i c p, (exists ph, coefficients_to_phase i c p = Ok ph) \/ coefficients_to_phase i c p = raise OverflowError "math range error") as Hph.
    { intros i c0 p. unfold coefficients_to_phase, normalize_psi. destruct (negb (fl_finite p)); [left; by eexists|].
      clear Hexp Hn. unfold exp.
      destruct (fl_exp (fl_div (fl_neg p) (max2 (fl_lit 2) (fl_lit 0.000000001)))); [left; by eexists|right; reflexivity]. }
    destruct (Hph (id +:+ "@previous") pc (ar_psi r)) as [[ph ->]| ->]; [|reflexivity].
    cbn [mbind res_bind]. unfold coefficients_to_phase at 1. rewrite Hn. reflexivity.
  - reflexivity.
  - cbn. by rewrite dict_get_set_eq.
Qed.
End Effects.

(** ** Concrete runs *)

Definition ex_report : StructuralTransitionReport Q :=
  {| rp_transmissibility := 1#2; rp_retention := 1#2; rp_self_potential := 1#2;
     rp_lock_state := {| lk_locked := false; lk_self_potential := 1#2; lk_transition_gate := 0%Q; lk_lock_threshold := 7#10; lk_lock_gate_max := 1#5 |};
     rp_delay_gate := 1#2; rp_compatibility := 3#5; rp_transition_channel := 1#10;
     rp_aftermath := {| af_collapse_score := 0%Q; af_flourishing_score := 1#2; af_balance := 1#2 |};
     rp_existence := None; rp_possibility := None; rp_fate_vector := None; rp_existence_rank := Some STABLE;
     rp_dynamic_lift := None |}.
(** An engine that finds every transition stable. *)
Definition ex_engine : TransitionInput Q -> res (StructuralTransitionReport Q) := fun _ => Ok ex_report.
Definition ex_agent (id : string) : AgentSpec string :=
  {| as_agent_id := id; as_role := "worker"; as_version := "0.2.0"; as_capabilities := ["write"];
     as_criticality := MEDIUM; as_metadata := [] |}.
Definition ex_step (id : string) (deps : list string) (retries : Z) : WorkflowStep string :=
  {| ws_step_id := id; ws_capability := "write"; ws_instruction := "do " +:+ id; ws_depends_on := deps;
     ws_preferred_agent_id := None; ws_parallel_group := None; ws_max_retries := retries; ws_metadata := [] |}.
(** Two steps, listed in the order opposite to their dependency. *)
Definition ex_plan : WorkflowPlan Q string :=
  {| wp_workflow_id := "wf"; wp_goal := "goal"; wp_steps := [ex_step "b" ["a"] 1; ex_step "a" [] 2];
     wp_priority := 1#2; wp_metadata := [] |}.
Definition ex_kernel : Kernel Q string :=
  run_ops default_policy ex_engine true [OpRegister (ex_agent "w1") None; OpCreate ex_plan] empty_kernel.
Definition ex_world : World := {| w_kernel := ex_kernel; w_calls := [] |}.
Definition ex_steps : list (string * StepRecord string) := steps_of_plan (wp_steps ex_plan).

Definition ex_task_ok (output : string) : TaskResult Q string :=
  {| tr_ok := true; tr_output := Some output; tr_error := None; tr_latency_ms := 1%Q; tr_cost := 0%Q |}.
(** Every task is done, and the workflow is escalated while it runs. *)
Definition escalated_meanwhile : Runtime (F:=Q) (V:=string) := fun _ _ t =>
  {| re_result := Ok (ex_task_ok ("done " +:+ te_task_id t)); re_elapsed := 1%Q;
     re_meanwhile := [OpIntervene "wf" ESCALATE "wf" "stop" []] |}.
(** Every task raises. *)
Definition raising : Runtime (F:=Q) (V:=string) := fun _ _ _ =>
  {| re_result := raise RuntimeError "connection lost"; re_elapsed := 1%Q; re_meanwhile := [] |}.
Notation ex_run rt fuel := (run_workflow default_policy ex_engine true (Some rt) fuel "wf" ex_world).

Lemma ex_kernel_ok : kernel_ok ex_kernel.
Proof. eapply run_ops_ok, empty_kernel_ok. Qed.
Lemma ex_view : view ex_kernel "wf" ex_plan ex_steps.
Proof. eexists. split; [vm_compute; reflexivity|]. split; vm_compute; reflexivity. Qed.

(** The run of the plan calls the runtime for [a], then for [b] with the output of [a]; the
    escalations are lost. *)
Example ex_run_completes :
  map (fun c => (c_step c, te_payload (c_task c))) (w_calls (snd (ex_run escalated_meanwhile 5))) =
    [(Some ("wf", "a"), StepPayload "wf" "goal" "do a" [] []);
     (Some ("wf", "b"), StepPayload "wf" "goal" "do b" [("a", Some "done wf:a:1")] [])] /\
  wr_state <$> dict_get (k_workflows (w_kernel (snd (ex_run escalated_meanwhile 5)))) "wf" = Some WCOMPLETED.
Proof. vm_compute. done. Qed.


(** Every task fails. *)
Definition failing : Runtime (F:=Q) (V:=string) := fun _ _ _ =>
  {| re_result := Ok {| tr_ok := false; tr_output := None; tr_error := Some "no"; tr_latency_ms := 1%Q; tr_cost := 0%Q |};
     re_elapsed := 1%Q; re_meanwhile := [] |}.

(** ** Witnesses *)

Lemma tasks_run_after_their_dependencies_witness :
  exists w' c0 c, snd (ex_run escalated_meanwhile 5) = w' /\ w_calls w' = [c0; c] /\ c_step c = Some ("wf", "b") /\
    justified "wf" ex_plan ex_steps [c0] c.
Proof.
  destruct (ex_run escalated_meanwhile 5) as [x w'] eqn:E.
  assert (exists c0 c, w_calls (snd (ex_run escalated_meanwhile 5)) = [c0; c] /\ c_step c = Some ("wf", "b")) as (c0 & c & Hc & Hb).
  { vm_compute. do 2 eexists. by split. }
  rewrite E in Hc. exists w', c0, c. split; [reflexivity|]. split; [exact Hc|]. split; [exact Hb|].
  apply (tasks_run_after_their_dependencies default_policy ex_engine true escalated_meanwhile 5 "wf" ex_plan ex_steps
           ex_world x w' [c0] c [] ex_kernel_ok ex_view E Hc).
Defined.

Lemma run_workflow_ends_witness : (total_budget default_policy ex_steps < 4)%nat /\ fst (ex_run failing 4) <> Ok None.
Proof.
  assert (total_budget default_policy ex_steps < 4)%nat as Hf by (vm_compute; lia). split; [exact Hf|].
  exact (run_workflow_ends default_policy ex_engine true failing 4 "wf" ex_plan ex_steps ex_world ex_kernel_ok ex_view Hf).
Defined.

Lemma step_attempts_bounded_witness :
  calls_for "wf" "a" (w_calls (snd (ex_run failing 4))) = 2%nat /\
  Z.of_nat (calls_for "wf" "a" (w_calls (snd (ex_run failing 4)))) - Z.of_nat (calls_for "wf" "a" (w_calls ex_world)) <= 2.
Proof.
  split; [vm_compute; reflexivity|].
  destruct (ex_run failing 4) as [x w'] eqn:E. cbn [snd].
  exact (step_attempts_bounded default_policy ex_engine true failing 4 "wf" ex_plan ex_steps ex_world x w' "a"
           {| sr_step := ex_step "a" [] 2; sr_state := SPENDING; sr_assigned_agent_id := None; sr_attempts := 0;
              sr_output := None; sr_error := None |} ex_kernel_ok ex_view eq_refl E).
Defined.


Lemma raised_task_strands_its_step_witness :
  let w' := snd (ex_run raising 5) in
  let w2 := snd (run_workflow default_policy ex_engine true (Some escalated_meanwhile) 5 "wf" w') in
  exists sid s, sid = "a" /\ sr_state s = SRUNNING /\ sr_attempts s < attempts_limit default_policy s /\
    (exists steps2, view (w_kernel w2) "wf" ex_plan steps2 /\ dict_get steps2 sid = Some s) /\
    calls_for "wf" sid (w_calls w2) = 1%nat.
Proof.
  cbv zeta. destruct (ex_run raising 5) as [x w'] eqn:E. cbn [snd].
  assert (exists c, w_calls (snd (ex_run raising 5)) = [c] /\ c_step c = Some ("wf", "a") /\
            c_result c = raise RuntimeError "connection lost") as (c & Hc & Ha & Hx) by (vm_compute; by eexists).
  rewrite E in Hc. cbn [snd] in Hc.
  destruct (raised_task_strands_its_step default_policy ex_engine true raising 5 "wf" ex_plan ex_steps ex_world x w' [] c _
              (snd (run_workflow default_policy ex_engine true (Some escalated_meanwhile) 5 "wf" w'))
              ex_kernel_ok ex_view E Hc Hx (later_run _ _ _ _ _ _ _ _ (later_now _ _ _ _ _)))
    as (sid & s & Hsid & Hrun & (steps2 & Hv & Hs) & Hcalls).
  rewrite Ha in Hsid. injection Hsid as <-. exists "a", s. split; [reflexivity|]. split; [exact Hrun|].
  assert (w' = snd (ex_run raising 5)) as Hw' by (by rewrite E).
  split; [|split; [by exists steps2|]].
  - destruct Hv as (r & Hr & _ & Hst). rewrite Hw' in Hr. vm_compute in Hr. injection Hr as <-. cbn in Hst. subst steps2.
    vm_compute in Hs. injection Hs as <-. vm_compute. reflexivity.
  - rewrite Hcalls Hc. unfold calls_for. cbn. rewrite Ha. reflexivity.
Defined.

Lemma reachable_kernels_are_well_formed_witness :
  exists r, dict_get (k_workflows (w_kernel (snd (ex_run escalated_meanwhile 5)))) "wf" = Some r /\
  NoDup (dict_keys (wr_steps r)).
Proof.
  assert (reachable (V:=string) default_policy ex_engine true (snd (ex_run escalated_meanwhile 5))) as Hw.
  { apply reach_run. exact (reach_op _ _ _ (OpCreate ex_plan) _ (reach_op _ _ _ (OpRegister (ex_agent "w1") None) _
      (reach_start _ _ _))). }
  destruct (dict_get (k_workflows (w_kernel (snd (ex_run escalated_meanwhile 5)))) "wf") as [r|] eqn:Hr;
    [|by vm_compute in Hr].
  exists r. split; [reflexivity|].
  destruct (reachable_kernels_are_well_formed default_policy ex_engine true _ Hw) as (_ & _ & Hwf).
  destruct (Hwf "wf" r Hr) as (_ & _ & Hnd & _). exact Hnd.
Defined.

Lemma observed_vitality_is_bounded_witness :
  exists d k', observe_telemetry default_policy ex_engine true "w1" default_agent_telemetry ex_kernel = (Ok d, k') /\
    within (-1)%Q 1%Q (gd_dpsi d).
Proof.
  destruct (observe_telemetry default_policy ex_engine true "w1" default_agent_telemetry ex_kernel) as [[d|e] k'] eqn:E;
    [|by vm_compute in E].
  exists d, k'. split; [reflexivity|].
  destruct (observed_vitality_is_bounded default_policy ex_engine true "w1" default_agent_telemetry ex_kernel d k')
    as [Hb _]; [reflexivity|reflexivity|exact E|exact Hb].
Defined.

(** An agent whose vitality has sunk to -1500. *)
Definition exhausted : AgentRecord Q string :=
  {| ar_spec := ex_agent "w1"; ar_state := TRANSITIONAL; ar_psi := (-1500)%Q; ar_previous_psi := (-1499)%Q;
     ar_last_coefficients := Some failing_coefficients; ar_failure_streak := 0; ar_observations := 3000 |}.
Definition exhausted_kernel : Kernel Q string := set_registry [("w1", exhausted)] empty_kernel.

Lemma exhausted_agent_cannot_be_observed_witness :
  exists k', observe_telemetry default_policy ex_engine true "w1" default_agent_telemetry exhausted_kernel =
    (raise OverflowError "math range error", k').
Proof.
  destruct (from_agent_telemetry (F:=Q) default_agent_telemetry) as [c|e] eqn:Ec; [|by vm_compute in Ec].
  destruct (engine_step (kp_dt default_policy) (-1500)%Q c) as [[psi dpsi]|e] eqn:Es;
    [|vm_compute in Ec; injection Ec as <-; by vm_compute in Es].
  assert (fl_exp (fl_div (fl_neg psi) (max2 (fl_lit 2) (fl_lit 0.000000001))) = None) as Hexp.
  { vm_compute in Ec. injection Ec as <-. vm_compute in Es. injection Es as <- <-. vm_compute. reflexivity. }
  destruct (exhausted_agent_cannot_be_observed default_policy ex_engine true "w1" default_agent_telemetry exhausted_kernel
              exhausted failing_coefficients c psi dpsi eq_refl eq_refl Ec Es eq_refl Hexp) as (k' & Hk & _).
  by exists k'.
Defined.
