(* ===== verification/Identity.v ===== *)
(** * Identities and their sessions

    Models the identity tables ([auth/models.py]) with their unique constraints, the
    primitives the services rely on ([passwords.py], [token_material.py]), the normalization
    of an e-mail address ([normalization.py]) and the session service ([session_service.py],
    [session_repository.py]): login with its lockout, the rotation of refresh tokens with the
    detection of their reuse, logout and revocation. *)
From S2P Require Import Prelude PyString PyDateTime PyText Uow.
From Stdlib Require Import Ascii.
#[local] Open Scope Z_scope.

(** ** Time *)

Definition set_time (micros : Z) (t : datetime) : datetime :=
  {| dt_year := dt_year t; dt_month := dt_month t; dt_day := dt_day t; dt_hour := micros / 3600000000;
     dt_minute := micros / 60000000 mod 60; dt_second := micros / 1000000 mod 60; dt_micro := micros mod 1000000;
     dt_offset := dt_offset t |}.

(** [t + timedelta(microseconds=delta)] for [delta >= 0]. *)
Definition dt_plus (t : datetime) (delta : Z) : res datetime :=
  let total := time_of_day t + delta in
  add_days (Z.to_nat (total / day_micros)) (set_time (total mod day_micros) t).

(** Comparisons of aware datetimes; the columns of the tables are aware. *)
Definition after (a b : datetime) : bool := instant b <? instant a.
Definition EPOCH : datetime :=
  {| dt_year := 1970; dt_month := 1; dt_day := 1; dt_hour := 0; dt_minute := 0; dt_second := 0; dt_micro := 0;
     dt_offset := Some 0 |}.
Definition seconds (n : Z) : Z := n * 1000000.
Definition minutes (n : Z) : Z := seconds (n * 60).

(** ** Tables *)

Inductive UserStatus := UsPendingVerification | UsActive | UsLocked | UsDisabled | UsDeleted.
Inductive MembershipRole := OrganizationOwner | OrganizationAdmin | RoleOperator | RoleAuditor | RoleViewer.
Inductive MembershipStatus := MsInvited | MsActive | MsSuspended | MsRevoked.
Inductive PlatformAuthority := PlatformAdmin | PlatformSupervisor.
Inductive EmailStatus := EmPending | EmVerified | EmRevoked.
Inductive FactorStatus := FaPending | FaActive | FaDisabled.
Inductive RecoveryState := RqPending | RqVerified | RqCompleted | RqExpired | RqRevoked.
#[export] Instance UserStatus_eq_dec : EqDecision UserStatus.
Proof. solve_decision. Defined.
#[export] Instance MembershipRole_eq_dec : EqDecision MembershipRole.
Proof. solve_decision. Defined.
#[export] Instance MembershipStatus_eq_dec : EqDecision MembershipStatus.
Proof. solve_decision. Defined.
#[export] Instance PlatformAuthority_eq_dec : EqDecision PlatformAuthority.
Proof. solve_decision. Defined.
#[export] Instance EmailStatus_eq_dec : EqDecision EmailStatus.
Proof. solve_decision. Defined.
#[export] Instance FactorStatus_eq_dec : EqDecision FactorStatus.
Proof. solve_decision. Defined.
#[export] Instance RecoveryState_eq_dec : EqDecision RecoveryState.
Proof. solve_decision. Defined.

Record IdentityUser := {
  iu_email_normalized : string;
  iu_password_hash : string;
  iu_status : UserStatus;
  iu_password_changed_at : option datetime;
  iu_failed_login_count : Z;
  iu_locked_until : option datetime
}.

Record OrganizationMembership := {
  im_user_id : UUID;
  im_organization_id : UUID;
  im_role : MembershipRole;
  im_status : MembershipStatus;
  im_created_at : datetime
}.

Record IdentityPlatformAuthority := {
  pa_user_id : UUID;
  pa_authority : PlatformAuthority;
  pa_active : bool
}.

(** An address of the purpose [recovery], the only one there is. *)
Record IdentityUserEmailAddress := {
  ie_user_id : UUID;
  ie_email_normalized : string;
  ie_status : EmailStatus;
  ie_verified_at : option datetime;
  ie_revoked_at : option datetime
}.

Record AuthSession := {
  as_user_id : UUID;
  as_organization_id : option UUID;
  as_refresh_family_id : UUID;
  as_authenticated_at : datetime;
  as_mfa_satisfied_at : option datetime;
  as_last_seen_at : option datetime;
  as_expires_at : datetime;
  as_revoked_at : option datetime;
  as_revoke_reason : option string
}.

Record AuthRefreshToken := {
  rt_session_id : UUID;
  rt_parent_token_id : option UUID;
  rt_token_hash : string;
  rt_issued_at : datetime;
  rt_expires_at : datetime;
  rt_consumed_at : option datetime;
  rt_revoked_at : option datetime;
  rt_reuse_detected_at : option datetime
}.

Record AuthActionToken := {
  ac_user_id : UUID;
  ac_token_hash : string;
  ac_expires_at : datetime;
  ac_consumed_at : option datetime;
  ac_invalidated_at : option datetime
}.

Record AuthMfaFactor := {
  mf_user_id : UUID;
  mf_label : string;
  mf_status : FactorStatus;
  mf_secret_ciphertext : list Z;
  mf_secret_key_version : string;
  mf_verified_at : option datetime;
  mf_last_used_step : option Z;
  mf_disabled_at : option datetime;
  mf_created_at : datetime
}.

Record AuthMfaRecoveryCode := {
  rc_factor_id : UUID;
  rc_code_hash : string;
  rc_used_at : option datetime
}.

Record AuthAccountRecoveryRequest := {
  rq_user_id : UUID;
  rq_recovery_email_id : option UUID;
  rq_state : RecoveryState;
  rq_verification_token_hash : string;
  rq_completion_token_hash : option string;
  rq_attempt_count : Z;
  rq_expires_at : datetime;
  rq_verified_at : option datetime;
  rq_completed_at : option datetime;
  rq_revoked_at : option datetime
}.

Record AuthDeliveryOutbox := {
  do_user_id : UUID;
  do_action_token_id : option UUID;
  do_account_recovery_request_id : option UUID;
  do_event_type : string;
  do_payload_ciphertext : list Z;
  do_payload_key_version : string;
  do_available_at : datetime;
  do_attempt_count : Z;
  do_claim_id : option UUID;
  do_claimed_at : option datetime;
  do_delivered_at : option datetime;
  do_dead_lettered_at : option datetime;
  do_last_error_code : option string;
  do_created_at : datetime
}.

Record IdentityDb := {
  id_users : Table IdentityUser;
  id_memberships : Table OrganizationMembership;
  id_authorities : Table IdentityPlatformAuthority;
  id_emails : Table IdentityUserEmailAddress;
  id_sessions : Table AuthSession;
  id_tokens : Table AuthRefreshToken;
  id_actions : Table AuthActionToken;
  id_factors : Table AuthMfaFactor;
  id_codes : Table AuthMfaRecoveryCode;
  id_requests : Table AuthAccountRecoveryRequest;
  id_outbox : Table AuthDeliveryOutbox
}.

Definition identity_uniques (db : IdentityDb) : bool :=
  unique_on (fun u => Some (iu_email_normalized u)) (id_users db) &&
  unique_on (fun s => Some (as_refresh_family_id s)) (id_sessions db) &&
  unique_on (fun t => Some (rt_token_hash t)) (id_tokens db) &&
  unique_on (fun t => Some (ac_token_hash t)) (id_actions db) &&
  unique_on (fun f => Some (mf_user_id f, mf_label f)) (id_factors db) &&
  unique_on (fun c => Some (rc_code_hash c)) (id_codes db) &&
  unique_on (fun r => Some (rq_verification_token_hash r)) (id_requests db) &&
  unique_on rq_completion_token_hash (id_requests db) &&
  unique_on do_account_recovery_request_id (id_outbox db) &&
  unique_on do_action_token_id (id_outbox db) &&
  unique_on (fun e => Some (ie_email_normalized e)) (id_emails db) &&
  unique_on (fun e => Some (ie_user_id e)) (id_emails db).
(** An entry of the outbox is for an action token or for a request of recovery. *)
Definition delivery_outbox_checks (o : AuthDeliveryOutbox) : bool :=
  bool_decide (do_event_type o ∈ ["verify_email"; "verify_recovery_email"; "account_recovery_verification"]) &&
  xorb (bool_decide (is_Some (do_action_token_id o))) (bool_decide (is_Some (do_account_recovery_request_id o))) &&
  (0 <=? do_attempt_count o).
Definition identity_checks (db : IdentityDb) : bool :=
  check_rows (fun r => 0 <=? rq_attempt_count r) (id_requests db) && check_rows delivery_outbox_checks (id_outbox db).
Definition identity_constraints (db : IdentityDb) : res unit :=
  ensure (identity_uniques db && identity_checks db) IntegrityError "constraint failed".

(** ** Updates *)

Definition with_users (f : Table IdentityUser -> Table IdentityUser) (db : IdentityDb) : IdentityDb :=
  {| id_users := f (id_users db); id_memberships := id_memberships db; id_authorities := id_authorities db;
     id_emails := id_emails db; id_sessions := id_sessions db; id_tokens := id_tokens db; id_actions := id_actions db;
     id_factors := id_factors db; id_codes := id_codes db; id_requests := id_requests db; id_outbox := id_outbox db |}.
Definition with_sessions (f : Table AuthSession -> Table AuthSession) (db : IdentityDb) : IdentityDb :=
  {| id_users := id_users db; id_memberships := id_memberships db; id_authorities := id_authorities db;
     id_emails := id_emails db; id_sessions := f (id_sessions db); id_tokens := id_tokens db; id_actions := id_actions db;
     id_factors := id_factors db; id_codes := id_codes db; id_requests := id_requests db; id_outbox := id_outbox db |}.
Definition with_tokens (f : Table AuthRefreshToken -> Table AuthRefreshToken) (db : IdentityDb) : IdentityDb :=
  {| id_users := id_users db; id_memberships := id_memberships db; id_authorities := id_authorities db;
     id_emails := id_emails db; id_sessions := id_sessions db; id_tokens := f (id_tokens db); id_actions := id_actions db;
     id_factors := id_factors db; id_codes := id_codes db; id_requests := id_requests db; id_outbox := id_outbox db |}.
Definition with_actions (f : Table AuthActionToken -> Table AuthActionToken) (db : IdentityDb) : IdentityDb :=
  {| id_users := id_users db; id_memberships := id_memberships db; id_authorities := id_authorities db;
     id_emails := id_emails db; id_sessions := id_sessions db; id_tokens := id_tokens db; id_actions := f (id_actions db);
     id_factors := id_factors db; id_codes := id_codes db; id_requests := id_requests db; id_outbox := id_outbox db |}.
Definition with_factors (f : Table AuthMfaFactor -> Table AuthMfaFactor) (db : IdentityDb) : IdentityDb :=
  {| id_users := id_users db; id_memberships := id_memberships db; id_authorities := id_authorities db;
     id_emails := id_emails db; id_sessions := id_sessions db; id_tokens := id_tokens db; id_actions := id_actions db;
     id_factors := f (id_factors db); id_codes := id_codes db; id_requests := id_requests db; id_outbox := id_outbox db |}.
Definition with_codes (f : Table AuthMfaRecoveryCode -> Table AuthMfaRecoveryCode) (db : IdentityDb) : IdentityDb :=
  {| id_users := id_users db; id_memberships := id_memberships db; id_authorities := id_authorities db;
     id_emails := id_emails db; id_sessions := id_sessions db; id_tokens := id_tokens db; id_actions := id_actions db;
     id_factors := id_factors db; id_codes := f (id_codes db); id_requests := id_requests db; id_outbox := id_outbox db |}.
Definition with_requests (f : Table AuthAccountRecoveryRequest -> Table AuthAccountRecoveryRequest) (db : IdentityDb) : IdentityDb :=
  {| id_users := id_users db; id_memberships := id_memberships db; id_authorities := id_authorities db;
     id_emails := id_emails db; id_sessions := id_sessions db; id_tokens := id_tokens db; id_actions := id_actions db;
     id_factors := id_factors db; id_codes := id_codes db; id_requests := f (id_requests db); id_outbox := id_outbox db |}.
Definition with_outbox (f : Table AuthDeliveryOutbox -> Table AuthDeliveryOutbox) (db : IdentityDb) : IdentityDb :=
  {| id_users := id_users db; id_memberships := id_memberships db; id_authorities := id_authorities db;
     id_emails := id_emails db; id_sessions := id_sessions db; id_tokens := id_tokens db; id_actions := id_actions db;
     id_factors := id_factors db; id_codes := id_codes db; id_requests := id_requests db; id_outbox := f (id_outbox db) |}.

(** [update(...).where(p).values(f)], and its row count. *)
Definition update_rows {R} (p : R -> bool) (f : R -> R) (t : Table R) : Table R := (fun r => if p r then f r else r) <$> t.
Definition row_count {R} (p : R -> bool) (t : Table R) : Z := Z.of_nat (length (find_rows p t)).

(** [order_by(key).limit(1)]. *)
Definition first_by {R} (key : R -> Z) (rows : list (UUID * R)) : option (UUID * R) :=
  foldr (fun kr best => match best with Some b => if key b.2 <? key kr.2 then Some b else Some kr | None => Some kr end)
    None rows.

Definition set_credentials (hash : string) (changed_at : option datetime) (u : IdentityUser) : IdentityUser :=
  {| iu_email_normalized := iu_email_normalized u; iu_password_hash := hash; iu_status := iu_status u;
     iu_password_changed_at := changed_at; iu_failed_login_count := iu_failed_login_count u;
     iu_locked_until := iu_locked_until u |}.
Definition set_failures (count : Z) (locked_until : option datetime) (u : IdentityUser) : IdentityUser :=
  {| iu_email_normalized := iu_email_normalized u; iu_password_hash := iu_password_hash u; iu_status := iu_status u;
     iu_password_changed_at := iu_password_changed_at u; iu_failed_login_count := count;
     iu_locked_until := locked_until |}.
Definition set_session_revoked (at_ : datetime) (reason : string) (s : AuthSession) : AuthSession :=
  {| as_user_id := as_user_id s; as_organization_id := as_organization_id s; as_refresh_family_id := as_refresh_family_id s;
     as_authenticated_at := as_authenticated_at s; as_mfa_satisfied_at := as_mfa_satisfied_at s;
     as_last_seen_at := as_last_seen_at s; as_expires_at := as_expires_at s; as_revoked_at := Some at_;
     as_revoke_reason := Some reason |}.
Definition set_last_seen (at_ : datetime) (s : AuthSession) : AuthSession :=
  {| as_user_id := as_user_id s; as_organization_id := as_organization_id s; as_refresh_family_id := as_refresh_family_id s;
     as_authenticated_at := as_authenticated_at s; as_mfa_satisfied_at := as_mfa_satisfied_at s;
     as_last_seen_at := Some at_; as_expires_at := as_expires_at s; as_revoked_at := as_revoked_at s;
     as_revoke_reason := as_revoke_reason s |}.
Definition set_token (consumed revoked reused : option datetime) (t : AuthRefreshToken) : AuthRefreshToken :=
  {| rt_session_id := rt_session_id t; rt_parent_token_id := rt_parent_token_id t; rt_token_hash := rt_token_hash t;
     rt_issued_at := rt_issued_at t; rt_expires_at := rt_expires_at t; rt_consumed_at := consumed; rt_revoked_at := revoked;
     rt_reuse_detected_at := reused |}.
Definition consume_token (at_ : datetime) (t : AuthRefreshToken) : AuthRefreshToken :=
  set_token (Some at_) (rt_revoked_at t) (rt_reuse_detected_at t) t.
Definition revoke_token (at_ : datetime) (t : AuthRefreshToken) : AuthRefreshToken :=
  set_token (rt_consumed_at t) (Some at_) (rt_reuse_detected_at t) t.
Definition mark_reuse (at_ : datetime) (t : AuthRefreshToken) : AuthRefreshToken :=
  set_token (rt_consumed_at t) (rt_revoked_at t) (Some at_) t.

(** ** Primitives *)

(** The keys of a cipher by their version, one of them the current one. *)
Record CipherKeys := { ck_current_key_version : string; ck_keys : gmap string (list Z) }.

(** HMAC-SHA-256 under the pepper, as hexadecimal digits; Argon2id with a drawn salt;
    HMAC-SHA-1; AES-GCM of a key, a nonce, the data and the additional data ([None]: the tag
    is invalid); and the keys the ciphers of the service are built with. *)
Class IdentityPrimitives := {
  peppered_hmac : string -> string;
  argon2_hash : string -> string -> string;
  argon2_verify : string -> string -> bool;
  argon2_outdated : string -> bool;
  hmac_sha1 : list Z -> list Z -> list Z;
  aesgcm_encrypt : list Z -> list Z -> list Z -> list Z -> list Z;
  aesgcm_decrypt : list Z -> list Z -> list Z -> list Z -> option (list Z);
  mfa_keys : CipherKeys;
  delivery_keys : CipherKeys
}.

Section Identity.
Context `{IdentityPrimitives}.

(** [TokenDigester.digest]. *)
Definition token_digest (purpose raw : string) : res string :=
  _ ← reject_if (bool_decide (raw = "")) ValueError "raw_value must be a non-empty string.";
  _ ← reject_if (blank purpose) ValueError "purpose must be a non-empty string.";
  mret (peppered_hmac ("pmk-auth-v1:" +:+ purpose +:+ ":" +:+ raw)).

(** [PasswordService.hash_password] and [verify_password] (valid, needs_rehash). *)
Definition hash_password (salt password : string) : res string :=
  _ ← reject_if (bool_decide (password = "")) ValueError "password must be a non-empty string.";
  let encoded := argon2_hash salt password in
  _ ← ensure (startswith "$argon2id$" encoded) RuntimeError "Password backend did not produce Argon2id.";
  mret encoded.
Definition verify_password (encoded password : string) : bool * bool :=
  if argon2_verify encoded password then (true, argon2_outdated encoded) else (false, false).

(** ** E-mail addresses *)

(** The encoding of an ASCII domain: its labels are not too long, and none but the last is
    empty. *)
Fixpoint labels_fit (length_so_far : nat) (s : string) : bool :=
  match s with
  | EmptyString => Nat.ltb length_so_far 64
  | String c s' =>
      if Ascii.eqb c "."%char then Nat.ltb 0 length_so_far && Nat.ltb length_so_far 64 && labels_fit 0 s'
      else labels_fit (S length_so_far) s'
  end.
Fixpoint count_char (c : ascii) (s : string) : nat :=
  match s with EmptyString => O | String d s' => ((if Ascii.eqb d c then 1 else 0) + count_char c s')%nat end.
Definition has_control (s : string) : bool := negb (all_chars (fun c => 32 <=? code c) s).

Definition normalize_email (email : string) : res string :=
  let normalized := lower (strip email) in
  let bad := raise ValueError "email has an invalid structure." in
  if negb (Nat.eqb (count_char "@" normalized) 1) || has_control normalized then bad
  else
    let local := before_char "@" normalized in
    let domain := String.substring (String.length local + 1) (String.length normalized) normalized in
    if bool_decide (local = "") || bool_decide (domain = "") || Nat.ltb 64 (String.length local) then bad
    else
      _ ← ensure (labels_fit 0 domain) ValueError "email domain is invalid.";
      let result := local +:+ "@" +:+ domain in
      if Nat.ltb 320 (String.length result) || Nat.eqb (count_char "." domain) 0 then bad else mret result.

(** ** The session repository *)

Notation Identity := (M (Session IdentityDb)).

Definition user_for_login (email : string) : Identity (option (UUID * IdentityUser)) :=
  query (fun db => find_row (fun u => bool_decide (iu_email_normalized u = email)) (id_users db)).
Definition active_membership (user_id : UUID) (m : OrganizationMembership) : bool :=
  bool_decide (im_user_id m = user_id) && bool_decide (im_status m = MsActive).
Definition active_organization_id (user_id : UUID) (db : IdentityDb) : option UUID :=
  (fun kr => im_organization_id kr.2) <$>
    first_by (fun m => instant (im_created_at m)) (find_rows (active_membership user_id) (id_memberships db)).
Definition holds_authority (user_id : UUID) (a : PlatformAuthority) (db : IdentityDb) : bool :=
  bool_decide (is_Some (find_row (fun r => bool_decide (pa_user_id r = user_id) && bool_decide (pa_authority r = a) &&
                                           pa_active r) (id_authorities db))).
(** In the order of their names. *)
Definition active_platform_authorities (user_id : UUID) (db : IdentityDb) : list PlatformAuthority :=
  List.filter (fun a => holds_authority user_id a db) [PlatformAdmin; PlatformSupervisor].
Definition is_active_factor (user_id : UUID) (f : AuthMfaFactor) : bool :=
  bool_decide (mf_user_id f = user_id) && bool_decide (mf_status f = FaActive).
Definition privileged_membership (user_id : UUID) (m : OrganizationMembership) : bool :=
  active_membership user_id m && (bool_decide (im_role m = OrganizationOwner) || bool_decide (im_role m = OrganizationAdmin)).
Definition requires_mfa (user_id : UUID) (db : IdentityDb) : bool :=
  bool_decide (is_Some (find_row (is_active_factor user_id) (id_factors db))) ||
  bool_decide (is_Some (find_row (privileged_membership user_id) (id_memberships db))) ||
  holds_authority user_id PlatformAdmin db.

(** A token with its session and its user. *)
Definition refresh_principals (hash : string) (db : IdentityDb)
  : option ((UUID * AuthRefreshToken) * (UUID * AuthSession) * (UUID * IdentityUser)) :=
  kt ← find_row (fun t => bool_decide (rt_token_hash t = hash)) (id_tokens db);
  s ← id_sessions db !! rt_session_id kt.2;
  u ← id_users db !! as_user_id s;
  Some (kt, (rt_session_id kt.2, s), (as_user_id s, u)).

Definition live_token_of (sid : UUID) (t : AuthRefreshToken) : bool :=
  bool_decide (rt_session_id t = sid) && bool_decide (rt_revoked_at t = None).
Definition revoke_family (sid : UUID) (s : AuthSession) (revoked_at : datetime) (reason : string) (reused : option UUID)
    (db : IdentityDb) : IdentityDb :=
  with_tokens (fun t => update_rows (live_token_of sid) (revoke_token revoked_at)
                          (match reused with Some k => alter (mark_reuse revoked_at) k t | None => t end))
    (with_sessions (<[sid := set_session_revoked revoked_at reason s]>) db).

Definition token_of_user (user_id : UUID) (sessions : Table AuthSession) (t : AuthRefreshToken) : bool :=
  match sessions !! rt_session_id t with Some s => bool_decide (as_user_id s = user_id) | None => false end &&
  bool_decide (rt_revoked_at t = None).
Definition live_session_of (user_id : UUID) (s : AuthSession) : bool :=
  bool_decide (as_user_id s = user_id) && bool_decide (as_revoked_at s = None).
Definition revoke_all_for_user (user_id : UUID) (revoked_at : datetime) (reason : string) (db : IdentityDb) : IdentityDb :=
  with_sessions (update_rows (live_session_of user_id) (set_session_revoked revoked_at reason))
    (with_tokens (update_rows (token_of_user user_id (id_sessions db)) (revoke_token revoked_at)) db).

(** A new row: an identifier that is taken is a violation. *)
Definition add_new {R} (table : IdentityDb -> Table R) (add : (Table R -> Table R) -> IdentityDb -> IdentityDb)
    (id : UUID) (row : R) : Identity unit :=
  db ← query Datatypes.id;
  lift (ensure (bool_decide (table db !! id = None)) IntegrityError "constraint failed");;
  mutate (add (<[id := row]>)).

Definition identity_commit : Identity unit := commit identity_constraints.

(** ** The session service *)

Record SessionPolicy := {
  sp_access_token_seconds : Z;
  sp_refresh_token_ttl : Z;
  sp_failed_login_limit : Z;
  sp_lockout_duration : Z
}.
Definition SessionService_init (p : SessionPolicy) : res unit :=
  _ ← reject_if ((sp_access_token_seconds p <? 60) || (3600 <? sp_access_token_seconds p)) ValueError
        "Access-token lifetime is outside its safe range.";
  _ ← reject_if ((sp_refresh_token_ttl p <? minutes 60) || (minutes (90 * 24 * 60) <? sp_refresh_token_ttl p)) ValueError
        "Refresh-token lifetime is outside its safe range.";
  _ ← reject_if ((sp_failed_login_limit p <? 2) || (20 <? sp_failed_login_limit p)) ValueError
        "Failed-login limit is outside its safe range.";
  reject_if ((sp_lockout_duration p <? minutes 1) || (minutes (24 * 60) <? sp_lockout_duration p)) ValueError
    "Login lockout duration is outside its safe range.".

Definition session_now (now : datetime) : res unit := reject_if (naive now) ValueError "Session clock must be timezone-aware.".
Definition invalid_session {A} : res A := raise InvalidSessionCredentialsError "Session credentials are invalid.".

(** The claims of an access token. *)
Record AccessToken := {
  tk_subject : UUID;
  tk_client_id : UUID;
  tk_scopes : list string;
  tk_session_id : UUID;
  tk_organization_id : option UUID;
  tk_platform_authorities : list PlatformAuthority;
  tk_expires_in : Z
}.
Record IssuedSession := {
  is_access_token : AccessToken;
  is_access_expires_in : Z;
  is_refresh_token : string;
  is_refresh_expires_in : Z;
  is_csrf_token : string;
  is_session_id : UUID;
  is_mfa_required : bool
}.

(** [_issue_access_token], with its own reading of the clock. *)
Definition issue_access_token (p : SessionPolicy) (now : datetime) (user_id session_id : UUID) (organization_id : option UUID)
    (session_expires_at : datetime) (mfa_required : bool) (authorities : list PlatformAuthority) : res AccessToken :=
  _ ← session_now now;
  let remaining := Z.quot (instant session_expires_at - instant now) 1000000 in
  let expires_in := Z.min (sp_access_token_seconds p) remaining in
  if expires_in <? 1 then invalid_session
  else mret {| tk_subject := user_id; tk_client_id := default user_id organization_id;
               tk_scopes := if mfa_required then ["auth:mfa"] else ["evaluation"]; tk_session_id := session_id;
               tk_organization_id := organization_id; tk_platform_authorities := authorities; tk_expires_in := expires_in |}.

(** What a login draws: the identifiers of the rows, the salt of a new hash, the tokens. *)
Record LoginDraws := {
  ld_session_id : UUID;
  ld_family_id : UUID;
  ld_refresh_id : UUID;
  ld_salt : string;
  ld_refresh_token : string;
  ld_csrf_token : string
}.

Definition is_locked (now : datetime) (u : IdentityUser) : bool :=
  match iu_locked_until u with Some t => after t now | None => false end.

(** A wrong password: it is counted, and at the limit the account is locked. *)
Definition count_failed_login (p : SessionPolicy) (now : datetime) (u : IdentityUser) : res IdentityUser :=
  let count := iu_failed_login_count u + 1 in
  if sp_failed_login_limit p <=? count then
    until ← dt_plus now (sp_lockout_duration p);
    mret (set_failures count (Some until) u)
  else mret (set_failures count (iu_locked_until u) u).

(** A hash of an outdated policy is replaced. *)
Definition rehash (needs_rehash : bool) (now : datetime) (salt password : string) (u : IdentityUser) : res IdentityUser :=
  if needs_rehash then hash ← hash_password salt password; mret (set_credentials hash (Some now) u) else mret u.

Definition new_auth_session (d : LoginDraws) (user_id : UUID) (organization_id : option UUID) (now expires_at : datetime) : AuthSession :=
  {| as_user_id := user_id; as_organization_id := organization_id; as_refresh_family_id := ld_family_id d;
     as_authenticated_at := now; as_mfa_satisfied_at := None; as_last_seen_at := Some now; as_expires_at := expires_at;
     as_revoked_at := None; as_revoke_reason := None |}.
Definition new_token (session_id : UUID) (parent : option UUID) (hash : string) (now expires_at : datetime) : AuthRefreshToken :=
  {| rt_session_id := session_id; rt_parent_token_id := parent; rt_token_hash := hash; rt_issued_at := now;
     rt_expires_at := expires_at; rt_consumed_at := None; rt_revoked_at := None; rt_reuse_detected_at := None |}.

Definition login_body (p : SessionPolicy) (now : datetime) (d : LoginDraws) (email password : string)
  : Identity (UUID * option UUID * datetime * bool * list PlatformAuthority) :=
  found ← user_for_login email;
  match found with
  | None => lift invalid_session
  | Some (uid, u) =>
      let '(valid, needs_rehash) := verify_password (iu_password_hash u) password in
      let locked := is_locked now u in
      if negb valid || negb (bool_decide (iu_status u = UsActive) && negb locked) then
        (if negb valid && negb locked then
           u' ← lift (count_failed_login p now u);
           mutate (with_users (<[uid := u']>))
         else mret tt);;
        identity_commit;;
        lift invalid_session
      else
        u1 ← lift (rehash needs_rehash now (ld_salt d) password u);
        mutate (with_users (<[uid := set_failures 0 None u1]>));;
        db ← query Datatypes.id;
        let organization_id := active_organization_id uid db in
        let authorities := active_platform_authorities uid db in
        let mfa_required := requires_mfa uid db in
        hash ← lift (token_digest "refresh_token" (ld_refresh_token d));
        expires_at ← lift (dt_plus now (sp_refresh_token_ttl p));
        add_new id_sessions with_sessions (ld_session_id d) (new_auth_session d uid organization_id now expires_at);;
        add_new id_tokens with_tokens (ld_refresh_id d) (new_token (ld_session_id d) None hash now expires_at);;
        identity_commit;;
        mret (uid, organization_id, expires_at, mfa_required, authorities)
  end.

(** The request: [issued_at] is the reading of the clock when the token is issued. *)
Definition login (p : SessionPolicy) (now issued_at : datetime) (d : LoginDraws) (email password : string) (db : IdentityDb)
  : res IssuedSession * IdentityDb :=
  match normalize_email email with
  | Raise _ => (invalid_session, db)
  | Ok normalized =>
      match session_now now with
      | Raise e => (Raise e, db)
      | Ok _ =>
          match with_uow (login_body p now d normalized password) db with
          | (Raise e, db') => (Raise e, db')
          | (Ok (uid, organization_id, expires_at, mfa_required, authorities), db') =>
              (token ← issue_access_token p issued_at uid (ld_session_id d) organization_id expires_at mfa_required authorities;
               mret {| is_access_token := token; is_access_expires_in := tk_expires_in token;
                       is_refresh_token := ld_refresh_token d;
                       is_refresh_expires_in := Z.quot (sp_refresh_token_ttl p) 1000000; is_csrf_token := ld_csrf_token d;
                       is_session_id := ld_session_id d; is_mfa_required := mfa_required |}, db')
          end
      end
  end.

(** What a refresh draws. *)
Record RefreshDraws := { rd_token_id : UUID; rd_refresh_token : string; rd_csrf_token : string }.

Definition refresh_body (now : datetime) (d : RefreshDraws) (hash : string)
  : Identity (UUID * AuthSession * bool * list PlatformAuthority) :=
  principals ← query (refresh_principals hash);
  match principals with
  | None => lift invalid_session
  | Some ((tid, previous), (sid, s), (uid, u)) =>
      if bool_decide (is_Some (rt_consumed_at previous)) then
        mutate (revoke_family sid s now "refresh_token_reuse" (Some tid));;
        identity_commit;;
        lift (raise RefreshTokenReuseError "Session credentials are invalid.")
      else if bool_decide (is_Some (rt_revoked_at previous)) || negb (after (rt_expires_at previous) now) ||
              bool_decide (is_Some (as_revoked_at s)) || negb (after (as_expires_at s) now) ||
              negb (bool_decide (iu_status u = UsActive)) then
        (if bool_decide (as_revoked_at s = None) then
           mutate (revoke_family sid s now "refresh_credentials_invalid" None);; identity_commit
         else mret tt);;
        lift invalid_session
      else
        new_hash ← lift (token_digest "refresh_token" (rd_refresh_token d));
        mutate (with_tokens (<[tid := consume_token now previous]>));;
        add_new id_tokens with_tokens (rd_token_id d) (new_token sid (Some tid) new_hash now (as_expires_at s));;
        mutate (with_sessions (<[sid := set_last_seen now s]>));;
        db ← query Datatypes.id;
        let authorities := active_platform_authorities uid db in
        let mfa_required := requires_mfa uid db && bool_decide (as_mfa_satisfied_at s = None) in
        identity_commit;;
        mret (sid, s, mfa_required, authorities)
  end.

Definition refresh (p : SessionPolicy) (now issued_at counted_at : datetime) (d : RefreshDraws) (raw : string) (db : IdentityDb)
  : res IssuedSession * IdentityDb :=
  match (hash ← token_digest "refresh_token" raw; _ ← session_now now; mret hash) with
  | Raise e => (Raise e, db)
  | Ok hash =>
      match with_uow (refresh_body now d hash) db with
      | (Raise e, db') => (Raise e, db')
      | (Ok (sid, s, mfa_required, authorities), db') =>
          (token ← issue_access_token p issued_at (as_user_id s) sid (as_organization_id s) (as_expires_at s) mfa_required
                     authorities;
           _ ← session_now counted_at;
           mret {| is_access_token := token; is_access_expires_in := tk_expires_in token;
                   is_refresh_token := rd_refresh_token d;
                   is_refresh_expires_in := Z.max 1 (Z.quot (instant (as_expires_at s) - instant counted_at) 1000000);
                   is_csrf_token := rd_csrf_token d; is_session_id := sid; is_mfa_required := mfa_required |}, db')
      end
  end.

Definition logout_body (now : datetime) (hash : string) : Identity unit :=
  principals ← query (refresh_principals hash);
  match principals with
  | None => mret tt
  | Some (_, (sid, s), _) =>
      lift (session_now now);;
      mutate (revoke_family sid s now "user_logout" None);;
      identity_commit
  end.
Definition logout_all_body (now : datetime) (hash : string) : Identity unit :=
  principals ← query (refresh_principals hash);
  match principals with
  | None => mret tt
  | Some (_, _, (uid, _)) =>
      lift (session_now now);;
      mutate (revoke_all_for_user uid now "user_logout_all");;
      identity_commit
  end.
Definition with_digest {A} (raw : string) (body : string -> Identity A) (db : IdentityDb) : res A * IdentityDb :=
  match token_digest "refresh_token" raw with
  | Raise e => (Raise e, db)
  | Ok hash => with_uow (body hash) db
  end.
Definition logout (now : datetime) (raw : string) : IdentityDb -> res unit * IdentityDb := with_digest raw (logout_body now).
Definition logout_all (now : datetime) (raw : string) : IdentityDb -> res unit * IdentityDb :=
  with_digest raw (logout_all_body now).

(** The sessions of a user that are neither revoked nor expired, the newest first. *)
Record SessionView := {
  sv_id : UUID;
  sv_authenticated_at : datetime;
  sv_last_seen_at : option datetime;
  sv_expires_at : datetime
}.
Definition session_view (ks : UUID * AuthSession) : SessionView :=
  {| sv_id := ks.1; sv_authenticated_at := as_authenticated_at ks.2; sv_last_seen_at := as_last_seen_at ks.2;
     sv_expires_at := as_expires_at ks.2 |}.
Definition newer (a b : SessionView) : Prop := instant (sv_authenticated_at b) <= instant (sv_authenticated_at a).
#[local] Instance newer_dec : RelDecision newer.
Proof. intros a b. unfold newer. apply _. Defined.
Definition sessions_for_user (user_id : UUID) (db : IdentityDb) : list SessionView :=
  merge_sort newer (map session_view (find_rows (live_session_of user_id) (id_sessions db))).
Definition list_sessions (now : datetime) (user_id : UUID) (db : IdentityDb) : res (list SessionView) :=
  _ ← session_now now;
  mret (List.filter (fun v => after (sv_expires_at v) now) (sessions_for_user user_id db)).

Definition revoke_session (now : datetime) (user_id session_id : UUID) (db : IdentityDb) : res unit * IdentityDb :=
  with_uow (db ← query Datatypes.id;
            match id_sessions db !! session_id with
            | Some s =>
                if bool_decide (as_user_id s = user_id) && bool_decide (as_revoked_at s = None) then
                  lift (session_now now);;
                  mutate (revoke_family session_id s now "user_session_revoked" None);;
                  identity_commit
                else mret tt
            | None => mret tt
            end) db.
End Identity.
