(* ===== verification/IdentityMfa.v ===== *)
(** * Second factors and the recovery of accounts

    Models [auth/totp.py], [mfa_service.py] with [mfa_repository.py] (enrollment of a factor,
    verification, recovery codes, disabling), the ciphers of [mfa_crypto.py] and
    [delivery_crypto.py], and [account_recovery_service.py] with
    [account_recovery_repository.py] (start, verification, completion), on the identity
    tables. *)
From stdpp Require Import pretty.
From stdpp Require Import vector.
From Stdlib Require Import Ascii.
From S2P Require Import Prelude PyString PyDecimal PyDateTime PyText Uow Identity.
#[local] Open Scope Z_scope.

(** ** Bytes

    The text that is encrypted is its UTF-8 bytes. *)

Definition bytes_of (s : string) : list Z := map code (String.list_ascii_of_string s).
Definition text_of (bytes : list Z) : string :=
  String.string_of_list_ascii (map (fun b => Ascii.ascii_of_nat (Z.to_nat b)) bytes).

(** The bytes that [bytes.decode()] accepts: [lo] and [hi] bound the next continuation byte,
    of the [pending] ones still to come. *)
Fixpoint utf8_from (pending : nat) (lo hi : Z) (bytes : list Z) : bool :=
  match bytes with
  | [] => match pending with O => true | S _ => false end
  | b :: bytes =>
      match pending with
      | S pending => (lo <=? b) && (b <=? hi) && utf8_from pending 128 191 bytes
      | O =>
          if (0 <=? b) && (b <? 128) then utf8_from 0 128 191 bytes
          else if (194 <=? b) && (b <=? 223) then utf8_from 1 128 191 bytes
          else if b =? 224 then utf8_from 2 160 191 bytes
          else if b =? 237 then utf8_from 2 128 159 bytes
          else if (225 <=? b) && (b <=? 239) then utf8_from 2 128 191 bytes
          else if b =? 240 then utf8_from 3 144 191 bytes
          else if (241 <=? b) && (b <=? 243) then utf8_from 3 128 191 bytes
          else if b =? 244 then utf8_from 3 128 143 bytes
          else false
      end
  end.
Definition utf8_valid (bytes : list Z) : bool := utf8_from 0 128 191 bytes.

(** ** Time-based one-time passwords *)

Definition TOTP_PERIOD_SECONDS : Z := 30.
Definition TOTP_DIGITS : nat := 6.
Definition TOTP_SECRET_BYTES : nat := 20.

(** [struct.pack(">Q", step)] and [struct.unpack(">I", ...)]. *)
Fixpoint be_bytes (n : nat) (x : Z) : list Z :=
  match n with O => [] | S n' => be_bytes n' (x / 256) ++ [x mod 256] end.
Definition be_value (bytes : list Z) : Z := foldl (fun acc b => acc * 256 + b) 0 bytes.

Definition zfill (width : nat) (s : string) : string := zeros (width - String.length s) +:+ s.

Record TotpVerification := { tv_accepted : bool; tv_matched_step : option Z; tv_reason : string }.

Notation Identity := (M (Session IdentityDb)).

Section Mfa.
Context `{IdentityPrimitives}.

(** ** Ciphers *)

Definition NONCE_BYTES : nat := 12.
Definition AES_256_KEY_BYTES : nat := 32.
(** [os.urandom(NONCE_BYTES)]. *)
Definition Nonce : Type := vec Z NONCE_BYTES.
(** A ciphertext, after its nonce, and the version of its key. *)
Definition Encrypted : Type := list Z * string.

Definition nonblank (s : string) : bool := negb (blank s).
Definition key_named (key : string * list Z) : bool := nonblank key.1 && Nat.eqb (length key.2) AES_256_KEY_BYTES.
(** The two [__init__]. *)
Definition cipher_init (named what : string) (k : CipherKeys) : res unit :=
  _ ← reject_if (blank (ck_current_key_version k)) ValueError "current_key_version must not be empty.";
  _ ← ensure (bool_decide (is_Some (ck_keys k !! ck_current_key_version k))) ValueError
        ("The current " +:+ named +:+ " key version is unavailable.");
  ensure (forallb key_named (map_to_list (ck_keys k))) ValueError
    ("Every " +:+ what +:+ " encryption key must be a named 32-byte key.").
Definition MfaSecretCipher_init : CipherKeys -> res unit := cipher_init "MFA" "MFA".
Definition DeliveryPayloadCipher_init : CipherKeys -> res unit := cipher_init "delivery" "delivery".

Definition seal (k : CipherKeys) (nonce : Nonce) (data aad : list Z) : res Encrypted :=
  match ck_keys k !! ck_current_key_version k with
  | None => raise KeyError (ck_current_key_version k)
  | Some key => mret (vec_to_list nonce ++ aesgcm_encrypt key nonce data aad, ck_current_key_version k)
  end.
Definition unseal (named : string) (k : CipherKeys) (encrypted : Encrypted) (aad : res (list Z)) : res (list Z) :=
  match ck_keys k !! encrypted.2 with
  | None => raise ValueError (named +:+ " encryption key version is unavailable.")
  | Some key =>
      _ ← reject_if (Nat.leb (length encrypted.1) NONCE_BYTES) ValueError (named +:+ " ciphertext is truncated.");
      aad ← aad;
      match aesgcm_decrypt key (take NONCE_BYTES encrypted.1) (drop NONCE_BYTES encrypted.1) aad with
      | None => raise ValueError (named +:+ " ciphertext authentication failed.")
      | Some data => mret data
      end
  end.

Definition mfa_aad (user_id factor_id : string) : res (list Z) :=
  _ ← reject_if (blank user_id || blank factor_id) ValueError "user_id and factor_id are required for MFA encryption.";
  mret (bytes_of ("pmk-mfa-v1:" +:+ user_id +:+ ":" +:+ factor_id)).
Definition MfaSecretCipher_encrypt (nonce : Nonce) (secret : list Z) (user_id factor_id : string) : res Encrypted :=
  _ ← reject_if (Nat.ltb (length secret) 20) ValueError "TOTP secret material must contain at least 20 bytes.";
  aad ← mfa_aad user_id factor_id;
  seal mfa_keys nonce secret aad.
Definition MfaSecretCipher_decrypt (encrypted : Encrypted) (user_id factor_id : string) : res (list Z) :=
  unseal "MFA" mfa_keys encrypted (mfa_aad user_id factor_id).
Definition MfaSecretCipher_rotate (nonce : Nonce) (encrypted : Encrypted) (user_id factor_id : string) : res Encrypted :=
  secret ← MfaSecretCipher_decrypt encrypted user_id factor_id;
  MfaSecretCipher_encrypt nonce secret user_id factor_id.

Definition option_list {A} (x : option A) : list A := match x with Some a => [a] | None => [] end.
Definition authority_id (action_token_id account_recovery_request_id : option string) : res string :=
  match List.filter nonblank (option_list action_token_id ++ option_list account_recovery_request_id) with
  | [id] => mret id
  | _ => raise ValueError "Exactly one delivery authority identifier is required."
  end.
Definition delivery_aad (outbox_id user_id purpose : string) (action_token_id account_recovery_request_id : option string)
  : res (list Z) :=
  authority ← authority_id action_token_id account_recovery_request_id;
  _ ← reject_if (blank outbox_id || blank user_id || blank authority || blank purpose) ValueError
        "Delivery encryption authority identifiers are required.";
  mret (bytes_of ("pmk-auth-delivery-v1:" +:+ outbox_id +:+ ":" +:+ user_id +:+ ":" +:+ authority +:+ ":" +:+ purpose)).
Definition DeliveryPayloadCipher_encrypt (nonce : Nonce) (raw_action_token outbox_id user_id purpose : string)
    (action_token_id account_recovery_request_id : option string) : res Encrypted :=
  _ ← reject_if (bool_decide (raw_action_token = "")) ValueError "raw_action_token must be a non-empty string.";
  aad ← delivery_aad outbox_id user_id purpose action_token_id account_recovery_request_id;
  seal delivery_keys nonce (bytes_of raw_action_token) aad.
Definition DeliveryPayloadCipher_decrypt (encrypted : Encrypted) (outbox_id user_id purpose : string)
    (action_token_id account_recovery_request_id : option string) : res string :=
  data ← unseal "Delivery" delivery_keys encrypted
           (delivery_aad outbox_id user_id purpose action_token_id account_recovery_request_id);
  _ ← ensure (utf8_valid data) ValueError "Delivery plaintext encoding is invalid.";
  mret (text_of data).

(** ** One-time passwords of a step *)

Definition totp_code_for_step (secret : list Z) (step : Z) : res string :=
  _ ← reject_if (step <? 0) ValueError "TOTP step cannot be negative.";
  _ ← reject_if (Nat.ltb (length secret) TOTP_SECRET_BYTES) ValueError "TOTP secret must contain at least 20 bytes.";
  let digest := hmac_sha1 secret (be_bytes 8 step) in
  let offset := Z.to_nat (Z.land (default 0 (last digest)) 15) in
  let binary := Z.land (be_value (take 4 (drop offset digest))) (2 ^ 31 - 1) in
  mret (zfill TOTP_DIGITS (pretty (binary mod 10 ^ Z.of_nat TOTP_DIGITS))).

(** The loop over the steps of the window. *)
Fixpoint totp_scan (secret : list Z) (code : string) (last_used_step : option Z) (steps : list Z) : res TotpVerification :=
  match steps with
  | [] => mret {| tv_accepted := false; tv_matched_step := None; tv_reason := "invalid_code" |}
  | step :: rest =>
      if step <? 0 then totp_scan secret code last_used_step rest
      else
        candidate ← totp_code_for_step secret step;
        if bool_decide (candidate = code) then
          if match last_used_step with Some used => step <=? used | None => false end
          then mret {| tv_accepted := false; tv_matched_step := Some step; tv_reason := "replayed_step" |}
          else mret {| tv_accepted := true; tv_matched_step := Some step; tv_reason := "accepted" |}
        else totp_scan secret code last_used_step rest
  end.

(** [timestamp] in microseconds. *)
Definition verify_totp (secret : list Z) (code : string) (timestamp allowed_window : Z) (last_used_step : option Z)
  : res TotpVerification :=
  _ ← reject_if ((allowed_window <? 0) || (2 <? allowed_window)) ValueError "allowed_window must be between 0 and 2.";
  if negb (Nat.eqb (String.length code) TOTP_DIGITS) || negb (all_chars is_digit code)
  then mret {| tv_accepted := false; tv_matched_step := None; tv_reason := "invalid_format" |}
  else
    _ ← reject_if (timestamp <? 0) ValueError "at_time cannot be negative.";
    let current_step := timestamp / seconds TOTP_PERIOD_SECONDS in
    totp_scan secret code last_used_step
      (map (fun n => current_step - allowed_window + Z.of_nat n) (seq 0 (Z.to_nat (2 * allowed_window + 1)))).

(** ** The repository of factors *)

Definition set_factor (status : FactorStatus) (verified_at : option datetime) (last_used_step : option Z)
    (disabled_at : option datetime) (f : AuthMfaFactor) : AuthMfaFactor :=
  {| mf_user_id := mf_user_id f; mf_label := mf_label f; mf_status := status;
     mf_secret_ciphertext := mf_secret_ciphertext f; mf_secret_key_version := mf_secret_key_version f;
     mf_verified_at := verified_at; mf_last_used_step := last_used_step; mf_disabled_at := disabled_at;
     mf_created_at := mf_created_at f |}.
Definition disable_factor (at_ : datetime) (f : AuthMfaFactor) : AuthMfaFactor :=
  set_factor FaDisabled (mf_verified_at f) (mf_last_used_step f) (Some at_) f.
Definition use_step (step : Z) (f : AuthMfaFactor) : AuthMfaFactor :=
  set_factor (mf_status f) (mf_verified_at f) (Some step) (mf_disabled_at f) f.
Definition activate_factor (at_ : datetime) (f : AuthMfaFactor) : AuthMfaFactor :=
  set_factor FaActive (Some at_) (mf_last_used_step f) (mf_disabled_at f) f.
Definition satisfy_session (at_ : datetime) (s : AuthSession) : AuthSession :=
  {| as_user_id := as_user_id s; as_organization_id := as_organization_id s; as_refresh_family_id := as_refresh_family_id s;
     as_authenticated_at := as_authenticated_at s; as_mfa_satisfied_at := Some at_; as_last_seen_at := as_last_seen_at s;
     as_expires_at := as_expires_at s; as_revoked_at := as_revoked_at s; as_revoke_reason := as_revoke_reason s |}.

Definition factor_in (status : FactorStatus) (user_id : UUID) (f : AuthMfaFactor) : bool :=
  bool_decide (mf_user_id f = user_id) && bool_decide (mf_status f = status).
(** The newest one. *)
Definition factor_for_update (status : FactorStatus) (user_id : UUID) : Identity (option (UUID * AuthMfaFactor)) :=
  query (fun db => first_by (fun f => - instant (mf_created_at f)) (find_rows (factor_in status user_id) (id_factors db))).
Definition is_required_by_role (user_id : UUID) (db : IdentityDb) : bool :=
  bool_decide (is_Some (find_row (privileged_membership user_id) (id_memberships db))).
Definition session_of_user (user_id session_id : UUID) : Identity (option AuthSession) :=
  query (fun db => match id_sessions db !! session_id with
                   | Some s => if bool_decide (as_user_id s = user_id) then Some s else None
                   | None => None
                   end).
Definition code_of_factor (factor_id : UUID) (c : AuthMfaRecoveryCode) : bool := bool_decide (rc_factor_id c = factor_id).
Definition delete_codes (p : AuthMfaRecoveryCode -> bool) : Identity unit :=
  mutate (with_codes (filter (fun kr => p kr.2 = false))).
Definition replace_recovery_codes (factor_id : UUID) (codes : list (UUID * string)) : Identity unit :=
  delete_codes (code_of_factor factor_id);;
  for_each (fun c => add_new id_codes with_codes c.1
                       {| rc_factor_id := factor_id; rc_code_hash := c.2; rc_used_at := None |}) codes.
Definition unused_recovery_code (factor_id : UUID) (hash : string) : Identity (option (UUID * AuthMfaRecoveryCode)) :=
  query (fun db => find_row (fun c => code_of_factor factor_id c && bool_decide (rc_code_hash c = hash) &&
                                      bool_decide (rc_used_at c = None)) (id_codes db)).
Definition revoke_other_sessions (user_id current : UUID) (at_ : datetime) (reason : string) (t : Table AuthSession)
  : Table AuthSession :=
  map_imap (fun sid s => Some (if live_session_of user_id s && negb (bool_decide (sid = current))
                               then set_session_revoked at_ reason s else s)) t.

(** ** The service of second factors *)

Record MfaPolicy := { mp_issuer : string; mp_recovery_code_count : Z; mp_step_up_ttl : Z }.
Definition MfaService_init (p : MfaPolicy) : res unit :=
  _ ← reject_if (blank (mp_issuer p) || (mp_recovery_code_count p <? 6) || (20 <? mp_recovery_code_count p)) ValueError
        "Invalid MFA enrollment policy.";
  reject_if ((mp_step_up_ttl p <? minutes 1) || (minutes 30 <? mp_step_up_ttl p)) ValueError "Invalid MFA step-up lifetime.".

Definition mfa_now (now : datetime) : res unit := reject_if (naive now) ValueError "MFA clock must be timezone-aware.".
Definition invalid_mfa {A} : res A := raise InvalidMfaCredentialError "MFA credential is invalid.".
(** A request starts with a reading of the clock. *)
Definition mfa_request {A} (now : datetime) (body : Identity A) (db : IdentityDb) : res A * IdentityDb :=
  match mfa_now now with Raise e => (Raise e, db) | Ok _ => with_uow body db end.

(** [_decrypt_factor]. *)
Definition decrypt_factor (id : UUID) (f : AuthMfaFactor) : res (list Z) :=
  match MfaSecretCipher_decrypt (mf_secret_ciphertext f, mf_secret_key_version f) (mf_user_id f) id with
  | Raise (Exn ValueError _) => raise MfaAuthorityUnavailableError "MFA authority is unavailable."
  | r => r
  end.

Record EnrollDraws := { ed_factor_id : UUID; ed_secret : list Z; ed_nonce : Nonce; ed_created_at : datetime }.
Definition new_factor (d : EnrollDraws) (user_id : UUID) (label : string) (encrypted : list Z * string) : AuthMfaFactor :=
  {| mf_user_id := user_id; mf_label := label; mf_status := FaPending; mf_secret_ciphertext := encrypted.1;
     mf_secret_key_version := encrypted.2; mf_verified_at := None; mf_last_used_step := None; mf_disabled_at := None;
     mf_created_at := ed_created_at d |}.

Definition enroll_body (now : datetime) (d : EnrollDraws) (user_id : UUID) (label : string) : Identity string :=
  active ← factor_for_update FaActive user_id;
  lift (ensure (bool_decide (active = None)) MfaConflictError "An active MFA factor already exists.");;
  db ← query Datatypes.id;
  account_name ← lift (match iu_email_normalized <$> id_users db !! user_id with
                       | None | Some "" => raise MfaAuthorityUnavailableError "MFA identity authority is unavailable."
                       | Some name => mret name
                       end);
  mutate (with_factors (update_rows (factor_in FaPending user_id) (disable_factor now)));;
  encrypted ← lift (MfaSecretCipher_encrypt (ed_nonce d) (ed_secret d) user_id (ed_factor_id d));
  add_new id_factors with_factors (ed_factor_id d) (new_factor d user_id label encrypted);;
  identity_commit;;
  mret account_name.

(** The answer holds the secret and, with the account's name and the issuer, its URI. *)
Definition enroll (p : MfaPolicy) (now : datetime) (d : EnrollDraws) (user_id : UUID) (label : string) (db : IdentityDb)
  : res (list Z * string * string) * IdentityDb :=
  match mfa_request now (enroll_body now d user_id label) db with
  | (Raise e, db') => (Raise e, db')
  | (Ok account_name, db') =>
      (_ ← reject_if (blank account_name || blank (mp_issuer p)) ValueError "account_name and issuer are required.";
       mret (ed_secret d, account_name, mp_issuer p), db')
  end.

(** [_verify_totp_factor]: the factor with the step it used. *)
Definition verify_totp_factor (id : UUID) (f : AuthMfaFactor) (code : string) (now : datetime) : res AuthMfaFactor :=
  secret ← decrypt_factor id f;
  matched ← verify_totp secret code (instant now - instant EPOCH) 1 (mf_last_used_step f);
  match tv_accepted matched, tv_matched_step matched with
  | true, Some step => mret (use_step step f)
  | _, _ => invalid_mfa
  end.

Definition mark_session_satisfied (user_id session_id : UUID) (now : datetime) : Identity unit :=
  found ← session_of_user user_id session_id;
  match found with
  | None => lift invalid_mfa
  | Some s =>
      if bool_decide (is_Some (as_revoked_at s)) || negb (after (as_expires_at s) now) then lift invalid_mfa
      else mutate (with_sessions (<[session_id := satisfy_session now s]>))
  end.

(** [_assert_recent_step_up]. *)
Definition recent_step_up (p : MfaPolicy) (s : option AuthSession) (now : datetime) : bool :=
  match s with
  | None => false
  | Some s =>
      bool_decide (as_revoked_at s = None) && after (as_expires_at s) now &&
      match as_mfa_satisfied_at s with Some t => instant now - mp_step_up_ttl p <=? instant t | None => false end
  end.
Definition assert_recent_step_up (p : MfaPolicy) (user_id session_id : UUID) (now : datetime) : Identity unit :=
  found ← session_of_user user_id session_id;
  lift (ensure (recent_step_up p found now) MfaStepUpRequiredError "Recent MFA verification is required.").

(** The hashes of the drawn codes. *)
Definition code_hashes (codes : list (UUID * string)) : res (list (UUID * string)) :=
  mapM (fun c : UUID * string => hash ← token_digest "mfa_recovery_code" c.2; mret (c.1, hash)) codes.

Definition confirm_body (now : datetime) (codes : list (UUID * string)) (user_id session_id : UUID) (code : string)
  : Identity unit :=
  hashes ← lift (code_hashes codes);
  pending ← factor_for_update FaPending user_id;
  match pending with
  | None => throw MfaConflictError "No pending MFA enrollment exists."
  | Some (fid, f) =>
      f' ← lift (verify_totp_factor fid f code now);
      mutate (with_factors (<[fid := activate_factor now f']>));;
      replace_recovery_codes fid hashes;;
      mark_session_satisfied user_id session_id now;;
      identity_commit
  end.
Definition confirm_enrollment (now : datetime) (codes : list (UUID * string)) (user_id session_id : UUID) (code : string)
  : IdentityDb -> res unit * IdentityDb := mfa_request now (confirm_body now codes user_id session_id code).

Definition verify_body (now : datetime) (user_id session_id : UUID) (code recovery_code : option string) : Identity unit :=
  active ← factor_for_update FaActive user_id;
  match active with
  | None => lift invalid_mfa
  | Some (fid, f) =>
      match code, recovery_code with
      | Some code, _ =>
          f' ← lift (verify_totp_factor fid f code now);
          mutate (with_factors (<[fid := f']>))
      | None, Some recovery_code =>
          hash ← lift (token_digest "mfa_recovery_code" (upper (strip recovery_code)));
          stored ← unused_recovery_code fid hash;
          match stored with
          | None => lift invalid_mfa
          | Some (cid, c) =>
              mutate (with_codes (<[cid := {| rc_factor_id := rc_factor_id c; rc_code_hash := rc_code_hash c;
                                              rc_used_at := Some now |}]>))
          end
      | None, None => lift invalid_mfa
      end;;
      mark_session_satisfied user_id session_id now;;
      identity_commit
  end.
Definition mfa_verify (now : datetime) (user_id session_id : UUID) (code recovery_code : option string)
  : IdentityDb -> res unit * IdentityDb := mfa_request now (verify_body now user_id session_id code recovery_code).

Definition require_recent_step_up (p : MfaPolicy) (now : datetime) (user_id session_id : UUID)
  : IdentityDb -> res unit * IdentityDb := mfa_request now (assert_recent_step_up p user_id session_id now).

Definition regenerate_body (p : MfaPolicy) (now : datetime) (codes : list (UUID * string)) (user_id session_id : UUID)
  : Identity unit :=
  hashes ← lift (code_hashes codes);
  assert_recent_step_up p user_id session_id now;;
  active ← factor_for_update FaActive user_id;
  match active with
  | None => throw MfaConflictError "No active MFA factor exists."
  | Some (fid, _) => replace_recovery_codes fid hashes;; identity_commit
  end.
Definition regenerate_recovery_codes (p : MfaPolicy) (now : datetime) (codes : list (UUID * string)) (user_id session_id : UUID)
  : IdentityDb -> res unit * IdentityDb := mfa_request now (regenerate_body p now codes user_id session_id).

Definition disable_body (p : MfaPolicy) (now : datetime) (user_id session_id : UUID) : Identity unit :=
  assert_recent_step_up p user_id session_id now;;
  db ← query Datatypes.id;
  lift (reject_if (is_required_by_role user_id db) MfaConflictError "MFA is required for this identity role.");;
  active ← factor_for_update FaActive user_id;
  match active with
  | None => throw MfaConflictError "No active MFA factor exists."
  | Some (fid, f) =>
      mutate (with_factors (<[fid := disable_factor now f]>));;
      replace_recovery_codes fid [];;
      mutate (with_sessions (revoke_other_sessions user_id session_id now "mfa_disabled"));;
      identity_commit
  end.
Definition mfa_disable (p : MfaPolicy) (now : datetime) (user_id session_id : UUID) : IdentityDb -> res unit * IdentityDb :=
  mfa_request now (disable_body p now user_id session_id).

Record MfaStatus := { ms_enabled : bool; ms_pending_enrollment : bool; ms_recovery_codes_remaining : Z; ms_step_up_satisfied : bool }.
Definition mfa_status_body (p : MfaPolicy) (now : datetime) (user_id session_id : UUID) : Identity MfaStatus :=
  db ← query Datatypes.id;
  let has st := bool_decide (is_Some (find_row (factor_in st user_id) (id_factors db))) in
  active ← factor_for_update FaActive user_id;
  found ← session_of_user user_id session_id;
  mret {| ms_enabled := has FaActive; ms_pending_enrollment := has FaPending;
          ms_recovery_codes_remaining :=
            match active with
            | Some (fid, _) => row_count (fun c => code_of_factor fid c && bool_decide (rc_used_at c = None)) (id_codes db)
            | None => 0
            end;
          ms_step_up_satisfied :=
            match found with
            | Some s => match as_mfa_satisfied_at s with Some t => instant now - mp_step_up_ttl p <=? instant t | None => false end
            | None => false
            end |}.
Definition mfa_status (p : MfaPolicy) (now : datetime) (user_id session_id : UUID) : IdentityDb -> res MfaStatus * IdentityDb :=
  mfa_request now (mfa_status_body p now user_id session_id).

(** ** The recovery of an account *)

Record RecoveryPolicy := { rp_verification_ttl : Z; rp_completion_ttl : Z; rp_max_attempts : Z }.
Definition default_recovery_policy : RecoveryPolicy :=
  {| rp_verification_ttl := minutes 30; rp_completion_ttl := minutes 15; rp_max_attempts := 5 |}.
Definition AccountRecoveryService_init (p : RecoveryPolicy) : res unit :=
  _ ← ensure (0 <? rp_verification_ttl p) ValueError "Account recovery verification TTL must be positive.";
  _ ← ensure (0 <? rp_completion_ttl p) ValueError "Account recovery completion TTL must be positive.";
  ensure (0 <? rp_max_attempts p) ValueError "Account recovery max attempts must be positive.".

Definition recovery_now (now : datetime) : res unit :=
  reject_if (naive now) ValueError "Account recovery clock must be timezone-aware.".
Definition normalize_login (login : string) : res string :=
  let normalized := lower (strip login) in
  _ ← reject_if (bool_decide (normalized = "")) ValueError "Account recovery login identifier is required.";
  _ ← reject_if (Nat.ltb 320 (String.length normalized)) ValueError "Account recovery login identifier is too long.";
  mret normalized.

(** The rows of the join: a user and one of its verified recovery addresses. *)
Definition recovery_principals (login : string) (db : IdentityDb) : list (UUID * UUID) :=
  omap (fun ke : UUID * IdentityUserEmailAddress =>
          match id_users db !! ie_user_id ke.2 with
          | Some u =>
              if (bool_decide (iu_email_normalized u = login) || bool_decide (ie_email_normalized ke.2 = login)) &&
                 bool_decide (iu_status u = UsActive) && bool_decide (ie_status ke.2 = EmVerified) &&
                 bool_decide (is_Some (ie_verified_at ke.2)) && bool_decide (ie_revoked_at ke.2 = None)
              then Some (ie_user_id ke.2, ke.1) else None
          | None => None
          end) (map_to_list (id_emails db)).
Definition eligible_principal_by_login (login : string) : Identity (option (UUID * UUID)) :=
  db ← query Datatypes.id;
  match recovery_principals login db with
  | [] => mret None
  | [principal] => mret (Some principal)
  | _ => throw MultipleResultsFound "Multiple rows were found when one or none was required"
  end.

Definition set_request (state : RecoveryState) (completion_hash : option string) (attempts : Z) (expires_at : datetime)
    (verified_at completed_at revoked_at : option datetime) (r : AuthAccountRecoveryRequest) : AuthAccountRecoveryRequest :=
  {| rq_user_id := rq_user_id r; rq_recovery_email_id := rq_recovery_email_id r; rq_state := state;
     rq_verification_token_hash := rq_verification_token_hash r; rq_completion_token_hash := completion_hash;
     rq_attempt_count := attempts; rq_expires_at := expires_at; rq_verified_at := verified_at;
     rq_completed_at := completed_at; rq_revoked_at := revoked_at |}.
Definition set_rq_state (state : RecoveryState) (r : AuthAccountRecoveryRequest) : AuthAccountRecoveryRequest :=
  set_request state (rq_completion_token_hash r) (rq_attempt_count r) (rq_expires_at r) (rq_verified_at r)
    (rq_completed_at r) (rq_revoked_at r) r.
Definition revoke_request (at_ : datetime) (r : AuthAccountRecoveryRequest) : AuthAccountRecoveryRequest :=
  set_request RqRevoked (rq_completion_token_hash r) (rq_attempt_count r) (rq_expires_at r) (rq_verified_at r)
    (rq_completed_at r) (Some at_) r.

Definition active_request_of (user_id : UUID) (r : AuthAccountRecoveryRequest) : bool :=
  bool_decide (rq_user_id r = user_id) &&
  (bool_decide (rq_state r = RqPending) || bool_decide (rq_state r = RqVerified)) && bool_decide (rq_revoked_at r = None).

Record RecoveryDraws := { vd_request_id : UUID; vd_outbox_id : UUID; vd_token : string; vd_nonce : Nonce;
                           vd_created_at : datetime }.

Definition VERIFICATION_PURPOSE : string := "account_recovery_verification".
Definition COMPLETION_PURPOSE : string := "account_recovery_completion".

Definition new_request (d : RecoveryDraws) (user_id email_id : UUID) (hash : string) (expires_at : datetime)
  : AuthAccountRecoveryRequest :=
  {| rq_user_id := user_id; rq_recovery_email_id := Some email_id; rq_state := RqPending;
     rq_verification_token_hash := hash; rq_completion_token_hash := None; rq_attempt_count := 0; rq_expires_at := expires_at;
     rq_verified_at := None; rq_completed_at := None; rq_revoked_at := None |}.
Definition new_delivery (d : RecoveryDraws) (user_id : UUID) (encrypted : list Z * string) (now : datetime) : AuthDeliveryOutbox :=
  {| do_user_id := user_id; do_action_token_id := None; do_account_recovery_request_id := Some (vd_request_id d);
     do_event_type := VERIFICATION_PURPOSE; do_payload_ciphertext := encrypted.1; do_payload_key_version := encrypted.2;
     do_available_at := now; do_attempt_count := 0; do_claim_id := None; do_claimed_at := None; do_delivered_at := None;
     do_dead_lettered_at := None; do_last_error_code := None; do_created_at := vd_created_at d |}.
Definition recovery_start_body (p : RecoveryPolicy) (now : datetime) (d : RecoveryDraws) (login : string) : Identity unit :=
  principal ← eligible_principal_by_login login;
  match principal with
  | None => mret tt
  | Some (user_id, email_id) =>
      expires_at ← lift (dt_plus now (rp_verification_ttl p));
      hash ← lift (token_digest VERIFICATION_PURPOSE (vd_token d));
      mutate (with_requests (update_rows (active_request_of user_id) (revoke_request now)));;
      encrypted ← lift (DeliveryPayloadCipher_encrypt (vd_nonce d) (vd_token d) (vd_outbox_id d) user_id VERIFICATION_PURPOSE
                          None (Some (vd_request_id d)));
      add_new id_requests with_requests (vd_request_id d) (new_request d user_id email_id hash expires_at);;
      add_new id_outbox with_outbox (vd_outbox_id d) (new_delivery d user_id encrypted now);;
      identity_commit
  end.
(** The receipt is the same whether or not there is such an account. *)
Definition recovery_start (p : RecoveryPolicy) (now : datetime) (d : RecoveryDraws) (login : string) (db : IdentityDb)
  : res unit * IdentityDb :=
  match (normalized ← normalize_login login; _ ← recovery_now now; mret normalized) with
  | Raise e => (Raise e, db)
  | Ok normalized => with_uow (recovery_start_body p now d normalized) db
  end.

Definition denied {A} (what : string) : res A :=
  raise AccountRecoveryDeniedError ("Account recovery " +:+ what +:+ " is unavailable.").
Definition denied_on_error {A} (what : string) (m : res A) : res A :=
  match m with
  | Raise (Exn ValueError _) | Raise (Exn RuntimeError _) => denied what
  | r => r
  end.

Definition put_request (id : UUID) (r : AuthAccountRecoveryRequest) : Identity unit := mutate (with_requests (<[id := r]>)).

Definition recovery_verify_body (p : RecoveryPolicy) (now : datetime) (completion_token provided : string) (id : UUID)
  : Identity datetime :=
  db ← query Datatypes.id;
  match id_requests db !! id with
  | None => lift (denied "verification")
  | Some r =>
      if negb (bool_decide (rq_state r = RqPending)) || bool_decide (is_Some (rq_verified_at r)) ||
         bool_decide (is_Some (rq_completed_at r)) || bool_decide (is_Some (rq_revoked_at r)) then lift (denied "verification")
      else if negb (after (rq_expires_at r) now) then
        put_request id (set_rq_state RqExpired r);; identity_commit;; lift (denied "verification")
      else if negb (bool_decide (rq_verification_token_hash r = provided)) then
        let count := rq_attempt_count r + 1 in
        let r1 := set_request (rq_state r) (rq_completion_token_hash r) count (rq_expires_at r) (rq_verified_at r)
                    (rq_completed_at r) (rq_revoked_at r) r in
        put_request id (if rp_max_attempts p <=? count then revoke_request now r1 else r1);;
        identity_commit;;
        lift (denied "verification")
      else
        hash ← lift (token_digest COMPLETION_PURPOSE completion_token);
        expires_at ← lift (dt_plus now (rp_completion_ttl p));
        put_request id (set_request RqVerified (Some hash) (rq_attempt_count r) expires_at (Some now) (rq_completed_at r)
                          (rq_revoked_at r) r);;
        identity_commit;;
        mret expires_at
  end.
(** The answer: the completion token and when it expires. *)
Definition recovery_verify (p : RecoveryPolicy) (now : datetime) (completion_token : string) (id : UUID) (raw : string)
    (db : IdentityDb) : res (string * datetime) * IdentityDb :=
  match recovery_now now with
  | Raise e => (Raise e, db)
  | Ok _ =>
      match token_digest VERIFICATION_PURPOSE raw with
      | Raise _ => (denied "verification", db)
      | Ok provided =>
          match with_uow (recovery_verify_body p now completion_token provided id) db with
          | (Raise e, db') => (Raise e, db')
          | (Ok expires_at, db') => (Ok (completion_token, expires_at), db')
          end
      end
  end.

(** What was revoked: sessions, refresh tokens, action tokens, and outside of the database
    the keys of supervisor sessions and API keys. *)
Record RecoveryReceipt := {
  rr_sessions_revoked : Z;
  rr_refresh_tokens_revoked : Z;
  rr_action_tokens_revoked : Z;
  rr_external : Z * Z
}.

Definition open_action_of (user_id : UUID) (a : AuthActionToken) : bool :=
  bool_decide (ac_user_id a = user_id) && bool_decide (ac_consumed_at a = None) && bool_decide (ac_invalidated_at a = None).
Definition invalidate_action (at_ : datetime) (a : AuthActionToken) : AuthActionToken :=
  {| ac_user_id := ac_user_id a; ac_token_hash := ac_token_hash a; ac_expires_at := ac_expires_at a; ac_consumed_at := ac_consumed_at a;
     ac_invalidated_at := Some at_ |}.
Definition open_factor_of (user_id : UUID) (f : AuthMfaFactor) : bool := factor_in FaPending user_id f || factor_in FaActive user_id f.
Definition code_of_user (user_id : UUID) (factors : Table AuthMfaFactor) (c : AuthMfaRecoveryCode) : bool :=
  match factors !! rc_factor_id c with Some f => bool_decide (mf_user_id f = user_id) | None => false end.

(** Everything the account held is revoked. *)
Definition revoke_account (user_id : UUID) (now : datetime) (db : IdentityDb) : IdentityDb :=
  with_codes (filter (fun kr => code_of_user user_id (id_factors db) kr.2 = false))
    (with_factors (update_rows (open_factor_of user_id) (disable_factor now))
      (with_actions (update_rows (open_action_of user_id) (invalidate_action now))
        (with_sessions (update_rows (live_session_of user_id) (set_session_revoked now "account_recovery_completed"))
          (with_tokens (update_rows (token_of_user user_id (id_sessions db)) (revoke_token now)) db)))).

Definition recovery_complete_body (now : datetime) (external : UUID -> string -> res (Z * Z)) (new_hash provided : string)
    (id : UUID) : Identity RecoveryReceipt :=
  db ← query Datatypes.id;
  match id_requests db !! id with
  | None => lift (denied "completion")
  | Some r =>
      if negb (bool_decide (rq_state r = RqVerified)) || bool_decide (rq_verified_at r = None) ||
         bool_decide (is_Some (rq_completed_at r)) || bool_decide (is_Some (rq_revoked_at r)) ||
         bool_decide (or_string (rq_completion_token_hash r) "" = "") then lift (denied "completion")
      else if negb (after (rq_expires_at r) now) then
        put_request id (set_rq_state RqExpired r);; identity_commit;; lift (denied "completion")
      else if negb (bool_decide (rq_completion_token_hash r = Some provided)) then lift (denied "completion")
      else
        match id_users db !! rq_user_id r with
        | Some u =>
            if bool_decide (iu_status u = UsActive) then
              receipt ← lift (denied_on_error "completion" (external (rq_user_id r) (iu_email_normalized u)));
              mutate (revoke_account (rq_user_id r) now);;
              mutate (with_users (<[rq_user_id r := set_failures 0 None (set_credentials new_hash (Some now) u)]>));;
              put_request id (set_request RqCompleted None (rq_attempt_count r) (rq_expires_at r) (rq_verified_at r) (Some now)
                                (rq_revoked_at r) r);;
              identity_commit;;
              mret {| rr_sessions_revoked := row_count (live_session_of (rq_user_id r)) (id_sessions db);
                      rr_refresh_tokens_revoked := row_count (token_of_user (rq_user_id r) (id_sessions db)) (id_tokens db);
                      rr_action_tokens_revoked := row_count (open_action_of (rq_user_id r)) (id_actions db);
                      rr_external := receipt |}
            else lift (denied "completion")
        | None => lift (denied "completion")
        end
  end.
Definition recovery_complete (now : datetime) (external : option (UUID -> string -> res (Z * Z))) (salt : string) (id : UUID)
    (raw new_password : string) (db : IdentityDb) : res RecoveryReceipt * IdentityDb :=
  match recovery_now now with
  | Raise e => (Raise e, db)
  | Ok _ =>
      match denied_on_error "completion" (provided ← token_digest COMPLETION_PURPOSE raw;
                                          new_hash ← hash_password salt new_password; mret (provided, new_hash)), external with
      | Raise e, _ => (Raise e, db)
      | Ok _, None => (denied "completion", db)
      | Ok (provided, new_hash), Some revoke => with_uow (recovery_complete_body now revoke new_hash provided id) db
      end
  end.
(** ** Histories

    Everything that can be asked of the identities, and what it makes of the database. *)
Inductive identity_op :=
  | IdLogin (p : SessionPolicy) (now issued_at : datetime) (d : LoginDraws) (email password : string)
  | IdRefresh (p : SessionPolicy) (now issued_at counted_at : datetime) (d : RefreshDraws) (raw : string)
  | IdLogout (now : datetime) (raw : string)
  | IdLogoutAll (now : datetime) (raw : string)
  | IdRevoke (now : datetime) (user_id session_id : UUID)
  | IdEnroll (p : MfaPolicy) (now : datetime) (d : EnrollDraws) (user_id : UUID) (label : string)
  | IdConfirm (now : datetime) (codes : list (UUID * string)) (user_id session_id : UUID) (code : string)
  | IdVerify (now : datetime) (user_id session_id : UUID) (code recovery_code : option string)
  | IdRegenerate (p : MfaPolicy) (now : datetime) (codes : list (UUID * string)) (user_id session_id : UUID)
  | IdDisable (p : MfaPolicy) (now : datetime) (user_id session_id : UUID)
  | IdRecoveryStart (p : RecoveryPolicy) (now : datetime) (d : RecoveryDraws) (login : string)
  | IdRecoveryVerify (p : RecoveryPolicy) (now : datetime) (completion_token : string) (id : UUID) (raw : string)
  | IdRecoveryComplete (now : datetime) (external : option (UUID -> string -> res (Z * Z))) (salt : string) (id : UUID)
      (raw new_password : string).

Definition identity_exec (o : identity_op) (db : IdentityDb) : IdentityDb :=
  match o with
  | IdLogin p now issued_at d email password => snd (login p now issued_at d email password db)
  | IdRefresh p now issued_at counted_at d raw => snd (refresh p now issued_at counted_at d raw db)
  | IdLogout now raw => snd (logout now raw db)
  | IdLogoutAll now raw => snd (logout_all now raw db)
  | IdRevoke now uid sid => snd (revoke_session now uid sid db)
  | IdEnroll p now d uid label => snd (enroll p now d uid label db)
  | IdConfirm now codes uid sid code => snd (confirm_enrollment now codes uid sid code db)
  | IdVerify now uid sid code rcode => snd (mfa_verify now uid sid code rcode db)
  | IdRegenerate p now codes uid sid => snd (regenerate_recovery_codes p now codes uid sid db)
  | IdDisable p now uid sid => snd (mfa_disable p now uid sid db)
  | IdRecoveryStart p now d login => snd (recovery_start p now d login db)
  | IdRecoveryVerify p now token id raw => snd (recovery_verify p now token id raw db)
  | IdRecoveryComplete now external salt id raw pw => snd (recovery_complete now external salt id raw pw db)
  end.
Fixpoint identity_run (ops : list identity_op) (db : IdentityDb) : IdentityDb :=
  match ops with [] => db | o :: ops => identity_run ops (identity_exec o db) end.
End Mfa.
