(* ===== verification/IdentityFrames.v ===== *)
(** * What the requests on identities leave alone

    The frames the theorems on identities rest on: every request is a unit of work around a
    body ([request_runs]), moves the rows forward ([request_moves]), keeps the constraints
    ([request_constraints]) and adds proofs and live tokens only as its effect says
    ([request_kept]). *)
From S2P Require Import Prelude PyString PyDateTime PyText Uow Identity IdentityMfa.
#[local] Open Scope Z_scope.

(** ** Rows that only move forward *)

Section Tables.
Context {R : Type}.
Implicit Types (t : Table R) (K : R -> R -> Prop).

(** Every row is kept, as one it moves to. *)
Definition table_moved K t t' : Prop := forall k r, t !! k = Some r -> exists r', t' !! k = Some r' /\ K r r'.

#[global] Instance table_moved_preorder K `{!PreOrder K} : PreOrder (table_moved K).
Proof.
  split.
  - intros t k r Hr. exists r. split; [done|reflexivity].
  - intros a b c H1 H2 k r Hr. destruct (H1 k r Hr) as (r1 & Hr1 & M1). destruct (H2 k r1 Hr1) as (r2 & Hr2 & M2).
    exists r2. split; [done|etrans; eassumption].
Qed.

Lemma table_moved_insert K `{!PreOrder K} k r r' t : t !! k = Some r -> K r r' -> table_moved K t (<[k := r']> t).
Proof.
  intros Hk Hr j q Hq. destruct (decide (k = j)) as [<-|Hne].
  - assert (q = r) as -> by congruence. exists r'. by rewrite lookup_insert_eq.
  - exists q. rewrite lookup_insert_ne //. split; [done|reflexivity].
Qed.

Lemma table_moved_new K `{!PreOrder K} k r t : t !! k = None -> table_moved K t (<[k := r]> t).
Proof.
  intros Hk j q Hq. exists q. rewrite lookup_insert_ne; [intros ->; congruence|]. split; [done|reflexivity].
Qed.

Lemma update_rows_lookup (p : R -> bool) f t k :
  update_rows p f t !! k = (fun r => if p r then f r else r) <$> t !! k.
Proof. unfold update_rows. by rewrite lookup_fmap. Qed.

Lemma table_moved_update K `{!PreOrder K} (p : R -> bool) f t :
  (forall r, p r = true -> K r (f r)) -> table_moved K t (update_rows p f t).
Proof.
  intros Hf k r Hr. rewrite update_rows_lookup Hr. eexists. split; [done|]. destruct (p r) eqn:E; [by apply Hf|reflexivity].
Qed.

Lemma table_moved_alter K `{!PreOrder K} f k t : (forall r, K r (f r)) -> table_moved K t (alter f k t).
Proof.
  intros Hf j r Hr. destruct (decide (k = j)) as [<-|Hne].
  - exists (f r). rewrite lookup_alter_eq Hr. split; [done|apply Hf].
  - exists r. rewrite lookup_alter_ne //. split; [done|reflexivity].
Qed.
End Tables.

(** A date once set stays set; a counter of steps never goes back. *)
Definition set_stays {A} (a b : option A) : Prop := is_Some a -> is_Some b.
Definition step_le (a b : option Z) : Prop :=
  match a, b with None, _ => True | Some _, None => False | Some x, Some y => x <= y end.

Record session_moved (s s' : AuthSession) : Prop := {
  sm_terms : (as_user_id s', as_organization_id s', as_refresh_family_id s', as_authenticated_at s', as_expires_at s') =
             (as_user_id s, as_organization_id s, as_refresh_family_id s, as_authenticated_at s, as_expires_at s);
  sm_revoked : set_stays (as_revoked_at s) (as_revoked_at s')
}.
Record token_moved (t t' : AuthRefreshToken) : Prop := {
  tm_terms : (rt_session_id t', rt_token_hash t', rt_expires_at t') = (rt_session_id t, rt_token_hash t, rt_expires_at t);
  tm_consumed : set_stays (rt_consumed_at t) (rt_consumed_at t');
  tm_revoked : set_stays (rt_revoked_at t) (rt_revoked_at t')
}.
Record factor_moved (f f' : AuthMfaFactor) : Prop := {
  fm_terms : (mf_user_id f', mf_label f', mf_secret_ciphertext f', mf_secret_key_version f') =
             (mf_user_id f, mf_label f, mf_secret_ciphertext f, mf_secret_key_version f);
  fm_step : step_le (mf_last_used_step f) (mf_last_used_step f');
  fm_disabled : mf_status f = FaDisabled -> mf_status f' = FaDisabled
}.
(** A request for recovery is verified, then completed, and may end before. *)
Inductive request_step : RecoveryState -> RecoveryState -> Prop :=
  | rs_same s : request_step s s
  | rs_verified : request_step RqPending RqVerified
  | rs_completed : request_step RqVerified RqCompleted
  | rs_ended s s' : s = RqPending \/ s = RqVerified -> s' = RqExpired \/ s' = RqRevoked -> request_step s s'.
Record request_moved (r r' : AuthAccountRecoveryRequest) : Prop := {
  rm_terms : (rq_user_id r', rq_verification_token_hash r') = (rq_user_id r, rq_verification_token_hash r);
  rm_attempts : rq_attempt_count r <= rq_attempt_count r';
  rm_state : rtc request_step (rq_state r) (rq_state r')
}.
Record user_moved (u u' : IdentityUser) : Prop := {
  um_terms : (iu_email_normalized u', iu_status u') = (iu_email_normalized u, iu_status u)
}.

#[global] Instance session_moved_preorder : PreOrder session_moved.
Proof. split; [by split|]. intros a b c [] []. split; [congruence|unfold set_stays in *; eauto]. Qed.
#[global] Instance token_moved_preorder : PreOrder token_moved.
Proof. split; [by split|]. intros a b c [] []. split; [congruence|unfold set_stays in *; eauto..]. Qed.
#[global] Instance factor_moved_preorder : PreOrder factor_moved.
Proof.
  split.
  - intros f. split; [done|destruct (mf_last_used_step f); cbn; [lia|done]|done].
  - intros a b c [? H1 ?] [? H2 ?]. split; [congruence| |eauto]. unfold step_le in *.
    destruct (mf_last_used_step a), (mf_last_used_step b), (mf_last_used_step c); try done. lia.
Qed.
#[global] Instance request_moved_preorder : PreOrder request_moved.
Proof. split; [split; [done|lia|reflexivity]|]. intros a b c [] []. split; [congruence|lia|etrans; eassumption]. Qed.
#[global] Instance user_moved_preorder : PreOrder user_moved.
Proof. split; [by split|]. intros a b c [] []. split. congruence. Qed.

Record identity_moved (db db' : IdentityDb) : Prop := {
  im_users : table_moved user_moved (id_users db) (id_users db');
  im_sessions : table_moved session_moved (id_sessions db) (id_sessions db');
  im_tokens : table_moved token_moved (id_tokens db) (id_tokens db');
  im_factors : table_moved factor_moved (id_factors db) (id_factors db');
  im_requests : table_moved request_moved (id_requests db) (id_requests db');
  im_rest : (id_memberships db', id_authorities db', id_emails db') = (id_memberships db, id_authorities db, id_emails db)
}.
#[global] Instance identity_moved_preorder : PreOrder identity_moved.
Proof.
  split.
  - intros db. split; reflexivity || done.
  - intros a b c [] []. split; [etrans; eassumption..|congruence].
Qed.

(** ** What the requests do *)

Section Requests.
Context {HP : IdentityPrimitives}.

Notation Identity := (M (Session IdentityDb)).

Lemma identity_commit_eq s :
  identity_commit s = match identity_constraints (working s) with
                      | Ok _ => (Ok tt, {| working := working s; committed := working s |})
                      | Raise e => (Raise e, {| working := committed s; committed := committed s |})
                      end.
Proof. reflexivity. Qed.

Lemma add_new_eq {R} (table : IdentityDb -> Table R) (add : (Table R -> Table R) -> IdentityDb -> IdentityDb) id row s :
  add_new table add id row s =
    if bool_decide (table (working s) !! id = None)
    then (Ok tt, {| working := add (<[id := row]>) (working s); committed := committed s |})
    else (Raise (Exn IntegrityError "constraint failed"), s).
Proof. unfold add_new. rewrite bind_query. cbn. by case_bool_decide. Qed.

(** ** What the queries find *)

Lemma first_by_elem {R} (key : R -> Z) rows kr : first_by key rows = Some kr -> kr ∈ rows.
Proof.
  unfold first_by. revert kr. induction rows as [|x rows IH]; intros kr; cbn; [done|].
  destruct (foldr _ None rows) as [b|] eqn:E; [destruct (_ <? _)|]; intros [= <-]; [right; by apply IH|left|left].
Qed.

Lemma first_row_Some {R} (key : R -> Z) p (t : Table R) k r :
  first_by key (find_rows p t) = Some (k, r) -> t !! k = Some r /\ p r = true.
Proof. intros H%first_by_elem. by apply find_rows_elem in H. Qed.

Lemma principals_Some hash db tid t sid s uid u :
  refresh_principals hash db = Some ((tid, t), (sid, s), (uid, u)) ->
  id_tokens db !! tid = Some t /\ rt_token_hash t = hash /\ rt_session_id t = sid /\
  id_sessions db !! sid = Some s /\ as_user_id s = uid /\ id_users db !! uid = Some u.
Proof.
  unfold refresh_principals. destruct (find_row _ _) as [[k t']|] eqn:Ef; [|done]. cbn.
  apply find_row_Some in Ef as [Ht Hh%bool_decide_eq_true].
  destruct (id_sessions db !! _) as [s'|] eqn:Es; [|done]. cbn. destruct (id_users db !! _) as [u'|] eqn:Eu; [|done].
  intros [= <- <- <- <- <- <-]. done.
Qed.
End Requests.

(** Runs a body: every branch it may take, with the database it leaves. *)
Ltac run_body H :=
  repeat first
    [ progress cbn [mbind mret M_bind M_ret working committed query gets mutate modify lift throw raise id fst snd] in H
    | rewrite M_bind_eq in H
    | rewrite add_new_eq in H
    | rewrite identity_commit_eq in H
    | match type of H with
      | (Ok _, _) = _ => injection H as <- <-
      | (Raise _, _) = _ => injection H as <- <-
      | lift ?m ?s = ?r => change ((m, s) = r) in H
      | mret ?a ?s = ?r => change ((Ok a, s) = r) in H
      | throw ?k ?m ?s = ?r => change ((raise k m, s) = r) in H
      | context [match ?x with _ => _ end] =>
          lazymatch x with
          | context [match _ with _ => _ end] => fail
          | context [mbind _ _ _] => fail
          | _ => destruct x eqn:?
          end
      | (_, _) = _ => injection H as <- <-
      end ].

(** Collects the rows the branch found. *)
Ltac found :=
  repeat match goal with
  | x : (_ * _)%type |- _ => destruct x
  | H : find_row _ _ = Some (_, _) |- _ => apply find_row_Some in H as [? ?]
  | H : first_by _ (find_rows _ _) = Some (_, _) |- _ => apply first_row_Some in H as [? ?]
  | H : refresh_principals _ _ = Some _ |- _ => apply principals_Some in H as (? & ? & ? & ? & ? & ?)
  | H : bool_decide (_ = None) = true |- _ => apply bool_decide_eq_true in H
  end.

Ltac unfold_mfa H :=
  unfold mark_session_satisfied, assert_recent_step_up, session_of_user, factor_for_update, unused_recovery_code,
    eligible_principal_by_login, put_request in H.

Section Frames.
Context {HP : IdentityPrimitives}.

Notation Identity := (M (Session IdentityDb)).

(** ** Tables that moved *)

Lemma moved_users f db db1 :
  identity_moved db db1 -> table_moved user_moved (id_users db1) (f (id_users db1)) -> identity_moved db (with_users f db1).
Proof. intros [] Hf. split; try done. etrans; eassumption. Qed.
Lemma moved_sessions f db db1 :
  identity_moved db db1 -> table_moved session_moved (id_sessions db1) (f (id_sessions db1)) ->
  identity_moved db (with_sessions f db1).
Proof. intros [] Hf. split; try done. etrans; eassumption. Qed.
Lemma moved_tokens f db db1 :
  identity_moved db db1 -> table_moved token_moved (id_tokens db1) (f (id_tokens db1)) -> identity_moved db (with_tokens f db1).
Proof. intros [] Hf. split; try done. etrans; eassumption. Qed.
Lemma moved_factors f db db1 :
  identity_moved db db1 -> table_moved factor_moved (id_factors db1) (f (id_factors db1)) -> identity_moved db (with_factors f db1).
Proof. intros [] Hf. split; try done. etrans; eassumption. Qed.
Lemma moved_requests f db db1 :
  identity_moved db db1 -> table_moved request_moved (id_requests db1) (f (id_requests db1)) ->
  identity_moved db (with_requests f db1).
Proof. intros [] Hf. split; try done. etrans; eassumption. Qed.
Lemma moved_actions f db db1 : identity_moved db db1 -> identity_moved db (with_actions f db1).
Proof. intros []. by split. Qed.
Lemma moved_codes f db db1 : identity_moved db db1 -> identity_moved db (with_codes f db1).
Proof. intros []. by split. Qed.
Lemma moved_outbox f db db1 : identity_moved db db1 -> identity_moved db (with_outbox f db1).
Proof. intros []. by split. Qed.

Lemma count_failed_login_moved p now u u' : count_failed_login p now u = Ok u' -> user_moved u u'.
Proof.
  unfold count_failed_login. destruct (_ <=? _); [intros (t & _ & [= <-])%res_bind_Ok|intros [= <-]]; by split.
Qed.

Lemma rehash_moved needs now salt password u u' : rehash needs now salt password u = Ok u' -> user_moved u u'.
Proof. unfold rehash. destruct needs; [intros (h & _ & [= <-])%res_bind_Ok|intros [= <-]]; by split. Qed.

Lemma revoke_token_moved at_ t : token_moved t (revoke_token at_ t).
Proof. split; [done|done|]. intros _. by eexists. Qed.
Lemma consume_token_moved at_ t : token_moved t (consume_token at_ t).
Proof. split; [done| |done]. intros _. by eexists. Qed.
Lemma mark_reuse_moved at_ t : token_moved t (mark_reuse at_ t).
Proof. by split. Qed.
Lemma set_session_revoked_moved at_ reason s : session_moved s (set_session_revoked at_ reason s).
Proof. split; [done|]. intros _. by eexists. Qed.
Lemma set_last_seen_moved at_ s : session_moved s (set_last_seen at_ s).
Proof. by split. Qed.
Lemma satisfy_session_moved at_ s : session_moved s (satisfy_session at_ s).
Proof. by split. Qed.
Lemma disable_factor_moved at_ f : factor_moved f (disable_factor at_ f).
Proof. split; [done| |done]. cbn. destruct (mf_last_used_step f); cbn; [lia|done]. Qed.

Hint Resolve revoke_token_moved consume_token_moved mark_reuse_moved set_session_revoked_moved set_last_seen_moved
  satisfy_session_moved disable_factor_moved count_failed_login_moved rehash_moved : moved.

Lemma revoke_family_moved sid s at_ reason reused db :
  id_sessions db !! sid = Some s -> identity_moved db (revoke_family sid s at_ reason reused db).
Proof.
  intros Hs. apply moved_tokens.
  - apply moved_sessions; [reflexivity|]. eapply table_moved_insert; [apply _|exact Hs|auto with moved].
  - cbn [id_tokens with_sessions].
    transitivity (match reused with Some k => alter (mark_reuse at_) k (id_tokens db) | None => id_tokens db end).
    + destruct reused; [|reflexivity]. apply table_moved_alter; [apply _|auto with moved].
    + apply table_moved_update; [apply _|auto with moved].
Qed.

Lemma revoke_all_moved uid at_ reason db : identity_moved db (revoke_all_for_user uid at_ reason db).
Proof.
  apply moved_sessions; [apply moved_tokens; [reflexivity|]|]; apply table_moved_update; auto with moved typeclass_instances.
Qed.

Lemma revoke_others_moved uid sid at_ reason t : table_moved session_moved t (revoke_other_sessions uid sid at_ reason t).
Proof.
  intros k s Hs. unfold revoke_other_sessions. rewrite map_lookup_imap Hs. cbn. eexists. split; [done|].
  destruct (_ && _); [auto with moved|reflexivity].
Qed.

Lemma revoke_account_moved uid now db : identity_moved db (revoke_account uid now db).
Proof.
  apply moved_codes, moved_factors; [apply moved_actions, moved_sessions; [apply moved_tokens; [reflexivity|]|]|];
    apply table_moved_update; auto with moved typeclass_instances.
Qed.

Ltac moved :=
  repeat first
    [ reflexivity | eassumption
    | apply revoke_family_moved | apply revoke_all_moved | apply revoke_others_moved | apply revoke_account_moved
    | apply moved_users | apply moved_sessions | apply moved_tokens | apply moved_factors | apply moved_requests
    | apply moved_actions | apply moved_codes | apply moved_outbox
    | eapply table_moved_insert; [apply _|eassumption|]
    | apply table_moved_new; [apply _|]
    | apply table_moved_update; [apply _|intros]
    | solve [eauto with moved]
    | by split ].

Lemma login_body_moved p now d email password db r s' :
  login_body p now d email password {| working := db; committed := db |} = (r, s') -> identity_moved db (committed s').
Proof.
  intros H. unfold login_body, user_for_login in H. run_body H; cbn [committed]; found; moved.
  all: etrans; [eapply rehash_moved; eassumption|by split].
Qed.

Lemma refresh_body_moved now d hash db r s' :
  refresh_body now d hash {| working := db; committed := db |} = (r, s') -> identity_moved db (committed s').
Proof. intros H. unfold refresh_body in H. run_body H; cbn [committed]; found; moved. Qed.

Lemma logout_body_moved now hash db r s' :
  logout_body now hash {| working := db; committed := db |} = (r, s') -> identity_moved db (committed s').
Proof. intros H. unfold logout_body in H. run_body H; cbn [committed]; found; moved. Qed.

Lemma logout_all_body_moved now hash db r s' :
  logout_all_body now hash {| working := db; committed := db |} = (r, s') -> identity_moved db (committed s').
Proof. intros H. unfold logout_all_body in H. run_body H; cbn [committed]; found; moved. Qed.

(** Recovery codes are rows of another table. *)
Lemma replace_codes_frame fid codes s r s' :
  replace_recovery_codes fid codes s = (r, s') ->
  committed s' = committed s /\ exists f, working s' = with_codes f (working s).
Proof.
  unfold replace_recovery_codes, delete_codes. rewrite M_bind_eq. cbn.
  set (s0 := {| working := _; committed := _ |}). intros H.
  assert (committed s' = committed s0 /\ exists f, working s' = with_codes f (working s0)) as [H1 [f H2]].
  { clearbody s0. revert s0 H. induction codes as [|c codes IH]; intros s0 H; cbn in H.
    { injection H as _ <-. split; [done|]. exists (fun t => t). by destruct (working s0). }
    rewrite M_bind_eq add_new_eq in H. case_bool_decide; [|injection H as _ <-].
    - apply IH in H as [H1 [f H2]]. split; [done|]. rewrite H2. cbn. by eexists (fun t => f (<[_ := _]> t)).
    - split; [done|]. exists (fun t => t). by destruct (working s0). }
  split; [done|]. rewrite H2. cbn. by eexists (fun t => f (filter _ t)).
Qed.

Ltac codes_frame :=
  repeat match goal with
  | H : replace_recovery_codes _ _ _ = (_, ?s) |- _ =>
      apply replace_codes_frame in H as [? [? ?]]; destruct s; cbn [working committed] in *; subst
  end.
Lemma enroll_body_moved now d uid label db r s' :
  enroll_body now d uid label {| working := db; committed := db |} = (r, s') -> identity_moved db (committed s').
Proof. intros H. unfold enroll_body in H. unfold_mfa H. run_body H; cbn [committed]; found; moved. Qed.

(** The step a password is accepted for is later than the last one. *)
Lemma totp_scan_step secret code used steps v step :
  totp_scan secret code used steps = Ok v -> tv_accepted v = true -> tv_matched_step v = Some step ->
  match used with Some u => u < step | None => True end.
Proof.
  induction steps as [|n steps IH]; cbn; [by intros [= <-]|]. destruct (n <? 0); [done|].
  intros (c & _ & Hv)%res_bind_Ok. case_bool_decide; [|by apply IH]. destruct used as [u|].
  - destruct (Z.leb_spec n u); injection Hv as <-; [done|]. by intros _ [= <-].
  - done.
Qed.

Lemma verify_totp_factor_Ok id f code now f' :
  verify_totp_factor id f code now = Ok f' ->
  exists step, f' = use_step step f /\ match mf_last_used_step f with Some u => u < step | None => True end.
Proof.
  unfold verify_totp_factor. intros (secret & _ & (v & Hv & H)%res_bind_Ok)%res_bind_Ok.
  destruct (tv_accepted v) eqn:Ha; [|done]. destruct (tv_matched_step v) as [step|] eqn:Hs; [|done]. injection H as <-.
  exists step. split; [done|]. unfold verify_totp in Hv. apply res_bind_Ok in Hv as (_ & _ & Hv).
  destruct (_ || _); [injection Hv as <-; done|]. apply res_bind_Ok in Hv as (_ & _ & Hv).
  exact (totp_scan_step _ _ _ _ _ _ Hv Ha Hs).
Qed.

Lemma verify_totp_moved id f code now f' : verify_totp_factor id f code now = Ok f' -> mf_status f <> FaDisabled -> factor_moved f f'.
Proof.
  intros (step & -> & Hs)%verify_totp_factor_Ok Hd. split; [done| |done]. cbn. destruct (mf_last_used_step f); [|done]. cbn. lia.
Qed.

Lemma factor_in_true st uid f : factor_in st uid f = true -> mf_user_id f = uid /\ mf_status f = st.
Proof. by intros [H1%bool_decide_eq_true H2%bool_decide_eq_true]%andb_true_iff. Qed.

Lemma verified_moved st uid id f code now f' :
  factor_in st uid f = true -> st <> FaDisabled -> verify_totp_factor id f code now = Ok f' -> factor_moved f f'.
Proof. intros [_ Hs]%factor_in_true Hne Hv. eapply verify_totp_moved; [exact Hv|congruence]. Qed.

Lemma activated_moved uid id f code now f' at_ :
  factor_in FaPending uid f = true -> verify_totp_factor id f code now = Ok f' -> factor_moved f (activate_factor at_ f').
Proof.
  intros [_ Hs]%factor_in_true (step & -> & Hstep)%verify_totp_factor_Ok. split; [done| |rewrite Hs; discriminate].
  cbn. destruct (mf_last_used_step f); [|done]. cbn. lia.
Qed.
Hint Resolve activated_moved : moved.

Hint Extern 1 (factor_moved _ _) => eapply verified_moved; [eassumption|discriminate|eassumption] : moved.

Lemma request_ended st r r' :
  rq_state r = RqPending \/ rq_state r = RqVerified -> st = RqExpired \/ st = RqRevoked ->
  (rq_user_id r', rq_verification_token_hash r') = (rq_user_id r, rq_verification_token_hash r) ->
  rq_attempt_count r <= rq_attempt_count r' -> rq_state r' = st -> request_moved r r'.
Proof. intros H1 H2 Ht Ha Hs. split; [done|done|]. rewrite Hs. apply rtc_once. by constructor. Qed.

Lemma confirm_body_moved now codes uid sid code db r s' :
  confirm_body now codes uid sid code {| working := db; committed := db |} = (r, s') -> identity_moved db (committed s').
Proof.
  intros H. unfold confirm_body in H. unfold_mfa H. run_body H; found; codes_frame; cbn [committed]; moved.
Qed.

Lemma verify_body_moved now uid sid code rcode db r s' :
  verify_body now uid sid code rcode {| working := db; committed := db |} = (r, s') -> identity_moved db (committed s').
Proof.
  intros H. unfold verify_body in H. unfold_mfa H. run_body H; found; codes_frame; cbn [committed]; moved.
Qed.

Lemma regenerate_body_moved p now codes uid sid db r s' :
  regenerate_body p now codes uid sid {| working := db; committed := db |} = (r, s') -> identity_moved db (committed s').
Proof.
  intros H. unfold regenerate_body in H. unfold_mfa H. run_body H; found; codes_frame; cbn [committed]; moved.
Qed.

Lemma disable_body_moved p now uid sid db r s' :
  disable_body p now uid sid {| working := db; committed := db |} = (r, s') -> identity_moved db (committed s').
Proof.
  intros H. unfold disable_body in H. unfold_mfa H. run_body H; found; codes_frame; cbn [committed]; moved.
Qed.

Lemma revoked_moved uid r at_ : active_request_of uid r = true -> request_moved r (revoke_request at_ r).
Proof.
  unfold active_request_of. intros [[_ Hs]%andb_true_iff _]%andb_true_iff.
  apply (request_ended RqRevoked); [|by right|done|cbn; lia|done]. case_bool_decide; [by left|].
  apply bool_decide_eq_true in Hs. by right.
Qed.
Hint Resolve revoked_moved : moved.

Lemma start_body_moved p now d login db r s' :
  recovery_start_body p now d login {| working := db; committed := db |} = (r, s') -> identity_moved db (committed s').
Proof.
  intros H. unfold recovery_start_body in H. unfold_mfa H. run_body H; found; cbn [committed]; moved.
Qed.

Lemma recovery_verify_body_moved p now token provided id db r s' :
  recovery_verify_body p now token provided id {| working := db; committed := db |} = (r, s') -> identity_moved db (committed s').
Proof.
  intros H. unfold recovery_verify_body in H. unfold_mfa H. run_body H; found; cbn [committed]; moved.
  all: repeat match goal with H : _ || _ = false |- _ => apply orb_false_iff in H as [H _] end; to_prop.
  - apply (request_ended RqExpired); [by left|by left|done|cbn; lia|done].
  - apply (request_ended RqRevoked); [by left|by right|done|cbn; lia|done].
  - split; [done|cbn; lia|reflexivity].
  - split; [done|cbn; lia|]. match goal with E : rq_state a = _ |- _ => rewrite E end. apply rtc_once, rs_verified.
Qed.

Lemma complete_body_moved now external hash provided id db r s' :
  recovery_complete_body now external hash provided id {| working := db; committed := db |} = (r, s') ->
  identity_moved db (committed s').
Proof.
  intros H. unfold recovery_complete_body in H. unfold_mfa H. run_body H; found; cbn [committed]; moved.
  all: repeat match goal with H : _ || _ = false |- _ => apply orb_false_iff in H as [H _] end; to_prop.
  - apply (request_ended RqExpired); [by right|by left|done|cbn; lia|done].
  - split; [done|cbn; lia|]. match goal with E : rq_state a = _ |- _ => rewrite E end. apply rtc_once, rs_completed.
Qed.

Lemma uow_holds {A} (Q : IdentityDb -> Prop) (body : Identity A) db :
  (forall r s', body {| working := db; committed := db |} = (r, s') -> Q (committed s')) -> Q (snd (with_uow body db)).
Proof. intros H. unfold with_uow. destruct (body _) as [r s'] eqn:E. exact (H r s' eq_refl). Qed.

(** ** Commits *)

(** A body leaves the database, or one that satisfies the constraints. *)
Definition commits_ok {A} (m : Identity A) : Prop :=
  forall s, committed (snd (m s)) = committed s \/ identity_constraints (committed (snd (m s))) = Ok tt.

Lemma commits_ok_bind {A B} (m : Identity A) (f : A -> Identity B) :
  commits_ok m -> (forall a, commits_ok (f a)) -> commits_ok (m ≫= f).
Proof.
  intros Hm Hf s. rewrite M_bind_eq. specialize (Hm s). destruct (m s) as [[a|e] s1]; [|exact Hm]. cbn in Hm.
  destruct (Hf a s1) as [E|E]; [|by right]. rewrite E. exact Hm.
Qed.
Lemma commits_ok_commit : commits_ok identity_commit.
Proof.
  intros s. rewrite identity_commit_eq. destruct (identity_constraints _) as [[]|] eqn:E; [by right|by left].
Qed.
Lemma commits_ok_none {A} (m : Identity A) : no_commit m -> commits_ok m.
Proof. intros Hm s. left. apply Hm. Qed.
Lemma add_new_no_commit {R} table add id (row : R) : no_commit (add_new table add id row).
Proof. unfold add_new. never_commits. Qed.
Lemma replace_codes_no_commit fid codes : no_commit (replace_recovery_codes fid codes).
Proof.
  intros s. destruct (replace_recovery_codes fid codes s) as [r s'] eqn:E. cbn. by apply replace_codes_frame in E as [E _].
Qed.
Lemma throw_no_commit {A} k m : no_commit (throw k m : Identity A).
Proof. done. Qed.
Hint Resolve commits_ok_commit commits_ok_none add_new_no_commit replace_codes_no_commit throw_no_commit : maestro.
Ltac commits := follow_body @commits_ok_bind.

(** ** Histories *)

(** What a request may bring about: a new session, a new token, the proof of a second factor. *)
Inductive identity_effect := OpensSession (sid : UUID) | RotatesToken | ProvesFactor (sid : UUID) | OtherEffect.
Definition effect_of (o : identity_op) : identity_effect :=
  match o with
  | IdLogin _ _ _ d _ _ => OpensSession (ld_session_id d)
  | IdRefresh _ _ _ _ _ _ => RotatesToken
  | IdConfirm _ _ _ sid _ | IdVerify _ _ sid _ _ => ProvesFactor sid
  | _ => OtherEffect
  end.

(** Every request is a unit of work around a body, or changes nothing. *)
Inductive request_run (db : IdentityDb) : identity_effect -> IdentityDb -> Prop :=
  | run_idle e : request_run db e db
  | run_login p now d email password :
      request_run db (OpensSession (ld_session_id d)) (snd (with_uow (login_body p now d email password) db))
  | run_refresh now d hash : request_run db RotatesToken (snd (with_uow (refresh_body now d hash) db))
  | run_logout now hash : request_run db OtherEffect (snd (with_uow (logout_body now hash) db))
  | run_logout_all now hash : request_run db OtherEffect (snd (with_uow (logout_all_body now hash) db))
  | run_revoke now uid sid : request_run db OtherEffect (snd (revoke_session now uid sid db))
  | run_enroll now d uid label : request_run db OtherEffect (snd (with_uow (enroll_body now d uid label) db))
  | run_confirm now codes uid sid code :
      request_run db (ProvesFactor sid) (snd (with_uow (confirm_body now codes uid sid code) db))
  | run_verify now uid sid code rcode :
      request_run db (ProvesFactor sid) (snd (with_uow (verify_body now uid sid code rcode) db))
  | run_regenerate p now codes uid sid : request_run db OtherEffect (snd (with_uow (regenerate_body p now codes uid sid) db))
  | run_disable p now uid sid : request_run db OtherEffect (snd (with_uow (disable_body p now uid sid) db))
  | run_start p now d login : request_run db OtherEffect (snd (with_uow (recovery_start_body p now d login) db))
  | run_rverify p now token provided id :
      request_run db OtherEffect (snd (with_uow (recovery_verify_body p now token provided id) db))
  | run_complete now external hash provided id :
      request_run db OtherEffect (snd (with_uow (recovery_complete_body now external hash provided id) db)).
Hint Constructors request_run : runs.

Lemma snd_case {A B} (Q : IdentityDb -> Prop) (x : res A * IdentityDb) (f : A -> res B) :
  Q (snd x) -> Q (snd (match x with (Raise e, db') => (Raise e, db') | (Ok a, db') => (f a, db') end)).
Proof. by destruct x as [[a|e] db']. Qed.

Lemma request_runs {A} e now (body : Identity A) db :
  request_run db e (snd (with_uow body db)) -> request_run db e (snd (mfa_request now body db)).
Proof. unfold mfa_request. destruct (mfa_now now); [done|]. intros _. constructor. Qed.
Hint Resolve request_runs : runs.

Lemma exec_runs o db : request_run db (effect_of o) (identity_exec o db).
Proof.
  destruct o; cbn [identity_exec effect_of];
    unfold confirm_enrollment, mfa_verify, regenerate_recovery_codes, mfa_disable; eauto with runs.
  - unfold login. destruct (normalize_email email) as [e|]; [|constructor]. destruct (session_now now); [|constructor].
    pose proof (run_login db p now d e password) as Hr.
    destruct (with_uow _ _) as [[[[[[]]]]|] ]; exact Hr.
  - unfold refresh. case_match; [|constructor]. rename a into hash.
    pose proof (run_refresh db now d hash) as Hr. destruct (with_uow _ _) as [[[[[]]]|] ]; exact Hr.
  - unfold logout, with_digest. destruct (token_digest _ _); eauto with runs.
  - unfold logout_all, with_digest. destruct (token_digest _ _); eauto with runs.
  - unfold enroll. apply snd_case. eauto with runs.
  - unfold recovery_start. case_match; eauto with runs.
  - unfold recovery_verify. destruct (recovery_now now); [|constructor]. destruct (token_digest _ _); [|constructor].
    apply snd_case. eauto with runs.
  - unfold recovery_complete. destruct (recovery_now now); [|constructor].
    destruct (denied_on_error _ _) as [[]|]; [|constructor]. destruct external; eauto with runs.
Qed.

Lemma revoke_moved now uid sid db : identity_moved db (snd (revoke_session now uid sid db)).
Proof.
  unfold revoke_session. apply (uow_holds (identity_moved db)). intros r s' H. run_body H; cbn [committed]; moved.
Qed.

Lemma request_moves db e db' : request_run db e db' -> identity_moved db db'.
Proof.
  destruct 1; try apply revoke_moved; [reflexivity|apply (uow_holds (identity_moved db)); intros r s' H..].
  - exact (login_body_moved _ _ _ _ _ _ _ _ H).
  - exact (refresh_body_moved _ _ _ _ _ _ H).
  - exact (logout_body_moved _ _ _ _ _ H).
  - exact (logout_all_body_moved _ _ _ _ _ H).
  - exact (enroll_body_moved _ _ _ _ _ _ _ H).
  - exact (confirm_body_moved _ _ _ _ _ _ _ _ H).
  - exact (verify_body_moved _ _ _ _ _ _ _ _ H).
  - exact (regenerate_body_moved _ _ _ _ _ _ _ _ H).
  - exact (disable_body_moved _ _ _ _ _ _ _ H).
  - exact (start_body_moved _ _ _ _ _ _ _ H).
  - exact (recovery_verify_body_moved _ _ _ _ _ _ _ _ H).
  - exact (complete_body_moved _ _ _ _ _ _ _ _ H).
Qed.

Lemma run_moved ops db : identity_moved db (identity_run ops db).
Proof.
  revert db. induction ops as [|o ops IH]; intros db; [reflexivity|]. cbn. etrans; [|apply IH].
  eapply request_moves, exec_runs.
Qed.

(** Every request keeps the constraints of the tables. *)
Lemma commits_ok_uow {A} (body : Identity A) db :
  commits_ok body -> identity_constraints db = Ok tt -> identity_constraints (snd (with_uow body db)) = Ok tt.
Proof.
  intros Hb Hdb. unfold with_uow. specialize (Hb {| working := db; committed := db |}).
  destruct (body _) as [r s]. cbn in *. destruct Hb as [->|Hb]; done.
Qed.

Lemma request_constraints db e db' : request_run db e db' -> identity_constraints db = Ok tt -> identity_constraints db' = Ok tt.
Proof.
  destruct 1; [done|apply commits_ok_uow..].
  - unfold login_body, user_for_login. commits.
  - unfold refresh_body. commits.
  - unfold logout_body. commits.
  - unfold logout_all_body. commits.
  - commits.
  - unfold enroll_body, factor_for_update. commits.
  - unfold confirm_body, factor_for_update, mark_session_satisfied, session_of_user. commits.
  - unfold verify_body, factor_for_update, mark_session_satisfied, session_of_user, unused_recovery_code. commits.
  - unfold regenerate_body, factor_for_update, assert_recent_step_up, session_of_user. commits.
  - unfold disable_body, factor_for_update, assert_recent_step_up, session_of_user. commits.
  - unfold recovery_start_body, eligible_principal_by_login. commits.
  - unfold recovery_verify_body, put_request. commits.
  - unfold recovery_complete_body, put_request. commits.
Qed.

Lemma run_constraints ops db : identity_constraints db = Ok tt -> identity_constraints (identity_run ops db) = Ok tt.
Proof.
  revert db. induction ops as [|o ops IH]; intros db Hdb; [done|]. cbn. apply IH. exact (request_constraints _ _ _ (exec_runs o db) Hdb).
Qed.

(** ** The constraints of a revocation *)

Lemma unique_on_kept {R K} `{EqDecision K} (col : R -> option K) (t t' : Table R) :
  (forall k r', t' !! k = Some r' -> exists r, t !! k = Some r /\ col r' = col r) ->
  unique_on col t = true -> unique_on col t' = true.
Proof.
  intros Hk. rewrite !unique_on_true. intros Hu k1 k2 r1 r2 v H1 H2 E1 E2.
  apply Hk in H1 as (q1 & H1 & C1). apply Hk in H2 as (q2 & H2 & C2).
  apply (Hu k1 k2 q1 q2 v); congruence.
Qed.

Lemma identity_constraints_Ok db :
  identity_constraints db = Ok tt <->
  identity_uniques db = true /\ identity_checks db = true.
Proof. unfold identity_constraints. rewrite ensure_Ok. apply andb_true_iff. Qed.

Definition family_tokens (sid : UUID) (at_ : datetime) (reused : option UUID) (t : Table AuthRefreshToken) :=
  update_rows (live_token_of sid) (revoke_token at_) (match reused with Some k => alter (mark_reuse at_) k t | None => t end).

Lemma family_tokens_lookup sid at_ reused t k r' :
  family_tokens sid at_ reused t !! k = Some r' ->
  exists r, t !! k = Some r /\ token_moved r r' /\ (rt_session_id r = sid -> is_Some (rt_revoked_at r')).
Proof.
  unfold family_tokens. rewrite update_rows_lookup.
  set (t1 := match reused with Some _ => _ | None => _ end). intros (r1 & Hr1 & ->)%fmap_Some.
  assert (exists r, t !! k = Some r /\ token_moved r r1) as (r & Hr & Hm).
  { subst t1. destruct reused as [k0|]; [|by exists r1; split; [|reflexivity]]. destruct (decide (k0 = k)) as [->|Hne].
    - rewrite lookup_alter_eq in Hr1. apply fmap_Some in Hr1 as (r & Hr & ->). eauto with moved.
    - rewrite lookup_alter_ne in Hr1; [done|]. by exists r1; split; [|reflexivity]. }
  exists r. split; [done|]. pose proof (tm_terms _ _ Hm) as Ht. unfold live_token_of.
  case_bool_decide; cbn; [case_bool_decide as Hrev; cbn|].
  - split; [etrans; [exact Hm|auto with moved]|by eexists].
  - split; [done|]. intros _. by apply not_eq_None_Some.
  - split; [done|]. congruence.
Qed.

Lemma revoke_family_constraints sid s at_ reason reused db :
  id_sessions db !! sid = Some s -> identity_constraints db = Ok tt ->
  identity_constraints (revoke_family sid s at_ reason reused db) = Ok tt.
Proof.
  intros Hs. rewrite !identity_constraints_Ok. intros [Hu Hc]. split; [|exact Hc]. unfold identity_uniques in *. to_prop.
  split_andb; try done.
  - eapply unique_on_kept; [|eassumption]. intros k r'. cbn. intros [[<- <-]|[_ Hk]]%lookup_insert_Some; eauto.
  - eapply unique_on_kept; [|eassumption]. intros k r' (r & Hr & Hm & _)%family_tokens_lookup.
    exists r. split; [done|]. destruct Hm as [Ht _ _]. congruence.
Qed.

(** ** Rows that come from rows *)

Section From.
Context {R : Type} (J : UUID -> R -> Prop).
Implicit Types (t : Table R).

(** A row with the property had it before. *)
Definition rows_from t t' : Prop := forall k r', t' !! k = Some r' -> J k r' -> exists r, t !! k = Some r /\ J k r.

#[global] Instance rows_from_preorder : PreOrder rows_from.
Proof.
  split; [intros t k r Hk Hr; eauto|]. intros a b c H1 H2 k r' Hk Hr. destruct (H2 k r' Hk Hr) as (r & Hb & Jb). eauto.
Qed.

Lemma rows_from_insert t0 t k r' :
  rows_from t0 t -> (J k r' -> exists r, t !! k = Some r /\ J k r) -> rows_from t0 (<[k := r']> t).
Proof.
  intros H0 Hr. etrans; [exact H0|]. intros j q [[<- <-]|[_ Hj]]%lookup_insert_Some Hq; eauto.
Qed.

Lemma rows_from_update t0 t (p : R -> bool) f :
  rows_from t0 t -> (forall k r, J k (f r) -> J k r) -> rows_from t0 (update_rows p f t).
Proof.
  intros H0 Hf. etrans; [exact H0|]. intros k r'. rewrite update_rows_lookup. intros (r & Hr & ->)%fmap_Some Hj.
  exists r. split; [done|]. destruct (p r); eauto.
Qed.

Lemma rows_from_alter t0 t f k : rows_from t0 t -> (forall k r, J k (f r) -> J k r) -> rows_from t0 (alter f k t).
Proof.
  intros H0 Hf. etrans; [exact H0|]. intros j r'. destruct (decide (k = j)) as [<-|Hne].
  - rewrite lookup_alter_eq. intros (r & Hr & ->)%fmap_Some Hj. eauto.
  - rewrite lookup_alter_ne //. eauto.
Qed.
End From.

(** A proof of a second factor, and a refresh token that can be exchanged. *)
Definition satisfied (P : UUID -> Prop) (sid : UUID) (s : AuthSession) : Prop := P sid /\ is_Some (as_mfa_satisfied_at s).
Definition is_live (t : AuthRefreshToken) : Prop := rt_consumed_at t = None /\ rt_revoked_at t = None.
Definition live_of (L : UUID -> Prop) (k : UUID) (t : AuthRefreshToken) : Prop := L (rt_session_id t) /\ is_live t.

(** A message of a recovery that was just started: it holds, encrypted, the token its request is verified with. *)
Definition fresh_delivery (db : IdentityDb) (k : UUID) (o : AuthDeliveryOutbox) : Prop :=
  exists d user_id email_id hash expires_at now encrypted,
    k = vd_outbox_id d /\ token_digest VERIFICATION_PURPOSE (vd_token d) = Ok hash /\
    id_requests db !! vd_request_id d = Some (new_request d user_id email_id hash expires_at) /\
    DeliveryPayloadCipher_encrypt (vd_nonce d) (vd_token d) k user_id VERIFICATION_PURPOSE None (Some (vd_request_id d)) = Ok encrypted /\
    o = new_delivery d user_id encrypted now.
Definition outbox_grew (db db' : IdentityDb) : Prop :=
  (forall k o, id_outbox db !! k = Some o -> id_outbox db' !! k = Some o) /\
  forall k o, id_outbox db' !! k = Some o -> id_outbox db !! k = Some o \/ fresh_delivery db' k o.
Lemma outbox_same db db' : id_outbox db' = id_outbox db -> outbox_grew db db'.
Proof. intros E. split; intros k o; rewrite E; auto. Qed.
Lemma outbox_started d user_id email_id hash expires_at now encrypted f db :
  token_digest VERIFICATION_PURPOSE (vd_token d) = Ok hash ->
  DeliveryPayloadCipher_encrypt (vd_nonce d) (vd_token d) (vd_outbox_id d) user_id VERIFICATION_PURPOSE None
    (Some (vd_request_id d)) = Ok encrypted ->
  id_outbox db !! vd_outbox_id d = None ->
  outbox_grew db (with_outbox (<[vd_outbox_id d := new_delivery d user_id encrypted now]>)
                    (with_requests (<[vd_request_id d := new_request d user_id email_id hash expires_at]>) (with_requests f db))).
Proof.
  intros Hh He Hn. split; cbn.
  - intros k o Hk. rewrite lookup_insert_ne //. congruence.
  - intros k o [[<- <-]|[_ Hk]]%lookup_insert_Some; [right|by left].
    exists d, user_id, email_id, hash, expires_at, now, encrypted. split_and!; [done|done| |done|done]. cbn. by rewrite lookup_insert_eq.
Qed.

Record kept (P L : UUID -> Prop) (db db' : IdentityDb) : Prop := {
  kept_proofs : rows_from (satisfied P) (id_sessions db) (id_sessions db');
  kept_tokens : rows_from (live_of L) (id_tokens db) (id_tokens db');
  kept_outbox : outbox_grew db db'
}.

Lemma satisfied_update P k s f :
  as_mfa_satisfied_at (f s) = as_mfa_satisfied_at s -> satisfied P k (f s) -> satisfied P k s.
Proof. intros E [H1 H2]. split; [done|congruence]. Qed.
Lemma live_of_revoked L k at_ t : live_of L k (revoke_token at_ t) -> live_of L k t.
Proof. by intros [_ [_ ?]]. Qed.
Lemma live_of_reused L k at_ t : live_of L k (mark_reuse at_ t) -> live_of L k t.
Proof. done. Qed.

Lemma revoke_family_kept P L sid s at_ reason reused db :
  id_sessions db !! sid = Some s -> kept P L db (revoke_family sid s at_ reason reused db).
Proof.
  intros Hs. split; cbn.
  - apply rows_from_insert; [reflexivity|]. eauto.
  - apply rows_from_update; [|intros ??; apply live_of_revoked]. destruct reused; [|reflexivity].
    apply rows_from_alter; [reflexivity|done].
  - by apply outbox_same.
Qed.

Lemma revoke_others_kept P uid sid at_ reason t : rows_from (satisfied P) t (revoke_other_sessions uid sid at_ reason t).
Proof.
  intros k s'. unfold revoke_other_sessions. rewrite map_lookup_imap.
  destruct (t !! k) as [s|]; [|done]. cbn. intros [= <-] H. exists s. split; [done|]. by destruct (_ && _).
Qed.

Ltac kept_rows :=
  repeat first
    [ reflexivity
    | apply revoke_others_kept
    | apply rows_from_update; [|intros ??; first [apply live_of_revoked|done]]
    | apply rows_from_insert; [|first
        [ by intros [? []]
        | by intros [_ [? _]]
        | intros [Hx _]; match goal with HL : _ |- _ => solve [destruct (HL Hx)|destruct (HL _ Hx)] end
        | intros Hq; eexists; split; [eassumption|exact Hq] ] ] ].
Ltac outbox_frame := first [by apply outbox_same | apply outbox_started; [assumption|assumption|by to_prop]].
Ltac kept_body := solve [reflexivity | by apply revoke_family_kept | split; [cbn; kept_rows|cbn; kept_rows|outbox_frame]].

#[global] Instance kept_reflexive P L : Reflexive (kept P L).
Proof. intros db. split; [reflexivity..|by apply outbox_same]. Qed.

(** What each request keeps. *)
Lemma login_body_kept P L p now d email password db r s' :
  login_body p now d email password {| working := db; committed := db |} = (r, s') ->
  ~ L (ld_session_id d) -> kept P L db (committed s').
Proof.
  intros H HL. unfold login_body, user_for_login in H. run_body H; cbn [committed]; kept_body.
Qed.
Lemma refresh_body_kept P L now d hash db r s' :
  refresh_body now d hash {| working := db; committed := db |} = (r, s') ->  (forall sid, ~ L sid) -> kept P L db (committed s').
Proof.
  intros H HL. unfold refresh_body in H. run_body H; cbn [committed]; found; subst; kept_body.
Qed.
Lemma logout_body_kept P L now hash db r s' :
  logout_body now hash {| working := db; committed := db |} = (r, s') -> kept P L db (committed s').
Proof. intros H. unfold logout_body in H. run_body H; cbn [committed]; found; subst; kept_body. Qed.
Lemma logout_all_body_kept P L now hash db r s' :
  logout_all_body now hash {| working := db; committed := db |} = (r, s') -> kept P L db (committed s').
Proof. intros H. unfold logout_all_body in H. run_body H; cbn [committed]; found; subst; kept_body. Qed.
Lemma enroll_body_kept P L now d uid label db r s' :
  enroll_body now d uid label {| working := db; committed := db |} = (r, s') -> kept P L db (committed s').
Proof. intros H. unfold enroll_body in H. unfold_mfa H. run_body H; cbn [committed]; kept_body. Qed.
Lemma confirm_body_kept P L now codes uid sid code db r s' :
  confirm_body now codes uid sid code {| working := db; committed := db |} = (r, s') ->
  ~ P sid -> kept P L db (committed s').
Proof.
  intros H HL. unfold confirm_body in H. unfold_mfa H. run_body H; codes_frame; cbn [committed]; kept_body.
Qed.
Lemma verify_body_kept P L now uid sid code rcode db r s' :
  verify_body now uid sid code rcode {| working := db; committed := db |} = (r, s') ->
  ~ P sid -> kept P L db (committed s').
Proof.
  intros H HL. unfold verify_body in H. unfold_mfa H. run_body H; codes_frame; cbn [committed]; kept_body.
Qed.
Lemma regenerate_body_kept P L p now codes uid sid db r s' :
  regenerate_body p now codes uid sid {| working := db; committed := db |} = (r, s') -> kept P L db (committed s').
Proof. intros H. unfold regenerate_body in H. unfold_mfa H. run_body H; codes_frame; cbn [committed]; kept_body. Qed.
Lemma disable_body_kept P L p now uid sid db r s' :
  disable_body p now uid sid {| working := db; committed := db |} = (r, s') -> kept P L db (committed s').
Proof. intros H. unfold disable_body in H. unfold_mfa H. run_body H; codes_frame; cbn [committed]; kept_body. Qed.
Lemma start_body_kept P L p now d login db r s' :
  recovery_start_body p now d login {| working := db; committed := db |} = (r, s') -> kept P L db (committed s').
Proof. intros H. unfold recovery_start_body in H. unfold_mfa H. run_body H; cbn [committed]; kept_body. Qed.
Lemma recovery_verify_body_kept P L p now token provided id db r s' :
  recovery_verify_body p now token provided id {| working := db; committed := db |} = (r, s') ->
  kept P L db (committed s').
Proof. intros H. unfold recovery_verify_body in H. unfold_mfa H. run_body H; cbn [committed]; kept_body. Qed.
Lemma complete_body_kept P L now external hash provided id db r s' :
  recovery_complete_body now external hash provided id {| working := db; committed := db |} = (r, s') ->
  kept P L db (committed s').
Proof. intros H. unfold recovery_complete_body in H. unfold_mfa H. run_body H; cbn [committed]; kept_body. Qed.
Lemma revoke_session_kept P L now uid sid db : kept P L db (snd (revoke_session now uid sid db)).
Proof.
  unfold revoke_session. apply (uow_holds (kept P L db)). intros r s' H. run_body H; cbn [committed]; kept_body.
Qed.

Lemma request_kept (P L : UUID -> Prop) db e db' :
  request_run db e db' ->
  match e with OpensSession sid => ~ L sid | RotatesToken => forall sid, ~ L sid | ProvesFactor sid => ~ P sid | OtherEffect => True end ->
  kept P L db db'.
Proof.
  destruct 1; intros He; try apply revoke_session_kept; [reflexivity|apply (uow_holds (kept P L db)); intros r s' H..].
  - exact (login_body_kept _ _ _ _ _ _ _ _ _ _ H He).
  - exact (refresh_body_kept _ _ _ _ _ _ _ _ H He).
  - exact (logout_body_kept _ _ _ _ _ _ _ H).
  - exact (logout_all_body_kept _ _ _ _ _ _ _ H).
  - exact (enroll_body_kept _ _ _ _ _ _ _ _ _ H).
  - exact (confirm_body_kept _ _ _ _ _ _ _ _ _ _ H He).
  - exact (verify_body_kept _ _ _ _ _ _ _ _ _ _ H He).
  - exact (regenerate_body_kept _ _ _ _ _ _ _ _ _ _ H).
  - exact (disable_body_kept _ _ _ _ _ _ _ _ _ H).
  - exact (start_body_kept _ _ _ _ _ _ _ _ _ H).
  - exact (recovery_verify_body_kept _ _ _ _ _ _ _ _ _ _ H).
  - exact (complete_body_kept _ _ _ _ _ _ _ _ _ _ H).
Qed.

Lemma login_body_tokens p now d email password db r s' :
  login_body p now d email password {| working := db; committed := db |} = (r, s') ->
  (forall P L, kept P L db (committed s')) \/
  id_sessions db !! ld_session_id d = None /\ is_Some (id_sessions (committed s') !! ld_session_id d) /\
  exists t, rt_session_id t = ld_session_id d /\ id_tokens (committed s') = <[ld_refresh_id d := t]> (id_tokens db).
Proof.
  intros H. unfold login_body, user_for_login in H. run_body H; cbn [committed]; try (left; intros P L; kept_body).
  right. to_prop. split; [done|]. cbn. rewrite lookup_insert_eq. split; [by eexists|]. by eexists (new_token _ _ _ _ _).
Qed.

Lemma refresh_body_fails P L now d hash db e s' :
  refresh_body now d hash {| working := db; committed := db |} = (Raise e, s') -> kept P L db (committed s').
Proof. intros H. unfold refresh_body in H. run_body H; try discriminate; cbn [committed]; found; subst; kept_body. Qed.
End Frames.

#[export] Hint Resolve add_new_no_commit replace_codes_no_commit throw_no_commit : maestro.
