(* ===== verification/IdentityProps.v ===== *)
(** * The theorems on identities, sessions, second factors and recovery

    Over every history of requests: refresh tokens and their reuse, revoked sessions, the
    proofs of a second factor and its codes, recovered accounts, labels of factors; and the
    bound of the lockout on the guesses of a password. *)
From S2P Require Import Prelude PyString PyDateTime PyText Uow Identity IdentityMfa IdentityFrames.
#[local] Open Scope Z_scope.

Section Requests.
Context {HP : IdentityPrimitives}.

Notation Identity := (M (Session IdentityDb)).

(** ** Tokens that are exchanged *)

Definition exchanged (now : datetime) (d : RefreshDraws) (hash : string) (tid : UUID) (t : AuthRefreshToken) (sid : UUID)
    (s : AuthSession) (db : IdentityDb) : IdentityDb :=
  with_sessions (<[sid := set_last_seen now s]>)
    (with_tokens (<[rd_token_id d := new_token sid (Some tid) hash now (as_expires_at s)]>)
      (with_tokens (<[tid := consume_token now t]>) db)).

Lemma refresh_body_Ok now d hash db sid s mfa authorities s' :
  refresh_body now d hash {| working := db; committed := db |} = (Ok (sid, s, mfa, authorities), s') ->
  exists tid t uid u new_hash,
    refresh_principals hash db = Some ((tid, t), (sid, s), (uid, u)) /\
    rt_consumed_at t = None /\ rt_revoked_at t = None /\ as_revoked_at s = None /\
    after (rt_expires_at t) now = true /\ after (as_expires_at s) now = true /\ iu_status u = UsActive /\
    mfa = requires_mfa uid db && bool_decide (as_mfa_satisfied_at s = None) /\
    id_tokens db !! rd_token_id d = None /\ rd_token_id d <> tid /\
    committed s' = exchanged now d new_hash tid t sid s db /\ identity_constraints (committed s') = Ok tt.
Proof.
  intros H. unfold refresh_body in H. run_body H; try discriminate. subst.
  repeat match goal with H : _ || _ = false |- _ => apply orb_false_iff in H as [H ?] end. to_prop.
  match goal with H : context [id_tokens (with_tokens _ _) !! _ = None] |- _ => cbn in H; apply lookup_insert_None in H as [? ?] end.
  match goal with u : () |- _ => destruct u end.
  do 5 eexists. split_and!; try done; [by apply eq_None_not_Some..|by apply not_eq_sym].
Qed.

(** What a request that is answered returns. *)
Lemma refresh_Ok p now issued_at counted_at d raw db i db' :
  refresh p now issued_at counted_at d raw db = (Ok i, db') ->
  exists hash s mfa authorities s',
    token_digest "refresh_token" raw = Ok hash /\ naive now = false /\
    refresh_body now d hash {| working := db; committed := db |} = (Ok (is_session_id i, s, mfa, authorities), s') /\
    committed s' = db' /\ is_mfa_required i = mfa /\
    tk_scopes (is_access_token i) = (if mfa then ["auth:mfa"] else ["evaluation"]) /\
    tk_session_id (is_access_token i) = is_session_id i /\
    tk_subject (is_access_token i) = as_user_id s.
Proof.
  unfold refresh. case_match eqn:Eh; [|done]. apply res_bind_Ok in Eh as (hash & Hh & (u & Hn%reject_if_Ok & [= ->])%res_bind_Ok).
  destruct (with_uow _ _) as [[[[[sid s] mfa] au]|] db1] eqn:Eu; [|done]. intros [= H <-].
  apply with_uow_inv in Eu as (s' & Hb & Hc). apply res_bind_Ok in H as (tok & Ht & (u2 & _ & [= <-])%res_bind_Ok).
  unfold issue_access_token in Ht. apply res_bind_Ok in Ht as (_ & _ & Ht). case_match; [done|]. injection Ht as <-.
  by exists a, s, mfa, au, s'.
Qed.

(** A refresh of a session that is revoked is not answered. *)
Lemma dead_session_refresh p now issued_at counted_at d raw db i db' s :
  id_sessions db !! is_session_id i = Some s -> is_Some (as_revoked_at s) ->
  refresh p now issued_at counted_at d raw db <> (Ok i, db').
Proof.
  intros Hs [w Hw] (hash & s0 & mfa & au & s' & _ & _ & Hb & _)%refresh_Ok.
  apply refresh_body_Ok in Hb as (tid & t & uid & u & h & Hp & _ & _ & Hr & _).
  apply principals_Some in Hp as (_ & _ & _ & Hs0 & _). congruence.
Qed.

(** A token that was consumed is presented again: its session is revoked. *)
Lemma reuse_revokes now d hash db tid t sid s uid u :
  refresh_principals hash db = Some ((tid, t), (sid, s), (uid, u)) -> is_Some (rt_consumed_at t) ->
  identity_constraints db = Ok tt ->
  with_uow (refresh_body now d hash) db =
    (raise RefreshTokenReuseError "Session credentials are invalid.",
     revoke_family sid s now "refresh_token_reuse" (Some tid) db).
Proof.
  intros Hp Hc Hdb. pose proof (principals_Some _ _ _ _ _ _ _ _ Hp) as (_ & _ & _ & Hs & _).
  pose proof (revoke_family_constraints sid s now "refresh_token_reuse" (Some tid) db Hs Hdb) as Hk.
  unfold with_uow, refresh_body. rewrite bind_query. cbn [working]. rewrite Hp bool_decide_eq_true_2 //.
  rewrite M_bind_eq. cbn [mutate modify working committed]. rewrite M_bind_eq identity_commit_eq. cbn [working committed].
  by rewrite Hk.
Qed.
(** ** Histories of a session *)

Lemma run_session ops db sid s :
  id_sessions db !! sid = Some s ->
  exists s', id_sessions (identity_run ops db) !! sid = Some s' /\ session_moved s s'.
Proof. intros Hs. exact (im_sessions _ _ (run_moved ops db) sid s Hs). Qed.

Lemma login_body_Ok p now d email password db uid org exp mfa authorities s' :
  login_body p now d email password {| working := db; committed := db |} = (Ok (uid, org, exp, mfa, authorities), s') ->
  id_sessions db !! ld_session_id d = None /\ mfa = requires_mfa uid db /\
  exists u, id_users db !! uid = Some u /\ iu_email_normalized u = email /\ iu_status u = UsActive /\
    argon2_verify (iu_password_hash u) password = true /\ is_locked now u = false /\
    identity_constraints (committed s') = Ok tt.
Proof.
  intros H. unfold login_body, user_for_login in H. run_body H; try discriminate. found. subst.
  match goal with H : verify_password _ _ = _ |- _ => unfold verify_password in H end. case_match; [|simplify_eq; done].
  simplify_eq. cbn in *. to_prop. split_and!; [done|done|].
  match goal with u : () |- _ => destruct u end.
  match goal with H : id_users db !! _ = Some ?u |- _ => exists u end. split_and!; assumption.
Qed.

Lemma login_Ok p now issued_at d email password db i db' :
  login p now issued_at d email password db = (Ok i, db') ->
  exists normalized uid org exp authorities s',
    normalize_email email = Ok normalized /\
    login_body p now d normalized password {| working := db; committed := db |} =
      (Ok (uid, org, exp, is_mfa_required i, authorities), s') /\
    committed s' = db' /\ is_session_id i = ld_session_id d /\ is_refresh_token i = ld_refresh_token d /\
    tk_scopes (is_access_token i) = (if is_mfa_required i then ["auth:mfa"] else ["evaluation"]) /\
    tk_subject (is_access_token i) = uid.
Proof.
  unfold login. destruct (normalize_email email) as [normalized|] eqn:En; [|done]. case_match; [|done].
  destruct (with_uow _ _) as [[[[[[uid org] exp] mfa] au]|] db1] eqn:Eu; [|done]. intros [= H0 <-].
  apply with_uow_inv in Eu as (s' & Hb & Hc). apply res_bind_Ok in H0 as (tok & Ht & [= <-]).
  unfold issue_access_token in Ht. apply res_bind_Ok in Ht as (_ & _ & Ht). case_match; [done|]. injection Ht as <-.
  by exists normalized, uid, org, exp, au, s'.
Qed.

(** A session that was revoked is dead: whatever requests follow (logins, refreshes, second factors, recoveries, in any
    number and order), neither a refresh nor a login is answered with a token of that session. *)
Theorem revoked_session_is_dead ops db sid s p now issued_at counted_at d raw ld email password i db' :
  id_sessions db !! sid = Some s -> is_Some (as_revoked_at s) ->
  refresh p now issued_at counted_at d raw (identity_run ops db) = (Ok i, db') \/
  login p now issued_at ld email password (identity_run ops db) = (Ok i, db') ->
  is_session_id i <> sid.
Proof.
  intros Hs Hr Hi Heq. destruct (run_session ops db sid s Hs) as (s' & Hs' & Hm). apply (sm_revoked _ _ Hm) in Hr.
  rewrite -Heq in Hs'. destruct Hi as [Hi|Hi]; [exact (dead_session_refresh _ _ _ _ _ _ _ _ _ _ Hs' Hr Hi)|].
  apply login_Ok in Hi as (e & uid & org & ex & au & st & _ & Hb & _ & Hsid & _).
  apply login_body_Ok in Hb as [Hn _]. congruence.
Qed.

Lemma refresh_principals_unique hash db tid t s u :
  identity_constraints db = Ok tt -> id_tokens db !! tid = Some t -> rt_token_hash t = hash ->
  id_sessions db !! rt_session_id t = Some s -> id_users db !! as_user_id s = Some u ->
  refresh_principals hash db = Some ((tid, t), (rt_session_id t, s), (as_user_id s, u)).
Proof.
  intros [Hu _]%identity_constraints_Ok Ht Hh Hs Hus. unfold refresh_principals.
  rewrite (find_row_unique _ _ tid t); [done|by apply bool_decide_eq_true| |].
  - intros k r Hk Hr%bool_decide_eq_true. unfold identity_uniques in Hu. to_prop.
    match goal with H : unique_on (fun t => Some (rt_token_hash t)) _ = true |- _ => rewrite unique_on_true in H;
      apply (H k tid r t hash); congruence end.
  - cbn. rewrite Hs. cbn. by rewrite Hus.
Qed.

(** C16. A refresh token is exchanged at most once: after the exchange, whatever requests follow, presenting it again,
    at a timezone-aware instant, is answered by the error of a reuse, and revokes its session with every token of it. *)
Theorem refresh_token_is_exchanged_once p now issued_at counted_at d raw db i db1 ops p2 now2 issued2 counted2 d2 :
  refresh p now issued_at counted_at d raw db = (Ok i, db1) -> naive now2 = false ->
  let (r, db3) := refresh p2 now2 issued2 counted2 d2 raw (identity_run ops db1) in
  r = raise RefreshTokenReuseError "Session credentials are invalid." /\
  (exists s, id_sessions db3 !! is_session_id i = Some s /\ is_Some (as_revoked_at s)) /\
  forall k t, id_tokens db3 !! k = Some t -> rt_session_id t = is_session_id i -> is_Some (rt_revoked_at t).
Proof.
  intros (hash & s & mfa & au & st & Hh & _ & Hb & <- & _)%refresh_Ok Hnaive.
  apply refresh_body_Ok in Hb as (tid & t & uid & u & h & Hp & _ & _ & _ & _ & _ & _ & _ & _ & Hne & Hc & Hok).
  apply principals_Some in Hp as (Ht & Hth & Hsid & Hs & <- & Hu). rewrite Hc. rewrite Hc in Hok.
  set (db1 := exchanged _ _ _ _ _ _ _ _) in *. pose proof (run_moved ops db1) as [Mu Ms Mt _ _ _].
  destruct (Mt tid (consume_token now t)) as (t2 & Ht2 & Hm2).
  { cbn. rewrite lookup_insert_ne // lookup_insert_eq //. }
  destruct (Ms (is_session_id i) (set_last_seen now s)) as (s2 & Hs2 & Hms); [by cbn; rewrite lookup_insert_eq|].
  destruct (Mu (as_user_id s) u) as (u2 & Hu2 & _); [exact Hu|].
  pose proof (tm_terms _ _ Hm2) as Et. cbn in Et. injection Et as Et1 Et2 Et3.
  pose proof (sm_terms _ _ Hms) as Es. cbn in Es. injection Es as Es1 Es2 Es3 Es4 Es5.
  assert (rt_session_id t2 = is_session_id i) as Hid by congruence.
  pose proof (run_constraints ops db1 Hok) as Hok2.
  assert (refresh_principals hash (identity_run ops db1) = Some ((tid, t2), (is_session_id i, s2), (as_user_id s2, u2))) as Hp.
  { rewrite -Hid. apply refresh_principals_unique; try done; congruence. }
  unfold refresh. rewrite Hh. unfold session_now. rewrite Hnaive. cbn.
  rewrite (reuse_revokes now2 d2 hash _ tid t2 _ _ _ _ Hp); [apply (tm_consumed _ _ Hm2); by eexists|done|].
  split; [done|]. split.
  - eexists. cbn. rewrite lookup_insert_eq. split; [done|]. by eexists.
  - intros k r Hk Hr.
    change (family_tokens (is_session_id i) now2 (Some tid) (id_tokens (identity_run ops db1)) !! k = Some r) in Hk.
    apply family_tokens_lookup in Hk as (r0 & _ & Hm & Hrev). apply Hrev.
    pose proof (tm_terms _ _ Hm). congruence.
Qed.
(** ** One live token a session *)

(** A token that can be exchanged belongs to a session, and no session has two. *)
Definition token_chains (db : IdentityDb) : Prop :=
  (forall k t, id_tokens db !! k = Some t -> is_live t -> is_Some (id_sessions db !! rt_session_id t)) /\
  forall k1 k2 t1 t2, id_tokens db !! k1 = Some t1 -> id_tokens db !! k2 = Some t2 ->
    is_live t1 -> is_live t2 -> rt_session_id t1 = rt_session_id t2 -> k1 = k2.

Lemma session_stays db e db' sid :
  request_run db e db' -> is_Some (id_sessions db !! sid) -> is_Some (id_sessions db' !! sid).
Proof. intros Hr [s Hs]. destruct (im_sessions _ _ (request_moves _ _ _ Hr) sid s Hs) as (s' & -> & _). by eexists. Qed.

Lemma kept_chains db e db' :
  request_run db e db' -> (forall sid, kept (fun _ => False) (eq sid) db db') -> token_chains db -> token_chains db'.
Proof.
  intros Hr Hk [Hfk Hone]. split.
  - intros k t Ht Hl. destruct (kept_tokens _ _ _ _ (Hk (rt_session_id t)) k t Ht) as (t0 & Ht0 & -> & Hl0); [done|].
    exact (session_stays _ _ _ _ Hr (Hfk _ _ Ht0 Hl0)).
  - intros k1 k2 t1 t2 H1 H2 L1 L2 E.
    destruct (kept_tokens _ _ _ _ (Hk (rt_session_id t1)) k1 t1 H1) as (q1 & Hq1 & E1 & L1'); [done|].
    destruct (kept_tokens _ _ _ _ (Hk (rt_session_id t1)) k2 t2 H2) as (q2 & Hq2 & E2 & L2'); [done|].
    apply (Hone k1 k2 q1 q2); try done. congruence.
Qed.

Lemma chains_login db db' sid rid t :
  token_chains db -> id_sessions db !! sid = None -> is_Some (id_sessions db' !! sid) ->
  (forall x, is_Some (id_sessions db !! x) -> is_Some (id_sessions db' !! x)) ->
  rt_session_id t = sid -> id_tokens db' = <[rid := t]> (id_tokens db) -> token_chains db'.
Proof.
  intros [Hfk Hone] Hn Hs Hst Ht Etok. unfold token_chains. rewrite Etok.
  assert (forall k q, id_tokens db !! k = Some q -> is_live q -> rt_session_id q <> sid) as Hno.
  { intros k q Hq Hl <-. apply (Hfk k q Hq) in Hl as [? ?]. congruence. }
  split; [intros k q Hq Hl; rewrite lookup_insert_Some in Hq|intros k1 k2 q1 q2 H1 H2 L1 L2 E;
    rewrite lookup_insert_Some in H1; rewrite lookup_insert_Some in H2].
  - destruct Hq as [[_ <-]|[_ Hq]]; [congruence|eauto].
  - destruct H1 as [[<- <-]|[_ H1]], H2 as [[<- <-]|[_ H2]]; [done|..].
    + destruct (Hno _ _ H2 L2). congruence.
    + destruct (Hno _ _ H1 L1). congruence.
    + eauto.
Qed.

Lemma chains_exchanged now d hash tid t sid s db :
  token_chains db -> id_tokens db !! tid = Some t -> is_live t -> rt_session_id t = sid ->
  token_chains (exchanged now d hash tid t sid s db).
Proof.
  intros [Hfk Hone] Ht Hl Hsid. pose proof (Hfk tid t Ht Hl) as Hs. rewrite Hsid in Hs.
  assert (forall k q, id_tokens (exchanged now d hash tid t sid s db) !! k = Some q -> is_live q ->
    k = rd_token_id d /\ rt_session_id q = sid \/ k <> rd_token_id d /\ k <> tid /\ id_tokens db !! k = Some q) as Hcase.
  { intros k q. cbn.
    intros [[<- <-]|[Hk [[<- <-]|[Hk' Hq]]%lookup_insert_Some]]%lookup_insert_Some Hq'; [by left| |right; split_and!; congruence].
    by destruct Hq'. }
  assert (forall k q, id_tokens db !! k = Some q -> is_live q -> k <> tid -> rt_session_id q <> sid) as Hno.
  { intros k q Hq Hlq Hk E. apply Hk. apply (Hone k tid q t); try done. congruence. }
  split.
  - intros k q Hq Hlq. cbn [exchanged id_sessions with_sessions with_tokens]. rewrite lookup_insert_is_Some.
    destruct (Hcase k q Hq Hlq) as [[_ ->]|(_ & _ & Hq')]; [by left|]. destruct (decide (sid = rt_session_id q)) as [->|]; [by left|].
    right. eauto.
  - intros k1 k2 q1 q2 H1 H2 L1 L2 E.
    destruct (Hcase _ _ H1 L1) as [[-> E1]|(_ & N1 & H1')], (Hcase _ _ H2 L2) as [[-> E2]|(_ & N2 & H2')]; [done|..|eauto].
    + destruct (Hno _ _ H2' L2 N2). congruence.
    + destruct (Hno _ _ H1' L1 N1). congruence.
Qed.

Lemma request_chains db e db' : request_run db e db' -> token_chains db -> token_chains db'.
Proof.
  intros Hr Hc. pose proof (request_moves _ _ _ Hr) as Hm. pose proof (fun x => session_stays _ _ _ x Hr) as Hst.
  assert (e = OtherEffect \/ (exists sid, e = ProvesFactor sid) -> token_chains db') as Hother.
  { intros He. apply (kept_chains _ _ _ Hr); [|done]. intros sid. apply (request_kept _ _ _ _ _ Hr).
    destruct He as [->|[? ->]]; [done|]. by intros []. }
  inversion Hr; subst; try (by apply Hother; eauto); clear Hother.
  - done.
  - unfold with_uow in *. destruct (login_body _ _ _ _ _ _) as [r s'] eqn:E. cbn [snd] in *.
    apply login_body_tokens in E as [E|(Hn & Hs & t & Ht & Et)]; [|exact (chains_login _ _ _ _ _ Hc Hn Hs Hst Ht Et)].
    apply (kept_chains _ _ _ Hr); [|done]. intros sid. apply E.
  - unfold with_uow in *. destruct (refresh_body _ _ _ _) as [[[[[sid s] mfa] au]|x] s'] eqn:E; cbn [snd] in *.
    + apply refresh_body_Ok in E as (tid & t & uid & u & h & Hp & Hc1 & Hc2 & _ & _ & _ & _ & _ & _ & _ & -> & _).
      apply principals_Some in Hp as (Ht & _ & Hsid & _). by apply chains_exchanged.
    + apply (kept_chains _ _ _ Hr); [|done]. intros sid. exact (refresh_body_fails _ _ _ _ _ _ _ _ E).
Qed.

(** In every history, a session has at most one refresh token that can still be exchanged, and such a token belongs to a
    session that exists: a rotation consumes a token with the same commit that adds its successor. *)
Theorem one_live_token_a_session ops db : token_chains db -> token_chains (identity_run ops db).
Proof.
  revert db. induction ops as [|o ops IH]; intros db Hdb; [done|]. cbn. apply IH. exact (request_chains _ _ _ (exec_runs o db) Hdb).
Qed.

(** ** Proofs of a second factor *)

Definition is_satisfied (sid : UUID) (db : IdentityDb) : Prop :=
  exists s, id_sessions db !! sid = Some s /\ is_Some (as_mfa_satisfied_at s).
(** The request is a confirmation or a verification of a factor for that session, and it is answered. *)
Definition proves (sid : UUID) (o : identity_op) (db : IdentityDb) : Prop :=
  match o with
  | IdConfirm now codes uid k code => k = sid /\ fst (confirm_enrollment now codes uid k code db) = Ok tt
  | IdVerify now uid k code rcode => k = sid /\ fst (mfa_verify now uid k code rcode db) = Ok tt
  | _ => False
  end.
Fixpoint proved_in (sid : UUID) (ops : list identity_op) (db : IdentityDb) : Prop :=
  match ops with [] => False | o :: ops => proves sid o db \/ proved_in sid ops (identity_exec o db) end.

Lemma request_fails now (body : Identity unit) db :
  fails_clean body -> fst (mfa_request now body db) = Ok tt \/ snd (mfa_request now body db) = db.
Proof.
  intros Hb. unfold mfa_request. destruct (mfa_now now); [|by right].
  destruct (with_uow body db) as [[[]|e] db'] eqn:E; [by left|]. right. by apply with_uow_fails in E.
Qed.

Lemma confirm_fails_clean now codes uid sid code : fails_clean (confirm_body now codes uid sid code).
Proof. unfold confirm_body, factor_for_update, mark_session_satisfied, session_of_user, identity_commit. commits_last. Qed.
Lemma verify_fails_clean now uid sid code rcode : fails_clean (verify_body now uid sid code rcode).
Proof.
  unfold verify_body, factor_for_update, mark_session_satisfied, session_of_user, unused_recovery_code, identity_commit.
  commits_last.
Qed.

Lemma exec_proofs sid o db : is_satisfied sid (identity_exec o db) -> is_satisfied sid db \/ proves sid o db.
Proof.
  intros (s & Hs & Hp).
  assert (effect_of o <> ProvesFactor sid -> is_satisfied sid db \/ proves sid o db) as Hk.
  { intros He. left. pose proof (exec_runs o db) as Hr.
    assert (kept (eq sid) (fun _ => False) db (identity_exec o db)) as [Hf _ _].
    { apply (request_kept _ _ _ _ _ Hr). destruct (effect_of o); try done; [by intros|]. intros ->. done. }
    destruct (Hf sid s Hs) as (s0 & Hs0 & _ & ?); [done|]. by exists s0. }
  destruct o; try (by apply Hk); destruct (decide (session_id = sid)) as [->|Hne].
  - destruct (request_fails now _ db (confirm_fails_clean now codes user_id sid code)) as [H|H]; [by right|].
    left. exists s. cbn in Hs. unfold confirm_enrollment in Hs. by rewrite H in Hs.
  - apply Hk. cbn. congruence.
  - destruct (request_fails now _ db (verify_fails_clean now user_id sid code recovery_code)) as [H|H]; [by right|].
    left. exists s. cbn in Hs. unfold mfa_verify in Hs. by rewrite H in Hs.
  - apply Hk. cbn. congruence.
Qed.

Lemma run_proofs sid ops db : is_satisfied sid (identity_run ops db) -> is_satisfied sid db \/ proved_in sid ops db.
Proof.
  revert db. induction ops as [|o ops IH]; intros db; [by left|]. cbn. intros [H|H]%IH; [|by right; right].
  apply exec_proofs in H as [H|H]; [by left|by right; left].
Qed.

(** C17. A token of full scope is proof of the second factor where one is required: when a login or a refresh, at the end of
    any history, answers a token of the scope [evaluation] to an identity that must use a second factor, the history holds an
    answered confirmation or verification of a factor for that very session, provided the session had none recorded as verified before it. *)
Theorem full_scope_needs_a_second_factor ops db p now issued_at counted_at d raw ld email password i db' :
  ~ is_satisfied (is_session_id i) db ->
  refresh p now issued_at counted_at d raw (identity_run ops db) = (Ok i, db') \/
  login p now issued_at ld email password (identity_run ops db) = (Ok i, db') ->
  requires_mfa (tk_subject (is_access_token i)) (identity_run ops db) = true ->
  tk_scopes (is_access_token i) = ["evaluation"] ->
  proved_in (is_session_id i) ops db.
Proof.
  intros Hn Hi Hr Hsc. destruct Hi as [Hi|Hi].
  - apply refresh_Ok in Hi as (hash & s & mfa & au & s' & _ & _ & Hb & _ & _ & Hsc' & _ & Hsub).
    destruct mfa; [congruence|].
    apply refresh_body_Ok in Hb as (tid & t & uid & u & h & Hp & _ & _ & _ & _ & _ & _ & Hmfa & _).
    apply principals_Some in Hp as (_ & _ & _ & Hs & <- & _). rewrite -Hsub Hr in Hmfa. cbn in Hmfa.
    symmetry in Hmfa. apply bool_decide_eq_false, not_eq_None_Some in Hmfa.
    destruct (run_proofs (is_session_id i) ops db) as [H|H]; [by exists s|by destruct (Hn H)|done].
  - apply login_Ok in Hi as (e & uid & org & ex & au & st & _ & Hb & _ & _ & _ & Hsc' & Hsub).
    apply login_body_Ok in Hb as (_ & Hmfa & _). rewrite -Hsub Hr in Hmfa. rewrite Hmfa in Hsc'. congruence.
Qed.

(** ** Codes that are accepted once *)

Lemma totp_scan_match secret code used steps v step :
  totp_scan secret code used steps = Ok v -> tv_accepted v = true -> tv_matched_step v = Some step ->
  step ∈ steps /\ totp_code_for_step secret step = Ok code.
Proof.
  induction steps as [|n steps IH]; cbn; [by intros [= <-]|].
  assert (totp_scan secret code used steps = Ok v -> tv_accepted v = true -> tv_matched_step v = Some step ->
          step ∈ n :: steps /\ totp_code_for_step secret step = Ok code) as IH'.
  { intros H1 H2 H3. destruct (IH H1 H2 H3). split; [by right|done]. }
  destruct (n <? 0); [done|]. intros (c & Hc & Hv)%res_bind_Ok. case_bool_decide as E; [|by apply IH'].
  destruct (match used with Some _ => _ | None => _ end); injection Hv as <-; [done|]. intros _ [= ->]. subst. split; [left|done].
Qed.

(** The step a code of the window is accepted for. *)
Lemma verify_totp_factor_match id f code now f' :
  verify_totp_factor id f code now = Ok f' ->
  exists secret step, decrypt_factor id f = Ok secret /\ totp_code_for_step secret step = Ok code /\
    Z.abs (step - (instant now - instant EPOCH) / seconds TOTP_PERIOD_SECONDS) <= 1 /\ mf_last_used_step f' = Some step.
Proof.
  unfold verify_totp_factor. intros (secret & Hs & (v & Hv & H)%res_bind_Ok)%res_bind_Ok.
  destruct (tv_accepted v) eqn:Ha; [|done]. destruct (tv_matched_step v) as [step|] eqn:Hm; [|done]. injection H as <-.
  exists secret, step. split; [done|]. unfold verify_totp in Hv. apply res_bind_Ok in Hv as (_ & _ & Hv).
  destruct (_ || _); [injection Hv as <-; done|]. apply res_bind_Ok in Hv as (_ & _ & Hv).
  destruct (totp_scan_match _ _ _ _ _ _ Hv Ha Hm) as [Hin Hcode]. split; [done|]. split; [|done].
  apply list_elem_of_In, in_map_iff in Hin as (n & <- & Hn%in_seq). cbn in Hn. lia.
Qed.

Lemma verify_body_Ok now uid sid code rcode db s' :
  verify_body now uid sid (Some code) rcode {| working := db; committed := db |} = (Ok tt, s') ->
  exists fid f f', id_factors db !! fid = Some f /\ factor_in FaActive uid f = true /\
    verify_totp_factor fid f code now = Ok f' /\ id_factors (committed s') !! fid = Some f'.
Proof.
  intros H. unfold verify_body in H. unfold_mfa H. run_body H; try discriminate. found. simplify_eq. cbn [committed].
  do 3 eexists. split_and!; try eassumption. cbn. by rewrite lookup_insert_eq.
Qed.

(** A code of a second factor is accepted once: a verification that is answered found the code among those of the active
    factor of the identity for a step at most one period away from the clock, and after it, in every history, that factor
    accepts a code for later steps only. *)
Theorem code_is_accepted_once now uid sid code rcode db db1 :
  mfa_verify now uid sid (Some code) rcode db = (Ok tt, db1) ->
  exists fid f secret step,
    id_factors db !! fid = Some f /\ mf_user_id f = uid /\ mf_status f = FaActive /\
    decrypt_factor fid f = Ok secret /\ totp_code_for_step secret step = Ok code /\
    Z.abs (step - (instant now - instant EPOCH) / seconds TOTP_PERIOD_SECONDS) <= 1 /\
    forall ops now2 code2 f2 f3,
      id_factors (identity_run ops db1) !! fid = Some f2 -> verify_totp_factor fid f2 code2 now2 = Ok f3 ->
      exists step2, mf_last_used_step f3 = Some step2 /\ step < step2.
Proof.
  unfold mfa_verify, mfa_request. destruct (mfa_now now); [|done].
  intros (s' & (fid & f & f' & Hf & [Hu Hst]%factor_in_true & Hv & Hf')%verify_body_Ok & <-)%with_uow_inv.
  destruct (verify_totp_factor_match _ _ _ _ _ Hv) as (secret & step & Hs & Hc & Hw & Hstep).
  exists fid, f, secret, step. split_and!; try done. intros ops now2 code2 f2 f3 Hf2 Hv2.
  destruct (im_factors _ _ (run_moved ops (committed s')) fid f' Hf') as (f2' & Hf2' & Hm).
  assert (f2' = f2) as -> by congruence. pose proof (fm_step _ _ Hm) as Hle. rewrite Hstep in Hle. cbn in Hle.
  destruct (verify_totp_factor_Ok _ _ _ _ _ Hv2) as (step2 & -> & Hlt). exists step2. split; [done|].
  destruct (mf_last_used_step f2); [lia|done].
Qed.

(** ** Labels of factors *)

Lemma label_conflict now db fid f' id g :
  id_factors db !! fid = Some f' -> mf_user_id g = mf_user_id f' -> mf_label g = mf_label f' ->
  let db1 := with_factors (update_rows (factor_in FaPending (mf_user_id g)) (disable_factor now)) db in
  id_factors db1 !! id = None -> identity_constraints (with_factors (<[id := g]>) db1) <> Ok tt.
Proof.
  intros Hf Eu El db1 Hnew [Hu _]%identity_constraints_Ok. unfold identity_uniques in Hu. to_prop.
  match goal with H : unique_on (fun f => Some (mf_user_id f, mf_label f)) _ = true |- _ =>
    rewrite unique_on_true in H; rename H into Hq end.
  assert (fid <> id) as Hne.
  { intros ->. cbn in Hnew. rewrite update_rows_lookup Hf in Hnew. done. }
  apply Hne. set (f1 := if factor_in FaPending (mf_user_id g) f' then disable_factor now f' else f').
  apply (Hq _ _ f1 g (mf_user_id g, mf_label g)); cbn; [..|done].
  - rewrite lookup_insert_ne; [congruence|]. by rewrite update_rows_lookup Hf.
  - by rewrite lookup_insert_eq.
  - subst f1. destruct (factor_in _ _ _); cbn; congruence.
Qed.

(** A label that was once enrolled can never be enrolled again by that identity: in every later history the enrollment is
    not answered, whatever became of the factor (a pending one that is being replaced, a disabled one, one that a recovery
    removed), since the unique constraint on the label counts the disabled factors. *)
Theorem enrolled_label_blocks_enrollment ops db fid f p now d v :
  id_factors db !! fid = Some f ->
  fst (enroll p now d (mf_user_id f) (mf_label f) (identity_run ops db)) <> Ok v.
Proof.
  intros Hf. destruct (im_factors _ _ (run_moved ops db) fid f Hf) as (f' & Hf' & Hm).
  set (db2 := identity_run ops db) in *. clearbody db2. pose proof (fm_terms _ _ Hm) as E. injection E as Eu El _ _.
  unfold enroll. destruct (mfa_request _ _ _) as [[name|e] db3] eqn:Hr; [|done]. exfalso.
  unfold mfa_request in Hr. destruct (mfa_now now); [|done]. apply with_uow_inv in Hr as (s' & H & _).
  unfold enroll_body in H. unfold_mfa H. run_body H; try discriminate.
  match goal with u : () |- _ => destruct u end.
  to_prop.
  match goal with Hn : id_factors (with_factors _ _) !! _ = None, Hc : identity_constraints (with_factors <[_ := ?g]> _) = _ |- _ =>
    exact (label_conflict _ _ _ _ _ g Hf' (eq_sym Eu) (eq_sym El) Hn Hc) end.
Qed.

(** ** Recovered accounts *)

Definition recovered (now : datetime) (id : UUID) (hash : string) (r : AuthAccountRecoveryRequest) (u : IdentityUser)
    (db : IdentityDb) : IdentityDb :=
  with_requests
    (<[id := set_request RqCompleted None (rq_attempt_count r) (rq_expires_at r) (rq_verified_at r) (Some now)
               (rq_revoked_at r) r]>)
    (with_users (<[rq_user_id r := set_failures 0 None (set_credentials hash (Some now) u)]>)
      (revoke_account (rq_user_id r) now db)).

Lemma recovery_complete_body_Ok now external hash provided id db receipt s' :
  recovery_complete_body now external hash provided id {| working := db; committed := db |} = (Ok receipt, s') ->
  exists r u, id_requests db !! id = Some r /\ rq_state r = RqVerified /\ rq_completion_token_hash r = Some provided /\
    after (rq_expires_at r) now = true /\ id_users db !! rq_user_id r = Some u /\ iu_status u = UsActive /\
    committed s' = recovered now id hash r u db.
Proof.
  intros H. unfold recovery_complete_body in H. unfold_mfa H. run_body H; try discriminate. simplify_eq.
  repeat match goal with H : _ || _ = false |- _ => apply orb_false_iff in H as [H ?] end. to_prop.
  do 2 eexists. split_and!; first [eassumption|reflexivity].
Qed.

Lemma recovery_complete_Ok now external salt id raw password db receipt db1 :
  recovery_complete now external salt id raw password db = (Ok receipt, db1) ->
  exists provided hash r u, token_digest COMPLETION_PURPOSE raw = Ok provided /\ hash_password salt password = Ok hash /\
    id_requests db !! id = Some r /\ rq_state r = RqVerified /\ rq_completion_token_hash r = Some provided /\
    after (rq_expires_at r) now = true /\ id_users db !! rq_user_id r = Some u /\ iu_status u = UsActive /\
    db1 = recovered now id hash r u db.
Proof.
  unfold recovery_complete. destruct (recovery_now now); [|done].
  destruct (denied_on_error _ _) as [[provided hash]|] eqn:Ed; [|done]. destruct external as [ext|]; [|done].
  intros (s' & (r & u & H)%recovery_complete_body_Ok & <-)%with_uow_inv. exists provided, hash, r, u.
  assert ((provided ← token_digest COMPLETION_PURPOSE raw; new_hash ← hash_password salt password; mret (provided, new_hash)) =
          Ok (provided, hash)) as Hm.
  { unfold denied_on_error in Ed. repeat case_match; done. }
  apply res_bind_Ok in Hm as (x & Hx & (y & Hy & [= <- <-])%res_bind_Ok). split_and!; try done; apply H.
Qed.

Lemma completed_is_final s : rtc request_step RqCompleted s -> s = RqCompleted.
Proof.
  intros H. remember RqCompleted as c eqn:E. induction H as [|a b c Hs _ IH]; [done|]. subst.
  inversion Hs; subst; [by apply IH|]. by destruct H as [? | ?].
Qed.

(** A recovered account starts over: when a recovery is completed, its request was verified and still valid, the new
    password is the account's, with no failure and no lock; and in every later history no session that the account had is
    answered a token, no factor that it had is active, and the request cannot be completed again. *)
Theorem recovered_account_starts_over now external salt id raw password db receipt db1 :
  recovery_complete now external salt id raw password db = (Ok receipt, db1) ->
  exists r hash u, id_requests db !! id = Some r /\ rq_state r = RqVerified /\ after (rq_expires_at r) now = true /\
    hash_password salt password = Ok hash /\
    id_users db1 !! rq_user_id r = Some u /\ iu_password_hash u = hash /\ iu_failed_login_count u = 0 /\ iu_locked_until u = None /\
    forall ops,
      (forall sid s p now2 issued_at counted_at d raw2 i db2,
         id_sessions db !! sid = Some s -> as_user_id s = rq_user_id r ->
         refresh p now2 issued_at counted_at d raw2 (identity_run ops db1) = (Ok i, db2) -> is_session_id i <> sid) /\
      (forall fid f, id_factors db !! fid = Some f -> mf_user_id f = rq_user_id r ->
         exists f', id_factors (identity_run ops db1) !! fid = Some f' /\ mf_status f' = FaDisabled) /\
      (forall now2 external2 salt2 raw2 password2 v,
         fst (recovery_complete now2 external2 salt2 id raw2 password2 (identity_run ops db1)) <> Ok v).
Proof.
  intros (provided & hash & r & u & _ & Hh & Hr & Hst & _ & Hexp & Hu & _ & ->)%recovery_complete_Ok.
  set (db1 := recovered _ _ _ _ _ _). exists r, hash, (set_failures 0 None (set_credentials hash (Some now) u)).
  split_and!; try done; [by cbn; rewrite lookup_insert_eq|]. intros ops. pose proof (run_moved ops db1) as [_ Ms _ Mf Mr _].
  split_and!.
  - intros sid s p now2 issued_at counted_at d raw2 i db2 Hs Hown Hi Hsid. subst sid.
    destruct (Ms (is_session_id i) (if live_session_of (rq_user_id r) s
                                    then set_session_revoked now "account_recovery_completed" s else s)) as (s2 & Hs2 & Hm).
    { cbn. by rewrite update_rows_lookup Hs. }
    apply (dead_session_refresh _ _ _ _ _ _ _ _ _ s2) in Hi; [done|done|].
    apply (sm_revoked _ _ Hm). unfold live_session_of. rewrite bool_decide_eq_true_2 //. cbn.
    case_bool_decide; [by eexists|by apply not_eq_None_Some].
  - intros fid f Hf Hown. destruct (Mf fid (if open_factor_of (rq_user_id r) f then disable_factor now f else f)) as (f' & Hf' & Hm).
    { cbn. by rewrite update_rows_lookup Hf. }
    exists f'. split; [done|]. apply (fm_disabled _ _ Hm). unfold open_factor_of, factor_in. rewrite Hown bool_decide_eq_true_2 //.
    cbn. destruct (mf_status f) eqn:E; done.
  - intros now2 external2 salt2 raw2 password2 v. destruct (recovery_complete _ _ _ _ _ _ _) as [[rc|e] db3] eqn:E; [|done].
    intros _. apply recovery_complete_Ok in E as (pr & h2 & r2 & u2 & _ & _ & Hr2 & Hst2 & _).
    destruct (Mr id (set_request RqCompleted None (rq_attempt_count r) (rq_expires_at r) (rq_verified_at r) (Some now)
                       (rq_revoked_at r) r)) as (r2' & Hr2' & Hm).
    { cbn. by rewrite lookup_insert_eq. }
    assert (r2' = r2) as -> by congruence. pose proof (completed_is_final _ (rm_state _ _ Hm)). congruence.
Qed.

(** ** Lockout *)

Lemma set_time_spec m t :
  dt_valid t -> 0 <= m < day_micros ->
  dt_valid (set_time m t) /\ instant (set_time m t) = instant t - time_of_day t + m /\ dt_offset (set_time m t) = dt_offset t.
Proof.
  unfold dt_valid, instant, local_micros, time_of_day, day_micros. cbn. intros (?&?&?&_) Hm.
  split_and!; try done; Z.to_euclidean_division_equations; lia.
Qed.

Lemma dt_plus_spec t delta t' :
  dt_valid t -> 0 <= delta -> dt_plus t delta = Ok t' -> instant t' = instant t + delta.
Proof.
  intros Hv Hd. unfold dt_plus. set (total := time_of_day t + delta).
  assert (0 <= time_of_day t) as H0.
  { destruct Hv as (_ & _ & _ & ? & ? & ? & ?). unfold time_of_day. lia. }
  pose proof (Z.mod_pos_bound total day_micros eq_refl) as Hm. destruct (set_time_spec _ _ Hv Hm) as (Hv' & Hi & _).
  intros H. destruct (add_days_spec _ _ _ Hv' H) as (-> & _ & _). rewrite Hi.
  pose proof (Z.div_mod total day_micros ltac:(done)). assert (0 <= total / day_micros) by (apply Z.div_pos; done || lia).
  rewrite Z2Nat.id //. subst total. nia.
Qed.

Lemma dt_plus_Ok t delta :
  dt_valid t -> dt_year t < 9999 -> 0 <= delta <= day_micros -> exists t', dt_plus t delta = Ok t'.
Proof.
  intros Hv Hy Hd. unfold dt_plus. set (total := time_of_day t + delta).
  assert (0 <= time_of_day t < day_micros) as H0.
  { destruct Hv as (_ & _ & _ & ? & ? & ? & ?). unfold time_of_day, day_micros. lia. }
  assert (0 <= total / day_micros <= 1) as Hn by (subst total; unfold day_micros in *; Z.to_euclidean_division_equations; lia).
  destruct (Z.eq_dec (total / day_micros) 0) as [->|]; [by eexists|].
  assert (total / day_micros = 1) as -> by lia. change (Z.to_nat 1) with 1%nat. cbn [add_days].
  set (t1 := set_time _ _). assert (dt_year (next_day t1) <=? 9999 = true) as ->; [|by eexists]. apply Z.leb_le.
  assert (dt_year t1 = dt_year t) by done. clearbody t1. unfold next_day. repeat case_match; cbn; lia.
Qed.

Definition account_for (email : string) (db : IdentityDb) : option (UUID * IdentityUser) :=
  find_row (fun u => bool_decide (iu_email_normalized u = email)) (id_users db).

(** A guess: when it is made, when a token would be issued, its draws and its password. *)
Definition Guess : Type := datetime * datetime * LoginDraws * string.
(** The guesses whose password counts: the account is not locked when they are made. *)
Fixpoint evaluated (p : SessionPolicy) (email normalized : string) (gs : list Guess) (db : IdentityDb) : Z :=
  match gs with
  | [] => 0
  | (now, issued_at, d, password) :: gs =>
      match account_for normalized db with
      | Some (_, u) => if is_locked now u then 0 else 1
      | None => 0
      end + evaluated p email normalized gs (snd (login p now issued_at d email password db))
  end.

Lemma update_user_constraints db uid u u' :
  id_users db !! uid = Some u -> iu_email_normalized u' = iu_email_normalized u ->
  identity_constraints db = Ok tt -> identity_constraints (with_users (<[uid := u']>) db) = Ok tt.
Proof.
  intros Hu He. rewrite !identity_constraints_Ok. intros [Hq Hc]. split; [|exact Hc]. unfold identity_uniques in *. to_prop.
  split_andb; try done. eapply unique_on_kept; [|eassumption]. intros k r'. cbn.
  intros [[<- <-]|[_ Hk]]%lookup_insert_Some; [exists u; split; [done|congruence]|eauto].
Qed.

Lemma account_updated db uid u u' email :
  identity_constraints db = Ok tt -> account_for email db = Some (uid, u) -> iu_email_normalized u' = iu_email_normalized u ->
  account_for email (with_users (<[uid := u']>) db) = Some (uid, u').
Proof.
  intros [Hq _]%identity_constraints_Ok [Hu He%bool_decide_eq_true]%find_row_Some Hu'. unfold identity_uniques in Hq. to_prop.
  apply find_row_unique; [by cbn; rewrite lookup_insert_eq|apply bool_decide_eq_true; congruence|].
  intros k r Hk Hr%bool_decide_eq_true. cbn in Hk. apply lookup_insert_Some in Hk as [[<- _]|[_ Hk]]; [done|].
  match goal with H : unique_on (fun u => Some (iu_email_normalized u)) _ = true |- _ => rewrite unique_on_true in H;
    apply (H k uid r u email); congruence end.
Qed.

Lemma count_failed_login_kept p now u u' :
  count_failed_login p now u = Ok u' ->
  iu_email_normalized u' = iu_email_normalized u /\ iu_password_hash u' = iu_password_hash u.
Proof. unfold count_failed_login. destruct (_ <=? _); [intros (t & _ & [= <-])%res_bind_Ok|intros [= <-]]; done. Qed.

(** A wrong guess is counted, or ignored while the account is locked. *)
Lemma wrong_guess p now issued_at d email normalized password db uid u u' :
  normalize_email email = Ok normalized -> naive now = false -> identity_constraints db = Ok tt ->
  account_for normalized db = Some (uid, u) -> argon2_verify (iu_password_hash u) password = false ->
  count_failed_login p now u = Ok u' ->
  let db' := snd (login p now issued_at d email password db) in
  identity_constraints db' = Ok tt /\ account_for normalized db' = Some (uid, if is_locked now u then u else u').
Proof.
  intros He Hn Hok Ha Hv Hc. pose proof (count_failed_login_kept _ _ _ _ Hc) as [Hc1 _].
  pose proof (proj1 (find_row_Some _ _ _ _ Ha)) as Hu.
  pose proof (update_user_constraints db uid u u' Hu Hc1 Hok) as Hok'.
  assert (snd (with_uow (login_body p now d normalized password) db) =
          if is_locked now u then db else with_users (<[uid := u']>) db) as E.
  { unfold with_uow, login_body, user_for_login. rewrite bind_query. cbn [working]. fold (account_for normalized db). rewrite Ha.
    unfold verify_password. rewrite Hv. cbn [negb andb orb]. destruct (is_locked now u); cbn [negb].
    - rewrite bind_ret M_bind_eq identity_commit_eq. cbn [working committed]. by rewrite Hok.
    - rewrite M_bind_eq (bind_lift _ u' _ _ Hc). cbn [mutate modify working committed].
      rewrite M_bind_eq identity_commit_eq. cbn [working committed]. by rewrite Hok'. }
  assert (snd (login p now issued_at d email password db) = if is_locked now u then db else with_users (<[uid := u']>) db) as ->.
  { rewrite -E. unfold login, session_now. rewrite He Hn. destruct (with_uow _ _) as [[[[[[]]]]|] ]; reflexivity. }
  destruct (is_locked now u); split; try done. exact (account_updated db uid u u' normalized Hok Ha Hc1).
Qed.

(** ** Bound of the guesses *)

Section Guesses.
Context (p : SessionPolicy) (email normalized hash : string) (t0 t1 : Z) (uid : UUID).
Hypothesis Hpolicy : SessionService_init p = Ok tt.
Hypothesis Hemail : normalize_email email = Ok normalized.

(** A wrong guess of the interval. *)
Definition guess_in (g : Guess) : Prop :=
  let '(now, _, _, password) := g in
  dt_valid now /\ naive now = false /\ dt_year now < 9999 /\ t0 <= instant now <= t1 /\ argon2_verify hash password = false.

Lemma policy_bounds : 2 <= sp_failed_login_limit p /\ minutes 1 <= sp_lockout_duration p <= day_micros.
Proof using Hpolicy.
  pose proof Hpolicy as H. unfold SessionService_init in H. inv_ok. to_prop. unfold minutes, seconds, day_micros in *. lia.
Qed.

Lemma count_failed_login_eq now u :
  dt_valid now -> dt_year now < 9999 ->
  exists u', count_failed_login p now u = Ok u' /\ iu_failed_login_count u' = iu_failed_login_count u + 1 /\
    (sp_failed_login_limit p <= iu_failed_login_count u + 1 ->
     exists until, iu_locked_until u' = Some until /\ instant until = instant now + sp_lockout_duration p).
Proof using Hpolicy.
  intros Hv Hy. destruct policy_bounds as [_ Hl]. unfold minutes, seconds in Hl. unfold count_failed_login.
  destruct (Z.leb_spec (sp_failed_login_limit p) (iu_failed_login_count u + 1)).
  - destruct (dt_plus_Ok now (sp_lockout_duration p)) as [until Hu]; [done|done|lia|]. rewrite Hu. cbn.
    eexists. split; [done|]. split; [done|]. intros _. exists until. split; [done|]. apply dt_plus_spec; [done|lia|done].
  - eexists. split; [done|]. split; [done|]. lia.
Qed.

(** Once the limit is reached, a guess counts only when a lock has ended, and locks again. *)
Lemma locked_guesses gs db u until :
  identity_constraints db = Ok tt -> account_for normalized db = Some (uid, u) -> iu_password_hash u = hash ->
  sp_failed_login_limit p <= iu_failed_login_count u -> iu_locked_until u = Some until -> Forall guess_in gs ->
  evaluated p email normalized gs db <= Z.max 0 ((t1 - instant until) / sp_lockout_duration p + 1).
Proof using Hpolicy Hemail.
  destruct policy_bounds as [_ Hl]. unfold minutes, seconds in Hl.
  revert db u until. induction gs as [|[[[now issued_at] d] password] gs IH]; intros db u until Hok Ha Hh Hc Hlock Hg; [cbn; lia|].
  apply Forall_cons in Hg as [(Hv & Hn & Hy & Ht & Hw) Hg]. rewrite -Hh in Hw.
  destruct (count_failed_login_eq now u Hv Hy) as (u' & Hu' & Hcount & Hafter).
  destruct (wrong_guess p now issued_at d email normalized password db uid u u' Hemail Hn Hok Ha Hw Hu') as [Hok' Ha'].
  cbn [evaluated]. rewrite Ha. unfold is_locked, after in *. rewrite Hlock in Ha' |- *.
  destruct (Z.ltb_spec (instant now) (instant until)).
  - rewrite Z.add_0_l. by apply (IH _ u until).
  - destruct Hafter as (until' & Hlock' & Hi'); [lia|].
    assert (evaluated p email normalized gs (snd (login p now issued_at d email password db)) <=
            Z.max 0 ((t1 - instant until') / sp_lockout_duration p + 1)) as Hrec.
    { apply (IH _ u' until'); [done|done| |lia|done|done]. by rewrite (proj2 (count_failed_login_kept _ _ _ _ Hu')). }
    rewrite Hi' in Hrec.
    replace (t1 - (instant now + sp_lockout_duration p)) with (t1 - instant now + -1 * sp_lockout_duration p) in Hrec by lia.
    rewrite Z.div_add in Hrec; [lia|].
    assert ((t1 - instant now) / sp_lockout_duration p <= (t1 - instant until) / sp_lockout_duration p)
      by (apply Z.div_le_mono; lia).
    assert (0 <= (t1 - instant now) / sp_lockout_duration p) by (apply Z.div_pos; lia). lia.
Qed.

Lemma open_guesses gs db u :
  identity_constraints db = Ok tt -> account_for normalized db = Some (uid, u) -> iu_password_hash u = hash ->
  iu_failed_login_count u < sp_failed_login_limit p -> t0 <= t1 -> Forall guess_in gs ->
  evaluated p email normalized gs db <=
    sp_failed_login_limit p - iu_failed_login_count u + (t1 - t0) / sp_lockout_duration p.
Proof using Hpolicy Hemail.
  destruct policy_bounds as [_ Hl]. unfold minutes, seconds in Hl. intros Hok Ha Hh Hc Ht01.
  assert (0 <= (t1 - t0) / sp_lockout_duration p) as Hd by (apply Z.div_pos; lia).
  revert db u Hok Ha Hh Hc. induction gs as [|[[[now issued_at] d] password] gs IH]; intros db u Hok Ha Hh Hc Hg; [cbn; lia|].
  apply Forall_cons in Hg as [(Hv & Hn & Hy & Ht & Hw) Hg]. rewrite -Hh in Hw.
  destruct (count_failed_login_eq now u Hv Hy) as (u' & Hu' & Hcount & Hafter).
  pose proof (proj2 (count_failed_login_kept _ _ _ _ Hu')) as Hh'. rewrite Hh in Hh'.
  destruct (wrong_guess p now issued_at d email normalized password db uid u u' Hemail Hn Hok Ha Hw Hu') as [Hok' Ha'].
  cbn [evaluated]. rewrite Ha. destruct (is_locked now u).
  - rewrite Z.add_0_l. by apply (IH _ u).
  - destruct (Z.lt_ge_cases (iu_failed_login_count u') (sp_failed_login_limit p)) as [Hlt|Hge].
    + specialize (IH _ u' Hok' Ha' Hh' Hlt Hg). lia.
    + destruct Hafter as (until & Hlock & Hi); [lia|].
      pose proof (locked_guesses gs _ u' until Hok' Ha' Hh' ltac:(lia) Hlock Hg) as Hrec. rewrite Hi in Hrec.
      replace (t1 - (instant now + sp_lockout_duration p)) with (t1 - instant now + -1 * sp_lockout_duration p) in Hrec by lia.
      rewrite Z.div_add in Hrec; [lia|].
      assert ((t1 - instant now) / sp_lockout_duration p <= (t1 - t0) / sp_lockout_duration p) by (apply Z.div_le_mono; lia).
      assert (0 <= (t1 - instant now) / sp_lockout_duration p) by (apply Z.div_pos; lia). lia.
Qed.
End Guesses.

(** The lockout bounds the guesses of a password: of any number of wrong passwords tried on an account within an interval
    of time, at most the limit, and one more for each whole lockout duration of the interval, are tried while the account is
    not locked; every other one would have been refused even had it been right. *)
Theorem lockout_bounds_the_guesses p email normalized t0 t1 uid u gs db :
  SessionService_init p = Ok tt -> normalize_email email = Ok normalized -> identity_constraints db = Ok tt ->
  account_for normalized db = Some (uid, u) -> iu_failed_login_count u = 0 -> t0 <= t1 ->
  Forall (guess_in (iu_password_hash u) t0 t1) gs ->
  evaluated p email normalized gs db <= sp_failed_login_limit p + (t1 - t0) / sp_lockout_duration p.
Proof.
  intros Hp He Hok Ha Hc Ht Hg. destruct (policy_bounds p Hp) as [Hl _].
  pose proof (open_guesses p email normalized _ t0 t1 uid Hp He gs db u Hok Ha eq_refl ltac:(lia) Ht Hg). lia.
Qed.
End Requests.

(** ** A concrete history

    Toy primitives and an identity that owns an organization: it logs in, enrolls a factor, confirms it, refreshes, and
    recovers its account. *)

#[local] Instance ex_primitives : IdentityPrimitives := {|
  peppered_hmac := fun s => s;
  argon2_hash := fun salt password => "$argon2id$" +:+ password;
  argon2_verify := fun encoded password => bool_decide (encoded = "$argon2id$" +:+ password);
  argon2_outdated := fun _ => false;
  hmac_sha1 := fun key bytes => replicate 12 7 ++ bytes;
  aesgcm_encrypt := fun key nonce data aad => data ++ replicate 16 0;
  aesgcm_decrypt := fun key nonce data aad => Some (take (length data - 16) data);
  mfa_keys := {| ck_current_key_version := "k1"; ck_keys := {["k1" := replicate 32 0]} |};
  delivery_keys := {| ck_current_key_version := "k1"; ck_keys := {["k1" := replicate 32 0]} |}
|}.

Definition ex_at (minute : Z) : datetime :=
  {| dt_year := 2026; dt_month := 3; dt_day := 1; dt_hour := 9; dt_minute := minute; dt_second := 0; dt_micro := 0;
     dt_offset := Some 0 |}.
Definition ex_policy : SessionPolicy :=
  {| sp_access_token_seconds := 900; sp_refresh_token_ttl := minutes (24 * 60); sp_failed_login_limit := 2;
     sp_lockout_duration := minutes 5 |}.
Definition ex_mfa : MfaPolicy := {| mp_issuer := "PMK"; mp_recovery_code_count := 6; mp_step_up_ttl := minutes 10 |}.
Definition ex_identity : IdentityDb :=
  {| id_users := {["u1" := {| iu_email_normalized := "a@b.tn"; iu_password_hash := "$argon2id$pw"; iu_status := UsActive;
                              iu_password_changed_at := None; iu_failed_login_count := 0; iu_locked_until := None |}]};
     id_memberships := {["m1" := {| im_user_id := "u1"; im_organization_id := "o1"; im_role := OrganizationOwner;
                                    im_status := MsActive; im_created_at := ex_at 0 |}]};
     id_authorities := ∅;
     id_emails := {["e1" := {| ie_user_id := "u1"; ie_email_normalized := "r@b.tn"; ie_status := EmVerified;
                               ie_verified_at := Some (ex_at 0); ie_revoked_at := None |}]};
     id_sessions := ∅; id_tokens := ∅; id_actions := ∅; id_factors := ∅; id_codes := ∅; id_requests := ∅; id_outbox := ∅ |}.

Definition ex_login_draws (sid : string) : LoginDraws :=
  {| ld_session_id := sid; ld_family_id := "f" +:+ sid; ld_refresh_id := "t" +:+ sid; ld_salt := "";
     ld_refresh_token := "raw" +:+ sid; ld_csrf_token := "c" |}.
Definition ex_login (minute : Z) (sid : string) : identity_op :=
  IdLogin ex_policy (ex_at minute) (ex_at minute) (ex_login_draws sid) " A@b.tn" "pw".
Definition ex_refresh_draws : RefreshDraws := {| rd_token_id := "t9"; rd_refresh_token := "raw9"; rd_csrf_token := "c" |}.
Definition ex_refresh (minute : Z) (raw : string) (db : IdentityDb) : res IssuedSession * IdentityDb :=
  refresh ex_policy (ex_at minute) (ex_at minute) (ex_at minute) ex_refresh_draws raw db.
Definition ex_secret : list Z := replicate 20 1.
Definition ex_enroll_draws (id : string) : EnrollDraws :=
  {| ed_factor_id := id; ed_secret := ex_secret; ed_nonce := vreplicate 12 0; ed_created_at := ex_at 1 |}.
Definition ex_enroll : identity_op := IdEnroll ex_mfa (ex_at 1) (ex_enroll_draws "fa1") "u1" "Authenticator".
(** The code of the clock's step. *)
Definition ex_code (minute : Z) : string :=
  match totp_code_for_step ex_secret ((instant (ex_at minute) - instant EPOCH) / seconds TOTP_PERIOD_SECONDS) with
  | Ok code => code
  | Raise _ => ""
  end.
Definition ex_confirm : identity_op := IdConfirm (ex_at 2) [("c1", "CODE-1")] "u1" "s1" (ex_code 2).
Definition ex_enrolled : IdentityDb := identity_run [ex_login 0 "s1"; ex_enroll; ex_confirm] ex_identity.
Definition ex_recovery_draws : RecoveryDraws := {| vd_request_id := "q1"; vd_outbox_id := "x1"; vd_token := "vt";
                                                 vd_nonce := vreplicate 12 0; vd_created_at := ex_at 3 |}.
Definition ex_recovering : IdentityDb :=
  identity_run [ IdRecoveryStart default_recovery_policy (ex_at 3) ex_recovery_draws "R@b.tn";
                 IdRecoveryVerify default_recovery_policy (ex_at 4) "ct" "q1" "vt" ] ex_enrolled.
Definition ex_complete : res RecoveryReceipt * IdentityDb :=
  recovery_complete (ex_at 5) (Some (fun _ _ => Ok (1, 2))) "" "q1" "ct" "new" ex_recovering.

(** The answer of a request that is answered. *)
Definition ex_issued : IssuedSession :=
  {| is_access_token := {| tk_subject := ""; tk_client_id := ""; tk_scopes := []; tk_session_id := ""; tk_organization_id := None;
                           tk_platform_authorities := []; tk_expires_in := 0 |};
     is_access_expires_in := 0; is_refresh_token := ""; is_refresh_expires_in := 0; is_csrf_token := ""; is_session_id := "";
     is_mfa_required := false |}.
Definition answer {A} (default : A) (x : res A * IdentityDb) : A := match x.1 with Ok a => a | Raise _ => default end.
Definition is_answered {A} (x : res A * IdentityDb) : bool := match x.1 with Ok _ => true | Raise _ => false end.
Lemma answered {A} (default : A) (x : res A * IdentityDb) : is_answered x = true -> x = (Ok (answer default x), x.2).
Proof. by destruct x as [[]]. Qed.

Definition ex_refreshed : res IssuedSession * IdentityDb := ex_refresh 1 "raws1" (identity_exec (ex_login 0 "s1") ex_identity).
Lemma ex_answers :
  is_answered ex_refreshed = true /\ is_answered (ex_refresh 3 "raws1" ex_enrolled) = true /\ is_answered ex_complete = true /\
  is_answered (mfa_verify (ex_at 3) "u1" "s1" (Some (ex_code 3)) None ex_enrolled) = true.
Proof. split_and!; by vm_compute. Qed.

Definition ex_dead : IdentityDb := identity_run [ex_login 0 "s1"; IdLogout (ex_at 1) "raws1"] ex_identity.
Definition ex_dead_session : AuthSession :=
  set_session_revoked (ex_at 1) "user_logout"
    {| as_user_id := "u1"; as_organization_id := Some "o1"; as_refresh_family_id := "fs1"; as_authenticated_at := ex_at 0;
       as_mfa_satisfied_at := None; as_last_seen_at := Some (ex_at 0);
       as_expires_at := {| dt_year := 2026; dt_month := 3; dt_day := 2; dt_hour := 9; dt_minute := 0; dt_second := 0;
                           dt_micro := 0; dt_offset := Some 0 |};
       as_revoked_at := None; as_revoke_reason := None |}.
Definition ex_second : res IssuedSession * IdentityDb := ex_refresh 3 "raws2" (identity_run [ex_login 2 "s2"] ex_dead).
Lemma ex_second_answered : is_answered ex_second = true.
Proof. by vm_compute. Qed.
Lemma ex_dead_row : id_sessions ex_dead !! "s1" = Some ex_dead_session.
Proof. by vm_compute. Qed.
Lemma revoked_session_is_dead_witness : is_session_id (answer ex_issued ex_second) <> "s1".
Proof.
  exact (revoked_session_is_dead [ex_login 2 "s2"] ex_dead "s1" ex_dead_session ex_policy (ex_at 3) (ex_at 3) (ex_at 3)
           ex_refresh_draws "raws2" (ex_login_draws "s3") "" "" (answer ex_issued ex_second) ex_second.2 ex_dead_row
           (ex_intro _ (ex_at 1) eq_refl) (or_introl (answered ex_issued ex_second ex_second_answered))).
Defined.

Lemma refresh_token_is_exchanged_once_witness :
  let (r, db3) := ex_refresh 5 "raws1" (identity_run [ex_enroll] ex_refreshed.2) in
  r = raise RefreshTokenReuseError "Session credentials are invalid." /\
  (exists s, id_sessions db3 !! is_session_id (answer ex_issued ex_refreshed) = Some s /\ is_Some (as_revoked_at s)) /\
  forall k t, id_tokens db3 !! k = Some t -> rt_session_id t = is_session_id (answer ex_issued ex_refreshed) ->
    is_Some (rt_revoked_at t).
Proof.
  exact (refresh_token_is_exchanged_once ex_policy (ex_at 1) (ex_at 1) (ex_at 1) ex_refresh_draws "raws1"
           (identity_exec (ex_login 0 "s1") ex_identity) (answer ex_issued ex_refreshed) ex_refreshed.2 [ex_enroll] ex_policy
           (ex_at 5) (ex_at 5) (ex_at 5) ex_refresh_draws (answered ex_issued ex_refreshed (proj1 ex_answers)) eq_refl).
Defined.

Lemma ex_chains : token_chains ex_identity.
Proof. split; intros *; cbn [id_tokens ex_identity]; by rewrite lookup_empty. Qed.
Lemma one_live_token_a_session_witness : token_chains ex_enrolled.
Proof. exact (one_live_token_a_session [ex_login 0 "s1"; ex_enroll; ex_confirm] ex_identity ex_chains). Defined.

Definition ex_full : res IssuedSession * IdentityDb := ex_refresh 3 "raws1" ex_enrolled.
Lemma ex_full_scope : tk_scopes (is_access_token (answer ex_issued ex_full)) = ["evaluation"].
Proof. by vm_compute. Qed.
Lemma ex_full_required : requires_mfa (tk_subject (is_access_token (answer ex_issued ex_full))) ex_enrolled = true.
Proof. by vm_compute. Qed.
Lemma ex_unproved sid : ~ is_satisfied sid ex_identity.
Proof. intros (s & Hs & _). cbn [id_sessions ex_identity] in Hs. by rewrite lookup_empty in Hs. Qed.
Lemma full_scope_needs_a_second_factor_witness :
  proved_in (is_session_id (answer ex_issued ex_full)) [ex_login 0 "s1"; ex_enroll; ex_confirm] ex_identity.
Proof.
  exact (full_scope_needs_a_second_factor [ex_login 0 "s1"; ex_enroll; ex_confirm] ex_identity ex_policy (ex_at 3) (ex_at 3)
           (ex_at 3) ex_refresh_draws "raws1" (ex_login_draws "s3") "" "" (answer ex_issued ex_full) ex_full.2
           (ex_unproved _) (or_introl (answered ex_issued ex_full (proj1 (proj2 ex_answers)))) ex_full_required ex_full_scope).
Defined.

Definition ex_verified : res unit * IdentityDb := mfa_verify (ex_at 3) "u1" "s1" (Some (ex_code 3)) None ex_enrolled.
Lemma code_is_accepted_once_witness :
  exists fid f secret step,
    id_factors ex_enrolled !! fid = Some f /\ mf_user_id f = "u1" /\ mf_status f = FaActive /\
    decrypt_factor fid f = Ok secret /\ totp_code_for_step secret step = Ok (ex_code 3) /\
    Z.abs (step - (instant (ex_at 3) - instant EPOCH) / seconds TOTP_PERIOD_SECONDS) <= 1 /\
    forall ops now2 code2 f2 f3,
      id_factors (identity_run ops ex_verified.2) !! fid = Some f2 -> verify_totp_factor fid f2 code2 now2 = Ok f3 ->
      exists step2, mf_last_used_step f3 = Some step2 /\ step < step2.
Proof.
  assert (ex_verified = (Ok tt, ex_verified.2)) as E.
  { rewrite {1}(answered tt ex_verified (proj2 (proj2 (proj2 ex_answers)))). by destruct (answer tt ex_verified). }
  exact (code_is_accepted_once (ex_at 3) "u1" "s1" (ex_code 3) None ex_enrolled ex_verified.2 E).
Defined.

Definition ex_factor : AuthMfaFactor :=
  {| mf_user_id := "u1"; mf_label := "Authenticator"; mf_status := FaPending; mf_secret_ciphertext := replicate 12 0 ++ ex_secret ++ replicate 16 0;
     mf_secret_key_version := "k1"; mf_verified_at := None; mf_last_used_step := None; mf_disabled_at := None;
     mf_created_at := ex_at 1 |}.
Lemma ex_factor_row : id_factors (identity_exec ex_enroll ex_identity) !! "fa1" = Some ex_factor.
Proof. by vm_compute. Qed.
Lemma enrolled_label_blocks_enrollment_witness :
  fst (enroll ex_mfa (ex_at 9) (ex_enroll_draws "fa2") "u1" "Authenticator" (identity_exec ex_enroll ex_identity)) <>
  Ok (ex_secret, "a@b.tn", "PMK").
Proof.
  exact (enrolled_label_blocks_enrollment [] (identity_exec ex_enroll ex_identity) "fa1" ex_factor ex_mfa (ex_at 9)
           (ex_enroll_draws "fa2") (ex_secret, "a@b.tn", "PMK") ex_factor_row).
Defined.

Definition ex_receipt : RecoveryReceipt :=
  answer {| rr_sessions_revoked := 0; rr_refresh_tokens_revoked := 0; rr_action_tokens_revoked := 0; rr_external := (0, 0) |}
    ex_complete.
Lemma ex_complete_eq : ex_complete = (Ok ex_receipt, ex_complete.2).
Proof. exact (answered _ ex_complete (proj1 (proj2 (proj2 ex_answers)))). Qed.
Lemma recovered_account_starts_over_witness :
  exists r hash u, id_requests ex_recovering !! "q1" = Some r /\ rq_state r = RqVerified /\
    after (rq_expires_at r) (ex_at 5) = true /\ hash_password "" "new" = Ok hash /\
    id_users ex_complete.2 !! rq_user_id r = Some u /\ iu_password_hash u = hash /\ iu_failed_login_count u = 0 /\
    iu_locked_until u = None /\
    forall ops,
      (forall sid s p now2 issued_at counted_at d raw2 i db2,
         id_sessions ex_recovering !! sid = Some s -> as_user_id s = rq_user_id r ->
         refresh p now2 issued_at counted_at d raw2 (identity_run ops ex_complete.2) = (Ok i, db2) -> is_session_id i <> sid) /\
      (forall fid f, id_factors ex_recovering !! fid = Some f -> mf_user_id f = rq_user_id r ->
         exists f', id_factors (identity_run ops ex_complete.2) !! fid = Some f' /\ mf_status f' = FaDisabled) /\
      (forall now2 external2 salt2 raw2 password2 v,
         fst (recovery_complete now2 external2 salt2 "q1" raw2 password2 (identity_run ops ex_complete.2)) <> Ok v).
Proof.
  exact (recovered_account_starts_over (ex_at 5) (Some (fun _ _ => Ok (1, 2))) "" "q1" "ct" "new" ex_recovering ex_receipt
           ex_complete.2 ex_complete_eq).
Defined.

Definition ex_guess (minute : Z) : Guess := (ex_at minute, ex_at minute, ex_login_draws "s1", "wrong").
Definition ex_user : IdentityUser :=
  {| iu_email_normalized := "a@b.tn"; iu_password_hash := "$argon2id$pw"; iu_status := UsActive; iu_password_changed_at := None;
     iu_failed_login_count := 0; iu_locked_until := None |}.
Lemma ex_guess_in minute :
  0 <= minute <= 20 -> guess_in (iu_password_hash ex_user) (instant (ex_at 0)) (instant (ex_at 20)) (ex_guess minute).
Proof.
  intros Hm. unfold guess_in, ex_guess. split_and!; try done; [unfold dt_valid; cbn; lia| |];
    unfold instant, local_micros, time_of_day; cbn; lia.
Qed.
Lemma ex_account : account_for "a@b.tn" ex_identity = Some ("u1", ex_user).
Proof. by vm_compute. Qed.
Lemma lockout_bounds_the_guesses_witness :
  evaluated ex_policy " A@b.tn" "a@b.tn" [ex_guess 0; ex_guess 1; ex_guess 2; ex_guess 3; ex_guess 8; ex_guess 15] ex_identity <=
    2 + (instant (ex_at 20) - instant (ex_at 0)) / minutes 5.
Proof.
  apply (lockout_bounds_the_guesses ex_policy " A@b.tn" "a@b.tn" (instant (ex_at 0)) (instant (ex_at 20)) "u1" ex_user
           [ex_guess 0; ex_guess 1; ex_guess 2; ex_guess 3; ex_guess 8; ex_guess 15] ex_identity eq_refl eq_refl eq_refl
           ex_account eq_refl).
  - by vm_compute.
  - repeat first [apply Forall_nil; exact I | apply Forall_cons; split; [apply ex_guess_in; lia|]].
Defined.

(** The factor of a platform administrator is required of it at every login, and yet it may disable it: the check of the
    second factors knows the memberships only. *)
Definition ex_admin : IdentityDb :=
  identity_run [ex_login 0 "s1"; ex_enroll; ex_confirm]
    {| id_users := id_users ex_identity; id_memberships := ∅;
       id_authorities := {["a1" := {| pa_user_id := "u1"; pa_authority := PlatformAdmin; pa_active := true |}]};
       id_emails := ∅; id_sessions := ∅; id_tokens := ∅; id_actions := ∅; id_factors := ∅; id_codes := ∅; id_requests := ∅;
       id_outbox := ∅ |}.
Example required_factor_is_disabled :
  let x := mfa_disable ex_mfa (ex_at 3) "u1" "s1" ex_admin in
  is_answered x = true /\ requires_mfa "u1" ex_admin = true /\ requires_mfa "u1" x.2 = true /\
  find_row (is_active_factor "u1") (id_factors x.2) = None.
Proof. split_and!; by vm_compute. Qed.
