(* ===== verification/Delivery.v ===== *)
(** * The delivery of messages to identities

    Models the outbox of the identities and its dispatchers: the repository
    ([auth/delivery_repository.py]), whose every method is one transaction, the dispatcher
    ([auth/delivery_dispatcher.py]) with the additional data of its payloads
    ([auth/delivery_crypto.py]), the operations on dead letters
    ([auth/delivery_operations_service.py]) and the loop of the worker
    ([auth/delivery_worker.py]).  A run of a dispatcher takes a script: the readings of its
    clock, the answers of the provider, and what others do to the database meanwhile. *)
From stdpp Require Import pretty.
From Stdlib Require Import Ascii QArith.
From S2P Require Import Prelude PyString PyDateTime PyText PyJson Uow KernelCore Identity IdentityMfa.
#[local] Open Scope Z_scope.

(** [timedelta(seconds=x)] of a float, in microseconds. *)
Class TimedeltaOf (F : Type) := seconds_micros : F -> Z.

(** ** Contracts *)

Record DeliveryClaim := {
  dc_outbox_id : UUID;
  dc_user_id : UUID;
  dc_action_token_id : option UUID;
  dc_claim_id : UUID;
  dc_recipient_email : option string;
  dc_user_status : UserStatus;
  dc_event_type : string;
  dc_payload_ciphertext : list Z;
  dc_payload_key_version : string;
  dc_action_token_expires_at : option datetime;
  dc_action_token_consumed_at : option datetime;
  dc_action_token_invalidated_at : option datetime;
  dc_attempt_count : Z;
  dc_account_recovery_request_id : option UUID;
  dc_account_recovery_expires_at : option datetime;
  dc_account_recovery_state : option RecoveryState;
  dc_account_recovery_revoked_at : option datetime
}.
Record DeliveryOperationalMetrics := {
  om_pending_count : Z;
  om_retry_scheduled_count : Z;
  om_leased_count : Z;
  om_dead_letter_count : Z;
  om_delivered_count : Z;
  om_oldest_pending_age_seconds : option Z
}.
Record DeliveryRedriveResult := {
  dr_outbox_id : UUID;
  dr_available_at : datetime;
  dr_preserved_attempt_count : Z
}.

(** ** The repository *)

Definition set_outbox (available_at : datetime) (attempts : Z) (claim_id : option UUID)
    (claimed_at delivered_at dead_lettered_at : option datetime) (error_code : option string) (o : AuthDeliveryOutbox)
  : AuthDeliveryOutbox :=
  {| do_user_id := do_user_id o; do_action_token_id := do_action_token_id o;
     do_account_recovery_request_id := do_account_recovery_request_id o; do_event_type := do_event_type o;
     do_payload_ciphertext := do_payload_ciphertext o; do_payload_key_version := do_payload_key_version o;
     do_available_at := available_at; do_attempt_count := attempts; do_claim_id := claim_id; do_claimed_at := claimed_at;
     do_delivered_at := delivered_at; do_dead_lettered_at := dead_lettered_at; do_last_error_code := error_code;
     do_created_at := do_created_at o |}.
Definition lease_outbox (claim_id : UUID) (now : datetime) (o : AuthDeliveryOutbox) : AuthDeliveryOutbox :=
  set_outbox (do_available_at o) (do_attempt_count o + 1) (Some claim_id) (Some now) (do_delivered_at o)
    (do_dead_lettered_at o) (do_last_error_code o) o.
Definition deliver_outbox (at_ : datetime) (o : AuthDeliveryOutbox) : AuthDeliveryOutbox :=
  set_outbox (do_available_at o) (do_attempt_count o) None None (Some at_) (do_dead_lettered_at o) None o.
Definition fail_outbox (available_at : datetime) (error_code : string) (dead_lettered_at : option datetime)
    (o : AuthDeliveryOutbox) : AuthDeliveryOutbox :=
  set_outbox available_at (do_attempt_count o) None None (do_delivered_at o) dead_lettered_at (Some error_code) o.
Definition redrive_outbox (available_at : datetime) (o : AuthDeliveryOutbox) : AuthDeliveryOutbox :=
  set_outbox available_at (do_attempt_count o) None None (do_delivered_at o) None None o.

Definition open_entry (o : AuthDeliveryOutbox) : bool :=
  bool_decide (do_delivered_at o = None) && bool_decide (do_dead_lettered_at o = None).
(** [lease] in microseconds. *)
Definition claimable_entry (now : datetime) (lease : Z) (o : AuthDeliveryOutbox) : bool :=
  open_entry o && (instant (do_available_at o) <=? instant now) &&
  match do_claimed_at o with None => true | Some t => instant t <=? instant now - lease end.

(** By [available_at], then [created_at]. *)
Definition dispatched_before (a b : UUID * AuthDeliveryOutbox) : Prop :=
  instant (do_available_at a.2) < instant (do_available_at b.2) \/
  instant (do_available_at a.2) = instant (do_available_at b.2) /\ instant (do_created_at a.2) <= instant (do_created_at b.2).
#[global] Instance dispatched_before_dec : RelDecision dispatched_before.
Proof. intros a b. unfold dispatched_before. apply _. Defined.

(** The rows a batch takes; the user of a row is joined. *)
Definition batch_rows (now : datetime) (lease : Z) (batch_size : nat) (db : IdentityDb) : list (UUID * AuthDeliveryOutbox) :=
  take batch_size (merge_sort dispatched_before
    (find_rows (fun o => claimable_entry now lease o && bool_decide (is_Some (id_users db !! do_user_id o))) (id_outbox db))).

(** The recovery address of a user that is pending, or verified. *)
Definition pending_address (user_id : UUID) (e : IdentityUserEmailAddress) : bool :=
  bool_decide (ie_user_id e = user_id) && bool_decide (ie_status e = EmPending) && bool_decide (ie_revoked_at e = None).
Definition verified_address (user_id : UUID) (e : IdentityUserEmailAddress) : bool :=
  bool_decide (ie_user_id e = user_id) && bool_decide (ie_status e = EmVerified) &&
  bool_decide (is_Some (ie_verified_at e)) && bool_decide (ie_revoked_at e = None).
Definition recipient_of (user : IdentityUser) (db : IdentityDb) (o : AuthDeliveryOutbox) : option string :=
  let address p := (fun ke : UUID * IdentityUserEmailAddress => ie_email_normalized ke.2) <$> find_row p (id_emails db) in
  if bool_decide (do_event_type o = "verify_email") then Some (iu_email_normalized user)
  else if bool_decide (do_event_type o = "verify_recovery_email") then address (pending_address (do_user_id o))
  else if bool_decide (do_event_type o = "account_recovery_verification") then address (verified_address (do_user_id o))
  else None.

(** The claim of a row that was leased as [o]. *)
Definition claim_of (db : IdentityDb) (claim_id : UUID) (ko : UUID * AuthDeliveryOutbox) : option DeliveryClaim :=
  let o := ko.2 in
  user ← id_users db !! do_user_id o;
  let token := do_action_token_id o ≫= fun k => id_actions db !! k in
  let request := do_account_recovery_request_id o ≫= fun k => id_requests db !! k in
  Some {| dc_outbox_id := ko.1; dc_user_id := do_user_id o; dc_action_token_id := do_action_token_id o;
          dc_claim_id := claim_id; dc_recipient_email := recipient_of user db o; dc_user_status := iu_status user;
          dc_event_type := do_event_type o; dc_payload_ciphertext := do_payload_ciphertext o;
          dc_payload_key_version := do_payload_key_version o; dc_action_token_expires_at := ac_expires_at <$> token;
          dc_action_token_consumed_at := token ≫= ac_consumed_at;
          dc_action_token_invalidated_at := token ≫= ac_invalidated_at; dc_attempt_count := do_attempt_count o;
          dc_account_recovery_request_id := do_account_recovery_request_id o;
          dc_account_recovery_expires_at := rq_expires_at <$> request; dc_account_recovery_state := rq_state <$> request;
          dc_account_recovery_revoked_at := request ≫= rq_revoked_at |}.

(** The rows with their leases; [ids] are the identifiers that are drawn. *)
Definition leased_rows (now : datetime) (ids : nat -> UUID) (rows : list (UUID * AuthDeliveryOutbox))
  : list (UUID * (UUID * AuthDeliveryOutbox)) :=
  imap (fun n ko => (ids n, (ko.1, lease_outbox (ids n) now ko.2))) rows.
Definition put_rows (rows : list (UUID * AuthDeliveryOutbox)) (t : Table AuthDeliveryOutbox) : Table AuthDeliveryOutbox :=
  foldr (fun ko t => <[ko.1 := ko.2]> t) t rows.

(** [stale_before] is computed first, and may be out of range. *)
Definition claim_batch (now : datetime) (lease : Z) (batch_size : nat) (ids : nat -> UUID) (db : IdentityDb)
  : res (list DeliveryClaim) * IdentityDb :=
  match dt_plus now (- lease) with
  | Raise e => (Raise e, db)
  | Ok _ =>
      with_uow (db ← query Datatypes.id;
                let rows := leased_rows now ids (batch_rows now lease batch_size db) in
                mutate (with_outbox (put_rows (map snd rows)));;
                identity_commit;;
                mret (omap (fun ck => claim_of db ck.1 ck.2) rows)) db
  end.

(** [update(...).where(...)] of one row by its primary key; the answer is whether it matched. *)
Definition update_entry (id : UUID) (p : AuthDeliveryOutbox -> bool) (f : AuthDeliveryOutbox -> AuthDeliveryOutbox)
  : IdentityDb -> res (option AuthDeliveryOutbox) * IdentityDb :=
  with_uow (db ← query Datatypes.id;
            match id_outbox db !! id with
            | Some o =>
                if p o then mutate (with_outbox (<[id := f o]>));; identity_commit;; mret (Some (f o))
                else identity_commit;; mret None
            | None => identity_commit;; mret None
            end).
Definition holds_claim (claim_id : UUID) (o : AuthDeliveryOutbox) : bool :=
  bool_decide (do_claim_id o = Some claim_id) && open_entry o.
Definition matched {A} (x : res (option A) * IdentityDb) : res bool * IdentityDb :=
  (match x.1 with Ok r => Ok (bool_decide (is_Some r)) | Raise e => Raise e end, x.2).
Definition mark_delivered (id claim_id : UUID) (delivered_at : datetime) (db : IdentityDb) : res bool * IdentityDb :=
  matched (update_entry id (holds_claim claim_id) (deliver_outbox delivered_at) db).
Definition mark_failed (id claim_id : UUID) (available_at : datetime) (error_code : string)
    (dead_lettered_at : option datetime) (db : IdentityDb) : res bool * IdentityDb :=
  matched (update_entry id (holds_claim claim_id) (fail_outbox available_at error_code dead_lettered_at) db).

Definition dead_letter (o : AuthDeliveryOutbox) : bool :=
  bool_decide (do_delivered_at o = None) && bool_decide (is_Some (do_dead_lettered_at o)) &&
  bool_decide (do_claim_id o = None) && bool_decide (do_claimed_at o = None).
Definition redrive_dead_letter (id : UUID) (available_at : datetime) (db : IdentityDb)
  : res (option DeliveryRedriveResult) * IdentityDb :=
  match reject_if (naive available_at) ValueError "Delivery redrive availability must be timezone-aware." with
  | Raise e => (Raise e, db)
  | Ok _ =>
      match update_entry id dead_letter (redrive_outbox available_at) db with
      | (Raise e, db') => (Raise e, db')
      | (Ok None, db') => (Ok None, db')
      | (Ok (Some o), db') =>
          (Ok (Some {| dr_outbox_id := id; dr_available_at := do_available_at o;
                       dr_preserved_attempt_count := do_attempt_count o |}), db')
      end
  end.

Definition is_pending (now : datetime) (o : AuthDeliveryOutbox) : bool :=
  open_entry o && bool_decide (do_claimed_at o = None) && (instant (do_available_at o) <=? instant now).
Definition is_scheduled (now : datetime) (o : AuthDeliveryOutbox) : bool :=
  open_entry o && bool_decide (do_claimed_at o = None) && (instant now <? instant (do_available_at o)).
Definition is_leased (o : AuthDeliveryOutbox) : bool := open_entry o && bool_decide (is_Some (do_claimed_at o)).
Definition is_dead (o : AuthDeliveryOutbox) : bool := bool_decide (is_Some (do_dead_lettered_at o)).
Definition is_delivered (o : AuthDeliveryOutbox) : bool := bool_decide (is_Some (do_delivered_at o)).
Definition operational_metrics (now : datetime) (db : IdentityDb) : res DeliveryOperationalMetrics :=
  _ ← reject_if (naive now) ValueError "Delivery metrics clock must be timezone-aware.";
  let oldest := first_by (fun o => instant (do_created_at o)) (find_rows (is_pending now) (id_outbox db)) in
  mret {| om_pending_count := row_count (is_pending now) (id_outbox db);
          om_retry_scheduled_count := row_count (is_scheduled now) (id_outbox db);
          om_leased_count := row_count is_leased (id_outbox db); om_dead_letter_count := row_count is_dead (id_outbox db);
          om_delivered_count := row_count is_delivered (id_outbox db);
          om_oldest_pending_age_seconds :=
            (fun ko => Z.max 0 (Z.quot (instant now - instant (do_created_at ko.2)) 1000000)) <$> oldest |}.

(** [DeliveryOperationsService]. *)
Definition operations_now (now : datetime) : res unit :=
  reject_if (naive now) ValueError "Delivery operations clock must be timezone-aware.".
Definition delivery_metrics (now : datetime) (db : IdentityDb) : res DeliveryOperationalMetrics :=
  _ ← operations_now now; operational_metrics now db.
Definition delivery_redrive (now : datetime) (id : UUID) (db : IdentityDb) : res DeliveryRedriveResult * IdentityDb :=
  match operations_now now with
  | Raise e => (Raise e, db)
  | Ok _ =>
      match redrive_dead_letter id now db with
      | (Raise e, db') => (Raise e, db')
      | (Ok None, db') =>
          (raise DeliveryRedriveUnavailableError "Dead-letter delivery is unavailable for redrive.", db')
      | (Ok (Some x), db') => (Ok x, db')
      end
  end.

(** ** The dispatcher *)

Record DeliveryEventProfile := {
  ep_purpose : string;
  ep_template : string;
  ep_verification_path : string;
  ep_eligible_user_statuses : list UserStatus
}.
Definition DELIVERY_EVENT_PROFILES (event_type : string) : option DeliveryEventProfile :=
  if bool_decide (event_type = "verify_email") then
    Some {| ep_purpose := "verify_email"; ep_template := "verify_email"; ep_verification_path := "/verify-email";
            ep_eligible_user_statuses := [UsPendingVerification] |}
  else if bool_decide (event_type = "verify_recovery_email") then
    Some {| ep_purpose := "verify_recovery_email"; ep_template := "verify_recovery_email";
            ep_verification_path := "/auth/recovery-email/verify"; ep_eligible_user_statuses := [UsActive] |}
  else if bool_decide (event_type = "account_recovery_verification") then
    Some {| ep_purpose := "account_recovery_verification"; ep_template := "account_recovery_verification";
            ep_verification_path := "/auth/account-recovery/verify"; ep_eligible_user_statuses := [UsActive] |}
  else None.

(** Durations in microseconds; the URL is the validated one. *)
Record DeliveryDispatcherConfig := {
  cf_public_base_url : string;
  cf_batch_size : Z;
  cf_lease_timeout : Z;
  cf_max_attempts : Z;
  cf_retry_base : Z;
  cf_retry_max : Z
}.
Definition DeliveryDispatcherConfig_post_init (c : DeliveryDispatcherConfig) : res unit :=
  _ ← reject_if ((cf_batch_size c <? 1) || (500 <? cf_batch_size c)) ValueError "Delivery batch size is outside its safe range.";
  _ ← reject_if ((cf_lease_timeout c <? seconds 30) || (minutes 60 <? cf_lease_timeout c)) ValueError
        "Delivery lease timeout is outside its safe range.";
  _ ← reject_if ((cf_max_attempts c <? 1) || (25 <? cf_max_attempts c)) ValueError
        "Delivery maximum attempts is outside its safe range.";
  _ ← reject_if ((cf_retry_base c <? seconds 1) || (cf_retry_max c <? cf_retry_base c)) ValueError
        "Delivery retry policy is invalid.";
  reject_if (minutes (24 * 60) <? cf_retry_max c) ValueError "Delivery retry maximum is outside its safe range.".

Record DeliveryDispatchResult := {
  dp_claimed : Z;
  dp_delivered : Z;
  dp_retry_scheduled : Z;
  dp_dead_lettered : Z;
  dp_stale_finalization : Z
}.
Definition add_results (a b : DeliveryDispatchResult) : DeliveryDispatchResult :=
  {| dp_claimed := dp_claimed a + dp_claimed b; dp_delivered := dp_delivered a + dp_delivered b;
     dp_retry_scheduled := dp_retry_scheduled a + dp_retry_scheduled b;
     dp_dead_lettered := dp_dead_lettered a + dp_dead_lettered b;
     dp_stale_finalization := dp_stale_finalization a + dp_stale_finalization b |}.
Definition one_of (delivered retry dead stale : Z) : DeliveryDispatchResult :=
  {| dp_claimed := 0; dp_delivered := delivered; dp_retry_scheduled := retry; dp_dead_lettered := dead;
     dp_stale_finalization := stale |}.

Definition delivery_now (now : datetime) : res unit :=
  reject_if (naive now) ValueError "Delivery dispatcher clock must be timezone-aware.".

Definition expired (expires_at now : datetime) : bool := instant expires_at <=? instant now.
Definition ineligible_error (c : DeliveryClaim) (now : datetime) : option string :=
  match DELIVERY_EVENT_PROFILES (dc_event_type c) with
  | None => Some "event_type_invalid"
  | Some profile =>
      if bool_decide (dc_recipient_email c = None) then Some "recipient_unavailable"
      else if negb (bool_decide (dc_user_status c ∈ ep_eligible_user_statuses profile)) then Some "user_ineligible"
      else if eqb (bool_decide (is_Some (dc_action_token_id c))) (bool_decide (is_Some (dc_account_recovery_request_id c)))
      then Some "delivery_authority_invalid"
      else if bool_decide (is_Some (dc_action_token_id c)) then
        if bool_decide (is_Some (dc_action_token_consumed_at c)) then Some "action_token_consumed"
        else if bool_decide (is_Some (dc_action_token_invalidated_at c)) then Some "action_token_invalidated"
        else match dc_action_token_expires_at c with
             | None => Some "action_token_invalid"
             | Some t => if expired t now then Some "action_token_expired" else None
             end
      else if negb (bool_decide (dc_account_recovery_state c = Some RqPending)) then Some "account_recovery_ineligible"
      else if bool_decide (is_Some (dc_account_recovery_revoked_at c)) then Some "account_recovery_revoked"
      else match dc_account_recovery_expires_at c with
           | None => Some "account_recovery_invalid"
           | Some t => if expired t now then Some "account_recovery_expired" else None
           end
  end.

(** [urllib.parse.urlencode] of ASCII text. *)
Definition hex_upper (n : N) : string := char_text (if (n <? 10)%N then 48 + n else 55 + n)%N.
Definition quote_char (c : ascii) : string :=
  let n := N_of_ascii c in
  if is_digit c || ((65 <=? n) && (n <=? 90))%N || ((97 <=? n) && (n <=? 122))%N ||
     bool_decide (n = 95 \/ n = 46 \/ n = 45 \/ n = 126)%N then String c ""
  else if (n =? 32)%N then "+" else "%" +:+ hex_upper (n / 16) +:+ hex_upper (n mod 16).
Fixpoint quote_plus (s : string) : string :=
  match s with EmptyString => "" | String c s' => quote_char c +:+ quote_plus s' end.
Definition urlencode (values : list (string * string)) : string :=
  String.concat "&" (map (fun kv => quote_plus kv.1 +:+ "=" +:+ quote_plus kv.2) values).

Definition verification_url (cfg : DeliveryDispatcherConfig) (raw_token : string) (profile : DeliveryEventProfile)
    (request_id : option UUID) : string :=
  cf_public_base_url cfg +:+ ep_verification_path profile +:+ "?" +:+
  urlencode (("token", raw_token) :: match request_id with Some id => [("request_id", id)] | None => [] end).

(** What is handed to the provider, and what it answers. *)
Record DeliveryMessage := { me_template : string; me_recipient : string; me_verification_url : string; me_idempotency_key : string }.
Inductive SendOutcome := SendAccepted | SendRefused (error_code : string) (retryable : bool) | SendRaised.

(** ** Steps of the outbox

    What anyone may do to the database: a request of an identity, or one transaction of a
    dispatcher or of an operator. *)
Section Steps.
Context {F : Type} `{HF : Float F} `{HT : TimedeltaOf F} {HP : IdentityPrimitives} {HS : Sha256}.

Inductive delivery_op :=
  | DlClaim (now : datetime) (lease : Z) (batch_size : nat) (ids : nat -> UUID)
  | DlDelivered (id claim_id : UUID) (delivered_at : datetime)
  | DlFailed (id claim_id : UUID) (available_at : datetime) (error_code : string) (dead_lettered_at : option datetime)
  | DlRedrive (now : datetime) (id : UUID)
  | DlIdentity (o : identity_op).

Definition delivery_exec (o : delivery_op) (db : IdentityDb) : IdentityDb :=
  match o with
  | DlClaim now lease batch_size ids => snd (claim_batch now lease batch_size ids db)
  | DlDelivered id claim_id at_ => snd (mark_delivered id claim_id at_ db)
  | DlFailed id claim_id available_at code dead => snd (mark_failed id claim_id available_at code dead db)
  | DlRedrive now id => snd (delivery_redrive now id db)
  | DlIdentity o => identity_exec o db
  end.
Fixpoint delivery_run (ops : list delivery_op) (db : IdentityDb) : IdentityDb :=
  match ops with [] => db | o :: ops => delivery_run ops (delivery_exec o db) end.

(** ** Runs of the dispatcher *)

(** The database, and the messages handed to the provider, the newest first. *)
Record DispatchState := { ds_db : IdentityDb; ds_sent : list DeliveryMessage }.
Definition call {A} (f : IdentityDb -> res A * IdentityDb) : M DispatchState A := fun s =>
  let (r, db') := f (ds_db s) in (r, {| ds_db := db'; ds_sent := ds_sent s |}).
Definition meanwhile (ops : list delivery_op) : M DispatchState unit :=
  modify (fun s => {| ds_db := delivery_run ops (ds_db s); ds_sent := ds_sent s |}).
Definition hand_over (m : DeliveryMessage) : M DispatchState unit :=
  modify (fun s => {| ds_db := ds_db s; ds_sent := m :: ds_sent s |}).

(** [total_seconds]. *)
Definition total_seconds (micros : Z) : F := fl_ratio micros 1000000.
(** [int.from_bytes(digest[:2])], from the hexadecimal digits. *)
Definition hex_value (s : string) : Z :=
  foldl (fun acc c => acc * 16 + (if is_digit c then code c - 48 else code c - 87)) 0 (String.list_ascii_of_string s).
Definition retry_delay (cfg : DeliveryDispatcherConfig) (c : DeliveryClaim) : res Z :=
  let exponent := Z.min (Z.max 0 (dc_attempt_count c - 1)) 30 in
  factor ← float_of_int (2 ^ exponent);
  let base_seconds := min2 (total_seconds (cf_retry_max cfg)) (fl_mul (total_seconds (cf_retry_base cfg)) factor) in
  let material := dc_outbox_id c +:+ ":" +:+ pretty (dc_attempt_count c) in
  let fraction := fl_ratio (hex_value (String.substring 0 4 (sha256_hex material))) 65535 in
  let jittered := fl_add base_seconds (fl_mul (fl_mul base_seconds (fl_lit 0.25)) fraction) in
  mret (seconds_micros (min2 jittered (total_seconds (cf_retry_max cfg)))).

(** [_fail]: the entry is dead when the error is terminal or the attempts are used up. *)
Definition fail_claim (cfg : DeliveryDispatcherConfig) (now : datetime) (c : DeliveryClaim) (error_code : string) (terminal : bool)
  : M DispatchState DeliveryDispatchResult :=
  lift (delivery_now now);;
  let dead_lettered_at := if terminal || (cf_max_attempts cfg <=? dc_attempt_count c) then Some now else None in
  available_at ← lift (match dead_lettered_at with
                       | Some _ => mret now
                       | None => delay ← retry_delay cfg c; dt_plus now delay
                       end);
  finalized ← call (mark_failed (dc_outbox_id c) (dc_claim_id c) available_at error_code dead_lettered_at);
  mret (if negb finalized then one_of 0 0 0 1
        else if bool_decide (is_Some dead_lettered_at) then one_of 0 0 1 0 else one_of 0 1 0 0).

Definition decrypt_payload (c : DeliveryClaim) (purpose : string) : res string :=
  DeliveryPayloadCipher_decrypt (dc_payload_ciphertext c, dc_payload_key_version c) (dc_outbox_id c) (dc_user_id c) purpose
    (dc_action_token_id c) (dc_account_recovery_request_id c).

(** One claim of a batch: when it is looked at, what the provider answers, what others do
    meanwhile, and when it is finalized. *)
Record ClaimScript := { cs_now : datetime; cs_outcome : SendOutcome; cs_others : list delivery_op; cs_end : datetime }.

Definition message_of (cfg : DeliveryDispatcherConfig) (c : DeliveryClaim) (profile : DeliveryEventProfile) (recipient raw_token : string)
  : DeliveryMessage :=
  {| me_template := ep_template profile; me_recipient := recipient;
     me_verification_url := verification_url cfg raw_token profile (dc_account_recovery_request_id c);
     me_idempotency_key := "pmk-auth-delivery-v1:" +:+ dc_outbox_id c |}.

Definition process_claim (cfg : DeliveryDispatcherConfig) (sc : ClaimScript) (c : DeliveryClaim)
  : M DispatchState DeliveryDispatchResult :=
  lift (delivery_now (cs_now sc));;
  match ineligible_error c (cs_now sc), DELIVERY_EVENT_PROFILES (dc_event_type c), dc_recipient_email c with
  | Some code, _, _ => meanwhile (cs_others sc);; fail_claim cfg (cs_end sc) c code true
  | None, Some profile, Some recipient =>
      match decrypt_payload c (ep_purpose profile) with
      | Raise (Exn ValueError _) => meanwhile (cs_others sc);; fail_claim cfg (cs_end sc) c "payload_invalid" false
      | Raise e => lift (Raise e)
      | Ok raw_token =>
          hand_over (message_of cfg c profile recipient raw_token);;
          meanwhile (cs_others sc);;
          match cs_outcome sc with
          | SendAccepted =>
              lift (delivery_now (cs_end sc));;
              finalized ← call (mark_delivered (dc_outbox_id c) (dc_claim_id c) (cs_end sc));
              mret (if finalized : bool then one_of 1 0 0 0 else one_of 0 0 0 1)
          | SendRefused code retryable => fail_claim cfg (cs_end sc) c code (negb retryable)
          | SendRaised => fail_claim cfg (cs_end sc) c "provider_unexpected" false
          end
      end
  | None, _, _ => throw KeyError (dc_event_type c)
  end.

Fixpoint process_claims (cfg : DeliveryDispatcherConfig) (script : nat -> ClaimScript) (n : nat) (claims : list DeliveryClaim)
    (acc : DeliveryDispatchResult) : M DispatchState DeliveryDispatchResult :=
  match claims with
  | [] => mret acc
  | c :: claims => r ← process_claim cfg (script n) c; process_claims cfg script (S n) claims (add_results acc r)
  end.

Definition dispatch_once (cfg : DeliveryDispatcherConfig) (now : datetime) (ids : nat -> UUID) (script : nat -> ClaimScript)
  : M DispatchState DeliveryDispatchResult :=
  lift (delivery_now now);;
  claims ← call (claim_batch now (cf_lease_timeout cfg) (Z.to_nat (cf_batch_size cfg)) ids);
  process_claims cfg script 0 claims
    {| dp_claimed := Z.of_nat (length claims); dp_delivered := 0; dp_retry_scheduled := 0; dp_dead_lettered := 0;
       dp_stale_finalization := 0 |}.

(** [run_loop]: batches until the stop event is set, with what others do between them. *)
Record DeliveryWorkerResult := { dw_batches : Z; dw_totals : DeliveryDispatchResult }.
Fixpoint run_batches (cfg : DeliveryDispatcherConfig)
    (rounds : list (datetime * (nat -> UUID) * (nat -> ClaimScript) * list delivery_op)) (acc : DeliveryWorkerResult)
  : M DispatchState DeliveryWorkerResult :=
  match rounds with
  | [] => mret acc
  | (now, ids, script, others) :: rounds =>
      r ← dispatch_once cfg now ids script;
      meanwhile others;;
      run_batches cfg rounds {| dw_batches := dw_batches acc + 1; dw_totals := add_results (dw_totals acc) r |}
  end.
Definition run_loop (cfg : DeliveryDispatcherConfig) (poll_interval_seconds : F)
    (rounds : list (datetime * (nat -> UUID) * (nat -> ClaimScript) * list delivery_op)) : M DispatchState DeliveryWorkerResult :=
  lift (reject_if (fl_lt poll_interval_seconds (fl_lit 0.05) || fl_lt (fl_lit 60) poll_interval_seconds) ValueError
          "Delivery worker poll interval is outside its safe range.");;
  run_batches cfg rounds
    {| dw_batches := 0;
       dw_totals := {| dp_claimed := 0; dp_delivered := 0; dp_retry_scheduled := 0; dp_dead_lettered := 0; dp_stale_finalization := 0 |} |}.
End Steps.
