(* ===== verification/DeliveryProps.v ===== *)
(** * The theorems on the delivery of messages

    Over every interleaving of identities, dispatchers and operators: an entry of the outbox
    keeps its message and stays as it was delivered, a claim that was lost finalizes
    nothing, a run of a dispatcher accounts for what it claimed, and the link of a recovery
    is sent to the verified address with the token its request is verified with. *)
From Stdlib Require Import QArith Qround.
From stdpp Require Import vector.
From S2P Require Import Prelude PyString PyDateTime PyText PyJson Uow KernelCore Identity IdentityMfa IdentityFrames IdentityProps Delivery.
#[local] Open Scope Z_scope.

Section DeliveryProps.
Context {F : Type} `{HF : Float F} `{HT : TimedeltaOf F} {HP : IdentityPrimitives} {HS : Sha256}.

(** ** What each transaction does *)

Lemma commit_eq {A} (m : M (Session IdentityDb) A) f db :
  (mutate f;; identity_commit;; m) {| working := db; committed := db |} =
    match identity_constraints (f db) with
    | Ok _ => m {| working := f db; committed := f db |}
    | Raise e => (Raise e, {| working := db; committed := db |})
    end.
Proof.
  rewrite M_bind_eq. cbn [mutate modify working committed]. rewrite M_bind_eq identity_commit_eq. cbn [working committed].
  by destruct (identity_constraints (f db)).
Qed.

(** An update of an entry changes it, or nothing. *)
Lemma update_entry_cases id p f db r db' :
  update_entry id p f db = (r, db') ->
  db' = db /\ (r = Ok None \/ exists e, r = Raise e) \/
  exists o, id_outbox db !! id = Some o /\ p o = true /\ r = Ok (Some (f o)) /\
    db' = with_outbox (<[id := f o]>) db /\ identity_constraints db' = Ok tt.
Proof.
  unfold update_entry, with_uow. rewrite bind_query. cbn [working Datatypes.id].
  destruct (id_outbox db !! id) as [o|] eqn:Eo; [destruct (p o) eqn:Ep|].
  - rewrite commit_eq. destruct (identity_constraints _) as [[]|e] eqn:Ec; intros [= <- <-]; [right; by exists o|].
    left. split; [done|]. right. by eexists.
  - rewrite M_bind_eq identity_commit_eq. cbn. destruct (identity_constraints _); intros [= <- <-]; left; eauto.
  - rewrite M_bind_eq identity_commit_eq. cbn. destruct (identity_constraints _); intros [= <- <-]; left; eauto.
Qed.

Lemma update_entry_none id p f db :
  identity_constraints db = Ok tt -> (forall o, id_outbox db !! id = Some o -> p o = false) -> update_entry id p f db = (Ok None, db).
Proof.
  intros Hok Hp. unfold update_entry, with_uow. rewrite bind_query. cbn [working Datatypes.id].
  destruct (id_outbox db !! id) as [o|] eqn:Eo; [rewrite (Hp o) //|]; rewrite M_bind_eq identity_commit_eq; cbn [working committed];
    by rewrite Hok.
Qed.

Lemma claim_batch_cases now lease n ids db r db' :
  claim_batch now lease n ids db = (r, db') ->
  db' = db /\ (exists e, r = Raise e) \/
  let rows := leased_rows now ids (batch_rows now lease n db) in
  r = Ok (omap (fun ck => claim_of db ck.1 ck.2) rows) /\ db' = with_outbox (put_rows (map snd rows)) db /\
  identity_constraints db' = Ok tt.
Proof.
  unfold claim_batch, with_uow. destruct (dt_plus _ _) as [stale|e]; [|intros [= <- <-]; left; eauto]. rewrite bind_query. cbn [working Datatypes.id]. rewrite commit_eq.
  destruct (identity_constraints _) as [[]|e] eqn:Ec; intros [= <- <-]; [by right|left; eauto].
Qed.

Lemma batch_rows_elem now lease n db k o :
  (k, o) ∈ batch_rows now lease n db ->
  id_outbox db !! k = Some o /\ claimable_entry now lease o = true /\ is_Some (id_users db !! do_user_id o).
Proof.
  unfold batch_rows. rewrite elem_of_take. intros (i & Hi%list_elem_of_lookup_2 & _).
  rewrite merge_sort_Permutation in Hi. apply find_rows_elem in Hi as [Hk [Hc Hu%bool_decide_eq_true]%andb_true_iff]. done.
Qed.

Lemma leased_rows_elem now ids rows c k o' :
  (c, (k, o')) ∈ leased_rows now ids rows -> exists n o, c = ids n /\ o' = lease_outbox (ids n) now o /\ (k, o) ∈ rows.
Proof.
  unfold leased_rows. rewrite elem_of_lookup_imap. intros (n & [k0 o] & [= -> -> ->] & Hn). exists n, o. split_and!; try done.
  exact (list_elem_of_lookup_2 _ _ _ Hn).
Qed.

Lemma put_rows_lookup rows t k o' :
  put_rows rows t !! k = Some o' -> (k, o') ∈ rows \/ t !! k = Some o'.
Proof.
  induction rows as [|[j o] rows IH]; cbn; [by right|].
  intros [[<- <-]|[_ H]]%lookup_insert_Some; [left; left|]. destruct (IH H); [left; by right|by right].
Qed.
Lemma put_rows_kept rows t k : is_Some (t !! k) -> is_Some (put_rows rows t !! k).
Proof.
  intros H. induction rows as [|[j o] rows IH]; cbn; [done|]. rewrite lookup_insert_is_Some.
  destruct (decide (j = k)); [by left|by right].
Qed.

(** ** Entries *)

(** An entry keeps its message and its authority, its attempts are counted, and once it is delivered it stays as it is. *)
Record entry_moved (o o' : AuthDeliveryOutbox) : Prop := {
  en_message : (do_user_id o', do_action_token_id o', do_account_recovery_request_id o', do_event_type o',
                do_payload_ciphertext o', do_payload_key_version o', do_created_at o') =
               (do_user_id o, do_action_token_id o, do_account_recovery_request_id o, do_event_type o,
                do_payload_ciphertext o, do_payload_key_version o, do_created_at o);
  en_attempts : do_attempt_count o <= do_attempt_count o';
  en_delivered : is_Some (do_delivered_at o) -> o' = o
}.
#[global] Instance entry_moved_preorder : PreOrder entry_moved.
Proof.
  split; [intros o; split; [done|lia|done]|]. intros a b c [? ? H1] [? ? H2]. split; [congruence|lia|]. intros H. rewrite H2 (H1 H) //.
Qed.

(** A claim has its time; a delivered or dead entry has no claim, and it is one of the two. *)
Record entry_wf (o : AuthDeliveryOutbox) : Prop := {
  ew_claim : do_claim_id o = None <-> do_claimed_at o = None;
  ew_delivered : is_Some (do_delivered_at o) -> do_claim_id o = None /\ do_dead_lettered_at o = None;
  ew_dead : is_Some (do_dead_lettered_at o) -> do_claim_id o = None
}.
Definition outbox_wf (db : IdentityDb) : Prop := forall k o, id_outbox db !! k = Some o -> entry_wf o.

Lemma open_entry_true o : open_entry o = true -> do_delivered_at o = None /\ do_dead_lettered_at o = None.
Proof. unfold open_entry. intros H. by to_prop. Qed.
Lemma not_delivered o o' : do_delivered_at o = None -> is_Some (do_delivered_at o) -> o' = o.
Proof. by intros -> [? ?]. Qed.

Lemma lease_entry c now lease o :
  claimable_entry now lease o = true -> entry_moved o (lease_outbox c now o) /\ entry_wf (lease_outbox c now o).
Proof.
  intros [[Ho _]%andb_true_iff _]%andb_true_iff. apply open_entry_true in Ho as [H1 H2].
  split; split; cbn; try done; [lia|by apply not_delivered|rewrite H1; by intros [? ?]|rewrite H2; by intros [? ?]].
Qed.
Lemma deliver_entry c t o : holds_claim c o = true -> entry_moved o (deliver_outbox t o) /\ entry_wf (deliver_outbox t o).
Proof.
  intros [_ [H1 H2]%open_entry_true]%andb_true_iff.
  split; split; cbn; try done; [lia|by apply not_delivered].
Qed.
Lemma fail_entry c a e d o : holds_claim c o = true -> entry_moved o (fail_outbox a e d o) /\ entry_wf (fail_outbox a e d o).
Proof.
  intros [_ [H1 H2]%open_entry_true]%andb_true_iff.
  split; split; cbn; try done; [lia|by apply not_delivered|rewrite H1; by intros [? ?]].
Qed.
Lemma redrive_entry a o : dead_letter o = true -> entry_moved o (redrive_outbox a o) /\ entry_wf (redrive_outbox a o).
Proof.
  unfold dead_letter. intros H. to_prop. split; split; cbn; try done; [lia|by apply not_delivered].
Qed.

(** ** Steps *)

(** What a step does to the outbox: an entry is there before and moved, or is the message of a recovery just started; a claim
    is one that was there, or one that is drawn. *)
Record outbox_step (D : UUID -> Prop) (db db' : IdentityDb) : Prop := {
  os_kept : forall k o, id_outbox db !! k = Some o -> exists o', id_outbox db' !! k = Some o' /\ entry_moved o o';
  os_from : forall k o', id_outbox db' !! k = Some o' ->
    (exists o, id_outbox db !! k = Some o /\ entry_moved o o' /\
      (o' = o \/ entry_wf o' /\ forall c, do_claim_id o' = Some c -> D c)) \/ fresh_delivery db' k o'
}.

Lemma outbox_step_same D db db' : id_outbox db' = id_outbox db -> outbox_step D db db'.
Proof. intros E. split; intros k o; rewrite E; intros Hk; [exists o; split; [done|reflexivity]|]. left. exists o. split_and!; [done|reflexivity|by left]. Qed.

Lemma update_step D id p f db r db' :
  (forall o, p o = true -> entry_moved o (f o) /\ entry_wf (f o)) -> (forall o, do_claim_id (f o) = None) ->
  update_entry id p f db = (r, db') -> outbox_step D db db'.
Proof.
  intros Hf Hc [[-> _]|(o & Ho & Hp & _ & -> & _)]%update_entry_cases; [by apply outbox_step_same|].
  destruct (Hf o Hp) as [Hm Hw]. split; cbn.
  - intros k q Hq. destruct (decide (id = k)) as [<-|Hne].
    + exists (f o). rewrite lookup_insert_eq. split; [done|]. congruence.
    + exists q. rewrite lookup_insert_ne //. split; [done|reflexivity].
  - intros k q [[<- <-]|[_ Hq]]%lookup_insert_Some; left; [exists o; split_and!; [done|done|right; split; [done|]; intros c; by rewrite Hc]|exists q; split_and!; [done|reflexivity|by left]].
Qed.

Lemma claim_batch_step now lease n ids db r db' : claim_batch now lease n ids db = (r, db') -> outbox_step (fun c => exists m, ids m = c) db db'.
Proof.
  intros [[-> _]|(_ & -> & _)]%claim_batch_cases; [by apply outbox_step_same|].
  set (rows := leased_rows _ _ _).
  assert (forall k o', (k, o') ∈ map snd rows ->
    exists o, id_outbox db !! k = Some o /\ entry_moved o o' /\ entry_wf o' /\
      forall c, do_claim_id o' = Some c -> exists m, ids m = c) as Hrows.
  { intros k o' ([c [k0 q]] & [= -> ->] & (m & o & _ & -> & Ho)%leased_rows_elem)%list_elem_of_fmap.
    apply batch_rows_elem in Ho as (Ho & Hc & _). destruct (lease_entry (ids m) now lease o Hc). exists o. split_and!; try done.
    intros c' [= <-]. by exists m. }
  split; cbn.
  - intros k o Hk. destruct (put_rows_kept (map snd rows) (id_outbox db) k) as [o' Ho']; [exact (mk_is_Some _ _ Hk)|]. exists o'. split; [done|].
    apply put_rows_lookup in Ho' as [Ho'|Ho']; [|replace o' with o by congruence; reflexivity].
    apply Hrows in Ho' as (q & Hq & Hm & _). by replace o with q by congruence.
  - intros k o' [Ho'|Ho']%put_rows_lookup; left; [|exists o'; split_and!; [done|reflexivity|by left]].
    apply Hrows in Ho' as (o & Ho & Hm & Hw). exists o. split_and!; try done. by right.
Qed.

Lemma matched_snd {A} (x : res (option A) * IdentityDb) : snd (matched x) = snd x.
Proof. done. Qed.

Lemma identity_step D o db : outbox_step D db (identity_exec o db).
Proof.
  assert (kept (fun _ => False) (fun _ => False) db (identity_exec o db)) as [_ _ [Hk Hf]].
  { apply (request_kept _ _ _ _ _ (exec_runs o db)). destruct (effect_of o); try done; by intros. }
  split; [intros k q Hq; exists q; split; [by auto|reflexivity]|]. intros k q [Hq|Hq]%Hf; [left|by right].
  exists q. split_and!; [done|reflexivity|by left].
Qed.

Definition drawn (o : delivery_op) (c : UUID) : Prop :=
  match o with DlClaim _ _ _ ids => exists n, ids n = c | _ => False end.

Lemma delivery_step o db : outbox_step (drawn o) db (delivery_exec o db).
Proof.
  destruct o; cbn [delivery_exec]; [| | | |apply identity_step].
  - destruct (claim_batch _ _ _ _ _) as [r db'] eqn:E. exact (claim_batch_step _ _ _ _ _ _ _ E).
  - unfold mark_delivered. rewrite matched_snd. destruct (update_entry _ _ _ _) as [r db'] eqn:E.
    refine (update_step _ _ _ _ _ _ _ _ _ E); [|done]. intros q. apply deliver_entry.
  - unfold mark_failed. rewrite matched_snd. destruct (update_entry _ _ _ _) as [r db'] eqn:E.
    refine (update_step _ _ _ _ _ _ _ _ _ E); [|done]. intros q. apply fail_entry.
  - assert (outbox_step (drawn (DlRedrive now id)) db (snd (redrive_dead_letter id now db))) as Hr.
    { unfold redrive_dead_letter. destruct (reject_if _ _ _); [|by apply outbox_step_same].
      destruct (update_entry _ _ _ _) as [r db'] eqn:E.
      apply (update_step (drawn (DlRedrive now id))) in E; [|intros q; apply redrive_entry|done]. by destruct r as [[|]|]. }
    unfold delivery_redrive. destruct (operations_now now); [|by apply outbox_step_same].
    by destruct (redrive_dead_letter _ _ _) as [[[|]|] db'].
Qed.

Lemma fresh_wf db k o : fresh_delivery db k o -> entry_wf o.
Proof. intros (d & uid & eid & h & e & t & enc & _ & _ & _ & _ & ->). split; cbn; [done|by intros [? ?]|done]. Qed.

Lemma step_wf D db db' : outbox_step D db db' -> outbox_wf db -> outbox_wf db'.
Proof.
  intros Hs Hw k o' [(o & Ho & _ & [->|[? _]])|Hf]%(os_from _ _ _ Hs); [exact (Hw k o Ho)|done|exact (fresh_wf _ _ _ Hf)].
Qed.

Lemma run_outbox_wf ops db : outbox_wf db -> outbox_wf (delivery_run ops db).
Proof. revert db. induction ops as [|p ops IH]; intros db Hw; [done|]. apply IH. exact (step_wf _ _ _ (delivery_step p db) Hw). Qed.
Lemma run_entries ops db k o :
  id_outbox db !! k = Some o -> exists o', id_outbox (delivery_run ops db) !! k = Some o' /\ entry_moved o o'.
Proof.
  revert db o. induction ops as [|p ops IH]; intros db o Hk; [exists o; split; [done|reflexivity]|].
  apply (os_kept _ _ _ (delivery_step p db)) in Hk as (o1 & Ho1 & M1). destruct (IH _ _ Ho1) as (o2 & Ho2 & M2). exists o2.
  split; [done|etrans; eassumption].
Qed.

Lemma delivery_run_app ops ops' db : delivery_run (ops ++ ops') db = delivery_run ops' (delivery_run ops db).
Proof. revert db. induction ops as [|o ops IH]; intros db; [done|apply IH]. Qed.

(** An entry of the outbox, in every interleaving of dispatchers, operators and requests of identities, keeps its message
    and its authority, never loses an attempt, and stays for ever as it was when it was delivered; and it is always either
    waiting, claimed, delivered or dead. *)
Theorem entries_keep_their_message ops db :
  outbox_wf db ->
  outbox_wf (delivery_run ops db) /\
  forall k o, id_outbox db !! k = Some o -> exists o', id_outbox (delivery_run ops db) !! k = Some o' /\ entry_moved o o'.
Proof. intros Hw. split; [by apply run_outbox_wf|]. intros k o. apply run_entries. Qed.

(** ** Claims *)

Definition unheld (c k : UUID) (db : IdentityDb) : Prop := forall o, id_outbox db !! k = Some o -> do_claim_id o <> Some c.

Lemma step_unheld c k o db : ~ drawn o c -> unheld c k db -> unheld c k (delivery_exec o db).
Proof.
  intros Hd Hu q [(p & Hp & _ & [->|[_ Hq]])|Hf]%(os_from _ _ _ (delivery_step o db)); [exact (Hu p Hp)|by intros ?%Hq|].
  by destruct Hf as (? & ? & ? & ? & ? & ? & ? & _ & _ & _ & _ & ->).
Qed.
Lemma run_unheld c k ops db : (forall o, o ∈ ops -> ~ drawn o c) -> unheld c k db -> unheld c k (delivery_run ops db).
Proof.
  revert db. induction ops as [|o ops IH]; intros db Hd Hu; [done|]. cbn. apply IH; [intros p Hp; apply Hd; by right|].
  apply step_unheld; [apply Hd; by left|done].
Qed.

Lemma unheld_update c k f db x :
  unheld c k db -> matched (update_entry k (holds_claim c) f db) = x -> x.2 = db /\ x.1 <> Ok true.
Proof.
  intros Hu <-. unfold matched. destruct (update_entry _ _ _ _) as [r db'] eqn:E.
  apply update_entry_cases in E as [[-> [->|[e ->]]]|(o & Ho & [Hc _]%andb_true_iff & _)]; try (by split).
  to_prop. by destruct (Hu o Ho).
Qed.

(** A claim that is not on its entry any more (its lease ran out and the entry was leased again, or finalized, or
    redriven) finalizes nothing, for ever: unless its identifier is drawn again, neither the success nor the failure its
    dispatcher reports, however late, changes the database, and neither is counted. *)
Theorem lost_claim_is_fenced ops db k c o now available_at code dead :
  id_outbox db !! k = Some o -> do_claim_id o <> Some c -> (forall p, p ∈ ops -> ~ drawn p c) ->
  let after := delivery_run ops db in
  (mark_delivered k c now after).2 = after /\ (mark_delivered k c now after).1 <> Ok true /\
  (mark_failed k c available_at code dead after).2 = after /\ (mark_failed k c available_at code dead after).1 <> Ok true.
Proof.
  intros Ho Hc Hd after. assert (unheld c k after) as Hu.
  { apply run_unheld; [done|]. intros q Hq. by replace q with o by congruence. }
  destruct (unheld_update c k (deliver_outbox now) after _ Hu eq_refl) as [? ?].
  destruct (unheld_update c k (fail_outbox available_at code dead) after _ Hu eq_refl) as [? ?]. done.
Qed.

(** ** Running leases *)

Lemma outbox_constraints f db :
  (forall k o', f (id_outbox db) !! k = Some o' -> exists o, id_outbox db !! k = Some o /\ entry_moved o o') ->
  identity_constraints db = Ok tt -> identity_constraints (with_outbox f db) = Ok tt.
Proof.
  intros Hf. rewrite !identity_constraints_Ok. unfold identity_uniques, identity_checks. intros [Hu Hc]. to_prop.
  split; cbn [with_outbox id_users id_sessions id_tokens id_actions id_factors id_codes id_requests id_outbox id_emails].
  - split_andb; try done; (eapply unique_on_kept; [|eassumption]); intros k o' (o & Ho & [Hm _ _])%Hf;
      exists o; (split; [done|congruence]).
  - split_andb; [done|]. rewrite check_rows_true. intros k o' (o & Ho & [Hm Ha _])%Hf.
    match goal with H : check_rows delivery_outbox_checks _ = true |- _ => rewrite check_rows_true in H; specialize (H k o Ho) end.
    unfold delivery_outbox_checks in *. to_prop. injection Hm as _ E1 E2 E3 _ _ _. rewrite E1 E2 E3. split_andb; [|done|by apply Z.leb_le; lia].
    by apply bool_decide_eq_true.
Qed.

(** Leaves alone the entry [k], leased as [c] at [t]. *)
Definition spares (k c : UUID) (t : datetime) (o : delivery_op) : Prop :=
  match o with
  | DlClaim now lease _ _ => instant now - lease < instant t
  | DlDelivered k' c' _ | DlFailed k' c' _ _ _ => (k', c') <> (k, c)
  | DlRedrive _ _ | DlIdentity _ => True
  end.
Definition leased (k c : UUID) (t : datetime) (o : AuthDeliveryOutbox) (db : IdentityDb) : Prop :=
  id_outbox db !! k = Some o /\ do_claim_id o = Some c /\ do_claimed_at o = Some t.

Lemma update_leased k c t o id p f db r db' :
  leased k c t o db -> (id = k -> p o = false) -> update_entry id p f db = (r, db') -> leased k c t o db'.
Proof.
  intros (Ho & Hc & Ht) Hp [[-> _]|(q & Hq & Hpq & _ & -> & _)]%update_entry_cases; [done|]. split_and!; try done. cbn.
  destruct (decide (id = k)) as [->|]; [|by rewrite lookup_insert_ne]. rewrite Ho in Hq. injection Hq as <-.
  by rewrite Hp in Hpq.
Qed.
Lemma claim_leased k c t o now lease n ids db r db' :
  leased k c t o db -> instant now - lease < instant t -> claim_batch now lease n ids db = (r, db') -> leased k c t o db'.
Proof.
  intros (Ho & Hc & Ht) Hn [[-> _]|(_ & -> & _)]%claim_batch_cases; [done|]. split_and!; try done. cbn.
  set (rows := leased_rows _ _ _). destruct (put_rows_kept (map snd rows) (id_outbox db) k) as [o' Ho'];
    [exact (mk_is_Some _ _ Ho)|]. rewrite Ho'. apply put_rows_lookup in Ho' as [Hr|Ho']; [|congruence]. exfalso.
  apply list_elem_of_fmap in Hr as ([c' [k' q']] & [= -> ->] & (m & q & _ & _ & Hq)%leased_rows_elem).
  apply batch_rows_elem in Hq as (Hq & Hq' & _). rewrite Ho in Hq. injection Hq as <-. unfold claimable_entry in Hq'.
  rewrite Ht in Hq'. to_prop. lia.
Qed.

Lemma step_leased k c t o p db : leased k c t o db -> spares k c t p -> leased k c t o (delivery_exec p db).
Proof.
  intros Hl. pose proof Hl as (Ho & Hc & Ht). destruct p; cbn [delivery_exec spares]; intros Hs.
  - destruct (claim_batch _ _ _ _ _) as [r db'] eqn:E. exact (claim_leased _ _ _ _ _ _ _ _ _ _ _ Hl Hs E).
  - unfold mark_delivered. rewrite matched_snd. destruct (update_entry _ _ _ _) as [r db'] eqn:E.
    refine (update_leased _ _ _ _ _ _ _ _ _ _ Hl _ E). intros ->. unfold holds_claim. rewrite bool_decide_eq_false_2 //. congruence.
  - unfold mark_failed. rewrite matched_snd. destruct (update_entry _ _ _ _) as [r db'] eqn:E.
    refine (update_leased _ _ _ _ _ _ _ _ _ _ Hl _ E). intros ->. unfold holds_claim. rewrite bool_decide_eq_false_2 //. congruence.
  - assert (leased k c t o (snd (redrive_dead_letter id now db))) as Hr.
    { unfold redrive_dead_letter. destruct (reject_if _ _ _); [|done]. destruct (update_entry _ _ _ _) as [r db'] eqn:E.
      apply (update_leased k c t o) in E; [by destruct r as [[|]|]|done|]. intros ->. unfold dead_letter. rewrite Hc.
      by rewrite (bool_decide_eq_false_2 (Some c = None)) // andb_false_r. }
    unfold delivery_redrive. destruct (operations_now now); [|done]. by destruct (redrive_dead_letter _ _ _) as [[[|]|] db'].
  - split; [|done].
    assert (kept (fun _ => False) (fun _ => False) db (identity_exec o0 db)) as [_ _ [Hk _]]; [|by apply Hk].
    apply (request_kept _ _ _ _ _ (exec_runs o0 db)). destruct (effect_of o0); try done; by intros.
Qed.

Lemma step_constraints p db : identity_constraints db = Ok tt -> identity_constraints (delivery_exec p db) = Ok tt.
Proof.
  intros Hok. destruct p; cbn [delivery_exec]; [| | | |exact (request_constraints _ _ _ (exec_runs _ _) Hok)].
  - destruct (claim_batch _ _ _ _ _) as [r db'] eqn:E. by apply claim_batch_cases in E as [[-> _]|(_ & _ & ?)].
  - unfold mark_delivered. rewrite matched_snd. destruct (update_entry _ _ _ _) as [r db'] eqn:E.
    by apply update_entry_cases in E as [[-> _]|(? & _ & _ & _ & _ & ?)].
  - unfold mark_failed. rewrite matched_snd. destruct (update_entry _ _ _ _) as [r db'] eqn:E.
    by apply update_entry_cases in E as [[-> _]|(? & _ & _ & _ & _ & ?)].
  - assert (identity_constraints (snd (redrive_dead_letter id now db)) = Ok tt) as Hr.
    { unfold redrive_dead_letter. destruct (reject_if _ _ _); [|done]. destruct (update_entry _ _ _ _) as [r db'] eqn:E.
      apply update_entry_cases in E as [[-> _]|(? & _ & _ & _ & _ & ?)]; by destruct r as [[|]|]. }
    unfold delivery_redrive. destruct (operations_now now); [|done]. by destruct (redrive_dead_letter _ _ _) as [[[|]|] db'].
Qed.

Lemma run_leased k c t o ops db :
  leased k c t o db -> identity_constraints db = Ok tt -> (forall p, p ∈ ops -> spares k c t p) ->
  leased k c t o (delivery_run ops db) /\ identity_constraints (delivery_run ops db) = Ok tt.
Proof.
  revert db. induction ops as [|p ops IH]; intros db Hl Hok Hs; [done|]. cbn. apply IH; [|by apply step_constraints|].
  - apply step_leased; [done|]. apply Hs. by left.
  - intros q Hq. apply Hs. by right.
Qed.

Lemma update_leased_ok k c t o f db :
  leased k c t o db -> identity_constraints db = Ok tt -> open_entry o = true -> entry_moved o (f o) ->
  update_entry k (holds_claim c) f db = (Ok (Some (f o)), with_outbox (<[k := f o]>) db).
Proof.
  intros (Ho & Hc & _) Hok Hop Hm. unfold update_entry, with_uow. rewrite bind_query. cbn [working Datatypes.id]. rewrite Ho.
  unfold holds_claim. rewrite Hop bool_decide_eq_true_2 //. cbn [andb]. rewrite commit_eq outbox_constraints //.
  intros j q [[<- <-]|[_ Hq]]%lookup_insert_Some; [by exists o|exists q; split; [done|reflexivity]].
Qed.

(** C18. While its lease runs a claim is exclusive: whatever other dispatchers, operators and identities do meanwhile, the
    entry stays as it was leased, and its dispatcher finalizes it, with success or with failure.
    Others are the operations that [spares] admits: a batch is claimed before the lease has ended, and nobody else finalizes
    the entry with this claim id. *)
Theorem running_lease_is_exclusive ops db k c t o now available_at code dead :
  id_outbox db !! k = Some o -> do_claim_id o = Some c -> do_claimed_at o = Some t -> open_entry o = true ->
  identity_constraints db = Ok tt -> (forall p, p ∈ ops -> spares k c t p) ->
  let after := delivery_run ops db in
  id_outbox after !! k = Some o /\
  mark_delivered k c now after = (Ok true, with_outbox (<[k := deliver_outbox now o]>) after) /\
  mark_failed k c available_at code dead after = (Ok true, with_outbox (<[k := fail_outbox available_at code dead o]>) after).
Proof.
  intros Ho Hc Ht Hop Hok Hs after. destruct (run_leased k c t o ops db) as [Hl Hok']; [done|done|done|]. fold after in Hl, Hok'.
  assert (holds_claim c o = true) as Hh by (unfold holds_claim; by rewrite Hop bool_decide_eq_true_2).
  split; [apply Hl|]. unfold mark_delivered, mark_failed, matched.
  rewrite !(update_leased_ok k c t o); try done; [by apply (deliver_entry c)|by apply (fail_entry c)].
Qed.

(** ** Runs of the dispatcher *)

(** The message of a claim that is eligible when it is looked at. *)
Definition message_for (cfg : DeliveryDispatcherConfig) (now : datetime) (c : DeliveryClaim) (m : DeliveryMessage) : Prop :=
  ineligible_error c now = None /\ exists profile recipient raw_token,
    DELIVERY_EVENT_PROFILES (dc_event_type c) = Some profile /\ dc_recipient_email c = Some recipient /\
    decrypt_payload c (ep_purpose profile) = Ok raw_token /\ m = message_of cfg c profile recipient raw_token.

(** One claim is counted once. *)
Definition counted_once (delivered : bool) (x : DeliveryDispatchResult) : Prop :=
  dp_claimed x = 0 /\ dp_delivered x = (if delivered then 1 else 0) /\ 0 <= dp_retry_scheduled x /\ 0 <= dp_dead_lettered x /\
  0 <= dp_stale_finalization x /\ dp_delivered x + dp_retry_scheduled x + dp_dead_lettered x + dp_stale_finalization x = 1.

(** What processing a claim does: the database is run further, at most one message is handed over, and the claim is counted. *)
Record processed (cfg : DeliveryDispatcherConfig) (now : datetime) (c : DeliveryClaim) (s : DispatchState)
    (r : res DeliveryDispatchResult) (s' : DispatchState) : Prop := {
  pr_db : exists ops, ds_db s' = delivery_run ops (ds_db s);
  pr_sent : exists ms, ds_sent s' = ms ++ ds_sent s /\ (length ms <= 1)%nat /\ (forall m, m ∈ ms -> message_for cfg now c m) /\
    forall x, r = Ok x -> exists delivered, counted_once delivered x /\
      (delivered = true -> length ms = 1%nat /\
        exists o, id_outbox (ds_db s') !! dc_outbox_id c = Some o /\ is_Some (do_delivered_at o))
}.

Lemma fail_claim_cases cfg now c code terminal s r s' :
  fail_claim cfg now c code terminal s = (r, s') ->
  ds_sent s' = ds_sent s /\ (exists ops, ds_db s' = delivery_run ops (ds_db s)) /\ forall x, r = Ok x -> counted_once false x.
Proof.
  unfold fail_claim. intros H. m_step H E1; injection E1 as E1 <-; [|injection H as <- <-; split_and!; [done|by exists []|done]].
  set (dead := if _ : bool then Some now else None) in H. m_step H E2; injection E2 as E2 <-;
    [|injection H as <- <-; split_and!; [done|by exists []|done]].
  m_step H E3; unfold call in E3; destruct (mark_failed _ _ _ _ _ _) as [q db'] eqn:Em; injection E3 as -> <-;
    injection H as <- <-; (split; [done|]; split;
      [exists [DlFailed (dc_outbox_id c) (dc_claim_id c) v0 code dead]; cbn [delivery_run delivery_exec ds_db]; by rewrite Em|]); [|done].
  intros x [= <-]. destruct v1; [destruct dead|]; cbn; unfold counted_once, one_of; cbn; lia.
Qed.

Lemma run_further ops s s' :
  (exists ops', ds_db s' = delivery_run ops' (delivery_run ops (ds_db s))) -> exists ops', ds_db s' = delivery_run ops' (ds_db s).
Proof. intros [ops' ->]. exists (ops ++ ops'). by rewrite delivery_run_app. Qed.

Lemma bind_meanwhile {A} ops (m : M DispatchState A) s :
  (meanwhile ops;; m) s = m {| ds_db := delivery_run ops (ds_db s); ds_sent := ds_sent s |}.
Proof. done. Qed.
Lemma bind_hand_over {A} msg (m : M DispatchState A) s :
  (hand_over msg;; m) s = m {| ds_db := ds_db s; ds_sent := msg :: ds_sent s |}.
Proof. done. Qed.

Lemma process_claim_processed cfg sc c s r s' :
  process_claim cfg sc c s = (r, s') -> processed cfg (cs_now sc) c s r s'.
Proof.
  assert (forall ms q q', (length ms <= 1)%nat -> (forall m, m ∈ ms -> message_for cfg (cs_now sc) c m) ->
    ds_sent q' = ms ++ ds_sent s /\ (exists ops, ds_db q' = delivery_run ops (ds_db s)) /\ (forall x, q = Ok x -> counted_once false x) ->
    processed cfg (cs_now sc) c s q q') as Hnot.
  { intros ms q q' Hlen Hms (Hs & Hd & Hc). split; [done|]. exists ms. split_and!; [done..|]. intros x Hx. exists false. split; [by apply Hc|done]. }
  assert (forall e, processed cfg (cs_now sc) c s (Raise e) s) as Hraise.
  { intros e. apply (Hnot []); [cbn; lia|by intros m ?%elem_of_nil|]. split_and!; [done|by exists []|done]. }
  unfold process_claim. intros H. m_step H E1; injection E1 as E1 <-; [|injection H as <- <-; apply Hraise].
  destruct (ineligible_error c (cs_now sc)) as [code|] eqn:Ei.
  { rewrite bind_meanwhile in H. apply fail_claim_cases in H as (Hs & Hd & Hc). apply (Hnot []); [cbn; lia|by intros m ?%elem_of_nil|].
    split_and!; [done|by apply (run_further (cs_others sc))|done]. }
  destruct (DELIVERY_EVENT_PROFILES (dc_event_type c)) as [profile|] eqn:Ep; [|injection H as <- <-; apply Hraise].
  destruct (dc_recipient_email c) as [recipient|] eqn:Er; [|injection H as <- <-; apply Hraise].
  destruct (decrypt_payload c (ep_purpose profile)) as [raw|[k msg]] eqn:Ed.
  - assert (forall m, m ∈ [message_of cfg c profile recipient raw] -> message_for cfg (cs_now sc) c m) as Hm.
    { intros m ->%list_elem_of_singleton. split; [done|]. by exists profile, recipient, raw. }
    rewrite bind_hand_over bind_meanwhile in H. cbn [ds_db ds_sent] in H.
    assert (forall code terminal, fail_claim cfg (cs_end sc) c code terminal
      {| ds_db := delivery_run (cs_others sc) (ds_db s); ds_sent := message_of cfg c profile recipient raw :: ds_sent s |} = (r, s') ->
      processed cfg (cs_now sc) c s r s') as Hfail.
    { intros code terminal (Hs & Hd & Hc)%fail_claim_cases. apply (Hnot [message_of cfg c profile recipient raw]); [done..|].
      split_and!; [done|by apply (run_further (cs_others sc))|done]. }
    destruct (cs_outcome sc) as [|code retryable|]; [|exact (Hfail _ _ H)..].
    m_step H E4; injection E4 as E4 <-;
      [|injection H as <- <-; apply (Hnot [message_of cfg c profile recipient raw]); [done..|]; split_and!; [done|by exists (cs_others sc)|done]].
    m_step H E5; unfold call in E5; destruct (mark_delivered _ _ _ _) as [q db'] eqn:Em; injection E5 as -> <-; injection H as <- <-;
      (assert (exists ops, db' = delivery_run ops (ds_db s)) as Hops;
        [exists (cs_others sc ++ [DlDelivered (dc_outbox_id c) (dc_claim_id c) (cs_end sc)]);
         rewrite delivery_run_app; cbn [delivery_run delivery_exec]; cbn [ds_db] in Em; by rewrite Em|]);
      (split; [exact Hops|]; exists [message_of cfg c profile recipient raw]; split_and!; [done..|]); [|done].
    intros x [= <-]. exists v1. split; [destruct v1; unfold counted_once, one_of; cbn; lia|]. intros ->. split; [done|]. cbn [ds_db] in *.
    unfold mark_delivered, matched in Em. destruct (update_entry _ _ _ _) as [z db''] eqn:Eu. cbn [fst snd] in Em.
    apply update_entry_cases in Eu as [[-> [->|[e ->]]]|(o & Ho & _ & -> & -> & _)]; [done..|]. injection Em as <-. cbn.
    exists (deliver_outbox (cs_end sc) o). rewrite lookup_insert_eq. by split.
  - destruct k; try (injection H as <- <-; apply Hraise). rewrite bind_meanwhile in H.
    apply fail_claim_cases in H as (Hs & Hd & Hc). apply (Hnot []); [cbn; lia|by intros m ?%elem_of_nil|].
    split_and!; [done|by apply (run_further (cs_others sc))|done].
Qed.

(** What was handed over, in the order it was. *)
Definition sent_for (cfg : DeliveryDispatcherConfig) (sent : list DeliveryClaim) (ms : list DeliveryMessage) : Prop :=
  Forall2 (fun c m => exists now, message_for cfg now c m) sent (reverse ms).

(** A batch of claims: [sent] are those whose message was handed over, [delivered] those that were delivered. *)
Record batch_done (cfg : DeliveryDispatcherConfig) (claims : list DeliveryClaim) (s : DispatchState)
    (acc : DeliveryDispatchResult) (r : res DeliveryDispatchResult) (s' : DispatchState) (sent : list DeliveryClaim) : Prop := {
  bd_db : exists ops, ds_db s' = delivery_run ops (ds_db s);
  bd_sent : exists ms, ds_sent s' = ms ++ ds_sent s /\ sent_for cfg sent ms;
  bd_sublist : sent `sublist_of` claims;
  bd_counts : forall x, r = Ok x -> dp_claimed x = dp_claimed acc /\
    dp_retry_scheduled acc <= dp_retry_scheduled x /\ dp_dead_lettered acc <= dp_dead_lettered x /\
    dp_stale_finalization acc <= dp_stale_finalization x /\
    dp_delivered x + dp_retry_scheduled x + dp_dead_lettered x + dp_stale_finalization x =
      dp_delivered acc + dp_retry_scheduled acc + dp_dead_lettered acc + dp_stale_finalization acc + Z.of_nat (length claims) /\
    exists delivered, delivered `sublist_of` sent /\ dp_delivered x = dp_delivered acc + Z.of_nat (length delivered) /\
      forall c, c ∈ delivered -> exists o, id_outbox (ds_db s') !! dc_outbox_id c = Some o /\ is_Some (do_delivered_at o)
}.

Lemma sent_for_one cfg now c ms :
  (length ms <= 1)%nat -> (forall m, m ∈ ms -> message_for cfg now c m) ->
  exists one, one `sublist_of` [c] /\ length one = length ms /\ sent_for cfg one ms.
Proof.
  intros Hlen Hm. destruct ms as [|m [|]]; cbn in Hlen; [|exists [c]|lia].
  - exists []. split_and!; [apply sublist_nil_l|done|constructor].
  - split_and!; [done..|]. constructor; [|constructor]. exists now. apply Hm. by left.
Qed.

Lemma process_claims_done cfg script claims : forall n acc s r s',
  outbox_wf (ds_db s) -> process_claims cfg script n claims acc s = (r, s') ->
  exists sent, batch_done cfg claims s acc r s' sent.
Proof.
  induction claims as [|c claims IH]; intros n acc s r s' Hw H; cbn [process_claims] in H.
  { injection H as <- <-. exists []. split; [by exists []|exists []; split; [done|constructor]|constructor|]. intros x [= <-].
    split_and!; try (cbn; lia). exists []. split_and!; [constructor|cbn; lia|]. by intros c ?%elem_of_nil. }
  m_step H E; apply process_claim_processed in E as [[ops Ho] (ms & Hms & Hlen & Hm & Hc)];
    destruct (sent_for_one _ _ _ _ Hlen Hm) as (one & H1 & H2 & H3).
  - assert (outbox_wf (ds_db st)) as Hw1 by (rewrite Ho; by apply run_outbox_wf).
    apply IH in H as [sent [[ops' Ho'] (ms' & Hms' & Hf) Hsub Hx]]; [|done].
    destruct (Hc _ eq_refl) as (d & (C1 & C2 & C3 & C4 & C5 & C6) & Hd).
    exists (one ++ sent). split.
    + exists (ops ++ ops'). by rewrite delivery_run_app Ho' Ho.
    + exists (ms' ++ ms). rewrite Hms' Hms app_assoc. split; [done|]. unfold sent_for. rewrite reverse_app. by apply Forall2_app.
    + by apply (sublist_app _ [c]).
    + intros x Hr. destruct (Hx x Hr) as (D1 & D2 & D3 & D4 & D5 & del & D6 & D7 & D8). cbn in D1, D2, D3, D4, D5, D7. cbn [length].
      split_and!; try lia. exists ((if d then one else []) ++ del). split_and!.
      * apply sublist_app; [|done]. destruct d; [done|apply sublist_nil_l].
      * rewrite length_app. destruct d; cbn; [|lia]. destruct (Hd eq_refl) as [? _]. lia.
      * intros c' [Hin|?]%elem_of_app; [|by apply D8]. destruct d; [|by apply elem_of_nil in Hin].
        apply (sublist_subseteq _ _ H1) in Hin as ->%list_elem_of_singleton.
        destruct (Hd eq_refl) as [_ (o & Hk & Hdel)]. apply (run_entries ops') in Hk as (o' & Hk & Hmv). rewrite -Ho' in Hk. exists o'. split; [done|]. by rewrite (en_delivered _ _ Hmv).
  - injection H as <- <-. exists one. split; [by exists ops|by exists ms| |done].
    etrans; [exact H1|]. apply sublist_skip, sublist_nil_l.
Qed.

(** The claims of a batch. *)
Definition batch_claims (now : datetime) (lease : Z) (n : nat) (ids : nat -> UUID) (db : IdentityDb) : list DeliveryClaim :=
  omap (fun ck => claim_of db ck.1 ck.2) (leased_rows now ids (batch_rows now lease n db)).

Lemma claim_of_id db c ko x : claim_of db c ko = Some x -> dc_outbox_id x = ko.1.
Proof. unfold claim_of. by intros (u & _ & [= <-])%bind_Some. Qed.

Lemma leased_ids now ids rows : (fun ck : UUID * (UUID * AuthDeliveryOutbox) => ck.2.1) <$> leased_rows now ids rows = rows.*1.
Proof.
  unfold leased_rows. rewrite fmap_imap. revert ids. induction rows as [|[k o] rows IH]; intros ids; [done|]. cbn. f_equal.
  apply (IH (ids ∘ S)).
Qed.
Lemma claims_sublist db rows :
  dc_outbox_id <$> omap (fun ck => claim_of db ck.1 ck.2) rows `sublist_of` (fun ck : UUID * (UUID * AuthDeliveryOutbox) => ck.2.1) <$> rows.
Proof.
  induction rows as [|[c ko] rows IH]; cbn; [constructor|]. destruct (claim_of db c ko) as [x|] eqn:E; cbn; [|by constructor].
  rewrite (claim_of_id _ _ _ _ E). by constructor.
Qed.
Lemma batch_ids_NoDup now lease n db : NoDup (batch_rows now lease n db).*1.
Proof.
  unfold batch_rows. eapply sublist_NoDup; [|apply fmap_sublist, sublist_take]. rewrite merge_sort_Permutation. apply NoDup_find_rows.
Qed.
Lemma batch_claims_NoDup now lease n ids db : NoDup (dc_outbox_id <$> batch_claims now lease n ids db).
Proof. eapply sublist_NoDup; [|apply claims_sublist]. rewrite leased_ids. apply batch_ids_NoDup. Qed.
Lemma batch_claims_length now lease n ids db : (length (batch_claims now lease n ids db) <= n)%nat.
Proof.
  pose proof (sublist_length _ _ (claims_sublist db (leased_rows now ids (batch_rows now lease n db)))) as H.
  rewrite leased_ids !length_fmap in H. unfold batch_rows in H. rewrite length_take in H. unfold batch_claims, batch_rows. lia.
Qed.
Lemma batch_claims_elem now lease n ids db c :
  c ∈ batch_claims now lease n ids db ->
  exists o j, id_outbox db !! dc_outbox_id c = Some o /\ claimable_entry now lease o = true /\
    claim_of db (ids j) (dc_outbox_id c, lease_outbox (ids j) now o) = Some c.
Proof.
  intros ([cid [k q]] & (j & o & -> & -> & Ho)%leased_rows_elem & Hc)%list_elem_of_omap. pose proof (claim_of_id _ _ _ _ Hc) as Hk.
  cbn in Hk, Hc. rewrite Hk. apply batch_rows_elem in Ho as (? & ? & _). by exists o, j.
Qed.

Lemma dispatch_once_cases cfg now ids script s r s' :
  outbox_wf (ds_db s) -> dispatch_once cfg now ids script s = (r, s') ->
  s' = s /\ (exists e, r = Raise e) \/
  exists s1 acc sent, let claims := batch_claims now (cf_lease_timeout cfg) (Z.to_nat (cf_batch_size cfg)) ids (ds_db s) in
    ds_sent s1 = ds_sent s /\ ds_db s1 = delivery_exec (DlClaim now (cf_lease_timeout cfg) (Z.to_nat (cf_batch_size cfg)) ids) (ds_db s) /\
    acc = {| dp_claimed := Z.of_nat (length claims); dp_delivered := 0; dp_retry_scheduled := 0; dp_dead_lettered := 0;
             dp_stale_finalization := 0 |} /\ batch_done cfg claims s1 acc r s' sent.
Proof.
  intros Hw H. unfold dispatch_once in H. m_step H E1; injection E1 as E1 <-; [|injection H as <- <-; left; eauto].
  m_step H E2; unfold call in E2; destruct (claim_batch _ _ _ _ _) as [q db'] eqn:Eb; injection E2 as -> <-.
  - pose proof Eb as Hb. apply claim_batch_cases in Hb as [[_ [e [=]]]|([= ->] & _ & _)].
    assert (db' = delivery_exec (DlClaim now (cf_lease_timeout cfg) (Z.to_nat (cf_batch_size cfg)) ids) (ds_db s)) as Hd
      by (cbn [delivery_exec]; by rewrite Eb).
    apply process_claims_done in H as [sent Hdone]; [right; do 2 eexists; exists sent; split_and!; [..|exact Hdone]; done|].
    cbn [ds_db]. rewrite Hd. exact (step_wf _ _ _ (delivery_step _ _) Hw).
  - injection H as <- <-. left. apply claim_batch_cases in Eb as [[-> _]|([=] & _)]. split; [by destruct s|by eexists].
Qed.

Definition delivery_key (k : UUID) : string := "pmk-auth-delivery-v1:" +:+ k.
Lemma message_key cfg now c m : message_for cfg now c m -> me_idempotency_key m = delivery_key (dc_outbox_id c).
Proof. by intros (_ & ? & ? & ? & _ & _ & _ & ->). Qed.
Lemma sent_keys cfg sent ms : sent_for cfg sent ms -> me_idempotency_key <$> reverse ms = delivery_key <$> (dc_outbox_id <$> sent).
Proof.
  unfold sent_for. induction 1 as [|c m sent ms' [now Hm] _ IH]; [done|]. cbn. by rewrite (message_key _ _ _ _ Hm) IH.
Qed.
Lemma config_batch cfg u : DeliveryDispatcherConfig_post_init cfg = Ok u -> 1 <= cf_batch_size cfg.
Proof. intros (_ & H%reject_if_Ok & _)%res_bind_Ok. to_prop. lia. Qed.

(** A run of the dispatcher accounts for its batch: it takes no more than its size, every claim is counted once, as
    delivered, to be retried, dead or stale, no entry is handed to the provider twice, and what is counted as delivered was
    claimable, was handed over, and is delivered in the database when the run ends. *)
Theorem dispatch_accounts_for_its_batch cfg u now ids script s x s' :
  DeliveryDispatcherConfig_post_init cfg = Ok u -> outbox_wf (ds_db s) -> dispatch_once cfg now ids script s = (Ok x, s') ->
  dp_claimed x <= cf_batch_size cfg /\
  dp_claimed x = dp_delivered x + dp_retry_scheduled x + dp_dead_lettered x + dp_stale_finalization x /\
  0 <= dp_retry_scheduled x /\ 0 <= dp_dead_lettered x /\ 0 <= dp_stale_finalization x /\
  exists ms delivered, ds_sent s' = ms ++ ds_sent s /\ NoDup (me_idempotency_key <$> ms) /\
    NoDup delivered /\ dp_delivered x = Z.of_nat (length delivered) /\
    forall k, k ∈ delivered -> delivery_key k ∈ (me_idempotency_key <$> ms) /\
      exists o o', id_outbox (ds_db s) !! k = Some o /\ claimable_entry now (cf_lease_timeout cfg) o = true /\
        id_outbox (ds_db s') !! k = Some o' /\ is_Some (do_delivered_at o').
Proof.
  intros Hcfg%config_batch Hw [[_ [e [=]]]|(s1 & acc & sent & Hs1 & _ & -> & [_ (ms & Hms & Hsent) Hsub Hx])]%dispatch_once_cases; [|done].
  set (claims := batch_claims _ _ _ _ _) in *. destruct (Hx x eq_refl) as (H1 & H2 & H3 & H4 & H5 & del & H6 & H7 & H8).
  cbn in H1, H2, H3, H4, H5, H7. pose proof (batch_claims_length now (cf_lease_timeout cfg) (Z.to_nat (cf_batch_size cfg)) ids (ds_db s)) as Hlen.
  fold claims in Hlen. split_and!; try lia. exists ms, (dc_outbox_id <$> del).
  pose proof (batch_claims_NoDup now (cf_lease_timeout cfg) (Z.to_nat (cf_batch_size cfg)) ids (ds_db s)) as Hnd. fold claims in Hnd.
  assert (NoDup (dc_outbox_id <$> sent)) as Hnd' by (eapply sublist_NoDup; [exact Hnd|by apply fmap_sublist]).
  assert (me_idempotency_key <$> ms ≡ₚ delivery_key <$> (dc_outbox_id <$> sent)) as Hkeys
    by (rewrite -(sent_keys _ _ _ Hsent); by rewrite (reverse_Permutation ms)).
  split_and!; [by rewrite Hms Hs1| | |by rewrite length_fmap|].
  - rewrite Hkeys. apply NoDup_fmap_2; [|done]. intros k k' E. by apply (inj _) in E.
  - eapply sublist_NoDup; [exact Hnd'|by apply fmap_sublist].
  - intros k (c & -> & Hc)%list_elem_of_fmap. split.
    + rewrite Hkeys. do 2 apply list_elem_of_fmap_2. by apply (sublist_subseteq _ _ H6).
    + apply H8 in Hc as Hd. apply (sublist_subseteq _ _ H6), (sublist_subseteq _ _ Hsub) in Hc.
      apply batch_claims_elem in Hc as (o & _ & Ho & Hcl & _). destruct Hd as (o' & Ho' & Hdel). by exists o, o'.
Qed.

(** ** The link of a recovery *)

(** The message of a recovery is for its request: it carries the token the request is verified with. *)
Definition carries (db : IdentityDb) (k : UUID) (o : AuthDeliveryOutbox) : Prop :=
  forall rid, do_account_recovery_request_id o = Some rid ->
    do_action_token_id o = None /\ do_event_type o = VERIFICATION_PURPOSE /\
    exists rq nonce token, id_requests db !! rid = Some rq /\ rq_user_id rq = do_user_id o /\
      token_digest VERIFICATION_PURPOSE token = Ok (rq_verification_token_hash rq) /\
      DeliveryPayloadCipher_encrypt nonce token k (do_user_id o) VERIFICATION_PURPOSE None (Some rid) =
        Ok (do_payload_ciphertext o, do_payload_key_version o).
Definition recoveries_tied (db : IdentityDb) : Prop := forall k o, id_outbox db !! k = Some o -> carries db k o.

Lemma carries_moved db db' k o o' :
  table_moved request_moved (id_requests db) (id_requests db') -> entry_moved o o' -> carries db k o -> carries db' k o'.
Proof.
  intros Hr [Hm _ _] Hc rid. injection Hm as E1 E2 E3 E4 E5 E6 _. rewrite E3. intros Hrid.
  destruct (Hc rid Hrid) as (H1 & H2 & rq & nonce & token & Hq & H3 & H4 & H5). rewrite E2 E4 E1 E5 E6. split_and!; try done.
  destruct (Hr rid rq Hq) as (rq' & Hq' & [Ht _ _]). injection Ht as T1 T2. exists rq', nonce, token. by rewrite T1 T2.
Qed.
Lemma fresh_carries db k o : fresh_delivery db k o -> carries db k o.
Proof.
  intros (d & uid & eid & h & e & t & enc & -> & Hh & Hr & He & ->) rid. cbn. intros [= <-]. split_and!; [done..|].
  eexists _, (vd_nonce d), (vd_token d). split_and!; [exact Hr|done..|by destruct enc].
Qed.

Lemma update_moves id p f db r db' : update_entry id p f db = (r, db') -> identity_moved db db'.
Proof. intros [[-> _]|(o & _ & _ & _ & -> & _)]%update_entry_cases; [reflexivity|apply moved_outbox; reflexivity]. Qed.
Lemma delivery_moves p db : identity_moved db (delivery_exec p db).
Proof.
  destruct p; cbn [delivery_exec]; [| | | |exact (request_moves _ _ _ (exec_runs _ _))].
  - destruct (claim_batch _ _ _ _ _) as [r db'] eqn:E. apply claim_batch_cases in E as [[-> _]|(_ & -> & _)]; [reflexivity|apply moved_outbox; reflexivity].
  - unfold mark_delivered. rewrite matched_snd. destruct (update_entry _ _ _ _) as [r db'] eqn:E. exact (update_moves _ _ _ _ _ _ E).
  - unfold mark_failed. rewrite matched_snd. destruct (update_entry _ _ _ _) as [r db'] eqn:E. exact (update_moves _ _ _ _ _ _ E).
  - assert (identity_moved db (snd (redrive_dead_letter id now db))) as Hr.
    { unfold redrive_dead_letter. destruct (reject_if _ _ _); [|reflexivity]. destruct (update_entry _ _ _ _) as [r db'] eqn:E.
      apply update_moves in E. by destruct r as [[|]|]. }
    unfold delivery_redrive. destruct (operations_now now); [|reflexivity]. by destruct (redrive_dead_letter _ _ _) as [[[|]|] db'].
Qed.

Lemma step_tied p db : recoveries_tied db -> recoveries_tied (delivery_exec p db).
Proof.
  intros Ht k o' [(o & Ho & Hm & _)|Hf]%(os_from _ _ _ (delivery_step p db)); [|by apply fresh_carries].
  exact (carries_moved _ _ _ _ _ (im_requests _ _ (delivery_moves p db)) Hm (Ht k o Ho)).
Qed.
Lemma run_tied ops db : recoveries_tied db -> recoveries_tied (delivery_run ops db).
Proof. revert db. induction ops as [|p ops IH]; intros db Ht; [done|]. by apply IH, step_tied. Qed.

(** The link of the message of the recovery [rid], in the database its claim was taken in: the account is active and its
    request pending, the token is the one the request is verified with, and the message goes to the verified address. *)
Definition recovery_link (cfg : DeliveryDispatcherConfig) (db : IdentityDb) (user_id rid : UUID) (m : DeliveryMessage) : Prop :=
  exists user rq token address_id address,
    id_users db !! user_id = Some user /\ iu_status user = UsActive /\
    id_requests db !! rid = Some rq /\ rq_user_id rq = user_id /\ rq_state rq = RqPending /\ rq_revoked_at rq = None /\
    token_digest VERIFICATION_PURPOSE token = Ok (rq_verification_token_hash rq) /\
    id_emails db !! address_id = Some address /\ verified_address user_id address = true /\
    me_recipient m = ie_email_normalized address /\
    me_verification_url m = cf_public_base_url cfg +:+ "/auth/account-recovery/verify?token=" +:+ quote_plus token +:+
                            "&request_id=" +:+ quote_plus rid.

Lemma recovery_profile : DELIVERY_EVENT_PROFILES VERIFICATION_PURPOSE =
  Some {| ep_purpose := VERIFICATION_PURPOSE; ep_template := "account_recovery_verification";
          ep_verification_path := "/auth/account-recovery/verify"; ep_eligible_user_statuses := [UsActive] |}.
Proof. done. Qed.

Lemma recovery_recipient user db o :
  do_event_type o = VERIFICATION_PURPOSE ->
  recipient_of user db o = (fun ke => ie_email_normalized ke.2) <$> find_row (verified_address (do_user_id o)) (id_emails db).
Proof. unfold recipient_of. by intros ->. Qed.

Lemma eligible_recovery c now rid :
  dc_event_type c = VERIFICATION_PURPOSE -> dc_action_token_id c = None -> dc_account_recovery_request_id c = Some rid ->
  ineligible_error c now = None ->
  dc_user_status c = UsActive /\ dc_account_recovery_state c = Some RqPending /\ dc_account_recovery_revoked_at c = None.
Proof.
  intros E1 E2 E3. unfold ineligible_error. rewrite E1 recovery_profile E2 E3.
  case_bool_decide; [done|]. cbn [ep_eligible_user_statuses]. case_bool_decide as Hst; [|done]. cbn [negb].
  rewrite (bool_decide_eq_false_2 (is_Some (@None UUID))); [by intros [? ?]|]. rewrite bool_decide_eq_true_2; [by eexists|]. cbn [eqb].
  case_bool_decide as Hs; [|done]. cbn [negb]. case_bool_decide as Hr; [done|]. intros _. split_and!; [|done|by apply eq_None_not_Some].
  by apply list_elem_of_singleton in Hst.
Qed.

Lemma text_of_bytes s : text_of (bytes_of s) = s.
Proof.
  unfold text_of, bytes_of. rewrite map_map (map_ext _ (fun c => c)); [|by rewrite map_id String.string_of_list_ascii_of_string].
  intros c. unfold code, Ascii.ascii_of_nat. by rewrite Z_nat_N N2Z.id Ascii.ascii_N_embedding.
Qed.
(** A payload is decrypted to the token that was encrypted. *)
Lemma payload_round_trip nonce token k user_id purpose action request encrypted raw :
  (forall key nonce data aad, aesgcm_decrypt key nonce (aesgcm_encrypt key nonce data aad) aad = Some data) ->
  DeliveryPayloadCipher_encrypt nonce token k user_id purpose action request = Ok encrypted ->
  DeliveryPayloadCipher_decrypt encrypted k user_id purpose action request = Ok raw -> raw = token.
Proof.
  intros Haes (_ & _ & (aad & Ha & He)%res_bind_Ok)%res_bind_Ok (data & Hd & (_ & _ & [= <-])%res_bind_Ok)%res_bind_Ok.
  unfold seal in He. unfold unseal in Hd. destruct (ck_keys delivery_keys !! _) as [key|] eqn:Ek; [|done]. injection He as <-.
  cbn [fst snd] in Hd. rewrite Ek in Hd. apply res_bind_Ok in Hd as (_ & _ & (aad' & Ha' & Hd)%res_bind_Ok).
  rewrite Ha in Ha'. injection Ha' as <-. rewrite take_app_length' ?drop_app_length' ?length_vec_to_list // in Hd.
  rewrite Haes in Hd. injection Hd as <-. apply text_of_bytes.
Qed.

Lemma recovery_message cfg now db cid k o c m rid :
  (forall key nonce data aad, aesgcm_decrypt key nonce (aesgcm_encrypt key nonce data aad) aad = Some data) ->
  claim_of db cid (k, lease_outbox cid now o) = Some c -> carries db k o -> do_account_recovery_request_id o = Some rid ->
  (exists t, message_for cfg t c m) -> recovery_link cfg db (do_user_id o) rid m.
Proof.
  intros Haes Hc Hcar Hrid [t (Hel & profile & recipient & raw & Hp & Hre & Hde & ->)].
  destruct (Hcar rid Hrid) as (Hact & Hev & rq & nonce & token & Hrq & Huser & Hdig & Hpay).
  unfold claim_of in Hc. cbn [fst snd lease_outbox set_outbox do_user_id do_action_token_id do_account_recovery_request_id
    do_event_type do_payload_ciphertext do_payload_key_version do_attempt_count] in Hc.
  apply bind_Some in Hc as (user & Hu & [= <-]). rewrite Hact Hrid Hev in Hel, Hp, Hre, Hde |- *. cbn [mbind option_bind] in Hel.
  rewrite Hrq in Hel. apply (eligible_recovery _ t rid) in Hel as (H1 & H2 & H3); [|done..].
  cbn [dc_user_status dc_account_recovery_state dc_account_recovery_revoked_at] in H1, H2, H3. cbn in H2, H3. injection H2 as H2.
  cbn [dc_event_type] in Hp. rewrite recovery_profile in Hp. injection Hp as <-.
  cbn [dc_recipient_email] in Hre. rewrite recovery_recipient // in Hre. apply fmap_Some in Hre as ([eid e] & He & ->). apply find_row_Some in He as [He Hv].
  unfold decrypt_payload in Hde. cbn [dc_action_token_id dc_account_recovery_request_id dc_payload_ciphertext
    dc_payload_key_version dc_outbox_id dc_user_id ep_purpose] in Hde.
  apply (payload_round_trip _ _ _ _ _ _ _ _ _ Haes Hpay) in Hde as ->.
  exists user, rq, token, eid, e. by split_and!.
Qed.

(** The messages of a recovery: whatever ran before, every message a run of the dispatcher hands over is for a claimable
    entry of the outbox, and when the entry is a recovery's it is the link of its pending request: sent to the verified
    recovery address of the active account, with the token the digest of the request was made from. *)
Theorem recovery_link_carries_its_token cfg now ids script ops db r s' m :
  (forall key nonce data aad, aesgcm_decrypt key nonce (aesgcm_encrypt key nonce data aad) aad = Some data) ->
  recoveries_tied db -> outbox_wf db ->
  let before := delivery_run ops db in
  dispatch_once cfg now ids script {| ds_db := before; ds_sent := [] |} = (r, s') -> m ∈ ds_sent s' ->
  exists k o, id_outbox before !! k = Some o /\ claimable_entry now (cf_lease_timeout cfg) o = true /\
    me_idempotency_key m = delivery_key k /\
    forall rid, do_account_recovery_request_id o = Some rid -> recovery_link cfg before (do_user_id o) rid m.
Proof.
  intros Haes Ht Hw before Hd Hm. apply (run_tied ops) in Ht. apply (run_outbox_wf ops) in Hw. fold before in Ht, Hw.
  apply dispatch_once_cases in Hd as [[-> _]|(s1 & acc & sent & Hs1 & _ & _ & [_ (ms & Hms & Hsent) Hsub _])]; [by apply elem_of_nil in Hm| |done].
  cbn [ds_db ds_sent] in *. rewrite Hms Hs1 app_nil_r -elem_of_reverse in Hm.
  apply list_elem_of_lookup in Hm as [i Hi]. destruct (Forall2_lookup_r _ _ _ _ _ Hsent Hi) as (c & Hc & t & Hmf).
  apply list_elem_of_lookup_2, (sublist_subseteq _ _ Hsub), batch_claims_elem in Hc as (o & j & Ho & Hcl & Hc).
  exists (dc_outbox_id c), o. split_and!; [done..|exact (message_key _ _ _ _ Hmf)|]. intros rid Hrid.
  exact (recovery_message _ _ _ _ _ _ _ _ _ Haes Hc (Ht _ _ Ho) Hrid (ex_intro _ t Hmf)).
Qed.
End DeliveryProps.

(** ** A concrete history

    The identity of [IdentityProps], with its toy primitives, asks for a recovery; dispatchers claim its message. *)

#[local] Existing Instance ex_primitives.
#[local] Existing Instance Q_float.
#[local] Instance ex_delivery_sha : Sha256 := fun _ => "8000".
#[local] Instance ex_timedelta : TimedeltaOf Q := fun q => Qfloor (q * inject_Z 1000000).

Definition ex_start : delivery_op := DlIdentity (IdRecoveryStart default_recovery_policy (ex_at 3) ex_recovery_draws "R@b.tn").
Definition ex_waiting : IdentityDb := delivery_run [ex_start] ex_identity.
Definition ex_claim (minute : Z) (claim_id : UUID) : delivery_op := DlClaim (ex_at minute) (minutes 2) 10 (fun _ => claim_id).
Definition ex_claimed : IdentityDb := delivery_run [ex_claim 4 "cl1"] ex_waiting.
Definition ex_config : DeliveryDispatcherConfig :=
  {| cf_public_base_url := "https://pmk.tn"; cf_batch_size := 10; cf_lease_timeout := minutes 2; cf_max_attempts := 3;
     cf_retry_base := seconds 30; cf_retry_max := minutes 60 |}.
Definition ex_script (outcome : SendOutcome) (n : nat) : ClaimScript :=
  {| cs_now := ex_at 4; cs_outcome := outcome; cs_others := [ex_claim 5 "cl2"]; cs_end := ex_at 5 |}.
Definition ex_dispatch (outcome : SendOutcome) : res DeliveryDispatchResult * DispatchState :=
  dispatch_once ex_config (ex_at 4) (fun _ => "cl1") (ex_script outcome) {| ds_db := ex_waiting; ds_sent := [] |}.

Definition ex_result (delivered retry dead stale : Z) : DeliveryDispatchResult :=
  add_results {| dp_claimed := 1; dp_delivered := 0; dp_retry_scheduled := 0; dp_dead_lettered := 0; dp_stale_finalization := 0 |}
    (one_of delivered retry dead stale).
(** Accepted, refused for now, refused for good; and the link that was sent. *)
Example ex_dispatches :
  (ex_dispatch SendAccepted).1 = Ok (ex_result 1 0 0 0) /\
  (ex_dispatch (SendRefused "provider_unavailable" true)).1 = Ok (ex_result 0 1 0 0) /\
  (ex_dispatch (SendRefused "recipient_rejected" false)).1 = Ok (ex_result 0 0 1 0) /\
  map me_verification_url (ds_sent (ex_dispatch SendAccepted).2) =
    ["https://pmk.tn/auth/account-recovery/verify?token=vt&request_id=q1"] /\
  map me_recipient (ds_sent (ex_dispatch SendAccepted).2) = ["r@b.tn"].
Proof. split_and!; by vm_compute. Qed.

Lemma ex_outbox_wf : outbox_wf ex_identity.
Proof. intros k o [=]. Qed.
Lemma ex_waiting_wf : outbox_wf ex_waiting.
Proof. exact (run_outbox_wf [ex_start] ex_identity ex_outbox_wf). Qed.
Lemma ex_tied : recoveries_tied ex_identity.
Proof. intros k o [=]. Qed.
Lemma ex_aes key nonce data aad : aesgcm_decrypt key nonce (aesgcm_encrypt key nonce data aad) aad = Some data.
Proof.
  change (Some (take (length (data ++ replicate 16 0) - 16) (data ++ replicate 16 0)) = Some data).
  by rewrite length_app length_replicate Nat.add_sub take_app_length.
Qed.

Lemma entries_keep_their_message_witness :
  outbox_wf (delivery_run [ex_claim 4 "cl1"; DlDelivered "x1" "cl1" (ex_at 5)] ex_waiting) /\
  forall k o, id_outbox ex_waiting !! k = Some o ->
    exists o', id_outbox (delivery_run [ex_claim 4 "cl1"; DlDelivered "x1" "cl1" (ex_at 5)] ex_waiting) !! k = Some o' /\
      entry_moved o o'.
Proof. exact (entries_keep_their_message [ex_claim 4 "cl1"; DlDelivered "x1" "cl1" (ex_at 5)] ex_waiting ex_waiting_wf). Defined.

Definition ex_entry (attempts : Z) (claim : option (UUID * datetime)) : AuthDeliveryOutbox :=
  {| do_user_id := "u1"; do_action_token_id := None; do_account_recovery_request_id := Some "q1";
     do_event_type := "account_recovery_verification"; do_payload_ciphertext := replicate 12 0 ++ [118; 116] ++ replicate 16 0; do_payload_key_version := "k1";
     do_available_at := ex_at 3; do_attempt_count := attempts; do_claim_id := fst <$> claim; do_claimed_at := snd <$> claim;
     do_delivered_at := None; do_dead_lettered_at := None; do_last_error_code := None; do_created_at := ex_at 3 |}.
(** The lease of the first dispatcher ran out. *)
Definition ex_reclaimed : IdentityDb := delivery_run [ex_claim 7 "cl2"] ex_claimed.
Lemma ex_entries :
  id_outbox ex_claimed !! "x1" = Some (ex_entry 1 (Some ("cl1", ex_at 4))) /\
  id_outbox ex_reclaimed !! "x1" = Some (ex_entry 2 (Some ("cl2", ex_at 7))) /\ identity_constraints ex_claimed = Ok tt.
Proof. split_and!; by vm_compute. Qed.

Lemma lost_claim_is_fenced_witness :
  let after := delivery_run [DlDelivered "x1" "cl2" (ex_at 8); ex_claim 9 "cl3"] ex_reclaimed in
  (mark_delivered "x1" "cl1" (ex_at 9) after).2 = after /\ (mark_delivered "x1" "cl1" (ex_at 9) after).1 <> Ok true /\
  (mark_failed "x1" "cl1" (ex_at 9) "provider_unexpected" None after).2 = after /\
  (mark_failed "x1" "cl1" (ex_at 9) "provider_unexpected" None after).1 <> Ok true.
Proof.
  apply (lost_claim_is_fenced [DlDelivered "x1" "cl2" (ex_at 8); ex_claim 9 "cl3"] ex_reclaimed "x1" "cl1"
           (ex_entry 2 (Some ("cl2", ex_at 7))) (ex_at 9) (ex_at 9) "provider_unexpected" None (proj1 (proj2 ex_entries))); [done|].
  intros p [->|[->|?%elem_of_nil]%elem_of_cons]%elem_of_cons; [done|by intros [? ?]|done].
Defined.

Lemma running_lease_is_exclusive_witness :
  let after := delivery_run [ex_claim 5 "cl2"; DlDelivered "x1" "cl2" (ex_at 5); DlRedrive (ex_at 5) "x1"] ex_claimed in
  let o := ex_entry 1 (Some ("cl1", ex_at 4)) in
  id_outbox after !! "x1" = Some o /\
  mark_delivered "x1" "cl1" (ex_at 5) after = (Ok true, with_outbox (<["x1" := deliver_outbox (ex_at 5) o]>) after) /\
  mark_failed "x1" "cl1" (ex_at 6) "provider_unavailable" None after =
    (Ok true, with_outbox (<["x1" := fail_outbox (ex_at 6) "provider_unavailable" None o]>) after).
Proof.
  apply (running_lease_is_exclusive [ex_claim 5 "cl2"; DlDelivered "x1" "cl2" (ex_at 5); DlRedrive (ex_at 5) "x1"] ex_claimed
           "x1" "cl1" (ex_at 4) (ex_entry 1 (Some ("cl1", ex_at 4))) (ex_at 5) (ex_at 6) "provider_unavailable" None
           (proj1 ex_entries) eq_refl eq_refl eq_refl (proj2 (proj2 ex_entries))).
  intros p [->|[->|[->|?%elem_of_nil]%elem_of_cons]%elem_of_cons]%elem_of_cons; [by vm_compute|by intros [=]|done|done].
Defined.

Lemma ex_dispatch_eq : ex_dispatch SendAccepted = (Ok (ex_result 1 0 0 0), (ex_dispatch SendAccepted).2).
Proof. rewrite -(proj1 ex_dispatches). by destruct (ex_dispatch SendAccepted). Qed.
Lemma dispatch_accounts_for_its_batch_witness :
  exists ms delivered, ds_sent (ex_dispatch SendAccepted).2 = ms ++ [] /\ NoDup (me_idempotency_key <$> ms) /\
    NoDup delivered /\ 1 = Z.of_nat (length delivered) /\
    forall k, k ∈ delivered -> delivery_key k ∈ (me_idempotency_key <$> ms) /\
      exists o o', id_outbox ex_waiting !! k = Some o /\ claimable_entry (ex_at 4) (minutes 2) o = true /\
        id_outbox (ds_db (ex_dispatch SendAccepted).2) !! k = Some o' /\ is_Some (do_delivered_at o').
Proof.
  exact (proj2 (proj2 (proj2 (proj2 (proj2 (dispatch_accounts_for_its_batch ex_config tt (ex_at 4) (fun _ => "cl1")
           (ex_script SendAccepted) {| ds_db := ex_waiting; ds_sent := [] |} (ex_result 1 0 0 0) (ex_dispatch SendAccepted).2
           eq_refl ex_waiting_wf ex_dispatch_eq)))))).
Defined.

Definition ex_message : DeliveryMessage :=
  {| me_template := "account_recovery_verification"; me_recipient := "r@b.tn";
     me_verification_url := "https://pmk.tn/auth/account-recovery/verify?token=vt&request_id=q1";
     me_idempotency_key := "pmk-auth-delivery-v1:x1" |}.
Lemma ex_sent : ds_sent (ex_dispatch SendAccepted).2 = [ex_message].
Proof. by vm_compute. Qed.
Lemma recovery_link_carries_its_token_witness :
  exists k o, id_outbox ex_waiting !! k = Some o /\ claimable_entry (ex_at 4) (minutes 2) o = true /\
    me_idempotency_key ex_message = delivery_key k /\
    forall rid, do_account_recovery_request_id o = Some rid -> recovery_link ex_config ex_waiting (do_user_id o) rid ex_message.
Proof.
  apply (recovery_link_carries_its_token ex_config (ex_at 4) (fun _ => "cl1") (ex_script SendAccepted) [ex_start] ex_identity
           (Ok (ex_result 1 0 0 0)) (ex_dispatch SendAccepted).2 ex_message ex_aes ex_tied ex_outbox_wf ex_dispatch_eq).
  rewrite ex_sent. by left.
Defined.
